(* ===== verification/_CoqProject ===== *)
-Q . S2P
Prelude.v
Decimals.v
Schema.v
JsNumber.v
Access.v
Ledger.v
WithdrawalFees.v
Channels.v
Operations.v
OperationEffects.v
OperationCreation.v
Accounts.v
Samples.v
AccountProperties.v
OperationProperties.v
TronAddress.v
EdgeAuth.v
RoutePolicy.v
EdgeWorker.v
CoreGateway.v
CoreAnswers.v
EdgeSamples.v
GatewayProperties.v
HomeProperties.v
D1Gateway.v
D1Properties.v
ClientAccess.v
ClientAccessProperties.v
ClientApi.v
AuthApi.v
AuthSession.v
AuthSessionProperties.v
Beneficiaries.v
Rates.v
CryptoWallets.v
CryptoProperties.v
WithdrawalFeeProperties.v
ConfigurationProperties.v
Customers.v
VirtualAccounts.v
CustomerRecords.v
ClientFinance.v
ClientFees.v
ClientReports.v
Registration.v
RegistrationProperties.v
OverviewAnalytics.v
AssetRates.v
BalanceTexts.v
BalanceProperties.v
VirtualAccountProperties.v
CustomerProperties.v
EmailWorker.v
EmailTemplates.v
LetterProperties.v
EmailProperties.v
WithdrawalWorker.v
WithdrawalWorkerEffects.v
WithdrawalWorkerProperties.v
DepositWorker.v
CregisAccounting.v
Controllers.v
ControllerProperties.v
DepositProperties.v
Reconciliation.v
Triage.v
ReconciliationProperties.v
CoreReads.v
ClientViews.v
PortalCustomer.v
PortalCustomerProperties.v
CoreReadsProperties.v
UsdtInbound.v
Evolution.v
HandlerHistory.v
WorkerHistory.v
System.v
