(* ===== verification/Prelude.v ===== *)
(** * A verification of the banking core of neobank

    ** What is verified

    The NestJS server under [src/server/src] keeps the books of a digital bank:
    customers with fiat accounts and USDT wallets, operations (deposits, payouts,
    transfers, OTC trades, adjustments) that an administrator decides, the fees
    they carry, virtual accounts with an opening fee, and the accounting of the
    custody service (Cregis), whose deposits and withdrawals two workers turn into
    ledger entries.  Around the ledger stand the forms that configure it (funding
    channels, payees, rate policies), the edge workers that let requests in
    ([src/worker-web], [src/worker-d1-gateway]), the delivery of its e-mail, and the
    rules by which the web client ([src/src]) asks and shows.  This development
    translates them into Rocq functions, those that keep the books over one database
    state, and proves what they do to the money and who may ask for it.

    ** How the parts fit together

    All services share one PostgreSQL database through Prisma.  A handler is a
    value of [M Db A] (this file): a function from the database to an exception or
    a result with the new database.  [inl e] is a thrown exception and, as the
    services wrap their writes in [$transaction], carries no state: everything was
    rolled back.  The HTTP handlers, the workers and the tools call each other only
    through rows: a crypto withdrawal creates an operation, the operation handlers
    refuse to touch it, the custody service enqueues rows, the workers claim them.

    - [Decimals]: decimal arithmetic, a parameter with its laws.
    - [Schema]: the rows, the state [Db], the Prisma reads and writes with the
      constraints and the trigger of the migrations
      ([server/prisma/schema.prisma], [server/prisma/migrations],
      [migrations-postgres]).
    - [Access]: tenant checks, supported assets, freshness of market rates
      ([common/tenant-access.ts], [supported-assets.ts],
      [rates/market-rate-freshness.ts]).
    - [Ledger]: freezing, releasing and consuming balances, and the journal
      ([operations/operations.service.ts], the private methods at its end).
    - [WithdrawalFees]: the fee rules and their resolution
      ([withdrawal-fees/withdrawal-fees.service.ts]).
    - [Operations]: [OperationsService]: create, createQuote, createCustomerPayout,
      confirmQuote, approve, reject, execute ([operations/operations.service.ts]).
    - [TronAddress], [CryptoWallets]: [CryptoWalletsService]
      ([crypto-wallets/tron-address.ts], [crypto-wallets/crypto-wallets.service.ts]).
    - [Customers], [VirtualAccounts]: [CustomersService], the e-mail outbox and
      the import of custody customers ([customers/customers.service.ts],
      [customers/neobank-customer-sync.ts], [email/email-outbox.service.ts]).
    - [WithdrawalWorker], [DepositWorker]: the accounting workers
      ([deposit-accounting/withdrawal-accounting.worker.ts],
      [deposit-accounting/deposit-accounting.worker.ts]).
    - [Reconciliation], [Triage]: the two command line tools with their policy,
      and the reconciliation report ([deposit-accounting/withdrawal-reconciliation.ts],
      [deposit-reconciliation.ts], [withdrawal-reconciliation-policy.ts],
      [ledger/ledger.controller.ts], [ledger/reconciliation-triage.ts]).
    - [CregisAccounting]: the endpoint through which the custody service has one
      movement accounted at once ([deposit-accounting/cregis-accounting.service.ts]
      and its controller, [financial-accounting-mode.ts]).
    - [Accounts]: the platform's own accounts, a customer's accounts and asset
      summary ([accounts/accounts.service.ts], [accounts/system-ledger-accounts.ts]).
    - [Channels], [Beneficiaries], [Rates]: the controllers of the same names
      ([channels/channels.controller.ts], [beneficiaries/beneficiaries.controller.ts],
      [rates/rates.controller.ts]).
    - [EmailWorker]: the delivery of the outbox ([email/email-delivery.worker.ts],
      [email/zoho-mail.client.ts]).
    - [EdgeAuth], [RoutePolicy]: which requests reach the handlers, under which
      identity, and what a customer may see of the answers
      ([security/edge-auth.ts], [worker-web/customer-core-route-policy.ts]); pure
      functions, with their properties in the same files.
    - [JsNumber]: JavaScript numbers, their parsing and [toFixed].
    - [EdgeWorker], [CoreGateway], [CoreAnswers]: the edge worker: rate limits, sessions,
      the signed proxies to the authentication API and to the core, the market prices
      put into conversions, the live valuation and the home page
      ([worker-web/index.ts]); [GatewayProperties] and [HomeProperties] prove about
      them, with the samples of [EdgeSamples].
    - [D1Gateway], [D1Properties]: the worker in front of the authentication service's
      database ([worker-d1-gateway/index.ts]).
    - [EmailTemplates], [LetterProperties]: the letters and the links of recovery
      ([email/email-templates.ts], [email/zoho-mail.client.ts]).
    - [UsdtInbound]: the report of inbound USDT ([usdt-inbound/usdt-inbound.service.ts]).
    - [CustomerRecords]: creation and reads of customers and the list of fee rules
      ([customers/customers.service.ts], [withdrawal-fees/withdrawal-fees.service.ts]).
    - [ClientAccess], [ClientApi], [ClientFinance]: the web client's guards and return
      addresses ([src/src/auth]), its requests ([features/finance/core-api.ts]) and the
      rules its pages show money by ([features/finance]), with their properties in
      [ClientAccessProperties], [ClientApi] and [ClientFees]; the last sets the fee the
      portal shows beside the one the core charges.  [ClientReports] is the dashboard's
      reconciliation snapshot ([features/finance/core-reconciliation.ts]),
      [OverviewAnalytics] its overview ([features/finance/overview-analytics.ts]) and
      [AssetRates] the exchange rates the browser remembers for the time the core has no
      live ones ([features/finance/asset-summary-rates.ts]); both carry their properties.
    - [AuthApi], [AuthSession], [AuthSessionProperties]: the client's calls of the
      authentication API ([auth/context/jwt/auth-api.ts]) and the session of a page
      ([auth/context/jwt/auth-provider.tsx], [auth/csrf-token.ts]): its reducer, and its
      logins, refreshes and logouts as processes whose answers arrive in any order.
    - [Controllers], [ControllerProperties]: the start of the server and its routes, each
      with its guards, its identity and the call it makes of a service ([main.ts],
      [common/current-user.ts], the controllers, [app.module.ts]).
    - [CoreReads], [CoreReadsProperties]: the lists and reads of operations, wallets,
      transfers and journals, with their filters, and every route of the router that only
      reads as one function ([operations/operations.service.ts],
      [crypto-wallets/crypto-wallets.service.ts], [ledger/ledger.controller.ts]).
    - [BalanceTexts], [BalanceProperties]: the balances on a customer's page, added as
      texts of digits ([pages/dashboard/customer-detail.tsx]).  [ClientViews]: customers
      and movements as the pages read them off custody rows
      ([features/customers/neobank-customer.ts] and three pages).  [PortalCustomer],
      [PortalCustomerProperties]: the state the portal's pages share and its refreshes
      ([features/finance/portal-customer-context.tsx]).
    - [Registration], [RegistrationProperties]: the registration of a customer, a form of
      several steps whose requests are processes
      ([sections/auth/jwt/jwt-register-view.tsx]).
    - [System]: the handlers, workers and tools as the steps of one transition system
      ([app.module.ts]).

    The names of the source are kept where Rocq allows it ([approve],
    [consumeFrozen], [processBatch]); a handler that two services both name gets
    its row in its name ([approveTransfer], [approve_customer],
    [approveVirtualAccountRequest]).  A column [x] of the model [Account] is the
    projection [acc_x]; [op_], [tr_], [wal_], [cust_], [chan_], [ben_], [rate_],
    [mail_], [va_], [rule_], [wa_], [da_], [cx_], [cd_] are the other tables; DTOs
    have prefixes of their own ([cc_], [uc_], [cb_], [mr_], [ci_]), and so have the
    requests and answers of the edge ([rq_], [up_], [us_], [gq_]), its configuration and
    session ([we_], [su_]) and the client's records ([au_], [aq_], [ar_], [ma_], [rv_],
    [wf_], [wp_], [cw_], [cy_]).

    ** What the theorems show

    - Moves of money.  [OperationEffects], [OperationCreation] and
      [WithdrawalWorkerEffects] refine each posting to what it does to the
      available and frozen balance and to the journal position of every account;
      [OperationProperties], [CryptoProperties], [VirtualAccountProperties],
      [WithdrawalWorkerProperties] and [DepositProperties] put them together into
      the life cycles: what a reservation takes, what completion consumes and
      posts, and that rejection, release, cancellation and waiver give back
      exactly what was reserved.
    - Exactly once.  Idempotency keys, claims of queue rows, transaction ids and
      optimistic versions: a quote is confirmed once, a replay creates nothing, a
      deposit is credited once, a settled withdrawal is never released, a waiver or
      a decision is final, a claimed row is not claimed again.
    - Authority.  Settlement needs an active administrator of the customer's
      organisation, and moves that customer's account and wallet alone; a release by hand needs its approval; a request past the edge
      was signed within a minute by the holder of the secret, and a customer's
      session reaches that customer's routes only.  At the edge: which requests reach
      the core and under whose identity the core then sees them; conversions carry the
      market's price, not the client's; a batch changes the authentication database only
      if it is signed, recent and made of reads and listed writes.  In the client: a login
      returns within the site, to a page of its role, the guards settle, only the latest
      of overlapping session requests signs a user in, and a page that is shown can write.
      An application for an account is sent complete, and two sent under one key are one.
      From the edge through the router to a handler, a customer reaches the handlers meant
      for customers, for itself, and an administrator those it has the permission of.
      The answer to a customer's read holds rows of that customer only, the answer to an
      administrator's rows of its organisation, and the list of approvals is exactly the
      operations of the organisation that a decision can still be made on.
    - Failures.  A failed phase of a worker leaves the ledger as it was and its row
      retryable or in exception; attempts are bounded, whatever runs between them
      ([System.failures_bounded]), and a row in exception stays there; retries are transparent; the
      client sends a write once.
    - Pricing.  Fee rules price what their text says, the customer's rule first;
      a pair of currencies has one active rate policy, an active virtual account
      channel is complete, a version of its opening fee is one price.  The fee the portal
      shows is the fee charged, unless the customer has one of its own.
    - What is shown.  The asset summary adds up exactly the active balances of the
      customer it is of; what a customer gets of the core's payloads is redacted at every
      depth, but for the asset summary and the rates, which the edge computes itself; the reply to the custody
      service says how its movement stands in the queue; the home page holds the
      session's customer only, its valuation is that of the custody wallets at live
      prices; the report of inbound USDT lists and counts exactly the organisation's
      movements the filters ask for; a letter's markup is the template's; the overview's
      funds, trends and queues are the plain sums and counts of their rows, and a rate is
      remembered only if it was live and positive; the digits of a customer's page are those
      of the exact sums, and what is shown reads back; a refresh of the portal that fails
      keeps what was shown, and the effect that refreshes it settles.
    - Delivery.  A letter is tried a bounded number of times and then is final.
    - Reconciliation.  The snapshot's checks are the plain sums of the day's lines; the
      report lists exactly the movements the core does not
      account for, and what it offers to release the tools can release.
    - The whole system.  [Evolution], [HandlerHistory] and [WorkerHistory] show
      that every handler extends the history it finds; [System] concludes that in
      every reachable state the tables satisfy their constraints and the trial
      balance of each currency is zero.
    - Where the code does not do what it means to, a theorem says what it does:
      a debit adjustment leaves its fee frozen, two interleaved rejections release
      twice, the genuine id of a TRON transaction is refused.

    ** Numbers, texts and bounds

    - Amounts are decimal.js values at the boundary (parameter [DecimalOps], laws
      in [DecimalLaws]) and integers of 10^-8 units in [numeric(36,8)] columns, with
      the bound 10^36 checked at each write.  Minor units of fees are [BIGINT]s.
    - Instants are milliseconds, and a handler takes the clock once.  Generated
      ids and UUIDs are arguments.  Parsing and formatting of dates is the
      parameter [JsDates].  SHA-256 is the parameter [sha256].
    - Texts are byte strings; trimming, case and length are those of ASCII.
    - JSON columns are association lists of string members, the only ones the code
      reads back; [->>] of anything else is absent.  JSON values at the edge are trees
      whose numbers are integers; [JSON.parse] and the text of a value are parameters,
      as are HMAC, [new URL] and [URLSearchParams].
    - What the framework promises is a class with its laws: the router ([Router]), the
      parser of query strings ([QueryParser]), dates ([JsDates]), the order of listed rows
      ([RowOrder]), the JSON of the remembered rates ([RateJson]); what the window of a page
      promises to the API calls is [SessionWindow].  What a process of the client runs
      between two of its waits is one step, as in JavaScript.
    - JavaScript numbers are binary64 as the Standard Library specifies it; the text
      [toFixed] leaves to [Number::toString] (from 10^21) is the parameter [JsNumberText].
    - Recursion is structural but for the digits of a number in base 16
      ([TronAddress.hex_digits]), whose fuel is the number of bits plus one, enough
      by [hex_digits_value], the decoding of percent signs, whose fuel is the length of
      the text, enough by [decode_percent_enough], and the places of a sample decimal
      ([Decimals.places_from]).  Retry loops run the code's 3 attempts
      ([withSerializableRetry]), a queue row fails at its 8th attempt
      ([MAX_ATTEMPTS]), a batch is 10 rows, a report list 100.

    ** Concurrency and faults

    Transactions are atomic steps; the serialization failure P2034 of a
    serializable one is an argument, taken before its first write.  Where the code
    runs at the default isolation level, [CryptoProperties] splits a handler at its
    reads and interleaves two.  The workers take as arguments which rows other
    workers hold locked and what happens to each transaction; the custody service
    may change its own tables between any two steps ([System.elsewhere]).
    Statements that the code runs outside a transaction (the import of customers)
    commit one by one, and [syncNeobankCustomers] returns the state reached with
    the result; inside a request for a virtual account a failing import is taken to
    leave the state unchanged, and a failure after the import to undo it, where the
    source keeps what the import committed.  The currency codes that
    the asset summary sorts by [localeCompare] are compared as the upper-case texts they are.

    ** Not modelled

    The React views and the drawing of QR codes; the
    scripts that seed a database; the static assets of the edge; the Go service, another language, whose writes to the shared
    tables are [System.elsewhere]; what SQLite does with a statement of the D1 gateway;
    logging and polling loops, the order of the rows of a list unless the
    code sorts them itself, the journal lines in the answer of one account,
    and the class-validator decorators: inputs are those the DTOs let through; the
    framework's parsers of bodies, CORS and helmet; the WebAuthn ceremonies of the
    browser, which a process of [AuthApi] waits for as it does for the network.  The rows of the raw SQL queries of the import are an argument of it;
    the order columns [created_at] and [received_at] of the custody tables are
    arguments [created], [received] and [rank] of the functions that sort by them. *)
From stdpp Require Export base list strings gmap fin_maps pretty.
From Stdlib Require Export ZArith Lia.
From Stdlib Require Import Ascii.

#[global] Open Scope Z_scope.

(** ** Exceptions

    The values thrown by the modelled code: the NestJS HTTP exceptions with
    their code, a Prisma known-request error with its code and the columns in
    [meta.target], a PostgreSQL [CHECK] or trigger failure, a plain
    [new Error(message)], an argument error of the decimal library, and the
    accounting workers' [accountingError(code, retryable)]. *)
Inductive exn :=
| BadRequest (code : string)
| Conflict (code : string)
| Forbidden (code : string)
| NotFound (code : string)
| ServiceUnavailable (code : string) (status : string)
| PrismaKnown (code : string) (target : list string)
| DbFailure (message : string)
| DecimalError
| PlainError (message : string)
| AccountingError (code : string) (retryable : bool).

#[global] Instance exn_eq_dec : EqDecision exn.
Proof. solve_decision. Defined.

(** ** The state-and-exception monad

    A handler takes the database state and either throws or returns a value
    with the new state.  A thrown exception carries no state: the handler body
    runs inside [$transaction], so its effects are rolled back. *)
Definition M (S A : Type) : Type := S → exn + (A * S).

Definition ret {S A} (a : A) : M S A := λ s, inr (a, s).
Definition bind {S A B} (m : M S A) (f : A → M S B) : M S B :=
  λ s, match m s with inl e => inl e | inr (a, s') => f a s' end.
Definition throw {S A} (e : exn) : M S A := λ _, inl e.
Definition gets {S A} (f : S → A) : M S A := λ s, inr (f s, s).
Definition modify {S} (f : S → S) : M S unit := λ s, inr (tt, f s).

(** [if (b) throw e;] *)
Definition throw_if {S} (b : bool) (e : exn) : M S unit :=
  if b then throw e else ret tt.

(** [if (!x) throw e;] for a value that may be [null] or [undefined]. *)
Definition require {S A} (o : option A) (e : exn) : M S A :=
  match o with Some a => ret a | None => throw e end.

(** [try { m } catch (e) { h e }] around a whole transaction: the handler runs
    in the state before it. *)
Definition try_catch {S A} (m : M S A) (h : exn → M S A) : M S A :=
  λ s, match m s with inl e => h e s | inr r => inr r end.

(** [$transaction(m)]: [fault] is the error the database reports instead of a
    commit (a serialization failure), when it does. *)
Definition transaction {S A} (fault : option exn) (m : M S A) : M S A :=
  match fault with Some e => throw e | None => m end.

(** Code after a committed transaction: what it throws leaves the commit in place. *)
Definition after_commit {S A B} (m : M S A) (k : A → exn + B) : M S (exn + B) :=
  bind m (λ a, ret (k a)).

Declare Scope monad_scope.
Delimit Scope monad_scope with monad.
Notation "'let!' x ':=' m 'in' k" := (bind m (λ x, k))
  (at level 10, x name, m at level 100, k at level 200) : monad_scope.
Notation "'let!' ' p ':=' m 'in' k" := (bind m (λ x, match x with p => k end))
  (at level 10, p pattern, m at level 100, k at level 200) : monad_scope.
Notation "'do!' m ';' k" := (bind m (λ _, k))
  (at level 10, m at level 100, k at level 200) : monad_scope.
#[global] Open Scope monad_scope.

(** [for (const x of l) body(x)], collecting the results. *)
Fixpoint for_each {S A B} (l : list A) (body : A → M S B) : M S (list B) :=
  match l with
  | [] => ret []
  | x :: l' => let! y := body x in let! ys := for_each l' body in ret (y :: ys)
  end.

(** *** Inversion of successful runs *)
Section monad_laws.
Context {S A B : Type}.
Implicit Types (s : S).

Lemma ret_ok (a b : A) s s' : ret a s = inr (b, s') ↔ b = a ∧ s' = s.
Proof. unfold ret. naive_solver. Qed.

Lemma bind_ok (m : M S A) (f : A → M S B) s b s'' :
  bind m f s = inr (b, s'') ↔ ∃ a s', m s = inr (a, s') ∧ f a s' = inr (b, s'').
Proof.
  unfold bind. destruct (m s) as [e|[a s']]; [naive_solver|].
  split; [eauto|]. intros (?&?&[= -> ->]&?). done.
Qed.

Lemma throw_ok e s (r : A * S) : throw e s = inr r ↔ False.
Proof. unfold throw. naive_solver. Qed.

Lemma gets_ok (f : S → A) s a s' : gets f s = inr (a, s') ↔ a = f s ∧ s' = s.
Proof. unfold gets. naive_solver. Qed.

Lemma modify_ok (f : S → S) s u s' : modify f s = inr (u, s') ↔ s' = f s.
Proof. destruct u. unfold modify. naive_solver. Qed.

Lemma throw_if_ok b e s u s' : throw_if b e s = inr (u, s') ↔ b = false ∧ s' = s.
Proof. destruct u. unfold throw_if, throw, ret. destruct b; naive_solver. Qed.

Lemma require_ok (o : option A) e s a s' : require o e s = inr (a, s') ↔ o = Some a ∧ s' = s.
Proof. unfold require, throw, ret. destruct o; naive_solver. Qed.

Lemma transaction_ok fault (m : M S A) s r :
  transaction fault m s = inr r ↔ fault = None ∧ m s = inr r.
Proof. destruct fault; unfold transaction, throw; naive_solver. Qed.

Lemma try_catch_ok (m : M S A) h s r :
  try_catch m h s = inr r ↔ m s = inr r ∨ ∃ e, m s = inl e ∧ h e s = inr r.
Proof. unfold try_catch. destruct (m s); naive_solver. Qed.
End monad_laws.

(** One step of a run, forward: [run L] executes the head of the goal's run by [L],
    whose premises come first. *)
Lemma bind_run {S A B} (m : M S A) (f : A → M S B) s a s' :
  m s = inr (a, s') → bind m f s = f a s'.
Proof. unfold bind. by intros ->. Qed.
Lemma throw_if_run {S} b e (s : S) : b = false → throw_if b e s = inr (tt, s).
Proof. by intros ->. Qed.
Lemma gets_run {S A} (f : S → A) s : gets f s = inr (f s, s).
Proof. done. Qed.
Lemma require_run {S A} (o : option A) e (s : S) a : o = Some a → require o e s = inr (a, s).
Proof. by intros ->. Qed.
Tactic Notation "run" uconstr(L) := erewrite bind_run; cycle 1; [eapply L|].

Lemma bind_err {S A B} (m : M S A) (f : A → M S B) s e :
  bind m f s = inl e ↔ m s = inl e ∨ ∃ a s', m s = inr (a, s') ∧ f a s' = inl e.
Proof.
  unfold bind. destruct (m s) as [?|[a s']]; [naive_solver|].
  split; [eauto|]. intros [[=]|(?&?&[= -> ->]&?)]. done.
Qed.

(** [minv H] unfolds a successful run [H : m s = inr (b, s')] into the runs of
    its primitives, deciding every guard on the way; [minvs] does it for all
    hypotheses. *)
Ltac minv_step :=
  match goal with
  | H : ret _ _ = inr _ |- _ => apply ret_ok in H as [? ?]
  | H : bind _ _ _ = inr _ |- _ => apply bind_ok in H as (? & ? & ? & H)
  | H : throw _ _ = inr _ |- _ => apply throw_ok in H; destruct H
  | H : gets _ _ = inr _ |- _ => apply gets_ok in H as [? ?]
  | H : throw_if _ _ _ = inr _ |- _ => apply throw_if_ok in H as [? ?]
  | H : require _ _ _ = inr _ |- _ => apply require_ok in H as [? ?]
  | H : (if ?b then _ else _) ?s = inr _ |- _ => destruct b eqn:?
  | H : (match ?x with _ => _ end) ?s = inr _ |- _ => destruct x eqn:?
  | x : unit |- _ => destruct x
  | p : (_ * _)%type |- _ => destruct p
  | H : (_, _) = (_, _) |- _ => injection H as ? ?
  end; subst; simpl in *.
Ltac minvs := repeat minv_step.

(** *** Computations that do not look at the state *)
Definition stateless {S A} (m : M S A) : Prop := ∃ r : exn + A, ∀ s, m s = match r with inl e => inl e | inr a => inr (a, s) end.

Lemma stateless_ret {S A} (a : A) : stateless (ret (S:=S) a).
Proof. by exists (inr a). Qed.
Lemma stateless_throw {S A} e : stateless (throw (S:=S) (A:=A) e).
Proof. by exists (inl e). Qed.
Lemma stateless_throw_if {S} b e : stateless (throw_if (S:=S) b e).
Proof. destruct b; [by exists (inl e)|by exists (inr tt)]. Qed.
Lemma stateless_require {S A} (o : option A) e : stateless (require (S:=S) o e).
Proof. destruct o as [a|]; [by exists (inr a)|by exists (inl e)]. Qed.
Lemma stateless_bind {S A B} (m : M S A) (f : A → M S B) :
  stateless m → (∀ a, stateless (f a)) → stateless (bind m f).
Proof.
  intros [[e|a] Hm] Hf; [exists (inl e); intros s; unfold bind; by rewrite Hm|].
  destruct (Hf a) as [r Hr]. exists r. intros s. unfold bind. by rewrite Hm.
Qed.
Create HintDb stateless.
#[export] Hint Resolve stateless_ret stateless_throw stateless_throw_if stateless_require stateless_bind : stateless.

Lemma stateless_run {S A} (m : M S A) s a s1 : stateless m → m s = inr (a, s1) → s1 = s ∧ ∀ s', m s' = inr (a, s').
Proof. intros [[e|b] Hm]; rewrite Hm; [done|]. intros [= <- <-]. done. Qed.

(** [fwd L as p] replaces the hypothesis lemma [L] applies to by its conclusion. *)
Tactic Notation "fwd" uconstr(L) "as" simple_intropattern(p) :=
  match goal with H : _ = inr _ |- _ => apply L in H as p end.

(** ** Sums over a table *)
Section sum_map.
Context {K V : Type} `{Countable K}.
Implicit Types (f g : V → Z) (m : gmap K V).

(** Σ over the rows of a table of an integer-valued column. *)
Definition sum_map (f : V → Z) (m : gmap K V) : Z := map_fold (λ _ v acc, f v + acc) 0 m.

Lemma sum_map_empty f : sum_map f ∅ = 0.
Proof. apply map_fold_empty. Qed.

Lemma sum_map_insert_fresh f m k v :
  m !! k = None → sum_map f (<[k:=v]> m) = f v + sum_map f m.
Proof. intros Hk. unfold sum_map. rewrite map_fold_insert_L; [done| |done]. intros; lia. Qed.

Lemma sum_map_delete f m k v :
  m !! k = Some v → sum_map f (delete k m) = sum_map f m - f v.
Proof.
  intros Hk. rewrite <- (insert_delete_id m k v Hk) at 2.
  rewrite sum_map_insert_fresh by apply lookup_delete_eq. lia.
Qed.

Lemma sum_map_insert f m k v v' :
  m !! k = Some v → sum_map f (<[k:=v']> m) = sum_map f m - f v + f v'.
Proof.
  intros Hk. rewrite <- insert_delete_eq, sum_map_insert_fresh by apply lookup_delete_eq.
  rewrite (sum_map_delete f m k v Hk). lia.
Qed.

Lemma sum_map_ext f g m :
  (∀ k v, m !! k = Some v → f v = g v) → sum_map f m = sum_map g m.
Proof.
  induction m as [|k v m Hk IH] using map_ind; intros Hfg; [done|].
  rewrite !sum_map_insert_fresh, (Hfg k v) by (done || apply lookup_insert_eq).
  f_equal. apply IH. intros k' v' Hk'. apply (Hfg k'). rewrite lookup_insert_ne; congruence.
Qed.

(** Rewriting rows in a way the column does not see. *)
Lemma sum_map_mapped f (h : K → V → V) m : ∀ m',
  (∀ k, m' !! k = h k <$> m !! k) → (∀ k v, m !! k = Some v → f (h k v) = f v) →
  sum_map f m' = sum_map f m.
Proof.
  induction m as [|k v m Hk IH] using map_ind; intros m' Hm Hf.
  - assert (m' = ∅) as ->; [|done]. apply map_eq. intros k. by rewrite Hm, !lookup_empty.
  - assert (m' !! k = Some (h k v)) as Hk' by (by rewrite Hm, lookup_insert_eq).
    rewrite sum_map_insert_fresh by done.
    assert (sum_map f (delete k m') = sum_map f m) as <-.
    { apply IH.
      - intros j. destruct (decide (j = k)) as [->|]; [by rewrite lookup_delete_eq, Hk|].
        rewrite lookup_delete_ne, Hm, lookup_insert_ne by done. done.
      - intros j w Hj. apply Hf. rewrite lookup_insert_ne by congruence. done. }
    rewrite (sum_map_delete f m' k _ Hk'), (Hf k v) by apply lookup_insert_eq. lia.
Qed.

Lemma sum_map_nonneg f m :
  (∀ k v, m !! k = Some v → 0 ≤ f v) → 0 ≤ sum_map f m.
Proof.
  induction m as [|k v m Hk IH] using map_ind; intros Hf; [done|].
  rewrite sum_map_insert_fresh by done.
  assert (0 ≤ f v) by (apply (Hf k), lookup_insert_eq).
  assert (0 ≤ sum_map f m); [|lia].
  apply IH. intros k' v' Hk'. apply (Hf k'). rewrite lookup_insert_ne; congruence.
Qed.

(** One row of a sum of non-negative terms is at most the sum. *)
Lemma sum_map_lookup_le f m k v :
  (∀ k v, m !! k = Some v → 0 ≤ f v) → m !! k = Some v → f v ≤ sum_map f m.
Proof.
  intros Hf Hk. pose proof (sum_map_delete f m k v Hk) as Hd.
  assert (0 ≤ sum_map f (delete k m)); [|lia].
  apply sum_map_nonneg. intros k' v' Hk'. apply (Hf k').
  by apply lookup_delete_Some in Hk' as [_ ?].
Qed.
End sum_map.

(** ** First row satisfying a predicate

    [findFirst] without [orderBy]: some matching row, in the table's own
    order.  The results below are the only facts used of it, so nothing
    depends on which of several matching rows PostgreSQL returns first. *)
Section find_first.
Context {K V : Type} `{Countable K}.

Definition find_first (p : K * V → bool) (m : gmap K V) : option (K * V) :=
  List.find p (map_to_list m).

Lemma find_first_Some p m k v :
  find_first p m = Some (k, v) → m !! k = Some v ∧ p (k, v) = true.
Proof.
  intros [Hin Hp]%List.find_some. split; [|done].
  by apply elem_of_map_to_list, list_elem_of_In.
Qed.

Lemma find_first_None p m k v :
  find_first p m = None → m !! k = Some v → p (k, v) = false.
Proof.
  intros Hf Hk. eapply List.find_none; [apply Hf|].
  by apply list_elem_of_In, elem_of_map_to_list.
Qed.

(** The row just inserted is found when no earlier row matches. *)
Lemma find_first_inserted p m k v :
  find_first p m = None → p (k, v) = true → find_first p (<[k := v]> m) = Some (k, v).
Proof.
  intros Hn Hp. destruct (find_first p (<[k := v]> m)) as [[j w]|] eqn:E.
  - apply find_first_Some in E as [Hj Hpj]. destruct (decide (j = k)) as [->|Hne].
    + rewrite lookup_insert_eq in Hj. by simplify_eq.
    + rewrite lookup_insert_ne in Hj by done. by rewrite (find_first_None _ _ _ _ Hn Hj) in Hpj.
  - pose proof (find_first_None _ _ _ _ E (lookup_insert_eq _ _ _)). congruence.
Qed.

(** [findMany]: the matching rows. *)
Definition find_many (p : K * V → bool) (m : gmap K V) : list (K * V) :=
  List.filter p (map_to_list m).

Lemma find_many_elem p m k v :
  (k, v) ∈ find_many p m ↔ m !! k = Some v ∧ p (k, v) = true.
Proof.
  unfold find_many. rewrite list_elem_of_In, List.filter_In, <- list_elem_of_In.
  by rewrite elem_of_map_to_list.
Qed.

Lemma find_many_NoDup p m : NoDup (find_many p m).
Proof. apply NoDup_ListNoDup, List.NoDup_filter, NoDup_ListNoDup, NoDup_map_to_list. Qed.
End find_first.

(** ** JavaScript strings

    Strings are sequences of 8-bit characters; [trim] and the case mappings
    act on ASCII. *)
Definition is_space (c : ascii) : bool :=
  let n := nat_of_ascii c in
  (Nat.leb 9 n && Nat.leb n 13) || Nat.eqb n 32.

Fixpoint drop_spaces (l : list ascii) : list ascii :=
  match l with
  | c :: l' => if is_space c then drop_spaces l' else l
  | [] => []
  end.

(** [s.trim()] *)
Definition trim (s : string) : string :=
  String.string_of_list_ascii (rev (drop_spaces (rev (drop_spaces (String.list_ascii_of_string s))))).

Lemma drop_spaces_split l : ∃ sp, Forall (λ c, is_space c = true) sp ∧ l = sp ++ drop_spaces l.
Proof.
  induction l as [|c l (sp & Hsp & El)]; [by exists []|]. simpl. destruct (is_space c) eqn:E.
  - exists (c :: sp). split; [by constructor|]. simpl. by f_equal.
  - by exists [].
Qed.
Lemma list_of_string l : String.list_ascii_of_string (String.string_of_list_ascii l) = l.
Proof. apply String.list_ascii_of_string_of_list_ascii. Qed.
(** A text that does not start with a space. *)
Definition starts_plain (s : string) : Prop :=
  match String.list_ascii_of_string s with c :: _ => is_space c = false | [] => True end.
Lemma trim_plain s : starts_plain (trim s).
Proof.
  unfold starts_plain, trim. rewrite list_of_string.
  set (l := String.list_ascii_of_string s).
  assert (Hd : ∀ l0, match drop_spaces l0 with c :: _ => is_space c = false | [] => True end).
  { induction l0 as [|c l0 IH]; [done|]. simpl. by destruct (is_space c) eqn:E. }
  destruct (drop_spaces_split (rev (drop_spaces l))) as (sp & Hsp & E).
  apply (f_equal (@rev _)) in E. rewrite rev_involutive, rev_app_distr in E.
  specialize (Hd l). rewrite E in Hd. by destruct (rev (drop_spaces (rev (drop_spaces l)))).
Qed.
Lemma drop_spaces_plain l : match l with c :: _ => is_space c = false | [] => True end → drop_spaces l = l.
Proof. destruct l as [|c l]; [done|]. simpl. by intros ->. Qed.
Lemma drop_spaces_head l : match drop_spaces l with c :: _ => is_space c = false | [] => True end.
Proof. induction l as [|c l IH]; [done|]. simpl. by destruct (is_space c) eqn:E. Qed.
Lemma trim_trim s : trim (trim s) = trim s.
Proof.
  pose proof (trim_plain s) as Hp. unfold starts_plain in Hp. unfold trim at 1.
  rewrite (drop_spaces_plain _ Hp). unfold trim at 1. rewrite list_of_string, rev_involutive.
  by rewrite (drop_spaces_plain _ (drop_spaces_head _)).
Qed.

Definition upper_char (c : ascii) : ascii :=
  let n := nat_of_ascii c in
  if Nat.leb 97 n && Nat.leb n 122 then ascii_of_nat (n - 32) else c.
Definition lower_char (c : ascii) : ascii :=
  let n := nat_of_ascii c in
  if Nat.leb 65 n && Nat.leb n 90 then ascii_of_nat (n + 32) else c.

Definition map_string (f : ascii → ascii) (s : string) : string :=
  String.string_of_list_ascii (List.map f (String.list_ascii_of_string s)).
(** [s.toUpperCase()] and [s.toLowerCase()] *)
Definition toUpperCase : string → string := map_string upper_char.
Definition toLowerCase : string → string := map_string lower_char.

(** Truthiness of a string: the empty string is falsy. *)
Definition truthy (s : string) : bool := negb (String.eqb s "").
Definition opt_truthy (o : option string) : bool :=
  match o with Some s => truthy s | None => false end.

(** [x?.trim() || null] *)
Definition trim_or_null (o : option string) : option string :=
  match o with Some x => if truthy (trim x) then Some (trim x) else None | None => None end.

(** [x?.trim() || d] *)
Definition trim_or (o : option string) (d : string) : string :=
  match o with
  | Some s => if truthy (trim s) then trim s else d
  | None => d
  end.

(** [a || b] on optional strings. *)
Definition or_string (o : option string) (d : option string) : option string :=
  if opt_truthy o then o else d.

(** [a === b] between an optional column and a value, and between two. *)
Definition opt_eqb {A} `{EqDecision A} (a b : option A) : bool := bool_decide (a = b).
Definition same {A} `{EqDecision A} (a b : A) : bool := bool_decide (a = b).
Definition differs {A} `{EqDecision A} (a b : A) : bool := negb (same a b).

Lemma same_true {A} `{EqDecision A} (a b : A) : same a b = true ↔ a = b.
Proof. apply bool_decide_eq_true. Qed.
Lemma same_false {A} `{EqDecision A} (a b : A) : same a b = false ↔ a ≠ b.
Proof. apply bool_decide_eq_false. Qed.
Lemma differs_false {A} `{EqDecision A} (a b : A) : differs a b = false ↔ a = b.
Proof. unfold differs. by rewrite negb_false_iff, same_true. Qed.
Lemma differs_true {A} `{EqDecision A} (a b : A) : differs a b = true ↔ a ≠ b.
Proof. unfold differs. by rewrite negb_true_iff, same_false. Qed.
Lemma opt_eqb_true {A} `{EqDecision A} (a b : option A) : opt_eqb a b = true ↔ a = b.
Proof. apply bool_decide_eq_true. Qed.
Lemma opt_eqb_false {A} `{EqDecision A} (a b : option A) : opt_eqb a b = false ↔ a ≠ b.
Proof. apply bool_decide_eq_false. Qed.

Definition is_some {A} (o : option A) : bool := match o with Some _ => true | None => false end.
Definition is_none {A} (o : option A) : bool := negb (is_some o).

Lemma is_some_true {A} (o : option A) : is_some o = true ↔ ∃ a, o = Some a.
Proof. destruct o; naive_solver. Qed.
Lemma is_none_false {A} (o : option A) : is_none o = false ↔ ∃ a, o = Some a.
Proof. destruct o; naive_solver. Qed.

(** [l.includes(x)] *)
Definition includes {A} `{EqDecision A} (l : list A) (x : A) : bool := bool_decide (x ∈ l).
Lemma includes_true {A} `{EqDecision A} (l : list A) (x : A) : includes l x = true ↔ x ∈ l.
Proof. apply bool_decide_eq_true. Qed.

(** Splits the boolean guards of the source into the propositions they decide. *)
Create HintDb guards.
#[export] Hint Rewrite @same_true @same_false @differs_true @differs_false @opt_eqb_true
  @opt_eqb_false @includes_true @is_some_true @is_none_false
  orb_false_iff andb_true_iff negb_true_iff negb_false_iff : guards.
Ltac guards := autorewrite with guards in *; destruct_and?.

(** ** Computations that only read

    [reads R m]: [m] answers alike on states related by [R], and changes none. *)
Section reads.
Context {S : Type}.
Definition reads {A} (R : S → S → Prop) (m : M S A) : Prop :=
  ∀ s s', R s s' → (∃ a, m s = inr (a, s) ∧ m s' = inr (a, s')) ∨ (∃ e, m s = inl e ∧ m s' = inl e).

Lemma reads_ret {A} R (a : A) : reads R (ret a).
Proof. intros s s' _. left. by exists a. Qed.
Lemma reads_throw {A} R e : reads R (throw e : M S A).
Proof. intros s s' _. right. by exists e. Qed.
Lemma reads_throw_if R b e : reads R (throw_if b e).
Proof. intros s s' _. unfold throw_if. destruct b; [right; by exists e|left; by exists tt]. Qed.
Lemma reads_require {A} R (x : option A) e : reads R (require x e).
Proof. intros s s' _. unfold require. destruct x as [a|]; [left; by exists a|right; by exists e]. Qed.
Lemma reads_gets {A} (R : S → S → Prop) (f : S → A) : (∀ s s', R s s' → f s = f s') → reads R (gets f).
Proof. intros Hf s s' H. left. exists (f s). unfold gets. rewrite (Hf _ _ H). auto. Qed.
Lemma reads_bind {A B} R (m : M S A) (f : A → M S B) :
  reads R m → (∀ a, reads R (f a)) → reads R (bind m f).
Proof.
  intros Hm Hf s s' H. unfold bind. destruct (Hm _ _ H) as [(a&->&->)|(e&->&->)]; [by apply Hf|right; eauto].
Qed.
Lemma reads_ok {A} R (m : M S A) s s' a t : reads R m → R s s' → m s = inr (a, t) → t = s ∧ m s' = inr (a, s').
Proof. intros Hm H E. destruct (Hm _ _ H) as [(b&Hb&->)|(e&He&_)]; [|congruence]. rewrite Hb in E. by simplify_eq. Qed.
End reads.

Create HintDb reads.
#[export] Hint Resolve reads_ret reads_throw reads_throw_if reads_require : reads.
(** Follows the structure of a computation; [tac] relates the tables it reads. *)
Ltac reading tac :=
  repeat first [ apply reads_bind | solve [auto with reads] | apply reads_gets; solve [tac]
               | progress intros | case_match ].

(** [/^[class]{n}$/.test(s)] for a character class. *)
Definition all_chars (p : ascii → bool) (s : string) : bool :=
  forallb p (String.list_ascii_of_string s).
Definition is_hex_char (c : ascii) : bool :=
  let n := nat_of_ascii c in
  (Nat.leb 48 n && Nat.leb n 57) || (Nat.leb 65 n && Nat.leb n 70) || (Nat.leb 97 n && Nat.leb n 102).
(** [/^[a-fA-F0-9]{n}$/] *)
Definition hex_string (n : nat) (s : string) : bool :=
  all_chars is_hex_char s && Nat.eqb (String.length s) n.

(** Integers of a bounded number of decimal digits. *)
Definition below_pow10 (n : Z) (z : Z) : bool := Z.abs z <? 10 ^ n.

(** The digits of a natural number [n], with [f] of them after the point. *)
Definition pad_zeros (count : nat) (s : string) : string :=
  String.string_of_list_ascii (repeat "0"%char count) +:+ s.
Definition fixed_text (n : Z) (f : nat) : string :=
  match f with
  | O => pretty n
  | _ =>
      let text := let t := pretty n in pad_zeros (S f - String.length t)%nat t in
      let whole := (String.length text - f)%nat in
      String.substring 0 whole text +:+ "." +:+ String.substring whole f text
  end.
