(* ===== verification/Decimals.v ===== *)
(** Decimal arithmetic as the services use it.

    [Prisma.Decimal] (the decimal.js library) and the [numeric] columns of
    PostgreSQL are not code of the repository: they are the parameter
    [DecimalOps] of the development, and what the code relies on is the class
    [DecimalLaws], which states their documented behaviour through
    [d_units k d = Some z], read "the value of [d] is exactly z * 10^-k".
    decimal.js rounds results to 20 significant digits, so its arithmetic is
    exact only below 10^20 units; a [numeric(36,8)] column holds integers of
    10^-8 units below 10^36.  [QDecimal] is a concrete instance (exact rational
    arithmetic), used by the witnesses to run the model. *)
From S2P Require Import Prelude.
From Stdlib Require Import QArith_base Qreduction Ascii.
#[local] Open Scope Z_scope.

(** Round-half-away-from-zero division by a positive [p]: decimal.js
    ROUND_HALF_UP and PostgreSQL numeric rounding. *)
Definition round_half_up (x p : Z) : Z := Z.sgn x * ((2 * Z.abs x + p) / (2 * p)).

Class DecimalOps := {
  D : Type;
  (* new Prisma.Decimal(text); [None] when it throws *)
  d_parse : string → option D;
  (* new Prisma.Decimal(integer) *)
  d_ofZ : Z → D;
  d_isPositive : D → bool;
  d_isNegative : D → bool;
  d_isZero : D → bool;
  d_isFinite : D → bool;
  d_isInteger : D → bool;
  (* [None] is NaN, the number of places of a non-finite value *)
  d_decimalPlaces : D → option Z;
  d_eq : D → D → bool;
  d_lte : D → D → bool;
  d_lt : D → D → bool;
  d_add : D → D → D;
  d_sub : D → D → D;
  d_mul : D → D → D;
  d_div : D → D → D;
  d_neg : D → D;
  d_pow : D → Z → D;
  d_toDP : D → nat → D;
  d_toFixed : D → nat → string;
  d_toString : D → string;
  (* the value of d in units of 10^-k, when it is a whole number of them *)
  d_units : nat → D → option Z;
  (* numeric(36,8) columns, as integers of 10^-8: reading, storing a
     parameter, [>= $1], [+ $1] and [- $1] *)
  n8_of : Z → D;
  n8_store : D → option Z;
  n8_gte : Z → D → bool;
  n8_add : Z → D → Z;
  n8_sub : Z → D → Z;
  (* numeric(24,12) columns, as integers of 10^-12 *)
  n12_of : Z → D;
  n12_store : D → option Z;
}.

Class DecimalLaws (DO : DecimalOps) : Prop := {
  units_le : ∀ j k d x, (j ≤ k)%nat → d_units j d = Some x →
    d_units k d = Some (x * 10 ^ Z.of_nat (k - j));
  units_ofZ : ∀ z, d_units 0 (d_ofZ z) = Some z;
  units_add : ∀ k a b x y, d_units k a = Some x → d_units k b = Some y →
    Z.abs (x + y) < 10 ^ 20 → d_units k (d_add a b) = Some (x + y);
  units_sub : ∀ k a b x y, d_units k a = Some x → d_units k b = Some y →
    Z.abs (x - y) < 10 ^ 20 → d_units k (d_sub a b) = Some (x - y);
  units_neg : ∀ k a x, d_units k a = Some x → d_units k (d_neg a) = Some (- x);
  units_mul : ∀ j k a b x y, d_units j a = Some x → d_units k b = Some y →
    Z.abs (x * y) < 10 ^ 20 → d_units (j + k) (d_mul a b) = Some (x * y);
  units_div_pow10 : ∀ k n a b x, d_units k a = Some x → d_units 0 b = Some (10 ^ Z.of_nat n) →
    Z.abs x < 10 ^ 20 → d_units (k + n) (d_div a b) = Some x;
  units_mul_pow10 : ∀ n a b x, d_units n a = Some x → d_units 0 b = Some (10 ^ Z.of_nat n) →
    Z.abs x < 10 ^ 20 → d_units 0 (d_mul a b) = Some x;
  units_pow10 : ∀ n, (n ≤ 8)%nat → d_units 0 (d_pow (d_ofZ 10) (Z.of_nat n)) = Some (10 ^ Z.of_nat n);
  units_toDP : ∀ k n a x, d_units k a = Some x → (n ≤ k)%nat →
    d_units n (d_toDP a n) = Some (round_half_up x (10 ^ Z.of_nat (k - n)));
  eq_units : ∀ k a b x y, d_units k a = Some x → d_units k b = Some y → d_eq a b = (x =? y);
  lte_units : ∀ k a b x y, d_units k a = Some x → d_units k b = Some y → d_lte a b = (x <=? y);
  lt_units : ∀ k a b x y, d_units k a = Some x → d_units k b = Some y → d_lt a b = (x <? y);
  isZero_units : ∀ k a x, d_units k a = Some x → d_isZero a = (x =? 0);
  isFinite_units : ∀ k a x, d_units k a = Some x → d_isFinite a = true;
  isInteger_units : ∀ a x, d_units 0 a = Some x → d_isInteger a = true;
  (* decimal.js zero is signed: the sign tests of a zero are those of its sign bit *)
  isNegative_units : ∀ k a x, d_units k a = Some x → x ≠ 0 → d_isNegative a = (x <? 0);
  isPositive_units : ∀ k a x, d_units k a = Some x → x ≠ 0 → d_isPositive a = (0 <? x);
  sign_dichotomy : ∀ a, d_isFinite a = true → d_isPositive a = negb (d_isNegative a);
  isPositive_ofZ : ∀ z, 0 ≤ z → d_isPositive (d_ofZ z) = true;
  parse_zero : d_parse "0" = Some (d_ofZ 0);
  decimalPlaces_units : ∀ k a, (k ≤ 20)%nat → d_isFinite a = true →
    (is_Some (d_units k a) ↔ ∃ p, d_decimalPlaces a = Some p ∧ p ≤ Z.of_nat k);
  toFixed0_units : ∀ a x, d_units 0 a = Some x → d_toFixed a 0 = pretty x;
  units_n8 : ∀ z, d_units 8 (n8_of z) = Some z;
  n8_store_units : ∀ d x, d_units 8 d = Some x →
    n8_store d = if Z.abs x <? 10 ^ 36 then Some x else None;
  n8_gte_units : ∀ z d x, d_units 8 d = Some x → n8_gte z d = (x <=? z);
  n8_add_units : ∀ z d x, d_units 8 d = Some x → n8_add z d = z + x;
  n8_sub_units : ∀ z d x, d_units 8 d = Some x → n8_sub z d = z - x;
  (* the sum of a column and a parameter with more places is rounded to the column's scale *)
  n8_add_round : ∀ z d k x, d_units (8 + k) d = Some x →
    n8_add z d = round_half_up (z * 10 ^ Z.of_nat k + x) (10 ^ Z.of_nat k);
  n8_sub_round : ∀ z d k x, d_units (8 + k) d = Some x →
    n8_sub z d = round_half_up (z * 10 ^ Z.of_nat k - x) (10 ^ Z.of_nat k);
  n8_gte_round : ∀ z d k x, d_units (8 + k) d = Some x → n8_gte z d = (x <=? z * 10 ^ Z.of_nat k);
  units_n12 : ∀ z, d_units 12 (n12_of z) = Some z;
  n12_store_units : ∀ d x, d_units 12 d = Some x →
    n12_store d = if Z.abs x <? 10 ^ 24 then Some x else None;
}.

(** [d.decimalPlaces() > n]; false for NaN. *)
Definition places_exceed {DO : DecimalOps} (d : D) (n : Z) : bool :=
  match d_decimalPlaces d with Some p => n <? p | None => false end.

Section derived.
Context {DO : DecimalOps} {DL : DecimalLaws DO}.

Lemma units_inj_eq k a x y : d_units k a = Some x → d_units k a = Some y → x = y.
Proof. congruence. Qed.

Lemma places_exceed_units (n : nat) d :
  (n ≤ 20)%nat → d_isFinite d = true →
  places_exceed d (Z.of_nat n) = false ↔ is_Some (d_units n d) ∨ d_decimalPlaces d = None.
Proof.
  intros Hn Hf. unfold places_exceed. rewrite (decimalPlaces_units n d Hn Hf).
  destruct (d_decimalPlaces d) as [p|]; [|naive_solver].
  rewrite Z.ltb_ge. split; [intros; left; eauto|]. intros [(?&[= ->]&?)|[=]]. done.
Qed.

Lemma eq_units_true k a b x y :
  d_units k a = Some x → d_units k b = Some y → d_eq a b = true ↔ x = y.
Proof. intros Ha Hb. by rewrite (eq_units k a b x y Ha Hb), Z.eqb_eq. Qed.

Lemma n8_eq_true (x y : Z) : d_eq (n8_of x) (n8_of y) = true ↔ x = y.
Proof. apply (eq_units_true 8); apply units_n8. Qed.

Lemma isZero_n8 (x : Z) : d_isZero (n8_of x) = (x =? 0).
Proof. apply (isZero_units 8), units_n8. Qed.

Lemma n8_store_Some d x z : d_units 8 d = Some x → n8_store d = Some z → z = x.
Proof. intros Hx. rewrite (n8_store_units d x Hx). case_match; congruence. Qed.

(** [amount.add(fee)] of two stored amounts. *)
Lemma units_add_n8 (x y : Z) :
  Z.abs (x + y) < 10 ^ 20 → d_units 8 (d_add (n8_of x) (n8_of y)) = Some (x + y).
Proof. intros. apply units_add; auto using units_n8. Qed.
End derived.

#[export] Hint Resolve units_n8 units_ofZ : decimals.

(** *** A concrete instance: exact rationals *)
Module QDecimal.
Definition pow10 (n : nat) : Z := 10 ^ Z.of_nat n.

Definition units (k : nat) (q : Q) : option Z :=
  let n := Qnum q * pow10 k in
  if n mod Zpos (Qden q) =? 0 then Some (n / Zpos (Qden q)) else None.

Fixpoint digits_value (l : list ascii) (acc : Z) : option Z :=
  match l with
  | [] => Some acc
  | c :: l' =>
      let n := nat_of_ascii c in
      if Nat.leb 48 n && Nat.leb n 57 then digits_value l' (10 * acc + Z.of_nat (n - 48)) else None
  end.

Fixpoint split_dot (l : list ascii) : list ascii * list ascii :=
  match l with
  | [] => ([], [])
  | c :: l' => if Ascii.eqb c "." then ([], l') else let '(a, b) := split_dot l' in (c :: a, b)
  end.

(** [-]digits[.digits] *)
Definition parse (s : string) : option Q :=
  let l := String.list_ascii_of_string s in
  let '(neg, l) := match l with "-"%char :: l' => (true, l') | _ => (false, l) end in
  let '(a, b) := split_dot l in
  if Nat.eqb (length a + length b) 0 then None else
  match digits_value (a ++ b) 0 with
  | Some n => Some (Qred (Qmake (if neg then - n else n) (Z.to_pos (pow10 (length b)))))
  | None => None
  end.

Fixpoint places_from (q : Q) (k fuel : nat) : Z :=
  match fuel with
  | O => Z.of_nat k
  | S f => if is_some (units k q) then Z.of_nat k else places_from q (S k) f
  end.

Definition scaled (z : Z) (k : nat) : Q := Qmake z (Z.to_pos (pow10 k)).
Definition to_units (k : nat) (q : Q) : Z :=
  round_half_up (Qnum q * pow10 k) (Zpos (Qden q)).
Definition toFixed (q : Q) (k : nat) : string :=
  let n := to_units k q in
  match k with
  | O => pretty n
  | _ => (if n <? 0 then "-" else "") +:+ fixed_text (Z.abs n) k
  end.
Definition in_range (n : Z) (z : Z) : option Z := if Z.abs z <? 10 ^ n then Some z else None.

#[export] Instance ops : DecimalOps := {|
  D := Q;
  d_parse := parse;
  d_ofZ z := inject_Z z;
  d_isPositive q := 0 <=? Qnum q;
  d_isNegative q := Qnum q <? 0;
  d_isZero q := Qnum q =? 0;
  d_isFinite _ := true;
  d_isInteger q := is_some (units 0 q);
  d_decimalPlaces q := Some (places_from q 0 21);
  d_eq := Qeq_bool;
  d_lte := Qle_bool;
  d_lt a b := negb (Qle_bool b a);
  d_add := Qplus;
  d_sub := Qminus;
  d_mul := Qmult;
  d_div := Qdiv;
  d_neg := Qopp;
  d_pow q n := scaled (10 ^ n) 0;
  d_toDP q n := scaled (to_units n q) n;
  d_toFixed := toFixed;
  d_toString q := toFixed q 12;
  d_units := units;
  n8_of z := scaled z 8;
  n8_store q := in_range 36 (to_units 8 q);
  n8_gte z q := Qle_bool q (scaled z 8);
  n8_add z q := to_units 8 (scaled z 8 + q);
  n8_sub z q := to_units 8 (scaled z 8 - q);
  n12_of z := scaled z 12;
  n12_store q := in_range 24 (to_units 12 q);
|}.

Lemma pow10_pos n : 0 < pow10 n.
Proof. unfold pow10. apply Z.pow_pos_nonneg; lia. Qed.
Lemma pow10_add j k : pow10 (j + k) = pow10 j * pow10 k.
Proof. unfold pow10. rewrite Nat2Z.inj_add, Z.pow_add_r; lia. Qed.

Lemma units_iff k q x : units k q = Some x ↔ Qnum q * pow10 k = x * Zpos (Qden q).
Proof.
  unfold units. pose proof (Pos2Z.is_pos (Qden q)) as Hp.
  pose proof (Z.div_mod (Qnum q * pow10 k) (Zpos (Qden q)) ltac:(lia)) as Hdm.
  destruct (_ =? 0) eqn:E.
  - apply Z.eqb_eq in E. split; [intros [= <-]; nia|].
    intros ->. f_equal. by rewrite Z.div_mul by lia.
  - apply Z.eqb_neq in E. split; [done|]. intros Heq. destruct E.
    rewrite Heq. by apply Z.mod_mul.
Qed.

Lemma to_units_exact k q x : units k q = Some x → to_units k q = x.
Proof.
  intros Hx%units_iff. unfold to_units, round_half_up. rewrite Hx.
  set (p := Zpos (Qden q)). assert (0 < p) by (subst p; lia).
  rewrite Z.sgn_mul, Z.abs_mul, (Z.sgn_pos p), (Z.abs_eq p) by lia.
  replace (2 * (Z.abs x * p) + p) with (p + Z.abs x * (2 * p)) by ring.
  rewrite Z.div_add, (Z.div_small p) by lia. lia.
Qed.

Lemma units_scaled k z : units k (scaled z k) = Some z.
Proof.
  apply units_iff. unfold scaled; simpl.
  rewrite Z2Pos.id by apply pow10_pos. done.
Qed.

(** Minimality of [places_from]. *)
Lemma places_from_spec q f : ∀ k j,
  (k ≤ j)%nat → (j < k + f)%nat →
  (∀ i x, (i ≤ j)%nat → units i q = Some x → is_Some (units j q)) →
  is_Some (units j q) ↔ places_from q k f ≤ Z.of_nat j.
Proof.
  induction f as [|f IH]; intros k j Hkj Hjf Hmono; [lia|]. simpl.
  destruct (units k q) as [x|] eqn:E; simpl.
  - split; [lia|]. intros _. by apply (Hmono k x).
  - destruct (decide (k = j)) as [->|].
    + rewrite E. split; [by intros []|]. intros Hle.
      assert (∀ f k, Z.of_nat k ≤ places_from q k f) as Hge.
      { clear. intros f. induction f as [|f IH]; intros k; simpl; [lia|].
        case_match; [lia|]. specialize (IH (S k)). lia. }
      specialize (Hge f (S j)). lia.
    + apply IH; [lia|lia|done].
Qed.

Lemma units_mono q j k x : (j ≤ k)%nat → units j q = Some x → units k q = Some (x * 10 ^ Z.of_nat (k - j)).
Proof.
  intros Hjk Hx%units_iff. apply units_iff.
  replace k with (j + (k - j))%nat at 1 by lia. rewrite pow10_add. fold (pow10 (k - j)).
  rewrite Z.mul_assoc, Hx. ring.
Qed.

Ltac qunits :=
  intros; repeat match goal with H : units _ _ = Some _ |- _ => apply units_iff in H end;
  try apply units_iff; simpl in *.

Lemma Qcompare_units k a b x y :
  units k a = Some x → units k b = Some y →
  (Qnum a * Zpos (Qden b) ?= Qnum b * Zpos (Qden a)) = (x ?= y).
Proof.
  qunits. pose proof (pow10_pos k).
  rewrite (Zmult_compare_compat_r _ _ (pow10 k)) by lia.
  replace (Qnum a * Zpos (Qden b) * pow10 k) with (x * (Zpos (Qden a) * Zpos (Qden b))) by nia.
  replace (Qnum b * Zpos (Qden a) * pow10 k) with (y * (Zpos (Qden a) * Zpos (Qden b))) by nia.
  by rewrite <- Zmult_compare_compat_r by lia.
Qed.

Lemma eq_units_q k a b x y :
  units k a = Some x → units k b = Some y → Qeq_bool a b = (x =? y).
Proof.
  intros Ha Hb. pose proof (Qcompare_units k a b x y Ha Hb) as Hc.
  apply eq_true_iff_eq. rewrite Qeq_bool_iff. unfold Qeq.
  by rewrite <- Z.compare_eq_iff, Hc, Z.compare_eq_iff, Z.eqb_eq.
Qed.

Lemma lte_units_q k a b x y :
  units k a = Some x → units k b = Some y → Qle_bool a b = (x <=? y).
Proof.
  intros Ha Hb. pose proof (Qcompare_units k a b x y Ha Hb) as Hc.
  unfold Qle_bool, Z.leb. by rewrite Hc.
Qed.

Lemma sign_units k a x : units k a = Some x → Z.sgn (Qnum a) = Z.sgn x.
Proof.
  qunits. apply (f_equal Z.sgn) in H. pose proof (pow10_pos k).
  rewrite !Z.sgn_mul, (Z.sgn_pos (pow10 k)) in H by lia. simpl in H. lia.
Qed.

Lemma units_add_q k a b x y : units k a = Some x → units k b = Some y → units k (a + b) = Some (x + y).
Proof. qunits. rewrite Pos2Z.inj_mul. nia. Qed.
Lemma units_neg_q k a x : units k a = Some x → units k (- a) = Some (- x).
Proof. qunits. lia. Qed.
Lemma units_sub_q k a b x y : units k a = Some x → units k b = Some y → units k (a - b) = Some (x - y).
Proof. intros. apply units_add_q; [done|]. by apply units_neg_q. Qed.
Lemma units_mul_q j k a b x y : units j a = Some x → units k b = Some y → units (j + k) (a * b) = Some (x * y).
Proof.
  qunits. rewrite pow10_add, Pos2Z.inj_mul.
  replace (Qnum a * Qnum b * (pow10 j * pow10 k))
    with ((Qnum a * pow10 j) * (Qnum b * pow10 k)) by ring.
  rewrite H, H0. ring.
Qed.

Lemma units_div_q k n a b x :
  units k a = Some x → units 0 b = Some (pow10 n) → units (k + n) (a / b) = Some x.
Proof.
  intros Ha Hb. apply units_iff in Ha, Hb. apply units_iff. pose proof (pow10_pos n).
  change (pow10 0) with 1 in Hb. rewrite Z.mul_1_r in Hb. rewrite pow10_add.
  destruct b as [bn bd]; simpl in *. unfold Qdiv, Qinv; simpl.
  destruct bn as [|bn|bn]; [lia| |lia]. simpl. rewrite Pos2Z.inj_mul, Hb. nia.
Qed.

Lemma units_mul_pow10_q n a b x :
  units n a = Some x → units 0 b = Some (pow10 n) → units 0 (a * b) = Some x.
Proof.
  intros Ha Hb. apply units_iff in Ha, Hb. apply units_iff. pose proof (pow10_pos n).
  change (pow10 0) with 1 in *. rewrite Z.mul_1_r in *. destruct a as [an ad], b as [bn bd]; simpl in *.
  rewrite Pos2Z.inj_mul, Hb. nia.
Qed.

Lemma scale_shift z k n : units (n + k) (scaled z n) = Some (z * pow10 k).
Proof.
  rewrite (units_mono _ n (n + k) z) by (lia || apply units_scaled).
  unfold pow10. do 4 f_equal. lia.
Qed.

(** Rounding to the scale of a column from [k] more places. *)
Lemma to_units_round q n k x :
  units (n + k) q = Some x → to_units n q = round_half_up x (10 ^ Z.of_nat k).
Proof.
  qunits. unfold to_units, round_half_up. rewrite pow10_add in H. fold (pow10 k).
  set (p := Zpos (Qden q)) in *. assert (0 < p) by (subst p; lia).
  pose proof (pow10_pos n). pose proof (pow10_pos k).
  assert (Z.sgn (Qnum q * pow10 n) = Z.sgn x) as ->.
  { apply (f_equal Z.sgn) in H. rewrite !Z.sgn_mul in *.
    rewrite (Z.sgn_pos (pow10 n)), (Z.sgn_pos (pow10 k)), (Z.sgn_pos p) in * by lia. lia. }
  assert (Z.abs (Qnum q * pow10 n) * pow10 k = Z.abs x * p) as Ha.
  { apply (f_equal Z.abs) in H. rewrite !Z.abs_mul in *.
    rewrite (Z.abs_eq (pow10 n)), (Z.abs_eq (pow10 k)), (Z.abs_eq p) in * by lia. lia. }
  f_equal. set (u := Z.abs (Qnum q * pow10 n)) in *.
  rewrite <- (Z.div_mul_cancel_r (2 * u + p) (2 * p) (pow10 k)) by lia.
  rewrite <- (Z.div_mul_cancel_r (2 * Z.abs x + pow10 k) (2 * pow10 k) p) by lia.
  f_equal; nia.
Qed.

#[export] Instance laws : DecimalLaws ops.
Proof.
  split; simpl; intros.
  - by apply units_mono.
  - apply units_iff. simpl. change (pow10 0) with 1. lia.
  - by apply units_add_q.
  - by apply units_sub_q.
  - by apply units_neg_q.
  - by apply units_mul_q.
  - by apply units_div_q.
  - by eapply units_mul_pow10_q.
  - apply (units_scaled 0).
  - unfold to_units at 1. fold (to_units n a).
    rewrite (to_units_round a n (k - n) x); [apply units_scaled|].
    by replace (n + (k - n))%nat with k by lia.
  - by eapply eq_units_q.
  - by eapply lte_units_q.
  - rewrite (lte_units_q k b a y x), Z.leb_antisym, negb_involutive by done. done.
  - apply sign_units in H. apply eq_true_iff_eq. rewrite !Z.eqb_eq. lia.
  - done.
  - by rewrite H.
  - apply sign_units in H. apply eq_true_iff_eq. rewrite !Z.ltb_lt. lia.
  - apply sign_units in H. apply eq_true_iff_eq. rewrite Z.leb_le, Z.ltb_lt. lia.
  - rewrite Z.leb_antisym. done.
  - by apply Z.leb_le.
  - reflexivity.
  - rewrite (places_from_spec a 21 0 k) by first [lia | intros; eexists; by eapply units_mono].
    naive_solver.
  - unfold toFixed. by rewrite (to_units_exact 0 a x).
  - apply units_scaled.
  - unfold in_range. by rewrite (to_units_exact 8 d x) by done.
  - rewrite (lte_units_q 8 _ _ x z) by (done || apply units_scaled). done.
  - apply to_units_exact, units_add_q; [apply units_scaled|done].
  - apply to_units_exact, units_sub_q; [apply units_scaled|done].
  - apply to_units_round, units_add_q; [apply scale_shift|done].
  - apply to_units_round, units_sub_q; [apply scale_shift|done].
  - by rewrite (lte_units_q (8 + k) _ _ x (z * 10 ^ Z.of_nat k)) by (done || apply scale_shift).
  - apply units_scaled.
  - unfold in_range. by rewrite (to_units_exact 12 d x) by done.
Qed.
End QDecimal.
