(* ===== verification/Schema.v ===== *)
(** The database the services share: the enumerations and models of
    [server/prisma/schema.prisma] and the custody tables of
    [migrations-postgres/], the state [Db], and the reads and writes Prisma
    performs on it together with the constraints the migrations install
    ([CHECK]s, unique indexes and the [guard_operation_transition] trigger).

    A table is a map from its primary key, so a row does not repeat its [id].
    Columns no modelled code reads or writes (postal and display data,
    [updatedAt]) are left out. *)
From S2P Require Import Prelude.

(** ** Enumerations *)
Inductive UserRole := ADMIN | MAKER | CHECKER | OPERATOR | CUSTOMER_ADMIN | CUSTOMER_USER.
#[global] Instance user_role_eq_dec : EqDecision UserRole.
Proof. solve_decision. Defined.
Inductive CustomerStatus := CS_DRAFT | CS_PENDING_REVIEW | CS_ACTIVE | CS_CHANGES_REQUESTED | CS_REJECTED | CS_SUSPENDED.
#[global] Instance customer_status_eq_dec : EqDecision CustomerStatus.
Proof. solve_decision. Defined.
Inductive KycStatus := KYC_PENDING | KYC_APPROVED | KYC_REJECTED.
#[global] Instance kyc_status_eq_dec : EqDecision KycStatus.
Proof. solve_decision. Defined.
Inductive Currency := USD | SGD | HKD | EUR | GBP | USDT.
#[global] Instance currency_eq_dec : EqDecision Currency.
Proof. solve_decision. Defined.
Inductive AccountKind := SYSTEM_WALLET | VIRTUAL_ACCOUNT | CRYPTO_WALLET | PLATFORM_CLEARING | FEE_REVENUE.
#[global] Instance account_kind_eq_dec : EqDecision AccountKind.
Proof. solve_decision. Defined.
Inductive AccountStatus := AS_PENDING | AS_ACTIVE | AS_FROZEN | AS_CLOSED | AS_DISABLED.
#[global] Instance account_status_eq_dec : EqDecision AccountStatus.
Proof. solve_decision. Defined.
Inductive AccountRequestStatus := RS_SUBMITTED | RS_APPROVED | RS_REJECTED | RS_CANCELLED.
#[global] Instance account_request_status_eq_dec : EqDecision AccountRequestStatus.
Proof. solve_decision. Defined.
Inductive OperationType := DEPOSIT | PAYOUT | ADJUSTMENT | INTERNAL_TRANSFER | FX | OTC | VA_OPENING_FEE.
#[global] Instance operation_type_eq_dec : EqDecision OperationType.
Proof. solve_decision. Defined.
Inductive OperationStatus := DRAFT | SUBMITTED | APPROVED | REJECTED | PROCESSING | COMPLETED | FAILED | CANCELLED.
#[global] Instance operation_status_eq_dec : EqDecision OperationStatus.
Proof. solve_decision. Defined.
Inductive PayoutMethod := PM_VA | PM_POBO | PM_PLATFORM.
#[global] Instance payout_method_eq_dec : EqDecision PayoutMethod.
Proof. solve_decision. Defined.
Inductive AdjustmentDirection := ADJ_CREDIT | ADJ_DEBIT.
#[global] Instance adjustment_direction_eq_dec : EqDecision AdjustmentDirection.
Proof. solve_decision. Defined.
Inductive JournalSide := DEBIT | CREDIT.
#[global] Instance journal_side_eq_dec : EqDecision JournalSide.
Proof. solve_decision. Defined.
Inductive RateType := RT_FX | RT_OTC.
#[global] Instance rate_type_eq_dec : EqDecision RateType.
Proof. solve_decision. Defined.
Inductive ChannelType := CT_FIAT_INBOUND | CT_VIRTUAL_ACCOUNT | CT_VA_PAYOUT | CT_POBO_PAYOUT | CT_PLATFORM_PAYOUT.
#[global] Instance channel_type_eq_dec : EqDecision ChannelType.
Proof. solve_decision. Defined.
Inductive VaRequestSource := VS_ADMIN | VS_CUSTOMER.
#[global] Instance va_request_source_eq_dec : EqDecision VaRequestSource.
Proof. solve_decision. Defined.
Inductive CryptoNetwork := TRON | BSC | ETHEREUM.
#[global] Instance crypto_network_eq_dec : EqDecision CryptoNetwork.
Proof. solve_decision. Defined.
Inductive CryptoTransferDirection := TD_DEPOSIT | TD_WITHDRAWAL.
#[global] Instance crypto_transfer_direction_eq_dec : EqDecision CryptoTransferDirection.
Proof. solve_decision. Defined.
Inductive CryptoTransferStatus := TS_SUBMITTED | TS_PROCESSING | TS_COMPLETED | TS_REJECTED | TS_FAILED.
#[global] Instance crypto_transfer_status_eq_dec : EqDecision CryptoTransferStatus.
Proof. solve_decision. Defined.
Inductive EmailDeliveryStatus := ED_PENDING | ED_PROCESSING | ED_SENT | ED_DEAD.
#[global] Instance email_delivery_status_eq_dec : EqDecision EmailDeliveryStatus.
Proof. solve_decision. Defined.
Inductive BeneficiaryType := BT_BANK | BT_CRYPTO.
#[global] Instance beneficiary_type_eq_dec : EqDecision BeneficiaryType.
Proof. solve_decision. Defined.
(** ** JSON columns *)
Inductive json :=
| JNull
| JBool (b : bool)
| JNum (z : Z)
| JStr (s : string)
| JArr (l : list json)
| JObj (l : list (string * json)).

(** [value?.key] of a JSON object; [None] is [undefined]. *)
Fixpoint assoc (k : string) (l : list (string * json)) : option json :=
  match l with
  | [] => None
  | (k', v) :: l' => if String.eqb k k' then Some v else assoc k l'
  end.
Definition json_get (k : string) (j : option json) : option json :=
  match j with Some (JObj l) => assoc k l | _ => None end.
Definition json_str (j : option json) : option string :=
  match j with Some (JStr s) => Some s | _ => None end.
(** [col->'a'->>'b'] *)
Definition json_path2 (a b : string) (j : option json) : option string :=
  json_str (json_get b (json_get a j)).
(** [typeof value === 'object' && !Array.isArray(value) && key in value] *)
Definition json_has (k : string) (j : option json) : bool := is_some (json_get k j).

(** ** Rows *)
(** [model User]: the columns the services read. *)
Record User := MkUser {
  user_organizationId : option string;
  user_role : UserRole;
  user_active : bool
}.


(** [model Customer]. *)
Record Customer := MkCustomer {
  cust_organizationId : string;
  cust_status : CustomerStatus;
  cust_kycStatus : KycStatus;
  cust_creatorId : string;
  cust_displayName : string;
  cust_email : string;
  cust_isInternal : bool;
  cust_vaFeeExempt : bool;
  cust_vaFeePolicyVersion : Z;
  cust_reviewerId : option string;
  cust_reviewedAt : option Z;
  cust_reviewNote : option string;
  cust_kycReviewerId : option string;
  cust_kycReviewedAt : option Z;
  cust_kycReviewNote : option string
}.

Definition set_cust_status (v : CustomerStatus) (r : Customer) : Customer :=
  MkCustomer r.(cust_organizationId) v r.(cust_kycStatus) r.(cust_creatorId) r.(cust_displayName)
    r.(cust_email) r.(cust_isInternal) r.(cust_vaFeeExempt) r.(cust_vaFeePolicyVersion)
    r.(cust_reviewerId) r.(cust_reviewedAt) r.(cust_reviewNote) r.(cust_kycReviewerId)
    r.(cust_kycReviewedAt) r.(cust_kycReviewNote).
Definition set_cust_kycStatus (v : KycStatus) (r : Customer) : Customer :=
  MkCustomer r.(cust_organizationId) r.(cust_status) v r.(cust_creatorId) r.(cust_displayName)
    r.(cust_email) r.(cust_isInternal) r.(cust_vaFeeExempt) r.(cust_vaFeePolicyVersion)
    r.(cust_reviewerId) r.(cust_reviewedAt) r.(cust_reviewNote) r.(cust_kycReviewerId)
    r.(cust_kycReviewedAt) r.(cust_kycReviewNote).
Definition set_cust_isInternal (v : bool) (r : Customer) : Customer :=
  MkCustomer r.(cust_organizationId) r.(cust_status) r.(cust_kycStatus) r.(cust_creatorId)
    r.(cust_displayName) r.(cust_email) v r.(cust_vaFeeExempt) r.(cust_vaFeePolicyVersion)
    r.(cust_reviewerId) r.(cust_reviewedAt) r.(cust_reviewNote) r.(cust_kycReviewerId)
    r.(cust_kycReviewedAt) r.(cust_kycReviewNote).
Definition set_cust_vaFeeExempt (v : bool) (r : Customer) : Customer :=
  MkCustomer r.(cust_organizationId) r.(cust_status) r.(cust_kycStatus) r.(cust_creatorId)
    r.(cust_displayName) r.(cust_email) r.(cust_isInternal) v r.(cust_vaFeePolicyVersion)
    r.(cust_reviewerId) r.(cust_reviewedAt) r.(cust_reviewNote) r.(cust_kycReviewerId)
    r.(cust_kycReviewedAt) r.(cust_kycReviewNote).
Definition set_cust_vaFeePolicyVersion (v : Z) (r : Customer) : Customer :=
  MkCustomer r.(cust_organizationId) r.(cust_status) r.(cust_kycStatus) r.(cust_creatorId)
    r.(cust_displayName) r.(cust_email) r.(cust_isInternal) r.(cust_vaFeeExempt) v
    r.(cust_reviewerId) r.(cust_reviewedAt) r.(cust_reviewNote) r.(cust_kycReviewerId)
    r.(cust_kycReviewedAt) r.(cust_kycReviewNote).
Definition set_cust_reviewerId (v : option string) (r : Customer) : Customer :=
  MkCustomer r.(cust_organizationId) r.(cust_status) r.(cust_kycStatus) r.(cust_creatorId)
    r.(cust_displayName) r.(cust_email) r.(cust_isInternal) r.(cust_vaFeeExempt)
    r.(cust_vaFeePolicyVersion) v r.(cust_reviewedAt) r.(cust_reviewNote)
    r.(cust_kycReviewerId) r.(cust_kycReviewedAt) r.(cust_kycReviewNote).
Definition set_cust_reviewedAt (v : option Z) (r : Customer) : Customer :=
  MkCustomer r.(cust_organizationId) r.(cust_status) r.(cust_kycStatus) r.(cust_creatorId)
    r.(cust_displayName) r.(cust_email) r.(cust_isInternal) r.(cust_vaFeeExempt)
    r.(cust_vaFeePolicyVersion) r.(cust_reviewerId) v r.(cust_reviewNote)
    r.(cust_kycReviewerId) r.(cust_kycReviewedAt) r.(cust_kycReviewNote).
Definition set_cust_reviewNote (v : option string) (r : Customer) : Customer :=
  MkCustomer r.(cust_organizationId) r.(cust_status) r.(cust_kycStatus) r.(cust_creatorId)
    r.(cust_displayName) r.(cust_email) r.(cust_isInternal) r.(cust_vaFeeExempt)
    r.(cust_vaFeePolicyVersion) r.(cust_reviewerId) r.(cust_reviewedAt) v
    r.(cust_kycReviewerId) r.(cust_kycReviewedAt) r.(cust_kycReviewNote).
Definition set_cust_kycReviewerId (v : option string) (r : Customer) : Customer :=
  MkCustomer r.(cust_organizationId) r.(cust_status) r.(cust_kycStatus) r.(cust_creatorId)
    r.(cust_displayName) r.(cust_email) r.(cust_isInternal) r.(cust_vaFeeExempt)
    r.(cust_vaFeePolicyVersion) r.(cust_reviewerId) r.(cust_reviewedAt) r.(cust_reviewNote) v
    r.(cust_kycReviewedAt) r.(cust_kycReviewNote).
Definition set_cust_kycReviewedAt (v : option Z) (r : Customer) : Customer :=
  MkCustomer r.(cust_organizationId) r.(cust_status) r.(cust_kycStatus) r.(cust_creatorId)
    r.(cust_displayName) r.(cust_email) r.(cust_isInternal) r.(cust_vaFeeExempt)
    r.(cust_vaFeePolicyVersion) r.(cust_reviewerId) r.(cust_reviewedAt) r.(cust_reviewNote)
    r.(cust_kycReviewerId) v r.(cust_kycReviewNote).
Definition set_cust_kycReviewNote (v : option string) (r : Customer) : Customer :=
  MkCustomer r.(cust_organizationId) r.(cust_status) r.(cust_kycStatus) r.(cust_creatorId)
    r.(cust_displayName) r.(cust_email) r.(cust_isInternal) r.(cust_vaFeeExempt)
    r.(cust_vaFeePolicyVersion) r.(cust_reviewerId) r.(cust_reviewedAt) r.(cust_reviewNote)
    r.(cust_kycReviewerId) r.(cust_kycReviewedAt) v.

(** The bank columns of [model Account]: they identify the account to payers and
    take part in no decision. *)
Record BankDetails := {
  bank_name : option string;
  bank_address : option string;
  bank_country : option string;
  bank_swiftBic : option string;
  bank_iban : option string;
}.
Definition no_bank : BankDetails :=
  {| bank_name := None; bank_address := None; bank_country := None; bank_swiftBic := None; bank_iban := None |}.

(** [model Account]: balances are [numeric(36,8)] columns, in units of 10^-8. *)
Record Account := MkAccount {
  acc_customerId : option string;
  acc_kind : AccountKind;
  acc_status : AccountStatus;
  acc_currency : Currency;
  acc_name : string;
  acc_accountNumber : option string;
  acc_walletAddress : option string;
  acc_network : option string;
  acc_availableBalance : Z;
  acc_frozenBalance : Z;
  acc_version : Z;
  acc_fundingChannelId : option string;
  acc_bank : BankDetails
}.

Definition set_acc_availableBalance (v : Z) (r : Account) : Account :=
  MkAccount r.(acc_customerId) r.(acc_kind) r.(acc_status) r.(acc_currency) r.(acc_name)
    r.(acc_accountNumber) r.(acc_walletAddress) r.(acc_network) v r.(acc_frozenBalance)
    r.(acc_version) r.(acc_fundingChannelId) r.(acc_bank).
Definition set_acc_frozenBalance (v : Z) (r : Account) : Account :=
  MkAccount r.(acc_customerId) r.(acc_kind) r.(acc_status) r.(acc_currency) r.(acc_name)
    r.(acc_accountNumber) r.(acc_walletAddress) r.(acc_network) r.(acc_availableBalance) v
    r.(acc_version) r.(acc_fundingChannelId) r.(acc_bank).
Definition set_acc_version (v : Z) (r : Account) : Account :=
  MkAccount r.(acc_customerId) r.(acc_kind) r.(acc_status) r.(acc_currency) r.(acc_name)
    r.(acc_accountNumber) r.(acc_walletAddress) r.(acc_network) r.(acc_availableBalance)
    r.(acc_frozenBalance) v r.(acc_fundingChannelId) r.(acc_bank).
Definition set_acc_walletAddress (v : option string) (r : Account) : Account :=
  MkAccount r.(acc_customerId) r.(acc_kind) r.(acc_status) r.(acc_currency) r.(acc_name)
    r.(acc_accountNumber) v r.(acc_network) r.(acc_availableBalance) r.(acc_frozenBalance)
    r.(acc_version) r.(acc_fundingChannelId) r.(acc_bank).

(** [model CryptoWallet]. *)
Record CryptoWallet := MkCryptoWallet {
  wal_customerId : string;
  wal_asset : Currency;
  wal_network : CryptoNetwork;
  wal_walletAddress : string;
  wal_status : AccountStatus;
  wal_availableBalance : Z;
  wal_frozenBalance : Z;
  wal_version : Z
}.

Definition set_wal_walletAddress (v : string) (r : CryptoWallet) : CryptoWallet :=
  MkCryptoWallet r.(wal_customerId) r.(wal_asset) r.(wal_network) v r.(wal_status)
    r.(wal_availableBalance) r.(wal_frozenBalance) r.(wal_version).
Definition set_wal_availableBalance (v : Z) (r : CryptoWallet) : CryptoWallet :=
  MkCryptoWallet r.(wal_customerId) r.(wal_asset) r.(wal_network) r.(wal_walletAddress) r.(wal_status) v
    r.(wal_frozenBalance) r.(wal_version).
Definition set_wal_frozenBalance (v : Z) (r : CryptoWallet) : CryptoWallet :=
  MkCryptoWallet r.(wal_customerId) r.(wal_asset) r.(wal_network) r.(wal_walletAddress) r.(wal_status)
    r.(wal_availableBalance) v r.(wal_version).
Definition set_wal_version (v : Z) (r : CryptoWallet) : CryptoWallet :=
  MkCryptoWallet r.(wal_customerId) r.(wal_asset) r.(wal_network) r.(wal_walletAddress) r.(wal_status)
    r.(wal_availableBalance) r.(wal_frozenBalance) v.

(** [model Beneficiary]. *)
Record Beneficiary := MkBeneficiary {
  ben_customerId : string;
  ben_type : BeneficiaryType;
  ben_name : string;
  ben_currency : Currency;
  ben_bankName : option string;
  ben_accountNumber : option string;
  ben_swiftBic : option string;
  ben_iban : option string;
  ben_bankAddress : option string;
  ben_countryCode : option string;
  ben_walletAddress : option string;
  ben_network : option CryptoNetwork;
  ben_active : bool
}.

Definition set_ben_active (v : bool) (r : Beneficiary) : Beneficiary :=
  MkBeneficiary r.(ben_customerId) r.(ben_type) r.(ben_name) r.(ben_currency) r.(ben_bankName)
    r.(ben_accountNumber) r.(ben_swiftBic) r.(ben_iban) r.(ben_bankAddress) r.(ben_countryCode)
    r.(ben_walletAddress) r.(ben_network) v.


(** [model FundingChannel]. *)
Record FundingChannel := MkFundingChannel {
  chan_organizationId : string;
  chan_code : string;
  chan_name : string;
  chan_type : ChannelType;
  chan_supportedCurrencies : list Currency;
  chan_active : bool;
  chan_settlementBankName : option string;
  chan_settlementAccount : option string;
  chan_swiftBic : option string;
  chan_bankCountry : option string;
  chan_bankAddress : option string;
  chan_branchName : option string;
  chan_openingFeeUsdMinor : option Z;
  chan_openingFeeVersion : Z;
  chan_openingFeeUpdatedBy : option string;
  chan_openingFeeUpdatedAt : option Z
}.

Definition set_chan_openingFeeUsdMinor (v : option Z) (r : FundingChannel) : FundingChannel :=
  MkFundingChannel r.(chan_organizationId) r.(chan_code) r.(chan_name) r.(chan_type)
    r.(chan_supportedCurrencies) r.(chan_active) r.(chan_settlementBankName)
    r.(chan_settlementAccount) r.(chan_swiftBic) r.(chan_bankCountry) r.(chan_bankAddress)
    r.(chan_branchName) v r.(chan_openingFeeVersion) r.(chan_openingFeeUpdatedBy)
    r.(chan_openingFeeUpdatedAt).
Definition set_chan_openingFeeVersion (v : Z) (r : FundingChannel) : FundingChannel :=
  MkFundingChannel r.(chan_organizationId) r.(chan_code) r.(chan_name) r.(chan_type)
    r.(chan_supportedCurrencies) r.(chan_active) r.(chan_settlementBankName)
    r.(chan_settlementAccount) r.(chan_swiftBic) r.(chan_bankCountry) r.(chan_bankAddress)
    r.(chan_branchName) r.(chan_openingFeeUsdMinor) v r.(chan_openingFeeUpdatedBy)
    r.(chan_openingFeeUpdatedAt).
Definition set_chan_openingFeeUpdatedBy (v : option string) (r : FundingChannel) : FundingChannel :=
  MkFundingChannel r.(chan_organizationId) r.(chan_code) r.(chan_name) r.(chan_type)
    r.(chan_supportedCurrencies) r.(chan_active) r.(chan_settlementBankName)
    r.(chan_settlementAccount) r.(chan_swiftBic) r.(chan_bankCountry) r.(chan_bankAddress)
    r.(chan_branchName) r.(chan_openingFeeUsdMinor) r.(chan_openingFeeVersion) v
    r.(chan_openingFeeUpdatedAt).
Definition set_chan_openingFeeUpdatedAt (v : option Z) (r : FundingChannel) : FundingChannel :=
  MkFundingChannel r.(chan_organizationId) r.(chan_code) r.(chan_name) r.(chan_type)
    r.(chan_supportedCurrencies) r.(chan_active) r.(chan_settlementBankName)
    r.(chan_settlementAccount) r.(chan_swiftBic) r.(chan_bankCountry) r.(chan_bankAddress)
    r.(chan_branchName) r.(chan_openingFeeUsdMinor) r.(chan_openingFeeVersion)
    r.(chan_openingFeeUpdatedBy) v.
Definition set_chan_active (v : bool) (r : FundingChannel) : FundingChannel :=
  MkFundingChannel r.(chan_organizationId) r.(chan_code) r.(chan_name) r.(chan_type)
    r.(chan_supportedCurrencies) v r.(chan_settlementBankName) r.(chan_settlementAccount)
    r.(chan_swiftBic) r.(chan_bankCountry) r.(chan_bankAddress) r.(chan_branchName)
    r.(chan_openingFeeUsdMinor) r.(chan_openingFeeVersion) r.(chan_openingFeeUpdatedBy)
    r.(chan_openingFeeUpdatedAt).
Definition set_chan_name (v : string) (r : FundingChannel) : FundingChannel :=
  MkFundingChannel r.(chan_organizationId) r.(chan_code) v r.(chan_type) r.(chan_supportedCurrencies)
    r.(chan_active) r.(chan_settlementBankName) r.(chan_settlementAccount) r.(chan_swiftBic)
    r.(chan_bankCountry) r.(chan_bankAddress) r.(chan_branchName) r.(chan_openingFeeUsdMinor)
    r.(chan_openingFeeVersion) r.(chan_openingFeeUpdatedBy) r.(chan_openingFeeUpdatedAt).
Definition set_chan_supportedCurrencies (v : list Currency) (r : FundingChannel) : FundingChannel :=
  MkFundingChannel r.(chan_organizationId) r.(chan_code) r.(chan_name) r.(chan_type) v r.(chan_active)
    r.(chan_settlementBankName) r.(chan_settlementAccount) r.(chan_swiftBic)
    r.(chan_bankCountry) r.(chan_bankAddress) r.(chan_branchName) r.(chan_openingFeeUsdMinor)
    r.(chan_openingFeeVersion) r.(chan_openingFeeUpdatedBy) r.(chan_openingFeeUpdatedAt).
Definition set_chan_settlementBankName (v : option string) (r : FundingChannel) : FundingChannel :=
  MkFundingChannel r.(chan_organizationId) r.(chan_code) r.(chan_name) r.(chan_type)
    r.(chan_supportedCurrencies) r.(chan_active) v r.(chan_settlementAccount)
    r.(chan_swiftBic) r.(chan_bankCountry) r.(chan_bankAddress) r.(chan_branchName)
    r.(chan_openingFeeUsdMinor) r.(chan_openingFeeVersion) r.(chan_openingFeeUpdatedBy)
    r.(chan_openingFeeUpdatedAt).
Definition set_chan_settlementAccount (v : option string) (r : FundingChannel) : FundingChannel :=
  MkFundingChannel r.(chan_organizationId) r.(chan_code) r.(chan_name) r.(chan_type)
    r.(chan_supportedCurrencies) r.(chan_active) r.(chan_settlementBankName) v
    r.(chan_swiftBic) r.(chan_bankCountry) r.(chan_bankAddress) r.(chan_branchName)
    r.(chan_openingFeeUsdMinor) r.(chan_openingFeeVersion) r.(chan_openingFeeUpdatedBy)
    r.(chan_openingFeeUpdatedAt).
Definition set_chan_swiftBic (v : option string) (r : FundingChannel) : FundingChannel :=
  MkFundingChannel r.(chan_organizationId) r.(chan_code) r.(chan_name) r.(chan_type)
    r.(chan_supportedCurrencies) r.(chan_active) r.(chan_settlementBankName)
    r.(chan_settlementAccount) v r.(chan_bankCountry) r.(chan_bankAddress) r.(chan_branchName)
    r.(chan_openingFeeUsdMinor) r.(chan_openingFeeVersion) r.(chan_openingFeeUpdatedBy)
    r.(chan_openingFeeUpdatedAt).
Definition set_chan_bankCountry (v : option string) (r : FundingChannel) : FundingChannel :=
  MkFundingChannel r.(chan_organizationId) r.(chan_code) r.(chan_name) r.(chan_type)
    r.(chan_supportedCurrencies) r.(chan_active) r.(chan_settlementBankName)
    r.(chan_settlementAccount) r.(chan_swiftBic) v r.(chan_bankAddress) r.(chan_branchName)
    r.(chan_openingFeeUsdMinor) r.(chan_openingFeeVersion) r.(chan_openingFeeUpdatedBy)
    r.(chan_openingFeeUpdatedAt).
Definition set_chan_bankAddress (v : option string) (r : FundingChannel) : FundingChannel :=
  MkFundingChannel r.(chan_organizationId) r.(chan_code) r.(chan_name) r.(chan_type)
    r.(chan_supportedCurrencies) r.(chan_active) r.(chan_settlementBankName)
    r.(chan_settlementAccount) r.(chan_swiftBic) r.(chan_bankCountry) v r.(chan_branchName)
    r.(chan_openingFeeUsdMinor) r.(chan_openingFeeVersion) r.(chan_openingFeeUpdatedBy)
    r.(chan_openingFeeUpdatedAt).
Definition set_chan_branchName (v : option string) (r : FundingChannel) : FundingChannel :=
  MkFundingChannel r.(chan_organizationId) r.(chan_code) r.(chan_name) r.(chan_type)
    r.(chan_supportedCurrencies) r.(chan_active) r.(chan_settlementBankName)
    r.(chan_settlementAccount) r.(chan_swiftBic) r.(chan_bankCountry) r.(chan_bankAddress) v
    r.(chan_openingFeeUsdMinor) r.(chan_openingFeeVersion) r.(chan_openingFeeUpdatedBy)
    r.(chan_openingFeeUpdatedAt).

(** [model RateVersion]: the rates in units of 10^-12. *)
Record RateVersion := MkRateVersion {
  rate_type : RateType;
  rate_baseCurrency : Currency;
  rate_quoteCurrency : Currency;
  rate_buyRate : Z;
  rate_sellRate : Z;
  rate_feeBps : Z;
  rate_effectiveFrom : Z;
  rate_effectiveUntil : option Z;
  rate_active : bool
}.

(** [data: { active: false, effectiveUntil: at }] *)
Definition rate_retire (at_time : Z) (r : RateVersion) : RateVersion :=
  MkRateVersion r.(rate_type) r.(rate_baseCurrency) r.(rate_quoteCurrency) r.(rate_buyRate)
    r.(rate_sellRate) r.(rate_feeBps) r.(rate_effectiveFrom) (Some at_time) false.


(** [model Operation]: amounts in units of 10^-8, the rate in units of 10^-12. *)
Record Operation := MkOperation {
  op_reference : string;
  op_idempotencyKey : option string;
  op_customerId : string;
  op_channelId : option string;
  op_type : OperationType;
  op_status : OperationStatus;
  op_currency : Currency;
  op_amount : Z;
  op_feeAmount : Z;
  op_sourceAccountId : option string;
  op_targetAccountId : option string;
  op_beneficiaryId : option string;
  op_payoutMethod : option PayoutMethod;
  op_adjustmentDirection : option AdjustmentDirection;
  op_quoteCurrency : option Currency;
  op_quoteAmount : option Z;
  op_rate : option Z;
  op_rateVersionId : option string;
  op_makerId : string;
  op_checkerId : option string;
  op_operatorId : option string;
  op_rejectionReason : option string;
  op_externalReference : option string;
  op_remitterName : option string;
  op_remitterBank : option string;
  op_remittanceReference : option string;
  op_receivedAt : option Z;
  op_proofUrl : option string;
  op_narrative : option string;
  op_metadata : option json;
  op_submittedAt : option Z;
  op_approvedAt : option Z;
  op_executedAt : option Z;
  op_createdAt : Z
}.

Definition set_op_status (v : OperationStatus) (r : Operation) : Operation :=
  MkOperation r.(op_reference) r.(op_idempotencyKey) r.(op_customerId) r.(op_channelId) r.(op_type) v
    r.(op_currency) r.(op_amount) r.(op_feeAmount) r.(op_sourceAccountId)
    r.(op_targetAccountId) r.(op_beneficiaryId) r.(op_payoutMethod) r.(op_adjustmentDirection)
    r.(op_quoteCurrency) r.(op_quoteAmount) r.(op_rate) r.(op_rateVersionId) r.(op_makerId)
    r.(op_checkerId) r.(op_operatorId) r.(op_rejectionReason) r.(op_externalReference)
    r.(op_remitterName) r.(op_remitterBank) r.(op_remittanceReference) r.(op_receivedAt)
    r.(op_proofUrl) r.(op_narrative) r.(op_metadata) r.(op_submittedAt) r.(op_approvedAt)
    r.(op_executedAt) r.(op_createdAt).
Definition set_op_checkerId (v : option string) (r : Operation) : Operation :=
  MkOperation r.(op_reference) r.(op_idempotencyKey) r.(op_customerId) r.(op_channelId) r.(op_type)
    r.(op_status) r.(op_currency) r.(op_amount) r.(op_feeAmount) r.(op_sourceAccountId)
    r.(op_targetAccountId) r.(op_beneficiaryId) r.(op_payoutMethod) r.(op_adjustmentDirection)
    r.(op_quoteCurrency) r.(op_quoteAmount) r.(op_rate) r.(op_rateVersionId) r.(op_makerId) v
    r.(op_operatorId) r.(op_rejectionReason) r.(op_externalReference) r.(op_remitterName)
    r.(op_remitterBank) r.(op_remittanceReference) r.(op_receivedAt) r.(op_proofUrl)
    r.(op_narrative) r.(op_metadata) r.(op_submittedAt) r.(op_approvedAt) r.(op_executedAt)
    r.(op_createdAt).
Definition set_op_operatorId (v : option string) (r : Operation) : Operation :=
  MkOperation r.(op_reference) r.(op_idempotencyKey) r.(op_customerId) r.(op_channelId) r.(op_type)
    r.(op_status) r.(op_currency) r.(op_amount) r.(op_feeAmount) r.(op_sourceAccountId)
    r.(op_targetAccountId) r.(op_beneficiaryId) r.(op_payoutMethod) r.(op_adjustmentDirection)
    r.(op_quoteCurrency) r.(op_quoteAmount) r.(op_rate) r.(op_rateVersionId) r.(op_makerId)
    r.(op_checkerId) v r.(op_rejectionReason) r.(op_externalReference) r.(op_remitterName)
    r.(op_remitterBank) r.(op_remittanceReference) r.(op_receivedAt) r.(op_proofUrl)
    r.(op_narrative) r.(op_metadata) r.(op_submittedAt) r.(op_approvedAt) r.(op_executedAt)
    r.(op_createdAt).
Definition set_op_rejectionReason (v : option string) (r : Operation) : Operation :=
  MkOperation r.(op_reference) r.(op_idempotencyKey) r.(op_customerId) r.(op_channelId) r.(op_type)
    r.(op_status) r.(op_currency) r.(op_amount) r.(op_feeAmount) r.(op_sourceAccountId)
    r.(op_targetAccountId) r.(op_beneficiaryId) r.(op_payoutMethod) r.(op_adjustmentDirection)
    r.(op_quoteCurrency) r.(op_quoteAmount) r.(op_rate) r.(op_rateVersionId) r.(op_makerId)
    r.(op_checkerId) r.(op_operatorId) v r.(op_externalReference) r.(op_remitterName)
    r.(op_remitterBank) r.(op_remittanceReference) r.(op_receivedAt) r.(op_proofUrl)
    r.(op_narrative) r.(op_metadata) r.(op_submittedAt) r.(op_approvedAt) r.(op_executedAt)
    r.(op_createdAt).
Definition set_op_externalReference (v : option string) (r : Operation) : Operation :=
  MkOperation r.(op_reference) r.(op_idempotencyKey) r.(op_customerId) r.(op_channelId) r.(op_type)
    r.(op_status) r.(op_currency) r.(op_amount) r.(op_feeAmount) r.(op_sourceAccountId)
    r.(op_targetAccountId) r.(op_beneficiaryId) r.(op_payoutMethod) r.(op_adjustmentDirection)
    r.(op_quoteCurrency) r.(op_quoteAmount) r.(op_rate) r.(op_rateVersionId) r.(op_makerId)
    r.(op_checkerId) r.(op_operatorId) r.(op_rejectionReason) v r.(op_remitterName)
    r.(op_remitterBank) r.(op_remittanceReference) r.(op_receivedAt) r.(op_proofUrl)
    r.(op_narrative) r.(op_metadata) r.(op_submittedAt) r.(op_approvedAt) r.(op_executedAt)
    r.(op_createdAt).
Definition set_op_submittedAt (v : option Z) (r : Operation) : Operation :=
  MkOperation r.(op_reference) r.(op_idempotencyKey) r.(op_customerId) r.(op_channelId) r.(op_type)
    r.(op_status) r.(op_currency) r.(op_amount) r.(op_feeAmount) r.(op_sourceAccountId)
    r.(op_targetAccountId) r.(op_beneficiaryId) r.(op_payoutMethod) r.(op_adjustmentDirection)
    r.(op_quoteCurrency) r.(op_quoteAmount) r.(op_rate) r.(op_rateVersionId) r.(op_makerId)
    r.(op_checkerId) r.(op_operatorId) r.(op_rejectionReason) r.(op_externalReference)
    r.(op_remitterName) r.(op_remitterBank) r.(op_remittanceReference) r.(op_receivedAt)
    r.(op_proofUrl) r.(op_narrative) r.(op_metadata) v r.(op_approvedAt) r.(op_executedAt)
    r.(op_createdAt).
Definition set_op_approvedAt (v : option Z) (r : Operation) : Operation :=
  MkOperation r.(op_reference) r.(op_idempotencyKey) r.(op_customerId) r.(op_channelId) r.(op_type)
    r.(op_status) r.(op_currency) r.(op_amount) r.(op_feeAmount) r.(op_sourceAccountId)
    r.(op_targetAccountId) r.(op_beneficiaryId) r.(op_payoutMethod) r.(op_adjustmentDirection)
    r.(op_quoteCurrency) r.(op_quoteAmount) r.(op_rate) r.(op_rateVersionId) r.(op_makerId)
    r.(op_checkerId) r.(op_operatorId) r.(op_rejectionReason) r.(op_externalReference)
    r.(op_remitterName) r.(op_remitterBank) r.(op_remittanceReference) r.(op_receivedAt)
    r.(op_proofUrl) r.(op_narrative) r.(op_metadata) r.(op_submittedAt) v r.(op_executedAt)
    r.(op_createdAt).
Definition set_op_executedAt (v : option Z) (r : Operation) : Operation :=
  MkOperation r.(op_reference) r.(op_idempotencyKey) r.(op_customerId) r.(op_channelId) r.(op_type)
    r.(op_status) r.(op_currency) r.(op_amount) r.(op_feeAmount) r.(op_sourceAccountId)
    r.(op_targetAccountId) r.(op_beneficiaryId) r.(op_payoutMethod) r.(op_adjustmentDirection)
    r.(op_quoteCurrency) r.(op_quoteAmount) r.(op_rate) r.(op_rateVersionId) r.(op_makerId)
    r.(op_checkerId) r.(op_operatorId) r.(op_rejectionReason) r.(op_externalReference)
    r.(op_remitterName) r.(op_remitterBank) r.(op_remittanceReference) r.(op_receivedAt)
    r.(op_proofUrl) r.(op_narrative) r.(op_metadata) r.(op_submittedAt) r.(op_approvedAt) v
    r.(op_createdAt).
Definition set_op_quoteAmount (v : option Z) (r : Operation) : Operation :=
  MkOperation r.(op_reference) r.(op_idempotencyKey) r.(op_customerId) r.(op_channelId) r.(op_type)
    r.(op_status) r.(op_currency) r.(op_amount) r.(op_feeAmount) r.(op_sourceAccountId)
    r.(op_targetAccountId) r.(op_beneficiaryId) r.(op_payoutMethod) r.(op_adjustmentDirection)
    r.(op_quoteCurrency) v r.(op_rate) r.(op_rateVersionId) r.(op_makerId) r.(op_checkerId)
    r.(op_operatorId) r.(op_rejectionReason) r.(op_externalReference) r.(op_remitterName)
    r.(op_remitterBank) r.(op_remittanceReference) r.(op_receivedAt) r.(op_proofUrl)
    r.(op_narrative) r.(op_metadata) r.(op_submittedAt) r.(op_approvedAt) r.(op_executedAt)
    r.(op_createdAt).
Definition set_op_rate (v : option Z) (r : Operation) : Operation :=
  MkOperation r.(op_reference) r.(op_idempotencyKey) r.(op_customerId) r.(op_channelId) r.(op_type)
    r.(op_status) r.(op_currency) r.(op_amount) r.(op_feeAmount) r.(op_sourceAccountId)
    r.(op_targetAccountId) r.(op_beneficiaryId) r.(op_payoutMethod) r.(op_adjustmentDirection)
    r.(op_quoteCurrency) r.(op_quoteAmount) v r.(op_rateVersionId) r.(op_makerId)
    r.(op_checkerId) r.(op_operatorId) r.(op_rejectionReason) r.(op_externalReference)
    r.(op_remitterName) r.(op_remitterBank) r.(op_remittanceReference) r.(op_receivedAt)
    r.(op_proofUrl) r.(op_narrative) r.(op_metadata) r.(op_submittedAt) r.(op_approvedAt)
    r.(op_executedAt) r.(op_createdAt).
Definition set_op_rateVersionId (v : option string) (r : Operation) : Operation :=
  MkOperation r.(op_reference) r.(op_idempotencyKey) r.(op_customerId) r.(op_channelId) r.(op_type)
    r.(op_status) r.(op_currency) r.(op_amount) r.(op_feeAmount) r.(op_sourceAccountId)
    r.(op_targetAccountId) r.(op_beneficiaryId) r.(op_payoutMethod) r.(op_adjustmentDirection)
    r.(op_quoteCurrency) r.(op_quoteAmount) r.(op_rate) v r.(op_makerId) r.(op_checkerId)
    r.(op_operatorId) r.(op_rejectionReason) r.(op_externalReference) r.(op_remitterName)
    r.(op_remitterBank) r.(op_remittanceReference) r.(op_receivedAt) r.(op_proofUrl)
    r.(op_narrative) r.(op_metadata) r.(op_submittedAt) r.(op_approvedAt) r.(op_executedAt)
    r.(op_createdAt).

(** [model CryptoTransfer]. *)
Record CryptoTransfer := MkCryptoTransfer {
  tr_reference : string;
  tr_idempotencyKey : option string;
  tr_customerId : string;
  tr_walletId : string;
  tr_asset : Currency;
  tr_network : CryptoNetwork;
  tr_direction : CryptoTransferDirection;
  tr_status : CryptoTransferStatus;
  tr_amount : Z;
  tr_feeAmount : Z;
  tr_netAmount : Z;
  tr_fromAddress : string;
  tr_toAddress : string;
  tr_txHash : option string;
  tr_confirmations : Z;
  tr_makerId : string;
  tr_checkerId : option string;
  tr_operatorId : option string;
  tr_rejectionReason : option string;
  tr_submittedAt : Z;
  tr_approvedAt : option Z;
  tr_completedAt : option Z
}.

Definition set_tr_status (v : CryptoTransferStatus) (r : CryptoTransfer) : CryptoTransfer :=
  MkCryptoTransfer r.(tr_reference) r.(tr_idempotencyKey) r.(tr_customerId) r.(tr_walletId) r.(tr_asset)
    r.(tr_network) r.(tr_direction) v r.(tr_amount) r.(tr_feeAmount) r.(tr_netAmount)
    r.(tr_fromAddress) r.(tr_toAddress) r.(tr_txHash) r.(tr_confirmations) r.(tr_makerId)
    r.(tr_checkerId) r.(tr_operatorId) r.(tr_rejectionReason) r.(tr_submittedAt)
    r.(tr_approvedAt) r.(tr_completedAt).
Definition set_tr_checkerId (v : option string) (r : CryptoTransfer) : CryptoTransfer :=
  MkCryptoTransfer r.(tr_reference) r.(tr_idempotencyKey) r.(tr_customerId) r.(tr_walletId) r.(tr_asset)
    r.(tr_network) r.(tr_direction) r.(tr_status) r.(tr_amount) r.(tr_feeAmount)
    r.(tr_netAmount) r.(tr_fromAddress) r.(tr_toAddress) r.(tr_txHash) r.(tr_confirmations)
    r.(tr_makerId) v r.(tr_operatorId) r.(tr_rejectionReason) r.(tr_submittedAt)
    r.(tr_approvedAt) r.(tr_completedAt).
Definition set_tr_operatorId (v : option string) (r : CryptoTransfer) : CryptoTransfer :=
  MkCryptoTransfer r.(tr_reference) r.(tr_idempotencyKey) r.(tr_customerId) r.(tr_walletId) r.(tr_asset)
    r.(tr_network) r.(tr_direction) r.(tr_status) r.(tr_amount) r.(tr_feeAmount)
    r.(tr_netAmount) r.(tr_fromAddress) r.(tr_toAddress) r.(tr_txHash) r.(tr_confirmations)
    r.(tr_makerId) r.(tr_checkerId) v r.(tr_rejectionReason) r.(tr_submittedAt)
    r.(tr_approvedAt) r.(tr_completedAt).
Definition set_tr_rejectionReason (v : option string) (r : CryptoTransfer) : CryptoTransfer :=
  MkCryptoTransfer r.(tr_reference) r.(tr_idempotencyKey) r.(tr_customerId) r.(tr_walletId) r.(tr_asset)
    r.(tr_network) r.(tr_direction) r.(tr_status) r.(tr_amount) r.(tr_feeAmount)
    r.(tr_netAmount) r.(tr_fromAddress) r.(tr_toAddress) r.(tr_txHash) r.(tr_confirmations)
    r.(tr_makerId) r.(tr_checkerId) r.(tr_operatorId) v r.(tr_submittedAt) r.(tr_approvedAt)
    r.(tr_completedAt).
Definition set_tr_approvedAt (v : option Z) (r : CryptoTransfer) : CryptoTransfer :=
  MkCryptoTransfer r.(tr_reference) r.(tr_idempotencyKey) r.(tr_customerId) r.(tr_walletId) r.(tr_asset)
    r.(tr_network) r.(tr_direction) r.(tr_status) r.(tr_amount) r.(tr_feeAmount)
    r.(tr_netAmount) r.(tr_fromAddress) r.(tr_toAddress) r.(tr_txHash) r.(tr_confirmations)
    r.(tr_makerId) r.(tr_checkerId) r.(tr_operatorId) r.(tr_rejectionReason)
    r.(tr_submittedAt) v r.(tr_completedAt).
Definition set_tr_completedAt (v : option Z) (r : CryptoTransfer) : CryptoTransfer :=
  MkCryptoTransfer r.(tr_reference) r.(tr_idempotencyKey) r.(tr_customerId) r.(tr_walletId) r.(tr_asset)
    r.(tr_network) r.(tr_direction) r.(tr_status) r.(tr_amount) r.(tr_feeAmount)
    r.(tr_netAmount) r.(tr_fromAddress) r.(tr_toAddress) r.(tr_txHash) r.(tr_confirmations)
    r.(tr_makerId) r.(tr_checkerId) r.(tr_operatorId) r.(tr_rejectionReason)
    r.(tr_submittedAt) r.(tr_approvedAt) v.
Definition set_tr_txHash (v : option string) (r : CryptoTransfer) : CryptoTransfer :=
  MkCryptoTransfer r.(tr_reference) r.(tr_idempotencyKey) r.(tr_customerId) r.(tr_walletId) r.(tr_asset)
    r.(tr_network) r.(tr_direction) r.(tr_status) r.(tr_amount) r.(tr_feeAmount)
    r.(tr_netAmount) r.(tr_fromAddress) r.(tr_toAddress) v r.(tr_confirmations) r.(tr_makerId)
    r.(tr_checkerId) r.(tr_operatorId) r.(tr_rejectionReason) r.(tr_submittedAt)
    r.(tr_approvedAt) r.(tr_completedAt).
Definition set_tr_confirmations (v : Z) (r : CryptoTransfer) : CryptoTransfer :=
  MkCryptoTransfer r.(tr_reference) r.(tr_idempotencyKey) r.(tr_customerId) r.(tr_walletId) r.(tr_asset)
    r.(tr_network) r.(tr_direction) r.(tr_status) r.(tr_amount) r.(tr_feeAmount)
    r.(tr_netAmount) r.(tr_fromAddress) r.(tr_toAddress) r.(tr_txHash) v r.(tr_makerId)
    r.(tr_checkerId) r.(tr_operatorId) r.(tr_rejectionReason) r.(tr_submittedAt)
    r.(tr_approvedAt) r.(tr_completedAt).

(** [model JournalLine]. *)
Record JournalLine := MkJournalLine {
  line_accountId : string;
  line_side : JournalSide;
  line_currency : Currency;
  line_amount : Z
}.


(** [model JournalEntry] with its lines. *)
Record JournalEntry := MkJournalEntry {
  entry_reference : string;
  entry_operationId : string;
  entry_description : string;
  entry_lines : list JournalLine
}.


(** [model WithdrawalFeeRule]. *)
Record WithdrawalFeeRule := MkWithdrawalFeeRule {
  rule_scopeId : string;
  rule_organizationId : option string;
  rule_assetClass : string;
  rule_currency : Currency;
  rule_method : string;
  rule_channelCode : string;
  rule_network : string;
  rule_feeAmountMinor : Z;
  rule_feeDecimals : Z;
  rule_active : bool;
  rule_version : Z;
  rule_createdBy : string;
  rule_updatedBy : string
}.

Definition set_rule_feeAmountMinor (v : Z) (r : WithdrawalFeeRule) : WithdrawalFeeRule :=
  MkWithdrawalFeeRule r.(rule_scopeId) r.(rule_organizationId) r.(rule_assetClass) r.(rule_currency)
    r.(rule_method) r.(rule_channelCode) r.(rule_network) v r.(rule_feeDecimals)
    r.(rule_active) r.(rule_version) r.(rule_createdBy) r.(rule_updatedBy).
Definition set_rule_active (v : bool) (r : WithdrawalFeeRule) : WithdrawalFeeRule :=
  MkWithdrawalFeeRule r.(rule_scopeId) r.(rule_organizationId) r.(rule_assetClass) r.(rule_currency)
    r.(rule_method) r.(rule_channelCode) r.(rule_network) r.(rule_feeAmountMinor)
    r.(rule_feeDecimals) v r.(rule_version) r.(rule_createdBy) r.(rule_updatedBy).
Definition set_rule_version (v : Z) (r : WithdrawalFeeRule) : WithdrawalFeeRule :=
  MkWithdrawalFeeRule r.(rule_scopeId) r.(rule_organizationId) r.(rule_assetClass) r.(rule_currency)
    r.(rule_method) r.(rule_channelCode) r.(rule_network) r.(rule_feeAmountMinor)
    r.(rule_feeDecimals) r.(rule_active) v r.(rule_createdBy) r.(rule_updatedBy).
Definition set_rule_updatedBy (v : string) (r : WithdrawalFeeRule) : WithdrawalFeeRule :=
  MkWithdrawalFeeRule r.(rule_scopeId) r.(rule_organizationId) r.(rule_assetClass) r.(rule_currency)
    r.(rule_method) r.(rule_channelCode) r.(rule_network) r.(rule_feeAmountMinor)
    r.(rule_feeDecimals) r.(rule_active) r.(rule_version) r.(rule_createdBy) v.

(** [model VirtualAccountRequest]. *)
Record VaRequest := MkVaRequest {
  va_customerId : string;
  va_currency : Currency;
  va_status : AccountRequestStatus;
  va_purpose : string;
  va_preferredCountry : string;
  va_channelId : option string;
  va_requestSource : VaRequestSource;
  va_requesterEmail : option string;
  va_makerId : string;
  va_checkerId : option string;
  va_rejectionReason : option string;
  va_assignedAccountId : option string;
  va_idempotencyKey : option string;
  va_openingFeeUsdMinor : Z;
  va_openingFeeVersion : Z;
  va_openingFeeStandardUsdMinor : option Z;
  va_openingFeeBasis : string;
  va_openingFeePolicyVersion : Z;
  va_openingFeeWaivedAt : option Z;
  va_openingFeeWaivedBy : option string;
  va_openingFeeWaiverReason : option string;
  va_openingFeeWaiverBasis : option string;
  va_feeOperationId : option string;
  va_reviewedAt : option Z
}.

Definition set_va_status (v : AccountRequestStatus) (r : VaRequest) : VaRequest :=
  MkVaRequest r.(va_customerId) r.(va_currency) v r.(va_purpose) r.(va_preferredCountry)
    r.(va_channelId) r.(va_requestSource) r.(va_requesterEmail) r.(va_makerId)
    r.(va_checkerId) r.(va_rejectionReason) r.(va_assignedAccountId) r.(va_idempotencyKey)
    r.(va_openingFeeUsdMinor) r.(va_openingFeeVersion) r.(va_openingFeeStandardUsdMinor)
    r.(va_openingFeeBasis) r.(va_openingFeePolicyVersion) r.(va_openingFeeWaivedAt)
    r.(va_openingFeeWaivedBy) r.(va_openingFeeWaiverReason) r.(va_openingFeeWaiverBasis)
    r.(va_feeOperationId) r.(va_reviewedAt).
Definition set_va_checkerId (v : option string) (r : VaRequest) : VaRequest :=
  MkVaRequest r.(va_customerId) r.(va_currency) r.(va_status) r.(va_purpose) r.(va_preferredCountry)
    r.(va_channelId) r.(va_requestSource) r.(va_requesterEmail) r.(va_makerId) v
    r.(va_rejectionReason) r.(va_assignedAccountId) r.(va_idempotencyKey)
    r.(va_openingFeeUsdMinor) r.(va_openingFeeVersion) r.(va_openingFeeStandardUsdMinor)
    r.(va_openingFeeBasis) r.(va_openingFeePolicyVersion) r.(va_openingFeeWaivedAt)
    r.(va_openingFeeWaivedBy) r.(va_openingFeeWaiverReason) r.(va_openingFeeWaiverBasis)
    r.(va_feeOperationId) r.(va_reviewedAt).
Definition set_va_rejectionReason (v : option string) (r : VaRequest) : VaRequest :=
  MkVaRequest r.(va_customerId) r.(va_currency) r.(va_status) r.(va_purpose) r.(va_preferredCountry)
    r.(va_channelId) r.(va_requestSource) r.(va_requesterEmail) r.(va_makerId)
    r.(va_checkerId) v r.(va_assignedAccountId) r.(va_idempotencyKey)
    r.(va_openingFeeUsdMinor) r.(va_openingFeeVersion) r.(va_openingFeeStandardUsdMinor)
    r.(va_openingFeeBasis) r.(va_openingFeePolicyVersion) r.(va_openingFeeWaivedAt)
    r.(va_openingFeeWaivedBy) r.(va_openingFeeWaiverReason) r.(va_openingFeeWaiverBasis)
    r.(va_feeOperationId) r.(va_reviewedAt).
Definition set_va_assignedAccountId (v : option string) (r : VaRequest) : VaRequest :=
  MkVaRequest r.(va_customerId) r.(va_currency) r.(va_status) r.(va_purpose) r.(va_preferredCountry)
    r.(va_channelId) r.(va_requestSource) r.(va_requesterEmail) r.(va_makerId)
    r.(va_checkerId) r.(va_rejectionReason) v r.(va_idempotencyKey) r.(va_openingFeeUsdMinor)
    r.(va_openingFeeVersion) r.(va_openingFeeStandardUsdMinor) r.(va_openingFeeBasis)
    r.(va_openingFeePolicyVersion) r.(va_openingFeeWaivedAt) r.(va_openingFeeWaivedBy)
    r.(va_openingFeeWaiverReason) r.(va_openingFeeWaiverBasis) r.(va_feeOperationId)
    r.(va_reviewedAt).
Definition set_va_openingFeeWaivedAt (v : option Z) (r : VaRequest) : VaRequest :=
  MkVaRequest r.(va_customerId) r.(va_currency) r.(va_status) r.(va_purpose) r.(va_preferredCountry)
    r.(va_channelId) r.(va_requestSource) r.(va_requesterEmail) r.(va_makerId)
    r.(va_checkerId) r.(va_rejectionReason) r.(va_assignedAccountId) r.(va_idempotencyKey)
    r.(va_openingFeeUsdMinor) r.(va_openingFeeVersion) r.(va_openingFeeStandardUsdMinor)
    r.(va_openingFeeBasis) r.(va_openingFeePolicyVersion) v r.(va_openingFeeWaivedBy)
    r.(va_openingFeeWaiverReason) r.(va_openingFeeWaiverBasis) r.(va_feeOperationId)
    r.(va_reviewedAt).
Definition set_va_openingFeeWaivedBy (v : option string) (r : VaRequest) : VaRequest :=
  MkVaRequest r.(va_customerId) r.(va_currency) r.(va_status) r.(va_purpose) r.(va_preferredCountry)
    r.(va_channelId) r.(va_requestSource) r.(va_requesterEmail) r.(va_makerId)
    r.(va_checkerId) r.(va_rejectionReason) r.(va_assignedAccountId) r.(va_idempotencyKey)
    r.(va_openingFeeUsdMinor) r.(va_openingFeeVersion) r.(va_openingFeeStandardUsdMinor)
    r.(va_openingFeeBasis) r.(va_openingFeePolicyVersion) r.(va_openingFeeWaivedAt) v
    r.(va_openingFeeWaiverReason) r.(va_openingFeeWaiverBasis) r.(va_feeOperationId)
    r.(va_reviewedAt).
Definition set_va_openingFeeWaiverReason (v : option string) (r : VaRequest) : VaRequest :=
  MkVaRequest r.(va_customerId) r.(va_currency) r.(va_status) r.(va_purpose) r.(va_preferredCountry)
    r.(va_channelId) r.(va_requestSource) r.(va_requesterEmail) r.(va_makerId)
    r.(va_checkerId) r.(va_rejectionReason) r.(va_assignedAccountId) r.(va_idempotencyKey)
    r.(va_openingFeeUsdMinor) r.(va_openingFeeVersion) r.(va_openingFeeStandardUsdMinor)
    r.(va_openingFeeBasis) r.(va_openingFeePolicyVersion) r.(va_openingFeeWaivedAt)
    r.(va_openingFeeWaivedBy) v r.(va_openingFeeWaiverBasis) r.(va_feeOperationId)
    r.(va_reviewedAt).
Definition set_va_openingFeeWaiverBasis (v : option string) (r : VaRequest) : VaRequest :=
  MkVaRequest r.(va_customerId) r.(va_currency) r.(va_status) r.(va_purpose) r.(va_preferredCountry)
    r.(va_channelId) r.(va_requestSource) r.(va_requesterEmail) r.(va_makerId)
    r.(va_checkerId) r.(va_rejectionReason) r.(va_assignedAccountId) r.(va_idempotencyKey)
    r.(va_openingFeeUsdMinor) r.(va_openingFeeVersion) r.(va_openingFeeStandardUsdMinor)
    r.(va_openingFeeBasis) r.(va_openingFeePolicyVersion) r.(va_openingFeeWaivedAt)
    r.(va_openingFeeWaivedBy) r.(va_openingFeeWaiverReason) v r.(va_feeOperationId)
    r.(va_reviewedAt).
Definition set_va_reviewedAt (v : option Z) (r : VaRequest) : VaRequest :=
  MkVaRequest r.(va_customerId) r.(va_currency) r.(va_status) r.(va_purpose) r.(va_preferredCountry)
    r.(va_channelId) r.(va_requestSource) r.(va_requesterEmail) r.(va_makerId)
    r.(va_checkerId) r.(va_rejectionReason) r.(va_assignedAccountId) r.(va_idempotencyKey)
    r.(va_openingFeeUsdMinor) r.(va_openingFeeVersion) r.(va_openingFeeStandardUsdMinor)
    r.(va_openingFeeBasis) r.(va_openingFeePolicyVersion) r.(va_openingFeeWaivedAt)
    r.(va_openingFeeWaivedBy) r.(va_openingFeeWaiverReason) r.(va_openingFeeWaiverBasis)
    r.(va_feeOperationId) v.

(** [model VaFeePolicyEvent]. *)
Record VaFeePolicyEvent := MkVaFeePolicyEvent {
  vev_customerId : string;
  vev_version : Z;
  vev_beforeInternal : bool;
  vev_beforeExempt : bool;
  vev_afterInternal : bool;
  vev_afterExempt : bool;
  vev_reason : string;
  vev_actorId : string
}.


(** [model EmailOutbox] *)
Record EmailOutbox := MkEmailOutbox {
  mail_organizationId : string;
  mail_customerId : string;
  mail_dedupeKey : string;
  mail_templateKey : string;
  mail_recipient : string;
  mail_payload : list (string * string);
  mail_status : EmailDeliveryStatus;
  mail_attemptCount : Z;
  mail_maxAttempts : Z;
  mail_nextAttemptAt : Z;
  mail_lockedAt : option Z;
  mail_sentAt : option Z;
  mail_providerMessageId : option string;
  mail_lastErrorCode : option string;
  mail_lastErrorAt : option Z;
  mail_createdAt : Z
}.

Definition set_mail_status (v : EmailDeliveryStatus) (r : EmailOutbox) : EmailOutbox :=
  MkEmailOutbox r.(mail_organizationId) r.(mail_customerId) r.(mail_dedupeKey)
    r.(mail_templateKey) r.(mail_recipient) r.(mail_payload) v r.(mail_attemptCount)
    r.(mail_maxAttempts) r.(mail_nextAttemptAt) r.(mail_lockedAt) r.(mail_sentAt)
    r.(mail_providerMessageId) r.(mail_lastErrorCode) r.(mail_lastErrorAt) r.(mail_createdAt).
Definition set_mail_attemptCount (v : Z) (r : EmailOutbox) : EmailOutbox :=
  MkEmailOutbox r.(mail_organizationId) r.(mail_customerId) r.(mail_dedupeKey)
    r.(mail_templateKey) r.(mail_recipient) r.(mail_payload) r.(mail_status) v
    r.(mail_maxAttempts) r.(mail_nextAttemptAt) r.(mail_lockedAt) r.(mail_sentAt)
    r.(mail_providerMessageId) r.(mail_lastErrorCode) r.(mail_lastErrorAt) r.(mail_createdAt).
Definition set_mail_nextAttemptAt (v : Z) (r : EmailOutbox) : EmailOutbox :=
  MkEmailOutbox r.(mail_organizationId) r.(mail_customerId) r.(mail_dedupeKey)
    r.(mail_templateKey) r.(mail_recipient) r.(mail_payload) r.(mail_status)
    r.(mail_attemptCount) r.(mail_maxAttempts) v r.(mail_lockedAt) r.(mail_sentAt)
    r.(mail_providerMessageId) r.(mail_lastErrorCode) r.(mail_lastErrorAt) r.(mail_createdAt).
Definition set_mail_lockedAt (v : option Z) (r : EmailOutbox) : EmailOutbox :=
  MkEmailOutbox r.(mail_organizationId) r.(mail_customerId) r.(mail_dedupeKey)
    r.(mail_templateKey) r.(mail_recipient) r.(mail_payload) r.(mail_status)
    r.(mail_attemptCount) r.(mail_maxAttempts) r.(mail_nextAttemptAt) v r.(mail_sentAt)
    r.(mail_providerMessageId) r.(mail_lastErrorCode) r.(mail_lastErrorAt) r.(mail_createdAt).
Definition set_mail_sentAt (v : option Z) (r : EmailOutbox) : EmailOutbox :=
  MkEmailOutbox r.(mail_organizationId) r.(mail_customerId) r.(mail_dedupeKey)
    r.(mail_templateKey) r.(mail_recipient) r.(mail_payload) r.(mail_status)
    r.(mail_attemptCount) r.(mail_maxAttempts) r.(mail_nextAttemptAt) r.(mail_lockedAt) v
    r.(mail_providerMessageId) r.(mail_lastErrorCode) r.(mail_lastErrorAt) r.(mail_createdAt).
Definition set_mail_providerMessageId (v : option string) (r : EmailOutbox) : EmailOutbox :=
  MkEmailOutbox r.(mail_organizationId) r.(mail_customerId) r.(mail_dedupeKey)
    r.(mail_templateKey) r.(mail_recipient) r.(mail_payload) r.(mail_status)
    r.(mail_attemptCount) r.(mail_maxAttempts) r.(mail_nextAttemptAt) r.(mail_lockedAt)
    r.(mail_sentAt) v r.(mail_lastErrorCode) r.(mail_lastErrorAt) r.(mail_createdAt).
Definition set_mail_lastErrorCode (v : option string) (r : EmailOutbox) : EmailOutbox :=
  MkEmailOutbox r.(mail_organizationId) r.(mail_customerId) r.(mail_dedupeKey)
    r.(mail_templateKey) r.(mail_recipient) r.(mail_payload) r.(mail_status)
    r.(mail_attemptCount) r.(mail_maxAttempts) r.(mail_nextAttemptAt) r.(mail_lockedAt)
    r.(mail_sentAt) r.(mail_providerMessageId) v r.(mail_lastErrorAt) r.(mail_createdAt).
Definition set_mail_lastErrorAt (v : option Z) (r : EmailOutbox) : EmailOutbox :=
  MkEmailOutbox r.(mail_organizationId) r.(mail_customerId) r.(mail_dedupeKey)
    r.(mail_templateKey) r.(mail_recipient) r.(mail_payload) r.(mail_status)
    r.(mail_attemptCount) r.(mail_maxAttempts) r.(mail_nextAttemptAt) r.(mail_lockedAt)
    r.(mail_sentAt) r.(mail_providerMessageId) r.(mail_lastErrorCode) v r.(mail_createdAt).

(** Table [cregis_withdrawal_accounting]. *)
Record WithdrawalAccounting := MkWithdrawalAccounting {
  wa_tenant_id : string;
  wa_customer_id : string;
  wa_status : string;
  wa_enqueue_source : option string;
  wa_enqueued_by : option string;
  wa_reconciliation_reason : option string;
  wa_backup_sha256 : option string;
  wa_restore_tested_at : option Z;
  wa_attempt_count : Z;
  wa_next_attempt_at : Z;
  wa_locked_at : option Z;
  wa_core_operation_id : option string;
  wa_core_transfer_id : option string;
  wa_reserved_at : option Z;
  wa_released_at : option Z;
  wa_posted_at : option Z;
  wa_last_error_code : option string;
  wa_last_error_at : option Z;
  wa_created_at : Z
}.

Definition set_wa_status (v : string) (r : WithdrawalAccounting) : WithdrawalAccounting :=
  MkWithdrawalAccounting r.(wa_tenant_id) r.(wa_customer_id) v r.(wa_enqueue_source) r.(wa_enqueued_by)
    r.(wa_reconciliation_reason) r.(wa_backup_sha256) r.(wa_restore_tested_at)
    r.(wa_attempt_count) r.(wa_next_attempt_at) r.(wa_locked_at) r.(wa_core_operation_id)
    r.(wa_core_transfer_id) r.(wa_reserved_at) r.(wa_released_at) r.(wa_posted_at)
    r.(wa_last_error_code) r.(wa_last_error_at) r.(wa_created_at).
Definition set_wa_attempt_count (v : Z) (r : WithdrawalAccounting) : WithdrawalAccounting :=
  MkWithdrawalAccounting r.(wa_tenant_id) r.(wa_customer_id) r.(wa_status) r.(wa_enqueue_source) r.(wa_enqueued_by)
    r.(wa_reconciliation_reason) r.(wa_backup_sha256) r.(wa_restore_tested_at) v
    r.(wa_next_attempt_at) r.(wa_locked_at) r.(wa_core_operation_id) r.(wa_core_transfer_id)
    r.(wa_reserved_at) r.(wa_released_at) r.(wa_posted_at) r.(wa_last_error_code)
    r.(wa_last_error_at) r.(wa_created_at).
Definition set_wa_next_attempt_at (v : Z) (r : WithdrawalAccounting) : WithdrawalAccounting :=
  MkWithdrawalAccounting r.(wa_tenant_id) r.(wa_customer_id) r.(wa_status) r.(wa_enqueue_source) r.(wa_enqueued_by)
    r.(wa_reconciliation_reason) r.(wa_backup_sha256) r.(wa_restore_tested_at)
    r.(wa_attempt_count) v r.(wa_locked_at) r.(wa_core_operation_id) r.(wa_core_transfer_id)
    r.(wa_reserved_at) r.(wa_released_at) r.(wa_posted_at) r.(wa_last_error_code)
    r.(wa_last_error_at) r.(wa_created_at).
Definition set_wa_locked_at (v : option Z) (r : WithdrawalAccounting) : WithdrawalAccounting :=
  MkWithdrawalAccounting r.(wa_tenant_id) r.(wa_customer_id) r.(wa_status) r.(wa_enqueue_source) r.(wa_enqueued_by)
    r.(wa_reconciliation_reason) r.(wa_backup_sha256) r.(wa_restore_tested_at)
    r.(wa_attempt_count) r.(wa_next_attempt_at) v r.(wa_core_operation_id)
    r.(wa_core_transfer_id) r.(wa_reserved_at) r.(wa_released_at) r.(wa_posted_at)
    r.(wa_last_error_code) r.(wa_last_error_at) r.(wa_created_at).
Definition set_wa_core_operation_id (v : option string) (r : WithdrawalAccounting) : WithdrawalAccounting :=
  MkWithdrawalAccounting r.(wa_tenant_id) r.(wa_customer_id) r.(wa_status) r.(wa_enqueue_source) r.(wa_enqueued_by)
    r.(wa_reconciliation_reason) r.(wa_backup_sha256) r.(wa_restore_tested_at)
    r.(wa_attempt_count) r.(wa_next_attempt_at) r.(wa_locked_at) v r.(wa_core_transfer_id)
    r.(wa_reserved_at) r.(wa_released_at) r.(wa_posted_at) r.(wa_last_error_code)
    r.(wa_last_error_at) r.(wa_created_at).
Definition set_wa_core_transfer_id (v : option string) (r : WithdrawalAccounting) : WithdrawalAccounting :=
  MkWithdrawalAccounting r.(wa_tenant_id) r.(wa_customer_id) r.(wa_status) r.(wa_enqueue_source) r.(wa_enqueued_by)
    r.(wa_reconciliation_reason) r.(wa_backup_sha256) r.(wa_restore_tested_at)
    r.(wa_attempt_count) r.(wa_next_attempt_at) r.(wa_locked_at) r.(wa_core_operation_id) v
    r.(wa_reserved_at) r.(wa_released_at) r.(wa_posted_at) r.(wa_last_error_code)
    r.(wa_last_error_at) r.(wa_created_at).
Definition set_wa_reserved_at (v : option Z) (r : WithdrawalAccounting) : WithdrawalAccounting :=
  MkWithdrawalAccounting r.(wa_tenant_id) r.(wa_customer_id) r.(wa_status) r.(wa_enqueue_source) r.(wa_enqueued_by)
    r.(wa_reconciliation_reason) r.(wa_backup_sha256) r.(wa_restore_tested_at)
    r.(wa_attempt_count) r.(wa_next_attempt_at) r.(wa_locked_at) r.(wa_core_operation_id)
    r.(wa_core_transfer_id) v r.(wa_released_at) r.(wa_posted_at) r.(wa_last_error_code)
    r.(wa_last_error_at) r.(wa_created_at).
Definition set_wa_released_at (v : option Z) (r : WithdrawalAccounting) : WithdrawalAccounting :=
  MkWithdrawalAccounting r.(wa_tenant_id) r.(wa_customer_id) r.(wa_status) r.(wa_enqueue_source) r.(wa_enqueued_by)
    r.(wa_reconciliation_reason) r.(wa_backup_sha256) r.(wa_restore_tested_at)
    r.(wa_attempt_count) r.(wa_next_attempt_at) r.(wa_locked_at) r.(wa_core_operation_id)
    r.(wa_core_transfer_id) r.(wa_reserved_at) v r.(wa_posted_at) r.(wa_last_error_code)
    r.(wa_last_error_at) r.(wa_created_at).
Definition set_wa_posted_at (v : option Z) (r : WithdrawalAccounting) : WithdrawalAccounting :=
  MkWithdrawalAccounting r.(wa_tenant_id) r.(wa_customer_id) r.(wa_status) r.(wa_enqueue_source) r.(wa_enqueued_by)
    r.(wa_reconciliation_reason) r.(wa_backup_sha256) r.(wa_restore_tested_at)
    r.(wa_attempt_count) r.(wa_next_attempt_at) r.(wa_locked_at) r.(wa_core_operation_id)
    r.(wa_core_transfer_id) r.(wa_reserved_at) r.(wa_released_at) v r.(wa_last_error_code)
    r.(wa_last_error_at) r.(wa_created_at).
Definition set_wa_last_error_code (v : option string) (r : WithdrawalAccounting) : WithdrawalAccounting :=
  MkWithdrawalAccounting r.(wa_tenant_id) r.(wa_customer_id) r.(wa_status) r.(wa_enqueue_source) r.(wa_enqueued_by)
    r.(wa_reconciliation_reason) r.(wa_backup_sha256) r.(wa_restore_tested_at)
    r.(wa_attempt_count) r.(wa_next_attempt_at) r.(wa_locked_at) r.(wa_core_operation_id)
    r.(wa_core_transfer_id) r.(wa_reserved_at) r.(wa_released_at) r.(wa_posted_at) v
    r.(wa_last_error_at) r.(wa_created_at).
Definition set_wa_last_error_at (v : option Z) (r : WithdrawalAccounting) : WithdrawalAccounting :=
  MkWithdrawalAccounting r.(wa_tenant_id) r.(wa_customer_id) r.(wa_status) r.(wa_enqueue_source) r.(wa_enqueued_by)
    r.(wa_reconciliation_reason) r.(wa_backup_sha256) r.(wa_restore_tested_at)
    r.(wa_attempt_count) r.(wa_next_attempt_at) r.(wa_locked_at) r.(wa_core_operation_id)
    r.(wa_core_transfer_id) r.(wa_reserved_at) r.(wa_released_at) r.(wa_posted_at)
    r.(wa_last_error_code) v r.(wa_created_at).

(** Table [cregis_withdrawals]. *)
Record CregisWithdrawal := MkCregisWithdrawal {
  cx_tenant_id : string;
  cx_customer_id : string;
  cx_wallet_id : string;
  cx_currency : string;
  cx_amount_text : string;
  cx_amount_minor : Z;
  cx_fee_amount_text : string;
  cx_fee_amount_minor : Z;
  cx_net_amount_text : string;
  cx_net_amount_minor : Z;
  cx_from_address : string;
  cx_to_address : string;
  cx_status : string;
  cx_cregis_cid : option string;
  cx_txid : option string;
  cx_maker_id : string;
  cx_checker_id : option string;
  cx_operator_id : option string;
  cx_rejection_reason : option string;
  cx_reconciliation_note : option string;
  cx_reconciled_by : option string;
  cx_reconciled_at : option Z;
  cx_approved_at : option string;
  cx_completed_at : option string
}.

Definition set_cx_status (v : string) (r : CregisWithdrawal) : CregisWithdrawal :=
  MkCregisWithdrawal r.(cx_tenant_id) r.(cx_customer_id) r.(cx_wallet_id) r.(cx_currency) r.(cx_amount_text)
    r.(cx_amount_minor) r.(cx_fee_amount_text) r.(cx_fee_amount_minor) r.(cx_net_amount_text)
    r.(cx_net_amount_minor) r.(cx_from_address) r.(cx_to_address) v r.(cx_cregis_cid)
    r.(cx_txid) r.(cx_maker_id) r.(cx_checker_id) r.(cx_operator_id) r.(cx_rejection_reason)
    r.(cx_reconciliation_note) r.(cx_reconciled_by) r.(cx_reconciled_at) r.(cx_approved_at)
    r.(cx_completed_at).
Definition set_cx_reconciliation_note (v : option string) (r : CregisWithdrawal) : CregisWithdrawal :=
  MkCregisWithdrawal r.(cx_tenant_id) r.(cx_customer_id) r.(cx_wallet_id) r.(cx_currency) r.(cx_amount_text)
    r.(cx_amount_minor) r.(cx_fee_amount_text) r.(cx_fee_amount_minor) r.(cx_net_amount_text)
    r.(cx_net_amount_minor) r.(cx_from_address) r.(cx_to_address) r.(cx_status)
    r.(cx_cregis_cid) r.(cx_txid) r.(cx_maker_id) r.(cx_checker_id) r.(cx_operator_id)
    r.(cx_rejection_reason) v r.(cx_reconciled_by) r.(cx_reconciled_at) r.(cx_approved_at)
    r.(cx_completed_at).
Definition set_cx_reconciled_by (v : option string) (r : CregisWithdrawal) : CregisWithdrawal :=
  MkCregisWithdrawal r.(cx_tenant_id) r.(cx_customer_id) r.(cx_wallet_id) r.(cx_currency) r.(cx_amount_text)
    r.(cx_amount_minor) r.(cx_fee_amount_text) r.(cx_fee_amount_minor) r.(cx_net_amount_text)
    r.(cx_net_amount_minor) r.(cx_from_address) r.(cx_to_address) r.(cx_status)
    r.(cx_cregis_cid) r.(cx_txid) r.(cx_maker_id) r.(cx_checker_id) r.(cx_operator_id)
    r.(cx_rejection_reason) r.(cx_reconciliation_note) v r.(cx_reconciled_at)
    r.(cx_approved_at) r.(cx_completed_at).
Definition set_cx_reconciled_at (v : option Z) (r : CregisWithdrawal) : CregisWithdrawal :=
  MkCregisWithdrawal r.(cx_tenant_id) r.(cx_customer_id) r.(cx_wallet_id) r.(cx_currency) r.(cx_amount_text)
    r.(cx_amount_minor) r.(cx_fee_amount_text) r.(cx_fee_amount_minor) r.(cx_net_amount_text)
    r.(cx_net_amount_minor) r.(cx_from_address) r.(cx_to_address) r.(cx_status)
    r.(cx_cregis_cid) r.(cx_txid) r.(cx_maker_id) r.(cx_checker_id) r.(cx_operator_id)
    r.(cx_rejection_reason) r.(cx_reconciliation_note) r.(cx_reconciled_by) v
    r.(cx_approved_at) r.(cx_completed_at).

(** Table [cregis_wallets]. *)
Record CregisWallet := MkCregisWallet {
  cw_tenant_id : string;
  cw_customer_id : string;
  cw_address : string;
  cw_status : string;
  cw_custody_provider : option string;
  cw_ownership_verified_at : option string
}.


(** Table [customers] (the custody-side customer). *)
Record SourceCustomer := MkSourceCustomer {
  sc_tenant_id : string;
  sc_status : string;
  sc_kyc_status : string;
  sc_operations_status : string;
  sc_withdrawals_locked : bool
}.


(** Table [cregis_callback_events]. *)
Record CallbackEvent := MkCallbackEvent {
  cb_event_type : string;
  cb_cregis_cid : string;
  cb_status : string
}.


(** Table [cregis_deposit_accounting]. *)
Record DepositAccounting := MkDepositAccounting {
  da_tenant_id : string;
  da_customer_id : string;
  da_status : string;
  da_enqueue_source : option string;
  da_enqueued_by : option string;
  da_reconciliation_reason : option string;
  da_backup_sha256 : option string;
  da_restore_tested_at : option Z;
  da_attempt_count : Z;
  da_next_attempt_at : Z;
  da_locked_at : option Z;
  da_core_operation_id : option string;
  da_posted_at : option Z;
  da_last_error_code : option string;
  da_last_error_at : option Z;
  da_created_at : Z
}.

Definition set_da_status (v : string) (r : DepositAccounting) : DepositAccounting :=
  MkDepositAccounting r.(da_tenant_id) r.(da_customer_id) v r.(da_enqueue_source) r.(da_enqueued_by)
    r.(da_reconciliation_reason) r.(da_backup_sha256) r.(da_restore_tested_at)
    r.(da_attempt_count) r.(da_next_attempt_at) r.(da_locked_at) r.(da_core_operation_id)
    r.(da_posted_at) r.(da_last_error_code) r.(da_last_error_at) r.(da_created_at).
Definition set_da_attempt_count (v : Z) (r : DepositAccounting) : DepositAccounting :=
  MkDepositAccounting r.(da_tenant_id) r.(da_customer_id) r.(da_status) r.(da_enqueue_source) r.(da_enqueued_by)
    r.(da_reconciliation_reason) r.(da_backup_sha256) r.(da_restore_tested_at) v
    r.(da_next_attempt_at) r.(da_locked_at) r.(da_core_operation_id) r.(da_posted_at)
    r.(da_last_error_code) r.(da_last_error_at) r.(da_created_at).
Definition set_da_next_attempt_at (v : Z) (r : DepositAccounting) : DepositAccounting :=
  MkDepositAccounting r.(da_tenant_id) r.(da_customer_id) r.(da_status) r.(da_enqueue_source) r.(da_enqueued_by)
    r.(da_reconciliation_reason) r.(da_backup_sha256) r.(da_restore_tested_at)
    r.(da_attempt_count) v r.(da_locked_at) r.(da_core_operation_id) r.(da_posted_at)
    r.(da_last_error_code) r.(da_last_error_at) r.(da_created_at).
Definition set_da_locked_at (v : option Z) (r : DepositAccounting) : DepositAccounting :=
  MkDepositAccounting r.(da_tenant_id) r.(da_customer_id) r.(da_status) r.(da_enqueue_source) r.(da_enqueued_by)
    r.(da_reconciliation_reason) r.(da_backup_sha256) r.(da_restore_tested_at)
    r.(da_attempt_count) r.(da_next_attempt_at) v r.(da_core_operation_id) r.(da_posted_at)
    r.(da_last_error_code) r.(da_last_error_at) r.(da_created_at).
Definition set_da_core_operation_id (v : option string) (r : DepositAccounting) : DepositAccounting :=
  MkDepositAccounting r.(da_tenant_id) r.(da_customer_id) r.(da_status) r.(da_enqueue_source) r.(da_enqueued_by)
    r.(da_reconciliation_reason) r.(da_backup_sha256) r.(da_restore_tested_at)
    r.(da_attempt_count) r.(da_next_attempt_at) r.(da_locked_at) v r.(da_posted_at)
    r.(da_last_error_code) r.(da_last_error_at) r.(da_created_at).
Definition set_da_posted_at (v : option Z) (r : DepositAccounting) : DepositAccounting :=
  MkDepositAccounting r.(da_tenant_id) r.(da_customer_id) r.(da_status) r.(da_enqueue_source) r.(da_enqueued_by)
    r.(da_reconciliation_reason) r.(da_backup_sha256) r.(da_restore_tested_at)
    r.(da_attempt_count) r.(da_next_attempt_at) r.(da_locked_at) r.(da_core_operation_id) v
    r.(da_last_error_code) r.(da_last_error_at) r.(da_created_at).
Definition set_da_last_error_code (v : option string) (r : DepositAccounting) : DepositAccounting :=
  MkDepositAccounting r.(da_tenant_id) r.(da_customer_id) r.(da_status) r.(da_enqueue_source) r.(da_enqueued_by)
    r.(da_reconciliation_reason) r.(da_backup_sha256) r.(da_restore_tested_at)
    r.(da_attempt_count) r.(da_next_attempt_at) r.(da_locked_at) r.(da_core_operation_id)
    r.(da_posted_at) v r.(da_last_error_at) r.(da_created_at).
Definition set_da_last_error_at (v : option Z) (r : DepositAccounting) : DepositAccounting :=
  MkDepositAccounting r.(da_tenant_id) r.(da_customer_id) r.(da_status) r.(da_enqueue_source) r.(da_enqueued_by)
    r.(da_reconciliation_reason) r.(da_backup_sha256) r.(da_restore_tested_at)
    r.(da_attempt_count) r.(da_next_attempt_at) r.(da_locked_at) r.(da_core_operation_id)
    r.(da_posted_at) r.(da_last_error_code) v r.(da_created_at).

(** Table [cregis_deposits]. *)
Record CregisDeposit := MkCregisDeposit {
  cd_tenant_id : string;
  cd_wallet_id : string;
  cd_cregis_cid : string;
  cd_chain_id : string;
  cd_token_id : string;
  cd_currency : string;
  cd_address : string;
  cd_from_address : option string;
  cd_amount_text : string;
  cd_amount_minor : Z;
  cd_status : string;
  cd_txid : option string;
  cd_received_at : string;
  cd_raw_sha256 : string
}.


(** Table [admin_users]. *)
Record AdminUser := MkAdminUser {
  au_email : string;
  au_status : string;
  au_core_user_id : option string
}.


(** The PostgreSQL database: each table is a map from its primary key. *)
Record Db := MkDb {
  users : gmap string User;
  customers : gmap string Customer;
  accounts : gmap string Account;
  wallets : gmap string CryptoWallet;
  beneficiaries : gmap string Beneficiary;
  channels : gmap string FundingChannel;
  rateVersions : gmap string RateVersion;
  operations : gmap string Operation;
  transfers : gmap string CryptoTransfer;
  journal : list JournalEntry;
  feeRules : gmap string WithdrawalFeeRule;
  vaRequests : gmap string VaRequest;
  vaEvents : list VaFeePolicyEvent;
  outbox : gmap string EmailOutbox;
  withdrawalQueue : gmap string WithdrawalAccounting;
  depositQueue : gmap string DepositAccounting;
  custodyWithdrawals : gmap string CregisWithdrawal;
  custodyDeposits : gmap string CregisDeposit;
  custodyWallets : gmap string CregisWallet;
  sourceCustomers : gmap string SourceCustomer;
  callbacks : list CallbackEvent;
  adminUsers : list AdminUser
}.

Definition set_customers (v : gmap string Customer) (r : Db) : Db :=
  MkDb r.(users) v r.(accounts) r.(wallets) r.(beneficiaries) r.(channels) r.(rateVersions)
    r.(operations) r.(transfers) r.(journal) r.(feeRules) r.(vaRequests) r.(vaEvents)
    r.(outbox) r.(withdrawalQueue) r.(depositQueue) r.(custodyWithdrawals) r.(custodyDeposits)
    r.(custodyWallets) r.(sourceCustomers) r.(callbacks) r.(adminUsers).
Definition set_accounts (v : gmap string Account) (r : Db) : Db :=
  MkDb r.(users) r.(customers) v r.(wallets) r.(beneficiaries) r.(channels) r.(rateVersions)
    r.(operations) r.(transfers) r.(journal) r.(feeRules) r.(vaRequests) r.(vaEvents)
    r.(outbox) r.(withdrawalQueue) r.(depositQueue) r.(custodyWithdrawals) r.(custodyDeposits)
    r.(custodyWallets) r.(sourceCustomers) r.(callbacks) r.(adminUsers).
Definition set_wallets (v : gmap string CryptoWallet) (r : Db) : Db :=
  MkDb r.(users) r.(customers) r.(accounts) v r.(beneficiaries) r.(channels) r.(rateVersions)
    r.(operations) r.(transfers) r.(journal) r.(feeRules) r.(vaRequests) r.(vaEvents)
    r.(outbox) r.(withdrawalQueue) r.(depositQueue) r.(custodyWithdrawals) r.(custodyDeposits)
    r.(custodyWallets) r.(sourceCustomers) r.(callbacks) r.(adminUsers).
Definition set_beneficiaries (v : gmap string Beneficiary) (r : Db) : Db :=
  MkDb r.(users) r.(customers) r.(accounts) r.(wallets) v r.(channels) r.(rateVersions)
    r.(operations) r.(transfers) r.(journal) r.(feeRules) r.(vaRequests) r.(vaEvents) r.(outbox)
    r.(withdrawalQueue) r.(depositQueue) r.(custodyWithdrawals) r.(custodyDeposits)
    r.(custodyWallets) r.(sourceCustomers) r.(callbacks) r.(adminUsers).
Definition set_channels (v : gmap string FundingChannel) (r : Db) : Db :=
  MkDb r.(users) r.(customers) r.(accounts) r.(wallets) r.(beneficiaries) v r.(rateVersions)
    r.(operations) r.(transfers) r.(journal) r.(feeRules) r.(vaRequests) r.(vaEvents)
    r.(outbox) r.(withdrawalQueue) r.(depositQueue) r.(custodyWithdrawals) r.(custodyDeposits)
    r.(custodyWallets) r.(sourceCustomers) r.(callbacks) r.(adminUsers).
Definition set_rateVersions (v : gmap string RateVersion) (r : Db) : Db :=
  MkDb r.(users) r.(customers) r.(accounts) r.(wallets) r.(beneficiaries) r.(channels) v
    r.(operations) r.(transfers) r.(journal) r.(feeRules) r.(vaRequests) r.(vaEvents) r.(outbox)
    r.(withdrawalQueue) r.(depositQueue) r.(custodyWithdrawals) r.(custodyDeposits)
    r.(custodyWallets) r.(sourceCustomers) r.(callbacks) r.(adminUsers).
Definition set_operations (v : gmap string Operation) (r : Db) : Db :=
  MkDb r.(users) r.(customers) r.(accounts) r.(wallets) r.(beneficiaries) r.(channels)
    r.(rateVersions) v r.(transfers) r.(journal) r.(feeRules) r.(vaRequests) r.(vaEvents)
    r.(outbox) r.(withdrawalQueue) r.(depositQueue) r.(custodyWithdrawals) r.(custodyDeposits)
    r.(custodyWallets) r.(sourceCustomers) r.(callbacks) r.(adminUsers).
Definition set_transfers (v : gmap string CryptoTransfer) (r : Db) : Db :=
  MkDb r.(users) r.(customers) r.(accounts) r.(wallets) r.(beneficiaries) r.(channels)
    r.(rateVersions) r.(operations) v r.(journal) r.(feeRules) r.(vaRequests) r.(vaEvents)
    r.(outbox) r.(withdrawalQueue) r.(depositQueue) r.(custodyWithdrawals) r.(custodyDeposits)
    r.(custodyWallets) r.(sourceCustomers) r.(callbacks) r.(adminUsers).
Definition set_journal (v : list JournalEntry) (r : Db) : Db :=
  MkDb r.(users) r.(customers) r.(accounts) r.(wallets) r.(beneficiaries) r.(channels)
    r.(rateVersions) r.(operations) r.(transfers) v r.(feeRules) r.(vaRequests) r.(vaEvents)
    r.(outbox) r.(withdrawalQueue) r.(depositQueue) r.(custodyWithdrawals) r.(custodyDeposits)
    r.(custodyWallets) r.(sourceCustomers) r.(callbacks) r.(adminUsers).
Definition set_feeRules (v : gmap string WithdrawalFeeRule) (r : Db) : Db :=
  MkDb r.(users) r.(customers) r.(accounts) r.(wallets) r.(beneficiaries) r.(channels)
    r.(rateVersions) r.(operations) r.(transfers) r.(journal) v r.(vaRequests) r.(vaEvents)
    r.(outbox) r.(withdrawalQueue) r.(depositQueue) r.(custodyWithdrawals) r.(custodyDeposits)
    r.(custodyWallets) r.(sourceCustomers) r.(callbacks) r.(adminUsers).
Definition set_vaRequests (v : gmap string VaRequest) (r : Db) : Db :=
  MkDb r.(users) r.(customers) r.(accounts) r.(wallets) r.(beneficiaries) r.(channels)
    r.(rateVersions) r.(operations) r.(transfers) r.(journal) r.(feeRules) v r.(vaEvents)
    r.(outbox) r.(withdrawalQueue) r.(depositQueue) r.(custodyWithdrawals) r.(custodyDeposits)
    r.(custodyWallets) r.(sourceCustomers) r.(callbacks) r.(adminUsers).
Definition set_vaEvents (v : list VaFeePolicyEvent) (r : Db) : Db :=
  MkDb r.(users) r.(customers) r.(accounts) r.(wallets) r.(beneficiaries) r.(channels)
    r.(rateVersions) r.(operations) r.(transfers) r.(journal) r.(feeRules) r.(vaRequests) v
    r.(outbox) r.(withdrawalQueue) r.(depositQueue) r.(custodyWithdrawals) r.(custodyDeposits)
    r.(custodyWallets) r.(sourceCustomers) r.(callbacks) r.(adminUsers).
Definition set_outbox (v : gmap string EmailOutbox) (r : Db) : Db :=
  MkDb r.(users) r.(customers) r.(accounts) r.(wallets) r.(beneficiaries) r.(channels)
    r.(rateVersions) r.(operations) r.(transfers) r.(journal) r.(feeRules) r.(vaRequests)
    r.(vaEvents) v r.(withdrawalQueue) r.(depositQueue) r.(custodyWithdrawals)
    r.(custodyDeposits) r.(custodyWallets) r.(sourceCustomers) r.(callbacks) r.(adminUsers).
Definition set_withdrawalQueue (v : gmap string WithdrawalAccounting) (r : Db) : Db :=
  MkDb r.(users) r.(customers) r.(accounts) r.(wallets) r.(beneficiaries) r.(channels)
    r.(rateVersions) r.(operations) r.(transfers) r.(journal) r.(feeRules) r.(vaRequests)
    r.(vaEvents) r.(outbox) v r.(depositQueue) r.(custodyWithdrawals) r.(custodyDeposits)
    r.(custodyWallets) r.(sourceCustomers) r.(callbacks) r.(adminUsers).
Definition set_depositQueue (v : gmap string DepositAccounting) (r : Db) : Db :=
  MkDb r.(users) r.(customers) r.(accounts) r.(wallets) r.(beneficiaries) r.(channels)
    r.(rateVersions) r.(operations) r.(transfers) r.(journal) r.(feeRules) r.(vaRequests)
    r.(vaEvents) r.(outbox) r.(withdrawalQueue) v r.(custodyWithdrawals) r.(custodyDeposits)
    r.(custodyWallets) r.(sourceCustomers) r.(callbacks) r.(adminUsers).
Definition set_custodyWithdrawals (v : gmap string CregisWithdrawal) (r : Db) : Db :=
  MkDb r.(users) r.(customers) r.(accounts) r.(wallets) r.(beneficiaries) r.(channels)
    r.(rateVersions) r.(operations) r.(transfers) r.(journal) r.(feeRules) r.(vaRequests)
    r.(vaEvents) r.(outbox) r.(withdrawalQueue) r.(depositQueue) v r.(custodyDeposits)
    r.(custodyWallets) r.(sourceCustomers) r.(callbacks) r.(adminUsers).

(** ** Clock, dates and process environment

    [new Date(text).getTime()] and [date.toISOString()] are the JavaScript
    date library; all the code relies on is that an instant it formatted
    parses back to that instant.  Instants are milliseconds since the epoch. *)
Class JsDates := {
  date_parse : string → option Z;
  to_iso : Z → string;
}.
Class JsDatesLaws (JD : JsDates) : Prop := {
  date_parse_iso : ∀ t, date_parse (to_iso t) = Some t;
}.

(** [process.env] *)
Record ProcessEnv := {
  NEOBANK_SOURCE_TENANT_ID : option string;
  CORE_ORGANIZATION_ID : option string;
  CORE_ADMIN_USER_ID : option string;
  EMAIL_NOTIFICATIONS_ENABLED : option string;
}.

(** ** Constraints installed by the migrations *)

(** [numeric(36,8)] *)
Definition numeric_36_8 (z : Z) : bool := below_pow10 36 z.

(** [account_available_nonnegative], [account_frozen_nonnegative] and the
    precision of the balance columns. *)
Definition account_check (a : Account) : bool :=
  (0 <=? a.(acc_availableBalance)) && (0 <=? a.(acc_frozenBalance)) &&
  numeric_36_8 a.(acc_availableBalance) && numeric_36_8 a.(acc_frozenBalance).

(** [CryptoWallet_nonnegative_balances] *)
Definition wallet_check (w : CryptoWallet) : bool :=
  (0 <=? w.(wal_availableBalance)) && (0 <=? w.(wal_frozenBalance)) &&
  numeric_36_8 w.(wal_availableBalance) && numeric_36_8 w.(wal_frozenBalance).

(** [operation_amount_positive], [operation_fee_nonnegative] *)
Definition operation_check (o : Operation) : bool :=
  (0 <? o.(op_amount)) && (0 <=? o.(op_feeAmount)) &&
  numeric_36_8 o.(op_amount) && numeric_36_8 o.(op_feeAmount).

(** [CryptoTransfer_positive_amount] *)
Definition transfer_check (t : CryptoTransfer) : bool :=
  (0 <? t.(tr_amount)) && (0 <=? t.(tr_feeAmount)) && (0 <? t.(tr_netAmount)).

(** [journal_line_amount_positive] *)
Definition journal_line_check (l : JournalLine) : bool := 0 <? l.(line_amount).

Definition terminal_status (st : OperationStatus) : bool :=
  match st with COMPLETED | REJECTED | FAILED | CANCELLED => true | _ => false end.

(** The transition rules of the trigger on [status]. *)
Definition status_transition_ok (ty : OperationType) (old new : OperationStatus) : bool :=
  same old new ||
  match old with
  | DRAFT => includes [SUBMITTED; CANCELLED] new || (same ty OTC && same new PROCESSING)
  | SUBMITTED => includes [PROCESSING; COMPLETED; REJECTED] new ||
                 (same ty VA_OPENING_FEE && same new CANCELLED)
  | PROCESSING => includes [COMPLETED; FAILED] new
  | _ => true
  end.

Definition otc_confirmation_ok `{JD : JsDates} (now : Z) (old new : Operation) : bool :=
  negb (differs new.(op_status) old.(op_status) &&
        ((same new.(op_status) PROCESSING && differs old.(op_status) DRAFT) ||
         (same new.(op_status) COMPLETED && differs old.(op_status) PROCESSING))) &&
  is_none new.(op_checkerId) && is_none new.(op_approvedAt) &&
  is_some new.(op_rate) && is_some new.(op_quoteAmount) && is_some new.(op_rateVersionId) &&
  opt_eqb (json_path2 "quoteConfirmation" "customerId" new.(op_metadata))
    (Some new.(op_customerId)) &&
  match json_path2 "quoteConfirmation" "expiresAt" new.(op_metadata) with
  | Some text =>
      match date_parse text with
      | Some t => negb (same old.(op_status) DRAFT && (t <=? now))
      | None => false
      end
  | None => false
  end.

Definition checker_ok (us : gmap string User) (new : Operation) : bool :=
  match new.(op_checkerId) with
  | None => false
  | Some c =>
      differs c new.(op_makerId) ||
      match us !! c with Some u => same u.(user_role) ADMIN && u.(user_active) | None => false end
  end.

(** The trigger [guard_operation_transition] (BEFORE UPDATE ON "Operation").
    Every Prisma update rewrites [updatedAt], so a terminal row is always
    distinct from its update. *)
Definition guard_operation_transition `{JD : JsDates}
    (us : gmap string User) (now : Z) (old new : Operation) : bool :=
  same new.(op_makerId) old.(op_makerId) &&
  negb (terminal_status old.(op_status)) &&
  status_transition_ok new.(op_type) old.(op_status) new.(op_status) &&
  (if same new.(op_type) OTC && includes [PROCESSING; COMPLETED] new.(op_status)
   then otc_confirmation_ok now old new
   else negb (includes [PROCESSING; COMPLETED; REJECTED] new.(op_status)) || checker_ok us new) &&
  negb (same new.(op_type) PAYOUT && same new.(op_status) COMPLETED &&
        match new.(op_externalReference) with Some r => String.eqb (trim r) "" | None => true end).

(** ** Reads and writes

    The Prisma calls on a table given by its accessor [tbl] and its setter
    [put]: [findUnique], [create] with its unique columns and [CHECK]s,
    [update] (P2025 when there is no row) and [updateMany] (the number of rows
    changed), by primary key or over the whole table. *)
Section table.
Context {V : Type} (tbl : Db → gmap string V) (put : gmap string V → Db → Db).
(** [ok s old new]: the constraints and triggers accept the new row. *)
Context (ok : Db → V → V → bool) (name : string).

Definition find_unique (id : string) : M Db (option V) := gets (λ s, tbl s !! id).

(** [uniques]: for each unique index its columns and the test that two rows collide. *)
Definition create_row (uniques : list (list string * (V → V → bool))) (id : string) (v : V) :
    M Db unit := λ s,
  if is_some (tbl s !! id) then inl (PrismaKnown "P2002" ["id"]) else
  match List.find (λ u : list string * (V → V → bool),
          is_some (find_first (λ kv : string * V, u.2 kv.2 v) (tbl s))) uniques with
  | Some u => inl (PrismaKnown "P2002" u.1)
  | None => if ok s v v then inr (tt, put (<[id := v]> (tbl s)) s) else inl (DbFailure name)
  end.

Definition update_row (id : string) (f : V → V) : M Db V := λ s,
  match tbl s !! id with
  | None => inl (PrismaKnown "P2025" [])
  | Some v =>
      if ok s v (f v) then inr (f v, put (<[id := f v]> (tbl s)) s) else inl (DbFailure name)
  end.

Definition update_many_id (id : string) (p : V → bool) (f : V → V) : M Db Z := λ s,
  match tbl s !! id with
  | Some v =>
      if p v then
        if ok s v (f v) then inr (1, put (<[id := f v]> (tbl s)) s) else inl (DbFailure name)
      else inr (0, s)
  | None => inr (0, s)
  end.

Definition update_rows (f : V → V) (rows : list (string * V)) (m : gmap string V) : gmap string V :=
  foldr (λ kv acc, <[kv.1 := f kv.2]> acc) m rows.

Definition update_many (p : string * V → bool) (f : V → V) : M Db Z := λ s,
  let rows := find_many p (tbl s) in
  if forallb (λ kv, ok s kv.2 (f kv.2)) rows
  then inr (Z.of_nat (length rows), put (update_rows f rows (tbl s)) s)
  else inl (DbFailure name).

Lemma find_unique_ok id s v s' :
  find_unique id s = inr (v, s') ↔ v = tbl s !! id ∧ s' = s.
Proof. unfold find_unique. by rewrite gets_ok. Qed.

Lemma create_row_ok us id v s u s' :
  create_row us id v s = inr (u, s') →
  tbl s !! id = None ∧ ok s v v = true ∧ s' = put (<[id := v]> (tbl s)) s ∧
  Forall (λ x, ∀ k w, tbl s !! k = Some w → x.2 w v = false) us.
Proof.
  unfold create_row. destruct (tbl s !! id) eqn:E; simpl; [done|].
  destruct (List.find _ us) eqn:F; [done|]. destruct (ok s v v); [|done].
  intros [= <- <-]. split_and!; try done. apply Forall_forall. intros x Hx k w Hk.
  apply list_elem_of_In in Hx. pose proof (List.find_none _ _ F x Hx) as Hn. simpl in Hn.
  destruct (find_first _ _) eqn:G in Hn; [done|]. by apply (find_first_None _ _ k w G).
Qed.

Lemma update_row_ok id f s w s' :
  update_row id f s = inr (w, s') ↔
  ∃ v, tbl s !! id = Some v ∧ w = f v ∧ ok s v (f v) = true ∧ s' = put (<[id := f v]> (tbl s)) s.
Proof.
  unfold update_row. destruct (tbl s !! id) as [v|]; [|by split; [done|intros (?&?&?)]].
  destruct (ok s v (f v)) eqn:E; (split; [|intros (?&[= <-]&->&?&->); congruence]); [|done].
  intros [= <- <-]. eauto.
Qed.

Lemma update_many_id_ok id p f s n s' :
  update_many_id id p f s = inr (n, s') →
  (n = 1 ∧ ∃ v, tbl s !! id = Some v ∧ p v = true ∧ ok s v (f v) = true ∧
                s' = put (<[id := f v]> (tbl s)) s) ∨
  (n = 0 ∧ s' = s ∧ ∀ v, tbl s !! id = Some v → p v = false).
Proof.
  unfold update_many_id. destruct (tbl s !! id) as [v|] eqn:E; [|naive_solver].
  destruct (p v) eqn:P; [|naive_solver]. destruct (ok s v (f v)) eqn:O; naive_solver.
Qed.

Lemma update_many_one p f s s' :
  update_many p f s = inr (1, s') →
  ∃ k v, tbl s !! k = Some v ∧ p (k, v) = true ∧ ok s v (f v) = true ∧
         s' = put (<[k := f v]> (tbl s)) s ∧
         ∀ k' v', tbl s !! k' = Some v' → p (k', v') = true → k' = k.
Proof.
  unfold update_many. destruct (forallb _ _) eqn:F; [|done]. intros [= Hn <-].
  pose proof (find_many_elem p (tbl s)) as Hin.
  destruct (find_many p (tbl s)) as [|[k v] [|? ?]] eqn:R; simpl in Hn; [lia| |lia].
  simpl in F. apply andb_true_iff in F as [F _].
  destruct (proj1 (Hin k v)) as [Hk Hp]; [by left|].
  exists k, v. split_and!; try done. intros k' v' Hk' Hp'.
  assert ((k', v') ∈ [(k, v)]) as Hl by (by apply Hin). set_solver.
Qed.

Lemma update_rows_lookup f rows m k :
  (∀ v w, (k, v) ∈ rows → (k, w) ∈ rows → v = w) →
  update_rows f rows m !! k =
    match List.find (λ kv, String.eqb kv.1 k) rows with Some kv => Some (f kv.2) | None => m !! k end.
Proof.
  unfold update_rows. induction rows as [|[k' v] rows IH]; intros Hu; [done|]. simpl.
  destruct (String.eqb_spec k' k) as [->|]; [by rewrite lookup_insert_eq|].
  rewrite lookup_insert_ne by done. apply IH. set_solver.
Qed.

(** A successful [updateMany] maps the matching rows and keeps the others. *)
Lemma update_many_ok p f s n s' :
  update_many p f s = inr (n, s') →
  ∃ m, s' = put m s ∧ (∀ k v, tbl s !! k = Some v → p (k, v) = true → ok s v (f v) = true) ∧
       ∀ k, m !! k = (λ v, if p (k, v) then f v else v) <$> tbl s !! k.
Proof.
  unfold update_many. destruct (forallb _ _) eqn:F; [|done]. intros [= _ <-].
  pose proof (find_many_elem p (tbl s)) as Hin. eexists. split; [done|]. split.
  - intros k v Hk Hp. rewrite forallb_forall in F. apply (F (k, v)).
    apply list_elem_of_In, Hin. done.
  - intros k. rewrite update_rows_lookup by (intros v w [? _]%Hin [? _]%Hin; congruence).
    destruct (List.find _ _) as [[k' v]|] eqn:E.
    + apply List.find_some in E as [Hf%list_elem_of_In Hk%String.eqb_eq]. simpl in Hk. subst.
      apply Hin in Hf as [-> Hp]. simpl. by rewrite Hp.
    + destruct (tbl s !! k) as [v|] eqn:Hk; [|done]. simpl. destruct (p (k, v)) eqn:Hp; [|done].
      pose proof (List.find_none _ _ E (k, v)) as Hn. simpl in Hn.
      rewrite String.eqb_refl in Hn. discriminate Hn. apply list_elem_of_In, Hin. done.
Qed.
End table.

(** Two nullable columns collide only when neither is NULL. *)
Definition collides (a b : option string) : bool :=
  match a, b with Some x, Some y => String.eqb x y | _, _ => false end.
Definition no_check {V} (_ : Db) (_ _ : V) : bool := true.

Definition account_create : string → Account → M Db unit :=
  create_row accounts set_accounts (λ _ _ a, account_check a) "account_check"
    [(["accountNumber"], λ a b, collides a.(acc_accountNumber) b.(acc_accountNumber))].
Definition account_update : string → (Account → Account) → M Db Account :=
  update_row accounts set_accounts (λ _ _ a, account_check a) "account_check".
Definition account_updateMany : string → (Account → bool) → (Account → Account) → M Db Z :=
  update_many_id accounts set_accounts (λ _ _ a, account_check a) "account_check".

Definition wallet_create : string → CryptoWallet → M Db unit :=
  create_row wallets set_wallets (λ _ _ w, wallet_check w) "CryptoWallet_nonnegative_balances"
    [(["customerId"; "asset"; "network"],
       λ a b, same a.(wal_customerId) b.(wal_customerId) && same a.(wal_asset) b.(wal_asset) &&
              same a.(wal_network) b.(wal_network));
     (["network"; "walletAddress"],
       λ a b, same a.(wal_network) b.(wal_network) && same a.(wal_walletAddress) b.(wal_walletAddress))].
Definition wallet_update : string → (CryptoWallet → CryptoWallet) → M Db CryptoWallet :=
  update_row wallets set_wallets (λ _ _ w, wallet_check w) "CryptoWallet_nonnegative_balances".
Definition wallet_updateMany : string → (CryptoWallet → bool) → (CryptoWallet → CryptoWallet) → M Db Z :=
  update_many_id wallets set_wallets (λ _ _ w, wallet_check w) "CryptoWallet_nonnegative_balances".
(** [updateMany] with a [where] on other columns than the primary key. *)
Definition wallet_updateWhere : (string * CryptoWallet → bool) → (CryptoWallet → CryptoWallet) → M Db Z :=
  update_many wallets set_wallets (λ _ _ w, wallet_check w) "CryptoWallet_nonnegative_balances".

Section operation_writes.
Context {JD : JsDates}.

Definition operation_create : string → Operation → M Db unit :=
  create_row operations set_operations (λ _ _ o, operation_check o) "operation_check"
    [(["reference"], λ a b, String.eqb a.(op_reference) b.(op_reference));
     (["customerId"; "idempotencyKey"],
       λ a b, String.eqb a.(op_customerId) b.(op_customerId) &&
              collides a.(op_idempotencyKey) b.(op_idempotencyKey));
     (["channelId"; "remittanceReference"],
       λ a b, collides a.(op_channelId) b.(op_channelId) &&
              collides a.(op_remittanceReference) b.(op_remittanceReference))].
Definition operation_guard (now : Z) (s : Db) (old new : Operation) : bool :=
  guard_operation_transition s.(users) now old new && operation_check new.
Definition operation_update (now : Z) : string → (Operation → Operation) → M Db Operation :=
  update_row operations set_operations (operation_guard now) "guard_operation_transition".
Definition operation_updateMany (now : Z) :
    string → (Operation → bool) → (Operation → Operation) → M Db Z :=
  update_many_id operations set_operations (operation_guard now) "guard_operation_transition".
Definition operation_updateWhere (now : Z) :
    (string * Operation → bool) → (Operation → Operation) → M Db Z :=
  update_many operations set_operations (operation_guard now) "guard_operation_transition".
End operation_writes.

Definition transfer_create : string → CryptoTransfer → M Db unit :=
  create_row transfers set_transfers (λ _ _ t, transfer_check t) "CryptoTransfer_positive_amount"
    [(["reference"], λ a b, String.eqb a.(tr_reference) b.(tr_reference));
     (["customerId"; "idempotencyKey"],
       λ a b, String.eqb a.(tr_customerId) b.(tr_customerId) &&
              collides a.(tr_idempotencyKey) b.(tr_idempotencyKey))].
Definition transfer_update : string → (CryptoTransfer → CryptoTransfer) → M Db CryptoTransfer :=
  update_row transfers set_transfers (λ _ _ t, transfer_check t) "CryptoTransfer_positive_amount".
Definition transfer_updateMany :
    string → (CryptoTransfer → bool) → (CryptoTransfer → CryptoTransfer) → M Db Z :=
  update_many_id transfers set_transfers (λ _ _ t, transfer_check t) "CryptoTransfer_positive_amount".

(** [journalEntry.create] with nested lines; entries and lines are never
    updated ([prevent_ledger_mutation]), so the journal is a log.  The
    deferred balance trigger is not enforced here: that it never fires is a
    theorem. *)
Definition journalEntry_create (e : JournalEntry) : M Db unit := λ s,
  if existsb (λ e', String.eqb e'.(entry_reference) e.(entry_reference)) s.(journal)
  then inl (PrismaKnown "P2002" ["reference"])
  else if forallb journal_line_check e.(entry_lines)
  then inr (tt, set_journal (s.(journal) ++ [e]) s)
  else inl (DbFailure "journal_line_amount_positive").

Lemma journalEntry_create_ok e s u s' :
  journalEntry_create e s = inr (u, s') ↔
  existsb (λ e', String.eqb e'.(entry_reference) e.(entry_reference)) s.(journal) = false ∧
  forallb journal_line_check e.(entry_lines) = true ∧ s' = set_journal (s.(journal) ++ [e]) s.
Proof.
  destruct u. unfold journalEntry_create. destruct (existsb _ _); [naive_solver|].
  destruct (forallb _ _); naive_solver.
Qed.

(** [vaFeePolicyEvent.create]: unique on [(customerId, version)]. *)
Definition vaFeePolicyEvent_create (e : VaFeePolicyEvent) : M Db unit := λ s,
  if existsb (λ e', String.eqb e'.(vev_customerId) e.(vev_customerId) && (e'.(vev_version) =? e.(vev_version))) s.(vaEvents)
  then inl (PrismaKnown "P2002" ["customerId"; "version"])
  else inr (tt, set_vaEvents (s.(vaEvents) ++ [e]) s).

Definition customer_update : string → (Customer → Customer) → M Db Customer :=
  update_row customers set_customers
    (λ _ _ c, negb (c.(cust_isInternal) && c.(cust_vaFeeExempt))) "Customer_va_fee_policy_valid".
Definition customer_updateMany : string → (Customer → bool) → (Customer → Customer) → M Db Z :=
  update_many_id customers set_customers
    (λ _ _ c, negb (c.(cust_isInternal) && c.(cust_vaFeeExempt))) "Customer_va_fee_policy_valid".

(** [withdrawal_fee_rules]: [fee_amount_minor >= 0], [fee_decimals BETWEEN 0 AND 8], [version >= 1]. *)
Definition rule_check (r : WithdrawalFeeRule) : bool :=
  (0 <=? r.(rule_feeAmountMinor)) && (0 <=? r.(rule_feeDecimals)) && (r.(rule_feeDecimals) <=? 8) &&
  (1 <=? r.(rule_version)).
Definition rule_key_eqb (a b : WithdrawalFeeRule) : bool :=
  String.eqb a.(rule_scopeId) b.(rule_scopeId) && String.eqb a.(rule_assetClass) b.(rule_assetClass) &&
  same a.(rule_currency) b.(rule_currency) && String.eqb a.(rule_method) b.(rule_method) &&
  String.eqb a.(rule_channelCode) b.(rule_channelCode) && String.eqb a.(rule_network) b.(rule_network).
Definition feeRule_create : string → WithdrawalFeeRule → M Db unit :=
  create_row feeRules set_feeRules (λ _ _ r, rule_check r) "withdrawal_fee_rules_check"
    [(["scope_id"; "asset_class"; "currency"; "method"; "channel_code"; "network"], rule_key_eqb)].
Definition feeRule_updateMany :
    string → (WithdrawalFeeRule → bool) → (WithdrawalFeeRule → WithdrawalFeeRule) → M Db Z :=
  update_many_id feeRules set_feeRules (λ _ _ r, rule_check r) "withdrawal_fee_rules_check".

(** The CHECKs of ["VirtualAccountRequest"] on the opening fee and its waiver. *)
Definition va_request_check (r : VaRequest) : bool :=
  (0 <=? r.(va_openingFeeUsdMinor)) &&
  match r.(va_openingFeeStandardUsdMinor) with
  | Some std => r.(va_openingFeeUsdMinor) <=? std | None => true end &&
  includes ["STANDARD"; "BANK_FREE"; "INTERNAL"; "SPECIAL"] r.(va_openingFeeBasis) &&
  match r.(va_openingFeeWaivedAt), r.(va_openingFeeWaivedBy), r.(va_openingFeeWaiverReason),
        r.(va_openingFeeWaiverBasis) with
  | None, None, None, None => true
  | Some _, Some _, Some _, Some b =>
      includes ["INTERNAL"; "SPECIAL"] b && (0 <? r.(va_openingFeeUsdMinor))
  | _, _, _, _ => false
  end.
Definition vaRequest_create : string → VaRequest → M Db unit :=
  create_row vaRequests set_vaRequests (λ _ _ r, va_request_check r) "VirtualAccountRequest_check"
    [(["customerId"; "idempotencyKey"],
       λ a b, String.eqb a.(va_customerId) b.(va_customerId) &&
              collides a.(va_idempotencyKey) b.(va_idempotencyKey));
     (["customerId"; "channelId"; "currency"],
       λ a b, same a.(va_status) RS_SUBMITTED && same b.(va_status) RS_SUBMITTED &&
              String.eqb a.(va_customerId) b.(va_customerId) &&
              collides a.(va_channelId) b.(va_channelId) && same a.(va_currency) b.(va_currency));
     (["feeOperationId"], λ a b, collides a.(va_feeOperationId) b.(va_feeOperationId))].
Definition vaRequest_update : string → (VaRequest → VaRequest) → M Db VaRequest :=
  update_row vaRequests set_vaRequests (λ _ _ r, va_request_check r) "VirtualAccountRequest_check".

(** A [BIGINT] column. *)
Definition bigint_column (z : Z) : bool := (- 2 ^ 63 <=? z) && (z <? 2 ^ 63).

(** [FundingChannel_openingFeeUsdMinor_nonnegative] and the width of the fee's columns. *)
Definition channel_check (c : FundingChannel) : bool :=
  match c.(chan_openingFeeUsdMinor) with Some m => (0 <=? m) && bigint_column m | None => true end &&
  bigint_column c.(chan_openingFeeVersion).
Definition channel_create : string → FundingChannel → M Db unit :=
  create_row channels set_channels (λ _ _ c, channel_check c) "FundingChannel_openingFeeUsdMinor_nonnegative"
    [(["organizationId"; "code"],
       λ a b, String.eqb a.(chan_organizationId) b.(chan_organizationId) &&
              String.eqb a.(chan_code) b.(chan_code))].
Definition channel_update : string → (FundingChannel → FundingChannel) → M Db FundingChannel :=
  update_row channels set_channels (λ _ _ c, channel_check c) "FundingChannel_openingFeeUsdMinor_nonnegative".
Definition channel_updateMany :
    string → (FundingChannel → bool) → (FundingChannel → FundingChannel) → M Db Z :=
  update_many_id channels set_channels (λ _ _ c, channel_check c) "FundingChannel_openingFeeUsdMinor_nonnegative".

(** [Beneficiary_destination_shape] *)
Definition some_text (o : option string) : bool :=
  match o with Some x => negb (String.eqb (trim x) "") | None => false end.
Definition beneficiary_check (b : Beneficiary) : bool :=
  match b.(ben_type) with
  | BT_BANK =>
      some_text b.(ben_bankName) && some_text b.(ben_accountNumber) &&
      match b.(ben_countryCode) with Some x => Nat.eqb (String.length (trim x)) 2 | None => false end &&
      is_none b.(ben_walletAddress) && is_none b.(ben_network)
  | BT_CRYPTO =>
      same b.(ben_currency) USDT && same b.(ben_network) (Some TRON) && some_text b.(ben_walletAddress) &&
      is_none b.(ben_bankName) && is_none b.(ben_accountNumber) && is_none b.(ben_swiftBic) &&
      is_none b.(ben_iban) && is_none b.(ben_bankAddress) && is_none b.(ben_countryCode)
  end.
Definition beneficiary_create : string → Beneficiary → M Db unit :=
  create_row beneficiaries set_beneficiaries (λ _ _ b, beneficiary_check b) "Beneficiary_destination_shape"
    [(["customerId"; "network"; "walletAddress"],
       λ a b, String.eqb a.(ben_customerId) b.(ben_customerId) &&
              is_some a.(ben_network) && same a.(ben_network) b.(ben_network) &&
              collides a.(ben_walletAddress) b.(ben_walletAddress))].
Definition beneficiary_update : string → (Beneficiary → Beneficiary) → M Db Beneficiary :=
  update_row beneficiaries set_beneficiaries (λ _ _ b, beneficiary_check b) "Beneficiary_destination_shape".

(** ["RateVersion"] has no constraint but its key. *)
Definition rate_create : string → RateVersion → M Db unit :=
  create_row rateVersions set_rateVersions no_check "RateVersion" [].
Definition rate_updateMany : string → (RateVersion → bool) → (RateVersion → RateVersion) → M Db Z :=
  update_many_id rateVersions set_rateVersions no_check "RateVersion".
Definition rate_updateWhere : (string * RateVersion → bool) → (RateVersion → RateVersion) → M Db Z :=
  update_many rateVersions set_rateVersions no_check "RateVersion".

(** ["EmailOutbox"]: a row's key is its unique [dedupeKey]. *)
Definition outbox_updateMany : string → (EmailOutbox → bool) → (EmailOutbox → EmailOutbox) → M Db Z :=
  update_many_id outbox set_outbox no_check "EmailOutbox".
Definition outbox_updateWhere : (string * EmailOutbox → bool) → (EmailOutbox → EmailOutbox) → M Db Z :=
  update_many outbox set_outbox no_check "EmailOutbox".
