(* ===== verification/JsNumber.v ===== *)
(** JavaScript numbers: binary64, with the conversions the code uses.  The
    arithmetic is that of the Standard Library's specification of IEEE 754
    ([SpecFloat]); texts become numbers by the nearest binary64 of the decimal they
    write, and numbers become texts by [toFixed], which rounds the exact value. *)
From S2P Require Import Prelude.
From Stdlib Require Import Ascii SpecFloat.

Definition number : Type := spec_float.
Definition n_add : number → number → number := SFadd 53 1024.
Definition n_sub : number → number → number := SFsub 53 1024.
Definition n_mul : number → number → number := SFmul 53 1024.
Definition n_div : number → number → number := SFdiv 53 1024.
Definition n_lt : number → number → bool := SFltb.
Definition n_le : number → number → bool := SFleb.
(** The nearest binary64 of an integer. *)
Definition n_ofZ (z : Z) : number := binary_normalize 53 1024 z 0 false.
Definition n_isFinite (x : number) : bool :=
  match x with S754_zero _ | S754_finite _ _ _ => true | _ => false end.
Definition n_NaN : number := S754_nan.
Definition n_infinity (negative : bool) : number := S754_infinity negative.

(** ** From texts: [Number(text)] *)
Definition digit (base : Z) (c : ascii) : option Z :=
  let n := Z.of_nat (nat_of_ascii c) in
  let d := if (48 <=? n) && (n <=? 57) then n - 48
           else if (97 <=? n) && (n <=? 122) then n - 87
           else if (65 <=? n) && (n <=? 90) then n - 55 else base in
  if d <? base then Some d else None.
(** The digits at the head of a text: their value, their number and the rest. *)
Fixpoint digits (base acc count : Z) (l : list ascii) : Z * Z * list ascii :=
  match l with
  | c :: l' => match digit base c with
               | Some d => digits base (acc * base + d) (count + 1) l'
               | None => (acc, count, l)
               end
  | [] => (acc, count, l)
  end.
(** The exponent part, and the end of the text. *)
Definition exponent (l : list ascii) : option Z :=
  match l with
  | [] => Some 0
  | c :: l' =>
      if Ascii.eqb (lower_char c) "e" then
        let '(negative, l') := match l' with
                               | s :: l'' => if Ascii.eqb s "-" then (true, l'') else if Ascii.eqb s "+" then (false, l'') else (false, l')
                               | [] => (false, l')
                               end in
        let '(e, count, rest) := digits 10 0 0 l' in
        if (1 <=? count) && bool_decide (rest = []) then Some (if (negative : bool) then - e else e) else None
      else None
  end.
(** The nearest binary64 of [m * 10 ^ e]. *)
Definition of_decimal (negative : bool) (m e : Z) : number :=
  match m with
  | Zpos p =>
      if 0 <=? e
      then (if negative then SFopp else λ x, x) (n_ofZ (m * 10 ^ e))
      else match 10 ^ (- e) with
           | Zpos q => SFdiv 53 1024 (S754_finite negative p 0) (S754_finite false q 0)
           | _ => n_NaN
           end
  | _ => S754_zero negative
  end.
(** An unsigned decimal literal. *)
Definition unsigned_decimal (negative : bool) (l : list ascii) : number :=
  let '(whole, count, rest) := digits 10 0 0 l in
  let '(m, places, total, rest) :=
    match rest with
    | c :: rest' => if Ascii.eqb c "." then let '(m, k, r) := digits 10 whole 0 rest' in (m, k, count + k, r)
                    else (whole, 0, count, rest)
    | [] => (whole, 0, count, rest)
    end in
  if total <? 1 then n_NaN
  else match exponent rest with Some e => of_decimal negative m (e - places) | None => n_NaN end.
Definition based (base : Z) (l : list ascii) : number :=
  let '(m, count, rest) := digits base 0 0 l in
  if (1 <=? count) && bool_decide (rest = []) then n_ofZ m else n_NaN.
Definition signed_decimal (negative : bool) (l : list ascii) : number :=
  if String.eqb (String.string_of_list_ascii l) "Infinity" then n_infinity negative else unsigned_decimal negative l.
Definition n_of_string (text : string) : number :=
  match String.list_ascii_of_string (trim text) with
  | [] => S754_zero false
  | "+"%char :: l => signed_decimal false l
  | "-"%char :: l => signed_decimal true l
  | "0"%char :: ("x" | "X")%char :: l => based 16 l
  | "0"%char :: ("o" | "O")%char :: l => based 8 l
  | "0"%char :: ("b" | "B")%char :: l => based 2 l
  | l => signed_decimal false l
  end.

(** ** To texts *)
(** [Number::toString] of a number of at least 10^21, which [toFixed] leaves to it. *)
Class JsNumberText := { large_text : number → string }.

(** The exact value of a finite number times [2 ^ k * 10 ^ f], rounded to the
    nearest integer, ties upwards: [floor (x * 10 ^ f + 1 / 2)] of [x = m * 2 ^ e]. *)
Definition scaled (m : Z) (e : Z) (f : Z) : Z :=
  if 0 <=? e then m * 2 ^ e * 10 ^ f
  else (2 * m * 10 ^ f + 2 ^ (- e)) / (2 * 2 ^ (- e)).
(** [x.toFixed(f)] *)
Definition n_toFixed {NT : JsNumberText} (x : number) (f : nat) : string :=
  match x with
  | S754_nan => "NaN"
  | S754_infinity negative => if negative then "-Infinity" else "Infinity"
  | S754_zero _ => fixed_text 0 f
  | S754_finite negative m e =>
      let size := S754_finite false m e in
      (if negative then "-" else "") +:+
      (if n_lt size (n_ofZ (10 ^ 21)) then fixed_text (scaled (Zpos m) e (Z.of_nat f)) f else large_text size)
  end.
(** [Math.round(x)]: the nearest integer, ties upwards; [None] for what has none. *)
Definition n_round (x : number) : option Z :=
  match x with
  | S754_zero _ => Some 0
  | S754_finite negative m e => Some (scaled (if negative then Zneg m else Zpos m) e 0)
  | _ => None
  end.

(** [text.replace(/\.?0+$/, '')] *)
Fixpoint drop_zeros (l : list ascii) : list ascii :=
  match l with "0"%char :: l' => drop_zeros l' | _ => l end.
Definition strip_zeros (text : string) : string :=
  match rev (String.list_ascii_of_string text) with
  | "0"%char :: l =>
      String.string_of_list_ascii (rev (match drop_zeros l with "."%char :: l' => l' | l' => l' end))
  | _ => text
  end.

(** ** Checks *)
#[local] Instance no_large : JsNumberText := { large_text := λ _, "" }.
Example sum_of_tenths : n_toFixed (n_add (n_of_string "0.1") (n_of_string "0.2")) 17 = "0.30000000000000004".
Proof. vm_compute. reflexivity. Qed.
Example below_a_half : n_toFixed (n_of_string "1.005") 2 = "1.00".
Proof. vm_compute. reflexivity. Qed.
Example small_negative : n_toFixed (n_of_string "-1e-10") 8 = "-0.00000000".
Proof. vm_compute. reflexivity. Qed.
Example stripped : strip_zeros (n_toFixed (n_of_string " 7.2500 ") 12) = "7.25" ∧ strip_zeros (n_toFixed (n_ofZ 100) 12) = "100".
Proof. vm_compute. split; reflexivity. Qed.
Example texts_that_are_not : n_of_string "1,5" = n_NaN ∧ n_of_string "" = n_ofZ 0 ∧ n_of_string "0x10" = n_ofZ 16 ∧
  n_of_string "-Infinity" = n_infinity true ∧ n_of_string "." = n_NaN.
Proof. vm_compute. repeat split; reflexivity. Qed.
Example halves_up : n_round (n_of_string "-2.5") = Some (-2) ∧ n_round (n_of_string "2.5") = Some 3.
Proof. vm_compute. split; reflexivity. Qed.
