(* ===== verification/Access.v ===== *)
(** Supported assets, tenant access checks, market-quote freshness and the
    configuration read from the environment:
    [server/src/supported-assets.ts], [server/src/common/tenant-access.ts],
    [server/src/rates/market-rate-freshness.ts]. *)
From S2P Require Import Prelude Schema.

Definition supportedFiatCurrencies : list Currency := [USD; HKD].
Definition supportedCryptoAsset : Currency := USDT.
Definition supportedCryptoNetwork : CryptoNetwork := TRON.
(** The text of the network in ["Account".network], a text column. *)
Definition supportedCryptoNetworkText : string := "TRON".
Definition isSupportedFiatCurrency (c : Currency) : bool := includes supportedFiatCurrencies c.

Definition MAX_MARKET_FETCH_AGE_MS : Z := 2 * 60 * 1000.
Definition MAX_MARKET_SOURCE_AGE_MS : Z := 5 * 60 * 1000.
Definition MAX_MARKET_CLOCK_SKEW_MS : Z := 30 * 1000.

(** [Number.isFinite(new Date(text).getTime())] is the success of the parse. *)
Definition marketSourceTimestampsAreFresh `{JD : JsDates} (fetchedAtValue updatedAtValue : string)
    (now : Z) : bool :=
  match date_parse fetchedAtValue, date_parse updatedAtValue with
  | Some fetchedAt, Some updatedAt =>
      (now - MAX_MARKET_FETCH_AGE_MS <=? fetchedAt) && (fetchedAt <=? now + MAX_MARKET_CLOCK_SKEW_MS) &&
      (now - MAX_MARKET_SOURCE_AGE_MS <=? updatedAt) && (updatedAt <=? now + MAX_MARKET_CLOCK_SKEW_MS)
  | _, _ => false
  end.

Definition requireActiveUser (userId : string) : M Db User :=
  let! user := find_unique users userId in
  match user with
  | Some u =>
      do! throw_if (negb u.(user_active) || negb (opt_truthy u.(user_organizationId)) ||
                    differs u.(user_role) ADMIN) (Forbidden "admin_role_required");
      ret u
  | None => throw (Forbidden "admin_role_required")
  end.

Definition requireOrganizationAccess (userId organizationId : string) : M Db User :=
  let! user := requireActiveUser userId in
  do! throw_if (negb (truthy organizationId) ||
                differs user.(user_organizationId) (Some organizationId))
        (Forbidden "cross_tenant_organization");
  ret user.

Definition requireCustomerAccess (userId customerId : string) : M Db (User * Customer) :=
  let! user := requireActiveUser userId in
  let! customer := find_unique customers customerId in
  match customer with
  | Some c =>
      do! throw_if (differs (Some c.(cust_organizationId)) user.(user_organizationId))
            (NotFound "customer_not_found");
      ret (user, c)
  | None => throw (NotFound "customer_not_found")
  end.

(** The tenant, organisation and administrator the workers act for. *)
Definition tenantId (env : ProcessEnv) : string := trim_or env.(NEOBANK_SOURCE_TENANT_ID) "neobank".
Definition organizationId (env : ProcessEnv) : string := trim_or env.(CORE_ORGANIZATION_ID) "org_neobank".
Definition adminUserId (env : ProcessEnv) : string := trim_or env.(CORE_ADMIN_USER_ID) "usr_neobank_admin".

(** *** Lemmas *)
Lemma isSupportedFiat_not_usdt c : isSupportedFiatCurrency c = true → c ≠ USDT.
Proof. unfold isSupportedFiatCurrency. rewrite includes_true. set_solver. Qed.

Lemma requireActiveUser_ok uid s u s' :
  requireActiveUser uid s = inr (u, s') →
  s' = s ∧ s.(users) !! uid = Some u ∧ u.(user_active) = true ∧ u.(user_role) = ADMIN.
Proof. unfold requireActiveUser, find_unique. intros H. minvs. guards. naive_solver. Qed.

Lemma requireOrganizationAccess_ok uid org s u s' :
  requireOrganizationAccess uid org s = inr (u, s') →
  s' = s ∧ s.(users) !! uid = Some u ∧ u.(user_active) = true ∧ u.(user_role) = ADMIN ∧
  u.(user_organizationId) = Some org.
Proof.
  unfold requireOrganizationAccess. intros H. minvs.
  fwd requireActiveUser_ok as (->&?&?&?). guards. naive_solver.
Qed.

Lemma requireCustomerAccess_ok uid cid s u c s' :
  requireCustomerAccess uid cid s = inr ((u, c), s') →
  s' = s ∧ s.(users) !! uid = Some u ∧ u.(user_active) = true ∧ u.(user_role) = ADMIN ∧
  s.(customers) !! cid = Some c ∧ u.(user_organizationId) = Some c.(cust_organizationId).
Proof.
  unfold requireCustomerAccess, find_unique. intros H. minvs.
  fwd requireActiveUser_ok as (->&?&?&?).
  guards. naive_solver.
Qed.

(** *** What the access checks read *)
Lemma requireActiveUser_reads userId :
  reads (λ s s', s'.(users) = s.(users)) (requireActiveUser userId).
Proof. unfold requireActiveUser, find_unique. reading ltac:(intros ? ? Hus; by rewrite ?Hus). Qed.

Lemma requireCustomerAccess_reads userId customerId :
  reads (λ s s', s'.(users) = s.(users) ∧ s'.(customers) = s.(customers)) (requireCustomerAccess userId customerId).
Proof. unfold requireCustomerAccess, requireActiveUser, find_unique. reading ltac:(intros ? ? [Hu Hc]; by rewrite ?Hu, ?Hc). Qed.
