(* ===== verification/Ledger.v ===== *)
(** The balance and journal primitives of [OperationsService]
    ([server/src/operations/operations.service.ts]: [freeze], [unfreeze],
    [consumeFrozen], [creditAvailable], their [CryptoWallet] twins,
    [clearingAccount], [journal] and [postFee]), and the ledger quantities the
    correctness theorems speak of: available, frozen and total balance of an
    account, its journal position, and its drift (total minus journal position). *)
From S2P Require Import Prelude Decimals Schema.

(** ** Operations on a balance row *)
Section primitives.
Context {DO : DecimalOps}.

(** [availableBalance: { decrement: amount }, frozenBalance: { increment: amount },
    version: { increment: 1 }] and its three variants. *)
Definition acc_freeze (amount : D) (a : Account) : Account :=
  set_acc_version (a.(acc_version) + 1)
    (set_acc_frozenBalance (n8_add a.(acc_frozenBalance) amount)
      (set_acc_availableBalance (n8_sub a.(acc_availableBalance) amount) a)).
Definition acc_unfreeze (amount : D) (a : Account) : Account :=
  set_acc_version (a.(acc_version) + 1)
    (set_acc_frozenBalance (n8_sub a.(acc_frozenBalance) amount)
      (set_acc_availableBalance (n8_add a.(acc_availableBalance) amount) a)).
Definition acc_consume (amount : D) (a : Account) : Account :=
  set_acc_version (a.(acc_version) + 1)
    (set_acc_frozenBalance (n8_sub a.(acc_frozenBalance) amount) a).
Definition acc_credit (amount : D) (a : Account) : Account :=
  set_acc_version (a.(acc_version) + 1)
    (set_acc_availableBalance (n8_add a.(acc_availableBalance) amount) a).

Definition wal_freeze (amount : D) (w : CryptoWallet) : CryptoWallet :=
  set_wal_version (w.(wal_version) + 1)
    (set_wal_frozenBalance (n8_add w.(wal_frozenBalance) amount)
      (set_wal_availableBalance (n8_sub w.(wal_availableBalance) amount) w)).
Definition wal_unfreeze (amount : D) (w : CryptoWallet) : CryptoWallet :=
  set_wal_version (w.(wal_version) + 1)
    (set_wal_frozenBalance (n8_sub w.(wal_frozenBalance) amount)
      (set_wal_availableBalance (n8_add w.(wal_availableBalance) amount) w)).
Definition wal_consume (amount : D) (w : CryptoWallet) : CryptoWallet :=
  set_wal_version (w.(wal_version) + 1)
    (set_wal_frozenBalance (n8_sub w.(wal_frozenBalance) amount) w).
Definition wal_credit (amount : D) (w : CryptoWallet) : CryptoWallet :=
  set_wal_version (w.(wal_version) + 1)
    (set_wal_availableBalance (n8_add w.(wal_availableBalance) amount) w).

Definition acc_active (a : Account) : bool := same a.(acc_status) AS_ACTIVE.
Definition acc_available_gte (amount : D) (a : Account) : bool := n8_gte a.(acc_availableBalance) amount.
Definition acc_frozen_gte (amount : D) (a : Account) : bool := n8_gte a.(acc_frozenBalance) amount.

(** ** [OperationsService]'s primitives *)
Definition freeze (accountId : string) (amount : D) : M Db unit :=
  let! count := account_updateMany accountId
                  (λ a, acc_active a && acc_available_gte amount a) (acc_freeze amount) in
  throw_if (differs count 1) (Conflict "insufficient_available_balance").

Definition unfreeze (accountId : string) (amount : D) : M Db unit :=
  let! count := account_updateMany accountId (acc_frozen_gte amount) (acc_unfreeze amount) in
  throw_if (differs count 1) (Conflict "invalid_frozen_balance").

Definition consumeFrozen (accountId : string) (amount : D) : M Db unit :=
  let! count := account_updateMany accountId (acc_frozen_gte amount) (acc_consume amount) in
  throw_if (differs count 1) (Conflict "invalid_frozen_balance").

Definition creditAvailable (accountId : string) (amount : D) : M Db unit :=
  let! count := account_updateMany accountId acc_active (acc_credit amount) in
  throw_if (differs count 1) (Conflict "target_account_unavailable").

(** [where: { customerId, asset: 'USDT', network: 'TRON' }] *)
Definition usdt_wallet_of (customerId : string) (kw : string * CryptoWallet) : bool :=
  String.eqb kw.2.(wal_customerId) customerId && same kw.2.(wal_asset) USDT &&
  same kw.2.(wal_network) TRON.
Definition wal_active (kw : string * CryptoWallet) : bool := same kw.2.(wal_status) AS_ACTIVE.

Definition freezeCryptoWallet (customerId : string) (amount : D) : M Db unit :=
  let! count := wallet_updateWhere
    (λ kw, usdt_wallet_of customerId kw && wal_active kw && n8_gte kw.2.(wal_availableBalance) amount)
    (wal_freeze amount) in
  throw_if (differs count 1) (Conflict "insufficient_crypto_balance").

Definition unfreezeCryptoWallet (customerId : string) (amount : D) : M Db unit :=
  let! count := wallet_updateWhere
    (λ kw, usdt_wallet_of customerId kw && n8_gte kw.2.(wal_frozenBalance) amount)
    (wal_unfreeze amount) in
  throw_if (differs count 1) (Conflict "invalid_crypto_frozen_balance").

Definition consumeCryptoWalletFrozen (customerId : string) (amount : D) : M Db unit :=
  let! count := wallet_updateWhere
    (λ kw, usdt_wallet_of customerId kw && n8_gte kw.2.(wal_frozenBalance) amount)
    (wal_consume amount) in
  throw_if (differs count 1) (Conflict "invalid_crypto_frozen_balance").

Definition creditCryptoWallet (customerId : string) (amount : D) : M Db unit :=
  let! count := wallet_updateWhere
    (λ kw, usdt_wallet_of customerId kw && wal_active kw) (wal_credit amount) in
  throw_if (differs count 1) (Conflict "crypto_wallet_unavailable").

Definition clearingAccount (currency : Currency) : M Db (string * Account) :=
  let! account := gets (λ s, find_first (λ ka,
      same ka.2.(acc_kind) PLATFORM_CLEARING && same ka.2.(acc_currency) currency &&
      same ka.2.(acc_status) AS_ACTIVE) s.(accounts)) in
  require account (Conflict "clearing_account_not_configured").

(** ** Journal entries *)

(** A line as the callers write it: [accountId, side, currency, amount]. *)
Definition NewLine : Type := string * JournalSide * Currency * D.

Fixpoint totals_get (c : Currency) (m : list (Currency * D)) : option D :=
  match m with
  | [] => None
  | (c', d) :: m' => if same c c' then Some d else totals_get c m'
  end.
Fixpoint totals_set (c : Currency) (d : D) (m : list (Currency * D)) : list (Currency * D) :=
  match m with
  | [] => [(c, d)]
  | (c', d') :: m' => if same c c' then (c, d) :: m' else (c', d') :: totals_set c d m'
  end.

(** The per-currency totals of the lines, debits positive. *)
Definition totals_step (m : list (Currency * D)) (l : NewLine) : list (Currency * D) :=
  let '(_, side, currency, amount) := l in
  let signed := if same side DEBIT then amount else d_neg amount in
  totals_set currency (d_add (default (d_ofZ 0) (totals_get currency m)) signed) m.
Definition totals (lines : list NewLine) : list (Currency * D) := foldl totals_step [] lines.

Definition unbalanced (lines : list NewLine) : bool :=
  existsb (λ t : Currency * D, negb (d_isZero t.2)) (totals lines).

(** A decimal written to a [numeric(36,8)] column. *)
Definition store8 (d : D) : M Db Z := require (n8_store d) (DbFailure "numeric field overflow").

Definition store_line (l : NewLine) : M Db JournalLine :=
  let '(accountId, side, currency, amount) := l in
  let! z := store8 amount in
  ret (MkJournalLine accountId side currency z).

(** [tx.journalEntry.create({ reference, operationId, description, lines })] *)
Definition create_entry (reference operationId description : string) (lines : list NewLine) : M Db unit :=
  let! stored := for_each lines store_line in
  journalEntry_create (MkJournalEntry reference operationId description stored).

Definition operation_type_text (t : OperationType) : string :=
  match t with
  | DEPOSIT => "DEPOSIT" | PAYOUT => "PAYOUT" | ADJUSTMENT => "ADJUSTMENT"
  | INTERNAL_TRANSFER => "INTERNAL_TRANSFER" | FX => "FX" | OTC => "OTC"
  | VA_OPENING_FEE => "VA_OPENING_FEE"
  end.

(** [operation.narrative || `...`] *)
Definition narrative_or (o : Operation) (text : string) : string :=
  match o.(op_narrative) with Some n => if truthy n then n else text | None => text end.

Definition post_journal (operationId : string) (o : Operation) (lines : list NewLine)
    (suffix : string) : M Db unit :=
  do! throw_if (unbalanced lines) (Conflict "unbalanced_journal");
  create_entry (o.(op_reference) +:+ "-" +:+ suffix) operationId
    (narrative_or o (operation_type_text o.(op_type) +:+ " " +:+ o.(op_reference))) lines.

Definition op_fee (o : Operation) : D := n8_of o.(op_feeAmount).
Definition op_amt (o : Operation) : D := n8_of o.(op_amount).
(** [operation.amount.add(operation.feeAmount)] *)
Definition op_reserve (o : Operation) : D := d_add (op_amt o) (op_fee o).

Definition postFee (operationId : string) (o : Operation) : M Db unit :=
  match o.(op_sourceAccountId) with
  | Some source =>
      if d_isZero (op_fee o) || negb (truthy source) then ret tt else
      let! fee := gets (λ s, find_first (λ ka,
          same ka.2.(acc_kind) FEE_REVENUE && same ka.2.(acc_currency) o.(op_currency)) s.(accounts)) in
      let! fee := require fee (Conflict "fee_account_not_configured") in
      post_journal operationId o
        [(source, DEBIT, o.(op_currency), op_fee o); (fee.1, CREDIT, o.(op_currency), op_fee o)] "fee"
  | None => ret tt
  end.
End primitives.

(** ** Ledger quantities *)
Definition available_of (s : Db) (id : string) : Z :=
  match s.(accounts) !! id with Some a => a.(acc_availableBalance) | None => 0 end.
Definition frozen_of (s : Db) (id : string) : Z :=
  match s.(accounts) !! id with Some a => a.(acc_frozenBalance) | None => 0 end.
Definition total_of (s : Db) (id : string) : Z := available_of s id + frozen_of s id.

(** The effect of a line on the liability the bank owes to the holder of [id]. *)
Definition line_effect (id : string) (l : JournalLine) : Z :=
  if String.eqb l.(line_accountId) id
  then match l.(line_side) with CREDIT => l.(line_amount) | DEBIT => - l.(line_amount) end
  else 0.
Definition sum_list {A} (f : A → Z) (l : list A) : Z := foldr (λ x acc, f x + acc) 0 l.
Definition entry_effect (id : string) (e : JournalEntry) : Z := sum_list (line_effect id) e.(entry_lines).
(** The journal position of an account: Σ credits - Σ debits. *)
Definition position_of (s : Db) (id : string) : Z := sum_list (entry_effect id) s.(journal).
(** Balance not explained by the journal. *)
Definition drift (s : Db) (id : string) : Z := total_of s id - position_of s id.

(** Σ debits - Σ credits of an entry in one currency. *)
Definition line_signed (c : Currency) (l : JournalLine) : Z :=
  if same l.(line_currency) c
  then match l.(line_side) with DEBIT => l.(line_amount) | CREDIT => - l.(line_amount) end
  else 0.
Definition entry_imbalance (e : JournalEntry) (c : Currency) : Z := sum_list (line_signed c) e.(entry_lines).
Definition entry_balanced (e : JournalEntry) : Prop := ∀ c, entry_imbalance e c = 0.
Definition journal_balanced (s : Db) : Prop := Forall entry_balanced s.(journal).

(** Accounts whose balance columns mirror the journal: every kind but the two
    platform ledgers, whose balance columns the services never touch. *)
Definition system_kind (k : AccountKind) : bool :=
  match k with PLATFORM_CLEARING | FEE_REVENUE => true | _ => false end.
Definition system_account (s : Db) (id : string) : bool :=
  match s.(accounts) !! id with Some a => system_kind a.(acc_kind) | None => false end.

Lemma sum_list_app {A} (f : A → Z) l k : sum_list f (l ++ k) = sum_list f l + sum_list f k.
Proof. induction l as [|x l IH]; simpl; lia. Qed.

(** ** Effects of the primitives *)

(** [acct_moved id da df s s']: exactly the balances of account [id] change,
    by [da] and [df], and stay non-negative. *)
Definition same_identity (a a' : Account) : Prop :=
  a'.(acc_customerId) = a.(acc_customerId) ∧ a'.(acc_kind) = a.(acc_kind) ∧
  a'.(acc_status) = a.(acc_status) ∧ a'.(acc_currency) = a.(acc_currency) ∧
  a'.(acc_network) = a.(acc_network) ∧ a'.(acc_accountNumber) = a.(acc_accountNumber) ∧
  a'.(acc_walletAddress) = a.(acc_walletAddress) ∧ a'.(acc_fundingChannelId) = a.(acc_fundingChannelId).

#[global] Instance same_identity_refl : Reflexive same_identity.
Proof. by intros a. Qed.
#[global] Instance same_identity_trans : Transitive same_identity.
Proof. unfold same_identity. intros a b c. intuition congruence. Qed.

Definition acct_moved (id : string) (da df : Z) (s s' : Db) : Prop :=
  ∃ a a', s.(accounts) !! id = Some a ∧ s' = set_accounts (<[id := a']> s.(accounts)) s ∧
    a'.(acc_availableBalance) = a.(acc_availableBalance) + da ∧
    a'.(acc_frozenBalance) = a.(acc_frozenBalance) + df ∧
    0 ≤ a'.(acc_availableBalance) ∧ 0 ≤ a'.(acc_frozenBalance) ∧ same_identity a a'.

(** The parts of the state a change of one account leaves alone. *)
Lemma acct_moved_rest id da df s s' :
  acct_moved id da df s s' →
  s'.(operations) = s.(operations) ∧ s'.(journal) = s.(journal) ∧ s'.(wallets) = s.(wallets) ∧
  s'.(users) = s.(users) ∧ s'.(customers) = s.(customers) ∧ s'.(transfers) = s.(transfers) ∧
  dom s'.(accounts) = dom s.(accounts).
Proof.
  intros (a&a'&Ha&->&_). simpl. split_and!; try done.
  rewrite dom_insert_lookup_L; [done|by exists a].
Qed.

Lemma acct_moved_available id da df s s' i :
  acct_moved id da df s s' →
  available_of s' i = available_of s i + if String.eqb i id then da else 0.
Proof.
  intros (a&a'&Ha&->&?&_). unfold available_of; simpl.
  destruct (String.eqb_spec i id) as [->|]; simplify_map_eq; [lia|].
  destruct (_ !! i); lia.
Qed.

Lemma acct_moved_frozen id da df s s' i :
  acct_moved id da df s s' →
  frozen_of s' i = frozen_of s i + if String.eqb i id then df else 0.
Proof.
  intros (a&a'&Ha&->&_&?&_). unfold frozen_of; simpl.
  destruct (String.eqb_spec i id) as [->|]; simplify_map_eq; [lia|].
  destruct (_ !! i); lia.
Qed.

Lemma acct_moved_system id da df s s' i :
  acct_moved id da df s s' → system_account s' i = system_account s i.
Proof.
  intros (a&a'&Ha&->&_&_&_&_&_&Hk&_). unfold system_account; simpl.
  destruct (decide (i = id)) as [->|]; simplify_map_eq; congruence.
Qed.

Lemma acct_moved_drift id da df s s' i :
  acct_moved id da df s s' →
  drift s' i = drift s i + if String.eqb i id then da + df else 0.
Proof.
  intros H. unfold drift, total_of, position_of.
  rewrite (acct_moved_available _ _ _ _ _ i H), (acct_moved_frozen _ _ _ _ _ i H).
  destruct (acct_moved_rest _ _ _ _ _ H) as (_&->&_). case_match; lia.
Qed.

(** [acct_moved] preserves, for every account, its identity columns. *)
Lemma acct_moved_identity id da df s s' i a :
  acct_moved id da df s s' → s.(accounts) !! i = Some a →
  ∃ a', s'.(accounts) !! i = Some a' ∧ same_identity a a'.
Proof.
  intros (b&b'&Hb&->&_&_&_&_&Hid) Ha. simpl. destruct (decide (i = id)) as [->|].
  - exists b'. simplify_map_eq. done.
  - exists a. rewrite lookup_insert_ne by done. done.
Qed.

(** The balances after a primitive by an amount of [x] units. *)
Ltac move_eqs Hx := intros a; simpl; rewrite ?(n8_add_units _ _ _ Hx), ?(n8_sub_units _ _ _ Hx);
  split_and!; try done; lia.

Section primitive_facts.
Context {DO : DecimalOps} {DL : DecimalLaws DO}.

Lemma account_check_nonneg a :
  account_check a = true → 0 ≤ a.(acc_availableBalance) ∧ 0 ≤ a.(acc_frozenBalance).
Proof. unfold account_check. rewrite !andb_true_iff, !Z.leb_le. tauto. Qed.

(** A counted [updateMany] followed by the [count !== 1] guard. *)
Definition counted (id : string) (p : Account → bool) (f : Account → Account) (e : exn) : M Db unit :=
  let! count := account_updateMany id p f in throw_if (differs count 1) e.

Lemma counted_ok id p f e s u s' :
  counted id p f e s = inr (u, s') →
  ∃ a, s.(accounts) !! id = Some a ∧ p a = true ∧ s' = set_accounts (<[id := f a]> s.(accounts)) s ∧
       0 ≤ (f a).(acc_availableBalance) ∧ 0 ≤ (f a).(acc_frozenBalance).
Proof.
  unfold counted. intros H. minvs. guards. subst.
  fwd update_many_id_ok as [(_&a&?&?&Hc&->)|[? _]]; [|lia].
  apply account_check_nonneg in Hc as [??]. eauto 10.
Qed.

(** The same at the head of a longer run. *)
Lemma counted_then {B} id p f e (k : M Db B) s r :
  (let! count := account_updateMany id p f in do! throw_if (differs count 1) e; k) s = inr r →
  ∃ s1, counted id p f e s = inr (tt, s1) ∧ k s1 = inr r.
Proof.
  destruct r as [b s']. unfold counted. intros H. apply bind_ok in H as (n&s1&Hn&H).
  apply bind_ok in H as ([]&s2&Ht&H). exists s2. split; [|done]. by rewrite (bind_run _ _ _ _ _ Hn).
Qed.

(** A counted change by exact amounts moves the balances. *)
Lemma counted_moved id p f e da df s u s' :
  (∀ a, (f a).(acc_availableBalance) = a.(acc_availableBalance) + da ∧
        (f a).(acc_frozenBalance) = a.(acc_frozenBalance) + df ∧ same_identity a (f a)) →
  counted id p f e s = inr (u, s') →
  acct_moved id da df s s' ∧ ∃ a, s.(accounts) !! id = Some a ∧ p a = true.
Proof.
  intros Hf (a&?&?&->&?&?)%counted_ok. destruct (Hf a) as (?&?&?).
  split; [|eauto]. exists a, (f a). split_and!; done || lia.
Qed.

Lemma freeze_moved id amt x s u s' :
  d_units 8 amt = Some x → freeze id amt s = inr (u, s') →
  acct_moved id (- x) x s s' ∧ x ≤ available_of s id.
Proof.
  intros Hx [Hm (a&Ha&Hp)]%(counted_moved _ _ _ _ (- x) x); [|move_eqs Hx].
  split; [done|]. guards. unfold available_of. rewrite Ha.
  unfold acc_available_gte in *. by rewrite (n8_gte_units _ _ _ Hx), Z.leb_le in *.
Qed.

Lemma unfreeze_moved id amt x s u s' :
  d_units 8 amt = Some x → unfreeze id amt s = inr (u, s') →
  acct_moved id x (- x) s s' ∧ x ≤ frozen_of s id.
Proof.
  intros Hx [Hm (a&Ha&Hp)]%(counted_moved _ _ _ _ x (- x)); [|move_eqs Hx].
  split; [done|]. unfold frozen_of. rewrite Ha.
  unfold acc_frozen_gte in *. by rewrite (n8_gte_units _ _ _ Hx), Z.leb_le in *.
Qed.

Lemma consumeFrozen_moved id amt x s u s' :
  d_units 8 amt = Some x → consumeFrozen id amt s = inr (u, s') →
  acct_moved id 0 (- x) s s' ∧ x ≤ frozen_of s id.
Proof.
  intros Hx [Hm (a&Ha&Hp)]%(counted_moved _ _ _ _ 0 (- x)); [|move_eqs Hx].
  split; [done|]. unfold frozen_of. rewrite Ha.
  unfold acc_frozen_gte in *. by rewrite (n8_gte_units _ _ _ Hx), Z.leb_le in *.
Qed.

Lemma creditAvailable_moved id amt x s u s' :
  d_units 8 amt = Some x → creditAvailable id amt s = inr (u, s') →
  acct_moved id x 0 s s' ∧ is_Some (s.(accounts) !! id).
Proof.
  intros Hx [Hm (a&Ha&Hp)]%(counted_moved _ _ _ _ x 0); [|move_eqs Hx]. eauto.
Qed.
End primitive_facts.

(** *** Wallet primitives touch only the wallets table *)
Definition wallets_only (s s' : Db) : Prop := ∃ m, s' = set_wallets m s.

Section wallet_facts.
Context {DO : DecimalOps}.

Lemma update_many_wallets p f s n s' : wallet_updateWhere p f s = inr (n, s') → wallets_only s s'.
Proof. unfold wallet_updateWhere, update_many. case_match; [|done]. intros [= _ <-]. eexists; done. Qed.

(** A counted wallet update changes exactly one wallet of the customer. *)
Lemma counted_wallet_ok p f e s u s' :
  (let! count := wallet_updateWhere p f in throw_if (differs count 1) e) s = inr (u, s') →
  ∃ k w, s.(wallets) !! k = Some w ∧ p (k, w) = true ∧ wallet_check (f w) = true ∧
         s' = set_wallets (<[k := f w]> s.(wallets)) s.
Proof.
  intros H. minvs. guards. subst. fwd update_many_one as (k&w&?&?&?&->&_). eauto 10.
Qed.
End wallet_facts.

(** *** Journal *)
Definition stored_line {DO : DecimalOps} (l : NewLine) (z : Z) : JournalLine :=
  let '(a, side, c, _) := l in MkJournalLine a side c z.

(** [posted ls s s']: one entry with lines [ls] is appended, nothing else changes. *)
Definition posted (ls : list JournalLine) (s s' : Db) : Prop :=
  ∃ e, e.(entry_lines) = ls ∧ forallb journal_line_check ls = true ∧
       s' = set_journal (s.(journal) ++ [e]) s.

Definition pair_lines (a b : string) (c : Currency) (z : Z) : list JournalLine :=
  [MkJournalLine a DEBIT c z; MkJournalLine b CREDIT c z].

Section journal_facts.
Context {DO : DecimalOps} {DL : DecimalLaws DO}.

Lemma store_lines_ok lines zs s stored s' :
  Forall2 (λ (l : NewLine) z, d_units 8 l.2 = Some z) lines zs →
  for_each lines store_line s = inr (stored, s') →
  s' = s ∧ stored = zip_with stored_line lines zs.
Proof.
  intros Hu. revert s stored s'. induction Hu as [|[[[a sd] c] d] z ls zs Hz _ IH]; simpl; intros s stored s' H.
  - by apply ret_ok in H as [-> ->].
  - unfold store8 in H. minvs. fwd IH as [-> ->]. split; [done|]. f_equal.
    f_equal. eapply n8_store_Some; eauto.
Qed.

Lemma create_entry_posted r o d lines zs s u s' :
  Forall2 (λ (l : NewLine) z, d_units 8 l.2 = Some z) lines zs →
  create_entry r o d lines s = inr (u, s') → posted (zip_with stored_line lines zs) s s'.
Proof.
  intros Hu H. unfold create_entry in H. minvs. fwd (store_lines_ok _ _ _ _ _ Hu) as [-> ->].
  fwd journalEntry_create_ok as (_&?&->). eexists. split; [|split; done]. done.
Qed.

Lemma post_journal_posted oid o lines suf zs s u s' :
  Forall2 (λ (l : NewLine) z, d_units 8 l.2 = Some z) lines zs →
  post_journal oid o lines suf s = inr (u, s') → posted (zip_with stored_line lines zs) s s'.
Proof. intros Hu H. unfold post_journal in H. minvs. by eapply create_entry_posted. Qed.

(** The two-line entries: one debit, one credit of the same amount. *)
Lemma create_entry_pair r o d a b c amt z s u s' :
  d_units 8 amt = Some z →
  create_entry r o d [(a, DEBIT, c, amt); (b, CREDIT, c, amt)] s = inr (u, s') →
  posted (pair_lines a b c z) s s'.
Proof.
  intros Hz. apply (create_entry_posted r o d [(a, DEBIT, c, amt); (b, CREDIT, c, amt)] [z; z]).
  by repeat constructor.
Qed.
Lemma post_journal_pair oid o suf a b c amt z s u s' :
  d_units 8 amt = Some z →
  post_journal oid o [(a, DEBIT, c, amt); (b, CREDIT, c, amt)] suf s = inr (u, s') →
  posted (pair_lines a b c z) s s'.
Proof.
  intros Hz. apply (post_journal_posted oid o [(a, DEBIT, c, amt); (b, CREDIT, c, amt)] suf [z; z]).
  by repeat constructor.
Qed.
End journal_facts.

Lemma posted_rest ls s s' :
  posted ls s s' →
  s'.(accounts) = s.(accounts) ∧ s'.(operations) = s.(operations) ∧ s'.(wallets) = s.(wallets) ∧
  s'.(users) = s.(users) ∧ s'.(customers) = s.(customers) ∧ s'.(transfers) = s.(transfers).
Proof. intros (e&_&_&->). done. Qed.

Lemma posted_drift ls s s' i :
  posted ls s s' → drift s' i = drift s i - sum_list (line_effect i) ls.
Proof.
  intros (e&<-&_&->). unfold drift, total_of, available_of, frozen_of, position_of; simpl.
  rewrite sum_list_app; simpl. fold (entry_effect i e). lia.
Qed.

Lemma pair_effect i a b c z :
  sum_list (line_effect i) (pair_lines a b c z) =
  (if String.eqb b i then z else 0) - (if String.eqb a i then z else 0).
Proof. simpl. unfold line_effect; simpl. do 2 case_match; lia. Qed.

Lemma pair_balanced a b c z c' : sum_list (line_signed c') (pair_lines a b c z) = 0.
Proof. simpl. unfold line_signed; simpl. case_match; lia. Qed.

Lemma posted_balanced ls s s' :
  posted ls s s' → (∀ c, sum_list (line_signed c) ls = 0) → journal_balanced s → journal_balanced s'.
Proof.
  intros (e&<-&_&->) He Hs. unfold journal_balanced in *; simpl.
  apply Forall_app. split; [done|]. constructor; [exact He|constructor].
Qed.

Lemma posted_frozen ls s s' i : posted ls s s' → frozen_of s' i = frozen_of s i.
Proof. intros (e&_&_&->). done. Qed.
Lemma posted_available ls s s' i : posted ls s s' → available_of s' i = available_of s i.
Proof. intros (e&_&_&->). done. Qed.
Lemma posted_system ls s s' i : posted ls s s' → system_account s' i = system_account s i.
Proof. intros (e&_&_&->). done. Qed.


(** *** Platform ledger accounts *)
Lemma find_account_ok (p : Account → bool) e s ka s' :
  (let! r := gets (λ s, find_first (λ ka, p ka.2) s.(accounts)) in require r e) s = inr (ka, s') →
  s' = s ∧ s.(accounts) !! ka.1 = Some ka.2 ∧ p ka.2 = true.
Proof.
  intros H. minvs.
  match goal with H : find_first _ _ = _ |- _ => apply find_first_Some in H as [? ?] end. done.
Qed.

Lemma clearingAccount_ok {DO : DecimalOps} c s ka s' :
  clearingAccount c s = inr (ka, s') →
  s' = s ∧ s.(accounts) !! ka.1 = Some ka.2 ∧ system_account s ka.1 = true.
Proof.
  intros (->&Hk&Hp)%(find_account_ok (λ a, same a.(acc_kind) PLATFORM_CLEARING &&
    same a.(acc_currency) c && same a.(acc_status) AS_ACTIVE)).
  split_and!; try done. guards.
  unfold system_account. rewrite Hk. match goal with H : acc_kind _ = _ |- _ => by rewrite H end.
Qed.

Section fee_facts.
Context {DO : DecimalOps} {DL : DecimalLaws DO}.

(** [postFee] posts the fee from the source to a revenue account, or does nothing. *)
Lemma postFee_ok oid o s u s' :
  postFee oid o s = inr (u, s') →
  (s' = s ∧ (o.(op_feeAmount) = 0 ∨ opt_truthy o.(op_sourceAccountId) = false)) ∨
  ∃ source fee, o.(op_sourceAccountId) = Some source ∧ system_account s fee = true ∧
    posted (pair_lines source fee o.(op_currency) o.(op_feeAmount)) s s'.
Proof.
  unfold postFee, op_fee. intros H. destruct (op_sourceAccountId o) as [source|] eqn:Hs.
  2: { apply ret_ok in H as [_ ->]. auto. }
  rewrite isZero_n8 in H. destruct (_ || _) eqn:Hz.
  - apply ret_ok in H as [_ ->]. left. split; [done|].
    apply orb_true_iff in Hz as [?%Z.eqb_eq|?%negb_true_iff]; auto.
  - right. minvs. match goal with H : find_first _ _ = Some (?k, ?a) |- _ => rename k into f, a into fa; apply find_first_Some in H as [Hf Hp] end.
    guards. exists source, f. split_and!; [done| |].
    + unfold system_account. rewrite Hf. simpl in *. match goal with H : acc_kind _ = _ |- _ => by rewrite H end.
    + eapply post_journal_pair; [apply units_n8|done].
Qed.
End fee_facts.

(** ** Abstract moves

    The specification the handlers are refined to: a run moves the available
    balance, the frozen balance and the journal position of each account by
    given amounts.  [frame] says what a posting may touch at all. *)
Definition frame (s s' : Db) : Prop :=
  ∃ A W J, s' = set_accounts A (set_wallets W (set_journal J s)).

Definition at_ (id : string) (z : Z) (i : string) : Z := if String.eqb i id then z else 0.
Definition nothing (_ : string) : Z := 0.

Record effect (da df dp : string → Z) (s s' : Db) : Prop := {
  eff_frame : frame s s';
  eff_available : ∀ i, available_of s' i = available_of s i + da i;
  eff_frozen : ∀ i, frozen_of s' i = frozen_of s i + df i;
  (* the accounts of the platform's own books take the other side of the postings *)
  eff_position : ∀ i, system_account s i = false → position_of s' i = position_of s i + dp i;
  eff_identity : ∀ i, option_Forall2 same_identity (s.(accounts) !! i) (s'.(accounts) !! i);
  eff_balanced : journal_balanced s → journal_balanced s';
}.

Lemma frame_refl s : frame s s.
Proof. exists s.(accounts), s.(wallets), s.(journal). by destruct s. Qed.
Lemma frame_trans s1 s2 s3 : frame s1 s2 → frame s2 s3 → frame s1 s3.
Proof. intros (?&?&?&->) (A&W&J&->). exists A, W, J. done. Qed.
Lemma frame_operations s s' : frame s s' → s'.(operations) = s.(operations).
Proof. by intros (?&?&?&->). Qed.
Lemma frame_users s s' : frame s s' → s'.(users) = s.(users).
Proof. by intros (?&?&?&->). Qed.

Lemma eff_system_moved s s' :
  (∀ i, option_Forall2 same_identity (s.(accounts) !! i) (s'.(accounts) !! i)) →
  ∀ i, system_account s' i = system_account s i.
Proof. intros H i. unfold system_account. destruct (H i) as [a a' (_&->&_)|]; done. Qed.

Lemma eff_system da df dp s s' :
  effect da df dp s s' → ∀ i, system_account s' i = system_account s i.
Proof. intros E. apply eff_system_moved, (eff_identity _ _ _ _ _ E). Qed.

Lemma effect_refl s : effect nothing nothing nothing s s.
Proof.
  split; try done; try (intros; unfold nothing; lia). apply frame_refl.
Qed.

Lemma effect_trans da df dp da' df' dp' s1 s2 s3 :
  effect da df dp s1 s2 → effect da' df' dp' s2 s3 →
  effect (λ i, da i + da' i) (λ i, df i + df' i) (λ i, dp i + dp' i) s1 s3.
Proof.
  intros E1 E2. pose proof (eff_system _ _ _ _ _ E1) as HS.
  destruct E1 as [F1 A1 Z1 P1 S1 B1], E2 as [F2 A2 Z2 P2 S2 B2]. split.
  - by eapply frame_trans.
  - intros i. rewrite A2, A1. lia.
  - intros i. rewrite Z2, Z1. lia.
  - intros i Hi. rewrite P2, P1 by congruence. lia.
  - intros i. specialize (S1 i). specialize (S2 i).
    destruct S1 as [a b H1|]; inversion S2; subst; constructor. by etrans.
  - auto.
Qed.

Lemma effect_ext da df dp da' df' dp' s s' :
  effect da df dp s s' → (∀ i, da i = da' i) → (∀ i, df i = df' i) →
  (∀ i, system_account s i = false → dp i = dp' i) → effect da' df' dp' s s'.
Proof.
  intros [F A Z' P S B] Ha Hf Hp. split; try done; intros.
  - by rewrite <- Ha.
  - by rewrite <- Hf.
  - by rewrite <- Hp by done; apply P.
Qed.

Lemma acct_moved_effect id da df s s' :
  acct_moved id da df s s' → effect (at_ id da) (at_ id df) nothing s s'.
Proof.
  intros H. split; intros.
  - destruct H as (a&a'&_&->&_). eexists _, s.(wallets), s.(journal). by destruct s.
  - by eapply acct_moved_available.
  - by eapply acct_moved_frozen.
  - unfold position_of. destruct (acct_moved_rest _ _ _ _ _ H) as (_&->&_). unfold nothing. lia.
  - destruct H as (a&a'&Ha&->&_&_&_&_&Hid). simpl.
    destruct (decide (i = id)) as [->|].
    + rewrite Ha, lookup_insert_eq. by constructor.
    + rewrite lookup_insert_ne by done. by destruct (accounts s !! i); constructor.
  - unfold journal_balanced. by destruct (acct_moved_rest _ _ _ _ _ H) as (_&->&_).
Qed.

Lemma posted_effect ls s s' :
  posted ls s s' → (∀ c, sum_list (line_signed c) ls = 0) →
  effect nothing nothing (λ i, sum_list (line_effect i) ls) s s'.
Proof.
  intros H Hb. split; intros; unfold nothing; rewrite ?Z.add_0_r.
  - destruct H as (e&_&_&->). exists s.(accounts), s.(wallets), (s.(journal) ++ [e]). by destruct s.
  - by eapply posted_available.
  - by eapply posted_frozen.
  - destruct H as (e&<-&_&->). unfold position_of; simpl. rewrite sum_list_app; simpl. unfold entry_effect. lia.
  - destruct H as (e&_&_&->). simpl. by destruct (accounts s !! i); constructor.
  - by eapply posted_balanced.
Qed.

(** A balanced pair of lines: the position moves from one account to the other. *)
Lemma pair_posted_effect a b c z s s' :
  posted (pair_lines a b c z) s s' → effect nothing nothing (λ i, at_ b z i - at_ a z i) s s'.
Proof.
  intros H. eapply effect_ext; [apply (posted_effect _ _ _ H), pair_balanced|done|done|].
  intros i _. cbv beta. rewrite pair_effect. unfold at_. by rewrite (String.eqb_sym b), (String.eqb_sym a).
Qed.

Lemma wallets_only_effect s s' : wallets_only s s' → effect nothing nothing nothing s s'.
Proof.
  intros (m&->). split; try done; try (intros; unfold nothing, available_of, frozen_of, position_of; simpl; lia).
  eexists s.(accounts), m, s.(journal). by destruct s.
Qed.

Lemma effect_drift da df dp s s' i :
  effect da df dp s s' → system_account s i = false → drift s' i = drift s i + da i + df i - dp i.
Proof.
  intros H Hi. unfold drift, total_of.
  rewrite (eff_available _ _ _ _ _ H), (eff_frozen _ _ _ _ _ H), (eff_position _ _ _ _ _ H i Hi). lia.
Qed.

(** The point function of a platform account vanishes on customer accounts. *)
Lemma at_system s id z i : system_account s id = true → system_account s i = false → at_ id z i = 0.
Proof. unfold at_. intros. destruct (String.eqb_spec i id); congruence. Qed.

Section wallet_effects.
Context {DO : DecimalOps}.

Lemma wallet_count_effect p f e s u s' :
  (let! count := wallet_updateWhere p f in throw_if (differs count 1) e) s = inr (u, s') →
  effect nothing nothing nothing s s'.
Proof. intros (k&w&_&_&_&->)%counted_wallet_ok. apply wallets_only_effect. by eexists. Qed.

Lemma freezeCryptoWallet_effect c x s u s' :
  freezeCryptoWallet c x s = inr (u, s') → effect nothing nothing nothing s s'.
Proof. apply wallet_count_effect. Qed.
Lemma unfreezeCryptoWallet_effect c x s u s' :
  unfreezeCryptoWallet c x s = inr (u, s') → effect nothing nothing nothing s s'.
Proof. apply wallet_count_effect. Qed.
Lemma consumeCryptoWalletFrozen_effect c x s u s' :
  consumeCryptoWalletFrozen c x s = inr (u, s') → effect nothing nothing nothing s s'.
Proof. apply wallet_count_effect. Qed.
Lemma creditCryptoWallet_effect c x s u s' :
  creditCryptoWallet c x s = inr (u, s') → effect nothing nothing nothing s s'.
Proof. apply wallet_count_effect. Qed.
End wallet_effects.

Section effects.
Context {DO : DecimalOps} {DL : DecimalLaws DO}.

Lemma freeze_effect id amt x s u s' :
  d_units 8 amt = Some x → freeze id amt s = inr (u, s') →
  effect (at_ id (- x)) (at_ id x) nothing s s'.
Proof. intros Hx [H _]%(freeze_moved _ _ _ _ _ _ Hx). by apply acct_moved_effect. Qed.
Lemma unfreeze_effect id amt x s u s' :
  d_units 8 amt = Some x → unfreeze id amt s = inr (u, s') →
  effect (at_ id x) (at_ id (- x)) nothing s s'.
Proof. intros Hx [H _]%(unfreeze_moved _ _ _ _ _ _ Hx). by apply acct_moved_effect. Qed.
Lemma consumeFrozen_effect id amt x s u s' :
  d_units 8 amt = Some x → consumeFrozen id amt s = inr (u, s') →
  effect nothing (at_ id (- x)) nothing s s'.
Proof.
  intros Hx [H _]%(consumeFrozen_moved _ _ _ _ _ _ Hx). eapply effect_ext; [by apply acct_moved_effect|..]; intros; try done.
  unfold at_, nothing. by case_match.
Qed.
Lemma creditAvailable_effect id amt x s u s' :
  d_units 8 amt = Some x → creditAvailable id amt s = inr (u, s') →
  effect (at_ id x) nothing nothing s s'.
Proof.
  intros Hx [H _]%(creditAvailable_moved _ _ _ _ _ _ Hx). eapply effect_ext; [by apply acct_moved_effect|..]; intros; try done.
  unfold at_, nothing. by case_match.
Qed.

Lemma post_pair_effect oid o suf a b c amt z s u s' :
  d_units 8 amt = Some z →
  post_journal oid o [(a, DEBIT, c, amt); (b, CREDIT, c, amt)] suf s = inr (u, s') →
  effect nothing nothing (λ i, at_ b z i - at_ a z i) s s'.
Proof. intros Hz H. apply (pair_posted_effect a b c). by eapply post_journal_pair. Qed.

(** [postFee] debits the source in the journal by the fee. *)
Lemma postFee_effect oid o src s u s' :
  o.(op_sourceAccountId) = Some src → truthy src = true →
  postFee oid o s = inr (u, s') →
  effect nothing nothing (at_ src (- o.(op_feeAmount))) s s'.
Proof.
  intros Hs Ht [[-> Hz]|(src'&fee&Hs'&Hf&Hp)]%postFee_ok.
  - rewrite Hs in Hz; simpl in Hz. destruct Hz as [Hz|]; [|congruence].
    eapply effect_ext; [apply effect_refl|done|done|]. intros. unfold at_, nothing. case_match; lia.
  - rewrite Hs in Hs'. injection Hs' as <-. eapply effect_ext; [by eapply pair_posted_effect|done|done|].
    intros i Hi. cbv beta. rewrite (at_system _ _ _ _ Hf Hi). unfold at_. case_match; lia.
Qed.
End effects.
