(* ===== verification/WithdrawalFees.v ===== *)
(** Withdrawal-fee rules:
    [server/src/withdrawal-fees/withdrawal-fees.service.ts].  A rule is keyed by
    its scope (customer, organisation or tenant), asset class, currency, method,
    channel and network; [resolve] prices a withdrawal, preferring the
    customer's own rule, and [update] is guarded by an optimistic version. *)
From S2P Require Import Prelude Decimals Schema Access.
From Stdlib Require Import Ascii.

(** ** [BigInt(text)] *)
Definition digit_value (c : ascii) : Z :=
  let n := Z.of_nat (nat_of_ascii c) in
  if (48 <=? n) && (n <=? 57) then n - 48
  else if (65 <=? n) && (n <=? 90) then n - 55
  else if (97 <=? n) && (n <=? 122) then n - 87
  else 99.
Fixpoint digits_in (radix : Z) (l : list ascii) (acc : Z) : option Z :=
  match l with
  | [] => Some acc
  | c :: l' => if digit_value c <? radix then digits_in radix l' (acc * radix + digit_value c) else None
  end.
Definition digits1 (radix : Z) (l : list ascii) : option Z :=
  match l with [] => None | _ => digits_in radix l 0 end.
Definition bigint_of_string (text : string) : option Z :=
  match String.list_ascii_of_string (trim text) with
  | [] => Some 0
  | "0"%char :: c :: l =>
      if Ascii.eqb (lower_char c) "x" then digits1 16 l
      else if Ascii.eqb (lower_char c) "o" then digits1 8 l
      else if Ascii.eqb (lower_char c) "b" then digits1 2 l
      else digits1 10 (c :: l)
  | "-"%char :: l => Z.opp <$> digits1 10 l
  | "+"%char :: l => digits1 10 l
  | l => digits1 10 l
  end.

Definition currency_text (c : Currency) : string :=
  match c with USD => "USD" | SGD => "SGD" | HKD => "HKD" | EUR => "EUR" | GBP => "GBP" | USDT => "USDT" end.

Record WithdrawalFeeRuleInput := {
  in_organizationId : string;
  in_customerId : option string;
  in_assetClass : string;
  in_currency : Currency;
  in_method : string;
  in_channelCode : string;
  in_network : option string;
  in_amount : string;
  in_active : option bool;
}.

(** [scope.key] of a rule. *)
Record FeeKey := {
  key_scopeId : string; key_assetClass : string; key_currency : Currency;
  key_method : string; key_channelCode : string; key_network : string;
}.
Definition rule_has_key (k : FeeKey) (r : WithdrawalFeeRule) : bool :=
  String.eqb r.(rule_scopeId) k.(key_scopeId) && String.eqb r.(rule_assetClass) k.(key_assetClass) &&
  same r.(rule_currency) k.(key_currency) && String.eqb r.(rule_method) k.(key_method) &&
  String.eqb r.(rule_channelCode) k.(key_channelCode) && String.eqb r.(rule_network) k.(key_network).

Record FeeScope := {
  fs_scopeId : string;
  fs_customerId : option string;
  fs_assetClass : string;
  fs_currency : Currency;
  fs_method : string;
  fs_channelCode : string;
  fs_network : option string;
  fs_expectedVersion : option string;
}.

Section service.
Context {DO : DecimalOps}.

Definition ten_pow (n : Z) : D := d_pow (d_ofZ 10) n.

(** [toMinor] *)
Definition toMinor (value : string) (decimals : Z) : M Db Z :=
  let! amount := require (d_parse value) (BadRequest "invalid_withdrawal_fee_amount") in
  do! throw_if (d_isNegative amount || places_exceed amount decimals)
        (BadRequest "invalid_withdrawal_fee_amount");
  let minor := d_mul amount (ten_pow decimals) in
  do! throw_if (negb (d_isInteger minor)) (BadRequest "invalid_withdrawal_fee_amount");
  require (bigint_of_string (d_toFixed minor 0)) (PlainError "SyntaxError").

(** [fromMinor] *)
Definition fromMinor (value decimals : Z) : string :=
  d_toFixed (d_div (d_ofZ value) (ten_pow decimals)) (Z.to_nat decimals).

Record FeeRuleView := {
  view_organizationId : option string; view_scope : string; view_customerId : option string;
  view_assetClass : string; view_currency : Currency; view_method : string;
  view_channelCode : string; view_network : option string; view_amount : string;
  view_active : bool; view_version : string; view_createdBy : string; view_updatedBy : string;
}.

(** [serialize] *)
Definition serialize (row : WithdrawalFeeRule) (customerId : option string) : FeeRuleView :=
  let customerScoped := opt_truthy customerId && opt_eqb (Some row.(rule_scopeId)) customerId in
  {| view_organizationId := row.(rule_organizationId);
     view_scope := if customerScoped then "CUSTOMER" else "ORGANIZATION";
     view_customerId := if customerScoped then customerId else None;
     view_assetClass := row.(rule_assetClass);
     view_currency := row.(rule_currency);
     view_method := row.(rule_method);
     view_channelCode := row.(rule_channelCode);
     view_network := if truthy row.(rule_network) then Some row.(rule_network) else None;
     view_amount := fromMinor row.(rule_feeAmountMinor) row.(rule_feeDecimals);
     view_active := row.(rule_active);
     view_version := pretty row.(rule_version);
     view_createdBy := row.(rule_createdBy);
     view_updatedBy := row.(rule_updatedBy) |}.

Definition channel_type_text (t : ChannelType) : string :=
  match t with
  | CT_FIAT_INBOUND => "FIAT_INBOUND" | CT_VIRTUAL_ACCOUNT => "VIRTUAL_ACCOUNT"
  | CT_VA_PAYOUT => "VA_PAYOUT" | CT_POBO_PAYOUT => "POBO_PAYOUT"
  | CT_PLATFORM_PAYOUT => "PLATFORM_PAYOUT"
  end.

(** [normalizeScope] *)
Definition normalizeScope (env : ProcessEnv) (input : WithdrawalFeeRuleInput) : M Db (Z * FeeKey) :=
  let channelCode := toUpperCase (trim input.(in_channelCode)) in
  let network := toUpperCase (trim (default "" input.(in_network))) in
  do! throw_if (negb (truthy channelCode)) (BadRequest "withdrawal_fee_channel_required");
  do! (if String.eqb input.(in_assetClass) "FIAT" then
         do! throw_if (negb (isSupportedFiatCurrency input.(in_currency)) ||
                       String.eqb input.(in_method) "ON_CHAIN" || truthy network)
               (BadRequest "invalid_fiat_withdrawal_fee_scope");
         let! channel := gets (λ s, find_first (λ kc : string * FundingChannel,
             String.eqb kc.2.(chan_organizationId) input.(in_organizationId) &&
             String.eqb kc.2.(chan_code) channelCode) s.(channels)) in
         let expectedType := if String.eqb input.(in_method) "VA" then "VIRTUAL_ACCOUNT"
                             else input.(in_method) +:+ "_PAYOUT" in
         throw_if (match channel with
                   | None => true
                   | Some (_, c) =>
                       negb (String.eqb (channel_type_text c.(chan_type)) expectedType) ||
                       negb (includes c.(chan_supportedCurrencies) input.(in_currency))
                   end) (BadRequest "withdrawal_fee_channel_mismatch")
       else
         throw_if (differs input.(in_currency) supportedCryptoAsset ||
                   negb (String.eqb input.(in_method) "ON_CHAIN") ||
                   negb (String.eqb network supportedCryptoNetworkText))
           (BadRequest "invalid_crypto_withdrawal_fee_scope"));
  let feeDecimals := if String.eqb input.(in_assetClass) "CRYPTO" then 6 else 2 in
  do! match input.(in_customerId) with
      | Some cid =>
          if truthy cid then
            let! customer := find_unique customers cid in
            throw_if (match customer with
                      | None => true
                      | Some c => negb (String.eqb c.(cust_organizationId) input.(in_organizationId))
                      end) (NotFound "customer_not_found")
          else ret tt
      | None => ret tt
      end;
  let scopeId :=
    if opt_truthy input.(in_customerId) then default "" input.(in_customerId)
    else if String.eqb input.(in_assetClass) "CRYPTO"
    then trim_or env.(NEOBANK_SOURCE_TENANT_ID) input.(in_organizationId)
    else input.(in_organizationId) in
  ret (feeDecimals,
       {| key_scopeId := scopeId; key_assetClass := input.(in_assetClass);
          key_currency := input.(in_currency); key_method := input.(in_method);
          key_channelCode := channelCode; key_network := network |}).

(** [upsert]: creates the rule of a key, and only creates it. *)
Definition upsert (env : ProcessEnv) (newId : string) (input : WithdrawalFeeRuleInput)
    (userId : string) : M Db FeeRuleView :=
  let! user := requireActiveUser userId in
  do! throw_if (differs user.(user_role) ADMIN) (Forbidden "admin_role_required");
  do! throw_if (differs user.(user_organizationId) (Some input.(in_organizationId)))
        (Forbidden "organization_access_denied");
  let! '(feeDecimals, key) := normalizeScope env input in
  let! feeAmountMinor := toMinor input.(in_amount) feeDecimals in
  let row := MkWithdrawalFeeRule key.(key_scopeId) (Some input.(in_organizationId))
    key.(key_assetClass) key.(key_currency) key.(key_method) key.(key_channelCode)
    key.(key_network) feeAmountMinor feeDecimals (default true input.(in_active)) 1 userId userId in
  do! try_catch
        (let! existing := gets (λ s, find_first (λ kr, rule_has_key key kr.2) s.(feeRules)) in
         do! throw_if (is_some existing) (Conflict "withdrawal_fee_rule_exists");
         feeRule_create newId row)
        (λ e, match e with
              | PrismaKnown "P2002" _ => throw (Conflict "withdrawal_fee_rule_exists")
              | _ => throw e
              end);
  ret (serialize row input.(in_customerId)).

(** [update] *)
Definition update (env : ProcessEnv) (id : string) (amount : option string) (active : option bool)
    (version : string) (userId : string) : M Db FeeRuleView :=
  let! user := requireActiveUser userId in
  do! throw_if (differs user.(user_role) ADMIN) (Forbidden "admin_role_required");
  let! row := find_unique feeRules id in
  let! current := require row (NotFound "withdrawal_fee_rule_not_found") in
  do! throw_if (differs current.(rule_organizationId) user.(user_organizationId))
        (NotFound "withdrawal_fee_rule_not_found");
  let! expectedVersion := require (bigint_of_string version) (BadRequest "invalid_fee_rule_version") in
  let! feeAmountMinor :=
    match amount with
    | None => ret current.(rule_feeAmountMinor)
    | Some text => toMinor text current.(rule_feeDecimals)
    end in
  let! count := feeRule_updateMany id (λ r, r.(rule_version) =? expectedVersion)
    (λ r, set_rule_updatedBy userId (set_rule_version (r.(rule_version) + 1)
            (set_rule_active (default r.(rule_active) active)
              (set_rule_feeAmountMinor feeAmountMinor r)))) in
  do! throw_if (differs count 1) (Conflict "withdrawal_fee_changed");
  let! updated := find_unique feeRules id in
  let! updated := require updated (PrismaKnown "P2025" []) in
  let org := default "" user.(user_organizationId) in
  let defaultScopeIds := [org; trim_or env.(NEOBANK_SOURCE_TENANT_ID) org] in
  ret (serialize updated
         (if includes defaultScopeIds updated.(rule_scopeId) then None
          else Some updated.(rule_scopeId))).

Record ResolvedFee := {
  fee_amount : D;
  (* [snapshot.version] and the snapshot stored in the metadata *)
  fee_version : string;
  fee_snapshot : json;
}.

(** [where] of [resolve]'s [findMany]. *)
Definition rule_matches (scope : FeeScope) (kr : string * WithdrawalFeeRule) : bool :=
  let r := kr.2 in
  let scopeIds := (if opt_truthy scope.(fs_customerId) then [default "" scope.(fs_customerId)] else [])
                    ++ [scope.(fs_scopeId)] in
  includes scopeIds r.(rule_scopeId) &&
  String.eqb r.(rule_assetClass) scope.(fs_assetClass) &&
  same r.(rule_currency) scope.(fs_currency) &&
  String.eqb r.(rule_method) scope.(fs_method) &&
  String.eqb r.(rule_channelCode) (toUpperCase (trim scope.(fs_channelCode))) &&
  String.eqb r.(rule_network) (toUpperCase (trim (default "" scope.(fs_network)))) &&
  r.(rule_active).

(** The customer's own rule, or else the scope's. *)
Definition pick_rule (scope : FeeScope) (rules : list (string * WithdrawalFeeRule)) :
    option (string * WithdrawalFeeRule) :=
  let in_scope (x : string) := List.find (λ kr, String.eqb kr.2.(rule_scopeId) x) rules in
  match (if opt_truthy scope.(fs_customerId) then in_scope (default "" scope.(fs_customerId)) else None) with
  | Some r => Some r
  | None => in_scope scope.(fs_scopeId)
  end.

(** [resolve] *)
Definition resolve (scope : FeeScope) : M Db ResolvedFee :=
  let! rules := gets (λ s, find_many (rule_matches scope) s.(feeRules)) in
  let! '(id, rule) := require (pick_rule scope rules) (Conflict "fee_configuration_missing") in
  do! throw_if (match scope.(fs_expectedVersion) with
                | Some v => negb (String.eqb (pretty rule.(rule_version)) v)
                | None => false
                end) (Conflict "withdrawal_fee_changed");
  ret {| fee_amount := d_div (d_ofZ rule.(rule_feeAmountMinor)) (ten_pow rule.(rule_feeDecimals));
         fee_version := pretty rule.(rule_version);
         fee_snapshot := JObj [("id", JStr id); ("version", JStr (pretty rule.(rule_version)));
           ("assetClass", JStr rule.(rule_assetClass));
           ("currency", JStr (currency_text rule.(rule_currency)));
           ("method", JStr rule.(rule_method)); ("channelCode", JStr rule.(rule_channelCode));
           ("network", JStr rule.(rule_network));
           ("amount", JStr (fromMinor rule.(rule_feeAmountMinor) rule.(rule_feeDecimals)))] |}.
End service.
