(* ===== verification/Channels.v ===== *)
(** Funding channels
    ([server/src/channels/channels.controller.ts]): the administrator's form that
    creates and edits a channel, the opening fee of a virtual account channel
    under an optimistic version, and what a customer may read of the list. *)
From S2P Require Import Prelude Decimals Schema Access WithdrawalFees.

Record CreateChannelDto := {
  cc_organizationId : string;
  cc_code : string;
  cc_name : string;
  cc_type : ChannelType;
  cc_supportedCurrencies : list Currency;
  cc_settlementBankName : option string;
  cc_settlementAccount : option string;
  cc_swiftBic : option string;
  cc_bankCountry : option string;
  cc_bankAddress : option string;
  cc_branchName : option string;
  cc_openingFeeUsd : option string;
}.
Record UpdateChannelDto := {
  uc_name : option string;
  uc_active : option bool;
  uc_supportedCurrencies : option (list Currency);
  uc_settlementBankName : option string;
  uc_settlementAccount : option string;
  uc_swiftBic : option string;
  uc_bankCountry : option string;
  uc_bankAddress : option string;
  uc_branchName : option string;
  uc_openingFeeUsd : option string;
  uc_expectedOpeningFeeVersion : option string;
}.

(** [optionalText] *)
Definition optionalText (value : option string) : option string := trim_or_null value.
(** [optionalText(value)?.toUpperCase()] *)
Definition optionalUpper (value : option string) : option string := toUpperCase <$> optionalText value.

(** [assertSupportedCurrencies] *)
Definition assertSupportedCurrencies (currencies : list Currency) : M Db unit :=
  throw_if (existsb (λ c, negb (isSupportedFiatCurrency c)) currencies)
    (BadRequest "unsupported_funding_channel_currency").

(** A key of an update object that is absent, or [undefined], leaves its column. *)
Definition assign {A R} (set : A → R → R) (value : option A) (r : R) : R :=
  match value with Some v => set v r | None => r end.

(** [data] of [update]: for the texts that are upper-cased a blank becomes
    [undefined], for the others [null]. *)
Definition update_data (dto : UpdateChannelDto) (c : FundingChannel) : FundingChannel :=
  assign set_chan_branchName ((λ v, optionalText (Some v)) <$> dto.(uc_branchName))
  (assign set_chan_bankAddress ((λ v, optionalText (Some v)) <$> dto.(uc_bankAddress))
  (assign set_chan_bankCountry (Some <$> optionalUpper dto.(uc_bankCountry))
  (assign set_chan_swiftBic (Some <$> optionalUpper dto.(uc_swiftBic))
  (assign set_chan_settlementAccount ((λ v, optionalText (Some v)) <$> dto.(uc_settlementAccount))
  (assign set_chan_settlementBankName ((λ v, optionalText (Some v)) <$> dto.(uc_settlementBankName))
  (assign set_chan_supportedCurrencies dto.(uc_supportedCurrencies)
  (assign set_chan_active dto.(uc_active)
  (assign set_chan_name (trim <$> dto.(uc_name)) c)))))))).

(** The bank details a channel will have, and whether an active virtual account
    channel may go without them. *)
Definition next_text (given : option string) (current : option string) : option string :=
  match given with Some v => optionalText (Some v) | None => current end.
Definition bank_details_missing (dto : UpdateChannelDto) (c : FundingChannel) : bool :=
  negb (opt_truthy (next_text dto.(uc_settlementBankName) c.(chan_settlementBankName))) ||
  negb (opt_truthy (next_text dto.(uc_swiftBic) c.(chan_swiftBic))) ||
  negb (opt_truthy (next_text dto.(uc_bankCountry) c.(chan_bankCountry))) ||
  negb (opt_truthy (next_text dto.(uc_bankAddress) c.(chan_bankAddress))).

Section controller.
Context {DO : DecimalOps}.

(** [toUsdMinor] *)
Definition toUsdMinor (value : string) : M Db Z :=
  let! amount := require (d_parse value) (BadRequest "invalid_virtual_account_opening_fee") in
  do! throw_if (negb (d_isFinite amount) || d_isNegative amount || places_exceed amount 2)
        (BadRequest "invalid_virtual_account_opening_fee");
  require (bigint_of_string (d_toFixed (d_mul amount (d_ofZ 100)) 0)) (PlainError "SyntaxError").

(** [fromUsdMinor], of a nullable column *)
Definition fromUsdMinor_opt (value : option Z) : option string :=
  (λ m, d_toFixed (d_div (d_ofZ m) (d_ofZ 100)) 2) <$> value.

(** [serializeChannel]: the row with its fee as text. *)
Record ChannelView := {
  cv_id : string; cv_row : FundingChannel; cv_openingFeeUsd : option string; cv_openingFeeVersion : string;
}.
Definition serializeChannel (id : string) (c : FundingChannel) : ChannelView :=
  {| cv_id := id; cv_row := c; cv_openingFeeUsd := fromUsdMinor_opt c.(chan_openingFeeUsdMinor);
     cv_openingFeeVersion := pretty c.(chan_openingFeeVersion) |}.

(** The columns a customer sees. *)
Record CustomerChannelView := {
  kv_id : string; kv_code : string; kv_name : string; kv_type : ChannelType;
  kv_supportedCurrencies : list Currency; kv_active : bool; kv_settlementBankName : option string;
  (* present for inbound channels only *)
  kv_settlementAccount : option (option string);
  kv_swiftBic : option string; kv_bankCountry : option string; kv_bankAddress : option string;
  kv_openingFeeUsd : option string; kv_openingFeeVersion : string;
}.
Definition customer_view (id : string) (c : FundingChannel) (currencies : list Currency) : CustomerChannelView :=
  {| kv_id := id; kv_code := c.(chan_code); kv_name := c.(chan_name); kv_type := c.(chan_type);
     kv_supportedCurrencies := currencies; kv_active := c.(chan_active);
     kv_settlementBankName := c.(chan_settlementBankName);
     kv_settlementAccount := if same c.(chan_type) CT_FIAT_INBOUND then Some c.(chan_settlementAccount) else None;
     kv_swiftBic := c.(chan_swiftBic); kv_bankCountry := c.(chan_bankCountry);
     kv_bankAddress := c.(chan_bankAddress);
     kv_openingFeeUsd := fromUsdMinor_opt c.(chan_openingFeeUsdMinor);
     kv_openingFeeVersion := pretty c.(chan_openingFeeVersion) |}.

Definition customerReadableTypes : list ChannelType :=
  [CT_VIRTUAL_ACCOUNT; CT_FIAT_INBOUND; CT_POBO_PAYOUT; CT_PLATFORM_PAYOUT].

(** [list]; [ordered] is the ORDER BY of the query.  [customerHeader] is the
    header [x-authenticated-customer-id]. *)
Definition list_channels (ordered : list (string * FundingChannel) → list (string * FundingChannel))
    (organizationId userId : string) (customerHeader : option string) (type : option ChannelType)
    (active : option string) : M Db (list (ChannelView + CustomerChannelView)) :=
  do! requireOrganizationAccess userId organizationId;
  let customer := opt_truthy (trim <$> customerHeader) in
  do! throw_if (customer && negb (match type with Some t => includes customerReadableTypes t | None => false end))
        (Forbidden "customer_readable_channels_only");
  do! throw_if (match active with Some a => negb (String.eqb a "true") && negb (String.eqb a "false") | None => false end)
        (BadRequest "invalid_active_filter");
  let! rows := gets (λ s, ordered (find_many (λ kc : string * FundingChannel,
      String.eqb kc.2.(chan_organizationId) organizationId &&
      match type with Some t => same kc.2.(chan_type) t | None => true end &&
      (if customer then kc.2.(chan_active)
       else match active with Some a => Bool.eqb kc.2.(chan_active) (String.eqb a "true") | None => true end))
      s.(channels))) in
  ret (omap (λ kc : string * FundingChannel,
      let currencies := List.filter isSupportedFiatCurrency kc.2.(chan_supportedCurrencies) in
      if Nat.ltb 0 (length currencies)
      then Some (if customer then inr (customer_view kc.1 kc.2 currencies)
                 else inl (serializeChannel kc.1 (set_chan_supportedCurrencies currencies kc.2)))
      else None) rows).

(** The administrator of the organisation, as [create] and [update] check. *)
Definition channel_admin (userId : string) : M Db User :=
  let! user := requireActiveUser userId in
  do! throw_if (differs user.(user_role) ADMIN) (Forbidden "admin_role_required");
  ret user.

(** [create] *)
Definition createChannel (now : Z) (newId : string) (dto : CreateChannelDto) (userId : string) : M Db ChannelView :=
  let! user := channel_admin userId in
  do! throw_if (differs user.(user_organizationId) (Some dto.(cc_organizationId)))
        (Forbidden "organization_access_denied");
  do! throw_if (same dto.(cc_type) CT_VA_PAYOUT) (BadRequest "va_payout_channel_merged");
  do! throw_if (is_some dto.(cc_openingFeeUsd) && differs dto.(cc_type) CT_VIRTUAL_ACCOUNT)
        (BadRequest "virtual_account_opening_fee_va_only");
  do! throw_if (same dto.(cc_type) CT_VIRTUAL_ACCOUNT &&
                (is_some (optionalText dto.(cc_settlementAccount)) || is_some (optionalText dto.(cc_branchName))))
        (BadRequest "virtual_account_channel_customer_details_not_allowed");
  do! assertSupportedCurrencies dto.(cc_supportedCurrencies);
  let name := trim dto.(cc_name) in
  do! throw_if (negb (truthy name)) (BadRequest "funding_channel_name_required");
  let! fee := match dto.(cc_openingFeeUsd) with
              | None => ret None
              | Some text => let! minor := toUsdMinor text in ret (Some minor)
              end in
  let row := MkFundingChannel dto.(cc_organizationId) (toUpperCase (trim dto.(cc_code))) name dto.(cc_type)
    dto.(cc_supportedCurrencies) false (optionalText dto.(cc_settlementBankName))
    (optionalText dto.(cc_settlementAccount)) (optionalUpper dto.(cc_swiftBic))
    (optionalUpper dto.(cc_bankCountry)) (optionalText dto.(cc_bankAddress)) (optionalText dto.(cc_branchName))
    fee (if is_some fee then 1 else 0) (if is_some fee then Some userId else None)
    (if is_some fee then Some now else None) in
  do! try_catch (channel_create newId row)
        (λ e, match e with
              | PrismaKnown "P2002" _ => throw (Conflict "funding_channel_code_exists")
              | _ => throw e
              end);
  ret (serializeChannel newId row).

(** The checks of [update], which give the opening fee the channel will have. *)
Definition update_checks (dto : UpdateChannelDto) (channel : FundingChannel) : M Db (option Z) :=
  do! throw_if (same channel.(chan_type) CT_VA_PAYOUT && same dto.(uc_active) (Some true))
        (BadRequest "va_payout_channel_merged");
  do! throw_if (is_some dto.(uc_openingFeeUsd) && differs channel.(chan_type) CT_VIRTUAL_ACCOUNT)
        (BadRequest "virtual_account_opening_fee_va_only");
  do! throw_if (same channel.(chan_type) CT_VIRTUAL_ACCOUNT &&
                (is_some (optionalText dto.(uc_settlementAccount)) || is_some (optionalText dto.(uc_branchName))))
        (BadRequest "virtual_account_channel_customer_details_not_allowed");
  do! match dto.(uc_supportedCurrencies) with Some l => assertSupportedCurrencies l | None => ret tt end;
  let! next_fee := match dto.(uc_openingFeeUsd) with
                   | None => ret channel.(chan_openingFeeUsdMinor)
                   | Some text => let! minor := toUsdMinor text in ret (Some minor)
                   end in
  do! throw_if (match dto.(uc_name) with Some n => negb (truthy (trim n)) | None => false end)
        (BadRequest "funding_channel_name_required");
  do! (if same channel.(chan_type) CT_VIRTUAL_ACCOUNT && default channel.(chan_active) dto.(uc_active)
       then do! throw_if (bank_details_missing dto channel) (BadRequest "virtual_account_channel_bank_details_required");
            throw_if (is_none next_fee) (BadRequest "virtual_account_opening_fee_not_configured")
       else ret tt);
  ret next_fee.

(** [openingFeeUsdMinor], its version and its author in the update of the fee. *)
Definition price_data (now : Z) (userId : string) (fee : option Z) (c : FundingChannel) : FundingChannel :=
  set_chan_openingFeeUpdatedAt (Some now) (set_chan_openingFeeUpdatedBy (Some userId)
    (set_chan_openingFeeVersion (c.(chan_openingFeeVersion) + 1) (set_chan_openingFeeUsdMinor fee c))).

(** [update] *)
Definition updateChannel (now : Z) (id : string) (dto : UpdateChannelDto) (userId : string) : M Db ChannelView :=
  let! user := channel_admin userId in
  let! channel := find_unique channels id in
  let! channel := require channel (NotFound "funding_channel_not_found") in
  do! throw_if (differs (Some channel.(chan_organizationId)) user.(user_organizationId))
        (NotFound "funding_channel_not_found");
  let! next_fee := update_checks dto channel in
  match dto.(uc_openingFeeUsd) with
  | Some _ =>
      let! expectedVersion := require (bigint_of_string (default "" dto.(uc_expectedOpeningFeeVersion)))
        (BadRequest "invalid_virtual_account_opening_fee_version") in
      let! count := channel_updateMany id (λ c, c.(chan_openingFeeVersion) =? expectedVersion)
        (λ c, price_data now userId next_fee (update_data dto c)) in
      do! throw_if (differs count 1) (Conflict "virtual_account_opening_fee_changed");
      let! updated := find_unique channels id in
      let! updated := require updated (PrismaKnown "P2025" []) in
      ret (serializeChannel id updated)
  | None =>
      let! updated := channel_update id (update_data dto) in
      ret (serializeChannel id updated)
  end.
End controller.
