(* ===== verification/Operations.v ===== *)
(** [OperationsService] ([server/src/operations/operations.service.ts]):
    creation (generic operations, OTC quotes, customer payouts), quote
    confirmation, approval, rejection and payout execution, with the postings
    each performs. *)
From S2P Require Import Prelude Decimals Schema Access Ledger WithdrawalFees.
From Stdlib Require Import Ascii.

Record CreateOperationInput := {
  i_customerId : string;
  i_type : OperationType;
  i_currency : Currency;
  i_amount : string;
  i_feeAmount : option string;
  i_expectedFeeAmount : option string;
  i_expectedFeeRuleVersion : option string;
  i_sourceAccountId : option string;
  i_targetAccountId : option string;
  i_beneficiaryId : option string;
  i_channelId : option string;
  i_payoutMethod : option PayoutMethod;
  i_adjustmentDirection : option AdjustmentDirection;
  i_quoteCurrency : option Currency;
  i_narrative : option string;
  i_idempotencyKey : option string;
  i_remitterName : option string;
  i_remitterBank : option string;
  i_remittanceReference : option string;
  i_receivedAt : option string;
  i_proofUrl : option string;
  i_marketProvider : option string;
  i_marketPriceType : option string;
  i_marketReferenceOnly : option bool;
  i_marketRate : option string;
  i_marketUpdatedAt : option string;
  i_marketFetchedAt : option string;
}.

Record CustomerOperationActor := { actor_customerId : string; actor_email : option string }.

Definition QUOTE_CONFIRM_WINDOW_MS : Z := 15000.

(** [a === b] of a nullable column and an optional input: [null !== undefined]. *)
Definition col_is {A} `{EqDecision A} (col input : option A) : bool :=
  match col, input with Some a, Some b => same a b | _, _ => false end.

(** The first failing check of a sequence of [if (..) throw ..;]. *)
Fixpoint first_error (checks : list (bool * exn)) : option exn :=
  match checks with
  | [] => None
  | (b, e) :: rest => if b then Some e else first_error rest
  end.
Definition checked {S} (checks : list (bool * exn)) : M S unit :=
  match first_error checks with Some e => throw e | None => ret tt end.

(** An account, beneficiary or channel read by id, with the id. *)
Definition acc_test (f : Account → bool) (o : option (string * Account)) : bool :=
  match o with Some (_, a) => f a | None => false end.

Definition allowedSourceKinds (m : PayoutMethod) : list AccountKind :=
  match m with
  | PM_VA => [VIRTUAL_ACCOUNT]
  | PM_POBO => [SYSTEM_WALLET; VIRTUAL_ACCOUNT]
  | PM_PLATFORM => [SYSTEM_WALLET]
  end.
Definition expectedChannel (m : PayoutMethod) : ChannelType :=
  match m with PM_VA => CT_VIRTUAL_ACCOUNT | PM_POBO => CT_POBO_PAYOUT | PM_PLATFORM => CT_PLATFORM_PAYOUT end.

Section shape.
Context (input : CreateOperationInput) (source target : option (string * Account))
  (channel : option (string * FundingChannel)) (beneficiary : option Beneficiary).

Definition is_type (t : OperationType) : bool := same input.(i_type) t.
Definition owned (a : Account) : bool := opt_eqb a.(acc_customerId) (Some input.(i_customerId)).
Definition unsupported_crypto (a : Account) : bool :=
  same a.(acc_currency) USDT &&
  (differs a.(acc_kind) CRYPTO_WALLET || differs a.(acc_network) (Some supportedCryptoNetworkText)).

Definition common_checks : list (bool * exn) :=
  [(same input.(i_currency) USDT && negb (is_type OTC),
      BadRequest "crypto_wallet_operations_disabled_until_cregis");
   (acc_test (λ a, differs a.(acc_status) AS_ACTIVE || differs a.(acc_currency) input.(i_currency)) source,
      BadRequest "invalid_source_account");
   (acc_test (λ a, negb (owned a)) source, BadRequest "source_account_customer_mismatch");
   (acc_test (λ a, differs a.(acc_status) AS_ACTIVE) target, BadRequest "invalid_target_account");
   (acc_test unsupported_crypto source || acc_test unsupported_crypto target,
      BadRequest "unsupported_crypto_account");
   (match channel with
    | Some (_, c) => negb c.(chan_active) || negb (includes c.(chan_supportedCurrencies) input.(i_currency))
    | None => false
    end, BadRequest "channel_does_not_support_currency")].

Definition deposit_checks : list (bool * exn) :=
  [(is_none target ||
    match channel with Some (_, c) => differs c.(chan_type) CT_FIAT_INBOUND | None => true end ||
    same input.(i_currency) USDT, BadRequest "fiat_deposit_requires_target_and_inbound_channel");
   (negb (opt_truthy input.(i_remitterName)) || negb (opt_truthy input.(i_remittanceReference)) ||
    negb (opt_truthy input.(i_receivedAt)), BadRequest "deposit_remittance_details_required");
   (acc_test (λ a, negb (owned a)) target, BadRequest "deposit_target_customer_mismatch");
   (acc_test (λ a, differs a.(acc_currency) input.(i_currency)) target,
      BadRequest "deposit_target_currency_mismatch")].

Definition payout_checks : list (bool * exn) :=
  [(is_none source || negb (opt_truthy input.(i_beneficiaryId)) || is_none input.(i_payoutMethod) ||
    is_none channel, BadRequest "payout_details_required");
   (match source, channel, input.(i_payoutMethod) with
    | Some (_, a), Some (cid, c), Some m =>
        negb (includes (allowedSourceKinds m) a.(acc_kind)) ||
        differs c.(chan_type) (expectedChannel m) ||
        (same m PM_VA && differs a.(acc_fundingChannelId) (Some cid))
    | _, _, _ => false
    end, BadRequest "payout_source_or_channel_mismatch");
   (acc_test (λ a, negb (owned a)) source ||
    match beneficiary with
    | None => true
    | Some b => negb b.(ben_active) || differs b.(ben_type) BT_BANK ||
                negb (String.eqb b.(ben_customerId) input.(i_customerId)) ||
                differs b.(ben_currency) input.(i_currency)
    end, BadRequest "payout_customer_or_beneficiary_mismatch")].

Definition transfer_checks : list (bool * exn) :=
  [(match source, target with
    | Some (sid, _), Some (tid, t) =>
        negb (opt_truthy t.(acc_customerId)) || String.eqb sid tid ||
        differs t.(acc_currency) input.(i_currency)
    | _, _ => true
    end, BadRequest "invalid_internal_transfer_accounts")].

Definition conversion_checks : list (bool * exn) :=
  [(match source, target, input.(i_quoteCurrency) with
    | Some _, Some (_, t), Some q => differs t.(acc_currency) q || same input.(i_currency) q
    | _, _, _ => true
    end, BadRequest "invalid_conversion_accounts");
   (is_type FX && (same input.(i_currency) USDT || opt_eqb input.(i_quoteCurrency) (Some USDT)),
      BadRequest "fx_is_fiat_only");
   (is_type OTC && differs input.(i_currency) USDT && differs input.(i_quoteCurrency) (Some USDT),
      BadRequest "otc_requires_usdt_leg");
   (acc_test (λ a, negb (owned a)) target, BadRequest "conversion_target_customer_mismatch")].

Definition adjustment_checks : list (bool * exn) :=
  [(match input.(i_adjustmentDirection) with
    | None => true
    | Some ADJ_CREDIT => is_none target
    | Some ADJ_DEBIT => is_none source
    end, BadRequest "adjustment_direction_account_required");
   (match input.(i_adjustmentDirection) with
    | Some ADJ_CREDIT => negb (acc_test owned target)
    | _ => negb (acc_test owned source)
    end, BadRequest "adjustment_account_customer_mismatch")].

(** [validateShape] *)
Definition validateShape : M Db unit :=
  checked (common_checks ++
    match input.(i_type) with
    | DEPOSIT => deposit_checks
    | PAYOUT => payout_checks
    | INTERNAL_TRANSFER => transfer_checks
    | FX | OTC => conversion_checks
    | ADJUSTMENT => adjustment_checks
    | VA_OPENING_FEE => []
    end).
End shape.

(** [requireNonCryptoWorkflow], [requireGenericOperation], [usesReservation] *)
Definition requireNonCryptoWorkflow (o : Operation) : M Db unit :=
  throw_if (json_has "cryptoTransferId" o.(op_metadata)) (Conflict "crypto_transfer_requires_crypto_workflow").
Definition requireGenericOperation (t : OperationType) : M Db unit :=
  throw_if (same t VA_OPENING_FEE) (Conflict "va_opening_fee_managed_by_va_request").
Definition usesReservation (o : Operation) : bool :=
  same o.(op_type) PAYOUT || same o.(op_type) INTERNAL_TRANSFER || same o.(op_type) FX ||
  same o.(op_type) OTC ||
  (same o.(op_type) ADJUSTMENT && opt_eqb o.(op_adjustmentDirection) (Some ADJ_DEBIT)).

(** [requireRole(tx, userId, ['ADMIN'])] *)
Definition requireRole (userId : string) (roles : list UserRole) : M Db User :=
  let! user := find_unique users userId in
  match user with
  | Some u => do! throw_if (negb u.(user_active) || negb (includes roles u.(user_role))) (Forbidden "insufficient_role");
              ret u
  | None => throw (Forbidden "insufficient_role")
  end.

(** ** Reading the parties of an operation *)

(** [id ? await db.t.findUnique({ where: { id } }) : null] *)
Definition find_optional {V} (tbl : Db → gmap string V) (id : option string) : M Db (option (string * V)) :=
  match id with
  | Some i => if truthy i then gets (λ s, (λ v, (i, v)) <$> tbl s !! i) else ret None
  | None => ret None
  end.
(** [db.t.findUnique({ where: { id } })]: Prisma refuses an undefined id. *)
Definition find_by {V} (tbl : Db → gmap string V) (id : option string) : M Db (option (string * V)) :=
  let! i := require id (PlainError "PrismaClientValidationError") in
  gets (λ s, (λ v, (i, v)) <$> tbl s !! i).

(** The [quoteActor] and the [customerSubmissionActor] of [createOperation]. *)
Inductive Submission :=
| ByAdmin
| ByQuote (actor : CustomerOperationActor)
| ByCustomer (actor : CustomerOperationActor).
Definition quoteActor (m : Submission) : option CustomerOperationActor :=
  match m with ByQuote a => Some a | _ => None end.
Definition customerSubmissionActor (m : Submission) : option CustomerOperationActor :=
  match m with ByCustomer a => Some a | _ => None end.

Record Parties := {
  p_customer : Customer;
  p_source : option (string * Account);
  p_target : option (string * Account);
  p_channel : option (string * FundingChannel);
}.

Section service.
Context {DO : DecimalOps} {JD : JsDates}.

(** [new Prisma.Decimal(text)] *)
Definition decimal (text : string) : M Db D := require (d_parse text) DecimalError.

(** [positiveMoney] *)
Definition positiveMoney (value field : string) (currency : Currency) : M Db D :=
  let! amount := decimal value in
  do! throw_if (negb (d_isPositive amount)) (BadRequest (field +:+ "_must_be_positive"));
  let precision := if same currency USDT then 6 else 2 in
  do! throw_if (places_exceed amount precision) (BadRequest (field +:+ "_precision_exceeded"));
  ret amount.

(** [new Prisma.Decimal(input.feeAmount || 0)] *)
Definition requested_fee (feeAmount : option string) : M Db D :=
  match feeAmount with
  | Some text => if truthy text then decimal text else ret (d_ofZ 0)
  | None => ret (d_ofZ 0)
  end.

(** The checks of [createOperation] that need no read: the parsed amount and fee. *)
Definition create_checks (input : CreateOperationInput) : M Db (D * D) :=
  do! throw_if (same input.(i_type) INTERNAL_TRANSFER) (BadRequest "internal_transfer_not_supported");
  do! throw_if (differs input.(i_currency) USDT && negb (isSupportedFiatCurrency input.(i_currency)))
        (BadRequest "unsupported_currency");
  do! throw_if (match input.(i_quoteCurrency) with
                | Some q => differs q USDT && negb (isSupportedFiatCurrency q)
                | None => false
                end) (BadRequest "unsupported_quote_currency");
  let! amount := positiveMoney input.(i_amount) "amount" input.(i_currency) in
  let! fee := requested_fee input.(i_feeAmount) in
  do! throw_if (d_isNegative fee) (BadRequest "fee_must_not_be_negative");
  do! throw_if (same input.(i_type) OTC && negb (d_isZero fee)) (BadRequest "otc_fee_amount_must_be_zero");
  ret (amount, fee).

(** The maker, the parties and their tenant, and [validateShape]. *)
Definition create_parties (input : CreateOperationInput) (makerId : string) : M Db Parties :=
  let! maker := find_unique users makerId in
  let! customer := find_unique customers input.(i_customerId) in
  let! source := find_optional accounts input.(i_sourceAccountId) in
  let! target := find_optional accounts input.(i_targetAccountId) in
  let! channel := find_optional channels input.(i_channelId) in
  let! beneficiary := find_optional beneficiaries input.(i_beneficiaryId) in
  let! maker := require maker (Forbidden "admin_role_required") in
  do! throw_if (negb maker.(user_active) || differs maker.(user_role) ADMIN)
        (Forbidden "admin_role_required");
  let! customer := require customer (NotFound "customer_not_found") in
  do! throw_if (opt_truthy maker.(user_organizationId) &&
                differs maker.(user_organizationId) (Some customer.(cust_organizationId)))
        (Forbidden "cross_tenant_operation");
  do! throw_if (match channel with
                | Some (_, c) => negb (String.eqb c.(chan_organizationId) customer.(cust_organizationId))
                | None => false
                end) (Forbidden "cross_tenant_channel");
  do! validateShape input source target channel (snd <$> beneficiary);
  ret {| p_customer := customer; p_source := source; p_target := target; p_channel := channel |}.

Definition remove_dashes (text : string) : string :=
  String.string_of_list_ascii (List.filter (λ c, negb (Ascii.eqb c "-"%char)) (String.list_ascii_of_string text)).
(** [`OP-${date}-${uuid}`] *)
Definition operation_reference (now : Z) (uuid : string) : string :=
  "OP-" +:+ remove_dashes (String.substring 0 10 (to_iso now)) +:+ "-" +:+
  toUpperCase (String.substring 0 8 uuid).

(** [frozen]: whether creation reserves the source. *)
Definition reserves (input : CreateOperationInput) (mode : Submission) : bool :=
  is_none (quoteActor mode) &&
  (is_type input PAYOUT || is_type input FX || is_type input OTC ||
   (is_type input ADJUSTMENT && opt_eqb input.(i_adjustmentDirection) (Some ADJ_DEBIT))).

(** A new quote first cancels the customer's expired drafts. *)
Definition cancel_stale_quotes (now : Z) (customerId : string) : M Db unit :=
  let! _ := operation_updateWhere now (λ ko,
      String.eqb ko.2.(op_customerId) customerId && same ko.2.(op_type) OTC &&
      same ko.2.(op_status) DRAFT && (ko.2.(op_createdAt) <? now - QUOTE_CONFIRM_WINDOW_MS))
    (set_op_status CANCELLED) in
  ret tt.

(** [a?.version === b] of a JSON member and an optional string. *)
Definition json_is (j : option json) (v : option string) : bool :=
  match j, v with
  | Some (JStr a), Some b => String.eqb a b
  | None, None => true
  | _, _ => false
  end.

(** [samePayout]; the comparisons short-circuit, the last decimal may not parse. *)
Definition samePayout (input : CreateOperationInput) (amount : D) (actor : CustomerOperationActor)
    (existing : Operation) : M Db bool :=
  if same existing.(op_type) PAYOUT &&
     String.eqb existing.(op_customerId) input.(i_customerId) &&
     same existing.(op_currency) input.(i_currency) &&
     d_eq (op_amt existing) amount &&
     col_is existing.(op_sourceAccountId) input.(i_sourceAccountId) &&
     col_is existing.(op_beneficiaryId) input.(i_beneficiaryId) &&
     col_is existing.(op_channelId) input.(i_channelId) &&
     col_is existing.(op_payoutMethod) input.(i_payoutMethod) &&
     String.eqb (default "" existing.(op_narrative)) (default "" input.(i_narrative))
  then match input.(i_expectedFeeAmount) with
       | None => ret false
       | Some text =>
           let! expected := decimal text in
           ret (d_eq (op_fee existing) expected &&
                json_is (json_get "version" (json_get "withdrawalFee" existing.(op_metadata)))
                  input.(i_expectedFeeRuleVersion) &&
                opt_eqb (json_path2 "customerSubmission" "customerId" existing.(op_metadata))
                  (Some actor.(actor_customerId)))
       end
  else ret false.

(** The replay of an idempotency key: the operation to return, if any. *)
Definition find_existing (input : CreateOperationInput) (mode : Submission) (amount : D) :
    M Db (option (string * Operation)) :=
  match input.(i_idempotencyKey) with
  | Some key =>
      if negb (truthy key) then ret None else
      let! existing := gets (λ s, find_first (λ ko,
          String.eqb ko.2.(op_customerId) input.(i_customerId) &&
          opt_eqb ko.2.(op_idempotencyKey) (Some key)) s.(operations)) in
      match existing with
      | None => ret None
      | Some (id, o) =>
          let! replay :=
            match mode with
            | ByCustomer actor => samePayout input amount actor o
            | ByQuote _ => ret (same o.(op_type) OTC)
            | ByAdmin => ret (differs o.(op_type) OTC)
            end in
          do! throw_if (negb replay) (Conflict "idempotency_key_reused");
          ret (Some (id, o))
      end
  | None => ret None
  end.

(** A customer's own payout re-reads its eligibility and its parties under lock. *)
Definition recheck_customer (env : ProcessEnv) (input : CreateOperationInput) : M Db Parties :=
  let! eligible := gets (λ s, s.(sourceCustomers) !! input.(i_customerId)) in
  let! row := require eligible (Forbidden "customer_payout_not_allowed") in
  do! throw_if (negb (String.eqb row.(sc_tenant_id) (tenantId env)) ||
                negb (String.eqb row.(sc_status) "active") ||
                negb (String.eqb row.(sc_kyc_status) "approved") ||
                negb (String.eqb row.(sc_operations_status) "active"))
        (Forbidden "customer_payout_not_allowed");
  do! throw_if row.(sc_withdrawals_locked) (Forbidden "withdrawals_locked");
  let! customer := find_unique customers input.(i_customerId) in
  let! source := find_by accounts input.(i_sourceAccountId) in
  let! beneficiary := find_by beneficiaries input.(i_beneficiaryId) in
  let! channel := find_by channels input.(i_channelId) in
  let! customer := require customer (Forbidden "customer_payout_not_allowed") in
  do! throw_if (differs customer.(cust_status) CS_ACTIVE || differs customer.(cust_kycStatus) KYC_APPROVED)
        (Forbidden "customer_payout_not_allowed");
  do! throw_if (match channel with
                | Some (_, c) => negb (String.eqb c.(chan_organizationId) customer.(cust_organizationId))
                | None => false
                end) (Forbidden "cross_tenant_channel");
  do! validateShape input source None channel (snd <$> beneficiary);
  ret {| p_customer := customer; p_source := source; p_target := None; p_channel := channel |}.

(** A deposit whose remittance reference the channel has already seen. *)
Definition duplicate_receipt (input : CreateOperationInput) (amount : D) :
    M Db (option (string * Operation)) :=
  match input.(i_channelId), input.(i_remittanceReference) with
  | Some channel, Some reference =>
      if negb (is_type input DEPOSIT) || negb (truthy channel) || negb (truthy reference) then ret None else
      let! existing := gets (λ s, find_first (λ ko,
          opt_eqb ko.2.(op_channelId) (Some channel) &&
          opt_eqb ko.2.(op_remittanceReference) (Some (trim reference))) s.(operations)) in
      match existing with
      | None => ret None
      | Some (id, o) =>
          do! throw_if (negb (same o.(op_type) DEPOSIT &&
                              String.eqb o.(op_customerId) input.(i_customerId) &&
                              col_is o.(op_targetAccountId) input.(i_targetAccountId) &&
                              same o.(op_currency) input.(i_currency) && d_eq (op_amt o) amount))
                (Conflict "duplicate_remittance_reference");
          ret (Some (id, o))
      end
  | _, _ => ret None
  end.

Definition payout_method_text (m : PayoutMethod) : string :=
  match m with PM_VA => "VA" | PM_POBO => "POBO" | PM_PLATFORM => "PLATFORM" end.

(** The fee of a payout: the fee rule's, never the request's. *)
Definition price_payout (input : CreateOperationInput) (p : Parties) : M Db ResolvedFee :=
  match p.(p_channel), input.(i_payoutMethod) with
  | Some (_, channel), Some method =>
      let! fee := resolve {|
        fs_scopeId := p.(p_customer).(cust_organizationId);
        fs_customerId := Some input.(i_customerId);
        fs_assetClass := "FIAT";
        fs_currency := input.(i_currency);
        fs_method := payout_method_text method;
        fs_channelCode := channel.(chan_code);
        fs_network := None;
        fs_expectedVersion := input.(i_expectedFeeRuleVersion) |} in
      match input.(i_expectedFeeAmount) with
      | None => ret fee
      | Some text =>
          let! expected := decimal text in
          do! throw_if (negb (d_eq fee.(fee_amount) expected)) (Conflict "withdrawal_fee_changed");
          ret fee
      end
  | _, _ => throw (BadRequest "payout_details_required")
  end.

Record ConversionSnapshot := {
  snap_rateVersionId : string;
  snap_customerRate : D;
  snap_quoteAmount : D;
  snap_metadata : json;
}.

(** [orderBy: { effectiveFrom: 'desc' }] of [findFirst]. *)
Definition latest_rate (rates : list (string * RateVersion)) : option (string * RateVersion) :=
  foldr (λ kr best, match best with
                    | Some b => if b.2.(rate_effectiveFrom) <? kr.2.(rate_effectiveFrom)
                                then Some kr else Some b
                    | None => Some kr
                    end) None rates.
Definition rate_type_of (t : OperationType) : RateType := match t with OTC => RT_OTC | _ => RT_FX end.

(** [marketRate * (1 - feeBps / 10000)] to 12 places. *)
Definition customer_rate (marketRate : D) (feeBps : Z) : D :=
  d_toDP (d_mul marketRate (d_sub (d_ofZ 1) (d_div (d_ofZ feeBps) (d_ofZ 10000)))) 12.

(** The conversion snapshot of an FX operation or an OTC quote. *)
Definition price_conversion (now : Z) (input : CreateOperationInput) (amount : D) :
    M Db ConversionSnapshot :=
  let! quoteCurrency := require input.(i_quoteCurrency) (BadRequest "quote_currency_required") in
  do! throw_if (differs input.(i_marketProvider) (Some "fastforex") ||
                differs input.(i_marketPriceType) (Some "midpoint_spot") ||
                differs input.(i_marketReferenceOnly) (Some true) ||
                negb (opt_truthy input.(i_marketRate)) ||
                negb (opt_truthy input.(i_marketUpdatedAt)) ||
                negb (opt_truthy input.(i_marketFetchedAt)))
        (BadRequest "live_market_quote_required");
  let updatedAt := default "" input.(i_marketUpdatedAt) in
  let fetchedAt := default "" input.(i_marketFetchedAt) in
  do! throw_if (negb (marketSourceTimestampsAreFresh fetchedAt updatedAt now))
        (Conflict "live_market_quote_expired");
  let! marketRate := require (d_parse (default "" input.(i_marketRate))) (BadRequest "invalid_market_rate") in
  do! throw_if (negb (d_isFinite marketRate) || d_lte marketRate (d_ofZ 0)) (BadRequest "invalid_market_rate");
  let! rateVersion := gets (λ s, latest_rate (find_many (λ kr,
      same kr.2.(rate_type) (rate_type_of input.(i_type)) &&
      same kr.2.(rate_baseCurrency) input.(i_currency) &&
      same kr.2.(rate_quoteCurrency) quoteCurrency && kr.2.(rate_active) &&
      (kr.2.(rate_effectiveFrom) <=? now) &&
      match kr.2.(rate_effectiveUntil) with None => true | Some u => now <? u end) s.(rateVersions))) in
  let! '(rateId, rate) := require rateVersion (Conflict "active_rate_not_found") in
  let customerRate := customer_rate marketRate rate.(rate_feeBps) in
  ret {| snap_rateVersionId := rateId;
         snap_customerRate := customerRate;
         snap_quoteAmount := d_toDP (d_mul amount customerRate) 8;
         snap_metadata := JObj
           [("provider", JStr "fastforex"); ("priceType", JStr "midpoint_spot");
            ("referenceOnly", JBool true); ("marketRate", JStr (d_toString marketRate));
            ("customerRate", JStr (d_toString customerRate)); ("feeBps", JNum rate.(rate_feeBps));
            ("updatedAt", JStr (to_iso (default 0 (date_parse updatedAt))));
            ("fetchedAt", JStr (to_iso (default 0 (date_parse fetchedAt))))] |}.

Definition actor_json (a : CustomerOperationActor) (rest : list (string * json)) : json :=
  JObj ([("customerId", JStr a.(actor_customerId))] ++
        (if opt_truthy a.(actor_email) then [("email", JStr (default "" a.(actor_email)))] else []) ++ rest).

(** The [metadata] of the new operation. *)
Definition operation_metadata (now : Z) (mode : Submission) (fee : option json)
    (conversion : option ConversionSnapshot) : option json :=
  let parts :=
    match fee with Some f => [("withdrawalFee", f)] | None => [] end ++
    match conversion with Some c => [("marketQuote", c.(snap_metadata))] | None => [] end ++
    match mode with
    | ByAdmin => []
    | ByQuote a => [("quoteConfirmation",
          actor_json a [("expiresAt", JStr (to_iso (now + QUOTE_CONFIRM_WINDOW_MS)))])]
    | ByCustomer a => [("customerSubmission", actor_json a [])]
    end in
  match parts with [] => None | _ => Some (JObj parts) end.

(** [prisma.create] of a numeric column that may be absent. *)
Definition store_optional {A} (store : D → option Z) (f : A → D) (o : option A) : M Db (option Z) :=
  match o with
  | None => ret None
  | Some a => let! z := require (store (f a)) (DbFailure "numeric field overflow") in ret (Some z)
  end.

(** [tx.operation.create]: the row as it is stored. *)
Definition insert_operation (now : Z) (newId uuid : string) (input : CreateOperationInput) (makerId : string)
    (mode : Submission) (amount feeAmount : D) (fee : option json) (conversion : option ConversionSnapshot) :
    M Db (string * Operation) :=
  let! receivedAt :=
    match input.(i_receivedAt) with
    | Some text => if truthy text
                   then let! t := require (date_parse text) (PlainError "PrismaClientValidationError") in ret (Some t)
                   else ret None
    | None => ret None
    end in
  let! amountCol := store8 amount in
  let! feeCol := store8 feeAmount in
  let! quoteCol := store_optional n8_store snap_quoteAmount conversion in
  let! rateCol := store_optional n12_store snap_customerRate conversion in
  let row := {|
    op_reference := operation_reference now uuid;
    op_idempotencyKey := input.(i_idempotencyKey);
    op_customerId := input.(i_customerId);
    op_channelId := input.(i_channelId);
    op_type := input.(i_type);
    op_status := if is_some (quoteActor mode) then DRAFT else SUBMITTED;
    op_currency := input.(i_currency);
    op_amount := amountCol;
    op_feeAmount := feeCol;
    op_sourceAccountId := input.(i_sourceAccountId);
    op_targetAccountId := input.(i_targetAccountId);
    op_beneficiaryId := input.(i_beneficiaryId);
    op_payoutMethod := input.(i_payoutMethod);
    op_adjustmentDirection := input.(i_adjustmentDirection);
    op_quoteCurrency := input.(i_quoteCurrency);
    op_quoteAmount := quoteCol;
    op_rate := rateCol;
    op_rateVersionId := snap_rateVersionId <$> conversion;
    op_makerId := makerId;
    op_checkerId := None;
    op_operatorId := None;
    op_rejectionReason := None;
    op_externalReference := None;
    op_remitterName := input.(i_remitterName);
    op_remitterBank := input.(i_remitterBank);
    op_remittanceReference := trim <$> input.(i_remittanceReference);
    op_receivedAt := receivedAt;
    op_proofUrl := input.(i_proofUrl);
    op_narrative := input.(i_narrative);
    op_metadata := operation_metadata now mode fee conversion;
    op_submittedAt := if is_some (quoteActor mode) then None else Some now;
    op_approvedAt := None;
    op_executedAt := None;
    op_createdAt := now |} in
  do! operation_create newId row;
  ret (newId, row).

(** The reservation of creation. *)
Definition reserve_source (input : CreateOperationInput) (mode : Submission) (p : Parties) (reserve : D) :
    M Db unit :=
  match p.(p_source) with
  | Some (sourceId, _) =>
      if reserves input mode then
        do! freeze sourceId reserve;
        if is_type input OTC && same input.(i_currency) USDT
        then freezeCryptoWallet input.(i_customerId) reserve
        else ret tt
      else ret tt
  | None => ret tt
  end.

(** Pricing, reservation and insertion of an operation that is not a replay. *)
Definition submit (now : Z) (newId uuid : string) (input : CreateOperationInput)
    (makerId : string) (mode : Submission) (p : Parties) (amount requestedFee : D) : M Db (string * Operation) :=
  let! '(feeAmount, feeSnapshot) :=
    (if is_type input PAYOUT
     then let! fee := price_payout input p in ret (fee.(fee_amount), Some fee.(fee_snapshot))
     else ret (requestedFee, None)) in
  let! conversion :=
    (if is_type input FX || is_type input OTC
     then let! c := price_conversion now input amount in ret (Some c)
     else ret None) in
  do! reserve_source input mode p (d_add amount feeAmount);
  insert_operation now newId uuid input makerId mode amount feeAmount feeSnapshot conversion.

(** The transaction of [createOperation]. *)
Definition create_transaction (env : ProcessEnv) (now : Z) (newId uuid : string) (input : CreateOperationInput)
    (makerId : string) (mode : Submission) (p : Parties) (amount fee : D) : M Db (string * Operation) :=
  do! match mode with ByQuote _ => cancel_stale_quotes now input.(i_customerId) | _ => ret tt end;
  let! existing := find_existing input mode amount in
  match existing with
  | Some replay => ret replay
  | None =>
      let! p := match mode with ByCustomer _ => recheck_customer env input | _ => ret p end in
      let! receipt := duplicate_receipt input amount in
      match receipt with
      | Some replay => ret replay
      | None => submit now newId uuid input makerId mode p amount fee
      end
  end.

(** [createOperation] *)
Definition createOperation (env : ProcessEnv) (now : Z) (newId uuid : string) (fault : option exn)
    (input : CreateOperationInput) (makerId : string) (mode : Submission) : M Db (string * Operation) :=
  let! '(amount, fee) := create_checks input in
  let! p := create_parties input makerId in
  try_catch
    (transaction fault (create_transaction env now newId uuid input makerId mode p amount fee))
    (λ e, match e with
          | PrismaKnown "P2002" target =>
              if includes target "remittanceReference"
              then throw (Conflict "duplicate_remittance_reference") else throw e
          | _ => throw e
          end).

(** [create] *)
Definition create (env : ProcessEnv) (now : Z) (newId uuid : string) (fault : option exn)
    (input : CreateOperationInput) (makerId : string) : M Db (string * Operation) :=
  do! requireGenericOperation input.(i_type);
  do! throw_if (is_type input OTC) (Conflict "otc_quote_confirmation_required");
  createOperation env now newId uuid fault input makerId ByAdmin.

(** [quoteExpiresAt] *)
Definition quoteExpiresAt (metadata : option json) : option Z :=
  match json_path2 "quoteConfirmation" "expiresAt" metadata with
  | Some text => date_parse text
  | None => None
  end.

Record QuoteResponse := {
  quote_operation : string * Operation;
  quote_expiresAt : string;
  quote_confirmWindowMs : Z;
}.
(** [quoteResponse] *)
Definition quoteResponse (ko : string * Operation) : exn + QuoteResponse :=
  match quoteExpiresAt ko.2.(op_metadata) with
  | None => inl (Conflict "quote_expiry_missing")
  | Some t => inr {| quote_operation := ko; quote_expiresAt := to_iso t;
                     quote_confirmWindowMs := QUOTE_CONFIRM_WINDOW_MS |}
  end.

(** [createQuote] *)
Definition createQuote (env : ProcessEnv) (now : Z) (newId uuid : string) (fault : option exn)
    (input : CreateOperationInput) (makerId : string) (actor : CustomerOperationActor) :
    M Db (exn + QuoteResponse) :=
  do! throw_if (negb (is_type input OTC)) (BadRequest "otc_quote_required");
  do! throw_if (negb (truthy actor.(actor_customerId)) ||
                negb (String.eqb actor.(actor_customerId) input.(i_customerId)))
        (Forbidden "customer_quote_scope_mismatch");
  after_commit (createOperation env now newId uuid fault input makerId (ByQuote actor)) quoteResponse.

(** [createCustomerPayout] *)
Definition createCustomerPayout (env : ProcessEnv) (now : Z) (newId uuid : string) (fault : option exn)
    (input : CreateOperationInput) (makerId : string) (actor : CustomerOperationActor) :
    M Db (string * Operation) :=
  do! throw_if (negb (is_type input PAYOUT)) (BadRequest "customer_payout_required");
  do! throw_if (negb (truthy actor.(actor_customerId)) ||
                negb (String.eqb actor.(actor_customerId) input.(i_customerId)))
        (Forbidden "customer_payout_scope_mismatch");
  createOperation env now newId uuid fault input makerId (ByCustomer actor).

(** ** Postings *)

(** [postConversion] *)
Definition postConversion (now : Z) (id : string) (o : Operation) : M Db unit :=
  let! '(source, target, quoteCurrency) :=
    match o.(op_sourceAccountId), o.(op_targetAccountId), o.(op_quoteCurrency) with
    | Some a, Some b, Some q =>
        if truthy a && truthy b then ret (a, b, q) else throw (BadRequest "conversion_accounts_required")
    | _, _, _ => throw (BadRequest "conversion_accounts_required")
    end in
  let! quote := match o.(op_quoteAmount) with
                | Some q => if is_none o.(op_rate) || negb (opt_truthy o.(op_rateVersionId))
                            then throw (Conflict "conversion_quote_snapshot_missing") else ret q
                | None => throw (Conflict "conversion_quote_snapshot_missing")
                end in
  let quoteAmount := n8_of quote in
  let! sourceClearing := clearingAccount o.(op_currency) in
  let! targetClearing := clearingAccount quoteCurrency in
  do! consumeFrozen source (op_reserve o);
  do! (if same o.(op_currency) USDT
       then consumeCryptoWalletFrozen o.(op_customerId) (op_reserve o) else ret tt);
  do! creditAvailable target quoteAmount;
  do! (if same quoteCurrency USDT then creditCryptoWallet o.(op_customerId) quoteAmount else ret tt);
  do! post_journal id o
    [(source, DEBIT, o.(op_currency), op_amt o);
     (sourceClearing.1, CREDIT, o.(op_currency), op_amt o);
     (targetClearing.1, DEBIT, quoteCurrency, quoteAmount);
     (target, CREDIT, quoteCurrency, quoteAmount)] "principal";
  let! _ := operation_update now id (λ r,
    set_op_rateVersionId o.(op_rateVersionId) (set_op_rate o.(op_rate) (set_op_quoteAmount (Some quote) r))) in
  postFee id o.

(** [postPayout] *)
Definition postPayout (id : string) (o : Operation) : M Db unit :=
  let! source := match o.(op_sourceAccountId) with
                 | Some a => if truthy a then ret a else throw (BadRequest "source_account_required")
                 | None => throw (BadRequest "source_account_required")
                 end in
  let! clearing := clearingAccount o.(op_currency) in
  do! consumeFrozen source (op_reserve o);
  do! post_journal id o [(source, DEBIT, o.(op_currency), op_amt o);
                         (clearing.1, CREDIT, o.(op_currency), op_amt o)] "principal";
  postFee id o.

(** The branches of [postApprovedOperation]. *)
Definition post_credit (id : string) (o : Operation) : M Db unit :=
  let! target := match o.(op_targetAccountId) with
                 | Some a => if truthy a then ret a else throw (BadRequest "target_account_required")
                 | None => throw (BadRequest "target_account_required")
                 end in
  let! clearing := clearingAccount o.(op_currency) in
  do! creditAvailable target (op_amt o);
  post_journal id o [(clearing.1, DEBIT, o.(op_currency), op_amt o);
                     (target, CREDIT, o.(op_currency), op_amt o)] "principal".

Definition post_transfer (id : string) (o : Operation) : M Db unit :=
  let! '(source, target) :=
    match o.(op_sourceAccountId), o.(op_targetAccountId) with
    | Some a, Some b =>
        if truthy a && truthy b then ret (a, b) else throw (BadRequest "transfer_accounts_required")
    | _, _ => throw (BadRequest "transfer_accounts_required")
    end in
  do! consumeFrozen source (op_reserve o);
  do! creditAvailable target (op_amt o);
  do! post_journal id o [(source, DEBIT, o.(op_currency), op_amt o);
                         (target, CREDIT, o.(op_currency), op_amt o)] "principal";
  postFee id o.

(** The debit adjustment consumes the amount, not the amount and the fee. *)
Definition post_debit_adjustment (id : string) (o : Operation) : M Db unit :=
  let! source := match o.(op_sourceAccountId) with
                 | Some a => if truthy a then ret a else throw (BadRequest "source_account_required")
                 | None => throw (BadRequest "source_account_required")
                 end in
  let! clearing := clearingAccount o.(op_currency) in
  do! consumeFrozen source (op_amt o);
  post_journal id o [(source, DEBIT, o.(op_currency), op_amt o);
                     (clearing.1, CREDIT, o.(op_currency), op_amt o)] "principal".

(** [postApprovedOperation] *)
Definition postApprovedOperation (now : Z) (id : string) (o : Operation) : M Db unit :=
  if same o.(op_type) DEPOSIT ||
     (same o.(op_type) ADJUSTMENT && opt_eqb o.(op_adjustmentDirection) (Some ADJ_CREDIT))
  then post_credit id o
  else if same o.(op_type) INTERNAL_TRANSFER then post_transfer id o
  else if same o.(op_type) FX || same o.(op_type) OTC then postConversion now id o
  else if same o.(op_type) ADJUSTMENT && opt_eqb o.(op_adjustmentDirection) (Some ADJ_DEBIT)
  then post_debit_adjustment id o
  else ret tt.

(** ** Quote confirmation *)

(** The body of the confirmation once the quote is claimed. *)
Definition confirm_claimed (now : Z) (id : string) (o : Operation) : M Db (string * Operation) :=
  let! source := match o.(op_sourceAccountId) with
                 | Some a => if truthy a then ret a else throw (BadRequest "source_account_required")
                 | None => throw (BadRequest "source_account_required")
                 end in
  do! freeze source (op_reserve o);
  do! (if same o.(op_currency) USDT then freezeCryptoWallet o.(op_customerId) (op_reserve o) else ret tt);
  do! postConversion now id (set_op_status PROCESSING o);
  let! completed := operation_update now id (λ r,
    set_op_executedAt (Some now) (set_op_submittedAt (Some now) (set_op_status COMPLETED r))) in
  ret (id, completed).

(** The transaction of [confirmQuote]; [None] is an expired quote. *)
Definition confirm_transaction (now : Z) (id : string) (actor : CustomerOperationActor) :
    M Db (option (string * Operation)) :=
  let! row := find_unique operations id in
  let! o := require row (NotFound "quote_not_found") in
  do! throw_if (differs o.(op_type) OTC || negb (String.eqb o.(op_customerId) actor.(actor_customerId)))
        (NotFound "quote_not_found");
  if same o.(op_status) COMPLETED then ret (Some (id, o)) else
  do! throw_if (differs o.(op_status) DRAFT) (Conflict "quote_not_confirmable");
  let! expiresAt := require (quoteExpiresAt o.(op_metadata)) (Conflict "quote_expiry_missing") in
  if expiresAt <=? now then
    let! _ := operation_updateMany now id (λ r, same r.(op_status) DRAFT) (set_op_status CANCELLED) in
    ret None
  else
    let! claimed := operation_updateMany now id (λ r, same r.(op_status) DRAFT)
      (λ r, set_op_submittedAt (Some now) (set_op_status PROCESSING r)) in
    do! throw_if (differs claimed 1) (Conflict "quote_not_confirmable");
    let! done := confirm_claimed now id o in
    ret (Some done).

(** [confirmQuote]: an expired quote commits its cancellation and then throws. *)
Definition confirmQuote (now : Z) (fault : option exn) (id : string) (actor : CustomerOperationActor) :
    M Db (exn + string * Operation) :=
  after_commit
    (try_catch (transaction fault (confirm_transaction now id actor))
      (λ e, match e with
            | PrismaKnown code _ =>
                if String.eqb code "P2034" || String.eqb code "P2002" then
                  let! row := find_unique operations id in
                  match row with
                  | Some o =>
                      if same o.(op_type) OTC && String.eqb o.(op_customerId) actor.(actor_customerId) &&
                         same o.(op_status) COMPLETED
                      then ret (Some (id, o)) else throw (Conflict "quote_confirmation_conflict")
                  | None => throw (Conflict "quote_confirmation_conflict")
                  end
                else throw e
            | _ => throw e
            end))
    (λ result, match result with
               | None => inl (Conflict "quote_expired")
               | Some ko => inr ko
               end).

(** ** Approval, rejection and execution *)

(** The checks [approve], [reject] and [execute] share: the operation exists,
    is generic, and is in a state [ready] accepts. *)
Definition load_operation (id : string) : M Db Operation :=
  let! row := find_unique operations id in
  let! o := require row (NotFound "operation_not_found") in
  do! requireNonCryptoWorkflow o;
  do! requireGenericOperation o.(op_type);
  ret o.

(** The acting user: an active administrator of the customer's organisation
    ([operation.customer] is a join on a foreign key). *)
Definition acting_user (o : Operation) (userId : string) : M Db User :=
  let! user := requireRole userId [ADMIN] in
  let! customer := find_unique customers o.(op_customerId) in
  do! throw_if (differs user.(user_organizationId) (cust_organizationId <$> customer))
        (NotFound "operation_not_found");
  ret user.

(** [approve] *)
Definition approve (now : Z) (id checkerId : string) : M Db (string * Operation) :=
  let! o := load_operation id in
  do! throw_if (same o.(op_type) OTC) (Conflict "otc_does_not_require_approval");
  do! throw_if (differs o.(op_status) SUBMITTED) (Conflict "operation_not_pending_approval");
  let! checker := acting_user o checkerId in
  do! throw_if (String.eqb o.(op_makerId) checkerId && differs checker.(user_role) ADMIN)
        (Forbidden "admin_required_for_self_approval");
  if same o.(op_type) PAYOUT then
    let! updated := operation_update now id (λ r,
      set_op_approvedAt (Some now) (set_op_checkerId (Some checkerId) (set_op_status PROCESSING r))) in
    ret (id, updated)
  else
    do! postApprovedOperation now id o;
    let! updated := operation_update now id (λ r,
      set_op_executedAt (Some now) (set_op_approvedAt (Some now)
        (set_op_checkerId (Some checkerId) (set_op_status COMPLETED r)))) in
    ret (id, updated).

(** The reservation a rejection gives back. *)
Definition release_reservation (o : Operation) : M Db unit :=
  match o.(op_sourceAccountId) with
  | Some source =>
      if usesReservation o && truthy source then
        do! unfreeze source (op_reserve o);
        if same o.(op_type) OTC && same o.(op_currency) USDT
        then unfreezeCryptoWallet o.(op_customerId) (op_reserve o) else ret tt
      else ret tt
  | None => ret tt
  end.

(** [reject] *)
Definition reject (now : Z) (id reason checkerId : string) : M Db (string * Operation) :=
  do! throw_if (negb (truthy (trim reason))) (BadRequest "rejection_reason_required");
  let! o := load_operation id in
  do! throw_if (differs o.(op_status) SUBMITTED) (Conflict "operation_not_pending_approval");
  let! checker := acting_user o checkerId in
  do! throw_if (String.eqb o.(op_makerId) checkerId && differs checker.(user_role) ADMIN)
        (Forbidden "admin_required_for_self_approval");
  do! release_reservation o;
  let! updated := operation_update now id (λ r,
    set_op_rejectionReason (Some (trim reason)) (set_op_approvedAt (Some now)
      (set_op_checkerId (Some checkerId) (set_op_status REJECTED r)))) in
  ret (id, updated).

(** [execute] *)
Definition execute (now : Z) (id externalReference operatorId : string) : M Db (string * Operation) :=
  do! throw_if (negb (truthy (trim externalReference))) (BadRequest "external_reference_required");
  let! o := load_operation id in
  do! throw_if (differs o.(op_type) PAYOUT || differs o.(op_status) PROCESSING)
        (Conflict "payout_not_ready_for_execution");
  let! _ := acting_user o operatorId in
  do! postPayout id o;
  let! updated := operation_update now id (λ r,
    set_op_executedAt (Some now) (set_op_externalReference (Some (trim externalReference))
      (set_op_operatorId (Some operatorId) (set_op_status COMPLETED r)))) in
  ret (id, updated).
End service.
