(* ===== verification/OperationEffects.v ===== *)
(** The postings of [OperationsService] refined to abstract moves: what each
    posting does to every customer account (available, frozen, journal position)
    and what the operation handlers do to the operation row. *)
From S2P Require Import Prelude Decimals Schema Access Ledger WithdrawalFees Operations.

(** Composes the effects in the context along the states of a run. *)
Ltac chain :=
  eapply effect_ext;
  [ repeat (eapply effect_trans; [eassumption|]); apply effect_refl
  | intros; unfold at_, nothing; repeat case_match; lia .. ].

(** amount + fee is within the exact range of decimal.js. *)
Definition op_exact (o : Operation) : Prop := Z.abs (o.(op_amount) + o.(op_feeAmount)) < 10 ^ 20.
Definition op_total (o : Operation) : Z := o.(op_amount) + o.(op_feeAmount).

Lemma set_operations_id s : set_operations s.(operations) s = s.
Proof. by destruct s. Qed.

(** ** Operations and what they hold *)

(** What an operation holds frozen on its source account.  A completed debit
    adjustment still holds its fee: [approve] consumes the amount only. *)
Definition holds (o : Operation) : Z :=
  match o.(op_status) with
  | SUBMITTED | PROCESSING =>
      if usesReservation o || same o.(op_type) VA_OPENING_FEE then op_total o else 0
  | COMPLETED =>
      if same o.(op_type) ADJUSTMENT && opt_eqb o.(op_adjustmentDirection) (Some ADJ_DEBIT)
      then o.(op_feeAmount) else 0
  | _ => 0
  end.
Definition reservation (i : string) (o : Operation) : Z :=
  if truthy i && opt_eqb o.(op_sourceAccountId) (Some i) then holds o else 0.
(** Σ of what the operations hold on an account. *)
Definition held (s : Db) (i : string) : Z := sum_map (reservation i) s.(operations).

(** The frozen balance of every account is what its operations hold. *)
Definition frozen_backed (s : Db) : Prop := ∀ i, frozen_of s i = held s i.

(** The drift of no customer account changes, and entries stay balanced. *)
Definition conserves (s s' : Db) : Prop :=
  (∀ i, system_account s' i = system_account s i) ∧
  (∀ i, system_account s i = false → drift s' i = drift s i) ∧
  (journal_balanced s → journal_balanced s').

(** The columns of an operation no handler rewrites. *)
Definition same_terms (o o' : Operation) : Prop :=
  o'.(op_reference) = o.(op_reference) ∧ o'.(op_idempotencyKey) = o.(op_idempotencyKey) ∧
  o'.(op_customerId) = o.(op_customerId) ∧ o'.(op_type) = o.(op_type) ∧
  o'.(op_currency) = o.(op_currency) ∧ o'.(op_amount) = o.(op_amount) ∧
  o'.(op_feeAmount) = o.(op_feeAmount) ∧ o'.(op_sourceAccountId) = o.(op_sourceAccountId) ∧
  o'.(op_targetAccountId) = o.(op_targetAccountId) ∧ o'.(op_makerId) = o.(op_makerId) ∧
  o'.(op_quoteAmount) = o.(op_quoteAmount) ∧ o'.(op_rate) = o.(op_rate) ∧
  o'.(op_adjustmentDirection) = o.(op_adjustmentDirection) ∧ o'.(op_metadata) = o.(op_metadata) ∧
  o'.(op_createdAt) = o.(op_createdAt).

(** [moved id o' da df dp s s']: the balances move and the operation [id] becomes [o']. *)
Definition moved (id : string) (o' : Operation) (da df dp : string → Z) (s s' : Db) : Prop :=
  ∃ s1, effect da df dp s s1 ∧ s' = set_operations (<[id := o']> s1.(operations)) s1.

Lemma conserves_refl s : conserves s s.
Proof. done. Qed.
Lemma conserves_trans s1 s2 s3 : conserves s1 s2 → conserves s2 s3 → conserves s1 s3.
Proof.
  intros (A&B&C) (A'&B'&C'). split_and!; [|intros i Hi|auto].
  - intros. by rewrite A', A.
  - rewrite B', B by congruence. done.
Qed.

Lemma moved_effect id o' da df dp s s' :
  moved id o' da df dp s s' →
  (∀ i, available_of s' i = available_of s i + da i) ∧
  (∀ i, frozen_of s' i = frozen_of s i + df i) ∧
  (∀ i, system_account s i = false → position_of s' i = position_of s i + dp i) ∧
  s'.(operations) = <[id := o']> s.(operations).
Proof.
  intros (s1&[F A Z' P _ _]&->). split_and!; [apply A|apply Z'|apply P|].
  simpl. by rewrite (frame_operations _ _ F).
Qed.

(** A move leaves the other tables and the identity of the accounts alone. *)
Lemma moved_frame id o' da df dp s s' :
  moved id o' da df dp s s' →
  s'.(users) = s.(users) ∧ s'.(customers) = s.(customers) ∧ s'.(channels) = s.(channels) ∧
  s'.(beneficiaries) = s.(beneficiaries) ∧ s'.(feeRules) = s.(feeRules) ∧
  s'.(sourceCustomers) = s.(sourceCustomers) ∧ s'.(rateVersions) = s.(rateVersions) ∧
  ∀ i, option_Forall2 same_identity (s.(accounts) !! i) (s'.(accounts) !! i).
Proof. intros (s1&[(A&W&J&->) _ _ _ Hi _]&->). done. Qed.

(** A move whose balance change is posted conserves the drift. *)
Lemma moved_conserves id o' da df dp s s' :
  moved id o' da df dp s s' → (∀ i, system_account s i = false → da i + df i = dp i) → conserves s s'.
Proof.
  intros (s1&E&->) Hb. split_and!.
  - intros i. exact (eff_system _ _ _ _ _ E i).
  - intros i Hi. specialize (Hb i Hi). pose proof (effect_drift _ _ _ _ _ i E Hi) as Hd.
    unfold drift, total_of, available_of, frozen_of, position_of in *; simpl in *. lia.
  - exact (eff_balanced _ _ _ _ _ E).
Qed.

(** A move whose frozen change is the change of what the operation holds. *)
Lemma moved_backed id o' da df dp s s' :
  moved id o' da df dp s s' →
  (∀ i, df i = reservation i o' - from_option (reservation i) 0 (s.(operations) !! id)) →
  frozen_backed s → frozen_backed s'.
Proof.
  intros (_&Hf&_&Ho)%moved_effect Hd Hb i. rewrite Hf, Hb, Hd. unfold held. rewrite Ho.
  destruct (operations s !! id) as [o|] eqn:E; simpl.
  - rewrite (sum_map_insert _ _ _ _ _ E). lia.
  - rewrite sum_map_insert_fresh by done. lia.
Qed.

Lemma reservation_at i src o : o.(op_sourceAccountId) = Some src → truthy src = true →
  reservation i o = at_ src (holds o) i.
Proof.
  intros Hs Ht. unfold reservation, at_, opt_eqb. rewrite Hs.
  destruct (String.eqb_spec i src) as [->|].
  - rewrite Ht, bool_decide_true by done. done.
  - rewrite bool_decide_false by congruence. by rewrite andb_false_r.
Qed.
(** The change of what an operation holds, on its source account. *)
Lemma reservation_change i src o o' z :
  o.(op_sourceAccountId) = Some src → truthy src = true → same_terms o o' → z = holds o' - holds o →
  at_ src z i = reservation i o' - reservation i o.
Proof.
  intros Hs Ht (_&_&_&_&_&_&_&Hsrc&_) ->.
  rewrite (reservation_at i src o), (reservation_at i src o') by congruence.
  unfold at_. destruct (String.eqb i src); lia.
Qed.
Lemma reservation_zero i o : holds o = 0 → reservation i o = 0.
Proof. unfold reservation. by case_match. Qed.

(** ** Tables beside the ledger

    [beside s s']: the balances, the journal and the operations are those of
    [s]; other tables may have changed and empty accounts may have been added. *)
Definition beside (s s' : Db) : Prop :=
  s'.(operations) = s.(operations) ∧ s'.(journal) = s.(journal) ∧
  (∀ i, available_of s' i = available_of s i) ∧ (∀ i, frozen_of s' i = frozen_of s i) ∧
  (∀ i, system_account s' i = system_account s i).
#[global] Instance beside_refl : Reflexive beside.
Proof. done. Qed.
#[global] Instance beside_trans : Transitive beside.
Proof.
  intros s1 s2 s3 (A&B&C&D&E) (A'&B'&C'&D'&E').
  split_and!; [congruence|congruence|intros i|intros i|intros i]; by rewrite ?C', ?D', ?E'.
Qed.

Lemma beside_conserves s s' : beside s s' → conserves s s'.
Proof.
  intros (_&HJ&HA&HF&HS). split_and!; [done| |].
  - intros i _. unfold drift, total_of, position_of. by rewrite HA, HF, HJ.
  - unfold journal_balanced. by rewrite HJ.
Qed.
Lemma beside_backed s s' : beside s s' → frozen_backed s → frozen_backed s'.
Proof. intros (HO&_&_&HF&_) Hb i. unfold held. rewrite HF, HO. apply Hb. Qed.

(** A new account with empty balances, of a customer's kind. *)
Lemma beside_new_account id a s :
  s.(accounts) !! id = None → a.(acc_availableBalance) = 0 → a.(acc_frozenBalance) = 0 →
  system_kind a.(acc_kind) = false → beside s (set_accounts (<[id := a]> s.(accounts)) s).
Proof.
  intros Hn Ha Hf Hk. split_and!; [done..| | |]; intros i; unfold available_of, frozen_of, system_account; simpl;
    (destruct (decide (i = id)) as [->|]; [by rewrite lookup_insert_eq, Hn|by rewrite lookup_insert_ne]).
Qed.

(** A move of the ledger, with changes beside it. *)
Definition moved_beside (id : string) (o' : Operation) (da df dp : string → Z) (s s' : Db) : Prop :=
  ∃ s1, moved id o' da df dp s s1 ∧ beside s1 s'.

Lemma moved_beside_effect id o' da df dp s s' :
  moved_beside id o' da df dp s s' →
  (∀ i, available_of s' i = available_of s i + da i) ∧ (∀ i, frozen_of s' i = frozen_of s i + df i) ∧
  (∀ i, system_account s i = false → position_of s' i = position_of s i + dp i) ∧
  s'.(operations) = <[id := o']> s.(operations) ∧ (∀ i, system_account s' i = system_account s i).
Proof.
  intros (s1&Hm&HO&HJ&HA&HF&HS). pose proof (moved_effect _ _ _ _ _ _ _ Hm) as (A&F&P&O).
  split_and!; [intros i|intros i|intros i Hi|congruence|intros i].
  - by rewrite HA.
  - by rewrite HF.
  - unfold position_of in *. rewrite HJ. by apply P.
  - rewrite HS. destruct Hm as (s0&E&->). exact (eff_system _ _ _ _ _ E i).
Qed.

Lemma moved_beside_sound id o' da df dp s s' :
  moved_beside id o' da df dp s s' → (∀ i, system_account s i = false → da i + df i = dp i) →
  (∀ i, df i = reservation i o' - from_option (reservation i) 0 (s.(operations) !! id)) →
  conserves s s' ∧ (frozen_backed s → frozen_backed s').
Proof.
  intros (s1&Hm&Hb) Hd Hf. split.
  - eapply conserves_trans; [exact (moved_conserves _ _ _ _ _ _ _ Hm Hd)|by apply beside_conserves].
  - intros Hs. eapply beside_backed; [exact Hb|]. exact (moved_backed _ _ _ _ _ _ _ Hm Hf Hs).
Qed.

Section postings.
Context {DO : DecimalOps} {DL : DecimalLaws DO} {JD : JsDates}.

Lemma units_op_reserve o : op_exact o → d_units 8 (op_reserve o) = Some (op_total o).
Proof. intros. by apply units_add_n8. Qed.

(** Replaces the runs of the balance primitives by their effects. *)
Ltac to_effects :=
  repeat match goal with
  | H : consumeFrozen _ _ _ = inr _ |- _ =>
      eapply consumeFrozen_effect in H; [|solve [eauto using units_n8, units_op_reserve]]
  | H : creditAvailable _ _ _ = inr _ |- _ =>
      eapply creditAvailable_effect in H; [|solve [eauto using units_n8, units_op_reserve]]
  | H : freeze _ _ _ = inr _ |- _ =>
      eapply freeze_effect in H; [|solve [eauto using units_n8, units_op_reserve]]
  | H : unfreeze _ _ _ = inr _ |- _ =>
      eapply unfreeze_effect in H; [|solve [eauto using units_n8, units_op_reserve]]
  | H : consumeCryptoWalletFrozen _ _ _ = inr _ |- _ => apply consumeCryptoWalletFrozen_effect in H
  | H : creditCryptoWallet _ _ _ = inr _ |- _ => apply creditCryptoWallet_effect in H
  | H : freezeCryptoWallet _ _ _ = inr _ |- _ => apply freezeCryptoWallet_effect in H
  | H : unfreezeCryptoWallet _ _ _ = inr _ |- _ => apply unfreezeCryptoWallet_effect in H
  end.

(** Carries what is known of platform accounts along the effects. *)
Ltac along :=
  repeat match goal with
  | E : effect _ _ _ ?a _, H : system_account ?a _ = true |- _ =>
      rewrite <- (eff_system _ _ _ _ _ E) in H
  end.

Lemma source_ok (o : option string) e s a s' :
  (match o with Some a => if truthy a then ret a else throw e | None => throw e end : M Db string) s
    = inr (a, s') → o = Some a ∧ truthy a = true ∧ s' = s.
Proof. intros H. minvs. done. Qed.

Lemma postPayout_effect id o s u s' :
  op_exact o → postPayout id o s = inr (u, s') →
  ∃ src, o.(op_sourceAccountId) = Some src ∧ truthy src = true ∧
    effect nothing (at_ src (- op_total o)) (at_ src (- op_total o)) s s'.
Proof.
  intros Hx H. unfold postPayout in H.
  apply bind_ok in H as (src&s1&(Hs&Ht&->)%source_ok&H). minvs.
  fwd clearingAccount_ok as (->&_&Hc). simpl in Hc.
  fwd (consumeFrozen_effect _ _ _ _ _ _ (units_op_reserve o Hx)) as E1.
  fwd (post_pair_effect _ _ _ _ _ _ _ _ _ _ _ (units_n8 _)) as E2.
  fwd (postFee_effect _ _ _ _ _ _ Hs Ht) as E3.
  exists src. split_and!; [done..|]. unfold op_total in *. rewrite <- (eff_system _ _ _ _ _ E1) in Hc.
  eapply effect_ext.
  - eapply effect_trans; [exact E1|]. eapply effect_trans; [exact E2|exact E3].
  - intros. unfold nothing. lia.
  - intros. unfold nothing. lia.
  - intros i Hi. cbv beta. rewrite (at_system _ _ _ i Hc) by (by rewrite (eff_system _ _ _ _ _ E1)).
    unfold at_, nothing. case_match; lia.
Qed.

Lemma post_credit_effect id o s u s' :
  post_credit id o s = inr (u, s') →
  ∃ tgt, o.(op_targetAccountId) = Some tgt ∧ truthy tgt = true ∧
    effect (at_ tgt o.(op_amount)) nothing (at_ tgt o.(op_amount)) s s'.
Proof.
  intros H. unfold post_credit in H.
  apply bind_ok in H as (tgt&s1&(Hs&Ht&->)%source_ok&H). minvs.
  fwd clearingAccount_ok as (->&_&Hc). simpl in Hc.
  fwd (creditAvailable_effect _ _ _ _ _ _ (units_n8 _)) as E1.
  fwd (post_pair_effect _ _ _ _ _ _ _ _ _ _ _ (units_n8 _)) as E2.
  exists tgt. split_and!; [done..|].
  eapply effect_ext; [eapply effect_trans; [exact E1|exact E2]|..]; intros; cbv beta.
  - unfold nothing. lia.
  - unfold nothing. lia.
  - rewrite (at_system _ _ _ _ Hc) by done. unfold nothing. lia.
Qed.

Lemma post_debit_adjustment_effect id o s u s' :
  post_debit_adjustment id o s = inr (u, s') →
  ∃ src, o.(op_sourceAccountId) = Some src ∧ truthy src = true ∧
    effect nothing (at_ src (- o.(op_amount))) (at_ src (- o.(op_amount))) s s'.
Proof.
  intros H. unfold post_debit_adjustment in H.
  apply bind_ok in H as (src&s1&(Hs&Ht&->)%source_ok&H). minvs.
  fwd clearingAccount_ok as (->&_&Hc). simpl in Hc.
  fwd (consumeFrozen_effect _ _ _ _ _ _ (units_n8 _)) as E1.
  fwd (post_pair_effect _ _ _ _ _ _ _ _ _ _ _ (units_n8 _)) as E2.
  exists src. split_and!; [done..|].
  eapply effect_ext; [eapply effect_trans; [exact E1|exact E2]|..]; intros; cbv beta.
  - unfold nothing. lia.
  - unfold nothing. lia.
  - rewrite (at_system _ _ _ _ Hc) by done. unfold at_, nothing. case_match; lia.
Qed.

Lemma post_transfer_effect id o s u s' :
  op_exact o → post_transfer id o s = inr (u, s') →
  ∃ src tgt, o.(op_sourceAccountId) = Some src ∧ o.(op_targetAccountId) = Some tgt ∧
    truthy src = true ∧ effect (at_ tgt o.(op_amount)) (at_ src (- op_total o))
      (λ i, at_ tgt o.(op_amount) i + at_ src (- op_total o) i) s s'.
Proof.
  intros Hx H. unfold post_transfer in H. minvs. guards.
  fwd (consumeFrozen_effect _ _ _ _ _ _ (units_op_reserve o Hx)) as E1.
  fwd (creditAvailable_effect _ _ _ _ _ _ (units_n8 _)) as E2.
  fwd (post_pair_effect _ _ _ _ _ _ _ _ _ _ _ (units_n8 _)) as E3.
  fwd (postFee_effect _ _ _ _ _ _ ltac:(eassumption) ltac:(eassumption)) as E4.
  eexists _, _. split_and!; [done..|]. unfold op_total in *. chain.
Qed.

(** The four lines of a conversion: both legs against their clearing accounts. *)
Lemma conversion_lines_effect oid o suf a b ca cb c q x y zx zy s u s' :
  d_units 8 x = Some zx → d_units 8 y = Some zy →
  system_account s ca = true → system_account s cb = true →
  post_journal oid o [(a, DEBIT, c, x); (ca, CREDIT, c, x); (cb, DEBIT, q, y); (b, CREDIT, q, y)] suf s
    = inr (u, s') →
  effect nothing nothing (λ i, at_ b zy i - at_ a zx i) s s'.
Proof.
  intros Hx Hy Ha Hb H.
  assert (posted (pair_lines a ca c zx ++ pair_lines cb b q zy) s s') as Hp.
  { apply (post_journal_posted oid o
      [(a, DEBIT, c, x); (ca, CREDIT, c, x); (cb, DEBIT, q, y); (b, CREDIT, q, y)] suf
      [zx; zx; zy; zy] s u s'); [|exact H]. by repeat constructor. }
  eapply effect_ext; [apply (posted_effect _ _ _ Hp)|done|done|].
  - intros k. rewrite sum_list_app, !pair_balanced. done.
  - intros i Hi. cbv beta. rewrite sum_list_app, !pair_effect.
    pose proof (at_system _ _ 1 _ Ha Hi) as E1. pose proof (at_system _ _ 1 _ Hb Hi) as E2.
    unfold at_ in *. rewrite (String.eqb_sym i ca) in E1. rewrite (String.eqb_sym i cb) in E2.
    rewrite (String.eqb_sym i a), (String.eqb_sym i b). repeat case_match; lia.
Qed.

(** [postConversion] rewrites the snapshot columns with the values just read. *)
Definition same_snapshot (r o : Operation) : Prop :=
  r.(op_quoteAmount) = o.(op_quoteAmount) ∧ r.(op_rate) = o.(op_rate) ∧
  r.(op_rateVersionId) = o.(op_rateVersionId).

Lemma rewrite_snapshot now id o r q s w s' :
  s.(operations) !! id = Some r → same_snapshot r o → o.(op_quoteAmount) = Some q →
  operation_update now id (λ r, set_op_rateVersionId o.(op_rateVersionId)
    (set_op_rate o.(op_rate) (set_op_quoteAmount (Some q) r))) s = inr (w, s') → s' = s.
Proof.
  intros Hr (Hq&Hp&Hv) Hs (r'&Hr'&_&_&->)%update_row_ok.
  rewrite Hr in Hr'. injection Hr' as <-. rewrite <- Hs, <- Hq, <- Hp, <- Hv.
  assert (∀ r, set_op_rateVersionId (op_rateVersionId r) (set_op_rate (op_rate r)
            (set_op_quoteAmount (op_quoteAmount r) r)) = r) as -> by (by intros []).
  rewrite insert_id by done. apply set_operations_id.
Qed.

Lemma when_effect (b : bool) (m : M Db unit) s u s' :
  (∀ u s', m s = inr (u, s') → effect nothing nothing nothing s s') →
  (if b then m else ret tt) s = inr (u, s') → effect nothing nothing nothing s s'.
Proof. intros Hm H. destruct b; [eauto|]. apply ret_ok in H as [_ ->]. apply effect_refl. Qed.

Lemma postConversion_effect now id o r s u s' :
  op_exact o → s.(operations) !! id = Some r → same_snapshot r o →
  postConversion now id o s = inr (u, s') →
  ∃ src tgt q, o.(op_sourceAccountId) = Some src ∧ o.(op_targetAccountId) = Some tgt ∧
    o.(op_quoteAmount) = Some q ∧ truthy src = true ∧
    effect (at_ tgt q) (at_ src (- op_total o)) (λ i, at_ tgt q i + at_ src (- op_total o) i) s s'.
Proof.
  intros Hx Hr Hsn H. unfold postConversion in H.
  apply bind_ok in H as ([[source target] q]&?&H1&H). apply bind_ok in H as (quote&?&H2&H).
  minvs; guards; do 2 fwd clearingAccount_ok as (->&_&?); simpl in *; to_effects; along;
  (eapply conversion_lines_effect in H8; [|apply units_n8|apply units_n8|eassumption|eassumption]);
  match goal with H : operation_update _ _ _ ?x = _, P : postFee _ _ _ = _ |- _ =>
    assert (effect (at_ s1 z) (at_ s0 (- op_total o)) (λ i, at_ s1 z i - at_ s0 o.(op_amount) i) s x) as E by chain;
    rewrite <- (frame_operations _ _ (eff_frame _ _ _ _ _ E)) in Hr;
    apply (rewrite_snapshot _ _ _ _ _ _ _ _ Hr Hsn) in H; [subst|done];
    apply (postFee_effect _ _ _ _ _ _ Heqo1) in P; [|done]
  end;
  exists s0, s1, z; (split_and!; [done..|]); unfold op_total in *; chain.
Qed.

(** *** The operation handlers as moves *)

Lemma operation_update_ok now id f s o' s' :
  operation_update now id f s = inr (o', s') →
  ∃ o, s.(operations) !! id = Some o ∧ o' = f o ∧
    guard_operation_transition s.(users) now o (f o) = true ∧
    s' = set_operations (<[id := f o]> s.(operations)) s.
Proof. intros (o&?&?&Hg&?)%update_row_ok. apply andb_true_iff in Hg as [? _]. eauto. Qed.

Lemma load_operation_ok id s o s' :
  load_operation id s = inr (o, s') →
  s' = s ∧ s.(operations) !! id = Some o ∧ json_has "cryptoTransferId" o.(op_metadata) = false ∧
  o.(op_type) ≠ VA_OPENING_FEE.
Proof.
  unfold load_operation, requireNonCryptoWorkflow, requireGenericOperation, find_unique.
  intros H. minvs. guards. done.
Qed.

Lemma acting_user_ok o uid s u s' :
  acting_user o uid s = inr (u, s') →
  s' = s ∧ s.(users) !! uid = Some u ∧ u.(user_active) = true ∧ u.(user_role) = ADMIN ∧
  u.(user_organizationId) = cust_organizationId <$> s.(customers) !! o.(op_customerId).
Proof.
  unfold acting_user, requireRole, find_unique. intros H. minvs. guards. set_solver.
Qed.

(** What a handler establishes about the operation it settles. *)
Record settled (id : string) (o o' : Operation) (s s' : Db) : Prop := {
  settled_old : s.(operations) !! id = Some o;
  settled_terms : same_terms o o';
  settled_conserves : conserves s s';
  settled_backed : frozen_backed s → frozen_backed s';
  settled_rows : s'.(operations) = <[id := o']> s.(operations);
  settled_users : s'.(users) = s.(users);
  settled_customers : s'.(customers) = s.(customers);
}.

Lemma moved_settled id o o' da df dp s s' :
  s.(operations) !! id = Some o → same_terms o o' → moved id o' da df dp s s' →
  (∀ i, system_account s i = false → da i + df i = dp i) →
  (∀ i, df i = reservation i o' - reservation i o) → settled id o o' s s'.
Proof.
  intros Ho Ht Hm Hb Hf. split; try done.
  - by eapply moved_conserves.
  - eapply moved_backed; [done|]. by rewrite Ho.
  - by apply moved_effect in Hm as (_&_&_&?).
  - by destruct Hm as (?&[(?&?&?&->)]&->).
  - by destruct Hm as (?&[(?&?&?&->)]&->).
Qed.

(** An update of the row [o] after the effect [E] is a move. *)
Lemma update_moved now id f o o' da df dp s s1 s' :
  s.(operations) !! id = Some o → effect da df dp s s1 →
  operation_update now id f s1 = inr (o', s') →
  o' = f o ∧ moved id o' da df dp s s' ∧ guard_operation_transition s.(users) now o o' = true.
Proof.
  intros Ho E (o1&Ho1&->&Hg&->)%operation_update_ok.
  destruct (eff_frame _ _ _ _ _ E) as (A&W&J&->). simpl in *. simplify_eq.
  split_and!; [done| |done]. by eexists.
Qed.

Lemma holds_not_reserving o : usesReservation o = false → op_type o ≠ VA_OPENING_FEE → holds o = 0.
Proof.
  unfold holds. intros Hu Ht. rewrite Hu. apply same_false in Ht. rewrite Ht.
  unfold usesReservation in Hu. apply orb_false_iff in Hu as [_ ->]. by case_match.
Qed.

(** Evaluates [holds] on the types and statuses left possible. *)
Ltac holds_eq o :=
  unfold holds, op_total, usesReservation, same, opt_eqb in *; simpl;
  repeat match goal with H : op_status _ = _ |- _ => rewrite H in * end;
  destruct (op_type o), (op_adjustmentDirection o) as [[]|]; simplify_eq/=; first [done | lia].

(** Approval of every type but the payout: postings and completion. *)
Lemma postApproved_settles now id checkerId o o' s s1 u s' :
  op_exact o → s.(operations) !! id = Some o → o.(op_status) = SUBMITTED →
  op_type o ≠ VA_OPENING_FEE → op_type o ≠ PAYOUT →
  postApprovedOperation now id o s = inr (u, s1) →
  operation_update now id (λ r,
      set_op_executedAt (Some now) (set_op_approvedAt (Some now)
        (set_op_checkerId (Some checkerId) (set_op_status COMPLETED r)))) s1 = inr (o', s') →
  settled id o o' s s' ∧ o'.(op_status) = COMPLETED.
Proof.
  intros Hx Ho Hst Hv Hp H U. unfold postApprovedOperation in H.
  destruct (_ || _) eqn:B1 in H; [|destruct (same (op_type o) INTERNAL_TRANSFER) eqn:B2;
    [|destruct (same (op_type o) FX || _) eqn:B3; [|destruct (_ && _) eqn:B4 in H]]].
  - apply post_credit_effect in H as (tgt&_&_&E).
    destruct (update_moved _ _ _ _ _ _ _ _ _ _ _ Ho E U) as (->&Hm&_). split; [|done].
    eapply moved_settled; [done|done|done|intros; unfold nothing; lia|].
    intros i. rewrite !reservation_zero; [done|holds_eq o..].
  - apply post_transfer_effect in H as (src&tgt&Hs&_&Ht&E); [|done].
    destruct (update_moved _ _ _ _ _ _ _ _ _ _ _ Ho E U) as (->&Hm&_). split; [|done].
    eapply moved_settled; [done|done|done|intros; cbv beta; lia|].
    intros i. apply reservation_change; [done..|holds_eq o].
  - eapply postConversion_effect in H as (src&tgt&q&Hs&_&_&Ht&E); [|done..].
    destruct (update_moved _ _ _ _ _ _ _ _ _ _ _ Ho E U) as (->&Hm&_). split; [|done].
    eapply moved_settled; [done|done|done|intros; cbv beta; lia|].
    intros i. apply reservation_change; [done..|holds_eq o].
  - apply post_debit_adjustment_effect in H as (src&Hs&Ht&E).
    destruct (update_moved _ _ _ _ _ _ _ _ _ _ _ Ho E U) as (->&Hm&_). split; [|done].
    eapply moved_settled; [done|done|done|intros; unfold nothing; lia|].
    intros i. apply reservation_change; [done..|holds_eq o].
  - apply ret_ok in H as [_ ->].
    destruct (update_moved _ _ _ _ _ _ _ _ _ _ _ Ho (effect_refl s) U) as (->&Hm&_). split; [|done].
    eapply moved_settled; [done|done|done|intros; unfold nothing; lia|].
    intros i. rewrite !reservation_zero; [done|holds_eq o..].
Qed.

(** [approve] settles the operation: a payout moves to PROCESSING and keeps
    its reservation, every other type is posted and completed. *)
Lemma approve_settles now id checkerId s id' o' s' :
  (∀ o, s.(operations) !! id = Some o → op_exact o) →
  approve now id checkerId s = inr ((id', o'), s') →
  ∃ o, settled id o o' s s' ∧ id' = id ∧ o.(op_status) = SUBMITTED ∧
    o'.(op_status) = (if same o.(op_type) PAYOUT then PROCESSING else COMPLETED).
Proof.
  intros Hx H. unfold approve in H.
  apply bind_ok in H as (o&s1&(->&Ho&_&Hv)%load_operation_ok&H). specialize (Hx o Ho).
  apply bind_ok in H as (_&?&[Hotc ->]%throw_if_ok&H).
  apply bind_ok in H as (_&?&[Hst ->]%throw_if_ok&H). guards.
  apply bind_ok in H as (ck&?&(->&_&_&_&_)%acting_user_ok&H).
  apply bind_ok in H as (_&?&[_ ->]%throw_if_ok&H). exists o.
  destruct (same (op_type o) PAYOUT) eqn:Hp.
  - apply bind_ok in H as (w&s2&U&[E ->]%ret_ok). simplify_eq.
    destruct (update_moved _ _ _ _ _ _ _ _ _ _ _ Ho (effect_refl s) U) as (->&Hm&_).
    split_and!; try done. eapply moved_settled; [done|done|done|done|].
    intros i. unfold nothing, reservation. simpl. case_match; [|done]. holds_eq o.
  - apply bind_ok in H as (w&s2&P&H). apply bind_ok in H as (w'&s3&U&[E ->]%ret_ok).
    injection E as -> ->. guards.
    destruct (postApproved_settles now id checkerId o w' s s2 w s3) as [? ?]; done.
Qed.

(** The approval of a payout only moves its status. *)
Lemma approve_payout_moves now id checkerId s id' o' s' :
  (∀ o, s.(operations) !! id = Some o → o.(op_type) = PAYOUT) →
  approve now id checkerId s = inr ((id', o'), s') →
  ∃ o, s.(operations) !! id = Some o ∧ o.(op_status) = SUBMITTED ∧
    o' = set_op_approvedAt (Some now) (set_op_checkerId (Some checkerId) (set_op_status PROCESSING o)) ∧
    moved id o' nothing nothing nothing s s'.
Proof.
  intros Hp H. unfold approve in H.
  apply bind_ok in H as (o&s1&(->&Ho&_&Hv)%load_operation_ok&H). specialize (Hp o Ho).
  apply bind_ok in H as (_&?&[_ ->]%throw_if_ok&H).
  apply bind_ok in H as (_&?&[Hst ->]%throw_if_ok&H). guards.
  apply bind_ok in H as (ck&?&(->&_&_&_&_)%acting_user_ok&H).
  apply bind_ok in H as (_&?&[_ ->]%throw_if_ok&H). rewrite Hp in H. simpl in H.
  apply bind_ok in H as (w&s2&U&[E ->]%ret_ok). injection E as -> ->.
  destruct (update_moved _ _ _ _ _ _ _ _ _ _ _ Ho (effect_refl s) U) as (->&Hm&_). eauto.
Qed.

(** The approval of a debit adjustment consumes its amount. *)
Lemma approve_debit_moves now id checkerId s id' o' s' :
  (∀ o, s.(operations) !! id = Some o →
     o.(op_type) = ADJUSTMENT ∧ o.(op_adjustmentDirection) = Some ADJ_DEBIT) →
  approve now id checkerId s = inr ((id', o'), s') →
  ∃ o src, s.(operations) !! id = Some o ∧ o.(op_sourceAccountId) = Some src ∧ o'.(op_status) = COMPLETED ∧
    moved id o' nothing (at_ src (- o.(op_amount))) (at_ src (- o.(op_amount))) s s'.
Proof.
  intros Hp H. unfold approve in H.
  apply bind_ok in H as (o&s1&(->&Ho&_&Hv)%load_operation_ok&H). destruct (Hp o Ho) as [Hty Had].
  apply bind_ok in H as (_&?&[_ ->]%throw_if_ok&H). apply bind_ok in H as (_&?&[_ ->]%throw_if_ok&H).
  apply bind_ok in H as (ck&?&(->&_&_&_&_)%acting_user_ok&H).
  apply bind_ok in H as (_&?&[_ ->]%throw_if_ok&H).
  unfold postApprovedOperation in H. rewrite Hty, Had in H. simpl in H.
  apply bind_ok in H as (w&s1&(src&Hs&_&P)%post_debit_adjustment_effect&H).
  apply bind_ok in H as (w'&s2&U&[E ->]%ret_ok). injection E as -> ->.
  destruct (update_moved _ _ _ _ _ _ _ _ _ _ _ Ho P U) as (->&Hm&_). by exists o, src.
Qed.

(** [reject] gives back exactly what the operation held. *)
Lemma release_reservation_effect o s u s' :
  op_exact o → o.(op_status) = SUBMITTED → o.(op_type) ≠ VA_OPENING_FEE →
  release_reservation o s = inr (u, s') →
  effect (λ i, reservation i o) (λ i, - reservation i o) nothing s s'.
Proof.
  intros Hx Hst Hv H. unfold release_reservation in H.
  assert (holds o = if usesReservation o then op_total o else 0) as Hh.
  { unfold holds. rewrite Hst. apply same_false in Hv. by rewrite Hv, orb_false_r. }
  destruct (op_sourceAccountId o) as [src|] eqn:Hs.
  2: { apply ret_ok in H as [_ ->]. eapply effect_ext; [apply effect_refl|..]; intros i; try intros _;
       unfold nothing, reservation; rewrite ?Hs; try done; by rewrite andb_false_r. }
  destruct (usesReservation o) eqn:Hu; simpl in H; [destruct (truthy src) eqn:Ht|].
  - minvs; to_effects; (eapply effect_ext; [repeat (eapply effect_trans; [eassumption|]); apply effect_refl|..]);
      intros; cbv beta; rewrite ?(reservation_at _ _ _ Hs Ht), ?Hh; unfold at_, nothing; repeat case_match; lia.
  - apply ret_ok in H as [_ ->]. eapply effect_ext; [apply effect_refl|..]; intros i; try intros _;
       unfold nothing, reservation, opt_eqb; rewrite ?Hs; try done; case_bool_decide as E;
       rewrite ?andb_false_r; try done; injection E as ->; by rewrite Ht.
  - apply ret_ok in H as [_ ->]. eapply effect_ext; [apply effect_refl|..]; intros i; try intros _;
       unfold nothing; rewrite ?reservation_zero; done.
Qed.

Lemma reject_moves now id reason checkerId s id' o' s' :
  (∀ o, s.(operations) !! id = Some o → op_exact o) →
  reject now id reason checkerId s = inr ((id', o'), s') →
  ∃ o, s.(operations) !! id = Some o ∧ id' = id ∧ o.(op_status) = SUBMITTED ∧
    o'.(op_status) = REJECTED ∧ same_terms o o' ∧
    moved id o' (λ i, reservation i o) (λ i, - reservation i o) nothing s s'.
Proof.
  intros Hx H. unfold reject in H.
  apply bind_ok in H as (_&?&[_ ->]%throw_if_ok&H).
  apply bind_ok in H as (o&s1&(->&Ho&_&Hv)%load_operation_ok&H). specialize (Hx o Ho).
  apply bind_ok in H as (_&?&[Hst ->]%throw_if_ok&H). guards.
  apply bind_ok in H as (ck&?&(->&_&_&_&_)%acting_user_ok&H).
  apply bind_ok in H as (_&?&[_ ->]%throw_if_ok&H).
  apply bind_ok in H as (w&s1&R&H). apply bind_ok in H as (w'&s2&U&[E ->]%ret_ok).
  injection E as -> ->. apply release_reservation_effect in R; [|done..].
  destruct (update_moved _ _ _ _ _ _ _ _ _ _ _ Ho R U) as (->&Hm&_). by exists o.
Qed.

Lemma reject_settles now id reason checkerId s id' o' s' :
  (∀ o, s.(operations) !! id = Some o → op_exact o) →
  reject now id reason checkerId s = inr ((id', o'), s') →
  ∃ o, settled id o o' s s' ∧ id' = id ∧ o.(op_status) = SUBMITTED ∧ o'.(op_status) = REJECTED.
Proof.
  intros Hx H. apply reject_moves in H as (o&Ho&->&Hst&Hst'&Ht&Hm); [|done].
  exists o. split_and!; try done. eapply moved_settled; [done..| |]; intros i; unfold nothing; [lia|].
  rewrite (reservation_zero i o'); [lia|]. unfold holds. by rewrite Hst'.
Qed.

Lemma execute_moves now id ref operatorId s id' o' s' :
  (∀ o, s.(operations) !! id = Some o → op_exact o) →
  execute now id ref operatorId s = inr ((id', o'), s') →
  ∃ o, s.(operations) !! id = Some o ∧ id' = id ∧ o.(op_type) = PAYOUT ∧ o.(op_status) = PROCESSING ∧
    o'.(op_status) = COMPLETED ∧ o'.(op_externalReference) = Some (trim ref) ∧ same_terms o o' ∧
    moved id o' nothing (λ i, - reservation i o) (λ i, - reservation i o) s s'.
Proof.
  intros Hx H. unfold execute in H.
  apply bind_ok in H as (_&?&[_ ->]%throw_if_ok&H).
  apply bind_ok in H as (o&s1&(->&Ho&_&Hv)%load_operation_ok&H). specialize (Hx o Ho).
  apply bind_ok in H as (_&?&[Hst ->]%throw_if_ok&H). guards.
  apply bind_ok in H as (ck&?&(->&_&_&_&_)%acting_user_ok&H).
  apply bind_ok in H as (w&s1&P&H). apply bind_ok in H as (w'&s2&U&[E ->]%ret_ok).
  injection E as -> ->. apply postPayout_effect in P as (src&Hs&Ht&P); [|done].
  destruct (update_moved _ _ _ _ _ _ _ _ _ _ _ Ho P U) as (->&(s3&Hm&->)&_).
  exists o. split_and!; try done. exists s3. split; [|done].
  assert (holds o = op_total o) as Hh by holds_eq o.
  eapply effect_ext; [exact Hm|done|..]; intros; rewrite (reservation_at _ _ _ Hs Ht), Hh; unfold at_; by case_match.
Qed.

Lemma execute_settles now id ref operatorId s id' o' s' :
  (∀ o, s.(operations) !! id = Some o → op_exact o) →
  execute now id ref operatorId s = inr ((id', o'), s') →
  ∃ o, settled id o o' s s' ∧ id' = id ∧ o.(op_status) = PROCESSING ∧ o'.(op_status) = COMPLETED.
Proof.
  intros Hx H. apply execute_moves in H as (o&Ho&->&Hty&Hst&Hst'&_&Ht&Hm); [|done].
  exists o. split_and!; try done. eapply moved_settled; [done..| |]; intros i; unfold nothing; [lia|].
  rewrite (reservation_zero i o'); [lia|]. destruct Ht as (_&_&_&Hty'&_).
  unfold holds. rewrite Hst', Hty', Hty. done.
Qed.

(** *** Quote confirmation *)

(** An effect does not look at the operations table. *)
Lemma effect_set_operations da df dp X s s' :
  effect da df dp (set_operations X s) s' → ∃ s1, effect da df dp s s1 ∧ s' = set_operations X s1.
Proof.
  intros [(A&W&J&->) H1 H2 H3 H4 H5].
  exists (set_accounts A (set_wallets W (set_journal J s))). split; [|done].
  split; [by exists A, W, J|exact H1|exact H2|exact H3|exact H4|exact H5].
Qed.

(** A claimed operation, further effects, and its final update. *)
Lemma moved_then now id f o1 da df dp da' df' dp' o' s s1 s2 s' :
  moved id o1 da df dp s s1 → effect da' df' dp' s1 s2 → operation_update now id f s2 = inr (o', s') →
  o' = f o1 ∧ moved id o' (λ i, da i + da' i) (λ i, df i + df' i) (λ i, dp i + dp' i) s s'.
Proof.
  intros (sa&E1&->) (sb&E2&->)%effect_set_operations (o&Ho&->&_&->)%operation_update_ok.
  simpl in Ho. rewrite lookup_insert_eq in Ho. injection Ho as <-. split; [done|].
  exists sb. split; [by eapply effect_trans|]. simpl.
  by rewrite (frame_operations _ _ (eff_frame _ _ _ _ _ E2)), insert_insert_eq.
Qed.

Lemma operation_updateMany_ok now id p f s n s' :
  operation_updateMany now id p f s = inr (n, s') →
  (n = 1 ∧ ∃ o, s.(operations) !! id = Some o ∧ p o = true ∧
      s' = set_operations (<[id := f o]> s.(operations)) s) ∨
  (n = 0 ∧ s' = s ∧ ∀ o, s.(operations) !! id = Some o → p o = false).
Proof. intros [(->&o&?&?&_&->)|H]%update_many_id_ok; [left; eauto|by right]. Qed.

Inductive confirm_outcome (now : Z) (id : string) (actor : CustomerOperationActor) (s s' : Db) :
    option (string * Operation) → Prop :=
| confirm_replayed o :
    s' = s → s.(operations) !! id = Some o → o.(op_status) = COMPLETED →
    confirm_outcome now id actor s s' (Some (id, o))
| confirm_expired o t :
    s.(operations) !! id = Some o → o.(op_status) = DRAFT →
    quoteExpiresAt o.(op_metadata) = Some t → t ≤ now →
    s' = set_operations (<[id := set_op_status CANCELLED o]> s.(operations)) s →
    confirm_outcome now id actor s s' None
| confirm_done o o' src tgt q t :
    s.(operations) !! id = Some o → o.(op_status) = DRAFT → o.(op_customerId) = actor.(actor_customerId) →
    quoteExpiresAt o.(op_metadata) = Some t → now < t →
    o'.(op_status) = COMPLETED → same_terms o o' →
    o.(op_sourceAccountId) = Some src → o.(op_targetAccountId) = Some tgt → o.(op_quoteAmount) = Some q →
    moved id o' (λ i, at_ tgt q i - at_ src (op_total o) i) nothing
      (λ i, at_ tgt q i - at_ src (op_total o) i) s s' →
    confirm_outcome now id actor s s' (Some (id, o')).

Lemma confirm_transaction_outcome now id actor s r s' :
  (∀ o, s.(operations) !! id = Some o → op_exact o) →
  confirm_transaction now id actor s = inr (r, s') →
  (∃ o, s.(operations) !! id = Some o ∧ o.(op_type) = OTC ∧ o.(op_customerId) = actor.(actor_customerId)) ∧
  confirm_outcome now id actor s s' r.
Proof.
  intros Hx H. unfold confirm_transaction, find_unique in H.
  apply bind_ok in H as (row&?&[-> ->]%gets_ok&H). apply bind_ok in H as (o&?&[Ho ->]%require_ok&H).
  apply bind_ok in H as (_&?&[Hty ->]%throw_if_ok&H). guards. specialize (Hx o Ho).
  match goal with H : String.eqb _ _ = true |- _ => apply String.eqb_eq in H end.
  split; [by exists o|].
  destruct (same (op_status o) COMPLETED) eqn:Hc.
  { apply ret_ok in H as [-> ->]. guards. by eapply confirm_replayed. }
  apply bind_ok in H as (_&?&[Hd ->]%throw_if_ok&H). guards.
  apply bind_ok in H as (t&?&[Ht ->]%require_ok&H).
  destruct (Z.leb_spec t now).
  - apply bind_ok in H as (n&?&U%operation_updateMany_ok&[-> ->]%ret_ok).
    destruct U as [(_&o1&Ho1&_&->)|(_&->&Hf)]; [simplify_eq; by eapply confirm_expired|].
    specialize (Hf o Ho). by guards.
  - apply bind_ok in H as (n&s1&U%operation_updateMany_ok&H).
    apply bind_ok in H as (_&?&[Hn ->]%throw_if_ok&H). guards. subst n.
    destruct U as [(_&o1&Ho1&_&->)|[? _]]; [|lia]. simplify_eq.
    apply bind_ok in H as (done&s2&H&[-> ->]%ret_ok).
    unfold confirm_claimed in H. apply bind_ok in H as (src&?&(Hs&Hts&->)%source_ok&H).
    set (sa := set_operations _ s) in H. set (oc := set_op_submittedAt (Some now) (set_op_status PROCESSING o)).
    assert (moved id oc nothing nothing nothing s sa) as Hm by (exists s; split; [apply effect_refl|done]).
    apply bind_ok in H as (u1&s3&F1&H).
    apply (freeze_effect _ _ _ _ _ _ (units_op_reserve o Hx)) in F1.
    apply bind_ok in H as (u2&s4&F2%when_effect&H); [|intros; by eapply freezeCryptoWallet_effect].
    assert (sa.(operations) !! id = Some oc) as Hsa by apply lookup_insert_eq.
    rewrite <- (frame_operations _ _ (eff_frame _ _ _ _ _ F1)),
      <- (frame_operations _ _ (eff_frame _ _ _ _ _ F2)) in Hsa.
    apply bind_ok in H as (u3&s5&P&H). eapply (postConversion_effect _ _ _ oc) in P as (src'&tgt&q&Hs'&Hg&Hq&_&P); [|done..].
    simpl in *. rewrite Hs in Hs'. injection Hs' as <-.
    apply bind_ok in H as (w&s6&U&[-> ->]%ret_ok).
    destruct (moved_then _ _ _ _ _ _ _ _ _ _ _ _ _ _ _ Hm (effect_trans _ _ _ _ _ _ _ _ _ F1
      (effect_trans _ _ _ _ _ _ _ _ _ F2 P)) U) as (->&(s7&E&Hs7)).
    eapply confirm_done; try done; exists s7. split; [|done].
    eapply effect_ext; [exact E|..]; intros; unfold at_, nothing, op_total; simpl; repeat case_match; lia.
Qed.

(** *** Runs that succeed *)
Lemma load_operation_run id s o :
  s.(operations) !! id = Some o → json_has "cryptoTransferId" o.(op_metadata) = false →
  o.(op_type) ≠ VA_OPENING_FEE → load_operation id s = inr (o, s).
Proof.
  intros Ho Hj Hv. apply same_false in Hv. unfold load_operation, find_unique.
  run gets_run. run require_run; [exact Ho|].
  run throw_if_run; [exact Hj|]. run throw_if_run; [exact Hv|]. done.
Qed.

Lemma acting_user_run o uid s u c :
  s.(users) !! uid = Some u → u.(user_active) = true → u.(user_role) = ADMIN →
  s.(customers) !! o.(op_customerId) = Some c → u.(user_organizationId) = Some c.(cust_organizationId) →
  acting_user o uid s = inr (u, s).
Proof.
  intros Hu Ha Hr Hc Ho. unfold acting_user, requireRole, find_unique.
  assert ((let! user := gets (λ s0, users s0 !! uid) in
    match user with
    | Some u => do! throw_if (negb u.(user_active) || negb (includes [ADMIN] u.(user_role)))
                      (Forbidden "insufficient_role"); ret u
    | None => throw (Forbidden "insufficient_role")
    end) s = inr (u, s)) as Hrun.
  { run gets_run. rewrite Hu. run throw_if_run; [|done]. by rewrite Ha, Hr. }
  run Hrun. run gets_run. rewrite Hc. run throw_if_run; [|done].
  rewrite Ho. by apply differs_false.
Qed.

Lemma operation_update_run now id f s o :
  s.(operations) !! id = Some o → guard_operation_transition s.(users) now o (f o) = true →
  operation_check (f o) = true →
  operation_update now id f s = inr (f o, set_operations (<[id := f o]> s.(operations)) s).
Proof.
  intros Ho Hg Hc. unfold operation_update, update_row, operation_guard. by rewrite Ho, Hg, Hc.
Qed.

Lemma unfreeze_run id amt x s a :
  d_units 8 amt = Some x → s.(accounts) !! id = Some a → x ≤ a.(acc_frozenBalance) →
  0 ≤ x → account_check a = true → a.(acc_availableBalance) + a.(acc_frozenBalance) < 10 ^ 36 →
  ∃ m, unfreeze id amt s = inr (tt, set_accounts m s).
Proof.
  intros Hx Ha Hle H0 Hck Hsum. unfold account_check, numeric_36_8, below_pow10 in Hck.
  rewrite !andb_true_iff, !Z.leb_le, !Z.ltb_lt in Hck.
  eexists. unfold unfreeze, account_updateMany, bind, update_many_id, acc_frozen_gte.
  rewrite Ha, (n8_gte_units _ _ _ Hx).
  assert (x <=? acc_frozenBalance a = true) as -> by (apply Z.leb_le; lia).
  assert (account_check (acc_unfreeze amt a) = true) as ->; [|done].
  unfold account_check, numeric_36_8, below_pow10, acc_unfreeze. simpl.
  rewrite (n8_add_units _ _ _ Hx), (n8_sub_units _ _ _ Hx).
  rewrite !andb_true_iff, !Z.leb_le, !Z.ltb_lt. lia.
Qed.
End postings.
