(* ===== verification/OperationCreation.v ===== *)
(** Creation of operations refined to abstract moves: what [createOperation]
    reserves and inserts, on the replay path and on the fresh path. *)
From S2P Require Import Prelude Decimals Schema Access Ledger WithdrawalFees Operations OperationEffects.

(** A fee rule prices within the exact range of decimal.js. *)
Definition rules_exact (s : Db) : Prop :=
  ∀ id r, s.(feeRules) !! id = Some r →
    rule_check r = true ∧ r.(rule_feeAmountMinor) * 10 ^ (8 - r.(rule_feeDecimals)) < 10 ^ 19.

Section creation.
Context {DO : DecimalOps} {DL : DecimalLaws DO} {JD : JsDates}.

(** A decimal of at most 8 places in the exact range. *)
Definition exact8 (d : D) : Prop := ∃ x, d_units 8 d = Some x ∧ Z.abs x < 10 ^ 19.
Definition request_exact (input : CreateOperationInput) : Prop :=
  (∀ d, d_parse input.(i_amount) = Some d → exact8 d) ∧
  (∀ t d, input.(i_feeAmount) = Some t → d_parse t = Some d → exact8 d).

(** *** Fees *)
Lemma resolve_ok scope s fee s' :
  resolve scope s = inr (fee, s') →
  s' = s ∧ ∃ id r, s.(feeRules) !! id = Some r ∧ rule_matches scope (id, r) = true ∧
    fee.(fee_amount) = d_div (d_ofZ r.(rule_feeAmountMinor)) (ten_pow r.(rule_feeDecimals)).
Proof.
  unfold resolve. intros H. apply bind_ok in H as (rules&?&[-> ->]%gets_ok&H).
  apply bind_ok in H as ([id r]&?&[Hp ->]%require_ok&H).
  apply bind_ok in H as (_&?&[_ ->]%throw_if_ok&[-> ->]%ret_ok). split; [done|].
  exists id, r. simpl. cut (s.(feeRules) !! id = Some r ∧ rule_matches scope (id, r) = true).
  { intros []. done. }
  apply find_many_elem. unfold pick_rule in Hp.
  assert (∀ x kr, List.find (λ kr, String.eqb kr.2.(rule_scopeId) x)
    (find_many (rule_matches scope) s.(feeRules)) = Some kr → kr ∈ find_many (rule_matches scope) s.(feeRules)) as Hin.
  { intros x kr [? _]%List.find_some. by apply list_elem_of_In. }
  destruct (if opt_truthy _ then _ else None) as [kr|] eqn:E.
  - injection Hp as ->. destruct (opt_truthy _); [|done]. by apply Hin in E.
  - by apply Hin in Hp.
Qed.

Lemma rule_amount_exact r :
  rule_check r = true → r.(rule_feeAmountMinor) * 10 ^ (8 - r.(rule_feeDecimals)) < 10 ^ 19 →
  d_units 8 (d_div (d_ofZ r.(rule_feeAmountMinor)) (ten_pow r.(rule_feeDecimals))) =
    Some (r.(rule_feeAmountMinor) * 10 ^ (8 - r.(rule_feeDecimals))) ∧
  0 ≤ r.(rule_feeAmountMinor) * 10 ^ (8 - r.(rule_feeDecimals)).
Proof.
  unfold rule_check. rewrite !andb_true_iff, !Z.leb_le. intros [[[H0 Hlo] Hhi] _] Hb.
  set (n := Z.to_nat (rule_feeDecimals r)). assert (rule_feeDecimals r = Z.of_nat n) as Hn by lia.
  rewrite Hn in *. assert (1 ≤ 10 ^ (8 - Z.of_nat n)) by (pose proof (Z.pow_pos_nonneg 10 (8 - Z.of_nat n)); lia).
  split; [|nia].
  rewrite (units_le (0 + n) 8 _ r.(rule_feeAmountMinor)).
  - do 3 f_equal. lia.
  - lia.
  - apply units_div_pow10; [apply units_ofZ|apply units_pow10; lia|nia].
Qed.

Lemma price_payout_exact input p s fee s' :
  rules_exact s → price_payout input p s = inr (fee, s') → s' = s ∧ exact8 fee.(fee_amount).
Proof.
  intros Hr H. unfold price_payout in H.
  destruct (p_channel p) as [[cid ch]|]; [|by apply throw_ok in H].
  destruct (i_payoutMethod input) as [m|]; [|by apply throw_ok in H].
  apply bind_ok in H as (fee'&s1&(->&id&r&Hid&_&Hf)%resolve_ok&H).
  assert (s' = s ∧ fee = fee') as [-> ->].
  { destruct (i_expectedFeeAmount input); minvs; unfold decimal in *; minvs; done. }
  split; [done|]. destruct (Hr id r Hid) as [Hc Hb].
  destruct (rule_amount_exact r Hc Hb) as [Hu ?]. rewrite Hf. eexists. split; [exact Hu|lia].
Qed.

(** *** Checks *)
Lemma decimal_ok text s d s' : decimal text s = inr (d, s') → d_parse text = Some d ∧ s' = s.
Proof. intros H. unfold decimal in H. by minvs. Qed.

Lemma create_checks_ok input s a f s' :
  create_checks input s = inr ((a, f), s') →
  s' = s ∧ input.(i_type) ≠ INTERNAL_TRANSFER ∧ d_parse input.(i_amount) = Some a ∧
  d_isPositive a = true ∧ d_isNegative f = false ∧ requested_fee input.(i_feeAmount) s = inr (f, s).
Proof.
  unfold create_checks. intros H.
  apply bind_ok in H as (_&?&[Hty ->]%throw_if_ok&H).
  do 2 (apply bind_ok in H as (_&?&[_ ->]%throw_if_ok&H)).
  apply bind_ok in H as (a'&s1&Ha&H). unfold positiveMoney in Ha.
  apply bind_ok in Ha as (a2&?&[Hp ->]%decimal_ok&Ha).
  apply bind_ok in Ha as (_&?&[Hpos ->]%throw_if_ok&Ha).
  apply bind_ok in Ha as (_&?&[_ ->]%throw_if_ok&[-> ->]%ret_ok).
  apply bind_ok in H as (f'&s2&Hf&H).
  assert (s2 = s) as -> by (unfold requested_fee in Hf; minvs; try fwd decimal_ok as [_ ->]; done).
  apply bind_ok in H as (_&?&[Hn ->]%throw_if_ok&H).
  apply bind_ok in H as (_&?&[_ ->]%throw_if_ok&[E ->]%ret_ok). injection E as -> ->. guards. done.
Qed.

Lemma decimal_stateless text : stateless (decimal text).
Proof. unfold decimal. auto with stateless. Qed.
Lemma create_checks_stateless input : stateless (create_checks input).
Proof.
  unfold create_checks, positiveMoney, requested_fee. pose proof decimal_stateless.
  repeat first [apply stateless_bind|intros []|intros ?|progress auto with stateless|case_match].
Qed.
Lemma validateShape_stateless input a b c d : stateless (validateShape input a b c d).
Proof. unfold validateShape, checked. case_match; auto with stateless. Qed.

Lemma requested_fee_exact input f s s' :
  request_exact input → requested_fee input.(i_feeAmount) s = inr (f, s') → exact8 f.
Proof.
  intros [_ Hf] H. unfold requested_fee in H.
  assert (exact8 (d_ofZ 0)) as Hz.
  { exists 0. split; [|done]. apply (units_le 0 8 _ 0); [lia|apply units_ofZ]. }
  destruct (i_feeAmount input) as [t|] eqn:E; [destruct (truthy t)|].
  - apply decimal_ok in H as [? _]. by eapply Hf.
  - by apply ret_ok in H as [-> _].
  - by apply ret_ok in H as [-> _].
Qed.

Lemma checked_ok l (s : Db) (u : unit) s' :
  checked l s = inr (u, s') → s' = s ∧ Forall (λ c : bool * exn, c.1 = false) l.
Proof.
  unfold checked. induction l as [|[b e] l IH]; simpl.
  - intros [_ ->]%ret_ok. done.
  - destruct b; [by intros H%throw_ok|]. intros [-> ?]%IH. split; [done|]. by constructor.
Qed.

(** An account read for the request is the one the request names. *)
Definition named (id : option string) (o : option (string * Account)) : Prop :=
  match o with Some (i, _) => id = Some i ∧ truthy i = true | None => True end.

Lemma find_optional_named (id : option string) s o s' :
  find_optional accounts id s = inr (o, s') → s' = s ∧ named id o.
Proof.
  unfold find_optional. destruct id as [i|]; [destruct (truthy i) eqn:E|].
  - intros [-> ->]%gets_ok. split; [done|]. by destruct (accounts s !! i).
  - by intros [-> ->]%ret_ok.
  - by intros [-> ->]%ret_ok.
Qed.

(** A type that reserves needs its source. *)
Definition reserving (input : CreateOperationInput) : bool :=
  is_type input PAYOUT || is_type input FX || is_type input OTC ||
  (is_type input ADJUSTMENT && opt_eqb input.(i_adjustmentDirection) (Some ADJ_DEBIT)).

Lemma validateShape_ok input source target channel ben s (u : unit) s' :
  validateShape input source target channel ben s = inr (u, s') →
  s' = s ∧ (reserving input = true → is_some source = true).
Proof.
  intros [-> H]%checked_ok. split; [done|]. apply Forall_app in H as [_ H]. revert H.
  unfold reserving, is_type, same, opt_eqb, payout_checks, conversion_checks, adjustment_checks.
  destruct source as [[sid a]|]; [done|].
  destruct (i_type input); simpl; intros H; try done; apply Forall_cons in H as [H1 _]; try done.
  case_bool_decide as E; [|done]. by rewrite E in H1.
Qed.

(** *** The row inserted *)
Lemma insert_operation_ok now newId uuid input makerId mode amount fee snap conv x f s id row s' :
  d_units 8 amount = Some x → d_units 8 fee = Some f →
  insert_operation now newId uuid input makerId mode amount fee snap conv s = inr ((id, row), s') →
  id = newId ∧ s.(operations) !! newId = None ∧ operation_check row = true ∧
  s' = set_operations (<[newId := row]> s.(operations)) s ∧
  row.(op_amount) = x ∧ row.(op_feeAmount) = f ∧ row.(op_type) = input.(i_type) ∧
  row.(op_sourceAccountId) = input.(i_sourceAccountId) ∧
  row.(op_adjustmentDirection) = input.(i_adjustmentDirection) ∧
  row.(op_status) = (if is_some (quoteActor mode) then DRAFT else SUBMITTED) ∧
  row.(op_customerId) = input.(i_customerId) ∧ row.(op_idempotencyKey) = input.(i_idempotencyKey) ∧
  row.(op_makerId) = makerId ∧ row.(op_currency) = input.(i_currency) ∧
  row.(op_createdAt) = now ∧ row.(op_metadata) = operation_metadata now mode snap conv ∧
  row.(op_reference) = operation_reference now uuid.
Proof.
  intros Hx Hf H. unfold insert_operation, store8 in H.
  apply bind_ok in H as (rcv&s1&Hr&H).
  assert (s1 = s) as -> by (minvs; done). clear Hr.
  apply bind_ok in H as (a&?&[Ha ->]%require_ok&H). apply bind_ok in H as (b&?&[Hb ->]%require_ok&H).
  apply (n8_store_Some _ _ _ Hx) in Ha as ->. apply (n8_store_Some _ _ _ Hf) in Hb as ->.
  apply bind_ok in H as (q&s1&Hq&H).
  assert (s1 = s) as -> by (unfold store_optional in Hq; minvs; done).
  apply bind_ok in H as (r&s1&Hr&H).
  assert (s1 = s) as -> by (unfold store_optional in Hr; minvs; done).
  apply bind_ok in H as (w&s1&(Hn&Hc&->&_)%create_row_ok&[E ->]%ret_ok). injection E as -> ->.
  split_and!; done.
Qed.

(** *** The reservation *)
Lemma reserve_source_effect input mode p amount x s u s' :
  d_units 8 amount = Some x → named input.(i_sourceAccountId) p.(p_source) →
  (reserving input = true → is_some p.(p_source) = true) →
  reserve_source input mode p amount s = inr (u, s') →
  ∃ z, (z = if reserves input mode then x else 0) ∧
    (z ≠ 0 → ∃ src, input.(i_sourceAccountId) = Some src ∧ truthy src = true) ∧
    effect (at_ (default "" input.(i_sourceAccountId)) (- z))
           (at_ (default "" input.(i_sourceAccountId)) z) nothing s s'.
Proof.
  intros Hx Hn Hs H. unfold reserve_source in H. eexists. split; [done|].
  assert (effect nothing nothing nothing s s → ∀ i, effect (at_ i (- 0)) (at_ i 0) nothing s s) as Hz.
  { intros E i. eapply effect_ext; [exact E|..]; intros; unfold at_, nothing; by repeat case_match. }
  specialize (Hz (effect_refl s)).
  destruct (p_source p) as [[sid a]|] eqn:Hp; [destruct (reserves input mode) eqn:Hr|].
  - destruct Hn as [Hid Ht]. rewrite Hid. split; [by eauto|]. simpl.
    apply bind_ok in H as (u1&s1&F%(freeze_effect _ _ _ _ _ _ Hx)&H).
    apply when_effect in H; [|intros; by eapply freezeCryptoWallet_effect]. chain.
  - apply ret_ok in H as [_ ->]. split; [done|apply Hz].
  - apply ret_ok in H as [_ ->].
    assert (reserves input mode = false) as ->; [|split; [done|apply Hz]].
    unfold reserves. fold (reserving input). destruct (reserving input); [|by rewrite andb_false_r].
    by discriminate Hs.
Qed.

(** *** [submit]: a fresh operation, with what it holds moved from available to frozen *)
Lemma submit_moves now newId uuid input makerId mode p amount fee s id row s' :
  exact8 amount → exact8 fee → rules_exact s →
  input.(i_type) ≠ INTERNAL_TRANSFER → input.(i_type) ≠ VA_OPENING_FEE →
  named input.(i_sourceAccountId) p.(p_source) → (reserving input = true → is_some p.(p_source) = true) →
  submit now newId uuid input makerId mode p amount fee s = inr ((id, row), s') →
  id = newId ∧ s.(operations) !! newId = None ∧ operation_check row = true ∧ op_exact row ∧
  row.(op_status) = (if is_some (quoteActor mode) then DRAFT else SUBMITTED) ∧
  row.(op_type) = input.(i_type) ∧ row.(op_customerId) = input.(i_customerId) ∧
  row.(op_makerId) = makerId ∧ row.(op_idempotencyKey) = input.(i_idempotencyKey) ∧
  row.(op_currency) = input.(i_currency) ∧ row.(op_createdAt) = now ∧
  row.(op_sourceAccountId) = input.(i_sourceAccountId) ∧
  row.(op_adjustmentDirection) = input.(i_adjustmentDirection) ∧
  moved newId row (λ i, - reservation i row) (λ i, reservation i row) nothing s s'.
Proof.
  intros (x&Hx&Hbx) Hf Hrules Hit Hva Hn Hs H. unfold submit in H.
  apply bind_ok in H as ([fa snap]&s1&Hfee&H).
  assert (s1 = s ∧ exact8 fa) as [-> (f&Hfa&Hbf)].
  { destruct (is_type input PAYOUT).
    - apply bind_ok in Hfee as (rf&s2&(->&?)%price_payout_exact&[E ->]%ret_ok); [|done].
      injection E as -> ->. done.
    - apply ret_ok in Hfee as [E ->]. injection E as -> ->. done. }
  clear Hfee. apply bind_ok in H as (conv&s1&Hc&H).
  assert (s1 = s) as ->.
  { destruct (_ || _) in Hc; [|by apply ret_ok in Hc as [_ ->]]. unfold price_conversion in Hc. by minvs. }
  clear Hc. apply bind_ok in H as (u&s1&R&H).
  assert (d_units 8 (d_add amount fa) = Some (x + f)) as Hu by (apply units_add; [done..|lia]).
  destruct (reserve_source_effect _ _ _ _ _ _ _ _ Hu Hn Hs R) as (z&Hz&Hsrc&E).
  destruct (insert_operation_ok _ _ _ _ _ _ _ _ _ _ _ _ _ _ _ _ Hx Hfa H) as
    (->&Hnew&Hck&->&Ha&Hb&Hty&Hso&Had&Hst&?&?&?&?&?&?&?).
  rewrite (frame_operations _ _ (eff_frame _ _ _ _ _ E)) in *.
  split_and!; try done; [unfold op_exact; rewrite Ha, Hb; lia|].
  exists s1. rewrite (frame_operations _ _ (eff_frame _ _ _ _ _ E)). split; [|done].
  assert (holds row = z) as Hh.
  { unfold holds, op_total, usesReservation. rewrite Hst, Hty, Had, Ha, Hb, Hz.
    unfold reserves, is_type. destruct (quoteActor mode); simpl; [done|].
    apply same_false in Hit, Hva. rewrite Hit, Hva, orb_false_r. simpl.
    destruct (same _ PAYOUT), (same _ FX), (same _ OTC), (same _ ADJUSTMENT && _); done. }
  assert (∀ i, reservation i row = at_ (default "" input.(i_sourceAccountId)) z i) as Hres.
  { intros i. destruct (decide (z = 0)) as [->|Hnz].
    - rewrite reservation_zero by done. unfold at_. by repeat case_match.
    - destruct (Hsrc Hnz) as (src&Hi&Ht). rewrite Hi. simpl.
      rewrite (reservation_at i src) by congruence. by rewrite Hh. }
  eapply effect_ext; [exact E|..]; intros i; try done; rewrite Hres; unfold at_; by repeat case_match.
Qed.

(** *** Stale quotes *)
(** Every operation is kept or is a draft quote that becomes CANCELLED. *)
Definition drafts_cancelled (s s' : Db) : Prop :=
  ∃ m, s' = set_operations m s ∧ ∃ p : string → Operation → bool,
    (∀ k o, p k o = true → o.(op_status) = DRAFT ∧ o.(op_type) = OTC) ∧
    ∀ k, m !! k = (λ o, if p k o then set_op_status CANCELLED o else o) <$> s.(operations) !! k.

Lemma drafts_cancelled_refl s : drafts_cancelled s s.
Proof.
  exists s.(operations). split; [by rewrite set_operations_id|]. exists (λ _ _, false).
  split; [done|]. intros k. by destruct (operations s !! k).
Qed.

Lemma cancel_stale_quotes_ok now cid s u s' :
  cancel_stale_quotes now cid s = inr (u, s') → drafts_cancelled s s'.
Proof.
  intros H. unfold cancel_stale_quotes in H.
  apply bind_ok in H as (n&s1&(m&->&_&Hm)%update_many_ok&[_ ->]%ret_ok).
  exists m. split; [done|]. eexists (λ k o, _). split; [|exact Hm].
  intros k o Hp. simpl in Hp. by guards.
Qed.

Lemma drafts_cancelled_conserves s s' : drafts_cancelled s s' → conserves s s'.
Proof. by intros (m&->&_). Qed.

Lemma drafts_cancelled_held s s' i : drafts_cancelled s s' → held s' i = held s i.
Proof.
  intros (m&->&p&Hp&Hm). unfold held. simpl.
  eapply (sum_map_mapped _ (λ k o, if p k o then set_op_status CANCELLED o else o)); [exact Hm|].
  intros k o _. destruct (p k o) eqn:E; [|done]. apply Hp in E as [E _].
  rewrite !reservation_zero; [done|unfold holds; by rewrite E|done].
Qed.

Lemma drafts_cancelled_backed s s' : drafts_cancelled s s' → frozen_backed s → frozen_backed s'.
Proof.
  intros H Hb i. rewrite (drafts_cancelled_held _ _ i H), <- Hb. by destruct H as (m&->&_).
Qed.

(** Only a quote cancels the customer's stale drafts. *)
Definition stale_quotes (mode : Submission) (s s' : Db) : Prop :=
  match mode with ByQuote _ => drafts_cancelled s s' | _ => s' = s end.
Lemma stale_quotes_cancelled mode s s' : stale_quotes mode s s' → drafts_cancelled s s'.
Proof. destruct mode; simpl; intros H; subst; auto using drafts_cancelled_refl. Qed.

(** *** [createOperation] *)
Definition key_unused (input : CreateOperationInput) (s : Db) : Prop :=
  ∀ key, input.(i_idempotencyKey) = Some key → truthy key = true →
    ∀ k o, s.(operations) !! k = Some o → o.(op_customerId) = input.(i_customerId) →
           o.(op_idempotencyKey) ≠ Some key.
Inductive create_outcome (now : Z) (newId : string) (input : CreateOperationInput) (makerId : string)
    (mode : Submission) (s s' : Db) : string → Operation → Prop :=
| create_replayed id o :
    stale_quotes mode s s' → s'.(operations) !! id = Some o → o.(op_customerId) = input.(i_customerId) →
    create_outcome now newId input makerId mode s s' id o
| create_fresh s1 row :
    stale_quotes mode s s1 → s.(operations) !! newId = None → operation_check row = true → op_exact row →
    row.(op_status) = (if is_some (quoteActor mode) then DRAFT else SUBMITTED) →
    row.(op_type) = input.(i_type) → row.(op_customerId) = input.(i_customerId) →
    row.(op_makerId) = makerId → row.(op_idempotencyKey) = input.(i_idempotencyKey) →
    row.(op_sourceAccountId) = input.(i_sourceAccountId) →
    row.(op_adjustmentDirection) = input.(i_adjustmentDirection) →
    key_unused input s1 →
    moved newId row (λ i, - reservation i row) (λ i, reservation i row) nothing s1 s' →
    create_outcome now newId input makerId mode s s' newId row.

Lemma samePayout_state input a actor o s b s' : samePayout input a actor o s = inr (b, s') → s' = s.
Proof.
  intros H. unfold samePayout in H. destruct (_ && _) in H; [|by apply ret_ok in H as [_ ->]].
  destruct (i_expectedFeeAmount input); [|by apply ret_ok in H as [_ ->]].
  by apply bind_ok in H as (d&?&[_ ->]%decimal_ok&[_ ->]%ret_ok).
Qed.

Lemma find_existing_ok input mode a s r s' :
  find_existing input mode a s = inr (r, s') →
  s' = s ∧ match r with
           | Some (id, o) => s.(operations) !! id = Some o ∧ o.(op_customerId) = input.(i_customerId) ∧
                             o.(op_idempotencyKey) = input.(i_idempotencyKey)
           | None => key_unused input s
           end.
Proof.
  intros H. unfold key_unused. unfold find_existing in H. destruct (i_idempotencyKey input) as [key|] eqn:Hk.
  2: { apply ret_ok in H as [-> ->]. done. }
  destruct (truthy key) eqn:Ht; simpl in H.
  2: { apply ret_ok in H as [-> ->]. split; [done|]. intros ? [= <-]. congruence. }
  apply bind_ok in H as (ex&?&[-> ->]%gets_ok&H). destruct (find_first _ _) as [[id o]|] eqn:E.
  - apply find_first_Some in E as [Ho Hp]. simpl in Hp. guards.
    match goal with H : String.eqb _ _ = true |- _ => apply String.eqb_eq in H end.
    apply bind_ok in H as (b&s1&Hb&H).
    assert (s1 = s) as -> by (destruct mode; [by apply ret_ok in Hb as [_ ->]..|by apply samePayout_state in Hb]).
    apply bind_ok in H as (_&?&[_ ->]%throw_if_ok&[-> ->]%ret_ok). done.
  - apply ret_ok in H as [-> ->]. split; [done|]. intros ? [= <-] _ k o Ho Hc Hi.
    pose proof (find_first_None _ _ _ _ E Ho) as Hf. simpl in Hf.
    rewrite Hc, String.eqb_refl in Hf. simpl in Hf. by apply opt_eqb_false in Hf.
Qed.

Lemma duplicate_receipt_ok input a s r s' :
  duplicate_receipt input a s = inr (r, s') →
  s' = s ∧ match r with
           | Some (id, o) => s.(operations) !! id = Some o ∧ o.(op_customerId) = input.(i_customerId)
           | None => True
           end.
Proof.
  intros H. unfold duplicate_receipt in H.
  destruct (i_channelId input) as [ch|]; [|by apply ret_ok in H as [-> ->]].
  destruct (i_remittanceReference input) as [rf|]; [|by apply ret_ok in H as [-> ->]].
  destruct (_ || _) in H; [by apply ret_ok in H as [-> ->]|].
  apply bind_ok in H as (ex&?&[-> ->]%gets_ok&H). destruct (find_first _ _) as [[id o]|] eqn:E.
  - apply find_first_Some in E as [Ho _]. apply bind_ok in H as (_&?&[Hp ->]%throw_if_ok&[-> ->]%ret_ok).
    guards. match goal with H : String.eqb _ _ = true |- _ => apply String.eqb_eq in H end. done.
  - by apply ret_ok in H as [-> ->].
Qed.

Definition parties_ok (input : CreateOperationInput) (p : Parties) : Prop :=
  named input.(i_sourceAccountId) p.(p_source) ∧ (reserving input = true → is_some p.(p_source) = true).

Lemma create_parties_ok input makerId s p s' :
  create_parties input makerId s = inr (p, s') →
  s' = s ∧ parties_ok input p ∧ s.(customers) !! input.(i_customerId) = Some p.(p_customer) ∧
  ∃ u, s.(users) !! makerId = Some u ∧ u.(user_active) = true ∧ u.(user_role) = ADMIN ∧
    (opt_truthy u.(user_organizationId) = true →
      u.(user_organizationId) = Some p.(p_customer).(cust_organizationId)).
Proof.
  intros H. unfold create_parties, find_unique in H.
  do 2 (apply bind_ok in H as (?&?&[-> ->]%gets_ok&H)).
  apply bind_ok in H as (src&?&[-> Hsrc]%find_optional_named&H).
  apply bind_ok in H as (tgt&?&[-> _]%find_optional_named&H).
  apply bind_ok in H as (ch&s1&Hch&H). assert (s1 = s) as -> by (unfold find_optional in Hch; by minvs).
  apply bind_ok in H as (ben&s1&Hb&H). assert (s1 = s) as -> by (unfold find_optional in Hb; by minvs).
  apply bind_ok in H as (mk&?&[Hmk ->]%require_ok&H). apply bind_ok in H as (_&?&[Hr ->]%throw_if_ok&H).
  apply bind_ok in H as (cu&?&[Hcu ->]%require_ok&H). apply bind_ok in H as (_&?&[Ho ->]%throw_if_ok&H).
  apply bind_ok in H as (_&?&[_ ->]%throw_if_ok&H).
  apply bind_ok in H as (_&?&[-> Hv]%validateShape_ok&[-> ->]%ret_ok). simpl.
  apply orb_false_iff in Hr as [Hact%negb_false_iff Hrole%(proj1 (differs_false _ _))].
  split; [done|]. split; [by split|]. split; [done|]. exists mk. split_and!; try done. intros Ht. rewrite Ht in Ho. simpl in Ho.
  by apply (proj1 (differs_false _ _)) in Ho.
Qed.

Lemma find_by_account id s o s' : find_by accounts id s = inr (o, s') → s' = s ∧
  match o with Some (i, _) => id = Some i | None => True end.
Proof.
  unfold find_by. intros H. apply bind_ok in H as (i&?&[-> ->]%require_ok&[-> ->]%gets_ok).
  split; [done|]. by destruct (accounts s !! i).
Qed.

Lemma recheck_customer_ok env input p s p' s' :
  input.(i_type) = PAYOUT → parties_ok input p →
  recheck_customer env input s = inr (p', s') →
  s' = s ∧ parties_ok input p' ∧
  (∃ sc, s.(sourceCustomers) !! input.(i_customerId) = Some sc ∧ sc.(sc_tenant_id) = tenantId env ∧
     sc.(sc_status) = "active" ∧ sc.(sc_kyc_status) = "approved" ∧
     sc.(sc_operations_status) = "active" ∧ sc.(sc_withdrawals_locked) = false) ∧
  (∃ c, s.(customers) !! input.(i_customerId) = Some c ∧ c.(cust_status) = CS_ACTIVE ∧
     c.(cust_kycStatus) = KYC_APPROVED).
Proof.
  intros Hty [Hn Hs] H. unfold recheck_customer, find_unique in H.
  apply bind_ok in H as (?&?&[-> ->]%gets_ok&H). apply bind_ok in H as (sc&?&[Hsc ->]%require_ok&H).
  apply bind_ok in H as (_&?&[Hst ->]%throw_if_ok&H). apply bind_ok in H as (_&?&[Hl ->]%throw_if_ok&H).
  apply bind_ok in H as (?&?&[-> ->]%gets_ok&H).
  apply bind_ok in H as (src&?&[-> Hsrc]%find_by_account&H).
  apply bind_ok in H as (ben&s1&Hb&H). assert (s1 = s) as -> by (unfold find_by in Hb; by minvs).
  apply bind_ok in H as (ch&s1&Hch&H). assert (s1 = s) as -> by (unfold find_by in Hch; by minvs).
  apply bind_ok in H as (cu&?&[Hcu ->]%require_ok&H). apply bind_ok in H as (_&?&[Hk ->]%throw_if_ok&H).
  apply bind_ok in H as (_&?&[_ ->]%throw_if_ok&H).
  apply bind_ok in H as (_&?&[-> Hv]%validateShape_ok&[-> ->]%ret_ok). clear Hb Hch.
  assert (is_some (p_source p) = true) as Hps.
  { apply Hs. unfold reserving, is_type. by rewrite Hty. }
  split; [done|]. split; [split; [|done]|].
  - simpl. destruct (p_source p) as [[i a]|]; [|done]. destruct Hn as [Hi Ht].
    destruct src as [[j b]|]; [|done]. simpl. split; [done|]. congruence.
  - guards. repeat match goal with H : String.eqb _ _ = true |- _ => apply String.eqb_eq in H end.
    split; [exists sc|exists cu]; done.
Qed.

Lemma createOperation_outcome env now newId uuid fault input makerId mode s id o s' :
  request_exact input → rules_exact s → input.(i_type) ≠ VA_OPENING_FEE →
  (∀ a, mode = ByCustomer a → input.(i_type) = PAYOUT) →
  createOperation env now newId uuid fault input makerId mode s = inr ((id, o), s') →
  create_outcome now newId input makerId mode s s' id o.
Proof.
  intros Hex Hr Hva Hmode H. unfold createOperation in H.
  apply bind_ok in H as ([a f]&s1&(->&Hit&Ha&_&_&Hf)%create_checks_ok&H).
  assert (exact8 a) as Hxa by (destruct Hex as [Hxa _]; eauto).
  apply (requested_fee_exact _ _ _ _ Hex) in Hf.
  apply bind_ok in H as (p&s1&(->&Hp&_)%create_parties_ok&H).
  apply try_catch_ok in H as [[-> H]%transaction_ok|(e&_&H)].
  2: { repeat case_match; by apply throw_ok in H. }
  unfold create_transaction in H.
  apply bind_ok in H as (u&s1&Hstale&H).
  assert (stale_quotes mode s s1) as Hq.
  { destruct mode; [|by eapply cancel_stale_quotes_ok|]; by apply ret_ok in Hstale as [_ ->]. }
  pose proof (stale_quotes_cancelled _ _ _ Hq) as Hd.
  assert (rules_exact s1) as Hr1 by (by destruct Hd as (m&->&_)).
  apply bind_ok in H as (ex&?&[-> He]%find_existing_ok&H). destruct ex as [[i o1]|].
  { apply ret_ok in H as [E ->]. injection E as -> ->. destruct He as (?&?&_). by apply create_replayed. }
  apply bind_ok in H as (p'&s2&Hp'&H).
  assert (s2 = s1 ∧ parties_ok input p') as [-> [Hn Hs]].
  { destruct mode; [by apply ret_ok in Hp' as [-> ->]..|].
    eapply recheck_customer_ok in Hp' as (?&?&_); eauto. }
  apply bind_ok in H as (rc&?&[-> Hrc]%duplicate_receipt_ok&H). destruct rc as [[i o1]|].
  { apply ret_ok in H as [E ->]. injection E as -> ->. destruct Hrc as (?&?). by apply create_replayed. }
  apply submit_moves in H as (->&Hnew&?&?&?&?&?&?&?&?&?&?&?&Hm); [|done..].
  eapply create_fresh; try done. destruct Hd as (m&->&q&_&Hm'). simpl in Hnew. rewrite Hm' in Hnew.
  by destruct (operations s !! newId).
Qed.

(** Creation conserves every customer account and keeps frozen balances backed. *)
Lemma create_outcome_sound now newId input makerId mode s s' id o :
  create_outcome now newId input makerId mode s s' id o →
  conserves s s' ∧ (frozen_backed s → frozen_backed s').
Proof.
  intros [id' o' Hd%stale_quotes_cancelled _ _|s1 row Hd%stale_quotes_cancelled Hnew _ _ _ _ _ _ _ _ _ _ Hm].
  - split; [by apply drafts_cancelled_conserves|by apply drafts_cancelled_backed].
  - split.
    + eapply conserves_trans; [by apply drafts_cancelled_conserves|].
      eapply moved_conserves; [done|]. intros. unfold nothing. lia.
    + intros Hb%(drafts_cancelled_backed _ _ Hd). eapply moved_backed; [done| |done].
      assert (s1.(operations) !! newId = None) as ->.
      { destruct Hd as (m&->&p&_&Hp). simpl. by rewrite Hp, Hnew. }
      simpl. intros. lia.
Qed.

(** A creation that answers with an operation the state did not have added it. *)
Lemma create_outcome_adds now newId input makerId mode s s' id o :
  create_outcome now newId input makerId mode s s' id o → s.(operations) !! id = None →
  quoteActor mode = None →
  o.(op_status) = SUBMITTED ∧ o.(op_type) = input.(i_type) ∧
  o.(op_customerId) = input.(i_customerId) ∧ o.(op_idempotencyKey) = input.(i_idempotencyKey) ∧
  o.(op_sourceAccountId) = input.(i_sourceAccountId) ∧
  o.(op_adjustmentDirection) = input.(i_adjustmentDirection) ∧ key_unused input s ∧
  moved id o (λ i, - reservation i o) (λ i, reservation i o) nothing s s'.
Proof.
  intros [id' o' Hq Ho _|s1 row Hq Hn _ _ Hst Hty Hc _ Hk Hs Ha Hu Hm] Hid Hmode.
  - apply stale_quotes_cancelled in Hq as (m&->&p&_&Hp). simpl in Ho. by rewrite Hp, Hid in Ho.
  - rewrite Hmode in Hst. destruct mode; simpl in *; try done; subst; done.
Qed.
End creation.
