(* ===== verification/Accounts.v ===== *)
(** Accounts: what a customer holds
    ([server/src/accounts/accounts.service.ts]) and the platform's own books
    ([server/src/accounts/system-ledger-accounts.ts]).  The summary adds up the
    balances by currency; the mirror accounts of the USDT wallets are left out of
    it, the wallets themselves are counted. *)
From S2P Require Import Prelude Decimals Schema Access WithdrawalFees.

(** ** The platform's accounts *)
Record SystemLedgerAccountDefinition := {
  sd_accountNumber : string; sd_kind : AccountKind; sd_currency : Currency; sd_name : string;
}.
Definition systemLedgerAccountDefinitions : list SystemLedgerAccountDefinition :=
  [ {| sd_accountNumber := "CLEARING-USD"; sd_kind := PLATFORM_CLEARING; sd_currency := USD; sd_name := "USD 平台清算账户" |};
    {| sd_accountNumber := "FEES-USD"; sd_kind := FEE_REVENUE; sd_currency := USD; sd_name := "USD 手续费收入" |};
    {| sd_accountNumber := "CLEARING-HKD"; sd_kind := PLATFORM_CLEARING; sd_currency := HKD; sd_name := "HKD 平台清算账户" |};
    {| sd_accountNumber := "FEES-HKD"; sd_kind := FEE_REVENUE; sd_currency := HKD; sd_name := "HKD 手续费收入" |};
    {| sd_accountNumber := "CLEARING-USDT"; sd_kind := PLATFORM_CLEARING; sd_currency := USDT; sd_name := "USDT 平台清算账户" |};
    {| sd_accountNumber := "FEES-USDT"; sd_kind := FEE_REVENUE; sd_currency := USDT; sd_name := "USDT 手续费收入" |} ].

Definition system_account_conflict (d : SystemLedgerAccountDefinition) (a : Account) : bool :=
  is_some a.(acc_customerId) || differs a.(acc_kind) d.(sd_kind) ||
  differs a.(acc_currency) d.(sd_currency) || differs a.(acc_status) AS_ACTIVE.
Definition system_account_row (d : SystemLedgerAccountDefinition) : Account :=
  MkAccount None d.(sd_kind) AS_ACTIVE d.(sd_currency) d.(sd_name) (Some d.(sd_accountNumber)) None None
    0 0 0 None no_bank.
Definition has_number (number : string) (ka : string * Account) : bool :=
  opt_eqb ka.2.(acc_accountNumber) (Some number).

Definition ensure_system_account (newId : string → string) (d : SystemLedgerAccountDefinition) :
    M Db (string * Account) :=
  let! existing := gets (λ s, find_first (has_number d.(sd_accountNumber)) s.(accounts)) in
  match existing with
  | Some ka =>
      do! throw_if (system_account_conflict d ka.2)
            (PlainError ("system_ledger_account_conflict:" +:+ d.(sd_accountNumber)));
      ret ka
  | None =>
      let id := newId d.(sd_accountNumber) in
      do! account_create id (system_account_row d);
      ret (id, system_account_row d)
  end.

(** [ensureSystemLedgerAccounts] *)
Definition ensureSystemLedgerAccounts (newId : string → string) : M Db (list (string * Account)) :=
  for_each systemLedgerAccountDefinitions (ensure_system_account newId).

(** ** Reads *)
Definition assetAccountKinds : list AccountKind := [SYSTEM_WALLET; VIRTUAL_ACCOUNT].

(** [isSupportedCustomerAccount], which is also [supportedCustomerAccountWhere]. *)
Definition isSupportedCustomerAccount (a : Account) : bool :=
  (includes assetAccountKinds a.(acc_kind) && isSupportedFiatCurrency a.(acc_currency)) ||
  (same a.(acc_kind) CRYPTO_WALLET && same a.(acc_currency) supportedCryptoAsset &&
   opt_eqb a.(acc_network) (Some supportedCryptoNetworkText)).

(** [list]; [ordered] is the ORDER BY of the query. *)
Definition list_accounts (ordered : list (string * Account) → list (string * Account))
    (customerId userId : string) (kind : option AccountKind) : M Db (list (string * Account)) :=
  do! requireCustomerAccess userId customerId;
  gets (λ s, ordered (find_many (λ ka : string * Account,
    opt_eqb ka.2.(acc_customerId) (Some customerId) && isSupportedCustomerAccount ka.2 &&
    match kind with Some k => same ka.2.(acc_kind) k | None => true end) s.(accounts))).

(** [get], without the journal lines it shows. *)
Definition get_account (id userId : string) : M Db Account :=
  let! user := requireActiveUser userId in
  let! account := find_unique accounts id in
  let! account := require account (NotFound "account_not_found") in
  let! owner := match account.(acc_customerId) with
                | Some c => find_unique customers c
                | None => ret None
                end in
  let! owner := require owner (NotFound "account_not_found") in
  do! throw_if (differs (Some owner.(cust_organizationId)) user.(user_organizationId) ||
                negb (isSupportedCustomerAccount account)) (NotFound "account_not_found");
  ret account.

(** ** The summary of a customer's assets *)
Section summary.
Context {DO : DecimalOps} {JD : JsDates}.
(** [Math.round(d.toNumber())] *)
Context (round_number : D → Z).

(** [AssetBucket] *)
Record AssetBucket := {
  bk_currency : Currency; bk_available : D; bk_frozen : D; bk_count : Z; bk_sources : list string;
}.
(** A balance that goes into a bucket: currency, available, frozen and source. *)
Definition Holding : Type := Currency * Z * Z * string.
Definition account_holding (a : Account) : Holding :=
  (a.(acc_currency), a.(acc_availableBalance), a.(acc_frozenBalance),
   if same a.(acc_kind) VIRTUAL_ACCOUNT then "virtual_account" else "balance_account").
Definition wallet_holding (w : CryptoWallet) : Holding :=
  (w.(wal_asset), w.(wal_availableBalance), w.(wal_frozenBalance), "digital_wallet").

(** [bucketFor] and the additions to it; a [Map] and a [Set] keep insertion order. *)
Definition add_source (x : string) (l : list string) : list string := if includes l x then l else l ++ [x].
Definition add_to_bucket (b : AssetBucket) (available frozen : Z) (source : string) : AssetBucket :=
  {| bk_currency := b.(bk_currency); bk_available := d_add b.(bk_available) (n8_of available);
     bk_frozen := d_add b.(bk_frozen) (n8_of frozen); bk_count := b.(bk_count) + 1;
     bk_sources := add_source source b.(bk_sources) |}.
Definition new_bucket (c : Currency) : AssetBucket :=
  {| bk_currency := c; bk_available := d_ofZ 0; bk_frozen := d_ofZ 0; bk_count := 0; bk_sources := [] |}.
Fixpoint add_holding (h : Holding) (buckets : list AssetBucket) : list AssetBucket :=
  let '(c, available, frozen, source) := h in
  match buckets with
  | [] => [add_to_bucket (new_bucket c) available frozen source]
  | b :: rest => if same b.(bk_currency) c then add_to_bucket b available frozen source :: rest
                 else b :: add_holding h rest
  end.
Definition bucket_up (holdings : list Holding) : list AssetBucket :=
  foldl (λ buckets h, add_holding h buckets) [] holdings.

(** An item of [distribution]: a bucket with its value in USD. *)
Record Valued := { vl_bucket : AssetBucket; vl_rate : option D; vl_value : option D }.
(** [ratesByCurrency]: USD at parity only. *)
Definition rate_of (c : Currency) : option D := if same c USD then Some (d_ofZ 1) else None.
Definition value_bucket (b : AssetBucket) : Valued :=
  {| vl_bucket := b; vl_rate := rate_of b.(bk_currency);
     vl_value := (λ r, d_add (d_mul b.(bk_available) r) (d_mul b.(bk_frozen) r)) <$> rate_of b.(bk_currency) |}.

(** The comparator of the sort and the (stable) sort by it. *)
Definition compare_decimals (a b : D) : Z := if d_lt a b then -1 else if d_eq a b then 0 else 1.
Definition compare_texts (a b : string) : Z :=
  match String.compare a b with Lt => -1 | Eq => 0 | Gt => 1 end.
Definition compare_values (left right : Valued) : Z :=
  match left.(vl_value), right.(vl_value) with
  | None, None => compare_texts (currency_text left.(vl_bucket).(bk_currency)) (currency_text right.(vl_bucket).(bk_currency))
  | None, Some _ => 1
  | Some _, None => -1
  | Some l, Some r => compare_decimals r l
  end.
Fixpoint sort_insert (x : Valued) (l : list Valued) : list Valued :=
  match l with
  | [] => [x]
  | y :: l' => if compare_values x y <=? 0 then x :: l else y :: sort_insert x l'
  end.
Definition sort_values (l : list Valued) : list Valued := foldr sort_insert [] l.

Record SummaryItem := {
  si_currency : Currency; si_availableBalance : string; si_frozenBalance : string; si_totalBalance : string;
  si_reportingRate : option string; si_reportingValue : option string; si_shareBps : Z;
  si_accountCount : Z; si_sources : list string;
}.
Record AssetSummary := {
  as_customerId : string; as_valuationStatus : string; as_missingRates : list Currency;
  as_asOf : string; as_ratesAsOf : option string;
  as_totalAvailable : string; as_totalFrozen : string; as_totalBalance : string; as_accountCount : Z;
  as_distribution : list SummaryItem;
}.

(** [totalAvailable] and [totalFrozen]: the buckets that have a rate. *)
Definition total_by (f : AssetBucket → D) (buckets : list AssetBucket) : D :=
  foldl (λ total b, match rate_of b.(bk_currency) with
                    | Some r => d_add total (d_mul (f b) r)
                    | None => total end) (d_ofZ 0) buckets.

Definition summary_item (totalBalance : D) (v : Valued) : SummaryItem :=
  let b := v.(vl_bucket) in
  {| si_currency := b.(bk_currency);
     si_availableBalance := d_toFixed b.(bk_available) 8;
     si_frozenBalance := d_toFixed b.(bk_frozen) 8;
     si_totalBalance := d_toFixed (d_add b.(bk_available) b.(bk_frozen)) 8;
     si_reportingRate := (λ r, d_toFixed r 12) <$> v.(vl_rate);
     si_reportingValue := (λ r, d_toFixed r 8) <$> v.(vl_value);
     si_shareBps := match v.(vl_value) with
                    | Some value => if d_isZero totalBalance then 0
                                    else round_number (d_mul (d_div value totalBalance) (d_ofZ 10000))
                    | None => 0
                    end;
     si_accountCount := b.(bk_count);
     si_sources := b.(bk_sources) |}.

(** The report over the holdings of a customer. *)
Definition summarize (now : Z) (customerId : string) (holdings : list Holding) : AssetSummary :=
  let buckets := bucket_up holdings in
  let missing := List.filter (λ c, is_none (rate_of c)) (map bk_currency buckets) in
  let distribution := sort_values (map value_bucket buckets) in
  let totalAvailable := total_by bk_available buckets in
  let totalFrozen := total_by bk_frozen buckets in
  let totalBalance := d_add totalAvailable totalFrozen in
  {| as_customerId := customerId;
     as_valuationStatus := if Nat.ltb 0 (length missing) then "partial" else "complete";
     as_missingRates := missing;
     as_asOf := to_iso now;
     as_ratesAsOf := Some (to_iso now);
     as_totalAvailable := d_toFixed totalAvailable 8;
     as_totalFrozen := d_toFixed totalFrozen 8;
     as_totalBalance := d_toFixed totalBalance 8;
     as_accountCount := foldl (λ total v, total + v.(vl_bucket).(bk_count)) 0 distribution;
     as_distribution := map (summary_item totalBalance) distribution |}.

(** The rows the summary loads. *)
Definition summary_account (customerId : string) (ka : string * Account) : bool :=
  opt_eqb ka.2.(acc_customerId) (Some customerId) && same ka.2.(acc_status) AS_ACTIVE &&
  includes assetAccountKinds ka.2.(acc_kind) && isSupportedFiatCurrency ka.2.(acc_currency).
Definition summary_wallet (customerId : string) (kw : string * CryptoWallet) : bool :=
  String.eqb kw.2.(wal_customerId) customerId && same kw.2.(wal_status) AS_ACTIVE &&
  same kw.2.(wal_asset) supportedCryptoAsset && same kw.2.(wal_network) supportedCryptoNetwork.
Definition holdings_of (customerId : string) (s : Db) : list Holding :=
  map (λ ka, account_holding ka.2) (find_many (summary_account customerId) s.(accounts)) ++
  map (λ kw, wallet_holding kw.2) (find_many (summary_wallet customerId) s.(wallets)).

(** [summary] *)
Definition summary (now : Z) (customerId userId : string) : M Db AssetSummary :=
  do! throw_if (negb (truthy customerId)) (BadRequest "customer_id_required");
  let! user := find_unique users userId in
  let! customer := find_unique customers customerId in
  let! customer := require customer (NotFound "customer_not_found") in
  do! throw_if (match user with
                | Some u => negb u.(user_active) || differs u.(user_role) ADMIN ||
                            negb (opt_truthy u.(user_organizationId)) ||
                            differs u.(user_organizationId) (Some customer.(cust_organizationId))
                | None => true
                end) (Forbidden "cross_tenant_customer");
  gets (λ s, summarize now customerId (holdings_of customerId s)).
End summary.
