(* ===== verification/Samples.v ===== *)
(** A concrete database, clock and environment on which the witnesses run the
    model: one organisation with an administrator, one customer with a USD and
    a USDT account, the platform's books, one payout channel with its fee rule
    and one OTC rate. *)
From S2P Require Import Prelude Decimals Schema Access Ledger WithdrawalFees Operations OperationEffects OperationCreation.
From Stdlib Require Import Ascii.

(** ** Dates: a binary notation for instants *)
Module SampleDates.
Fixpoint show_pos (p : positive) : string :=
  match p with
  | xH => ""
  | xO q => String "0" (show_pos q)
  | xI q => String "1" (show_pos q)
  end.
Fixpoint read_pos (s : string) : option positive :=
  match s with
  | EmptyString => Some xH
  | String c s' =>
      if Ascii.eqb c "0" then xO <$> read_pos s' else if Ascii.eqb c "1" then xI <$> read_pos s' else None
  end.
Definition show (z : Z) : string :=
  match z with Z0 => "Z" | Zpos p => String "P" (show_pos p) | Zneg p => String "N" (show_pos p) end.
Definition read (s : string) : option Z :=
  match s with
  | EmptyString => None
  | String c s' =>
      if Ascii.eqb c "Z" then Some 0
      else if Ascii.eqb c "P" then Zpos <$> read_pos s'
      else if Ascii.eqb c "N" then Zneg <$> read_pos s' else None
  end.

Lemma read_show_pos p : read_pos (show_pos p) = Some p.
Proof. induction p; simpl; rewrite ?IHp; done. Qed.

#[export] Instance dates : JsDates := {| date_parse := read; to_iso := show |}.
#[export] Instance dates_laws : JsDatesLaws dates.
Proof. split. intros [|p|p]; simpl; rewrite ?read_show_pos; done. Qed.
End SampleDates.
#[export] Existing Instance SampleDates.dates.
#[export] Existing Instance SampleDates.dates_laws.
#[export] Existing Instance QDecimal.ops.
#[export] Existing Instance QDecimal.laws.

(** ** The database *)
Definition env0 : ProcessEnv :=
  {| NEOBANK_SOURCE_TENANT_ID := Some "neobank"; CORE_ORGANIZATION_ID := Some "org"; CORE_ADMIN_USER_ID := Some "adm";
     EMAIL_NOTIFICATIONS_ENABLED := None |}.
Definition now0 : Z := 1000000.

Definition account0 (owner : option string) (kind : AccountKind) (c : Currency) (network : option string)
    (balance : Z) : Account :=
  MkAccount owner kind AS_ACTIVE c "" None None network balance 0 0 None no_bank.

Definition units (n : Z) : Z := n * 10 ^ 8.

Definition admin0 : User := MkUser (Some "org") ADMIN true.
Definition customer0 : Customer :=
  MkCustomer "org" CS_ACTIVE KYC_APPROVED "adm" "Customer" "c@example.com" false false 1
    None None None None None None.
Definition opening (ref acct clearing : string) (c : Currency) (z : Z) : JournalEntry :=
  MkJournalEntry ref "" "opening balance" (pair_lines clearing acct c z).

Definition db0 : Db := {|
  users := {[ "adm" := admin0 ]};
  customers := {[ "cus" := customer0 ]};
  accounts := list_to_map
    [("usd", account0 (Some "cus") SYSTEM_WALLET USD None (units 100));
     ("hkd", account0 (Some "cus") SYSTEM_WALLET HKD None 0);
     ("usdt", account0 (Some "cus") CRYPTO_WALLET USDT (Some "TRON") (units 50));
     ("clr-usd", account0 None PLATFORM_CLEARING USD None 0);
     ("clr-hkd", account0 None PLATFORM_CLEARING HKD None 0);
     ("clr-usdt", account0 None PLATFORM_CLEARING USDT None 0);
     ("fee-usd", account0 None FEE_REVENUE USD None 0);
     ("fee-usdt", account0 None FEE_REVENUE USDT None 0)];
  wallets := {[ "wal" := MkCryptoWallet "cus" USDT TRON "TAddress" AS_ACTIVE (units 50) 0 0 ]};
  beneficiaries := {[ "ben" := MkBeneficiary "cus" BT_BANK "Payee" USD (Some "Bank") (Some "001") None None None (Some "US") None None true ]};
  channels := list_to_map
    [("pay", MkFundingChannel "org" "PAY1" "Payouts" CT_PLATFORM_PAYOUT [USD] true
       None None None None None None None 1 None None);
     ("inb", MkFundingChannel "org" "IN1" "Inbound" CT_FIAT_INBOUND [USD] true
       None None None None None None None 1 None None)];
  rateVersions := list_to_map
    [("rate", MkRateVersion RT_OTC USDT USD (10 ^ 12) (10 ^ 12) 50 0 None true); ("fx", MkRateVersion RT_FX USD HKD 7800000000000 7800000000000 50 0 None true)];
  operations := ∅;
  transfers := ∅;
  journal := [opening "OPEN-1" "usd" "clr-usd" USD (units 100); opening "OPEN-2" "usdt" "clr-usdt" USDT (units 50)];
  feeRules := list_to_map
    [("rule", MkWithdrawalFeeRule "org" (Some "org") "FIAT" USD "PLATFORM" "PAY1" "" 150 2 true 1 "adm" "adm");
     ("chain", MkWithdrawalFeeRule "neobank" (Some "org") "CRYPTO" USDT "ON_CHAIN" "CREGIS" "TRON" 1000000 6 true 1
        "adm" "adm")];
  vaRequests := ∅;
  vaEvents := [];
  outbox := ∅;
  withdrawalQueue := ∅;
  depositQueue := ∅;
  custodyWithdrawals := ∅;
  custodyDeposits := ∅;
  custodyWallets := ∅;
  sourceCustomers := {[ "cus" := MkSourceCustomer "neobank" "active" "approved" "active" false ]};
  callbacks := [];
  adminUsers := [];
|}.

(** The state a run leaves, and whether it succeeds. *)
Definition after {A} (m : M Db A) (s : Db) : Db := match m s with inr (_, s') => s' | inl _ => s end.
Definition succeeds {A} (m : M Db A) (s : Db) : bool := match m s with inr _ => true | inl _ => false end.

(** A run that succeeds, in the form the theorems take it. *)
Lemma run_succeeds {A} (m : M Db A) s : succeeds m s = true → ∃ a, m s = inr (a, after m s).
Proof. unfold succeeds, after. destruct (m s) as [|[? ?]]; [done|eauto]. Qed.
(** The same with a known part [f] of the value it returns. *)
Definition returns {A B} (m : M Db A) (f : A → B) (s : Db) : option B :=
  match m s with inr (a, _) => Some (f a) | inl _ => None end.
Lemma run_returns {A B} (m : M Db A) (f : A → B) s b :
  returns m f s = Some b → ∃ a, f a = b ∧ m s = inr (a, after m s).
Proof. unfold returns, after. destruct (m s) as [|[a s']]; [done|]. intros [= <-]. eauto. Qed.
(** Decides a closed proposition by running the model. *)
Ltac runs := vm_compute; reflexivity.
(** Names the result of a run of the model. *)
Tactic Notation "execute_run" constr(m) constr(s) "as" simple_intropattern(p) :=
  destruct (run_succeeds m s ltac:(runs)) as p.

(** A decidable property of every row of a table. *)
Lemma all_rows {V} (p : V → bool) (m : gmap string V) :
  forallb (λ kv, p kv.2) (map_to_list m) = true → ∀ k v, m !! k = Some v → p v = true.
Proof.
  rewrite forallb_forall. intros H k v Hk. apply (H (k, v)).
  by apply list_elem_of_In, elem_of_map_to_list.
Qed.

(** The sample state satisfies the standing hypotheses of the theorems. *)
Lemma db0_rules_exact : rules_exact db0.
Proof.
  intros id r H. unfold db0 in H. simpl in H.
  rewrite !lookup_insert_Some, lookup_empty in H.
  destruct H as [[_ <-]|[_ [[_ <-]|[_ [=]]]]]; split; vm_compute; done.
Qed.
Lemma db0_backed : frozen_backed db0.
Proof.
  intros i. unfold frozen_of, held. change (operations db0) with (∅ : gmap string Operation). rewrite sum_map_empty.
  destruct (accounts db0 !! i) as [a|] eqn:E; [|done].
  apply (all_rows (λ a, a.(acc_frozenBalance) =? 0)) in E; [by apply Z.eqb_eq|runs].
Qed.

(** ** Requests *)
Definition blank (t : OperationType) (c : Currency) (amount : string) : CreateOperationInput := {|
  i_customerId := "cus"; i_type := t; i_currency := c; i_amount := amount; i_feeAmount := None;
  i_expectedFeeAmount := None; i_expectedFeeRuleVersion := None; i_sourceAccountId := None;
  i_targetAccountId := None; i_beneficiaryId := None; i_channelId := None; i_payoutMethod := None;
  i_adjustmentDirection := None; i_quoteCurrency := None; i_narrative := None; i_idempotencyKey := None;
  i_remitterName := None; i_remitterBank := None; i_remittanceReference := None; i_receivedAt := None;
  i_proofUrl := None; i_marketProvider := None; i_marketPriceType := None; i_marketReferenceOnly := None;
  i_marketRate := None; i_marketUpdatedAt := None; i_marketFetchedAt := None |}.

(** A payout of 20 USD through the platform channel. *)
Definition payout_input : CreateOperationInput := {|
  i_customerId := "cus"; i_type := PAYOUT; i_currency := USD; i_amount := "20"; i_feeAmount := Some "0";
  i_expectedFeeAmount := Some "1.5"; i_expectedFeeRuleVersion := Some "1"; i_sourceAccountId := Some "usd";
  i_targetAccountId := None; i_beneficiaryId := Some "ben"; i_channelId := Some "pay"; i_payoutMethod := Some PM_PLATFORM;
  i_adjustmentDirection := None; i_quoteCurrency := None; i_narrative := None; i_idempotencyKey := Some "key";
  i_remitterName := None; i_remitterBank := None; i_remittanceReference := None; i_receivedAt := None;
  i_proofUrl := None; i_marketProvider := None; i_marketPriceType := None; i_marketReferenceOnly := None;
  i_marketRate := None; i_marketUpdatedAt := None; i_marketFetchedAt := None |}.

(** A quote: 10 USDT into USD at a market rate of 0.99. *)
Definition quote_input : CreateOperationInput := {|
  i_customerId := "cus"; i_type := OTC; i_currency := USDT; i_amount := "10"; i_feeAmount := None;
  i_expectedFeeAmount := None; i_expectedFeeRuleVersion := None; i_sourceAccountId := Some "usdt";
  i_targetAccountId := Some "usd"; i_beneficiaryId := None; i_channelId := None; i_payoutMethod := None;
  i_adjustmentDirection := None; i_quoteCurrency := Some USD; i_narrative := None; i_idempotencyKey := Some "quote";
  i_remitterName := None; i_remitterBank := None; i_remittanceReference := None; i_receivedAt := None;
  i_proofUrl := None; i_marketProvider := Some "fastforex"; i_marketPriceType := Some "midpoint_spot";
  i_marketReferenceOnly := Some true; i_marketRate := Some "0.99"; i_marketUpdatedAt := Some (to_iso now0);
  i_marketFetchedAt := Some (to_iso now0) |}.

(** A debit adjustment of 30 USD with a fee of 2 USD. *)
Definition debit_input : CreateOperationInput := {|
  i_customerId := "cus"; i_type := ADJUSTMENT; i_currency := USD; i_amount := "30"; i_feeAmount := Some "2";
  i_expectedFeeAmount := None; i_expectedFeeRuleVersion := None; i_sourceAccountId := Some "usd";
  i_targetAccountId := None; i_beneficiaryId := None; i_channelId := None; i_payoutMethod := None;
  i_adjustmentDirection := Some ADJ_DEBIT; i_quoteCurrency := None; i_narrative := None; i_idempotencyKey := None;
  i_remitterName := None; i_remitterBank := None; i_remittanceReference := None; i_receivedAt := None;
  i_proofUrl := None; i_marketProvider := None; i_marketPriceType := None; i_marketReferenceOnly := None;
  i_marketRate := None; i_marketUpdatedAt := None; i_marketFetchedAt := None |}.
Definition actor0 : CustomerOperationActor := {| actor_customerId := "cus"; actor_email := None |}.
