(* ===== verification/AccountProperties.v ===== *)
(** Correctness of the platform's accounts and of the asset summary: the books
    the postings need exist after the set-up, which is idempotent, and the
    summary counts every holding of the customer once. *)
From S2P Require Import Prelude Decimals Schema Access Ledger WithdrawalFees Accounts Operations OperationEffects OperationCreation Samples.
#[local] Open Scope Z_scope.

(** ** The platform's accounts *)
(** The unique index on ["Account".accountNumber]. *)
Definition numbers_unique (s : Db) : Prop :=
  ∀ k k' a a' n, s.(accounts) !! k = Some a → s.(accounts) !! k' = Some a' →
    a.(acc_accountNumber) = Some n → a'.(acc_accountNumber) = Some n → k = k'.

(** The account a definition asks for. *)
Definition is_system_account (s : Db) (d : SystemLedgerAccountDefinition) (ka : string * Account) : Prop :=
  s.(accounts) !! ka.1 = Some ka.2 ∧ ka.2.(acc_accountNumber) = Some d.(sd_accountNumber) ∧
  system_account_conflict d ka.2 = false.

Lemma has_number_eq n ka : has_number n ka = true ↔ ka.2.(acc_accountNumber) = Some n.
Proof. apply opt_eqb_true. Qed.

Lemma ensure_one_ok newId d s ka s' :
  numbers_unique s → ensure_system_account newId d s = inr (ka, s') →
  numbers_unique s' ∧ s.(accounts) ⊆ s'.(accounts) ∧ is_system_account s' d ka.
Proof.
  intros Hu H. unfold ensure_system_account in H. apply bind_ok in H as (ex&?&[-> ->]%gets_ok&H).
  destruct (find_first _ _) as [[k a]|] eqn:E.
  - apply find_first_Some in E as [Hk Hn%has_number_eq].
    apply bind_ok in H as (?&?&[Hc ->]%throw_if_ok&[-> ->]%ret_ok). done.
  - apply bind_ok in H as (u&s1&Hc&[-> ->]%ret_ok). unfold account_create in Hc.
    apply create_row_ok in Hc as (Hf&_&->&Hcol). simpl in *. split_and!.
    + pose proof (Forall_inv Hcol) as Hfree. simpl in Hfree. intros k k' a a' n Ha Ha' Hn Hn'. simpl in *.
      assert (∀ j w, s.(accounts) !! j = Some w → w.(acc_accountNumber) ≠ Some d.(sd_accountNumber)) as Hnone.
      { intros j w Hj Hw. specialize (Hfree j w Hj). rewrite Hw in Hfree. simpl in Hfree. by rewrite String.eqb_refl in Hfree. }
      apply lookup_insert_Some in Ha as [[<- <-]|[? Ha]]; apply lookup_insert_Some in Ha' as [[<- <-]|[? Ha']]; simpl in *.
      * done.
      * injection Hn as <-. by destruct (Hnone _ _ Ha').
      * injection Hn' as <-. by destruct (Hnone _ _ Ha).
      * by eapply Hu.
    + by apply insert_subseteq.
    + split_and!; simpl; [by rewrite lookup_insert_eq|done|]. unfold system_account_conflict, differs, same. simpl.
      by rewrite !bool_decide_true.
Qed.

(** A present account is found, and nothing is written. *)
Lemma ensure_one_present newId d s ka :
  numbers_unique s → is_system_account s d ka → ensure_system_account newId d s = inr (ka, s).
Proof.
  destruct ka as [k a]. intros Hu (Hk&Hn&Hc). simpl in *. unfold ensure_system_account. run gets_run.
  destruct (find_first _ _) as [[k' a']|] eqn:E.
  - apply find_first_Some in E as [Hk' Hn'%has_number_eq]. simpl in Hn'.
    assert (k' = k) as -> by (by eapply Hu). rewrite Hk in Hk'. injection Hk' as ->. by run throw_if_run.
  - pose proof (find_first_None _ _ _ _ E Hk) as Hf. by rewrite (proj2 (has_number_eq _ (k, a)) Hn) in Hf.
Qed.

Lemma ensure_list_ok newId l : ∀ s kas s',
  numbers_unique s → for_each l (ensure_system_account newId) s = inr (kas, s') →
  numbers_unique s' ∧ s.(accounts) ⊆ s'.(accounts) ∧ Forall2 (is_system_account s') l kas.
Proof.
  induction l as [|d l IH]; intros s kas s' Hu H; simpl in H; [apply ret_ok in H as [-> ->]; by split_and!|].
  apply bind_ok in H as (ka&s1&H1&H). apply bind_ok in H as (kas'&s2&H2&[-> ->]%ret_ok).
  apply ensure_one_ok in H1 as (Hu1&Hs1&Hp1); [|done]. apply IH in H2 as (Hu2&Hs2&Hp2); [|done].
  split_and!; [done|by etrans|]. constructor; [|done]. destruct Hp1 as (Hk&?&?). split_and!; [|done|done].
  by eapply lookup_weaken.
Qed.
Lemma ensure_list_present newId l s kas :
  numbers_unique s → Forall2 (is_system_account s) l kas → for_each l (ensure_system_account newId) s = inr (kas, s).
Proof.
  intros Hu. induction 1 as [|d ka l kas Hp _ IH]; simpl; [done|].
  rewrite (bind_run _ _ _ _ _ (ensure_one_present newId d s ka Hu Hp)). by rewrite (bind_run _ _ _ _ _ IH).
Qed.

Lemma no_conflict d a : system_account_conflict d a = false →
  a.(acc_customerId) = None ∧ a.(acc_kind) = d.(sd_kind) ∧ a.(acc_currency) = d.(sd_currency) ∧ a.(acc_status) = AS_ACTIVE.
Proof.
  unfold system_account_conflict, differs. rewrite !orb_false_iff, !negb_false_iff, !same_true.
  destruct (acc_customerId a); naive_solver.
Qed.

Lemma clearing_found s d ka :
  is_system_account s d ka → d.(sd_kind) = PLATFORM_CLEARING →
  ∃ x, clearingAccount d.(sd_currency) s = inr (x, s).
Proof.
  destruct ka as [k a]. intros (Hk&_&(_&Hkind&Hcur&Hact)%no_conflict) Hd. simpl in *.
  unfold clearingAccount. run gets_run. destruct (find_first _ _) as [x|] eqn:E; [by exists x|].
  pose proof (find_first_None _ _ _ _ E Hk) as Hf. simpl in Hf. rewrite Hkind, Hcur, Hact, Hd in Hf.
  unfold same in Hf. by rewrite !bool_decide_true in Hf.
Qed.

Lemma definition_of c kind :
  c = USD ∨ c = HKD ∨ c = USDT → kind = PLATFORM_CLEARING ∨ kind = FEE_REVENUE →
  ∃ d, d ∈ systemLedgerAccountDefinitions ∧ d.(sd_kind) = kind ∧ d.(sd_currency) = c.
Proof.
  intros Hc Hkind.
  destruct (List.find (λ d, same d.(sd_kind) kind && same d.(sd_currency) c) systemLedgerAccountDefinitions)
    as [d|] eqn:E.
  - apply List.find_some in E as [Hin%list_elem_of_In [Hk Hcur]%andb_true_iff].
    exists d. split_and!; [done|by apply same_true|by apply same_true].
  - by destruct Hc as [->|[->| ->]], Hkind as [->| ->]; vm_compute in E.
Qed.

(** The set-up of the platform's books is complete, changes no account that
    exists and is idempotent: when it succeeds, the clearing account of USD, HKD
    and USDT that every posting asks for is found, an active fee account stands in
    each of them, and running it again, whatever ids it would draw, writes nothing
    and returns the same accounts. *)
Theorem system_accounts_ensured newId s kas s' :
  numbers_unique s → ensureSystemLedgerAccounts newId s = inr (kas, s') →
  (∀ c, c = USD ∨ c = HKD ∨ c = USDT →
     (∃ ka, clearingAccount c s' = inr (ka, s')) ∧
     (∃ k a, s'.(accounts) !! k = Some a ∧ a.(acc_kind) = FEE_REVENUE ∧ a.(acc_currency) = c ∧
             a.(acc_status) = AS_ACTIVE ∧ a.(acc_customerId) = None)) ∧
  (∀ k a, s.(accounts) !! k = Some a → s'.(accounts) !! k = Some a) ∧
  (∀ newId', ensureSystemLedgerAccounts newId' s' = inr (kas, s')).
Proof.
  intros Hu H. apply ensure_list_ok in H as (Hu'&Hs&Hp); [|done].
  assert (∀ d, d ∈ systemLedgerAccountDefinitions → ∃ ka, is_system_account s' d ka) as Hd.
  { intros d [i Hi]%list_elem_of_lookup. destruct (Forall2_lookup_l _ _ _ _ _ Hp Hi) as (ka&_&?). by exists ka. }
  split_and!; [|intros k a Hk; by eapply lookup_weaken|intros newId'; by apply ensure_list_present].
  intros c Hc. split.
  - destruct (definition_of c PLATFORM_CLEARING Hc ltac:(by left)) as (d&Hin&Hkind&<-).
    destruct (Hd d Hin) as [ka Hka]. by apply (clearing_found _ _ _ Hka).
  - destruct (definition_of c FEE_REVENUE Hc ltac:(by right)) as (d&Hin&Hkind&<-).
    destruct (Hd d Hin) as ([k a]&Hk&_&Hok). exists k, a. split; [done|].
    apply no_conflict in Hok as (?&?&?&?). simpl in *. split_and!; congruence.
Qed.

Lemma sum_list_perm {A} (f : A → Z) l l' : l ≡ₚ l' → sum_list f l = sum_list f l'.
Proof. induction 1; simpl; lia. Qed.

(** ** The asset summary *)
Section summary.
Context {DO : DecimalOps} {DL : DecimalLaws DO} {JD : JsDates}.

Definition holding_currency (h : Holding) : Currency := h.1.1.1.
Definition holding_available (h : Holding) : Z := h.1.1.2.
Definition holding_frozen (h : Holding) : Z := h.1.2.
(** What a list of holdings amounts to in a currency. *)
Definition held (f : Holding → Z) (c : Currency) (hs : list Holding) : Z :=
  sum_list (λ h, if same (holding_currency h) c then f h else 0) hs.
Definition currencies (hs : list Holding) : list Currency := map holding_currency hs.

(** Balances within the exact range of decimal.js. *)
Definition exact_holdings (hs : list Holding) : Prop :=
  Forall (λ h, 0 ≤ holding_available h ∧ 0 ≤ holding_frozen h) hs ∧
  sum_list (λ h, holding_available h + holding_frozen h) hs < 10 ^ 20.

Record exact_bucket (hs : list Holding) (b : AssetBucket) : Prop := {
  eb_available : d_units 8 b.(bk_available) = Some (held holding_available b.(bk_currency) hs);
  eb_frozen : d_units 8 b.(bk_frozen) = Some (held holding_frozen b.(bk_currency) hs);
  eb_count : b.(bk_count) = held (λ _, 1) b.(bk_currency) hs;
}.

Lemma held_snoc f c hs h : held f c (hs ++ [h]) = held f c hs + (if same (holding_currency h) c then f h else 0).
Proof. unfold held. rewrite sum_list_app. simpl. lia. Qed.
Lemma held_app f c hs hs' : held f c (hs ++ hs') = held f c hs + held f c hs'.
Proof. apply sum_list_app. Qed.
Lemma held_absent f c hs : c ∉ currencies hs → held f c hs = 0.
Proof.
  induction hs as [|h hs IH]; simpl; intros Hc; [done|]. unfold held in *. simpl.
  apply not_elem_of_cons in Hc as [Hne Hc]. rewrite IH by done. unfold same. by rewrite bool_decide_false.
Qed.
Lemma held_bounds (f : Holding → Z) c hs :
  (∀ h, h ∈ hs → 0 ≤ f h ≤ holding_available h + holding_frozen h) →
  0 ≤ held f c hs ≤ sum_list (λ h, holding_available h + holding_frozen h) hs.
Proof.
  intros H. induction hs as [|h hs IH]; [done|]. unfold held in *. simpl.
  assert (0 ≤ f h ≤ holding_available h + holding_frozen h) by (apply H; by left).
  specialize (IH (λ h' Hh', H h' (list_elem_of_further _ _ _ Hh'))). destruct (same _ _); lia.
Qed.
Lemma exact_holdings_held hs : exact_holdings hs → ∀ c,
  0 ≤ held holding_available c hs < 10 ^ 20 ∧ 0 ≤ held holding_frozen c hs < 10 ^ 20.
Proof.
  intros [Hn Hb] c. rewrite Forall_forall in Hn.
  pose proof (held_bounds holding_available c hs (λ h Hh, ltac:(destruct (Hn h Hh); lia))).
  pose proof (held_bounds holding_frozen c hs (λ h Hh, ltac:(destruct (Hn h Hh); lia))). lia.
Qed.
Lemma exact_holdings_app hs h : exact_holdings (hs ++ [h]) → exact_holdings hs.
Proof.
  intros [[Hn [[? ?] _]%Forall_cons_1]%Forall_app Hb]. rewrite sum_list_app in Hb. simpl in Hb. split; [done|lia].
Qed.

(** [add_holding] finds the bucket of the currency or opens it at the end. *)
Lemma add_holding_cases c a f src bs :
  (∃ bs1 b bs2, bs = bs1 ++ b :: bs2 ∧ b.(bk_currency) = c ∧
     add_holding (c, a, f, src) bs = bs1 ++ add_to_bucket b a f src :: bs2) ∨
  (c ∉ map bk_currency bs ∧ add_holding (c, a, f, src) bs = bs ++ [add_to_bucket (new_bucket c) a f src]).
Proof.
  induction bs as [|b bs IH]; simpl; [by right; split; [apply not_elem_of_nil|]|].
  destruct (same (bk_currency b) c) eqn:E.
  - rewrite same_true in E. left. by exists [], b, bs.
  - rewrite same_false in E. destruct IH as [(bs1&b'&bs2&->&Hc&->)|[Hc ->]].
    + left. by exists (b :: bs1), b', bs2.
    + right. split; [apply not_elem_of_cons; split; [congruence|done]|done].
Qed.

(** Adding a holding to the bucket of its currency, and to none of the others. *)
Lemma exact_added hs b a f src :
  exact_bucket hs b → exact_holdings (hs ++ [(b.(bk_currency), a, f, src)]) →
  exact_bucket (hs ++ [(b.(bk_currency), a, f, src)]) (add_to_bucket b a f src).
Proof.
  intros [Ha Hf Hn] He. destruct (exact_holdings_held _ He b.(bk_currency)) as [Ba Bf].
  rewrite held_snoc in Ba, Bf. unfold holding_currency, same in Ba, Bf. simpl in Ba, Bf.
  rewrite bool_decide_true in Ba, Bf by done.
  split; simpl; rewrite held_snoc; unfold holding_currency, same; simpl; rewrite bool_decide_true by done.
  - apply units_add; [done|apply units_n8|]. unfold holding_available in *. simpl in *. lia.
  - apply units_add; [done|apply units_n8|]. unfold holding_frozen in *. simpl in *. lia.
  - by rewrite Hn.
Qed.
Lemma exact_other hs b h : exact_bucket hs b → holding_currency h ≠ b.(bk_currency) → exact_bucket (hs ++ [h]) b.
Proof.
  intros [Ha Hf Hn] Hne. split; rewrite held_snoc; unfold same; rewrite bool_decide_false, Z.add_0_r by done; done.
Qed.
Lemma exact_new hs c : c ∉ currencies hs → exact_bucket hs (new_bucket c).
Proof.
  intros Hc. split; simpl; rewrite held_absent by done; [| |done]; exact (units_le 0 8 _ _ ltac:(lia) (units_ofZ 0)).
Qed.

(** The buckets of a list of holdings: one per currency, each exact. *)
Lemma buckets_exact hs : exact_holdings hs →
  NoDup (map bk_currency (bucket_up hs)) ∧ (∀ c, c ∈ map bk_currency (bucket_up hs) ↔ c ∈ currencies hs) ∧
  Forall (exact_bucket hs) (bucket_up hs).
Proof.
  induction hs as [|h hs IH] using rev_ind; intros He; [split_and!; [constructor|done|constructor]|].
  destruct (IH (exact_holdings_app _ _ He)) as (Hnd&Hin&Hex). clear IH.
  destruct h as [[[c a] f] src]. unfold bucket_up in *. rewrite foldl_app. simpl.
  assert (∀ b, b ∈ foldl (λ bs h, add_holding h bs) [] hs → b.(bk_currency) ≠ c →
    exact_bucket (hs ++ [(c, a, f, src)]) b) as Hother.
  { intros b Hb Hne. rewrite Forall_forall in Hex. apply exact_other; [by apply Hex|]. unfold holding_currency. simpl. congruence. }
  assert (∀ h, currencies (hs ++ [h]) = currencies hs ++ [holding_currency h]) as Hcur by (intros h; unfold currencies; by rewrite map_app).
  destruct (add_holding_cases c a f src (foldl (λ bs h, add_holding h bs) [] hs)) as [(bs1&b&bs2&E&Hb&->)|[Hc ->]].
  - rewrite E in Hnd, Hin, Hex, Hother. rewrite Hcur, !map_app. rewrite map_app in Hnd. setoid_rewrite map_app in Hin.
    unfold holding_currency. simpl in *. clear Hcur. subst c.
    apply NoDup_app in Hnd as (Hn1&Hd&[Hb2 Hn2]%NoDup_cons). split_and!.
    + apply NoDup_app. split_and!; [done|done|by apply NoDup_cons].
    + intros c. rewrite !elem_of_app, <- (Hin c), !elem_of_app, !elem_of_cons, elem_of_nil. naive_solver.
    + apply Forall_app in Hex as [Hx1 [Hxb Hx2]%Forall_cons_1]. apply Forall_forall. intros b' Hb'.
      apply elem_of_app in Hb' as [Hb'|[->|Hb']%elem_of_cons].
      * apply Hother; [apply elem_of_app; by left|]. intros Heq. apply (Hd b'.(bk_currency)).
        { apply list_elem_of_fmap. eauto. } rewrite Heq. by left.
      * by apply exact_added.
      * apply Hother; [apply elem_of_app; right; by right|]. intros Heq. apply Hb2. rewrite <- Heq.
        apply list_elem_of_fmap. eauto.
  - rewrite Hcur, map_app. unfold holding_currency. simpl. split_and!.
    + apply NoDup_app. split_and!; [done| |by apply NoDup_singleton]. intros x Hx ->%list_elem_of_singleton. done.
    + intros x. rewrite !elem_of_app, (Hin x), !elem_of_cons, !elem_of_nil. tauto.
    + apply Forall_app. split.
      * apply Forall_forall. intros b Hb. apply Hother; [done|]. intros Heq. apply Hc. rewrite <- Heq.
        apply list_elem_of_fmap. eauto.
      * constructor; [|constructor]. apply (exact_added hs (new_bucket c)); [|done]. apply exact_new. by rewrite <- Hin.
Qed.

(** Every holding is counted in one bucket. *)
Lemma bucket_counts hs : sum_list bk_count (bucket_up hs) = Z.of_nat (length hs).
Proof.
  induction hs as [|h hs IH] using rev_ind; [done|]. unfold bucket_up in *. rewrite foldl_app, length_app. simpl.
  destruct h as [[[c a] f] src].
  destruct (add_holding_cases c a f src (foldl (λ bs h, add_holding h bs) [] hs)) as [(bs1&b&bs2&E&_&->)|[_ ->]].
  - rewrite E in IH. rewrite sum_list_app in *. simpl in *. lia.
  - rewrite sum_list_app. simpl. lia.
Qed.

(** A line's total is below the bound. *)
Lemma exact_line_bound hs c : exact_holdings hs → Z.abs (held holding_available c hs + held holding_frozen c hs) < 10 ^ 20.
Proof.
  intros [Hn Hsum]. rewrite Forall_forall in Hn.
  assert (0 ≤ held (λ h, holding_available h + holding_frozen h) c hs ≤ sum_list (λ h, holding_available h + holding_frozen h) hs).
  { apply held_bounds. intros h Hh. destruct (Hn h Hh). lia. }
  assert (held (λ h, holding_available h + holding_frozen h) c hs = held holding_available c hs + held holding_frozen c hs) as <-; [|lia].
  unfold held. clear. induction hs as [|h hs IH]; simpl; [done|]. destruct (same _ _); lia.
Qed.

(** The sort permutes. *)
Lemma sort_insert_perm x l : sort_insert x l ≡ₚ x :: l.
Proof.
  induction l as [|y l IH]; simpl; [done|]. destruct (_ <=? 0); [done|]. rewrite IH. apply Permutation_swap.
Qed.
Lemma sort_values_perm l : sort_values l ≡ₚ l.
Proof. unfold sort_values. induction l as [|x l IH]; simpl; [done|]. by rewrite sort_insert_perm, IH. Qed.

(** The totals add the buckets at parity. *)
Lemma total_from (f : AssetBucket → D) (g : AssetBucket → Z) bs : ∀ acc x,
  d_units 8 acc = Some x → 0 ≤ x → Forall (λ b, d_units 8 (f b) = Some (g b) ∧ 0 ≤ g b) bs →
  x + sum_list (λ b, if same b.(bk_currency) USD then g b else 0) bs < 10 ^ 20 →
  d_units 8 (foldl (λ total b, match rate_of b.(bk_currency) with
                               | Some r => d_add total (d_mul (f b) r) | None => total end) acc bs) =
  Some (x + sum_list (λ b, if same b.(bk_currency) USD then g b else 0) bs).
Proof.
  induction bs as [|b bs IH]; intros acc x Hacc Hx Hbs Hlt; simpl in *; [by rewrite Z.add_0_r|].
  apply Forall_cons_1 in Hbs as [[Hb Hg] Hbs].
  assert (0 ≤ sum_list (λ b, if same b.(bk_currency) USD then g b else 0) bs) as Hpos.
  { clear -Hbs. induction Hbs as [|b bs [_ ?] _ IH]; simpl; [lia|]. destruct (same _ _); lia. }
  change (rate_of b.(bk_currency)) with (if same b.(bk_currency) USD then Some (d_ofZ 1) else None).
  destruct (same (bk_currency b) USD); [|rewrite (IH acc x); [f_equal; lia|done|done|done|lia]].
  rewrite IH with (x := x + g b); [f_equal; lia| |lia|done|lia].
  apply units_add; [done| |lia].
  pose proof (units_mul 8 0 (f b) (d_ofZ 1) (g b) 1 Hb (units_ofZ 1)) as Hm. rewrite Z.mul_1_r in Hm.
  simpl in Hm. apply Hm. lia.
Qed.
Lemma one_bucket (g : Currency → Z) bs c : NoDup (map bk_currency bs) →
  sum_list (λ b, if same b.(bk_currency) c then g b.(bk_currency) else 0) bs =
  if bool_decide (c ∈ map bk_currency bs) then g c else 0.
Proof.
  induction bs as [|b bs IH]; simpl; intros Hnd; [done|]. apply NoDup_cons in Hnd as [Hb Hnd]. rewrite IH by done.
  destruct (same (bk_currency b) c) eqn:E.
  - rewrite same_true in E. subst c. rewrite (bool_decide_false (_ ∈ map _ _)) by done.
    rewrite bool_decide_true by (by left). lia.
  - rewrite same_false in E. rewrite Z.add_0_l. apply (f_equal (λ b : bool, if b then g c else 0)).
    apply bool_decide_ext. rewrite elem_of_cons. naive_solver.
Qed.

Lemma total_exact (f : AssetBucket → D) (g : Holding → Z) hs :
  exact_holdings hs →
  Forall (λ b, d_units 8 (f b) = Some (held g b.(bk_currency) hs) ∧ 0 ≤ held g b.(bk_currency) hs) (bucket_up hs) →
  held g USD hs < 10 ^ 20 →
  d_units 8 (total_by f (bucket_up hs)) = Some (held g USD hs).
Proof.
  intros He Hf Hb. destruct (buckets_exact hs He) as (Hnd&Hin&_). unfold total_by.
  assert (sum_list (λ b, if same b.(bk_currency) USD then held g b.(bk_currency) hs else 0) (bucket_up hs) =
          held g USD hs) as Hsum.
  { rewrite (one_bucket (λ c, held g c hs)) by done. case_bool_decide as Hc; [done|].
    rewrite held_absent; [done|]. by rewrite <- Hin. }
  rewrite (total_from f (λ b, held g b.(bk_currency) hs) _ (d_ofZ 0) 0); rewrite ?Hsum; try done.
  exact (units_le 0 8 _ _ ltac:(lia) (units_ofZ 0)).
Qed.

Lemma summary_ok (round_number : D → Z) now cid uid s v s' :
  summary round_number now cid uid s = inr (v, s') →
  s' = s ∧ v = summarize round_number now cid (holdings_of cid s).
Proof. unfold summary, find_unique. intros H. minvs. done. Qed.

(** What the customer holds, by the conditions on the rows: the active balance and
    virtual accounts in a fiat currency, and the active TRON wallets of USDT. *)
Definition own_account (cid : string) (c : Currency) (ka : string * Account) : bool :=
  opt_eqb ka.2.(acc_customerId) (Some cid) && same ka.2.(acc_status) AS_ACTIVE &&
  (same ka.2.(acc_kind) SYSTEM_WALLET || same ka.2.(acc_kind) VIRTUAL_ACCOUNT) && same ka.2.(acc_currency) c.
Definition own_wallet (cid : string) (kw : string * CryptoWallet) : bool :=
  String.eqb kw.2.(wal_customerId) cid && same kw.2.(wal_status) AS_ACTIVE &&
  same kw.2.(wal_asset) USDT && same kw.2.(wal_network) TRON.
Definition accounts_total (g : Account → Z) (cid : string) (c : Currency) (s : Db) : Z :=
  sum_list (λ ka, g ka.2) (find_many (own_account cid c) s.(accounts)).
Definition wallets_total (g : CryptoWallet → Z) (cid : string) (s : Db) : Z :=
  sum_list (λ kw, g kw.2) (find_many (own_wallet cid) s.(wallets)).

Lemma held_map {X} (f : Holding → Z) c (h : X → Holding) (p q : X → bool) (g : X → Z) l :
  (∀ x, q x = p x && same (holding_currency (h x)) c) → (∀ x, f (h x) = g x) →
  held f c (map h (List.filter p l)) = sum_list g (List.filter q l).
Proof.
  intros Hq Hg. induction l as [|x l IH]; simpl; [done|]. rewrite Hq. destruct (p x); simpl; [|exact IH].
  unfold held in *. simpl. rewrite IH. destruct (same _ c); simpl; [by rewrite Hg|lia].
Qed.
Lemma held_none {X} (f : Holding → Z) c (h : X → Holding) l :
  (∀ x, x ∈ l → holding_currency (h x) ≠ c) → held f c (map h l) = 0.
Proof.
  intros Hc. apply held_absent. unfold currencies. intros (y&Hy&Hin)%list_elem_of_fmap.
  apply list_elem_of_fmap in Hin as (x&->&Hx). by apply (Hc x).
Qed.
Lemma fiat_held f g cid s c : isSupportedFiatCurrency c = true → (∀ a, f (account_holding a) = g a) →
  held f c (holdings_of cid s) = accounts_total g cid c s.
Proof.
  intros Hc Hg. unfold holdings_of. rewrite held_app, (held_none _ _ _ (find_many (summary_wallet cid) _)).
  - rewrite Z.add_0_r. apply held_map; [|auto]. intros [k a]. unfold own_account, summary_account. simpl.
    unfold holding_currency, account_holding. simpl.
    assert (same a.(acc_kind) SYSTEM_WALLET || same a.(acc_kind) VIRTUAL_ACCOUNT = includes assetAccountKinds a.(acc_kind))
      as -> by (by destruct a.(acc_kind)).
    destruct (same a.(acc_currency) c) eqn:E; [|by rewrite !andb_false_r]. rewrite same_true in E. by rewrite E, Hc, !andb_true_r.
  - intros [k w] [_ Hw]%find_many_elem E. unfold summary_wallet in Hw. simpl in *.
    rewrite !andb_true_iff, !same_true in Hw. destruct Hw as [[_ Hw] _]. unfold holding_currency in E. simpl in E.
    apply isSupportedFiat_not_usdt in Hc. change supportedCryptoAsset with USDT in Hw. congruence.
Qed.
Lemma usdt_held f g cid s : (∀ w, f (wallet_holding w) = g w) →
  held f USDT (holdings_of cid s) = wallets_total g cid s.
Proof.
  intros Hg. unfold holdings_of. rewrite held_app, (held_none _ _ _ (find_many (summary_account cid) _)).
  - rewrite Z.add_0_l. apply held_map; [|auto]. intros [k w]. unfold own_wallet, summary_wallet. simpl.
    unfold holding_currency, wallet_holding. simpl.
    change supportedCryptoAsset with USDT. change supportedCryptoNetwork with TRON.
    destruct (same w.(wal_asset) USDT); [by rewrite !andb_true_r|by rewrite !andb_false_r].
  - intros [k a] [_ Ha]%find_many_elem E. unfold summary_account in Ha. simpl in *. rewrite !andb_true_iff in Ha.
    destruct Ha as [_ Ha%isSupportedFiat_not_usdt]. by apply Ha.
Qed.

(** C38: The asset summary counts every holding of the customer once: it has one
    line per currency held, whose balances are the exact sums of the available and
    frozen balances of the active accounts and wallets in it, with the number of
    them; USDT comes from the wallets alone, not from the accounts that mirror them;
    the account count is the number of holdings; the three totals are the USD line's
    available balance, its frozen balance and the exact sum of the two, every other
    currency being reported as missing its rate, and the valuation is called complete
    exactly when none is missing.  The sums are exact where the balances are not
    negative and all of them together are below 10^20 units of 10^-8, a million
    million, beyond which a decimal of twenty digits may round. *)
Theorem summary_exact (round_number : D → Z) now cid uid s v s' :
  exact_holdings (holdings_of cid s) → summary round_number now cid uid s = inr (v, s') →
  s' = s ∧ NoDup (map si_currency v.(as_distribution)) ∧
  (∀ c, c ∈ map si_currency v.(as_distribution) ↔ c ∈ currencies (holdings_of cid s)) ∧
  (∀ i, i ∈ v.(as_distribution) → ∃ a f t,
     d_units 8 a = Some (held holding_available i.(si_currency) (holdings_of cid s)) ∧
     d_units 8 f = Some (held holding_frozen i.(si_currency) (holdings_of cid s)) ∧
     d_units 8 t = Some (held holding_available i.(si_currency) (holdings_of cid s) +
                         held holding_frozen i.(si_currency) (holdings_of cid s)) ∧
     i.(si_availableBalance) = d_toFixed a 8 ∧ i.(si_frozenBalance) = d_toFixed f 8 ∧
     i.(si_totalBalance) = d_toFixed t 8 ∧ i.(si_accountCount) = held (λ _, 1) i.(si_currency) (holdings_of cid s)) ∧
  (∀ c, isSupportedFiatCurrency c = true →
     held holding_available c (holdings_of cid s) = accounts_total acc_availableBalance cid c s ∧
     held holding_frozen c (holdings_of cid s) = accounts_total acc_frozenBalance cid c s) ∧
  held holding_available USDT (holdings_of cid s) = wallets_total wal_availableBalance cid s ∧
  held holding_frozen USDT (holdings_of cid s) = wallets_total wal_frozenBalance cid s ∧
  v.(as_accountCount) = Z.of_nat (length (holdings_of cid s)) ∧
  (∃ a f, d_units 8 a = Some (held holding_available USD (holdings_of cid s)) ∧
          d_units 8 f = Some (held holding_frozen USD (holdings_of cid s)) ∧
          v.(as_totalAvailable) = d_toFixed a 8 ∧ v.(as_totalFrozen) = d_toFixed f 8 ∧
     ∃ t, d_units 8 t = Some (held holding_available USD (holdings_of cid s) + held holding_frozen USD (holdings_of cid s)) ∧
          v.(as_totalBalance) = d_toFixed t 8) ∧
  (v.(as_valuationStatus) = "complete" ↔ v.(as_missingRates) = []) ∧
  (∀ c, c ∈ v.(as_missingRates) ↔ c ∈ currencies (holdings_of cid s) ∧ c ≠ USD).
Proof.
  intros He [-> ->]%summary_ok. set (hs := holdings_of cid s) in *.
  destruct (buckets_exact hs He) as (Hnd&Hin&Hex). pose proof (exact_holdings_held hs He) as Hb.
  assert (∀ total, map si_currency (map (summary_item round_number total) (sort_values (map value_bucket (bucket_up hs))))
            ≡ₚ map bk_currency (bucket_up hs)) as Hperm.
  { intros total. etrans; [apply Permutation_map, Permutation_map, sort_values_perm|]. by rewrite !map_map. }
  split_and!; [done| | | |intros c Hc; split; by apply fiat_held|by apply usdt_held|by apply usdt_held| | | |].
  - simpl. by rewrite Hperm.
  - intros c. simpl. by rewrite Hperm, Hin.
  - simpl. intros i (v&->&Hv)%list_elem_of_fmap. rewrite sort_values_perm in Hv.
    apply list_elem_of_fmap in Hv as (b&->&Hbk). rewrite Forall_forall in Hex. destruct (Hex b Hbk) as [Ha Hf Hn8].
    exists b.(bk_available), b.(bk_frozen), (d_add b.(bk_available) b.(bk_frozen)). simpl.
    split_and!; try done. apply units_add; [done|done|]. by apply exact_line_bound.
  - rewrite <- bucket_counts. simpl.
    assert (∀ l x, foldl (λ total v, total + bk_count (vl_bucket v)) x l = x + sum_list (λ v, bk_count (vl_bucket v)) l) as Hfold.
    { induction l as [|v l IH]; intros x; simpl; [lia|]. rewrite IH. lia. }
    rewrite Hfold, Z.add_0_l, (sum_list_perm _ _ _ (sort_values_perm _)). generalize (bucket_up hs). clear.
    induction l as [|b l IH]; simpl; [done|]. by rewrite IH.
  - exists (total_by bk_available (bucket_up hs)), (total_by bk_frozen (bucket_up hs)). simpl.
    assert (Hta : d_units 8 (total_by bk_available (bucket_up hs)) = Some (held holding_available USD hs)).
    { apply total_exact; [done| |apply Hb]. eapply Forall_impl; [exact Hex|]. intros b []. split; [done|apply Hb]. }
    assert (Htf : d_units 8 (total_by bk_frozen (bucket_up hs)) = Some (held holding_frozen USD hs)).
    { apply total_exact; [done| |apply Hb]. eapply Forall_impl; [exact Hex|]. intros b []. split; [done|apply Hb]. }
    split_and!; try done. eexists. split; [|done]. apply units_add; [done|done|by apply exact_line_bound].
  - simpl. destruct (List.filter _ _); simpl; split; congruence.
  - intros c. simpl. rewrite list_elem_of_In, List.filter_In, <- list_elem_of_In, Hin. unfold rate_of.
    destruct (same c USD) eqn:E; [rewrite same_true in E|rewrite same_false in E]; simpl; naive_solver.
Qed.
End summary.

(** ** Witnesses *)
Definition setup_run : M Db (list (string * Account)) := ensureSystemLedgerAccounts (λ number, number).
Lemma system_accounts_ensured_witness :
  (∃ s' ka, s'.(accounts) !! "FEES-USDT" ≠ None ∧ clearingAccount HKD s' = inr (ka, s')) ∧
  (∃ kas s', ensureSystemLedgerAccounts (λ _, "again") s' = inr (kas, s') ∧ length kas = 6%nat).
Proof.
  assert (numbers_unique db0) as Hu.
  { intros k k' a a' n Ha _ Hn. pose proof (all_rows (λ a, is_none a.(acc_accountNumber)) db0.(accounts) ltac:(runs) k a Ha) as H.
    simpl in H. by rewrite Hn in H. }
  assert (returns setup_run length db0 = Some 6%nat) as (kas&Hl&H)%run_returns by runs. unfold setup_run in H at 1.
  destruct (system_accounts_ensured _ _ _ _ Hu H) as (Hc&_&Hagain). split.
  - destruct (Hc HKD) as [[ka Hka] _]; [by right; left|]. exists (after setup_run db0), ka. split; [|exact Hka]. by vm_compute.
  - exists kas, (after setup_run db0). split; [apply Hagain|exact Hl].
Defined.

Definition summary_run : M Db AssetSummary := summary (λ _, 10000) now0 "cus" "adm".
Lemma summary_exact_witness :
  ∃ v, summary (λ _, 10000) now0 "cus" "adm" db0 = inr (v, db0) ∧ v.(as_accountCount) = 3 ∧
       USDT ∈ v.(as_missingRates) ∧ NoDup (map si_currency v.(as_distribution)).
Proof.
  assert (returns summary_run as_accountCount db0 = Some 3) as (v&Hv&H)%run_returns by runs. unfold summary_run in H at 1.
  assert (exact_holdings (holdings_of "cus" db0)) as He.
  { split; [|by vm_compute]. apply Forall_forall. intros h Hh.
    assert (forallb (λ h, (0 <=? holding_available h) && (0 <=? holding_frozen h)) (holdings_of "cus" db0) = true) as Hall by runs.
    rewrite forallb_forall in Hall. specialize (Hall h (proj1 (list_elem_of_In _ _) Hh)). lia. }
  destruct (summary_exact _ _ _ _ _ _ _ He H) as (Hs&Hnd&_&_&_&_&_&_&_&_&Hm). rewrite Hs in H.
  exists v. split; [exact H|]. split; [exact Hv|]. split; [|exact Hnd]. apply Hm. split; [|done].
  apply (bool_decide_unpack _). by vm_compute.
Defined.
