(* ===== verification/OperationProperties.v ===== *)
(** Correctness of the operation workflow: reservation and its release, the
    payout life cycle, quote confirmation, idempotency and authorisation. *)
From S2P Require Import Prelude Decimals Schema Access Ledger WithdrawalFees Operations OperationEffects OperationCreation Samples.

Section lemmas.
Context {DO : DecimalOps} {DL : DecimalLaws DO} {JD : JsDates}.

(** A customer's payout that is not a replay inserts a fresh operation. *)
Lemma payout_fresh env now newId uuid fault input makerId actor s id o s' :
  request_exact input → rules_exact s → s.(operations) !! id = None →
  createCustomerPayout env now newId uuid fault input makerId actor s = inr ((id, o), s') →
  op_exact o ∧ o.(op_status) = SUBMITTED ∧ o.(op_type) = PAYOUT ∧ operation_check o = true ∧
  moved id o (λ i, - reservation i o) (λ i, reservation i o) nothing s s'.
Proof.
  intros Hex Hr Hid H. unfold createCustomerPayout in H.
  apply bind_ok in H as (_&?&[Hty ->]%throw_if_ok&H). apply bind_ok in H as (_&?&[_ ->]%throw_if_ok&H).
  unfold is_type in Hty. guards.
  apply createOperation_outcome in H; [|done|done|congruence|done].
  inversion H as [id' o' Hd Hin Hc|s1 row Hd Hn Hck Hx Hst Hty' Hcu Hmk Hkey _ _ _ Hm]; subst.
  - simpl in Hd. congruence.
  - simpl in Hd, Hst. subst. split_and!; try done. congruence.
Qed.
End lemmas.

(** ** Reservation *)
Section reservation.
Context {DO : DecimalOps} {DL : DecimalLaws DO} {JD : JsDates}.

(** C3: submitting a customer payout and rejecting it restores every account:
    the available balance, the frozen balance and the journal position of
    every account are those before the submission. *)
Theorem payout_reject_restores env now now' newId uuid input makerId actor reason checkerId s id o s1 r s2 :
  request_exact input → rules_exact s → s.(operations) !! id = None →
  createCustomerPayout env now newId uuid None input makerId actor s = inr ((id, o), s1) →
  reject now' id reason checkerId s1 = inr (r, s2) →
  ∀ i, available_of s2 i = available_of s i ∧ frozen_of s2 i = frozen_of s i ∧
       (system_account s i = false → position_of s2 i = position_of s i).
Proof.
  intros Hex Hr Hid Hc Hj i. destruct (payout_fresh _ _ _ _ _ _ _ _ _ _ _ _ Hex Hr Hid Hc) as (Hx&_&_&_&Hm).
  pose proof Hm as (_&_&_&Hops)%moved_effect. destruct r as [id' o'].
  apply reject_moves in Hj as (o1&Ho1&_&_&_&_&Hm').
  2: { rewrite Hops, lookup_insert_eq. by intros ? [= <-]. }
  rewrite Hops, lookup_insert_eq in Ho1. injection Ho1 as <-.
  assert (system_account s1 i = system_account s i) as Hsys.
  { destruct Hm as (sx&E&->). exact (eff_system _ _ _ _ _ E i). }
  apply moved_effect in Hm as (A&F&P&_), Hm' as (A'&F'&P'&_). unfold nothing in *.
  split_and!; [rewrite A', A; lia|rewrite F', F; lia|]. intros Hi. rewrite P', P by congruence. lia.
Qed.

(** What an operation holds is covered by the frozen balance of its source. *)
Lemma backed_covers s src id o :
  frozen_backed s → (∀ k x, s.(operations) !! k = Some x → operation_check x = true) →
  s.(operations) !! id = Some o → o.(op_sourceAccountId) = Some src → truthy src = true →
  holds o ≤ frozen_of s src.
Proof.
  intros Hb Hck Ho Hs Ht. rewrite Hb.
  pose proof (reservation_at src src o Hs Ht) as Hr. unfold at_ in Hr. rewrite String.eqb_refl in Hr.
  rewrite <- Hr. apply (sum_map_lookup_le _ _ id); [|done].
  intros k x Hk%Hck. unfold reservation, holds, op_total, operation_check in *.
  rewrite !andb_true_iff, Z.ltb_lt, Z.leb_le in Hk. repeat case_match; lia.
Qed.

(** The trigger accepts a rejection by an active administrator. *)
Lemma guard_rejection s now o checkerId reason u :
  o.(op_status) = SUBMITTED → s.(users) !! checkerId = Some u → u.(user_active) = true → u.(user_role) = ADMIN →
  guard_operation_transition s.(users) now o
    (set_op_rejectionReason (Some reason) (set_op_approvedAt (Some now)
      (set_op_checkerId (Some checkerId) (set_op_status REJECTED o)))) = true.
Proof.
  intros Hst Hu Ha Hr. unfold guard_operation_transition, checker_ok. simpl.
  rewrite Hst, Hu, Ha, Hr. simpl. unfold same. rewrite bool_decide_true by done. simpl.
  rewrite !andb_false_r. simpl. by rewrite orb_true_r.
Qed.

(** A rejection cannot be refused for want of frozen funds.  When frozen
    balances are backed by the operations' holds, an active administrator of
    the customer's organisation can reject any submitted operation of a
    generic type, and the run produces the REJECTED row. *)
Theorem reject_succeeds now id reason checkerId s o u c :
  frozen_backed s → (∀ k x, s.(operations) !! k = Some x → operation_check x = true) →
  (∀ k a, s.(accounts) !! k = Some a → account_check a = true ∧ a.(acc_availableBalance) + a.(acc_frozenBalance) < 10 ^ 36) →
  s.(operations) !! id = Some o → op_exact o → o.(op_status) = SUBMITTED →
  json_has "cryptoTransferId" o.(op_metadata) = false → o.(op_type) ≠ VA_OPENING_FEE → o.(op_type) ≠ OTC →
  s.(users) !! checkerId = Some u → u.(user_active) = true → u.(user_role) = ADMIN →
  s.(customers) !! o.(op_customerId) = Some c → u.(user_organizationId) = Some c.(cust_organizationId) →
  truthy (trim reason) = true →
  ∃ o' s', reject now id reason checkerId s = inr ((id, o'), s') ∧ o'.(op_status) = REJECTED ∧
    o'.(op_rejectionReason) = Some (trim reason).
Proof.
  intros Hb Hck Hacc Ho Hx Hst Hj Hva Hotc Hu Hact Hrole Hc Horg Hreason.
  assert (∃ m, release_reservation o s = inr (tt, set_accounts m s)) as [m Hrel].
  { unfold release_reservation. apply same_false in Hotc. rewrite Hotc. simpl.
    assert (set_accounts s.(accounts) s = s) as Hid by (by destruct s).
    destruct (op_sourceAccountId o) as [src|] eqn:Hs; [|exists s.(accounts); by rewrite Hid].
    destruct (usesReservation o && truthy src) eqn:Huse; [|exists s.(accounts); by rewrite Hid].
    apply andb_true_iff in Huse as [Huse Ht].
    assert (holds o = op_total o) as Hh by (unfold holds; by rewrite Hst, Huse).
    pose proof (backed_covers s src id o Hb Hck Ho Hs Ht) as Hle. rewrite Hh in Hle.
    assert (0 < op_total o) as Hpos.
    { apply Hck in Ho. unfold operation_check, op_total in *. rewrite !andb_true_iff, Z.ltb_lt, Z.leb_le in Ho. lia. }
    unfold frozen_of in Hle. destruct (accounts s !! src) as [a|] eqn:Ha; [|lia].
    destruct (Hacc _ _ Ha) as [Hca Hsum].
    destruct (unfreeze_run src _ _ s a (units_op_reserve o Hx) Ha) as [m Hm]; try done; [lia|].
    exists m. by run Hm. }
  eexists _, _. split; [|split].
  - unfold reject. run throw_if_run; [by rewrite Hreason|].
    run load_operation_run; [done..|]. run throw_if_run; [by rewrite Hst|].
    run acting_user_run; [done..|]. run throw_if_run; [by rewrite Hrole, andb_false_r|].
    run Hrel. run operation_update_run; [exact Ho| | |reflexivity].
    + apply guard_rejection with u; done.
    + by apply Hck in Ho.
  - done.
  - done.
Qed.
End reservation.

(** *** Witnesses: the sample customer's payout *)
Lemma payout_request_exact : request_exact payout_input.
Proof.
  split.
  - intros d H. vm_compute in H. injection H as <-. by exists (20 * 10 ^ 8).
  - intros t d Ht H. injection Ht as <-. vm_compute in H. injection H as <-. by exists 0.
Qed.

Definition payout_run : M Db (string * Operation) :=
  createCustomerPayout env0 now0 "op" "abcdefgh" None payout_input "adm" actor0.
Definition db_payout : Db := after payout_run db0.

Definition db_rejected : Db := after (reject now0 "op" "no" "adm") db_payout.
Lemma db_payout_run : after payout_run db0 = db_payout.
Proof. done. Qed.
Lemma db_rejected_run : after (reject now0 "op" "no" "adm") db_payout = db_rejected.
Proof. reflexivity. Qed.
(** Only [vm_compute] runs the model: the automation never looks inside these states. *)
#[local] Strategy opaque [db_payout db_rejected].


Lemma payout_reject_restores_witness :
  available_of db_payout "usd" = 7850000000 ∧
  ∀ i, available_of db_rejected i = available_of db0 i ∧ frozen_of db_rejected i = frozen_of db0 i ∧
       (system_account db0 i = false → position_of db_rejected i = position_of db0 i).
Proof.
  split; [runs|].
  assert (returns payout_run fst db0 = Some "op") as R by runs.
  assert (succeeds (reject now0 "op" "no" "adm") db_payout = true) as R' by runs.
  apply run_returns in R as ([id o]&Hid&H). simpl in Hid. subst id. apply run_succeeds in R' as [r H'].
  rewrite db_payout_run in H. rewrite db_rejected_run in H'. unfold payout_run in H.
  exact (payout_reject_restores env0 now0 now0 "op" "abcdefgh" payout_input "adm" actor0 "no" "adm" db0
    "op" o db_payout r db_rejected payout_request_exact db0_rules_exact eq_refl H H').
Defined.


Lemma db_payout_facts :
  frozen_backed db_payout ∧ ∃ o, db_payout.(operations) !! "op" = Some o ∧ op_exact o ∧ o.(op_status) = SUBMITTED ∧
    o.(op_type) = PAYOUT.
Proof.
  assert (returns payout_run fst db0 = Some "op") as R by runs.
  apply run_returns in R as ([id o]&Hid&H). simpl in Hid. subst id. rewrite db_payout_run in H.
  destruct (payout_fresh _ _ _ _ _ _ _ _ _ _ _ _ payout_request_exact db0_rules_exact eq_refl H) as (Hx&Hst&Hty&_&Hm).
  split.
  - eapply moved_backed; [done| |apply db0_backed]. assert (operations db0 !! "op" = None) as -> by done. intros i. simpl. lia.
  - apply moved_effect in Hm as (_&_&_&Hops). exists o. rewrite Hops, lookup_insert_eq. exact (conj eq_refl (conj Hx (conj Hst Hty))).
Qed.

Lemma reject_succeeds_witness :
  ∃ o' s', reject now0 "op" "no" "adm" db_payout = inr (("op", o'), s') ∧ o'.(op_status) = REJECTED ∧
    o'.(op_rejectionReason) = Some (trim "no").
Proof.
  destruct db_payout_facts as [Hb (o&Ho&Hx&Hst&Hty)].
  assert (json_has "cryptoTransferId" (from_option op_metadata None (db_payout.(operations) !! "op")) = false) as Hj by runs.
  assert (opt_eqb (op_customerId <$> db_payout.(operations) !! "op") (Some "cus") = true) as Hc by runs.
  rewrite Ho in Hj, Hc. simpl in *. apply (proj1 (opt_eqb_true _ _)) in Hc. injection Hc as Hc.
  assert (∀ k a, db_payout.(accounts) !! k = Some a →
    account_check a = true ∧ a.(acc_availableBalance) + a.(acc_frozenBalance) < 10 ^ 36) as Ha.
  { intros k a Hk.
    apply (all_rows (λ a, account_check a && (a.(acc_availableBalance) + a.(acc_frozenBalance) <? 10 ^ 36))) in Hk;
      [|runs]. apply andb_true_iff in Hk as [H1 H2]. split; [exact H1|]. apply Z.ltb_lt. exact H2. }
  assert (∀ k x, db_payout.(operations) !! k = Some x → operation_check x = true) as Hk by (apply all_rows; runs).
  assert (db_payout.(customers) !! o.(op_customerId) = Some customer0) as Hcu by (rewrite Hc; runs).
  assert (db_payout.(users) !! "adm" = Some admin0) as Hu by runs.
  refine (reject_succeeds now0 "op" "no" "adm" db_payout o admin0 customer0 Hb Hk Ha Ho Hx Hst Hj _ _ Hu
    eq_refl eq_refl Hcu eq_refl eq_refl); congruence.
Defined.

(** ** Life cycles *)
Section lifecycle.
Context {DO : DecimalOps} {DL : DecimalLaws DO} {JD : JsDates}.

(** C2: a payout submitted, approved and executed has taken exactly its amount
    and its fee out of the source account: the available balance is down by
    amount + fee, the frozen balance is what it was, the same total is posted
    against the account in the journal, and no other customer account moved. *)
Theorem payout_lifecycle env now1 now2 now3 newId uuid input makerId actor checkerId ref operatorId
    s id o s1 r2 s2 r3 s3 :
  request_exact input → rules_exact s → s.(operations) !! id = None →
  createCustomerPayout env now1 newId uuid None input makerId actor s = inr ((id, o), s1) →
  approve now2 id checkerId s1 = inr (r2, s2) → execute now3 id ref operatorId s2 = inr (r3, s3) →
  r3.2.(op_status) = COMPLETED ∧
  ∀ i, available_of s3 i = available_of s i - reservation i o ∧ frozen_of s3 i = frozen_of s i ∧
       (system_account s i = false → position_of s3 i = position_of s i - reservation i o).
Proof.
  intros Hex Hr Hid Hc Ha He. destruct (payout_fresh _ _ _ _ _ _ _ _ _ _ _ _ Hex Hr Hid Hc) as (Hx&Hst&Hty&_&Hm).
  assert (∀ i, system_account s1 i = system_account s i) as Hsys.
  { intros i. destruct Hm as (sx&E&->). exact (eff_system _ _ _ _ _ E i). }
  apply moved_effect in Hm as (A1&F1&P1&Hops). destruct r2 as [id2 o2], r3 as [id3 o3].
  apply approve_payout_moves in Ha as (o1&Ho1&_&->&Hm).
  2: { intros x. rewrite Hops, lookup_insert_eq. intros [= <-]. done. }
  rewrite Hops, lookup_insert_eq in Ho1. injection Ho1 as <-.
  assert (∀ i, system_account s2 i = system_account s1 i) as Hsys2.
  { intros i. destruct Hm as (sx&E&->). exact (eff_system _ _ _ _ _ E i). }
  apply moved_effect in Hm as (A2&F2&P2&Hops2).
  apply execute_moves in He as (o1&Ho1&_&_&_&Hst3&_&_&Hm).
  2: { intros x. rewrite Hops2, lookup_insert_eq. by intros [= <-]. }
  rewrite Hops2, lookup_insert_eq in Ho1. injection Ho1 as <-. split; [done|]. intros i.
  apply moved_effect in Hm as (A3&F3&P3&_). unfold nothing in *.
  assert (∀ x y, reservation i (set_op_approvedAt x (set_op_checkerId y (set_op_status PROCESSING o))) =
    reservation i o) as Hsame.
  { intros x y. unfold reservation, holds. simpl. by rewrite Hst. }
  split_and!.
  - rewrite A3, A2, A1. lia.
  - rewrite F3, F2, F1, Hsame. lia.
  - intros Hi. rewrite P3, P2, P1 by (rewrite ?Hsys2, ?Hsys; done). rewrite Hsame. lia.
Qed.

(** Approving a debit adjustment leaves its fee frozen.  Creation freezes
    amount + fee, the approval consumes the amount only and completes the
    operation, so the fee stays in the frozen balance of the source although
    the operation is terminal. *)
Theorem debit_adjustment_strands_fee env now1 now2 newId uuid input makerId checkerId s id o s1 o' s2 src :
  request_exact input → rules_exact s → s.(operations) !! id = None →
  input.(i_type) = ADJUSTMENT → input.(i_adjustmentDirection) = Some ADJ_DEBIT →
  input.(i_sourceAccountId) = Some src → truthy src = true →
  create env now1 newId uuid None input makerId s = inr ((id, o), s1) →
  approve now2 id checkerId s1 = inr ((id, o'), s2) →
  o'.(op_status) = COMPLETED ∧ frozen_of s2 src = frozen_of s src + o.(op_feeAmount) ∧
  available_of s2 src = available_of s src - o.(op_amount) - o.(op_feeAmount).
Proof.
  intros Hex Hr Hid Hty Had Hsrc Ht Hc Ha. unfold create in Hc.
  apply bind_ok in Hc as (ux&sx&Hg&Hc). unfold requireGenericOperation in Hg. apply throw_if_ok in Hg as [_ ->].
  apply bind_ok in Hc as (_&?&[_ ->]%throw_if_ok&Hc).
  apply createOperation_outcome in Hc; [|done|done|by rewrite Hty|done].
  destruct (create_outcome_adds _ _ _ _ _ _ _ _ _ Hc Hid eq_refl) as (Hst&Hty'&_&_&Hs'&Had'&_&Hm).
  rewrite Hty in Hty'. rewrite Had in Had'. rewrite Hsrc in Hs'. apply moved_effect in Hm as (A&F&_&Hops).
  apply approve_debit_moves in Ha as (o1&src'&Ho1&Hs1&Hst'&Hm').
  2: { intros x. rewrite Hops, lookup_insert_eq. by intros [= <-]. }
  rewrite Hops, lookup_insert_eq in Ho1. injection Ho1 as <-. rewrite Hs' in Hs1. injection Hs1 as <-.
  apply moved_effect in Hm' as (A'&F'&_&_). split; [done|].
  rewrite A', F', A, F, (reservation_at src src o Hs' Ht). unfold nothing, at_. rewrite String.eqb_refl.
  assert (holds o = o.(op_amount) + o.(op_feeAmount)) as ->; [|lia].
  unfold holds, op_total, usesReservation. by rewrite Hst, Hty', Had'.
Qed.
End lifecycle.

(** ** Authorisation *)
Section authorisation.
Context {DO : DecimalOps} {DL : DecimalLaws DO} {JD : JsDates}.

(** Only an active administrator of the customer's own organisation settles
    an operation: whichever of [approve], [reject] and [execute] succeeds, the
    acting user is one, the operation was waiting (SUBMITTED, or PROCESSING for
    an execution), and it is neither a crypto payout nor an opening fee, which
    have workflows of their own. *)
Theorem settlement_authorised now id userId text s r s' :
  approve now id userId s = inr (r, s') ∨ reject now id text userId s = inr (r, s') ∨
  execute now id text userId s = inr (r, s') →
  ∃ o u, s.(operations) !! id = Some o ∧ (o.(op_status) = SUBMITTED ∨ o.(op_status) = PROCESSING) ∧
    json_has "cryptoTransferId" o.(op_metadata) = false ∧ o.(op_type) ≠ VA_OPENING_FEE ∧
    s.(users) !! userId = Some u ∧ u.(user_active) = true ∧ u.(user_role) = ADMIN ∧
    u.(user_organizationId) = cust_organizationId <$> s.(customers) !! o.(op_customerId).
Proof.
  intros [H|[H|H]].
  - unfold approve in H. apply bind_ok in H as (o&s1&(->&Ho&Hj&Hv)%load_operation_ok&H).
    apply bind_ok in H as (_&?&[_ ->]%throw_if_ok&H). apply bind_ok in H as (_&?&[Hst ->]%throw_if_ok&H).
    apply bind_ok in H as (u&?&(->&Hu&Ha&Hr&Hg)%acting_user_ok&_). guards. exists o, u. naive_solver.
  - unfold reject in H. apply bind_ok in H as (_&?&[_ ->]%throw_if_ok&H).
    apply bind_ok in H as (o&s1&(->&Ho&Hj&Hv)%load_operation_ok&H).
    apply bind_ok in H as (_&?&[Hst ->]%throw_if_ok&H).
    apply bind_ok in H as (u&?&(->&Hu&Ha&Hr&Hg)%acting_user_ok&_). guards. exists o, u. naive_solver.
  - unfold execute in H. apply bind_ok in H as (_&?&[_ ->]%throw_if_ok&H).
    apply bind_ok in H as (o&s1&(->&Ho&Hj&Hv)%load_operation_ok&H).
    apply bind_ok in H as (_&?&[Hst ->]%throw_if_ok&H).
    apply bind_ok in H as (u&?&(->&Hu&Ha&Hr&Hg)%acting_user_ok&_). guards. exists o, u. naive_solver.
Qed.
End authorisation.

(** ** Quotes *)
Section quotes.
Context {DO : DecimalOps} {DL : DecimalLaws DO} {JD : JsDates}.

Lemma confirmQuote_ok now fault id actor s r s' :
  confirmQuote now fault id actor s = inr (r, s') →
  (fault = None ∧ ∃ x, confirm_transaction now id actor s = inr (x, s') ∧
    r = match x with None => inl (Conflict "quote_expired") | Some ko => inr ko end) ∨
  ∃ o, s' = s ∧ r = inr (id, o) ∧ s.(operations) !! id = Some o ∧ o.(op_type) = OTC ∧
    o.(op_customerId) = actor.(actor_customerId) ∧ o.(op_status) = COMPLETED.
Proof.
  intros H. unfold confirmQuote, after_commit in H. apply bind_ok in H as (x&s1&H&[-> ->]%ret_ok).
  apply try_catch_ok in H as [[-> H]%transaction_ok|(e&_&H)]; [left; by eauto|right].
  destruct e as [| | | | |code tg| | | |]; try by apply throw_ok in H.
  destruct (_ || _) in H; [|by apply throw_ok in H].
  apply bind_ok in H as (row&?&[-> ->]%gets_ok&H). destruct (operations s !! id) as [o|]; [|by apply throw_ok in H].
  destruct (_ && _) eqn:E in H; [|by apply throw_ok in H]. apply ret_ok in H as [-> ->].
  guards. match goal with H : String.eqb _ _ = true |- _ => apply String.eqb_eq in H end. by exists o.
Qed.

(** A completed quote is returned as it is. *)
Lemma confirmQuote_replay now fault id actor s o :
  s.(operations) !! id = Some o → o.(op_type) = OTC → o.(op_customerId) = actor.(actor_customerId) →
  o.(op_status) = COMPLETED → (fault = None ∨ fault = Some (PrismaKnown "P2034" [])) →
  confirmQuote now fault id actor s = inr (inr (id, o), s).
Proof.
  intros Ho Hty Hc Hst Hf. unfold confirmQuote, after_commit.
  assert (forall h, fault = None → try_catch (transaction fault (confirm_transaction now id actor)) h s
            = inr (Some (id, o), s)) as Hrun.
  { intros h ->. unfold try_catch, transaction.
    assert (confirm_transaction now id actor s = inr (Some (id, o), s)) as ->; [|done].
    unfold confirm_transaction, find_unique. run gets_run. run require_run; [exact Ho|].
    run throw_if_run; [by rewrite Hty, Hc, String.eqb_refl|]. by rewrite Hst. }
  destruct Hf as [->| ->].
  - by run Hrun.
  - assert (∀ (k : exn → M Db (option (string * Operation))),
      try_catch (transaction (Some (PrismaKnown "P2034" [])) (confirm_transaction now id actor)) k s
        = k (PrismaKnown "P2034" []) s) as Hk by done.
    unfold bind at 1. rewrite Hk. simpl. unfold bind, find_unique, gets. rewrite Ho, Hty, Hst, Hc, String.eqb_refl. done.
Qed.

(** C1: a quote is confirmed once.  A confirmation that returns an operation
    either found it COMPLETED and changed nothing, or completed the DRAFT
    inside its window, debiting the source by amount + fee, crediting the
    target with the quoted amount, posting both and leaving no frozen balance
    behind; and every later confirmation, a retry after a lost serialization
    race included, returns that same operation and changes nothing. *)
Theorem quote_confirmed_once now fault id actor s id' o' s' :
  (∀ o, s.(operations) !! id = Some o → op_exact o) →
  confirmQuote now fault id actor s = inr (inr (id', o'), s') →
  id' = id ∧ o'.(op_status) = COMPLETED ∧
  (s' = s ∨ ∃ o src tgt q t, s.(operations) !! id = Some o ∧ o.(op_status) = DRAFT ∧
     quoteExpiresAt o.(op_metadata) = Some t ∧ now < t ∧ same_terms o o' ∧
     o.(op_sourceAccountId) = Some src ∧ o.(op_targetAccountId) = Some tgt ∧ o.(op_quoteAmount) = Some q ∧
     ∀ i, available_of s' i = available_of s i + at_ tgt q i - at_ src (op_total o) i ∧
          frozen_of s' i = frozen_of s i ∧
          (system_account s i = false → position_of s' i = position_of s i + at_ tgt q i - at_ src (op_total o) i)) ∧
  ∀ now2, confirmQuote now2 None id actor s' = inr (inr (id, o'), s') ∧
          confirmQuote now2 (Some (PrismaKnown "P2034" [])) id actor s' = inr (inr (id, o'), s').
Proof.
  intros Hx H. apply confirmQuote_ok in H as [(->&x&H&Hr)|(o&->&Hr&Ho&Hty&Hc&Hst)].
  2: { injection Hr as -> ->. split_and!; [done|done|by left|]. intros. split; apply confirmQuote_replay; auto. }
  apply confirm_transaction_outcome in H as [(o&Ho&Hty&Hc) H]; [|done].
  inversion H as [o1 -> Ho1 Hst|?|o1 o2 src tgt q t Ho1 Hd Hcu Ht Hlt Hst Hsame Hsrc Htgt Hq Hm]; subst; simplify_eq.
  - split_and!; [done|done|by left|]. intros. split; apply confirmQuote_replay; auto.
  - pose proof Hm as (A&F&P&Hops)%moved_effect. split_and!; [done|done| |].
    + right. eexists _, src, tgt, q, t. split_and!; [eassumption|try eassumption; done..|]. intros i.
      rewrite A, F. unfold nothing. split_and!; [lia|lia|]. intros Hi. rewrite P by done. lia.
    + destruct Hsame as (_&_&Hcus&Htype&_).
      intros. split; apply confirmQuote_replay; auto; try congruence; by rewrite Hops, lookup_insert_eq.
Qed.

(** a quote is not confirmed after its window: the confirmation cancels the
    draft, commits the cancellation, touches nothing else, and only then
    answers [quote_expired]. *)
Theorem expired_quote_cancelled now id actor s o t :
  s.(operations) !! id = Some o → o.(op_type) = OTC → o.(op_customerId) = actor.(actor_customerId) →
  o.(op_status) = DRAFT → operation_check o = true → quoteExpiresAt o.(op_metadata) = Some t → t ≤ now →
  confirmQuote now None id actor s =
    inr (inl (Conflict "quote_expired"), set_operations (<[id := set_op_status CANCELLED o]> s.(operations)) s).
Proof.
  intros Ho Hty Hc Hst Hck Ht Hle. unfold confirmQuote, after_commit.
  assert (confirm_transaction now id actor s =
    inr (None, set_operations (<[id := set_op_status CANCELLED o]> s.(operations)) s)) as Hrun.
  { unfold confirm_transaction, find_unique. run gets_run. run require_run; [exact Ho|].
    run throw_if_run; [by rewrite Hty, Hc, String.eqb_refl|]. rewrite Hst. change (same DRAFT COMPLETED) with false. cbv iota.
    run throw_if_run; [done|]. run require_run; [exact Ht|].
    apply Z.leb_le in Hle. rewrite Hle.
    unfold bind, operation_updateMany, update_many_id. rewrite Ho, Hst. simpl.
    unfold operation_guard, guard_operation_transition. simpl. rewrite Hst, Hty. simpl.
    assert (operation_check (set_op_status CANCELLED o) = true) as -> by exact Hck.
    unfold same. by rewrite bool_decide_true. }
  unfold bind at 1, try_catch, transaction. by rewrite Hrun.
Qed.
End quotes.

(** ** Idempotency *)
Section replay.
Context {DO : DecimalOps} {DL : DecimalLaws DO} {JD : JsDates}.

(** [validateShape] reads the identity of an account, not its balances. *)
Definition alike (o o' : option (string * Account)) : Prop :=
  option_Forall2 (λ x y, x.1 = y.1 ∧ same_identity x.2 y.2) o o'.

Lemma validateShape_alike input src src' tgt tgt' ch ben :
  alike src src' → alike tgt tgt' →
  validateShape input src tgt ch ben = validateShape input src' tgt' ch ben.
Proof.
  intros H1 H2. unfold validateShape, common_checks, deposit_checks, payout_checks, transfer_checks,
    conversion_checks, adjustment_checks, acc_test, unsupported_crypto, owned.
  destruct H1 as [[i a] [j b] [E1 H1]|], H2 as [[k c] [l d] [E2 H2]|]; simpl in *; subst; try done;
    repeat match goal with
    | H : same_identity _ _ |- _ => destruct H as (?&?&?&?&?&?&?&?)
    end;
    repeat match goal with H : _ ?b = _ ?a |- _ => rewrite H; clear H end; done.
Qed.

Lemma find_optional_alike id s s' :
  (∀ i, option_Forall2 same_identity (s.(accounts) !! i) (s'.(accounts) !! i)) →
  ∃ o o', find_optional accounts id s = inr (o, s) ∧ find_optional accounts id s' = inr (o', s') ∧ alike o o'.
Proof.
  intros H. unfold find_optional. destruct id as [i|]; [destruct (truthy i)|];
    (eexists _, _; split; [done|split; [done|]]); [|constructor..].
  destruct (H i); simpl; constructor. done.
Qed.

(** The reads and the checks of creation, in a state that differs from [s] by
    balances, operations and journal entries. *)
Lemma create_parties_again input makerId s s' p :
  create_parties input makerId s = inr (p, s) →
  s'.(users) = s.(users) → s'.(customers) = s.(customers) → s'.(channels) = s.(channels) →
  s'.(beneficiaries) = s.(beneficiaries) →
  (∀ i, option_Forall2 same_identity (s.(accounts) !! i) (s'.(accounts) !! i)) →
  ∃ p', create_parties input makerId s' = inr (p', s').
Proof.
  intros H Hu Hc Hch Hb Hid. unfold create_parties, find_unique in *.
  do 2 (apply bind_ok in H as (?&?&[-> ->]%gets_ok&H); run gets_run). rewrite Hu, Hc.
  destruct (find_optional_alike input.(i_sourceAccountId) s s' Hid) as (a&a'&Ha&Ha'&Hsrc).
  destruct (find_optional_alike input.(i_targetAccountId) s s' Hid) as (b&b'&Hb1&Hb'&Htgt).
  apply bind_ok in H as (?&?&E&H). rewrite Ha in E. injection E as <- <-. run Ha'.
  apply bind_ok in H as (?&?&E&H). rewrite Hb1 in E. injection E as <- <-. run Hb'.
  assert (∀ V (tbl : Db → gmap string V) id o s1, tbl s' = tbl s → find_optional tbl id s = inr (o, s1) →
    s1 = s ∧ find_optional tbl id s' = inr (o, s')) as Hopt.
  { intros V tbl i o s1 Ht. unfold find_optional, gets, ret.
    destruct i as [i|]; [destruct (truthy i)|]; rewrite ?Ht; by intros [= <- <-]. }
  apply bind_ok in H as (ch&?&[-> E]%Hopt&H); [|done]. run E.
  apply bind_ok in H as (be&?&[-> E']%Hopt&H); [|done]. run E'.
  apply bind_ok in H as (mk&?&[Hmk ->]%require_ok&H). run require_run; [exact Hmk|].
  apply bind_ok in H as (_&?&[Hr ->]%throw_if_ok&H). run throw_if_run; [exact Hr|].
  apply bind_ok in H as (cu&?&[Hcu ->]%require_ok&H). run require_run; [exact Hcu|].
  apply bind_ok in H as (_&?&[Ho ->]%throw_if_ok&H). run throw_if_run; [exact Ho|].
  apply bind_ok in H as (_&?&[Hx ->]%throw_if_ok&H). run throw_if_run; [exact Hx|].
  apply bind_ok in H as (v&s1&Hv&_). rewrite (validateShape_alike input a a' b b' _ _ Hsrc Htgt) in Hv.
  destruct (stateless_run _ _ _ _ (validateShape_stateless _ _ _ _ _) Hv) as [_ Hv'].
  run Hv'. eexists. done.
Qed.

(** C4: resubmitting a request under its idempotency key returns the first
    submission's operation and changes nothing.  After a first run of [create]
    that added the operation, a second run of the same request, at any time
    and with any fresh id, succeeds with that same operation and leaves the
    state as it was: no second reservation, no second row. *)
Theorem create_idempotent env now newId uuid input makerId s id o s1 now2 newId2 uuid2 key :
  request_exact input → rules_exact s → s.(operations) !! id = None →
  input.(i_idempotencyKey) = Some key → truthy key = true →
  create env now newId uuid None input makerId s = inr ((id, o), s1) →
  create env now2 newId2 uuid2 None input makerId s1 = inr ((id, o), s1).
Proof.
  intros Hex Hr Hid Hkey Ht H. unfold create in *.
  apply bind_ok in H as (u&sx&Hg&H). pose proof Hg as Hg'. unfold requireGenericOperation in Hg'.
  apply throw_if_ok in Hg' as [Hva ->].
  assert (requireGenericOperation (i_type input) s1 = inr (u, s1)) as Hg1.
  { unfold requireGenericOperation in *. rewrite Hva. by destruct u. }
  run Hg1. apply bind_ok in H as (_&?&[Hotc ->]%throw_if_ok&H). run throw_if_run; [exact Hotc|].
  guards. pose proof H as Hout. apply createOperation_outcome in Hout; [|done|done|done|done].
  destruct (create_outcome_adds _ _ _ _ _ _ _ _ _ Hout Hid eq_refl) as (_&Hty&Hcus&Hok&_&_&Hun&Hm).
  pose proof (moved_frame _ _ _ _ _ _ _ Hm) as (Hus&Hcu&Hch&Hbe&_&_&_&Hac).
  pose proof (moved_effect _ _ _ _ _ _ _ Hm) as (_&_&_&Hops).
  unfold createOperation in *. apply bind_ok in H as ([a f]&s2&Hchk&H).
  destruct (stateless_run _ _ _ _ (create_checks_stateless _) Hchk) as [-> Hchk'].
  run Hchk'. apply bind_ok in H as (p&s2&Hp&_). pose proof Hp as [-> _]%create_parties_ok.
  destruct (create_parties_again _ _ s s1 p Hp Hus Hcu Hch Hbe Hac) as [p' Hp']. run Hp'.
  unfold try_catch, transaction, create_transaction. rewrite (bind_run (ret tt) _ s1 tt s1) by done.
  assert (find_existing input ByAdmin a s1 = inr (Some (id, o), s1)) as Hf; [|by rewrite (bind_run _ _ _ _ _ Hf)].
  unfold find_existing. rewrite Hkey, Ht. simpl. run gets_run.
  destruct (find_first _ _) as [[j b]|] eqn:E.
  - apply find_first_Some in E as [Hj Hb]. simpl in Hb. apply andb_true_iff in Hb as [Hb1%String.eqb_eq Hb2].
    apply (proj1 (opt_eqb_true _ _)) in Hb2. rewrite Hops in Hj.
    assert (j = id) as ->.
    { destruct (decide (j = id)) as [->|Hne]; [done|]. rewrite lookup_insert_ne in Hj by done. exfalso.
      exact (Hun key Hkey Ht j b Hj Hb1 Hb2). }
    rewrite lookup_insert_eq in Hj. injection Hj as <-.
    assert (differs (op_type o) OTC = true) as Hd by (apply differs_true; unfold is_type in Hotc; guards; congruence).
    unfold bind, ret, throw_if. by rewrite Hd.
  - exfalso. assert (s1.(operations) !! id = Some o) as Ho by (by rewrite Hops, lookup_insert_eq).
    pose proof (find_first_None _ _ _ _ E Ho) as Hn. simpl in Hn.
    rewrite Hcus, String.eqb_refl, Hok, Hkey in Hn. simpl in Hn. by apply opt_eqb_false in Hn.
Qed.
End replay.

(** ** Witnesses *)
Definition db_approved : Db := after (approve now0 "op" "adm") db_payout.
Definition db_executed : Db := after (execute now0 "op" "bank-ref" "adm") db_approved.
Definition debit_run : M Db (string * Operation) := create env0 now0 "op" "abcdefgh" None debit_input "adm".
Definition db_debit : Db := after debit_run db0.
Definition db_debited : Db := after (approve now0 "op" "adm") db_debit.
Definition admin_run : M Db (string * Operation) := create env0 now0 "op" "abcdefgh" None payout_input "adm".
Definition db_admin : Db := after admin_run db0.
Definition quote_run : M Db (exn + QuoteResponse) :=
  createQuote env0 now0 "op" "abcdefgh" None quote_input "adm" actor0.
Definition db_quote : Db := after quote_run db0.
Definition db_confirmed : Db := after (confirmQuote now0 None "op" actor0) db_quote.
Definition quote_row : option Operation := db_quote.(operations) !! "op".

Lemma debit_request_exact : request_exact debit_input.
Proof.
  split.
  - intros d H. vm_compute in H. injection H as <-. by exists (30 * 10 ^ 8).
  - intros t d Ht H. injection Ht as <-. vm_compute in H. injection H as <-. by exists (2 * 10 ^ 8).
Qed.

(** The runs, by evaluation of the model. *)
Lemma payout_run_ok : ∃ o, payout_run db0 = inr (("op", o), db_payout).
Proof.
  assert (returns payout_run fst db0 = Some "op") as R by runs.
  apply run_returns in R as ([id o]&Hid&H). simpl in Hid. subst id. exists o. exact H.
Qed.
Lemma debit_run_ok : ∃ o, debit_run db0 = inr (("op", o), db_debit).
Proof.
  assert (returns debit_run fst db0 = Some "op") as R by runs.
  apply run_returns in R as ([id o]&Hid&H). simpl in Hid. subst id. exists o. exact H.
Qed.
Lemma admin_run_ok : ∃ o, admin_run db0 = inr (("op", o), db_admin).
Proof.
  assert (returns admin_run fst db0 = Some "op") as R by runs.
  apply run_returns in R as ([id o]&Hid&H). simpl in Hid. subst id. exists o. exact H.
Qed.
Lemma approve_run_ok : ∃ o, approve now0 "op" "adm" db_payout = inr (("op", o), db_approved).
Proof.
  assert (returns (approve now0 "op" "adm") fst db_payout = Some "op") as R by runs.
  apply run_returns in R as ([id o]&Hid&H). simpl in Hid. subst id. exists o. exact H.
Qed.
Lemma debited_run_ok : ∃ o, approve now0 "op" "adm" db_debit = inr (("op", o), db_debited).
Proof.
  assert (returns (approve now0 "op" "adm") fst db_debit = Some "op") as R by runs.
  apply run_returns in R as ([id o]&Hid&H). simpl in Hid. subst id. exists o. exact H.
Qed.
Lemma execute_run_ok : ∃ r, execute now0 "op" "bank-ref" "adm" db_approved = inr (r, db_executed).
Proof. unfold db_executed. apply run_succeeds. runs. Qed.
Lemma confirm_run_ok : ∃ o, confirmQuote now0 None "op" actor0 db_quote = inr (inr ("op", o), db_confirmed).
Proof.
  assert (returns (confirmQuote now0 None "op" actor0) (λ r, match r with inr (i, _) => i | _ => "" end) db_quote
          = Some "op") as R by runs.
  apply run_returns in R as ([e|[id o]]&Hid&H); [discriminate Hid|]. subst id. exists o. exact H.
Qed.

Lemma payout_lifecycle_witness :
  available_of db_executed "usd" = 7850000000 ∧
  ∃ o, ∀ i, available_of db_executed i = available_of db0 i - reservation i o ∧
            frozen_of db_executed i = frozen_of db0 i ∧
            (system_account db0 i = false → position_of db_executed i = position_of db0 i - reservation i o).
Proof.
  split; [runs|]. destruct payout_run_ok as [o H1], approve_run_ok as [o2 H2], execute_run_ok as [r H3].
  exists o. unfold payout_run in H1.
  exact (proj2 (payout_lifecycle env0 now0 now0 now0 "op" "abcdefgh" payout_input "adm" actor0 "adm" "bank-ref" "adm"
    db0 "op" o db_payout ("op", o2) db_approved r db_executed payout_request_exact db0_rules_exact eq_refl H1 H2 H3)).
Defined.

Lemma debit_adjustment_strands_fee_witness :
  frozen_of db_debited "usd" = 200000000 ∧
  ∃ o, frozen_of db_debited "usd" = frozen_of db0 "usd" + o.(op_feeAmount).
Proof.
  split; [runs|]. destruct debit_run_ok as [o H1], debited_run_ok as [o2 H2].
  exists o. unfold debit_run in H1.
  exact (proj1 (proj2 (debit_adjustment_strands_fee env0 now0 now0 "op" "abcdefgh" debit_input "adm" "adm" db0 "op" o
    db_debit o2 db_debited "usd" debit_request_exact db0_rules_exact eq_refl eq_refl eq_refl eq_refl eq_refl H1 H2))).
Defined.

Lemma settlement_authorised_witness :
  ∃ o u, db_payout.(operations) !! "op" = Some o ∧ (o.(op_status) = SUBMITTED ∨ o.(op_status) = PROCESSING) ∧
    json_has "cryptoTransferId" o.(op_metadata) = false ∧ o.(op_type) ≠ VA_OPENING_FEE ∧
    db_payout.(users) !! "adm" = Some u ∧ u.(user_active) = true ∧ u.(user_role) = ADMIN ∧
    u.(user_organizationId) = cust_organizationId <$> db_payout.(customers) !! o.(op_customerId).
Proof.
  destruct approve_run_ok as [o2 H2].
  exact (settlement_authorised now0 "op" "adm" "" db_payout ("op", o2) db_approved (or_introl H2)).
Defined.

Lemma create_idempotent_witness :
  ∃ o, create env0 now0 "op" "abcdefgh" None payout_input "adm" db0 = inr (("op", o), db_admin) ∧
       create env0 (now0 + 5) "op2" "12345678" None payout_input "adm" db_admin = inr (("op", o), db_admin).
Proof.
  destruct admin_run_ok as [o H1]. exists o. split; [exact H1|]. unfold admin_run in H1.
  exact (create_idempotent env0 now0 "op" "abcdefgh" payout_input "adm" db0 "op" o db_admin (now0 + 5) "op2" "12345678" "key"
    payout_request_exact db0_rules_exact eq_refl eq_refl eq_refl H1).
Defined.

Lemma db_quote_rows : ∃ o, db_quote.(operations) !! "op" = Some o ∧ op_exact o ∧ o.(op_type) = OTC ∧
  o.(op_customerId) = "cus" ∧ o.(op_status) = DRAFT ∧ operation_check o = true ∧
  quoteExpiresAt o.(op_metadata) = Some (now0 + 15000).
Proof.
  destruct (db_quote.(operations) !! "op") as [o|] eqn:E.
  2: { assert (is_some (db_quote.(operations) !! "op") = true) as R by runs. rewrite E in R. discriminate R. }
  exists o.
  assert ((λ o, (bool_decide (op_exact o), op_type o, op_customerId o, op_status o, operation_check o,
             quoteExpiresAt o.(op_metadata))) <$> db_quote.(operations) !! "op"
    = Some (true, OTC, "cus", DRAFT, true, Some (now0 + 15000))) as R by runs.
  rewrite E in R. injection R as R1 R2 R3 R4 R5 R6. apply bool_decide_eq_true in R1. auto 10.
Qed.

Lemma quote_confirmed_once_witness :
  ∃ o, available_of db_confirmed "usd" = 10985050000 ∧
       confirmQuote (now0 + 60000) (Some (PrismaKnown "P2034" [])) "op" actor0 db_confirmed
         = inr (inr ("op", o), db_confirmed).
Proof.
  destruct confirm_run_ok as [o H]. destruct db_quote_rows as (o1&Ho1&Hx&_). exists o. split; [runs|].
  assert (∀ x, db_quote.(operations) !! "op" = Some x → op_exact x) as Hex.
  { intros x Hx'. rewrite Ho1 in Hx'. injection Hx' as <-. exact Hx. }
  exact (proj2 (proj2 (proj2 (proj2 (quote_confirmed_once now0 None "op" actor0 db_quote "op" o db_confirmed Hex H)))
    (now0 + 60000))).
Defined.

Lemma expired_quote_cancelled_witness :
  ∃ o, db_quote.(operations) !! "op" = Some o ∧
    confirmQuote (now0 + 15000) None "op" actor0 db_quote = inr (inl (Conflict "quote_expired"),
      set_operations (<["op" := set_op_status CANCELLED o]> db_quote.(operations)) db_quote).
Proof.
  destruct db_quote_rows as (o&Ho&_&Hty&Hc&Hst&Hck&Ht). exists o. split; [exact Ho|].
  exact (expired_quote_cancelled (now0 + 15000) "op" actor0 db_quote o (now0 + 15000) Ho Hty Hc Hst Hck Ht (Z.le_refl _)).
Defined.
