(* ===== verification/TronAddress.v ===== *)
(** TRON addresses ([server/src/crypto-wallets/tron-address.ts]): base58 decoding
    and the checksum test.  SHA-256 is node's [crypto] module, a parameter. *)
From S2P Require Import Prelude.
From Stdlib Require Import Ascii.

Definition alphabet : string := "123456789ABCDEFGHJKLMNPQRSTUVWXYZabcdefghijkmnopqrstuvwxyz".

(** [alphabetIndex.get(character)] *)
Fixpoint index_in (c : ascii) (l : list ascii) (i : Z) : option Z :=
  match l with
  | [] => None
  | c' :: l' => if Ascii.eqb c c' then Some i else index_in c l' (i + 1)
  end.
Definition alphabetIndex (c : ascii) : option Z := index_in c (String.list_ascii_of_string alphabet) 0.

(** The loop of [decodeBase58]. *)
Fixpoint base58_value (l : list ascii) (decoded : Z) : option Z :=
  match l with
  | [] => Some decoded
  | c :: l' =>
      match alphabetIndex c with
      | None => None
      | Some digit => base58_value l' (decoded * 58 + digit)
      end
  end.

(** Hexadecimal digits of a natural number, at least one: [decoded.toString(16)]. *)
Fixpoint hex_digits (fuel : nat) (n : Z) (acc : list Z) : list Z :=
  match fuel with
  | O => acc
  | S f => if n <? 16 then n :: acc else hex_digits f (n / 16) (n mod 16 :: acc)
  end.
Definition to_hex (n : Z) : list Z := hex_digits (S (Z.to_nat (Z.log2 n))) n [].

(** [Buffer.from(hex, 'hex')] of an even number of digits. *)
Fixpoint hex_bytes (l : list Z) : list Z :=
  match l with a :: b :: l' => (16 * a + b) :: hex_bytes l' | _ => [] end.

Definition pad_even (hex : list Z) : list Z := if Nat.odd (length hex) then 0 :: hex else hex.

(** [value.match(/^1*/)[0].length] *)
Fixpoint leading_ones (l : list ascii) : nat :=
  match l with c :: l' => if Ascii.eqb c "1"%char then S (leading_ones l') else O | [] => O end.

Definition decodeBase58 (value : string) : option (list Z) :=
  let l := String.list_ascii_of_string value in
  match base58_value l 0 with
  | None => None
  | Some decoded => Some (repeat 0 (leading_ones l) ++ hex_bytes (pad_even (to_hex decoded)))
  end.

(** [/^T[1-9A-HJ-NP-Za-km-z]{33}$/] *)
Definition tron_shape (value : string) : bool :=
  match String.list_ascii_of_string value with
  | c :: l => Ascii.eqb c "T"%char && forallb (λ c, is_some (alphabetIndex c)) l && Nat.eqb (length l) 33
  | [] => false
  end.

Section tron.
Context (sha256 : list Z → list Z).

Definition checksum_of (payload : list Z) : list Z := take 4 (sha256 (sha256 payload)).

Definition isValidTronAddress (value : string) : bool :=
  tron_shape value &&
  match decodeBase58 value with
  | Some decoded =>
      Nat.eqb (length decoded) 25 && opt_eqb (head decoded) (Some 65) &&
      same (drop 21 decoded) (checksum_of (take 21 decoded))
  | None => false
  end.

(** *** Base 58 is positional: a text of a given length is determined by its value *)
Lemma index_in_range c l i d : index_in c l i = Some d → i ≤ d < i + Z.of_nat (length l).
Proof.
  revert i. induction l as [|c' l IH]; intros i; simpl; [done|].
  destruct (Ascii.eqb c c'); [intros [= <-]; lia|]. intros H%IH. lia.
Qed.
Lemma index_in_inj c c' l i d : index_in c l i = Some d → index_in c' l i = Some d → c = c'.
Proof.
  revert i. induction l as [|x l IH]; intros i; simpl; [done|].
  destruct (Ascii.eqb_spec c x) as [->|], (Ascii.eqb_spec c' x) as [->|]; try done.
  - intros [= <-] H%index_in_range. lia.
  - intros H%index_in_range [= <-]. lia.
  - apply IH.
Qed.
Lemma alphabetIndex_range c d : alphabetIndex c = Some d → 0 ≤ d < 58.
Proof. intros H%index_in_range. exact H. Qed.

Lemma base58_value_linear l : ∀ a n,
  base58_value l a = Some n → ∃ m, base58_value l 0 = Some m ∧ n = a * 58 ^ Z.of_nat (length l) + m ∧
    0 ≤ m < 58 ^ Z.of_nat (length l).
Proof.
  induction l as [|c l IH]; intros a n; simpl.
  - intros [= <-]. exists 0. split_and!; [done|lia..].
  - destruct (alphabetIndex c) as [d|] eqn:E; [|done]. apply alphabetIndex_range in E.
    intros H. destruct (IH _ _ H) as (m&Hm&->&Hr). simpl.
    destruct (base58_value l d) as [m'|] eqn:Hd.
    + destruct (IH _ _ Hd) as (m2&Hm2&->&_). rewrite Hm in Hm2. injection Hm2 as <-.
      exists (d * 58 ^ Z.of_nat (length l) + m). split; [done|].
      replace (Z.of_nat (S (length l))) with (Z.of_nat (length l) + 1) by lia.
      rewrite Z.pow_add_r, Z.pow_1_r by lia. split; [ring|]. nia.
    + exfalso. clear -Hm Hd. revert Hm Hd. generalize 0 as a. revert m d.
      induction l as [|c l IH]; intros m d a; simpl; [done|].
      destruct (alphabetIndex c); [|done]. apply IH.
Qed.

Lemma base58_value_inj l : ∀ l' n,
  length l = length l' → base58_value l 0 = Some n → base58_value l' 0 = Some n → l = l'.
Proof.
  induction l as [|c l IH]; intros [|c' l'] n; simpl; try done.
  intros [= Hlen]. destruct (alphabetIndex c) as [d|] eqn:E, (alphabetIndex c') as [d'|] eqn:E'; try done.
  intros (m&Hm&->&Hr)%base58_value_linear (m'&Hm'&Heq&Hr')%base58_value_linear. rewrite <- Hlen in *.
  pose proof (alphabetIndex_range _ _ E). pose proof (alphabetIndex_range _ _ E').
  assert (d = d' ∧ m = m') as [-> ->].
  { apply (Z.div_mod_unique (58 ^ Z.of_nat (length l))); [by left..|lia]. }
  f_equal; [by eapply index_in_inj|]. by eapply IH.
Qed.

(** *** Bytes *)
Definition be_value (base : Z) (l : list Z) : Z := foldl (λ acc d, acc * base + d) 0 l.

Lemma be_value_app base l k : be_value base (l ++ k) = foldl (λ acc d, acc * base + d) (be_value base l) k.
Proof. unfold be_value. by rewrite foldl_app. Qed.

Lemma hex_digits_value fuel : ∀ n acc, 0 ≤ n < 16 ^ Z.of_nat fuel → fuel ≠ O →
  be_value 16 (hex_digits fuel n acc) = foldl (λ acc d, acc * 16 + d) n acc.
Proof.
  induction fuel as [|f IH]; intros n acc Hn Hf; [done|]. simpl.
  destruct (Z.ltb_spec n 16); [done|]. destruct f as [|f].
  { simpl in Hn. lia. }
  rewrite IH; [| |done].
  - simpl. f_equal. pose proof (Z.div_mod n 16 ltac:(lia)). lia.
  - replace (Z.of_nat (S (S f))) with (Z.of_nat (S f) + 1) in Hn by lia.
    rewrite Z.pow_add_r in Hn by lia.
    split; [apply Z.div_pos; lia|]. apply Z.div_lt_upper_bound; lia.
Qed.

Lemma to_hex_value n : 0 ≤ n → be_value 16 (to_hex n) = n.
Proof.
  intros Hn. unfold to_hex. rewrite hex_digits_value; [done| |done]. split; [done|].
  destruct (decide (n = 0)) as [->|]; [apply Z.pow_pos_nonneg; lia|].
  pose proof (Z.log2_spec n ltac:(lia)) as [_ Hlt]. pose proof (Z.log2_nonneg n).
  rewrite Nat2Z.inj_succ, Z2Nat.id by done. unfold Z.succ in *.
  eapply Z.lt_le_trans; [exact Hlt|]. change 16 with (2 ^ 4). rewrite <- Z.pow_mul_r by lia.
  apply Z.pow_le_mono_r; lia.
Qed.

Lemma hex_bytes_value l : ∀ a, Nat.Even (length l) →
  foldl (λ acc d, acc * 256 + d) a (hex_bytes l) = foldl (λ acc d, acc * 16 + d) a l.
Proof.
  induction l as [l IH] using (induction_ltof1 _ (@length Z)). unfold ltof in IH.
  intros a He. destruct l as [|x [|y l]]; simpl in *; [done| |].
  - destruct He as [k Hk]. lia.
  - rewrite IH; [f_equal; ring|simpl; lia|]. destruct He as [k Hk]. exists (k - 1)%nat. simpl in *. lia.
Qed.

(** The bytes of [decodeBase58] have the value of the text. *)
Lemma decodeBase58_value value bytes :
  decodeBase58 value = Some bytes →
  base58_value (String.list_ascii_of_string value) 0 = Some (be_value 256 bytes).
Proof.
  unfold decodeBase58. destruct (base58_value _ 0) as [n|] eqn:E; [|done]. intros [= <-]. f_equal.
  destruct (base58_value_linear _ _ _ E) as (m&Hm&Hn&Hr). rewrite E in Hm. injection Hm as <-.
  rewrite be_value_app. assert (∀ k, be_value 256 (repeat 0 k) = 0) as ->.
  { intros k. unfold be_value. induction k; simpl; [done|]. exact IHk. }
  rewrite hex_bytes_value.
  - unfold pad_even. rewrite <- (to_hex_value n) at 1 by lia. unfold be_value.
    destruct (Nat.odd _); done.
  - unfold pad_even. destruct (Nat.odd (length (to_hex n))) eqn:O.
    + simpl. apply Nat.Even_succ. by apply Nat.odd_spec.
    + unfold Nat.odd in O. apply negb_false_iff in O. by apply Nat.even_spec.
Qed.

(** A valid TRON address is determined by its 21-byte payload (the network
    byte and the account): two texts the check accepts that decode to the same
    payload are the same text, whatever the hash function. *)
Theorem tron_address_canonical a b da db :
  isValidTronAddress a = true → isValidTronAddress b = true →
  decodeBase58 a = Some da → decodeBase58 b = Some db → take 21 da = take 21 db → a = b.
Proof.
  unfold isValidTronAddress. intros [Ha Ha']%andb_true_iff [Hb Hb']%andb_true_iff Hda Hdb Hp.
  rewrite Hda in Ha'. rewrite Hdb in Hb'. guards.
  assert (da = db) as ->.
  { rewrite <- (take_drop 21 da), <- (take_drop 21 db). congruence. }
  assert (∀ s, tron_shape s = true → length (String.list_ascii_of_string s) = 34%nat) as Hlen.
  { intros s. unfold tron_shape. destruct (String.list_ascii_of_string s); [done|].
    intros H. guards. simpl. f_equal. by apply Nat.eqb_eq. }
  apply decodeBase58_value in Hda, Hdb.
  rewrite <- (String.string_of_list_ascii_of_string a), <- (String.string_of_list_ascii_of_string b).
  f_equal. eapply base58_value_inj; [|exact Hda|exact Hdb]. by rewrite !Hlen.
Qed.

(** the check refuses an address whose network byte was altered or whose
    checksum does not match: an accepted text is 34 characters starting with T,
    and decodes to exactly the byte 0x41, twenty account bytes and the first four
    bytes of the double hash of those twenty-one. *)
Theorem tron_address_form a :
  isValidTronAddress a = true →
  String.length a = 34%nat ∧ ∃ account, length account = 20%nat ∧
    decodeBase58 a = Some ((65 :: account) ++ checksum_of (65 :: account)).
Proof.
  unfold isValidTronAddress. intros [Ha H]%andb_true_iff. split.
  - unfold tron_shape in Ha. rewrite <- (String.string_of_list_ascii_of_string a).
    destruct (String.list_ascii_of_string a) as [|c l]; [done|]. guards.
    apply Nat.eqb_eq in H1. simpl. f_equal. clear -H1. revert H1. generalize 33%nat.
    induction l; intros [|n]; simpl; try done. intros [= H]. f_equal. by apply IHl.
  - destruct (decodeBase58 a) as [[|x d]|]; [by guards| |done]. guards.
    match goal with H : head _ = _ |- _ => injection H as -> end.
    match goal with H : Nat.eqb _ _ = true |- _ => apply Nat.eqb_eq in H as Hl end.
    simpl in *. exists (take 20 d). split; [rewrite length_take; lia|].
    f_equal. f_equal. rewrite <- (take_drop 20 d) at 1. f_equal. done.
Qed.
End tron.

(** *** Witness: an address valid under a hash that answers zeros *)
Definition zero_hash (_ : list Z) : list Z := repeat 0 32.
Definition sample_address : string := "TA4Y62o6YC2Zsck9rZVGTvqW1AQ7RfbGUP".

Lemma tron_address_canonical_witness :
  ∃ d, decodeBase58 sample_address = Some d ∧ length d = 25%nat ∧ sample_address = sample_address.
Proof.
  eexists. split; [vm_compute; reflexivity|]. split; [reflexivity|].
  refine (tron_address_canonical zero_hash sample_address sample_address _ _ _ _ _ _ eq_refl); vm_compute; reflexivity.
Defined.

Lemma tron_address_form_witness :
  ∃ account, length account = 20%nat ∧ decodeBase58 sample_address = Some ((65 :: account) ++ checksum_of zero_hash (65 :: account)).
Proof.
  assert (isValidTronAddress zero_hash sample_address = true) as H by (vm_compute; reflexivity).
  exact (proj2 (tron_address_form zero_hash sample_address H)).
Defined.
