(* ===== verification/EdgeAuth.v ===== *)
(** The edge of the core API
    ([server/src/security/edge-auth.ts]): every request but the health check is
    signed by the edge worker over its time, method, target, identity and body; the
    identity it names becomes the headers the handlers trust.  SHA-256 and HMAC are
    node's [crypto] module, parameters; so is [Number(text)] for a safe integer. *)
From S2P Require Import Prelude TronAddress.
From Stdlib Require Import Ascii.

(** ** Texts *)
(** [s.startsWith(p)], and what follows [p]. *)
Fixpoint strip_prefix (p s : string) : option string :=
  match p, s with
  | EmptyString, _ => Some s
  | String a p', String b s' => if Ascii.eqb a b then strip_prefix p' s' else None
  | String _ _, EmptyString => None
  end.
Definition starts_with (p s : string) : bool := is_some (strip_prefix p s).
(** The texts before and after the first [c]. *)
Fixpoint split_char (c : ascii) (s : string) : option (string * string) :=
  match s with
  | EmptyString => None
  | String a s' =>
      if Ascii.eqb a c then Some (EmptyString, s')
      else match split_char c s' with Some (x, y) => Some (String a x, y) | None => None end
  end.
(** [s.split('?', 1)[0]] *)
Definition before_query (s : string) : string :=
  match split_char "?" s with Some (x, _) => x | None => s end.

(** ** Signatures *)
Definition MAX_CLOCK_SKEW_SECONDS : Z := 60.
Definition newline : string := String (ascii_of_nat 10) EmptyString.

Definition hex_value (c : ascii) : Z :=
  let n := Z.of_nat (nat_of_ascii c) in
  if (48 <=? n) && (n <=? 57) then n - 48
  else if (97 <=? n) && (n <=? 102) then n - 87
  else if (65 <=? n) && (n <=? 70) then n - 55
  else 16.
(** [/^[a-f0-9]{64}$/i] *)
Definition hex64 (s : string) : bool :=
  forallb (λ c, hex_value c <? 16) (String.list_ascii_of_string s) && Nat.eqb (String.length s) 64.
(** [Buffer.from(s, 'hex')] of such a text. *)
Definition hex_decode (s : string) : list Z := hex_bytes (map hex_value (String.list_ascii_of_string s)).

Section signature.
Context (sha256_hex : list Z → string) (hmac_sha256 : string → string → list Z) (safe_integer : string → option Z).

(** The signed fields of [EdgeSignatureInput]. *)
Record SignedFields := {
  sf_timestamp : string; sf_method : string; sf_target : string; sf_identity : string; sf_body : list Z;
}.
(** [canonical], and [edgeSignature] as bytes. *)
Definition canonical (f : SignedFields) : string :=
  f.(sf_timestamp) +:+ newline +:+ f.(sf_method) +:+ newline +:+ f.(sf_target) +:+ newline +:+
  f.(sf_identity) +:+ newline +:+ sha256_hex f.(sf_body).
Definition edgeSignature (secret : string) (f : SignedFields) : list Z := hmac_sha256 secret (canonical f).

(** [verifyEdgeSignature]; [nowSeconds] is the clock in seconds. *)
Definition verifyEdgeSignature (nowSeconds : Z) (secret signature : string) (f : SignedFields) : bool :=
  match safe_integer f.(sf_timestamp) with
  | None => false
  | Some timestamp =>
      (Z.abs (nowSeconds - timestamp) <=? MAX_CLOCK_SKEW_SECONDS) && truthy f.(sf_identity) && hex64 signature &&
      bool_decide (edgeSignature secret f = hex_decode signature)
  end.

(** ** The middleware *)
(** A request: its raw body and, when it was parsed, the serialization of the
    parsed body. *)
Record EdgeRequest := {
  er_method : string;
  er_originalUrl : string;
  er_headers : gmap string string;
  er_rawBody : list Z;
  er_body : option (list Z);
}.
Record EdgeOptions := { eo_secret : string; eo_accountingSecret : option string; eo_adminUserId : string }.

(** What the middleware refuses to start with: [Buffer.byteLength(text)] counts bytes. *)
Definition options_error (o : EdgeOptions) : option exn :=
  if Nat.ltb (String.length o.(eo_secret)) 32 then Some (PlainError "CORE_EDGE_SHARED_SECRET must be at least 32 bytes")
  else if match o.(eo_accountingSecret) with
          | Some x => truthy x && Nat.ltb (String.length x) 32 | None => false end
  then Some (PlainError "CORE_ACCOUNTING_SHARED_SECRET must be at least 32 bytes")
  else if negb (truthy (trim o.(eo_adminUserId))) then Some (PlainError "CORE_ADMIN_USER_ID is required")
  else None.

(** [request.header(name)?.trim() || ''] *)
Definition header (name : string) (r : EdgeRequest) : string :=
  match r.(er_headers) !! name with Some x => trim x | None => "" end.
(** [requestBodiesForSignature] *)
Definition requestBodiesForSignature (r : EdgeRequest) : list (list Z) :=
  match r.(er_body) with
  | None => [r.(er_rawBody)]
  | Some canonicalBody =>
      if bool_decide (r.(er_rawBody) = canonicalBody) then [r.(er_rawBody)] else [r.(er_rawBody); canonicalBody]
  end.

Definition is_health_check (r : EdgeRequest) : bool :=
  String.eqb r.(er_method) "GET" && String.eqb (before_query r.(er_originalUrl)) "/api/v1/health".
Definition accounting_request (r : EdgeRequest) : bool :=
  starts_with "/api/v1/internal/cregis/" r.(er_originalUrl) ||
  starts_with "/api/v1/internal/customer-payouts" r.(er_originalUrl).

Definition fields_of (r : EdgeRequest) (body : list Z) : SignedFields :=
  {| sf_timestamp := header "x-core-edge-timestamp" r; sf_method := r.(er_method);
     sf_target := r.(er_originalUrl); sf_identity := header "x-neobank-user" r; sf_body := body |}.
Definition request_secret (o : EdgeOptions) (r : EdgeRequest) : string :=
  if accounting_request r then default "" o.(eo_accountingSecret) else o.(eo_secret).
Definition verified (nowSeconds : Z) (o : EdgeOptions) (r : EdgeRequest) : bool :=
  let secret := request_secret o r in
  (negb (accounting_request r) || Nat.leb 32 (String.length secret)) &&
  existsb (λ body, verifyEdgeSignature nowSeconds secret (header "x-core-edge-signature" r) (fields_of r body))
    (requestBodiesForSignature r).

(** The headers an identity sets, over those of the request; [None] is a 401. *)
Definition identity_headers (adminUserId identity : string) (h : gmap string string) : option (gmap string string) :=
  let h := <["x-user-id" := adminUserId]> h in
  match strip_prefix "customer:" identity with
  | Some rest =>
      let '(customerId, email) := default ("", "") (split_char ":" rest) in
      if negb (truthy customerId) || negb (truthy email) then None
      else Some (<["x-authenticated-email" := email]> (<["x-authenticated-customer-id" := customerId]>
                   (<["x-authenticated-role" := "customer"]> h)))
  | None =>
      let h := <["x-authenticated-role" := "admin"]> h in
      match strip_prefix "admin:" identity with
      | Some rest =>
          match split_char ":" rest with
          | None =>
              if negb (truthy rest) || Nat.ltb 320 (String.length rest) then None
              else Some (<["x-authenticated-email" := rest]> h)
          | Some (userId, email) =>
              if negb (truthy userId) || negb (truthy email) || Nat.ltb 128 (String.length userId) ||
                 Nat.ltb 320 (String.length email) then None
              else Some (<["x-authenticated-email" := email]> (<["x-user-id" := userId]> h))
          end
      | None => Some (<["x-authenticated-email" := identity]> h)
      end
  end.

(** [edgeAuthMiddleware]: the headers the next handler sees, or a 401. *)
Definition edgeAuthMiddleware (nowSeconds : Z) (o : EdgeOptions) (r : EdgeRequest) : option (gmap string string) :=
  if is_health_check r then Some r.(er_headers)
  else if negb (verified nowSeconds o r) ||
          (accounting_request r && negb (String.eqb (header "x-neobank-user" r) "service:neobank-go"))
  then None
  else identity_headers o.(eo_adminUserId) (header "x-neobank-user" r) r.(er_headers).
End signature.

(** ** Correctness *)
Lemma strip_prefix_app p s : strip_prefix p (p +:+ s) = Some s.
Proof. induction p as [|a p IH]; simpl; [done|]. by rewrite Ascii.eqb_refl. Qed.
Lemma strip_prefix_Some p s x : strip_prefix p s = Some x → s = p +:+ x.
Proof.
  revert s. induction p as [|a p IH]; intros s H; simpl in H; [by destruct s; injection H as <-|].
  destruct s as [|b s]; [done|]. destruct (Ascii.eqb_spec a b) as [->|]; [|done]. by rewrite (IH _ H).
Qed.

(** [c] does not occur in the text. *)
Definition free_of (c : ascii) (s : string) : Prop := split_char c s = None.
Lemma split_char_app c a b : free_of c a → split_char c (a +:+ String c b) = Some (a, b).
Proof.
  unfold free_of. induction a as [|x a IH]; simpl; [by rewrite Ascii.eqb_refl|].
  destruct (Ascii.eqb x c); [done|]. destruct (split_char c a) as [[? ?]|]; [done|]. intros _. by rewrite IH.
Qed.
Lemma split_char_Some c s a b : split_char c s = Some (a, b) → s = a +:+ String c b ∧ free_of c a.
Proof.
  unfold free_of. revert a b. induction s as [|x s IH]; simpl; intros a b H; [done|].
  destruct (Ascii.eqb_spec x c) as [->|Hne]; [by injection H as <- <-|].
  destruct (split_char c s) as [[u v]|]; [|done]. injection H as <- <-. destruct (IH u v) as [-> Hu]; [done|].
  split; [done|]. simpl. destruct (Ascii.eqb_spec x c); [done|]. by rewrite Hu.
Qed.

Section correctness.
Context (sha256_hex : list Z → string) (hmac_sha256 : string → string → list Z) (safe_integer : string → option Z).

Definition single_line (f : SignedFields) : Prop :=
  free_of "010" f.(sf_timestamp) ∧ free_of "010" f.(sf_method) ∧ free_of "010" f.(sf_target) ∧ free_of "010" f.(sf_identity).

Lemma line_injective a b x y : free_of "010" a → free_of "010" b →
  a +:+ newline +:+ x = b +:+ newline +:+ y → a = b ∧ x = y.
Proof.
  intros Ha Hb H. pose proof (split_char_app _ _ x Ha) as H1. pose proof (split_char_app _ _ y Hb) as H2.
  change (String "010" x) with (newline +:+ x) in H1. change (String "010" y) with (newline +:+ y) in H2.
  rewrite H in H1. rewrite H1 in H2. by injection H2.
Qed.

(** A signature covers a request as a whole: the text that is signed
    determines the time, the method, the target, the identity and the hash of the
    body, when none of the first four has a line break (header values and request
    lines never have one); so a valid signature cannot be moved to another request
    by shifting text between its fields. *)
Theorem canonical_injective f g :
  single_line f → single_line g → canonical sha256_hex f = canonical sha256_hex g →
  f.(sf_timestamp) = g.(sf_timestamp) ∧ f.(sf_method) = g.(sf_method) ∧ f.(sf_target) = g.(sf_target) ∧
  f.(sf_identity) = g.(sf_identity) ∧ sha256_hex f.(sf_body) = sha256_hex g.(sf_body).
Proof.
  intros (F1&F2&F3&F4) (G1&G2&G3&G4) H. unfold canonical in H.
  apply line_injective in H as [E1 H]; [|done|done]. apply line_injective in H as [E2 H]; [|done|done].
  apply line_injective in H as [E3 H]; [|done|done]. apply line_injective in H as [E4 E5]; [|done|done]. done.
Qed.

(** C21: A request that passes the edge is one the edge signed.  Except for the
    health check, the headers a handler sees come from a request whose signature
    verifies, within sixty seconds, under the secret of its kind over exactly its
    method, target, identity and body; the accounting routes are open to the
    accounting service alone and under its own secret of at least 32 bytes; a
    customer's identity gives the customer's role, id and e-mail it names and never
    another; and every other identity gives the administrator's role. *)
Theorem edge_identity_signed now o r h :
  edgeAuthMiddleware sha256_hex hmac_sha256 safe_integer now o r = Some h →
  is_health_check r = true ∧ h = r.(er_headers) ∨
  (∃ body t, body ∈ requestBodiesForSignature r ∧ safe_integer (header "x-core-edge-timestamp" r) = Some t ∧
     Z.abs (now - t) ≤ 60 ∧
     hmac_sha256 (request_secret o r) (canonical sha256_hex (fields_of r body)) =
       hex_decode (header "x-core-edge-signature" r)) ∧
  (accounting_request r = true →
     header "x-neobank-user" r = "service:neobank-go" ∧
     ∃ secret, o.(eo_accountingSecret) = Some secret ∧ request_secret o r = secret ∧ (32 ≤ String.length secret)%nat) ∧
  (accounting_request r = false → request_secret o r = o.(eo_secret)) ∧
  (∀ rest, header "x-neobank-user" r = "customer:" +:+ rest →
     ∃ id email, rest = id +:+ ":" +:+ email ∧ free_of ":" id ∧ id ≠ "" ∧ email ≠ "" ∧
       h !! "x-authenticated-role" = Some "customer" ∧ h !! "x-authenticated-customer-id" = Some id ∧
       h !! "x-authenticated-email" = Some email ∧ h !! "x-user-id" = Some o.(eo_adminUserId)) ∧
  (starts_with "customer:" (header "x-neobank-user" r) = false → h !! "x-authenticated-role" = Some "admin").
Proof.
  intros H. unfold edgeAuthMiddleware in H. destruct (is_health_check r); [left; split; [done|congruence]|right].
  destruct (negb _ || _) eqn:E; [done|]. apply orb_false_iff in E as [Hv Hacc]. apply negb_false_iff in Hv.
  unfold verified in Hv. apply andb_true_iff in Hv as [Hsec Hex]. apply existsb_exists in Hex as (body&Hin&Hver).
  split_and!.
  - unfold verifyEdgeSignature in Hver. simpl in Hver.
    destruct (safe_integer (header "x-core-edge-timestamp" r)) as [t|] eqn:Ht; [|done].
    rewrite !andb_true_iff, Z.leb_le in Hver. destruct Hver as [[[Hskew _] _] Hmac%bool_decide_eq_true].
    exists body, t. split_and!; [by apply list_elem_of_In|done|exact Hskew|exact Hmac].
  - intros Ha. rewrite Ha in Hacc, Hsec. rewrite andb_true_l in Hacc. rewrite orb_false_l in Hsec.
    apply negb_false_iff, String.eqb_eq in Hacc. split; [done|]. apply Nat.leb_le in Hsec. unfold request_secret in *. rewrite Ha in *.
    destruct (eo_accountingSecret o) as [x|]; unfold default, from_option, id in *; [by exists x|]. change (String.length "") with 0%nat in Hsec. lia.
  - intros Ha. unfold request_secret. by rewrite Ha.
  - intros rest Hid. unfold identity_headers in H. rewrite Hid, strip_prefix_app in H.
    destruct (split_char ":" rest) as [[id email]|] eqn:Es; simpl in H; [|done].
    destruct (negb (truthy id) || negb (truthy email)) eqn:Et; [done|]. apply orb_false_iff in Et as [E1 E2].
    apply negb_false_iff in E1, E2. injection H as <-. apply split_char_Some in Es as [-> Hfree].
    exists id, email. split_and!; try done; [by intros ->|by intros ->|..];
      repeat first [by rewrite lookup_insert_eq|rewrite lookup_insert_ne by done].
  - intros Hc. unfold starts_with, identity_headers in *.
    destruct (strip_prefix "customer:" _) as [|]; [done|]. destruct (strip_prefix "admin:" _) as [rest|].
    + repeat case_match; try done; injection H as <-;
        repeat first [by rewrite lookup_insert_eq|rewrite lookup_insert_ne by done].
    + injection H as <-. by rewrite lookup_insert_ne, lookup_insert_eq by done.
Qed.
End correctness.

(** ** Witnesses *)
Definition one_hash (_ : list Z) : string := "hash".
Definition one_mac (_ _ : string) : list Z := repeat 0 32.
Definition one_time (text : string) : option Z := if String.eqb text "100" then Some 100 else None.
Definition signed_get (body : list Z) : SignedFields :=
  {| sf_timestamp := "100"; sf_method := "GET"; sf_target := "/api/v1/accounts"; sf_identity := "admin:a@b"; sf_body := body |}.
Lemma canonical_injective_witness :
  canonical one_hash (signed_get [1]) = canonical one_hash (signed_get [2]) ∧
  (signed_get [1]).(sf_identity) = (signed_get [2]).(sf_identity).
Proof.
  split; [reflexivity|].
  destruct (canonical_injective one_hash (signed_get [1]) (signed_get [2])) as (_&_&_&H&_).
  - repeat split; reflexivity.
  - repeat split; reflexivity.
  - reflexivity.
  - exact H.
Defined.

Definition zeros64 : string := String.string_of_list_ascii (repeat "0"%char 64).
Definition customer_request : EdgeRequest :=
  {| er_method := "GET"; er_originalUrl := "/api/v1/accounts/summary?customerId=cus";
     er_headers := list_to_map [("x-neobank-user", "customer:cus:c@example.com"); ("x-core-edge-timestamp", "100");
                                ("x-core-edge-signature", zeros64); ("x-authenticated-customer-id", "other")];
     er_rawBody := []; er_body := None |}.
Definition edge_options : EdgeOptions :=
  {| eo_secret := "0123456789abcdef0123456789abcdef"; eo_accountingSecret := None; eo_adminUserId := "adm" |}.
Definition edge_run : option (gmap string string) :=
  edgeAuthMiddleware one_hash one_mac one_time 130 edge_options customer_request.
Lemma edge_identity_signed_witness :
  ∃ h, edge_run = Some h ∧
       h !! "x-authenticated-customer-id" = Some "cus" ∧ h !! "x-authenticated-role" = Some "customer".
Proof.
  assert (is_some edge_run = true) as Hrun by (vm_compute; reflexivity).
  apply is_some_true in Hrun as [h E]. exists h. split; [exact E|]. unfold edge_run in E.
  destruct (edge_identity_signed _ _ _ _ _ _ _ E) as [[Hc _]|(_&_&_&Hcus&_)]; [vm_compute in Hc; discriminate Hc|].
  destruct (Hcus "cus:c@example.com") as (id&email&Heq&Hfree&_&_&Hrole&Hid&_); [vm_compute; reflexivity|].
  assert (id = "cus") as ->; [|split; [exact Hid|exact Hrole]].
  assert (split_char ":" (id +:+ String ":" email) = Some (id, email)) as Hs by (by apply split_char_app).
  change (String ":" email) with (":" +:+ email) in Hs. rewrite <- Heq in Hs. vm_compute in Hs. congruence.
Defined.
