(* ===== verification/RoutePolicy.v ===== *)
(** What a customer may ask of the core API through the edge worker
    ([worker-web/customer-core-route-policy.ts]): the routes that are let through
    with the customer's own session, and the fields that are taken out of the
    answers.  A URL is its path and its query parameters, decoded and in order. *)
From S2P Require Import Prelude Schema EdgeAuth.
From Stdlib Require Import Ascii.

(** ** Routes *)
Record Url := { url_pathname : string; url_params : list (string * string) }.
(** [url.searchParams.get(key)]: the first value. *)
Definition param (key : string) (u : Url) : option string :=
  snd <$> List.find (λ kv, String.eqb kv.1 key) u.(url_params).
(** [hasOnlySearchParams] *)
Definition hasOnlySearchParams (u : Url) (allowed : list string) : bool :=
  forallb (λ kv, includes allowed kv.1) u.(url_params).
Definition customerReadableChannelTypes : list string :=
  ["VIRTUAL_ACCOUNT"; "FIAT_INBOUND"; "POBO_PAYOUT"; "PLATFORM_PAYOUT"].

(** A non-empty segment, then [suffix] and the end: [[^/]+suffix$]. *)
Definition segment_then (suffix s : string) : option string :=
  match split_char "/" s with
  | Some (segment, rest) =>
      if truthy segment && String.eqb (String "/" rest) suffix then Some segment else None
  | None => None
  end.
(** [/^\/api\/core\/operations\/[^/]+\/confirm$/] *)
Definition confirm_route (path : string) : bool :=
  match strip_prefix "/api/core/operations/" path with
  | Some rest => is_some (segment_then "/confirm" rest)
  | None => false
  end.
(** [/^\/api\/core\/customers\/([^/]+)\/virtual-account-requests\/[^/]+\/cancel$/]: the first segment. *)
Definition cancel_route (path : string) : option string :=
  match strip_prefix "/api/core/customers/" path with
  | Some rest =>
      match split_char "/" rest with
      | Some (customer, tail) =>
          match strip_prefix "virtual-account-requests/" tail with
          | Some request => if truthy customer && is_some (segment_then "/cancel" request) then Some customer else None
          | None => None
          end
      | None => None
      end
  | None => None
  end.

(** [customerCoreRouteAllowed] *)
Definition customerCoreRouteAllowed (u : Url) (method customerId organizationId : string) : bool :=
  let path := u.(url_pathname) in
  let at_path p := String.eqb path p in
  let get := String.eqb method "GET" in
  let post := String.eqb method "POST" in
  let own k v := opt_eqb (param k u) (Some v) in
  let own_path tail := String.eqb path ("/api/core/customers/" +:+ customerId +:+ tail) in
  if post && at_path "/api/core/operations/quote" then hasOnlySearchParams u []
  else if post && at_path "/api/core/operations" then hasOnlySearchParams u []
  else if post && confirm_route path then hasOnlySearchParams u []
  else if at_path "/api/core/funding-channels" && get then
    own "organizationId" organizationId &&
    match param "type" u with Some type => includes customerReadableChannelTypes type | None => false end &&
    own "active" "true" && hasOnlySearchParams u ["organizationId"; "type"; "active"]
  else if at_path "/api/core/withdrawal-fees" && get then
    own "organizationId" organizationId && own "active" "true" && hasOnlySearchParams u ["organizationId"; "active"]
  else if own_path "/virtual-account-requests" then get || post
  else match cancel_route path with
  | Some customer => String.eqb method "PATCH" && String.eqb customer customerId && hasOnlySearchParams u []
  | None =>
      if negb get then false
      else if own_path "/va-opening-fee-quote" then
        opt_truthy (param "channelId" u) && hasOnlySearchParams u ["channelId"]
      else if own_path "" then hasOnlySearchParams u []
      else if at_path "/api/core/accounts/summary" then own "customerId" customerId && hasOnlySearchParams u ["customerId"]
      else if at_path "/api/core/operations" then
        own "organizationId" organizationId && own "customerId" customerId &&
        match param "limit" u with Some limit => String.eqb limit "5" | None => true end &&
        hasOnlySearchParams u ["organizationId"; "customerId"; "limit"]
      else if at_path "/api/core/crypto-wallets/transfers" then
        own "customerId" customerId && hasOnlySearchParams u ["customerId"; "direction"; "status"]
      else if at_path "/api/core/rates" then
        match param "type" u with Some type => includes ["FX"; "OTC"] type | None => true end &&
        hasOnlySearchParams u ["type"]
      else false
  end.

(** ** Answers *)
Definition CUSTOMER_CORE_INTERNAL_FIELDS : list string :=
  ["isInternal"; "vaFeeExempt"; "vaFeePolicyVersion"; "vaFeePolicyEvents"; "openingFeeBasis"; "openingFeeWaiverBasis";
   "openingFeeWaivedBy"; "openingFeeWaiverReason"; "creatorId"; "reviewerId"; "checkerId"; "operatorId"; "makerId";
   "kycReviewerId"; "kycReviewNote"; "reviewNote"; "operatorNote"; "openingFeeUpdatedBy"; "idempotencyKey"; "maker";
   "checker"; "operator"].

(** [safeVaOpeningFeeMetadata] *)
Definition safe_fee_keys : list string := ["requestId"; "channelCode"; "bankName"; "version"; "reservedAt"].
Definition text_member (l : list (string * json)) (key : string) : option (string * json) :=
  match assoc key l with Some (JStr x) => Some (key, JStr x) | _ => None end.
Definition safeVaOpeningFeeMetadata (value : json) : option json :=
  match value with
  | JObj l =>
      match assoc "vaOpeningFee" l with
      | Some (JObj source) =>
          match omap (text_member source) safe_fee_keys with
          | [] => None
          | safe => Some (JObj [("vaOpeningFee", JObj safe)])
          end
      | _ => None
      end
  | _ => None
  end.

(** Another customer's account is shown by its kind and currency; a member that is
    [undefined] is not serialized. *)
Definition defined_members (l : list (string * option json)) : list (string * json) :=
  omap (λ kv, match kv.2 with Some v => Some (kv.1, v) | None => None end) l.
Definition members (item : json) : list (string * json) := match item with JObj l => l | _ => [] end.
Definition is_object (item : json) : bool := match item with JObj _ | JArr _ => true | _ => false end.
Definition foreign_account (customerId : string) (item : json) : bool :=
  is_object item &&
  match assoc "customerId" (members item) with Some (JStr x) => negb (String.eqb x customerId) | _ => true end.
Definition account_outline (item : json) : json :=
  JObj (defined_members [("kind", assoc "kind" (members item)); ("currency", assoc "currency" (members item))]).

(** [redactCustomerCorePayload]: what becomes of a member, and the payload. *)
Definition redact_member (customerId : string) (redact : json → json) (kv : string * json) : option (string * json) :=
  let '(key, item) := kv in
  if includes CUSTOMER_CORE_INTERNAL_FIELDS key then None
  else if String.eqb key "metadata" then (λ metadata, (key, metadata)) <$> safeVaOpeningFeeMetadata item
  else if String.eqb key "targetAccount" && foreign_account customerId item then Some (key, account_outline item)
  else Some (key, redact item).
Fixpoint redactCustomerCorePayload (customerId : string) (value : json) : json :=
  match value with
  | JArr l => JArr (map (redactCustomerCorePayload customerId) l)
  | JObj l => JObj (omap (redact_member customerId (redactCustomerCorePayload customerId)) l)
  | _ => value
  end.

(** ** Correctness of the routes *)
Lemma split_char_base c p s : free_of c p → split_char c (p +:+ s) =
  match split_char c s with Some (x, y) => Some (p +:+ x, y) | None => None end.
Proof.
  unfold free_of. induction p as [|a p IH]; [intros _; change ("" +:+ s) with s; destruct (split_char c s) as [[? ?]|]; done|]. simpl.
  destruct (Ascii.eqb a c); [done|]. destruct (split_char c p) as [[? ?]|]; [done|]. intros _. rewrite IH by done.
  by destruct (split_char c s) as [[? ?]|].
Qed.

Lemma append_empty (s : string) : s +:+ "" = s.
Proof. induction s as [|a s IH]; [done|]. change (String a (s +:+ "") = String a s). by rewrite IH. Qed.

(** The customer a path under [/api/core/customers/] names. *)
Definition path_customer (path : string) : option string :=
  match strip_prefix "/api/core/customers/" path with
  | Some rest => Some (match split_char "/" rest with Some (customer, _) => customer | None => rest end)
  | None => None
  end.
Lemma path_customer_base customerId tail :
  free_of "/" customerId → (tail = "" ∨ ∃ t, tail = String "/" t) →
  path_customer ("/api/core/customers/" +:+ customerId +:+ tail) = Some customerId.
Proof.
  intros Hfree Htail. unfold path_customer. rewrite strip_prefix_app. f_equal.
  rewrite (split_char_base "/" customerId tail Hfree). destruct Htail as [->|[t ->]]; simpl.
  - apply append_empty.
  - apply append_empty.
Qed.
Lemma cancel_route_customer path customer : cancel_route path = Some customer → path_customer path = Some customer.
Proof.
  unfold cancel_route, path_customer. destruct (strip_prefix _ path) as [rest|]; [|done].
  destruct (split_char "/" rest) as [[c tail]|]; [|done]. destruct (strip_prefix _ tail); [|done].
  destruct (_ && _); congruence.
Qed.

(** A parameter that is not among those allowed is absent. *)
Lemma only_absent u allowed key : hasOnlySearchParams u allowed = true → key ∉ allowed → param key u = None.
Proof.
  unfold hasOnlySearchParams, param. intros H Hk. destruct (List.find _ _) as [kv|] eqn:E; [|done].
  apply List.find_some in E as [Hin Hkey%String.eqb_eq]. rewrite forallb_forall in H. specialize (H kv Hin).
  rewrite includes_true in H. congruence.
Qed.
Lemma own_param u key v : opt_eqb (param key u) (Some v) = true → ∀ x, param key u = Some x → x = v.
Proof. rewrite opt_eqb_true. congruence. Qed.
Lemma absent_param u allowed key v :
  hasOnlySearchParams u allowed = true → key ∉ allowed → ∀ x, param key u = Some x → x = v.
Proof. intros H Hk x. by rewrite (only_absent _ _ _ H Hk). Qed.
Lemma confirm_route_customer path : confirm_route path = true → path_customer path = None.
Proof.
  unfold confirm_route. destruct (strip_prefix _ path) as [rest|] eqn:E; [|done].
  apply strip_prefix_Some in E as ->. done.
Qed.

(** What a route lets through, as the theorem below says it. *)
Definition route_safe (u : Url) (method customerId organizationId : string) : Prop :=
  (∀ c, path_customer u.(url_pathname) = Some c → c = customerId) ∧
  (path_customer u.(url_pathname) = None →
     (∀ c, param "customerId" u = Some c → c = customerId) ∧
     (∀ o, param "organizationId" u = Some o → o = organizationId)) ∧
  (method = "GET" ∨
   method = "POST" ∧ (u.(url_pathname) = "/api/core/operations/quote" ∨ u.(url_pathname) = "/api/core/operations" ∨
     confirm_route u.(url_pathname) = true ∨
     u.(url_pathname) = "/api/core/customers/" +:+ customerId +:+ "/virtual-account-requests") ∨
   method = "PATCH" ∧ cancel_route u.(url_pathname) = Some customerId).
Lemma common_route u method customerId organizationId :
  path_customer u.(url_pathname) = None →
  (∀ c, param "customerId" u = Some c → c = customerId) → (∀ o, param "organizationId" u = Some o → o = organizationId) →
  (method = "GET" ∨ method = "POST" ∧ (u.(url_pathname) = "/api/core/operations/quote" ∨
     u.(url_pathname) = "/api/core/operations" ∨ confirm_route u.(url_pathname) = true)) →
  route_safe u method customerId organizationId.
Proof. intros Hp Hc Ho Hm. split_and!; [congruence|done|]. naive_solver. Qed.
Lemma customer_route u method customerId organizationId tail :
  free_of "/" customerId → (tail = "" ∨ ∃ t, tail = String "/" t) →
  u.(url_pathname) = "/api/core/customers/" +:+ customerId +:+ tail →
  (method = "GET" ∨ method = "POST" ∧ tail = "/virtual-account-requests") →
  route_safe u method customerId organizationId.
Proof.
  intros Hf Ht Hp Hm. pose proof (path_customer_base customerId tail Hf Ht) as E. rewrite <- Hp in E.
  split_and!; [congruence|congruence|]. destruct Hm as [->|[-> ->]]; [by left|]. right; left. auto.
Qed.

Ltac absent_in := eapply absent_param; [eassumption|apply (bool_decide_unpack _); vm_compute; reflexivity].
Ltac fixed_path := match goal with E : url_pathname _ = _ |- _ => rewrite E; reflexivity end.
Ltac at_route H := match type of H with (if ?b then _ else _) = true => destruct b eqn:?; route_guards end
with route_guards := repeat match goal with
  | H : _ && _ = true |- _ => apply andb_true_iff in H as [? ?]
  | H : String.eqb _ _ = true |- _ => apply String.eqb_eq in H
  end.

Lemma route_allowed_safe u method customerId organizationId :
  free_of "/" customerId → customerCoreRouteAllowed u method customerId organizationId = true →
  route_safe u method customerId organizationId.
Proof.
  intros Hfree H. unfold customerCoreRouteAllowed in H.
  at_route H. { apply common_route; [fixed_path|absent_in|absent_in|auto]. }
  at_route H. { apply common_route; [fixed_path|absent_in|absent_in|auto]. }
  at_route H. { apply common_route; [by apply confirm_route_customer|absent_in|absent_in|auto]. }
  at_route H. { route_guards. apply common_route; [fixed_path|absent_in|by apply own_param|auto]. }
  at_route H. { route_guards. apply common_route; [fixed_path|absent_in|by apply own_param|auto]. }
  at_route H.
  { apply (customer_route _ _ _ _ "/virtual-account-requests"); [done|by right; eexists|done|].
    apply orb_true_iff in H as [Hm|Hm]; apply String.eqb_eq in Hm; auto. }
  destruct (cancel_route (url_pathname u)) as [customer|] eqn:Hcancel.
  { route_guards. subst customer. pose proof (cancel_route_customer _ _ Hcancel) as E.
    split_and!; [congruence|congruence|auto]. }
  destruct (String.eqb_spec method "GET") as [->|]; [|done]. simpl in H.
  at_route H. { apply (customer_route _ _ _ _ "/va-opening-fee-quote"); [done|by right; eexists|done|auto]. }
  at_route H. { apply (customer_route _ _ _ _ ""); [done|auto|done|auto]. }
  at_route H. { route_guards. apply common_route; [fixed_path|by apply own_param|absent_in|auto]. }
  at_route H. { route_guards. apply common_route; [fixed_path|by apply own_param|by apply own_param|auto]. }
  at_route H. { route_guards. apply common_route; [fixed_path|by apply own_param|absent_in|auto]. }
  at_route H; [|done]. route_guards. apply common_route; [fixed_path|absent_in|absent_in|auto].
Qed.

(** The edge lets a customer reach only the customer's own resources.  Whatever
    is allowed under a customer's path is under the session's customer id; every
    [customerId] or [organizationId] that a route reads, that is the first of each,
    is the session's; nothing is allowed but reading, except asking for a quote,
    an operation, a confirmation or a virtual account request, and cancelling such
    a request of one's own. *)
Theorem customer_route_own u method customerId organizationId :
  free_of "/" customerId → customerCoreRouteAllowed u method customerId organizationId = true →
  route_safe u method customerId organizationId.
Proof. apply route_allowed_safe. Qed.

(** ** Correctness of the answers *)
Section json_induction.
Context (P : json → Prop) (Hnull : P JNull) (Hbool : ∀ b, P (JBool b)) (Hnum : ∀ z, P (JNum z)) (Hstr : ∀ x, P (JStr x)).
Context (Harr : ∀ l, Forall P l → P (JArr l)) (Hobj : ∀ l, Forall (λ kv, P kv.2) l → P (JObj l)).
Fixpoint json_induction (j : json) : P j :=
  match j with
  | JNull => Hnull | JBool b => Hbool b | JNum z => Hnum z | JStr x => Hstr x
  | JArr l => Harr l ((fix go l : Forall P l :=
      match l with [] => @List.Forall_nil _ _ | j :: l => @List.Forall_cons _ _ _ _ (json_induction j) (go l) end) l)
  | JObj l => Hobj l ((fix go l : Forall (λ kv : string * json, P kv.2) l :=
      match l with [] => @List.Forall_nil _ _ | kv :: l => @List.Forall_cons _ _ _ _ (json_induction kv.2) (go l) end) l)
  end.
End json_induction.

(** No object of the value, at any depth, has a member that is for internal use. *)
Fixpoint no_internal (j : json) : bool :=
  match j with
  | JArr l => forallb no_internal l
  | JObj l => forallb (λ kv, negb (includes CUSTOMER_CORE_INTERNAL_FIELDS kv.1) && no_internal kv.2) l
  | _ => true
  end.
(** The kind and the currency of an account are texts, as the core API writes them. *)
Definition text_or_absent (o : option json) : bool := match o with Some (JStr _) | None => true | _ => false end.
Fixpoint accounts_plain (j : json) : bool :=
  match j with
  | JArr l => forallb accounts_plain l
  | JObj l => forallb (λ kv,
      (negb (String.eqb kv.1 "targetAccount") ||
       (text_or_absent (assoc "kind" (members kv.2)) && text_or_absent (assoc "currency" (members kv.2)))) &&
      accounts_plain kv.2) l
  | _ => true
  end.

Lemma safe_metadata_clean item m : safeVaOpeningFeeMetadata item = Some m → no_internal m = true.
Proof.
  unfold safeVaOpeningFeeMetadata. destruct item as [| | | | |l]; try done. destruct (assoc _ l) as [[| | | | |src]|]; try done.
  assert (forallb (λ kv, negb (includes CUSTOMER_CORE_INTERNAL_FIELDS kv.1) && no_internal kv.2)
            (omap (text_member src) safe_fee_keys) = true) as H.
  { apply forallb_forall. intros [k v] Hin%list_elem_of_In. apply list_elem_of_omap in Hin as (k'&Hk&Ht).
    unfold text_member in Ht. destruct (assoc k' src) as [[| | |x| |]|]; try done. injection Ht as <- <-. simpl.
    apply andb_true_iff. split; [|done]. revert k' Hk. apply Forall_forall, (bool_decide_unpack _). vm_compute. reflexivity. }
  destruct (omap _ _) as [|kv safe]; [done|]. intros [= <-].
  change (no_internal (JObj [("vaOpeningFee", JObj (kv :: safe))])) with
    (true && (true && forallb (λ kv, negb (includes CUSTOMER_CORE_INTERNAL_FIELDS kv.1) && no_internal kv.2) (kv :: safe)) && true).
  by rewrite H.
Qed.

Section redaction.
Context (customerId : string).
Implicit Types (l : list (string * json)) (r : json → json).

(** A member kept has the key it had, and its key is not internal. *)
Lemma redact_member_key r key item kv :
  redact_member customerId r (key, item) = Some kv → kv.1 = key ∧ key ∉ CUSTOMER_CORE_INTERNAL_FIELDS.
Proof.
  unfold redact_member. destruct (includes _ key) eqn:E; [done|].
  assert (key ∉ CUSTOMER_CORE_INTERNAL_FIELDS) as Hn by (intros Hin%includes_true; congruence).
  destruct (String.eqb key "metadata"); [destruct (safeVaOpeningFeeMetadata item) as [m|]; [|done]; by intros [= <-]|].
  destruct (_ && _); by intros [= <-].
Qed.
Lemma assoc_customer r l x :
  assoc "customerId" l = Some (JStr x) → assoc "customerId" (omap (redact_member customerId r) l) = Some (r (JStr x)).
Proof.
  induction l as [|[key item] l IH]; [done|]. intros H.
  assert (omap (redact_member customerId r) ((key, item) :: l) =
    match redact_member customerId r (key, item) with
    | Some kv => kv :: omap (redact_member customerId r) l | None => omap (redact_member customerId r) l end) as -> by done.
  change (assoc "customerId" ((key, item) :: l)) with (if String.eqb "customerId" key then Some item else assoc "customerId" l) in H.
  destruct (String.eqb_spec "customerId" key) as [<-|Hne]; [by injection H as ->|].
  destruct (redact_member customerId r (key, item)) as [[key' item']|] eqn:E; [|by apply IH].
  apply redact_member_key in E as [Hk _]. simpl in Hk. subst key'.
  change (assoc "customerId" ((key, item') :: omap (redact_member customerId r) l)) with
    (if String.eqb "customerId" key then Some item' else assoc "customerId" (omap (redact_member customerId r) l)).
  destruct (String.eqb_spec "customerId" key); [done|]. by apply IH.
Qed.

Lemma outline_again item : account_outline (account_outline item) = account_outline item.
Proof. unfold account_outline. by destruct (assoc "kind" (members item)), (assoc "currency" (members item)). Qed.
Lemma outline_foreign item : foreign_account customerId (account_outline item) = true.
Proof. unfold account_outline. by destruct (assoc "kind" (members item)), (assoc "currency" (members item)). Qed.
Lemma own_account_kept item :
  foreign_account customerId item = false → foreign_account customerId (redactCustomerCorePayload customerId item) = false.
Proof.
  unfold foreign_account. destruct item as [| | | |l|l]; try done. simpl. intros H.
  destruct (assoc "customerId" l) as [[| | |x| |]|] eqn:E; try done.
  pose proof (assoc_customer (redactCustomerCorePayload customerId) l x E) as Hx.
  change (assoc "customerId" _) with (assoc "customerId" (omap (redact_member customerId (redactCustomerCorePayload customerId)) l)) at 1.
  rewrite Hx. exact H.
Qed.

Lemma omap_cons_eq {A B} (f : A → option B) x (xs : list A) :
  omap f (x :: xs) = match f x with Some y => y :: omap f xs | None => omap f xs end.
Proof. done. Qed.
Lemma text_member_cases l key : text_member l key = None ∨ ∃ x, text_member l key = Some (key, JStr x).
Proof. unfold text_member. destruct (assoc key l) as [[| | |x| |]|]; eauto. Qed.
Lemma safe_metadata_again item m : safeVaOpeningFeeMetadata item = Some m → safeVaOpeningFeeMetadata m = Some m.
Proof.
  unfold safeVaOpeningFeeMetadata at 1. destruct item as [| | | | |l]; try done. destruct (assoc _ l) as [[| | | | |src]|]; try done.
  unfold safe_fee_keys. rewrite !omap_cons_eq.
  destruct (text_member_cases src "requestId") as [->|[x1 ->]], (text_member_cases src "channelCode") as [->|[x2 ->]],
    (text_member_cases src "bankName") as [->|[x3 ->]], (text_member_cases src "version") as [->|[x4 ->]],
    (text_member_cases src "reservedAt") as [->|[x5 ->]]; intros H; [discriminate H|injection H as <-; reflexivity..].
Qed.

(** The members of an object after a second pass. *)
Lemma redact_member_again key item kv :
  redactCustomerCorePayload customerId (redactCustomerCorePayload customerId item) = redactCustomerCorePayload customerId item →
  redact_member customerId (redactCustomerCorePayload customerId) (key, item) = Some kv →
  redact_member customerId (redactCustomerCorePayload customerId) kv = Some kv.
Proof.
  intros Hitem H. unfold redact_member in H. destruct (includes CUSTOMER_CORE_INTERNAL_FIELDS key) eqn:Ei; [done|].
  destruct (String.eqb key "metadata") eqn:Em.
  - destruct (safeVaOpeningFeeMetadata item) as [m|] eqn:Es; [|done]. injection H as <-.
    unfold redact_member. rewrite Ei, Em. by rewrite (safe_metadata_again _ _ Es).
  - destruct (String.eqb key "targetAccount" && foreign_account customerId item) eqn:Ef; injection H as <-;
      unfold redact_member; rewrite Ei, Em.
    + apply andb_true_iff in Ef as [Ek _]. by rewrite Ek, outline_foreign, outline_again.
    + rewrite Hitem. apply andb_false_iff in Ef as [Ef|Ef]; [by rewrite Ef|].
      by rewrite (own_account_kept _ Ef), andb_false_r.
Qed.

Lemma omap_again {A} (f : A → option A) (xs : list A) :
  (∀ x y, x ∈ xs → f x = Some y → f y = Some y) → omap f (omap f xs) = omap f xs.
Proof.
  induction xs as [|x xs IH]; intros H; [done|]. rewrite omap_cons_eq. destruct (f x) as [y|] eqn:E.
  - rewrite omap_cons_eq, (H x y) by (done || by left). f_equal. apply IH. intros z w Hz. apply H. by right.
  - apply IH. intros z w Hz. apply H. by right.
Qed.

Lemma redact_clean value : accounts_plain value = true → no_internal (redactCustomerCorePayload customerId value) = true.
Proof.
  induction value as [|b|z|x|l IH|l IH] using json_induction; try done; intros Hp.
  - change (forallb no_internal (map (redactCustomerCorePayload customerId) l) = true).
    change (forallb accounts_plain l = true) in Hp. rewrite forallb_forall in Hp. apply forallb_forall.
    intros j (i&<-&Hi)%List.in_map_iff. rewrite Forall_forall in IH. apply IH; [by apply list_elem_of_In|by apply Hp].
  - change (forallb (λ kv, negb (includes CUSTOMER_CORE_INTERNAL_FIELDS kv.1) && no_internal kv.2)
      (omap (redact_member customerId (redactCustomerCorePayload customerId)) l) = true).
    apply forallb_forall. intros [k v] Hin%list_elem_of_In. apply list_elem_of_omap in Hin as ([key item]&Hin&Hk).
    destruct (redact_member_key _ _ _ _ Hk) as [Hkey Hn]. simpl in Hkey. subst k. apply andb_true_iff. split.
    { apply negb_true_iff. apply not_true_iff_false. by rewrite includes_true. }
    rewrite Forall_forall in IH. specialize (IH _ Hin). simpl in IH.
    assert (accounts_plain item = true ∧ (key = "targetAccount" →
      text_or_absent (assoc "kind" (members item)) = true ∧ text_or_absent (assoc "currency" (members item)) = true)) as [Hpi Hacc].
    { change (forallb (λ kv, (negb (String.eqb kv.1 "targetAccount") ||
        (text_or_absent (assoc "kind" (members kv.2)) && text_or_absent (assoc "currency" (members kv.2)))) &&
        accounts_plain kv.2) l = true) in Hp. rewrite forallb_forall in Hp.
      specialize (Hp (key, item) (proj1 (list_elem_of_In _ _) Hin)). simpl in Hp. apply andb_true_iff in Hp as [Hp1 Hp2].
      split; [done|]. intros ->. simpl in Hp1. by apply andb_true_iff in Hp1. }
    unfold redact_member in Hk. destruct (includes _ key); [done|]. destruct (String.eqb key "metadata").
    + destruct (safeVaOpeningFeeMetadata item) as [m|] eqn:Es; [|done]. injection Hk as <-. by eapply safe_metadata_clean.
    + destruct (String.eqb key "targetAccount" && _) eqn:Ef; injection Hk as <-; [|by apply IH].
      apply andb_true_iff in Ef as [Ek%String.eqb_eq _]. destruct (Hacc Ek) as [H1 H2]. unfold account_outline.
      destruct (assoc "kind" (members item)) as [[| | |x| |]|], (assoc "currency" (members item)) as [[| | |y| |]|]; done.
Qed.
Lemma redact_again value : redactCustomerCorePayload customerId (redactCustomerCorePayload customerId value) =
  redactCustomerCorePayload customerId value.
Proof.
  induction value as [|b|z|x|l IH|l IH] using json_induction; try done.
  - change (JArr (map (redactCustomerCorePayload customerId) (map (redactCustomerCorePayload customerId) l)) =
            JArr (map (redactCustomerCorePayload customerId) l)).
    f_equal. rewrite List.map_map. apply List.map_ext_in. intros j Hj. rewrite Forall_forall in IH.
    by apply IH, list_elem_of_In.
  - change (JObj (omap (redact_member customerId (redactCustomerCorePayload customerId))
              (omap (redact_member customerId (redactCustomerCorePayload customerId)) l)) =
            JObj (omap (redact_member customerId (redactCustomerCorePayload customerId)) l)).
    f_equal. apply omap_again. intros [key item] kv Hin. rewrite Forall_forall in IH.
    apply redact_member_again. by apply (IH (key, item)).
Qed.

(** What a customer may see of a payload of the core.  A member for internal use is
    left out; of metadata only the five texts of a reserved opening fee are left, or
    nothing when there are none; an account that is not the customer's shows its kind
    and its currency; every other member, and every element of a list, is there with
    what the customer may see of it. *)
Definition fee_text (metadata : json) (key x : string) : Prop :=
  key ∈ ["requestId"; "channelCode"; "bankName"; "version"; "reservedAt"] ∧
  ∃ l source, metadata = JObj l ∧ assoc "vaOpeningFee" l = Some (JObj source) ∧ assoc key source = Some (JStr x).
Inductive customer_view : json → json → Prop :=
| view_scalar j : is_object j = false → customer_view j j
| view_array (l l' : list json) : Forall2 customer_view l l' → customer_view (JArr l) (JArr l')
| view_object l l' : members_view l l' → customer_view (JObj l) (JObj l')
with members_view : list (string * json) → list (string * json) → Prop :=
| view_nil : members_view [] []
| view_internal key item l l' : key ∈ CUSTOMER_CORE_INTERNAL_FIELDS → members_view l l' → members_view ((key, item) :: l) l'
| view_no_metadata item l l' : (∀ key x, ¬ fee_text item key x) → members_view l l' → members_view (("metadata", item) :: l) l'
| view_metadata item fee l l' : fee ≠ [] → (∀ key v, (key, v) ∈ fee ↔ ∃ x, v = JStr x ∧ fee_text item key x) → members_view l l' →
    members_view (("metadata", item) :: l) (("metadata", JObj [("vaOpeningFee", JObj fee)]) :: l')
| view_foreign item outline l l' : is_object item = true → assoc "customerId" (members item) ≠ Some (JStr customerId) →
    (∀ key v, (key, v) ∈ outline ↔ (key = "kind" ∨ key = "currency") ∧ assoc key (members item) = Some v) → members_view l l' →
    members_view (("targetAccount", item) :: l) (("targetAccount", JObj outline) :: l')
| view_kept key item shown l l' : key ∉ CUSTOMER_CORE_INTERNAL_FIELDS → key ≠ "metadata" →
    (key = "targetAccount" → is_object item = true → assoc "customerId" (members item) = Some (JStr customerId)) →
    customer_view item shown → members_view l l' → members_view ((key, item) :: l) ((key, shown) :: l').

Lemma text_member_spec source key kv : text_member source key = Some kv ↔ ∃ x, kv = (key, JStr x) ∧ assoc key source = Some (JStr x).
Proof. unfold text_member. destruct (assoc key source) as [[| | |y| |]|]; naive_solver. Qed.
Lemma fee_members source kv : kv ∈ omap (text_member source) safe_fee_keys ↔
  kv.1 ∈ safe_fee_keys ∧ ∃ x, kv.2 = JStr x ∧ assoc kv.1 source = Some (JStr x).
Proof.
  rewrite list_elem_of_omap. split.
  - intros (key&Hk&(x&->&Hx)%text_member_spec). eauto.
  - destruct kv as [key v]. intros (Hk&x&Hv&Hx). simpl in *. subst v. exists key. split; [done|]. apply text_member_spec. eauto.
Qed.
Lemma safe_metadata_view item :
  match safeVaOpeningFeeMetadata item with
  | None => ∀ key x, ¬ fee_text item key x
  | Some m => ∃ fee, m = JObj [("vaOpeningFee", JObj fee)] ∧ fee ≠ [] ∧
      ∀ key v, (key, v) ∈ fee ↔ ∃ x, v = JStr x ∧ fee_text item key x
  end.
Proof.
  unfold safeVaOpeningFeeMetadata, fee_text. destruct item as [| | | | |l]; try naive_solver.
  destruct (assoc "vaOpeningFee" l) as [[| | | | |source]|] eqn:E; try naive_solver.
  pose proof (fee_members source) as Hm. destruct (omap (text_member source) safe_fee_keys) as [|kv fee].
  - intros key x (Hk&l'&source'&[= <-]&Hs&Hx). rewrite E in Hs. injection Hs as <-.
    apply (not_elem_of_nil (key, JStr x)), Hm. simpl. eauto.
  - exists (kv :: fee). split; [done|]. split; [done|]. intros key v. rewrite Hm. simpl. split.
    + intros (Hk&x&->&Hx). exists x. eauto 10.
    + intros (x&->&Hk&l'&source'&[= <-]&Hs&Hx). rewrite E in Hs. injection Hs as <-. eauto.
Qed.
Lemma outline_members item key v : (key, v) ∈ members (account_outline item) ↔
  (key = "kind" ∨ key = "currency") ∧ assoc key (members item) = Some v.
Proof.
  unfold account_outline. simpl. destruct (assoc "kind" (members item)) as [k|] eqn:Ek, (assoc "currency" (members item)) as [c|] eqn:Ec;
    simpl; rewrite ?elem_of_cons, elem_of_nil; naive_solver.
Qed.
Lemma outline_object item : account_outline item = JObj (members (account_outline item)).
Proof. done. Qed.
Lemma foreign_view item : foreign_account customerId item = true →
  is_object item = true ∧ assoc "customerId" (members item) ≠ Some (JStr customerId).
Proof.
  unfold foreign_account. intros [Ho H]%andb_true_iff. split; [done|]. intros E. rewrite E, String.eqb_refl in H. done.
Qed.
Lemma own_view item : foreign_account customerId item = false → is_object item = true →
  assoc "customerId" (members item) = Some (JStr customerId).
Proof.
  unfold foreign_account. intros H Ho. rewrite Ho in H. simpl in H. destruct (assoc _ _) as [[| | |x| |]|]; try done.
  apply negb_false_iff, String.eqb_eq in H. by subst x.
Qed.
Lemma redact_members_view l : Forall (λ kv, customer_view kv.2 (redactCustomerCorePayload customerId kv.2)) l →
  members_view l (omap (redact_member customerId (redactCustomerCorePayload customerId)) l).
Proof.
  induction 1 as [|[key item] l Hitem _ IH]; [constructor|]. rewrite omap_cons_eq. unfold redact_member at 1.
  destruct (includes _ key) eqn:Ei; [apply includes_true in Ei; by constructor|].
  assert (key ∉ CUSTOMER_CORE_INTERNAL_FIELDS) as Hn by (intros Hin%includes_true; congruence).
  destruct (String.eqb_spec key "metadata") as [->|Hmeta].
  - pose proof (safe_metadata_view item) as Hm. destruct (safeVaOpeningFeeMetadata item) as [m|]; simpl; [|by apply view_no_metadata].
    destruct Hm as (fee&->&Hne&Hfee). by apply view_metadata.
  - destruct (String.eqb key "targetAccount" && foreign_account customerId item) eqn:Ef.
    + apply andb_true_iff in Ef as [->%String.eqb_eq [Ho Hc]%foreign_view]. rewrite outline_object.
      apply view_foreign; try done. intros k v. apply outline_members.
    + apply view_kept; try done. intros ->. simpl in Ef. by apply own_view.
Qed.
Lemma redact_view value : customer_view value (redactCustomerCorePayload customerId value).
Proof.
  induction value as [|b|z|x|l IH|l IH] using json_induction; try by constructor.
  - constructor. induction IH; constructor; done.
  - constructor. by apply redact_members_view.
Qed.
End redaction.

(** ** Witnesses *)
Definition summary_url : Url :=
  {| url_pathname := "/api/core/accounts/summary"; url_params := [("customerId", "cus")] |}.
Lemma customer_route_own_witness :
  customerCoreRouteAllowed summary_url "GET" "cus" "org" = true ∧ param "customerId" summary_url = Some "cus" ∧
  customerCoreRouteAllowed summary_url "GET" "other" "org" = false.
Proof.
  assert (customerCoreRouteAllowed summary_url "GET" "cus" "org" = true) as H by reflexivity.
  destruct (customer_route_own _ _ _ _ (eq_refl : free_of "/" "cus") H) as (_&Hown&_).
  split; [exact H|]. split; [|reflexivity].
  destruct (Hown ltac:(reflexivity)) as [Hc _]. destruct (param "customerId" summary_url) as [c|] eqn:E; [|discriminate E].
  by rewrite (Hc c ltac:(reflexivity)).
Defined.

Definition operation_payload : json :=
  JObj [("id", JStr "op"); ("makerId", JStr "adm");
        ("targetAccount", JObj [("customerId", JStr "other"); ("kind", JStr "SYSTEM_WALLET"); ("accountNumber", JStr "1")]);
        ("metadata", JObj [("note", JStr "x"); ("vaOpeningFee", JObj [("requestId", JStr "r"); ("waivedBy", JStr "adm")])])].
Example operation_redacted : redactCustomerCorePayload "cus" operation_payload =
  JObj [("id", JStr "op"); ("targetAccount", JObj [("kind", JStr "SYSTEM_WALLET")]);
        ("metadata", JObj [("vaOpeningFee", JObj [("requestId", JStr "r")])])].
Proof. vm_compute. reflexivity. Qed.
