(* ===== verification/EdgeWorker.v ===== *)
(** The edge worker's side of the network ([worker-web/index.ts]): the rate limits,
    the signed proxy to the authentication API, the session of a request and the
    live market quotes.  The core API's proxy is in [CoreGateway].

    The world outside is arguments: what the authentication API answers
    ([go], by attempt), what a rate limiter says, SHA-256, HMAC and the text of
    JSON values.  A handler ends with an answer or throws. *)
From S2P Require Import Prelude Schema JsNumber TronAddress EdgeAuth RoutePolicy.
From Stdlib Require Import Ascii.

(** ** Texts *)
(** [new TextEncoder().encode(text)]: a text is its bytes. *)
Definition utf8 (s : string) : list Z := map (λ c, Z.of_nat (nat_of_ascii c)) (String.list_ascii_of_string s).
(** Bytes as hexadecimal digits. *)
Definition hex_digit (d : Z) : ascii := ascii_of_nat (Z.to_nat (if d <? 10 then 48 + d else 87 + d)).
Definition hex_of (bytes : list Z) : string :=
  String.string_of_list_ascii (flat_map (λ b, [hex_digit (b / 16); hex_digit (b mod 16)]) bytes).
(** [text.includes(part)], [text.endsWith(part)] *)
Fixpoint contains (part s : string) : bool :=
  starts_with part s || match s with String _ s' => contains part s' | EmptyString => false end.
Definition ends_with (part s : string) : bool :=
  starts_with (String.rev part) (String.rev s).
Definition zero_char : ascii := "000".
(** Parts joined by U+0000. *)
Fixpoint joined (parts : list string) : string :=
  match parts with
  | [] => "" | [x] => x
  | x :: rest => x +:+ String zero_char (joined rest)
  end.

(** The value of a cookie: the regular expression takes the name at the start of
    the header or after a semicolon and spaces, and what follows up to the next
    semicolon, if that is not empty. *)
Definition cookie_at (name s : string) : option string :=
  match strip_prefix (name +:+ "=") s with
  | Some rest => let value := match split_char ";" rest with Some (v, _) => v | None => rest end in
                 if truthy value then Some value else None
  | None => None
  end.
Definition skip_spaces (s : string) : string :=
  String.string_of_list_ascii (drop_spaces (String.list_ascii_of_string s)).
Fixpoint cookie_after (name s : string) : option string :=
  match s with
  | EmptyString => None
  | String c s' =>
      if Ascii.eqb c ";"
      then match cookie_at name (skip_spaces s') with Some v => Some v | None => cookie_after name s' end
      else cookie_after name s'
  end.
Definition cookie_value (name s : string) : option string :=
  match cookie_at name s with Some v => Some v | None => cookie_after name s end.

(** ** Requests and answers *)
Record WebRequest := {
  rq_method : string; rq_url : Url; rq_search : string; rq_origin : string;
  rq_headers : gmap string string; rq_body : list Z;
}.
Definition header_of (name : string) (r : WebRequest) : option string := r.(rq_headers) !! name.
Definition target_of (r : WebRequest) : string := r.(rq_url).(url_pathname) +:+ r.(rq_search).

Record UpstreamRequest := {
  up_method : string; up_target : string; up_headers : gmap string string; up_body : list Z;
}.
Record UpstreamResponse := {
  us_status : Z; us_contentType : option string; us_cookies : list string; us_body : list Z;
}.
(** A [Response]: made here from JSON data, or passed on. *)
Inductive Answer :=
| Json (data : json) (status : Z)
| Passed (status : Z) (contentType : string) (cookies : list string) (body : list Z).
Definition failure (code : string) (status : Z) : Answer :=
  Json (JObj [("error", JObj [("code", JStr code)])]) status.
Definition answer_status (a : Answer) : Z := match a with Json _ status => status | Passed status _ _ _ => status end.
Definition ok_status (status : Z) : bool := (200 <=? status) && (status <=? 299).
Definition redirects (status : Z) : bool := (300 <=? status) && (status <? 400).

(** [new URL(base)] of a configured origin: its protocol and path. *)
Record BaseUrl := { bu_protocol : string; bu_pathname : string }.
Definition https_origin (base : option BaseUrl) : bool :=
  match base with Some b => String.eqb b.(bu_protocol) "https:" && String.eqb b.(bu_pathname) "/" | None => false end.
Record WorkerEnv := {
  we_GO_EDGE_SHARED_SECRET : string; we_CORE_EDGE_SHARED_SECRET : string; we_CORE_ORGANIZATION_ID : string;
  we_CUSTOMER_AUTH_MAINTENANCE : string; we_GO_API_BASE_URL : option BaseUrl; we_CORE_API_BASE_URL : option BaseUrl;
}.

Definition MAX_BODY_BYTES : Z := 128 * 1024.
Definition readOnlyMethod (method : string) : bool := includes ["GET"; "HEAD"; "OPTIONS"] method.
Definition bodyless (method : string) : bool := String.eqb method "GET" || String.eqb method "HEAD".
(** The size checks of both proxies. *)
Definition payload_too_large (r : WebRequest) : bool :=
  n_lt (n_ofZ MAX_BODY_BYTES) (n_of_string (default "0" (or_string (header_of "content-length" r) (Some "0")))) ||
  (MAX_BODY_BYTES <? Z.of_nat (length r.(rq_body))).

Definition set_if (name : string) (value : option string) (h : gmap string string) : gmap string string :=
  match value with Some v => if truthy v then <[name := v]> h else h | None => h end.

(** [summarizeDevice] *)
Definition browser_of (ua : string) : string :=
  if contains "edg/" ua then "Microsoft Edge"
  else if contains "firefox/" ua then "Firefox"
  else if contains "chrome/" ua || contains "crios/" ua then "Chrome"
  else if contains "safari/" ua then "Safari" else "浏览器".
Definition platform_of (ua : string) : string :=
  if contains "iphone" ua || contains "ipad" ua then "iOS"
  else if contains "android" ua then "Android"
  else if contains "mac os x" ua || contains "macintosh" ua then "macOS"
  else if contains "windows" ua then "Windows"
  else if contains "linux" ua then "Linux" else "设备".
Definition summarizeDevice (userAgent : string) : string :=
  let ua := toLowerCase userAgent in browser_of ua +:+ " · " +:+ platform_of ua.

Section worker.
Context (sha256_hex : list Z → string) (hmac_sha256 : string → string → list Z).
Context (json_parse : list Z → option json) (json_text : json → list Z).
(** A rate limiter: whether a key is still under its limit. *)
Context (admin_limit customer_limit : string → bool).
(** The authentication API, by attempt; [None]: the request throws. *)
Context (go : nat → UpstreamRequest → option UpstreamResponse).
(** [new URLSearchParams(params).toString()] *)
Context (params_text : list (string * string) → string).

Definition answer_json (a : Answer) : option json :=
  match a with Json data _ => Some data | Passed _ _ _ body => json_parse body end.

(** [hmacHex], [rateLimitKey] *)
Definition hmacHex (secret value : string) : string := hex_of (hmac_sha256 secret value).
Definition rateLimitKey (value : string) : string := sha256_hex (utf8 value).

(** [enforceAuthRateLimit]: the keys a request is limited by, in order.  A body
    that is no JSON object with the member has no identity. *)
Definition body_member (body : list Z) (key : string) : option string := json_str (json_get key (json_parse body)).
Definition rate_source (r : WebRequest) : string := trim_or (header_of "cf-connecting-ip" r) "unknown-source".
Definition session_token (r : WebRequest) : option string :=
  let cookies := default "" (header_of "cookie" r) in
  or_string (cookie_value "__Host-neobank_customer" cookies) (cookie_value "neobank_customer" cookies).
Definition recovery_id (body : list Z) : string :=
  let token := match body_member body "reset_token" with
               | Some t => t
               | None => match body_member body "verification_token" with
                         | Some t => t
                         | None => default "" (body_member body "email_change_token")
                         end
               end in
  match split_char "." token with Some (x, _) => x | None => token end.
Definition rate_keys (r : WebRequest) : list string :=
  let path := r.(rq_url).(url_pathname) in
  let customerPayout := String.eqb path "/api/v1/customer/fiat-payouts" in
  if negb (String.eqb r.(rq_method) "POST") || (negb (starts_with "/api/auth/" path) && negb customerPayout) then []
  else
    [joined ["source"; rate_source r; path]] ++
    (if customerPayout then match session_token r with
                            | Some token => if truthy token then [joined ["session"; token; path]] else []
                            | None => [] end else []) ++
    (if ends_with "/login" path || includes ["/api/auth/customer/register"; "/api/auth/customer/password-reset/request"] path
     then let email := toLowerCase (trim (default "" (body_member r.(rq_body) "email"))) in
          if truthy email then [joined ["identity"; email]] else []
     else []) ++
    (if includes ["/api/auth/customer/password-reset/inspect"; "/api/auth/customer/password-reset/complete";
                  "/api/auth/customer/email-verification/complete"; "/api/auth/customer/email-change/verify"] path
     then let id := recovery_id r.(rq_body) in if truthy id then [joined ["recovery"; id]] else []
     else []).
Definition limiter (path : string) : string → bool :=
  if starts_with "/api/auth/admin/" path || String.eqb path "/api/auth/setup-token" then admin_limit else customer_limit.
Definition enforceAuthRateLimit (r : WebRequest) : option Answer :=
  if forallb (λ key, limiter r.(rq_url).(url_pathname) (rateLimitKey key)) (rate_keys r) then None
  else Some (failure "auth_rate_limited" 429).

(** [proxyAPI]: the request to the authentication API, and its answer. *)
Definition proxy_headers (env : WorkerEnv) (timestamp edgeUser : string) (r : WebRequest) : gmap string string :=
  let path := r.(rq_url).(url_pathname) in
  let userAgent := trim_or (header_of "user-agent" r) "unknown-user-agent" in
  let signature := hmacHex env.(we_GO_EDGE_SHARED_SECRET)
    (canonical sha256_hex {| sf_timestamp := timestamp; sf_method := r.(rq_method); sf_target := target_of r;
                             sf_identity := edgeUser; sf_body := r.(rq_body) |}) in
  <["x-neobank-edge-signature" := signature]> (<["x-neobank-edge-timestamp" := timestamp]>
  (<["x-neobank-user" := edgeUser]> (<["accept" := "application/json"]>
  (set_if "authorization" (if String.eqb path "/api/auth/setup-token" then header_of "authorization" r else None)
  (set_if "x-payload-digest-alg" (if String.eqb path "/api/webhooks/sumsub" then header_of "x-payload-digest-alg" r else None)
  (set_if "x-payload-digest" (if String.eqb path "/api/webhooks/sumsub" then header_of "x-payload-digest" r else None)
  (<["x-neobank-device-label" := summarizeDevice userAgent]> (<["x-neobank-user-agent-sha256" := rateLimitKey userAgent]>
  (<["x-neobank-source-ip-sha256" := rateLimitKey (rate_source r)]>
  (set_if "idempotency-key" (header_of "idempotency-key" r) (set_if "x-csrf-token" (header_of "x-csrf-token" r)
  (set_if "origin" (header_of "origin" r) (set_if "cookie" (header_of "cookie" r)
  (set_if "content-type" (header_of "content-type" r) ∅)))))))))))))).
Definition content_type_of (response : UpstreamResponse) : string :=
  default "application/json" (or_string response.(us_contentType) (Some "application/json")).
Definition proxyAPI (env : WorkerEnv) (nowSeconds : Z) (r : WebRequest) (edgeUser : string) : exn + Answer :=
  if payload_too_large r then inr (failure "payload_too_large" 413)
  else match enforceAuthRateLimit r with
  | Some limited => inr limited
  | None =>
      if negb (https_origin env.(we_GO_API_BASE_URL)) then inl (PlainError "GO_API_BASE_URL must be an HTTPS origin")
      else match go 0 {| up_method := r.(rq_method); up_target := target_of r;
                         up_headers := proxy_headers env (pretty nowSeconds) edgeUser r;
                         up_body := if bodyless r.(rq_method) then [] else r.(rq_body) |} with
      | None => inl (PlainError "fetch failed")
      | Some response =>
          if redirects response.(us_status) then inl (PlainError "Go API redirect rejected")
          else inr (Passed response.(us_status) (content_type_of response) response.(us_cookies) response.(us_body))
      end
  end.
Definition application_edge : string := "application-session-edge".

(** [loadApplicationSession]; a session is the JSON the authentication API answers,
    [JNull] when there is none. *)
Definition session_request (env : WorkerEnv) (nowSeconds : Z) (role : string) (r : WebRequest) : UpstreamRequest :=
  let path := "/api/auth/" +:+ role +:+ "/me" in
  let signature := hmacHex env.(we_GO_EDGE_SHARED_SECRET)
    (canonical sha256_hex {| sf_timestamp := pretty nowSeconds; sf_method := "GET"; sf_target := path;
                             sf_identity := application_edge; sf_body := [] |}) in
  {| up_method := "GET"; up_target := path; up_body := [];
     up_headers := set_if "cookie" (header_of "cookie" r)
       (<["x-neobank-edge-signature" := signature]> (<["x-neobank-edge-timestamp" := pretty nowSeconds]>
         (<["x-neobank-user" := application_edge]> (<["accept" := "application/json"]> ∅)))) |}.
Fixpoint session_attempts (tries attempt : nat) (request : UpstreamRequest) : exn + json :=
  match tries with
  | O => inr JNull
  | S tries =>
      match go attempt request with
      | None => inl (PlainError "fetch failed")
      | Some response =>
          if ok_status response.(us_status) then
            if contains "application/json" (toLowerCase (default "" response.(us_contentType)))
            then match json_parse response.(us_body) with Some j => inr j | None => inl (PlainError "SyntaxError") end
            else inr JNull
          else if (response.(us_status) =? 401) || includes [502; 503; 504] response.(us_status)
          then session_attempts tries (S attempt) request
          else inr JNull
      end
  end.
Definition loadApplicationSession (env : WorkerEnv) (nowSeconds : Z) (role : string) (r : WebRequest) : exn + json :=
  if negb (https_origin env.(we_GO_API_BASE_URL)) then inl (PlainError "GO_API_BASE_URL must be an HTTPS origin")
  else session_attempts 3 0 (session_request env nowSeconds role r).

(** A request of the worker's own, with the cookie of the one it serves. *)
Definition own_request (path : string) (params : list (string * string)) (r : WebRequest) : WebRequest :=
  {| rq_method := "GET"; rq_url := {| url_pathname := path; url_params := params |};
     rq_search := match params with [] => "" | _ => "?" +:+ params_text params end; rq_origin := r.(rq_origin);
     rq_headers := set_if "cookie" (header_of "cookie" r) (<["accept" := "application/json"]> ∅); rq_body := [] |}.

(** [fetchCustomerWalletSummary] *)
Definition fetchCustomerWalletSummary (env : WorkerEnv) (nowSeconds : Z) (r : WebRequest) : exn + list json :=
  match proxyAPI env nowSeconds (own_request "/api/v1/customer/wallets" [] r) application_edge with
  | inl e => inl e
  | inr answer =>
      if negb (ok_status (answer_status answer)) then inl (PlainError "customer_wallets_unavailable")
      else match json_get "data" (answer_json answer) with
           | Some (JArr rows) => inr rows
           | _ => inl (PlainError "invalid_customer_wallet_response")
           end
  end.

(** [LiveMarketQuote], [fetchLiveMarketQuote] *)
Record LiveMarketQuote := {
  lq_provider : string; lq_baseCurrency : string; lq_quoteCurrency : string; lq_rate : string;
  lq_updatedAt : string; lq_fetchedAt : string; lq_priceType : string; lq_referenceOnly : bool;
}.
Definition quote_of (baseCurrency quoteCurrency : string) (j : option json) : option LiveMarketQuote :=
  let text key := json_str (json_get key j) in
  if opt_eqb (text "provider") (Some "fastforex") && opt_eqb (text "baseCurrency") (Some baseCurrency) &&
     opt_eqb (text "quoteCurrency") (Some quoteCurrency) && opt_eqb (text "priceType") (Some "midpoint_spot") &&
     match json_get "referenceOnly" j with Some (JBool true) => true | _ => false end
  then match text "rate", text "updatedAt", text "fetchedAt" with
       | Some rate, Some updatedAt, Some fetchedAt =>
           Some {| lq_provider := "fastforex"; lq_baseCurrency := baseCurrency; lq_quoteCurrency := quoteCurrency;
                   lq_rate := rate; lq_updatedAt := updatedAt; lq_fetchedAt := fetchedAt;
                   lq_priceType := "midpoint_spot"; lq_referenceOnly := true |}
       | _, _, _ => None
       end
  else None.
Definition fetchLiveMarketQuote (env : WorkerEnv) (nowSeconds : Z) (r : WebRequest) (role baseCurrency quoteCurrency : string) :
    exn + LiveMarketQuote :=
  let route := if String.eqb role "customer" then "/api/v1/customer/market-rate" else "/api/v1/admin/market-rate" in
  match proxyAPI env nowSeconds (own_request route [("base", baseCurrency); ("quote", quoteCurrency)] r) application_edge with
  | inl e => inl e
  | inr answer =>
      if negb (ok_status (answer_status answer)) then inl (PlainError "market_data_unavailable")
      else match quote_of baseCurrency quoteCurrency (answer_json answer) with
           | Some quote => inr quote
           | None => inl (PlainError "invalid_market_rate_response")
           end
  end.
End worker.
