(* ===== verification/CoreGateway.v ===== *)
(** The edge worker's proxy to the core API ([worker-web/index.ts]): who may ask
    what of it, the market quotes put into conversions, the identity it signs, the
    valuation of a customer's assets and of the rates, the customer's home page and
    the worker's routes. *)
From S2P Require Import Prelude Schema JsNumber EdgeAuth RoutePolicy EdgeWorker.
From Stdlib Require Import Ascii.

(** A step of a handler goes on, answers early, or throws. *)
Inductive Outcome (A : Type) := Thrown (e : exn) | Replied (a : Answer) | Going (x : A).
Arguments Thrown {A} e.
Arguments Replied {A} a.
Arguments Going {A} x.
Definition and_then {A B} (m : Outcome A) (f : A → Outcome B) : Outcome B :=
  match m with Thrown e => Thrown e | Replied a => Replied a | Going x => f x end.
Definition refuse_if (b : bool) (code : string) (status : Z) : Outcome unit :=
  if b then Replied (failure code status) else Going tt.
Definition from_fetch {A} (r : exn + A) : Outcome A := match r with inl e => Thrown e | inr x => Going x end.
(** [try { ... } catch { return json({ error: { code } }, status) }] *)
Definition or_answer {A} (r : exn + A) (code : string) (status : Z) : Outcome A :=
  match r with inl _ => Replied (failure code status) | inr x => Going x end.
Definition settle {A} (m : Outcome A) (f : A → exn + Answer) : exn + Answer :=
  match m with Thrown e => inl e | Replied a => inr a | Going x => f x end.
Notation "'let?' x ':=' m 'in' k" := (and_then m (λ x, k)) (at level 200, x pattern, k at level 200).
Notation "'do?' m ';' k" := (and_then m (λ _, k)) (at level 200, k at level 200).

(** ** Authorisation *)
(** [ADMIN_PERMISSIONS] *)
Definition perm_users : string := "admin_users.manage".
Definition perm_customerRead : string := "customers.read".
Definition perm_customerReview : string := "customers.review".
Definition perm_fundsRead : string := "funds.read".
Definition perm_fundsManage : string := "funds.manage".
Definition perm_settings : string := "settings.manage".
Definition perm_reports : string := "reports.read".

(** [prefix] itself or below it. *)
Definition under (prefix path : string) : bool := String.eqb path prefix || starts_with (prefix +:+ "/") path.
(** [prefix/[^/]+/action] with or without a last slash, in any case. *)
Definition action_route (prefix action path : string) : bool :=
  match strip_prefix (prefix +:+ "/") (toLowerCase path) with
  | Some rest => is_some (segment_then ("/" +:+ action) rest) || is_some (segment_then ("/" +:+ action +:+ "/") rest)
  | None => false
  end.
(** [requiredAdminCorePermission] *)
Definition requiredAdminCorePermission (path method : string) : option string :=
  let readOnly := readOnlyMethod method in
  if negb readOnly && action_route "/api/core/customers" "va-fee-policy" path then Some perm_settings
  else if negb readOnly && action_route "/api/core/virtual-account-requests" "waive-opening-fee" path then Some perm_fundsManage
  else if under "/api/core/customers" path || under "/api/core/virtual-account-requests" path
  then Some (if readOnly then perm_customerRead else perm_customerReview)
  else if under "/api/core/funding-channels" path || under "/api/core/rates" path || under "/api/core/withdrawal-fees" path
  then Some (if readOnly then perm_fundsRead else perm_settings)
  else if under "/api/core/accounts" path || under "/api/core/operations" path || under "/api/core/crypto-wallets" path ||
          under "/api/core/beneficiaries" path
  then Some (if readOnly then perm_fundsRead else perm_fundsManage)
  else if under "/api/core/ledger" path then Some perm_reports
  else None.

(** [isDisabledAdminCustomerLifecycleMutation] *)
Definition isDisabledAdminCustomerLifecycleMutation (path method : string) : bool :=
  (String.eqb method "POST" && String.eqb path "/api/core/customers") ||
  (String.eqb method "PATCH" &&
   match strip_prefix "/api/core/customers/" path with
   | Some rest => existsb (λ action, is_some (segment_then action rest)) ["/kyc"; "/approve"; "/reject"]
   | None => false
   end).

(** What the proxy reads of a session. *)
Record SessionUser := {
  su_role : string; su_id : string; su_coreUserId : string; su_email : string;
  su_permissions : list string; su_csrf : string;
}.
Definition text_of (j : option json) : string := default "" (json_str j).
Definition session_user (session : json) : SessionUser :=
  let user := json_get "user" (Some session) in
  {| su_role := text_of (json_get "role" user); su_id := text_of (json_get "id" user);
     su_coreUserId := text_of (json_get "core_user_id" user); su_email := text_of (json_get "email" user);
     su_permissions := match json_get "permissions" user with
                       | Some (JArr l) => omap (λ j, json_str (Some j)) l
                       | _ => []
                       end;
     su_csrf := text_of (json_get "csrf_token" (Some session)) |}.

Section gateway.
Context {JD : JsDates} {NT : JsNumberText}.
Context (sha256_hex : list Z → string) (hmac_sha256 : string → string → list Z).
Context (json_parse : list Z → option json) (json_text : json → list Z).
Context (admin_limit customer_limit : string → bool).
Context (go : nat → UpstreamRequest → option UpstreamResponse).
(** The core API; [None]: the request throws. *)
Context (core : UpstreamRequest → option UpstreamResponse).
Context (params_text : list (string * string) → string).
Context (env : WorkerEnv) (now : Z).

(** [Math.floor(Date.now() / 1000)] *)
Definition nowSeconds : Z := now / 1000.
Notation load := (loadApplicationSession sha256_hex hmac_sha256 json_parse go env nowSeconds).
Notation live_quote := (fetchLiveMarketQuote sha256_hex hmac_sha256 json_parse admin_limit customer_limit go params_text env nowSeconds).
Notation live_wallets := (fetchCustomerWalletSummary sha256_hex hmac_sha256 json_parse admin_limit customer_limit go params_text env nowSeconds).
Notation json_of := (answer_json json_parse).

(** The body that is signed and sent: JSON is parsed and written again. *)
Definition content_type (r : WebRequest) : string := default "" (header_of "content-type" r).
Definition canonical_body (r : WebRequest) : list Z :=
  if bool_decide (r.(rq_body) = []) then r.(rq_body)
  else if contains "application/json" (toLowerCase (content_type r))
  then match json_parse r.(rq_body) with Some j => json_text j | None => r.(rq_body) end
  else r.(rq_body).

(** The session of a request, and whom it names. *)
Definition request_session (given : option json) (r : WebRequest) : Outcome json :=
  match given with
  | Some session => Going session
  | None =>
      let role := toLowerCase (trim (default "" (header_of "x-neobank-session-role" r))) in
      do? refuse_if (negb (includes ["admin"; "customer"] role)) "session_role_required" 400;
      let? session := from_fetch (load role r) in
      do? refuse_if (negb (opt_eqb (json_str (json_get "role" (json_get "user" (Some session)))) (Some role)))
            "authentication_required" 401;
      Going session
  end.
(** The checks of a request, by role. *)
Definition authorize_core (u : SessionUser) (r : WebRequest) : Outcome unit :=
  let path := r.(rq_url).(url_pathname) in
  do? refuse_if (negb (truthy u.(su_email)) || negb (includes ["admin"; "customer"] u.(su_role))) "authentication_required" 401;
  do? refuse_if (String.eqb u.(su_role) "customer" &&
                 (negb (truthy u.(su_id)) ||
                  negb (customerCoreRouteAllowed r.(rq_url) r.(rq_method) u.(su_id) env.(we_CORE_ORGANIZATION_ID))))
        "customer_core_route_forbidden" 403;
  do? (if String.eqb u.(su_role) "admin" then
         do? refuse_if (negb (truthy u.(su_coreUserId))) "admin_identity_incomplete" 401;
         do? refuse_if (isDisabledAdminCustomerLifecycleMutation path r.(rq_method)) "customer_lifecycle_requires_go_kyc" 403;
         refuse_if (negb (match requiredAdminCorePermission path r.(rq_method) with
                          | None => includes u.(su_permissions) perm_users
                          | Some p => includes u.(su_permissions) p
                          end)) "admin_permission_required" 403
       else Going tt);
  refuse_if (negb (readOnlyMethod r.(rq_method)) &&
             (negb (truthy u.(su_csrf)) || negb (opt_truthy (header_of "x-csrf-token" r)) ||
              negb (String.eqb (sha256_hex (utf8 u.(su_csrf))) (sha256_hex (utf8 (default "" (header_of "x-csrf-token" r)))))))
    "invalid_csrf_token" 403.

(** [{ ...members, ...added }] *)
Fixpoint set_member (key : string) (value : json) (l : list (string * json)) : list (string * json) :=
  match l with
  | [] => [(key, value)]
  | kv :: l' => if String.eqb kv.1 key then (key, value) :: l' else kv :: set_member key value l'
  end.
Definition spread (added : list (string * json)) (l : list (string * json)) : list (string * json) :=
  foldl (λ l kv, set_member kv.1 kv.2 l) l added.

(** A rate policy is published with the provider's quote, not the client's. *)
Definition is_from_market (u : SessionUser) (r : WebRequest) : bool :=
  String.eqb u.(su_role) "admin" && String.eqb r.(rq_method) "POST" &&
  String.eqb r.(rq_url).(url_pathname) "/api/core/rates/from-market".
Definition from_market_body (u : SessionUser) (r : WebRequest) (body : list Z) : Outcome (list Z) :=
  match json_parse body with
  | None => Replied (failure "invalid_json" 400)
  | Some JNull => Thrown (PlainError "TypeError")
  | Some requested =>
      match json_get "type" (Some requested), json_get "baseCurrency" (Some requested),
            json_get "quoteCurrency" (Some requested), json_get "feeBps" (Some requested) with
      | Some (JStr type), Some (JStr base), Some (JStr quote), Some (JNum feeBps) =>
          if includes ["FX"; "OTC"] type && (0 <=? feeBps) && (feeBps <=? 9999) then
            let? q := or_answer (live_quote r u.(su_role) base quote) "market_data_unavailable" 503 in
            Going (json_text (JObj [("type", JStr type); ("baseCurrency", JStr base); ("quoteCurrency", JStr quote);
              ("feeBps", JNum feeBps); ("provider", JStr q.(lq_provider)); ("priceType", JStr q.(lq_priceType));
              ("referenceOnly", JBool q.(lq_referenceOnly)); ("referenceRate", JStr q.(lq_rate));
              ("sourceUpdatedAt", JStr q.(lq_updatedAt)); ("sourceFetchedAt", JStr q.(lq_fetchedAt))]))
          else Replied (failure "invalid_market_rate_request" 400)
      | _, _, _, _ => Replied (failure "invalid_market_rate_request" 400)
      end
  end.

(** A conversion carries the provider's quote, whatever the client sent. *)
Definition posts_to (path : string) (r : WebRequest) : bool :=
  String.eqb r.(rq_method) "POST" && String.eqb r.(rq_url).(url_pathname) path.
Definition isCustomerQuoteRequest (u : SessionUser) (r : WebRequest) : bool :=
  String.eqb u.(su_role) "customer" && posts_to "/api/core/operations/quote" r.
Definition isCustomerFXSubmission (u : SessionUser) (r : WebRequest) : bool :=
  String.eqb u.(su_role) "customer" && posts_to "/api/core/operations" r.
Definition isAdminConversionSubmission (u : SessionUser) (r : WebRequest) : bool :=
  String.eqb u.(su_role) "admin" && posts_to "/api/core/operations" r.
Definition market_members (q : LiveMarketQuote) : list (string * json) :=
  [("marketProvider", JStr q.(lq_provider)); ("marketPriceType", JStr q.(lq_priceType));
   ("marketReferenceOnly", JBool q.(lq_referenceOnly)); ("marketRate", JStr q.(lq_rate));
   ("marketUpdatedAt", JStr q.(lq_updatedAt)); ("marketFetchedAt", JStr q.(lq_fetchedAt))].
Definition conversion_body (u : SessionUser) (r : WebRequest) (body : list Z) : Outcome (list Z) :=
  match json_parse body with
  | None => Replied (failure "invalid_json" 400)
  | Some JNull => Thrown (PlainError "TypeError")
  | Some operation =>
      let type := json_str (json_get "type" (Some operation)) in
      let own := opt_eqb (json_str (json_get "customerId" (Some operation))) (Some u.(su_id)) in
      do? refuse_if (isCustomerQuoteRequest u r && (negb (opt_eqb type (Some "OTC")) || negb own)) "customer_quote_scope_mismatch" 403;
      do? refuse_if (isCustomerFXSubmission u r && (negb (opt_eqb type (Some "FX")) || negb own)) "customer_fx_scope_mismatch" 403;
      if opt_eqb type (Some "FX") || opt_eqb type (Some "OTC") then
        match json_str (json_get "currency" (Some operation)), json_str (json_get "quoteCurrency" (Some operation)) with
        | Some currency, Some quoteCurrency =>
            let? q := or_answer (live_quote r u.(su_role) currency quoteCurrency) "market_data_unavailable" 503 in
            Going (json_text (JObj (spread (market_members q) (members operation))))
        | _, _ => Replied (failure "invalid_conversion_pair" 400)
        end
      else Going body
  end.
Definition outgoing_body (u : SessionUser) (r : WebRequest) : Outcome (list Z) :=
  let body := canonical_body r in
  let? body := (if is_from_market u r then from_market_body u r body else Going body) in
  if isAdminConversionSubmission u r || isCustomerQuoteRequest u r || isCustomerFXSubmission u r
  then conversion_body u r body else Going body.

(** [incoming.pathname.replace(/^\/api\/core(?=\/|$)/, '/api/v1')] *)
Definition core_path (path : string) : string :=
  match strip_prefix "/api/core" path with
  | Some EmptyString => "/api/v1"
  | Some (String c rest) => if Ascii.eqb c "/" then "/api/v1" +:+ String c rest else path
  | None => path
  end.
(** The identity the core reads, and the signed request. *)
Definition identity_of (u : SessionUser) : string :=
  if String.eqb u.(su_role) "customer" then "customer:" +:+ u.(su_id) +:+ ":" +:+ u.(su_email)
  else "admin:" +:+ u.(su_coreUserId) +:+ ":" +:+ u.(su_email).
Definition core_fields (u : SessionUser) (r : WebRequest) (body : list Z) : SignedFields :=
  {| sf_timestamp := pretty nowSeconds; sf_method := r.(rq_method);
     sf_target := core_path r.(rq_url).(url_pathname) +:+ r.(rq_search); sf_identity := identity_of u; sf_body := body |}.
Definition core_request (u : SessionUser) (r : WebRequest) (body : list Z) : UpstreamRequest :=
  let f := core_fields u r body in
  {| up_method := r.(rq_method); up_target := f.(sf_target);
     up_headers := set_if "idempotency-key" (header_of "idempotency-key" r) (set_if "content-type" (Some (content_type r))
       (<["x-core-edge-signature" := hmacHex hmac_sha256 env.(we_CORE_EDGE_SHARED_SECRET) (canonical sha256_hex f)]>
       (<["x-core-edge-timestamp" := f.(sf_timestamp)]> (<["x-neobank-user" := f.(sf_identity)]>
         (<["accept" := "application/json"]> ∅)))));
     up_body := if bodyless r.(rq_method) then [] else body |}.

(** The part of [proxyCoreAPI] before the request is sent: who asks, and what. *)
Definition admitted (given : option json) (r : WebRequest) : Outcome (SessionUser * UpstreamRequest) :=
  do? refuse_if (payload_too_large r) "payload_too_large" 413;
  let? session := request_session given r in
  let u := session_user session in
  do? authorize_core u r;
  let? body := outgoing_body u r in
  if negb (https_origin env.(we_CORE_API_BASE_URL)) then Thrown (PlainError "CORE_API_BASE_URL must be an HTTPS origin")
  else Going (u, core_request u r body).
End gateway.
