(* ===== verification/CoreAnswers.v ===== *)
(** What the edge worker makes of the core API's answers
    ([worker-web/index.ts]): the live valuation of a customer's assets, the live
    prices of the rate policies, the redaction of everything else a customer sees,
    the home page and the routes of the worker. *)
From S2P Require Import Prelude Schema JsNumber EdgeAuth RoutePolicy EdgeWorker CoreGateway.
From Stdlib Require Import Ascii.

(** [Number(value)] of a JSON value; [None] is [undefined]. *)
Definition n_of_json (j : option json) : number :=
  match j with
  | Some (JNum z) => n_ofZ z
  | Some (JStr s) => n_of_string s
  | Some JNull | Some (JBool false) | Some (JArr []) => n_ofZ 0
  | Some (JBool true) => n_ofZ 1
  | _ => n_NaN
  end.
Definition json_number (o : option Z) : json := match o with Some z => JNum z | None => JNull end.
Definition remove_members (keys : list string) (l : list (string * json)) : list (string * json) :=
  List.filter (λ kv, negb (includes keys kv.1)) l.

(** [typeof value === 'number'], as that number. *)
Definition typed_number (j : option json) : option number := match j with Some (JNum z) => Some (n_ofZ z) | _ => None end.

(** A property read of [null] throws. *)
Definition is_null (j : json) : bool := match j with JNull => true | _ => false end.

(** An item of the distribution with its live value, if it has one. *)
Record ValuedSummaryItem := {
  vi_members : list (string * json);
  vi_available : option number; vi_frozen : option number; vi_updatedAt : option string;
}.
Definition live_keys : list string := ["liveAvailableValue"; "liveFrozenValue"; "marketUpdatedAt"].

Section answers.
Context {JD : JsDates} {NT : JsNumberText}.
(** The live quote of a currency in USD; [None] when it cannot be had. *)
Context (quote : string → string → option LiveMarketQuote) (now : Z).

(** An item without a value. *)
Definition unvalued (item : list (string * json)) : ValuedSummaryItem :=
  {| vi_members := spread [("reportingRate", JNull); ("reportingValue", JNull); ("shareBps", JNum 0)] (remove_members live_keys item);
     vi_available := typed_number (assoc "liveAvailableValue" item);
     vi_frozen := typed_number (assoc "liveFrozenValue" item);
     vi_updatedAt := json_str (assoc "marketUpdatedAt" item) |}.
(** The rate of a currency: parity for the dollar, the provider's quote for the others. *)
Definition live_rate (currency : string) : option (number * string) :=
  if String.eqb currency "USD" then Some (n_ofZ 1, to_iso now)
  else (λ q, (n_of_string q.(lq_rate), q.(lq_updatedAt))) <$> quote currency "USD".
Definition value_item (item : list (string * json)) : ValuedSummaryItem :=
  match assoc "currency" item, assoc "availableBalance" item, assoc "frozenBalance" item with
  | Some (JStr currency), Some (JStr availableBalance), Some (JStr frozenBalance) =>
      match live_rate currency with
      | None => unvalued item
      | Some (rate, updatedAt) =>
          let available := n_of_string availableBalance in
          let frozen := n_of_string frozenBalance in
          if negb (n_isFinite available) || negb (n_isFinite frozen) || negb (n_isFinite rate) || n_le rate (n_ofZ 0)
          then unvalued item
          else {| vi_members := spread [("reportingRate", JStr (strip_zeros (n_toFixed rate 12)));
                                        ("reportingValue", JStr (n_toFixed (n_mul (n_add available frozen) rate) 8));
                                        ("shareBps", JNum 0)] (remove_members live_keys item);
                  vi_available := Some (n_mul available rate); vi_frozen := Some (n_mul frozen rate);
                  vi_updatedAt := Some updatedAt |}
      end
  | _, _, _ => unvalued item
  end.
Definition n_sum {A} (f : A → option number) (l : list A) : number :=
  foldl (λ sum x, n_add sum (match f x with Some v => v | None => n_ofZ 0 end)) (n_ofZ 0) l.

(** A customer's USDT is what the custody wallets hold. *)
Definition active_wallet (row : json) : bool := opt_eqb (json_str (json_get "status" (Some row))) (Some "active").
Definition wallet_balance (key : string) (row : json) : number := n_of_json (json_get key (Some row)).
Definition bad_balance (x : number) : bool := negb (n_isFinite x) || n_lt x (n_ofZ 0).
Definition wallet_line (wallets : list json) : list (string * json) :=
  let available := n_sum (λ w, Some (wallet_balance "available_balance" w)) wallets in
  let frozen := n_sum (λ w, Some (wallet_balance "frozen_balance" w)) wallets in
  [("currency", JStr "USDT"); ("availableBalance", JStr (n_toFixed available 8)); ("frozenBalance", JStr (n_toFixed frozen 8));
   ("totalBalance", JStr (n_toFixed (n_add available frozen) 8)); ("reportingRate", JNull); ("reportingValue", JNull);
   ("shareBps", JNum 0); ("accountCount", JNum (Z.of_nat (length wallets))); ("sources", JArr [JStr "digital_wallet"])].
Definition customer_distribution (wallets : list json) (items : list (list (string * json))) : Outcome (list (list (string * json))) :=
  if existsb is_null wallets then Thrown (PlainError "TypeError") else
  let active := List.filter active_wallet wallets in
  do? refuse_if (existsb (λ w, bad_balance (wallet_balance "available_balance" w) || bad_balance (wallet_balance "frozen_balance" w)) active)
        "invalid_customer_wallet_balance" 502;
  Going (List.filter (λ item, negb (opt_eqb (json_str (assoc "currency" item)) (Some "USDT"))) items ++
         match active with [] => [] | _ => [wallet_line active] end).

(** The answer of the summary: [{ ...summary, ... }]. *)
Definition item_currency (v : ValuedSummaryItem) : option string := json_str (assoc "currency" v.(vi_members)).
Definition has_rate (v : ValuedSummaryItem) : bool :=
  match assoc "reportingRate" v.(vi_members) with Some JNull => false | _ => true end.
Definition missing_rates (valued : list ValuedSummaryItem) : list string :=
  omap (λ v, if has_rate v then None else item_currency v) valued.
Definition rate_times (valued : list ValuedSummaryItem) : list Z :=
  omap (λ v, match v.(vi_updatedAt) with Some t => date_parse t | None => None end) valued.
Definition earliest (times : list Z) : json :=
  match times with [] => JNull | t :: rest => JStr (to_iso (foldl Z.min t rest)) end.
Definition share_of (total : number) (v : ValuedSummaryItem) : json :=
  match assoc "reportingValue" v.(vi_members) with
  | Some JNull => JNum 0
  | value => if n_lt (n_ofZ 0) total
             then json_number (n_round (n_mul (n_div (n_of_json value) total) (n_ofZ 10000)))
             else JNum 0
  end.
Definition account_count (valued : list ValuedSummaryItem) : Z :=
  foldl (λ total v, match assoc "accountCount" v.(vi_members) with Some (JNum n) => total + n | _ => total end) 0 valued.
Definition valued_summary (summary : list (string * json)) (valued : list ValuedSummaryItem) : json :=
  let totalAvailable := n_sum vi_available valued in
  let totalFrozen := n_sum vi_frozen valued in
  let totalBalance := n_add totalAvailable totalFrozen in
  let missing := missing_rates valued in
  JObj (spread
    [("valuationStatus", JStr (match missing with [] => "complete" | _ => "partial" end));
     ("missingRates", JArr (map JStr missing)); ("asOf", JStr (to_iso now)); ("ratesAsOf", earliest (rate_times valued));
     ("totalAvailable", JStr (n_toFixed totalAvailable 8)); ("totalFrozen", JStr (n_toFixed totalFrozen 8));
     ("totalBalance", JStr (n_toFixed totalBalance 8)); ("accountCount", JNum (account_count valued));
     ("distribution", JArr (map (λ v, JObj (spread [("shareBps", share_of totalBalance v)] v.(vi_members))) valued))] summary).

(** The members of an item: an object's (the core's items are objects). *)
Definition decorate_summary (customer : bool) (wallets : Outcome (list json)) (summary : option json) : Outcome Answer :=
  match summary with
  | None => Thrown (PlainError "SyntaxError")
  | Some JNull => Thrown (PlainError "TypeError")
  | Some summary =>
      match json_get "distribution" (Some summary) with
      | Some (JArr items) =>
          if existsb is_null items then Thrown (PlainError "TypeError") else
          let? items := (if customer then let? rows := wallets in customer_distribution rows (map members items)
                         else Going (map members items)) in
          Going (Json (valued_summary (members summary) (map value_item items)) 200)
      | _ => Replied (failure "invalid_core_summary_response" 502)
      end
  end.

(** The rate policies with their live price. *)
Definition customer_rate (marketRate : number) (feeBps : Z) : number :=
  n_mul marketRate (n_sub (n_ofZ 1) (n_div (n_ofZ feeBps) (n_ofZ 10000))).
Definition decorate_rate (row : json) : json :=
  match row, json_get "active" (Some row), json_get "baseCurrency" (Some row), json_get "quoteCurrency" (Some row),
        json_get "feeBps" (Some row) with
  | JObj l, Some (JBool true), Some (JStr base), Some (JStr quoted), Some (JNum feeBps) =>
      let unavailable := JObj (spread [("marketUnavailable", JBool true)] l) in
      match quote base quoted with
      | None => unavailable
      | Some q =>
          let marketRate := n_of_string q.(lq_rate) in
          let customerRate := customer_rate marketRate feeBps in
          if negb (n_isFinite marketRate) || n_le marketRate (n_ofZ 0) || n_le customerRate (n_ofZ 0) then unavailable
          else JObj (spread [("marketProvider", JStr q.(lq_provider)); ("marketPriceType", JStr q.(lq_priceType));
                             ("marketRate", JStr q.(lq_rate)); ("customerRate", JStr (strip_zeros (n_toFixed customerRate 12)));
                             ("marketUpdatedAt", JStr q.(lq_updatedAt)); ("marketFetchedAt", JStr q.(lq_fetchedAt))] l)
      end
  | _, _, _, _, _ => row
  end.
Definition decorate_rates (rows : option json) : Outcome Answer :=
  match rows with
  | Some (JArr l) => if existsb is_null l then Thrown (PlainError "TypeError") else Going (Json (JArr (map decorate_rate l)) 200)
  | Some _ => Thrown (PlainError "TypeError")
  | None => Thrown (PlainError "SyntaxError")
  end.
End answers.

Section proxy.
Context {JD : JsDates} {NT : JsNumberText}.
Context (sha256_hex : list Z → string) (hmac_sha256 : string → string → list Z).
Context (json_parse : list Z → option json) (json_text : json → list Z).
Context (admin_limit customer_limit : string → bool).
Context (go : nat → UpstreamRequest → option UpstreamResponse) (core : UpstreamRequest → option UpstreamResponse).
Context (params_text : list (string * string) → string) (encode : string → string).
Context (env : WorkerEnv) (now : Z).
Notation admit_request := (admitted sha256_hex hmac_sha256 json_parse json_text admin_limit customer_limit go params_text env now).
Notation live_quote := (fetchLiveMarketQuote sha256_hex hmac_sha256 json_parse admin_limit customer_limit go params_text env (nowSeconds now)).
Notation live_wallets := (fetchCustomerWalletSummary sha256_hex hmac_sha256 json_parse admin_limit customer_limit go params_text env (nowSeconds now)).
Notation proxy_api := (proxyAPI sha256_hex hmac_sha256 json_parse admin_limit customer_limit go env (nowSeconds now)).
Notation load := (loadApplicationSession sha256_hex hmac_sha256 json_parse go env (nowSeconds now)).
Notation json_of := (answer_json json_parse).

Definition quote_for (u : SessionUser) (r : WebRequest) (base quoted : string) : option LiveMarketQuote :=
  match live_quote r u.(su_role) base quoted with inr q => Some q | inl _ => None end.
(** [options.customerWalletRows || (await fetchCustomerWalletSummary(request, env))] *)
Definition wallet_rows (given : option (list json)) (r : WebRequest) : Outcome (list json) :=
  match given with
  | Some rows => Going rows
  | None => or_answer (live_wallets r) "customer_wallet_summary_unavailable" 502
  end.

(** The end of [proxyCoreAPI]: what is made of the core's answer. *)
Definition reads_route (path : string) (r : WebRequest) (response : UpstreamResponse) : bool :=
  String.eqb r.(rq_method) "GET" && String.eqb r.(rq_url).(url_pathname) path && ok_status response.(us_status).
Definition present (rows : option (list json)) (u : SessionUser) (r : WebRequest) (response : UpstreamResponse) : Outcome Answer :=
  let customer := String.eqb u.(su_role) "customer" in
  let payload := json_parse response.(us_body) in
  if reads_route "/api/core/accounts/summary" r response
  then decorate_summary (quote_for u r) now customer (wallet_rows rows r) payload
  else if reads_route "/api/core/rates" r response
  then decorate_rates (quote_for u r) payload
  else if customer && ok_status response.(us_status)
  then match payload with
       | None | Some JNull => Replied (failure "invalid_core_response" 502)
       | Some data => Going (Json (redactCustomerCorePayload u.(su_id) data) response.(us_status))
       end
  else Going (Passed response.(us_status) (content_type_of response) [] response.(us_body)).

(** [proxyCoreAPI] *)
Definition proxyCoreAPI (session : option json) (rows : option (list json)) (r : WebRequest) : exn + Answer :=
  settle (admit_request session r) (λ '(u, request),
    match core request with
    | None => inl (PlainError "fetch failed")
    | Some response =>
        if redirects response.(us_status) then inl (PlainError "Core API redirect rejected")
        else settle (present rows u r response) inr
    end).

(** [internalGetRequest] *)
Definition internalGetRequest (path : string) (params : list (string * string)) (search : string) (r : WebRequest) : WebRequest :=
  {| rq_method := "GET"; rq_url := {| url_pathname := path; url_params := params |}; rq_search := search;
     rq_origin := r.(rq_origin); rq_body := [];
     rq_headers := set_if "cf-connecting-ip" (header_of "cf-connecting-ip" r) (set_if "user-agent" (header_of "user-agent" r)
       (set_if "origin" (header_of "origin" r) (set_if "cookie" (header_of "cookie" r) (<["accept" := "application/json"]> ∅)))) |}.
(** The three reads of the home page. *)
Definition home_requests (customerId : string) (r : WebRequest) : list WebRequest :=
  let org := env.(we_CORE_ORGANIZATION_ID) in
  [internalGetRequest ("/api/core/customers/" +:+ encode customerId) [] "" r;
   internalGetRequest "/api/core/operations" [("organizationId", org); ("customerId", customerId); ("limit", "5")]
     ("?organizationId=" +:+ encode org +:+ "&customerId=" +:+ encode customerId +:+ "&limit=5") r;
   internalGetRequest "/api/core/accounts/summary" [("customerId", customerId)] ("?customerId=" +:+ encode customerId) r].

(** [customerHomeAPI] *)
Definition customerHomeAPI (r : WebRequest) : exn + Answer :=
  settle (
    do? refuse_if (negb (String.eqb r.(rq_method) "GET")) "method_not_allowed" 405;
    let? session := from_fetch (load "customer" r) in
    let u := session_user session in
    do? refuse_if (negb (String.eqb u.(su_role) "customer") || negb (truthy u.(su_id)) || negb (truthy u.(su_email)))
          "authentication_required" 401;
    let? profileAnswer := from_fetch (proxy_api (internalGetRequest "/api/v1/customer/profile" [] "" r) application_edge) in
    let? rows := from_fetch (live_wallets r) in
    do? (if ok_status (answer_status profileAnswer) then Going tt else Replied profileAnswer);
    let profile := default JNull (json_of profileAnswer) in
    do? refuse_if (negb (opt_eqb (json_str (json_get "id" (Some profile))) (Some u.(su_id)))) "customer_profile_scope_mismatch" 403;
    match map (proxyCoreAPI (Some session) (Some rows)) (home_requests u.(su_id) r) with
    | [inr customer; inr operations; inr summary] =>
        match List.find (λ a, negb (ok_status (answer_status a))) [customer; operations; summary] with
        | Some failed => Replied failed
        | None =>
            match json_of customer, json_of operations, json_of summary with
            | Some customer, Some operations, Some summary =>
                Going (Json (JObj [("profile", profile); ("customer", customer); ("operations", operations);
                                   ("wallets", JArr rows); ("assetSummary", summary)]) 200)
            | _, _, _ => Thrown (PlainError "SyntaxError")
            end
        end
    | _ => Thrown (PlainError "fetch failed")
    end) inr.

(** ** The routes of the worker *)
Definition isApplicationAPI (path : string) : bool :=
  starts_with "/api/auth/" path || starts_with "/api/v1/" path || starts_with "/api/core/" path ||
  String.eqb path "/api/webhooks/sumsub".
Definition customerAPIInMaintenance : bool :=
  String.eqb (toLowerCase (trim env.(we_CUSTOMER_AUTH_MAINTENANCE))) "true".
Definition hasValidMutationOrigin (r : WebRequest) : bool :=
  readOnlyMethod r.(rq_method) || opt_eqb (header_of "origin" r) (Some r.(rq_origin)).
Definition application_api (r : WebRequest) : exn + Answer :=
  let path := r.(rq_url).(url_pathname) in
  let sumsubWebhook := String.eqb path "/api/webhooks/sumsub" in
  if sumsubWebhook && negb (String.eqb r.(rq_method) "POST") then inr (failure "method_not_allowed" 405)
  else if customerAPIInMaintenance &&
          (starts_with "/api/auth/customer/" path || starts_with "/api/v1/customer/" path ||
           String.eqb path "/api/core/customer/home")
  then inr (failure "customer_auth_maintenance" 503)
  else if negb sumsubWebhook && negb (hasValidMutationOrigin r) then inr (failure "invalid_origin" 403)
  else if String.eqb path "/api/core/customer/home" then customerHomeAPI r
  else if starts_with "/api/core/" path then proxyCoreAPI None None r
  else proxy_api r application_edge.
(** [fetch]; [assets] serves the files of the portal, outside the reach of the [catch]. *)
Definition worker_fetch (assets : WebRequest → Answer) (r : WebRequest) : Answer :=
  if String.eqb r.(rq_url).(url_pathname) "/healthz" && String.eqb r.(rq_method) "GET"
  then Json (JObj [("status", JStr "ok"); ("service", JStr "neobank-web"); ("customer_portal", JStr "public_session_auth");
                   ("admin_access", JStr "password_totp_session")]) 200
  else if isApplicationAPI r.(rq_url).(url_pathname)
  then match application_api r with
       | inr answer => answer
       | inl _ => failure "service_unavailable" 503
       end
  else assets r.
End proxy.
