(* ===== verification/EdgeSamples.v ===== *)
(** A small world around the edge worker, on which its theorems are applied: a
    customer and an administrator with their sessions, a provider that quotes one
    pair, the custody wallets and a core that answers three reads. *)
From S2P Require Import Prelude Schema JsNumber TronAddress EdgeAuth RoutePolicy EdgeWorker CoreGateway CoreAnswers Samples.
From Stdlib Require Import Ascii.

(** Bodies are named by a text, which the parser looks up. *)
Definition sample_user (role id coreUserId : string) (permissions : list string) : json :=
  JObj [("csrf_token", JStr "token");
        ("user", JObj [("role", JStr role); ("id", JStr id); ("core_user_id", JStr coreUserId);
                       ("email", JStr "a@b.example"); ("permissions", JArr (map JStr permissions))])].
Definition customer_json : json := sample_user "customer" "cus" "" [].
Definition admin_json : json := sample_user "admin" "adm" "usr_1" ["funds.read"; "funds.manage"; "admin_users.manage"; "settings.manage"].
Definition sample_quote_json : json :=
  JObj [("provider", JStr "fastforex"); ("baseCurrency", JStr "EUR"); ("quoteCurrency", JStr "USD"); ("rate", JStr "1.25");
        ("updatedAt", JStr "u"); ("fetchedAt", JStr "f"); ("priceType", JStr "midpoint_spot"); ("referenceOnly", JBool true)].
Definition sample_operation : json :=
  JObj [("type", JStr "FX"); ("customerId", JStr "cus"); ("currency", JStr "EUR"); ("quoteCurrency", JStr "USD");
        ("amount", JStr "10"); ("marketRate", JStr "99")].
Definition sample_wallet : json :=
  JObj [("id", JStr "w"); ("status", JStr "active"); ("available_balance", JStr "5.5"); ("frozen_balance", JStr "0.25")].
Definition sample_line (currency available : string) : json :=
  JObj [("currency", JStr currency); ("availableBalance", JStr available); ("frozenBalance", JStr "0"); ("accountCount", JNum 1)].
Definition sample_items : list json := [sample_line "EUR" "100"; sample_line "USDT" "7"; sample_line "USD" "3"].
Definition sample_summary : json := JObj [("distribution", JArr sample_items)].
Definition sample_bodies : list (string * json) :=
  [("customer session", customer_json); ("admin session", admin_json); ("quote", sample_quote_json);
   ("operation", sample_operation); ("profile", JObj [("id", JStr "cus")]); ("wallets", JObj [("data", JArr [sample_wallet])]);
   ("customer", JObj [("id", JStr "cus"); ("reviewNote", JStr "internal")]); ("operations", JArr []); ("summary", sample_summary);
   ("policy", JObj [("type", JStr "FX"); ("baseCurrency", JStr "EUR"); ("quoteCurrency", JStr "USD"); ("feeBps", JNum 25)])].
Definition sample_parse (body : list Z) : option json :=
  snd <$> List.find (λ kv, bool_decide (utf8 kv.1 = body)) sample_bodies.
Definition sample_text (j : json) : list Z := match j with JObj l => utf8 "object" ++ map (λ _, 0) l | _ => [] end.
Definition reply (body : string) : option UpstreamResponse :=
  Some {| us_status := 200; us_contentType := Some "application/json"; us_cookies := []; us_body := utf8 body |}.

Definition sample_hash (_ : list Z) : string := "hash".
Definition sample_mac (_ _ : string) : list Z := repeat 0 32.
Definition no_limit (_ : string) : bool := true.
Definition sample_go (_ : nat) (up : UpstreamRequest) : option UpstreamResponse :=
  let at_ path := String.eqb up.(up_target) path in
  if at_ "/api/auth/customer/me" then reply "customer session"
  else if at_ "/api/auth/admin/me" then reply "admin session"
  else if at_ "/api/v1/customer/profile" then reply "profile"
  else if at_ "/api/v1/customer/wallets" then reply "wallets"
  else if contains "EUR" up.(up_target) then reply "quote" else None.
Definition sample_core (up : UpstreamRequest) : option UpstreamResponse :=
  if starts_with "/api/v1/customers/" up.(up_target) then reply "customer"
  else if starts_with "/api/v1/operations" up.(up_target) then reply "operations"
  else reply "summary".
Definition sample_params (l : list (string * string)) : string :=
  match l with (_, x) :: (_, y) :: _ => x +:+ "/" +:+ y | _ => "" end.
Definition plain (s : string) : string := s.
Definition some_origin : option BaseUrl := Some {| bu_protocol := "https:"; bu_pathname := "/" |}.
Definition edge_env : WorkerEnv :=
  {| we_GO_EDGE_SHARED_SECRET := "go"; we_CORE_EDGE_SHARED_SECRET := edge_options.(eo_secret);
     we_CORE_ORGANIZATION_ID := "org"; we_CUSTOMER_AUTH_MAINTENANCE := ""; we_GO_API_BASE_URL := some_origin;
     we_CORE_API_BASE_URL := some_origin |}.
Definition edge_now : Z := 1700000000500.
#[export] Instance no_text : JsNumberText := { large_text := λ _, "" }.

(** A request, with the role it asks a session for. *)
Definition edge_request (method path role body : string) : WebRequest :=
  {| rq_method := method; rq_url := {| url_pathname := path; url_params := [] |}; rq_search := ""; rq_origin := "https://bank";
     rq_headers := list_to_map [("x-neobank-session-role", role); ("x-csrf-token", "token"); ("x-user-id", "forged");
                                ("cookie", "neobank_customer=s"); ("content-type", "text/plain")];
     rq_body := utf8 body |}.
Notation sample_admitted := (admitted sample_hash sample_mac sample_parse sample_text no_limit no_limit sample_go sample_params edge_env edge_now).
Notation sample_home := (customerHomeAPI sample_hash sample_mac sample_parse sample_text no_limit no_limit sample_go sample_core
                           sample_params plain edge_env edge_now).
Definition submission : WebRequest := edge_request "POST" "/api/core/operations" "customer" "operation".
Definition submitted : Outcome (SessionUser * UpstreamRequest) := sample_admitted None submission.
Definition is_going {A} (o : Outcome A) : bool := match o with Going _ => true | _ => false end.
Lemma is_going_true {A} (o : Outcome A) : is_going o = true → ∃ x, o = Going x.
Proof. destruct o; eauto; done. Qed.
Example submission_admitted : is_going submitted = true.
Proof. vm_compute. reflexivity. Qed.
Example home_served : match sample_home (edge_request "GET" "/api/core/customer/home" "customer" "") with
                      | inr (Json _ status) => status =? 200 | _ => false end = true.
Proof. vm_compute. reflexivity. Qed.
