(* ===== verification/GatewayProperties.v ===== *)
(** Correctness of the edge worker's proxy to the core: what it lets through, that
    the core recognises the identity it signs, where the prices of conversions come
    from, and what a customer's home page and asset summary are made of. *)
From S2P Require Import Prelude Schema JsNumber TronAddress EdgeAuth RoutePolicy EdgeWorker CoreGateway CoreAnswers EdgeSamples.
From Stdlib Require Import Ascii.

(** ** Outcomes *)
Lemma and_then_going {A B} (m : Outcome A) (f : A → Outcome B) y :
  and_then m f = Going y → ∃ x, m = Going x ∧ f x = Going y.
Proof. destruct m; simpl; intros H; try done. by exists x. Qed.
Lemma refuse_going b code status u : refuse_if b code status = Going u → b = false.
Proof. by destruct b. Qed.
Lemma or_answer_going {A} (r : exn + A) code status x : or_answer r code status = Going x → r = inr x.
Proof. destruct r; simpl; congruence. Qed.
Lemma from_fetch_going {A} (r : exn + A) x : from_fetch r = Going x → r = inr x.
Proof. destruct r; simpl; congruence. Qed.
(** Follows a handler that went on. *)
Ltac going H :=
  repeat match type of H with
  | and_then (refuse_if _ _ _) _ = Going _ =>
      let E := fresh "Hc" in apply and_then_going in H as ([]&E%refuse_going&H)
  | and_then _ _ = Going _ =>
      let x := fresh "x" in let E := fresh "E" in apply and_then_going in H as (x&E&H)
  end.

(** ** Hexadecimal texts *)
Definition byte (b : Z) : Prop := 0 ≤ b < 256.
Lemma hex_digit_value d : 0 ≤ d < 16 → hex_value (hex_digit d) = d.
Proof.
  intros Hd. assert (forallb (λ n, hex_value (hex_digit (Z.of_nat n)) =? Z.of_nat n) (seq 0 16) = true) as Hall by (vm_compute; reflexivity).
  rewrite forallb_forall in Hall. specialize (Hall (Z.to_nat d)). rewrite Z2Nat.id, Z.eqb_eq in Hall by lia.
  apply Hall, List.in_seq. lia.
Qed.
Lemma length_of_list l : String.length (String.string_of_list_ascii l) = length l.
Proof. induction l as [|c l IH]; simpl; congruence. Qed.
Lemma hex_of_decode bytes : Forall byte bytes → hex_decode (hex_of bytes) = bytes.
Proof.
  unfold hex_decode, hex_of. rewrite String.list_ascii_of_string_of_list_ascii. unfold byte.
  induction 1 as [|b l Hb _ IH]; simpl; [done|]. pose proof (Z.div_mod b 16 ltac:(lia)).
  pose proof (Z.mod_pos_bound b 16 ltac:(lia)).
  assert (0 ≤ b / 16 < 16) by (split; [apply Z.div_pos|apply Z.div_lt_upper_bound]; lia).
  rewrite IH, !hex_digit_value by lia. f_equal. lia.
Qed.
Lemma hex_of_hex64 bytes : Forall byte bytes → length bytes = 32%nat → hex64 (hex_of bytes) = true.
Proof.
  intros Hb Hlen. unfold hex64, hex_of. rewrite String.list_ascii_of_string_of_list_ascii, length_of_list. apply andb_true_iff. split.
  - apply forallb_forall. intros c (b&Hin%list_elem_of_In&Hc)%List.in_flat_map. rewrite Forall_forall in Hb.
    specialize (Hb b Hin). unfold byte in Hb. pose proof (Z.mod_pos_bound b 16 ltac:(lia)).
    assert (0 ≤ b / 16 < 16) by (split; [apply Z.div_pos|apply Z.div_lt_upper_bound]; lia).
    destruct Hc as [<-|[<-|[]]]; rewrite hex_digit_value by lia; lia.
  - apply Nat.eqb_eq. transitivity (2 * length bytes)%nat; [|lia]. clear. induction bytes as [|b l IH]; [done|]. simpl in *. lia.
Qed.

(** ** Texts without spaces *)
Definition visible (s : string) : Prop := Forall (λ c, is_space c = false) (String.list_ascii_of_string s).
Lemma drop_visible l : Forall (λ c, is_space c = false) l → drop_spaces l = l.
Proof. destruct 1 as [|c l H _]; simpl; [done|]. by rewrite H. Qed.
Lemma trim_visible s : visible s → trim s = s.
Proof.
  intros H. unfold trim. rewrite (drop_visible _ H), drop_visible by (by apply Forall_rev).
  by rewrite rev_involutive, String.string_of_list_ascii_of_string.
Qed.
Lemma hex_digit_visible d : 0 ≤ d < 16 → is_space (hex_digit d) = false.
Proof.
  intros Hd. assert (forallb (λ n, negb (is_space (hex_digit (Z.of_nat n)))) (seq 0 16) = true) as Hall by (vm_compute; reflexivity).
  rewrite forallb_forall in Hall. specialize (Hall (Z.to_nat d)). rewrite Z2Nat.id, negb_true_iff in Hall by lia.
  apply Hall, List.in_seq. lia.
Qed.
Lemma byte_digits b : byte b → 0 ≤ b / 16 < 16 ∧ 0 ≤ b mod 16 < 16.
Proof.
  unfold byte. intros Hb. pose proof (Z.mod_pos_bound b 16 ltac:(lia)).
  split; [|lia]. split; [apply Z.div_pos|apply Z.div_lt_upper_bound]; lia.
Qed.
Lemma hex_of_visible bytes : Forall byte bytes → visible (hex_of bytes).
Proof.
  unfold visible, hex_of. rewrite String.list_ascii_of_string_of_list_ascii.
  induction 1 as [|b l Hb _ IH]; simpl; [constructor|]. destruct (byte_digits b Hb).
  by repeat (constructor; [by apply hex_digit_visible|]).
Qed.
Lemma pretty_N_go_visible x s : visible s → visible (pretty_N_go x s).
Proof.
  revert s. induction (N.lt_wf_0 x) as [x _ IH]; intros s Hs.
  destruct (decide (x = 0)%N) as [->|Hx]; [by rewrite pretty_N_go_0|].
  rewrite pretty_N_go_step by lia. apply IH; [apply N.div_lt; lia|].
  unfold visible. simpl. constructor; [|done].
  assert (x `mod` 10 < 10)%N as Hd by (apply N.mod_lt; lia).
  unfold pretty_N_char. destruct (x `mod` 10)%N as [|p]; [done|].
  do 4 (destruct p as [p|p|]; try done; try lia).
Qed.
Lemma pretty_visible (z : Z) : visible (pretty z).
Proof.
  assert (∀ n : N, visible (pretty n)) as Hn.
  { intros n. unfold pretty, pretty_N. case_decide; [by apply Forall_singleton|]. apply pretty_N_go_visible. constructor. }
  destruct z as [|p|p]; [by repeat constructor|apply (Hn (Npos p))|].
  change (visible ("-" +:+ pretty (Npos p))). unfold visible. simpl. constructor; [done|apply (Hn (Npos p))].
Qed.

(** ** Headers and JSON members *)
Lemma set_if_ne name other value h : name ≠ other → set_if name value h !! other = h !! other.
Proof. intros H. unfold set_if. destruct value as [v|]; [|done]. destruct (truthy v); [|done]. by apply lookup_insert_ne. Qed.
Ltac look := repeat first [rewrite lookup_insert_eq|rewrite set_if_ne by done|rewrite lookup_insert_ne by done|rewrite lookup_empty].
Lemma assoc_set_member key k v l : assoc key (set_member k v l) = if String.eqb key k then Some v else assoc key l.
Proof.
  induction l as [|[k' v'] l IH]; simpl; [done|]. destruct (String.eqb_spec k' k) as [->|Hne]; simpl.
  - by destruct (String.eqb key k).
  - rewrite IH. destruct (String.eqb_spec key k') as [->|]; [|done]. by rewrite (proj2 (String.eqb_neq k' k)).
Qed.
Lemma assoc_spread_other key added l : Forall (λ kv, kv.1 ≠ key) added → assoc key (spread added l) = assoc key l.
Proof.
  unfold spread. revert l. induction added as [|[k v] added IH]; intros l; [done|].
  rewrite Forall_cons. simpl. intros [Hk H]. rewrite IH, assoc_set_member by done.
  by rewrite (proj2 (String.eqb_neq key k)) by congruence.
Qed.
Lemma assoc_spread_in key v added l : NoDup added.*1 → (key, v) ∈ added → assoc key (spread added l) = Some v.
Proof.
  unfold spread. revert l. induction added as [|[k w] added IH]; intros l; [by rewrite elem_of_nil|].
  rewrite fmap_cons, NoDup_cons, elem_of_cons. simpl. intros [Hk Hnd] [[= -> ->]|Hin]; [|by apply IH].
  change (assoc k (spread added (set_member k w l)) = Some w). rewrite assoc_spread_other.
  - by rewrite assoc_set_member, String.eqb_refl.
  - apply Forall_forall. intros [k' v'] Hin <-. apply Hk. apply list_elem_of_fmap. by exists (k', v').
Qed.

(** ** What is let through *)
Section gateway.
Context {JD : JsDates} {NT : JsNumberText}.
Context (sha256_hex : list Z → string) (hmac_sha256 : string → string → list Z).
Context (json_parse : list Z → option json) (json_text : json → list Z).
Context (admin_limit customer_limit : string → bool).
Context (go : nat → UpstreamRequest → option UpstreamResponse).
Context (params_text : list (string * string) → string).
Context (env : WorkerEnv) (now : Z).
Notation admit_request := (admitted sha256_hex hmac_sha256 json_parse json_text admin_limit customer_limit go params_text env now).
Notation live_quote := (fetchLiveMarketQuote sha256_hex hmac_sha256 json_parse admin_limit customer_limit go params_text env (nowSeconds now)).
Notation outgoing := (outgoing_body sha256_hex hmac_sha256 json_parse json_text admin_limit customer_limit go params_text env now).
Notation load := (loadApplicationSession sha256_hex hmac_sha256 json_parse go env (nowSeconds now)).

(** What a session may ask of the core. *)
Definition may_ask (u : SessionUser) (r : WebRequest) : Prop :=
  u.(su_email) ≠ "" ∧
  (u.(su_role) = "customer" ∧ u.(su_id) ≠ "" ∧
     customerCoreRouteAllowed r.(rq_url) r.(rq_method) u.(su_id) env.(we_CORE_ORGANIZATION_ID) = true ∨
   u.(su_role) = "admin" ∧ u.(su_coreUserId) ≠ "" ∧
     isDisabledAdminCustomerLifecycleMutation r.(rq_url).(url_pathname) r.(rq_method) = false ∧
     default perm_users (requiredAdminCorePermission r.(rq_url).(url_pathname) r.(rq_method)) ∈ u.(su_permissions)) ∧
  (readOnlyMethod r.(rq_method) = false → u.(su_csrf) ≠ "" ∧ ∃ token, header_of "x-csrf-token" r = Some token ∧
     sha256_hex (utf8 token) = sha256_hex (utf8 u.(su_csrf))).

Lemma truthy_true s : truthy s = true ↔ s ≠ "".
Proof. unfold truthy. rewrite negb_true_iff, String.eqb_neq. done. Qed.
Lemma authorize_ok u r x : authorize_core sha256_hex env u r = Going x → may_ask u r.
Proof.
  unfold authorize_core. intros H. going H. apply orb_false_iff in Hc as [He Hr]. apply negb_false_iff in He, Hr.
  apply truthy_true in He. split; [done|]. split.
  - apply includes_true in Hr. apply list_elem_of_In in Hr as [Hr|[Hr|[]]].
    + right. rewrite <- Hr in *. simpl in E. going E. apply refuse_going in E. apply negb_false_iff in Hc, E.
      apply truthy_true in Hc. split_and!; try done.
      by destruct (requiredAdminCorePermission _ _); simpl; apply includes_true.
    + left. rewrite <- Hr in *. simpl in Hc0. apply orb_false_iff in Hc0 as [Hi Ha]. apply negb_false_iff in Hi, Ha.
      apply truthy_true in Hi. done.
  - intros Hm. rewrite Hm in H. apply refuse_going in H. simpl in H. rewrite !orb_false_iff, !negb_false_iff in H.
    destruct H as [[Hs Hp] Hd]. apply truthy_true in Hs. split; [done|]. apply String.eqb_eq in Hd.
    destruct (header_of "x-csrf-token" r) as [token|]; [|done]. exists token. done.
Qed.

Lemma admitted_ok given r u up : admit_request given r = Going (u, up) →
  ∃ session body, request_session sha256_hex hmac_sha256 json_parse go env now given r = Going session ∧
    u = session_user session ∧ may_ask u r ∧ outgoing u r = Going body ∧
    up = core_request sha256_hex hmac_sha256 env now u r body.
Proof.
  unfold admitted. intros H. going H. destruct (https_origin _); [|done]. injection H as <- <-.
  exists x, x1. split_and!; try done. by eapply authorize_ok.
Qed.

(** What is signed and sent. *)
Lemma request_headers u r body :
  let up := core_request sha256_hex hmac_sha256 env now u r body in
  up.(up_headers) !! "x-neobank-user" = Some (identity_of u) ∧
  up.(up_headers) !! "x-core-edge-timestamp" = Some (pretty (nowSeconds now)) ∧
  up.(up_headers) !! "x-core-edge-signature" =
    Some (hmacHex hmac_sha256 env.(we_CORE_EDGE_SHARED_SECRET) (canonical sha256_hex (core_fields now u r body))).
Proof. unfold core_request. cbn [up_headers]. split_and!; by look. Qed.
Definition identity_header_names : list string :=
  ["x-user-id"; "x-authenticated-role"; "x-authenticated-customer-id"; "x-authenticated-email"].
Lemma no_identity_headers u r body name :
  name ∈ identity_header_names → (core_request sha256_hex hmac_sha256 env now u r body).(up_headers) !! name = None.
Proof.
  intros H. unfold core_request, identity_header_names in *. rewrite !elem_of_cons in H. cbn [up_headers].
  destruct H as [->|[->|[->|[->|H]]]]; [..|by apply elem_of_nil in H]; by look.
Qed.

(** The edge lets a request through to the core only for a session that may ask
    it, and hands it on as that session's.  Whoever a request claims to be, it is
    forwarded only when the session has an e-mail address and is either a
    customer's, asking a route of the customer's own, or an administrator's with
    an identity in the core and the permission of the route (that of managing
    administrators where the route has none of its own); and a request that may
    change something needs the session's CSRF token.  What is forwarded has the
    method, path and query that were checked, is signed for the session's identity,
    and no header of the client names another. *)
Theorem gateway_admission given r u up : admit_request given r = Going (u, up) →
  may_ask u r ∧
  (u.(su_role) = "customer" → free_of "/" u.(su_id) →
     route_safe r.(rq_url) r.(rq_method) u.(su_id) env.(we_CORE_ORGANIZATION_ID)) ∧
  up.(up_method) = r.(rq_method) ∧ up.(up_target) = core_path r.(rq_url).(url_pathname) +:+ r.(rq_search) ∧
  up.(up_headers) !! "x-neobank-user" = Some (identity_of u) ∧
  (∀ name, name ∈ identity_header_names → up.(up_headers) !! name = None).
Proof.
  intros H. apply admitted_ok in H as (session&body&_&Hu&Hmay&_&->).
  destruct (request_headers u r body) as (Hid&_&_). split_and!; try done.
  - intros Hrole Hfree. destruct Hmay as (_&[(_&_&Hroute)|(Hadmin&_)]&_); [|congruence].
    by apply route_allowed_safe.
  - intros name. apply no_identity_headers.
Qed.

(** ** The core recognises the session *)
Lemma outgoing_bodyless u r body :
  bodyless r.(rq_method) = true → r.(rq_body) = [] → outgoing u r = Going body → body = [].
Proof.
  unfold bodyless. intros Hm Hb H. assert (String.eqb (rq_method r) "POST" = false) as Hpost.
  { apply orb_true_iff in Hm as [->%String.eqb_eq| ->%String.eqb_eq]; done. }
  unfold outgoing_body, is_from_market, isAdminConversionSubmission, isCustomerQuoteRequest, isCustomerFXSubmission, posts_to in H.
  rewrite Hpost, !andb_false_r in H. simpl in H. unfold canonical_body in H. rewrite Hb in H.
  rewrite bool_decide_eq_true_2 in H by done. congruence.
Qed.
(** The request as the core receives it; [reserialized] is the text of the body it
    parsed, if it did. *)
Definition received (up : UpstreamRequest) (reserialized : option (list Z)) : EdgeRequest :=
  {| er_method := up.(up_method); er_originalUrl := up.(up_target); er_headers := up.(up_headers);
     er_rawBody := up.(up_body); er_body := reserialized |}.
Lemma raw_body_first q : ∃ rest, requestBodiesForSignature q = q.(er_rawBody) :: rest.
Proof. unfold requestBodiesForSignature. destruct (er_body q); [|eauto]. case_bool_decide; eauto. Qed.

Definition well_named (u : SessionUser) : Prop :=
  if String.eqb u.(su_role) "customer" then free_of ":" u.(su_id)
  else free_of ":" u.(su_coreUserId) ∧ (String.length u.(su_coreUserId) ≤ 128)%nat ∧ (String.length u.(su_email) ≤ 320)%nat.

Section handshake.
Context (safe_integer : string → option Z).
Context (Hmac : ∀ secret text, Forall byte (hmac_sha256 secret text) ∧ length (hmac_sha256 secret text) = 32%nat).
Context (Hnumber : ∀ z, 0 ≤ z < 2 ^ 53 → safe_integer (pretty z) = Some z).
Notation core_edge := (edgeAuthMiddleware sha256_hex hmac_sha256 safe_integer).

Lemma signature_verifies coreNow u r body :
  0 ≤ nowSeconds now < 2 ^ 53 → Z.abs (coreNow - nowSeconds now) ≤ 60 → identity_of u ≠ "" →
  verifyEdgeSignature sha256_hex hmac_sha256 safe_integer coreNow env.(we_CORE_EDGE_SHARED_SECRET)
    (hmacHex hmac_sha256 env.(we_CORE_EDGE_SHARED_SECRET) (canonical sha256_hex (core_fields now u r body)))
    (core_fields now u r body) = true.
Proof.
  intros Hnow Hskew Hid. unfold verifyEdgeSignature. cbn [sf_timestamp core_fields]. rewrite Hnumber by done.
  destruct (Hmac env.(we_CORE_EDGE_SHARED_SECRET) (canonical sha256_hex (core_fields now u r body))) as [Hbytes Hlen].
  unfold hmacHex. rewrite hex_of_hex64, hex_of_decode by done. cbn [sf_identity core_fields].
  rewrite (proj2 (truthy_true _) Hid), bool_decide_eq_true_2 by done.
  rewrite (proj2 (Z.leb_le _ _)) by exact Hskew. done.
Qed.
Lemma identity_not_empty u : identity_of u ≠ "".
Proof. unfold identity_of. by destruct (String.eqb _ _). Qed.
Lemma identity_not_service u : identity_of u ≠ "service:neobank-go".
Proof. unfold identity_of. by destruct (String.eqb _ _). Qed.
Lemma request_verified o coreNow u r body parsed :
  (bodyless r.(rq_method) = true → body = []) → o.(eo_secret) = env.(we_CORE_EDGE_SHARED_SECRET) →
  0 ≤ nowSeconds now < 2 ^ 53 → Z.abs (coreNow - nowSeconds now) ≤ 60 → trim (identity_of u) = identity_of u →
  let q := received (core_request sha256_hex hmac_sha256 env now u r body) parsed in
  accounting_request q = false → verified sha256_hex hmac_sha256 safe_integer coreNow o q = true.
Proof.
  intros Hb Hsecret Hnow Hskew Htrim q Hacc. unfold verified. rewrite Hacc. simpl.
  destruct (raw_body_first q) as [rest ->]. apply existsb_exists. exists q.(er_rawBody). split; [by left|].
  destruct (request_headers u r body) as (H1&H2&H3). unfold request_secret. rewrite Hacc, Hsecret.
  assert (fields_of q (er_rawBody q) = core_fields now u r body) as ->.
  { unfold fields_of, header, q, received. cbn [er_headers er_method er_originalUrl er_rawBody]. rewrite H1, H2, Htrim.
    rewrite trim_visible by apply pretty_visible. unfold core_fields, core_request. simpl. f_equal.
    destruct (bodyless _); [symmetry; by apply Hb|done]. }
  unfold header, q, received. cbn [er_headers]. rewrite H3, trim_visible.
  - apply signature_verifies; [done|done|apply identity_not_empty].
  - apply hex_of_visible, Hmac.
Qed.

(** What the core makes of the identity. *)
Definition granted (adminUserId : string) (u : SessionUser) (h : gmap string string) : Prop :=
  h !! "x-authenticated-role" = Some u.(su_role) ∧ h !! "x-authenticated-email" = Some u.(su_email) ∧
  h !! "x-user-id" = Some (if String.eqb u.(su_role) "customer" then adminUserId else u.(su_coreUserId)) ∧
  h !! "x-authenticated-customer-id" = (if String.eqb u.(su_role) "customer" then Some u.(su_id) else None).
Lemma identity_granted adminUserId u r h : may_ask u r → well_named u →
  h !! "x-authenticated-customer-id" = None →
  ∃ h', identity_headers adminUserId (identity_of u) h = Some h' ∧ granted adminUserId u h'.
Proof.
  intros (He&Hrole&_) Hnamed Hnone. unfold identity_of, identity_headers, well_named, granted in *.
  apply truthy_true in He. destruct Hrole as [(Hr&Hi&_)|(Hr&Hi&_)]; rewrite Hr in *; cbn [String.eqb Ascii.eqb Bool.eqb] in *;
    apply truthy_true in Hi.
  - rewrite strip_prefix_app. change (":" +:+ su_email u) with (String ":" (su_email u)).
    rewrite split_char_app by done. simpl. rewrite He, Hi. simpl. eexists. split; [done|]. split_and!; by look.
  - destruct Hnamed as (Hfree&H128&H320).
    change (strip_prefix "customer:" ("admin:" +:+ _)) with (@None string). cbv beta iota. rewrite strip_prefix_app.
    change (":" +:+ su_email u) with (String ":" (su_email u)). rewrite split_char_app by done. rewrite He, Hi.
    rewrite (proj2 (Nat.ltb_ge 128 _)), (proj2 (Nat.ltb_ge 320 _)) by done. simpl. eexists. split; [done|]. split_and!; by look.
Qed.

(** C23: The edge and the core agree on who asks.  A request the edge forwards is
    accepted by the core's own check of the signature, when the two share the
    secret and their clocks differ by at most a minute, and its handlers then see
    the role, the e-mail address and the identity of exactly the session that was
    admitted: a customer's id beside the core's administrator, or the
    administrator's own id and no customer.  The routes of the accounting service
    are closed to every request of the edge, also to an administrator with all
    permissions. *)
Theorem core_recognises_session given r u up o coreNow parsed :
  admit_request given r = Going (u, up) → o.(eo_secret) = env.(we_CORE_EDGE_SHARED_SECRET) →
  0 ≤ nowSeconds now < 2 ^ 53 → Z.abs (coreNow - nowSeconds now) ≤ 60 →
  (bodyless r.(rq_method) = true → r.(rq_body) = []) → trim (identity_of u) = identity_of u → well_named u →
  let q := received up parsed in
  is_health_check q = false →
  (accounting_request q = true → core_edge coreNow o q = None) ∧
  (accounting_request q = false → ∃ h, core_edge coreNow o q = Some h ∧ granted o.(eo_adminUserId) u h).
Proof.
  intros H Hsecret Hnow Hskew Hbody Htrim Hnamed q Hhealth.
  apply admitted_ok in H as (session&body&_&_&Hmay&Hout&->). unfold edgeAuthMiddleware. rewrite Hhealth.
  assert (header "x-neobank-user" q = identity_of u) as Hheader.
  { unfold header, q, received. cbn [er_headers]. destruct (request_headers u r body) as (->&_). exact Htrim. }
  rewrite Hheader. split; intros Hacc; rewrite Hacc.
  - rewrite andb_true_l, (proj2 (String.eqb_neq _ _) (identity_not_service u)), orb_true_r. done.
  - unfold q. rewrite request_verified; [|by intros; eapply outgoing_bodyless; eauto|done..].
    cbn [negb andb orb]. eapply identity_granted; [done|done|]. cbn [er_headers received].
    apply no_identity_headers. unfold identity_header_names. set_solver.
Qed.
End handshake.

(** ** Where prices come from *)
Lemma live_quote_ok r role base quoted q : live_quote r role base quoted = inr q →
  q.(lq_provider) = "fastforex" ∧ q.(lq_baseCurrency) = base ∧ q.(lq_quoteCurrency) = quoted.
Proof.
  unfold fetchLiveMarketQuote, quote_of. destruct (proxyAPI _ _ _ _ _ _ _ _ _ _) as [|answer]; [done|].
  destruct (negb _); [done|]. destruct (_ && _); [|done]. repeat case_match; try done. intros. by simplify_eq.
Qed.
(** The quote a body carries. *)
Definition carries (q : LiveMarketQuote) (j : json) : Prop :=
  Forall (λ kv, json_get kv.1 (Some j) = Some kv.2) (market_members q).
Lemma market_keys_distinct q : NoDup (market_members q).*1.
Proof. apply (bool_decide_unpack _). vm_compute. reflexivity. Qed.
Lemma spread_carries q l : carries q (JObj (spread (market_members q) l)).
Proof. apply Forall_forall. intros [k v] Hin. apply assoc_spread_in; [apply market_keys_distinct|done]. Qed.
Definition market_keys : list string :=
  ["marketProvider"; "marketPriceType"; "marketReferenceOnly"; "marketRate"; "marketUpdatedAt"; "marketFetchedAt"].
Lemma spread_keeps q key l : key ∉ market_keys → assoc key (spread (market_members q) l) = assoc key l.
Proof.
  intros H. apply assoc_spread_other. change market_keys with (market_members q).*1 in H.
  apply Forall_forall. intros kv Hin <-. apply H. apply list_elem_of_fmap. eauto.
Qed.

(** A conversion as it leaves the edge. *)
Definition conversion_type (j : json) : Prop := json_str (json_get "type" (Some j)) ∈ [Some "FX"; Some "OTC"].
Definition priced (u : SessionUser) (r : WebRequest) (operation : json) (body : list Z) : Prop :=
  ∃ base quoted q j, json_str (json_get "currency" (Some operation)) = Some base ∧
    json_str (json_get "quoteCurrency" (Some operation)) = Some quoted ∧ live_quote r u.(su_role) base quoted = inr q ∧
    body = json_text j ∧ carries q j ∧
    (∀ key, key ∉ market_keys → json_get key (Some j) = json_get key (Some operation)).
Definition own_operation (u : SessionUser) (r : WebRequest) (operation : json) : Prop :=
  json_str (json_get "customerId" (Some operation)) = Some u.(su_id) ∧
  json_str (json_get "type" (Some operation)) =
    Some (if String.eqb r.(rq_url).(url_pathname) "/api/core/operations/quote" then "OTC" else "FX").
Lemma both_hold b x y : b && (negb x || negb y) = false → b = true → x = true ∧ y = true.
Proof. destruct b, x, y; done. Qed.
Lemma own_operation_ok u r operation :
  let type := json_str (json_get "type" (Some operation)) in
  let own := opt_eqb (json_str (json_get "customerId" (Some operation))) (Some u.(su_id)) in
  isCustomerQuoteRequest u r && (negb (opt_eqb type (Some "OTC")) || negb own) = false →
  isCustomerFXSubmission u r && (negb (opt_eqb type (Some "FX")) || negb own) = false →
  u.(su_role) = "customer" → posts_to "/api/core/operations/quote" r || posts_to "/api/core/operations" r = true →
  own_operation u r operation.
Proof.
  intros type own Hq Hfx Hrole Hpost. unfold isCustomerQuoteRequest, isCustomerFXSubmission in *. rewrite Hrole in *.
  unfold own_operation. destruct (posts_to "/api/core/operations/quote" r) eqn:E.
  - destruct (both_hold _ _ _ Hq eq_refl) as [H1%opt_eqb_true H2%opt_eqb_true].
    unfold posts_to in E. apply andb_true_iff in E as [_ ->]. done.
  - destruct (posts_to "/api/core/operations" r) eqn:E2; [|done].
    destruct (both_hold _ _ _ Hfx eq_refl) as [H1%opt_eqb_true H2%opt_eqb_true].
    unfold posts_to in E2. apply andb_true_iff in E2 as [_ ->%String.eqb_eq]. done.
Qed.
Lemma conversion_type_eqb j :
  let type := json_str (json_get "type" (Some j)) in
  opt_eqb type (Some "FX") || opt_eqb type (Some "OTC") = true ↔ conversion_type j.
Proof. unfold conversion_type. cbv zeta. rewrite orb_true_iff, !opt_eqb_true. set_solver. Qed.
Lemma conversion_body_ok u r body body' :
  conversion_body sha256_hex hmac_sha256 json_parse json_text admin_limit customer_limit go params_text env now u r body = Going body' →
  ∃ operation, json_parse body = Some operation ∧
    (u.(su_role) = "customer" → posts_to "/api/core/operations/quote" r || posts_to "/api/core/operations" r = true →
       own_operation u r operation) ∧
    (conversion_type operation → priced u r operation body') ∧ (¬ conversion_type operation → body' = body).
Proof.
  unfold conversion_body. destruct (json_parse body) as [operation|]; [|done].
  assert (∀ (k : Outcome (list Z)), match operation with JNull => Thrown (PlainError "TypeError") | _ => k end = Going body' → k = Going body')
    as Hobj by (destruct operation; done).
  intros H%Hobj. clear Hobj. going H. exists operation. split; [done|]. split; [by apply own_operation_ok|].
  rewrite <- conversion_type_eqb. clear Hc Hc0. destruct (_ || _); [|split; [done|congruence]]. split; [intros _|by intros []].
  destruct (json_str (json_get "currency" _)) as [base|] eqn:Eb; [|done].
  destruct (json_str (json_get "quoteCurrency" _)) as [quoted|] eqn:Eq; [|done]. going H.
  apply or_answer_going in E. injection H as <-.
  exists base, quoted, x, (JObj (spread (market_members x) (members operation))). split_and!; try done.
  - apply spread_carries.
  - intros key Hkey. change (assoc key (spread (market_members x) (members operation)) = json_get key (Some operation)).
    rewrite spread_keeps by done. by destruct operation.
Qed.

(** A rate policy as it leaves the edge. *)
Definition from_market (q : LiveMarketQuote) (type base quoted : string) (feeBps : Z) : json :=
  JObj [("type", JStr type); ("baseCurrency", JStr base); ("quoteCurrency", JStr quoted); ("feeBps", JNum feeBps);
        ("provider", JStr q.(lq_provider)); ("priceType", JStr q.(lq_priceType)); ("referenceOnly", JBool q.(lq_referenceOnly));
        ("referenceRate", JStr q.(lq_rate)); ("sourceUpdatedAt", JStr q.(lq_updatedAt)); ("sourceFetchedAt", JStr q.(lq_fetchedAt))].
Lemma from_market_body_ok u r body body' :
  from_market_body sha256_hex hmac_sha256 json_parse json_text admin_limit customer_limit go params_text env now u r body = Going body' →
  ∃ type base quoted feeBps q, type ∈ ["FX"; "OTC"] ∧ 0 ≤ feeBps ≤ 9999 ∧ live_quote r u.(su_role) base quoted = inr q ∧
    body' = json_text (from_market q type base quoted feeBps).
Proof.
  unfold from_market_body. intros H. repeat case_match; try done. going H. apply or_answer_going in E. injection H as <-.
  repeat match goal with X : _ && _ = true |- _ => apply andb_true_iff in X as [? ?] end.
  match goal with X : includes _ _ = true |- _ => apply includes_true in X end.
  eexists _, _, _, _, _. split; [done|]. split; [|split; [done|reflexivity]]. lia.
Qed.

Lemma outgoing_conversion u r body :
  r.(rq_url).(url_pathname) ∈ ["/api/core/operations"; "/api/core/operations/quote"] → r.(rq_method) = "POST" →
  u.(su_role) = "customer" ∨ u.(su_role) = "admin" ∧ r.(rq_url).(url_pathname) = "/api/core/operations" →
  outgoing u r = Going body →
  conversion_body sha256_hex hmac_sha256 json_parse json_text admin_limit customer_limit go params_text env now u r
    (canonical_body json_parse json_text r) = Going body.
Proof.
  intros Hpath Hm Hrole. unfold outgoing_body, is_from_market, isAdminConversionSubmission, isCustomerQuoteRequest,
    isCustomerFXSubmission, posts_to. rewrite Hm.
  rewrite !elem_of_cons in Hpath. destruct Hpath as [Hp|[Hp|[]%elem_of_nil]]; rewrite Hp in *;
    (destruct Hrole as [->|[-> Hq]]; [|try discriminate Hq]); done.
Qed.

(** C28: Money is converted at the market's price, whatever the client sent.  An FX
    or OTC operation that leaves the edge carries the provider, the rate and the
    times of the quote the edge itself has just fetched for exactly its two
    currencies, and is otherwise the operation that was asked for; anything else on
    that route is passed on as it was; a customer's operation is the customer's own,
    FX when it is submitted and OTC when it is quoted.  The rate policy an
    administrator publishes from the market has that quote's rate as its
    reference, and a fee between 0 and 9999 basis points. *)
Theorem conversion_priced_by_market given r u up : admit_request given r = Going (u, up) → r.(rq_method) = "POST" →
  (r.(rq_url).(url_pathname) = "/api/core/operations" ∨
   r.(rq_url).(url_pathname) = "/api/core/operations/quote" ∧ u.(su_role) = "customer" →
   ∃ operation, json_parse (canonical_body json_parse json_text r) = Some operation ∧
     (u.(su_role) = "customer" → own_operation u r operation) ∧
     (conversion_type operation → priced u r operation up.(up_body)) ∧
     (¬ conversion_type operation → up.(up_body) = canonical_body json_parse json_text r)) ∧
  (r.(rq_url).(url_pathname) = "/api/core/rates/from-market" → u.(su_role) = "admin" →
   ∃ type base quoted feeBps q, type ∈ ["FX"; "OTC"] ∧ 0 ≤ feeBps ≤ 9999 ∧
     live_quote r "admin" base quoted = inr q ∧ q.(lq_provider) = "fastforex" ∧
     q.(lq_baseCurrency) = base ∧ q.(lq_quoteCurrency) = quoted ∧
     up.(up_body) = json_text (from_market q type base quoted feeBps)).
Proof.
  intros H Hm. apply admitted_ok in H as (session&body&_&_&Hmay&Hout&->).
  assert (up_body (core_request sha256_hex hmac_sha256 env now u r body) = body) as -> by (cbn [core_request up_body]; by rewrite Hm).
  split.
  - intros Hpath. apply outgoing_conversion in Hout; [|set_solver|done|destruct Hmay as (_&Hr&_); intuition].
    apply conversion_body_ok in Hout as (operation&Hparse&Hown&Hrest). exists operation. split; [done|]. split; [|done].
    intros Hcus. apply Hown; [done|]. unfold posts_to. rewrite Hm. destruct Hpath as [->|[-> _]]; done.
  - intros Hpath Hadmin. unfold outgoing_body, is_from_market, isAdminConversionSubmission, isCustomerQuoteRequest,
      isCustomerFXSubmission, posts_to in Hout. rewrite Hm, Hpath, Hadmin in Hout. simpl in Hout. going Hout.
    apply from_market_body_ok in E as (type&base&quoted&feeBps&q&Htype&Hfee&Hq&->). injection Hout as <-.
    rewrite Hadmin in Hq. destruct (live_quote_ok _ _ _ _ _ Hq) as (?&?&?). eexists _, _, _, _, _. done.
Qed.
End gateway.

(** ** Witnesses *)
Lemma submission_identity u up : submitted = Going (u, up) → u = session_user customer_json.
Proof.
  intros H. unfold submitted in H. apply admitted_ok in H as (session&body&Hs&->&_).
  assert (request_session sample_hash sample_mac sample_parse sample_go edge_env edge_now None submission = Going customer_json) as Hc
    by (vm_compute; reflexivity).
  congruence.
Qed.
Lemma gateway_admission_witness : ∃ u up, submitted = Going (u, up) ∧
  may_ask sample_hash edge_env u submission ∧ up.(up_headers) !! "x-neobank-user" = Some "customer:cus:a@b.example" ∧
  up.(up_headers) !! "x-user-id" = None.
Proof.
  destruct (is_going_true _ submission_admitted) as [[u up] H]. exists u, up. split; [exact H|].
  pose proof (submission_identity _ _ H) as Hu. unfold submitted in H.
  destruct (gateway_admission _ _ _ _ _ _ _ _ _ _ _ _ _ _ H) as (Hmay&_&_&_&Huser&Hnone).
  split; [exact Hmay|]. rewrite Huser, Hu. split; [reflexivity|]. apply Hnone. left.
Defined.

(** A reader of numbers that knows the texts of the natural ones. *)
Fixpoint read_natural (acc : Z) (s : string) : option Z :=
  match s with
  | EmptyString => Some acc
  | String c s' => match digit 10 c with Some d => read_natural (acc * 10 + d) s' | None => None end
  end.
Definition sample_integer (text : string) : option Z := read_natural 0 text.
Lemma digit_of_char (x : N) : (x < 10)%N → digit 10 (pretty_N_char x) = Some (Z.of_N x).
Proof. intros H. destruct x as [|p]; [done|]. do 4 (destruct p as [p|p|]; try done; try lia). Qed.
Lemma read_pretty_go x s : read_natural 0 (pretty_N_go x s) = read_natural (Z.of_N x) s.
Proof.
  revert s. induction (N.lt_wf_0 x) as [x _ IH]; intros s.
  destruct (decide (x = 0)%N) as [->|Hx]; [by rewrite pretty_N_go_0|].
  rewrite pretty_N_go_step by lia. rewrite IH by (apply N.div_lt; lia). cbn [read_natural].
  rewrite digit_of_char by (apply N.mod_lt; lia). f_equal.
  rewrite N2Z.inj_div, N2Z.inj_mod. pose proof (Z.div_mod (Z.of_N x) 10 ltac:(lia)). lia.
Qed.
Lemma sample_integer_reads z : 0 ≤ z < 2 ^ 53 → sample_integer (pretty z) = Some z.
Proof.
  intros [Hz _]. unfold sample_integer. destruct z as [|p|p]; [done| |lia].
  change (read_natural 0 (pretty (Npos p)) = Some (Zpos p)). unfold pretty, pretty_N. rewrite decide_False by done.
  by rewrite read_pretty_go.
Qed.
Lemma sample_mac_bytes secret text : Forall byte (sample_mac secret text) ∧ length (sample_mac secret text) = 32%nat.
Proof. split; [|done]. unfold sample_mac. apply Forall_forall. intros x Hx. apply list_elem_of_In, List.repeat_spec in Hx as ->. unfold byte. lia. Qed.
Lemma core_recognises_session_witness : ∃ u up h, submitted = Going (u, up) ∧
  edgeAuthMiddleware sample_hash sample_mac sample_integer 1700000030 edge_options (received up None) = Some h ∧
  h !! "x-authenticated-customer-id" = Some "cus" ∧ h !! "x-user-id" = Some "adm".
Proof.
  destruct (is_going_true _ submission_admitted) as [[u up] H]. pose proof (submission_identity _ _ H) as Hu. unfold submitted in H.
  destruct (core_recognises_session _ _ _ _ _ _ _ _ _ _ sample_integer sample_mac_bytes sample_integer_reads
              _ _ _ _ edge_options 1700000030 None H) as [_ Haccepted];
    [reflexivity|vm_compute; split; congruence|vm_compute; congruence|discriminate|rewrite Hu; vm_compute; reflexivity|rewrite Hu; vm_compute; reflexivity|..].
  - apply admitted_ok in H as (session&body&_&_&_&_&->). reflexivity.
  - destruct Haccepted as (h&Hh&_&_&Hadm&Hcus).
    + apply admitted_ok in H as (session&body&_&_&_&_&->). reflexivity.
    + rewrite Hu in Hadm, Hcus. exists u, up, h. split; [exact H|]. split; [exact Hh|]. split; [exact Hcus|exact Hadm].
Defined.
Lemma conversion_priced_by_market_witness : ∃ u up operation, submitted = Going (u, up) ∧
  json_get "marketRate" (Some operation) = Some (JStr "99") ∧
  ∃ j, up.(up_body) = sample_text j ∧ json_get "marketRate" (Some j) = Some (JStr "1.25").
Proof.
  destruct (is_going_true _ submission_admitted) as [[u up] H]. pose proof (submission_identity _ _ H) as Hu. unfold submitted in H.
  destruct (conversion_priced_by_market _ _ _ _ _ _ _ _ _ _ _ _ _ _ H) as [Hpriced _]; [reflexivity|].
  destruct Hpriced as (operation&Hparse&_&Hpriced&_); [left; reflexivity|].
  assert (operation = sample_operation) as -> by (vm_compute in Hparse; injection Hparse as <-; reflexivity).
  destruct Hpriced as (base&quoted&q&j&Hb&Hq&Hlive&Hbody&Hcarries&_); [vm_compute; left|].
  injection Hb as <-. injection Hq as <-. rewrite Hu in Hlive. vm_compute in Hlive. injection Hlive as <-.
  exists u, up, sample_operation. split; [exact H|]. split; [reflexivity|]. exists j. split; [exact Hbody|].
  unfold carries in Hcarries. rewrite Forall_forall in Hcarries. apply (Hcarries ("marketRate", JStr "1.25")).
  do 3 right. left.
Defined.
