(* ===== verification/HomeProperties.v ===== *)
(** Correctness of what the edge worker makes of the core's answers: a customer's
    home page and the live valuation of the assets. *)
From S2P Require Import Prelude Schema JsNumber TronAddress EdgeAuth RoutePolicy EdgeWorker CoreGateway CoreAnswers Samples EdgeSamples GatewayProperties.
From Stdlib Require Import Ascii.

(** ** Texts that differ *)
Lemma append_cancel p a b : String.eqb (p +:+ a) (p +:+ b) = String.eqb a b.
Proof. induction p as [|c p IH]; [done|]. change ((if Ascii.eqb c c then String.eqb (p +:+ a) (p +:+ b) else false) = String.eqb a b). by rewrite Ascii.eqb_refl. Qed.
Lemma longer_differs x c t : String.eqb x (x +:+ String c t) = false.
Proof. rewrite <- (append_empty x) at 1. by rewrite append_cancel. Qed.

(** ** Early answers are failures *)
Definition refuses {A} (m : Outcome A) : Prop := ∀ a, m = Replied a → ok_status (answer_status a) = false.
Lemma refuses_going {A} (x : A) : refuses (Going x).
Proof. done. Qed.
Lemma refuses_thrown {A} e : refuses (Thrown (A:=A) e).
Proof. done. Qed.
Lemma refuses_failure {A} code status : ok_status status = false → refuses (Replied (A:=A) (failure code status)).
Proof. by intros H a [= <-]. Qed.
Lemma refuses_if b code status : ok_status status = false → refuses (refuse_if b code status).
Proof. destruct b; [apply refuses_failure|done]. Qed.
Lemma refuses_then {A B} (m : Outcome A) (f : A → Outcome B) : refuses m → (∀ x, refuses (f x)) → refuses (and_then m f).
Proof. intros Hm Hf. destruct m as [e|a'|x]; [done| |apply Hf]. intros a [= <-]. by apply (Hm a'). Qed.
Lemma refuses_fetch {A} (r : exn + A) : refuses (from_fetch r).
Proof. by destruct r. Qed.
Lemma refuses_or {A} (r : exn + A) code status : ok_status status = false → refuses (or_answer r code status).
Proof. destruct r; [apply refuses_failure|done]. Qed.
Create HintDb refuses.
#[export] Hint Resolve refuses_going refuses_thrown refuses_failure refuses_if refuses_then refuses_fetch refuses_or : refuses.
#[export] Hint Extern 2 (refuses (match _ with _ => _ end)) => case_match : refuses.
#[export] Hint Extern 1 (ok_status _ = false) => reflexivity : refuses.

(** ** The home page *)
Section home.
Context {JD : JsDates} {NT : JsNumberText}.
Context (sha256_hex : list Z → string) (hmac_sha256 : string → string → list Z).
Context (json_parse : list Z → option json) (json_text : json → list Z).
Context (admin_limit customer_limit : string → bool).
Context (go : nat → UpstreamRequest → option UpstreamResponse) (core : UpstreamRequest → option UpstreamResponse).
Context (params_text : list (string * string) → string) (encode : string → string).
Context (env : WorkerEnv) (now : Z).
Notation admit_request := (admitted sha256_hex hmac_sha256 json_parse json_text admin_limit customer_limit go params_text env now).
Notation live_wallets := (fetchCustomerWalletSummary sha256_hex hmac_sha256 json_parse admin_limit customer_limit go params_text env (nowSeconds now)).
Notation proxy_api := (proxyAPI sha256_hex hmac_sha256 json_parse admin_limit customer_limit go env (nowSeconds now)).
Notation load := (loadApplicationSession sha256_hex hmac_sha256 json_parse go env (nowSeconds now)).
Notation core_api := (proxyCoreAPI sha256_hex hmac_sha256 json_parse json_text admin_limit customer_limit go core params_text env now).
Notation home := (customerHomeAPI sha256_hex hmac_sha256 json_parse json_text admin_limit customer_limit go core params_text encode env now).
Notation requests := (home_requests encode env).
Notation sent := (core_request sha256_hex hmac_sha256 env now).

(** A customer's session. *)
Definition customer_session (u : SessionUser) : Prop :=
  u.(su_role) = "customer" ∧ u.(su_id) ≠ "" ∧ u.(su_email) ≠ "" ∧ free_of "/" u.(su_id) ∧ encode u.(su_id) = u.(su_id).

Lemma no_cancellation customerId : free_of "/" customerId → cancel_route ("/api/core/customers/" +:+ customerId) = None.
Proof. unfold free_of, cancel_route. intros H. by rewrite strip_prefix_app, H. Qed.
Lemma profile_allowed customerId : free_of "/" customerId →
  customerCoreRouteAllowed {| url_pathname := "/api/core/customers/" +:+ customerId; url_params := [] |} "GET" customerId
    env.(we_CORE_ORGANIZATION_ID) = true.
Proof.
  intros Hfree. unfold customerCoreRouteAllowed. cbn [url_pathname url_params].
  rewrite no_cancellation, !append_cancel, (append_empty customerId), (String.eqb_refl customerId) by done.
  change "/virtual-account-requests" with (String "/" "virtual-account-requests").
  change "/va-opening-fee-quote" with (String "/" "va-opening-fee-quote"). rewrite !longer_differs. reflexivity.
Qed.
Lemma home_routes_allowed u r : customer_session u →
  Forall (λ q, customerCoreRouteAllowed q.(rq_url) "GET" u.(su_id) env.(we_CORE_ORGANIZATION_ID) = true) (requests u.(su_id) r).
Proof.
  intros (_&Hid&_&Hfree&Henc). unfold home_requests. rewrite Henc. repeat apply Forall_cons_2; [..|constructor].
  - by apply profile_allowed.
  - unfold customerCoreRouteAllowed. simpl. unfold param. simpl. by rewrite !(proj2 (opt_eqb_true _ _)).
  - unfold customerCoreRouteAllowed. simpl. unfold param. simpl. by rewrite !(proj2 (opt_eqb_true _ _)).
Qed.

(** The edge's own reads of the core are let through. *)
Lemma authorize_customer_read u q : customer_session u → q.(rq_method) = "GET" →
  customerCoreRouteAllowed q.(rq_url) "GET" u.(su_id) env.(we_CORE_ORGANIZATION_ID) = true →
  authorize_core sha256_hex env u q = Going tt.
Proof.
  intros (Hrole&Hid&He&_) Hm Hroute. unfold authorize_core. rewrite Hrole, Hm, Hroute.
  by rewrite !(proj2 (truthy_true _)) by done.
Qed.
Lemma internal_read_admitted session path params search r : customer_session (session_user session) →
  https_origin env.(we_CORE_API_BASE_URL) = true →
  let q := internalGetRequest path params search r in
  customerCoreRouteAllowed q.(rq_url) "GET" (session_user session).(su_id) env.(we_CORE_ORGANIZATION_ID) = true →
  admit_request (Some session) q = Going (session_user session, sent (session_user session) q []).
Proof.
  intros Hu Hhttps q Hroute. unfold admitted.
  assert (payload_too_large q = false) as ->.
  { unfold payload_too_large, header_of, q, internalGetRequest. cbn [rq_headers rq_body]. look. vm_compute. done. }
  cbn [refuse_if and_then request_session]. rewrite authorize_customer_read by done. rewrite Hhttps.
  unfold outgoing_body, is_from_market, isAdminConversionSubmission, isCustomerQuoteRequest, isCustomerFXSubmission, posts_to.
  cbn [q internalGetRequest rq_method]. rewrite !andb_false_r. done.
Qed.
Lemma home_reads_admitted session r q : customer_session (session_user session) →
  https_origin env.(we_CORE_API_BASE_URL) = true → q ∈ requests (session_user session).(su_id) r →
  admit_request (Some session) q = Going (session_user session, sent (session_user session) q []).
Proof.
  intros Hu Hhttps Hq. pose proof (home_routes_allowed _ r Hu) as Hall. rewrite Forall_forall in Hall. specialize (Hall q Hq).
  unfold home_requests in Hq. rewrite !elem_of_cons in Hq.
  destruct Hq as [->|[->|[->|[]%elem_of_nil]]]; by apply internal_read_admitted.
Qed.

(** ** The answers of the core *)
Lemma ok_not_redirect status : ok_status status = true → redirects status = false.
Proof. unfold ok_status, redirects. intros [H1 H2]%andb_true_iff. apply andb_false_iff. lia. Qed.
(** The core's reply to a read of the edge's own. *)
Definition replied (u : SessionUser) (q : WebRequest) (payload : json) : Prop :=
  ∃ response, core (sent u q []) = Some response ∧ ok_status response.(us_status) = true ∧
    json_parse response.(us_body) = Some payload.
(** A read whose answer is passed on, without what is internal. *)
Definition plain_read (q : WebRequest) : Prop :=
  String.eqb q.(rq_url).(url_pathname) "/api/core/accounts/summary" = false ∧
  String.eqb q.(rq_url).(url_pathname) "/api/core/rates" = false.
Lemma plain_not_reads q response : plain_read q →
  reads_route "/api/core/accounts/summary" q response = false ∧ reads_route "/api/core/rates" q response = false.
Proof. unfold plain_read, reads_route. intros [-> ->]. by rewrite !andb_false_r. Qed.

Lemma plain_read_answered session rows q payload : customer_session (session_user session) → plain_read q →
  admit_request (Some session) q = Going (session_user session, sent (session_user session) q []) →
  replied (session_user session) q payload → payload ≠ JNull →
  ∃ status, ok_status status = true ∧
    core_api (Some session) rows q = inr (Json (redactCustomerCorePayload (session_user session).(su_id) payload) status).
Proof.
  intros (Hrole&_) Hplain Hadmit (response&Hcore&Hok&Hparse) Hnull. exists response.(us_status). split; [done|].
  unfold proxyCoreAPI. rewrite Hadmit. cbn [settle]. rewrite Hcore, ok_not_redirect by done.
  unfold present. destruct (plain_not_reads q response Hplain) as [-> ->]. rewrite Hrole, Hok, Hparse. simpl.
  by destruct payload.
Qed.
Lemma admission_refuses given q : refuses (admit_request given q).
Proof.
  unfold admitted, request_session, authorize_core, outgoing_body, from_market_body, conversion_body.
  auto 20 with refuses.
Qed.
Lemma plain_read_ok session rows q a : (session_user session).(su_role) = "customer" → plain_read q →
  q.(rq_method) = "GET" → q.(rq_body) = [] →
  core_api (Some session) rows q = inr a → ok_status (answer_status a) = true →
  ∃ payload status, replied (session_user session) q payload ∧
    a = Json (redactCustomerCorePayload (session_user session).(su_id) payload) status.
Proof.
  intros Hrole Hplain Hm Hb H Hok. unfold proxyCoreAPI in H.
  destruct (admit_request (Some session) q) as [e|a'|[u up]] eqn:Hadmit; simpl in H; [done| |].
  { injection H as <-. apply admission_refuses in Hadmit. congruence. }
  apply admitted_ok in Hadmit as (session'&body&Hses&->&_&Hout&->). injection Hses as <-.
  apply outgoing_bodyless in Hout as ->; [|by rewrite Hm|done].
  destruct (core _) as [response|] eqn:Hcore; [|done]. destruct (redirects _); [done|]. unfold present in H.
  destruct (plain_not_reads q response Hplain) as [H1 H2]. rewrite H1, H2, Hrole in H. simpl in H.
  destruct (ok_status (us_status response)) eqn:Hstatus; [|injection H as <-; simpl in Hok; congruence].
  destruct (json_parse (us_body response)) as [payload|] eqn:Hparse; [|by injection H as <-].
  exists payload, response.(us_status). split; [by exists response|]. destruct payload; by injection H as <-.
Qed.

(** C22: What a customer gets of the core's payloads is what a customer may see.
    When the edge answers a core request of a customer's session with success, and
    the request is not the read of the asset summary or of the rates, which the edge
    computes itself, the answer is the core's payload to that admitted request as
    this customer may see it, object by object at every depth: without the members
    for internal use; of metadata only the reserved opening fee's five texts; of an
    account that is not the customer's only its kind and currency; and everything
    else of the payload.  It has no member for internal use at any depth, provided
    the core writes the kind and currency of an account as texts, and redacting it
    again changes nothing. *)
Theorem payload_redacted given rows q answer :
  core_api given rows q = inr answer → ok_status (answer_status answer) = true →
  ∃ u upstream response, admit_request given q = Going (u, upstream) ∧ core upstream = Some response ∧
    (u.(su_role) = "customer" →
     ¬ (q.(rq_method) = "GET" ∧ q.(rq_url).(url_pathname) ∈ ["/api/core/accounts/summary"; "/api/core/rates"]) →
     ∃ payload shown, json_parse response.(us_body) = Some payload ∧ answer = Json shown response.(us_status) ∧
       customer_view u.(su_id) payload shown ∧
       (accounts_plain payload = true → no_internal shown = true) ∧
       redactCustomerCorePayload u.(su_id) shown = shown).
Proof.
  intros H Hok. unfold proxyCoreAPI in H. destruct (admit_request given q) as [e|a'|[u up]] eqn:Hadmit; simpl in H; [done| |].
  { injection H as <-. apply admission_refuses in Hadmit. congruence. }
  destruct (core up) as [response|] eqn:Hcore; [|done]. destruct (redirects _); [done|]. exists u, up, response.
  split; [done|]. split; [done|]. intros Hrole Hplain. unfold present in H.
  assert (∀ path, path ∈ ["/api/core/accounts/summary"; "/api/core/rates"] → reads_route path q response = false) as Hr.
  { intros path Hpath. unfold reads_route. apply not_true_iff_false. rewrite !andb_true_iff, !String.eqb_eq.
    intros [[Hm Hp] _]. apply Hplain. by rewrite Hp. }
  rewrite !Hr, Hrole in H by set_solver. simpl in H.
  destruct (ok_status (us_status response)) eqn:Hstatus; [|injection H as <-; simpl in Hok; congruence].
  destruct (json_parse (us_body response)) as [payload|]; [|by injection H as <-].
  exists payload, (redactCustomerCorePayload u.(su_id) payload).
  split_and!; [done|by destruct payload; injection H as <-|apply redact_view|apply redact_clean|apply redact_again].
Qed.

(** ** The home page *)
Definition page (profile customer operations : json) (rows : list json) (summary : json) : Answer :=
  Json (JObj [("profile", profile); ("customer", customer); ("operations", operations); ("wallets", JArr rows);
              ("assetSummary", summary)]) 200.
Notation profile_read r := (proxy_api (internalGetRequest "/api/v1/customer/profile" [] "" r) application_edge).

(** The summary as it is shown. *)
Definition shown_summary (u : SessionUser) (q : WebRequest) (summary : json) (lines : list (list (string * json))) : json :=
  valued_summary now (members summary)
    (map (value_item (quote_for sha256_hex hmac_sha256 json_parse admin_limit customer_limit go params_text env now u q) now) lines).
Lemma summary_answered session rows q summary items lines : customer_session (session_user session) →
  q.(rq_method) = "GET" → q.(rq_url).(url_pathname) = "/api/core/accounts/summary" →
  admit_request (Some session) q = Going (session_user session, sent (session_user session) q []) →
  replied (session_user session) q summary →
  json_get "distribution" (Some summary) = Some (JArr items) → existsb is_null items = false →
  customer_distribution rows (map members items) = Going lines →
  core_api (Some session) (Some rows) q = inr (Json (shown_summary (session_user session) q summary lines) 200).
Proof.
  intros (Hrole&_) Hm Hpath Hadmit (response&Hcore&Hok&Hparse) Hitems Hnull Hlines.
  unfold proxyCoreAPI. rewrite Hadmit. cbn [settle]. rewrite Hcore, ok_not_redirect by done.
  unfold present, reads_route. rewrite Hm, Hpath, Hok, Hparse, Hrole. cbn [String.eqb Ascii.eqb Bool.eqb andb].
  unfold decorate_summary, wallet_rows. destruct summary; try done. rewrite Hitems, Hnull. cbn [and_then].
  rewrite Hlines. done.
Qed.

(** C29: A customer's home page is served.  With a customer's session, the
    customer's own profile, the custody wallets, and the core's replies to the three
    reads of the page, the edge lets its own reads through and answers the page: the
    customer and the operations as the core gave them without what is internal, and
    the summary valued at the live rates, its USDT taken from the wallets. *)
Theorem home_page_served r session profileAnswer profile rows q1 q2 q3 customer operations summary items lines :
  let u := session_user session in
  r.(rq_method) = "GET" → load "customer" r = inr session → customer_session u →
  https_origin env.(we_CORE_API_BASE_URL) = true →
  profile_read r = inr profileAnswer → ok_status (answer_status profileAnswer) = true →
  answer_json json_parse profileAnswer = Some profile → json_str (json_get "id" (Some profile)) = Some u.(su_id) →
  live_wallets r = inr rows → requests u.(su_id) r = [q1; q2; q3] →
  replied u q1 customer → customer ≠ JNull → replied u q2 operations → operations ≠ JNull → replied u q3 summary →
  json_get "distribution" (Some summary) = Some (JArr items) → existsb is_null items = false →
  customer_distribution rows (map members items) = Going lines →
  home r = inr (page profile (redactCustomerCorePayload u.(su_id) customer) (redactCustomerCorePayload u.(su_id) operations)
                     rows (shown_summary u q3 summary lines)).
Proof.
  intros u Hm Hload Hu Hhttps Hprofile Hpok Hpjson Hpid Hrows Hreq H1 N1 H2 N2 H3 Hitems Hnull Hlines.
  assert (∀ q, q ∈ [q1; q2; q3] → admit_request (Some session) q = Going (u, sent u q [])) as Hadmit
    by (rewrite <- Hreq; intros q; by apply home_reads_admitted).
  unfold customerHomeAPI. rewrite Hm, Hload. cbn [negb String.eqb Ascii.eqb Bool.eqb refuse_if and_then from_fetch].
  fold u. pose proof Hu as (Hrole&Hid&He&_). rewrite Hrole, !(proj2 (truthy_true _)) by done.
  cbn [negb String.eqb Ascii.eqb Bool.eqb orb refuse_if and_then].
  rewrite Hprofile, Hrows. cbn [from_fetch and_then]. rewrite Hpok. cbn [and_then]. rewrite Hpjson. cbn [default from_option id].
  rewrite Hpid, (proj2 (opt_eqb_true _ _)) by done. cbn [negb refuse_if and_then]. rewrite Hreq. cbn [map].
  unfold home_requests in Hreq. injection Hreq as E1 E2 E3.
  destruct (plain_read_answered session (Some rows) q1 customer) as (st1&O1&->); [done|by subst q1|apply Hadmit; set_solver|done..|].
  destruct (plain_read_answered session (Some rows) q2 operations) as (st2&O2&->); [done|by subst q2|apply Hadmit; set_solver|done..|].
  rewrite (summary_answered session rows q3 summary items lines) by (done || (by subst q3) || (apply Hadmit; set_solver)).
  simpl. by rewrite O1, O2.
Qed.

Definition customer_of (session : json) : Prop := (session_user session).(su_role) = "customer" ∧ (session_user session).(su_id) ≠ "".
Lemma find_failed l failed : List.find (λ a, negb (ok_status (answer_status a))) l = Some failed → refuses (Replied (A:=Answer) failed).
Proof. intros [_ H%negb_true_iff]%List.find_some. by intros a [= <-]. Qed.
Lemma refuses_not_ok {A} a : ok_status (answer_status a) = false → refuses (Replied (A:=A) a).
Proof. by intros H b [= <-]. Qed.
Lemma fetched_ok m (answer : Answer) : refuses m → settle m inr = inr answer → ok_status (answer_status answer) = true → m = Going answer.
Proof. intros Hm H Hok. destruct m as [|a|]; simpl in H; [done| |congruence]. specialize (Hm a eq_refl). congruence. Qed.
#[local] Hint Resolve find_failed refuses_not_ok : refuses.

(** A home page is the customer's own.  An answer of the home page's route that
    is a success is a page, read with a customer's session: the profile it shows has
    the session's id, and the customer and the operations are what the core
    answered to that customer's identity, without what is internal. *)
Theorem home_page_own r answer : home r = inr answer → ok_status (answer_status answer) = true →
  ∃ session profile rows summary, load "customer" r = inr session ∧ customer_of session ∧
    json_str (json_get "id" (Some profile)) = Some (session_user session).(su_id) ∧ live_wallets r = inr rows ∧
    ∃ q1 q2 q3 customer operations, requests (session_user session).(su_id) r = [q1; q2; q3] ∧
      replied (session_user session) q1 customer ∧ replied (session_user session) q2 operations ∧
      answer = page profile (redactCustomerCorePayload (session_user session).(su_id) customer)
                 (redactCustomerCorePayload (session_user session).(su_id) operations) rows summary.
Proof.
  intros H Hok. unfold customerHomeAPI in H. apply fetched_ok in H; [|clear H|done].
  2: { repeat first [apply refuses_then; [|intros ?]|case_match]; eauto with refuses. }
  going H. apply from_fetch_going in E, E0, E1. rename x into session, x0 into profileAnswer, x1 into rows.
  clear E2 x2. apply negb_false_iff, opt_eqb_true in Hc1.
  rewrite !orb_false_iff, !negb_false_iff, !truthy_true, String.eqb_eq in Hc0. destruct Hc0 as [[Hrole Hid] He].
  unfold home_requests in *. cbn [map] in H. repeat case_match; try done. injection H as <-.
  match goal with F : List.find _ [?a; ?b; ?c] = None |- _ =>
    assert (∀ x, In x [a; b; c] → ok_status (answer_status x) = true) as Hall
      by (intros x Hx; apply (List.find_none _ _ F), negb_false_iff in Hx; exact Hx)
  end.
  repeat match goal with A : core_api _ _ ?q = inr ?a |- _ =>
    first [apply plain_read_ok in A as (?&?&?&?); [|done|done|done|done|apply Hall; simpl; tauto]|clear A]
  end.
  subst. cbn [answer_json] in *. simplify_eq.
  eexists session, _, rows, _. split_and!; try done. eexists _, _, _, _, _. done.
Qed.
End home.

(** ** The live valuation *)
Section valuation.
Context {JD : JsDates} {NT : JsNumberText}.
Context (quote : string → string → option LiveMarketQuote) (now : Z).

Definition text_at (key : string) (line : list (string * json)) : option string := json_str (assoc key line).
(** A line of the distribution without a value, or with the value of its balance at
    the live rate of its currency. *)
Definition line_unvalued (line : list (string * json)) : Prop :=
  assoc "reportingRate" line = Some JNull ∧ assoc "reportingValue" line = Some JNull.
Definition line_valued (line : list (string * json)) : Prop :=
  ∃ currency available frozen rate asOf, text_at "currency" line = Some currency ∧
    text_at "availableBalance" line = Some available ∧ text_at "frozenBalance" line = Some frozen ∧
    live_rate quote now currency = Some (rate, asOf) ∧ n_isFinite rate = true ∧ n_le rate (n_ofZ 0) = false ∧
    n_isFinite (n_of_string available) = true ∧ n_isFinite (n_of_string frozen) = true ∧
    text_at "reportingRate" line = Some (strip_zeros (n_toFixed rate 12)) ∧
    text_at "reportingValue" line = Some (n_toFixed (n_mul (n_add (n_of_string available) (n_of_string frozen)) rate) 8).

Lemma assoc_removed key l : key ∉ live_keys → assoc key (remove_members live_keys l) = assoc key l.
Proof.
  intros Hk. induction l as [|[k v] l IH]; [done|]. unfold remove_members in *. cbn [List.filter fst].
  destruct (includes live_keys k) eqn:E; cbn [negb]; cbn [assoc].
  - apply includes_true in E. rewrite IH. by rewrite (proj2 (String.eqb_neq key k)) by congruence.
  - by rewrite IH.
Qed.
Definition computed_keys : list string :=
  ["reportingRate"; "reportingValue"; "shareBps"; "liveAvailableValue"; "liveFrozenValue"; "marketUpdatedAt"].
Lemma spread_three a b c key (l : list (string * json)) : key ∉ computed_keys →
  assoc key (spread [("reportingRate", a); ("reportingValue", b); ("shareBps", c)] (remove_members live_keys l)) = assoc key l.
Proof.
  unfold computed_keys. rewrite !not_elem_of_cons. intros (H1&H2&H3&H4&H5&H6&_).
  rewrite assoc_spread_other by (repeat constructor; simpl; congruence).
  apply assoc_removed. unfold live_keys. rewrite !not_elem_of_cons. split_and!; try done. apply not_elem_of_nil.
Qed.
Lemma three_set a b c (l : list (string * json)) :
  let line := spread [("reportingRate", a); ("reportingValue", b); ("shareBps", c)] l in
  assoc "reportingRate" line = Some a ∧ assoc "reportingValue" line = Some b.
Proof.
  assert (NoDup ["reportingRate"; "reportingValue"; "shareBps"]) as Hnd by (apply (bool_decide_unpack _); vm_compute; reflexivity).
  split; apply assoc_spread_in; try exact Hnd; set_solver.
Qed.
(** What valuing an item does to its line. *)
Definition valued_line (item line : list (string * json)) : Prop :=
  (∀ key, key ∉ computed_keys → assoc key line = assoc key item) ∧ (line_unvalued line ∨ line_valued line).
Lemma unvalued_line item : valued_line item (unvalued item).(vi_members).
Proof. split; [intros key; apply spread_three|]. left. apply three_set. Qed.
Lemma not_computed key : includes computed_keys key = false → key ∉ computed_keys.
Proof. intros H Hin. apply includes_true in Hin. congruence. Qed.
Lemma value_item_line item : valued_line item (value_item quote now item).(vi_members).
Proof.
  unfold value_item. destruct (assoc "currency" item) as [[| | |currency| |]|] eqn:Ec; try apply unvalued_line.
  destruct (assoc "availableBalance" item) as [[| | |available| |]|] eqn:Ea; try apply unvalued_line.
  destruct (assoc "frozenBalance" item) as [[| | |frozen| |]|] eqn:Ef; try apply unvalued_line.
  destruct (live_rate quote now currency) as [[rate asOf]|] eqn:Er; [|apply unvalued_line].
  destruct (_ || n_le rate (n_ofZ 0)) eqn:Eg; [apply unvalued_line|].
  rewrite !orb_false_iff, !negb_false_iff in Eg. destruct Eg as [[[Fa Ff] Fr] Hpos]. cbn [vi_members].
  split; [intros key; apply spread_three|]. right. exists currency, available, frozen, rate, asOf. unfold text_at.
  rewrite !spread_three by (by apply not_computed). rewrite Ec, Ea, Ef.
  edestruct three_set as [-> ->]. done.
Qed.

(** The lines as they are shown, with their share of the total. *)
Definition shown_line (valued : list ValuedSummaryItem) (v : ValuedSummaryItem) : list (string * json) :=
  spread [("shareBps", share_of (n_add (n_sum vi_available valued) (n_sum vi_frozen valued)) v)] v.(vi_members).
Lemma shown_line_keeps valued v key : key ≠ "shareBps" → assoc key (shown_line valued v) = assoc key v.(vi_members).
Proof. intros H. apply assoc_spread_other. repeat constructor. simpl. congruence. Qed.
Lemma shown_line_valued valued v item : valued_line item v.(vi_members) → valued_line item (shown_line valued v).
Proof.
  unfold valued_line, line_unvalued, line_valued, text_at. intros [Hkeys Hline]. split.
  - intros key Hkey. rewrite shown_line_keeps; [by apply Hkeys|]. intros ->. apply Hkey. unfold computed_keys. set_solver.
  - by rewrite !shown_line_keeps by done.
Qed.
Definition line_missing (line : list (string * json)) : option string :=
  match assoc "reportingRate" line with Some JNull => text_at "currency" line | _ => None end.
Lemma missing_shown valued l : missing_rates l = omap line_missing (map (shown_line valued) l).
Proof.
  unfold missing_rates. induction l as [|v l IH]; [done|]. cbn [omap list_omap map].
  assert ((if has_rate v then None else item_currency v) = line_missing (shown_line valued v)) as <-.
  { unfold has_rate, item_currency, line_missing, text_at. rewrite !shown_line_keeps by done. by repeat case_match. }
  destruct (if has_rate v then None else item_currency v); by rewrite <- IH.
Qed.

Lemma lines_valued valued source : Forall2 valued_line source (map (shown_line valued) (map (value_item quote now) source)).
Proof. induction source as [|item l IH]; constructor; [apply shown_line_valued, value_item_line|done]. Qed.
Lemma summary_member summary valued key v :
  (key, v) ∈ [("valuationStatus", JStr (match missing_rates valued with [] => "complete" | _ => "partial" end));
              ("missingRates", JArr (map JStr (missing_rates valued)));
              ("distribution", JArr (map (λ w, JObj (shown_line valued w)) valued))] →
  json_get key (Some (valued_summary now summary valued)) = Some v.
Proof. intros H. apply assoc_spread_in; [apply (bool_decide_unpack _); vm_compute; reflexivity|]. set_solver. Qed.

(** The lines the valuation starts from. *)
Definition sourced (customer : bool) (wallets : Outcome (list json)) (items source : list (list (string * json))) : Prop :=
  if customer then ∃ rows, wallets = Going rows ∧ customer_distribution rows items = Going source else source = items.
Lemma customer_usdt rows items source line : customer_distribution rows items = Going source → line ∈ source →
  text_at "currency" line = Some "USDT" → line = wallet_line (List.filter active_wallet rows) ∧ List.filter active_wallet rows ≠ [].
Proof.
  unfold customer_distribution. destruct (existsb is_null rows); [done|]. intros H Hin Husdt. going H. injection H as <-.
  apply elem_of_app in Hin as [[_ Hin]%list_elem_of_In%List.filter_In|Hin].
  - unfold text_at in Husdt. rewrite Husdt in Hin. done.
  - destruct (List.filter active_wallet rows); [by apply elem_of_nil in Hin|]. by apply list_elem_of_singleton in Hin as ->.
Qed.

(** C30: The live summary values every line at the live rate of its currency or says
    that it does not.  Each line keeps its currency, its balances and its accounts;
    it carries the value of its balances at the live rate of its currency, a
    positive finite number (the dollar's is 1), or no value at all, and then its
    currency is among the missing rates; the summary is called complete exactly
    when none is missing.  What a customer sees as USDT is the custody wallets'
    sum, never the ledger's. *)
Theorem live_summary_truthful customer wallets summary j status :
  decorate_summary quote now customer wallets (Some summary) = Going (Json j status) →
  ∃ items source lines, json_get "distribution" (Some summary) = Some (JArr items) ∧
    sourced customer wallets (map members items) source ∧
    json_get "distribution" (Some j) = Some (JArr (map JObj lines)) ∧
    Forall2 valued_line source lines ∧
    json_get "missingRates" (Some j) = Some (JArr (map JStr (omap line_missing lines))) ∧
    (json_get "valuationStatus" (Some j) = Some (JStr "complete") ↔ omap line_missing lines = []) ∧
    (customer = true → ∀ line, line ∈ source → text_at "currency" line = Some "USDT" →
       ∃ rows, wallets = Going rows ∧ line = wallet_line (List.filter active_wallet rows) ∧ List.filter active_wallet rows ≠ []).
Proof.
  intros H. unfold decorate_summary in H. destruct (json_get "distribution" (Some summary)) as [d|] eqn:Ed; [|by destruct summary].
  assert (∃ items, d = JArr items) as [items ->] by (destruct summary, d; try discriminate H; eauto).
  destruct (is_null summary) eqn:En; [by destruct summary|].
  assert (existsb is_null items = false) as Hnull by (destruct summary; [done|destruct (existsb _ _); done..]).
  rewrite Hnull in H.
  assert (∃ source, sourced customer wallets (map members items) source ∧
            j = valued_summary now (members summary) (map (value_item quote now) source)) as (source&Hsource&->).
  { destruct summary; [done|..]; going H; injection H as <- _; eexists; (split; [|done]); unfold sourced;
      (destruct customer; [going E; eauto|by injection E as <-]). }
  set (valued := map (value_item quote now) source).
  exists items, source, (map (shown_line valued) valued). split_and!; try done.
  - rewrite map_map. apply summary_member. set_solver.
  - apply lines_valued.
  - rewrite <- missing_shown. apply summary_member. set_solver.
  - rewrite <- missing_shown, (summary_member _ valued "valuationStatus"
      (JStr (match missing_rates valued with [] => "complete" | _ => "partial" end))) by (by left).
    by destruct (missing_rates valued).
  - intros -> line Hin Husdt. destruct Hsource as (rows&Hrows&Hdist). exists rows. split; [done|]. by eapply customer_usdt.
Qed.
End valuation.

(** ** Witnesses *)
Definition home_request : WebRequest := edge_request "GET" "/api/core/customer/home" "customer" "".
Lemma sample_customer_session : customer_session plain (session_user customer_json).
Proof. repeat split; try reflexivity; discriminate. Qed.
Definition home_read (n : nat) : WebRequest := nth n (home_requests plain edge_env "cus" home_request) home_request.
Lemma payload_redacted_witness : ∃ answer shown,
  proxyCoreAPI sample_hash sample_mac sample_parse sample_text no_limit no_limit sample_go sample_core sample_params edge_env edge_now
    (Some customer_json) None (home_read 0) = inr answer ∧ answer = Json shown 200 ∧
  customer_view "cus" (JObj [("id", JStr "cus"); ("reviewNote", JStr "internal")]) shown ∧ no_internal shown = true.
Proof.
  eexists. exists (JObj [("id", JStr "cus")]). split; [vm_compute; reflexivity|].
  destruct (payload_redacted sample_hash sample_mac sample_parse sample_text no_limit no_limit sample_go sample_core sample_params
    edge_env edge_now (Some customer_json) None (home_read 0) (Json (JObj [("id", JStr "cus")]) 200))
    as (u&up&response&Ha&Hc&H); [vm_compute; reflexivity..|].
  assert (u = session_user customer_json) as -> by (apply admitted_ok in Ha as (s'&?&Hs&->&_); by injection Hs as <-).
  destruct H as (payload&shown&Hp&Hshown&Hview&Hclean&_); [reflexivity|intros [_ Hin]; revert Hin; apply (bool_decide_unpack _); vm_compute; reflexivity|].
  injection Hshown as <- Hst. split; [reflexivity|].
  assert (payload = JObj [("id", JStr "cus"); ("reviewNote", JStr "internal")]) as ->.
  { apply admitted_ok in Ha as (s'&body&Hs&_&_&_&->). injection Hs as <-. revert Hc Hp. vm_compute. intros [= <-]. by intros [= <-]. }
  split; [exact Hview|]. apply Hclean. reflexivity.
Defined.
Lemma home_replied n body payload :
  sample_core (core_request sample_hash sample_mac edge_env edge_now (session_user customer_json) (home_read n) []) = reply body →
  sample_parse (utf8 body) = Some payload →
  replied sample_hash sample_mac sample_parse sample_core edge_env edge_now (session_user customer_json) (home_read n) payload.
Proof. intros H Hp. eexists. split; [exact H|]. split; [reflexivity|exact Hp]. Qed.
Lemma home_page_served_witness : ∃ summary,
  sample_home home_request = inr (page (JObj [("id", JStr "cus")]) (JObj [("id", JStr "cus")]) (JArr []) [sample_wallet] summary).
Proof.
  eexists. etransitivity.
  - apply (home_page_served sample_hash sample_mac sample_parse sample_text no_limit no_limit sample_go sample_core sample_params
      plain edge_env edge_now home_request customer_json (Passed 200 "application/json" [] (utf8 "profile")) (JObj [("id", JStr "cus")])
      [sample_wallet] (home_read 0) (home_read 1) (home_read 2) (JObj [("id", JStr "cus"); ("reviewNote", JStr "internal")]) (JArr [])
      sample_summary sample_items
      [members (sample_line "EUR" "100"); members (sample_line "USD" "3"); wallet_line [sample_wallet]]).
    all: first [exact sample_customer_session|discriminate|vm_compute; reflexivity
      |apply (home_replied _ "customer"); vm_compute; reflexivity|apply (home_replied _ "operations"); vm_compute; reflexivity
      |apply (home_replied _ "summary"); vm_compute; reflexivity].
  - reflexivity.
Defined.
Lemma home_page_own_witness : ∃ answer, sample_home home_request = inr answer ∧
  ∃ profile, json_str (json_get "id" (Some profile)) = Some "cus" ∧
    ∃ customer operations rows summary, answer = page profile customer operations rows summary.
Proof.
  assert (match sample_home home_request with inr answer => ok_status (answer_status answer) | inl _ => false end = true) as Hrun
    by (vm_compute; reflexivity).
  destruct (sample_home home_request) as [|answer] eqn:H; [discriminate Hrun|]. exists answer. split; [reflexivity|].
  destruct (home_page_own _ _ _ _ _ _ _ _ _ _ _ _ _ _ H Hrun) as (session&profile&rows&summary&Hload&_&Hid&_&Hrest).
  destruct Hrest as (q1&q2&q3&customer&operations&_&_&_&->). vm_compute in Hload. injection Hload as <-.
  exists profile. split; [exact Hid|]. eexists _, _, _, _. reflexivity.
Defined.
Definition sample_quote (base _ : string) : option LiveMarketQuote :=
  if String.eqb base "EUR" then quote_of "EUR" "USD" (Some sample_quote_json) else None.
Lemma live_summary_truthful_witness : ∃ j source lines,
  decorate_summary sample_quote edge_now true (Going [sample_wallet]) (Some sample_summary) = Going (Json j 200) ∧
  json_get "distribution" (Some j) = Some (JArr (map JObj lines)) ∧ Forall2 (valued_line sample_quote edge_now) source lines ∧
  length lines = 3%nat ∧ json_get "missingRates" (Some j) = Some (JArr [JStr "USDT"]).
Proof.
  destruct (decorate_summary sample_quote edge_now true (Going [sample_wallet]) (Some sample_summary)) as [|a|a] eqn:H;
    [vm_compute in H; discriminate H..|].
  destruct a as [j status|]; [|vm_compute in H; discriminate H].
  destruct (live_summary_truthful _ _ _ _ _ _ _ H) as (items&source&lines&_&_&Hlines&Hall&_&_&_).
  assert (status = 200) as -> by (vm_compute in H; congruence).
  exists j, source, lines. split; [reflexivity|]. split; [exact Hlines|]. split; [exact Hall|].
  assert (match decorate_summary sample_quote edge_now true (Going [sample_wallet]) (Some sample_summary) with
          | Going (Json j _) => match json_get "distribution" (Some j), json_get "missingRates" (Some j) with
              | Some (JArr l), Some (JArr [JStr m]) => Nat.eqb (length l) 3 && String.eqb m "USDT" | _, _ => false end
          | _ => false end = true) as Hc by (vm_compute; reflexivity).
  rewrite H, Hlines in Hc. destruct (json_get "missingRates" (Some j)) as [[| | | |[|[| | |m| |] [|]]|]|]; try discriminate Hc.
  apply andb_true_iff in Hc as [Hl%Nat.eqb_eq Hm%String.eqb_eq]. rewrite length_map in Hl. subst m. split; [exact Hl|reflexivity].
Defined.

(** ** What the code does not do *)
(** An administrator may not decide over a customer through the core, but only as the
    path is spelled: with a slash at its end, or in another case, which the core's
    router takes for the same route, the decision is let through. *)
Example disabled_decision_spelled_otherwise :
  isDisabledAdminCustomerLifecycleMutation "/api/core/customers/c1/approve" "PATCH" = true ∧
  isDisabledAdminCustomerLifecycleMutation "/api/core/customers/c1/approve/" "PATCH" = false ∧
  isDisabledAdminCustomerLifecycleMutation "/api/core/customers/c1/Approve" "PATCH" = false ∧
  requiredAdminCorePermission "/api/core/customers/c1/approve/" "PATCH" = Some perm_customerReview.
Proof. vm_compute. repeat split; reflexivity. Qed.
(** A balance of the custody wallets goes through a binary64. *)
Definition large_wallet : json :=
  JObj [("status", JStr "active"); ("available_balance", JStr "123456789.12345671"); ("frozen_balance", JStr "0")].
Example wallet_balance_rounded : text_at "availableBalance" (wallet_line [large_wallet]) = Some "123456789.12345672".
Proof. vm_compute. reflexivity. Qed.
