(* ===== verification/D1Gateway.v ===== *)
(** The gateway to the edge's D1 database ([worker-d1-gateway/index.ts]): a worker
    that runs batches of SQL statements for the authentication service.  A batch
    must be signed, recent and short; a statement must read, or be one of a fixed
    list of writes.

    HMAC, [JSON.parse] and the database are arguments: [batch] runs prepared
    statements, and throws or gives the results and the next database. *)
From S2P Require Import Prelude Schema JsNumber TronAddress EdgeAuth RoutePolicy EdgeWorker.
From Stdlib Require Import Ascii SpecFloat.

Definition MAX_CLOCK_SKEW_SECONDS : Z := 60.
Definition MAX_BODY_BYTES : Z := 128 * 1024.
Definition MAX_STATEMENTS : nat := 64.
Definition MAX_SQL_BYTES : nat := Z.to_nat (32 * 1024).

(** [Number.isInteger] *)
Definition n_isInteger (x : number) : bool :=
  match x with
  | S754_zero _ => true
  | S754_finite _ m e => (0 <=? e) || (Z.pos m mod 2 ^ (- e) =? 0)
  | _ => false
  end.

(** ** Statements *)
(** [text.replace(/\s+/g, ' ')] *)
Fixpoint collapse (inside : bool) (l : list ascii) : list ascii :=
  match l with
  | c :: l' => if is_space c then (if inside then [] else [" "%char]) ++ collapse true l' else c :: collapse false l'
  | [] => []
  end.
Definition collapse_spaces (s : string) : string :=
  String.string_of_list_ascii (collapse false (String.list_ascii_of_string s)).
Definition normalizeSQL (sql : string) : string := toUpperCase (collapse_spaces (trim sql)).

Definition ALLOWED_WRITE_SQL : list string :=
  map normalizeSQL [
   "INSERT OR IGNORE INTO cregis_wallets
      (id, tenant_id, customer_id, idempotency_key, chain_id, token_id, currency, alias, status, created_by, created_at, updated_at)
      VALUES (?, ?, ?, ?, ?, ?, ?, ?, 'creating', ?, ?, ?)";
   "UPDATE cregis_wallets SET status='error', updated_at=? WHERE id=? AND status='creating'";
   "UPDATE cregis_wallets
      SET address=?, custody_provider='cregis', ownership_verified_at=?, status='active', updated_at=?
      WHERE id=? AND tenant_id=? AND status='creating'";
   "UPDATE cregis_wallets
      SET address=?, status='error', updated_at=? WHERE id=? AND tenant_id=? AND status='creating'";
   "INSERT OR IGNORE INTO cregis_withdrawals
      (id, tenant_id, customer_id, wallet_id, idempotency_key, third_party_id, currency, amount_text, amount_minor,
       from_address, to_address, memo, remark, status, maker_id, created_at, updated_at)
      SELECT ?, ?, ?, w.id, ?, ?, ?, ?, ?, w.address, ?, ?, ?, 'submitted', ?, ?, ?
      FROM cregis_wallets w JOIN customers c ON c.id=w.customer_id AND c.tenant_id=w.tenant_id
      WHERE w.id=? AND w.tenant_id=? AND w.customer_id=? AND w.chain_id=? AND w.token_id=? AND w.currency=?
        AND w.status='active' AND w.custody_provider='cregis' AND w.ownership_verified_at IS NOT NULL
        AND c.status='active' AND c.kyc_status='approved' AND c.operations_status='active'
        AND ? <= COALESCE((SELECT SUM(d.amount_minor) FROM cregis_deposits d
          WHERE d.tenant_id=w.tenant_id AND d.wallet_id=w.id AND d.status='completed'), 0)
          - COALESCE((SELECT SUM(x.amount_minor) FROM cregis_withdrawals x
            WHERE x.tenant_id=w.tenant_id AND x.wallet_id=w.id AND x.customer_id=c.id
              AND x.status NOT IN ('rejected', 'failed', 'cancelled')), 0)";
   "UPDATE cregis_withdrawals
      SET status='approved', checker_id=?, approved_at=?, updated_at=?
      WHERE id=? AND tenant_id=? AND status='submitted'";
   "UPDATE cregis_withdrawals
      SET status='rejected', checker_id=?, rejection_reason=?, updated_at=?
      WHERE id=? AND tenant_id=? AND status='submitted'";
   "UPDATE cregis_withdrawals SET status='executing', operator_id=?, updated_at=?
      WHERE id=? AND tenant_id=? AND status='approved' AND checker_id IS NOT NULL";
   "UPDATE cregis_withdrawals SET status='failed', updated_at=? WHERE id=? AND status='executing'";
   "UPDATE cregis_withdrawals SET status='exception', updated_at=? WHERE id=? AND status='executing'";
   "UPDATE cregis_withdrawals
      SET status='submitted_to_cregis', cregis_cid=?, submitted_at=?, updated_at=?
      WHERE id=? AND status='executing'";
   "UPDATE cregis_withdrawals
      SET status='submitted_to_cregis', cregis_cid=?, reconciliation_note=?, reconciled_by=?, reconciled_at=?, updated_at=?
      WHERE id=? AND tenant_id=? AND status='exception'";
   "UPDATE cregis_withdrawals
      SET status='failed', reconciliation_note=?, reconciled_by=?, reconciled_at=?, updated_at=?
      WHERE id=? AND tenant_id=? AND status='exception'";
   "UPDATE cregis_withdrawals
      SET status='cancelled', reconciliation_note=?, reconciled_by=?, reconciled_at=?, updated_at=?
      WHERE id=? AND tenant_id=? AND status='exception'";
   "INSERT OR IGNORE INTO cregis_callback_events
      (id, event_type, cregis_cid, status, payload_sha256, received_at) VALUES (?, 'deposit', ?, ?, ?, ?)";
   "INSERT OR IGNORE INTO cregis_deposits
      (id, tenant_id, wallet_id, cregis_cid, chain_id, token_id, currency, address, amount_text, amount_minor,
       status, txid, block_height, block_time, received_at, raw_sha256)
      VALUES (?, ?, ?, ?, ?, ?, ?, ?, ?, ?, ?, ?, ?, ?, ?, ?)";
   "INSERT OR IGNORE INTO cregis_callback_events
      (id, event_type, cregis_cid, status, payload_sha256, received_at) VALUES (?, 'payout', ?, ?, ?, ?)";
   "UPDATE cregis_withdrawals SET status='submitted_to_cregis', cregis_cid=?, submitted_at=COALESCE(submitted_at, ?), updated_at=?
      WHERE tenant_id=? AND third_party_id=? AND status IN ('executing', 'exception')";
   "UPDATE cregis_withdrawals SET status=?, cregis_cid=?, txid=?, block_height=?, block_time=?, completed_at=?, updated_at=?
      WHERE tenant_id=? AND third_party_id=? AND status='submitted_to_cregis'";
   "INSERT OR IGNORE INTO customers
      (id, tenant_id, email, display_name, status, kyc_status, operations_status, created_by, created_at, updated_at)
      VALUES (?, ?, ?, ?, 'pending_setup', 'pending', 'pending', ?, ?, ?)";
   "INSERT INTO customer_auth_audit_events
      (id, customer_id, event_type, actor, metadata_json, created_at)
      SELECT ?, ?, 'customer.created', ?, '{}', ?
      WHERE EXISTS (SELECT 1 FROM customers WHERE id=? AND tenant_id=? AND kyc_status='pending' AND operations_status='pending')";
   "INSERT OR IGNORE INTO customer_applications
      (id, tenant_id, customer_id, application_reference, idempotency_key, request_fingerprint,
       account_type, phone_country_code, phone, residence_country, full_name, date_of_birth,
       nationality, legal_name, registration_number, incorporation_country, contact_name,
       contact_role, beneficial_owner_name, beneficial_owner_ownership, kyc_consent_at,
       terms_accepted_at, submitted_at, updated_at)
      SELECT ?, ?, ?, ?, ?, ?, ?, ?, ?, ?, ?, ?, ?, ?, ?, ?, ?, ?, ?, ?, ?, ?, ?, ?
      WHERE EXISTS (SELECT 1 FROM customers
        WHERE id=? AND tenant_id=? AND status='pending_setup' AND kyc_status='pending'
          AND operations_status='pending')";
   "INSERT INTO customer_auth_audit_events
      (id, customer_id, event_type, actor, metadata_json, created_at)
      SELECT ?, ?, 'customer.registration_submitted', 'public_registration', ?, ?
      WHERE EXISTS (SELECT 1 FROM customer_applications
        WHERE id=? AND customer_id=? AND tenant_id=?)";
   "INSERT INTO customer_auth_audit_events
      (id, customer_id, event_type, actor, metadata_json, created_at)
      SELECT ?, ?, 'auth.password_enrolled', ?, '{}', ?
      WHERE EXISTS (SELECT 1 FROM customer_credentials WHERE customer_id=? AND enrollment_token_hash=?)";
   "UPDATE customer_credentials SET failed_attempts=?, locked_until=?, updated_at=?
      WHERE customer_id=?";
   "INSERT INTO customer_auth_audit_events
      (id, customer_id, event_type, actor, metadata_json, created_at) VALUES (?, ?, 'auth.login_failed', ?, '{}', ?)";
   "UPDATE customers SET status='active', updated_at=?
      WHERE id=? AND tenant_id=? AND status='pending_setup' AND kyc_status='approved' AND operations_status='active'";
   "INSERT INTO customer_recovery_codes
      (id, customer_id, code_hash, created_at) VALUES (?, ?, ?, ?)";
   "INSERT INTO customer_auth_audit_events
      (id, customer_id, event_type, actor, metadata_json, created_at)
      SELECT ?, ?, 'auth.login_succeeded', ?, ?, ?
      WHERE EXISTS (SELECT 1 FROM customer_sessions WHERE id=? AND customer_id=?)";
   "UPDATE customer_sessions SET revoked_at=?, last_seen_at=?
      WHERE id=? AND revoked_at IS NULL";
   "INSERT INTO customer_auth_audit_events
      (id, customer_id, event_type, actor, metadata_json, created_at) VALUES (?, ?, 'auth.logout', ?, '{}', ?)";
   "UPDATE customers
      SET kyc_status=?, kyc_reviewed_by=?, kyc_reviewed_at=?, kyc_review_note=?, updated_at=?
      WHERE id=? AND tenant_id=? AND kyc_status='pending' AND operations_status='pending'";
   "INSERT INTO customer_auth_audit_events
      (id, customer_id, event_type, actor, metadata_json, created_at)
      SELECT ?, ?, 'customer.kyc_reviewed', ?, ?, ?
      WHERE EXISTS (SELECT 1 FROM customers
        WHERE id=? AND tenant_id=? AND kyc_reviewed_by=? AND kyc_reviewed_at=?)";
   "UPDATE customers
      SET operations_status='active', activated_by=?, activated_at=?, updated_at=?
      WHERE id=? AND tenant_id=? AND kyc_status='approved' AND operations_status='pending'
        AND status IN ('pending_setup', 'active')";
   "INSERT INTO customer_credentials
      (customer_id, password_iterations, setup_token_hash, setup_expires_at, updated_at)
      SELECT ?, ?, ?, ?, ?
      WHERE EXISTS (SELECT 1 FROM customers
        WHERE id=? AND tenant_id=? AND status='pending_setup' AND kyc_status='approved'
          AND operations_status='active' AND activated_by=? AND activated_at=?)
      ON CONFLICT(customer_id) DO UPDATE SET
        password_iterations=excluded.password_iterations,
        setup_token_hash=excluded.setup_token_hash,
        setup_expires_at=excluded.setup_expires_at,
        setup_consumed_at=NULL,
        enrollment_token_hash=NULL,
        enrollment_expires_at=NULL,
        updated_at=excluded.updated_at";
   "INSERT INTO customer_auth_audit_events
      (id, customer_id, event_type, actor, metadata_json, created_at)
      SELECT ?, ?, 'customer.operations_activated', ?, ?, ?
      WHERE EXISTS (SELECT 1 FROM customers
        WHERE id=? AND tenant_id=? AND operations_status='active' AND activated_by=? AND activated_at=?)";
   "UPDATE customer_credentials
      SET password_salt=?, password_hash=?, password_algorithm=?, password_iterations=0,
          password_memory_kib=?, password_time_cost=?, password_parallelism=?,
          password_changed_at=?, totp_secret_ciphertext=?, totp_last_counter=-1,
          setup_consumed_at=?, enrollment_token_hash=?, enrollment_expires_at=?, updated_at=?
      WHERE customer_id=? AND setup_token_hash=? AND setup_consumed_at IS NULL AND setup_expires_at>?";
   "UPDATE customer_credentials
      SET password_salt=?, password_hash=?, password_algorithm=?, password_iterations=0,
          password_memory_kib=?, password_time_cost=?, password_parallelism=?, updated_at=?
      WHERE customer_id=? AND credential_version=? AND password_algorithm='pbkdf2-sha256-v1'";
   "UPDATE customer_credentials SET failed_attempts=0, locked_until=NULL, updated_at=?
      WHERE customer_id=? AND credential_version=?";
   "INSERT INTO customer_login_challenges
      (id, customer_id, token_hash, expires_at, credential_version, created_at) VALUES (?, ?, ?, ?, ?, ?)";
   "UPDATE customer_login_challenges SET attempts=attempts+1
      WHERE token_hash=? AND consumed_at IS NULL AND expires_at>? AND attempts<?";
   "UPDATE customer_credentials
      SET setup_token_hash=NULL, setup_expires_at=NULL, enrollment_token_hash=NULL, enrollment_expires_at=NULL,
          totp_last_counter=?, updated_at=?
      WHERE customer_id=? AND enrollment_token_hash=? AND credential_version=? AND totp_last_counter<?";
   "UPDATE customer_login_challenges SET consumed_at=?
      WHERE id=? AND customer_id=? AND credential_version=? AND consumed_at IS NULL
        AND EXISTS (SELECT 1 FROM customer_credentials
          WHERE customer_id=? AND credential_version=?)";
   "UPDATE customer_recovery_codes SET used_at=?
      WHERE id=? AND customer_id=? AND used_at IS NULL
        AND EXISTS (SELECT 1 FROM customer_login_challenges
          WHERE id=? AND customer_id=? AND consumed_at=?)";
   "UPDATE customer_credentials SET totp_last_counter=?, updated_at=?
      WHERE customer_id=? AND credential_version=? AND totp_last_counter<?";
   "INSERT INTO customer_sessions
      (id, customer_id, token_hash, csrf_hash, credential_version, expires_at, idle_expires_at, created_at, last_seen_at)
      SELECT ?, ?, ?, ?, ?, ?, ?, ?, ?
      WHERE EXISTS (SELECT 1 FROM customer_recovery_codes WHERE id=? AND customer_id=? AND used_at=?)
        AND EXISTS (SELECT 1 FROM customer_login_challenges WHERE id=? AND customer_id=? AND consumed_at=?)
        AND EXISTS (SELECT 1 FROM customer_credentials WHERE customer_id=? AND credential_version=?)";
   "INSERT INTO customer_sessions
      (id, customer_id, token_hash, csrf_hash, credential_version, expires_at, idle_expires_at, created_at, last_seen_at)
      SELECT ?, ?, ?, ?, ?, ?, ?, ?, ?
      WHERE EXISTS (SELECT 1 FROM customer_login_challenges WHERE id=? AND customer_id=? AND consumed_at=?)
        AND EXISTS (SELECT 1 FROM customer_credentials
          WHERE customer_id=? AND credential_version=? AND totp_last_counter=?)";
   "INSERT INTO customer_sessions
      (id, customer_id, token_hash, csrf_hash, credential_version, expires_at, idle_expires_at, created_at, last_seen_at)
      SELECT ?, ?, ?, ?, ?, ?, ?, ?, ?
      WHERE EXISTS (SELECT 1 FROM customer_credentials
        WHERE customer_id=? AND credential_version=? AND enrollment_token_hash IS NULL
          AND updated_at=? AND totp_last_counter=?)";
   "INSERT INTO customer_sessions
      (id, customer_id, token_hash, csrf_hash, credential_version, expires_at, idle_expires_at, created_at, last_seen_at)
      VALUES (?, ?, ?, ?, ?, ?, ?, ?, ?)";
   "UPDATE customer_sessions
      SET last_seen_at=?, idle_expires_at=?
      WHERE id=? AND revoked_at IS NULL AND expires_at>? AND idle_expires_at>?";
   "UPDATE customer_credentials
      SET password_salt=?, password_hash=?, password_algorithm=?, password_iterations=0,
          password_memory_kib=?, password_time_cost=?, password_parallelism=?,
          password_changed_at=?, credential_version=?, totp_last_counter=?,
          failed_attempts=0, locked_until=NULL, updated_at=?
      WHERE customer_id=? AND credential_version=? AND totp_last_counter<?";
   "UPDATE customer_sessions SET revoked_at=?, last_seen_at=?
      WHERE customer_id=? AND id<>? AND revoked_at IS NULL";
   "UPDATE customer_sessions
      SET credential_version=?, last_seen_at=?, idle_expires_at=?
      WHERE id=? AND customer_id=? AND revoked_at IS NULL AND credential_version=?";
   "UPDATE customer_login_challenges SET consumed_at=?
      WHERE customer_id=? AND consumed_at IS NULL";
   "INSERT INTO customer_auth_audit_events
      (id, customer_id, event_type, actor, metadata_json, created_at)
      SELECT ?, ?, 'auth.password_changed', ?, '{}', ?
      WHERE EXISTS (SELECT 1 FROM customer_sessions
        WHERE id=? AND customer_id=? AND credential_version=? AND revoked_at IS NULL)"].

(** [\w], and the regular expressions [/^(A|B)\b/i] and [/\b(A|B)\b/i] over keywords. *)
Definition word_char (c : ascii) : bool :=
  let n := nat_of_ascii c in
  (Nat.leb 48 n && Nat.leb n 57) || (Nat.leb 65 n && Nat.leb n 90) || (Nat.leb 97 n && Nat.leb n 122) || Nat.eqb n 95.
Definition boundary (l : list ascii) : bool := match l with c :: _ => negb (word_char c) | [] => true end.
Fixpoint matches_keyword (k l : list ascii) : bool :=
  match k, l with
  | [], _ => boundary l
  | x :: k', c :: l' => Ascii.eqb x (upper_char c) && matches_keyword k' l'
  | _ :: _, [] => false
  end.
Definition keyword_at (keywords : list string) (l : list ascii) : bool :=
  existsb (λ k, matches_keyword (String.list_ascii_of_string k) l) keywords.
Fixpoint keyword_in (keywords : list string) (after_word : bool) (l : list ascii) : bool :=
  match l with
  | c :: l' => (negb after_word && keyword_at keywords l) || keyword_in keywords (word_char c) l'
  | [] => false
  end.
Definition starts_with_keyword (keywords : list string) (s : string) : bool :=
  keyword_at keywords (String.list_ascii_of_string s).
Definition has_keyword (keywords : list string) (s : string) : bool :=
  keyword_in keywords false (String.list_ascii_of_string s).

Definition STATEMENT_KEYWORDS : list string := ["SELECT"; "INSERT"; "UPDATE"; "WITH"].
Definition SCHEMA_KEYWORDS : list string :=
  ["PRAGMA"; "ATTACH"; "DETACH"; "VACUUM"; "CREATE"; "ALTER"; "DROP"; "REINDEX"].
Definition WRITE_KEYWORDS : list string := ["INSERT"; "UPDATE"].
Definition CHANGE_KEYWORDS : list string := ["INSERT"; "UPDATE"; "DELETE"; "REPLACE"].

(** The checks of [validStatement] on the text of a statement, and on the value of
    [params]. *)
Definition valid_sql (text : string) : bool :=
  let sql := trim text in
  if negb (truthy sql) || Nat.ltb MAX_SQL_BYTES (String.length sql) then false
  else if contains ";" sql then false
  else if negb (starts_with_keyword STATEMENT_KEYWORDS sql) then false
  else if has_keyword SCHEMA_KEYWORDS sql then false
  else
    let normalized := normalizeSQL sql in
    if starts_with_keyword WRITE_KEYWORDS normalized && negb (includes ALLOWED_WRITE_SQL normalized) then false
    else if starts_with_keyword ["WITH"] normalized && has_keyword CHANGE_KEYWORDS normalized then false
    else true.
Definition TypeError : exn := PlainError "TypeError".
Definition plain_param (value : json) : bool :=
  match value with JNull | JStr _ | JNum _ => true | _ => false end.
Definition valid_params (params : option json) : exn + bool :=
  match params with
  | None | Some JNull | Some (JBool false) | Some (JStr "") | Some (JNum 0) => inr true
  | Some (JArr l) => inr (forallb plain_param l)
  | _ => inl TypeError
  end.
Definition validStatement (statement : json) : exn + bool :=
  match json_get "sql" (Some statement) with
  | Some (JStr sql) => if valid_sql sql then valid_params (json_get "params" (Some statement)) else inr false
  | _ => inl TypeError
  end.
(** [statements.every(validStatement)] *)
Fixpoint every_valid (statements : list json) : exn + bool :=
  match statements with
  | [] => inr true
  | x :: rest => match validStatement x with
                 | inr true => every_valid rest
                 | answer => answer
                 end
  end.

(** [env.DB.prepare(statement.sql)], with its parameters bound if there are any. *)
Record Prepared := { pr_sql : string; pr_params : list json }.
Definition prepare (statement : json) : Prepared :=
  {| pr_sql := default "" (json_str (json_get "sql" (Some statement)));
     pr_params := match json_get "params" (Some statement) with Some (JArr l) => l | _ => [] end |}.

(** ** The worker *)
Record GatewayRequest := {
  gq_method : string; gq_pathname : string; gq_headers : gmap string string; gq_body : string;
}.
Definition gateway_header (name : string) (r : GatewayRequest) : string := default "" (trim <$> r.(gq_headers) !! name).
Definition parseHex (value : string) : option (list Z) := if hex64 value then Some (hex_decode value) else None.

Section gateway.
Context (hmac_sha256 : string → string → list Z) (json_parse : string → option json).
Context {DB : Type} (batch : list Prepared → DB → exn + (json * DB)).

Definition signed_text (timestamp body : string) : string := timestamp +:+ "." +:+ body.
(** [authorize]: the key of an empty secret cannot be imported. *)
Definition authorize (secret : string) (nowSeconds : Z) (r : GatewayRequest) : exn + bool :=
  let timestampValue := gateway_header "x-neobank-timestamp" r in
  let timestamp := n_of_string timestampValue in
  match parseHex (gateway_header "x-neobank-signature" r) with
  | None => inr false
  | Some signature =>
      if negb (n_isInteger timestamp) then inr false
      else if n_lt (n_ofZ MAX_CLOCK_SKEW_SECONDS) (SFabs (n_sub (n_ofZ nowSeconds) timestamp)) then inr false
      else if negb (truthy secret) then inl (PlainError "DataError")
      else inr (bool_decide (hmac_sha256 secret (signed_text timestampValue r.(gq_body)) = signature))
  end.

Definition body_too_large (r : GatewayRequest) : bool :=
  n_lt (n_ofZ MAX_BODY_BYTES) (n_of_string (default "0" (or_string (r.(gq_headers) !! "content-length") (Some "0")))) ||
  (MAX_BODY_BYTES <? Z.of_nat (String.length r.(gq_body))).
(** [payload.statements], when it is an array of an admissible length. *)
Definition statements_of (payload : json) : exn + option (list json) :=
  match payload with
  | JNull => inl TypeError
  | _ => match json_get "statements" (Some payload) with
         | Some (JArr l) => inr (if Nat.ltb (length l) 1 || Nat.ltb MAX_STATEMENTS (length l) then None else Some l)
         | _ => inr None
         end
  end.

(** [handleQuery]: a rejection leaves the database alone. *)
Definition handleQuery (secret : string) (nowSeconds : Z) (r : GatewayRequest) (db : DB) : exn + (Answer * DB) :=
  if body_too_large r then inr (failure "payload_too_large" 413, db)
  else match authorize secret nowSeconds r with
  | inl e => inl e
  | inr false => inr (failure "unauthorized" 401, db)
  | inr true =>
      match json_parse r.(gq_body) with
      | None => inr (failure "invalid_json" 400, db)
      | Some payload =>
          match statements_of payload with
          | inl e => inl e
          | inr None => inr (failure "invalid_statements" 422, db)
          | inr (Some statements) =>
              match every_valid statements with
              | inl e => inl e
              | inr false => inr (failure "invalid_statements" 422, db)
              | inr true =>
                  match batch (map prepare statements) db with
                  | inl e => inl e
                  | inr (results, db') => inr (Json (JObj [("results", results)]) 200, db')
                  end
              end
          end
      end
  end.
(** [fetch] *)
Definition gateway_fetch (secret : string) (nowSeconds : Z) (r : GatewayRequest) (db : DB) : Answer * DB :=
  if String.eqb r.(gq_pathname) "/healthz" && String.eqb r.(gq_method) "GET"
  then (Json (JObj [("status", JStr "ok"); ("service", JStr "neobank-d1-gateway")]) 200, db)
  else if String.eqb r.(gq_pathname) "/internal/d1/query" && String.eqb r.(gq_method) "POST"
  then match handleQuery secret nowSeconds r db with
       | inr answer => answer
       | inl _ => (failure "internal_error" 500, db)
       end
  else (failure "not_found" 404, db).
End gateway.
