(* ===== verification/D1Properties.v ===== *)
(** What the gateway to the D1 database lets through: the regular expressions of
    [validStatement] against the tokens of the statement, and what a changed
    database says about the request that changed it. *)
From S2P Require Import Prelude Schema JsNumber TronAddress EdgeAuth RoutePolicy EdgeWorker D1Gateway.
From Stdlib Require Import Ascii SpecFloat.

(** ** The tokens of a statement
    Words in upper case, and the other characters but spaces. *)
Inductive sql_token := Word (s : string) | Sym (c : ascii).
Fixpoint word_of (l : list ascii) : list ascii :=
  match l with c :: l' => if word_char c then upper_char c :: word_of l' else [] | [] => [] end.
Fixpoint tokens (inside : bool) (l : list ascii) : list sql_token :=
  match l with
  | [] => []
  | c :: l' =>
      if word_char c then (if inside then [] else [Word (String.string_of_list_ascii (word_of l))]) ++ tokens true l'
      else (if is_space c then [] else [Sym c]) ++ tokens false l'
  end.
Definition sql_tokens (s : string) : list sql_token := tokens false (String.list_ascii_of_string s).

(** A statement that may run: short, alone, no change of the schema; it reads, or
    it is one of the listed writes up to spaces and case. *)
Definition reads_only (s : string) : Prop :=
  (∃ rest, sql_tokens s = Word "SELECT" :: rest) ∨
  (∃ rest, sql_tokens s = Word "WITH" :: rest ∧ ∀ k, k ∈ ["INSERT"; "UPDATE"; "DELETE"; "REPLACE"] → Word k ∉ rest).
Definition admitted (s : string) : Prop :=
  Z.of_nat (String.length (trim s)) ≤ 32768 ∧ Sym ";" ∉ sql_tokens s ∧
  (∀ k, k ∈ ["PRAGMA"; "ATTACH"; "DETACH"; "VACUUM"; "CREATE"; "ALTER"; "DROP"; "REINDEX"] → Word k ∉ sql_tokens s) ∧
  (reads_only s ∨ normalizeSQL s ∈ ALLOWED_WRITE_SQL).

(** ** Characters *)
Lemma word_char_upper c : word_char (upper_char c) = word_char c.
Proof. destruct c as [[] [] [] [] [] [] [] []]; reflexivity. Qed.
Lemma is_space_upper c : is_space (upper_char c) = is_space c.
Proof. destruct c as [[] [] [] [] [] [] [] []]; reflexivity. Qed.
Lemma upper_upper c : upper_char (upper_char c) = upper_char c.
Proof. destruct c as [[] [] [] [] [] [] [] []]; reflexivity. Qed.
Lemma upper_not_word c : word_char c = false → upper_char c = c.
Proof. destruct c as [[] [] [] [] [] [] [] []]; (reflexivity || discriminate). Qed.
Lemma space_not_word c : is_space c = true → word_char c = false.
Proof. destruct c as [[] [] [] [] [] [] [] []]; (reflexivity || discriminate). Qed.

(** ** The normal form of a statement has its tokens *)
Lemma word_of_upper l : word_of (map upper_char l) = word_of l.
Proof. induction l as [|c l IH]; [done|]. simpl. by rewrite word_char_upper, upper_upper, IH. Qed.
Lemma tokens_upper l : ∀ inside, tokens inside (map upper_char l) = tokens inside l.
Proof.
  induction l as [|c l IH]; [done|]. intros inside. simpl.
  rewrite word_char_upper, is_space_upper, !IH, upper_upper, word_of_upper.
  destruct (word_char c) eqn:E; [done|]. by rewrite (upper_not_word c E).
Qed.
Lemma word_of_collapse l : word_of (collapse false l) = word_of l.
Proof.
  induction l as [|c l IH]; [done|]. simpl. destruct (is_space c) eqn:E; simpl.
  - by rewrite (space_not_word c E).
  - by rewrite IH.
Qed.
Lemma tokens_collapse l :
  (∀ inside, tokens inside (collapse false l) = tokens inside l) ∧ tokens false (collapse true l) = tokens false l.
Proof.
  induction l as [|c l [IH1 IH2]]; [done|]. simpl. destruct (is_space c) eqn:E; simpl.
  - rewrite (space_not_word c E). by rewrite !IH2.
  - rewrite E. split; [intros inside|]; by rewrite !IH1, word_of_collapse.
Qed.
Lemma tokens_drop_spaces l : tokens false (drop_spaces l) = tokens false l.
Proof.
  induction l as [|c l IH]; [done|]. simpl. destruct (is_space c) eqn:E; [|simpl; by rewrite E].
  by rewrite (space_not_word c E), IH.
Qed.
Lemma tokens_spaces sp : Forall (λ c, is_space c = true) sp → word_of sp = [] ∧ ∀ inside, tokens inside sp = [].
Proof.
  induction 1 as [|c sp E _ [IH1 IH2]]; [done|]. simpl.
  by rewrite E, (space_not_word c E), IH2.
Qed.
Lemma tokens_app_spaces sp l : Forall (λ c, is_space c = true) sp →
  word_of (l ++ sp) = word_of l ∧ ∀ inside, tokens inside (l ++ sp) = tokens inside l.
Proof.
  intros Hsp. destruct (tokens_spaces sp Hsp) as [W T].
  induction l as [|c l [IH1 IH2]]; [done|]. simpl. rewrite IH1. split; [done|].
  intros inside. by rewrite !IH2.
Qed.
Lemma tokens_trim s : sql_tokens (trim s) = sql_tokens s.
Proof.
  unfold sql_tokens, trim. rewrite list_of_string. set (l := String.list_ascii_of_string s).
  rewrite <- (tokens_drop_spaces l). destruct (drop_spaces_split (rev (drop_spaces l))) as (sp & Hsp & E).
  apply (f_equal (@rev _)) in E. rewrite rev_involutive, rev_app_distr in E. rewrite E at 2.
  symmetry. apply tokens_app_spaces. by apply Forall_rev.
Qed.
Lemma tokens_normal s : sql_tokens (normalizeSQL s) = sql_tokens s.
Proof.
  unfold normalizeSQL. rewrite <- (tokens_trim s). unfold sql_tokens, toUpperCase, map_string, collapse_spaces.
  rewrite !list_of_string. change (List.map upper_char) with (map upper_char).
  rewrite tokens_upper. apply tokens_collapse.
Qed.

(** ** The regular expressions read the tokens *)
(** A keyword: a word in upper case. *)
Definition keyword (k : string) : bool :=
  truthy k && forallb (λ c, word_char c && Ascii.eqb (upper_char c) c) (String.list_ascii_of_string k).
Lemma matches_keyword_word k l : forallb (λ c, word_char c && Ascii.eqb (upper_char c) c) k = true →
  matches_keyword k l = true ↔ word_of l = k.
Proof.
  revert l. induction k as [|x k IH]; intros l Hk; destruct l as [|c l]; simpl; try done.
  - destruct (word_char c); done.
  - apply andb_true_iff in Hk as [[Hx Ex]%andb_true_iff Hk]. apply Ascii.eqb_eq in Ex.
    rewrite andb_true_iff, Ascii.eqb_eq, (IH l Hk). destruct (word_char c) eqn:E.
    + split; [by intros [-> ->]|]. by intros [= -> ->].
    + split; [|done]. intros [-> _]. by rewrite word_char_upper, E in Hx.
Qed.
Lemma keyword_at_word ks l : forallb keyword ks = true →
  keyword_at ks l = true ↔ String.string_of_list_ascii (word_of l) ∈ ks.
Proof.
  intros Hks. unfold keyword_at. rewrite existsb_exists. rewrite forallb_forall in Hks. split.
  - intros (k & Hin & Hm). specialize (Hks k Hin). apply andb_true_iff in Hks as [_ Hk].
    apply matches_keyword_word in Hm; [|done]. rewrite Hm, String.string_of_list_ascii_of_string.
    by apply list_elem_of_In.
  - intros Hin%list_elem_of_In. exists (String.string_of_list_ascii (word_of l)). split; [done|].
    specialize (Hks _ Hin). apply andb_true_iff in Hks as [_ Hk]. apply matches_keyword_word; [done|].
    by rewrite list_of_string.
Qed.
Lemma empty_no_keyword ks : forallb keyword ks = true → "" ∉ ks.
Proof. intros Hks Hin%list_elem_of_In. rewrite forallb_forall in Hks. by specialize (Hks _ Hin). Qed.
Lemma keyword_in_tokens ks l : forallb keyword ks = true → ∀ inside,
  keyword_in ks inside l = true ↔ ∃ k, k ∈ ks ∧ Word k ∈ tokens inside l.
Proof.
  intros Hks. induction l as [|c l IH]; intros inside.
  { split; [done|]. intros (k & _ & H). by apply elem_of_nil in H. }
  cbn [keyword_in]. rewrite orb_true_iff, IH, andb_true_iff, keyword_at_word by done. cbn [tokens].
  destruct (word_char c) eqn:E.
  - rewrite negb_true_iff. split.
    + intros [[-> Hw]|(k & Hk & Hin)].
      * exists (String.string_of_list_ascii (word_of (c :: l))). split; [done|]. left.
      * exists k. split; [done|]. apply elem_of_app. by right.
    + intros (k & Hk & [Hin|Hin]%elem_of_app); [|by right; eauto]. left.
      destruct inside; [by apply elem_of_nil in Hin|]. split; [done|].
      apply list_elem_of_singleton in Hin as [= ->]. done.
  - simpl. rewrite E. split.
    + intros [[_ Hw]|(k & Hk & Hin)]; [by apply empty_no_keyword in Hw|].
      exists k. split; [done|]. apply elem_of_app. by right.
    + intros (k & Hk & [Hin|Hin]%elem_of_app); [|by right; eauto].
      destruct (is_space c); [by apply elem_of_nil in Hin|by apply list_elem_of_singleton in Hin].
Qed.
Lemma has_keyword_tokens ks s : forallb keyword ks = true →
  has_keyword ks s = true ↔ ∃ k, k ∈ ks ∧ Word k ∈ sql_tokens s.
Proof. intros Hks. by apply keyword_in_tokens. Qed.

Lemma starts_with_keyword_tokens ks s : forallb keyword ks = true → starts_plain s →
  starts_with_keyword ks s = true ↔ ∃ k rest, k ∈ ks ∧ sql_tokens s = Word k :: rest.
Proof.
  intros Hks Hs. unfold starts_with_keyword, sql_tokens, starts_plain in *.
  rewrite keyword_at_word by done. destruct (String.list_ascii_of_string s) as [|c l]; cbn [tokens].
  { split; [intros Hw; by apply empty_no_keyword in Hw|]. by intros (k & rest & _ & H). }
  destruct (word_char c) eqn:E.
  - split; [intros Hw; eauto|]. intros (k & rest & Hk & [= <- _]). exact Hk.
  - simpl. rewrite E, Hs. split; [intros Hw; by apply empty_no_keyword in Hw|]. by intros (k & rest & _ & H).
Qed.
Lemma normal_plain s : starts_plain (normalizeSQL s).
Proof.
  pose proof (trim_plain s) as Hp. revert Hp. unfold normalizeSQL, starts_plain, toUpperCase, map_string, collapse_spaces.
  rewrite !list_of_string. destruct (String.list_ascii_of_string (trim s)) as [|c l]; [done|].
  intros E. cbn [collapse]. rewrite E. simpl. by rewrite is_space_upper.
Qed.

Lemma contains_token c s : word_char c = false → is_space c = false →
  contains (String c "") s = true ↔ Sym c ∈ sql_tokens s.
Proof.
  intros Hw Hs. unfold sql_tokens. generalize false. induction s as [|x s IH]; intros inside.
  { split; [done|]. intros H. by apply elem_of_nil in H. }
  cbn [contains String.list_ascii_of_string tokens]. rewrite orb_true_iff. unfold starts_with. cbn [strip_prefix].
  destruct (Ascii.eqb_spec c x) as [<-|Hne].
  - rewrite Hw, Hs. split; [intros _; left|by left].
  - assert (Hrest : ∀ b, contains (String c "") s = true ↔ Sym c ∈ tokens b (String.list_ascii_of_string s)) by (intros b; apply IH).
    destruct (word_char x); rewrite elem_of_app, <- Hrest; split; intros [H|H]; try done; try (by right).
    + destruct inside; [by apply elem_of_nil in H|by apply list_elem_of_singleton in H].
    + destruct (is_space x); [by apply elem_of_nil in H|apply list_elem_of_singleton in H; congruence].
Qed.

(** ** The listed writes *)
Definition listed_write (s : string) : bool :=
  match sql_tokens s with Word k :: _ => includes ["INSERT"; "UPDATE"] k | _ => false end.
Lemma listed_writes : forallb listed_write ALLOWED_WRITE_SQL = true.
Proof. by vm_compute. Qed.
Lemma allowed_starts s : normalizeSQL s ∈ ALLOWED_WRITE_SQL →
  ∃ k rest, k ∈ WRITE_KEYWORDS ∧ sql_tokens s = Word k :: rest.
Proof.
  intros Hin%list_elem_of_In. pose proof listed_writes as H. rewrite forallb_forall in H.
  specialize (H _ Hin). unfold listed_write in H. rewrite tokens_normal in H.
  destruct (sql_tokens s) as [|[k|] rest]; [done| |done]. apply includes_true in H. eauto.
Qed.
Lemma normal_trim s : normalizeSQL (trim s) = normalizeSQL s.
Proof. unfold normalizeSQL. by rewrite trim_trim. Qed.

(** ** Which statements are valid *)
Lemma truthy_tokens s : truthy (trim s) = false → sql_tokens s = [].
Proof.
  intros H. apply negb_false_iff, String.eqb_eq in H. by rewrite <- (tokens_trim s), H.
Qed.
Lemma not_in_tokens ks s : forallb keyword ks = true →
  has_keyword ks s = false ↔ ∀ k, k ∈ ks → Word k ∉ sql_tokens s.
Proof.
  intros Hks. rewrite <- not_true_iff_false, has_keyword_tokens by done. split.
  - intros H k Hk Hin. apply H. eauto.
  - intros H (k & Hk & Hin). by apply (H k Hk).
Qed.
(** The checks by the first word: what is left is a read or a listed write. *)
Lemma first_word s k rest : sql_tokens s = Word k :: rest →
  starts_with_keyword STATEMENT_KEYWORDS (trim s) = includes STATEMENT_KEYWORDS k ∧
  starts_with_keyword WRITE_KEYWORDS (normalizeSQL s) = includes WRITE_KEYWORDS k ∧
  starts_with_keyword ["WITH"] (normalizeSQL s) = includes ["WITH"] k.
Proof.
  intros E.
  assert (H : ∀ ks s', forallb keyword ks = true → starts_plain s' → sql_tokens s' = Word k :: rest →
    starts_with_keyword ks s' = includes ks k).
  { intros ks s' Hks Hp E'. apply eq_true_iff_eq. rewrite starts_with_keyword_tokens, includes_true, E' by done.
    split; [by intros (x & r & Hx & [= <- <-])|eauto]. }
  split_and!; apply H; try done; try apply trim_plain; try apply normal_plain;
    by rewrite ?tokens_trim, ?tokens_normal.
Qed.

(** The last checks of [valid_sql]. *)
Definition shape_ok (s : string) : bool :=
  starts_with_keyword STATEMENT_KEYWORDS (trim s) &&
  negb (starts_with_keyword WRITE_KEYWORDS (normalizeSQL s) && negb (includes ALLOWED_WRITE_SQL (normalizeSQL s))) &&
  negb (starts_with_keyword ["WITH"] (normalizeSQL s) && has_keyword CHANGE_KEYWORDS (normalizeSQL s)).
Lemma valid_sql_checks s : valid_sql s =
  truthy (trim s) && negb (Nat.ltb MAX_SQL_BYTES (String.length (trim s))) && negb (contains ";" (trim s)) &&
  negb (has_keyword SCHEMA_KEYWORDS (trim s)) && shape_ok s.
Proof.
  unfold valid_sql, shape_ok. cbv zeta. rewrite normal_trim.
  destruct (truthy (trim s)), (Nat.ltb _ _), (contains _ _), (starts_with_keyword STATEMENT_KEYWORDS _),
    (has_keyword SCHEMA_KEYWORDS _), (starts_with_keyword WRITE_KEYWORDS _ && _),
    (starts_with_keyword ["WITH"] _ && _); reflexivity.
Qed.
Lemma change_word s k rest : sql_tokens s = Word k :: rest → includes CHANGE_KEYWORDS k = false →
  has_keyword CHANGE_KEYWORDS (normalizeSQL s) = false ↔ ∀ x, x ∈ CHANGE_KEYWORDS → Word x ∉ rest.
Proof.
  intros E Hk. rewrite not_in_tokens, tokens_normal, E by done. split; intros H x Hx Hin.
  - apply (H x Hx). by right.
  - apply elem_of_cons in Hin as [[= ->]|Hin]; [|by apply (H x Hx)].
    apply includes_true in Hx. congruence.
Qed.
Lemma shape_of_read s : reads_only s → shape_ok s = true.
Proof.
  unfold shape_ok. intros [(rest & E)|(rest & E & H)]; destruct (first_word s _ rest E) as (-> & -> & ->).
  - done.
  - apply (change_word s _ rest E) in H; [|done]. by rewrite H.
Qed.
Lemma shape_of_write s : normalizeSQL s ∈ ALLOWED_WRITE_SQL → shape_ok s = true.
Proof.
  intros Hin. destruct (allowed_starts s Hin) as (k & rest & Hk & E). unfold shape_ok.
  destruct (first_word s k rest E) as (-> & -> & ->). apply includes_true in Hin as ->.
  apply list_elem_of_In in Hk as [<-|[<-|[]]]; reflexivity.
Qed.
Lemma shape_inv s : shape_ok s = true → reads_only s ∨ normalizeSQL s ∈ ALLOWED_WRITE_SQL.
Proof.
  unfold shape_ok. intros [[Hst Hw]%andb_true_iff Hc]%andb_true_iff.
  apply starts_with_keyword_tokens in Hst as (k & rest & Hk & E); [|done|apply trim_plain].
  rewrite tokens_trim in E. destruct (first_word s k rest E) as (_ & E2 & E3). rewrite E2 in Hw. rewrite E3 in Hc.
  apply list_elem_of_In in Hk as [<-|[<-|[<-|[<-|[]]]]].
  - left. left. eauto.
  - right. apply includes_true. by destruct (includes ALLOWED_WRITE_SQL _).
  - right. apply includes_true. by destruct (includes ALLOWED_WRITE_SQL _).
  - left. right. exists rest. split; [done|]. apply (change_word s _ rest E); [done|].
    by destruct (has_keyword CHANGE_KEYWORDS _).
Qed.
Lemma short_text s : negb (Nat.ltb MAX_SQL_BYTES (String.length (trim s))) = true ↔ Z.of_nat (String.length (trim s)) ≤ 32768.
Proof. rewrite negb_true_iff, Nat.ltb_ge. unfold MAX_SQL_BYTES. lia. Qed.
Lemma one_statement s : negb (contains ";" (trim s)) = true ↔ Sym ";" ∉ sql_tokens s.
Proof. rewrite <- (tokens_trim s), <- contains_token by done. by destruct (contains _ _). Qed.

Lemma valid_sql_spec s : valid_sql s = true ↔ admitted s.
Proof.
  rewrite valid_sql_checks, !andb_true_iff, short_text, one_statement, negb_true_iff, not_in_tokens, tokens_trim by done.
  unfold admitted. split.
  - intros ((((_ & Hl) & Hc) & Hs) & Hsh). by apply shape_inv in Hsh.
  - intros (Hl & Hc & Hs & Hcase). split_and!; try done.
    + destruct (truthy (trim s)) eqn:Ht; [done|]. apply truthy_tokens in Ht.
      destruct Hcase as [[(r & E)|(r & E & _)]|Hin]; [congruence..|].
      destruct (allowed_starts s Hin) as (k & r & _ & E). congruence.
    + destruct Hcase; [by apply shape_of_read|by apply shape_of_write].
Qed.

(** C31: A statement passes the checks of the D1 gateway exactly if it is admitted: it is at
    most 32 KiB long and holds no semicolon and no word that changes the schema, and it starts
    with SELECT, or starts with WITH and holds no word that changes rows, or is one of the
    listed writes up to white space and letter case; the seven regular expressions and the
    normalization are read here over the tokens of the statement. *)
Theorem valid_sql_admitted s : valid_sql s = true ↔ admitted s.
Proof. exact (valid_sql_spec s). Qed.

(** The letter case of a literal is not checked: a write of [ERROR] passes for the
    listed write of [error]. *)
Lemma literal_case_ignored :
  valid_sql "UPDATE cregis_wallets SET status='ERROR', updated_at=? WHERE id=? AND status='CREATING'" = true.
Proof. by vm_compute. Qed.

(** ** What changes the database *)
Section authority.
Context (hmac_sha256 : string → string → list Z) (json_parse : string → option json).
Context {DB : Type} (batch : list Prepared → DB → exn + (json * DB)).

(** A request signed by the holder of the secret, less than a minute off the clock. *)
Definition signed_recently (secret : string) (now : Z) (r : GatewayRequest) : Prop :=
  let timestamp := gateway_header "x-neobank-timestamp" r in
  let signature := gateway_header "x-neobank-signature" r in
  secret ≠ "" ∧ hex64 signature = true ∧
  hmac_sha256 secret (timestamp +:+ "." +:+ r.(gq_body)) = hex_decode signature ∧
  n_isInteger (n_of_string timestamp) = true ∧
  n_lt (n_ofZ 60) (SFabs (n_sub (n_ofZ now) (n_of_string timestamp))) = false.
Lemma authorize_true secret now r : authorize hmac_sha256 secret now r = inr true → signed_recently secret now r.
Proof.
  unfold authorize, signed_recently, parseHex, signed_text. cbv zeta.
  destruct (hex64 _) eqn:Hh; [|done]. destruct (n_isInteger _) eqn:Hi; [|done]. simpl.
  destruct (n_lt _ _) eqn:Hl; [done|]. destruct (truthy secret) eqn:Ht; [|done]. simpl.
  intros [= H%bool_decide_eq_true]. split_and!; try done. by intros ->.
Qed.
Definition admitted_statement (statement : json) : Prop :=
  ∃ sql, json_get "sql" (Some statement) = Some (JStr sql) ∧ valid_sql sql = true.
Lemma every_valid_admitted statements : every_valid statements = inr true → Forall admitted_statement statements.
Proof.
  induction statements as [|x rest IH]; [constructor|]. cbn [every_valid].
  destruct (validStatement x) as [e|[]] eqn:E; [done| |done]. intros H. constructor; [|by apply IH].
  unfold validStatement in E. unfold admitted_statement.
  destruct (json_get "sql" _) as [[| | |sql| |]|]; try done. exists sql. by destruct (valid_sql sql).
Qed.
Lemma statements_of_bound payload l : statements_of payload = inr (Some l) →
  json_get "statements" (Some payload) = Some (JArr l) ∧ (1 ≤ length l ≤ 64)%nat.
Proof.
  intros H. assert (Hg : json_get "statements" (Some payload) = Some (JArr l) ∧
    (Nat.ltb (length l) 1 || Nat.ltb MAX_STATEMENTS (length l)) = false).
  { destruct payload as [| | | | |members]; try done. unfold statements_of in H.
    destruct (json_get _ _) as [[| | | |l'|]|]; try done.
    destruct (Nat.ltb _ _ || _) eqn:E; [done|]. by injection H as ->. }
  destruct Hg as [Hg [H1%Nat.ltb_ge H2%Nat.ltb_ge]%orb_false_iff]. split; [done|].
  change MAX_STATEMENTS with 64%nat in H2. lia.
Qed.

(** C32: If a request to the D1 gateway changes the database, it was a POST to the query path,
    at most 128 KiB long, carrying the HMAC of its time stamp and body under the shared secret,
    with a time stamp within sixty seconds of the clock; the body was JSON with between 1 and
    64 statements, every one of them admitted, and the change is the one the database makes
    for that batch, whose results are the answer. *)
Theorem d1_change_authorised secret now r db answer db' :
  gateway_fetch hmac_sha256 json_parse batch secret now r db = (answer, db') → db' ≠ db →
  r.(gq_method) = "POST" ∧ r.(gq_pathname) = "/internal/d1/query" ∧
  Z.of_nat (String.length r.(gq_body)) ≤ 131072 ∧ signed_recently secret now r ∧
  ∃ payload statements results,
    json_parse r.(gq_body) = Some payload ∧
    json_get "statements" (Some payload) = Some (JArr statements) ∧ (1 ≤ length statements ≤ 64)%nat ∧
    Forall (λ statement, ∃ sql, json_get "sql" (Some statement) = Some (JStr sql) ∧ admitted sql) statements ∧
    batch (map prepare statements) db = inr (results, db') ∧
    answer = Json (JObj [("results", results)]) 200.
Proof.
  unfold gateway_fetch. intros Hf Hne. destruct (String.eqb _ "/healthz" && _); [congruence|].
  destruct (String.eqb _ "/internal/d1/query" && _) eqn:Hp; [|congruence].
  apply andb_true_iff in Hp as [Hp%String.eqb_eq Hm%String.eqb_eq].
  destruct (handleQuery _ _ _ _ _ _ _) as [e|a] eqn:Hh; [congruence|]. subst a.
  unfold handleQuery in Hh. destruct (body_too_large r) eqn:Hb; [congruence|].
  destruct (authorize _ _ _ _) as [e|[]] eqn:Ha; [done| |congruence].
  destruct (json_parse _) as [payload|] eqn:Hj; [|congruence].
  destruct (statements_of payload) as [e|[l|]] eqn:Hs; [done| |congruence].
  destruct (every_valid l) as [e|[]] eqn:Hv; [done| |congruence].
  destruct (batch _ _) as [e|[results db2]] eqn:Hr; [done|]. injection Hh as <- ->.
  apply statements_of_bound in Hs as [Hs Hlen]. apply orb_false_iff in Hb as [_ Hb]. apply Z.ltb_ge in Hb.
  unfold MAX_BODY_BYTES in Hb. apply authorize_true in Ha. apply every_valid_admitted in Hv.
  split_and!; [done..|lia|done|]. exists payload, l, results. split_and!; try done.
  - apply Hlen.
  - apply Hlen.
  - eapply Forall_impl; [exact Hv|]. intros st (sql & E & V). exists sql. split; [done|]. by apply valid_sql_spec.
Qed.
End authority.

(** ** A signed batch *)
Definition d1_hmac (_ _ : string) : list Z := repeat 0 32.
Definition d1_payload : json :=
  JObj [("statements", JArr [JObj [("sql", JStr "select status from cregis_wallets")];
     JObj [("sql", JStr "UPDATE cregis_wallets SET status='error', updated_at=? WHERE id=? AND status='creating'");
           ("params", JArr [JNum 100; JStr "wallet"])]])].
Definition d1_request : GatewayRequest :=
  {| gq_method := "POST"; gq_pathname := "/internal/d1/query";
     gq_headers := {[ "x-neobank-timestamp" := "100"; "x-neobank-signature" := zeros64 ]}; gq_body := "batch" |}.
(** A database that counts the statements it ran. *)
Definition d1_batch (statements : list Prepared) (ran : nat) : exn + (json * nat) :=
  inr (JArr [], (ran + length statements)%nat).
Definition d1_run : Answer * nat :=
  gateway_fetch d1_hmac (λ _, Some d1_payload) d1_batch "secret" 130 d1_request 0%nat.
Lemma d1_change_authorised_witness :
  d1_run.2 = 2%nat ∧ signed_recently d1_hmac "secret" 130 d1_request.
Proof.
  split; [by vm_compute|].
  eapply (d1_change_authorised d1_hmac (λ _, Some d1_payload) d1_batch "secret" 130 d1_request 0%nat d1_run.1 d1_run.2);
    by vm_compute.
Defined.
