(* ===== verification/ClientAccess.v ===== *)
(** Who may see which page ([src/auth/role-access.ts], [admin-access.ts],
    [permissions.ts], [guard/], [src/config/deployment-mode.ts] of the web client):
    the role of a path, the pages of the customer portal, the permission of a page of
    the dashboard, where a login returns to, and the guards around the routes.

    [new URL(value, base)] is an argument: the browser's parser. *)
From S2P Require Import Prelude Schema EdgeAuth EdgeWorker.
From Stdlib Require Import Ascii.

(** ** Deployments and sessions *)
Definition deployment_mode (setting : option string) : string :=
  default "full-admin-wallet" (or_string setting (Some "full-admin-wallet")).
Definition IS_ISOLATED_WALLET_DEPLOYMENT (mode : string) : bool := String.eqb mode "isolated-wallet".
Definition IS_FULL_ADMIN_WALLET_DEPLOYMENT (mode : string) : bool := String.eqb mode "full-admin-wallet".

Inductive AuthRole := R_admin | R_customer.
#[export] Instance AuthRole_eq_dec : EqDecision AuthRole. Proof. solve_decision. Defined.
Record AuthSessionUser := {
  au_id : string; au_coreUserId : option string; au_email : string; au_displayName : string; au_role : AuthRole;
  au_totpEnabled : bool; au_accessRole : option string; au_photoURL : option string; au_permissions : list string;
}.

(** ** Roles and paths *)
Definition ROLE_HOME (mode : string) (role : AuthRole) : string :=
  match role with
  | R_admin => if IS_ISOLATED_WALLET_DEPLOYMENT mode then "/admin" else "/dashboard/overview"
  | R_customer => "/portal/home"
  end.
Definition ROLE_LOGIN (role : AuthRole) : string :=
  match role with R_admin => "/admin/login" | R_customer => "/customer/login" end.
Definition getUserHome (mode : string) (user : option AuthSessionUser) : string :=
  match user with Some u => ROLE_HOME mode u.(au_role) | None => "/" end.
Definition getRoleHome (mode : string) (role : AuthRole) : string := ROLE_HOME mode role.

Definition isCustomerWalletPath (pathname : string) : bool :=
  String.eqb pathname "/portal" || String.eqb pathname "/portal/home" ||
  String.eqb pathname "/portal/crypto-wallet" || starts_with "/portal/crypto-wallet/" pathname ||
  String.eqb pathname "/portal/virtual-accounts" || String.eqb pathname "/portal/settings" ||
  starts_with "/portal/settings/" pathname || String.eqb pathname "/portal/money/beneficiaries".
Definition isCustomerFullPortalPath (pathname : string) : bool :=
  isCustomerWalletPath pathname || String.eqb pathname "/portal/transactions" ||
  starts_with "/portal/transactions/" pathname || String.eqb pathname "/portal/money/accounts" ||
  String.eqb pathname "/portal/money/transfers" || String.eqb pathname "/portal/money/deposit" ||
  String.eqb pathname "/portal/money/fx" || String.eqb pathname "/portal/money/otc" ||
  String.eqb pathname "/portal/money/payouts".
Definition canAccessPortalPath (mode : string) (user : AuthSessionUser) (pathname : string) : bool :=
  if differs user.(au_role) R_customer then false
  else if IS_FULL_ADMIN_WALLET_DEPLOYMENT mode then isCustomerFullPortalPath pathname
  else isCustomerWalletPath pathname.

(** [path === base || path.startsWith(base + '/')] *)
Definition under (base pathname : string) : bool :=
  String.eqb pathname base || starts_with (base +:+ "/") pathname.
Definition requiredRoleForPath (pathname : string) : option AuthRole :=
  if under "/admin" pathname then Some R_admin
  else if under "/dashboard" pathname then Some R_admin
  else if under "/customer" pathname then Some R_customer
  else if under "/portal" pathname then Some R_customer
  else None.

(** [pathname.replace(/\/+$/, '')] *)
Fixpoint drop_slashes (l : list ascii) : list ascii :=
  match l with c :: l' => if Ascii.eqb c "/" then drop_slashes l' else l | [] => [] end.
Definition strip_slashes (s : string) : string :=
  String.string_of_list_ascii (rev (drop_slashes (rev (String.list_ascii_of_string s)))).
Definition isNonBlockingSessionCheckPath (pathname : string) : bool :=
  let normalized := if Nat.ltb 1 (String.length pathname) then strip_slashes pathname else pathname in
  String.eqb normalized (ROLE_LOGIN R_admin) || String.eqb normalized (ROLE_LOGIN R_customer).

(** ** Permissions of the dashboard *)
Definition ADMIN_PERMISSIONS : list string :=
  ["admin_users.manage"; "customer_credentials.manage"; "customers.read"; "customers.review";
   "funds.read"; "funds.manage"; "settings.manage"; "reports.read"].
Definition isAdminPermission (value : json) : bool :=
  match value with JStr x => includes ADMIN_PERMISSIONS x | _ => false end.
Definition hasAdminPermission (user : option AuthSessionUser) (permission : string) : bool :=
  match user with Some u => same u.(au_role) R_admin && includes u.(au_permissions) permission | None => false end.
Definition any_prefix (prefixes : list string) (s : string) : bool := existsb (λ p, starts_with p s) prefixes.
Definition requiredAdminPermissionForPath (pathname : string) : string :=
  if includes ["/dashboard"; "/dashboard/operations"; "/dashboard/404"; "/dashboard/500"] pathname ||
     starts_with "/dashboard/overview" pathname then "reports.read"
  else if starts_with "/dashboard/admin-users" pathname then "admin_users.manage"
  else if starts_with "/dashboard/onboarding" pathname then "customers.review"
  else if starts_with "/dashboard/operations/virtual-accounts" pathname then "customers.review"
  else if starts_with "/dashboard/customers" pathname then "customers.read"
  else if starts_with "/dashboard/accounts" pathname then "funds.read"
  else if any_prefix ["/dashboard/operations/reconciliation"; "/dashboard/operations/transactions";
                      "/dashboard/operations/ledger"] pathname then "reports.read"
  else if String.eqb pathname "/dashboard/settings" ||
          any_prefix ["/dashboard/funding-channels"; "/dashboard/settings"] pathname then "settings.manage"
  else if any_prefix ["/dashboard/operations/deposits"; "/dashboard/operations/usdt-inbound";
                      "/dashboard/operations/withdrawals"; "/dashboard/operations/crypto-wallets";
                      "/dashboard/operations/adjustments"; "/dashboard/operations/fx"; "/dashboard/operations/otc";
                      "/dashboard/operations/beneficiaries"; "/dashboard/usdt-sweeps"] pathname then "funds.manage"
  else "admin_users.manage".

(** ** [decodeURIComponent] *)
Definition byte_of (c : ascii) : Z := Z.of_nat (nat_of_ascii c).
Definition char_of (z : Z) : ascii := ascii_of_nat (Z.to_nat z).
(** A byte written as a percent sign and two hexadecimal digits. *)
Definition percent_byte (l : list ascii) : option (Z * list ascii) :=
  match l with
  | "%"%char :: a :: b :: rest =>
      if (hex_value a <? 16) && (hex_value b <? 16) then Some (16 * hex_value a + hex_value b, rest) else None
  | _ => None
  end.
(** [count] continuation bytes after the accumulated code point. *)
Fixpoint continuation (count : nat) (point : Z) (l : list ascii) : option (Z * list ascii * list ascii) :=
  match count with
  | O => Some (point, [], l)
  | S count' =>
      match percent_byte l with
      | Some (b, rest) =>
          if Z.shiftr b 6 =? 2
          then match continuation count' (Z.lor (Z.shiftl point 6) (Z.land b 63)) rest with
               | Some (p, bytes, rest') => Some (p, char_of b :: bytes, rest')
               | None => None
               end
          else None
      | None => None
      end
  end.
(** How many continuation bytes follow a leading byte, its bits of the code point, and
    the least code point of that length. *)
Definition leading (b : Z) : option (nat * Z * Z) :=
  if Z.shiftr b 5 =? 6 then Some (1%nat, Z.land b 31, 128)
  else if Z.shiftr b 4 =? 14 then Some (2%nat, Z.land b 15, 2048)
  else if Z.shiftr b 3 =? 30 then Some (3%nat, Z.land b 7, 65536)
  else None.
Definition scalar (least point : Z) : bool :=
  (least <=? point) && (point <=? 1114111) && negb ((55296 <=? point) && (point <=? 57343)).
(** The fuel is the length of the text: every step reads at least one character. *)
Fixpoint decode_percent (fuel : nat) (l : list ascii) : option (list ascii) :=
  match fuel, l with
  | _, [] => Some []
  | O, _ => None
  | S fuel', c :: l' =>
      if negb (Ascii.eqb c "%") then cons c <$> decode_percent fuel' l'
      else match percent_byte l with
      | None => None
      | Some (b, rest) =>
          if b <? 128 then cons (char_of b) <$> decode_percent fuel' rest
          else match leading b with
          | None => None
          | Some (count, bits, least) =>
              match continuation count bits rest with
              | Some (point, bytes, rest') =>
                  if scalar least point then (λ d, char_of b :: bytes ++ d) <$> decode_percent fuel' rest' else None
              | None => None
              end
          end
      end
  end.
(** [None]: it throws a URIError. *)
Definition decodeURIComponent (s : string) : option string :=
  let l := String.list_ascii_of_string s in String.string_of_list_ascii <$> decode_percent (length l) l.

(** ** Where a login returns to *)
(** [/%(?:2e|2f|5c)/i] *)
Definition hidden_separator (s : string) : bool :=
  existsb (λ p, contains p (toLowerCase s)) ["%2e"; "%2f"; "%5c"].
(** [value.split(/[?#]/, 1)[0]] *)
Fixpoint before_mark (s : string) : string :=
  match s with
  | String c s' => if Ascii.eqb c "?" || Ascii.eqb c "#" then "" else String c (before_mark s')
  | EmptyString => ""
  end.
(** The loop of at most three decodings: whether none refuses the path. *)
Fixpoint decodings_plain (rounds : nat) (decoded : string) : bool :=
  match rounds with
  | O => true
  | S rounds' =>
      if hidden_separator decoded then false
      else match decodeURIComponent decoded with
           | None => false
           | Some next => if String.eqb next decoded then true else decodings_plain rounds' next
           end
  end.
Record BrowserUrl := { bl_origin : string; bl_pathname : string; bl_search : string; bl_hash : string }.
Definition RETURN_ORIGIN : string := "https://return.local".
Definition backslash : string := String "092" "".

Section returns.
(** [new URL(value, 'https://return.local')] *)
Context (parse_url : string → option BrowserUrl).
Definition role_of (user : option AuthSessionUser) : option AuthRole := au_role <$> user.
Definition safeReturnTo (mode : string) (value : option string) (role : AuthRole) (user : option AuthSessionUser) : string :=
  let fallback := if opt_eqb (role_of user) (Some role) then getUserHome mode user else getRoleHome mode role in
  match value with
  | None => fallback
  | Some value =>
      if negb (truthy value) || negb (starts_with "/" value) || starts_with "//" value then fallback else
      let rawPathname := before_mark value in
      if negb (truthy rawPathname) || contains backslash rawPathname || contains "//" rawPathname then fallback
      else if negb (decodings_plain 3 rawPathname) then fallback
      else match parse_url value with
      | None => fallback
      | Some canonicalUrl =>
          let pathname := canonicalUrl.(bl_pathname) in
          if differs canonicalUrl.(bl_origin) RETURN_ORIGIN || contains backslash pathname || contains "//" pathname
          then fallback
          else if is_some (requiredRoleForPath pathname) && differs (requiredRoleForPath pathname) (Some role) then fallback
          else if IS_ISOLATED_WALLET_DEPLOYMENT mode && same role R_admin && differs pathname "/admin" &&
                  differs pathname "/admin/neobank-crypto" then fallback
          else if same role R_customer &&
                  negb (match user with
                        | Some u => same u.(au_role) R_customer && canAccessPortalPath mode u pathname
                        | None => false
                        end) then fallback
          else pathname +:+ canonicalUrl.(bl_search) +:+ canonicalUrl.(bl_hash)
      end
  end.
End returns.

(** ** The guards around a route *)
Inductive Guarded := Splash | Blank | Navigate (target : string) | Children.
Record AuthState := { as_loading : bool; as_authenticated : bool; as_user : option AuthSessionUser }.

(** [URLSearchParams] writes the return address; [query] is its text. *)
Definition AuthGuard (query : string → string) (expected : AuthRole) (auth : AuthState) (pathname search : string) : Guarded :=
  if auth.(as_loading) then Splash
  else if negb auth.(as_authenticated) || negb (opt_eqb (role_of auth.(as_user)) (Some expected))
  then Navigate (ROLE_LOGIN expected +:+ "?" +:+ query (pathname +:+ search))
  else Children.
(** The guest's page passes no user to [safeReturnTo]. *)
Definition GuestGuard (parse_url : string → option BrowserUrl) (mode : string) (expected : AuthRole) (auth : AuthState)
    (returnTo : option string) : Guarded :=
  match auth.(as_user) with
  | Some u => if negb auth.(as_loading) && auth.(as_authenticated) && same u.(au_role) expected
              then Navigate (safeReturnTo parse_url mode returnTo u.(au_role) None) else Children
  | None => Children
  end.
Definition RoleRouteGuard (mode : string) (roles : list AuthRole) (auth : AuthState) (pathname : string) : Guarded :=
  match auth.(as_user) with
  | None => Blank
  | Some u =>
      if negb (includes roles u.(au_role)) then Navigate (getUserHome mode (Some u))
      else if same u.(au_role) R_customer && starts_with "/portal" pathname && negb (canAccessPortalPath mode u pathname)
      then Navigate (getUserHome mode (Some u))
      else Children
  end.
Definition AdminPermissionRouteGuard (mode : string) (permission : string) (auth : AuthState) : Guarded :=
  if hasAdminPermission auth.(as_user) permission then Children else Navigate (getUserHome mode auth.(as_user)).
Definition AdminPathAccessGuard (mode : string) (auth : AuthState) (pathname : string) : Guarded :=
  AdminPermissionRouteGuard mode (requiredAdminPermissionForPath pathname) auth.

(** The guards of the route objects, outermost first. *)
Definition and_then (first second : Guarded) : Guarded := match first with Children => second | g => g end.
Definition portal_route (query : string → string) (mode : string) (auth : AuthState) (pathname search : string) : Guarded :=
  and_then (AuthGuard query R_customer auth pathname search) (RoleRouteGuard mode [R_customer] auth pathname).
Definition dashboard_route (query : string → string) (mode : string) (auth : AuthState) (pathname search : string) : Guarded :=
  and_then (AuthGuard query R_admin auth pathname search)
    (and_then (RoleRouteGuard mode [R_admin] auth pathname) (AdminPathAccessGuard mode auth pathname)).
