(* ===== verification/ClientAccessProperties.v ===== *)
(** What the guards of the web client guarantee: where a login may return to, and
    that their redirections settle on a page that is shown. *)
From S2P Require Import Prelude Schema EdgeAuth EdgeWorker ClientAccess.
From Stdlib Require Import Ascii.

(** ** [decodeURIComponent] never lacks fuel *)
Lemma percent_byte_shorter l b rest : percent_byte l = Some (b, rest) → (length rest < length l)%nat.
Proof. unfold percent_byte. intros H. repeat case_match; simplify_eq; simpl; lia. Qed.
Lemma continuation_shorter count : ∀ point l p bytes rest,
  continuation count point l = Some (p, bytes, rest) → (length rest ≤ length l)%nat.
Proof.
  induction count as [|count IH]; intros point l p bytes rest; cbn [continuation]; [by intros [= _ _ ->]|].
  destruct (percent_byte l) as [[b r]|] eqn:E; [|done]. destruct (Z.shiftr b 6 =? 2); [|done].
  destruct (continuation _ _ r) as [[[p' bs] r']|] eqn:E'; [|done]. intros [= _ _ <-].
  apply percent_byte_shorter in E. apply IH in E'. lia.
Qed.
Lemma decode_percent_fuel : ∀ fuel more l, (length l ≤ fuel)%nat → (fuel ≤ more)%nat →
  decode_percent more l = decode_percent fuel l.
Proof.
  induction fuel as [|fuel IH]; intros more l Hl Hm.
  { destruct l; [by destruct more|simpl in Hl; lia]. }
  destruct more as [|more]; [lia|]. destruct l as [|c l]; [done|]. cbn [decode_percent].
  simpl in Hl. destruct (negb (Ascii.eqb c "%")).
  { rewrite (IH more l) by lia. done. }
  destruct (percent_byte (c :: l)) as [[b rest]|] eqn:E; [|done].
  apply percent_byte_shorter in E. simpl in E. destruct (b <? 128).
  { rewrite (IH more rest) by lia. done. }
  destruct (leading b) as [[[count bits] least]|]; [|done].
  destruct (continuation count bits rest) as [[[p bytes] rest']|] eqn:E'; [|done].
  apply continuation_shorter in E'. destruct (scalar least p); [|done]. rewrite (IH more rest') by lia. done.
Qed.
Lemma decode_percent_enough s fuel : (String.length s ≤ fuel)%nat →
  String.string_of_list_ascii <$> decode_percent fuel (String.list_ascii_of_string s) = decodeURIComponent s.
Proof.
  intros H. unfold decodeURIComponent. f_equal. apply decode_percent_fuel; [done|].
  assert (E : ∀ x, length (String.list_ascii_of_string x) = String.length x) by (induction x; simpl; lia).
  by rewrite E.
Qed.
Lemma decode_samples :
  decodeURIComponent "/portal%E4%BD%A0" = Some "/portal你" ∧ decodeURIComponent "%c0%af" = None ∧
  decodeURIComponent "%ed%a0%80" = None ∧ decodeURIComponent "100%" = None ∧ decodeURIComponent "%252f" = Some "%2f".
Proof. by vm_compute. Qed.

(** ** Texts *)
Lemma starts_with_app p s : starts_with p s = true ↔ ∃ rest, s = p +:+ rest.
Proof.
  unfold starts_with. split.
  - intros [rest E]%is_some_true. exists rest. by apply strip_prefix_Some in E.
  - intros [rest ->]. by rewrite strip_prefix_app.
Qed.
Lemma contains_start p s : contains p s = false → starts_with p s = false.
Proof. destruct s; cbn [contains]; by intros [H _]%orb_false_iff. Qed.

(** ** Where a login returns to *)
(** A URL as the browser parses it for an address of the return origin. *)
Definition browser_shape (u : BrowserUrl) : Prop :=
  (∃ rest, u.(bl_pathname) = "/" +:+ rest) ∧
  (u.(bl_search) = "" ∨ ∃ rest, u.(bl_search) = "?" +:+ rest) ∧
  (u.(bl_hash) = "" ∨ ∃ rest, u.(bl_hash) = "#" +:+ rest).
(** An address within the site: it starts with one slash. *)
Definition same_site (target : string) : bool := starts_with "/" target && negb (starts_with "//" target).

Lemma address_same_site u : browser_shape u → contains "//" u.(bl_pathname) = false →
  same_site (u.(bl_pathname) +:+ u.(bl_search) +:+ u.(bl_hash)) = true.
Proof.
  intros ((rest & E) & Hs & Hh) Hc. apply contains_start in Hc. rewrite E in *. unfold same_site.
  destruct rest as [|c rest]; [|by destruct c as [[] [] [] [] [] [] [] []]].
  destruct Hs as [->|[s ->]]; [|done]. by destruct Hh as [->|[h ->]].
Qed.
Lemma home_same_site mode role : same_site (ROLE_HOME mode role) = true.
Proof. destruct role; [|done]. unfold ROLE_HOME. by destruct (IS_ISOLATED_WALLET_DEPLOYMENT mode). Qed.
Lemma fallback_home mode role user :
  (if opt_eqb (role_of user) (Some role) then getUserHome mode user else getRoleHome mode role) = ROLE_HOME mode role.
Proof.
  destruct (opt_eqb (role_of user) (Some role)) eqn:E; [|done]. apply opt_eqb_true in E.
  destruct user as [u|]; [|done]. by injection E as <-.
Qed.

Section returns.
Context (parse_url : string → option BrowserUrl).

(** What [safeReturnTo] has checked when it does not fall back. *)
Definition accepted_return (mode : string) (value : option string) (role : AuthRole) (user : option AuthSessionUser)
    (u : BrowserUrl) : Prop :=
  ∃ v, value = Some v ∧ parse_url v = Some u ∧ u.(bl_origin) = RETURN_ORIGIN ∧
  contains "//" u.(bl_pathname) = false ∧
  (requiredRoleForPath u.(bl_pathname) = None ∨ requiredRoleForPath u.(bl_pathname) = Some role) ∧
  (role = R_customer → ∃ x, user = Some x ∧ canAccessPortalPath mode x u.(bl_pathname) = true).
Lemma safeReturnTo_cases mode value role user :
  safeReturnTo parse_url mode value role user = ROLE_HOME mode role ∨
  ∃ u, accepted_return mode value role user u ∧
    safeReturnTo parse_url mode value role user = u.(bl_pathname) +:+ u.(bl_search) +:+ u.(bl_hash).
Proof.
  unfold safeReturnTo. rewrite fallback_home. destruct value as [v|]; [|by left]. cbv zeta.
  destruct (negb (truthy v) || _ || _); [by left|]. destruct (negb (truthy (before_mark v)) || _ || _); [by left|].
  destruct (negb (decodings_plain _ _)); [by left|]. destruct (parse_url v) as [u|] eqn:Eu; [|by left].
  destruct (differs _ RETURN_ORIGIN || _ || _) eqn:E1; [by left|].
  apply orb_false_iff in E1 as [[Eo _]%orb_false_iff Ec]. rewrite differs_false in Eo.
  destruct (is_some _ && _) eqn:E2; [by left|]. destruct (IS_ISOLATED_WALLET_DEPLOYMENT mode && _ && _ && _); [by left|].
  destruct (same role R_customer && _) eqn:E3; [by left|].
  right. exists u. split; [|done]. exists v. do 4 (split; [done|]). split.
  - destruct (requiredRoleForPath _) as [r|]; [|by left]. right. simpl in E2. by rewrite differs_false in E2.
  - intros ->. simpl in E3. apply negb_false_iff in E3. destruct user as [x|]; [|done].
    exists x. split; [done|]. by apply andb_true_iff in E3 as [_ E3].
Qed.
End returns.

(** ** The redirections settle *)
Lemma customer_home_open mode u : u.(au_role) = R_customer → canAccessPortalPath mode u "/portal/home" = true.
Proof. intros E. unfold canAccessPortalPath. rewrite E. simpl. by destruct (IS_FULL_ADMIN_WALLET_DEPLOYMENT mode). Qed.
Lemma portal_shown query mode auth u pathname search :
  auth.(as_loading) = false → auth.(as_authenticated) = true → auth.(as_user) = Some u → u.(au_role) = R_customer →
  canAccessPortalPath mode u pathname = true → portal_route query mode auth pathname search = Children.
Proof.
  intros Hl Ha Hu Hr Hc. unfold portal_route, AuthGuard, RoleRouteGuard. rewrite Hl, Ha, Hu. simpl. rewrite Hr. simpl.
  by rewrite Hc, andb_false_r.
Qed.
Lemma dashboard_shown query mode auth u pathname search :
  auth.(as_loading) = false → auth.(as_authenticated) = true → auth.(as_user) = Some u → u.(au_role) = R_admin →
  includes u.(au_permissions) (requiredAdminPermissionForPath pathname) = true →
  dashboard_route query mode auth pathname search = Children.
Proof.
  intros Hl Ha Hu Hr Hp. unfold dashboard_route, AuthGuard, RoleRouteGuard, AdminPathAccessGuard, AdminPermissionRouteGuard, hasAdminPermission.
  rewrite Hl, Ha, Hu. simpl. rewrite Hr. simpl. by rewrite Hp.
Qed.

Lemma portal_settles query mode auth pathname search :
  IS_FULL_ADMIN_WALLET_DEPLOYMENT mode = true → auth.(as_loading) = false →
  match portal_route query mode auth pathname search with
  | Children => auth.(as_authenticated) = true ∧ ∃ u, auth.(as_user) = Some u ∧ u.(au_role) = R_customer ∧
      (starts_with "/portal" pathname = true → isCustomerFullPortalPath pathname = true)
  | Navigate target => (∃ text, target = "/customer/login?" +:+ text) ∨
      (target = "/portal/home" ∧ ∀ search', portal_route query mode auth target search' = Children)
  | _ => False
  end.
Proof.
  intros Hm Hl. unfold portal_route, AuthGuard. rewrite Hl. destruct (as_authenticated auth) eqn:Ha; simpl; [|eauto].
  destruct (opt_eqb (role_of _) _) eqn:Hr; simpl; [|eauto]. apply opt_eqb_true in Hr.
  destruct (as_user auth) as [u|] eqn:Hu; [|done]. injection Hr as Hr. unfold RoleRouteGuard. rewrite Hu. simpl. rewrite Hr. simpl.
  destruct (starts_with "/portal" pathname && _) eqn:E; simpl.
  - right. split; [done|]. intros search'. rewrite customer_home_open by done. done.
  - split; [done|]. exists u. split_and!; try done. intros Hs. rewrite Hs in E. apply negb_false_iff in E.
    unfold canAccessPortalPath in E. rewrite Hr, Hm in E. done.
Qed.
Lemma dashboard_settles query mode auth pathname search :
  IS_FULL_ADMIN_WALLET_DEPLOYMENT mode = true → auth.(as_loading) = false →
  (∀ u, auth.(as_user) = Some u → u.(au_role) = R_admin → includes u.(au_permissions) "reports.read" = true) →
  match dashboard_route query mode auth pathname search with
  | Children => auth.(as_authenticated) = true ∧ ∃ u, auth.(as_user) = Some u ∧ u.(au_role) = R_admin ∧
      includes u.(au_permissions) (requiredAdminPermissionForPath pathname) = true
  | Navigate target => (∃ text, target = "/admin/login?" +:+ text) ∨
      (target = "/dashboard/overview" ∧ ∀ search', dashboard_route query mode auth target search' = Children)
  | _ => False
  end.
Proof.
  intros ->%String.eqb_eq Hl Hperm. unfold dashboard_route at 1, AuthGuard. rewrite Hl. destruct (as_authenticated auth) eqn:Ha; simpl; [|eauto].
  destruct (opt_eqb (role_of _) _) eqn:Hr; simpl; [|eauto]. apply opt_eqb_true in Hr.
  destruct (as_user auth) as [u|] eqn:Hu; [|done]. injection Hr as Hr. specialize (Hperm u eq_refl Hr).
  unfold RoleRouteGuard, AdminPathAccessGuard, AdminPermissionRouteGuard. rewrite Hu. simpl. rewrite Hr. simpl.
  destruct (includes (au_permissions u) (requiredAdminPermissionForPath pathname)) eqn:E; [by eauto 6|].
  right. split; [done|]. intros search'. by eapply dashboard_shown.
Qed.

Section claims.
Context (parse_url : string → option BrowserUrl) (Hparse : ∀ v u, parse_url v = Some u → u.(bl_origin) = RETURN_ORIGIN → browser_shape u).

(** C37: Where a login returns to: whatever address it was given, the client goes to an address
    within the site (one leading slash), and that is either the home of the role or the
    canonical form of the given address, whose path belongs to no other role; a customer is
    sent only to a page of the portal that the guards around it then show. *)
Theorem return_stays_home mode value role user query auth :
  auth.(as_loading) = false → auth.(as_authenticated) = true → auth.(as_user) = user →
  opt_eqb (role_of user) (Some role) = true →
  let target := safeReturnTo parse_url mode value role user in
  same_site target = true ∧
  (target = ROLE_HOME mode role ∨
   ∃ v u, value = Some v ∧ parse_url v = Some u ∧ target = u.(bl_pathname) +:+ u.(bl_search) +:+ u.(bl_hash) ∧
     (∀ r, requiredRoleForPath u.(bl_pathname) = Some r → r = role) ∧
     (role = R_customer → portal_route query mode auth u.(bl_pathname) u.(bl_search) = Children)).
Proof.
  intros Hl Ha Hu Hr target. destruct (safeReturnTo_cases parse_url mode value role user) as [E|(u & Hacc & E)].
  { subst target. rewrite E. split; [apply home_same_site|by left]. }
  destruct Hacc as (v & Hv & Hp & Ho & Hc & Hreq & Hcust). subst target. rewrite E.
  split; [by apply address_same_site; [eapply Hparse|]|]. right. exists v, u. split_and!; try done.
  - intros r Hr'. destruct Hreq as [H|H]; congruence.
  - intros ->. destruct (Hcust eq_refl) as (x & -> & Hcan). apply opt_eqb_true in Hr. injection Hr as Hr.
    by eapply portal_shown.
Qed.
End claims.

(** The guards settle: the portal and the dashboard show a page to a signed-in user of
    their role who may see its path, and to nobody else; every other request is sent to the
    login page of the area, or (once signed in with that role) to the role's home, which is
    shown, so that no redirection loops; an administrator needs the permission to read
    reports, which all access roles have. *)
Theorem guards_settle query mode auth pathname search :
  IS_FULL_ADMIN_WALLET_DEPLOYMENT mode = true → auth.(as_loading) = false →
  (∀ u, auth.(as_user) = Some u → u.(au_role) = R_admin → includes u.(au_permissions) "reports.read" = true) →
  match portal_route query mode auth pathname search with
  | Children => auth.(as_authenticated) = true ∧ ∃ u, auth.(as_user) = Some u ∧ u.(au_role) = R_customer ∧
      (starts_with "/portal" pathname = true → isCustomerFullPortalPath pathname = true)
  | Navigate target => (∃ text, target = "/customer/login?" +:+ text) ∨
      (target = "/portal/home" ∧ ∀ search', portal_route query mode auth target search' = Children)
  | _ => False
  end ∧
  match dashboard_route query mode auth pathname search with
  | Children => auth.(as_authenticated) = true ∧ ∃ u, auth.(as_user) = Some u ∧ u.(au_role) = R_admin ∧
      includes u.(au_permissions) (requiredAdminPermissionForPath pathname) = true
  | Navigate target => (∃ text, target = "/admin/login?" +:+ text) ∨
      (target = "/dashboard/overview" ∧ ∀ search', dashboard_route query mode auth target search' = Children)
  | _ => False
  end.
Proof.
  intros Hm Hl Hperm. split; [by apply portal_settles|by apply dashboard_settles].
Qed.

(** ** Samples *)
Definition sample_customer : AuthSessionUser :=
  {| au_id := "c1"; au_coreUserId := None; au_email := "c1@example.test"; au_displayName := "c1"; au_role := R_customer;
     au_totpEnabled := false; au_accessRole := None; au_photoURL := None; au_permissions := [] |}.
Definition sample_admin : AuthSessionUser :=
  {| au_id := "a1"; au_coreUserId := None; au_email := "a1@example.test"; au_displayName := "a1"; au_role := R_admin;
     au_totpEnabled := false; au_accessRole := None; au_photoURL := None; au_permissions := ["reports.read"] |}.
Definition signed_in (u : AuthSessionUser) : AuthState := {| as_loading := false; as_authenticated := true; as_user := Some u |}.
Definition parse_path (v : string) : option BrowserUrl :=
  if starts_with "/" v then Some {| bl_origin := RETURN_ORIGIN; bl_pathname := v; bl_search := ""; bl_hash := "" |} else None.
Lemma parse_path_shape v u : parse_path v = Some u → u.(bl_origin) = RETURN_ORIGIN → browser_shape u.
Proof.
  unfold parse_path. destruct (starts_with "/" v) eqn:E; [|done]. apply starts_with_app in E as [rest ->].
  intros [= <-] _. split; [by exists rest|]. by split; left.
Qed.
Lemma return_stays_home_witness :
  safeReturnTo parse_path "full-admin-wallet" (Some "/portal/money/fx") R_customer (Some sample_customer) = "/portal/money/fx" ∧
  same_site (safeReturnTo parse_path "full-admin-wallet" (Some "/portal/money/fx") R_customer (Some sample_customer)) = true.
Proof.
  split; [by vm_compute|].
  by apply (return_stays_home parse_path parse_path_shape "full-admin-wallet" (Some "/portal/money/fx") R_customer
    (Some sample_customer) (λ x, x) (signed_in sample_customer)).
Defined.
Lemma guards_settle_witness :
  dashboard_route (λ x, x) "full-admin-wallet" (signed_in sample_admin) "/dashboard/settings" "" = Navigate "/dashboard/overview" ∧
  ∀ search, dashboard_route (λ x, x) "full-admin-wallet" (signed_in sample_admin) "/dashboard/overview" search = Children.
Proof.
  split; [by vm_compute|].
  pose proof (guards_settle (λ x, x) "full-admin-wallet" (signed_in sample_admin) "/dashboard/settings" "" eq_refl eq_refl) as H.
  assert (Hp : ∀ u, Some sample_admin = Some u → u.(au_role) = R_admin → includes u.(au_permissions) "reports.read" = true)
    by (by intros u [= <-] _).
  destruct (H Hp) as [_ H']. cbv beta in H'. vm_compute in H'. destruct H' as [[text E]|[_ H']]; [discriminate E|exact H'].
Defined.
(** A signed-in customer who opens the login page with an address to return to is sent home:
    the guard passes no user on. *)
Lemma guest_guard_forgets parse_url mode u returnTo : u.(au_role) = R_customer →
  GuestGuard parse_url mode R_customer (signed_in u) returnTo = Navigate "/portal/home".
Proof.
  intros Hr. unfold GuestGuard. simpl. rewrite Hr. simpl.
  destruct (safeReturnTo_cases parse_url mode returnTo R_customer None) as [->|(x & (v & _ & _ & _ & _ & _ & Hc) & _)]; [done|].
  by destruct (Hc eq_refl) as (y & ? & _).
Qed.
