(* ===== verification/ClientApi.v ===== *)
(** Requests of the web client to the API ([src/features/finance/core-api.ts],
    [src/auth/csrf-token.ts]): which headers a request carries, when it is sent again,
    how an answer becomes a value or an error message, and when the session is taken
    to have expired.

    The network is an argument: what happens to each attempt. *)
From S2P Require Import Prelude Schema EdgeAuth EdgeWorker ClientAccess.
From Stdlib Require Import Ascii.

(** ** The session's token *)
Record ClientSession := { cs_csrfToken : option string; cs_expired : nat }.
(** [setCsrfToken], [clearCsrfToken], [notifySessionExpired]: [cs_expired] counts the events. *)
Definition setCsrfToken (value : option string) (s : ClientSession) : ClientSession :=
  {| cs_csrfToken := trim_or_null value; cs_expired := s.(cs_expired) |}.
Definition clearCsrfToken (s : ClientSession) : ClientSession :=
  {| cs_csrfToken := None; cs_expired := s.(cs_expired) |}.
Definition notifySessionExpired (s : ClientSession) : ClientSession :=
  {| cs_csrfToken := None; cs_expired := S s.(cs_expired) |}.

(** ** Sending *)
Record ApiRequest := {
  aq_url : string; aq_method : string; aq_body : option string; aq_headers : gmap string string;
}.
Record ApiResponse := { ar_status : Z; ar_contentType : option string; ar_json : option json }.
(** What happens to an attempt: it is answered (and the body can be cancelled or not),
    it takes too long, or it fails. *)
Inductive Attempt := Answered (response : ApiResponse) (cancelled : bool) | TimedOut | NetworkFailed (message : string).
Definition transientReadStatuses : list Z := [502; 503; 504].
Definition defaultRequestTimeoutMs : Z := 10000.
Definition maxReadAttempts : nat := 2.

Section network.
(** By attempt: what the network does, and whether the caller has aborted by then. *)
Context (network : nat → Attempt) (aborted : nat → bool).
(** [fetchWithTimeout]: the timer's error replaces the abortion's. *)
Definition fetchWithTimeout (attempt : nat) : exn + (ApiResponse * bool) :=
  match network attempt with
  | Answered response cancelled => inr (response, cancelled)
  | TimedOut => inl (PlainError "请求超时，请稍后重试。")
  | NetworkFailed message => inl (PlainError message)
  end.
(** [fetchWithTransientReadRetry]: the requests sent, the retries announced, and the
    result.  [left] is [maxReadAttempts - 1 - attempt]. *)
Fixpoint fetch_retry (left attempt : nat) (retryable : bool) (request : ApiRequest) :
    list ApiRequest * nat * (exn + ApiResponse) :=
  let result := fetchWithTimeout attempt in
  let again announced :=
    match left with
    | O => ([request], announced, inl (PlainError "unreachable"))
    | S left' => let '(sent, retries, outcome) := fetch_retry left' (S attempt) retryable request in
                 (request :: sent, (announced + retries)%nat, outcome)
    end in
  match result with
  | inr (response, cancelled) =>
      let canRetry := retryable && includes transientReadStatuses response.(ar_status) && Nat.ltb 0 left in
      if negb canRetry then ([request], 0%nat, inr response)
      else if (cancelled : bool) then again 1%nat
      else if aborted attempt then ([request], 1%nat, inl (PlainError "cancel failed"))
      else again 2%nat
  | inl e =>
      if negb retryable || Nat.eqb left 0 || aborted attempt then ([request], 0%nat, inl e) else again 1%nat
  end.
Definition fetchWithTransientReadRetry (retryable : bool) (request : ApiRequest) :
    list ApiRequest * nat * (exn + ApiResponse) :=
  fetch_retry (maxReadAttempts - 1) 0 retryable request.
End network.

(** ** Error messages *)
Definition apiBoundaryErrorMessages : list (string * string) :=
  [("customer_core_route_forbidden", "账户资料暂时无法读取，请刷新账户或重新登录后重试。");
   ("authentication_required", "登录状态已失效，请重新登录。");
   ("session_role_required", "登录状态不完整，请重新登录。");
   ("admin_identity_incomplete", "管理员身份信息不完整，请重新登录。");
   ("admin_permission_required", "当前管理员账号没有执行此操作的权限。");
   ("service_unavailable", "服务暂时不可用，请稍后重试。");
   ("market_data_unavailable", "实时报价暂时不可用，请稍后重试。");
   ("virtual_account_opening_fee_changed", "开户手续费已更新，请确认最新金额后重新提交。");
   ("virtual_account_opening_fee_not_configured", "所选银行暂未配置开户手续费，请选择其他银行或稍后重试。");
   ("usd_wallet_not_found", "未找到可用的 USD 钱包，暂时无法支付开户手续费。");
   ("insufficient_available_balance", "USD 钱包可用余额不足，请充值后重试。");
   ("va_fee_policy_changed", "客户收费待遇已变化，请刷新并重新确认。");
   ("customer_identity_unchanged", "客户身份未变化；特殊免收须通过收费待遇设置调整。");
   ("va_fee_concurrent_change", "该申请正在被其他操作处理，请刷新后核对结果再重试。");
   ("va_fee_reason_required", "请填写 2 至 500 字的操作原因。");
   ("admin_created_customer_required", "仅允许标记有后台创建记录的客户为内部人员；普通客户可使用特殊免收。");
   ("internal_customer_already_exempt", "内部人员已自动免收，请先取消内部身份再调整普通客户待遇。");
   ("va_opening_fee_already_free", "本申请原本免费，无需再次减免。")].
(** The members every JavaScript object inherits are found too, but none of their
    names is a code or a message of the API. *)
Definition boundary_message (value : option json) : option string :=
  match value with Some (JStr x) => snd <$> List.find (λ kv, String.eqb kv.1 x) apiBoundaryErrorMessages | _ => None end.
Definition plain_text (value : option json) : option string :=
  match value with Some (JStr x) => if truthy (trim x) then Some x else None | _ => None end.
Definition apiErrorMessage (message code : option json) (status : Z) (fallback : string) : string :=
  match boundary_message code with
  | Some text => text
  | None =>
      match boundary_message message with
      | Some text => text
      | None =>
          match plain_text message with
          | Some text => text
          | None => match plain_text code with
                    | Some text => text
                    | None => fallback +:+ " (" +:+ pretty status +:+ ")"
                    end
          end
      end
  end.

(** [String(value)] of an element that [join] writes; [null] is empty. *)
Fixpoint joined_text (value : json) : string :=
  match value with
  | JNull => ""
  | JBool b => if b then "true" else "false"
  | JNum z => pretty z
  | JStr x => x
  | JArr l => String.concat "," (map joined_text l)
  | JObj _ => "[object Object]"
  end.
(** [Array.isArray(payload?.message) ? payload.message.join('，') : payload?.message] *)
Definition message_of (payload : option json) : option json :=
  match json_get "message" payload with
  | Some (JArr l) => Some (JStr (String.concat "，" (map joined_text l)))
  | message => message
  end.
Definition code_of (payload : option json) : option json := json_get "code" (json_get "error" payload).

(** ** [requestApi] *)
Record ApiInit := {
  ai_method : option string; ai_body : option string; ai_headers : gmap string string; ai_userId : string;
}.
Definition default_init : ApiInit :=
  {| ai_method := None; ai_body := None; ai_headers := ∅; ai_userId := "usr_admin" |}.
Definition role_text (role : AuthRole) : string := match role with R_admin => "admin" | R_customer => "customer" end.
Definition read_method (method : string) : bool := String.eqb method "GET" || String.eqb method "HEAD".
Definition method_of (init : ApiInit) : string := toUpperCase (default "GET" (or_string init.(ai_method) (Some "GET"))).
(** The role whose session a request to the core uses: that of the page. *)
Definition session_role (baseUrl location : string) : option AuthRole :=
  if starts_with "/api/core" baseUrl then requiredRoleForPath location else None.
(** The caller's headers come last. *)
Definition api_headers (development : bool) (baseUrl location : string) (init : ApiInit) (s : ClientSession) : gmap string string :=
  init.(ai_headers) ∪
  (set_if "X-CSRF-Token" (if negb (read_method (method_of init)) then s.(cs_csrfToken) else None)
  (set_if "X-Neobank-Session-Role" (role_text <$> session_role baseUrl location)
  (set_if "content-type" (if opt_truthy init.(ai_body) then Some "application/json" else None)
  (if development then {[ "x-user-id" := init.(ai_userId) ]} else ∅)))).
Definition api_request (development : bool) (baseUrl location path : string) (init : ApiInit) (s : ClientSession) : ApiRequest :=
  {| aq_url := baseUrl +:+ path; aq_method := default "GET" init.(ai_method); aq_body := init.(ai_body);
     aq_headers := api_headers development baseUrl location init s |}.
(** The payload of an answer: JSON by its content type; a body that is no JSON is [null]. *)
Definition payload_of (response : ApiResponse) : option json :=
  if contains "application/json" (toLowerCase (default "" response.(ar_contentType)))
  then match response.(ar_json) with Some JNull => None | payload => payload end
  else None.
Definition session_over (status : Z) (code : option json) : bool :=
  (status =? 401) && (opt_eqb (json_str code) (Some "session_expired") || opt_eqb (json_str code) (Some "authentication_required")).
(** What an answer means: a value, or an error and perhaps the end of the session. *)
Definition read_answer (response : ApiResponse) (s : ClientSession) : (exn + json) * ClientSession :=
  let payload := payload_of response in
  if negb (ok_status response.(ar_status)) then
    let code := code_of payload in
    (inl (PlainError (apiErrorMessage (message_of payload) code response.(ar_status) "请求失败")),
     if session_over response.(ar_status) code then notifySessionExpired s else s)
  else match payload with
       | Some value => (inr value, s)
       | None => (inl (PlainError "API 响应格式无效"), s)
       end.
Definition requestApi (network : nat → Attempt) (aborted : nat → bool) (development : bool)
    (baseUrl location path : string) (init : ApiInit) (s : ClientSession) :
    list ApiRequest * (exn + json) * ClientSession :=
  let '(sent, _, outcome) :=
    fetchWithTransientReadRetry network aborted (read_method (method_of init))
      (api_request development baseUrl location path init s) in
  match outcome with
  | inl e => (sent, inl e, s)
  | inr response => let '(answer, s') := read_answer response s in (sent, answer, s')
  end.

(** ** What is sent *)
(** An attempt is the last one, or a read is sent again. *)
Lemma fetch_retry_step network aborted left attempt retryable request sent announced outcome :
  fetch_retry network aborted left attempt retryable request = (sent, announced, outcome) →
  (sent = [request] ∧ ∀ response, outcome = inr response → ∃ cancelled, network attempt = Answered response cancelled) ∨
  ∃ left' sent' announced', left = S left' ∧ retryable = true ∧ sent = request :: sent' ∧
    fetch_retry network aborted left' (S attempt) retryable request = (sent', announced', outcome).
Proof.
  destruct left as [|left]; cbn [fetch_retry]; unfold fetchWithTimeout; intros H;
    destruct (network attempt) as [r c| |m] eqn:En; destruct retryable; simpl in H;
    repeat case_match; simplify_eq; try (left; split; [done|]; intros x Ex; simplify_eq; by eauto);
    right; do 3 eexists; split_and!; eauto.
Qed.
Lemma fetch_retry_sent network aborted request : ∀ left attempt retryable sent announced outcome,
  fetch_retry network aborted left attempt retryable request = (sent, announced, outcome) →
  ∃ extra, (extra ≤ (if retryable then left else 0))%nat ∧ sent = repeat request (S extra) ∧
  ∀ response, outcome = inr response → ∃ cancelled, network (attempt + extra)%nat = Answered response cancelled.
Proof.
  induction left as [|left IH]; intros attempt retryable sent announced outcome H;
    apply fetch_retry_step in H as [[-> Ho]|(left' & sent' & announced' & El & Er & -> & H)]; try done.
  - exists 0%nat. rewrite Nat.add_0_r. split; [by destruct retryable; lia|done].
  - exists 0%nat. rewrite Nat.add_0_r. split; [by destruct retryable; lia|done].
  - injection El as <-. subst retryable. apply IH in H as (extra & Hle & -> & Ho). exists (S extra).
    split; [lia|]. split; [done|]. intros x Hx. rewrite <- Nat.add_succ_comm. by apply Ho.
Qed.
Lemma set_if_other name value h k : k ≠ name → set_if name value h !! k = h !! k.
Proof. intros Hk. unfold set_if. destruct value as [v|]; [|done]. destruct (truthy v); [|done]. by rewrite lookup_insert_ne. Qed.
Definition truthy_value (o : option string) : option string :=
  match o with Some x => if truthy x then Some x else None | None => None end.
Lemma set_if_this name value h : h !! name = None → set_if name value h !! name = truthy_value value.
Proof. intros Hn. destruct value as [v|]; [|done]. cbn. destruct (truthy v); [|done]. by rewrite lookup_insert_eq. Qed.
Lemma csrf_header development baseUrl location init s : init.(ai_headers) !! "X-CSRF-Token" = None →
  api_headers development baseUrl location init s !! "X-CSRF-Token" =
    if read_method (method_of init) then None else truthy_value s.(cs_csrfToken).
Proof.
  intros Hc. unfold api_headers. rewrite lookup_union_r, set_if_this by
    (done || (rewrite !set_if_other by done; by destruct development)).
  by destruct (read_method _).
Qed.
Lemma read_answer_value response s value s' : read_answer response s = (inr value, s') →
  200 ≤ response.(ar_status) ≤ 299 ∧ response.(ar_json) = Some value ∧ value ≠ JNull ∧ s' = s.
Proof.
  unfold read_answer. destruct (ok_status _) eqn:Ho; simpl; [|done].
  apply andb_true_iff in Ho as [H1%Z.leb_le H2%Z.leb_le].
  destruct (payload_of response) as [p|] eqn:Ep; [|done]. intros [= -> <-]. split; [lia|].
  unfold payload_of in Ep. destruct (contains _ _); [|done].
  destruct (ar_json response) as [[]|]; simplify_eq; done.
Qed.
(** An answer that ends the session: a 401 whose JSON carries one of the two codes. *)
Definition says_session_over (response : ApiResponse) : Prop :=
  response.(ar_status) = 401 ∧ ∃ payload code, response.(ar_json) = Some payload ∧
    json_get "code" (json_get "error" (Some payload)) = Some (JStr code) ∧
    (code = "session_expired" ∨ code = "authentication_required").
Lemma payload_json response payload : payload_of response = Some payload → response.(ar_json) = Some payload.
Proof. unfold payload_of. destruct (contains _ _); [|done]. by destruct (ar_json response) as [[]|]. Qed.
Lemma read_answer_session response s answer s' : read_answer response s = (answer, s') →
  s' = s ∨ s' = notifySessionExpired s ∧ says_session_over response.
Proof.
  unfold read_answer. destruct (negb _); [|by destruct (payload_of response); intros [= _ <-]; left].
  destruct (session_over _ _) eqn:E; intros [= _ <-]; [right|by left]. split; [done|].
  apply andb_true_iff in E as [E%Z.eqb_eq Hcode]. split; [done|]. rewrite orb_true_iff, !opt_eqb_true in Hcode.
  unfold code_of in Hcode. destruct (payload_of response) as [payload|] eqn:Ep; [|by destruct Hcode].
  exists payload. destruct (json_get "code" _) as [[| | |code| |]|]; try (by destruct Hcode). exists code.
  split; [by apply payload_json|]. split; [done|]. destruct Hcode as [[= ->]|[= ->]]; auto.
Qed.

(** C36: What a call of the client's API sends: a request that writes is sent exactly once,
    whatever the network does, and one that reads once or twice, always the same request;
    outside the caller's own headers a write carries the session's token and a read does
    not; the call gives a value only for an answer of status 2xx with JSON other than null,
    and it leaves the session as it was, or ends it for a 401 whose JSON has the code
    [session_expired] or [authentication_required]; either answer is that of the last
    request sent. *)
Theorem writes_sent_once network aborted development baseUrl location path init s sent result s' :
  requestApi network aborted development baseUrl location path init s = (sent, result, s') →
  let request := api_request development baseUrl location path init s in
  (if read_method (method_of init) then sent = [request] ∨ sent = [request; request] else sent = [request]) ∧
  (init.(ai_headers) !! "X-CSRF-Token" = None →
   request.(aq_headers) !! "X-CSRF-Token" =
     if read_method (method_of init) then None else truthy_value s.(cs_csrfToken)) ∧
  (∀ value, result = inr value → value ≠ JNull ∧ s' = s ∧ ∃ attempt response cancelled,
     network attempt = Answered response cancelled ∧ S attempt = length sent ∧
     200 ≤ response.(ar_status) ≤ 299 ∧ response.(ar_json) = Some value) ∧
  (s' = s ∨ (s' = notifySessionExpired s ∧ ∃ attempt response cancelled,
     network attempt = Answered response cancelled ∧ S attempt = length sent ∧ response.(ar_status) = 401 ∧
     ∃ payload code, response.(ar_json) = Some payload ∧ json_get "code" (json_get "error" (Some payload)) = Some (JStr code) ∧
       (code = "session_expired" ∨ code = "authentication_required"))).
Proof.
  intros H request. unfold requestApi in H. fold request in H.
  destruct (fetchWithTransientReadRetry _ _ _ _) as [[sent0 n] outcome] eqn:E.
  apply fetch_retry_sent in E as (extra & Hle & -> & Ho). rewrite Nat.add_0_l in Ho.
  assert (Hs : sent = repeat request (S extra)) by (destruct outcome; [|destruct (read_answer _ _)]; congruence).
  split; [|split; [by apply csrf_header|]].
  { subst sent. destruct (read_method (method_of init)); [|by destruct extra; [|lia]].
    change (maxReadAttempts - 1)%nat with 1%nat in Hle. destruct extra as [|[|]]; [by left|by right|lia]. }
  destruct outcome as [e|response]; [injection H as _ <- <-; split; [done|by left]|].
  destruct (Ho response) as [cancelled Hn]; [done|]. destruct (read_answer response s) as [answer s0] eqn:Ea.
  injection H as _ -> ->. split.
  - intros value ->. apply read_answer_value in Ea as ([H0 H1] & H2 & H3 & ->). split_and!; try done.
    exists extra, response, cancelled. subst sent. split_and!; try done. simpl. by rewrite repeat_length.
  - apply read_answer_session in Ea as [->|[-> [H401 Hcode]]]; [by left|right]. split; [done|]. exists extra, response, cancelled.
    subst sent. split_and!; try done. simpl. by rewrite repeat_length.
Qed.

(** ** A read that is sent again, and a write that is not *)
Definition busy_then (response : ApiResponse) (attempt : nat) : Attempt :=
  match attempt with
  | O => Answered {| ar_status := 503; ar_contentType := None; ar_json := None |} true
  | _ => Answered response true
  end.
Definition good_answer : ApiResponse :=
  {| ar_status := 200; ar_contentType := Some "application/json; charset=utf-8"; ar_json := Some (JArr []) |}.
Definition sample_session : ClientSession := {| cs_csrfToken := Some "token"; cs_expired := 0 |}.
Definition post_init : ApiInit := {| ai_method := Some "POST"; ai_body := Some "{}"; ai_headers := ∅; ai_userId := "usr_admin" |}.
Definition sample_call (init : ApiInit) : list ApiRequest * (exn + json) * ClientSession :=
  requestApi (busy_then good_answer) (λ _, false) false "/api/v1" "/portal/home" "/accounts" init sample_session.
Lemma writes_sent_once_witness :
  (sample_call default_init).1.2 = inr (JArr []) ∧ (sample_call post_init).1.2 = inl (PlainError "请求失败 (503)") ∧
  (sample_call post_init).1.1 = [api_request false "/api/v1" "/portal/home" "/accounts" post_init sample_session].
Proof.
  split; [by vm_compute|]. split; [by vm_compute|].
  destruct (writes_sent_once (busy_then good_answer) (λ _, false) false "/api/v1" "/portal/home" "/accounts" post_init
    sample_session (sample_call post_init).1.1 (sample_call post_init).1.2 (sample_call post_init).2) as [H _];
    [by vm_compute|exact H].
Defined.
