(* ===== verification/AuthApi.v ===== *)
(** The authentication client ([src/auth/context/jwt/auth-api.ts]): what the browser asks
    the authentication service, and what it makes of the answers.

    A call is a process: it sends requests and waits for their answers, may ask the
    browser for a passkey, and acts on the state of the page in between; what runs
    between two waits is not interrupted.  The service, the network and the passkey
    ceremony ([@simplewebauthn/browser]) are what a process waits for. *)
From S2P Require Import Prelude Schema EdgeAuth EdgeWorker ClientAccess ClientApi.
From Stdlib Require Import Ascii.

(** ** Processes *)
Record AuthRequest := {
  hr_path : string; hr_method : string; hr_headers : gmap string string; hr_body : option json;
}.
Inductive Fetched := FetchAnswered (response : ApiResponse) | FetchFailed.
(** [AuthApiError], and any other error with its message. *)
Inductive AuthError :=
| AuthApiError (status : Z) (code message : string) (details : option json)
| OtherError (message : string).
Definition error_message (e : AuthError) : string :=
  match e with AuthApiError _ _ message _ => message | OtherError message => message end.

(** [Fetch]: a request and what follows its answer; [Ceremony]: a passkey is registered
    or used; [Act]: the page's state changes, and what follows sees it as it was before. *)
Inductive Proc (S A : Type) :=
| Return (a : A)
| Throw (e : AuthError)
| Fetch (request : AuthRequest) (k : Fetched → Proc S A)
| Ceremony (registration : bool) (options : json) (k : AuthError + json → Proc S A)
| Act (f : S → S) (k : S → Proc S A).
Arguments Return {S A}. Arguments Throw {S A}. Arguments Fetch {S A}.
Arguments Ceremony {S A}. Arguments Act {S A}.

Section processes.
Context {S A B : Type}.
Fixpoint proc_bind (p : Proc S A) (f : A → Proc S B) : Proc S B :=
  match p with
  | Return a => f a
  | Throw e => Throw e
  | Fetch rq k => Fetch rq (λ r, proc_bind (k r) f)
  | Ceremony reg options k => Ceremony reg options (λ r, proc_bind (k r) f)
  | Act g k => Act g (λ s, proc_bind (k s) f)
  end.
(** [try { return await p } catch (e) { h }] *)
Fixpoint catching (p : Proc S A) (h : AuthError → Proc S A) : Proc S A :=
  match p with
  | Return a => Return a
  | Throw e => h e
  | Fetch rq k => Fetch rq (λ r, catching (k r) h)
  | Ceremony reg options k => Ceremony reg options (λ r, catching (k r) h)
  | Act g k => Act g (λ s, catching (k s) h)
  end.
(** [try { p } finally { f }] *)
Fixpoint finally (p : Proc S A) (f : S → S) : Proc S A :=
  match p with
  | Return a => Act f (λ _, Return a)
  | Throw e => Act f (λ _, Throw e)
  | Fetch rq k => Fetch rq (λ r, finally (k r) f)
  | Ceremony reg options k => Ceremony reg options (λ r, finally (k r) f)
  | Act g k => Act g (λ s, finally (k s) f)
  end.
(** What runs at once: up to the next wait, or to the end. *)
Fixpoint advance (p : Proc S A) (s : S) : Proc S A * S :=
  match p with
  | Act f k => advance (k s) (f s)
  | _ => (p, s)
  end.
End processes.
Declare Scope proc_scope.
Delimit Scope proc_scope with proc.
Notation "'let*' x ':=' p 'in' q" := (proc_bind p (λ x, q)) (at level 10, x name, p at level 100, q at level 200) : proc_scope.
Notation "'let*' ' x ':=' p 'in' q" := (proc_bind p (λ x, q)) (at level 10, x pattern, p at level 100, q at level 200) : proc_scope.
Open Scope proc_scope.

(** What the rest of the page does when the session is found to have expired. *)
Class SessionWindow (S : Type) := { session_expired : S → S }.

(** ** Reading answers *)
Definition JsonRecord : Type := list (string * json).
Definition isRecord (value : option json) : bool := match value with Some (JObj _) => true | _ => false end.
Definition readRecord (value : option json) : JsonRecord := match value with Some (JObj l) => l | _ => [] end.
Definition record_get (key : string) (record : JsonRecord) : option json := assoc key record.
(** Truthiness of a value, and [a || b]. *)
Definition js_truthy (value : option json) : bool :=
  match value with
  | None | Some JNull | Some (JBool false) => false
  | Some (JNum z) => negb (z =? 0)
  | Some (JStr x) => truthy x
  | _ => true
  end.
Definition js_or (a b : option json) : option json := if js_truthy a then a else b.
Definition text_or_none (a b : option string) : option string := match a with Some x => Some x | None => b end.

Definition readString (record : JsonRecord) (keys : list string) : option string :=
  match List.find (λ key, match record_get key record with Some (JStr x) => truthy (trim x) | _ => false end) keys with
  | Some key => match record_get key record with Some (JStr x) => Some (trim x) | _ => None end
  | None => None
  end.
Definition readBoolean (record : JsonRecord) (keys : list string) : option bool :=
  match List.find (λ key, match record_get key record with Some (JBool _) => true | _ => false end) keys with
  | Some key => match record_get key record with Some (JBool b) => Some b | _ => None end
  | None => None
  end.
Definition is_set (b : option bool) : bool := opt_eqb b (Some true).
Definition unwrapPayload (payload : option json) : JsonRecord :=
  let root := readRecord payload in
  if isRecord (record_get "data" root) then readRecord (record_get "data" root) else root.
Definition normalizeRole (value : option json) : option AuthRole :=
  match value with
  | Some (JStr x) =>
      let role := toLowerCase (trim x) in
      if includes ["admin"; "administrator"; "operator"; "operations"] role then Some R_admin
      else if includes ["customer"; "account_holder"] role then Some R_customer
      else None
  | _ => None
  end.
(** [permissions.filter(isSessionPermission)] *)
Definition session_permissions (source : option json) : list string :=
  match source with
  | Some (JArr l) => omap (λ value, if isAdminPermission value then json_str (Some value) else None) l
  | _ => []
  end.
Definition normalizeAuthUser (payload : option json) : option AuthSessionUser :=
  let data := unwrapPayload payload in
  let session := readRecord (record_get "session" data) in
  let candidate := readRecord (js_or (record_get "user" data) (js_or (record_get "user" session) (record_get "account" data))) in
  match candidate with
  | [] => None
  | _ =>
      match readString candidate ["email"; "email_address"; "username"],
            normalizeRole (js_or (record_get "role" candidate) (js_or (record_get "user_role" candidate)
              (js_or (record_get "scope" candidate) (js_or (record_get "role" data) (record_get "role" session))))) with
      | Some email, Some role =>
          Some {| au_id := default email (readString candidate ["id"; "user_id"; "uid"]);
                  au_coreUserId := readString candidate ["core_user_id"; "coreUserId"];
                  au_email := email;
                  au_displayName := default (match split_char "@" email with Some (x, _) => x | None => email end)
                    (readString candidate ["display_name"; "displayName"; "name"; "full_name"]);
                  au_role := role;
                  au_totpEnabled := default false (readBoolean candidate ["totp_enabled"; "totpEnabled"]);
                  au_accessRole := readString candidate ["access_role"; "accessRole"];
                  au_photoURL := readString candidate ["photo_url"; "photoURL"; "avatar_url"; "avatarUrl"];
                  au_permissions := session_permissions (js_or (record_get "permissions" candidate) (record_get "permissions" data)) |}
      | _, _ => None
      end
  end.

(** ** Steps of a login *)
Inductive AuthFlowStep := F_authenticated | F_setup_required | F_totp_setup_required | F_totp_required | F_unknown.
#[export] Instance AuthFlowStep_eq_dec : EqDecision AuthFlowStep. Proof. solve_decision. Defined.
Definition raw_step (data : JsonRecord) : string :=
  toLowerCase (default "" (readString data ["next_step"; "nextStep"; "step"; "status"; "state"])).
Definition setup_pending (data : JsonRecord) : bool :=
  includes ["setup_required"; "password_setup_required"; "initial_setup_required"; "complete_setup"] (raw_step data) ||
  is_set (readBoolean data ["setup_required"; "password_setup_required"]).
Definition enrollment_pending (data : JsonRecord) : bool :=
  includes ["totp_setup_required"; "mfa_setup_required"; "enroll_totp"; "totp_enrollment"] (raw_step data) ||
  is_set (readBoolean data ["totp_setup_required"; "requires_totp_setup"; "mfa_setup_required"]) ||
  is_some (readString data ["enrollment_token"; "enrollmentToken"]).
Definition totp_pending (data : JsonRecord) : bool :=
  includes ["totp_required"; "mfa_required"; "verify_totp"; "verification_required"] (raw_step data) ||
  is_set (readBoolean data ["totp_required"; "requires_totp"; "mfa_required"]).
Definition login_done (data : JsonRecord) (user : option AuthSessionUser) : bool :=
  is_some user || includes ["authenticated"; "session_ready"; "complete"; "success"] (raw_step data) ||
  is_set (readBoolean data ["authenticated"; "session_ready"]).
Definition normalizeStep (data : JsonRecord) (user : option AuthSessionUser) : AuthFlowStep :=
  if setup_pending data then F_setup_required
  else if enrollment_pending data then F_totp_setup_required
  else if totp_pending data then F_totp_required
  else if login_done data user then F_authenticated
  else F_unknown.
Definition safeQrCodeDataUri (value : option string) : option string :=
  match value with
  | Some x => if negb (truthy x) then None
              else if starts_with "data:image/" x then Some x
              else if starts_with "/" x && negb (starts_with "//" x) then Some x
              else None
  | None => None
  end.
Record TotpSetupData := {
  ts_secret : string; ts_otpauthUri : option string; ts_qrCodeDataUri : option string;
  ts_issuer : option string; ts_accountName : option string; ts_enrollmentToken : option string;
}.
Definition normalizeTotpSetup (payload : option json) : option TotpSetupData :=
  let data := unwrapPayload payload in
  let source := readRecord (js_or (record_get "totp" data) (js_or (record_get "enrollment" data)
                  (js_or (record_get "setup" data) (Some (JObj data))))) in
  match readString source ["secret"; "manual_entry_key"; "manualKey"; "shared_secret"] with
  | None => None
  | Some secret =>
      Some {| ts_secret := secret;
              ts_otpauthUri := readString source ["otpauth_uri"; "otpauthUri"; "provisioning_uri"];
              ts_qrCodeDataUri := safeQrCodeDataUri (readString source ["qr_code_data_uri"; "qrCodeDataUri"; "qr_code"; "qrCode"]);
              ts_issuer := readString source ["issuer"];
              ts_accountName := readString source ["account_name"; "accountName"; "label"];
              ts_enrollmentToken := text_or_none (readString source ["enrollment_token"; "enrollmentToken"])
                                      (readString data ["enrollment_token"; "enrollmentToken"]) |}
  end.
Definition normalizeRecoveryCodes (data : JsonRecord) : list string :=
  match js_or (record_get "recovery_codes" data) (js_or (record_get "recoveryCodes" data)
          (record_get "recovery_codes" (readRecord (record_get "totp" data)))) with
  | Some (JArr l) =>
      map trim (omap (λ value, match value with JStr x => if truthy (trim x) then Some x else None | _ => None end) l)
  | _ => []
  end.
Record AuthFlowResult := {
  fr_nextStep : AuthFlowStep; fr_user : option AuthSessionUser; fr_challengeToken : option string;
  fr_enrollmentToken : option string; fr_setupToken : option string; fr_totpSetup : option TotpSetupData;
  fr_recoveryCodes : list string; fr_csrfToken : option string;
}.
Definition normalizeAuthFlow (payload : option json) : AuthFlowResult :=
  let data := unwrapPayload payload in
  let user := normalizeAuthUser (Some (JObj data)) in
  {| fr_nextStep := normalizeStep data user;
     fr_user := user;
     fr_challengeToken := text_or_none (readString data ["challenge_id"; "challenge_token"; "challengeToken"; "mfa_token"])
                            (readString (readRecord (record_get "challenge" data)) ["token"; "id"]);
     fr_enrollmentToken := readString data ["enrollment_token"; "enrollmentToken"];
     fr_setupToken := readString data ["setup_token"; "setupToken"; "invitation_token"];
     fr_totpSetup := normalizeTotpSetup (Some (JObj data));
     fr_recoveryCodes := normalizeRecoveryCodes data;
     fr_csrfToken := readString data ["csrf_token"; "csrfToken"] |}.

(** ** Paths *)
Definition scopedAuthPath (role : AuthRole) (action : string) : string :=
  "/api/auth/" +:+ match role with R_admin => "admin" | R_customer => "customer" end +:+ "/" +:+ action.
Definition IS_NEOBANK_DEPLOYMENT (mode : string) : bool :=
  IS_ISOLATED_WALLET_DEPLOYMENT mode || IS_FULL_ADMIN_WALLET_DEPLOYMENT mode.
Definition sessionAuthPath (mode : string) (role : option AuthRole) (action : string) : string :=
  match role with
  | Some r => if IS_NEOBANK_DEPLOYMENT mode then scopedAuthPath r action else "/api/auth/" +:+ action
  | None => "/api/auth/" +:+ action
  end.
(** [encodeURIComponent] of a text of bytes. *)
Definition unreserved (c : ascii) : bool :=
  let n := nat_of_ascii c in
  (Nat.leb 48 n && Nat.leb n 57) || (Nat.leb 65 n && Nat.leb n 90) || (Nat.leb 97 n && Nat.leb n 122) ||
  includes ["-"; "_"; "."; "!"; "~"; "*"; "'"; "("; ")"]%char c.
Definition upper_hex (d : nat) : ascii := ascii_of_nat (if Nat.ltb d 10 then 48 + d else 55 + d).
Definition percent (c : ascii) : list ascii :=
  ["%"%char; upper_hex (Nat.div (nat_of_ascii c) 16); upper_hex (Nat.modulo (nat_of_ascii c) 16)].
Definition encode_char (c : ascii) : list ascii := if unreserved c then [c] else percent c.
Definition encodeURIComponent (s : string) : string :=
  String.string_of_list_ascii (flat_map encode_char (String.list_ascii_of_string s)).

(** ** Requests *)
Record AuthInit := { an_method : option string; an_body : option json; an_headers : gmap string string }.
Definition parseResponse (response : ApiResponse) : json :=
  if negb (contains "application/json" (default "" response.(ar_contentType))) then JObj []
  else default (JObj []) response.(ar_json).
(** The error an answer that is not a success stands for. *)
Definition answer_error (status : Z) (payload : json) : AuthError :=
  let root := readRecord (Some payload) in
  let error := readRecord (record_get "error" root) in
  AuthApiError status
    (default (if status =? 401 then "invalid_credentials" else "request_failed")
       (text_or_none (readString error ["code"]) (readString root ["code"])))
    (default ("Authentication request failed (" +:+ pretty status +:+ ")")
       (text_or_none (readString error ["message"]) (readString root ["message"])))
    (js_or (record_get "details" error) (record_get "details" root)).
Definition ends_session (e : AuthError) : bool :=
  match e with
  | AuthApiError status code _ _ => (status =? 401) && includes ["authentication_required"; "session_expired"] code
  | OtherError _ => false
  end.
Definition unauthorized (e : AuthError) : bool :=
  match e with AuthApiError status _ _ _ => status =? 401 | OtherError _ => false end.
(** The caller's headers come last. *)
Definition auth_request (path : string) (init : AuthInit) : AuthRequest :=
  {| hr_path := path; hr_method := default "GET" init.(an_method);
     hr_headers := init.(an_headers) ∪
       (set_if "content-type" (if is_some init.(an_body) then Some "application/json" else None)
          {[ "accept" := "application/json"; "X-Requested-With" := "XMLHttpRequest" ]});
     hr_body := init.(an_body) |}.
Definition network_error : AuthError := AuthApiError 0 "network_error" "Authentication service is unavailable" None.
Definition invalid_response (message : string) : AuthError := AuthApiError 502 "invalid_auth_response" message None.
Definition csrf_headers (csrfToken : option string) : gmap string string := set_if "X-CSRF-Token" csrfToken ∅.
Definition posting (body : json) (headers : gmap string string) : AuthInit :=
  {| an_method := Some "POST"; an_body := Some body; an_headers := headers |}.
(** [...(value ? { [key]: value } : {})] *)
Definition text_field (key : string) (value : option string) : JsonRecord :=
  match value with Some x => if truthy x then [(key, JStr x)] else [] | None => [] end.

Record AuthSessionData := { sd_user : AuthSessionUser; sd_csrfToken : option string }.
Record CompleteSetupInput := { cs_setupToken : string; cs_password : string; cs_expectedRole : AuthRole }.
Record VerifyTotpInput := {
  vt_expectedRole : AuthRole; vt_code : option string; vt_recoveryCode : option string;
  vt_challengeToken : option string; vt_enrollmentToken : option string;
}.
Record ChangePasswordInput := { cp_currentPassword : string; cp_newPassword : string; cp_totpCode : string }.
Record SecurityStepUpInput := { su_currentPassword : string; su_totpCode : string }.
Record CustomerTotpEnrollmentResult := { te_setup : TotpSetupData; te_expiresAt : option string }.
Record CustomerTotpVerificationResult := { tv_totpEnabled : bool; tv_recoveryCodes : list string; tv_otherSessionsRevoked : bool }.

(** The session an answer describes. *)
Definition session_of (payload : json) : option AuthSessionData :=
  match normalizeAuthUser (Some payload), readString (unwrapPayload (Some payload)) ["csrf_token"; "csrfToken"] with
  | Some user, Some csrfToken => Some {| sd_user := user; sd_csrfToken := Some csrfToken |}
  | _, _ => None
  end.

Section endpoints.
Context {S : Type} `{!SessionWindow S} (mode : string).
Definition read_auth_answer (r : Fetched) : Proc S json :=
  match r with
  | FetchFailed => Throw network_error
  | FetchAnswered response =>
      let payload := parseResponse response in
      if ok_status response.(ar_status) then Return payload
      else let e := answer_error response.(ar_status) payload in
           if ends_session e then Act session_expired (λ _, Throw e) else Throw e
  end.
Definition authRequest (path : string) (init : AuthInit) : Proc S json := Fetch (auth_request path init) read_auth_answer.
Definition post (path : string) (body : JsonRecord) : Proc S json := authRequest path (posting (JObj body) ∅).
Definition post_csrf (path : string) (body : JsonRecord) (csrfToken : option string) : Proc S json :=
  authRequest path (posting (JObj body) (csrf_headers csrfToken)).
Definition void {A} (p : Proc S A) : Proc S unit := let* _ := p in Return tt.

(** *** Sessions *)
(** [null] when the answer is 401. *)
Definition getSession (expectedRole : option AuthRole) : Proc S (option AuthSessionData) :=
  catching
    (let* payload := authRequest (sessionAuthPath mode expectedRole "me")
                       {| an_method := Some "GET"; an_body := None; an_headers := ∅ |} in
     match session_of payload with
     | Some session => Return (Some session)
     | None => Throw (invalid_response "Invalid session response")
     end)
    (λ e, if unauthorized e then Return None else Throw e).
Definition flow_of (p : Proc S json) : Proc S AuthFlowResult :=
  let* payload := p in Return (normalizeAuthFlow (Some payload)).
Definition loginWithPassword (email password : string) (expectedRole : AuthRole) : Proc S AuthFlowResult :=
  flow_of (post (scopedAuthPath expectedRole "login") [("email", JStr email); ("password", JStr password)]).
Definition completeInitialSetup (input : CompleteSetupInput) : Proc S AuthFlowResult :=
  flow_of (post (scopedAuthPath input.(cs_expectedRole) "setup/complete")
    [("setup_token", JStr input.(cs_setupToken)); ("password", JStr input.(cs_password))]).
Definition setup_of (payload : json) : Proc S TotpSetupData :=
  match normalizeTotpSetup (Some payload) with
  | Some setup => Return setup
  | None => Throw (invalid_response "TOTP setup data is missing")
  end.
Definition beginTotpSetup (expectedRole : AuthRole) (enrollmentToken : option string) : Proc S TotpSetupData :=
  let* payload := post (scopedAuthPath expectedRole "totp/setup") (text_field "enrollment_token" enrollmentToken) in
  setup_of payload.
Definition verifyTotpChallenge (input : VerifyTotpInput) : Proc S AuthFlowResult :=
  flow_of (post (scopedAuthPath input.(vt_expectedRole) "totp/verify")
    (text_field "code" input.(vt_code) ++ text_field "recovery_code" input.(vt_recoveryCode) ++
     text_field "challenge_id" input.(vt_challengeToken) ++ text_field "enrollment_token" input.(vt_enrollmentToken))).
Definition changeCurrentPassword (input : ChangePasswordInput) (expectedRole : AuthRole) (csrfToken : option string) : Proc S unit :=
  void (post_csrf (scopedAuthPath expectedRole "password/change")
    [("current_password", JStr input.(cp_currentPassword)); ("new_password", JStr input.(cp_newPassword));
     ("totp_code", JStr input.(cp_totpCode))] csrfToken).
Definition logoutSession (expectedRole : option AuthRole) (csrfToken : option string) : Proc S unit :=
  void (post_csrf (sessionAuthPath mode expectedRole "logout") [] csrfToken).

(** *** Password reset and e-mail verification *)
Definition requestCustomerPasswordReset (email : string) : Proc S unit :=
  void (post "/api/auth/customer/password-reset/request" [("email", JStr (toLowerCase (trim email)))]).
Definition inspectCustomerPasswordReset (resetToken : string) : Proc S (bool * option string) :=
  let* payload := post "/api/auth/customer/password-reset/inspect" [("reset_token", JStr resetToken)] in
  let data := unwrapPayload (Some payload) in
  Return (is_set (readBoolean data ["valid"]), readString data ["expires_at"; "expiresAt"]).
Definition completeCustomerPasswordReset (resetToken newPassword : string) : Proc S unit :=
  void (post "/api/auth/customer/password-reset/complete"
    [("reset_token", JStr resetToken); ("new_password", JStr newPassword)]).
Definition completeCustomerEmailVerification (verificationToken : string) : Proc S unit :=
  void (post "/api/auth/customer/email-verification/complete" [("verification_token", JStr verificationToken)]).
Definition verifyCustomerEmailChange (emailChangeToken : string) : Proc S json :=
  post "/api/auth/customer/email-change/verify" [("email_change_token", JStr emailChangeToken)].

(** *** Account security *)
Definition security (action : string) : string := "/api/auth/customer/security/" +:+ action.
Definition securityStepUpBody (input : SecurityStepUpInput) : JsonRecord :=
  [("current_password", JStr input.(su_currentPassword)); ("totp_code", JStr input.(su_totpCode))].
Definition getCustomerSecuritySummary : Proc S JsonRecord :=
  let* payload := authRequest (security "summary") {| an_method := None; an_body := None; an_headers := ∅ |} in
  Return (unwrapPayload (Some payload)).
Definition revokeCustomerSession (sessionId : string) (csrfToken : option string) : Proc S unit :=
  void (post_csrf (security ("sessions/" +:+ encodeURIComponent sessionId +:+ "/revoke")) [] csrfToken).
Definition revokeOtherCustomerSessions (csrfToken : option string) : Proc S unit :=
  void (post_csrf (security "sessions/revoke-others") [] csrfToken).
Definition regenerateCustomerRecoveryCodes (input : SecurityStepUpInput) (csrfToken : option string) : Proc S (list string) :=
  let* payload := post_csrf (security "recovery-codes/regenerate") (securityStepUpBody input) csrfToken in
  Return (normalizeRecoveryCodes (unwrapPayload (Some payload))).
Definition enrollment_of (payload : json) : Proc S CustomerTotpEnrollmentResult :=
  let* setup := setup_of payload in
  Return {| te_setup := setup; te_expiresAt := readString (unwrapPayload (Some payload)) ["expires_at"; "expiresAt"] |}.
Definition beginCustomerTotpReplacement (input : SecurityStepUpInput) (csrfToken : option string) : Proc S CustomerTotpEnrollmentResult :=
  let* payload := post_csrf (security "totp/replace/start") (securityStepUpBody input) csrfToken in enrollment_of payload.
Definition verifyCustomerTotpReplacement (enrollmentToken code : string) (csrfToken : option string) : Proc S (list string * bool) :=
  let* payload := post_csrf (security "totp/replace/verify") [("enrollment_token", JStr enrollmentToken); ("code", JStr code)] csrfToken in
  let data := unwrapPayload (Some payload) in
  Return (normalizeRecoveryCodes data, is_set (readBoolean data ["other_sessions_revoked"; "otherSessionsRevoked"])).
Definition requestCustomerEmailChange (input : SecurityStepUpInput) (newEmail : string) (csrfToken : option string) : Proc S unit :=
  void (post_csrf (security "email-change/request") (securityStepUpBody input ++ [("new_email", JStr newEmail)]) csrfToken).
Definition applyCustomerEmailChange (input : SecurityStepUpInput) (csrfToken : option string) : Proc S unit :=
  void (post_csrf (security "email-change/apply") (securityStepUpBody input) csrfToken).
Inductive LockAction := Lock_enable | Lock_request_unlock | Lock_confirm_unlock.
Definition lock_text (action : LockAction) : string :=
  match action with Lock_enable => "enable" | Lock_request_unlock => "request-unlock" | Lock_confirm_unlock => "confirm-unlock" end.
Definition changeCustomerWithdrawalLock (action : LockAction) (input : SecurityStepUpInput) (csrfToken : option string) : Proc S unit :=
  void (post_csrf (security ("withdrawal-lock/" +:+ lock_text action)) (securityStepUpBody input) csrfToken).
Definition exportCustomerData (input : SecurityStepUpInput) (csrfToken : option string) : Proc S json :=
  post_csrf (security "data-export") (securityStepUpBody input) csrfToken.
Definition requestCustomerAccountClosure (input : SecurityStepUpInput) (reason : string) (csrfToken : option string) : Proc S unit :=
  void (post_csrf (security "account-closure/request") (securityStepUpBody input ++ [("reason", JStr reason)]) csrfToken).
Definition cancelCustomerAccountClosure (csrfToken : option string) : Proc S unit :=
  void (post_csrf (security "account-closure/cancel") [] csrfToken).

(** *** Passkeys *)
Definition ceremony (registration : bool) (options : json) : Proc S json :=
  Ceremony registration options (λ r, match r with inl e => Throw e | inr credential => Return credential end).
(** The challenge and the options the service answers with. *)
Definition passkey_options (payload : json) : Proc S (string * json) :=
  let data := unwrapPayload (Some payload) in
  match readString data ["challenge_id"], record_get "options" data with
  | Some challengeId, Some (JObj options) => Return (challengeId, JObj options)
  | _, _ => Throw (invalid_response "Passkey options are missing")
  end.
Definition registerCustomerPasskey (input : SecurityStepUpInput) (displayName : string) (csrfToken : option string) : Proc S unit :=
  let* payload := post_csrf "/api/auth/customer/passkey/register/options"
                    (securityStepUpBody input ++ [("display_name", JStr displayName)]) csrfToken in
  let* '(challengeId, options) := passkey_options payload in
  let* credential := ceremony true options in
  void (post_csrf "/api/auth/customer/passkey/register/verify"
    [("challenge_id", JStr challengeId); ("credential", credential)] csrfToken).
Definition removeCustomerPasskey (passkeyId : string) (input : SecurityStepUpInput) (csrfToken : option string) : Proc S unit :=
  void (post_csrf ("/api/auth/customer/passkey/" +:+ encodeURIComponent passkeyId +:+ "/remove") (securityStepUpBody input) csrfToken).
Definition loginCustomerWithPasskey : Proc S AuthFlowResult :=
  let* payload := post "/api/auth/customer/passkey/login/options" [] in
  let* '(challengeId, options) := passkey_options payload in
  let* credential := ceremony false options in
  flow_of (post "/api/auth/customer/passkey/login/verify" [("challenge_id", JStr challengeId); ("credential", credential)]).

(** *** Enrolment of a second factor *)
Definition beginCustomerTotpEnrollment (currentPassword : string) (csrfToken : option string) : Proc S CustomerTotpEnrollmentResult :=
  let* payload := post_csrf "/api/auth/customer/totp/enroll/start" [("current_password", JStr currentPassword)] csrfToken in
  enrollment_of payload.
Definition verifyCustomerTotpEnrollment (enrollmentToken code : string) (csrfToken : option string) : Proc S CustomerTotpVerificationResult :=
  let* payload := post_csrf "/api/auth/customer/totp/enroll/verify" [("enrollment_token", JStr enrollmentToken); ("code", JStr code)] csrfToken in
  let data := unwrapPayload (Some payload) in
  Return {| tv_totpEnabled := is_set (readBoolean data ["totp_enabled"; "totpEnabled"]);
            tv_recoveryCodes := normalizeRecoveryCodes data;
            tv_otherSessionsRevoked := is_set (readBoolean data ["other_sessions_revoked"; "otherSessionsRevoked"]) |}.
End endpoints.
