(* ===== verification/AuthSession.v ===== *)
(** The session of a page ([src/auth/context/jwt/auth-provider.tsx],
    [src/auth/csrf-token.ts]): its reducer, and logging in, logging out and refreshing as
    processes that overlap.  Every session request takes the next number, and what it
    learns counts only while no later one has started.

    A page runs any number of processes; the order in which their answers arrive, and
    when the session is found to have expired, is arbitrary. *)
From S2P Require Import Prelude Schema EdgeAuth EdgeWorker ClientAccess ClientApi AuthApi.

(** ** The state of the page *)
(** [latestSessionRequestRef], the CSRF token of the module, and the reducer's state. *)
Record Page := {
  pg_latest : Z; pg_session : ClientSession;
  pg_user : option AuthSessionUser; pg_loading : bool; pg_sessionError : option string;
}.
Definition initialState : Page :=
  {| pg_latest := 0; pg_session := {| cs_csrfToken := None; cs_expired := 0 |};
     pg_user := None; pg_loading := true; pg_sessionError := None |}.
Inductive AuthAction :=
| INITIAL (user : option AuthSessionUser) (sessionError : option string)
| AUTHENTICATED (user : AuthSessionUser)
| LOGOUT.
Definition reducer (action : AuthAction) (s : Page) : Page :=
  let set user sessionError :=
    {| pg_latest := s.(pg_latest); pg_session := s.(pg_session);
       pg_user := user; pg_loading := false; pg_sessionError := sessionError |} in
  match action with
  | INITIAL user sessionError => set user sessionError
  | AUTHENTICATED user => set (Some user) None
  | LOGOUT => set None None
  end.
Definition on_token (f : ClientSession → ClientSession) (s : Page) : Page :=
  {| pg_latest := s.(pg_latest); pg_session := f s.(pg_session);
     pg_user := s.(pg_user); pg_loading := s.(pg_loading); pg_sessionError := s.(pg_sessionError) |}.
(** [latestSessionRequestRef.current += 1] *)
Definition next_request (s : Page) : Page :=
  {| pg_latest := s.(pg_latest) + 1; pg_session := s.(pg_session);
     pg_user := s.(pg_user); pg_loading := s.(pg_loading); pg_sessionError := s.(pg_sessionError) |}.
(** [handleSessionExpired], and the event that calls it. *)
Definition handleSessionExpired (s : Page) : Page := reducer LOGOUT (on_token clearCsrfToken (next_request s)).
Definition session_expired_event (s : Page) : Page := handleSessionExpired (on_token notifySessionExpired s).
#[export] Instance page_window : SessionWindow Page := {| session_expired := session_expired_event |}.

(** What the guards see. *)
Definition context_value (s : Page) : AuthState :=
  {| as_loading := s.(pg_loading); as_authenticated := is_some s.(pg_user); as_user := s.(pg_user) |}.

(** ** The processes *)
(** The build: its deployment mode, [NODE_ENV] and [REACT_APP_LOCAL_DEMO]. *)
Record Build := { bd_mode : string; bd_nodeEnv : string; bd_localDemo : option string }.
Definition demo_admin : AuthSessionUser :=
  {| au_id := "usr_admin"; au_coreUserId := Some "usr_admin"; au_email := "admin@ssc-digital-bank.local";
     au_displayName := "本地管理员"; au_role := R_admin; au_totpEnabled := false;
     au_accessRole := Some "super_admin"; au_photoURL := None;
     au_permissions := ["admin_users.manage"; "customers.read"; "customers.review"; "funds.read"; "funds.manage";
                        "settings.manage"; "reports.read"] |}.
Section provider.
Context (build : Build).
(** [location] is the path of the page when the process starts. *)
Definition localDemoUser (location : string) : option AuthSessionUser :=
  if IS_NEOBANK_DEPLOYMENT build.(bd_mode) || differs build.(bd_nodeEnv) "development" ||
     negb (opt_eqb build.(bd_localDemo) (Some "true")) then None
  else if starts_with "/customer" location || starts_with "/portal" location then None
  else Some demo_admin.
Definition or_role (a b : option AuthRole) : option AuthRole := match a with Some r => Some r | None => b end.
(** [if (latestSessionRequestRef.current !== requestId) stale; else { f; fresh }] *)
Definition if_latest {A} (requestId : Z) (f : Page → Page) (fresh stale : Proc Page A) : Proc Page A :=
  Act (λ s, if s.(pg_latest) =? requestId then f s else s)
      (λ s, if s.(pg_latest) =? requestId then fresh else stale).
Definition with_request {A} (k : Z → Proc Page A) : Proc Page A := Act next_request (λ s, k (s.(pg_latest) + 1)).
Definition session_failure (e : AuthError) : Page → Page := reducer (INITIAL None (Some (error_message e))).

(** A process whose error the handler turns into another process. *)
Definition outcome {S A} (p : Proc S A) : Proc S (AuthError + A) :=
  catching (let* a := p in Return (inr a)) (λ e, Return (inl e)).

(** What the answer of the session check changes. *)
Definition record_session (requestId : Z) (result : AuthError + option AuthSessionData) : Proc Page (option AuthSessionUser) :=
  match result with
  | inr session =>
      let user := sd_user <$> session in
      if_latest requestId
        (λ s, reducer (INITIAL user None) (on_token (setCsrfToken (session ≫= sd_csrfToken)) s))
        (Return user) (Return None)
  | inl e => if_latest requestId (session_failure e) (Throw e) (Return None)
  end.
Definition refreshSession (expectedRole : option AuthRole) (location : string) : Proc Page (option AuthSessionUser) :=
  with_request (λ requestId,
  match localDemoUser location with
  | Some demoUser => if_latest requestId (reducer (INITIAL (Some demoUser) None)) (Return (Some demoUser)) (Return (Some demoUser))
  | None =>
      let* result := outcome (getSession build.(bd_mode) (or_role expectedRole (requiredRoleForPath location))) in
      record_session requestId result
  end).
(** Run when the page is first shown; its errors are recorded by [refreshSession]. *)
Definition initialize (location : string) : Proc Page unit :=
  catching (void (refreshSession None location)) (λ _, Return tt).

Definition with_step (result : AuthFlowResult) (step : AuthFlowStep) (user : option AuthSessionUser) : AuthFlowResult :=
  {| fr_nextStep := step; fr_user := user; fr_challengeToken := result.(fr_challengeToken);
     fr_enrollmentToken := result.(fr_enrollmentToken); fr_setupToken := result.(fr_setupToken);
     fr_totpSetup := result.(fr_totpSetup); fr_recoveryCodes := result.(fr_recoveryCodes);
     fr_csrfToken := result.(fr_csrfToken) |}.
Definition unknown_step (result : AuthFlowResult) : AuthFlowResult := with_step result F_unknown result.(fr_user).
(** The user and the token a finished login installs. *)
Definition established (result : AuthFlowResult) (session : option AuthSessionData) : option (AuthSessionUser * string) :=
  match (match session with Some d => Some d.(sd_user) | None => result.(fr_user) end),
        text_or_none result.(fr_csrfToken) (session ≫= sd_csrfToken) with
  | Some user, Some csrfToken => Some (user, csrfToken)
  | _, _ => None
  end.
Definition establish (result : AuthFlowResult) (requestId : Z) (answer : AuthError + option AuthSessionData) : Proc Page AuthFlowResult :=
  match answer with
  | inl e => if_latest requestId (session_failure e) (Throw e) (Throw e)
  | inr session =>
      match established result session with
      | None => if_latest requestId (reducer (INITIAL None (Some "invalid_auth_response")))
                  (Return (unknown_step result)) (Return (unknown_step result))
      | Some (user, csrfToken) =>
          if_latest requestId (λ s, reducer (AUTHENTICATED user) (on_token (setCsrfToken (Some csrfToken)) s))
            (Return (with_step result result.(fr_nextStep) (Some user))) (Return (unknown_step result))
      end
  end.
Definition applyFlowResult (result : AuthFlowResult) (expectedRole : AuthRole) : Proc Page AuthFlowResult :=
  if negb (same result.(fr_nextStep) F_authenticated) then Return result
  else with_request (λ requestId,
    let* answer := outcome (getSession build.(bd_mode) (Some expectedRole)) in establish result requestId answer).
Definition login (email password : string) (expectedRole : AuthRole) : Proc Page AuthFlowResult :=
  let* result := loginWithPassword email password expectedRole in applyFlowResult result expectedRole.
Definition completeSetup (input : CompleteSetupInput) : Proc Page AuthFlowResult :=
  let* result := completeInitialSetup input in applyFlowResult result input.(cs_expectedRole).
Definition setupTotp (expectedRole : AuthRole) (enrollmentToken : option string) : Proc Page TotpSetupData :=
  beginTotpSetup expectedRole enrollmentToken.
Definition verifyTotp (input : VerifyTotpInput) : Proc Page AuthFlowResult :=
  let* result := verifyTotpChallenge input in applyFlowResult result input.(vt_expectedRole).
Definition signed_out (s : Page) : Page := reducer LOGOUT (on_token clearCsrfToken s).
(** [shown] is the role of the user the page showed when the process was started. *)
Definition logout (expectedRole shown : option AuthRole) (location : string) : Proc Page unit :=
  Act next_request (λ s,
    match localDemoUser location with
    | Some _ => Act (reducer LOGOUT) (λ _, Return tt)
    | None =>
        finally
          (catching
             (logoutSession build.(bd_mode) (or_role expectedRole (or_role shown (requiredRoleForPath location)))
                s.(pg_session).(cs_csrfToken))
             (λ e, if unauthorized e then Return tt else Throw e))
          signed_out
    end).
Definition authentication_required (e : AuthError) : bool :=
  match e with AuthApiError _ code _ _ => String.eqb code "authentication_required" | OtherError _ => false end.
Definition changePassword (input : ChangePasswordInput) (shown : option AuthRole) : Proc Page unit :=
  match shown with
  | None => Throw (OtherError "authentication_required")
  | Some role =>
      Act id (λ s,
        catching (changeCurrentPassword input role s.(pg_session).(cs_csrfToken))
          (λ e, if authentication_required e then Act signed_out (λ _, Throw e) else Throw e))
  end.

(** ** The page at work *)
Inductive PageAction :=
| Initialize (location : string)
| Refresh (expectedRole : option AuthRole) (location : string)
| Login (email password : string) (expectedRole : AuthRole)
| CompleteSetup (input : CompleteSetupInput)
| SetupTotp (expectedRole : AuthRole) (enrollmentToken : option string)
| VerifyTotp (input : VerifyTotpInput)
| Logout (expectedRole shown : option AuthRole) (location : string)
| ChangePassword (input : ChangePasswordInput) (shown : option AuthRole).
Definition process (a : PageAction) : Proc Page unit :=
  match a with
  | Initialize location => initialize location
  | Refresh role location => void (refreshSession role location)
  | Login email password role => void (login email password role)
  | CompleteSetup input => void (completeSetup input)
  | SetupTotp role token => void (setupTotp role token)
  | VerifyTotp input => void (verifyTotp input)
  | Logout role shown location => logout role shown location
  | ChangePassword input shown => changePassword input shown
  end.
(** The processes started, in order: those that ended stay where they are.  [wd_owner] is
    the process that took the current number, [None] when the end of a session did or none has. *)
Record World := { wd_page : Page; wd_tasks : list (Proc Page unit); wd_owner : option nat }.
Inductive Event := Start (a : PageAction) | Answer (i : nat) (r : Fetched) | Expired.
Definition settle (w : World) (i : nat) (tasks : Proc Page unit → list (Proc Page unit)) (p : Proc Page unit) : World :=
  let '(p', page) := advance p w.(wd_page) in
  {| wd_page := page; wd_tasks := tasks p';
     wd_owner := if page.(pg_latest) =? w.(wd_page).(pg_latest) then w.(wd_owner) else Some i |}.
Definition step (w : World) (e : Event) : World :=
  match e with
  | Start a => settle w (length w.(wd_tasks)) (λ p, w.(wd_tasks) ++ [p]) (process a)
  | Answer i r =>
      match w.(wd_tasks) !! i with
      | Some (Fetch _ k) => settle w i (λ p, <[i := p]> w.(wd_tasks)) (k r)
      | _ => w
      end
  | Expired => {| wd_page := session_expired_event w.(wd_page); wd_tasks := w.(wd_tasks); wd_owner := None |}
  end.
Definition opened : World := {| wd_page := initialState; wd_tasks := []; wd_owner := None |}.
Definition run_events (w : World) (es : list Event) : World := fold_left step es w.
End provider.
