(* ===== verification/AuthSessionProperties.v ===== *)
(** What overlapping logins, refreshes and logouts of one page can do to its session. *)
From S2P Require Import Prelude Schema EdgeAuth EdgeWorker ClientAccess ClientAccessProperties ClientApi AuthApi AuthSession.
From Stdlib Require Import Ascii.

(** ** Reasoning about processes

    [always Φ Q p]: every change [p] makes to the state satisfies [Φ], and what it returns
    satisfies [Q], whatever it is answered and whatever runs in between. *)
Section always.
Context {S : Type}.
Implicit Types (Φ : (S → S) → Prop).
Fixpoint always {A} Φ (Q : A → Prop) (p : Proc S A) : Prop :=
  match p with
  | Return a => Q a
  | Throw _ => True
  | Fetch _ k => ∀ r, always Φ Q (k r)
  | Ceremony _ _ k => ∀ r, always Φ Q (k r)
  | Act f k => Φ f ∧ ∀ s, always Φ Q (k s)
  end.
Lemma always_weaken {A} Φ (Q R : A → Prop) p : (∀ a, Q a → R a) → always Φ Q p → always Φ R p.
Proof. intros HQ. induction p as [a|e|rq k IH|reg o k IH|f k IH]; simpl; [auto|auto|auto|auto|]. intros [? ?]; auto. Qed.
Lemma always_then {A B} Φ (Q : A → Prop) (R : B → Prop) p (f : A → Proc S B) :
  always Φ Q p → (∀ a, Q a → always Φ R (f a)) → always Φ R (proc_bind p f).
Proof.
  intros Hp Hf. induction p as [a|e|rq k IH|reg o k IH|g k IH]; simpl in *; [auto|auto|auto|auto|].
  destruct Hp; auto.
Qed.
Lemma always_catching {A} Φ (Q : A → Prop) p h :
  always Φ Q p → (∀ e, always Φ Q (h e)) → always Φ Q (catching p h).
Proof.
  intros Hp Hh. induction p as [a|e|rq k IH|reg o k IH|g k IH]; simpl in *; [auto|auto|auto|auto|].
  destruct Hp; auto.
Qed.
Lemma always_finally {A} Φ (Q : A → Prop) p f : always Φ Q p → Φ f → always Φ Q (finally p f).
Proof.
  intros Hp Hf. induction p as [a|e|rq k IH|reg o k IH|g k IH]; simpl in *; [auto|auto|auto|auto|].
  destruct Hp; auto.
Qed.
Lemma always_outcome {A} Φ (Q : A → Prop) (p : Proc S A) :
  always Φ Q p → always Φ (λ r, match r with inl _ => True | inr a => Q a end) (outcome p).
Proof.
  intros Hp. apply always_catching; [|done]. by eapply always_then; [exact Hp|].
Qed.
Lemma always_void {A} Φ (p : Proc S A) : always Φ (λ _, True) p → always Φ (λ _, True) (void p).
Proof. intros Hp. by eapply always_then. Qed.
(** An invariant of the changes holds after any stretch of the process. *)
Lemma always_advance {A} Φ (I : S → Prop) (Q : A → Prop) p s p' s' :
  (∀ f, Φ f → ∀ x, I x → I (f x)) → always Φ Q p → I s → advance p s = (p', s') → I s' ∧ always Φ Q p'.
Proof.
  intros HI. revert s. induction p as [a|e|rq k IH|reg o k IH|f k IH]; simpl; intros s Hp Hs E; simplify_eq/=; try done.
  destruct Hp as [Hf Hk]. eapply IH; [apply Hk| |exact E]. by apply (HI f).
Qed.
End always.

(** The requests of the authentication client change the state by the end of a session only. *)
Section requests.
Context {S : Type} `{!SessionWindow S} (Φ : (S → S) → Prop) (Hexpired : Φ session_expired).
Lemma always_request path init : always Φ (λ _, True) (authRequest path init).
Proof. intros [response|]; simpl; [|done]. repeat case_match; simpl; auto. Qed.
Lemma always_flow (p : Proc S json) : always Φ (λ _, True) p → always Φ (λ r, ∃ payload, r = normalizeAuthFlow payload) (flow_of p).
Proof. intros Hp. eapply always_then; [exact Hp|]. intros payload _. simpl. eauto. Qed.
Lemma always_session mode role :
  always Φ (λ d, ∀ x, d = Some x → ∃ record keys t, x.(sd_csrfToken) = Some t ∧ readString record keys = Some t) (getSession mode role).
Proof.
  apply always_catching; [|intros e; by destruct (unauthorized e)].
  eapply always_then; [apply always_request|]. intros payload _.
  unfold session_of. destruct (normalizeAuthUser _); [|done]. destruct (readString _ _) eqn:E; [|done]. simpl. naive_solver.
Qed.
Lemma always_login email password role :
  always Φ (λ r, ∃ payload, r = normalizeAuthFlow payload) (loginWithPassword email password role).
Proof. apply always_flow, always_request. Qed.
Lemma always_setup input : always Φ (λ r, ∃ payload, r = normalizeAuthFlow payload) (completeInitialSetup input).
Proof. apply always_flow, always_request. Qed.
Lemma always_totp input : always Φ (λ r, ∃ payload, r = normalizeAuthFlow payload) (verifyTotpChallenge input).
Proof. apply always_flow, always_request. Qed.
Lemma always_begin role token : always Φ (λ _, True) (beginTotpSetup role token).
Proof. eapply always_then; [apply always_request|]. intros payload _. unfold setup_of. by destruct (normalizeTotpSetup _). Qed.
Lemma always_change input role token : always Φ (λ _, True) (changeCurrentPassword input role token).
Proof. apply always_void, always_request. Qed.
Lemma always_logout mode role token : always Φ (λ _, True) (logoutSession mode role token).
Proof. apply always_void, always_request. Qed.
End requests.
#[export] Hint Resolve always_request always_login always_setup always_totp always_begin always_change always_logout : processes.

(** ** Tokens *)
Lemma readString_text record keys t : readString record keys = Some t → truthy t = true ∧ trim t = t.
Proof.
  unfold readString. destruct (List.find _ keys) as [key|] eqn:E; [|done].
  apply List.find_some in E as [_ E]. destruct (record_get key record) as [[]|]; try done.
  intros [= <-]. split; [done|apply trim_trim].
Qed.
Lemma set_text_token t s : truthy t = true → trim t = t → (setCsrfToken (Some t) s).(cs_csrfToken) = Some t.
Proof. intros Ht Et. unfold setCsrfToken, trim_or_null; simpl. by rewrite Et, Ht. Qed.

(** A page that shows a user holds a token. *)
Definition held_token (s : Page) : option string := s.(pg_session).(cs_csrfToken).
Definition token_inv (s : Page) : Prop := is_some s.(pg_user) = true → opt_truthy (held_token s) = true.
Definition keeps_token (f : Page → Page) : Prop := ∀ s, token_inv s → token_inv (f s).
Lemma keeps_token_none f : (∀ s, (f s).(pg_user) = None) → keeps_token f.
Proof. intros Hf s _. unfold token_inv. by rewrite Hf. Qed.
Lemma keeps_token_same f : (∀ s, (f s).(pg_user) = s.(pg_user) ∧ held_token (f s) = held_token s) → keeps_token f.
Proof. intros Hf s Hs. unfold token_inv. destruct (Hf s) as [-> ->]. exact Hs. Qed.

Lemma expired_signs_out s : (session_expired_event s).(pg_user) = None.
Proof. done. Qed.
Lemma keeps_token_expired : keeps_token session_expired.
Proof. by apply keeps_token_none. Qed.
Lemma keeps_token_next : keeps_token next_request.
Proof. by apply keeps_token_same. Qed.
Lemma keeps_token_if id f : keeps_token f → keeps_token (λ s, if s.(pg_latest) =? id then f s else s).
Proof. intros Hf s Hs. destruct (_ =? _); [by apply Hf|done]. Qed.
Lemma keeps_token_sets t user s : truthy t = true → trim t = t →
  token_inv (reducer (INITIAL user None) (on_token (setCsrfToken (Some t)) s)).
Proof. intros Ht Et _. unfold held_token. simpl. unfold trim_or_null. by rewrite Et, Ht. Qed.
Lemma keeps_token_failure e : keeps_token (session_failure e).
Proof. by apply keeps_token_none. Qed.
#[export] Hint Resolve keeps_token_expired keeps_token_next keeps_token_if keeps_token_failure : processes.

(** ** Builds of the neobank *)
Section neobank.
Context (build : Build) (Hneobank : IS_NEOBANK_DEPLOYMENT build.(bd_mode) = true).
Lemma no_demo location : localDemoUser build location = None.
Proof. unfold localDemoUser. by rewrite Hneobank. Qed.

(** *** Tokens *)
Lemma refresh_token role location : always keeps_token (λ _, True) (refreshSession build role location).
Proof.
  unfold refreshSession, with_request. split; [apply keeps_token_next|]. intros s. rewrite no_demo.
  eapply always_then; [apply always_outcome, always_session, keeps_token_expired|].
  intros [e|session] Hd; cbn [record_session establish if_latest always].
  { split; [auto with processes|]. intros x. by destruct (_ =? _). }
  split; [|intros x; by destruct (_ =? _)]. apply keeps_token_if.
  destruct session as [d|]; [|by apply keeps_token_none].
  destruct (Hd d eq_refl) as (record & keys & t & Et & Hr). apply readString_text in Hr as [Ht Htr].
  intros x _. simpl. rewrite Et. by apply keeps_token_sets.
Qed.
Lemma established_text payload session user t :
  (∀ d, session = Some d → ∃ record keys t, d.(sd_csrfToken) = Some t ∧ readString record keys = Some t) →
  established (normalizeAuthFlow payload) session = Some (user, t) → truthy t = true ∧ trim t = t.
Proof.
  intros Hd. unfold established. set (o := fr_csrfToken _).
  assert (Ho : ∀ x, o = Some x → truthy x = true ∧ trim x = x) by (intros x; apply readString_text).
  destruct o as [x|]; simpl; intros E.
  { repeat case_match; simplify_eq; by apply Ho. }
  destruct session as [d|]; simpl in E; [|by destruct (normalizeAuthUser _)].
  destruct (Hd d eq_refl) as (record & keys & y & Ey & Hr). rewrite Ey in E. simplify_eq. by eapply readString_text.
Qed.
Lemma apply_token payload role : always keeps_token (λ _, True) (applyFlowResult build (normalizeAuthFlow payload) role).
Proof.
  unfold applyFlowResult. destruct (negb _); [done|]. split; [apply keeps_token_next|]. intros s.
  eapply always_then; [apply always_outcome, always_session, keeps_token_expired|].
  intros [e|session] Hd; cbn [record_session establish if_latest always].
  { split; [auto with processes|]. intros x. by destruct (_ =? _). }
  unfold establish. destruct (established (normalizeAuthFlow payload) session) as [[user t]|] eqn:E; cbn [if_latest always];
    (split; [|intros x; by destruct (_ =? _)]); apply keeps_token_if.
  - destruct (established_text _ _ _ _ Hd E) as [Ht Htr].
    intros x _ _. unfold held_token. simpl. unfold trim_or_null. by rewrite Htr, Ht.
  - by apply keeps_token_none.
Qed.
Lemma flow_token (p : Proc Page AuthFlowResult) role :
  always keeps_token (λ r, ∃ payload, r = normalizeAuthFlow payload) p →
  always keeps_token (λ _, True) (void (let* result := p in applyFlowResult build result role)).
Proof. intros Hp. apply always_void. eapply always_then; [exact Hp|]. intros ? [payload ->]. apply apply_token. Qed.
Lemma signed_out_token : keeps_token signed_out.
Proof. by apply keeps_token_none. Qed.
Lemma process_token a : always keeps_token (λ _, True) (process build a).
Proof.
  destruct a; cbn [process].
  - apply always_catching; [apply always_void, refresh_token|by intros e].
  - apply always_void, refresh_token.
  - apply flow_token, always_login, keeps_token_expired.
  - apply flow_token, always_setup, keeps_token_expired.
  - apply always_void, always_begin, keeps_token_expired.
  - apply flow_token, always_totp, keeps_token_expired.
  - unfold logout. split; [apply keeps_token_next|]. intros s. rewrite no_demo.
    apply always_finally; [|apply signed_out_token].
    apply always_catching; [apply always_logout, keeps_token_expired|]. intros e. by destruct (unauthorized e).
  - unfold changePassword. destruct shown as [role|]; [|done]. split; [by intros s|]. intros s.
    apply always_catching; [apply always_change, keeps_token_expired|].
    intros e. destruct (authentication_required e); [|done]. split; [apply signed_out_token|done].
Qed.
(** Every process in flight, and the page. *)
Definition token_world (w : World) : Prop :=
  token_inv w.(wd_page) ∧ ∀ i t, w.(wd_tasks) !! i = Some t → always keeps_token (λ _, True) t.
Lemma step_token w e : token_world w → token_world (step build w e).
Proof.
  intros [Hs Ht]. assert (Hk : ∀ f, keeps_token f → ∀ x, token_inv x → token_inv (f x)) by auto.
  destruct e as [a|i r|]; simpl.
  - unfold settle. destruct (advance _ _) as [p' s'] eqn:E.
    destruct (always_advance keeps_token token_inv _ _ _ _ _ Hk (process_token a) Hs E) as [Hs' Hp']. split; [done|].
    intros j t. simpl. rewrite lookup_app_Some. intros [Hj|[_ Hj]]; [eauto|]. by apply list_lookup_singleton_Some in Hj as [_ <-].
  - destruct (wd_tasks w !! i) as [p|] eqn:Ei; [|done]. destruct p as [| |rq k| |]; try done.
    unfold settle. destruct (advance _ _) as [p' s'] eqn:E.
    destruct (always_advance keeps_token token_inv _ _ _ _ _ Hk (Ht _ _ Ei r) Hs E) as [Hs' Hp']. split; [done|].
    intros j t. simpl. intros [(-> & <- & _)|[_ Hj]]%list_lookup_insert_Some; eauto.
  - split; [by apply keeps_token_expired|exact Ht].
Qed.
Lemma run_token es : token_world (run_events build opened es).
Proof.
  unfold run_events. rewrite <- fold_left_rev_right. induction (rev es) as [|e l IH]; simpl.
  - split; [done|]. intros i t Hi. done.
  - by apply step_token.
Qed.
End neobank.

(** ** Which request may sign a user in

    [obeys id f]: [f] does not take numbers back, and unless [id] is the latest number it
    leaves the user as it was or signs it out. *)
Definition obeys (id : Z) (f : Page → Page) : Prop := ∀ s,
  s.(pg_latest) ≤ (f s).(pg_latest) ∧
  (s.(pg_latest) ≠ id → (f s).(pg_user) = s.(pg_user) ∨ (f s).(pg_user) = None).
(** A process that acts under [id] until it takes a new number, after which it waits. *)
Inductive disciplined {A} : Z → Proc Page A → Prop :=
| disc_always id p : always (obeys id) (λ _, True) p → disciplined id p
| disc_fetch id rq k : (∀ r, disciplined id (k r)) → disciplined id (Fetch rq k)
| disc_ceremony id reg o k : (∀ r, disciplined id (k r)) → disciplined id (Ceremony reg o k)
| disc_act id f k : obeys id f → (∀ s, disciplined id (k s)) → disciplined id (Act f k)
| disc_request id rq k :
    (∀ s r, always (obeys (s.(pg_latest) + 1)) (λ _, True) (k s r)) →
    disciplined id (Act next_request (λ s, Fetch rq (k s))).

Lemma disciplined_then {A B} id (Q : A → Prop) p (f : A → Proc Page B) :
  always (obeys id) Q p → (∀ a, Q a → disciplined id (f a)) → disciplined id (proc_bind p f).
Proof.
  intros Hp Hf. induction p as [a|e|rq k IH|reg o k IH|g k IH]; simpl in *;
    [auto|by apply disc_always|apply disc_fetch; auto|apply disc_ceremony; auto|].
  destruct Hp. apply disc_act; auto.
Qed.
Lemma disciplined_void {A} id (p : Proc Page A) : disciplined id p → disciplined id (void p).
Proof.
  induction 1 as [id p Hp|id rq k _ IH|id reg o k _ IH|id f k Hf _ IH|id rq k Hk].
  - by apply disc_always, always_void.
  - by apply disc_fetch.
  - by apply disc_ceremony.
  - by apply disc_act.
  - apply disc_request. intros s r. apply always_void, Hk.
Qed.
Lemma disciplined_catching {A} id (p : Proc Page A) a : disciplined id p → disciplined id (catching p (λ _, Return a)).
Proof.
  induction 1 as [id p Hp|id rq k _ IH|id reg o k _ IH|id f k Hf _ IH|id rq k Hk].
  - by apply disc_always, always_catching.
  - by apply disc_fetch.
  - by apply disc_ceremony.
  - by apply disc_act.
  - apply disc_request. intros s r. by apply always_catching.
Qed.

(** One stretch of a disciplined process. *)
Lemma always_stretch {A} id (p : Proc Page A) s p' s' :
  always (obeys id) (λ _, True) p → id ≤ s.(pg_latest) → advance p s = (p', s') →
  always (obeys id) (λ _, True) p' ∧ s.(pg_latest) ≤ s'.(pg_latest) ∧
  (s.(pg_latest) ≠ id → s'.(pg_user) = s.(pg_user) ∨ s'.(pg_user) = None).
Proof.
  revert s. induction p as [a|e|rq k IH|reg o k IH|f k IH]; simpl; intros s Hp Hid E; simplify_eq/=;
    try (split_and!; [done|lia|by left]).
  destruct Hp as [Hf Hk]. destruct (Hf s) as [Hle Hu].
  destruct (IH s (f s) (Hk s) ltac:(lia) E) as (Hp' & Hle' & Hu'). split_and!; [done|lia|].
  intros Hne. destruct Hu' as [->| ->]; [lia| |by right]. by apply Hu.
Qed.
Lemma disciplined_stretch {A} id (p : Proc Page A) s p' s' :
  disciplined id p → id ≤ s.(pg_latest) → advance p s = (p', s') →
  s.(pg_latest) ≤ s'.(pg_latest) ∧
  (s.(pg_latest) ≠ id → s'.(pg_user) = s.(pg_user) ∨ s'.(pg_user) = None) ∧
  ∃ id', disciplined id' p' ∧ id' ≤ s'.(pg_latest) ∧
    (id' = s'.(pg_latest) → s.(pg_latest) = s'.(pg_latest) → id' = id).
Proof.
  intros Hp. revert s. induction Hp as [id p Hp|id rq k Hk IH|id reg o k Hk IH|id f k Hf Hk IH|id rq k Hk]; intros s Hid E.
  - destruct (always_stretch id p s p' s' Hp Hid E) as (Hp' & Hle & Hu). split_and!; [done|done|].
    exists id. split_and!; [by apply disc_always|lia|done].
  - simpl in E. simplify_eq. split_and!; [lia|by left|]. exists id. split_and!; [by apply disc_fetch|done|done].
  - simpl in E. simplify_eq. split_and!; [lia|by left|]. exists id. split_and!; [by apply disc_ceremony|done|done].
  - simpl in E. destruct (Hf s) as [Hle Hu]. destruct (IH s (f s) ltac:(lia) E) as (Hle' & Hu' & id' & Hp' & Hid' & Hnew).
    split_and!; [lia| |exists id'; split_and!; [done|done|intros; apply Hnew; lia]].
    intros Hne. destruct Hu' as [->| ->]; [lia| |by right]. by apply Hu.
  - simpl in E. simplify_eq/=. split_and!; [lia|by left|]. exists (s.(pg_latest) + 1).
    split; [apply disc_always; intros r; apply Hk|]. split; [done|]. simpl. lia.
Qed.

Lemma obeys_out id f : (∀ s, s.(pg_latest) ≤ (f s).(pg_latest) ∧ (f s).(pg_user) = None) → obeys id f.
Proof. intros Hf s. destruct (Hf s). auto. Qed.
Lemma obeys_expired id : obeys id session_expired.
Proof. apply obeys_out. intros s. simpl. split; [lia|done]. Qed.
Lemma obeys_next id : obeys id next_request.
Proof. intros s. simpl. split; [lia|by left]. Qed.
Lemma obeys_if id f : (∀ s, (f s).(pg_latest) = s.(pg_latest)) → obeys id (λ s, if s.(pg_latest) =? id then f s else s).
Proof.
  intros Hf s. destruct (Z.eqb_spec (s.(pg_latest)) id) as [E|Hne]; [rewrite Hf|]; (split; [lia|]); [done|by left].
Qed.
Lemma obeys_signed_out id : obeys id signed_out.
Proof. apply obeys_out. intros s. simpl. split; [lia|done]. Qed.
#[export] Hint Resolve obeys_expired obeys_next obeys_signed_out : processes.
Lemma if_latest_obeys {A} id f (fresh stale : Proc Page A) : (∀ s, (f s).(pg_latest) = s.(pg_latest)) →
  always (obeys id) (λ _, True) fresh → always (obeys id) (λ _, True) stale →
  always (obeys id) (λ _, True) (if_latest id f fresh stale).
Proof. intros Hf H1 H2. split; [by apply obeys_if|]. intros s. by destruct (_ =? _). Qed.

(** ** Only the latest request signs a user in *)
Section latest.
Context (build : Build) (Hneobank : IS_NEOBANK_DEPLOYMENT build.(bd_mode) = true).
Lemma checked_disciplined {A} mode role (f : Z → _ → Proc Page A) :
  (∀ id answer, always (obeys id) (λ _, True) (f id answer)) →
  disciplined (-1) (with_request (λ id, let* answer := outcome (getSession mode role) in f id answer)).
Proof.
  intros Hf. apply disc_request. intros s. change (always (obeys (s.(pg_latest) + 1)) (λ _, True)
    (let* answer := outcome (getSession mode role) in f (s.(pg_latest) + 1) answer)).
  eapply always_then; [apply always_outcome, always_session, obeys_expired|]. intros answer _. apply Hf.
Qed.
Lemma refresh_disciplined role location : disciplined (-1) (refreshSession build role location).
Proof.
  unfold refreshSession. rewrite (no_demo build Hneobank location). apply checked_disciplined.
  intros id [e|session]; by apply if_latest_obeys.
Qed.
Lemma apply_disciplined result role : disciplined (-1) (applyFlowResult build result role).
Proof.
  unfold applyFlowResult. destruct (negb _); [by apply disc_always|]. apply checked_disciplined.
  intros id [e|session]; [by apply if_latest_obeys|]. unfold establish.
  destruct (established result session) as [[user t]|]; by apply if_latest_obeys.
Qed.
Lemma flow_disciplined (p : Proc Page AuthFlowResult) role :
  always (obeys (-1)) (λ _, True) p → disciplined (-1) (void (let* result := p in applyFlowResult build result role)).
Proof. intros Hp. apply disciplined_void. eapply disciplined_then; [exact Hp|]. intros result _. apply apply_disciplined. Qed.
(** The actions that may end with a user on the page. *)
Definition may_sign_in (a : PageAction) : bool :=
  match a with SetupTotp _ _ | Logout _ _ _ | ChangePassword _ _ => false | _ => true end.
Lemma quiet_process a : may_sign_in a = false → always (obeys (-1)) (λ _, True) (process build a).
Proof.
  pose proof (obeys_expired (-1)) as He. destruct a; try done; intros _; cbn [process].
  - by apply always_void, always_begin.
  - unfold logout. split; [apply obeys_next|]. intros s. rewrite (no_demo build Hneobank location).
    apply always_finally; [|apply obeys_signed_out].
    apply always_catching; [by apply always_logout|]. intros e. by destruct (unauthorized e).
  - unfold changePassword. destruct shown as [role|]; [|done].
    split; [intros s; split; [done|by left]|]. intros s. apply always_catching; [by apply always_change|].
    intros e. destruct (authentication_required e); [|done]. split; [apply obeys_signed_out|done].
Qed.
Lemma process_disciplined a : disciplined (-1) (process build a).
Proof.
  pose proof (obeys_expired (-1)) as He.
  destruct (may_sign_in a) eqn:Ea; [|by apply disc_always, quiet_process]. destruct a; try done; cbn [process].
  - apply disciplined_catching, disciplined_void, refresh_disciplined.
  - apply disciplined_void, refresh_disciplined.
  - apply flow_disciplined. eapply always_weaken; [done|]. by apply always_login.
  - apply flow_disciplined. eapply always_weaken; [done|]. by apply always_setup.
  - apply flow_disciplined. eapply always_weaken; [done|]. by apply always_totp.
Qed.

(** Process [i], started for [a], acts under [id] or cannot sign in. *)
Definition task_inv (w : World) (i : nat) (a : PageAction) (t : Proc Page unit) : Prop :=
  (may_sign_in a = false → always (obeys (-1)) (λ _, True) t) ∧
  ∃ id, disciplined id t ∧ id ≤ w.(wd_page).(pg_latest) ∧ (id = w.(wd_page).(pg_latest) → w.(wd_owner) = Some i).
Definition owned_world (started : list PageAction) (w : World) : Prop :=
  0 ≤ w.(wd_page).(pg_latest) ∧ length w.(wd_tasks) = length started ∧
  (∀ i, w.(wd_owner) = Some i → (i < length started)%nat) ∧
  ∀ i a t, started !! i = Some a → w.(wd_tasks) !! i = Some t → task_inv w i a t.

(** A stretch of process [i]: the others are as they were, and it signs in under the last number only. *)
Lemma settle_task w i a tasks p : 0 ≤ w.(wd_page).(pg_latest) → task_inv w i a p →
  ∃ p', (settle w i tasks p).(wd_tasks) = tasks p' ∧
  ((settle w i tasks p).(wd_owner) = w.(wd_owner) ∨ (settle w i tasks p).(wd_owner) = Some i) ∧ task_inv (settle w i tasks p) i a p' ∧
  w.(wd_page).(pg_latest) ≤ (settle w i tasks p).(wd_page).(pg_latest) ∧
  (∀ j b u, task_inv w j b u → j ≠ i → task_inv (settle w i tasks p) j b u) ∧
  ((settle w i tasks p).(wd_page).(pg_user) = w.(wd_page).(pg_user) ∨ (settle w i tasks p).(wd_page).(pg_user) = None ∨
   w.(wd_owner) = Some i ∧ may_sign_in a = true).
Proof.
  intros H0 (Hq & id & Hp & Hid & Ho). assert (Hm1 : -1 ≤ w.(wd_page).(pg_latest)) by lia. unfold settle. destruct (advance p _) as [p' s'] eqn:E. exists p'. simpl.
  destruct (disciplined_stretch _ _ _ _ _ Hp Hid E) as (Hle & Hu & id' & Hp' & Hid' & Hnew). split; [done|].
  split; [destruct (_ =? _); auto|]. split; [|split; [done|split]].
  - split; [intros Ha; by destruct (always_stretch _ _ _ _ _ (Hq Ha) Hm1 E) as (? & _)|]. exists id'. split; [done|]. split; [done|].
    simpl. intros Heq. destruct (Z.eqb_spec (pg_latest s') (pg_latest (wd_page w))); [|done].
    apply Ho. rewrite <- (Hnew Heq) by done. lia.
  - intros j b u (Hb & jd & Hd & Hj1 & Hj2) Hne. split; [done|]. exists jd. split; [done|]. simpl. split; [lia|]. intros Heq.
    destruct (Z.eqb_spec (pg_latest s') (pg_latest (wd_page w))); [apply Hj2|]; lia.
  - destruct (may_sign_in a) eqn:Ea.
    + destruct (decide (id = pg_latest (wd_page w))) as [Heq|Hne]; [right; right; auto|]. destruct Hu; [lia| |]; auto.
    + destruct (always_stretch _ _ _ _ _ (Hq eq_refl) Hm1 E) as (_ & _ & Hu'). destruct Hu'; [lia| |]; auto.
Qed.
Definition starts (e : Event) : list PageAction := match e with Start a => [a] | _ => [] end.
Lemma step_owned started w e : owned_world started w → owned_world (started ++ starts e) (step build w e) ∧
  ((step build w e).(wd_page).(pg_user) = w.(wd_page).(pg_user) ∨ (step build w e).(wd_page).(pg_user) = None ∨
   ∃ i r a, e = Answer i r ∧ w.(wd_owner) = Some i ∧ started !! i = Some a ∧ may_sign_in a = true).
Proof.
  intros (H0 & Hlen & Hown & Ht). assert (Hsame : started ++ [] = started) by apply app_nil_r.
  destruct e as [a|i r|]; cbn [step starts]; rewrite ?Hsame.
  - destruct (settle_task w (length (wd_tasks w)) a (λ p, wd_tasks w ++ [p]) (process build a)) as (p' & Ep & Eo & Hi & Hle & Hj & Hu);
      [done| |].
    { split; [apply quiet_process|]. exists (-1). split; [apply process_disciplined|lia]. }
    split; [|destruct Hu as [?|[?|[Ho _]]]; auto; apply Hown in Ho; lia].
    + split; [lia|]. rewrite Ep. split; [rewrite !length_app; simpl; lia|]. split.
      { intros j Ej. rewrite length_app. simpl. destruct Eo as [Eo|Eo]; rewrite Eo in Ej; [apply Hown in Ej; lia|]. injection Ej as <-. lia. }
      intros j b t.
      rewrite !lookup_app_Some. intros [Hb|[Hj1 Hb]] [Htj|[Hj2 Htj]].
      * apply Hj; [by apply Ht|]. apply lookup_lt_Some in Htj. lia.
      * apply lookup_lt_Some in Hb. lia.
      * apply lookup_lt_Some in Htj. lia.
      * apply list_lookup_singleton_Some in Hb as [Hb <-]. apply list_lookup_singleton_Some in Htj as [_ <-].
        replace j with (length (wd_tasks w)) by lia. done.
  - destruct (wd_tasks w !! i) as [p|] eqn:Ei; [|split; [done|auto]]. destruct p as [| |rq k| |]; try (split; [done|auto]).
    destruct (lookup_lt_is_Some_2 started i) as [a Ha]; [apply lookup_lt_Some in Ei; lia|].
    destruct (settle_task w i a (λ p, <[i:=p]> (wd_tasks w)) (k r)) as (p' & Ep & Eo & Hi & Hle & Hj & Hu); [done| |].
    { destruct (Ht _ _ _ Ha Ei) as (Hq & id & Hd & Hid). split; [intros Hm; by apply Hq|]. exists id. split; [|done].
      inversion Hd; subst; simplify_eq; [apply disc_always; auto|auto]. }
    split; [|destruct Hu as [?|[?|[Ho Hm]]]; auto; right; right; by exists i, r, a].
    split; [lia|]. rewrite Ep, length_insert. split; [done|]. split.
    { intros j Ej. destruct Eo as [Eo|Eo]; rewrite Eo in Ej; [by apply Hown|]. injection Ej as <-. by apply lookup_lt_Some in Ha. }
    intros j b t Hb.
    intros [(-> & <- & _)|[Hne Htj]]%list_lookup_insert_Some; [by simplify_eq|]. apply Hj; [by apply Ht|done].
  - split; [|by auto]. split; [simpl; lia|]. split; [done|]. split; [done|]. simpl. intros i a t Ha Hi.
    destruct (Ht _ _ _ Ha Hi) as (Hq & id & Hd & Hid & _). split; [done|]. exists id. split; [done|]. simpl. lia.
Qed.
Lemma run_owned es : owned_world (es ≫= starts) (run_events build opened es).
Proof.
  induction es as [|e es IH] using rev_ind; [by split|].
  unfold run_events. rewrite fold_left_app, bind_app. simpl. rewrite app_nil_r. by apply step_owned.
Qed.
End latest.

(** C34: A signed-in page can write: in a neobank build, however logins, refreshes, logouts and
    expiries of the session overlap and in whatever order their answers arrive, a page
    shown to an administrator ([dashboard_route]) or to a customer ([portal_route]) belongs
    to the user of the page's state, and every write it sends to the API carries the
    CSRF token of that session, which is not blank; a signed-out page shows neither. *)
Theorem shown_pages_can_write build es query pathname search development baseUrl location init :
  IS_NEOBANK_DEPLOYMENT build.(bd_mode) = true →
  read_method (method_of init) = false → init.(ai_headers) !! "X-CSRF-Token" = None →
  let s := (run_events build opened es).(wd_page) in
  dashboard_route query build.(bd_mode) (context_value s) pathname search = Children ∨
  portal_route query build.(bd_mode) (context_value s) pathname search = Children →
  ∃ u t, s.(pg_user) = Some u ∧ s.(pg_loading) = false ∧ truthy t = true ∧
    api_headers development baseUrl location init s.(pg_session) !! "X-CSRF-Token" = Some t.
Proof.
  intros Hn Hm Hi s Hroute. destruct (run_token build Hn es) as [Hs _]. fold s in Hs.
  assert (Hshown : s.(pg_loading) = false ∧ is_some s.(pg_user) = true).
  { unfold dashboard_route, portal_route, AuthGuard in Hroute. simpl in Hroute.
    destruct (pg_loading s); simpl in Hroute; [by destruct Hroute|]. split; [done|].
    destruct (pg_user s); [done|]. simpl in Hroute. by destruct Hroute. }
  destruct Hshown as [Hl Hu]. specialize (Hs Hu). unfold held_token in Hs.
  destruct (cs_csrfToken (pg_session s)) as [t|] eqn:Et; [|done]. apply is_some_true in Hu as [u Hu].
  exists u, t. split_and!; [done|done|done|]. rewrite csrf_header by done. rewrite Hm, Et. simpl in Hs |- *. by rewrite Hs.
Qed.

(** ** A login from its first answer to its last *)
Definition signed_in_page (user : AuthSessionUser) (t : string) (s : Page) : Page :=
  reducer (AUTHENTICATED user) (on_token (setCsrfToken (Some t)) s).
(** The page after the answer [r] to the session check of a login that gave [result]. *)
Definition login_page (result : AuthFlowResult) (r : Fetched) (s : Page) : Page :=
  match r with
  | FetchFailed => session_failure network_error s
  | FetchAnswered response =>
      let payload := parseResponse response in
      if ok_status response.(ar_status) then
        match session_of payload with
        | Some d => signed_in_page d.(sd_user) (default "" (text_or_none result.(fr_csrfToken) d.(sd_csrfToken))) s
        | None => session_failure (invalid_response "Invalid session response") s
        end
      else
        let e := answer_error response.(ar_status) payload in
        if ends_session e then session_expired_event s
        else if unauthorized e then
          match result.(fr_user), result.(fr_csrfToken) with
          | Some user, Some t => signed_in_page user t s
          | _, _ => reducer (INITIAL None (Some "invalid_auth_response")) s
          end
        else session_failure e s
  end.
(** What follows the session check of a login. *)
Definition login_check (result : AuthFlowResult) (id : Z) (r : Fetched) : Proc Page unit :=
  void (let* answer := outcome (catching (let* payload := read_auth_answer r in
          match session_of payload with
          | Some session => Return (Some session)
          | None => Throw (invalid_response "Invalid session response")
          end) (λ e, if unauthorized e then Return None else Throw e)) in establish result id answer).
Lemma apply_advances build result role s : fr_nextStep result = F_authenticated →
  advance (void (applyFlowResult build result role)) s =
    (Fetch (auth_request (sessionAuthPath build.(bd_mode) (Some role) "me") {| an_method := Some "GET"; an_body := None; an_headers := ∅ |})
       (login_check result (s.(pg_latest) + 1)), next_request s).
Proof. intros E. unfold applyFlowResult. by rewrite E. Qed.
(** *** The numbers *)
(** [w'] is [w] after process [i] took the next number; [None] is the end of the session. *)
Definition took_number (w : World) (i : option nat) (w' : World) : Prop :=
  w'.(wd_page).(pg_latest) = w.(wd_page).(pg_latest) + 1 ∧ w'.(wd_owner) = i.
(** The actions that take a number when they start, and those that take it when the first
    answer completes the login. *)
Definition checks_session (a : PageAction) : bool :=
  match a with Initialize _ | Refresh _ _ | Logout _ _ _ => true | _ => false end.
Definition logs_in (a : PageAction) : bool :=
  match a with Login _ _ _ | CompleteSetup _ | VerifyTotp _ => true | _ => false end.
Definition completes_login (response : ApiResponse) : bool :=
  ok_status response.(ar_status) && same (normalizeAuthFlow (Some (parseResponse response))).(fr_nextStep) F_authenticated.
Lemma settle_takes w i tasks p p' : advance p w.(wd_page) = (p', next_request w.(wd_page)) → took_number w (Some i) (settle w i tasks p).
Proof.
  intros E. unfold settle. rewrite E. split; [done|]. simpl. by rewrite (proj2 (Z.eqb_neq (_ + 1) _)) by lia.
Qed.
Lemma start_takes build w a : IS_NEOBANK_DEPLOYMENT build.(bd_mode) = true → checks_session a = true →
  took_number w (Some (length w.(wd_tasks))) (step build w (Start a)).
Proof.
  intros Hn Ha. destruct a as [location|role location| | | | |role shown location|]; try done; cbn [step process];
    unfold initialize, refreshSession, logout; rewrite (no_demo build Hn location); by eapply settle_takes.
Qed.
Lemma login_takes build w i a response : w.(wd_tasks) !! i = Some (process build a) → logs_in a = true →
  completes_login response = true → took_number w (Some i) (step build w (Answer i (FetchAnswered response))).
Proof.
  intros Hi Ha [Hok Hs]%andb_true_iff. rewrite same_true in Hs. cbn [step]. rewrite Hi.
  destruct a as [| |email password role|input| |input| |]; try done; cbn; unfold read_auth_answer; rewrite Hok; cbn.
  - eapply settle_takes. exact (apply_advances build _ role w.(wd_page) Hs).
  - eapply settle_takes. exact (apply_advances build _ input.(cs_expectedRole) w.(wd_page) Hs).
  - eapply settle_takes. exact (apply_advances build _ input.(vt_expectedRole) w.(wd_page) Hs).
Qed.

(** C33: Only the latest session request signs a user in.  Each opening of the page, refresh
    and logout takes the next number when it starts, each login when its answer, or that of
    the step that completes it, is accepted, and each expiry of the session when it
    happens.  In a neobank build, however they overlap, a step puts a user on the page only
    when it answers the process that took the number last, and that process is a login,
    the completion of a login, or a refresh.  So an answer that arrives after a later
    login, refresh or logout has taken a number, or after the session has expired, signs no
    one in, and every other step leaves the user as it was or signs it out. *)
Theorem only_latest_signs_in build es :
  IS_NEOBANK_DEPLOYMENT build.(bd_mode) = true →
  let w := run_events build opened es in
  (∀ a, checks_session a = true → took_number w (Some (length w.(wd_tasks))) (step build w (Start a))) ∧
  (∀ i a response, w.(wd_tasks) !! i = Some (process build a) → logs_in a = true → completes_login response = true →
     took_number w (Some i) (step build w (Answer i (FetchAnswered response)))) ∧
  took_number w None (step build w Expired) ∧
  (∀ e u, (step build w e).(wd_page).(pg_user) = Some u → w.(wd_page).(pg_user) ≠ Some u →
     ∃ i r a, e = Answer i r ∧ w.(wd_owner) = Some i ∧ (es ≫= starts) !! i = Some a ∧ may_sign_in a = true).
Proof.
  intros Hn w. split; [intros a; by apply start_takes|]. split; [intros i a response; by apply login_takes|]. split; [done|].
  intros e u Hu Hne. destruct (step_owned build Hn _ w e (run_owned build Hn es)) as [_ [Hs|[Hs|Hs]]]; [congruence..|done].
Qed.

Lemma session_token payload d : session_of payload = Some d → is_some d.(sd_csrfToken) = true.
Proof. unfold session_of. destruct (normalizeAuthUser _); [|done]. destruct (readString _ _); [|done]. by intros [= <-]. Qed.
Lemma ends_unauthorized e : ends_session e = true → unauthorized e = true.
Proof. destruct e; [|done]. simpl. by intros [-> _]%andb_true_iff. Qed.
Lemma login_check_page result id r s : s.(pg_latest) = id → (advance (login_check result id r) s).2 = login_page result r s.
Proof.
  intros <-. destruct r as [response|]; [|cbn; by rewrite Z.eqb_refl]. unfold login_page, login_check, read_auth_answer.
  destruct (ok_status _).
  - cbn. destruct (session_of _) as [d|] eqn:Ed; cbn; [|by rewrite Z.eqb_refl]. apply session_token in Ed.
    unfold establish, established. cbn. destruct (fr_csrfToken result), (sd_csrfToken d); cbn; try done; by rewrite Z.eqb_refl.
  - generalize (answer_error (ar_status response) (parseResponse response)). intros e.
    destruct (ends_session e) eqn:Ee; cbn.
    + apply ends_unauthorized in Ee as ->. cbn. unfold establish, established. cbn.
      destruct (fr_user result), (fr_csrfToken result); cbn; by rewrite (proj2 (Z.eqb_neq (_ + 1) _)) by lia.
    + destruct (unauthorized e); cbn; [|by rewrite Z.eqb_refl]. unfold establish, established. cbn.
      destruct (fr_user result), (fr_csrfToken result); cbn; by rewrite Z.eqb_refl.
Qed.

(** C35: A login whose password is accepted asks for the session before it shows anything, and
    the page it ends with is determined: the user of the session check with the token of
    the login (or else of the check); an error when the check fails or is malformed; and no
    user when the session has expired.  When the check is refused with another 401 the user
    and the permissions shown are those the login's own answer carried.  A login that still
    has a step to take ([nextStep]) leaves the page as it is. *)
Theorem login_outcome build w email password role response :
  ok_status response.(ar_status) = true →
  let i := length w.(wd_tasks) in
  let w1 := run_events build w [Start (Login email password role); Answer i (FetchAnswered response)] in
  let result := normalizeAuthFlow (Some (parseResponse response)) in
  if same result.(fr_nextStep) F_authenticated then
    ∃ rq k, w1.(wd_tasks) !! i = Some (Fetch rq k) ∧ w1.(wd_page) = next_request w.(wd_page) ∧
      rq.(hr_method) = "GET" ∧ rq.(hr_path) = sessionAuthPath build.(bd_mode) (Some role) "me" ∧
      ∀ r, (step build w1 (Answer i r)).(wd_page) = login_page result r w1.(wd_page)
  else w1.(wd_page) = w.(wd_page) ∧ w1.(wd_tasks) !! i = Some (Return tt).
Proof.
  intros Hok i w1 result.
  assert (Ew : w1 = step build (step build w (Start (Login email password role))) (Answer i (FetchAnswered response))) by done.
  clearbody w1. assert (E1 : ∃ rq k, step build w (Start (Login email password role)) =
     {| wd_page := w.(wd_page); wd_tasks := w.(wd_tasks) ++ [Fetch rq k]; wd_owner := w.(wd_owner) |} ∧
     k (FetchAnswered response) = void (applyFlowResult build result role)).
  { do 2 eexists. split; [cbn; unfold settle; cbn; by rewrite Z.eqb_refl|]. cbn. by rewrite Hok. }
  destruct E1 as (rq & k & E1 & Ek). rewrite E1 in Ew. cbn [step wd_tasks] in Ew.
  rewrite list_lookup_middle, Ek in Ew by done. unfold settle in Ew. cbn [wd_page] in Ew.
  destruct (same _ _) eqn:Es.
  - rewrite same_true in Es. rewrite (apply_advances build result role w.(wd_page) Es) in Ew. cbn in Ew.
    assert (Et : w1.(wd_tasks) !! i = Some (Fetch (auth_request (sessionAuthPath build.(bd_mode) (Some role) "me")
      {| an_method := Some "GET"; an_body := None; an_headers := ∅ |}) (login_check result (w.(wd_page).(pg_latest) + 1)))).
    { rewrite Ew. cbn. apply list_lookup_insert_eq. rewrite length_app. simpl. lia. }
    do 2 eexists. split; [exact Et|]. split; [by rewrite Ew|]. split; [done|]. split; [done|]. intros r. cbn [step]. rewrite Et.
    unfold settle.
    rewrite <- (login_check_page result (w.(wd_page).(pg_latest) + 1) r) by (by rewrite Ew).
    by destruct (advance (login_check _ _ _) _).
  - unfold applyFlowResult in Ew. rewrite Es in Ew. cbn in Ew. rewrite Z.eqb_refl in Ew. rewrite Ew. cbn. split; [done|].
    apply list_lookup_insert_eq. rewrite length_app. simpl. lia.
Qed.

(** ** Steps, pictures and paths *)
(** A login is complete only when nothing of it is pending, and pending steps come in
    order: the set-up, the enrolment of a second factor, its code. *)
Theorem login_steps data user :
  (normalizeStep data user = F_setup_required ↔ setup_pending data = true) ∧
  (normalizeStep data user = F_totp_setup_required ↔ setup_pending data = false ∧ enrollment_pending data = true) ∧
  (normalizeStep data user = F_totp_required ↔
    setup_pending data = false ∧ enrollment_pending data = false ∧ totp_pending data = true) ∧
  (normalizeStep data user = F_authenticated ↔
    setup_pending data = false ∧ enrollment_pending data = false ∧ totp_pending data = false ∧ login_done data user = true).
Proof.
  unfold normalizeStep. destruct (setup_pending data), (enrollment_pending data), (totp_pending data), (login_done data user);
    naive_solver.
Qed.

(** The picture of a second factor is embedded, or named by a path of the page's own. *)
Lemma qr_code_local value x : safeQrCodeDataUri value = Some x →
  value = Some x ∧ (starts_with "data:image/" x = true ∨ same_site x = true).
Proof.
  unfold safeQrCodeDataUri. destruct value as [y|]; [|done]. destruct (negb (truthy y)); [done|].
  destruct (starts_with "data:image/" y) eqn:E; [intros [= <-]; auto|].
  destruct (starts_with "/" y && negb (starts_with "//" y)) eqn:E'; [|done]. intros [= <-]. auto.
Qed.

Definition id_char (c : ascii) : Prop := unreserved c = true ∨ c = "%"%char.
Lemma encode_char_plain c : Forall id_char (encode_char c).
Proof.
  unfold encode_char. destruct (unreserved c) eqn:E; [constructor; [by left|constructor]|].
  destruct c as [[] [] [] [] [] [] [] []]; repeat apply Forall_cons_2; try apply Forall_nil_2; vm_compute; auto.
Qed.
Lemma encoded_plain s : Forall id_char (String.list_ascii_of_string (encodeURIComponent s)).
Proof.
  unfold encodeURIComponent. rewrite list_of_string. induction (String.list_ascii_of_string s) as [|c l IH]; simpl; [constructor|].
  apply Forall_app. split; [apply encode_char_plain|done].
Qed.
Lemma decode_encoded_char fuel c rest : Z.of_nat (nat_of_ascii c) < 128 → (0 < fuel)%nat →
  decode_percent fuel (encode_char c ++ rest) = cons c <$> decode_percent (fuel - 1) rest.
Proof.
  intros Hc Hf. destruct fuel as [|fuel]; [lia|]. replace (S fuel - 1)%nat with fuel by lia.
  destruct c as [[] [] [] [] [] [] [] []]; try (exfalso; vm_compute in Hc; discriminate); reflexivity.
Qed.
(** An ASCII identifier survives its way through the path, and adds no segment to it. *)
Theorem encoded_id_decodes s : Forall (λ c, (nat_of_ascii c < 128)%nat) (String.list_ascii_of_string s) →
  decodeURIComponent (encodeURIComponent s) = Some s ∧ "/"%char ∉ String.list_ascii_of_string (encodeURIComponent s).
Proof.
  intros Hs. split; [|intros Hc; destruct (proj1 (Forall_forall _ _) (encoded_plain s) _ Hc); done]. unfold decodeURIComponent, encodeURIComponent. rewrite list_of_string.
  assert (H : ∀ l fuel, Forall (λ c, (nat_of_ascii c < 128)%nat) l → (length l ≤ fuel)%nat → decode_percent fuel (flat_map encode_char l) = Some l).
  { induction l as [|c l IH]; intros fuel Hl Hf; [by destruct fuel|]. apply Forall_cons in Hl as [Hc Hl]. simpl in Hf |- *.
    rewrite decode_encoded_char by lia. rewrite IH by (done || lia). done. }
  rewrite H; [cbn; by rewrite String.string_of_list_ascii_of_string|done|]. clear. induction (String.list_ascii_of_string s) as [|c l IH]; [done|].
  cbn [flat_map length]. rewrite length_app. assert (1 ≤ length (encode_char c))%nat; [|lia].
  unfold encode_char. destruct (unreserved c); simpl; lia.
Qed.

(** ** Samples *)
Definition ok_answer (payload : json) : Fetched :=
  FetchAnswered {| ar_status := 200; ar_contentType := Some "application/json"; ar_json := Some payload |}.
Definition sample_session : json :=
  JObj [("data", JObj [("user", JObj [("email", JStr "a1@example.test"); ("role", JStr "Admin"); ("id", JStr "a1");
                                      ("permissions", JArr [JStr "reports.read"; JStr "unknown"; JNum 3])]);
                       ("csrf_token", JStr " t1 ")])].
Definition sample_build : Build := {| bd_mode := "full-admin-wallet"; bd_nodeEnv := "production"; bd_localDemo := None |}.
Definition sample_login : PageAction := Login "a1@example.test" "pw" R_admin.
Definition login_events : list Event := [Start sample_login; Answer 0 (ok_answer sample_session)].
Definition signed_in_user : AuthSessionUser :=
  {| au_id := "a1"; au_coreUserId := None; au_email := "a1@example.test"; au_displayName := "a1"; au_role := R_admin;
     au_totpEnabled := false; au_accessRole := None; au_photoURL := None; au_permissions := ["reports.read"] |}.

(** The session check of a login signs the user in; the same answer, when the session has
    expired or a logout has begun meanwhile, does not. *)
Example login_signs_in :
  (run_events sample_build opened (login_events ++ [Answer 0 (ok_answer sample_session)])).(wd_page).(pg_user) = Some signed_in_user ∧
  (run_events sample_build opened (login_events ++ [Expired; Answer 0 (ok_answer sample_session)])).(wd_page).(pg_user) = None ∧
  (run_events sample_build opened (login_events ++ [Start (Logout None None "/admin/login"); Answer 0 (ok_answer sample_session)]))
    .(wd_page).(pg_user) = None.
Proof. by vm_compute. Qed.

Lemma only_latest_signs_in_witness :
  wd_owner (run_events sample_build opened login_events) = Some 0%nat ∧
  ∃ i r a, Answer 0 (ok_answer sample_session) = Answer i r ∧
    wd_owner (run_events sample_build opened login_events) = Some i ∧ (login_events ≫= starts) !! i = Some a ∧ may_sign_in a = true.
Proof.
  split; [by vm_compute|].
  destruct (only_latest_signs_in sample_build login_events eq_refl) as (_&_&_&H).
  apply (H (Answer 0 (ok_answer sample_session)) signed_in_user); by vm_compute.
Defined.
Lemma shown_pages_can_write_witness :
  let s := (run_events sample_build opened (login_events ++ [Answer 0 (ok_answer sample_session)])).(wd_page) in
  ∃ u t, s.(pg_user) = Some u ∧ s.(pg_loading) = false ∧ truthy t = true ∧
    api_headers false "/api/core" "/dashboard/overview"
      {| ai_method := Some "POST"; ai_body := Some "{}"; ai_headers := ∅; ai_userId := "usr_admin" |} s.(pg_session) !! "X-CSRF-Token" = Some t.
Proof.
  apply (shown_pages_can_write sample_build (login_events ++ [Answer 0 (ok_answer sample_session)]) (λ x, x) "/dashboard/overview" "");
    [by vm_compute..|]. left. by vm_compute.
Defined.
(** The session check is refused, without the session having ended: the user of the login's own answer is shown. *)
Definition refused : Fetched := FetchAnswered {| ar_status := 401; ar_contentType := None; ar_json := None |}.
Lemma login_outcome_witness :
  (run_events sample_build opened (login_events ++ [Answer 0 refused])).(wd_page).(pg_user) = Some signed_in_user ∧
  ∃ rq k, (run_events sample_build opened login_events).(wd_tasks) !! 0%nat = Some (Fetch rq k) ∧
    (run_events sample_build opened login_events).(wd_page) = next_request initialState ∧
    rq.(hr_method) = "GET" ∧ rq.(hr_path) = "/api/auth/admin/me" ∧
    ∀ r, (step sample_build (run_events sample_build opened login_events) (Answer 0 r)).(wd_page) =
      login_page (normalizeAuthFlow (Some sample_session)) r (run_events sample_build opened login_events).(wd_page).
Proof.
  split; [by vm_compute|].
  apply (login_outcome sample_build opened "a1@example.test" "pw" R_admin
    {| ar_status := 200; ar_contentType := Some "application/json"; ar_json := Some sample_session |}). by vm_compute.
Defined.
Example qr_code_backslash : safeQrCodeDataUri (Some "/\host.test/p.png") = Some "/\host.test/p.png".
Proof. by vm_compute. Qed.
