(* ===== verification/Beneficiaries.v ===== *)
(** Payees of a customer
    ([server/src/beneficiaries/beneficiaries.controller.ts]): a bank account or a
    TRON address, whose destination is fixed when it is created. *)
From S2P Require Import Prelude Decimals Schema Access TronAddress.

Record CreateBeneficiaryDto := {
  cb_customerId : string;
  cb_type : option BeneficiaryType;
  cb_name : string;
  cb_currency : Currency;
  cb_bankName : option string;
  cb_accountNumber : option string;
  cb_swiftBic : option string;
  cb_iban : option string;
  cb_bankAddress : option string;
  cb_countryCode : option string;
  cb_walletAddress : option string;
  cb_network : option CryptoNetwork;
}.

Section controller.
Context (sha256 : list Z → list Z).

(** [list]; [ordered] is the ORDER BY of the query. *)
Definition beneficiary_listed (b : Beneficiary) : bool :=
  (same b.(ben_type) BT_BANK && isSupportedFiatCurrency b.(ben_currency)) ||
  (same b.(ben_type) BT_CRYPTO && same b.(ben_currency) supportedCryptoAsset &&
   same b.(ben_network) (Some supportedCryptoNetwork)).
Definition list_beneficiaries (ordered : list (string * Beneficiary) → list (string * Beneficiary))
    (customerId userId : string) : M Db (list (string * Beneficiary)) :=
  do! requireCustomerAccess userId customerId;
  gets (λ s, ordered (find_many (λ kb : string * Beneficiary,
    String.eqb kb.2.(ben_customerId) customerId && beneficiary_listed kb.2) s.(beneficiaries))).

(** The row of [create], by the type of payee. *)
Definition bank_row (dto : CreateBeneficiaryDto) (name : string) : M Db Beneficiary :=
  do! throw_if (negb (isSupportedFiatCurrency dto.(cb_currency))) (BadRequest "unsupported_fiat_currency");
  match trim_or_null dto.(cb_bankName), trim_or_null dto.(cb_accountNumber), trim_or_null dto.(cb_countryCode) with
  | Some bankName, Some accountNumber, Some countryCode =>
      ret (MkBeneficiary dto.(cb_customerId) BT_BANK name dto.(cb_currency) (Some bankName) (Some accountNumber)
             (toUpperCase <$> trim_or_null dto.(cb_swiftBic)) (toUpperCase <$> trim_or_null dto.(cb_iban))
             (trim_or_null dto.(cb_bankAddress)) (Some (toUpperCase countryCode)) None None true)
  | _, _, _ => throw (BadRequest "bank_beneficiary_details_required")
  end.
Definition crypto_row (dto : CreateBeneficiaryDto) (name : string) : M Db Beneficiary :=
  let! walletAddress := require
    (if same dto.(cb_currency) supportedCryptoAsset && same dto.(cb_network) (Some supportedCryptoNetwork)
     then trim_or_null dto.(cb_walletAddress) else None) (BadRequest "unsupported_crypto_beneficiary") in
  do! throw_if (negb (isValidTronAddress sha256 walletAddress)) (BadRequest "invalid_tron_address");
  ret (MkBeneficiary dto.(cb_customerId) BT_CRYPTO name supportedCryptoAsset None None None None None None
         (Some walletAddress) (Some supportedCryptoNetwork) true).

(** [create] *)
Definition createBeneficiary (newId : string) (dto : CreateBeneficiaryDto) (userId : string) : M Db (string * Beneficiary) :=
  do! requireCustomerAccess userId dto.(cb_customerId);
  let type := default BT_BANK dto.(cb_type) in
  let name := trim dto.(cb_name) in
  do! throw_if (negb (truthy name)) (BadRequest "beneficiary_name_required");
  let! row := (if same type BT_BANK then bank_row dto name else crypto_row dto name) in
  do! try_catch (beneficiary_create newId row)
        (λ e, match e with
              | PrismaKnown "P2002" _ => throw (BadRequest "beneficiary_already_exists")
              | _ => throw e
              end);
  ret (newId, row).

(** [update] *)
Definition updateBeneficiary (id : string) (active : option bool) (userId : string) : M Db Beneficiary :=
  let! user := requireActiveUser userId in
  let! beneficiary := find_unique beneficiaries id in
  let! beneficiary := require beneficiary (NotFound "beneficiary_not_found") in
  let! customer := find_unique customers beneficiary.(ben_customerId) in
  let! customer := require customer (PlainError "beneficiary without a customer") in
  do! throw_if (differs (Some customer.(cust_organizationId)) user.(user_organizationId))
        (NotFound "beneficiary_not_found");
  let! active := require active (BadRequest "beneficiary_destination_immutable") in
  beneficiary_update id (set_ben_active active).
End controller.
