(* ===== verification/Rates.v ===== *)
(** Rate policies ([server/src/rates/rates.controller.ts]): the fee in basis
    points over the market rate of a pair of currencies, one active version at a
    time; an old version is retired, never rewritten. *)
From S2P Require Import Prelude Decimals Schema Access.

Record CreateMarketRateDto := {
  mr_type : RateType;
  mr_baseCurrency : Currency;
  mr_quoteCurrency : Currency;
  mr_feeBps : Z;
  mr_provider : string;
  mr_priceType : string;
  mr_referenceOnly : bool;
  mr_referenceRate : string;
  mr_sourceUpdatedAt : string;
  mr_sourceFetchedAt : string;
}.

(** The versions of a pair. *)
Definition rate_of_pair (dto : CreateMarketRateDto) (r : RateVersion) : bool :=
  same r.(rate_type) dto.(mr_type) && same r.(rate_baseCurrency) dto.(mr_baseCurrency) &&
  same r.(rate_quoteCurrency) dto.(mr_quoteCurrency).

Definition rate_listed (r : RateVersion) : bool :=
  (isSupportedFiatCurrency r.(rate_baseCurrency) && isSupportedFiatCurrency r.(rate_quoteCurrency)) ||
  (same r.(rate_baseCurrency) USDT && isSupportedFiatCurrency r.(rate_quoteCurrency)) ||
  (isSupportedFiatCurrency r.(rate_baseCurrency) && same r.(rate_quoteCurrency) USDT).

(** [isFx] and [isOtc] *)
Definition fx_pair (dto : CreateMarketRateDto) : bool :=
  same dto.(mr_type) RT_FX && isSupportedFiatCurrency dto.(mr_baseCurrency) &&
  isSupportedFiatCurrency dto.(mr_quoteCurrency).
Definition otc_pair (dto : CreateMarketRateDto) : bool :=
  same dto.(mr_type) RT_OTC &&
  ((same dto.(mr_baseCurrency) USDT && isSupportedFiatCurrency dto.(mr_quoteCurrency)) ||
   (isSupportedFiatCurrency dto.(mr_baseCurrency) && same dto.(mr_quoteCurrency) USDT)).

Definition rate_admin (userId : string) : M Db User :=
  let! user := requireActiveUser userId in
  do! throw_if (differs user.(user_role) ADMIN) (Forbidden "admin_role_required");
  ret user.

Section controller.
Context {DO : DecimalOps} {JD : JsDates}.

(** [list]; [ordered] is the ORDER BY of the query. *)
Definition list_rates (ordered : list (string * RateVersion) → list (string * RateVersion))
    (userId : string) (type : option RateType) : M Db (list (string * RateVersion)) :=
  do! requireActiveUser userId;
  gets (λ s, ordered (find_many (λ kr : string * RateVersion,
    match type with Some t => same kr.2.(rate_type) t | None => true end && rate_listed kr.2) s.(rateVersions))).

(** [rejectManualCreate] *)
Definition rejectManualCreate (userId : string) : M Db unit :=
  do! rate_admin userId;
  throw (BadRequest "manual_rate_creation_disabled").

(** The checks of [createFromMarket]: the reference rate. *)
Definition market_checks (now : Z) (dto : CreateMarketRateDto) : M Db D :=
  do! throw_if (negb (String.eqb dto.(mr_provider) "fastforex") ||
                negb (String.eqb dto.(mr_priceType) "midpoint_spot") || negb dto.(mr_referenceOnly))
        (BadRequest "invalid_market_rate_source");
  do! throw_if (same dto.(mr_baseCurrency) dto.(mr_quoteCurrency)) (BadRequest "rate_currencies_must_differ");
  let! referenceRate := require (d_parse dto.(mr_referenceRate)) (BadRequest "invalid_rate_value") in
  do! throw_if (negb (d_isFinite referenceRate) || d_lte referenceRate (d_ofZ 0)) (BadRequest "rate_must_be_positive");
  do! throw_if (negb (fx_pair dto) && negb (otc_pair dto)) (BadRequest "unsupported_rate_pair");
  do! throw_if (negb (marketSourceTimestampsAreFresh dto.(mr_sourceFetchedAt) dto.(mr_sourceUpdatedAt) now))
        (BadRequest "stale_market_rate_source");
  ret referenceRate.

(** The transaction of [createFromMarket]. *)
Definition publish_rate (now : Z) (newId : string) (dto : CreateMarketRateDto) (referenceRate : D) :
    M Db (string * RateVersion) :=
  let! duplicate := gets (λ s, List.find
      (λ kr : string * RateVersion, d_eq (n12_of kr.2.(rate_buyRate)) (n12_of kr.2.(rate_sellRate)))
      (find_many (λ kr : string * RateVersion,
         rate_of_pair dto kr.2 && (kr.2.(rate_feeBps) =? dto.(mr_feeBps)) && kr.2.(rate_active)) s.(rateVersions))) in
  match duplicate with
  | Some found => ret found
  | None =>
      let! _ := rate_updateWhere (λ kr, rate_of_pair dto kr.2 && kr.2.(rate_active)) (rate_retire now) in
      let! stored := require (n12_store referenceRate) (DbFailure "numeric field overflow") in
      let row := MkRateVersion dto.(mr_type) dto.(mr_baseCurrency) dto.(mr_quoteCurrency) stored stored
                   dto.(mr_feeBps) now None true in
      do! rate_create newId row;
      ret (newId, row)
  end.

(** [createFromMarket] *)
Definition createFromMarket (now : Z) (newId : string) (dto : CreateMarketRateDto) (userId : string) :
    M Db (string * RateVersion) :=
  do! rate_admin userId;
  let! referenceRate := market_checks now dto in
  publish_rate now newId dto referenceRate.

(** [deactivate] *)
Definition deactivate (now : Z) (id userId : string) : M Db RateVersion :=
  do! rate_admin userId;
  let! count := rate_updateMany id rate_active (rate_retire now) in
  do! throw_if (count =? 0) (NotFound "active_rate_not_found");
  let! updated := find_unique rateVersions id in
  require updated (PrismaKnown "P2025" []).
End controller.
