(* ===== verification/CryptoWallets.v ===== *)
(** [CryptoWalletsService] ([server/src/crypto-wallets/crypto-wallets.service.ts]):
    a withdrawal freezes the wallet and its mirror account, inserts the transfer
    and a linked payout operation; approval, rejection and execution move both. *)
From S2P Require Import Prelude Decimals Schema Access Ledger WithdrawalFees Operations TronAddress.
From Stdlib Require Import Ascii.

Record CreateWithdrawalInput := {
  win_customerId : string;
  win_walletId : string;
  win_network : CryptoNetwork;
  win_amount : string;
  win_toAddress : string;
  win_beneficiaryId : option string;
  win_idempotencyKey : string;
  win_expectedFeeAmount : option string;
  win_expectedFeeRuleVersion : option string;
}.


(** [/^0x[a-fA-F0-9]{n}$/] *)
Definition prefixed_hex (n : nat) (s : string) : bool :=
  match s with
  | String "0"%char (String "x"%char rest) => hex_string n rest
  | _ => false
  end.

Section service.
Context {DO : DecimalOps} {JD : JsDates} (sha256 : list Z → list Z).

(** [validateAddress] *)
Definition validateAddress (network : CryptoNetwork) (address : string) : M Db unit :=
  throw_if (negb (if same network TRON then isValidTronAddress sha256 address else prefixed_hex 40 address))
    (BadRequest "invalid_destination_address").

(** [requireRole] *)
Definition require_crypto_role (userId : string) : M Db User :=
  let! user := find_unique users userId in
  let! u := require user (Forbidden "insufficient_crypto_operation_role") in
  do! throw_if (negb u.(user_active) || negb (includes [ADMIN] u.(user_role)))
        (Forbidden "insufficient_crypto_operation_role");
  ret u.

(** [mirrorAccount] *)
Definition is_mirror_of (customerId : string) (ka : string * Account) : bool :=
  opt_eqb ka.2.(acc_customerId) (Some customerId) && same ka.2.(acc_kind) CRYPTO_WALLET &&
  same ka.2.(acc_currency) USDT && opt_eqb ka.2.(acc_network) (Some supportedCryptoNetworkText) &&
  same ka.2.(acc_status) AS_ACTIVE.
Definition mirrorAccount (customerId : string) : M Db (option (string * Account)) :=
  gets (λ s, find_first (is_mirror_of customerId) s.(accounts)).

(** [requireCustomerTenant] *)
Definition requireCustomerTenant (customerId userId : string) : M Db Customer :=
  let! customer := find_unique customers customerId in
  let! user := find_unique users userId in
  let! c := require customer (NotFound "customer_not_found") in
  let! u := require user (Forbidden "cross_tenant_crypto_customer") in
  do! throw_if (negb u.(user_active) || differs u.(user_role) ADMIN ||
                negb (opt_truthy u.(user_organizationId)) ||
                differs u.(user_organizationId) (Some c.(cust_organizationId)))
        (Forbidden "cross_tenant_crypto_customer");
  ret c.

(** The parties of a withdrawal, and the checks on them. *)
Definition withdrawal_parties (input : CreateWithdrawalInput) (makerId : string) :
    M Db (CryptoWallet * Customer * (string * Account)) :=
  let! wallet := find_unique wallets input.(win_walletId) in
  let! customer := find_unique customers input.(win_customerId) in
  let! maker := find_unique users makerId in
  let! mirror := mirrorAccount input.(win_customerId) in
  let! beneficiary := find_optional beneficiaries input.(win_beneficiaryId) in
  let! w := require wallet (BadRequest "invalid_crypto_wallet") in
  do! throw_if (negb (String.eqb w.(wal_customerId) input.(win_customerId)) ||
                differs w.(wal_network) input.(win_network) || differs w.(wal_status) AS_ACTIVE)
        (BadRequest "invalid_crypto_wallet");
  let! c := require customer (Forbidden "active_customer_required") in
  do! throw_if (differs c.(cust_status) CS_ACTIVE) (Forbidden "active_customer_required");
  let! m := require maker (Forbidden "cross_tenant_crypto_operation") in
  do! throw_if (negb m.(user_active) || differs m.(user_role) ADMIN ||
                negb (opt_truthy m.(user_organizationId)) ||
                differs m.(user_organizationId) (Some c.(cust_organizationId)))
        (Forbidden "cross_tenant_crypto_operation");
  let! mirror := require mirror (Conflict "crypto_account_mirror_not_configured") in
  do! throw_if (opt_truthy input.(win_beneficiaryId) &&
                match beneficiary with
                | None => true
                | Some (_, b) =>
                    negb b.(ben_active) || negb (String.eqb b.(ben_customerId) input.(win_customerId)) ||
                    differs b.(ben_type) BT_CRYPTO || differs b.(ben_currency) supportedCryptoAsset ||
                    differs b.(ben_network) (Some input.(win_network)) ||
                    differs b.(ben_walletAddress) (Some input.(win_toAddress))
                end) (BadRequest "crypto_beneficiary_mismatch");
  ret (w, c, mirror).

(** The network fee, checked against what the customer was shown. *)
Definition withdrawal_fee (env : ProcessEnv) (input : CreateWithdrawalInput) (customer : Customer) (amount : D) :
    M Db ResolvedFee :=
  let! fee := resolve {|
    fs_scopeId := trim_or env.(NEOBANK_SOURCE_TENANT_ID) customer.(cust_organizationId);
    fs_customerId := Some input.(win_customerId);
    fs_assetClass := "CRYPTO";
    fs_currency := supportedCryptoAsset;
    fs_method := "ON_CHAIN";
    fs_channelCode := "CREGIS";
    fs_network := Some supportedCryptoNetworkText;
    fs_expectedVersion := input.(win_expectedFeeRuleVersion) |} in
  do! match input.(win_expectedFeeAmount) with
      | Some text => let! expected := decimal text in
                     throw_if (negb (d_eq fee.(fee_amount) expected)) (Conflict "withdrawal_fee_changed")
      | None => ret tt
      end;
  do! throw_if (d_lte amount fee.(fee_amount)) (BadRequest "amount_must_exceed_network_fee");
  ret fee.

(** The reservation: the wallet and its mirror, by the gross amount. *)
Definition freeze_wallet_and_mirror (walletId mirrorId : string) (amount : D) : M Db unit :=
  let! frozen := wallet_updateMany walletId
    (λ w, same w.(wal_status) AS_ACTIVE && n8_gte w.(wal_availableBalance) amount) (wal_freeze amount) in
  do! throw_if (differs frozen 1) (Conflict "insufficient_crypto_balance");
  let! mirrored := account_updateMany mirrorId
    (λ a, acc_active a && acc_available_gte amount a) (acc_freeze amount) in
  throw_if (differs mirrored 1) (Conflict "crypto_account_mirror_balance_mismatch").

(** The rows inserted: the transfer, and the payout operation of the same id. *)
Definition transfer_row (now : Z) (input : CreateWithdrawalInput) (makerId reference : string) (w : CryptoWallet)
    (amount fee net : Z) : CryptoTransfer :=
  MkCryptoTransfer reference (Some input.(win_idempotencyKey)) input.(win_customerId) input.(win_walletId)
    w.(wal_asset) w.(wal_network) TD_WITHDRAWAL TS_SUBMITTED amount fee net w.(wal_walletAddress)
    input.(win_toAddress) None 0 makerId None None None now None None.

Definition payout_row (now : Z) (input : CreateWithdrawalInput) (makerId reference transferId mirrorId : string)
    (fee net : Z) (snapshot : json) : Operation :=
  {| op_reference := "OP-" +:+ reference;
     op_idempotencyKey := Some ("crypto:" +:+ input.(win_idempotencyKey));
     op_customerId := input.(win_customerId);
     op_channelId := None;
     op_type := PAYOUT;
     op_status := SUBMITTED;
     op_currency := USDT;
     op_amount := net;
     op_feeAmount := fee;
     op_sourceAccountId := Some mirrorId;
     op_targetAccountId := None;
     op_beneficiaryId := input.(win_beneficiaryId);
     op_payoutMethod := None;
     op_adjustmentDirection := None;
     op_quoteCurrency := None;
     op_quoteAmount := None;
     op_rate := None;
     op_rateVersionId := None;
     op_makerId := makerId;
     op_checkerId := None;
     op_operatorId := None;
     op_rejectionReason := None;
     op_externalReference := None;
     op_remitterName := None;
     op_remitterBank := None;
     op_remittanceReference := None;
     op_receivedAt := None;
     op_proofUrl := None;
     op_narrative := Some ("USDT TRON withdrawal " +:+ reference);
     op_metadata := Some (JObj [("rail", JStr "TRON"); ("cryptoTransferId", JStr transferId);
                                ("withdrawalFee", snapshot)]);
     op_submittedAt := Some now;
     op_approvedAt := None;
     op_executedAt := None;
     op_createdAt := now |}.

(** The body of [createWithdrawal] for a request that is not a replay. *)
Definition submit_withdrawal (env : ProcessEnv) (now : Z) (transferId suffix : string)
    (input : CreateWithdrawalInput) (makerId : string) (amount : D) : M Db (string * CryptoTransfer) :=
  let! '(w, c, mirror) := withdrawal_parties input makerId in
  let! fee := withdrawal_fee env input c amount in
  do! freeze_wallet_and_mirror input.(win_walletId) mirror.1 amount;
  let reference := "CWO" +:+ pretty now +:+ suffix in
  let! grossCol := store8 amount in
  let! feeCol := store8 fee.(fee_amount) in
  let! netCol := store8 (d_sub amount fee.(fee_amount)) in
  let transfer := transfer_row now input makerId reference w grossCol feeCol netCol in
  do! transfer_create transferId transfer;
  do! operation_create transferId
        (payout_row now input makerId reference transferId mirror.1 feeCol netCol fee.(fee_snapshot));
  ret (transferId, transfer).

(** [createWithdrawal] *)
Definition createWithdrawal (env : ProcessEnv) (now : Z) (transferId suffix : string)
    (input : CreateWithdrawalInput) (makerId : string) : M Db (string * CryptoTransfer) :=
  do! throw_if (differs input.(win_network) supportedCryptoNetwork) (BadRequest "unsupported_crypto_network");
  let! amount := decimal input.(win_amount) in
  do! throw_if (negb (d_isPositive amount)) (BadRequest "withdrawal_amount_must_be_positive");
  do! validateAddress input.(win_network) input.(win_toAddress);
  let! existing := gets (λ s, find_first (λ kt : string * CryptoTransfer,
      String.eqb kt.2.(tr_customerId) input.(win_customerId) &&
      opt_eqb kt.2.(tr_idempotencyKey) (Some input.(win_idempotencyKey))) s.(transfers)) in
  match existing with
  | Some replay => ret replay
  | None => submit_withdrawal env now transferId suffix input makerId amount
  end.

(** The transfer, in the status the handler expects, and the acting administrator. *)
Definition load_transfer (id userId : string) (expected : CryptoTransferStatus) (code : string) :
    M Db CryptoTransfer :=
  let! row := find_unique transfers id in
  let! t := require row (NotFound "crypto_transfer_not_found") in
  do! throw_if (differs t.(tr_status) expected) (Conflict code);
  let! user := require_crypto_role userId in
  let! customer := find_unique customers t.(tr_customerId) in
  do! throw_if (differs user.(user_organizationId) (cust_organizationId <$> customer))
        (NotFound "crypto_transfer_not_found");
  do! throw_if (same expected TS_SUBMITTED && String.eqb t.(tr_makerId) userId &&
                differs user.(user_role) ADMIN) (Forbidden "admin_required_for_self_approval");
  ret t.

(** [approve] *)
Definition approveTransfer (now : Z) (id checkerId : string) : M Db CryptoTransfer :=
  let! _ := load_transfer id checkerId TS_SUBMITTED "transfer_not_submitted" in
  let! _ := operation_updateMany now id (λ o, same o.(op_status) SUBMITTED)
    (λ o, set_op_approvedAt (Some now) (set_op_checkerId (Some checkerId) (set_op_status PROCESSING o))) in
  transfer_update id (λ t,
    set_tr_approvedAt (Some now) (set_tr_checkerId (Some checkerId) (set_tr_status TS_PROCESSING t))).

(** The writes of [reject], on the transfer [t] the transaction has read. *)
Definition reject_writes (now : Z) (id reason checkerId : string) (t : CryptoTransfer) : M Db CryptoTransfer :=
  let amount := n8_of t.(tr_amount) in
  let! _ := wallet_update t.(tr_walletId) (wal_unfreeze amount) in
  let! mirror := mirrorAccount t.(tr_customerId) in
  let! mirror := require mirror (Conflict "crypto_account_mirror_not_configured") in
  let! released := account_updateMany mirror.1 (acc_frozen_gte amount) (acc_unfreeze amount) in
  do! throw_if (differs released 1) (Conflict "crypto_account_mirror_balance_mismatch");
  let! _ := operation_updateMany now id (λ o, same o.(op_status) SUBMITTED)
    (λ o, set_op_approvedAt (Some now) (set_op_rejectionReason (Some (trim reason))
            (set_op_checkerId (Some checkerId) (set_op_status REJECTED o)))) in
  transfer_update id (λ t,
    set_tr_approvedAt (Some now) (set_tr_rejectionReason (Some (trim reason))
      (set_tr_checkerId (Some checkerId) (set_tr_status TS_REJECTED t)))).

(** [reject] *)
Definition rejectTransfer (now : Z) (id reason checkerId : string) : M Db CryptoTransfer :=
  do! throw_if (negb (truthy (trim reason))) (BadRequest "rejection_reason_required");
  let! t := load_transfer id checkerId TS_SUBMITTED "transfer_not_submitted" in
  reject_writes now id reason checkerId t.

(** The journal entries of an executed withdrawal. *)
Definition post_withdrawal (id mirrorId : string) (o : Operation) (t : CryptoTransfer) : M Db unit :=
  let! clearing := gets (λ s, find_first (λ ka,
      same ka.2.(acc_kind) PLATFORM_CLEARING && same ka.2.(acc_currency) USDT &&
      same ka.2.(acc_status) AS_ACTIVE) s.(accounts)) in
  let! feeAccount := gets (λ s, find_first (λ ka,
      same ka.2.(acc_kind) FEE_REVENUE && same ka.2.(acc_currency) USDT &&
      same ka.2.(acc_status) AS_ACTIVE) s.(accounts)) in
  let! clearing := require clearing (Conflict "crypto_ledger_accounts_not_configured") in
  let! feeAccount := require feeAccount (Conflict "crypto_ledger_accounts_not_configured") in
  do! create_entry (o.(op_reference) +:+ "-principal") id
        (narrative_or o ("USDT withdrawal " +:+ t.(tr_reference)))
        [(mirrorId, DEBIT, USDT, n8_of t.(tr_netAmount)); (clearing.1, CREDIT, USDT, n8_of t.(tr_netAmount))];
  if d_isZero (n8_of t.(tr_feeAmount)) then ret tt else
  create_entry (o.(op_reference) +:+ "-fee") id ("USDT TRON network fee " +:+ t.(tr_reference))
    [(mirrorId, DEBIT, USDT, n8_of t.(tr_feeAmount)); (feeAccount.1, CREDIT, USDT, n8_of t.(tr_feeAmount))].

(** [execute] *)
Definition executeTransfer (now : Z) (id txHash operatorId : string) : M Db CryptoTransfer :=
  let! t := load_transfer id operatorId TS_PROCESSING "transfer_not_processing" in
  do! throw_if (negb (prefixed_hex 64 txHash)) (BadRequest "invalid_transaction_hash");
  let amount := n8_of t.(tr_amount) in
  let! _ := wallet_update t.(tr_walletId) (wal_consume amount) in
  let! mirror := mirrorAccount t.(tr_customerId) in
  let! mirror := require mirror (Conflict "crypto_account_mirror_not_configured") in
  let! consumed := account_updateMany mirror.1 (acc_frozen_gte amount) (acc_consume amount) in
  do! throw_if (differs consumed 1) (Conflict "crypto_account_mirror_balance_mismatch");
  let! linked := find_unique operations id in
  do! match linked with
      | None => ret tt
      | Some o =>
          do! post_withdrawal id mirror.1 o t;
          let! _ := operation_update now id (λ r,
            set_op_executedAt (Some now) (set_op_externalReference (Some txHash)
              (set_op_operatorId (Some operatorId) (set_op_status COMPLETED r)))) in
          ret tt
      end;
  transfer_update id (λ r,
    set_tr_completedAt (Some now) (set_tr_confirmations (if same t.(tr_network) TRON then 20 else 12)
      (set_tr_txHash (Some txHash) (set_tr_operatorId (Some operatorId) (set_tr_status TS_COMPLETED r))))).

End service.
