(* ===== verification/CryptoProperties.v ===== *)
(** Correctness of the on-chain withdrawal workflow: what each handler moves on
    the wallet, on its mirror account and on the linked operation. *)
From S2P Require Import Prelude Decimals Schema Access Ledger WithdrawalFees Operations OperationEffects OperationCreation Samples TronAddress CryptoWallets.

(** [moved_with_transfer]: a move of the ledger, with changes of the transfers table. *)
Definition moved_with_transfer (id : string) (o' : Operation) (da df dp : string → Z) (s s' : Db) : Prop :=
  ∃ s1 Y, moved id o' da df dp s s1 ∧ s' = set_transfers Y s1.

Lemma moved_with_transfer_effect id o' da df dp s s' :
  moved_with_transfer id o' da df dp s s' →
  (∀ i, available_of s' i = available_of s i + da i) ∧ (∀ i, frozen_of s' i = frozen_of s i + df i) ∧
  (∀ i, system_account s i = false → position_of s' i = position_of s i + dp i) ∧
  s'.(operations) = <[id := o']> s.(operations).
Proof. by intros (s1&Y&H%moved_effect&->). Qed.

Lemma moved_with_transfer_sound id o' da df dp s s' :
  moved_with_transfer id o' da df dp s s' →
  (∀ i, system_account s i = false → da i + df i = dp i) →
  (∀ i, df i = reservation i o' - from_option (reservation i) 0 (s.(operations) !! id)) →
  conserves s s' ∧ (frozen_backed s → frozen_backed s').
Proof.
  intros (s1&Y&H&->) Hb Hf. split.
  - exact (moved_conserves _ _ _ _ _ _ _ H Hb).
  - intros Hs. exact (moved_backed _ _ _ _ _ _ _ H Hf Hs).
Qed.

(** The balances of a wallet. *)
Definition wallet_moved (id : string) (da df : Z) (s s' : Db) : Prop :=
  ∃ w w', s.(wallets) !! id = Some w ∧ s'.(wallets) = <[id := w']> s.(wallets) ∧
    w'.(wal_availableBalance) = w.(wal_availableBalance) + da ∧
    w'.(wal_frozenBalance) = w.(wal_frozenBalance) + df ∧
    0 ≤ w'.(wal_availableBalance) ∧ 0 ≤ w'.(wal_frozenBalance).

Lemma wallet_moved_trans id da df da' df' s1 s2 s3 :
  wallet_moved id da df s1 s2 → wallet_moved id da' df' s2 s3 → wallet_moved id (da + da') (df + df') s1 s3.
Proof.
  intros (w&w'&Hw&E&A&F&_) (v&v'&Hv&E'&A'&F'&?&?). rewrite E, lookup_insert_eq in Hv. injection Hv as <-.
  exists w, v'. rewrite E', E, insert_insert_eq. split_and!; done || lia.
Qed.

Section lemmas.
Context {DO : DecimalOps} {DL : DecimalLaws DO} {JD : JsDates} (sha256 : list Z → list Z).

Lemma wallet_check_nonneg w :
  wallet_check w = true → 0 ≤ w.(wal_availableBalance) ∧ 0 ≤ w.(wal_frozenBalance).
Proof. unfold wallet_check. rewrite !andb_true_iff, !Z.leb_le. tauto. Qed.

Lemma freeze_wallet_and_mirror_ok wid aid amt x s u s' :
  d_units 8 amt = Some x → freeze_wallet_and_mirror wid aid amt s = inr (u, s') →
  wallet_moved wid (- x) x s s' ∧ effect (at_ aid (- x)) (at_ aid x) nothing s s'.
Proof.
  intros Hx H. unfold freeze_wallet_and_mirror in H.
  apply bind_ok in H as (n&s1&[(->&w&Hw&Hp&Hc%wallet_check_nonneg&->)|(->&->&_)]%update_many_id_ok&H).
  2: { apply bind_ok in H as (?&?&[Hn _]%throw_if_ok&_). apply (proj1 (differs_false _ _)) in Hn. lia. }
  apply bind_ok in H as (_&?&[_ ->]%throw_if_ok&H).
  set (s1 := set_wallets _ s) in H.
  assert (effect nothing nothing nothing s s1) as E1 by (apply wallets_only_effect; by eexists).
  apply (counted_moved aid _ _ _ (- x) x) in H as [Hm _].
  2: { intros a. simpl. rewrite (n8_add_units _ _ _ Hx), (n8_sub_units _ _ _ Hx). split_and!; done || lia. }
  pose proof (acct_moved_rest _ _ _ _ _ Hm) as (_&_&Hwal&_).
  split.
  - exists w, (wal_freeze amt w). simpl in *. rewrite (n8_add_units _ _ _ Hx), (n8_sub_units _ _ _ Hx) in *.
    split_and!; try done; try lia.
  - apply acct_moved_effect in Hm. eapply effect_ext; [exact (effect_trans _ _ _ _ _ _ _ _ _ E1 Hm)|..];
      intros; unfold nothing; lia.
Qed.

(** *** Submission *)
Lemma withdrawal_parties_ok input makerId s w c m s' :
  withdrawal_parties input makerId s = inr ((w, c, m), s') →
  s' = s ∧ s.(wallets) !! input.(win_walletId) = Some w ∧ w.(wal_customerId) = input.(win_customerId) ∧
  s.(customers) !! input.(win_customerId) = Some c ∧ s.(accounts) !! m.1 = Some m.2 ∧
  is_mirror_of input.(win_customerId) m = true.
Proof.
  unfold withdrawal_parties, find_unique. intros H.
  do 3 (apply bind_ok in H as (?&?&[-> ->]%gets_ok&H)).
  apply bind_ok in H as (mi&?&[-> ->]%gets_ok&H).
  apply bind_ok in H as (be&s1&Hb&H). assert (s1 = s) as -> by (unfold find_optional in Hb; by minvs). clear Hb.
  apply bind_ok in H as (w'&?&[Hw ->]%require_ok&H). apply bind_ok in H as (_&?&[Hww ->]%throw_if_ok&H).
  apply bind_ok in H as (c'&?&[Hc ->]%require_ok&H). apply bind_ok in H as (_&?&[_ ->]%throw_if_ok&H).
  apply bind_ok in H as (mk&?&[_ ->]%require_ok&H). apply bind_ok in H as (_&?&[_ ->]%throw_if_ok&H).
  apply bind_ok in H as ([mid ma]&?&[Hm ->]%require_ok&H). apply bind_ok in H as (_&?&[_ ->]%throw_if_ok&H).
  apply ret_ok in H as [E ->]. injection E as -> -> ->. apply find_first_Some in Hm as [Hm Hp].
  guards. match goal with H : String.eqb _ _ = true |- _ => apply String.eqb_eq in H end. done.
Qed.

Lemma withdrawal_fee_ok env input c amount s fee s' :
  rules_exact s → withdrawal_fee env input c amount s = inr (fee, s') →
  s' = s ∧ exact8 fee.(fee_amount) ∧ d_lte amount fee.(fee_amount) = false ∧
  ∃ f, d_units 8 fee.(fee_amount) = Some f ∧ 0 ≤ f.
Proof.
  intros Hr H. unfold withdrawal_fee in H.
  apply bind_ok in H as (r&s1&(->&id&rule&Hid&_&Hf)%resolve_ok&H).
  destruct (Hr id rule Hid) as [Hc Hb]. destruct (rule_amount_exact _ Hc Hb) as [Hu Hn].
  apply bind_ok in H as (u&s1&He&H).
  assert (s1 = s) as ->.
  { destruct (win_expectedFeeAmount input); [|by apply ret_ok in He as [_ ->]].
    by apply bind_ok in He as (?&?&[_ ->]%decimal_ok&[_ ->]%throw_if_ok). }
  apply bind_ok in H as (_&?&[Hl ->]%throw_if_ok&[-> ->]%ret_ok). rewrite Hf in *.
  split_and!; try done; [eexists; split; [exact Hu|lia]|eexists; by split].
Qed.

(** What a submission that is not a replay does. *)
Record submitted (input : CreateWithdrawalInput) (makerId transferId : string) (x : Z) (t : CryptoTransfer)
    (s s' : Db) : Prop := {
  sub_fresh : s.(transfers) !! transferId = None ∧ s.(operations) !! transferId = None;
  sub_transfers : s'.(transfers) = <[transferId := t]> s.(transfers);
  sub_amounts : t.(tr_amount) = x ∧ t.(tr_netAmount) + t.(tr_feeAmount) = x ∧
                0 < t.(tr_netAmount) ∧ 0 ≤ t.(tr_feeAmount);
  sub_status : t.(tr_status) = TS_SUBMITTED ∧ t.(tr_customerId) = input.(win_customerId) ∧
               t.(tr_walletId) = input.(win_walletId) ∧ t.(tr_idempotencyKey) = Some input.(win_idempotencyKey);
  sub_operation : ∃ o mirror, s'.(operations) !! transferId = Some o ∧ o.(op_status) = SUBMITTED ∧
    o.(op_type) = PAYOUT ∧ o.(op_amount) = t.(tr_netAmount) ∧ o.(op_feeAmount) = t.(tr_feeAmount) ∧
    o.(op_sourceAccountId) = Some mirror ∧ o.(op_customerId) = input.(win_customerId) ∧
    json_has "cryptoTransferId" o.(op_metadata) = true ∧
    (∃ a, s.(accounts) !! mirror = Some a ∧ is_mirror_of input.(win_customerId) (mirror, a) = true) ∧
    moved_with_transfer transferId o (at_ mirror (- x)) (at_ mirror x) nothing s s';
  sub_wallet : wallet_moved input.(win_walletId) (- x) x s s';
  sub_owner : ∃ w, s.(wallets) !! input.(win_walletId) = Some w ∧ w.(wal_customerId) = input.(win_customerId);
}.

Lemma sub_transfer input makerId transferId x t s s' :
  submitted input makerId transferId x t s s' → s'.(transfers) !! transferId = Some t.
Proof. intros H. rewrite (sub_transfers _ _ _ _ _ _ _ H). apply lookup_insert_eq. Qed.

Lemma submit_withdrawal_ok env now transferId suffix input makerId amount x s id t s' :
  rules_exact s → d_units 8 amount = Some x → Z.abs x < 10 ^ 19 →
  submit_withdrawal env now transferId suffix input makerId amount s = inr ((id, t), s') →
  id = transferId ∧ submitted input makerId transferId x t s s'.
Proof.
  intros Hr Hx Hb H. unfold submit_withdrawal, store8 in H.
  apply bind_ok in H as ([[w c] m]&s1&(->&Hw&Hwc&_&Hm&Hmir)%withdrawal_parties_ok&H).
  apply bind_ok in H as (fee&s1&Hfee&H).
  apply withdrawal_fee_ok in Hfee as (->&(f'&Hf'&Hfb)&Hlte&f&Hf&Hf0); [|done].
  rewrite Hf in Hf'. injection Hf' as <-. rewrite (lte_units 8 _ _ _ _ Hx Hf) in Hlte. apply Z.leb_gt in Hlte.
  apply bind_ok in H as (u&s1&Hfr&H). apply (freeze_wallet_and_mirror_ok _ _ _ _ _ _ _ Hx) in Hfr as [Hwm E].
  apply bind_ok in H as (g&?&[Hg ->]%require_ok&H). apply bind_ok in H as (fc&?&[Hfc ->]%require_ok&H).
  apply bind_ok in H as (nc&?&[Hnc ->]%require_ok&H).
  apply (n8_store_Some _ _ _ Hx) in Hg as ->. apply (n8_store_Some _ _ _ Hf) in Hfc as ->.
  assert (d_units 8 (d_sub amount (fee_amount fee)) = Some (x - f)) as Hn by (apply units_sub; [done..|lia]).
  apply (n8_store_Some _ _ _ Hn) in Hnc as ->.
  apply bind_ok in H as (u2&s2&(Hnew&_&->&_)%create_row_ok&H).
  apply bind_ok in H as (u3&s3&(Hnewo&_&->&_)%create_row_ok&[Eq ->]%ret_ok). injection Eq as -> ->.
  destruct E as [(A&W&J&->) HA HF HP HI HB]. simpl in *.
  split; [done|]. split; simpl.
  - done.
  - done.
  - split_and!; lia.
  - done.
  - eexists _, m.1. rewrite lookup_insert_eq. split; [reflexivity|]. split_and!; try done.
    + exists m.2. by destruct m.
    + eexists (set_operations (<[transferId := _]> s.(operations)) (set_accounts A (set_wallets W (set_journal J s)))), _.
      split; [|reflexivity]. exists (set_accounts A (set_wallets W (set_journal J s))). split; [|reflexivity].
      split; try done. by exists A, W, J.
  - destruct Hwm as (w1&w1'&?&?&?). exists w1, w1'. done.
  - by exists w.
Qed.

(** *** Settlement *)
Lemma load_transfer_ok id userId st code s t s' :
  load_transfer id userId st code s = inr (t, s') →
  s' = s ∧ s.(transfers) !! id = Some t ∧ t.(tr_status) = st ∧
  ∃ u, s.(users) !! userId = Some u ∧ u.(user_active) = true ∧ u.(user_role) = ADMIN ∧
    u.(user_organizationId) = cust_organizationId <$> s.(customers) !! t.(tr_customerId).
Proof.
  unfold load_transfer, require_crypto_role, find_unique. intros H. minvs. guards. subst.
  split_and!; try done. eexists. split_and!; try done. set_solver.
Qed.

Lemma wallet_update_moved wid amt x f da df s w s' :
  d_units 8 amt = Some x →
  (∀ w, (f w).(wal_availableBalance) = w.(wal_availableBalance) + da ∧
        (f w).(wal_frozenBalance) = w.(wal_frozenBalance) + df) →
  wallet_update wid f s = inr (w, s') → wallet_moved wid da df s s' ∧ effect nothing nothing nothing s s'.
Proof.
  intros Hx Hf (w0&Hw&->&Hc&->)%update_row_ok. split.
  - apply wallet_check_nonneg in Hc as [? ?]. destruct (Hf w0) as [? ?]. exists w0, (f w0). simpl. split_and!; done.
  - apply wallets_only_effect. by eexists.
Qed.

(** The customer has one active mirror account. *)
Definition mirrors_unique (s : Db) (customerId : string) : Prop :=
  ∀ i j a b, s.(accounts) !! i = Some a → s.(accounts) !! j = Some b →
    is_mirror_of customerId (i, a) = true → is_mirror_of customerId (j, b) = true → i = j.

Lemma is_mirror_identity c i a b : same_identity a b → is_mirror_of c (i, a) = is_mirror_of c (i, b).
Proof. intros (H1&H2&H3&H4&H5&_). unfold is_mirror_of. simpl. by rewrite H1, H2, H3, H4, H5. Qed.

(** A mirror found in a state with the same accounts up to balances. *)
Lemma mirror_stable c s s1 i a j b :
  mirrors_unique s c → (∀ k, option_Forall2 same_identity (s.(accounts) !! k) (s1.(accounts) !! k)) →
  s.(accounts) !! i = Some a → is_mirror_of c (i, a) = true →
  find_first (is_mirror_of c) s1.(accounts) = Some (j, b) → j = i.
Proof.
  intros Hu Hid Hi Hm [Hj Hp]%find_first_Some. specialize (Hid j). rewrite Hj in Hid.
  inversion Hid as [x y Hxy Hx|]; subst. rewrite <- (is_mirror_identity _ _ _ _ Hxy) in Hp.
  symmetry. by eapply Hu.
Qed.

Lemma operation_status_update now id p f s n s' :
  operation_updateMany now id p f s = inr (n, s') →
  ∃ X, s' = set_operations X s ∧
    X = match s.(operations) !! id with
        | Some o => if p o then <[id := f o]> s.(operations) else s.(operations)
        | None => s.(operations)
        end.
Proof.
  intros [(_&o&Ho&Hp&->)|(_&->&Hp)]%operation_updateMany_ok.
  - rewrite Ho, Hp. eauto.
  - exists s.(operations). split; [by rewrite set_operations_id|].
    destruct (operations s !! id) as [o|] eqn:E; [|done]. by rewrite (Hp o).
Qed.

(** The operation a conditional status update leaves. *)
Definition updated_if (p : Operation → bool) (f : Operation → Operation) (id : string)
    (m : gmap string Operation) : gmap string Operation :=
  match m !! id with Some o => if p o then <[id := f o]> m else m | None => m end.

(** The writes of a rejection: on the wallet, the mirror, the operation and the transfer. *)
Lemma reject_writes_ok now id reason checkerId t mirror a s r s' :
  mirrors_unique s t.(tr_customerId) → s.(accounts) !! mirror = Some a →
  is_mirror_of t.(tr_customerId) (mirror, a) = true →
  reject_writes now id reason checkerId t s = inr (r, s') →
  wallet_moved t.(tr_walletId) t.(tr_amount) (- t.(tr_amount)) s s' ∧ r.(tr_status) = TS_REJECTED ∧
  ∃ s2, effect (at_ mirror t.(tr_amount)) (at_ mirror (- t.(tr_amount))) nothing s s2 ∧
    s' = set_transfers (<[id := r]> s.(transfers)) (set_operations (updated_if (λ o, same o.(op_status) SUBMITTED)
      (λ o, set_op_approvedAt (Some now) (set_op_rejectionReason (Some (trim reason))
            (set_op_checkerId (Some checkerId) (set_op_status REJECTED o)))) id s.(operations)) s2).
Proof.
  intros Hu Ha Hm H. unfold reject_writes in H. pose proof (units_n8 t.(tr_amount)) as Hx.
  apply bind_ok in H as (w&s1&Hw&H).
  apply (wallet_update_moved _ _ _ _ t.(tr_amount) (- t.(tr_amount)) _ _ _ Hx) in Hw as [Hwm E1].
  2: { intros w0. simpl. rewrite (n8_add_units _ _ _ Hx), (n8_sub_units _ _ _ Hx). lia. }
  apply bind_ok in H as (mi&?&[-> ->]%gets_ok&H). apply bind_ok in H as ([j b]&?&[Hf ->]%require_ok&H).
  apply (mirror_stable _ _ _ _ _ _ _ Hu (eff_identity _ _ _ _ _ E1) Ha Hm) in Hf as ->. simpl in H.
  apply bind_ok in H as (n&s2&Hacc&H). apply bind_ok in H as (u&?&[Hn ->]%throw_if_ok&H).
  apply (proj1 (differs_false _ _)) in Hn as ->.
  assert (acct_moved mirror t.(tr_amount) (- t.(tr_amount)) s1 s2) as Hmv.
  { apply update_many_id_ok in Hacc as [(_&x&Hxa&_&Hc&->)|[? _]]; [|lia].
    apply account_check_nonneg in Hc as [? ?]. exists x, (acc_unfreeze (n8_of t.(tr_amount)) x).
    simpl in *. rewrite (n8_add_units _ _ _ Hx), (n8_sub_units _ _ _ Hx) in *. split_and!; done || lia. }
  pose proof (acct_moved_rest _ _ _ _ _ Hmv) as (_&_&Hwal&_).
  apply acct_moved_effect in Hmv. pose proof (effect_trans _ _ _ _ _ _ _ _ _ E1 Hmv) as E.
  apply bind_ok in H as (n&s3&Hop&H). apply operation_status_update in Hop as (X&->&HX).
  rewrite (frame_operations _ _ (eff_frame _ _ _ _ _ E)) in HX.
  apply update_row_ok in H as (t0&Ht0&->&_&->). simpl in *.
  split; [|split; [done|]].
  - destruct Hwm as (w1&w2&?&?&?). exists w1, w2. simpl. by rewrite Hwal.
  - exists s2. split.
    + eapply effect_ext; [exact E|..]; intros; unfold nothing; lia.
    + unfold updated_if. rewrite <- HX. destruct (eff_frame _ _ _ _ _ E) as (A&W&J&->). done.
Qed.
End lemmas.

(** *** Execution *)
Section execution.
Context {DO : DecimalOps} {DL : DecimalLaws DO} {JD : JsDates}.

Lemma create_entry_pair_effect ref oid desc a b c z s u s' :
  create_entry ref oid desc [(a, DEBIT, c, n8_of z); (b, CREDIT, c, n8_of z)] s = inr (u, s') →
  effect nothing nothing (λ i, at_ b z i - at_ a z i) s s' ∧ s'.(wallets) = s.(wallets).
Proof.
  intros H%(create_entry_pair _ _ _ _ _ _ _ _ _ _ _ (units_n8 z)). split; [by eapply pair_posted_effect|].
  by destruct (posted_rest _ _ _ H) as (_&_&?&_).
Qed.

(** The entries of an execution debit the mirror by the net amount and the fee. *)
Lemma post_withdrawal_effect id mirror o t s u s' :
  post_withdrawal id mirror o t s = inr (u, s') →
  effect nothing nothing (at_ mirror (- (t.(tr_netAmount) + t.(tr_feeAmount)))) s s' ∧ s'.(wallets) = s.(wallets).
Proof.
  intros H. unfold post_withdrawal in H.
  do 2 (apply bind_ok in H as (?&?&[-> ->]%gets_ok&H)).
  apply bind_ok in H as ([ci ca]&?&[Hc ->]%require_ok&H). apply bind_ok in H as ([fi fa]&?&[Hf ->]%require_ok&H).
  apply find_first_Some in Hc as [Hc Hcp], Hf as [Hf Hfp]. simpl in *. guards.
  assert (system_account s ci = true) as Sc.
  { unfold system_account. rewrite Hc. by match goal with H : acc_kind ca = _ |- _ => rewrite H end. }
  assert (system_account s fi = true) as Sf.
  { unfold system_account. rewrite Hf. by match goal with H : acc_kind fa = _ |- _ => rewrite H end. }
  apply bind_ok in H as (u1&s1&[E1 W1]%create_entry_pair_effect&H). rewrite (isZero_n8 (tr_feeAmount t)) in H.
  destruct (Z.eqb_spec (tr_feeAmount t) 0) as [Hz|_].
  - apply ret_ok in H as [_ ->]. split; [|done]. eapply effect_ext; [exact E1|done|done|].
    intros i Hi. cbv beta. rewrite (at_system _ _ _ _ Sc Hi), Hz. unfold at_. case_match; lia.
  - apply create_entry_pair_effect in H as [E2 W2]. split; [|congruence].
    eapply effect_ext; [exact (effect_trans _ _ _ _ _ _ _ _ _ E1 E2)|done|done|].
    intros i Hi. cbv beta. rewrite (at_system _ _ _ _ Sc Hi), (at_system _ _ _ _ Sf Hi).
    unfold at_. case_match; lia.
Qed.

Lemma executeTransfer_ok now id txHash operatorId s r s' t o mirror a :
  s.(transfers) !! id = Some t → s.(operations) !! id = Some o →
  t.(tr_netAmount) + t.(tr_feeAmount) = t.(tr_amount) →
  mirrors_unique s t.(tr_customerId) → s.(accounts) !! mirror = Some a →
  is_mirror_of t.(tr_customerId) (mirror, a) = true →
  executeTransfer now id txHash operatorId s = inr (r, s') →
  t.(tr_status) = TS_PROCESSING ∧ prefixed_hex 64 txHash = true ∧ r.(tr_status) = TS_COMPLETED ∧ r.(tr_txHash) = Some txHash ∧
  wallet_moved t.(tr_walletId) 0 (- t.(tr_amount)) s s' ∧
  ∃ o', o'.(op_status) = COMPLETED ∧ o'.(op_externalReference) = Some txHash ∧ same_terms o o' ∧
    moved_with_transfer id o' nothing (at_ mirror (- t.(tr_amount))) (at_ mirror (- t.(tr_amount))) s s'.
Proof.
  intros Ht Ho Hsum Hu Ha Hm H. unfold executeTransfer in H. pose proof (units_n8 t.(tr_amount)) as Hx.
  apply bind_ok in H as (t1&?&(->&Ht1&Hst&_)%load_transfer_ok&H). rewrite Ht in Ht1. injection Ht1 as <-.
  apply bind_ok in H as (_&?&[Htx ->]%throw_if_ok&H). apply negb_false_iff in Htx.
  apply bind_ok in H as (w&s1&Hw&H).
  apply (wallet_update_moved _ _ _ _ 0 (- t.(tr_amount)) _ _ _ Hx) in Hw as [Hwm E1].
  2: { intros w0. simpl. rewrite (n8_sub_units _ _ _ Hx). lia. }
  apply bind_ok in H as (mi&?&[-> ->]%gets_ok&H). apply bind_ok in H as ([j b]&?&[Hf ->]%require_ok&H).
  apply (mirror_stable _ _ _ _ _ _ _ Hu (eff_identity _ _ _ _ _ E1) Ha Hm) in Hf as ->. simpl in H.
  apply bind_ok in H as (n&s2&Hacc&H). apply bind_ok in H as (u&?&[Hn ->]%throw_if_ok&H).
  apply (proj1 (differs_false _ _)) in Hn as ->.
  assert (acct_moved mirror 0 (- t.(tr_amount)) s1 s2) as Hmv.
  { apply update_many_id_ok in Hacc as [(_&x&Hxa&_&Hc&->)|[? _]]; [|lia].
    apply account_check_nonneg in Hc as [? ?]. exists x, (acc_consume (n8_of t.(tr_amount)) x).
    simpl in *. rewrite (n8_sub_units _ _ _ Hx) in *. split_and!; done || lia. }
  pose proof (acct_moved_rest _ _ _ _ _ Hmv) as (_&_&Hwal&_).
  apply acct_moved_effect in Hmv. pose proof (effect_trans _ _ _ _ _ _ _ _ _ E1 Hmv) as E.
  apply bind_ok in H as (lk&?&[-> ->]%gets_ok&H). rewrite (frame_operations _ _ (eff_frame _ _ _ _ _ E)), Ho in H.
  apply bind_ok in H as (u1&s3&Hp&H). apply bind_ok in Hp as (u2&s4&[Hp Hwp]%post_withdrawal_effect&Hup).
  apply bind_ok in Hup as (o'&s5&Hup&[_ ->]%ret_ok).
  destruct (update_moved _ _ _ _ _ _ _ _ _ _ _ Ho (effect_trans _ _ _ _ _ _ _ _ _ E Hp) Hup) as (->&Hmoved&_).
  apply operation_update_ok in Hup as (o1&_&_&_&Hs5).
  apply update_row_ok in H as (t0&Ht0&->&_&->). simpl in *.
  split_and!; try done.
  - destruct Hwm as (w1&w2&?&?&?). exists w1, w2. subst s5. simpl. by rewrite Hwp, Hwal.
  - eexists. split; [|split; [|split; [|eexists s5, _; split; [|reflexivity]]]].
    4: { destruct Hmoved as (sx&Ex&->). exists sx. split; [|reflexivity].
         eapply effect_ext; [exact Ex|..]; intros; unfold at_, nothing; case_match; lia. }
    all: done.
Qed.
End execution.

(** ** Properties *)
Section properties.
Context {DO : DecimalOps} {DL : DecimalLaws DO} {JD : JsDates} (sha256 : list Z → list Z).

(** The transfers the handler takes for a replay of the request. *)
Definition replays (input : CreateWithdrawalInput) (kt : string * CryptoTransfer) : bool :=
  String.eqb kt.2.(tr_customerId) input.(win_customerId) &&
  opt_eqb kt.2.(tr_idempotencyKey) (Some input.(win_idempotencyKey)).

Lemma createWithdrawal_submits env now transferId suffix input makerId s id t s' :
  rules_exact s → s.(transfers) !! id = None →
  (∀ d, d_parse input.(win_amount) = Some d → exact8 d) →
  createWithdrawal sha256 env now transferId suffix input makerId s = inr ((id, t), s') →
  id = transferId ∧ submitted input makerId transferId t.(tr_amount) t s s' ∧
  find_first (replays input) s.(transfers) = None ∧
  (∃ d, d_parse input.(win_amount) = Some d ∧ d_units 8 d = Some t.(tr_amount)) ∧
  ∀ env2 now2 id2 suffix2 maker2 s2 r, find_first (replays input) s2.(transfers) = Some r →
    createWithdrawal sha256 env2 now2 id2 suffix2 input maker2 s2 = inr (r, s2).
Proof.
  intros Hr Hid Hex H. unfold createWithdrawal in H.
  apply bind_ok in H as (_&?&[H1 ->]%throw_if_ok&H). apply bind_ok in H as (amt&?&[Hp ->]%decimal_ok&H).
  apply bind_ok in H as (_&?&[H2 ->]%throw_if_ok&H). apply bind_ok in H as (u&?&[H3 ->]%throw_if_ok&H).
  apply bind_ok in H as (ex&?&[-> ->]%gets_ok&H). destruct (find_first _ _) as [[k t0]|] eqn:E.
  { apply ret_ok in H as [Eq ->]. injection Eq as -> ->. apply find_first_Some in E as [E _]. congruence. }
  destruct (Hex _ Hp) as (x&Hx&Hb).
  destruct (submit_withdrawal_ok _ _ _ _ _ _ _ _ _ _ _ _ Hr Hx Hb H) as [-> Hs].
  split; [done|]. rewrite (proj1 (sub_amounts _ _ _ _ _ _ _ Hs)). split_and!; [done..|by exists amt|].
  intros env2 now2 id2 suffix2 maker2 s2 r Hf. unfold createWithdrawal.
  run throw_if_run; [exact H1|]. run require_run; [exact Hp|]. run throw_if_run; [exact H2|].
  run throw_if_run; [exact H3|]. run gets_run. unfold replays in Hf. by rewrite Hf.
Qed.

(** a withdrawal submission reserves the gross amount on the wallet and on
    its mirror account alike, and inserts a transfer and a payout operation of
    the same id whose net amount and fee add up to it; the net amount is positive,
    and the operation carries the mark that keeps the generic workflow away.
    The same request sent again, at any later time and by whoever, answers with
    that transfer and writes nothing. *)
Theorem withdrawal_submitted env now transferId suffix input makerId s id t s' :
  rules_exact s → s.(transfers) !! id = None →
  (∀ d, d_parse input.(win_amount) = Some d → exact8 d) →
  createWithdrawal sha256 env now transferId suffix input makerId s = inr ((id, t), s') →
  id = transferId ∧ submitted input makerId transferId t.(tr_amount) t s s' ∧
  ∀ env2 now2 id2 suffix2 maker2,
    createWithdrawal sha256 env2 now2 id2 suffix2 input maker2 s' = inr ((id, t), s').
Proof.
  intros Hr Hid Hex H.
  destruct (createWithdrawal_submits _ _ _ _ _ _ _ _ _ _ Hr Hid Hex H) as (->&Hs&Hnone&_&Hreplay).
  split_and!; [done..|]. intros env2 now2 id2 suffix2 maker2. apply Hreplay.
  pose proof (sub_transfers _ _ _ _ _ _ _ Hs) as Ht. destruct (sub_status _ _ _ _ _ _ _ Hs) as (_&Hcu&_&Hkey).
  destruct (find_first (replays input) s'.(transfers)) as [[k t0]|] eqn:E.
  - apply find_first_Some in E as [Hk Hp]. rewrite Ht in Hk.
    destruct (decide (k = transferId)) as [->|Hne]; [rewrite lookup_insert_eq in Hk; congruence|].
    rewrite lookup_insert_ne in Hk by done. rewrite (find_first_None _ _ _ _ Hnone Hk) in Hp. done.
  - pose proof (find_first_None _ _ _ _ E (sub_transfer _ _ _ _ _ _ _ Hs)) as Hf. unfold replays in Hf. simpl in Hf.
    rewrite Hcu, Hkey, String.eqb_refl in Hf. unfold opt_eqb in Hf. by rewrite ?String.eqb_refl, ?bool_decide_true in Hf.
Qed.

(** Submitting a withdrawal and rejecting it restores the wallet's customer
    accounts: every available balance, frozen balance and position is what it
    was, the wallet is released by the amount it was charged, and the linked
    operation ends REJECTED with the transfer. *)
Theorem withdrawal_reject_restores env now now' transferId suffix input makerId reason checkerId s id t s1 r s2 :
  rules_exact s → s.(transfers) !! id = None → mirrors_unique s input.(win_customerId) →
  (∀ d, d_parse input.(win_amount) = Some d → exact8 d) →
  createWithdrawal sha256 env now transferId suffix input makerId s = inr ((id, t), s1) →
  rejectTransfer now' id reason checkerId s1 = inr (r, s2) →
  (∀ i, available_of s2 i = available_of s i ∧ frozen_of s2 i = frozen_of s i ∧
        (system_account s i = false → position_of s2 i = position_of s i)) ∧
  wallet_moved input.(win_walletId) 0 0 s s2 ∧
  r.(tr_status) = TS_REJECTED ∧ ∃ o, s2.(operations) !! id = Some o ∧ o.(op_status) = REJECTED.
Proof.
  intros Hr Hid Hu Hex Hc Hj.
  destruct (createWithdrawal_submits _ _ _ _ _ _ _ _ _ _ Hr Hid Hex Hc) as (->&Hs&_).
  pose proof (sub_transfer _ _ _ _ _ _ _ Hs) as Ht. destruct Hs as [_ _ _ (_&Hcu&Hwi&_) Hop Hw].
  destruct Hop as (o&mirror&Ho&Hst&_&_&_&_&_&_&(a&Ha&Hm)&Hmv).
  unfold rejectTransfer in Hj. apply bind_ok in Hj as (_&?&[_ ->]%throw_if_ok&Hj).
  apply bind_ok in Hj as (t1&?&(->&Ht1&_&_)%load_transfer_ok&Hj). rewrite Ht in Ht1. injection Ht1 as <-.
  destruct Hmv as (sa&Y&Hmv&->). pose proof (moved_frame _ _ _ _ _ _ _ Hmv) as (_&_&_&_&_&_&_&Hac).
  apply moved_effect in Hmv as (A&F&P&_).
  pose proof (Hac mirror) as Hmi. rewrite Ha in Hmi. inversion Hmi as [x b Hxb Hx Hb|]; subst. symmetry in Hb.
  assert (mirrors_unique sa (tr_customerId t)) as Hu'.
  { rewrite Hcu. intros i j c d Hi Hj' Hmi' Hmj.
    pose proof (Hac i) as Hii. rewrite Hi in Hii. inversion Hii as [ci ? Hci Hsi|]; subst.
    pose proof (Hac j) as Hjj. rewrite Hj' in Hjj. inversion Hjj as [cj ? Hcj Hsj|]; subst.
    apply (Hu i j ci cj); try done.
    - by rewrite (is_mirror_identity _ _ _ _ Hci).
    - by rewrite (is_mirror_identity _ _ _ _ Hcj). }
  rewrite (is_mirror_identity _ _ _ _ Hxb), <- Hcu in Hm.
  destruct (reject_writes_ok _ _ _ _ _ mirror b (set_transfers Y sa) _ _ Hu' Hb Hm Hj) as (Hwm&Hrs&s3&E&->).
  split; [|split; [|split; [done|]]].
  - intros i. destruct E as [_ HA HF HP _ _]. specialize (HA i). specialize (HF i).
    pose proof (eff_system_moved _ _ Hac i) as Hsys.
    specialize (A i). specialize (F i). specialize (P i). specialize (HP i).
    unfold available_of, frozen_of, position_of, system_account, at_, nothing in *. simpl in *.
    split_and!; [| |intros Hi; rewrite HP by (rewrite Hsys; done); rewrite P by done; lia];
      repeat case_match; lia.
  - rewrite Hwi in Hwm. pose proof (wallet_moved_trans _ _ _ _ _ _ _ _ Hw Hwm) as Hww.
    by replace (- tr_amount t + tr_amount t) with 0 in Hww by lia; replace (tr_amount t + - tr_amount t) with 0 in Hww by lia.
  - simpl in *. unfold updated_if. rewrite Ho, Hst. simpl. rewrite lookup_insert_eq. eauto.
Qed.

Lemma mirrors_unique_identity s s' c :
  (∀ k, option_Forall2 same_identity (s.(accounts) !! k) (s'.(accounts) !! k)) →
  mirrors_unique s c → mirrors_unique s' c.
Proof.
  intros Hac Hu i j x y Hi Hj Hmi Hmj.
  pose proof (Hac i) as Hii. rewrite Hi in Hii. inversion Hii as [ci ? Hci Hsi|]; subst.
  pose proof (Hac j) as Hjj. rewrite Hj in Hjj. inversion Hjj as [cj ? Hcj Hsj|]; subst.
  apply (Hu i j ci cj); [done|done|by rewrite (is_mirror_identity _ _ _ _ Hci)|by rewrite (is_mirror_identity _ _ _ _ Hcj)].
Qed.

(** Approval marks the transfer and the operation; no balance moves. *)
Lemma approveTransfer_ok now id checkerId s r s' t o :
  s.(transfers) !! id = Some t → s.(operations) !! id = Some o → o.(op_status) = SUBMITTED →
  approveTransfer now id checkerId s = inr (r, s') →
  t.(tr_status) = TS_SUBMITTED ∧
  r = set_tr_approvedAt (Some now) (set_tr_checkerId (Some checkerId) (set_tr_status TS_PROCESSING t)) ∧
  s' = set_transfers (<[id := r]> s.(transfers)) (set_operations
    (<[id := set_op_approvedAt (Some now) (set_op_checkerId (Some checkerId) (set_op_status PROCESSING o))]> s.(operations)) s).
Proof.
  intros Ht Ho Hst H. unfold approveTransfer in H.
  apply bind_ok in H as (t1&?&(->&Ht1&Hts&_)%load_transfer_ok&H). rewrite Ht in Ht1. injection Ht1 as <-.
  apply bind_ok in H as (n&s1&Hop&H). apply operation_status_update in Hop as (X&->&->). rewrite Ho, Hst in *. simpl in *.
  apply update_row_ok in H as (t0&Ht0&->&_&->). simpl in *. rewrite Ht in Ht0. injection Ht0 as <-. done.
Qed.

(** The wallet and the account of the ledger a customer's withdrawal moves: the
    wallet named by the request is the customer's own, and the account is the
    customer's active USDT wallet account on the supported network. *)
Record withdrawal_of (s : Db) (customerId walletId mirror : string) : Prop := {
  wof_wallet : ∃ w, s.(wallets) !! walletId = Some w ∧ w.(wal_customerId) = customerId;
  wof_mirror : ∃ a, s.(accounts) !! mirror = Some a ∧ a.(acc_customerId) = Some customerId ∧
    a.(acc_kind) = CRYPTO_WALLET ∧ a.(acc_currency) = USDT ∧
    a.(acc_network) = Some supportedCryptoNetworkText ∧ a.(acc_status) = AS_ACTIVE;
}.

Lemma is_mirror_of_spec c i a : is_mirror_of c (i, a) = true →
  a.(acc_customerId) = Some c ∧ a.(acc_kind) = CRYPTO_WALLET ∧ a.(acc_currency) = USDT ∧
  a.(acc_network) = Some supportedCryptoNetworkText ∧ a.(acc_status) = AS_ACTIVE.
Proof. unfold is_mirror_of. simpl. intros H. guards. done. Qed.

(** C6: an on-chain withdrawal submitted, approved and executed has taken exactly
    its gross amount, the amount of the request, out of the wallet, which is the
    customer's, and out of the customer's own active USDT wallet account on the
    supported network; the journal has debited that account by the gross amount,
    which is the net amount plus the fee; no frozen balance is left behind, and no
    other customer account has moved.  The customer has one such account, and the
    amount has at most eight decimals. *)
Theorem withdrawal_lifecycle env now1 now2 now3 transferId suffix input makerId checkerId txHash operatorId
    s id t s1 r2 s2 r3 s3 :
  rules_exact s → s.(transfers) !! id = None → mirrors_unique s input.(win_customerId) →
  (∀ d, d_parse input.(win_amount) = Some d → exact8 d) →
  createWithdrawal sha256 env now1 transferId suffix input makerId s = inr ((id, t), s1) →
  approveTransfer now2 id checkerId s1 = inr (r2, s2) →
  executeTransfer now3 id txHash operatorId s2 = inr (r3, s3) →
  r3.(tr_status) = TS_COMPLETED ∧ r3.(tr_txHash) = Some txHash ∧
  (∃ d, d_parse input.(win_amount) = Some d ∧ d_units 8 d = Some t.(tr_amount)) ∧
  t.(tr_netAmount) + t.(tr_feeAmount) = t.(tr_amount) ∧
  wallet_moved input.(win_walletId) (- t.(tr_amount)) 0 s s3 ∧
  ∃ mirror, withdrawal_of s input.(win_customerId) input.(win_walletId) mirror ∧ ∀ i,
    available_of s3 i = available_of s i - at_ mirror t.(tr_amount) i ∧ frozen_of s3 i = frozen_of s i ∧
    (system_account s i = false → position_of s3 i = position_of s i - at_ mirror t.(tr_amount) i).
Proof.
  intros Hr Hid Hu Hex Hc Ha He.
  destruct (createWithdrawal_submits _ _ _ _ _ _ _ _ _ _ Hr Hid Hex Hc) as (->&Hs&_&Hamt&_).
  pose proof (sub_transfer _ _ _ _ _ _ _ Hs) as Ht. destruct Hs as [_ _ (_&Hsum&_) (_&Hcu&Hwi&_) Hop Hw Hown].
  destruct Hop as (o&mirror&Ho&Hst&_&_&_&_&_&_&(a&Hacc&Hm)&Hmv).
  assert (withdrawal_of s input.(win_customerId) input.(win_walletId) mirror) as Hof.
  { split; [done|]. exists a. split; [done|]. by eapply is_mirror_of_spec. }
  destruct (approveTransfer_ok _ _ _ _ _ _ _ _ Ht Ho Hst Ha) as (_&->&->).
  destruct Hmv as (sa&Y&Hmv&->). pose proof (moved_frame _ _ _ _ _ _ _ Hmv) as (_&_&_&_&_&_&_&Hac).
  apply moved_effect in Hmv as (A&F&P&_).
  pose proof (Hac mirror) as Hmi. rewrite Hacc in Hmi. inversion Hmi as [x b Hxb Hx Hb|]; subst. symmetry in Hb.
  rewrite (is_mirror_identity _ _ _ _ Hxb) in Hm.
  eapply executeTransfer_ok in He as (_&_&Hrs&Hrt&Hwm&o'&_&_&_&Hmv2);
    [|simpl; by rewrite lookup_insert_eq|simpl; by rewrite lookup_insert_eq|exact Hsum| |exact Hb|by rewrite <- Hcu in Hm].
  2: { simpl. rewrite Hcu. by apply (mirrors_unique_identity s). }
  split_and!; [done..| |].
  - simpl in Hwm. rewrite Hwi in Hwm.
    assert (wallet_moved (win_walletId input) 0 (- tr_amount t) (set_transfers Y sa) s3) as Hwm' by exact Hwm.
    pose proof (wallet_moved_trans _ _ _ _ _ _ _ _ Hw Hwm') as Hww.
    by replace (- tr_amount t + 0) with (- tr_amount t) in Hww by lia; replace (tr_amount t + - tr_amount t) with 0 in Hww by lia.
  - exists mirror. split; [done|]. intros i. apply moved_with_transfer_effect in Hmv2 as (A2&F2&P2&_).
    pose proof (eff_system_moved _ _ Hac i) as Hsys.
    specialize (A i). specialize (F i). specialize (P i). specialize (A2 i). specialize (F2 i). specialize (P2 i).
    unfold available_of, frozen_of, position_of, system_account, at_, nothing in *. simpl in *.
    split_and!; [| |intros Hi; rewrite P2 by (rewrite Hsys; done); rewrite P by done];
      repeat case_match; lia.
Qed.

(** [execute] never accepts a TRON transaction id.  Only TRON withdrawals can
    be submitted, and a TRON transaction id is 64 hexadecimal digits, yet the
    handler demands the 0x-prefixed form: with such an id it refuses every
    transfer, whatever the state. *)
Theorem execute_refuses_tron_txid now id txid operatorId s :
  hex_string 64 txid = true →
  ∀ r s', executeTransfer now id txid operatorId s ≠ inr (r, s').
Proof.
  intros Hh r s' H. unfold executeTransfer in H.
  apply bind_ok in H as (t1&?&(->&_)%load_transfer_ok&H).
  apply bind_ok in H as (_&?&[Htx _]%throw_if_ok&_). apply negb_false_iff in Htx.
  unfold prefixed_hex in Htx. unfold hex_string, all_chars in *.
  destruct txid as [|c1 [|c2 rest]]; try done; destruct c1 as [[] [] [] [] [] [] [] []]; try done;
    destruct c2 as [[] [] [] [] [] [] [] []]; try done.
Qed.

(** a rejected withdrawal cannot be rejected again: run one after the other,
    the second rejection is refused and changes nothing. *)
Theorem second_rejection_refused now1 now2 id reason1 reason2 checker1 checker2 s r s1 :
  rejectTransfer now1 id reason1 checker1 s = inr (r, s1) → truthy (trim reason2) = true →
  rejectTransfer now2 id reason2 checker2 s1 = inl (Conflict "transfer_not_submitted").
Proof.
  intros H Hr. unfold rejectTransfer in *. apply bind_ok in H as (_&?&[_ ->]%throw_if_ok&H).
  apply bind_ok in H as (t&?&(->&Ht&Hst&_)%load_transfer_ok&H).
  assert (s1.(transfers) !! id = Some r ∧ r.(tr_status) = TS_REJECTED) as [Ht1 Hr1].
  { unfold reject_writes in H. apply bind_ok in H as (?&?&_&H). apply bind_ok in H as (?&?&[-> ->]%gets_ok&H).
    apply bind_ok in H as (?&?&[_ ->]%require_ok&H). apply bind_ok in H as (?&?&_&H).
    apply bind_ok in H as (_&?&[_ ->]%throw_if_ok&H). apply bind_ok in H as (?&?&_&H).
    apply update_row_ok in H as (t0&_&->&_&->). simpl. by rewrite lookup_insert_eq. }
  run throw_if_run; [by rewrite Hr|]. unfold load_transfer, find_unique, bind, gets, require, throw_if.
  rewrite Ht1. unfold ret at 1. by rewrite Hr1.
Qed.

(** The handlers of the on-chain workflow run at the database's default
    isolation, so two rejections may both read the transfer before either
    writes; nothing in the writes looks at its status again, and the pair
    releases the amount twice: the available balance of the mirror account ends
    two amounts up and its frozen balance two amounts down, at the expense of
    what other withdrawals hold. *)
Theorem interleaved_rejections_release_twice now1 now2 id reason1 reason2 checker1 checker2 s t r1 s1 r2 s2 mirror a :
  load_transfer id checker1 TS_SUBMITTED "transfer_not_submitted" s = inr (t, s) →
  load_transfer id checker2 TS_SUBMITTED "transfer_not_submitted" s = inr (t, s) →
  mirrors_unique s t.(tr_customerId) → s.(accounts) !! mirror = Some a →
  is_mirror_of t.(tr_customerId) (mirror, a) = true →
  reject_writes now1 id reason1 checker1 t s = inr (r1, s1) →
  reject_writes now2 id reason2 checker2 t s1 = inr (r2, s2) →
  available_of s2 mirror = available_of s mirror + 2 * t.(tr_amount) ∧
  frozen_of s2 mirror = frozen_of s mirror - 2 * t.(tr_amount) ∧
  wallet_moved t.(tr_walletId) (2 * t.(tr_amount)) (- 2 * t.(tr_amount)) s s2.
Proof.
  intros _ _ Hu Ha Hm H1 H2.
  destruct (reject_writes_ok _ _ _ _ _ _ _ _ _ _ Hu Ha Hm H1) as (W1&_&sa&E1&->).
  pose proof (eff_identity _ _ _ _ _ E1) as Hac.
  pose proof (Hac mirror) as Hmi. rewrite Ha in Hmi. inversion Hmi as [x b Hxb Hx Hb|]; subst. symmetry in Hb.
  rewrite (is_mirror_identity _ _ _ _ Hxb) in Hm.
  apply (mirrors_unique_identity s sa _ Hac) in Hu.
  eapply (reject_writes_ok _ _ _ _ _ mirror b) in H2 as (W2&_&sb&E2&->); [|exact Hu|exact Hb|exact Hm].
  destruct E1 as [_ A1 F1 _ _ _], E2 as [_ A2 F2 _ _ _].
  specialize (A1 mirror). specialize (F1 mirror). specialize (A2 mirror). specialize (F2 mirror).
  unfold at_ in *. rewrite String.eqb_refl in *.
  unfold available_of, frozen_of in *. simpl in *. split_and!; [lia|lia|].
  pose proof (wallet_moved_trans _ _ _ _ _ _ _ _ W1 W2) as W.
  replace (2 * tr_amount t) with (tr_amount t + tr_amount t) by lia.
  by replace (- 2 * tr_amount t) with (- tr_amount t + - tr_amount t) by lia.
Qed.
End properties.

(** ** Witnesses *)
Definition withdrawal_input (key : string) : CreateWithdrawalInput := {|
  win_customerId := "cus"; win_walletId := "wal"; win_network := TRON; win_amount := "10";
  win_toAddress := sample_address; win_beneficiaryId := None; win_idempotencyKey := key;
  win_expectedFeeAmount := Some "1"; win_expectedFeeRuleVersion := Some "1" |}.
Definition withdrawal_run (id key : string) : M Db (string * CryptoTransfer) :=
  createWithdrawal zero_hash env0 now0 id id (withdrawal_input key) "adm".
Definition db_withdrawal : Db := after (withdrawal_run "w1" "k1") db0.
Definition db_withdrawal2 : Db := after (withdrawal_run "w2" "k2") db_withdrawal.
Definition reject_run : M Db CryptoTransfer := rejectTransfer now0 "w1" "no" "adm".
Definition db_withdrawal_rejected : Db := after reject_run db_withdrawal.
Definition approve_transfer_run : M Db CryptoTransfer := approveTransfer now0 "w1" "adm".
Definition db_withdrawal_approved : Db := after approve_transfer_run db_withdrawal.
Definition sample_hash : string := "0x0123456789abcdef0123456789abcdef0123456789abcdef0123456789abcdef".
Definition execute_transfer_run : M Db CryptoTransfer := executeTransfer now0 "w1" sample_hash "adm".
Definition db_withdrawal_executed : Db := after execute_transfer_run db_withdrawal_approved.

Lemma withdrawal_run_ok : ∃ t, withdrawal_run "w1" "k1" db0 = inr (("w1", t), db_withdrawal).
Proof.
  assert (returns (withdrawal_run "w1" "k1") fst db0 = Some "w1") as R by runs.
  apply run_returns in R as ([id t]&Hid&H). simpl in Hid. subst id. exists t. exact H.
Qed.
Lemma withdrawal_exact key d : d_parse (win_amount (withdrawal_input key)) = Some d → exact8 d.
Proof. intros H. vm_compute in H. injection H as <-. by exists (10 * 10 ^ 8). Qed.

Lemma one_mirror s :
  forallb (λ ka, negb (is_mirror_of "cus" ka) || String.eqb ka.1 "usdt") (map_to_list s.(accounts)) = true →
  mirrors_unique s "cus".
Proof.
  rewrite forallb_forall. intros H i j a b Hi Hj Hmi Hmj.
  assert (∀ k x, s.(accounts) !! k = Some x → is_mirror_of "cus" (k, x) = true → k = "usdt") as Hk.
  { intros k x Hk Hm. pose proof (H (k, x)) as Hx. rewrite Hm in Hx. simpl in Hx. apply String.eqb_eq, Hx.
    by apply list_elem_of_In, elem_of_map_to_list. }
  rewrite (Hk i a Hi Hmi). symmetry. exact (Hk j b Hj Hmj).
Qed.

Lemma withdrawal_submitted_witness :
  frozen_of db_withdrawal "usdt" = 1000000000 ∧
  ∃ t, submitted (withdrawal_input "k1") "adm" "w1" t.(tr_amount) t db0 db_withdrawal ∧
    ∀ env2 now2 id2 suffix2 maker2, createWithdrawal zero_hash env2 now2 id2 suffix2 (withdrawal_input "k1") maker2 db_withdrawal =
      inr (("w1", t), db_withdrawal).
Proof.
  split; [runs|]. destruct withdrawal_run_ok as [t H]. exists t. unfold withdrawal_run in H.
  exact (proj2 (withdrawal_submitted zero_hash env0 now0 "w1" "w1" (withdrawal_input "k1") "adm" db0 "w1" t db_withdrawal
    db0_rules_exact eq_refl (withdrawal_exact "k1") H)).
Defined.

Lemma withdrawal_reject_restores_witness :
  available_of db_withdrawal "usdt" = 4000000000 ∧
  ∀ i, available_of db_withdrawal_rejected i = available_of db0 i ∧ frozen_of db_withdrawal_rejected i = frozen_of db0 i ∧
       (system_account db0 i = false → position_of db_withdrawal_rejected i = position_of db0 i).
Proof.
  split; [runs|]. destruct withdrawal_run_ok as [t H]. unfold withdrawal_run in H.
  assert (succeeds reject_run db_withdrawal = true) as R by runs. apply run_succeeds in R as [r Hr].
  assert (mirrors_unique db0 "cus") as Hu by (apply one_mirror; runs). unfold reject_run in Hr at 1.
  exact (proj1 (withdrawal_reject_restores zero_hash env0 now0 now0 "w1" "w1" (withdrawal_input "k1") "adm" "no" "adm" db0
    "w1" t db_withdrawal r (after reject_run db_withdrawal) db0_rules_exact eq_refl Hu (withdrawal_exact "k1") H Hr)).
Defined.

Lemma withdrawal_lifecycle_witness :
  available_of db_withdrawal_executed "usdt" = 4000000000 ∧
  wallet_moved "wal" (- 1000000000) 0 db0 db_withdrawal_executed.
Proof.
  split; [runs|]. destruct withdrawal_run_ok as [t H].
  assert (from_option tr_amount 0 (transfers db_withdrawal !! "w1") = 1000000000) as Ht by runs.
  unfold withdrawal_run in H.
  assert (succeeds approve_transfer_run db_withdrawal = true) as R by runs. apply run_succeeds in R as [r Hr].
  assert (succeeds execute_transfer_run db_withdrawal_approved = true) as R2 by runs. apply run_succeeds in R2 as [r2 Hr2].
  assert (mirrors_unique db0 "cus") as Hu by (apply one_mirror; runs).
  destruct (createWithdrawal_submits zero_hash env0 now0 "w1" "w1" (withdrawal_input "k1") "adm" db0 "w1" t db_withdrawal
    db0_rules_exact eq_refl (withdrawal_exact "k1") H) as (_&Hs&_).
  rewrite (sub_transfer _ _ _ _ _ _ _ Hs) in Ht. simpl in Ht. assert (- 1000000000 = - t.(tr_amount)) as -> by lia.
  unfold approve_transfer_run in Hr at 1. unfold execute_transfer_run in Hr2 at 1.
  exact (proj1 (proj2 (proj2 (proj2 (proj2 (withdrawal_lifecycle zero_hash env0 now0 now0 now0 "w1" "w1" (withdrawal_input "k1") "adm" "adm" sample_hash
    "adm" db0 "w1" t db_withdrawal r (after approve_transfer_run db_withdrawal) r2
    (after execute_transfer_run (after approve_transfer_run db_withdrawal))
    db0_rules_exact eq_refl Hu (withdrawal_exact "k1") H Hr Hr2)))))).
Defined.

Definition genuine_txid : string := "0123456789abcdef0123456789abcdef0123456789abcdef0123456789abcdef".
Lemma execute_refuses_tron_txid_witness :
  from_option (λ t, same t.(tr_status) TS_PROCESSING) false (transfers db_withdrawal_approved !! "w1") = true ∧
  ∀ r s', executeTransfer now0 "w1" genuine_txid "adm" db_withdrawal_approved ≠ inr (r, s').
Proof.
  split; [runs|]. exact (execute_refuses_tron_txid now0 "w1" genuine_txid "adm" db_withdrawal_approved eq_refl).
Defined.

Lemma second_rejection_refused_witness :
  rejectTransfer now0 "w1" "again" "adm" db_withdrawal_rejected = inl (Conflict "transfer_not_submitted").
Proof.
  assert (succeeds reject_run db_withdrawal = true) as R by runs. apply run_succeeds in R as [r Hr].
  unfold reject_run in Hr at 1.
  exact (second_rejection_refused now0 now0 "w1" "no" "again" "adm" "adm" db_withdrawal r (after reject_run db_withdrawal)
    Hr eq_refl).
Defined.

(** Two withdrawals of 10 USDT are outstanding; the first is rejected twice. *)
Definition sample_transfer : CryptoTransfer :=
  default (MkCryptoTransfer "" None "" "" USDT TRON TD_WITHDRAWAL TS_FAILED 0 0 0 "" "" None 0 "" None None None 0 None None)
    (db_withdrawal2.(transfers) !! "w1").
Definition first_writes : M Db CryptoTransfer := reject_writes now0 "w1" "no" "adm" sample_transfer.
Lemma interleaved_rejections_release_twice_witness :
  frozen_of db_withdrawal2 "usdt" = 2000000000 ∧
  frozen_of (after first_writes (after first_writes db_withdrawal2)) "usdt" = 0 ∧
  available_of (after first_writes (after first_writes db_withdrawal2)) "usdt" =
    available_of db_withdrawal2 "usdt" + 2 * sample_transfer.(tr_amount).
Proof.
  split; [runs|]. split; [runs|].
  assert (load_transfer "w1" "adm" TS_SUBMITTED "transfer_not_submitted" db_withdrawal2 = inr (sample_transfer, db_withdrawal2)) as HL.
  { assert (succeeds (load_transfer "w1" "adm" TS_SUBMITTED "transfer_not_submitted") db_withdrawal2 = true) as R by runs.
    apply run_succeeds in R as [t Ht]. destruct (load_transfer_ok _ _ _ _ _ _ _ Ht) as (E&Hl&_).
    rewrite E in Ht. rewrite Ht. unfold sample_transfer. by rewrite Hl. }
  assert (succeeds first_writes db_withdrawal2 = true) as R1 by runs.
  assert (succeeds first_writes (after first_writes db_withdrawal2) = true) as R2 by runs.
  apply run_succeeds in R1 as [r1 H1]. apply run_succeeds in R2 as [r2 H2].
  assert (mirrors_unique db_withdrawal2 "cus") as Hu by (apply one_mirror; runs).
  assert (sample_transfer.(tr_customerId) = "cus") as Hc by runs.
  destruct (accounts db_withdrawal2 !! "usdt") as [a|] eqn:Ha.
  2: { assert (is_some (accounts db_withdrawal2 !! "usdt") = true) as R by runs. rewrite Ha in R. discriminate R. }
  assert (from_option (λ a, is_mirror_of "cus" ("usdt", a)) false (accounts db_withdrawal2 !! "usdt") = true) as Hm by runs.
  rewrite Ha in Hm. simpl in Hm. rewrite <- Hc in Hu, Hm. unfold first_writes in H1 at 1, H2 at 1.
  exact (proj1 (interleaved_rejections_release_twice now0 now0 "w1" "no" "no" "adm" "adm" db_withdrawal2 sample_transfer
    r1 (after first_writes db_withdrawal2) r2 (after first_writes (after first_writes db_withdrawal2)) "usdt" a
    HL HL Hu Ha Hm H1 H2)).
Defined.
