(* ===== verification/WithdrawalFeeProperties.v ===== *)
(** Correctness of the withdrawal-fee rules: a rule prices what its text says,
    a customer's own rule comes first, creation never overwrites, and updates
    are guarded by the version. *)
From S2P Require Import Prelude Decimals Schema Access WithdrawalFees Ledger Operations OperationEffects OperationCreation Samples.
From Stdlib Require Import Ascii.

(** ** [BigInt] of a printed natural number *)
Lemma digits_pretty (x : N) : ∀ s,
  digits_in 10 (String.list_ascii_of_string (pretty_N_go x s)) 0 =
  digits_in 10 (String.list_ascii_of_string s) (Z.of_N x).
Proof.
  induction (N.lt_wf_0 x) as [x _ IH]. intros s.
  destruct (decide (x = 0)%N) as [->|Hx]; [done|].
  rewrite pretty_N_go_step by lia. rewrite IH by (apply N.div_lt; lia). simpl.
  pose proof (N.mod_lt x 10 ltac:(done)) as Hm.
  assert (∀ d, (d < 10)%N → digit_value (pretty_N_char d) = Z.of_N d) as Hd.
  { intros d Hd. assert (d = 0 ∨ d = 1 ∨ d = 2 ∨ d = 3 ∨ d = 4 ∨ d = 5 ∨ d = 6 ∨ d = 7 ∨ d = 8 ∨ d = 9)%N as Hc by lia.
    by destruct_or! Hc; subst. }
  rewrite Hd by done. assert (Z.of_N (x mod 10) <? 10 = true) as -> by (apply Z.ltb_lt; lia).
  f_equal. pose proof (N.div_mod x 10 ltac:(done)). lia.
Qed.

Definition digit_char (c : ascii) : bool := let n := nat_of_ascii c in Nat.leb 48 n && Nat.leb n 57.

Lemma pretty_N_digits (x : N) : ∀ s,
  Forall (λ c, digit_char c = true) (String.list_ascii_of_string s) →
  Forall (λ c, digit_char c = true) (String.list_ascii_of_string (pretty_N_go x s)).
Proof.
  induction (N.lt_wf_0 x) as [x _ IH]. intros s Hs.
  destruct (decide (x = 0)%N) as [->|Hx]; [done|].
  rewrite pretty_N_go_step by lia. apply IH; [apply N.div_lt; lia|]. simpl. constructor; [|done].
  unfold pretty_N_char. repeat case_match; done.
Qed.

Lemma drop_spaces_digits l : Forall (λ c, digit_char c = true) l → drop_spaces l = l.
Proof.
  intros [|c l' Hc _]; [done|]. simpl. unfold is_space, digit_char in *.
  apply andb_true_iff in Hc as [H1%Nat.leb_le H2%Nat.leb_le].
  assert (nat_of_ascii c <=? 13 = false)%nat as -> by (apply Nat.leb_gt; lia).
  assert (nat_of_ascii c =? 32 = false)%nat as -> by (apply Nat.eqb_neq; lia).
  by rewrite andb_false_r.
Qed.

Lemma trim_digits s : Forall (λ c, digit_char c = true) (String.list_ascii_of_string s) → trim s = s.
Proof.
  intros H. unfold trim. rewrite (drop_spaces_digits _ H), drop_spaces_digits.
  - by rewrite rev_involutive, String.string_of_list_ascii_of_string.
  - rewrite Forall_forall in *. intros c Hc. apply H. by apply list_elem_of_In, in_rev, list_elem_of_In.
Qed.

(** Text of digits reads in base 10, whatever its first digit. *)
Lemma bigint_digits s :
  Forall (λ c, digit_char c = true) (String.list_ascii_of_string s) → s ≠ "" →
  bigint_of_string s = digits_in 10 (String.list_ascii_of_string s) 0.
Proof.
  intros H Hne. unfold bigint_of_string. rewrite (trim_digits _ H).
  destruct (String.list_ascii_of_string s) as [|c l] eqn:E.
  { destruct s; [done|discriminate E]. }
  inversion H as [|? ? Hc Hl]; subst. destruct l as [|d l].
  - destruct c as [[] [] [] [] [] [] [] []]; try done; discriminate Hc.
  - inversion Hl as [|? ? Hd _]; subst.
    assert (Ascii.eqb (lower_char d) "x"%char = false ∧ Ascii.eqb (lower_char d) "o"%char = false ∧
            Ascii.eqb (lower_char d) "b"%char = false) as (Ex&Eo&Eb).
    { destruct d as [[] [] [] [] [] [] [] []]; try done; discriminate Hd. }
    destruct c as [[] [] [] [] [] [] [] []]; try discriminate Hc; rewrite ?Ex, ?Eo, ?Eb; done.
Qed.

Lemma bigint_pretty z : 0 ≤ z → bigint_of_string (pretty z) = Some z.
Proof.
  intros Hz. assert (∃ n, z = Z.of_N n) as [n ->] by (exists (Z.to_N z); lia).
  assert (pretty (Z.of_N n) = pretty n) as -> by (by destruct n).
  unfold pretty, pretty_N. case_decide as Hn; [subst; done|].
  assert (pretty_N_go n "" ≠ "") as Hne.
  { intros E. pose proof (digits_pretty n "") as Hd. rewrite E in Hd. simpl in Hd. injection Hd as Hd. lia. }
  rewrite bigint_digits; [|by apply pretty_N_digits; constructor|done].
  by rewrite digits_pretty.
Qed.

Section properties.
Context {DO : DecimalOps} {DL : DecimalLaws DO}.

Lemma ten_pow_units n : 0 ≤ n ≤ 8 → d_units 0 (ten_pow n) = Some (10 ^ n).
Proof. intros H. unfold ten_pow. rewrite <- (Z2Nat.id n) by lia. apply units_pow10. lia. Qed.

(** The stored minor amount is the amount of the text, in units of 10^-decimals. *)
Lemma toMinor_ok value decimals d m s s' :
  0 ≤ decimals ≤ 8 → d_parse value = Some d → exact8 d →
  toMinor value decimals s = inr (m, s') →
  s' = s ∧ 0 ≤ m ∧ d_units 8 d = Some (m * 10 ^ (8 - decimals)).
Proof.
  intros Hdec Hp (x&Hx&Hb) H. unfold toMinor in H.
  apply bind_ok in H as (d'&?&[Hp' ->]%require_ok&H). rewrite Hp in Hp'. injection Hp' as <-.
  apply bind_ok in H as (_&?&[Hc ->]%throw_if_ok&H). apply orb_false_iff in Hc as [Hneg Hpl].
  apply bind_ok in H as (_&?&[_ ->]%throw_if_ok&H). apply require_ok in H as [Hm ->]. split; [done|].
  pose proof (isFinite_units _ _ _ Hx) as Hfin.
  set (n := Z.to_nat decimals). assert (decimals = Z.of_nat n) as Hn by lia. rewrite Hn in *.
  apply places_exceed_units in Hpl; [|lia|done].
  assert (is_Some (d_units n d)) as [y Hy].
  { destruct Hpl as [?|Hnan]; [done|].
    destruct (proj1 (decimalPlaces_units 8 d ltac:(lia) Hfin)) as (p&Hp'&_); [by eexists|congruence]. }
  pose proof (units_le n 8 d y ltac:(lia) Hy) as Hy8. rewrite Hx in Hy8. injection Hy8 as Hxy.
  assert (Z.of_nat (8 - n) = 8 - Z.of_nat n) as E8 by lia. rewrite E8 in Hxy.
  assert (1 ≤ 10 ^ (8 - Z.of_nat n)) as Hpos by (pose proof (Z.pow_pos_nonneg 10 (8 - Z.of_nat n)); lia).
  assert (1 ≤ 10 ^ Z.of_nat n ≤ 10 ^ 8) as Hpow.
  { split; [pose proof (Z.pow_pos_nonneg 10 (Z.of_nat n)); lia|apply Z.pow_le_mono_r; lia]. }
  assert (0 ≤ y) as Hy0.
  { destruct (decide (y = 0)); [lia|]. rewrite (isNegative_units _ _ _ Hy) in Hneg by done. by apply Z.ltb_ge in Hneg. }
  assert (d_units 0 (d_mul d (ten_pow (Z.of_nat n))) = Some y) as Hmul.
  { apply (units_mul_pow10 n); [done|apply ten_pow_units; lia|nia]. }
  rewrite (toFixed0_units _ _ Hmul), bigint_pretty in Hm by done. injection Hm as <-.
  split; [done|]. rewrite Hx. congruence.
Qed.

(** [@@unique([scopeId, assetClass, currency, method, channelCode, network])] *)
Definition rule_keys_unique (s : Db) : Prop :=
  ∀ i j a b, s.(feeRules) !! i = Some a → s.(feeRules) !! j = Some b → rule_key_eqb a b = true → i = j.

(** An active rule for the asset class, currency, method, channel and network of a
    request, whatever case and blanks the request writes the last two with. *)
Record rule_for (scope : FeeScope) (r : WithdrawalFeeRule) : Prop := {
  rf_active : r.(rule_active) = true;
  rf_assetClass : r.(rule_assetClass) = scope.(fs_assetClass);
  rf_currency : r.(rule_currency) = scope.(fs_currency);
  rf_method : r.(rule_method) = scope.(fs_method);
  rf_channel : r.(rule_channelCode) = toUpperCase (trim scope.(fs_channelCode));
  rf_network : r.(rule_network) = toUpperCase (trim (default "" scope.(fs_network)));
}.

(** The rule of the request that is stored with [x] as scope id. *)
Definition matches_in (scope : FeeScope) (x : string) (s : Db) (id : string) (r : WithdrawalFeeRule) : Prop :=
  s.(feeRules) !! id = Some r ∧ r.(rule_scopeId) = x ∧ rule_for scope r.

(** The scope ids of a request: the customer's own, when it names one, and the
    organisation's or tenant's. *)
Definition scope_id (scope : FeeScope) (x : string) : Prop :=
  (opt_truthy scope.(fs_customerId) = true ∧ x = default "" scope.(fs_customerId)) ∨ x = scope.(fs_scopeId).

(** The database's filter selects the rules of the request under its scope ids. *)
Lemma rule_matches_spec scope id r :
  rule_matches scope (id, r) = true ↔ rule_for scope r ∧ scope_id scope r.(rule_scopeId).
Proof.
  unfold rule_matches, scope_id. cbn [snd].
  rewrite !andb_true_iff, !String.eqb_eq, same_true, includes_true, elem_of_app, list_elem_of_singleton.
  destruct (opt_truthy _); rewrite ?list_elem_of_singleton, ?elem_of_nil; split.
  - intros [[[[[[Hs ?] ?] ?] ?] ?] ?]. split; [by split|tauto].
  - intros [[] Hs]. split_and!; try done. tauto.
  - intros [[[[[[Hs ?] ?] ?] ?] ?] ?]. split; [by split|tauto].
  - intros [[] Hs]. split_and!; try done. destruct Hs as [[? ?]|]; [done|tauto].
Qed.

Lemma same_key scope i j a b :
  rule_matches scope (i, a) = true → rule_matches scope (j, b) = true →
  a.(rule_scopeId) = b.(rule_scopeId) → rule_key_eqb a b = true.
Proof.
  unfold rule_matches, rule_key_eqb. intros Ha Hb Hs. guards. simpl in *.
  repeat match goal with H : String.eqb _ _ = true |- _ => apply String.eqb_eq in H end.
  rewrite Hs. repeat match goal with H : _ _ = _ |- _ => rewrite H end.
  rewrite !String.eqb_refl. done.
Qed.

Lemma find_in_scope scope x s id r :
  rule_keys_unique s → scope_id scope x → matches_in scope x s id r →
  List.find (λ kr, String.eqb kr.2.(rule_scopeId) x) (find_many (rule_matches scope) s.(feeRules)) = Some (id, r).
Proof.
  intros Hu Hsc (Hr&Hx&Hf). assert (rule_matches scope (id, r) = true) as Hm.
  { apply rule_matches_spec. by rewrite Hx. }
  destruct (List.find _ _) as [[j b]|] eqn:E.
  - apply List.find_some in E as [Hj%list_elem_of_In Hb%String.eqb_eq]. simpl in Hb.
    apply find_many_elem in Hj as [Hj Hmj].
    assert (j = id) as -> by (apply (Hu _ _ _ _ Hj Hr); eapply same_key; [exact Hmj|exact Hm|congruence]).
    congruence.
  - pose proof (List.find_none _ _ E (id, r)) as Hn. simpl in Hn. rewrite Hx, String.eqb_refl in Hn.
    discriminate Hn. by apply list_elem_of_In, find_many_elem.
Qed.

Lemma find_not_in_scope scope x s :
  (∀ id r, ¬ matches_in scope x s id r) →
  List.find (λ kr, String.eqb kr.2.(rule_scopeId) x) (find_many (rule_matches scope) s.(feeRules)) = None.
Proof.
  intros Hn. destruct (List.find _ _) as [[j b]|] eqn:E; [|done]. exfalso.
  apply List.find_some in E as [Hj%list_elem_of_In Hb%String.eqb_eq].
  apply find_many_elem in Hj as [Hj [Hm _]%rule_matches_spec]. by eapply Hn.
Qed.

(** The rule a request is priced with: the customer's own active rule when there
    is one, else the scope's. *)
Definition priced_by (scope : FeeScope) (s : Db) (id : string) (r : WithdrawalFeeRule) : Prop :=
  (opt_truthy scope.(fs_customerId) = true ∧ matches_in scope (default "" scope.(fs_customerId)) s id r) ∨
  (matches_in scope scope.(fs_scopeId) s id r ∧
   (opt_truthy scope.(fs_customerId) = true →
    ∀ j b, ¬ matches_in scope (default "" scope.(fs_customerId)) s j b)).

(** The three answers of [resolve]. *)
Lemma resolve_answers scope s :
  rule_keys_unique s →
  (∀ id r, priced_by scope s id r →
     match scope.(fs_expectedVersion) with
     | Some v => v = pretty r.(rule_version)
     | None => True
     end → rule_check r = true → r.(rule_feeAmountMinor) * 10 ^ (8 - r.(rule_feeDecimals)) < 10 ^ 19 →
     ∃ fee, resolve scope s = inr (fee, s) ∧ fee.(fee_version) = pretty r.(rule_version) ∧
       d_units 8 fee.(fee_amount) = Some (r.(rule_feeAmountMinor) * 10 ^ (8 - r.(rule_feeDecimals)))) ∧
  (∀ id r v, priced_by scope s id r → scope.(fs_expectedVersion) = Some v → v ≠ pretty r.(rule_version) →
     resolve scope s = inl (Conflict "withdrawal_fee_changed")) ∧
  ((∀ id r, ¬ priced_by scope s id r) → resolve scope s = inl (Conflict "fee_configuration_missing")).
Proof.
  intros Hu.
  assert (scope_id scope scope.(fs_scopeId)) as Hsc by (by right).
  assert (∀ id r, priced_by scope s id r → pick_rule scope (find_many (rule_matches scope) s.(feeRules)) = Some (id, r)) as Hpick.
  { intros id r [[Ht Hm]|[Hm Hno]]; unfold pick_rule.
    - rewrite Ht, (find_in_scope _ _ _ _ _ Hu (or_introl (conj Ht eq_refl)) Hm). done.
    - rewrite (find_in_scope _ _ _ _ _ Hu Hsc Hm). destruct (opt_truthy _) eqn:Ht; [|done].
      by rewrite (find_not_in_scope _ _ _ (Hno eq_refl)). }
  split_and!.
  - intros id r Hp Hv Hc Hb. destruct (rule_amount_exact r Hc Hb) as [Hun _].
    eexists. split; [|split].
    + unfold resolve. run gets_run. run require_run; [exact (Hpick _ _ Hp)|]. cbv beta iota.
      run throw_if_run; [|reflexivity]. destruct (fs_expectedVersion scope) as [v|]; [|done].
      subst v. by rewrite String.eqb_refl.
    + done.
    + exact Hun.
  - intros id r v Hp Hv Hne. unfold resolve. run gets_run. run require_run; [exact (Hpick _ _ Hp)|]. cbv beta iota.
    unfold bind, throw_if. rewrite Hv. apply not_eq_sym in Hne. apply String.eqb_neq in Hne. by rewrite Hne.
  - intros Hno. unfold resolve. run gets_run.
    assert (pick_rule scope (find_many (rule_matches scope) s.(feeRules)) = None) as Hn; [|unfold bind, require; by rewrite Hn].
    destruct (pick_rule _ _) as [[id r]|] eqn:E; [|done]. exfalso. apply (Hno id r). unfold pick_rule in E.
    assert (∀ x, List.find (λ kr, String.eqb kr.2.(rule_scopeId) x) (find_many (rule_matches scope) s.(feeRules)) = Some (id, r) →
      matches_in scope x s id r) as Hf.
    { intros x [Hj%list_elem_of_In Hb%String.eqb_eq]%List.find_some. apply find_many_elem in Hj as [Hj [Hm _]%rule_matches_spec]. done. }
    destruct (opt_truthy (fs_customerId scope)) eqn:Ht.
    + destruct (List.find (λ kr, String.eqb kr.2.(rule_scopeId) (default "" (fs_customerId scope))) _) as [kr|] eqn:F.
      * injection E as ->. left. auto.
      * right. split; [auto|]. intros _ j b Hm.
        rewrite (find_in_scope _ _ _ _ _ Hu (or_introl (conj Ht eq_refl)) Hm) in F. done.
    + right. split; [auto|]. rewrite Ht. done.
Qed.

(** C7: pricing is total and prefers the customer's own rule.  The rule of a
    request is the active rule for its asset class, currency, method, channel and
    network (the last two compared without case and blanks) that is stored under
    the customer's id, or, when there is none, under the organisation's or tenant's
    scope id.  When there is one and the request's expected version is that rule's,
    [resolve] answers with the amount of that rule, exactly minor * 10^-decimals,
    and its version; with another expected version it refuses; and when there is
    none, an inactive rule or one for another method being none, it refuses as
    unconfigured. *)
Theorem resolve_prices scope s :
  rule_keys_unique s →
  (∀ id r, priced_by scope s id r →
     match scope.(fs_expectedVersion) with
     | Some v => v = pretty r.(rule_version)
     | None => True
     end → rule_check r = true → r.(rule_feeAmountMinor) * 10 ^ (8 - r.(rule_feeDecimals)) < 10 ^ 19 →
     ∃ fee, resolve scope s = inr (fee, s) ∧ fee.(fee_version) = pretty r.(rule_version) ∧
       d_units 8 fee.(fee_amount) = Some (r.(rule_feeAmountMinor) * 10 ^ (8 - r.(rule_feeDecimals)))) ∧
  (∀ id r v, priced_by scope s id r → scope.(fs_expectedVersion) = Some v → v ≠ pretty r.(rule_version) →
     resolve scope s = inl (Conflict "withdrawal_fee_changed")) ∧
  ((∀ id r, ¬ priced_by scope s id r) → resolve scope s = inl (Conflict "fee_configuration_missing")).
Proof. apply resolve_answers. Qed.

Lemma toMinor_stateless value dec : stateless (toMinor value dec).
Proof.
  unfold toMinor. repeat first [apply stateless_bind|intros []|intros ?|progress auto with stateless].
Qed.

(** [normalizeScope] reads the channels and the customers only. *)
Lemma normalizeScope_reads env input :
  reads (λ s s', s'.(channels) = s.(channels) ∧ s'.(customers) = s.(customers)) (normalizeScope env input).
Proof.
  unfold normalizeScope, find_unique. reading ltac:(intros ? ? [Hch Hcu]; by rewrite ?Hch, ?Hcu).
Qed.

Lemma rule_key_eqb_sym a b : rule_key_eqb a b = rule_key_eqb b a.
Proof.
  unfold rule_key_eqb, same.
  rewrite (String.eqb_sym a.(rule_scopeId)), (String.eqb_sym a.(rule_assetClass)), (String.eqb_sym a.(rule_method)),
    (String.eqb_sym a.(rule_channelCode)), (String.eqb_sym a.(rule_network)).
  by rewrite (bool_decide_ext (rule_currency a = rule_currency b) (rule_currency b = rule_currency a)) by (split; congruence).
Qed.

(** What a successful creation establishes. *)
Lemma upsert_ok env newId input userId s v s' :
  upsert env newId input userId s = inr (v, s') →
  ∃ dec key m s0 r, normalizeScope env input s = inr ((dec, key), s0) ∧ s0 = s ∧
    toMinor input.(in_amount) dec s = inr (m, s) ∧
    r = MkWithdrawalFeeRule key.(key_scopeId) (Some input.(in_organizationId)) key.(key_assetClass) key.(key_currency)
      key.(key_method) key.(key_channelCode) key.(key_network) m dec (default true input.(in_active)) 1 userId userId ∧
    s.(feeRules) !! newId = None ∧ rule_check r = true ∧
    s' = set_feeRules (<[newId := r]> s.(feeRules)) s ∧
    (∀ k x, s.(feeRules) !! k = Some x → rule_key_eqb x r = false).
Proof.
  intros H. unfold upsert in H. apply bind_ok in H as (u&?&(->&_)%requireActiveUser_ok&H).
  do 2 (apply bind_ok in H as (_&?&[_ ->]%throw_if_ok&H)).
  apply bind_ok in H as ([dec key]&s0&Hn&H).
  assert (s0 = s) as ->.
  { clear H. unfold normalizeScope in Hn. minvs; try fwd find_unique_ok as [_ ->]; done. }
  apply bind_ok in H as (m&s1&Hm&H).
  assert (s1 = s) as -> by (unfold toMinor in Hm; by minvs).
  apply bind_ok in H as (u2&s1&Hc&[_ ->]%ret_ok).
  apply try_catch_ok in Hc as [Hc|(e&_&Hc)]; [|repeat case_match; by apply throw_ok in Hc].
  apply bind_ok in Hc as (ex&?&[-> ->]%gets_ok&Hc). apply bind_ok in Hc as (_&?&[_ ->]%throw_if_ok&Hc).
  apply create_row_ok in Hc as (Hnew&Hck&->&Hun). apply Forall_cons in Hun as [Hun _].
  eexists dec, key, m, s, _. split_and!; try done.
Qed.

(** creating a rule never replaces one.  A creation that succeeds has added
    one row under a fresh id, left every existing rule as it was, and no rule
    with the same key existed; created again under the same key, the rule is
    refused as existing. *)
Theorem upsert_never_overwrites env newId newId2 input userId s v s' :
  upsert env newId input userId s = inr (v, s') →
  (∀ k r, s.(feeRules) !! k = Some r → s'.(feeRules) !! k = Some r) ∧
  s.(feeRules) !! newId = None ∧ is_Some (s'.(feeRules) !! newId) ∧
  (rule_keys_unique s → rule_keys_unique s') ∧
  upsert env newId2 input userId s' = inl (Conflict "withdrawal_fee_rule_exists").
Proof.
  intros H. pose proof H as Hrun. apply upsert_ok in H as (dec&key&m&s0&r&Hn&->&Hm&Hr&Hnew&Hck&Hs'&Hun).
  assert (rule_has_key key r = true) as Hkey.
  { subst r. unfold rule_has_key. simpl. rewrite !String.eqb_refl. unfold same. by rewrite bool_decide_true. }
  subst s'. split_and!.
  - intros k x Hk. simpl. rewrite lookup_insert_ne by congruence. done.
  - done.
  - simpl. rewrite lookup_insert_eq. eauto.
  - intros Hu i j a b. simpl.
    destruct (decide (i = newId)) as [->|Hi], (decide (j = newId)) as [->|Hj];
      rewrite ?lookup_insert_eq, ?lookup_insert_ne by done; try done.
    + intros [= <-] Hb Hab. rewrite rule_key_eqb_sym, (Hun _ _ Hb) in Hab. done.
    + intros Ha [= <-] Hab. rewrite (Hun _ _ Ha) in Hab. done.
    + apply Hu.
  - unfold upsert in *. set (s' := set_feeRules _ s).
    apply bind_ok in Hrun as (u&?&Hu&Hrun). pose proof Hu as (->&Huser&Ha&Hrole)%requireActiveUser_ok.
    assert (requireActiveUser userId s' = inr (u, s')) as Hu'.
    { exact (proj2 (reads_ok _ _ s s' _ s (requireActiveUser_reads userId) eq_refl Hu)). }
    run Hu'. apply bind_ok in Hrun as (_&?&[H1 ->]%throw_if_ok&Hrun). run throw_if_run; [exact H1|].
    apply bind_ok in Hrun as (_&?&[H2 ->]%throw_if_ok&_). run throw_if_run; [exact H2|].
    assert (normalizeScope env input s' = inr ((dec, key), s')) as Hn' by (exact (proj2 (reads_ok _ _ s s' _ s (normalizeScope_reads env input) (conj eq_refl eq_refl) Hn))).
    run Hn'. destruct (stateless_run _ _ _ _ (toMinor_stateless _ _) Hm) as [_ Hm']. run Hm'.
    unfold bind at 1, try_catch. run gets_run.
    assert (is_some (find_first (λ kr, rule_has_key key kr.2) s'.(feeRules)) = true) as Hex.
    { destruct (find_first _ _) as [|] eqn:E; [done|].
      assert (s'.(feeRules) !! newId = Some r) as Hl by (simpl; by rewrite lookup_insert_eq).
      pose proof (find_first_None _ _ _ _ E Hl) as Hf. simpl in Hf. congruence. }
    unfold bind, throw_if. by rewrite Hex.
Qed.

(** What a successful update establishes. *)
Lemma update_ok env id amount active version userId s v s' :
  update env id amount active version userId s = inr (v, s') →
  ∃ r m, s.(feeRules) !! id = Some r ∧ bigint_of_string version = Some r.(rule_version) ∧
    (∀ text, amount = Some text → toMinor text r.(rule_feeDecimals) s = inr (m, s)) ∧
    (amount = None → m = r.(rule_feeAmountMinor)) ∧
    s' = set_feeRules (<[id := set_rule_updatedBy userId (set_rule_version (r.(rule_version) + 1)
           (set_rule_active (default r.(rule_active) active) (set_rule_feeAmountMinor m r)))]> s.(feeRules)) s.
Proof.
  intros H. unfold update in H. apply bind_ok in H as (u&?&(->&_)%requireActiveUser_ok&H).
  apply bind_ok in H as (_&?&[_ ->]%throw_if_ok&H).
  apply bind_ok in H as (row&?&[Hrow ->]%find_unique_ok&H).
  apply bind_ok in H as (r&?&[Hr ->]%require_ok&H).
  apply bind_ok in H as (_&?&[_ ->]%throw_if_ok&H).
  apply bind_ok in H as (ver&?&[Hver ->]%require_ok&H).
  apply bind_ok in H as (m&s1&Hm&H).
  assert (s1 = s ∧ (∀ text, amount = Some text → toMinor text r.(rule_feeDecimals) s = inr (m, s)) ∧
          (amount = None → m = r.(rule_feeAmountMinor))) as (->&Htext&Hnone).
  { destruct amount as [text|].
    - destruct (stateless_run _ _ _ _ (toMinor_stateless _ _) Hm) as [-> _]. split; [done|]. split; [congruence|done].
    - apply ret_ok in Hm as [-> ->]. done. }
  clear Hm. apply bind_ok in H as (n&s1&Hup&H). apply bind_ok in H as (_&?&[Hn ->]%throw_if_ok&H).
  apply (proj1 (differs_false _ _)) in Hn as ->.
  apply update_many_id_ok in Hup as [(_&r'&Hr'&Hp&_&->)|[[=] _]]. rewrite Hrow, Hr' in Hr. injection Hr as <-.
  apply Z.eqb_eq in Hp. apply bind_ok in H as (row2&?&[_ ->]%find_unique_ok&H).
  apply bind_ok in H as (r2&?&[_ ->]%require_ok&[_ ->]%ret_ok).
  eexists _, m. rewrite Hver, Hp. auto 6.
Qed.

(** updates of a rule cannot be lost.  An update succeeds only with the
    version the row has; it then changes that row only, keeps its key and its
    decimals, stores the amount of the text, and raises the version by one; so
    a second update that carries the same version does not succeed. *)
Theorem update_optimistic env id amount active version userId s v s' :
  update env id amount active version userId s = inr (v, s') →
  ∃ r r', s.(feeRules) !! id = Some r ∧ s'.(feeRules) = <[id := r']> s.(feeRules) ∧
    bigint_of_string version = Some r.(rule_version) ∧ r'.(rule_version) = r.(rule_version) + 1 ∧
    rule_key_eqb r r' = true ∧ r'.(rule_feeDecimals) = r.(rule_feeDecimals) ∧
    (∀ text d x, 0 ≤ r.(rule_feeDecimals) ≤ 8 → amount = Some text → d_parse text = Some d → exact8 d →
       d_units 8 d = Some x → x = r'.(rule_feeAmountMinor) * 10 ^ (8 - r.(rule_feeDecimals))) ∧
    (∀ amount2 active2 version2 user2, bigint_of_string version2 = bigint_of_string version →
       ∃ e, update env id amount2 active2 version2 user2 s' = inl e).
Proof.
  intros H. apply update_ok in H as (r&m&Hr&Hver&Htext&_&->). eexists r, _. split_and!.
  - done.
  - done.
  - done.
  - done.
  - unfold rule_key_eqb, same. simpl. rewrite !String.eqb_refl, bool_decide_true; done.
  - done.
  - intros text d x Hdec Ht Hp Hd Hx. destruct (toMinor_ok _ _ _ _ _ _ Hdec Hp Hd (Htext _ Ht)) as (_&_&Hu).
    simpl. congruence.
  - intros amount2 active2 version2 user2 Hv2.
    destruct (update env id amount2 active2 version2 user2 _) as [e|[v2 s2]] eqn:E; [by eexists|]. exfalso.
    apply update_ok in E as (r2&_&Hr2&Hv&_). simpl in Hr2. rewrite lookup_insert_eq in Hr2. injection Hr2 as <-.
    simpl in Hv. rewrite Hv2, Hver in Hv. injection Hv as Hv. lia.
Qed.

(** The scope a rule is created for. *)
Definition scope_of (env : ProcessEnv) (input : WithdrawalFeeRuleInput) : string :=
  if opt_truthy input.(in_customerId) then default "" input.(in_customerId)
  else if String.eqb input.(in_assetClass) "CRYPTO"
  then trim_or env.(NEOBANK_SOURCE_TENANT_ID) input.(in_organizationId)
  else input.(in_organizationId).
Definition request_of (env : ProcessEnv) (input : WithdrawalFeeRuleInput) : FeeScope :=
  {| fs_scopeId := scope_of env input; fs_customerId := None; fs_assetClass := input.(in_assetClass);
     fs_currency := input.(in_currency); fs_method := input.(in_method); fs_channelCode := input.(in_channelCode);
     fs_network := input.(in_network); fs_expectedVersion := None |}.

Lemma normalizeScope_key env input s dec key s' :
  normalizeScope env input s = inr ((dec, key), s') →
  dec = (if String.eqb input.(in_assetClass) "CRYPTO" then 6 else 2) ∧
  key = {| key_scopeId := scope_of env input; key_assetClass := input.(in_assetClass);
           key_currency := input.(in_currency); key_method := input.(in_method);
           key_channelCode := toUpperCase (trim input.(in_channelCode));
           key_network := toUpperCase (trim (default "" input.(in_network))) |}.
Proof.
  intros H. unfold normalizeScope in H. apply bind_ok in H as (_&?&_&H). apply bind_ok in H as (_&?&_&H).
  apply bind_ok in H as (_&?&_&[E _]%ret_ok). unfold scope_of. injection E; auto.
Qed.

(** a rule charges what was typed.  After an administrator creates an active
    rule with the amount text [in_amount], resolving a withdrawal of the rule's
    scope, currency, method, channel and network prices it at exactly the
    decimal value of that text, whatever mixture of case and blanks either side
    used for the channel and the network. *)
Theorem rule_text_prices env newId input userId s v s' d :
  rule_keys_unique s → upsert env newId input userId s = inr (v, s') →
  in_active input ≠ Some false → d_parse input.(in_amount) = Some d → exact8 d →
  ∃ fee, resolve (request_of env input) s' = inr (fee, s') ∧ fee.(fee_version) = "1" ∧
    ∃ x, 0 ≤ x ∧ d_units 8 d = Some x ∧ d_units 8 fee.(fee_amount) = Some x.
Proof.
  intros Hu H Hact Hd Hex. apply upsert_ok in H as (dec&key&m&?&r&Hn&->&Hm&Hr&Hnew&Hck&->&Hun).
  apply normalizeScope_key in Hn as [Hdec Hkey].
  assert (0 ≤ dec ≤ 8) as Hrange by (subst dec; destruct (String.eqb _ _); lia).
  destruct (toMinor_ok _ _ _ _ _ _ Hrange Hd Hex Hm) as (_&Hm0&Hx).
  assert (default true (in_active input) = true) as Hactive by (destruct (in_active input) as [[]|]; done).
  destruct Hex as (x&Hx'&Hb). rewrite Hx' in Hx. injection Hx as Hxm.
  destruct (rule_amount_exact r Hck) as [Hamt _].
  { subst r. simpl. rewrite <- Hxm. lia. }
  set (s' := set_feeRules _ s).
  assert (matches_in (request_of env input) (scope_of env input) s' newId r) as Hmatch.
  { unfold matches_in. split; [simpl; by rewrite lookup_insert_eq|]. subst key. split; [by subst r|].
    subst r. split; try reflexivity. exact Hactive. }
  assert (rule_keys_unique s') as Hu'.
  { intros i j a b. simpl.
    destruct (decide (i = newId)) as [->|Hi], (decide (j = newId)) as [->|Hj];
      rewrite ?lookup_insert_eq, ?lookup_insert_ne by done; try done.
    - intros [= <-] Hb' Hab. rewrite rule_key_eqb_sym, (Hun _ _ Hb') in Hab. done.
    - intros Ha [= <-] Hab. rewrite (Hun _ _ Ha) in Hab. done.
    - apply Hu. }
  assert (pick_rule (request_of env input) (find_many (rule_matches (request_of env input)) s'.(feeRules)) = Some (newId, r)) as Hpick.
  { unfold pick_rule. simpl opt_truthy. cbv iota. exact (find_in_scope _ _ _ _ _ Hu' (or_intror eq_refl) Hmatch). }
  eexists. split; [|split].
  - unfold resolve. run gets_run. run require_run; [exact Hpick|]. cbv beta iota. run throw_if_run; [reflexivity|]. reflexivity.
  - subst r. reflexivity.
  - exists x. split; [|split; [done|]].
    + rewrite Hxm. apply Z.mul_nonneg_nonneg; [lia|]. apply Z.pow_nonneg. lia.
    + cbn [fee_amount]. rewrite Hamt. subst r. simpl. by rewrite Hxm.
Qed.
End properties.

(** ** The theorems on the sample state *)
Lemma db0_rule_keys_unique : rule_keys_unique db0.
Proof.
  intros i j a b Ha Hb. unfold db0 in Ha, Hb. simpl in Ha, Hb.
  rewrite !lookup_insert_Some, lookup_empty in Ha. rewrite !lookup_insert_Some, lookup_empty in Hb.
  destruct Ha as [[<- <-]|[_ [[<- <-]|[_ [=]]]]]; destruct Hb as [[<- <-]|[_ [[<- <-]|[_ [=]]]]]; done.
Qed.

(** The platform-payout rule of the sample organisation, asked for in other case. *)
Definition payout_scope : FeeScope :=
  {| fs_scopeId := "org"; fs_customerId := Some "cus"; fs_assetClass := "FIAT"; fs_currency := USD;
     fs_method := "PLATFORM"; fs_channelCode := " pay1 "; fs_network := None; fs_expectedVersion := Some "1" |}.

Definition payout_rule0 : WithdrawalFeeRule :=
  MkWithdrawalFeeRule "org" (Some "org") "FIAT" USD "PLATFORM" "PAY1" "" 150 2 true 1 "adm" "adm".

Lemma payout_scope_priced : priced_by payout_scope db0 "rule" payout_rule0.
Proof.
  right. split.
  - split; [vm_compute; reflexivity|]. split; [reflexivity|]. split; vm_compute; reflexivity.
  - intros _ j b (Hj&Hs&_). apply (all_rows (λ r, negb (String.eqb r.(rule_scopeId) "cus"))) in Hj; [|runs].
    cbv beta in Hj. rewrite Hs in Hj. discriminate Hj.
Qed.

Lemma resolve_prices_witness :
  ∃ fee, resolve payout_scope db0 = inr (fee, db0) ∧ fee.(fee_version) = "1" ∧ d_units 8 fee.(fee_amount) = Some (150 * 10 ^ 6).
Proof.
  destruct (proj1 (resolve_prices payout_scope db0 db0_rule_keys_unique) "rule" payout_rule0 payout_scope_priced)
    as (fee&H1&H2&H3); [reflexivity|reflexivity|reflexivity|].
  exists fee. split; [exact H1|split; [exact H2|exact H3]].
Defined.

(** A rule for the customer alone, on the payout channel. *)
Definition rule_input : WithdrawalFeeRuleInput :=
  {| in_organizationId := "org"; in_customerId := Some "cus"; in_assetClass := "FIAT"; in_currency := USD;
     in_method := "PLATFORM"; in_channelCode := "pay1"; in_network := None; in_amount := "2.25"; in_active := None |}.
Definition upsert_run := upsert env0 "own" rule_input "adm".
Definition update_run := update env0 "own" (Some "3.5") None "1" "adm".

Lemma upsert_never_overwrites_witness :
  upsert env0 "own2" rule_input "adm" (after upsert_run db0) = inl (Conflict "withdrawal_fee_rule_exists").
Proof.
  assert (succeeds upsert_run db0 = true) as R by runs. apply run_succeeds in R as [r H]. unfold upsert_run in H at 1.
  exact (proj2 (proj2 (proj2 (proj2 (upsert_never_overwrites env0 "own" "own2" rule_input "adm" db0 r _ H))))).
Defined.

Lemma update_optimistic_witness :
  ∃ e, update env0 "own" (Some "9") (Some false) "1" "adm" (after update_run (after upsert_run db0)) = inl e.
Proof.
  assert (succeeds update_run (after upsert_run db0) = true) as R by runs. apply run_succeeds in R as [r H]. unfold update_run in H at 1.
  destruct (update_optimistic env0 "own" (Some "3.5") None "1" "adm" (after upsert_run db0) r _ H)
    as (r0&r1&_&_&_&_&_&_&_&Hsecond).
  exact (Hsecond (Some "9") (Some false) "1" "adm" eq_refl).
Defined.

Lemma rule_text_prices_witness :
  ∃ fee x, resolve (request_of env0 rule_input) (after upsert_run db0) = inr (fee, after upsert_run db0) ∧
    d_units 8 fee.(fee_amount) = Some x.
Proof.
  assert (succeeds upsert_run db0 = true) as R by runs. apply run_succeeds in R as [r H]. unfold upsert_run in H at 1.
  destruct (d_parse "2.25") as [d|] eqn:Hd; [|vm_compute in Hd; discriminate Hd].
  assert (exact8 d) as Hex.
  { exists 225000000. split; [|reflexivity]. vm_compute in Hd. injection Hd as <-. vm_compute. reflexivity. }
  destruct (rule_text_prices env0 "own" rule_input "adm" db0 r _ d db0_rule_keys_unique H ltac:(discriminate) Hd Hex)
    as (fee&Hf&_&x&_&_&Hx).
  exists fee, x. split; [exact Hf|exact Hx].
Defined.
