(* ===== verification/ConfigurationProperties.v ===== *)
(** Correctness of the configuration forms: one active rate policy per pair,
    payees whose destination is checked once and never changes, and virtual
    account channels that are complete whenever they are active. *)
From S2P Require Import Prelude Decimals Schema Access Ledger WithdrawalFees Channels Operations OperationEffects OperationCreation Samples TronAddress Beneficiaries Rates WithdrawalFeeProperties.
#[local] Open Scope Z_scope.

(** ** Rates *)
Section rates.
Context {DO : DecimalOps} {DL : DecimalLaws DO} {JD : JsDates}.

(** At most one active version per type and pair. *)
Definition same_pair (r r' : RateVersion) : Prop :=
  r'.(rate_type) = r.(rate_type) ∧ r'.(rate_baseCurrency) = r.(rate_baseCurrency) ∧
  r'.(rate_quoteCurrency) = r.(rate_quoteCurrency).
Definition one_active (s : Db) : Prop :=
  ∀ k k' r r', s.(rateVersions) !! k = Some r → s.(rateVersions) !! k' = Some r' →
    r.(rate_active) = true → r'.(rate_active) = true → same_pair r r' → k = k'.

Lemma rate_of_pair_true dto r : rate_of_pair dto r = true ↔
  r.(rate_type) = dto.(mr_type) ∧ r.(rate_baseCurrency) = dto.(mr_baseCurrency) ∧
  r.(rate_quoteCurrency) = dto.(mr_quoteCurrency).
Proof. unfold rate_of_pair. rewrite !andb_true_iff, !same_true. tauto. Qed.

(** The candidates [createFromMarket] looks for among the active versions. *)
Definition candidate (dto : CreateMarketRateDto) (kr : string * RateVersion) : bool :=
  rate_of_pair dto kr.2 && (kr.2.(rate_feeBps) =? dto.(mr_feeBps)) && kr.2.(rate_active).
Definition flat_rate (kr : string * RateVersion) : bool :=
  d_eq (n12_of kr.2.(rate_buyRate)) (n12_of kr.2.(rate_sellRate)).

Lemma flat_rate_same k r : r.(rate_buyRate) = r.(rate_sellRate) → flat_rate (k, r) = true.
Proof.
  intros H. unfold flat_rate. simpl. rewrite H.
  rewrite (eq_units 12 _ _ _ _ (units_n12 _) (units_n12 _)). apply Z.eqb_refl.
Qed.

(** Either the policy is in force already, or it replaces the one that was. *)
Record replaced (now : Z) (dto : CreateMarketRateDto) (k : string) (r : RateVersion) (s s' : Db) : Prop := {
  rp_fresh : s.(rateVersions) !! k = None;
  rp_row : s'.(rateVersions) !! k = Some r;
  rp_flat : r.(rate_buyRate) = r.(rate_sellRate);
  rp_terms : rate_of_pair dto r = true ∧ r.(rate_feeBps) = dto.(mr_feeBps) ∧ r.(rate_active) = true;
  rp_others : ∀ j, j ≠ k → s'.(rateVersions) !! j =
    (λ v, if rate_of_pair dto v && v.(rate_active) then rate_retire now v else v) <$> s.(rateVersions) !! j;
  rp_users : s'.(users) = s.(users);
}.
Lemma publish_ok now newId dto d s k r s' :
  publish_rate now newId dto d s = inr ((k, r), s') →
  (s' = s ∧ s.(rateVersions) !! k = Some r ∧ candidate dto (k, r) = true ∧ flat_rate (k, r) = true) ∨
  replaced now dto k r s s'.
Proof.
  intros H. unfold publish_rate in H. apply bind_ok in H as (dup&?&[-> ->]%gets_ok&H).
  destruct (List.find _ _) as [[k0 r0]|] eqn:E.
  - apply ret_ok in H as [[= -> ->] ->]. apply List.find_some in E as [Hin Hflat].
    apply list_elem_of_In, find_many_elem in Hin as [Hk Hc]. by left.
  - apply bind_ok in H as (n&s1&(m&->&_&Hm)%update_many_ok&H).
    apply bind_ok in H as (z&?&[_ ->]%require_ok&H).
    apply bind_ok in H as (u&s2&(Hfree&_&->&_)%create_row_ok&[[= -> ->] ->]%ret_ok). simpl in *.
    rewrite Hm in Hfree. right. split; simpl.
    + by destruct (rateVersions s !! newId).
    + by rewrite lookup_insert_eq.
    + done.
    + split_and!; [by apply rate_of_pair_true|done|done].
    + intros j Hj. by rewrite lookup_insert_ne, Hm by done.
    + done.
Qed.

Lemma replaced_one_active now dto k r s s' : one_active s → replaced now dto k r s s' → one_active s'.
Proof.
  intros Hone [Hf Hk _ (Hp&_&Ha) Ho _] j j' v v' Hj Hj' Hv Hv' Hpair.
  assert (∀ i w, i ≠ k → s'.(rateVersions) !! i = Some w → w.(rate_active) = true →
    s.(rateVersions) !! i = Some w ∧ rate_of_pair dto w = false) as Hold.
  { intros i w Hne Hi Hw. rewrite Ho in Hi by done. destruct (rateVersions s !! i) as [w0|]; [|done].
    injection Hi as <-. destruct (rate_of_pair dto w0 && rate_active w0) eqn:E; [done|].
    rewrite Hw, andb_true_r in E. done. }
  apply rate_of_pair_true in Hp as (P1&P2&P3). destruct Hpair as (E1&E2&E3).
  assert (∀ i w, i ≠ k → s'.(rateVersions) !! i = Some w → w.(rate_active) = true → same_pair r w → False) as Hno.
  { intros i w Hne Hi Hw (F1&F2&F3). destruct (Hold i w Hne Hi Hw) as [_ Hf']. apply not_true_iff_false in Hf'.
    apply Hf', rate_of_pair_true. split_and!; congruence. }
  destruct (decide (j = k)) as [->|Hne], (decide (j' = k)) as [->|Hne']; [done| | |].
  - destruct (Hno j' v' Hne' Hj' Hv'). rewrite Hk in Hj. injection Hj as <-. by split_and!.
  - destruct (Hno j v Hne Hj Hv). rewrite Hk in Hj'. injection Hj' as <-. by split_and!.
  - destruct (Hold j v Hne Hj Hv) as [H1 _], (Hold j' v' Hne' Hj' Hv') as [H2 _].
    by eapply Hone; [apply H1|apply H2| | |split_and!].
Qed.

(** A policy in force is found again. *)
Lemma publish_again now newId dto d s k r :
  one_active s → s.(rateVersions) !! k = Some r → candidate dto (k, r) = true → flat_rate (k, r) = true →
  publish_rate now newId dto d s = inr ((k, r), s).
Proof.
  intros Hone Hk Hc Hflat. unfold publish_rate. run gets_run. destruct (List.find _ _) as [[k0 r0]|] eqn:E.
  - apply List.find_some in E as [Hin _]. apply list_elem_of_In, find_many_elem in Hin as [Hk0 Hc0].
    unfold candidate in Hc. simpl in *. rewrite !andb_true_iff in Hc, Hc0.
    destruct Hc as [[(P1&P2&P3)%rate_of_pair_true _] Ha], Hc0 as [[(Q1&Q2&Q3)%rate_of_pair_true _] Ha0].
    assert (k0 = k) as -> by (eapply Hone; [apply Hk0|apply Hk|done|done|split_and!; congruence]).
    rewrite Hk in Hk0. by injection Hk0 as ->.
  - exfalso. assert ((k, r) ∈ find_many (candidate dto) s.(rateVersions)) as Hin by (by apply find_many_elem).
    apply list_elem_of_In in Hin. pose proof (List.find_none _ _ E (k, r) Hin) as Hn. unfold flat_rate in Hflat. simpl in *. congruence.
Qed.

Lemma rate_admin_reads uid : reads (λ s s', s'.(users) = s.(users)) (rate_admin uid).
Proof. unfold rate_admin, requireActiveUser, find_unique. reading ltac:(intros ? ? Hus; by rewrite ?Hus). Qed.
Lemma market_checks_stateless now dto : stateless (market_checks now dto).
Proof. unfold market_checks. auto 20 with stateless. Qed.

(** A pair of currencies never has two rate policies in force: publishing a
    market policy keeps at most one active version per type and pair, the version
    it returns is the one in force and carries the fee asked for; every other
    version of the pair is retired with the time of the change and no version of
    another pair is touched; publishing it again returns the same version and
    writes nothing. *)
Theorem rate_published now newId dto uid s k r s' :
  one_active s → createFromMarket now newId dto uid s = inr ((k, r), s') →
  one_active s' ∧ s'.(rateVersions) !! k = Some r ∧ r.(rate_active) = true ∧
  rate_of_pair dto r = true ∧ r.(rate_feeBps) = dto.(mr_feeBps) ∧
  (∀ j v, s.(rateVersions) !! j = Some v →
     s'.(rateVersions) !! j = Some v ∨
     (rate_of_pair dto v = true ∧ v.(rate_active) = true ∧ s'.(rateVersions) !! j = Some (rate_retire now v))) ∧
  (∀ newId', createFromMarket now newId' dto uid s' = inr ((k, r), s')).
Proof.
  intros Hone H. unfold createFromMarket in H. apply bind_ok in H as (u&s1&Hadm&H).
  apply bind_ok in H as (d&s2&Hm&H). destruct (stateless_run _ _ _ _ (market_checks_stateless now dto) Hm) as [-> Hm'].
  destruct (reads_ok _ _ _ _ _ _ (rate_admin_reads uid) (eq_refl : s.(users) = s.(users)) Hadm) as [-> _].
  apply publish_ok in H.
  assert (one_active s' ∧ s'.(rateVersions) !! k = Some r ∧ candidate dto (k, r) = true ∧ flat_rate (k, r) = true ∧
          s'.(users) = s.(users)) as (Hone'&Hk&Hc&Hflat&Hus).
  { destruct H as [(->&Hk&Hc&Hf)|Hr]; [done|]. pose proof (replaced_one_active _ _ _ _ _ _ Hone Hr).
    destruct Hr as [_ Hk Hfl (Hp&Hb&Ha) _ Hu]. split_and!; [done|done| |by apply flat_rate_same|done].
    unfold candidate. simpl. by rewrite Hp, Hb, Ha, Z.eqb_refl. }
  unfold candidate in Hc. simpl in Hc. rewrite !andb_true_iff, Z.eqb_eq in Hc. destruct Hc as [[Hp Hb] Ha].
  split_and!; try done.
  - intros j v Hj. destruct H as [(->&_)|Hr]; [by left|]. destruct (decide (j = k)) as [->|Hne].
    { by rewrite (rp_fresh _ _ _ _ _ _ Hr) in Hj. }
    rewrite (rp_others _ _ _ _ _ _ Hr j Hne), Hj. simpl.
    destruct (rate_of_pair dto v && rate_active v) eqn:E; [|by left].
    apply andb_true_iff in E as [E1 E2]. by right.
  - intros newId'. unfold createFromMarket.
    destruct (reads_ok _ _ _ _ _ _ (rate_admin_reads uid) Hus Hadm) as [_ Hadm'].
    rewrite (bind_run _ _ _ _ _ Hadm'), (bind_run _ _ _ _ _ (Hm' s')).
    apply publish_again; [done|done| |done]. unfold candidate. simpl. by rewrite Hp, Hb, Ha, Z.eqb_refl.
Qed.
End rates.

(** ** Payees *)
Section payees.
Context (sha256 : list Z → list Z).

Lemma created_once {A} (m : M Db A) refusal s a s' :
  try_catch m (λ e, match e with PrismaKnown "P2002" _ => throw refusal | _ => throw e end) s = inr (a, s') →
  m s = inr (a, s').
Proof.
  intros [H|(e&_&H)]%try_catch_ok; [done|]. exfalso.
  destruct e as [| | | | |c ?| | | |]; try done. by repeat (destruct c as [|[[] [] [] [] [] [] [] []] c]; try done).
Qed.

Lemma bank_row_ok dto name s b s' :
  bank_row dto name s = inr (b, s') →
  s' = s ∧ b.(ben_customerId) = dto.(cb_customerId) ∧ b.(ben_type) = BT_BANK ∧ b.(ben_active) = true ∧
  isSupportedFiatCurrency b.(ben_currency) = true.
Proof.
  intros H. unfold bank_row in H. apply bind_ok in H as (u&?&[Hc ->]%throw_if_ok&H). apply negb_false_iff in Hc.
  destruct (trim_or_null dto.(cb_bankName)), (trim_or_null dto.(cb_accountNumber)), (trim_or_null dto.(cb_countryCode));
    try done. by apply ret_ok in H as [-> ->].
Qed.
Lemma crypto_row_ok dto name s b s' :
  crypto_row sha256 dto name s = inr (b, s') →
  s' = s ∧ b.(ben_customerId) = dto.(cb_customerId) ∧ b.(ben_type) = BT_CRYPTO ∧ b.(ben_active) = true ∧
  ∃ w, b.(ben_walletAddress) = Some w ∧ isValidTronAddress sha256 w = true.
Proof.
  intros H. unfold crypto_row in H. apply bind_ok in H as (w&?&[_ ->]%require_ok&H).
  apply bind_ok in H as (u&?&[Hv ->]%throw_if_ok&[-> ->]%ret_ok). apply negb_false_iff in Hv.
  split_and!; [done..|]. by exists w.
Qed.

(** The destination of a payee is checked when it is created and never
    changes.  Creation needs an administrator of the customer's organisation and
    stores one active row of that customer: a bank account in a supported currency
    or a valid TRON address, which no other payee of the customer has; and an
    update, by whomever, switches the row on or off and changes nothing else. *)
Theorem payee_destination_fixed newId dto uid s k b s' :
  createBeneficiary sha256 newId dto uid s = inr ((k, b), s') →
  (∃ u c, s.(users) !! uid = Some u ∧ u.(user_active) = true ∧ u.(user_role) = ADMIN ∧
          s.(customers) !! b.(ben_customerId) = Some c ∧ u.(user_organizationId) = Some c.(cust_organizationId)) ∧
  b.(ben_customerId) = dto.(cb_customerId) ∧ b.(ben_active) = true ∧ beneficiary_check b = true ∧
  s.(beneficiaries) !! k = None ∧ s' = set_beneficiaries (<[k := b]> s.(beneficiaries)) s ∧
  match b.(ben_type) with
  | BT_BANK => isSupportedFiatCurrency b.(ben_currency) = true
  | BT_CRYPTO => ∃ w, b.(ben_walletAddress) = Some w ∧ isValidTronAddress sha256 w = true ∧
      ∀ j b', s.(beneficiaries) !! j = Some b' → b'.(ben_customerId) = b.(ben_customerId) →
        b'.(ben_network) = Some TRON → b'.(ben_walletAddress) ≠ Some w
  end ∧
  (∀ active uid' s1 b1 s2, updateBeneficiary k active uid' s1 = inr (b1, s2) →
     ∃ b0 on, s1.(beneficiaries) !! k = Some b0 ∧ active = Some on ∧ b1 = set_ben_active on b0 ∧
              s2 = set_beneficiaries (<[k := b1]> s1.(beneficiaries)) s1).
Proof.
  intros H. unfold createBeneficiary in H. apply bind_ok in H as ([u c]&?&(->&Hu&Hact&Hadm&Hc&Horg)%requireCustomerAccess_ok&H).
  apply bind_ok in H as (?&?&[_ ->]%throw_if_ok&H). apply bind_ok in H as (row&s1&Hrow&H).
  apply bind_ok in H as (?&s2&Hcr&[[= -> ->] ->]%ret_ok).
  apply created_once in Hcr.
  assert (s1 = s ∧ row.(ben_customerId) = dto.(cb_customerId) ∧ row.(ben_active) = true ∧
    match row.(ben_type) with
    | BT_BANK => isSupportedFiatCurrency row.(ben_currency) = true
    | BT_CRYPTO => ∃ w, row.(ben_walletAddress) = Some w ∧ isValidTronAddress sha256 w = true
    end) as (->&Hcus&Hactive&Hshape).
  { destruct (same _ BT_BANK); [apply bank_row_ok in Hrow as (?&?&Ht&?&?)|apply crypto_row_ok in Hrow as (?&?&Ht&?&?)];
      by rewrite Ht. }
  apply create_row_ok in Hcr as (Hfree&Hck&->&Hcol). split_and!; try done; [by rewrite Hcus; exists u, c| |].
  - destruct (ben_type row) eqn:Ht; [done|]. destruct Hshape as (w&Hw&Hv). exists w. split_and!; [done|done|].
    intros j b' Hj Hj1 Hj2 Hj3. pose proof (Forall_inv Hcol j b' Hj) as Hn. simpl in Hn.
    unfold beneficiary_check in Hck. rewrite Ht, !andb_true_iff, !same_true in Hck.
    assert (ben_network row = Some TRON) as Hnet by tauto.
    rewrite Hj1, Hj2, Hj3, Hnet, Hw, String.eqb_refl in Hn. simpl in Hn. by rewrite String.eqb_refl in Hn.
  - intros active uid' t b1 t' Hup. unfold updateBeneficiary in Hup.
    apply bind_ok in Hup as (?&?&(->&_)%requireActiveUser_ok&Hup).
    apply bind_ok in Hup as (o&?&[-> ->]%find_unique_ok&Hup). apply bind_ok in Hup as (b0&?&[Hb0 ->]%require_ok&Hup).
    apply bind_ok in Hup as (o&?&[-> ->]%find_unique_ok&Hup). apply bind_ok in Hup as (c0&?&[Hc0 ->]%require_ok&Hup).
    apply bind_ok in Hup as (?&?&[_ ->]%throw_if_ok&Hup). apply bind_ok in Hup as (on&?&[-> ->]%require_ok&Hup).
    apply update_row_ok in Hup as (b2&Hb2&->&_&->). rewrite Hb0 in Hb2. injection Hb2 as <-. by exists b0, on.
Qed.
End payees.

(** ** Funding channels *)
Section funding_channels.
Context {DO : DecimalOps} {DL : DecimalLaws DO}.

(** Passes a guard of a successful run. *)
Ltac pass_guard H :=
  let u := fresh in let s := fresh in let Hm := fresh in
  apply bind_ok in H as (u&s&Hm&H); apply throw_if_ok in Hm as [_ ->].

(** What an active virtual account channel has: bank details and a fee. *)
Definition complete_channel (c : FundingChannel) : Prop :=
  c.(chan_type) = CT_VIRTUAL_ACCOUNT → c.(chan_active) = true →
  opt_truthy c.(chan_settlementBankName) = true ∧ opt_truthy c.(chan_swiftBic) = true ∧
  opt_truthy c.(chan_bankCountry) = true ∧ opt_truthy c.(chan_bankAddress) = true ∧
  c.(chan_openingFeeUsdMinor) ≠ None.
Definition channels_complete (s : Db) : Prop := map_Forall (λ _ c, complete_channel c) s.(channels).

(** An edit of the channels by an administrator. *)
Inductive channel_edit (s s' : Db) : Prop :=
| edit_create now newId dto uid v : createChannel now newId dto uid s = inr (v, s') → channel_edit s s'
| edit_update now id dto uid v : updateChannel now id dto uid s = inr (v, s') → channel_edit s s'.

Lemma toUsdMinor_stateless text : stateless (toUsdMinor text).
Proof. unfold toUsdMinor. auto 10 with stateless. Qed.
Lemma fee_of_text {B} (o : option string) (d : B) (f : Z → B) s x s' :
  (match o with None => ret d | Some text => let! minor := toUsdMinor text in ret (f minor) end) s = inr (x, s') →
  s' = s ∧ match o with None => x = d | Some text => ∃ m, x = f m ∧ toUsdMinor text s = inr (m, s) end.
Proof.
  destruct o as [text|]; [|by intros [-> ->]%ret_ok].
  intros (m&s1&Hm&[-> ->]%ret_ok)%bind_ok.
  destruct (stateless_run _ _ _ _ (toUsdMinor_stateless text) Hm) as [-> Hm']. split; [done|]. exists m. auto.
Qed.

Lemma admin_ok uid s u s' :
  channel_admin uid s = inr (u, s') → s' = s ∧ s.(users) !! uid = Some u ∧ u.(user_active) = true ∧ u.(user_role) = ADMIN.
Proof.
  unfold channel_admin. intros (u0&s1&(->&Hu&Ha&Hr)%requireActiveUser_ok&H)%bind_ok.
  by apply bind_ok in H as (?&?&[_ ->]%throw_if_ok&[-> ->]%ret_ok).
Qed.

Lemma create_channel_ok now newId dto uid s v s' :
  createChannel now newId dto uid s = inr (v, s') →
  ∃ row, s' = set_channels (<[newId := row]> s.(channels)) s ∧ row.(chan_active) = false ∧ s.(channels) !! newId = None.
Proof.
  intros H. unfold createChannel in H. apply bind_ok in H as (u&?&(->&_)%admin_ok&H).
  unfold assertSupportedCurrencies in H. do 6 pass_guard H.
  apply bind_ok in H as (fee&?&[-> _]%fee_of_text&H). apply bind_ok in H as (?&s2&Hc&[_ ->]%ret_ok).
  apply created_once, create_row_ok in Hc as (Hf&_&->&_). eexists. split_and!; [done|done|done].
Qed.

(** The checks of an update, and the row it stores. *)
Lemma update_checks_ok dto c s fee s' :
  update_checks dto c s = inr (fee, s') →
  s' = s ∧ match dto.(uc_openingFeeUsd) with
           | None => fee = c.(chan_openingFeeUsdMinor)
           | Some text => ∃ m, fee = Some m ∧ toUsdMinor text s = inr (m, s)
           end ∧
  (c.(chan_type) = CT_VIRTUAL_ACCOUNT → default c.(chan_active) dto.(uc_active) = true →
     bank_details_missing dto c = false ∧ fee ≠ None).
Proof.
  intros H. unfold update_checks in H. do 3 pass_guard H.
  apply bind_ok in H as (?&s1&Hcur&H).
  assert (s1 = s) as -> by (destruct (uc_supportedCurrencies dto); [by apply throw_if_ok in Hcur as [_ ->]|by apply ret_ok in Hcur as [_ ->]]).
  apply bind_ok in H as (z&s1&Hz&H). apply (fee_of_text dto.(uc_openingFeeUsd)) in Hz as [-> Hfee].
  apply bind_ok in H as (?&?&[_ ->]%throw_if_ok&H). apply bind_ok in H as (?&s2&Hva&[-> ->]%ret_ok).
  destruct (same (chan_type c) CT_VIRTUAL_ACCOUNT && default (chan_active c) (uc_active dto)) eqn:E.
  - apply bind_ok in Hva as (?&?&[Hb ->]%throw_if_ok&[Hn ->]%throw_if_ok). split_and!; [done|done|]. intros _ _.
    split; [done|]. by destruct z.
  - apply ret_ok in Hva as [_ ->]. split_and!; [done|done|]. intros Ht Ha.
    rewrite Ht, Ha in E. done.
Qed.

Lemma optionalText_truthy v x : optionalText v = Some x → truthy x = true.
Proof. unfold optionalText, trim_or_null. destruct v; [|done]. destruct (truthy _) eqn:E; congruence. Qed.
Lemma toUpperCase_truthy x : truthy x = true → truthy (toUpperCase x) = true.
Proof. by destruct x. Qed.

(** Text columns after [update_data] are those the check looked at. *)
Lemma next_text_plain o cur :
  opt_truthy (next_text o cur) = true →
  opt_truthy (default cur ((λ v, optionalText (Some v)) <$> o)) = true.
Proof. by destruct o. Qed.
Lemma next_text_upper o cur :
  opt_truthy (next_text o cur) = true → opt_truthy (default cur (Some <$> optionalUpper o)) = true.
Proof.
  destruct o as [v|]; [|done]. unfold next_text, optionalUpper. destruct (optionalText (Some v)) as [x|] eqn:E; [|done].
  simpl. intros _. apply toUpperCase_truthy. by eapply optionalText_truthy.
Qed.

Lemma assign_get {A R} (set : A → R → R) (get : R → A) o r :
  (∀ a r, get (set a r) = a) → get (assign set o r) = default (get r) o.
Proof. intros H. destruct o; [apply H|done]. Qed.
Lemma assign_other {A R B} (set : A → R → R) (get : R → B) o r :
  (∀ a r, get (set a r) = get r) → get (assign set o r) = get r.
Proof. intros H. destruct o; [apply H|done]. Qed.
Ltac column get :=
  unfold update_data; repeat first [rewrite (assign_other _ get) by done | rewrite (assign_get _ get) by done]; done.

Lemma update_data_row dto c :
  (update_data dto c).(chan_type) = c.(chan_type) ∧
  (update_data dto c).(chan_active) = default c.(chan_active) dto.(uc_active) ∧
  (update_data dto c).(chan_settlementBankName) =
    default c.(chan_settlementBankName) ((λ v, optionalText (Some v)) <$> dto.(uc_settlementBankName)) ∧
  (update_data dto c).(chan_swiftBic) = default c.(chan_swiftBic) (Some <$> optionalUpper dto.(uc_swiftBic)) ∧
  (update_data dto c).(chan_bankCountry) = default c.(chan_bankCountry) (Some <$> optionalUpper dto.(uc_bankCountry)) ∧
  (update_data dto c).(chan_bankAddress) =
    default c.(chan_bankAddress) ((λ v, optionalText (Some v)) <$> dto.(uc_bankAddress)) ∧
  (update_data dto c).(chan_openingFeeUsdMinor) = c.(chan_openingFeeUsdMinor) ∧
  (update_data dto c).(chan_openingFeeVersion) = c.(chan_openingFeeVersion) ∧
  (update_data dto c).(chan_organizationId) = c.(chan_organizationId) ∧
  (update_data dto c).(chan_code) = c.(chan_code).
Proof.
  split_and!; [column chan_type|column chan_active|column chan_settlementBankName|column chan_swiftBic|
    column chan_bankCountry|column chan_bankAddress|column chan_openingFeeUsdMinor|column chan_openingFeeVersion|
    column chan_organizationId|column chan_code].
Qed.

(** The row an update leaves. *)
Lemma update_channel_ok now id dto uid s v s' :
  updateChannel now id dto uid s = inr (v, s') →
  ∃ u c fee, s.(users) !! uid = Some u ∧ u.(user_active) = true ∧ u.(user_role) = ADMIN ∧
    s.(channels) !! id = Some c ∧ u.(user_organizationId) = Some c.(chan_organizationId) ∧
    update_checks dto c s = inr (fee, s) ∧
    match dto.(uc_openingFeeUsd) with
    | Some _ => bigint_of_string (default "" dto.(uc_expectedOpeningFeeVersion)) = Some c.(chan_openingFeeVersion) ∧
        s' = set_channels (<[id := price_data now uid fee (update_data dto c)]> s.(channels)) s
    | None => s' = set_channels (<[id := update_data dto c]> s.(channels)) s
    end.
Proof.
  intros H. unfold updateChannel in H. apply bind_ok in H as (u&?&(->&Hu&Hact&Hadm)%admin_ok&H).
  apply bind_ok in H as (o&?&[-> ->]%find_unique_ok&H). apply bind_ok in H as (c&?&[Hc ->]%require_ok&H).
  apply bind_ok in H as (?&?&[Horg ->]%throw_if_ok&H). rewrite differs_false in Horg.
  apply bind_ok in H as (fee&s1&Hchk&H). destruct (update_checks_ok _ _ _ _ _ Hchk) as (->&_&_).
  exists u, c, fee. split_and!; try done. destruct (uc_openingFeeUsd dto).
  - apply bind_ok in H as (ver&?&[Hver ->]%require_ok&H). apply bind_ok in H as (n&s1&Hup&H).
    apply bind_ok in H as (?&?&[Hn ->]%throw_if_ok&H). rewrite differs_false in Hn. subst n.
    apply update_many_id_ok in Hup as [(_&c'&Hc'&Hp&_&->)|[[=] _]]. rewrite Hc in Hc'. injection Hc' as <-.
    apply Z.eqb_eq in Hp. apply bind_ok in H as (?&?&[_ ->]%find_unique_ok&H).
    apply bind_ok in H as (?&?&[_ ->]%require_ok&[_ ->]%ret_ok). split; [congruence|done].
  - apply bind_ok in H as (c1&s1&(c'&Hc'&_&_&->)%update_row_ok&[_ ->]%ret_ok). rewrite Hc in Hc'. by injection Hc' as <-.
Qed.

(** A virtual account channel is complete whenever it is active: whatever an
    administrator creates or edits, in any order, every active virtual account
    channel keeps a settlement bank, a SWIFT code, a country, an address and a
    configured opening fee; so a customer's request always finds what it shows. *)
Theorem active_channels_complete s s' : channels_complete s → channel_edit s s' → channels_complete s'.
Proof.
  intros Hall [now newId dto uid v H|now id dto uid v H].
  - apply create_channel_ok in H as (row&->&Hoff&_). apply map_Forall_insert_2; [|done]. intros _ Hon. congruence.
  - apply update_channel_ok in H as (u&c&fee&_&_&_&Hc&_&(_&Hfee&Hchk)%update_checks_ok&H).
    destruct (update_data_row dto c) as (Ht&Ha&E1&E2&E3&E4&Ef&_).
    assert (c.(chan_type) = CT_VIRTUAL_ACCOUNT → (update_data dto c).(chan_active) = true →
      opt_truthy (update_data dto c).(chan_settlementBankName) = true ∧ opt_truthy (update_data dto c).(chan_swiftBic) = true ∧
      opt_truthy (update_data dto c).(chan_bankCountry) = true ∧ opt_truthy (update_data dto c).(chan_bankAddress) = true ∧
      fee ≠ None) as Hdone.
    { intros Hty Hon. rewrite Ha in Hon. destruct (Hchk Hty Hon) as [Hb Hf]. unfold bank_details_missing in Hb.
      rewrite !orb_false_iff, !negb_false_iff in Hb. destruct Hb as (((B1&B2)&B3)&B4).
      rewrite E1, E2, E3, E4. split_and!; auto using next_text_plain, next_text_upper. }
    destruct (uc_openingFeeUsd dto) as [text|].
    + destruct H as [_ ->]. apply map_Forall_insert_2; [|done]. intros Hty Hon. simpl in *. rewrite Ht in Hty.
      by apply Hdone.
    + subst fee s'. apply map_Forall_insert_2; [|done]. intros Hty Hon. rewrite Ht in Hty. rewrite Ef. by apply Hdone.
Qed.

(** The fee of a text, in cents. *)
Lemma toUsdMinor_ok text d s m :
  d_parse text = Some d → exact8 d → toUsdMinor text s = inr (m, s) → 0 ≤ m ∧ d_units 2 d = Some m.
Proof.
  intros Hp (x&Hx&Hb) H. unfold toUsdMinor in H. apply bind_ok in H as (d'&?&[Hd ->]%require_ok&H).
  rewrite Hp in Hd. injection Hd as <-. apply bind_ok in H as (?&?&[Hg ->]%throw_if_ok&H).
  rewrite !orb_false_iff, negb_false_iff in Hg. destruct Hg as [[Hfin Hneg] Hpl]. apply require_ok in H as [Hm _].
  apply (places_exceed_units 2) in Hpl; [|lia|done].
  assert (∃ y, d_units 2 d = Some y) as [y Hy].
  { destruct Hpl as [[y Hy]|Hnan]; [by exists y|].
    destruct (proj1 (decimalPlaces_units 8 d ltac:(lia) Hfin)) as (p&Hp'&_); [by eexists|congruence]. }
  pose proof (units_le 2 8 d y ltac:(lia) Hy) as Hy8. rewrite Hx in Hy8. injection Hy8 as Hxy.
  change (10 ^ Z.of_nat (8 - 2)) with 1000000 in Hxy.
  assert (0 ≤ y) as Hy0.
  { destruct (decide (y = 0)); [lia|]. rewrite (isNegative_units _ _ _ Hy) in Hneg by done. by apply Z.ltb_ge in Hneg. }
  assert (d_units 0 (d_mul d (d_ofZ 100)) = Some y) as Hmul.
  { apply (units_mul_pow10 2); [done|apply (units_ofZ 100)|lia]. }
  rewrite (toFixed0_units _ _ Hmul), bigint_pretty in Hm by done. by injection Hm as <-.
Qed.

(** The opening fee of a channel cannot be overwritten unseen.  An edit that
    prices the channel succeeds only for an administrator of its organisation and
    with the version the row has; it stores the cents of the text with its author
    and time, raises the version by one and keeps the key of the channel; a second
    edit that carries the same version is refused and an edit that does not price
    the channel leaves the fee and its version alone. *)
Theorem opening_fee_versioned now id dto uid s v s' :
  updateChannel now id dto uid s = inr (v, s') →
  ∃ c c', s.(channels) !! id = Some c ∧ s'.(channels) = <[id := c']> s.(channels) ∧
    (∃ u, s.(users) !! uid = Some u ∧ u.(user_active) = true ∧ u.(user_role) = ADMIN ∧
          u.(user_organizationId) = Some c.(chan_organizationId)) ∧
    c'.(chan_organizationId) = c.(chan_organizationId) ∧ c'.(chan_code) = c.(chan_code) ∧
    c'.(chan_type) = c.(chan_type) ∧
    match dto.(uc_openingFeeUsd) with
    | Some text =>
        bigint_of_string (default "" dto.(uc_expectedOpeningFeeVersion)) = Some c.(chan_openingFeeVersion) ∧
        c'.(chan_openingFeeVersion) = c.(chan_openingFeeVersion) + 1 ∧
        c'.(chan_openingFeeUpdatedBy) = Some uid ∧ c'.(chan_openingFeeUpdatedAt) = Some now ∧
        (∀ d, d_parse text = Some d → exact8 d →
           ∃ m, c'.(chan_openingFeeUsdMinor) = Some m ∧ 0 ≤ m ∧ d_units 2 d = Some m) ∧
        (∀ now2 dto2 uid2, dto2.(uc_openingFeeUsd) ≠ None →
           dto2.(uc_expectedOpeningFeeVersion) = dto.(uc_expectedOpeningFeeVersion) →
           ∃ e, updateChannel now2 id dto2 uid2 s' = inl e)
    | None => c'.(chan_openingFeeUsdMinor) = c.(chan_openingFeeUsdMinor) ∧
              c'.(chan_openingFeeVersion) = c.(chan_openingFeeVersion)
    end.
Proof.
  intros (u&c&fee&Hu&Hact&Hadm&Hc&Horg&(_&Hfee&_)%update_checks_ok&H)%update_channel_ok.
  destruct (update_data_row dto c) as (Ht&_&_&_&_&_&Ef&Ev&Eo&Ec). destruct (uc_openingFeeUsd dto) as [text|] eqn:Htext.
  - destruct H as [Hver ->]. destruct Hfee as (m&->&Hm). exists c, (price_data now uid (Some m) (update_data dto c)).
    split_and!; try done; [by exists u|simpl; by rewrite Ev| |].
    + intros d Hd Hx. exists m. split; [done|]. by eapply toUsdMinor_ok.
    + intros now2 dto2 uid2 Hpr Hsame. destruct (updateChannel now2 id dto2 uid2 _) as [e|[v2 s2]] eqn:H2; [by exists e|].
      apply update_channel_ok in H2 as (u2&c2&fee2&_&_&_&Hc2&_&_&H2). simpl in Hc2. rewrite lookup_insert_eq in Hc2.
      injection Hc2 as <-. destruct (uc_openingFeeUsd dto2); [|done]. destruct H2 as [Hver2 _].
      rewrite Hsame, Hver in Hver2. simpl in Hver2. rewrite Ev in Hver2. injection Hver2 as Hver2. lia.
  - subst s'. exists c, (update_data dto c). split_and!; try done. by exists u.
Qed.

(** A blank SWIFT code or country does not clear the column: the update leaves it
    as it was. *)
Lemma blank_swift_kept dto c :
  match dto.(uc_swiftBic) with Some v => trim v = "" | None => True end →
  (update_data dto c).(chan_swiftBic) = c.(chan_swiftBic).
Proof.
  intros H. destruct (update_data_row dto c) as (_&_&_&->&_). unfold optionalUpper, optionalText, trim_or_null.
  destruct (uc_swiftBic dto) as [v|]; [|done]. by rewrite H.
Qed.
End funding_channels.

(** ** Witnesses *)
Definition market_dto : CreateMarketRateDto :=
  {| mr_type := RT_OTC; mr_baseCurrency := USDT; mr_quoteCurrency := USD; mr_feeBps := 80;
     mr_provider := "fastforex"; mr_priceType := "midpoint_spot"; mr_referenceOnly := true;
     mr_referenceRate := "1.01"; mr_sourceUpdatedAt := to_iso now0; mr_sourceFetchedAt := to_iso now0 |}.
Definition rate_run : M Db (string * RateVersion) := createFromMarket now0 "rate2" market_dto "adm".
Lemma rate_published_witness :
  ∃ kr s', createFromMarket now0 "rate2" market_dto "adm" db0 = inr (kr, s') ∧ one_active s' ∧
           createFromMarket now0 "rate3" market_dto "adm" s' = inr (kr, s') ∧
           rate_active <$> s'.(rateVersions) !! "rate" = Some false.
Proof.
  assert (one_active db0) as Hone.
  { assert (∀ k r, db0.(rateVersions) !! k = Some r → (k = "rate" ∧ r.(rate_type) = RT_OTC) ∨ (k = "fx" ∧ r.(rate_type) = RT_FX)) as Hrows.
    { intros k r H. unfold db0 in H. simpl in H. rewrite !lookup_insert_Some, lookup_empty in H. naive_solver. }
    intros k k' r r' Hk Hk' _ _ (Ht&_). destruct (Hrows _ _ Hk) as [[-> E]|[-> E]], (Hrows _ _ Hk') as [[-> E']|[-> E']]; congruence. }
  execute_run rate_run db0 as [[k r] H]. unfold rate_run in H at 1.
  destruct (rate_published _ _ _ _ _ _ _ _ Hone H) as (Hone'&_&_&_&_&_&Hagain).
  exists (k, r), (after rate_run db0). split; [exact H|]. split; [exact Hone'|]. split; [apply Hagain|runs].
Defined.

Definition payee_dto : CreateBeneficiaryDto :=
  {| cb_customerId := "cus"; cb_type := None; cb_name := " Payee "; cb_currency := HKD; cb_bankName := Some "Bank";
     cb_accountNumber := Some "0042"; cb_swiftBic := Some "bicxhkhh"; cb_iban := None; cb_bankAddress := Some " ";
     cb_countryCode := Some "hk"; cb_walletAddress := None; cb_network := None |}.
Definition payee_run : M Db (string * Beneficiary) := createBeneficiary (λ _, []) "ben2" payee_dto "adm".
Lemma payee_destination_fixed_witness :
  ∃ b, createBeneficiary (λ _, []) "ben2" payee_dto "adm" db0 = inr (("ben2", b), after payee_run db0) ∧
       beneficiary_check b = true ∧ b.(ben_swiftBic) = Some "BICXHKHH" ∧ b.(ben_bankAddress) = None ∧ b.(ben_active) = true.
Proof.
  assert (returns payee_run (λ kb, (kb.1, kb.2.(ben_swiftBic), kb.2.(ben_bankAddress))) db0 = Some ("ben2", Some "BICXHKHH", None))
    as ([k b]&E&H)%run_returns by runs. unfold payee_run in H at 1. simpl in E. injection E as -> Hswift Haddr.
  destruct (payee_destination_fixed _ _ _ _ _ _ _ _ H) as (_&_&Hon&Hck&_).
  exists b. split; [exact H|]. split; [exact Hck|]. split; [exact Hswift|]. split; [exact Haddr|exact Hon].
Defined.

Definition channel_dto : CreateChannelDto :=
  {| cc_organizationId := "org"; cc_code := "va-1"; cc_name := "VA"; cc_type := CT_VIRTUAL_ACCOUNT;
     cc_supportedCurrencies := [USD]; cc_settlementBankName := Some "Bank"; cc_settlementAccount := None;
     cc_swiftBic := Some "bicxsgsg"; cc_bankCountry := Some "sg"; cc_bankAddress := Some "1 Road";
     cc_branchName := None; cc_openingFeeUsd := None |}.
Definition channel_run : M Db ChannelView := createChannel now0 "va" channel_dto "adm".
Definition activate_dto : UpdateChannelDto :=
  {| uc_name := None; uc_active := Some true; uc_supportedCurrencies := None; uc_settlementBankName := None;
     uc_settlementAccount := None; uc_swiftBic := None; uc_bankCountry := None; uc_bankAddress := None;
     uc_branchName := None; uc_openingFeeUsd := Some "5.5"; uc_expectedOpeningFeeVersion := Some "0" |}.
Definition db_channel : Db := after channel_run db0.
Definition activate_run : M Db ChannelView := updateChannel now0 "va" activate_dto "adm".

Definition not_on_sale (c : FundingChannel) : bool :=
  negb (same c.(chan_type) CT_VIRTUAL_ACCOUNT && c.(chan_active)).
Lemma db_channel_complete : channels_complete db_channel.
Proof.
  intros k c Hk Ht Ha. pose proof (all_rows not_on_sale db_channel.(channels) ltac:(runs) k c Hk) as H.
  unfold not_on_sale in H. rewrite Ht, Ha in H. done.
Qed.
Lemma active_channels_complete_witness :
  channels_complete (after activate_run db_channel) ∧
  chan_active <$> (after activate_run db_channel).(channels) !! "va" = Some true.
Proof.
  execute_run activate_run db_channel as [v H]. unfold activate_run in H at 1. split; [|runs].
  apply (active_channels_complete db_channel _ db_channel_complete). exact (edit_update _ _ _ _ _ _ _ H).
Defined.
Lemma opening_fee_versioned_witness :
  ∃ c', (after activate_run db_channel).(channels) !! "va" = Some c' ∧ c'.(chan_openingFeeUsdMinor) = Some 550 ∧
        ∃ e, updateChannel now0 "va" activate_dto "adm" (after activate_run db_channel) = inl e.
Proof.
  execute_run activate_run db_channel as [v H]. unfold activate_run in H at 1.
  destruct (opening_fee_versioned _ _ _ _ _ _ _ H) as (c&c'&_&_&_&_&_&_&_&_&_&_&_&Hrefuse).
  destruct ((after activate_run db_channel).(channels) !! "va") as [x|] eqn:E; [|by vm_compute in E].
  exists x. split; [done|]. split; [|by apply Hrefuse].
  assert ((after activate_run db_channel).(channels) !! "va" ≫= chan_openingFeeUsdMinor = Some 550) as Hm by runs.
  rewrite E in Hm. exact Hm.
Defined.
