(* ===== verification/Customers.v ===== *)
(** Customer review in [CustomersService]
    ([server/src/customers/customers.service.ts]: [reviewKyc], [approve],
    [reject], [requireChecker], [enqueueCustomerEmail]), the outbox
    ([server/src/email/email-outbox.service.ts]) and the import of customers
    from the custody side ([server/src/customers/neobank-customer-sync.ts]). *)
From S2P Require Import Prelude Decimals Schema Access WithdrawalFees TronAddress.

(** ** The e-mail outbox *)

(** [EnqueueEmailInput] *)
Record EnqueueEmailInput := {
  em_organizationId : string;
  em_customerId : string;
  em_dedupeKey : string;
  em_templateKey : string;
  em_recipient : string;
  em_payload : list (string * string);
}.

(** [EmailOutboxService.enqueue]: the outbox is keyed by [dedupeKey], and an
    existing entry is left as it is. *)
Definition enqueue (env : ProcessEnv) (now : Z) (input : EnqueueEmailInput) : M Db unit :=
  if negb (opt_eqb env.(EMAIL_NOTIFICATIONS_ENABLED) (Some "true")) then ret tt else
  let! existing := find_unique outbox input.(em_dedupeKey) in
  match existing with
  | Some _ => ret tt
  | None => modify (λ s, set_outbox
      (<[input.(em_dedupeKey) := MkEmailOutbox input.(em_organizationId) input.(em_customerId)
          input.(em_dedupeKey) input.(em_templateKey) (toLowerCase (trim input.(em_recipient)))
          input.(em_payload) ED_PENDING 0 5 now None None None None None now]> s.(outbox)) s)
  end.

Definition enqueueCustomerEmail (env : ProcessEnv) (now : Z) (customerId : string) (c : Customer)
    (templateKey dedupeKey : string) (payload : list (string * string)) : M Db unit :=
  enqueue env now
    {| em_organizationId := c.(cust_organizationId); em_customerId := customerId; em_dedupeKey := dedupeKey;
       em_templateKey := templateKey; em_recipient := c.(cust_email);
       em_payload := ("displayName", c.(cust_displayName)) :: payload |}.

Definition requireChecker (userId : string) : M Db User :=
  let! user := find_unique users userId in
  let! u := require user (Forbidden "admin_role_required") in
  do! throw_if (negb u.(user_active) || differs u.(user_role) ADMIN) (Forbidden "admin_role_required");
  ret u.

(** ** Accounts of a customer *)

(** [tx.account.upsert({ where: { accountNumber }, update: {}, create })] *)
Definition account_upsert (newId accountNumber : string) (row : Account) : M Db (string * Account) :=
  let! existing := gets (λ s, find_first (λ ka : string * Account,
      opt_eqb ka.2.(acc_accountNumber) (Some accountNumber)) s.(accounts)) in
  match existing with
  | Some ka => ret ka
  | None => do! account_create newId row; ret (newId, row)
  end.

Definition wallet_number (customerId : string) (c : Currency) : string :=
  "WALLET-" +:+ customerId +:+ "-" +:+ currency_text c.
Definition crypto_number (customerId : string) : string := "CRYPTO-" +:+ customerId +:+ "-USDT".

(** The row of a fiat wallet; its name is the currency and a label. *)
Definition fiat_wallet_row (customerId : string) (c : Currency) : Account :=
  MkAccount (Some customerId) SYSTEM_WALLET AS_ACTIVE c (currency_text c +:+ " 法币钱包")
    (Some (wallet_number customerId c)) None None 0 0 0 None no_bank.
(** The row of the USDT account, with its opening balances. *)
Definition crypto_account_row (customerId name : string) (address : option string) (available frozen : Z) : Account :=
  MkAccount (Some customerId) CRYPTO_WALLET AS_ACTIVE USDT name (Some (crypto_number customerId)) address
    (Some "TRON") available frozen 0 None no_bank.

Definition ensure_fiat_wallets (newId : string → string) (customerId : string) : M Db unit :=
  let! _ := for_each supportedFiatCurrencies (λ c,
    account_upsert (newId (wallet_number customerId c)) (wallet_number customerId c)
      (fiat_wallet_row customerId c)) in
  ret tt.

(** ** Review *)
Inductive KycDecision := KYC_APPROVE | KYC_REJECT.
#[global] Instance kyc_decision_eq_dec : EqDecision KycDecision.
Proof. solve_decision. Defined.

(** [note?.trim() || null] *)
Definition trimmed (note : option string) : option string :=
  match note with Some n => if truthy (trim n) then Some (trim n) else None | None => None end.

(** The customer under review and the reviewer: existence, the reviewer's role
    and tenant, then the state [checks], then self-approval. *)
Definition load_review (id reviewerId : string) (checks : Customer → M Db unit) : M Db (Customer * User) :=
  let! row := find_unique customers id in
  let! customer := require row (NotFound "customer_not_found") in
  let! reviewer := requireChecker reviewerId in
  do! throw_if (differs reviewer.(user_organizationId) (Some customer.(cust_organizationId)))
        (NotFound "customer_not_found");
  do! checks customer;
  do! throw_if (String.eqb customer.(cust_creatorId) reviewerId && differs reviewer.(user_role) ADMIN)
        (Forbidden "admin_required_for_self_approval");
  ret (customer, reviewer).

Definition pending_kyc (c : Customer) : bool :=
  same c.(cust_status) CS_PENDING_REVIEW && same c.(cust_kycStatus) KYC_PENDING.
Definition pending_operations (c : Customer) : bool :=
  same c.(cust_status) CS_PENDING_REVIEW && same c.(cust_kycStatus) KYC_APPROVED.

Definition kyc_data (now : Z) (reviewerId : string) (decision : KycDecision) (note : option string)
    (c : Customer) : Customer :=
  let c := set_cust_kycReviewNote (trimmed note) (set_cust_kycReviewedAt (Some now)
             (set_cust_kycReviewerId (Some reviewerId)
               (set_cust_kycStatus (if same decision KYC_APPROVE then KYC_APPROVED else KYC_REJECTED) c))) in
  if same decision KYC_REJECT
  then set_cust_reviewNote (trim <$> note) (set_cust_reviewedAt (Some now)
         (set_cust_reviewerId (Some reviewerId) (set_cust_status CS_REJECTED c)))
  else c.

Definition reviewKyc (env : ProcessEnv) (now : Z) (id reviewerId : string) (decision : KycDecision)
    (note : option string) : M Db Customer :=
  let! '(customer, _) := load_review id reviewerId
    (λ c, throw_if (negb (pending_kyc c)) (Conflict "customer_not_pending_kyc")) in
  do! throw_if (same decision KYC_REJECT && is_none (trimmed note)) (Conflict "kyc_rejection_reason_required");
  let! count := customer_updateMany id
    (λ c, String.eqb c.(cust_organizationId) customer.(cust_organizationId) && pending_kyc c)
    (kyc_data now reviewerId decision note) in
  do! throw_if (differs count 1) (Conflict "customer_not_pending_kyc");
  let! updated := find_unique customers id in
  let! updated := require updated (PrismaKnown "P2025" []) in
  do! enqueueCustomerEmail env now id customer
        (if same decision KYC_APPROVE then "CUSTOMER_KYC_APPROVED" else "CUSTOMER_KYC_REJECTED")
        ("customer:" +:+ id +:+ ":kyc:" +:+ (if same decision KYC_APPROVE then "approve" else "reject")) [];
  ret updated.

(** An optional column given as [undefined] is left as it is. *)
Definition if_given {A R} (set : option A → R → R) (v : option A) (r : R) : R :=
  match v with Some _ => set v r | None => r end.

(** [approve] *)
Definition approve_customer (env : ProcessEnv) (now : Z) (newId : string → string) (id reviewerId : string)
    (note : option string) : M Db Customer :=
  let! '(customer, _) := load_review id reviewerId (λ c,
    do! throw_if (differs c.(cust_status) CS_PENDING_REVIEW) (Conflict "customer_not_pending_review");
    throw_if (differs c.(cust_kycStatus) KYC_APPROVED) (Conflict "kyc_approval_required")) in
  do! ensure_fiat_wallets newId id;
  let! _ := account_upsert (newId (crypto_number id)) (crypto_number id)
              (crypto_account_row id "USDT 钱包（等待 Cregis）" None 0 0) in
  let! activated := customer_update id (λ c, if_given set_cust_reviewNote note
    (set_cust_reviewedAt (Some now) (set_cust_reviewerId (Some reviewerId) (set_cust_status CS_ACTIVE c)))) in
  do! enqueueCustomerEmail env now id customer "CUSTOMER_ACTIVATED" ("customer:" +:+ id +:+ ":activated") [];
  ret activated.

(** [reject] *)
Definition reject_customer (now : Z) (id reviewerId reason : string) : M Db Customer :=
  let! '(customer, _) := load_review id reviewerId
    (λ c, throw_if (negb (pending_operations c)) (Conflict "customer_not_pending_operations_review")) in
  let! count := customer_updateMany id
    (λ c, String.eqb c.(cust_organizationId) customer.(cust_organizationId) && pending_operations c)
    (λ c, set_cust_reviewNote (Some reason) (set_cust_reviewedAt (Some now)
            (set_cust_reviewerId (Some reviewerId) (set_cust_status CS_REJECTED c)))) in
  do! throw_if (differs count 1) (Conflict "customer_not_pending_operations_review");
  let! updated := find_unique customers id in
  require updated (PrismaKnown "P2025" []).

(** ** Synchronisation with the custody side *)

(** A row of the query over [customers] and [customer_applications]: the
    columns that reach the modelled tables. *)
Record NeobankCustomer := {
  nc_customer_id : string;
  nc_email : string;
  nc_display_name : string;
  nc_status : string;
  nc_kyc_status : string;
  nc_operations_status : string;
  nc_kyc_reviewed_at : option string;
  nc_kyc_review_note : option string;
  nc_activated_at : option string;
}.
Record VerifiedCregisWallet := { vw_wallet_id : string; vw_customer_id : string; vw_address : string }.

Definition coreStatus (row : NeobankCustomer) : CustomerStatus :=
  if String.eqb row.(nc_status) "closed" || String.eqb row.(nc_status) "suspended" ||
     String.eqb row.(nc_operations_status) "suspended" then CS_SUSPENDED
  else if String.eqb row.(nc_kyc_status) "rejected" then CS_REJECTED
  else if String.eqb row.(nc_status) "active" && String.eqb row.(nc_operations_status) "active" then CS_ACTIVE
  else CS_PENDING_REVIEW.
Definition coreKycStatus (value : string) : KycStatus :=
  if String.eqb value "approved" then KYC_APPROVED
  else if String.eqb value "rejected" then KYC_REJECTED else KYC_PENDING.

Section sync.
Context {JD : JsDates} (sha256 : list Z → list Z).

(** [date(value)] *)
Definition sync_date (value : option string) : option Z :=
  match value with Some text => if truthy text then date_parse text else None | None => None end.

Definition is_usdt_account_of (customerId : string) (ka : string * Account) : bool :=
  opt_eqb ka.2.(acc_customerId) (Some customerId) && same ka.2.(acc_kind) CRYPTO_WALLET &&
  same ka.2.(acc_currency) USDT && opt_eqb ka.2.(acc_network) (Some "TRON").
Definition is_usdt_wallet_of (customerId : string) (kw : string * CryptoWallet) : bool :=
  String.eqb kw.2.(wal_customerId) customerId && same kw.2.(wal_asset) USDT && same kw.2.(wal_network) TRON.

Definition wallet_binding_conflict (customerId address : string) (w : CryptoWallet) : bool :=
  negb (String.eqb w.(wal_customerId) customerId) || differs w.(wal_asset) USDT ||
  differs w.(wal_network) TRON || differs w.(wal_status) AS_ACTIVE ||
  (truthy w.(wal_walletAddress) && negb (String.eqb w.(wal_walletAddress) address)).
Definition account_binding_conflict (customerId address : string) (a : Account) : bool :=
  differs a.(acc_customerId) (Some customerId) || differs a.(acc_kind) CRYPTO_WALLET ||
  differs a.(acc_status) AS_ACTIVE || differs a.(acc_currency) USDT ||
  differs a.(acc_network) (Some "TRON") ||
  (opt_truthy a.(acc_walletAddress) && differs a.(acc_walletAddress) (Some address)).

(** [ensureCustomerCryptoWalletMirror]: the USDT account and the wallet of a
    customer, created from each other when one is missing, with equal balances. *)
Definition ensureCustomerCryptoWalletMirror (accountId walletId customerId address : string) :
    M Db (string * string) :=
  do! throw_if (negb (isValidTronAddress sha256 address))
        (PlainError ("core_crypto_wallet_source_address_invalid:" +:+ customerId));
  let! matching := gets (λ s, find_many (is_usdt_account_of customerId) s.(accounts)) in
  let! existing := gets (λ s, find_first (is_usdt_wallet_of customerId) s.(wallets)) in
  do! throw_if (Nat.ltb 1 (length matching)) (PlainError ("core_crypto_account_conflict:" +:+ customerId));
  do! throw_if (match existing with Some kw => wallet_binding_conflict customerId address kw.2 | None => false end)
        (PlainError ("core_crypto_wallet_binding_conflict:" +:+ customerId));
  let! account :=
    match matching with
    | ka :: _ => ret ka
    | [] => account_upsert accountId (crypto_number customerId)
              (crypto_account_row customerId "USDT 钱包（Cregis TRON）" (Some address)
                (from_option (λ kw, kw.2.(wal_availableBalance)) 0 existing)
                (from_option (λ kw, kw.2.(wal_frozenBalance)) 0 existing))
    end in
  do! throw_if (account_binding_conflict customerId address account.2)
        (PlainError ("core_crypto_account_binding_conflict:" +:+ customerId));
  do! (if opt_truthy account.2.(acc_walletAddress) then ret tt
       else let! _ := account_update account.1 (set_acc_walletAddress (Some address)) in ret tt);
  let! wallet :=
    match existing with
    | Some kw => ret kw
    | None =>
        let row := MkCryptoWallet customerId USDT TRON address AS_ACTIVE
          account.2.(acc_availableBalance) account.2.(acc_frozenBalance) 0 in
        do! wallet_create walletId row; ret (walletId, row)
    end in
  do! throw_if (wallet_binding_conflict customerId address wallet.2)
        (PlainError ("core_crypto_wallet_binding_conflict:" +:+ customerId));
  do! (if truthy wallet.2.(wal_walletAddress) then ret tt
       else let! _ := wallet_update wallet.1 (set_wal_walletAddress address) in ret tt);
  do! throw_if (differs account.2.(acc_availableBalance) wallet.2.(wal_availableBalance) ||
                differs account.2.(acc_frozenBalance) wallet.2.(wal_frozenBalance))
        (PlainError ("core_crypto_wallet_balance_conflict:" +:+ customerId));
  ret (account.1, wallet.1).

(** The [data] of the customer upsert; an undefined date is left as it is. *)
Definition customer_data (adminUserId organizationId : string) (row : NeobankCustomer) (c : Customer) : Customer :=
  {| cust_organizationId := organizationId;
     cust_status := coreStatus row;
     cust_kycStatus := coreKycStatus row.(nc_kyc_status);
     cust_creatorId := adminUserId;
     cust_displayName := row.(nc_display_name);
     cust_email := row.(nc_email);
     cust_isInternal := c.(cust_isInternal);
     cust_vaFeeExempt := c.(cust_vaFeeExempt);
     cust_vaFeePolicyVersion := c.(cust_vaFeePolicyVersion);
     cust_reviewerId := if String.eqb row.(nc_status) "active" then Some adminUserId else None;
     cust_reviewedAt := match sync_date row.(nc_activated_at) with Some d => Some d | None => c.(cust_reviewedAt) end;
     cust_reviewNote := c.(cust_reviewNote);
     cust_kycReviewerId := if String.eqb row.(nc_kyc_status) "pending" then None else Some adminUserId;
     cust_kycReviewedAt := match sync_date row.(nc_kyc_reviewed_at) with
                           | Some d => Some d | None => c.(cust_kycReviewedAt) end;
     cust_kycReviewNote := row.(nc_kyc_review_note) |}.
Definition blank_customer : Customer :=
  MkCustomer "" CS_DRAFT KYC_PENDING "" "" "" false false 0 None None None None None None.

Definition customer_upsert (adminUserId organizationId : string) (row : NeobankCustomer) : M Db unit :=
  modify (λ s, set_customers
    (<[row.(nc_customer_id) := customer_data adminUserId organizationId row
         (default blank_customer (s.(customers) !! row.(nc_customer_id)))]> s.(customers)) s).

Definition active_approved (row : NeobankCustomer) : bool :=
  same (coreStatus row) CS_ACTIVE && same (coreKycStatus row.(nc_kyc_status)) KYC_APPROVED.

(** The statements of one customer, each committed on its own. *)
Definition sync_steps (newId : string → string) (adminUserId organizationId : string)
    (verified : list VerifiedCregisWallet) (row : NeobankCustomer) : list (M Db unit) :=
  let id := row.(nc_customer_id) in
  let owned := List.filter (λ w, String.eqb w.(vw_customer_id) id) verified in
  customer_upsert adminUserId organizationId row ::
  if negb (active_approved row) then [] else
  map (λ c, let! _ := account_upsert (newId (wallet_number id c)) (wallet_number id c) (fiat_wallet_row id c) in ret tt)
    supportedFiatCurrencies ++
  match owned with
  | [] => []
  | [w] => [let! _ := ensureCustomerCryptoWalletMirror (newId (crypto_number id)) (newId ("wallet:" +:+ id)) id
                        w.(vw_address) in ret tt]
  | _ => [throw (PlainError ("core_crypto_wallet_source_conflict:" +:+ id))]
  end.

(** Statements committed one by one: the first that throws ends the run, and
    what was committed before it stays. *)
Fixpoint run_steps (steps : list (M Db unit)) (s : Db) : Db * option exn :=
  match steps with
  | [] => (s, None)
  | m :: rest => match m s with inr (_, s') => run_steps rest s' | inl e => (s, Some e) end
  end.

(** [syncNeobankCustomers], on the rows its two queries read. *)
Definition syncNeobankCustomers (newId : string → string) (adminUserId organizationId : string)
    (rows : list NeobankCustomer) (verified : list VerifiedCregisWallet) (s : Db) : Db * option exn :=
  let verified := if existsb active_approved rows then verified else [] in
  run_steps (concat (map (sync_steps newId adminUserId organizationId verified) rows)) s.
End sync.
