(* ===== verification/VirtualAccounts.v ===== *)
(** Virtual-account requests in [CustomersService]
    ([server/src/customers/customers.service.ts]): the opening-fee policy, the
    quote, the request with its fee reservation, approval (which settles the
    fee), rejection, cancellation and waiver (which release it). *)
From S2P Require Import Prelude Decimals Schema Access Ledger WithdrawalFees Operations Customers.

Record VaRequestActor := { va_actor_userId : string; va_actor_customerId : option string; va_actor_email : option string }.

Record VaRequestInput := {
  vin_currency : Currency;
  vin_channelId : string;
  vin_purpose : string;
  vin_expectedOpeningFeeUsd : option string;
  vin_expectedOpeningFeeVersion : option string;
  vin_expectedFeePolicyVersion : option Z;
  vin_idempotencyKey : option string;
}.

(** [vaFeePolicy] *)
Record VaFeePolicy := { pol_exempt : bool; pol_basis : string; pol_version : Z }.
Definition vaFeePolicy (c : Customer) : VaFeePolicy :=
  {| pol_exempt := c.(cust_isInternal) || c.(cust_vaFeeExempt);
     pol_basis := if c.(cust_isInternal) then "INTERNAL" else if c.(cust_vaFeeExempt) then "SPECIAL" else "STANDARD";
     pol_version := c.(cust_vaFeePolicyVersion) |}.

(** A request with the rows its [include] loads. *)
Record LoadedRequest := {
  lr_id : string;
  lr_request : VaRequest;
  lr_customer : Customer;
  lr_channel : option (string * FundingChannel);
  lr_feeOperation : option (string * Operation);
  lr_source : option (string * Account);
  lr_target : option (string * Account);
}.

(** [x.trim()] of length 2 to 500. *)
Definition reason_length_bad (reason : string) : bool :=
  Nat.ltb (String.length reason) 2 || Nat.ltb 500 (String.length reason).

Section service.
Context {DO : DecimalOps} {JD : JsDates}.
(** The custody rows the synchronisation would read, and the ids it would draw. *)
Context (sha256 : list Z → list Z) (newId : string → string)
  (source_rows : list NeobankCustomer) (verified_wallets : list VerifiedCregisWallet).

(** [syncNeobankCustomers]: when it throws the request fails with it. *)
Definition run_sync (adminUserId organizationId : string) : M Db unit := λ s,
  match syncNeobankCustomers sha256 newId adminUserId organizationId source_rows verified_wallets s with
  | (s', None) => inr (tt, s')
  | (_, Some e) => inl e
  end.

(** [new Prisma.Decimal(minor.toString()).div(100)] *)
Definition from_minor (minor : Z) : D := d_div (d_ofZ minor) (d_ofZ 100).
(** [fromUsdMinor] *)
Definition fromUsdMinor (minor : Z) : string := d_toFixed (from_minor minor) 2.

(** [serializeVaChannel] and [serializeVirtualAccountRequest]: the columns that
    are rewritten, beside the row. *)
Record VaChannelView := {
  vc_row : FundingChannel; vc_openingFeeUsd : option string; vc_openingFeeVersion : string;
}.
Definition serializeVaChannel (c : FundingChannel) : VaChannelView :=
  {| vc_row := c; vc_openingFeeUsd := fromUsdMinor <$> c.(chan_openingFeeUsdMinor);
     vc_openingFeeVersion := pretty c.(chan_openingFeeVersion) |}.
Record VaRequestView := {
  vv_id : string; vv_row : VaRequest;
  vv_openingFeeUsd : string; vv_openingFeeStandardUsd : string; vv_openingFeeEffectiveUsd : string;
  vv_openingFeeDiscountUsd : string; vv_openingFeeExempt : bool; vv_openingFeeVersion : string;
  vv_channel : option VaChannelView;
}.
Definition serializeVirtualAccountRequest (id : string) (r : VaRequest) (channel : option FundingChannel) :
    VaRequestView :=
  let standard := default r.(va_openingFeeUsdMinor) r.(va_openingFeeStandardUsdMinor) in
  let effective := if is_some r.(va_openingFeeWaivedAt) then 0 else r.(va_openingFeeUsdMinor) in
  {| vv_id := id; vv_row := r;
     vv_openingFeeUsd := fromUsdMinor r.(va_openingFeeUsdMinor);
     vv_openingFeeStandardUsd := fromUsdMinor standard;
     vv_openingFeeEffectiveUsd := fromUsdMinor effective;
     vv_openingFeeDiscountUsd := fromUsdMinor (standard - effective);
     vv_openingFeeExempt := effective <? standard;
     vv_openingFeeVersion := pretty r.(va_openingFeeVersion);
     vv_channel := serializeVaChannel <$> channel |}.
Definition view_of (id : string) (r : VaRequest) : M Db VaRequestView :=
  let! channel := find_optional channels r.(va_channelId) in
  ret (serializeVirtualAccountRequest id r (snd <$> channel)).

(** [requireVaCustomerAccess] *)
Definition requireVaCustomerAccess (env : ProcessEnv) (customerId : string) (organizationId : option string)
    (actor : VaRequestActor) : M Db Customer :=
  if negb (opt_truthy actor.(va_actor_customerId)) then
    let! '(_, customer) := requireCustomerAccess actor.(va_actor_userId) customerId in
    do! throw_if (opt_truthy organizationId && differs (Some customer.(cust_organizationId)) organizationId)
          (NotFound "virtual_account_channel_not_found");
    ret customer
  else
  do! throw_if (differs actor.(va_actor_customerId) (Some customerId)) (NotFound "customer_not_found");
  let! customer := find_unique customers customerId in
  let syncOrganizationId := if opt_truthy organizationId then default "" organizationId
                            else trim_or env.(CORE_ORGANIZATION_ID) "" in
  let! customer :=
    if is_none customer && truthy syncOrganizationId && truthy (trim_or env.(NEOBANK_SOURCE_TENANT_ID) "") then
      do! run_sync (trim_or env.(CORE_ADMIN_USER_ID) actor.(va_actor_userId)) syncOrganizationId;
      find_unique customers customerId
    else ret customer in
  let! customer := require customer (NotFound "customer_not_found") in
  do! throw_if (opt_truthy organizationId && differs (Some customer.(cust_organizationId)) organizationId)
        (NotFound "customer_not_found");
  ret customer.

Record VaQuote := {
  q_channelId : string; q_feeUsd : string; q_standardFeeUsd : string; q_exempt : bool;
  q_openingFeeVersion : string; q_feePolicyVersion : Z;
}.

(** [quoteVaOpeningFee] *)
Definition quoteVaOpeningFee (env : ProcessEnv) (customerId channelId : string) (actor : VaRequestActor) : M Db VaQuote :=
  let! _ := requireVaCustomerAccess env customerId None actor in
  let! customer := find_unique customers customerId in
  let! customer := require customer (PrismaKnown "P2025" []) in
  let! channel := find_unique channels channelId in
  let! channel := require channel (NotFound "virtual_account_channel_not_found") in
  do! throw_if (differs channel.(chan_organizationId) customer.(cust_organizationId) ||
                negb channel.(chan_active) || differs channel.(chan_type) CT_VIRTUAL_ACCOUNT)
        (NotFound "virtual_account_channel_not_found");
  let! minor := require channel.(chan_openingFeeUsdMinor) (Conflict "virtual_account_opening_fee_not_configured") in
  let policy := vaFeePolicy customer in
  ret {| q_channelId := channelId;
         q_feeUsd := fromUsdMinor (if policy.(pol_exempt) then 0 else minor);
         q_standardFeeUsd := fromUsdMinor minor;
         q_exempt := policy.(pol_exempt) && (0 <? minor);
         q_openingFeeVersion := pretty channel.(chan_openingFeeVersion);
         q_feePolicyVersion := policy.(pol_version) |}.

(** ** Requests *)
Definition is_usd_wallet_of (customerId : string) (ka : string * Account) : bool :=
  opt_eqb ka.2.(acc_customerId) (Some customerId) && same ka.2.(acc_kind) SYSTEM_WALLET &&
  acc_active ka.2 && same ka.2.(acc_currency) USD.
Definition is_usd_fee_account (ka : string * Account) : bool :=
  is_none ka.2.(acc_customerId) && same ka.2.(acc_kind) FEE_REVENUE && acc_active ka.2 &&
  same ka.2.(acc_currency) USD.

(** The only row of a [findMany] with [take: 2]. *)
Definition only_account (p : string * Account → bool) (e : exn) : M Db (string * Account) :=
  let! rows := gets (λ s, take 2 (find_many p s.(accounts))) in
  match rows with [ka] => ret ka | _ => throw e end.

Definition fee_operation_row (now : Z) (requestId customerId : string) (idempotencyKey : option string)
    (channelId : string) (channel : FundingChannel) (amount : Z) (walletId feeAccountId makerId : string) : Operation :=
  {| op_reference := "VA-FEE-" +:+ toUpperCase (String.substring 0 8 requestId);
     op_idempotencyKey := (λ k, "va-opening-fee:" +:+ k) <$> idempotencyKey;
     op_customerId := customerId;
     op_channelId := Some channelId;
     op_type := VA_OPENING_FEE;
     op_status := SUBMITTED;
     op_currency := USD;
     op_amount := amount;
     op_feeAmount := 0;
     op_sourceAccountId := Some walletId;
     op_targetAccountId := Some feeAccountId;
     op_beneficiaryId := None;
     op_payoutMethod := None;
     op_adjustmentDirection := None;
     op_quoteCurrency := None;
     op_quoteAmount := None;
     op_rate := None;
     op_rateVersionId := None;
     op_makerId := makerId;
     op_checkerId := None;
     op_operatorId := None;
     op_rejectionReason := None;
     op_externalReference := None;
     op_remitterName := None;
     op_remitterBank := None;
     op_remittanceReference := None;
     op_receivedAt := None;
     op_proofUrl := None;
     op_narrative := Some "VA opening fee";
     op_metadata := Some (JObj [("vaOpeningFee", JObj [("requestId", JStr requestId);
       ("channelCode", JStr channel.(chan_code));
       ("bankName", JStr (match channel.(chan_settlementBankName) with
                          | Some n => if truthy n then n else channel.(chan_name)
                          | None => channel.(chan_name) end));
       ("version", JStr (pretty channel.(chan_openingFeeVersion)));
       ("reservedAt", JStr (to_iso now))])]);
     op_submittedAt := Some now;
     op_approvedAt := None;
     op_executedAt := None;
     op_createdAt := now |}.

(** The fee reservation of a request: freeze on the USD wallet, and the operation. *)
Definition reserveVaOpeningFee (now : Z) (requestId feeOperationId customerId : string)
    (idempotencyKey : option string) (channelId : string) (channel : FundingChannel) (fee : D) (makerId : string) :
    M Db (option string) :=
  if d_isZero fee then ret None else
  let! wallet := only_account (is_usd_wallet_of customerId) (Conflict "usd_wallet_not_found") in
  let! feeAccount := only_account is_usd_fee_account (Conflict "fee_account_not_configured") in
  let! frozen := account_updateMany wallet.1 (λ a, acc_active a && acc_available_gte fee a) (acc_freeze fee) in
  do! throw_if (differs frozen 1) (Conflict "insufficient_available_balance");
  let! amount := store8 fee in
  do! operation_create feeOperationId
        (fee_operation_row now requestId customerId idempotencyKey channelId channel amount wallet.1 feeAccount.1 makerId);
  ret (Some feeOperationId).

(** The confirmation of the fee shown to the customer. *)
Definition check_expected_fee (input : VaRequestInput) (fee : D) (channel : FundingChannel) (policy : VaFeePolicy) :
    M Db unit :=
  let! expectedFee := require (d_parse (default "" input.(vin_expectedOpeningFeeUsd)))
                        (BadRequest "invalid_virtual_account_opening_fee_confirmation") in
  throw_if (negb (d_eq expectedFee fee) ||
            differs input.(vin_expectedOpeningFeeVersion) (Some (pretty channel.(chan_openingFeeVersion))) ||
            differs (default 0 input.(vin_expectedFeePolicyVersion)) policy.(pol_version))
    (Conflict "virtual_account_opening_fee_changed").

(** An earlier request of the customer with the key. *)
Definition has_va_key (customerId : string) (key : string) (kr : string * VaRequest) : bool :=
  String.eqb kr.2.(va_customerId) customerId && opt_eqb kr.2.(va_idempotencyKey) (Some key).
Definition is_pending_va (customerId : string) (input : VaRequestInput) (kr : string * VaRequest) : bool :=
  String.eqb kr.2.(va_customerId) customerId && opt_eqb kr.2.(va_channelId) (Some input.(vin_channelId)) &&
  same kr.2.(va_currency) input.(vin_currency) && same kr.2.(va_status) RS_SUBMITTED.

(** The channel, the customer and the policy a new request is made under. *)
Definition va_request_parties (customerId : string) (customer : Customer) (input : VaRequestInput) :
    M Db (FundingChannel * Z * VaFeePolicy) :=
  let! channel := find_unique channels input.(vin_channelId) in
  let! currentCustomer := find_unique customers customerId in
  let! pending := gets (λ s, find_first (is_pending_va customerId input) s.(vaRequests)) in
  let! channel := require channel (NotFound "virtual_account_channel_not_found") in
  do! throw_if (differs channel.(chan_type) CT_VIRTUAL_ACCOUNT || negb channel.(chan_active) ||
                differs channel.(chan_organizationId) customer.(cust_organizationId))
        (NotFound "virtual_account_channel_not_found");
  do! throw_if (negb (includes channel.(chan_supportedCurrencies) input.(vin_currency)))
        (Conflict "virtual_account_channel_currency_unsupported");
  let! currentCustomer := require currentCustomer (Conflict "active_customer_required") in
  do! throw_if (differs currentCustomer.(cust_organizationId) channel.(chan_organizationId) ||
                differs currentCustomer.(cust_status) CS_ACTIVE) (Conflict "active_customer_required");
  do! throw_if (is_some pending) (Conflict "virtual_account_request_already_pending");
  let! minor := require channel.(chan_openingFeeUsdMinor) (Conflict "virtual_account_opening_fee_not_configured") in
  ret (channel, minor, vaFeePolicy currentCustomer).

(** The transaction of [requestVirtualAccount] for a request that is not a replay. *)
Definition submit_va_request (now : Z) (requestId feeOperationId customerId purpose : string)
    (idempotencyKey : option string) (customer : Customer) (input : VaRequestInput) (actor : VaRequestActor) :
    M Db (string * VaRequest) :=
  let! '(channel, minor, policy) := va_request_parties customerId customer input in
  let effectiveMinor := if policy.(pol_exempt) then 0 else minor in
  let fee := from_minor effectiveMinor in
  do! (if opt_truthy actor.(va_actor_customerId) || is_some input.(vin_expectedOpeningFeeUsd)
       then check_expected_fee input fee channel policy else ret tt);
  let! feeOperation := reserveVaOpeningFee now requestId feeOperationId customerId idempotencyKey
                         input.(vin_channelId) channel fee actor.(va_actor_userId) in
  let row := {|
    va_customerId := customerId; va_currency := input.(vin_currency); va_status := RS_SUBMITTED;
    va_purpose := purpose;
    va_preferredCountry := (match channel.(chan_bankCountry) with
                            | Some c => if truthy c then c else "ZZ" | None => "ZZ" end);
    va_channelId := Some input.(vin_channelId);
    va_requestSource := if opt_truthy actor.(va_actor_customerId) then VS_CUSTOMER else VS_ADMIN;
    va_requesterEmail := actor.(va_actor_email); va_makerId := actor.(va_actor_userId);
    va_checkerId := None; va_rejectionReason := None; va_assignedAccountId := None;
    va_idempotencyKey := idempotencyKey; va_openingFeeUsdMinor := effectiveMinor;
    va_openingFeeVersion := channel.(chan_openingFeeVersion);
    va_openingFeeStandardUsdMinor := Some minor;
    va_openingFeeBasis := if minor =? 0 then "BANK_FREE" else policy.(pol_basis);
    va_openingFeePolicyVersion := policy.(pol_version);
    va_openingFeeWaivedAt := None; va_openingFeeWaivedBy := None; va_openingFeeWaiverReason := None;
    va_openingFeeWaiverBasis := None; va_feeOperationId := feeOperation; va_reviewedAt := None |} in
  do! vaRequest_create requestId row;
  ret (requestId, row).

Definition va_request_transaction (now : Z) (requestId feeOperationId customerId purpose : string)
    (idempotencyKey : option string) (customer : Customer) (input : VaRequestInput) (actor : VaRequestActor) :
    M Db (string * VaRequest) :=
  let! existing := match idempotencyKey with
                   | Some key => gets (λ s, find_first (has_va_key customerId key) s.(vaRequests))
                   | None => ret None
                   end in
  match existing with
  | Some (id, r) =>
      do! throw_if (differs r.(va_channelId) (Some input.(vin_channelId)) ||
                    differs r.(va_currency) input.(vin_currency) || differs r.(va_purpose) purpose)
            (Conflict "idempotency_key_reused");
      ret (id, r)
  | None => submit_va_request now requestId feeOperationId customerId purpose idempotencyKey customer input actor
  end.

(** [requestVirtualAccount].  [fault] is the serialization failure (P2034) the
    database may report instead of committing. *)
Definition requestVirtualAccount (env : ProcessEnv) (fault : option exn) (now : Z)
    (requestId feeOperationId customerId : string) (input : VaRequestInput) (actor : VaRequestActor) :
    M Db VaRequestView :=
  do! throw_if (negb (isSupportedFiatCurrency input.(vin_currency))) (Conflict "unsupported_fiat_currency");
  let purpose := trim input.(vin_purpose) in
  do! throw_if (Nat.ltb (String.length purpose) 2) (BadRequest "virtual_account_purpose_required");
  let! customer := requireVaCustomerAccess env customerId None actor in
  do! throw_if (differs customer.(cust_status) CS_ACTIVE) (Conflict "active_customer_required");
  let idempotencyKey := trimmed input.(vin_idempotencyKey) in
  do! throw_if (opt_truthy actor.(va_actor_customerId) && is_none idempotencyKey)
        (BadRequest "idempotency_key_required");
  try_catch
    (let! '(id, r) := transaction fault (va_request_transaction now requestId feeOperationId customerId purpose
                        idempotencyKey customer input actor) in
     view_of id r)
    (λ e, match e with
          | PrismaKnown code _ =>
              if String.eqb code "P2002" || String.eqb code "P2034" then
                let! existing := match idempotencyKey with
                                 | Some key => gets (λ s, find_first (has_va_key customerId key) s.(vaRequests))
                                 | None => ret None
                                 end in
                match existing with
                | Some (id, r) => view_of id r
                | None => throw (Conflict "virtual_account_request_already_pending")
                end
              else throw e
          | _ => throw e
          end).

(** ** Review *)

(** [findUnique] with the relations of [vaRequestInclude]. *)
Definition load_request (id : string) : M Db (option LoadedRequest) :=
  let! row := find_unique vaRequests id in
  match row with
  | None => ret None
  | Some r =>
      let! customer := find_unique customers r.(va_customerId) in
      let! customer := require customer (PlainError "Inconsistent query result") in
      let! channel := find_optional channels r.(va_channelId) in
      let! operation := find_optional operations r.(va_feeOperationId) in
      let! source := find_optional accounts (operation ≫= λ ko, ko.2.(op_sourceAccountId)) in
      let! target := find_optional accounts (operation ≫= λ ko, ko.2.(op_targetAccountId)) in
      ret (Some {| lr_id := id; lr_request := r; lr_customer := customer; lr_channel := channel;
                   lr_feeOperation := operation; lr_source := source; lr_target := target |})
  end.

(** The part of the reservation both settlement and release check. *)
Definition fee_operation_invalid (amount : D) (o : Operation) : bool :=
  differs o.(op_type) VA_OPENING_FEE || differs o.(op_status) SUBMITTED || differs o.(op_currency) USD ||
  negb (d_eq (op_amt o) amount).
(** The [where] on the customer's wallet. *)
Definition reserved_on (customerId : string) (amount : D) (a : Account) : bool :=
  opt_eqb a.(acc_customerId) (Some customerId) && same a.(acc_kind) SYSTEM_WALLET && acc_active a &&
  same a.(acc_currency) USD && acc_frozen_gte amount a.

Definition nothing_reserved (r : VaRequest) : bool :=
  (r.(va_openingFeeUsdMinor) =? 0) || is_some r.(va_openingFeeWaivedAt).

(** [settleVaOpeningFee] *)
Definition settleVaOpeningFee (now : Z) (l : LoadedRequest) (checkerId : string) : M Db unit :=
  let r := l.(lr_request) in
  if nothing_reserved r then ret tt else
  let amount := from_minor r.(va_openingFeeUsdMinor) in
  let! '(opId, o) := require l.(lr_feeOperation) (Conflict "va_opening_fee_reservation_invalid") in
  do! throw_if (fee_operation_invalid amount o) (Conflict "va_opening_fee_reservation_invalid");
  let! '(sourceId, source) := require l.(lr_source) (Conflict "va_opening_fee_reservation_invalid") in
  do! throw_if (differs source.(acc_customerId) (Some r.(va_customerId)) ||
                differs source.(acc_kind) SYSTEM_WALLET || differs source.(acc_currency) USD)
        (Conflict "va_opening_fee_reservation_invalid");
  let! '(targetId, target) := require l.(lr_target) (Conflict "va_opening_fee_reservation_invalid") in
  do! throw_if (is_some target.(acc_customerId) || differs target.(acc_kind) FEE_REVENUE ||
                negb (acc_active target) || differs target.(acc_currency) USD)
        (Conflict "va_opening_fee_reservation_invalid");
  let! consumed := account_updateMany sourceId (reserved_on r.(va_customerId) amount) (acc_consume amount) in
  do! throw_if (differs consumed 1) (Conflict "va_opening_fee_reservation_missing");
  do! create_entry (o.(op_reference) +:+ "-principal") opId
        (narrative_or o ("VA opening fee " +:+ o.(op_reference)))
        [(sourceId, DEBIT, USD, amount); (targetId, CREDIT, USD, amount)];
  let! _ := operation_update now opId (λ o,
    set_op_executedAt (Some now) (set_op_approvedAt (Some now) (set_op_operatorId (Some checkerId)
      (set_op_checkerId (Some checkerId) (set_op_status COMPLETED o))))) in
  ret tt.

(** [releaseVaOpeningFee]; [status] is REJECTED or CANCELLED. *)
Definition releaseVaOpeningFee (now : Z) (l : LoadedRequest) (status : OperationStatus)
    (checkerId reason : option string) : M Db unit :=
  let r := l.(lr_request) in
  if nothing_reserved r then ret tt else
  let amount := from_minor r.(va_openingFeeUsdMinor) in
  let! '(opId, o) := require l.(lr_feeOperation) (Conflict "va_opening_fee_reservation_invalid") in
  do! throw_if (fee_operation_invalid amount o || negb (opt_truthy o.(op_sourceAccountId)))
        (Conflict "va_opening_fee_reservation_invalid");
  let! released := account_updateMany (default "" o.(op_sourceAccountId))
                     (reserved_on r.(va_customerId) amount) (acc_unfreeze amount) in
  do! throw_if (differs released 1) (Conflict "va_opening_fee_reservation_missing");
  let! _ := operation_update now opId (λ o,
    if_given set_op_rejectionReason
      (if opt_truthy reason then reason
       else if same status CANCELLED then Some "Cancelled by customer" else None)
      (if_given set_op_checkerId checkerId (set_op_status status o))) in
  ret tt.

(** The pending request of [id] and its reviewer. *)
Definition load_pending (id checkerId : string) : M Db LoadedRequest :=
  let! l := load_request id in
  let! l := require l (NotFound "virtual_account_request_not_found") in
  let! checker := requireChecker checkerId in
  do! throw_if (differs checker.(user_organizationId) (Some l.(lr_customer).(cust_organizationId)))
        (NotFound "virtual_account_request_not_found");
  do! throw_if (differs l.(lr_request).(va_status) RS_SUBMITTED) (Conflict "request_not_pending");
  do! throw_if (String.eqb l.(lr_request).(va_makerId) checkerId && differs checker.(user_role) ADMIN)
        (Forbidden "admin_required_for_self_approval");
  ret l.

Record VaAssignment := { as_accountName : string; as_accountNumber : string; as_iban : option string }.

Definition va_account_row (r : VaRequest) (channelId : string) (c : FundingChannel) (input : VaAssignment) : Account :=
  MkAccount (Some r.(va_customerId)) VIRTUAL_ACCOUNT AS_ACTIVE r.(va_currency) (trim input.(as_accountName))
    (Some (trim input.(as_accountNumber))) None None 0 0 0 (Some channelId)
    {| bank_name := c.(chan_settlementBankName); bank_address := c.(chan_bankAddress);
       bank_country := c.(chan_bankCountry); bank_swiftBic := c.(chan_swiftBic);
       bank_iban := trimmed input.(as_iban) |}.

(** [approveVirtualAccountRequest] *)
Definition approveVirtualAccountRequest (env : ProcessEnv) (now : Z) (accountId id : string)
    (input : VaAssignment) (checkerId : string) : M Db VaRequestView :=
  let! l := load_pending id checkerId in
  let r := l.(lr_request) in
  let! '(channelId, channel) := require l.(lr_channel) (Conflict "virtual_account_channel_not_ready") in
  do! throw_if (negb channel.(chan_active) || differs channel.(chan_type) CT_VIRTUAL_ACCOUNT ||
                negb (opt_truthy channel.(chan_settlementBankName)) || negb (opt_truthy channel.(chan_swiftBic)) ||
                negb (opt_truthy channel.(chan_bankCountry)) || negb (opt_truthy channel.(chan_bankAddress)))
        (Conflict "virtual_account_channel_not_ready");
  do! settleVaOpeningFee now l checkerId;
  do! try_catch (account_create accountId (va_account_row r channelId channel input))
        (λ e, match e with
              | PrismaKnown "P2002" _ => throw (Conflict "virtual_account_number_exists")
              | _ => throw e
              end);
  let! updated := vaRequest_update id (λ r,
    set_va_assignedAccountId (Some accountId) (set_va_reviewedAt (Some now)
      (set_va_checkerId (Some checkerId) (set_va_status RS_APPROVED r)))) in
  do! enqueueCustomerEmail env now r.(va_customerId) l.(lr_customer) "VIRTUAL_ACCOUNT_APPROVED"
        ("virtual-account-request:" +:+ id +:+ ":approved") [("currency", currency_text r.(va_currency))];
  view_of id updated.

(** [rejectVirtualAccountRequest] *)
Definition rejectVirtualAccountRequest (env : ProcessEnv) (now : Z) (id checkerId reason : string) : M Db VaRequestView :=
  let normalizedReason := trim reason in
  do! throw_if (reason_length_bad normalizedReason) (BadRequest "virtual_account_rejection_reason_required");
  let! l := load_pending id checkerId in
  do! releaseVaOpeningFee now l REJECTED (Some checkerId) (Some normalizedReason);
  let! updated := vaRequest_update id (λ r,
    set_va_rejectionReason (Some normalizedReason) (set_va_reviewedAt (Some now)
      (set_va_checkerId (Some checkerId) (set_va_status RS_REJECTED r)))) in
  do! enqueueCustomerEmail env now l.(lr_request).(va_customerId) l.(lr_customer) "VIRTUAL_ACCOUNT_REJECTED"
        ("virtual-account-request:" +:+ id +:+ ":rejected")
        [("currency", currency_text l.(lr_request).(va_currency))];
  view_of id updated.

(** [cancelVirtualAccountRequest] *)
Definition cancelVirtualAccountRequest (env : ProcessEnv) (now : Z) (customerId id : string)
    (actor : VaRequestActor) : M Db VaRequestView :=
  do! throw_if (negb (opt_truthy actor.(va_actor_customerId)) ||
                differs actor.(va_actor_customerId) (Some customerId))
        (NotFound "virtual_account_request_not_found");
  let! customer := requireVaCustomerAccess env customerId None actor in
  let! l := load_request id in
  let! l := require l (NotFound "virtual_account_request_not_found") in
  do! throw_if (differs l.(lr_request).(va_customerId) customerId ||
                differs l.(lr_customer).(cust_organizationId) customer.(cust_organizationId))
        (NotFound "virtual_account_request_not_found");
  do! throw_if (differs l.(lr_request).(va_requestSource) VS_CUSTOMER) (Conflict "customer_cancellation_not_allowed");
  do! throw_if (differs l.(lr_request).(va_status) RS_SUBMITTED) (Conflict "request_not_pending");
  do! releaseVaOpeningFee now l CANCELLED None None;
  let! updated := vaRequest_update id (λ r, set_va_reviewedAt (Some now) (set_va_status RS_CANCELLED r)) in
  view_of id updated.

(** ** Waiver and policy *)

(** [.catch] of a serialization failure. *)
Definition on_conflict {A} (m : M Db A) (code : string) : M Db A :=
  try_catch m (λ e, match e with PrismaKnown "P2034" _ => throw (Conflict code) | _ => throw e end).

(** [waiveVaOpeningFee] *)
Definition waiveVaOpeningFee (fault : option exn) (now : Z) (id reasonInput : string) (actor : VaRequestActor) :
    M Db VaRequestView :=
  do! throw_if (opt_truthy actor.(va_actor_customerId)) (Forbidden "admin_role_required");
  let reason := trim reasonInput in
  do! throw_if (reason_length_bad reason) (BadRequest "va_fee_reason_required");
  on_conflict (transaction fault (
    let! admin := requireChecker actor.(va_actor_userId) in
    let! l := load_request id in
    let! l := require l (NotFound "virtual_account_request_not_found") in
    do! throw_if (differs (Some l.(lr_customer).(cust_organizationId)) admin.(user_organizationId))
          (NotFound "virtual_account_request_not_found");
    let r := l.(lr_request) in
    do! throw_if (differs r.(va_status) RS_SUBMITTED) (Conflict "request_not_pending");
    if is_some r.(va_openingFeeWaivedAt) then view_of id r else
    do! throw_if (r.(va_openingFeeUsdMinor) =? 0) (Conflict "va_opening_fee_already_free");
    do! throw_if (match l.(lr_feeOperation) with
                  | None => true
                  | Some (_, o) => differs o.(op_customerId) r.(va_customerId) || differs o.(op_channelId) r.(va_channelId)
                  end) (Conflict "va_opening_fee_reservation_invalid");
    do! releaseVaOpeningFee now l CANCELLED (Some actor.(va_actor_userId)) (Some "VA opening fee waived");
    let! updated := vaRequest_update id (λ r,
      set_va_openingFeeWaiverBasis (Some (if l.(lr_customer).(cust_isInternal) then "INTERNAL" else "SPECIAL"))
        (set_va_openingFeeWaiverReason (Some reason)
          (set_va_openingFeeWaivedBy (Some actor.(va_actor_userId)) (set_va_openingFeeWaivedAt (Some now) r)))) in
    view_of id updated)) "va_fee_concurrent_change".

Inductive PolicyKind := POLICY_IDENTITY | POLICY_EXEMPTION.
#[global] Instance policy_kind_eq_dec : EqDecision PolicyKind.
Proof. solve_decision. Defined.

(** [updateVaFeePolicy].  [admin_created] is the number of rows of the query
    that looks for the customer among those an administrator created. *)
Definition updateVaFeePolicy (env : ProcessEnv) (fault : option exn) (admin_created : nat) (customerId : string)
    (kind : PolicyKind) (enabled : bool) (expectedVersion : Z) (reasonInput : string) (actor : VaRequestActor) :
    M Db (bool * bool * Z) :=
  do! throw_if (opt_truthy actor.(va_actor_customerId)) (Forbidden "admin_role_required");
  let reason := trim reasonInput in
  do! throw_if (reason_length_bad reason) (BadRequest "va_fee_reason_required");
  on_conflict (transaction fault (
    let! admin := requireChecker actor.(va_actor_userId) in
    let! row := find_unique customers customerId in
    let! customer := require row (NotFound "customer_not_found") in
    do! throw_if (differs (Some customer.(cust_organizationId)) admin.(user_organizationId)) (NotFound "customer_not_found");
    do! throw_if (differs customer.(cust_vaFeePolicyVersion) expectedVersion) (Conflict "va_fee_policy_changed");
    do! throw_if (same kind POLICY_IDENTITY && same customer.(cust_isInternal) enabled) (Conflict "customer_identity_unchanged");
    do! throw_if (same kind POLICY_IDENTITY && enabled &&
                  (negb (truthy (trim_or env.(NEOBANK_SOURCE_TENANT_ID) "")) || negb (Nat.eqb admin_created 1)))
          (Conflict "admin_created_customer_required");
    do! throw_if (same kind POLICY_EXEMPTION && customer.(cust_isInternal)) (Conflict "internal_customer_already_exempt");
    let '(internal, exempt) := if same kind POLICY_IDENTITY then (enabled, false) else (false, enabled) in
    let version := customer.(cust_vaFeePolicyVersion) + 1 in
    let! updated := customer_updateMany customerId (λ c, c.(cust_vaFeePolicyVersion) =? expectedVersion)
      (λ c, set_cust_vaFeePolicyVersion version (set_cust_vaFeeExempt exempt (set_cust_isInternal internal c))) in
    do! throw_if (differs updated 1) (Conflict "va_fee_policy_changed");
    do! vaFeePolicyEvent_create (MkVaFeePolicyEvent customerId version
          customer.(cust_isInternal) customer.(cust_vaFeeExempt) internal exempt reason actor.(va_actor_userId));
    ret (internal, exempt, version))) "va_fee_policy_changed".
End service.
