(* ===== verification/CustomerRecords.v ===== *)
(** The forms and reads of customers: [CustomersService] create, list, get,
    getVaFeePolicy and the two lists of virtual account requests
    ([server/src/customers/customers.service.ts]), and the list of fee rules
    ([server/src/withdrawal-fees/withdrawal-fees.service.ts]).

    Reading customers runs the import first where a tenant is configured.  The
    columns a list is ordered by are no columns of the model: the order is an
    argument. *)
From S2P Require Import Prelude Decimals Schema Access WithdrawalFees Accounts Customers VirtualAccounts.
From Stdlib Require Import Ascii.
#[local] Open Scope Z_scope.

(** ** Creation *)
Inductive CustomerType := INDIVIDUAL | BUSINESS.
Record CreateCustomerInput := {
  ci_organizationId : string; ci_type : CustomerType; ci_displayName : string; ci_legalName : string; ci_email : string;
  ci_countryCode : string; ci_phone : option string; ci_phoneCountryCode : option string; ci_registrationNo : option string;
  ci_dateOfBirth : option string; ci_nationality : option string; ci_contactName : option string;
  ci_contactRole : option string; ci_beneficialOwnerName : option string; ci_beneficialOwnerOwnership : option Z;
}.
(** The columns of a customer that no handler reads back. *)
Record CustomerDetails := {
  cd_type : CustomerType; cd_legalName : string; cd_phone : option string; cd_phoneCountryCode : option string;
  cd_countryCode : string; cd_registrationNo : option string; cd_dateOfBirth : option Z; cd_nationality : option string;
  cd_contactName : option string; cd_contactRole : option string; cd_beneficialOwnerName : option string;
  cd_beneficialOwnerOwnership : option Z;
}.
(** [phone.replaceAll(/[ ()-]/g, '')] *)
Definition phone_mark (c : ascii) : bool := existsb (Ascii.eqb c) [" "%char; "("%char; ")"%char; "-"%char].
Definition bare_phone (s : string) : string :=
  String.string_of_list_ascii (List.filter (λ c, negb (phone_mark c)) (String.list_ascii_of_string s)).
Definition customer_create : string → Customer → M Db unit :=
  create_row customers set_customers (λ _ _ c, negb (c.(cust_isInternal) && c.(cust_vaFeeExempt))) "Customer_va_fee_policy_valid" [].
Definition new_customer (input : CreateCustomerInput) (creatorId : string) : Customer :=
  MkCustomer input.(ci_organizationId) CS_PENDING_REVIEW KYC_PENDING creatorId (trim input.(ci_displayName))
    (toLowerCase (trim input.(ci_email))) false false 0 None None None None None None.
Definition new_details (input : CreateCustomerInput) (birth : option Z) : CustomerDetails :=
  {| cd_type := input.(ci_type); cd_legalName := trim input.(ci_legalName); cd_phone := bare_phone <$> input.(ci_phone);
     cd_phoneCountryCode := trim <$> input.(ci_phoneCountryCode); cd_countryCode := toUpperCase (trim input.(ci_countryCode));
     cd_registrationNo := input.(ci_registrationNo); cd_dateOfBirth := birth;
     cd_nationality := (λ x, toUpperCase (trim x)) <$> input.(ci_nationality); cd_contactName := input.(ci_contactName);
     cd_contactRole := input.(ci_contactRole); cd_beneficialOwnerName := input.(ci_beneficialOwnerName);
     cd_beneficialOwnerOwnership := input.(ci_beneficialOwnerOwnership) |}.

Section records.
Context {DO : DecimalOps} {JD : JsDates}.
Context (sha256 : list Z → list Z) (newId : string → string)
  (source_rows : list NeobankCustomer) (verified_wallets : list VerifiedCregisWallet).

(** [dateOfBirth], parsed: [None] is an invalid date. *)
Definition birth_date (dateOfBirth : option string) : option (option Z) :=
  match dateOfBirth with
  | Some text => if truthy text then Some (date_parse (text +:+ "T00:00:00.000Z")) else None
  | None => None
  end.
Definition birth_invalid (now : Z) (dateOfBirth : option string) : bool :=
  match birth_date dateOfBirth with
  | Some None => true
  | Some (Some t) => now <=? t
  | None => false
  end.
Definition create_customer (now : Z) (id : string) (input : CreateCustomerInput) (creatorId : string) :
    M Db (Customer * CustomerDetails) :=
  let! _ := requireOrganizationAccess creatorId input.(ci_organizationId) in
  do! throw_if (birth_invalid now input.(ci_dateOfBirth)) (BadRequest "invalid_date_of_birth");
  do! customer_create id (new_customer input creatorId);
  ret (new_customer input creatorId, new_details input (mjoin (birth_date input.(ci_dateOfBirth)))).

(** ** Reads *)
Record CustomerView := {
  cv_id : string; cv_row : Customer; cv_accounts : list (string * Account);
  cv_beneficiaries : list (string * Beneficiary); cv_operations : list (string * Operation); cv_openingSource : option string;
}.
Definition accounts_of_customer (s : Db) (id : string) : list (string * Account) :=
  find_many (λ ka : string * Account, opt_eqb ka.2.(acc_customerId) (Some id) && isSupportedCustomerAccount ka.2) s.(accounts).
(** A read after the import, where a tenant is configured.  The statements of the
    import commit one by one: its writes stay when it, or the read, throws. *)
Definition run_read {A} (read : M Db A) (s : Db) : Db * (exn + A) :=
  match read s with inl e => (s, inl e) | inr (a, s') => (s', inr a) end.
Definition has_tenant (env : ProcessEnv) : bool := truthy (trim_or env.(NEOBANK_SOURCE_TENANT_ID) "").
Definition after_import {A} (env : ProcessEnv) (organizationId userId : string) (read : M Db A) (s : Db) : Db * (exn + A) :=
  if has_tenant env then
    match syncNeobankCustomers sha256 newId (trim_or env.(CORE_ADMIN_USER_ID) userId) organizationId source_rows verified_wallets s with
    | (s', Some e) => (s', inl e)
    | (s', None) => run_read read s'
    end
  else run_read read s.

(** [list] *)
Definition read_customers (ordered : list (string * Customer) → list (string * Customer)) (organizationId : string)
    (status : option CustomerStatus) : M Db (list CustomerView) :=
  gets (λ s, map (λ kc, {| cv_id := kc.1; cv_row := kc.2; cv_accounts := accounts_of_customer s kc.1; cv_beneficiaries := [];
                           cv_operations := []; cv_openingSource := None |})
    (ordered (find_many (λ kc : string * Customer, String.eqb kc.2.(cust_organizationId) organizationId &&
       match status with Some st => same kc.2.(cust_status) st | None => true end) s.(customers)))).
Definition list_customers (env : ProcessEnv) (ordered : list (string * Customer) → list (string * Customer))
    (organizationId userId : string) (status : option CustomerStatus) (s : Db) : Db * (exn + list CustomerView) :=
  match requireOrganizationAccess userId organizationId s with
  | inl e => (s, inl e)
  | inr _ => after_import env organizationId userId (read_customers ordered organizationId status) s
  end.

(** [get]; [created_by] are the rows of the custody customer's column. *)
Definition shown_beneficiary (b : Beneficiary) : bool :=
  (same b.(ben_type) BT_BANK && isSupportedFiatCurrency b.(ben_currency)) ||
  (same b.(ben_type) BT_CRYPTO && same b.(ben_currency) supportedCryptoAsset && same b.(ben_network) (Some supportedCryptoNetwork)).
Definition opening_source (created_by : option string) : string :=
  if opt_eqb created_by (Some "admin_direct_opening") then "admin_direct_opening" else "standard".
Definition read_customer (env : ProcessEnv) (payees_ordered : list (string * Beneficiary) → list (string * Beneficiary))
    (operations_ordered : list (string * Operation) → list (string * Operation)) (created_by : list (option string))
    (id userId : string) : M Db CustomerView :=
  let! _ := requireCustomerAccess userId id in
  let! row := find_unique customers id in
  let! customer := require row (NotFound "customer_not_found") in
  let! openingSource :=
    (if has_tenant env then
       match created_by with
       | [source] => ret (Some (opening_source source))
       | _ => throw (NotFound "customer_not_found")
       end
     else ret None) in
  gets (λ s,
    {| cv_id := id; cv_row := customer; cv_accounts := accounts_of_customer s id;
       cv_beneficiaries := payees_ordered (find_many (λ kb : string * Beneficiary,
         String.eqb kb.2.(ben_customerId) id && shown_beneficiary kb.2) s.(beneficiaries));
       cv_operations := take 20 (operations_ordered (find_many (λ ko : string * Operation,
         String.eqb ko.2.(op_customerId) id) s.(operations)));
       cv_openingSource := openingSource |}).
Definition get_customer (env : ProcessEnv) (payees_ordered : list (string * Beneficiary) → list (string * Beneficiary))
    (operations_ordered : list (string * Operation) → list (string * Operation)) (created_by : list (option string))
    (id userId : string) (s : Db) : Db * (exn + CustomerView) :=
  let organizationId := trim_or env.(CORE_ORGANIZATION_ID) "" in
  let read := read_customer env payees_ordered operations_ordered created_by id userId in
  if truthy organizationId then after_import env organizationId userId read s else run_read read s.

(** [getVaFeePolicy]; the events, the newest version first. *)
Definition getVaFeePolicy (ordered : list VaFeePolicyEvent → list VaFeePolicyEvent) (customerId : string) (actor : VaRequestActor) :
    M Db (bool * bool * Z * list VaFeePolicyEvent) :=
  do! throw_if (opt_truthy actor.(va_actor_customerId)) (Forbidden "admin_role_required");
  let! _ := requireCustomerAccess actor.(va_actor_userId) customerId in
  let! row := find_unique customers customerId in
  let! customer := require row (PrismaKnown "P2025" []) in
  gets (λ s, (customer.(cust_isInternal), customer.(cust_vaFeeExempt), customer.(cust_vaFeePolicyVersion),
              ordered (List.filter (λ e, String.eqb e.(vev_customerId) customerId) s.(vaEvents)))).

(** [listVirtualAccountRequests], [listVirtualAccountRequestsForOrganization] *)
Definition request_view (s : Db) (kr : string * VaRequest) : VaRequestView :=
  serializeVirtualAccountRequest kr.1 kr.2 (kr.2.(va_channelId) ≫= λ c, s.(channels) !! c).
Definition read_requests (ordered : list (string * VaRequest) → list (string * VaRequest)) (customerId : string) : M Db (list VaRequestView) :=
  gets (λ s, map (request_view s) (ordered (find_many (λ kr : string * VaRequest, String.eqb kr.2.(va_customerId) customerId) s.(vaRequests)))).
Definition read_own_requests (ordered : list (string * VaRequest) → list (string * VaRequest)) (customerId : string) : M Db (list VaRequestView) :=
  let! customer := find_unique customers customerId in
  do! throw_if (is_none customer) (NotFound "customer_not_found");
  read_requests ordered customerId.
Definition listVirtualAccountRequests (env : ProcessEnv) (ordered : list (string * VaRequest) → list (string * VaRequest))
    (customerId : string) (actor : VaRequestActor) (s : Db) : Db * (exn + list VaRequestView) :=
  if opt_truthy actor.(va_actor_customerId) then
    if differs actor.(va_actor_customerId) (Some customerId) then (s, inl (NotFound "customer_not_found"))
    else
      let organizationId := trim_or env.(CORE_ORGANIZATION_ID) "" in
      if is_none (s.(customers) !! customerId) && truthy organizationId && has_tenant env
      then after_import env organizationId actor.(va_actor_userId) (read_own_requests ordered customerId) s
      else run_read (read_own_requests ordered customerId) s
  else run_read (let! _ := requireCustomerAccess actor.(va_actor_userId) customerId in read_requests ordered customerId) s.
Definition of_organization (s : Db) (organizationId : string) (kr : string * VaRequest) : bool :=
  match s.(customers) !! kr.2.(va_customerId) with Some c => String.eqb c.(cust_organizationId) organizationId | None => false end.
Definition listVirtualAccountRequestsForOrganization (ordered : list (string * VaRequest) → list (string * VaRequest))
    (organizationId userId : string) : M Db (list VaRequestView) :=
  let! _ := requireOrganizationAccess userId organizationId in
  gets (λ s, map (request_view s) (ordered (find_many (of_organization s organizationId) s.(vaRequests)))).

(** ** The fee rules ([WithdrawalFeesService.list]) *)
Definition rule_scopes (env : ProcessEnv) (organizationId : string) (customerId : option string) : list string :=
  [organizationId; trim_or env.(NEOBANK_SOURCE_TENANT_ID) organizationId] ++
  match customerId with Some c => if truthy c then [c] else [] | None => [] end.
Definition rule_listed (env : ProcessEnv) (organizationId : string) (active : option bool) (customerId : option string)
    (kr : string * WithdrawalFeeRule) : bool :=
  opt_eqb kr.2.(rule_organizationId) (Some organizationId) && includes (rule_scopes env organizationId customerId) kr.2.(rule_scopeId) &&
  match active with Some a => Bool.eqb kr.2.(rule_active) a | None => true end.
Definition list_rules (env : ProcessEnv) (ordered : list (string * WithdrawalFeeRule) → list (string * WithdrawalFeeRule))
    (organizationId userId : string) (active : option bool) (customerId : option string) : M Db (list FeeRuleView) :=
  let! _ := requireOrganizationAccess userId organizationId in
  do! (match customerId with
       | Some c => if truthy c then
                     let! '(_, customer) := requireCustomerAccess userId c in
                     throw_if (negb (String.eqb customer.(cust_organizationId) organizationId)) (NotFound "customer_not_found")
                   else ret tt
       | None => ret tt
       end);
  gets (λ s, map (λ kr, serialize kr.2 customerId) (ordered (find_many (rule_listed env organizationId active customerId) s.(feeRules)))).
End records.

(** ** Correctness *)
Section correctness.
Context {DO : DecimalOps} {JD : JsDates}.
Context (sha256 : list Z → list Z) (newId : string → string)
  (source_rows : list NeobankCustomer) (verified_wallets : list VerifiedCregisWallet).

(** A created customer waits for both reviews, belongs to its creator's
    organisation, and nothing else changes. *)
Lemma create_customer_ok now id input creatorId s c d s' :
  create_customer now id input creatorId s = inr ((c, d), s') →
  s.(customers) !! id = None ∧ s' = set_customers (<[id := c]> s.(customers)) s ∧ pending_kyc c = true ∧
  c.(cust_creatorId) = creatorId ∧
  (∃ u, s.(users) !! creatorId = Some u ∧ u.(user_active) = true ∧ u.(user_organizationId) = Some c.(cust_organizationId)) ∧
  (∀ t, d.(cd_dateOfBirth) = Some t → t < now).
Proof.
  unfold create_customer. intros H. apply bind_ok in H as (u&s1&Hu&H). apply requireOrganizationAccess_ok in Hu as (->&Hu&Ha&_&Horg).
  apply bind_ok in H as ([]&s1&[Hb ->]%throw_if_ok&H). apply bind_ok in H as (?&s1&Hc&H). apply ret_ok in H as [[= -> ->] ->].
  destruct (create_row_ok _ _ _ _ _ _ _ _ _ _ Hc) as (Hfresh&_&Hs&_). rewrite Hs. split_and!; try done; [by exists u|].
  intros t Ht. unfold birth_invalid in Hb. unfold new_details in Ht. cbn [cd_dateOfBirth] in Ht.
  destruct (birth_date _) as [[birth|]|]; simpl in Ht; try done. injection Ht as ->. lia.
Qed.

(** What a list of customers shows belongs to the organisation asked for, and the
    one who asks is its administrator. *)
Lemma read_customers_ok ordered organizationId status s views s' :
  (∀ l, ordered l ≡ₚ l) → read_customers ordered organizationId status s = inr (views, s') →
  s' = s ∧ ∀ v, v ∈ views → s.(customers) !! v.(cv_id) = Some v.(cv_row) ∧ v.(cv_row).(cust_organizationId) = organizationId ∧
    ∀ ka, ka ∈ v.(cv_accounts) → ka.2.(acc_customerId) = Some v.(cv_id).
Proof.
  intros Hord [-> ->]%gets_ok. split; [done|]. intros v ([id c]&->&Hin)%list_elem_of_fmap. rewrite Hord in Hin.
  apply find_many_elem in Hin as [Hc Hp]. simpl in *. apply andb_true_iff in Hp as [Horg _].
  apply String.eqb_eq in Horg. split; [done|]. split; [done|]. intros [k a] [_ Ha]%find_many_elem. simpl in Ha.
  apply andb_true_iff in Ha as [Ha%opt_eqb_true _]. done.
Qed.
(** A customer is shown to the administrators of its organisation only. *)
Lemma read_customer_ok env payees_ordered operations_ordered created_by id userId s view s' :
  (∀ l, payees_ordered l ≡ₚ l) → (∀ l, operations_ordered l ≡ₚ l) →
  read_customer env payees_ordered operations_ordered created_by id userId s = inr (view, s') →
  s' = s ∧ s.(customers) !! id = Some view.(cv_row) ∧
  (∃ u, s.(users) !! userId = Some u ∧ u.(user_active) = true ∧ u.(user_organizationId) = Some view.(cv_row).(cust_organizationId)) ∧
  (∀ kb, kb ∈ view.(cv_beneficiaries) → kb.2.(ben_customerId) = id) ∧
  (∀ ko, ko ∈ view.(cv_operations) → ko.2.(op_customerId) = id) ∧ (length view.(cv_operations) ≤ 20)%nat.
Proof.
  intros Hpay Hops H. unfold read_customer in H. apply bind_ok in H as ([u c]&s1&Hu&H).
  apply requireCustomerAccess_ok in Hu as (->&Hu&Ha&_&Hc&Horg). unfold find_unique in H.
  apply bind_ok in H as (row&s1&[-> ->]%gets_ok&H). apply bind_ok in H as (c'&s1&[Hrow ->]%require_ok&H).
  rewrite Hc in Hrow. injection Hrow as <-. apply bind_ok in H as (source&s1&Hsource&H).
  assert (s1 = s) as -> by (destruct (has_tenant env); [destruct created_by as [|? [|? ?]]; try done|]; by injection Hsource as _ <-).
  apply gets_ok in H as [-> ->]. cbn [cv_row cv_beneficiaries cv_operations]. split_and!; try done; [by exists u| | |apply firstn_le_length].
  - intros kb Hin. rewrite Hpay in Hin. destruct kb as [k b]. apply find_many_elem in Hin as [_ Hb]. simpl in Hb.
    by apply andb_true_iff in Hb as [Hb%String.eqb_eq _].
  - intros ko Hin. apply (subseteq_take 20) in Hin. rewrite Hops in Hin. destruct ko as [k o].
    apply find_many_elem in Hin as [_ Ho]. by apply String.eqb_eq in Ho.
Qed.
End correctness.
