(* ===== verification/ClientFinance.v ===== *)
(** The rules by which the web client reads and shows financial data
    ([src/features/finance/]): the state of a withdrawal ([withdrawal-status.ts]), the
    channel and fee of a payout ([payout-fee-resolution.ts]), conversion quotes
    ([conversion-quote.ts]), the accounts of a conversion ([otc-account-selection.ts]),
    custody wallets ([customer-wallet.ts], [crypto-wallet-status.ts],
    [digital-wallet-status.ts]), opening fees ([core-api.ts], [va-fee-presentation.ts])
    and the form checks of payees ([beneficiary-validation.ts]).  The views that call
    them are not modelled. *)
From S2P Require Import Prelude Decimals Schema JsNumber WithdrawalFees EdgeWorker.
From Stdlib Require Import Ascii SpecFloat.

(** ** The state of a withdrawal *)
Inductive FundsStatus :=
| not_reserved | reservation_pending | frozen | release_pending | released | settlement_pending | settled | review_required.
Inductive WithdrawalStatus := WS_SUBMITTED | WS_PROCESSING | WS_COMPLETED | WS_REJECTED | WS_FAILED.
#[export] Instance FundsStatus_eq_dec : EqDecision FundsStatus. Proof. solve_decision. Defined.
#[export] Instance WithdrawalStatus_eq_dec : EqDecision WithdrawalStatus. Proof. solve_decision. Defined.
Record WithdrawalStatusFacts := {
  wf_status : WithdrawalStatus; wf_rawStatus : option string; wf_custodyStatus : option string;
  wf_fundsStatus : option string; wf_amount : string; wf_netAmount : string;
  wf_txHash : option string; wf_cregisCID : option string; wf_canReconcileCregisCID : option bool;
}.
Record WithdrawalStatusPresentation := {
  wp_statusLabel : string; wp_statusColor : string; wp_fundsLabel : string; wp_chainAmountLabel : string;
  wp_expectedArrivalLabel : string; wp_transactionHashLabel : string;
  wp_alert : option (string * string); wp_canReconcileCregisCID : bool; wp_needsAttention : bool;
}.
Definition funds_text (f : FundsStatus) : string :=
  match f with
  | not_reserved => "not_reserved" | reservation_pending => "reservation_pending" | frozen => "frozen"
  | release_pending => "release_pending" | released => "released" | settlement_pending => "settlement_pending"
  | settled => "settled" | review_required => "review_required"
  end.
Definition knownFundsStatuses : list FundsStatus :=
  [not_reserved; reservation_pending; frozen; release_pending; released; settlement_pending; settled; review_required].
Definition normalizeFundsStatus (facts : WithdrawalStatusFacts) : FundsStatus :=
  default review_required
    (List.find (λ f, opt_eqb facts.(wf_fundsStatus) (Some (funds_text f))) knownFundsStatuses).

Inductive ChainStatus := not_submitted | waiting | completed | not_sent | chain_review_required.
#[export] Instance ChainStatus_eq_dec : EqDecision ChainStatus. Proof. solve_decision. Defined.
Definition raw_is (facts : WithdrawalStatusFacts) (status : string) : bool := opt_eqb facts.(wf_rawStatus) (Some status).
Definition normalizeChainStatus (facts : WithdrawalStatusFacts) : ChainStatus :=
  let raw := default "" facts.(wf_rawStatus) in
  let custodyStatus := default "" (or_string facts.(wf_custodyStatus) facts.(wf_rawStatus)) in
  if opt_truthy facts.(wf_txHash) || String.eqb raw "completed" || String.eqb custodyStatus "completed" then completed
  else if includes ["provider_rejected"; "rejected"; "failed"; "cancelled"] raw then not_sent
  else if includes ["rejected"; "failed"; "cancelled"] custodyStatus then not_sent
  else if String.eqb raw "exception" || String.eqb custodyStatus "exception" then chain_review_required
  else if opt_truthy facts.(wf_cregisCID) || includes ["submitted_to_cregis"; "executing"] custodyStatus ||
          same facts.(wf_status) WS_PROCESSING then waiting
  else not_submitted.

Definition fundsLabel (status : FundsStatus) (amount : string) : string :=
  let amountLabel := amount +:+ " USDT" in
  match status with
  | not_reserved => "未冻结（无 Core 资金占用）"
  | reservation_pending => "等待 Core 冻结"
  | frozen => amountLabel +:+ " 已冻结"
  | release_pending => amountLabel +:+ " 待释放"
  | released => amountLabel +:+ " 已释放"
  | settlement_pending => amountLabel +:+ " 待结算"
  | settled => amountLabel +:+ " 已扣账"
  | review_required => "待核实（不可推断已冻结）"
  end.

Definition statusPresentation (facts : WithdrawalStatusFacts) (fundsStatus : FundsStatus) : string * string :=
  let unreserved := same fundsStatus not_reserved in
  if raw_is facts "provider_rejected" then
    (if unreserved then "Cregis 已驳回 · 无资金影响" else "Cregis 已驳回 · 待对账", "error")
  else if raw_is facts "reconciliation_held" then ("历史对账待放行", "warning")
  else if raw_is facts "pending_release" then ("等待资金释放", "warning")
  else if raw_is facts "releasing" then ("资金释放中", "info")
  else if raw_is facts "exception" then (if unreserved then "处理失败 · 无资金影响" else "异常待核对", "warning")
  else if raw_is facts "cancelled" then (if unreserved then "已取消 · 无资金影响" else "已取消", "default")
  else if raw_is facts "rejected" && unreserved then ("已驳回 · 无资金影响", "error")
  else if raw_is facts "failed" && unreserved then ("执行失败 · 无资金影响", "error")
  else match facts.(wf_status) with
       | WS_SUBMITTED => ("待审批", "warning")
       | WS_PROCESSING => ("处理中", "info")
       | WS_COMPLETED => ("已完成", "success")
       | WS_REJECTED => ("已驳回", "error")
       | WS_FAILED => ("失败", "error")
       end.

(** The alert (severity and text) and whether the row needs attention. *)
Definition alertPresentation (facts : WithdrawalStatusFacts) (fundsStatus : FundsStatus) : option (string * string) * bool :=
  let unreserved := same fundsStatus not_reserved in
  if raw_is facts "provider_rejected" && unreserved then
    (Some ("error", "Cregis 已签名驳回，未生成 TXID，未发生链上转出。系统未建立 Core 资金占用，该指令未冻结客户余额，无需退款或释放；该历史状态仍需按审批流程关闭。"), true)
  else if raw_is facts "failed" && unreserved then
    (Some ("warning", "指令执行失败，未发生链上转出，且未建立 Core 资金占用。该指令未冻结客户余额，无需退款、释放或关联 Cregis CID。"), false)
  else if raw_is facts "rejected" && unreserved then
    (Some ("info", "指令在提交 Cregis 前已驳回，未发生链上转出，也未建立 Core 资金占用。该指令未冻结客户余额，无需退款或释放。"), false)
  else if raw_is facts "exception" then
    if same fundsStatus frozen then
      (Some ("warning", "该指令处于异常待核对状态，Core 已冻结 " +:+ facts.(wf_amount) +:+ " USDT。仅在 Cregis 后台确认对应 CID 后关联，并继续等待签名终态回调；切勿重复提交或人工修改余额。"), true)
    else if unreserved then
      (Some ("warning", "该异常指令未建立 Core 资金占用，也未冻结客户余额。无需退款、释放或关联 Cregis CID；请按历史状态关闭流程处理。"), true)
    else
      (Some ("warning", "该指令的 Core 资金占用证据不完整，不能判定已冻结或已释放。请先完成只读核对；切勿重复提交、关联 CID 或人工修改余额。"), true)
  else if raw_is facts "provider_rejected" then
    (Some ("error", "Cregis 已签名驳回且未发生链上转出。Core 资金尚未完成关闭，请通过受审批的历史出款对账流程释放或核实，切勿重复提交或直接修改余额。"), true)
  else if raw_is facts "reconciliation_held" then
    (Some ("warning", "历史出款证据已固化，当前未移动资金。完成独立复核后，使用受审批的释放步骤送入自动释放队列。"), true)
  else if raw_is facts "pending_release" then
    (Some ("warning", "出款已进入终止流程，Core 资金正在等待会计 Worker 自动释放；当前尚未完成，请勿人工修改余额。"), true)
  else if raw_is facts "releasing" then
    (Some ("info", "会计 Worker 正在原子释放 Account 与 CryptoWallet 的冻结余额，请等待资金状态变为“已释放”。"), true)
  else if same fundsStatus review_required then
    (Some ("warning", "该指令的 Core 资金占用证据不完整，不能判定已冻结、已释放或已扣账。请先完成只读核对，勿执行资金操作。"), true)
  else (None, false).

Definition chainAmountLabel (facts : WithdrawalStatusFacts) (status : ChainStatus) : string :=
  match status with
  | not_submitted => "尚未发送" | waiting => "等待 Cregis 终态确认" | completed => facts.(wf_netAmount) +:+ " USDT"
  | not_sent => "未发送" | chain_review_required => "待 Cregis 核实"
  end.
Definition expectedArrivalLabel (facts : WithdrawalStatusFacts) (status : ChainStatus) : string :=
  match status with
  | not_submitted | waiting | completed => facts.(wf_netAmount) +:+ " USDT"
  | not_sent => "—" | chain_review_required => "待确认"
  end.
Definition transactionHashLabel (facts : WithdrawalStatusFacts) (status : ChainStatus) : string :=
  match status with
  | not_submitted => "尚未生成" | waiting => "等待 Cregis 回调"
  | completed => default "" (or_string facts.(wf_txHash) (Some "异常：缺少 TXID"))
  | not_sent => "无" | chain_review_required => "待核实"
  end.
Definition withdrawalStatusPresentation (facts : WithdrawalStatusFacts) : WithdrawalStatusPresentation :=
  let fundsStatus := normalizeFundsStatus facts in
  let chainStatus := normalizeChainStatus facts in
  let status := statusPresentation facts fundsStatus in
  let alert := alertPresentation facts fundsStatus in
  {| wp_statusLabel := status.1; wp_statusColor := status.2; wp_alert := alert.1; wp_needsAttention := alert.2;
     wp_fundsLabel := fundsLabel fundsStatus facts.(wf_amount);
     wp_chainAmountLabel := chainAmountLabel facts chainStatus;
     wp_expectedArrivalLabel := expectedArrivalLabel facts chainStatus;
     wp_transactionHashLabel := transactionHashLabel facts chainStatus;
     wp_canReconcileCregisCID :=
       opt_eqb facts.(wf_canReconcileCregisCID) (Some true) && raw_is facts "exception" && same fundsStatus frozen |}.

(** ** The channel and the fee of a payout
    A channel with its id, and the rules as the API serializes them. *)
Section payout.
Context {DO : DecimalOps}.
Definition payout_channel_type (method : string) : string :=
  if String.eqb method "VA" then "VIRTUAL_ACCOUNT" else method +:+ "_PAYOUT".
Definition eligible_channel (method : string) (currency : Currency) (fundingChannelId : option string)
    (candidate : string * FundingChannel) : bool :=
  String.eqb (channel_type_text candidate.2.(chan_type)) (payout_channel_type method) && candidate.2.(chan_active) &&
  includes candidate.2.(chan_supportedCurrencies) currency &&
  (negb (String.eqb method "VA") || opt_eqb (Some candidate.1) fundingChannelId).
Definition eligible_fee (eligible : list (string * FundingChannel)) (method : string) (currency : Currency) (candidate : FeeRuleView) : bool :=
  String.eqb candidate.(view_assetClass) "FIAT" && same candidate.(view_currency) currency &&
  String.eqb candidate.(view_method) method && candidate.(view_active) &&
  existsb (λ channel, String.eqb channel.2.(chan_code) candidate.(view_channelCode)) eligible.
Definition resolveConfiguredPayout (channels : list (string * FundingChannel)) (fees : list FeeRuleView)
    (method : string) (currency : Currency) (fundingChannelId : option string) :
    option ((string * FundingChannel) * FeeRuleView) :=
  let eligibleChannels := List.filter (eligible_channel method currency fundingChannelId) channels in
  match List.find (eligible_fee eligibleChannels method currency) fees with
  | None => None
  | Some fee =>
      match List.find (λ candidate, String.eqb candidate.2.(chan_code) fee.(view_channelCode)) eligibleChannels with
      | Some channel => Some (channel, fee)
      | None => None
      end
  end.
End payout.

(** ** Accounts *)
Record MoneyAccount := {
  ma_id : string; ma_customerId : option string; ma_kind : AccountKind; ma_status : string; ma_currency : Currency;
  ma_name : string; ma_walletAddress : option string; ma_network : option string;
  ma_availableBalance : string; ma_frozenBalance : string;
}.
Definition supportedFiatCurrencies : list Currency := [USD; HKD].
Definition supportedCryptoNetwork : string := "TRON".
Definition SYSTEM_WALLET_PRODUCT_NAME : string := "SSC钱包".
Definition accountProductName (account : MoneyAccount) : string :=
  match account.(ma_kind) with
  | SYSTEM_WALLET => SYSTEM_WALLET_PRODUCT_NAME
  | VIRTUAL_ACCOUNT => "VA 账户"
  | CRYPTO_WALLET => "数字钱包"
  | _ => account.(ma_name)
  end.
Definition accountBalanceLabel (account : MoneyAccount) : string :=
  accountProductName account +:+ " · " +:+ currency_text account.(ma_currency).
Definition isSupportedPortalAccount (account : MoneyAccount) : bool :=
  includes supportedFiatCurrencies account.(ma_currency) ||
  (same account.(ma_currency) USDT && opt_eqb account.(ma_network) (Some supportedCryptoNetwork)).

(** *** Of a conversion *)
Inductive OtcDirection := BUY_USDT | SELL_USDT.
Definition isFiatAccount (account : MoneyAccount) : bool :=
  differs account.(ma_kind) CRYPTO_WALLET && includes supportedFiatCurrencies account.(ma_currency).
Definition isUsdtWallet (account : MoneyAccount) : bool :=
  same account.(ma_kind) CRYPTO_WALLET && same account.(ma_currency) USDT && opt_eqb account.(ma_network) (Some "TRON").
Definition live_wallet (account : MoneyAccount) : bool :=
  String.eqb account.(ma_status) "ACTIVE" && isUsdtWallet account && isSupportedPortalAccount account.
(** [{ ...coreWallet, walletAddress, availableBalance, frozenBalance }] of the live one. *)
Definition with_live_balances (core live : MoneyAccount) : MoneyAccount :=
  {| ma_id := core.(ma_id); ma_customerId := core.(ma_customerId); ma_kind := core.(ma_kind);
     ma_status := core.(ma_status); ma_currency := core.(ma_currency); ma_name := core.(ma_name);
     ma_walletAddress := live.(ma_walletAddress); ma_network := core.(ma_network);
     ma_availableBalance := live.(ma_availableBalance); ma_frozenBalance := live.(ma_frozenBalance) |}.
Definition same_wallet (core account : MoneyAccount) : bool :=
  opt_eqb account.(ma_customerId) core.(ma_customerId) && same account.(ma_currency) core.(ma_currency) &&
  opt_eqb account.(ma_network) core.(ma_network).
Definition mergeLiveCustomerWallets (detailAccounts customerAccounts : list MoneyAccount) : list MoneyAccount :=
  let activeLiveWallets := List.filter live_wallet customerAccounts in
  let activeCoreWallets := List.filter live_wallet detailAccounts in
  List.filter (λ account, differs account.(ma_kind) CRYPTO_WALLET) detailAccounts ++
  flat_map (λ coreWallet,
    match List.find (same_wallet coreWallet) activeLiveWallets with
    | Some liveWallet => [with_live_balances coreWallet liveWallet]
    | None => []
    end) activeCoreWallets.
Definition otcSourceAccounts (accounts : list MoneyAccount) (direction : OtcDirection) : list MoneyAccount :=
  List.filter (λ account, match direction with BUY_USDT => isFiatAccount account | SELL_USDT => isUsdtWallet account end) accounts.
Definition otcTargetAccounts (accounts : list MoneyAccount) (direction : OtcDirection) (sourceId : string) : list MoneyAccount :=
  List.filter (λ account, negb (String.eqb account.(ma_id) sourceId) &&
    match direction with BUY_USDT => isUsdtWallet account | SELL_USDT => isFiatAccount account end) accounts.

(** ** Conversion quotes *)
Definition LIVE_QUOTE_MAX_AGE_MS : Z := 2 * 60 * 1000.
Record RateVersion := {
  rv_type : string; rv_baseCurrency : Currency; rv_quoteCurrency : Currency; rv_active : bool;
  rv_effectiveFrom : string; rv_effectiveUntil : option string;
  rv_marketRate : option string; rv_customerRate : option string; rv_marketFetchedAt : option string;
  rv_marketUnavailable : bool;
}.
Inductive ConversionQuote :=
| Q_incomplete | Q_loading (rate : option RateVersion) | Q_unavailable (rate : option RateVersion)
| Q_stale (rate : RateVersion) | Q_ready (rate : RateVersion) (received : number).
(** [Number(value)] of an optional text; [Number(undefined)] is NaN. *)
Definition number_of (value : option string) : number :=
  match value with Some x => n_of_string x | None => n_NaN end.
(** [Number.isFinite(x) && x > 0] *)
Definition positive_finite (x : number) : bool := n_isFinite x && n_lt (n_ofZ 0) x.
Section dates.
Context {JD : JsDates}.
Definition isRateVersionEffective (rate : RateVersion) (now : Z) : bool :=
  match date_parse rate.(rv_effectiveFrom) with
  | None => false
  | Some effectiveFrom =>
      if now <? effectiveFrom then false
      else if negb (opt_truthy rate.(rv_effectiveUntil)) then true
      else match date_parse (default "" rate.(rv_effectiveUntil)) with Some until => now <? until | None => false end
  end.
Definition quoted_rate (type : string) (source target : MoneyAccount) (now : Z) (row : RateVersion) : bool :=
  row.(rv_active) && String.eqb row.(rv_type) type && same row.(rv_baseCurrency) source.(ma_currency) &&
  same row.(rv_quoteCurrency) target.(ma_currency) && isRateVersionEffective row now.
Definition waiting_or_unavailable (loading : bool) (rate : option RateVersion) : ConversionQuote :=
  if loading then Q_loading rate else Q_unavailable rate.
Definition resolveConversionQuote (type : string) (source target : option MoneyAccount) (amount : string)
    (rates : list RateVersion) (loading : bool) (now : Z) : ConversionQuote :=
  let sourceAmount := n_of_string amount in
  match source, target with
  | Some source, Some target =>
      if negb (truthy amount) || negb (positive_finite sourceAmount) then Q_incomplete
      else match List.find (quoted_rate type source target now) rates with
      | None => waiting_or_unavailable loading None
      | Some rate =>
          let customerRate := number_of rate.(rv_customerRate) in
          if rate.(rv_marketUnavailable) || negb (positive_finite (number_of rate.(rv_marketRate))) ||
             negb (positive_finite customerRate) then waiting_or_unavailable loading (Some rate)
          else
            let fetchedAt := if opt_truthy rate.(rv_marketFetchedAt)
                             then date_parse (default "" rate.(rv_marketFetchedAt)) else None in
            match fetchedAt with
            | None => Q_stale rate
            | Some fetchedAt =>
                if (fetchedAt <? now - LIVE_QUOTE_MAX_AGE_MS) || (now + 30 * 1000 <? fetchedAt) then Q_stale rate
                else
                  let received := n_mul sourceAmount customerRate in
                  if negb (positive_finite received) then Q_unavailable (Some rate) else Q_ready rate received
            end
      end
  | _, _ => Q_incomplete
  end.
End dates.

(** ** Custody wallets *)
Inductive CryptoWalletStatus := CW_PENDING | CW_CREATING | CW_ACTIVE | CW_ERROR | CW_FROZEN | CW_CLOSED | CW_DISABLED.
#[export] Instance CryptoWalletStatus_eq_dec : EqDecision CryptoWalletStatus. Proof. solve_decision. Defined.
Definition walletStatuses : list CryptoWalletStatus := [CW_PENDING; CW_CREATING; CW_ACTIVE; CW_ERROR; CW_FROZEN; CW_CLOSED; CW_DISABLED].
Definition wallet_status_text (s : CryptoWalletStatus) : string :=
  match s with
  | CW_PENDING => "PENDING" | CW_CREATING => "CREATING" | CW_ACTIVE => "ACTIVE" | CW_ERROR => "ERROR"
  | CW_FROZEN => "FROZEN" | CW_CLOSED => "CLOSED" | CW_DISABLED => "DISABLED"
  end.
Definition normalizeCryptoWalletStatus (value : string) : CryptoWalletStatus :=
  default CW_ERROR (List.find (λ s, String.eqb (wallet_status_text s) (toUpperCase (trim value))) walletStatuses).
Definition cryptoWalletStatusDetails (s : CryptoWalletStatus) : string * string :=
  match s with
  | CW_PENDING => ("待开通", "warning") | CW_CREATING => ("创建中", "info") | CW_ACTIVE => ("正常", "success")
  | CW_ERROR => ("异常", "error") | CW_FROZEN => ("已冻结", "warning") | CW_CLOSED => ("已关闭", "default")
  | CW_DISABLED => ("已停用", "default")
  end.

(** A row of the custody service; [deposit_enabled] by its truth value. *)
Record CustomerWalletRow := {
  cw_id : string; cw_customer_id : string; cw_address : option string; cw_status : string;
  cw_custody_provider : option string; cw_ownership_verified_at : option string; cw_deposit_enabled : bool;
  cw_available_balance : option string; cw_frozen_balance : option string;
  cw_withdrawal_fee_amount : option string; cw_withdrawal_fee_rule_version : option string;
}.
(** The members of a [CryptoWallet] that are not constants. *)
Record CryptoWallet := {
  cy_id : string; cy_customerId : string; cy_walletAddress : string; cy_status : CryptoWalletStatus;
  cy_availableBalance : string; cy_frozenBalance : string; cy_withdrawalFee : string;
  cy_withdrawalFeeRuleVersion : option string; cy_custodyProvider : option string;
  cy_ownershipVerifiedAt : option string; cy_depositEnabled : bool;
}.
Definition text_or (value : option string) (d : string) : string := default d (or_string value (Some d)).
Definition toCustomerCryptoWallet (row : CustomerWalletRow) : CryptoWallet :=
  {| cy_id := row.(cw_id); cy_customerId := row.(cw_customer_id);
     cy_walletAddress := if row.(cw_deposit_enabled) then text_or row.(cw_address) "" else "";
     cy_status := normalizeCryptoWalletStatus row.(cw_status);
     cy_availableBalance := text_or row.(cw_available_balance) "0";
     cy_frozenBalance := text_or row.(cw_frozen_balance) "0";
     cy_withdrawalFee := text_or row.(cw_withdrawal_fee_amount) "0";
     cy_withdrawalFeeRuleVersion := row.(cw_withdrawal_fee_rule_version);
     cy_custodyProvider := if opt_eqb row.(cw_custody_provider) (Some "cregis") then Some "CREGIS" else None;
     cy_ownershipVerifiedAt := or_string row.(cw_ownership_verified_at) None;
     cy_depositEnabled := row.(cw_deposit_enabled) && opt_truthy row.(cw_address) |}.
Definition activeCustomerWalletAccounts (rows : list CustomerWalletRow) : list MoneyAccount :=
  flat_map (λ row,
    let wallet := toCustomerCryptoWallet row in
    if differs wallet.(cy_status) CW_ACTIVE then []
    else [{| ma_id := wallet.(cy_id); ma_customerId := Some wallet.(cy_customerId); ma_kind := CRYPTO_WALLET;
             ma_status := "ACTIVE"; ma_currency := USDT; ma_name := "USDT 数字钱包";
             ma_walletAddress := Some wallet.(cy_walletAddress); ma_network := Some "TRON";
             ma_availableBalance := wallet.(cy_availableBalance); ma_frozenBalance := wallet.(cy_frozenBalance) |}]) rows.

(** Label, colour and description of a wallet; every [CryptoWallet] is on TRON. *)
Definition digitalWalletPresentation (account : MoneyAccount) (wallet : option CryptoWallet) (loading error : bool) :
    string * string * string :=
  let network := text_or account.(ma_network) "TRON" in
  if negb (String.eqb account.(ma_status) "ACTIVE") then (account.(ma_status), "warning", network +:+ " · 操作已禁用")
  else if loading then ("状态读取中", "default", network +:+ " · 正在读取 Cregis 状态")
  else if error then ("状态异常", "error", network +:+ " · Cregis 状态读取失败")
  else if match wallet with
          | Some w => same w.(cy_status) CW_ACTIVE && opt_eqb w.(cy_custodyProvider) (Some "CREGIS") &&
                      opt_truthy w.(cy_ownershipVerifiedAt) && w.(cy_depositEnabled) && truthy w.(cy_walletAddress)
          | None => false
          end
  then ("ACTIVE", "success", network +:+ " · Cregis 已验证")
  else ("等待 Cregis", "default", network +:+ " · 地址归属待验证").

(** ** Opening fees *)
Record VaOpeningFeeQuote := {
  vq_feeUsd : option string; vq_wallet : option MoneyAccount; vq_availableUsd : option string;
  vq_availableAfterUsd : option string; vq_disabledReason : option string;
}.
Section fees.
Context {NT : JsNumberText}.
(** [openingFeeUsd] of the channel; [None]: no channel, or no fee. *)
Definition vaOpeningFeeQuote (openingFeeUsd : option string) (accounts : list MoneyAccount) : VaOpeningFeeQuote :=
  let none reason := {| vq_feeUsd := None; vq_wallet := None; vq_availableUsd := None; vq_availableAfterUsd := None;
                        vq_disabledReason := Some reason |} in
  match openingFeeUsd with
  | None => none "fee_not_configured"
  | Some text =>
      let fee := n_of_string text in
      if negb (n_isFinite fee) then none "fee_not_configured"
      else
        let feeUsd := Some (n_toFixed fee 2) in
        match List.find (λ account, same account.(ma_kind) SYSTEM_WALLET && same account.(ma_currency) USD &&
                                    String.eqb account.(ma_status) "ACTIVE") accounts with
        | None => {| vq_feeUsd := feeUsd; vq_wallet := None; vq_availableUsd := None; vq_availableAfterUsd := None;
                     vq_disabledReason := match fee with SpecFloat.S754_zero _ => None | _ => Some "usd_wallet_missing" end |}
        | Some wallet =>
            let available := n_of_string wallet.(ma_availableBalance) in
            {| vq_feeUsd := feeUsd; vq_wallet := Some wallet; vq_availableUsd := Some (n_toFixed available 2);
               vq_availableAfterUsd := Some (n_toFixed (n_sub available fee) 2);
               vq_disabledReason := if n_lt available fee then Some "insufficient_balance" else None |}
        end
  end.
End fees.
(** [vaFeeBasis]: the waiver, or what the standard fee says. *)
Definition vaFeeBasis (waiverBasis standardUsd basis : option string) (openingFeeUsd : string) : string :=
  match or_string waiverBasis None with
  | Some waiver => waiver
  | None => match n_of_string (default openingFeeUsd standardUsd) with
            | SpecFloat.S754_zero _ => "BANK_FREE"
            | _ => text_or basis "STANDARD"
            end
  end.
Definition vaFeeBasisLabel (basis : string) : string :=
  if String.eqb basis "INTERNAL" then "内部人员减免" else if String.eqb basis "SPECIAL" then "特殊客户减免"
  else if String.eqb basis "BANK_FREE" then "银行免费" else "标准收费".

(** ** Form checks of a payee *)
Definition normalizeSwiftBic (value : string) : string :=
  String.string_of_list_ascii (List.filter (λ c, negb (is_space c)) (String.list_ascii_of_string (toUpperCase (trim value)))).
Definition upper_letter (c : ascii) : bool := let n := nat_of_ascii c in Nat.leb 65 n && Nat.leb n 90.
Definition upper_alnum (c : ascii) : bool := let n := nat_of_ascii c in upper_letter c || (Nat.leb 48 n && Nat.leb n 57).
(** [/^[A-Z]{6}[A-Z0-9]{2}(?:[A-Z0-9]{3})?$/] *)
Definition swiftBicPattern (s : string) : bool :=
  let l := String.list_ascii_of_string s in
  (Nat.eqb (length l) 8 || Nat.eqb (length l) 11) && forallb upper_letter (firstn 6 l) && forallb upper_alnum (skipn 6 l).
Definition isValidOptionalSwiftBic (value : string) : bool :=
  let normalized := normalizeSwiftBic value in String.eqb normalized "" || swiftBicPattern normalized.
(** [completedAccountCustomers], by status and KYC status. *)
Definition completed_customer (status kycStatus : string) : bool := String.eqb status "ACTIVE" && String.eqb kycStatus "APPROVED".
Definition completedAccountCustomers {A} (status kycStatus : A → string) (customers : list A) : list A :=
  List.filter (λ customer, completed_customer (status customer) (kycStatus customer)) customers.
