(* ===== verification/ClientFees.v ===== *)
(** The fee the portal shows for a payout against the fee the core charges: the client
    picks a channel and a rule among what the API lists
    ([payout-fee-resolution.ts], [WithdrawalFeesService.list]) and sends the rule's amount
    and version back with the payout ([pages/portal/customer-action.tsx]); the core
    prices the payout again ([OperationsService.create]).  Also what the pages say of
    withdrawals, wallets and quotes. *)
From S2P Require Import Prelude Decimals Schema Access WithdrawalFees Ledger Operations OperationEffects OperationCreation Samples WithdrawalFeeProperties Accounts Customers VirtualAccounts CustomerRecords JsNumber EdgeWorker ClientFinance.
From Stdlib Require Import Ascii.

Section portal_fee.
Context {DO : DecimalOps} {DL : DecimalLaws DO}.

(** Fiat rules as [upsert] writes them: without a network, and not in the tenant's scope. *)
Definition fiat_rules_plain (env : ProcessEnv) (org : string) (s : Db) : Prop :=
  ∀ id r, s.(feeRules) !! id = Some r → r.(rule_assetClass) = "FIAT" →
  r.(rule_network) = "" ∧ (r.(rule_scopeId) = trim_or env.(NEOBANK_SOURCE_TENANT_ID) org → r.(rule_scopeId) = org).
(** The amount of a rule in units of 10^-8. *)
Definition rule_units (r : WithdrawalFeeRule) : Z := r.(rule_feeAmountMinor) * 10 ^ (8 - r.(rule_feeDecimals)).
(** decimal.js reads back what it has printed. *)
Definition reads_back (r : WithdrawalFeeRule) : Prop :=
  ∃ d, d_parse (fromMinor r.(rule_feeAmountMinor) r.(rule_feeDecimals)) = Some d ∧ d_units 8 d = Some (rule_units r).
(** The payout the portal submits for the pair it has resolved. *)
Definition portal_payout (input : CreateOperationInput) (p : Parties) (m : PayoutMethod)
    (channel : string * FundingChannel) (fee : FeeRuleView) : Prop :=
  input.(i_payoutMethod) = Some m ∧ p.(p_channel) = Some channel ∧
  input.(i_expectedFeeRuleVersion) = Some fee.(view_version) ∧ input.(i_expectedFeeAmount) = Some fee.(view_amount).
Definition payout_scope_of (input : CreateOperationInput) (p : Parties) (m : PayoutMethod) (code : string) : FeeScope :=
  {| fs_scopeId := p.(p_customer).(cust_organizationId); fs_customerId := Some input.(i_customerId);
     fs_assetClass := "FIAT"; fs_currency := input.(i_currency); fs_method := payout_method_text m;
     fs_channelCode := code; fs_network := None; fs_expectedVersion := input.(i_expectedFeeRuleVersion) |}.

(** A pair the client resolves: a listed rule of its own channel. *)
Lemma resolved_pair channels fees method currency fcid kc fee :
  resolveConfiguredPayout channels fees method currency fcid = Some (kc, fee) →
  fee ∈ fees ∧ kc ∈ channels ∧ eligible_channel method currency fcid kc = true ∧
  kc.2.(chan_code) = fee.(view_channelCode) ∧ fee.(view_assetClass) = "FIAT" ∧ fee.(view_currency) = currency ∧
  fee.(view_method) = method ∧ fee.(view_active) = true.
Proof.
  unfold resolveConfiguredPayout. destruct (List.find _ fees) as [f|] eqn:Ef; [|done].
  destruct (List.find _ (List.filter _ channels)) as [c|] eqn:Ec; [|done]. intros [= -> ->].
  apply List.find_some in Ef as [Hf He]. apply List.find_some in Ec as [Hc Hcode%String.eqb_eq].
  apply filter_In in Hc as [Hc Helig]. unfold eligible_fee in He. rewrite !andb_true_iff, !String.eqb_eq, same_true in He.
  destruct He as ((((H1 & H2) & H3) & H4) & _). split_and!; try done; by apply list_elem_of_In.
Qed.
Lemma listed_rule env ordered org userId s fees fee :
  (∀ l, ordered l ≡ₚ l) → list_rules env ordered org userId (Some true) None s = inr (fees, s) → fee ∈ fees →
  ∃ id r, s.(feeRules) !! id = Some r ∧ fee = serialize r None ∧
    (r.(rule_scopeId) = org ∨ r.(rule_scopeId) = trim_or env.(NEOBANK_SOURCE_TENANT_ID) org).
Proof.
  intros Hord H Hin. unfold list_rules in H. apply bind_ok in H as (u & s1 & _ & H).
  apply bind_ok in H as (? & s2 & [-> ->]%ret_ok & [-> ->]%gets_ok).
  apply list_elem_of_fmap in Hin as ([id r] & -> & Hin). rewrite Hord in Hin.
  apply find_many_elem in Hin as [Hl Hm]. exists id, r. split; [done|]. split; [done|].
  unfold rule_listed in Hm. rewrite !andb_true_iff, includes_true in Hm. destruct Hm as [[_ Hs] _]. simpl in Hs.
  apply list_elem_of_In in Hs as [<-|[<-|[]]]; auto.
Qed.

(** The rule shown is the organisation's rule for the scope the core prices. *)
Lemma shown_rule env ordered org userId s fees channels m currency fcid kc fee input p :
  fiat_rules_plain env org s → (∀ l, ordered l ≡ₚ l) →
  list_rules env ordered org userId (Some true) None s = inr (fees, s) →
  resolveConfiguredPayout channels fees (payout_method_text m) currency fcid = Some (kc, fee) →
  toUpperCase (trim kc.2.(chan_code)) = kc.2.(chan_code) →
  p.(p_customer).(cust_organizationId) = org → input.(i_currency) = currency →
  ∃ id r, fee = serialize r None ∧ matches_in (payout_scope_of input p m kc.2.(chan_code)) org s id r.
Proof.
  intros Hplain Hord Hlist Hres Hcode Horg Hcur.
  apply resolved_pair in Hres as (Hin & _ & _ & Hch & Hcl & Hcy & Hme & Hac).
  destruct (listed_rule _ _ _ _ _ _ _ Hord Hlist Hin) as (id & r & Hr & -> & Hscope).
  exists id, r. split; [done|]. simpl in Hch, Hcl, Hcy, Hme, Hac.
  destruct (Hplain id r Hr Hcl) as [Hnet Htenant]. assert (Hs : rule_scopeId r = org) by (destruct Hscope; auto).
  split; [done|]. split; [done|]. unfold payout_scope_of. split; simpl; [congruence..|by rewrite Hnet].
Qed.
Lemma price_payout_scope input p m channel s : input.(i_payoutMethod) = Some m → p.(p_channel) = Some channel →
  price_payout input p s =
  (let! fee := resolve (payout_scope_of input p m channel.2.(chan_code)) in
   match input.(i_expectedFeeAmount) with
   | None => ret fee
   | Some text =>
       let! expected := decimal text in
       do! throw_if (negb (d_eq fee.(fee_amount) expected)) (Conflict "withdrawal_fee_changed");
       ret fee
   end) s.
Proof. intros Hm Hc. unfold price_payout. rewrite Hm, Hc. by destruct channel. Qed.

(** What a payout submitted by the portal comes to when the core prices it with the
    rule [r], of which the portal has shown [shown]. *)
Lemma priced_against input p m channel s id r shown :
  rule_keys_unique s → rules_exact s → portal_payout input p m channel (serialize shown None) → reads_back shown →
  priced_by (payout_scope_of input p m channel.2.(chan_code)) s id r →
  (pretty r.(rule_version) = pretty shown.(rule_version) ∧ rule_units r = rule_units shown →
   ∃ fee, price_payout input p s = inr (fee, s) ∧ fee.(fee_version) = pretty r.(rule_version) ∧
     d_units 8 fee.(fee_amount) = Some (rule_units r)) ∧
  (pretty r.(rule_version) ≠ pretty shown.(rule_version) ∨ rule_units r ≠ rule_units shown →
   price_payout input p s = inl (Conflict "withdrawal_fee_changed")).
Proof.
  intros Hu Hex (Hm & Hc & Hv & Ha) (d & Hd & Hdu) Hp.
  destruct (resolve_answers (payout_scope_of input p m channel.2.(chan_code)) s Hu) as (Hok & Hchanged & _).
  assert (Hr : feeRules s !! id = Some r) by (destruct Hp as [[_ (? & _)]|[(? & _) _]]; done).
  destruct (Hex id r Hr) as [Hchk Hb]. rewrite (price_payout_scope _ _ _ _ _ Hm Hc), Ha. simpl in Ha, Hv. cbn [view_amount serialize].
  assert (Hrun : pretty r.(rule_version) = pretty shown.(rule_version) →
    ∃ fee, resolve (payout_scope_of input p m channel.2.(chan_code)) s = inr (fee, s) ∧
      fee.(fee_version) = pretty r.(rule_version) ∧ d_units 8 fee.(fee_amount) = Some (rule_units r)).
  { intros E. apply (Hok id r Hp); [|done|done]. cbn. by rewrite Hv, E. }
  split.
  - intros [E Eu]. destruct (Hrun E) as (fee & Hf & Hver & Hun). exists fee. split; [|done].
    rewrite (bind_run _ _ _ _ _ Hf). unfold decimal. run require_run; [exact Hd|]. run throw_if_run; [|reflexivity].
    by rewrite (eq_units 8 _ _ _ _ Hun Hdu), Eu, Z.eqb_refl.
  - intros Hne. destruct (decide (pretty r.(rule_version) = pretty shown.(rule_version))) as [E|E].
    + destruct Hne as [|Hne]; [done|]. destruct (Hrun E) as (fee & Hf & _ & Hun).
      rewrite (bind_run _ _ _ _ _ Hf). unfold decimal. run require_run; [exact Hd|].
      unfold bind, throw_if. rewrite (eq_units 8 _ _ _ _ Hun Hdu). apply Z.eqb_neq in Hne. by rewrite Hne.
    + apply bind_err. left. apply (Hchanged id r (pretty shown.(rule_version))); [done|exact Hv|].
      by apply not_eq_sym.
Qed.

(** C8: The fee a customer sees for a payout against the fee it is charged: the pair the portal
    resolves from the API's list is a rule of the organisation, and a payout submitted with it
    is charged exactly the amount and version shown when the customer has no fee of its own for
    that scope; when it has one with another version or amount, which the portal cannot see
    because the list is asked for without the customer, the core refuses the payout. *)
Theorem portal_fee_charged env ordered org userId s fees channels m currency fcid kc fee input p :
  rule_keys_unique s → rules_exact s → fiat_rules_plain env org s → (∀ l, ordered l ≡ₚ l) →
  list_rules env ordered org userId (Some true) None s = inr (fees, s) →
  resolveConfiguredPayout channels fees (payout_method_text m) currency fcid = Some (kc, fee) →
  toUpperCase (trim kc.2.(chan_code)) = kc.2.(chan_code) →
  p.(p_customer).(cust_organizationId) = org → input.(i_currency) = currency → truthy input.(i_customerId) = true →
  portal_payout input p m kc fee → (∀ id r, s.(feeRules) !! id = Some r → reads_back r) →
  let scope := payout_scope_of input p m kc.2.(chan_code) in
  ∃ id shown, s.(feeRules) !! id = Some shown ∧ fee = serialize shown None ∧
    ((∀ i r, ¬ matches_in scope input.(i_customerId) s i r) →
     ∃ charged, price_payout input p s = inr (charged, s) ∧ charged.(fee_version) = fee.(view_version) ∧
       d_units 8 charged.(fee_amount) = Some (rule_units shown)) ∧
    (∀ i own, matches_in scope input.(i_customerId) s i own →
     pretty own.(rule_version) ≠ pretty shown.(rule_version) ∨ rule_units own ≠ rule_units shown →
     price_payout input p s = inl (Conflict "withdrawal_fee_changed")).
Proof.
  intros Hu Hex Hplain Hord Hlist Hres Hcode Horg Hcur Hcust Hpp Hback scope.
  destruct (shown_rule _ _ _ _ _ _ _ _ _ _ _ _ input p Hplain Hord Hlist Hres Hcode Horg Hcur) as (id & shown & -> & Hm).
  specialize (Hback id shown (proj1 Hm)). exists id, shown. split; [apply Hm|]. split; [done|]. split.
  - intros Hno. assert (Hp : priced_by scope s id shown).
    { right. split; [by rewrite <- Horg in Hm|]. intros _. exact Hno. }
    by apply (priced_against input p m kc s id shown shown Hu Hex Hpp Hback Hp).
  - intros i own Hown Hne. assert (Hp : priced_by scope s i own) by (left; split; [exact Hcust|exact Hown]).
    by apply (priced_against input p m kc s i own shown Hu Hex Hpp Hback Hp).
Qed.
End portal_fee.

(** ** A customer with a fee of its own *)
Lemma rule_keys_decided s :
  forallb (λ a : string * WithdrawalFeeRule, forallb (λ b : string * WithdrawalFeeRule,
    negb (rule_key_eqb a.2 b.2) || String.eqb a.1 b.1) (map_to_list s.(feeRules))) (map_to_list s.(feeRules)) = true →
  rule_keys_unique s.
Proof.
  rewrite forallb_forall. intros H i j a b Ha Hb Hab.
  assert (Hi : In (i, a) (map_to_list s.(feeRules))) by (by apply list_elem_of_In, elem_of_map_to_list).
  specialize (H _ Hi). rewrite forallb_forall in H.
  assert (Hj : In (j, b) (map_to_list s.(feeRules))) by (by apply list_elem_of_In, elem_of_map_to_list).
  specialize (H _ Hj). simpl in H. rewrite Hab in H. by apply String.eqb_eq in H.
Qed.
Definition own_fee_db : Db := after upsert_run db0.
Definition own_fee_rule : WithdrawalFeeRule :=
  MkWithdrawalFeeRule "cus" (Some "org") "FIAT" USD "PLATFORM" "PAY1" "" 225 2 true 1 "adm" "adm".
Definition payout_channel0 : string * FundingChannel :=
  ("pay", MkFundingChannel "org" "PAY1" "Payouts" CT_PLATFORM_PAYOUT [USD] true None None None None None None None 1 None None).
Definition listed_fees (s : Db) : list FeeRuleView :=
  default [] (returns (list_rules env0 (λ l, l) "org" "adm" (Some true) None) id s).
Definition portal_input : CreateOperationInput := {|
  i_customerId := "cus"; i_type := PAYOUT; i_currency := USD; i_amount := "20"; i_feeAmount := None;
  i_expectedFeeAmount := Some "1.50"; i_expectedFeeRuleVersion := Some "1"; i_sourceAccountId := Some "usd";
  i_targetAccountId := None; i_beneficiaryId := Some "ben"; i_channelId := Some "pay"; i_payoutMethod := Some PM_PLATFORM;
  i_adjustmentDirection := None; i_quoteCurrency := None; i_narrative := None; i_idempotencyKey := Some "key";
  i_remitterName := None; i_remitterBank := None; i_remittanceReference := None; i_receivedAt := None;
  i_proofUrl := None; i_marketProvider := None; i_marketPriceType := None; i_marketReferenceOnly := None;
  i_marketRate := None; i_marketUpdatedAt := None; i_marketFetchedAt := None |}.
Definition portal_parties : Parties :=
  {| p_customer := customer0; p_source := None; p_target := None; p_channel := Some payout_channel0 |}.
Lemma own_fee_rows (P : WithdrawalFeeRule → bool) :
  forallb (λ kv, P kv.2) (map_to_list own_fee_db.(feeRules)) = true → ∀ id r, own_fee_db.(feeRules) !! id = Some r → P r = true.
Proof. apply all_rows. Qed.
Lemma own_fee_exact : rules_exact own_fee_db.
Proof.
  intros id r H. apply (own_fee_rows (λ r, rule_check r && (rule_units r <? 10 ^ 19))) in H; [|runs].
  apply andb_true_iff in H as [H1 H2%Z.ltb_lt]. done.
Qed.
Lemma own_fee_plain : fiat_rules_plain env0 "org" own_fee_db.
Proof.
  intros id r H Hc.
  apply (own_fee_rows (λ r, negb (String.eqb r.(rule_assetClass) "FIAT") ||
    (String.eqb r.(rule_network) "" && negb (String.eqb r.(rule_scopeId) "neobank")))) in H; [|runs].
  rewrite Hc in H. simpl in H. apply andb_true_iff in H as [H1%String.eqb_eq H2]. split; [done|].
  intros E. rewrite E in H2. vm_compute in H2. done.
Qed.
Lemma own_fee_printed id r : own_fee_db.(feeRules) !! id = Some r → reads_back r.
Proof.
  intros H. apply (own_fee_rows (λ r, match d_parse (fromMinor r.(rule_feeAmountMinor) r.(rule_feeDecimals)) with
    | Some d => opt_eqb (d_units 8 d) (Some (rule_units r)) | None => false end)) in H; [|runs].
  unfold reads_back. destruct (d_parse _) as [d|]; [|done]. exists d. split; [done|]. by apply opt_eqb_true in H.
Qed.
Lemma portal_fee_charged_witness :
  resolveConfiguredPayout [payout_channel0] (listed_fees own_fee_db) "PLATFORM" USD None =
    Some (payout_channel0, serialize payout_rule0 None) ∧
  price_payout portal_input portal_parties own_fee_db = inl (Conflict "withdrawal_fee_changed").
Proof.
  split; [runs|].
  destruct (portal_fee_charged env0 (λ l, l) "org" "adm" own_fee_db (listed_fees own_fee_db) [payout_channel0] PM_PLATFORM USD None
    payout_channel0 (serialize payout_rule0 None) portal_input portal_parties) as (id & shown & Hs & Hf & _ & H).
  - apply rule_keys_decided. runs.
  - exact own_fee_exact.
  - exact own_fee_plain.
  - done.
  - runs.
  - runs.
  - runs.
  - runs.
  - runs.
  - runs.
  - by split_and!.
  - exact own_fee_printed.
  - apply (H "own" own_fee_rule).
    + split; [runs|]. split; [runs|]. split; runs.
    + right. intros E. pose proof (f_equal view_amount Hf) as Ea. cbn [view_amount serialize] in Ea.
      apply (all_rows (λ r, negb (String.eqb (fromMinor r.(rule_feeAmountMinor) r.(rule_feeDecimals)) "1.50") ||
        negb (rule_units r =? 225000000))) in Hs; [|runs].
      rewrite <- Ea, <- E in Hs. vm_compute in Hs. discriminate Hs.
Defined.

(** ** What the pages say *)
Lemma funds_status_known facts : normalizeFundsStatus facts ≠ review_required →
  facts.(wf_fundsStatus) = Some (funds_text (normalizeFundsStatus facts)).
Proof.
  unfold normalizeFundsStatus. destruct (List.find _ _) as [f|] eqn:E; [|done].
  apply List.find_some in E as [_ E]. intros _. by apply opt_eqb_true in E.
Qed.
(** A withdrawal whose funds are not known to be frozen, released or settled always asks
    for attention and is never shown as such; the link to a custody transaction is offered
    only for an exception whose funds are known to be frozen. *)
Lemma presentation_cautious facts :
  let p := withdrawalStatusPresentation facts in
  (normalizeFundsStatus facts = review_required →
   p.(wp_needsAttention) = true ∧ p.(wp_fundsLabel) = "待核实（不可推断已冻结）" ∧ p.(wp_canReconcileCregisCID) = false) ∧
  (p.(wp_canReconcileCregisCID) = true →
   facts.(wf_fundsStatus) = Some "frozen" ∧ facts.(wf_rawStatus) = Some "exception" ∧ p.(wp_needsAttention) = true).
Proof.
  unfold withdrawalStatusPresentation. cbv zeta. cbn [wp_needsAttention wp_fundsLabel wp_canReconcileCregisCID]. split.
  - intros ->. split_and!; [|done|].
    + unfold alertPresentation. cbn. rewrite !andb_false_r. repeat case_match; done.
    + by rewrite andb_false_r.
  - intros [[_ Hr]%andb_true_iff Hf]%andb_true_iff. unfold raw_is in Hr. rewrite opt_eqb_true in Hr. rewrite same_true in Hf.
    assert (Hk : normalizeFundsStatus facts ≠ review_required) by congruence. apply funds_status_known in Hk.
    rewrite Hf in *. split_and!; try done. unfold alertPresentation, raw_is. rewrite Hr. by vm_compute.
Qed.
(** A wallet offered for a conversion is active in the core and at the custody service, for
    the same customer, and shows the custody service's address and balances. *)
Lemma merged_wallet detail live w : w ∈ mergeLiveCustomerWallets detail live → w.(ma_kind) = CRYPTO_WALLET →
  ∃ core source, core ∈ detail ∧ source ∈ live ∧ live_wallet core = true ∧ live_wallet source = true ∧
    source.(ma_customerId) = core.(ma_customerId) ∧ w = with_live_balances core source.
Proof.
  intros Hin Hk. unfold mergeLiveCustomerWallets in Hin. apply elem_of_app in Hin as [Hin|Hin]; apply list_elem_of_In in Hin.
  - apply filter_In in Hin as [_ Hd]. rewrite differs_true in Hd. done.
  - apply in_flat_map in Hin as (core & Hc & Hw). apply filter_In in Hc as [Hc Hlc].
    destruct (List.find _ _) as [source|] eqn:E; [|done]. destruct Hw as [<-|[]].
    apply List.find_some in E as [Hs Hsame]. apply filter_In in Hs as [Hs Hls].
    unfold same_wallet in Hsame. rewrite !andb_true_iff, !opt_eqb_true in Hsame. exists core, source.
    split_and!; try done; try (by apply list_elem_of_In). apply Hsame.
Qed.
(** A quote is ready only for an effective version of the pair whose market rate is at most
    two minutes old, and then it is amount times rate. *)
Lemma ready_quote {JD : JsDates} type source target amount rates loading now rate received :
  resolveConversionQuote type source target amount rates loading now = Q_ready rate received →
  ∃ a b fetched, source = Some a ∧ target = Some b ∧ rate ∈ rates ∧ quoted_rate type a b now rate = true ∧
    date_parse (default "" rate.(rv_marketFetchedAt)) = Some fetched ∧ now - 120000 ≤ fetched ≤ now + 30000 ∧
    received = n_mul (n_of_string amount) (number_of rate.(rv_customerRate)) ∧ positive_finite received = true.
Proof.
  unfold resolveConversionQuote. destruct source as [a|], target as [b|]; try done. cbv zeta.
  destruct (_ || _); [done|]. destruct (List.find _ rates) as [r|] eqn:Er; [|by destruct loading].
  destruct (_ || _); [by destruct loading|].
  destruct (opt_truthy _); [|done]. destruct (date_parse _) as [f|] eqn:Ef; [|done].
  destruct (_ || _) eqn:Ea; [done|]. destruct (negb _) eqn:Ep; [done|]. intros [= -> <-].
  apply orb_false_iff in Ea as [H1%Z.ltb_ge H2%Z.ltb_ge]. apply negb_false_iff in Ep. unfold LIVE_QUOTE_MAX_AGE_MS in H1.
  apply List.find_some in Er as [Hr Hq]. exists a, b, f. split_and!; try done; try lia. by apply list_elem_of_In.
Qed.
