(* ===== verification/ClientReports.v ===== *)
(** The reconciliation snapshot that the dashboard computes from what it has loaded
    ([src/src/features/finance/core-reconciliation.ts]): balances, debits against
    credits by currency and by journal, movements of a day, and the opening fees of
    virtual accounts against the journals that should carry them.

    Amounts are binary64 numbers.  The day of an instant in Hong Kong and the collation
    of [localeCompare] are arguments: [Intl] computes them. *)
From S2P Require Import Prelude Decimals Schema JsNumber EdgeWorker ClientFinance.
From stdpp Require Import sorting.
From Stdlib Require Import Ascii SpecFloat.

(** ** Maps in order of insertion *)
Section maps.
Context {K V : Type} `{EqDecision K}.
(** [map.get(k)], and [map.set(k, f(map.get(k) || d))]. *)
Fixpoint map_get (k : K) (m : list (K * V)) : option V :=
  match m with (k', v) :: m' => if decide (k = k') then Some v else map_get k m' | [] => None end.
Fixpoint map_upsert (k : K) (d : V) (f : V → V) (m : list (K * V)) : list (K * V) :=
  match m with
  | (k', v) :: m' => if decide (k = k') then (k', f v) :: m' else (k', v) :: map_upsert k d f m'
  | [] => [(k, f d)]
  end.
Lemma map_get_upsert k d f m k' :
  map_get k' (map_upsert k d f m) = if decide (k' = k) then Some (f (default d (map_get k m))) else map_get k' m.
Proof.
  induction m as [|[k0 v] m IH]; simpl.
  - by destruct (decide (k' = k)).
  - destruct (decide (k = k0)) as [<-|Hk]; simpl.
    + by destruct (decide (k' = k)).
    + rewrite IH. destruct (decide (k' = k0)) as [->|]; [|done]. by rewrite decide_False.
Qed.
Lemma map_get_None k m : map_get k m = None → k ∉ map fst m.
Proof.
  induction m as [|[k0 v] m IH]; simpl; [by intros _ ?%elem_of_nil|].
  destruct (decide (k = k0)); [done|]. intros H [->|Hin]%elem_of_cons; [done|by apply IH].
Qed.
Lemma map_upsert_keys k d f m : map fst (map_upsert k d f m) = match map_get k m with Some _ => map fst m | None => map fst m ++ [k] end.
Proof.
  induction m as [|[k0 v] m IH]; [done|]. simpl. destruct (decide (k = k0)); simpl; [done|]. rewrite IH. by destruct (map_get k m).
Qed.
Lemma map_upsert_NoDup k d f m : NoDup (map fst m) → NoDup (map fst (map_upsert k d f m)).
Proof.
  intros H. rewrite map_upsert_keys. destruct (map_get k m) eqn:E; [done|]. apply NoDup_app. split_and!; [done| |by apply NoDup_singleton].
  intros x Hx ->%list_elem_of_singleton. by apply map_get_None in E.
Qed.
Lemma map_get_elem k v m : NoDup (map fst m) → (k, v) ∈ m ↔ map_get k m = Some v.
Proof.
  induction m as [|[k0 v0] m IH]; simpl; [by split; [intros ?%elem_of_nil|]|]. intros [Hn Hm]%NoDup_cons.
  rewrite elem_of_cons, IH by done. destruct (decide (k = k0)) as [->|Hk].
  - split; [|intros [= ->]; by left]. intros [[= ->]|Hg]; [done|]. destruct Hn. apply IH in Hg; [|done].
    apply list_elem_of_fmap. by exists (k0, v).
  - split; [|by right]. intros [[= -> ->]|]; done.
Qed.
End maps.

Definition n_abs (x : number) : number := SFabs x.
Definition n_zero : number := n_ofZ 0.
Definition EPSILON : number := n_of_string "0.000001".
(** [x || 0]: not a number is falsy too. *)
Definition n_or_zero (x : number) : number := match x with S754_nan | S754_zero _ => n_zero | _ => x end.
(** [Number(text || 0)] *)
Definition amount_number (text : option string) : number :=
  match text with Some x => if truthy x then n_of_string x else n_zero | None => n_zero end.

(** ** What the dashboard has loaded *)
Record LoadedAccount := { la_kind : AccountKind; la_currency : Currency; la_available : string; la_frozen : string }.
Record LoadedLine := { ll_side : JournalSide; ll_currency : Currency; ll_amount : string; ll_accountKind : AccountKind }.
Record LoadedOperation := {
  lo_id : string; lo_reference : string; lo_type : OperationType; lo_status : OperationStatus; lo_currency : Currency;
  lo_amount : string; lo_quoteCurrency : option Currency; lo_quoteAmount : option string;
  lo_createdAt : string; lo_submittedAt : option string; lo_executedAt : option string;
  lo_sourceAccount : option (string * string);
}.
Record LoadedJournal := {
  lj_id : string; lj_reference : string; lj_postedAt : string; lj_operationId : string; lj_operationType : OperationType;
  lj_lines : list LoadedLine;
}.
Record LoadedRequest := {
  lr_id : string; lr_status : AccountRequestStatus; lr_openingFeeUsd : string; lr_feeOperation : option LoadedOperation;
}.

Record ReconciliationBalance := { rb_available : number; rb_frozen : number; rb_total : number; rb_accountCount : Z }.
Record Totals := { to_debits : number; to_credits : number }.
Record ReconciliationLedgerCheck := {
  rl_debits : number; rl_credits : number; rl_delta : number; rl_journalCount : nat; rl_balanced : bool;
}.
Inductive VaIssueReason :=
| fee_operation_missing | operation_status_mismatch | completed_journal_missing | terminal_journal_unexpected
| duplicate_journals | submitted_source_wallet_missing | submitted_reservation_undercovered | fee_revenue_total_mismatch.
Record VaOpeningFeeIssue := {
  vi_requestId : string; vi_operation : option (string * string); vi_reason : VaIssueReason;
}.

(** ** Balances *)
Definition no_balance : ReconciliationBalance :=
  {| rb_available := n_zero; rb_frozen := n_zero; rb_total := n_zero; rb_accountCount := 0 |}.
Definition add_account (account : LoadedAccount) (b : ReconciliationBalance) : ReconciliationBalance :=
  let available := amount_number (Some account.(la_available)) in
  let frozen := amount_number (Some account.(la_frozen)) in
  {| rb_available := n_add b.(rb_available) available; rb_frozen := n_add b.(rb_frozen) frozen;
     rb_total := n_add b.(rb_total) (n_add available frozen); rb_accountCount := b.(rb_accountCount) + 1 |}.
Definition own_account (account : LoadedAccount) : bool :=
  negb (same account.(la_kind) PLATFORM_CLEARING || same account.(la_kind) FEE_REVENUE).
Definition balance_map (accounts : list LoadedAccount) : list (Currency * ReconciliationBalance) :=
  fold_left (λ m account, if own_account account
                          then map_upsert account.(la_currency) no_balance (add_account account) m else m) accounts [].

(** ** Debits and credits *)
Definition no_totals : Totals := {| to_debits := n_zero; to_credits := n_zero |}.
Definition add_line (line : LoadedLine) (t : Totals) : Totals :=
  let amount := amount_number (Some line.(ll_amount)) in
  match line.(ll_side) with
  | DEBIT => {| to_debits := n_add t.(to_debits) amount; to_credits := t.(to_credits) |}
  | CREDIT => {| to_debits := t.(to_debits); to_credits := n_add t.(to_credits) amount |}
  end.
Definition count_line (m : list (Currency * Totals)) (line : LoadedLine) : list (Currency * Totals) :=
  map_upsert line.(ll_currency) no_totals (add_line line) m.
Definition line_totals (lines : list LoadedLine) : list (Currency * Totals) := fold_left count_line lines [].
Definition delta_of (t : Totals) : number := n_sub t.(to_debits) t.(to_credits).
Definition off_balance (t : Totals) : bool := n_lt EPSILON (n_abs (delta_of t)).
(** The currencies of a journal whose sides differ. *)
Definition journal_deltas (journal : LoadedJournal) : list (Currency * Totals) :=
  List.filter (λ kt, off_balance kt.2) (line_totals journal.(lj_lines)).
Definition unbalanced (journals : list LoadedJournal) : list (LoadedJournal * list (Currency * Totals)) :=
  flat_map (λ journal, match journal_deltas journal with [] => [] | deltas => [(journal, deltas)] end) journals.
Definition has_currency (c : Currency) (journal : LoadedJournal) : bool :=
  existsb (λ line, same line.(ll_currency) c) journal.(lj_lines).
Definition ledger_checks (selected : list LoadedJournal) : list (Currency * ReconciliationLedgerCheck) :=
  map (λ kt, (kt.1, {| rl_debits := kt.2.(to_debits); rl_credits := kt.2.(to_credits); rl_delta := delta_of kt.2;
                       rl_balanced := n_le (n_abs (delta_of kt.2)) EPSILON;
                       rl_journalCount := length (List.filter (has_currency kt.1) selected) |}))
      (line_totals (flat_map lj_lines selected)).

(** ** Movements *)
Definition operationTime (o : LoadedOperation) : string :=
  default "" (or_string o.(lo_executedAt) (or_string o.(lo_submittedAt) (Some o.(lo_createdAt)))).
Definition ACTIVE_OPERATION_STATUSES : list OperationStatus := [SUBMITTED; APPROVED; PROCESSING].
Definition addAmount (target : list (Currency * number)) (currency : Currency) (amount : number) : list (Currency * number) :=
  map_upsert currency n_zero (λ x, n_add (n_or_zero x) amount) target.
(** The flows (inflows, outflows) after a completed movement. *)
Definition flow (flows : list (Currency * number) * list (Currency * number)) (o : LoadedOperation) :
    list (Currency * number) * list (Currency * number) :=
  let '(inflows, outflows) := flows in
  let amount := amount_number (Some o.(lo_amount)) in
  match o.(lo_type) with
  | DEPOSIT => (addAmount inflows o.(lo_currency) amount, outflows)
  | PAYOUT => (inflows, addAmount outflows o.(lo_currency) amount)
  | VA_OPENING_FEE => (inflows, addAmount outflows USD amount)
  | FX | OTC =>
      (match o.(lo_quoteCurrency), o.(lo_quoteAmount) with
       | Some quoteCurrency, Some quoteAmount =>
           if truthy quoteAmount then addAmount inflows quoteCurrency (n_of_string quoteAmount) else inflows
       | _, _ => inflows
       end, addAmount outflows o.(lo_currency) amount)
  | _ => (inflows, outflows)
  end.
Definition unposted (journals : list LoadedJournal) (o : LoadedOperation) : bool :=
  same o.(lo_status) COMPLETED && differs o.(lo_type) VA_OPENING_FEE && negb (includes (map lj_operationId journals) o.(lo_id)).

(** ** Opening fees of virtual accounts *)
Record Reservation := { rs_amount : number; rs_frozen : number; rs_requestId : string; rs_operation : string * string }.
Record FeeAudit := {
  fa_issues : list VaOpeningFeeIssue; fa_reservations : list (string * Reservation); fa_completedUsd : number;
}.
Definition no_reservation : Reservation :=
  {| rs_amount := n_zero; rs_frozen := n_zero; rs_requestId := ""; rs_operation := ("", "") |}.
Definition reserve (requestId : string) (operation : string * string) (amount frozen : number) (r : Reservation) : Reservation :=
  {| rs_amount := n_add (n_or_zero r.(rs_amount)) amount; rs_frozen := frozen; rs_requestId := requestId; rs_operation := operation |}.

Section snapshot.
Context (hongKongDate : string → string) (collates : string → string → Prop) `{!RelDecision collates}.
Definition on_date (date text : string) : bool := String.eqb (hongKongDate text) date.

(** What a request contributes when its fee operation is there: its issues in order,
    the reservation it needs, and whether its fee counts as earned on the date. *)
Definition request_issues (journalled : nat) (request : LoadedRequest) (operation : LoadedOperation) : list VaIssueReason :=
  (if Nat.ltb 1 journalled then [duplicate_journals] else []) ++
  match request.(lr_status) with
  | RS_APPROVED =>
      (if differs operation.(lo_status) COMPLETED then [operation_status_mismatch] else []) ++
      (if Nat.eqb journalled 0 then [completed_journal_missing] else [])
  | RS_REJECTED =>
      (if differs operation.(lo_status) REJECTED then [operation_status_mismatch] else []) ++
      (if Nat.ltb 0 journalled then [terminal_journal_unexpected] else [])
  | RS_CANCELLED =>
      (if differs operation.(lo_status) CANCELLED then [operation_status_mismatch] else []) ++
      (if Nat.ltb 0 journalled then [terminal_journal_unexpected] else [])
  | RS_SUBMITTED =>
      (if differs operation.(lo_status) SUBMITTED then [operation_status_mismatch] else []) ++
      (if is_none operation.(lo_sourceAccount) then [submitted_source_wallet_missing] else [])
  end.
Definition journals_of (journals : list LoadedJournal) (operationId : string) : nat :=
  length (List.filter (λ journal, String.eqb journal.(lj_operationId) operationId) journals).
Definition audit_request (date : string) (journals : list LoadedJournal) (audit : FeeAudit) (request : LoadedRequest) : FeeAudit :=
  let amount := amount_number (Some request.(lr_openingFeeUsd)) in
  if n_le amount n_zero then audit
  else match request.(lr_feeOperation) with
  | Some operation =>
      if differs operation.(lo_type) VA_OPENING_FEE
      then {| fa_issues := audit.(fa_issues) ++ [{| vi_requestId := request.(lr_id); vi_operation := None; vi_reason := fee_operation_missing |}];
              fa_reservations := audit.(fa_reservations); fa_completedUsd := audit.(fa_completedUsd) |}
      else
        let issue reason := {| vi_requestId := request.(lr_id);
                               vi_operation := Some (operation.(lo_id), operation.(lo_reference)); vi_reason := reason |} in
        {| fa_issues := audit.(fa_issues) ++
             map issue (request_issues (journals_of journals operation.(lo_id)) request operation);
           fa_reservations :=
             match request.(lr_status), operation.(lo_sourceAccount) with
             | RS_SUBMITTED, Some (accountId, frozenBalance) =>
                 map_upsert accountId no_reservation
                   (reserve request.(lr_id) (operation.(lo_id), operation.(lo_reference)) amount (amount_number (Some frozenBalance)))
                   audit.(fa_reservations)
             | _, _ => audit.(fa_reservations)
             end;
           fa_completedUsd :=
             if same request.(lr_status) RS_APPROVED && on_date date (operationTime operation)
             then n_add audit.(fa_completedUsd) amount else audit.(fa_completedUsd) |}
  | None => {| fa_issues := audit.(fa_issues) ++ [{| vi_requestId := request.(lr_id); vi_operation := None; vi_reason := fee_operation_missing |}];
               fa_reservations := audit.(fa_reservations); fa_completedUsd := audit.(fa_completedUsd) |}
  end.
Definition audit_requests (date : string) (journals : list LoadedJournal) (requests : list LoadedRequest) : FeeAudit :=
  fold_left (audit_request date journals) requests {| fa_issues := []; fa_reservations := []; fa_completedUsd := n_zero |}.
Definition undercovered (reservations : list (string * Reservation)) : list VaOpeningFeeIssue :=
  flat_map (λ kr, if n_lt (n_add kr.2.(rs_frozen) EPSILON) kr.2.(rs_amount)
                  then [{| vi_requestId := kr.2.(rs_requestId); vi_operation := Some kr.2.(rs_operation);
                           vi_reason := submitted_reservation_undercovered |}] else []) reservations.
Definition fee_revenue_line (line : LoadedLine) : bool :=
  same line.(ll_side) CREDIT && same line.(ll_currency) USD && same line.(ll_accountKind) FEE_REVENUE.
Definition fee_revenue_of (journal : LoadedJournal) : number :=
  if same journal.(lj_operationType) VA_OPENING_FEE
  then fold_left (λ sum line, n_add sum (amount_number (Some line.(ll_amount)))) (List.filter fee_revenue_line journal.(lj_lines)) n_zero
  else n_zero.
Definition fee_revenue (selected : list LoadedJournal) : number :=
  fold_left (λ total journal, n_add total (fee_revenue_of journal)) selected n_zero.

(** ** The snapshot *)
Definition currencyOrder : list Currency := [USD; HKD; USDT; SGD; EUR; GBP].
Fixpoint index_of (c : Currency) (l : list Currency) : nat :=
  match l with c' :: l' => if same c c' then O else S (index_of c l') | [] => O end.
Definition byCurrency {V} (a b : Currency * V) : Prop := (index_of a.1 currencyOrder ≤ index_of b.1 currencyOrder)%nat.
#[global] Instance byCurrency_dec {V} : RelDecision (@byCurrency V).
Proof. intros a b. unfold byCurrency. apply _. Defined.
(** The latest first: [right.localeCompare(left)] is not positive. *)
Definition later (a b : LoadedOperation) : Prop := collates (operationTime b) (operationTime a).
#[global] Instance later_dec : RelDecision later.
Proof. intros a b. unfold later. apply _. Defined.

Record CoreReconciliationSnapshot := {
  sn_balances : list (Currency * ReconciliationBalance); sn_ledgerChecks : list (Currency * ReconciliationLedgerCheck);
  sn_movements : list LoadedOperation; sn_journalCount : nat; sn_unbalancedJournalCount : nat;
  sn_unbalancedJournals : list (LoadedJournal * list (Currency * Totals));
  sn_completedWithoutJournal : list LoadedOperation; sn_pendingOperations : list LoadedOperation;
  sn_inflows : list (Currency * number); sn_outflows : list (Currency * number);
  sn_vaOpeningFeeIssues : list VaOpeningFeeIssue; sn_completedVaOpeningFeeUsd : number; sn_feeRevenueCreditUsd : number;
}.
Definition movements_of (date : string) (operations : list LoadedOperation) : list LoadedOperation :=
  merge_sort later (List.filter (λ o, on_date date (operationTime o)) operations).
Definition buildCoreReconciliationSnapshot (date : string) (customers : list (list LoadedAccount))
    (operations : list LoadedOperation) (journals : list LoadedJournal) (requests : list LoadedRequest) : CoreReconciliationSnapshot :=
  let selectedJournals := List.filter (λ journal, on_date date journal.(lj_postedAt)) journals in
  let unbalancedJournals := unbalanced selectedJournals in
  let movements := movements_of date operations in
  let flows := fold_left flow (List.filter (λ o, same o.(lo_status) COMPLETED) movements) ([], []) in
  let audit := audit_requests date journals requests in
  let revenue := fee_revenue selectedJournals in
  {| sn_balances := merge_sort byCurrency (balance_map (concat customers));
     sn_ledgerChecks := merge_sort byCurrency (ledger_checks selectedJournals);
     sn_movements := movements;
     sn_journalCount := length selectedJournals;
     sn_unbalancedJournalCount := length unbalancedJournals;
     sn_unbalancedJournals := unbalancedJournals;
     sn_completedWithoutJournal := List.filter (unposted journals) movements;
     sn_pendingOperations := List.filter (λ o, includes ACTIVE_OPERATION_STATUSES o.(lo_status)) operations;
     sn_inflows := flows.1; sn_outflows := flows.2;
     sn_vaOpeningFeeIssues := audit.(fa_issues) ++ undercovered audit.(fa_reservations) ++
       (if n_lt EPSILON (n_abs (n_sub audit.(fa_completedUsd) revenue))
        then [{| vi_requestId := "all"; vi_operation := None; vi_reason := fee_revenue_total_mismatch |}] else []);
     sn_completedVaOpeningFeeUsd := audit.(fa_completedUsd);
     sn_feeRevenueCreditUsd := revenue |}.
End snapshot.

(** ** The snapshot against plain sums *)
(** The amounts of one side and currency, in order, and their sum. *)
Definition on_side (s : JournalSide) (c : Currency) (line : LoadedLine) : bool :=
  same line.(ll_side) s && same line.(ll_currency) c.
Definition side_amounts (s : JournalSide) (c : Currency) (lines : list LoadedLine) : list number :=
  map (λ line, amount_number (Some line.(ll_amount))) (List.filter (on_side s c) lines).
Definition side_sum (s : JournalSide) (c : Currency) (lines : list LoadedLine) : number :=
  fold_left n_add (side_amounts s c lines) n_zero.
Definition totals_of (c : Currency) (lines : list LoadedLine) : Totals :=
  {| to_debits := side_sum DEBIT c lines; to_credits := side_sum CREDIT c lines |}.
Definition in_currency (c : Currency) (lines : list LoadedLine) : bool := existsb (λ line, same line.(ll_currency) c) lines.

Lemma side_sum_snoc s c lines l : side_sum s c (lines ++ [l]) =
  if on_side s c l then n_add (side_sum s c lines) (amount_number (Some l.(ll_amount))) else side_sum s c lines.
Proof.
  unfold side_sum, side_amounts. rewrite List.filter_app, List.map_app, fold_left_app. simpl.
  by destruct (on_side s c l).
Qed.
Lemma not_in_currency s c lines : in_currency c lines = false → side_sum s c lines = n_zero.
Proof.
  intros H. unfold side_sum, side_amounts. replace (List.filter (on_side s c) lines) with (@nil LoadedLine); [done|].
  symmetry. induction lines as [|l lines IH]; [done|]. simpl in *. apply orb_false_iff in H as [H1 H2].
  unfold on_side at 1. by rewrite H1, andb_false_r, IH.
Qed.
Lemma totals_snoc c lines l : totals_of c (lines ++ [l]) =
  if decide (c = l.(ll_currency)) then add_line l (totals_of c lines) else totals_of c lines.
Proof.
  unfold totals_of, add_line. rewrite !side_sum_snoc. unfold on_side.
  destruct (decide (c = ll_currency l)) as [->|Hc].
  - rewrite (proj2 (same_true (ll_currency l) (ll_currency l)) eq_refl), !andb_true_r. by destruct (ll_side l).
  - assert (E : same (ll_currency l) c = false) by (rewrite same_false; congruence). by rewrite E, !andb_false_r.
Qed.
Lemma line_totals_snoc lines l :
  line_totals (lines ++ [l]) = map_upsert l.(ll_currency) no_totals (add_line l) (line_totals lines).
Proof. unfold line_totals. by rewrite fold_left_app. Qed.
Lemma line_totals_get c lines :
  map_get c (line_totals lines) = if in_currency c lines then Some (totals_of c lines) else None.
Proof.
  induction lines as [|l lines IH] using rev_ind; [done|].
  rewrite line_totals_snoc, map_get_upsert, totals_snoc. unfold in_currency. rewrite existsb_app. fold (in_currency c lines). simpl.
  destruct (decide (c = ll_currency l)) as [->|Hc].
  - rewrite (proj2 (same_true (ll_currency l) (ll_currency l)) eq_refl), !orb_true_r, IH.
    destruct (in_currency _ lines) eqn:E; [done|]. simpl. unfold totals_of. by rewrite !not_in_currency by done.
  - assert (E : same (ll_currency l) c = false) by (rewrite same_false; congruence).
    by rewrite E, !orb_false_r, IH.
Qed.
Lemma line_totals_NoDup lines : NoDup (map fst (line_totals lines)).
Proof.
  induction lines as [|l lines IH] using rev_ind; [constructor|]. rewrite line_totals_snoc. by apply map_upsert_NoDup.
Qed.
Lemma line_totals_elem c t lines : (c, t) ∈ line_totals lines ↔ in_currency c lines = true ∧ t = totals_of c lines.
Proof.
  rewrite map_get_elem by apply line_totals_NoDup. rewrite line_totals_get. destruct (in_currency c lines).
  - split; [intros [= <-]; split; reflexivity|intros [_ ->]; reflexivity].
  - split; [discriminate|intros [H _]; discriminate H].
Qed.

(** A number minus itself is zero or not a number. *)
Lemma n_sub_diag x : n_lt EPSILON (n_abs (n_sub x x)) = false.
Proof.
  destruct x as [s|s| |s m e]; try (destruct s; reflexivity); [reflexivity|].
  unfold n_sub, SFsub. rewrite Z.sub_diag. by destruct s.
Qed.
(** A currency whose debits and credits are the same amounts in the same order is never
    reported, so neither is a journal of entries written in pairs. *)
Lemma paired_balanced c lines : side_amounts DEBIT c lines = side_amounts CREDIT c lines → off_balance (totals_of c lines) = false.
Proof. intros H. unfold off_balance, delta_of, totals_of, side_sum. simpl. rewrite H. apply n_sub_diag. Qed.
Lemma unbalanced_elem journals j deltas : (j, deltas) ∈ unbalanced journals ↔
  j ∈ journals ∧ deltas = journal_deltas j ∧ deltas ≠ [].
Proof.
  unfold unbalanced. rewrite list_elem_of_In, in_flat_map. setoid_rewrite <- list_elem_of_In. split.
  - intros (x & Hx & H). destruct (journal_deltas x) as [|d ds] eqn:E; [by apply elem_of_nil in H|].
    apply list_elem_of_singleton in H as [= -> ->]. by rewrite E.
  - intros (Hj & -> & Hne). exists j. split; [done|]. destruct (journal_deltas j); [done|]. by apply list_elem_of_singleton.
Qed.
Lemma journal_delta_elem j c t : (c, t) ∈ journal_deltas j ↔
  in_currency c j.(lj_lines) = true ∧ t = totals_of c j.(lj_lines) ∧ off_balance t = true.
Proof.
  unfold journal_deltas. rewrite list_elem_of_In, filter_In, <- list_elem_of_In, line_totals_elem. cbn [snd].
  split; [intros [[H1 H2] H3]|intros (H1 & H2 & H3)]; repeat split; assumption.
Qed.

Section exact.
Context (hongKongDate : string → string) (collates : string → string → Prop) `{!RelDecision collates}.

(** The snapshot of a day is exact: a currency has a ledger check exactly if a journal of the
    day has a line in it, and then the check holds the sums of its debits and of its credits in
    order, their difference, the number of journals with that currency, and whether the
    difference is within a millionth; a journal is reported as unbalanced exactly if it is of
    the day and in some currency its own sums differ by more, which never happens to a
    currency whose debits and credits are the same amounts; the movements are the day's
    operations, and those reported as unposted are the completed ones, opening fees apart,
    that no journal of any day belongs to. *)
Theorem snapshot_exact date customers operations journals requests :
  let sn := buildCoreReconciliationSnapshot hongKongDate collates date customers operations journals requests in
  let day := List.filter (λ j, on_date hongKongDate date j.(lj_postedAt)) journals in
  let lines := flat_map lj_lines day in
  (∀ c chk, (c, chk) ∈ sn.(sn_ledgerChecks) ↔ in_currency c lines = true ∧
     chk = {| rl_debits := side_sum DEBIT c lines; rl_credits := side_sum CREDIT c lines;
              rl_delta := n_sub (side_sum DEBIT c lines) (side_sum CREDIT c lines);
              rl_balanced := n_le (n_abs (n_sub (side_sum DEBIT c lines) (side_sum CREDIT c lines))) EPSILON;
              rl_journalCount := length (List.filter (has_currency c) day) |}) ∧
  (∀ j, (∃ deltas, (j, deltas) ∈ sn.(sn_unbalancedJournals)) ↔ j ∈ day ∧
     ∃ c, in_currency c j.(lj_lines) = true ∧ off_balance (totals_of c j.(lj_lines)) = true) ∧
  (∀ j deltas c t, (j, deltas) ∈ sn.(sn_unbalancedJournals) → (c, t) ∈ deltas →
     side_amounts DEBIT c j.(lj_lines) ≠ side_amounts CREDIT c j.(lj_lines)) ∧
  sn.(sn_movements) ≡ₚ List.filter (λ o, on_date hongKongDate date (operationTime o)) operations ∧
  (∀ o, o ∈ sn.(sn_completedWithoutJournal) ↔ o ∈ operations ∧ on_date hongKongDate date (operationTime o) = true ∧
     o.(lo_status) = COMPLETED ∧ o.(lo_type) ≠ VA_OPENING_FEE ∧ ∀ j, j ∈ journals → j.(lj_operationId) ≠ o.(lo_id)).
Proof.
  intros sn day lines.
  assert (Hmov : sn.(sn_movements) ≡ₚ List.filter (λ o, on_date hongKongDate date (operationTime o)) operations)
    by apply merge_sort_Permutation.
  split_and!; [| | |exact Hmov|].
  - intros c chk. unfold sn, buildCoreReconciliationSnapshot. cbn [sn_ledgerChecks]. rewrite merge_sort_Permutation.
    unfold ledger_checks. rewrite list_elem_of_fmap. split.
    + intros ([c' t] & [= -> ->] & Ht). apply line_totals_elem in Ht as [Hc ->]. done.
    + intros [Hc ->]. exists (c, totals_of c lines). split; [done|]. by apply line_totals_elem.
  - intros j. unfold sn, buildCoreReconciliationSnapshot. cbn [sn_unbalancedJournals]. setoid_rewrite unbalanced_elem. split.
    + intros (deltas & Hj & -> & Hne). split; [done|]. destruct (journal_deltas j) as [|[c t] ds] eqn:E; [done|].
      assert (Hin : (c, t) ∈ journal_deltas j) by (rewrite E; left). apply journal_delta_elem in Hin as (Hc & -> & Ho). eauto.
    + intros (Hj & c & Hc & Ho). exists (journal_deltas j). split; [exact Hj|]. split; [reflexivity|]. intros E.
      assert (Hin : (c, totals_of c j.(lj_lines)) ∈ journal_deltas j)
        by (apply journal_delta_elem; split; [exact Hc|split; [reflexivity|exact Ho]]).
      rewrite E in Hin. by apply elem_of_nil in Hin.
  - intros j deltas c t Hj Hin Heq. apply unbalanced_elem in Hj as (_ & -> & _).
    apply journal_delta_elem in Hin as (_ & -> & Ho). apply paired_balanced in Heq. congruence.
  - intros o. unfold sn, buildCoreReconciliationSnapshot. cbn [sn_completedWithoutJournal].
    rewrite list_elem_of_In, filter_In, <- list_elem_of_In. change (movements_of _ _ _ _) with sn.(sn_movements).
    rewrite Hmov, list_elem_of_In, filter_In, <- list_elem_of_In. unfold unposted.
    rewrite !andb_true_iff, same_true, differs_true, negb_true_iff, <- not_true_iff_false, includes_true.
    rewrite list_elem_of_fmap. naive_solver.
Qed.
End exact.

(** Sums of binary64 numbers: a balanced entry of about 10^10 is reported as unbalanced. *)
Definition large_line (s : JournalSide) (amount : string) : LoadedLine :=
  {| ll_side := s; ll_currency := HKD; ll_amount := amount; ll_accountKind := SYSTEM_WALLET |}.
Lemma large_entry_reported :
  off_balance (totals_of HKD [large_line DEBIT "20000000000.30"; large_line CREDIT "10000000000.10"; large_line CREDIT "10000000000.20"]) = true.
Proof. by vm_compute. Qed.
