(* ===== verification/Registration.v ===== *)
(** The registration of a customer
    ([src/src/sections/auth/jwt/jwt-register-view.tsx]): a form of five or six steps, its
    checks, and the requests that verify the address, save the password, send the
    application and follow its verification by the KYC provider.

    The state is the component's; every handler is a process ([AuthApi.Proc]) that runs
    from one answer to the next without interruption, and answers come in any order.  A
    handler sees the state of the moment it was started.  Texts are the keys the page
    translates, members of answers have the types they are declared with, and the
    [n]-th UUID the browser draws is [uuid n]. *)
From S2P Require Import Prelude Schema JsNumber EdgeAuth EdgeWorker ClientAccess ClientApi ClientReports AuthApi.
From Stdlib Require Import Ascii SpecFloat.

(** ** Calendar *)
(** The day of a date, counted from 1970-01-01, and back: the proleptic Gregorian calendar. *)
Definition day_of_date (year month day : Z) : Z :=
  let y := if month <=? 2 then year - 1 else year in
  let yoe := y mod 400 in
  let doy := (153 * (if 2 <? month then month - 3 else month + 9) + 2) / 5 + (day - 1) in
  y / 400 * 146097 + (yoe * 365 + yoe / 4 - yoe / 100 + doy) - 719468.
Definition date_of_day (n : Z) : Z * Z * Z :=
  let doe := (n + 719468) mod 146097 in
  let yoe := (doe - doe / 1460 + doe / 36524 - doe / 146096) / 365 in
  let doy := doe - (365 * yoe + yoe / 4 - yoe / 100) in
  let mp := (5 * doy + 2) / 153 in
  let month := if mp <? 10 then mp + 3 else mp - 9 in
  ((n + 719468) / 146097 * 400 + yoe + (if month <=? 2 then 1 else 0), month, doy - (153 * mp + 2) / 5 + 1).
Definition DAY_MS : Z := 86400000.
(** [date.setUTCFullYear(date.getUTCFullYear() - years)]: a day the month lacks is one of the next. *)
Definition years_before (years t : Z) : Z :=
  let '(year, month, day) := date_of_day (t / DAY_MS) in
  (day_of_date (year - years) month 1 + (day - 1)) * DAY_MS + t mod DAY_MS.

(** ** The form *)
Inductive AccountType := individual | business.
#[global] Instance account_type_eq_dec : EqDecision AccountType. Proof. solve_decision. Defined.
Inductive TextField :=
| email | password | confirmPassword | phoneCountryCode | phone | residenceCountry | familyName | givenName | dateOfBirth
| nationality | legalName | registrationNumber | incorporationCountry | contactName | contactRole | beneficialOwnerName
| beneficialOwnerOwnership.
#[global] Instance text_field_eq_dec : EqDecision TextField. Proof. solve_decision. Defined.
Inductive FieldName := accountType | Text (f : TextField) | kycConsent | termsAccepted.
#[global] Instance field_name_eq_dec : EqDecision FieldName. Proof. solve_decision. Defined.
Coercion Text : TextField >-> FieldName.
(** [ApplicationForm]; the account type is [None] while it is empty. *)
Record ApplicationForm := {
  fm_accountType : option AccountType; fm_text : TextField → string; fm_kycConsent : bool; fm_termsAccepted : bool;
}.
Definition INITIAL_FORM : ApplicationForm :=
  {| fm_accountType := None; fm_text := λ f, match f with phoneCountryCode => "+852" | _ => "" end;
     fm_kycConsent := false; fm_termsAccepted := false |}.
Definition set_text (f : TextField) (value : string) (form : ApplicationForm) : ApplicationForm :=
  {| fm_accountType := form.(fm_accountType); fm_text := λ g, if decide (g = f) then value else form.(fm_text) g;
     fm_kycConsent := form.(fm_kycConsent); fm_termsAccepted := form.(fm_termsAccepted) |}.
(** A change of a field by hand. *)
Inductive Edit := EditText (f : TextField) (value : string) | EditKycConsent (value : bool) | EditTermsAccepted (value : bool).
Definition edited (e : Edit) : FieldName :=
  match e with EditText f _ => f | EditKycConsent _ => kycConsent | EditTermsAccepted _ => termsAccepted end.
Definition apply_edit (e : Edit) (form : ApplicationForm) : ApplicationForm :=
  match e with
  | EditText f value => set_text f value form
  | EditKycConsent value => {| fm_accountType := form.(fm_accountType); fm_text := form.(fm_text);
                               fm_kycConsent := value; fm_termsAccepted := form.(fm_termsAccepted) |}
  | EditTermsAccepted value => {| fm_accountType := form.(fm_accountType); fm_text := form.(fm_text);
                                  fm_kycConsent := form.(fm_kycConsent); fm_termsAccepted := value |}
  end.
Definition individual_fields : list TextField := [familyName; givenName; dateOfBirth; nationality].
Definition business_fields : list TextField :=
  [legalName; registrationNumber; incorporationCountry; contactName; contactRole; beneficialOwnerName; beneficialOwnerOwnership].
Definition clear_fields (fields : list TextField) (form : ApplicationForm) : ApplicationForm := fold_right (λ f, set_text f "") form fields.
Definition choose_type (type : AccountType) (form : ApplicationForm) : ApplicationForm :=
  let form := {| fm_accountType := Some type; fm_text := form.(fm_text); fm_kycConsent := form.(fm_kycConsent);
                 fm_termsAccepted := form.(fm_termsAccepted) |} in
  clear_fields match type with individual => business_fields | business => individual_fields end form.

(** *** Its patterns *)
Definition in_range (lo hi : nat) (c : ascii) : bool := let n := nat_of_ascii c in Nat.leb lo n && Nat.leb n hi.
Definition digit_char (c : ascii) : bool := in_range 48 57 c.
Definition letter (c : ascii) : bool := in_range 65 90 c || in_range 97 122 c.
Fixpoint after_char (x : ascii) (l : list ascii) : option (list ascii) :=
  match l with c :: l' => if Ascii.eqb c x then Some l' else after_char x l' | [] => None end.
(** [/^\S+@\S+\.\S+$/]: the first sign that has something before it, and after it a dot
    with something on both sides. *)
Definition email_pattern (text : string) : bool :=
  let l := String.list_ascii_of_string text in
  forallb (λ c, negb (is_space c)) l &&
  match after_char "@" (tail l) with
  | Some rest => match after_char "." (tail rest) with Some (_ :: _) => true | _ => false end
  | None => false
  end.
(** [/^[A-Za-z]+(?:[ '-][A-Za-z]+)*$/]: [word] says that the last character was a letter. *)
Fixpoint name_words (word : bool) (l : list ascii) : bool :=
  match l with
  | [] => word
  | c :: l' => if letter c then name_words true l' else word && (Ascii.eqb c " " || Ascii.eqb c "'" || Ascii.eqb c "-") && name_words false l'
  end.
Definition ENGLISH_LEGAL_NAME_PATTERN (text : string) : bool := name_words false (String.list_ascii_of_string text).
Definition ASCII_PASSWORD_PATTERN (text : string) : bool :=
  truthy text && forallb (in_range 32 126) (String.list_ascii_of_string text).
Definition some_char (p : ascii → bool) (text : string) : bool := existsb p (String.list_ascii_of_string text).
Definition weak_password (x : string) : bool :=
  Nat.ltb (String.length x) 14 || Nat.ltb 128 (String.length x) || negb (some_char (in_range 97 122) x) ||
  negb (some_char (in_range 65 90) x) || negb (some_char digit_char x) ||
  negb (some_char (λ c, negb (letter c || digit_char c)) x) || negb (ASCII_PASSWORD_PATTERN x).

(** *** Its checks *)
(** [Errors]: in order of insertion; assigning again keeps the place. *)
Notation Errors := (list (FieldName * string)).
Definition put_error (field : FieldName) (key : string) (errors : Errors) : Errors := map_upsert field key (λ _, key) errors.
Definition put_if (b : bool) (field : FieldName) (key : string) (errors : Errors) : Errors :=
  if b then put_error field key errors else errors.
Section checks.
Context {JD : JsDates} (form : ApplicationForm).
Definition value_of (f : TextField) : string := form.(fm_text) f.
Definition required (f : TextField) (errors : Errors) : Errors :=
  put_if (negb (truthy (trim (value_of f)))) f "auth.registration.validation.required" errors.
Definition requires (fields : list TextField) (errors : Errors) : Errors := fold_left (λ e f, required f e) fields errors.
Definition check_email (errors : Errors) : Errors :=
  put_if (truthy (value_of email) && negb (email_pattern (value_of email))) email "auth.registration.validation.email" (required email errors).
Definition check_password (errors : Errors) : Errors :=
  put_if (truthy (value_of confirmPassword) && negb (String.eqb (value_of confirmPassword) (value_of password)))
    confirmPassword "auth.registration.validation.passwords_mismatch"
  (put_if (truthy (value_of password) && weak_password (value_of password)) password "auth.registration.validation.password"
  (requires [password; confirmPassword] errors)).
Definition check_name (f : TextField) (errors : Errors) : Errors :=
  put_if (truthy (value_of f) && negb (ENGLISH_LEGAL_NAME_PATTERN (trim (value_of f)))) f "auth.registration.validation.english_name" errors.
(** The day of birth as midnight UTC, and eighteen years before [now]. *)
Definition under_age (now : Z) : bool :=
  match date_parse (value_of dateOfBirth +:+ "T00:00:00Z") with
  | Some birth => years_before 18 now <? birth
  | None => true
  end.
(** [ownership <= 0 || ownership > 100]; neither holds of a text that is no number. *)
Definition bad_ownership : bool :=
  let ownership := n_of_string (value_of beneficialOwnerOwnership) in n_le ownership (n_ofZ 0) || n_lt (n_ofZ 100) ownership.
Definition check_details (now : Z) (errors : Errors) : Errors :=
  let errors := put_if (truthy (value_of phone) &&
      Nat.ltb (length (List.filter digit_char (String.list_ascii_of_string (value_of phone)))) 6)
    phone "auth.registration.validation.phone" (requires [phone; residenceCountry] errors) in
  if bool_decide (form.(fm_accountType) = Some individual) then
    put_if (truthy (value_of dateOfBirth) && under_age now) dateOfBirth "auth.registration.validation.adult"
      (check_name givenName (check_name familyName (requires individual_fields errors)))
  else
    put_if (truthy (value_of beneficialOwnerOwnership) && bad_ownership) beneficialOwnerOwnership "auth.registration.validation.ownership"
      (requires business_fields errors).
Definition check_consents (errors : Errors) : Errors :=
  put_if (bool_decide (form.(fm_accountType) = Some individual) && negb form.(fm_termsAccepted)) termsAccepted "auth.registration.validation.terms"
  (put_if (negb form.(fm_kycConsent)) kycConsent "auth.registration.validation.kyc_consent" errors).
(** [{ ...errors, ...collectStepErrors(step) }] *)
Definition collect_into (now : Z) (step : nat) (errors : Errors) : Errors :=
  match step with
  | 0%nat => check_email errors
  | 1%nat => check_password errors
  | 2%nat => put_if (is_none form.(fm_accountType)) accountType "auth.registration.validation.account_type" errors
  | 3%nat => check_details now errors
  | 4%nat => check_consents errors
  | 5%nat => put_if (negb form.(fm_termsAccepted)) termsAccepted "auth.registration.validation.terms" errors
  | _ => errors
  end.
Definition collectStepErrors (now : Z) (step : nat) : Errors := collect_into now step [].
Definition steps : nat := if bool_decide (form.(fm_accountType) = Some individual) then 5 else 6.
Definition fieldStep (field : FieldName) : nat :=
  match field with
  | Text email => 0 | Text password | Text confirmPassword => 1 | accountType => 2 | kycConsent => 4
  | termsAccepted => if bool_decide (form.(fm_accountType) = Some business) then 5 else 4
  | Text _ => 3
  end.
(** [validateApplication]: the errors of the steps from the third on. *)
Definition application_errors (now : Z) : Errors :=
  fold_left (λ all step, fold_left (λ all fe, put_error fe.1 fe.2 all) (collectStepErrors now step) all) (seq 2 (steps - 2)) [].
End checks.
Definition validationErrorKey (field : FieldName) : string :=
  match field with
  | accountType => "auth.registration.validation.account_type"
  | Text email => "auth.registration.validation.email"
  | Text password => "auth.registration.validation.password"
  | Text confirmPassword => "auth.registration.validation.passwords_mismatch"
  | Text phone | Text phoneCountryCode => "auth.registration.validation.phone"
  | Text familyName | Text givenName => "auth.registration.validation.english_name"
  | Text dateOfBirth => "auth.registration.validation.adult"
  | Text beneficialOwnerOwnership => "auth.registration.validation.ownership"
  | kycConsent => "auth.registration.validation.kyc_consent"
  | termsAccepted => "auth.registration.validation.terms"
  | Text _ => "auth.registration.validation.required"
  end.
(** The members of the application's body, with the fields they write. *)
Definition body_fields : list (string * TextField) :=
  [("phone_country_code", phoneCountryCode); ("phone", phone); ("residence_country", residenceCountry);
   ("family_name", familyName); ("given_name", givenName); ("date_of_birth", dateOfBirth); ("nationality", nationality);
   ("legal_name", legalName); ("registration_number", registrationNumber); ("incorporation_country", incorporationCountry);
   ("contact_name", contactName); ("contact_role", contactRole); ("beneficial_owner_name", beneficialOwnerName);
   ("beneficial_owner_ownership", beneficialOwnerOwnership)].
Definition API_FIELD_MAP : list (string * FieldName) :=
  [("account_type", accountType); ("email", Text email); ("password", Text password)] ++
  map (λ kf, (kf.1, Text kf.2)) body_fields ++ [("kyc_consent", kycConsent); ("terms_accepted", termsAccepted)].
Definition type_text (type : option AccountType) : string :=
  match type with Some individual => "individual" | Some business => "business" | None => "" end.
Definition application_body (form : ApplicationForm) : json :=
  JObj ([("account_type", JStr (type_text form.(fm_accountType)))] ++
        map (λ kf, (kf.1, JStr (form.(fm_text) kf.2))) body_fields ++
        [("kyc_consent", JBool form.(fm_kycConsent)); ("terms_accepted", JBool form.(fm_termsAccepted))]).

(** ** The state of the component *)
Record Sumsub := {
  ks_required : bool; ks_accessToken : string; ks_ready : bool; ks_status : string; ks_loading : bool; ks_error : string;
  ks_feedback : list string;
}.
Definition no_sumsub : Sumsub :=
  {| ks_required := false; ks_accessToken := ""; ks_ready := false; ks_status := ""; ks_loading := false; ks_error := ""; ks_feedback := [] |}.
(** [registrationStarted], [emailVerified], [passwordReady], [verificationSent] *)
Record Account := { ra_started : bool; ra_verified : bool; ra_passwordReady : bool; ra_sent : bool }.
(** [activeStep], [errors], [submissionError], [submitting] *)
Record Wizard := { wz_step : nat; wz_errors : Errors; wz_error : string; wz_submitting : bool }.
Record Restart := { rs_open : bool; rs_error : string; rs_restarting : bool }.
Record Registration := MkRegistration {
  rg_wizard : Wizard; rg_form : ApplicationForm; rg_account : Account; rg_reference : string; rg_csrf : string;
  rg_sumsub : Sumsub; rg_restart : Restart; rg_uuid : nat;
}.
Definition initial_registration : Registration :=
  MkRegistration {| wz_step := 0; wz_errors := []; wz_error := ""; wz_submitting := false |} INITIAL_FORM
    {| ra_started := false; ra_verified := false; ra_passwordReady := false; ra_sent := false |} "" "" no_sumsub
    {| rs_open := false; rs_error := ""; rs_restarting := false |} 0.
Definition on_wizard (f : Wizard → Wizard) (s : Registration) : Registration :=
  MkRegistration (f s.(rg_wizard)) s.(rg_form) s.(rg_account) s.(rg_reference) s.(rg_csrf) s.(rg_sumsub) s.(rg_restart) s.(rg_uuid).
Definition on_form (f : ApplicationForm → ApplicationForm) (s : Registration) : Registration :=
  MkRegistration s.(rg_wizard) (f s.(rg_form)) s.(rg_account) s.(rg_reference) s.(rg_csrf) s.(rg_sumsub) s.(rg_restart) s.(rg_uuid).
Definition on_account (f : Account → Account) (s : Registration) : Registration :=
  MkRegistration s.(rg_wizard) s.(rg_form) (f s.(rg_account)) s.(rg_reference) s.(rg_csrf) s.(rg_sumsub) s.(rg_restart) s.(rg_uuid).
Definition set_reference (x : string) (s : Registration) : Registration :=
  MkRegistration s.(rg_wizard) s.(rg_form) s.(rg_account) x s.(rg_csrf) s.(rg_sumsub) s.(rg_restart) s.(rg_uuid).
Definition set_csrf (x : string) (s : Registration) : Registration :=
  MkRegistration s.(rg_wizard) s.(rg_form) s.(rg_account) s.(rg_reference) x s.(rg_sumsub) s.(rg_restart) s.(rg_uuid).
Definition on_sumsub (f : Sumsub → Sumsub) (s : Registration) : Registration :=
  MkRegistration s.(rg_wizard) s.(rg_form) s.(rg_account) s.(rg_reference) s.(rg_csrf) (f s.(rg_sumsub)) s.(rg_restart) s.(rg_uuid).
Definition on_restart (f : Restart → Restart) (s : Registration) : Registration :=
  MkRegistration s.(rg_wizard) s.(rg_form) s.(rg_account) s.(rg_reference) s.(rg_csrf) s.(rg_sumsub) (f s.(rg_restart)) s.(rg_uuid).
(** [idempotencyKey.current = crypto.randomUUID()] *)
Definition new_key (s : Registration) : Registration :=
  MkRegistration s.(rg_wizard) s.(rg_form) s.(rg_account) s.(rg_reference) s.(rg_csrf) s.(rg_sumsub) s.(rg_restart) (S s.(rg_uuid)).
Definition set_step (n : nat) (w : Wizard) : Wizard :=
  {| wz_step := n; wz_errors := w.(wz_errors); wz_error := w.(wz_error); wz_submitting := w.(wz_submitting) |}.
Definition set_errors (e : Errors) (w : Wizard) : Wizard :=
  {| wz_step := w.(wz_step); wz_errors := e; wz_error := w.(wz_error); wz_submitting := w.(wz_submitting) |}.
Definition set_error (x : string) (w : Wizard) : Wizard :=
  {| wz_step := w.(wz_step); wz_errors := w.(wz_errors); wz_error := x; wz_submitting := w.(wz_submitting) |}.
Definition set_submitting (b : bool) (w : Wizard) : Wizard :=
  {| wz_step := w.(wz_step); wz_errors := w.(wz_errors); wz_error := w.(wz_error); wz_submitting := b |}.
Definition set_ready (verified passwordReady : bool) (a : Account) : Account :=
  {| ra_started := a.(ra_started); ra_verified := verified; ra_passwordReady := passwordReady; ra_sent := a.(ra_sent) |}.
Definition set_status (x : string) (k : Sumsub) : Sumsub :=
  {| ks_required := k.(ks_required); ks_accessToken := k.(ks_accessToken); ks_ready := k.(ks_ready); ks_status := x;
     ks_loading := k.(ks_loading); ks_error := k.(ks_error); ks_feedback := k.(ks_feedback) |}.
Definition set_loading (loading : bool) (error : string) (k : Sumsub) : Sumsub :=
  {| ks_required := k.(ks_required); ks_accessToken := k.(ks_accessToken); ks_ready := k.(ks_ready); ks_status := k.(ks_status);
     ks_loading := loading; ks_error := error; ks_feedback := k.(ks_feedback) |}.
Definition set_sdk_ready (ready : bool) (k : Sumsub) : Sumsub :=
  {| ks_required := k.(ks_required); ks_accessToken := k.(ks_accessToken); ks_ready := ready; ks_status := k.(ks_status);
     ks_loading := k.(ks_loading); ks_error := k.(ks_error); ks_feedback := k.(ks_feedback) |}.
Definition set_access (token status : string) (k : Sumsub) : Sumsub :=
  {| ks_required := k.(ks_required); ks_accessToken := token; ks_ready := k.(ks_ready); ks_status := status;
     ks_loading := k.(ks_loading); ks_error := k.(ks_error); ks_feedback := k.(ks_feedback) |}.
Definition set_required (b : bool) (k : Sumsub) : Sumsub :=
  {| ks_required := b; ks_accessToken := k.(ks_accessToken); ks_ready := k.(ks_ready); ks_status := k.(ks_status);
     ks_loading := k.(ks_loading); ks_error := k.(ks_error); ks_feedback := k.(ks_feedback) |}.
Definition set_feedback (l : list string) (k : Sumsub) : Sumsub :=
  {| ks_required := k.(ks_required); ks_accessToken := k.(ks_accessToken); ks_ready := k.(ks_ready); ks_status := k.(ks_status);
     ks_loading := k.(ks_loading); ks_error := k.(ks_error); ks_feedback := l |}.

(** ** The handlers without requests *)
Definition updateField (e : Edit) (s : Registration) : Registration :=
  new_key (on_wizard (λ w, set_error "" (set_errors (List.filter (λ fe, negb (bool_decide (fe.1 = edited e))) w.(wz_errors)) w))
    (on_form (apply_edit e) s)).
Definition selectAccountType (type : AccountType) (s : Registration) : Registration :=
  new_key (on_wizard (λ w, set_error "" (set_errors [] w)) (on_form (choose_type type) s)).
Section registration.
Context {JD : JsDates} (uuid : nat → string) (fix_fields : list FieldName → string) (network_message : string).
(** [applyValidationErrors]: the new state, and whether there are none.  [form] is that of
    the handler. *)
Definition minimum (l : list nat) : nat := match l with [] => 0 | n :: l' => fold_left Nat.min l' n end.
Definition applyValidationErrors (form : ApplicationForm) (nextErrors : Errors) (navigateToError : bool) (s : Registration) : Registration :=
  match nextErrors with
  | [] => on_wizard (λ w, set_error "" (set_errors [] w)) s
  | _ =>
      let fields := map fst nextErrors in
      on_wizard (λ w, let w := set_error (fix_fields fields) (set_errors nextErrors w) in
                      if navigateToError then set_step (minimum (map (fieldStep form) fields)) w else w) s
  end.
Definition no_errors (errors : Errors) : bool := match errors with [] => true | _ => false end.
Definition nextStep (now : Z) (s : Registration) : Registration :=
  let errors := collectStepErrors s.(rg_form) now s.(rg_wizard).(wz_step) in
  let s' := applyValidationErrors s.(rg_form) errors false s in
  if no_errors errors then on_wizard (λ w, set_step (Nat.min (w.(wz_step) + 1) (steps s.(rg_form) - 1)) w) s' else s'.
Definition previousStep (s : Registration) : Registration :=
  let earliestStep := (if s.(rg_account).(ra_passwordReady) then 2 else if s.(rg_account).(ra_verified) then 1 else 0)%nat in
  on_wizard (λ w, set_step (Nat.max (w.(wz_step) - 1) earliestStep) (set_errors [] w)) s.
(** What the provider's frame tells the page. *)
Definition sdk_message (type : string) (s : Registration) : Registration :=
  let s := if String.eqb type "idCheck.onReady" then on_sumsub (set_sdk_ready true) s else s in
  if includes ["idCheck.onApplicantSubmitted"; "idCheck.onApplicantResubmitted"; "idCheck.onApplicantStatusChanged"] type
  then on_sumsub (set_status "provider_reviewing") s else s.
Definition sdk_error (s : Registration) : Registration :=
  on_sumsub (λ k, set_loading k.(ks_loading) "auth.registration.sumsub.unavailable" (set_sdk_ready true k)) s.

(** ** Requests *)
Notation P := (Proc Registration).
(** The state a handler sees. *)
Definition looking {A} (k : Registration → P A) : P A := Act (λ s, s) k.
Definition doing (f : Registration → Registration) : P unit := Act f (λ _, Return tt).
Definition failing {A} (key : string) : P A := Throw (OtherError key).
(** [fetch], which may fail, and the parsed body: [null] and a text that is no JSON are absent. *)
Definition fetching (rq : AuthRequest) : P ApiResponse :=
  Fetch rq (λ r, match r with FetchAnswered response => Return response | FetchFailed => failing network_message end).
Definition body_of (response : ApiResponse) : option json :=
  match response.(ar_json) with Some JNull => None | payload => payload end.
Definition getting (path : string) : AuthRequest :=
  {| hr_path := path; hr_method := "GET"; hr_headers := {[ "accept" := "application/json" ]}; hr_body := None |}.
Definition sending (path : string) (headers : gmap string string) (body : json) : AuthRequest :=
  {| hr_path := path; hr_method := "POST"; hr_headers := <["content-type" := "application/json"]> headers; hr_body := Some body |}.
Definition ok_answer (response : ApiResponse) : bool := ok_status response.(ar_status).
Definition truthy_member (key : string) (payload : option json) : bool := js_truthy (json_get key payload).
Definition text_member (key : string) (payload : option json) : string := default "" (json_str (json_get key payload)).
(** [setSubmitting(true); setSubmissionError(''); try { .. } catch (e) { setSubmissionError(e.message) } finally { setSubmitting(false) }] *)
Definition submitting {A} (none : A) (p : P A) : P A :=
  let* _ := doing (on_wizard (λ w, set_error "" (set_submitting true w))) in
  finally (catching p (λ e, let* _ := doing (on_wizard (set_error (error_message e))) in Return none)) (on_wizard (set_submitting false)).
(** A handler that first checks a step. *)
Definition checked (now : Z) (step : nat) (k : Registration → P unit) : P unit :=
  looking (λ s,
    let errors := collectStepErrors s.(rg_form) now step in
    let* _ := doing (applyValidationErrors s.(rg_form) errors false) in
    if no_errors errors then k s else Return tt).

Definition startRegistration (now : Z) : P unit :=
  checked now 0 (λ s, submitting tt
    (let* response := fetching (sending "/api/auth/customer/registration/start" ∅ (JObj [("email", JStr (s.(rg_form).(fm_text) email))])) in
     let payload := body_of response in
     if negb (ok_answer response) then
       failing (if opt_eqb (json_str (code_of payload)) (Some "application_already_exists")
                then "auth.registration.errors.already_exists" else "auth.registration.email_verification.start_error")
     else
       let verified := truthy_member "email_verified" payload in
       let ready := truthy_member "password_ready" payload in
       doing (λ s,
         let s := on_account (λ _, {| ra_started := true; ra_verified := verified; ra_passwordReady := ready; ra_sent := true |}) s in
         let s := if truthy_member "csrf_token" payload then set_csrf (text_member "csrf_token" payload) s else s in
         if verified then on_wizard (set_step (if ready then 2 else 1)) s else s))).
Definition refreshRegistrationStatus : P unit :=
  submitting tt
    (let* response := fetching (getting "/api/auth/customer/onboarding/status") in
     let payload := body_of response in
     if negb (ok_answer response) then failing "auth.registration.email_verification.not_verified"
     else
       let verified := truthy_member "email_verified" payload in
       let ready := truthy_member "password_ready" payload in
       let* _ := doing (on_account (set_ready verified ready)) in
       if negb verified then failing "auth.registration.email_verification.not_verified"
       else doing (on_wizard (set_step (if ready then 2 else 1)))).
Definition resendVerificationEmail (now : Z) : P unit :=
  looking (λ s,
    if negb (truthy s.(rg_csrf)) then startRegistration now
    else submitting tt
      (let* response := fetching (sending "/api/auth/customer/onboarding/email-verification/resend" {[ "x-csrf-token" := s.(rg_csrf) ]} (JObj [])) in
       if negb (ok_answer response) then
         failing (if response.(ar_status) =? 429 then "auth.registration.email_verification.rate_limited"
                  else "auth.registration.email_verification.resend_error")
       else doing (on_account (λ a, {| ra_started := a.(ra_started); ra_verified := a.(ra_verified);
                                       ra_passwordReady := a.(ra_passwordReady); ra_sent := true |})))).
Definition saveRegistrationPassword (now : Z) : P unit :=
  checked now 1 (λ s, submitting tt
    (let* response := fetching (sending "/api/auth/customer/registration/password" {[ "x-csrf-token" := s.(rg_csrf) ]}
                                  (JObj [("password", JStr (s.(rg_form).(fm_text) password))])) in
     if negb (ok_answer response) then failing "auth.registration.password_step.save_error"
     else doing (λ s, on_wizard (set_step 2) (on_form (clear_fields [password; confirmPassword])
                   (on_account (λ a, {| ra_started := a.(ra_started); ra_verified := a.(ra_verified); ra_passwordReady := true; ra_sent := a.(ra_sent) |}) s))))).

(** *** The KYC provider *)
(** The comments a customer sees: trimmed, without empty ones and repetitions. *)
Definition comment_of (value : option json) : list string :=
  match json_get "moderation_comment" value with Some (JStr x) => [x] | _ => [] end.
Definition steps_of (verification : option json) : list json :=
  match json_get "steps" verification with Some (JArr l) => l | _ => [] end.
Fixpoint distinct (seen l : list string) : list string :=
  match l with x :: l' => if includes seen x then distinct seen l' else x :: distinct (x :: seen) l' | [] => [] end.
Definition customerVisibleSumsubFeedback (verification : option json) : list string :=
  distinct [] (List.filter truthy (map trim
    (comment_of verification ++ flat_map (λ step, comment_of (Some step)) (steps_of verification)))).
Definition requestSumsubToken (csrfToken : string) : P string :=
  if negb (truthy csrfToken) then failing "auth.registration.sumsub.session_expired"
  else
    let* response := fetching (sending "/api/auth/customer/onboarding/kyc/token" {[ "x-csrf-token" := csrfToken ]} (JObj [])) in
    let payload := body_of response in
    if negb (ok_answer response) || negb (truthy_member "access_token" payload) then failing "auth.registration.sumsub.unavailable"
    else
      let token := text_member "access_token" payload in
      let* _ := doing (on_sumsub (set_access token
                  (if truthy_member "verification_status" payload then text_member "verification_status" payload else "awaiting_applicant"))) in
      Return token.
(** [setSumsubLoading(true); .. try { .. } catch { setSumsubError } finally { setSumsubLoading(false) }] *)
Definition loading_sumsub (p : P unit) : P unit :=
  let* _ := doing (on_sumsub (set_loading true "")) in
  finally (catching p (λ e, doing (on_sumsub (λ k, set_loading k.(ks_loading) (error_message e) k))))
    (on_sumsub (λ k, set_loading false k.(ks_error) k)).
Definition startSumsub (csrfToken : string) : P unit :=
  loading_sumsub (let* _ := doing (on_sumsub (set_sdk_ready false)) in let* _ := requestSumsubToken csrfToken in Return tt).
Definition followed (verification : option json) : Registration → Registration :=
  on_sumsub (λ k, set_feedback (customerVisibleSumsubFeedback verification) (set_status (text_member "status" verification) k)).
Definition refreshSumsubStatus : P unit :=
  loading_sumsub
    (let* response := fetching (getting "/api/auth/customer/onboarding/status") in
     let verification := json_get "verification" (body_of response) in
     if negb (ok_answer response) || negb (truthy_member "status" verification)
     then failing "auth.registration.sumsub.status_unavailable"
     else doing (followed verification)).

(** *** Starting over *)
Definition cleared (s : Registration) : Registration :=
  on_restart (λ r, {| rs_open := false; rs_error := r.(rs_error); rs_restarting := r.(rs_restarting) |})
    (new_key (MkRegistration {| wz_step := 0; wz_errors := []; wz_error := ""; wz_submitting := s.(rg_wizard).(wz_submitting) |}
       INITIAL_FORM s.(rg_account) "" ""
       {| ks_required := false; ks_accessToken := ""; ks_ready := false; ks_status := ""; ks_loading := s.(rg_sumsub).(ks_loading);
          ks_error := ""; ks_feedback := [] |} s.(rg_restart) s.(rg_uuid))).
Definition restart_error (x : string) : Registration → Registration :=
  on_restart (λ r, {| rs_open := r.(rs_open); rs_error := x; rs_restarting := r.(rs_restarting) |}).
Definition restarting (b : bool) : Registration → Registration :=
  on_restart (λ r, {| rs_open := r.(rs_open); rs_error := r.(rs_error); rs_restarting := b |}).
Definition restartApplication : P unit :=
  looking (λ s,
    if negb (truthy s.(rg_csrf)) then doing (restart_error "auth.registration.success.restart_error")
    else
      let* _ := doing (λ s, restart_error "" (restarting true s)) in
      finally (catching
        (let* response := fetching (sending "/api/auth/customer/onboarding/restart" {[ "x-csrf-token" := s.(rg_csrf) ]} (JObj [])) in
         if negb (ok_answer response) then failing "auth.registration.success.restart_error" else doing cleared)
        (λ _, doing (restart_error "auth.registration.success.restart_error"))) (restarting false)).

(** *** Opening the page *)
Fixpoint split_cookies (s : string) : list string :=
  match s with
  | EmptyString => [""]
  | String c s' => if Ascii.eqb c ";" then "" :: split_cookies s'
                   else match split_cookies s' with x :: l => String c x :: l | [] => [String c ""] end
  end.
(** The cookie of the first name found; a text that does not decode throws. *)
Definition onboardingCSRFCookie (cookie : string) : option string :=
  let cookies := map trim (split_cookies cookie) in
  let value_of name := List.find (starts_with (name +:+ "=")) cookies ≫= strip_prefix (name +:+ "=") in
  match omap value_of ["__Host-neobank_onboarding_csrf"; "neobank_onboarding_csrf"] with
  | value :: _ => decodeURIComponent value
  | [] => Some ""
  end.
(** The probe of the first effect; [cookie] is the document's when the answer is read. *)
Definition resume (cookie : string) : P unit :=
  let* response := fetching (getting "/api/auth/customer/onboarding/status") in
  if negb (ok_answer response) then Return tt
  else
    let payload := body_of response in
    match onboardingCSRFCookie cookie with
    | None => failing "URI malformed"
    | Some csrfToken =>
        if is_none payload || negb (truthy csrfToken) then Return tt
        else
          let verified := truthy_member "email_verified" payload in
          let ready := truthy_member "password_ready" payload in
          let* _ := doing (λ s, set_csrf csrfToken (on_account (λ a, {| ra_started := true; ra_verified := verified;
                                                                       ra_passwordReady := ready; ra_sent := a.(ra_sent) |}) s)) in
          if negb verified then doing (on_wizard (set_step 0))
          else if negb ready then doing (on_wizard (set_step 1))
          else if negb (truthy_member "application_completed" payload) || negb (truthy_member "application_reference" payload)
          then doing (on_wizard (set_step 2))
          else
            let* _ := doing (set_reference (text_member "application_reference" payload)) in
            let verification := json_get "verification" payload in
            if negb (truthy_member "status" verification) then doing (on_sumsub (set_required false))
            else
              let* _ := doing (λ s, followed verification (on_sumsub (set_required true) s)) in
              if includes ["ready_for_admin_review"; "provider_rejected"] (text_member "status" verification) then Return tt
              else startSumsub csrfToken
    end.

(** *** The application *)
Definition complete_path : string := "/api/auth/customer/registration/complete".
Definition submission (s : Registration) : AuthRequest :=
  sending complete_path {[ "idempotency-key" := uuid s.(rg_uuid); "x-csrf-token" := s.(rg_csrf) ]} (application_body s.(rg_form)).
(** The fields an answer names, with their errors. *)
Definition server_errors (payload : option json) : Errors :=
  match json_get "fields" (json_get "details" (json_get "error" payload)) with
  | Some (JArr names) =>
      fold_left (λ errors name, match json_str (Some name) with
                                | Some x => match map_get x API_FIELD_MAP with
                                            | Some field => put_error field (validationErrorKey field) errors
                                            | None => errors
                                            end
                                | None => errors
                                end) names []
  | _ => []
  end.
(** What the answer to an application does: the new state, or an error. *)
Definition refused_key (payload : option json) : string :=
  if opt_eqb (json_str (code_of payload)) (Some "validation_error") then "auth.registration.errors.validation_failed"
  else if opt_eqb (json_str (code_of payload)) (Some "application_already_exists") then "auth.registration.errors.already_exists"
  else "auth.registration.errors.submit".
(** The process gives the token with which the verification is to start, when it is. *)
Definition submitApplication (now : Z) : P (option string) :=
  looking (λ s,
    let errors := application_errors s.(rg_form) now in
    let* _ := doing (applyValidationErrors s.(rg_form) errors true) in
    if negb (no_errors errors) then Return None
    else submitting None
      (let* response := fetching (submission s) in
       let payload := body_of response in
       if negb (ok_answer response) || negb (truthy_member "application_reference" payload) then
         let errors := if opt_eqb (json_str (code_of payload)) (Some "validation_error") then server_errors payload else [] in
         if negb (no_errors errors)
         then let* _ := doing (applyValidationErrors s.(rg_form) errors true) in Return None
         else failing (refused_key payload)
       else
         let requiresSumsub := bool_decide (s.(rg_form).(fm_accountType) = Some individual) &&
                               opt_eqb (json_str (json_get "kyc_provider" payload)) (Some "sumsub") in
         let csrfToken := if truthy_member "csrf_token" payload then text_member "csrf_token" payload else s.(rg_csrf) in
         let* _ := doing (λ s, on_sumsub (set_required requiresSumsub) (set_reference (text_member "application_reference" payload) s)) in
         if requiresSumsub && truthy csrfToken then
           let* _ := doing (λ s, on_sumsub (set_status (if truthy_member "kyc_status" payload then text_member "kyc_status" payload
                                                         else "initializing")) (set_csrf csrfToken s)) in
           Return (Some csrfToken)
         else Return None)).

(** ** The page *)
(** What the user, the browser and the provider's frame do. *)
Inductive Action :=
| Change (e : Edit) | Choose (type : AccountType) | Primary | Back | Resend | RefreshVerification | RetryVerification
| OpenRestart | CloseRestart | ConfirmRestart | Message (type : string) | FrameError | TokenExpired.
(** The fields on the screen at a step, and what can be done then: at least what the page offers. *)
Definition field_shown (s : Registration) (f : FieldName) : bool :=
  match s.(rg_wizard).(wz_step) with
  | 0%nat => bool_decide (f = email) && negb s.(rg_account).(ra_started)
  | 1%nat => bool_decide (f = password ∨ f = confirmPassword)
  | 3%nat => bool_decide (fieldStep s.(rg_form) f = 3%nat)
  | 4%nat => bool_decide (fieldStep s.(rg_form) f = 4%nat)
  | 5%nat => bool_decide (f = termsAccepted)
  | _ => false
  end.
Definition enabled (s : Registration) (a : Action) : bool :=
  let step := s.(rg_wizard).(wz_step) in
  if truthy s.(rg_reference) then
    match a with
    | RefreshVerification => s.(rg_sumsub).(ks_required) && negb s.(rg_sumsub).(ks_loading)
    | RetryVerification => s.(rg_sumsub).(ks_required) && truthy s.(rg_sumsub).(ks_error)
    | OpenRestart => s.(rg_sumsub).(ks_required) && truthy s.(rg_csrf)
    | CloseRestart | ConfirmRestart => s.(rg_restart).(rs_open) && negb s.(rg_restart).(rs_restarting)
    | Message _ | FrameError | TokenExpired => s.(rg_sumsub).(ks_required)
    | _ => false
    end
  else
    match a with
    | Change e => field_shown s (edited e)
    | Choose _ => Nat.eqb step 2
    | Primary => negb s.(rg_wizard).(wz_submitting)
    | Back => Nat.ltb 2 step
    | Resend => Nat.eqb step 0 && s.(rg_account).(ra_started) && negb s.(rg_wizard).(wz_submitting)
    | _ => false
    end.
Definition unit_process (p : P unit) : P (option string) := let* _ := p in Return None.
Definition now_doing (f : Registration → Registration) : P (option string) := unit_process (doing f).
(** [primaryAction] by the step. *)
Definition primaryAction (now : Z) (s : Registration) : P (option string) :=
  match s.(rg_wizard).(wz_step) with
  | 0%nat => unit_process (if s.(rg_account).(ra_started) then refreshRegistrationStatus else startRegistration now)
  | 1%nat => unit_process (saveRegistrationPassword now)
  | step => if (bool_decide (s.(rg_form).(fm_accountType) = Some individual) && Nat.eqb step 4) || Nat.eqb step (steps s.(rg_form) - 1)
            then submitApplication now else now_doing (nextStep now)
  end.
Definition handler (now : Z) (a : Action) (s : Registration) : P (option string) :=
  match a with
  | Change e => now_doing (updateField e)
  | Choose type => now_doing (selectAccountType type)
  | Primary => primaryAction now s
  | Back => now_doing previousStep
  | Resend => unit_process (resendVerificationEmail now)
  | RefreshVerification => unit_process refreshSumsubStatus
  | RetryVerification => unit_process (startSumsub s.(rg_csrf))
  | OpenRestart => now_doing (on_restart (λ r, {| rs_open := true; rs_error := ""; rs_restarting := r.(rs_restarting) |}))
  | CloseRestart => now_doing (on_restart (λ r, {| rs_open := false; rs_error := r.(rs_error); rs_restarting := r.(rs_restarting) |}))
  | ConfirmRestart => unit_process restartApplication
  | Message type => now_doing (sdk_message type)
  | FrameError => now_doing sdk_error
  | TokenExpired => unit_process (let* _ := requestSumsubToken s.(rg_csrf) in Return tt)
  end.
(** The page with its processes and the requests it has sent. *)
Record Screen := { sc_page : Registration; sc_tasks : list (P (option string)); sc_sent : list AuthRequest }.
Definition sent_by (p : P (option string)) : list AuthRequest := match p with Fetch rq _ => [rq] | _ => [] end.
(** A process runs to its next wait; one that ends with a token starts the verification. *)
Definition run_task (p : P (option string)) (place : P (option string) → list (P (option string))) (sc : Screen) : Screen :=
  let '(p', page) := advance p sc.(sc_page) in
  match p' with
  | Return (Some csrfToken) =>
      let '(q, page') := advance (unit_process (startSumsub csrfToken)) page in
      {| sc_page := page'; sc_tasks := place p' ++ [q]; sc_sent := sc.(sc_sent) ++ sent_by q |}
  | _ => {| sc_page := page; sc_tasks := place p'; sc_sent := sc.(sc_sent) ++ sent_by p' |}
  end.
Inductive ScreenEvent := Act_on (now : Z) (a : Action) | Answered_to (i : nat) (r : Fetched).
Definition screen_step (sc : Screen) (e : ScreenEvent) : Screen :=
  match e with
  | Act_on now a =>
      if enabled sc.(sc_page) a then run_task (handler now a sc.(sc_page)) (λ p, sc.(sc_tasks) ++ [p]) sc else sc
  | Answered_to i r =>
      match sc.(sc_tasks) !! i with
      | Some (Fetch _ k) => run_task (k r) (λ p, <[i := p]> sc.(sc_tasks)) sc
      | _ => sc
      end
  end.
(** The page as it opens, with its probe under way. *)
Definition opened_screen (cookie : string) : Screen :=
  run_task (unit_process (resume cookie)) (λ p, [p]) {| sc_page := initial_registration; sc_tasks := []; sc_sent := [] |}.
End registration.
