(* ===== verification/RegistrationProperties.v ===== *)
(** Properties of [Registration]: what is sent as an application, and under which key; and
    where a customer who starts over ends up. *)
From S2P Require Import Prelude Schema JsNumber EdgeAuth EdgeWorker ClientAccess ClientApi ClientReports AuthApi Registration.
From Stdlib Require Import Ascii SpecFloat.

(** ** The calendar *)
(** The days of one cycle of 400 years, one after another. *)
Definition day_ok (doe : Z) : bool :=
  let yoe := (doe - doe / 1460 + doe / 36524 - doe / 146096) / 365 in
  let doy := doe - (365 * yoe + yoe / 4 - yoe / 100) in
  let mp := (5 * doy + 2) / 153 in
  (0 <=? yoe) && (yoe <? 400) && (0 <=? mp) && (mp <? 12) &&
  (yoe * 365 + yoe / 4 - yoe / 100 + ((153 * mp + 2) / 5 + (doy - (153 * mp + 2) / 5)) =? doe).
Fixpoint days_ok (count : nat) (doe : Z) : bool :=
  match count with O => true | S count' => day_ok doe && days_ok count' (doe + 1) end.
Lemma days_ok_all : days_ok (Z.to_nat 146097) 0 = true. Proof. by vm_compute. Qed.
Lemma days_ok_at count : ∀ from doe, days_ok count from = true → from ≤ doe < from + Z.of_nat count → day_ok doe = true.
Proof.
  induction count as [|count IH]; intros from doe H Hd; [lia|]. cbn [days_ok] in H. apply andb_true_iff in H as [H0 H].
  destruct (Z.eq_dec from doe) as [<-|]; [done|]. apply (IH (from + 1)); [done|lia].
Qed.
(** A day's date is that day's. *)
Lemma date_and_day n : let '(year, month, day) := date_of_day n in day_of_date year month day = n.
Proof.
  unfold date_of_day. set (doe := (n + 719468) mod 146097). set (era := (n + 719468) / 146097).
  pose proof (Z.mod_pos_bound (n + 719468) 146097 ltac:(lia)) as Hd. fold doe in Hd.
  pose proof (Z.div_mod (n + 719468) 146097 ltac:(lia)) as En. fold doe era in En.
  assert (Hok : day_ok doe = true) by (apply (days_ok_at _ _ _ days_ok_all); lia). unfold day_ok in Hok.
  set (yoe := (doe - doe / 1460 + doe / 36524 - doe / 146096) / 365) in *.
  set (doy := doe - (365 * yoe + yoe / 4 - yoe / 100)) in *. set (mp := (5 * doy + 2) / 153) in *.
  repeat (apply andb_true_iff in Hok as [Hok ?]). repeat match goal with H : _ = true |- _ =>
    first [apply Z.leb_le in H | apply Z.ltb_lt in H | apply Z.eqb_eq in H] end.
  assert (Hy : ∀ y m, y = era * 400 + yoe + (if m <=? 2 then 1 else 0) → (if m <=? 2 then y - 1 else y) = era * 400 + yoe)
    by (intros y m ->; destruct (m <=? 2); lia).
  unfold day_of_date. rewrite Hy by done.
  assert (E1 : (era * 400 + yoe) mod 400 = yoe) by (symmetry; apply (Z.mod_unique _ _ era); lia).
  assert (E2 : (era * 400 + yoe) / 400 = era) by (symmetry; apply (Z.div_unique _ _ _ yoe); lia).
  rewrite E1, E2. destruct (mp <? 10) eqn:Em; [apply Z.ltb_lt in Em|apply Z.ltb_ge in Em].
  - replace (2 <? mp + 3) with true by (symmetry; apply Z.ltb_lt; lia). replace (mp + 3 - 3) with mp by lia. lia.
  - replace (2 <? mp - 9) with false by (symmetry; apply Z.ltb_ge; lia). replace (mp - 9 + 9) with mp by lia. lia.
Qed.
Example leap_day_birthday : date_of_day (years_before 18 (day_of_date 2024 2 29 * DAY_MS) / DAY_MS) = (2006, 3, 1) ∧
  date_of_day (years_before 18 (day_of_date 2026 7 24 * DAY_MS + 5) / DAY_MS) = (2008, 7, 24) ∧ day_of_date 1970 1 1 = 0.
Proof. by vm_compute. Qed.

(** ** Processes that send no application *)
Notation P := (Proc Registration).
(** The state has moved on: with the same key the application is the same. *)
Definition later (x y : Registration) : Prop :=
  (y.(rg_uuid) = x.(rg_uuid) ∧ application_body y.(rg_form) = application_body x.(rg_form)) ∨ (x.(rg_uuid) < y.(rg_uuid))%nat.
#[global] Instance later_preorder : PreOrder later.
Proof. split; [by left|]. intros x y z [[E1 F1]|H1] [[E2 F2]|H2]; [left; split; congruence|right; lia..]. Qed.

Section registration_properties.
Context {JD : JsDates} (uuid : nat → string) (fix_fields : list FieldName → string) (network_message : string).
Notation fixing := (applyValidationErrors fix_fields).


(** ** What the page has sent *)
Context (uuid_distinct : Inj (=) (=) uuid).
Definition key_of (rq : AuthRequest) : option string := rq.(hr_headers) !! "idempotency-key".




(** ** Starting over *)
(** The page after an application was given up: back at the first step, its address field
    empty and locked, since the registration still counts as started. *)
Definition restarted (s : Registration) : Prop :=
  s.(rg_reference) = "" ∧ s.(rg_csrf) = "" ∧ s.(rg_wizard).(wz_step) = 0%nat ∧ s.(rg_account).(ra_started) = true ∧
  s.(rg_form).(fm_text) email = "".
Lemma cleared_restarted s : s.(rg_account).(ra_started) = true → restarted (cleared s).
Proof. by intros H. Qed.
(** An answer that the revoked session gets. *)
Definition refused (r : Fetched) : Prop := match r with FetchAnswered response => ok_answer response = false | FetchFailed => True end.
Definition status_request : AuthRequest := getting "/api/auth/customer/onboarding/status".
(** A waiting process that a refusal ends with the page as restarted as before. *)
Definition stranded_task (p : P (option string)) : Prop :=
  match p with
  | Fetch _ k => ∀ r s, refused r → restarted s → ∃ s', advance (k r) s = (Return None, s') ∧ restarted s'
  | _ => True
  end.
Definition stranded (sc : Screen) : Prop := restarted sc.(sc_page) ∧ Forall stranded_task sc.(sc_tasks).
Lemma status_stranded s : restarted s → ∃ k s', advance (unit_process (refreshRegistrationStatus network_message)) s = (Fetch status_request k, s') ∧
  restarted s' ∧ stranded_task (Fetch status_request k).
Proof.
  intros Hs. do 2 eexists. split; [reflexivity|]. split; [exact Hs|]. intros r x Hr Hx.
  destruct r as [response|]; cbn in Hr |- *; [rewrite Hr; cbn|]; by eexists.
Qed.
Lemma resend_stranded now s : restarted s →
  ∃ s', advance (unit_process (resendVerificationEmail fix_fields network_message now)) s = (Return None, s') ∧ restarted s'.
Proof.
  intros Hs. pose proof Hs as (Hr & Hc & Hw & Ha & He). unfold unit_process, resendVerificationEmail, looking. cbn [advance proc_bind]. rewrite Hc. cbn [truthy negb String.eqb].
  unfold startRegistration, checked, looking. cbn [advance proc_bind].
  assert (Hne : no_errors (collectStepErrors s.(rg_form) now 0) = false).
  { unfold collectStepErrors, collect_into, check_email, required, value_of. by rewrite He. }
  rewrite Hne. cbn. eexists. split; [reflexivity|]. unfold applyValidationErrors. destruct (check_email _ _); exact Hs.
Qed.
Lemma stranded_sends (sent : list AuthRequest) sc e : stranded sc → (∀ rq, rq ∈ sc.(sc_sent) → rq ∈ sent ∨ rq = status_request) →
  match e with Answered_to _ r => refused r | Act_on _ _ => True end →
  let sc' := screen_step uuid fix_fields network_message sc e in
  stranded sc' ∧ (∀ rq, rq ∈ sc'.(sc_sent) → rq ∈ sent ∨ rq = status_request).
Proof.
  intros Hsc Hsent He. pose proof Hsc as [Hs Ht]. pose proof Hs as (Hr & _ & Hw & Ha & _). destruct e as [now a|i r].
  - cbn zeta. unfold screen_step, enabled. rewrite Hr, Hw. cbn [truthy String.eqb negb].
    destruct a as [e|type| | | | | | | | |type| |]; try (split; [by split|done]).
    + unfold field_shown. rewrite Hw, Ha, andb_false_r. by split.
    + destruct (negb _); [|by split]. cbn [handler]. unfold primaryAction. rewrite Hw, Ha.
      destruct (status_stranded _ Hs) as (k & s' & E & Hs' & Hk). unfold run_task. rewrite E. cbn. split.
      * split; [done|]. cbn. apply Forall_app. split; [done|by apply Forall_singleton].
      * intros rq [Hrq| ->%list_elem_of_singleton]%elem_of_app; [by apply Hsent|by right].
    + rewrite Ha. cbn [Nat.eqb andb]. destruct (negb _); [|by split]. cbn [handler].
      destruct (resend_stranded now _ Hs) as (s' & E & Hs'). unfold run_task. rewrite E. cbn. rewrite app_nil_r. split; [|done].
      split; [done|]. cbn. apply Forall_app. split; [done|by apply Forall_singleton].
  - cbn. destruct (sc_tasks sc !! i) as [[| |rq k| |]|] eqn:Ei; try by split.
    pose proof (Forall_lookup_1 _ _ _ _ Ht Ei) as Hk. destruct (Hk r _ He Hs) as (s' & E & Hs').
    unfold run_task. rewrite E. cbn. rewrite app_nil_r. split; [|done]. split; [done|]. cbn. by apply Forall_insert.
Qed.
(** A customer who starts over cannot go on: with the old session revoked, nothing the page
    offers leaves the first step, fills in the address or sends anything but requests for
    the status; in particular no new registration is started.  Only opening the page again
    helps. *)
Theorem restart_strands events sc : restarted sc.(sc_page) → Forall stranded_task sc.(sc_tasks) →
  Forall (λ e, match e with Answered_to _ r => refused r | Act_on _ _ => True end) events →
  let sc' := fold_left (screen_step uuid fix_fields network_message) events sc in
  restarted sc'.(sc_page) ∧ ∀ rq, rq ∈ sc'.(sc_sent) → rq ∈ sc.(sc_sent) ∨ rq = status_request.
Proof.
  intros Hs Ht Hev. cbn zeta.
  assert (H : ∀ (sent : list AuthRequest) sc, stranded sc → (∀ rq, rq ∈ sc.(sc_sent) → rq ∈ sent ∨ rq = status_request) →
    let sc' := fold_left (screen_step uuid fix_fields network_message) events sc in
    restarted sc'.(sc_page) ∧ ∀ rq, rq ∈ sc'.(sc_sent) → rq ∈ sent ∨ rq = status_request).
  { clear Hs Ht sc. intros sent. induction Hev as [|e events He _ IH]; intros sc Hst Hsent; [by destruct Hst|]. cbn [fold_left].
    destruct (stranded_sends sent sc e Hst Hsent He) as [H1 H2]. by apply IH. }
  apply H; [done|by left].
Qed.
End registration_properties.

(** ** A registration, and starting over *)
#[local] Instance sample_dates : JsDates := {| date_parse text := Some 631152000000; to_iso _ := "" |}.
Definition sample_uuid (n : nat) : string := pretty (N.of_nat n).
Definition sample_step : Screen → ScreenEvent → Screen := screen_step sample_uuid (λ _, "fix") "network".
Definition answer (members : list (string * json)) : Fetched :=
  FetchAnswered {| ar_status := 200; ar_contentType := Some "application/json"; ar_json := Some (JObj members) |}.
Definition unauthorised : Fetched := FetchAnswered {| ar_status := 401; ar_contentType := None; ar_json := None |}.
Definition today : Z := day_of_date 2026 7 24 * DAY_MS.
Definition typing (fields : list (TextField * string)) : list ScreenEvent := map (λ fv, Act_on today (Change (EditText fv.1 fv.2))) fields.
Definition apply_for_account : list ScreenEvent :=
  [Answered_to 0 FetchFailed] ++ typing [(email, "ada@example.com")] ++
  [Act_on today Primary; Answered_to 2 (answer [("csrf_token", JStr "csrf"); ("email_verified", JBool true); ("password_ready", JBool true)]);
   Act_on today (Choose individual); Act_on today Primary] ++
  typing [(phone, "1234 5678"); (residenceCountry, "HK"); (familyName, "Lovelace"); (givenName, "Ada"); (dateOfBirth, "1990-01-01"); (nationality, "GB")] ++
  [Act_on today Primary; Act_on today (Change (EditKycConsent true)); Act_on today (Change (EditTermsAccepted true)); Act_on today Primary].
Definition start_over : list ScreenEvent :=
  [Answered_to 14 (answer [("application_reference", JStr "APP-1"); ("kyc_provider", JStr "sumsub")]);
   Answered_to 15 (answer [("access_token", JStr "token")]);
   Act_on today OpenRestart; Act_on today ConfirmRestart; Answered_to 17 (answer [])].
Definition try_again : list ScreenEvent :=
  [Act_on today Primary; Answered_to 18 unauthorised; Act_on today Resend; Act_on today (Change (EditText email "ada@example.com"))].
Definition after (events : list ScreenEvent) : Screen := fold_left sample_step events (opened_screen "network" "").
(** A share that is no number is not refused. *)
Example any_text_owns : bad_ownership (set_text beneficialOwnerOwnership "most of it" INITIAL_FORM) = false ∧
  bad_ownership (set_text beneficialOwnerOwnership "101" INITIAL_FORM) = true.
Proof. by vm_compute. Qed.
(** The application goes out once, under the key of the last edit. *)
Example application_goes_out :
  map key_of (List.filter (λ rq, String.eqb rq.(hr_path) complete_path) (after apply_for_account).(sc_sent)) = [Some "10"].
Proof. by vm_compute. Qed.
Example over_and_stranded :
  (after (apply_for_account ++ start_over)).(sc_page).(rg_reference) = "" ∧
  (after (apply_for_account ++ start_over ++ try_again)).(sc_page).(rg_wizard) =
    {| wz_step := 0; wz_errors := [(Text email, "auth.registration.validation.required")]; wz_error := "fix"; wz_submitting := false |}.
Proof. by vm_compute. Qed.
(** The page just started over is stranded. *)
Lemma restart_strands_witness :
  restarted (after (apply_for_account ++ start_over)).(sc_page) ∧
  restarted (fold_left sample_step try_again (after (apply_for_account ++ start_over))).(sc_page).
Proof.
  split; [by vm_compute|].
  apply (restart_strands sample_uuid (λ _, "fix") "network" try_again (after (apply_for_account ++ start_over))).
  - by vm_compute.
  - by vm_compute; repeat constructor.
  - by repeat constructor.
Defined.
