(* ===== verification/OverviewAnalytics.v ===== *)
(** The dashboard's overview ([src/src/features/finance/overview-analytics.ts]): the funds
    customers hold by asset and product, their inflows and outflows over seven days, the
    queues of work, the mix of recent operations, and the axis of a chart of counts; with
    their properties.

    Amounts are binary64 numbers.  The calendar day of an instant in Hong Kong is an
    argument ([Intl] computes it); it has none for an invalid date, and the overview then
    throws. *)
From S2P Require Import Prelude Decimals Schema JsNumber ClientReports.
From stdpp Require Import sorting.
#[local] Open Scope Z_scope.

(** ** The axis of a chart of counts *)
(** [Math.ceil(a / b)] of integers below 2^53. *)
Definition ceil_div (a b : Z) : Z := - (- a / b).
(** [maxCount] is [None] when it is not finite. *)
Definition buildIntegerCountAxis (maxCount : option Z) (maxTickAmount : Z) : Z * Z :=
  let normalizedMax := Z.max 1 (default 0 maxCount) in
  let normalizedTickLimit := Z.max 1 maxTickAmount in
  let step := Z.max 1 (ceil_div normalizedMax normalizedTickLimit) in
  let max := ceil_div normalizedMax step * step in
  (max, max / step).

(** ** What the dashboard has loaded *)
Record SeenAccount := {
  sa_customerId : option string; sa_kind : AccountKind; sa_currency : Currency; sa_network : option string;
  sa_available : string; sa_frozen : string;
}.
Record SeenCustomer := { se_status : CustomerStatus; se_kycStatus : KycStatus; se_accounts : option (list SeenAccount) }.
Record SeenOperation := {
  so_id : string; so_type : OperationType; so_status : OperationStatus;
  so_createdAt : string; so_submittedAt : option string; so_executedAt : option string;
}.
Record SeenLine := { sl_side : JournalSide; sl_amount : string; sl_account : SeenAccount }.
Record SeenJournal := { sj_postedAt : string; sj_operationId : string; sj_operationType : OperationType; sj_lines : list SeenLine }.

Definition OVERVIEW_ASSETS : list Currency := [USD; HKD; USDT].
Definition OVERVIEW_ACCOUNT_KINDS : list AccountKind := [SYSTEM_WALLET; VIRTUAL_ACCOUNT; CRYPTO_WALLET].
Definition isOverviewAccount (a : SeenAccount) : bool :=
  includes OVERVIEW_ACCOUNT_KINDS a.(sa_kind) && includes OVERVIEW_ASSETS a.(sa_currency) &&
  (differs a.(sa_currency) USDT || opt_eqb a.(sa_network) (Some "TRON")).
(** [Number(value || 0)], and 0 for what is not finite. *)
Definition amount (value : string) : number :=
  let parsed := amount_number (Some value) in if n_isFinite parsed then parsed else n_zero.

(** ** Funds *)
Record FundSums := { fu_available : number; fu_frozen : number; fu_total : number; fu_accountCount : Z }.
Record FundSnapshot := { fd_asset : Currency; fd_sums : FundSums; fd_products : list (AccountKind * FundSums) }.
Definition no_funds : FundSums := {| fu_available := n_zero; fu_frozen := n_zero; fu_total := n_zero; fu_accountCount := 0 |}.
Definition add_funds (a : SeenAccount) (f : FundSums) : FundSums :=
  let available := amount a.(sa_available) in
  let frozen := amount a.(sa_frozen) in
  {| fu_available := n_add f.(fu_available) available; fu_frozen := n_add f.(fu_frozen) frozen;
     fu_total := n_add f.(fu_total) (n_add available frozen); fu_accountCount := f.(fu_accountCount) + 1 |}.
Definition count_account (a : SeenAccount) (f : FundSnapshot) : FundSnapshot :=
  {| fd_asset := f.(fd_asset); fd_sums := add_funds a f.(fd_sums);
     fd_products := map_upsert a.(sa_kind) no_funds (add_funds a) f.(fd_products) |}.
Definition fund_of (accounts : list SeenAccount) (asset : Currency) : FundSnapshot :=
  fold_left (λ f a, if same a.(sa_currency) asset then count_account a f else f) accounts
    {| fd_asset := asset; fd_sums := no_funds; fd_products := [] |}.
(** [right.total - left.total], the larger first. *)
Definition larger (a b : AccountKind * FundSums) : Prop := n_le b.2.(fu_total) a.2.(fu_total) = true.
#[global] Instance larger_dec : RelDecision larger.
Proof. intros a b. unfold larger. apply _. Defined.
Definition overview_accounts (customers : list SeenCustomer) : list SeenAccount :=
  List.filter isOverviewAccount (flat_map (λ c, default [] c.(se_accounts)) customers).
Definition funds_of (customers : list SeenCustomer) : list FundSnapshot :=
  map (λ asset, let f := fund_of (overview_accounts customers) asset in
                {| fd_asset := f.(fd_asset); fd_sums := f.(fd_sums); fd_products := merge_sort larger f.(fd_products) |})
      OVERVIEW_ASSETS.

(** ** Seven days *)
Record FundTrendPoint := { tp_date : string; tp_inflow : number; tp_outflow : number; tp_net : number }.
Definition DAY : Z := 24 * 60 * 60 * 1000.
Definition customer_line (l : SeenLine) : bool := opt_truthy l.(sl_account).(sa_customerId) && isOverviewAccount l.(sl_account).
Definition move_point (l : SeenLine) (p : FundTrendPoint) : FundTrendPoint :=
  let value := amount l.(sl_amount) in
  let inflow := if same l.(sl_side) CREDIT then n_add p.(tp_inflow) value else p.(tp_inflow) in
  let outflow := if same l.(sl_side) CREDIT then p.(tp_outflow) else n_add p.(tp_outflow) value in
  {| tp_date := p.(tp_date); tp_inflow := inflow; tp_outflow := outflow; tp_net := n_sub inflow outflow |}.

Section overview.
Context {JD : JsDates} (dayKey : Z → string).
(** The day of a date's text; an invalid one throws. *)
Definition day_of (text : string) : exn + string :=
  match date_parse text with Some t => inr (dayKey t) | None => inl (PlainError "RangeError: Invalid time value") end.
Definition dates_of (now : Z) : list string := map (λ index, dayKey (now - (6 - Z.of_nat index) * DAY)) (seq 0 7).
Definition counted_journals (journals : list SeenJournal) : list SeenJournal :=
  List.filter (λ j, differs j.(sj_operationType) INTERNAL_TRANSFER) journals.
(** The journals with their days, in order. *)
Fixpoint dated (journals : list SeenJournal) : exn + list (string * SeenJournal) :=
  match journals with
  | [] => inr []
  | j :: rest =>
      match day_of j.(sj_postedAt) with
      | inl e => inl e
      | inr day => match dated rest with inl e => inl e | inr l => inr ((day, j) :: l) end
      end
  end.
(** The lines of an asset on a day. *)
Definition lines_on (asset : Currency) (date : string) (journals : list (string * SeenJournal)) : list SeenLine :=
  flat_map (λ dj, if String.eqb dj.1 date
                  then List.filter (λ l, customer_line l && same l.(sl_account).(sa_currency) asset) dj.2.(sj_lines) else []) journals.
Definition point_of (asset : Currency) (date : string) (journals : list (string * SeenJournal)) : FundTrendPoint :=
  fold_left (λ p l, move_point l p) (lines_on asset date journals)
    {| tp_date := date; tp_inflow := n_zero; tp_outflow := n_zero; tp_net := n_zero |}.
Definition trend_of (now : Z) (journals : list (string * SeenJournal)) (asset : Currency) : list FundTrendPoint :=
  map (λ date, point_of asset date journals) (dates_of now).
(** [completedToday.size] *)
Definition completed_today (now : Z) (journals : list (string * SeenJournal)) : list string :=
  fold_left (λ seen dj, if existsb customer_line dj.2.(sj_lines) && String.eqb dj.1 (dayKey now) &&
                           negb (includes seen dj.2.(sj_operationId))
                        then seen ++ [dj.2.(sj_operationId)] else seen) journals [].

(** ** Operations *)
Definition operationTime (o : SeenOperation) : option Z :=
  date_parse (default "" (or_string o.(so_executedAt) (or_string o.(so_submittedAt) (Some o.(so_createdAt))))).
Definition recent (now : Z) (o : SeenOperation) : bool :=
  match operationTime o with Some t => now - 30 * DAY <=? t | None => false end.
Definition operation_mix (now : Z) (operations : list SeenOperation) : list (OperationType * Z) :=
  fold_left (λ mix o, map_upsert o.(so_type) 0 (Z.add 1) mix) (List.filter (recent now) operations) [].
Definition commoner (a b : OperationType * Z) : Prop := b.2 ≤ a.2.
#[global] Instance commoner_dec : RelDecision commoner.
Proof. intros a b. unfold commoner. apply _. Defined.
(** The latest first, when every date is valid. *)
Definition later_time (a b : SeenOperation) : Prop := default 0 (operationTime b) ≤ default 0 (operationTime a).
#[global] Instance later_time_dec : RelDecision later_time.
Proof. intros a b. unfold later_time. apply _. Defined.

Record OverviewQueue := { qu_kyc : nat; qu_va : nat; qu_approvals : nat; qu_execution : nat; qu_failed : nat; qu_total : nat }.
Record OverviewAnalytics := {
  ov_snapshotAt : string; ov_total : nat; ov_active : nat; ov_onboarding : nat; ov_queue : OverviewQueue;
  ov_completedToday : nat; ov_funds : list FundSnapshot; ov_trendByAsset : list (Currency * list FundTrendPoint);
  ov_operationMix : list (OperationType * Z); ov_recentOperations : list SeenOperation;
}.
Definition how_many {A} (p : A → bool) (l : list A) : nat := length (List.filter p l).
Definition queue_of (customers : list SeenCustomer) (operations : list SeenOperation) (requests : list AccountRequestStatus) : OverviewQueue :=
  let kyc := how_many (λ c, same c.(se_kycStatus) KYC_PENDING && differs c.(se_status) CS_ACTIVE) customers in
  let va := how_many (λ st, same st RS_SUBMITTED) requests in
  let approvals := how_many (λ o, same o.(so_status) SUBMITTED) operations in
  let execution := how_many (λ o, includes [APPROVED; PROCESSING] o.(so_status)) operations in
  let failed := how_many (λ o, same o.(so_status) FAILED) operations in
  {| qu_kyc := kyc; qu_va := va; qu_approvals := approvals; qu_execution := execution; qu_failed := failed;
     qu_total := (kyc + va + approvals + execution + failed)%nat |}.
(** [requests] are the statuses of the requests for virtual accounts. *)
Definition buildOverviewAnalytics (customers : list SeenCustomer) (operations : list SeenOperation)
    (requests : list AccountRequestStatus) (journals : list SeenJournal) (now : Z) : exn + OverviewAnalytics :=
  match dated (counted_journals journals) with
  | inl e => inl e
  | inr journals =>
      let active := how_many (λ c, same c.(se_status) CS_ACTIVE) customers in
      inr {| ov_snapshotAt := to_iso now;
             ov_total := length customers; ov_active := active; ov_onboarding := (length customers - active)%nat;
             ov_queue := queue_of customers operations requests;
             ov_completedToday := length (completed_today now journals);
             ov_funds := funds_of customers;
             ov_trendByAsset := map (λ asset, (asset, trend_of now journals asset)) OVERVIEW_ASSETS;
             ov_operationMix := merge_sort commoner (operation_mix now operations);
             ov_recentOperations := take 6 (merge_sort later_time operations) |}
  end.
End overview.

(** ** The axis *)
Lemma ceil_div_bounds a b : 0 < b → a ≤ ceil_div a b * b < a + b.
Proof. intros Hb. unfold ceil_div. pose proof (Z.div_mod (- a) b). pose proof (Z.mod_pos_bound (- a) b Hb). lia. Qed.
Lemma ceil_div_le a b c : 0 < b → a ≤ c * b → ceil_div a b ≤ c.
Proof. intros Hb H. pose proof (ceil_div_bounds a b Hb). nia. Qed.
(** The axis reaches the count, in equal whole steps, by less than one step too much, and
    with no more ticks than asked for. *)
Theorem axis_covers maxCount maxTickAmount :
  let count := Z.max 1 (default 0 maxCount) in
  let '(max, tickAmount) := buildIntegerCountAxis maxCount maxTickAmount in
  ∃ step, 1 ≤ step ∧ max = tickAmount * step ∧ count ≤ max < count + step ∧ 1 ≤ tickAmount ≤ Z.max 1 maxTickAmount.
Proof.
  unfold buildIntegerCountAxis. set (count := Z.max 1 (default 0 maxCount)). set (limit := Z.max 1 maxTickAmount).
  set (step := Z.max 1 (ceil_div count limit)). assert (1 ≤ step) as Hs by lia. assert (1 ≤ count) as Hc by lia. assert (1 ≤ limit) as Hl by lia.
  pose proof (ceil_div_bounds count step ltac:(lia)) as Hb. pose proof (ceil_div_bounds count limit ltac:(lia)) as Hb'.
  exists step. rewrite Z.div_mul by lia. split; [done|]. split; [done|]. split; [done|]. split; [nia|].
  apply ceil_div_le; [lia|]. nia.
Qed.

(** ** The funds *)
Definition sums_of (accounts : list SeenAccount) : FundSums := fold_left (λ f a, add_funds a f) accounts no_funds.
Definition of_asset (asset : Currency) (a : SeenAccount) : bool := same a.(sa_currency) asset.
Definition of_kind (kind : AccountKind) (a : SeenAccount) : bool := same a.(sa_kind) kind.
Lemma sums_snoc accounts a : sums_of (accounts ++ [a]) = add_funds a (sums_of accounts).
Proof. unfold sums_of. by rewrite fold_left_app. Qed.
Lemma sums_count accounts : (sums_of accounts).(fu_accountCount) = Z.of_nat (length accounts).
Proof.
  induction accounts as [|a accounts IH] using rev_ind; [done|]. rewrite sums_snoc, length_app. simpl. rewrite IH. lia.
Qed.
Lemma fund_snoc accounts a asset :
  fund_of (accounts ++ [a]) asset = if of_asset asset a then count_account a (fund_of accounts asset) else fund_of accounts asset.
Proof. unfold fund_of. by rewrite fold_left_app. Qed.
Lemma filter_snoc {A} (p : A → bool) l x : List.filter p (l ++ [x]) = if p x then List.filter p l ++ [x] else List.filter p l.
Proof. rewrite List.filter_app. simpl. destruct (p x); [done|by rewrite app_nil_r]. Qed.
Lemma fund_sums accounts asset : (fund_of accounts asset).(fd_sums) = sums_of (List.filter (of_asset asset) accounts).
Proof.
  induction accounts as [|a accounts IH] using rev_ind; [done|]. rewrite fund_snoc, filter_snoc.
  destruct (of_asset asset a); [|done]. rewrite sums_snoc. simpl. by rewrite IH.
Qed.
Definition product_sums (accounts : list SeenAccount) (asset : Currency) (kind : AccountKind) : option FundSums :=
  match List.filter (of_kind kind) (List.filter (of_asset asset) accounts) with [] => None | l => Some (sums_of l) end.
Lemma fund_products accounts asset kind : map_get kind (fund_of accounts asset).(fd_products) = product_sums accounts asset kind.
Proof.
  induction accounts as [|a accounts IH] using rev_ind; [done|]. rewrite fund_snoc. unfold product_sums in *. rewrite filter_snoc.
  destruct (of_asset asset a); [|done]. cbn [count_account fd_products]. rewrite map_get_upsert, filter_snoc. unfold of_kind at 1 2.
  destruct (decide (kind = a.(sa_kind))) as [->|Hk].
  - rewrite (proj2 (same_true a.(sa_kind) a.(sa_kind)) eq_refl), IH. fold (of_kind a.(sa_kind)).
    destruct (List.filter _ (List.filter _ accounts)) as [|b l] eqn:E; [done|]. cbn [app default]. symmetry. change (b :: l ++ [a]) with ((b :: l) ++ [a]). by rewrite sums_snoc.
  - assert (same a.(sa_kind) kind = false) as -> by (apply same_false; congruence). exact IH.
Qed.
Lemma fund_products_NoDup accounts asset : NoDup (map fst (fund_of accounts asset).(fd_products)).
Proof.
  induction accounts as [|a accounts IH] using rev_ind; [constructor|]. rewrite fund_snoc.
  destruct (of_asset asset a); [|done]. by apply map_upsert_NoDup.
Qed.
Lemma fund_asset accounts asset : (fund_of accounts asset).(fd_asset) = asset.
Proof. induction accounts as [|a accounts IH] using rev_ind; [done|]. rewrite fund_snoc. by destruct (of_asset asset a). Qed.

(** ** The days *)
Definition side_total (side : JournalSide) (lines : list SeenLine) : number :=
  fold_left n_add (map (λ l, amount l.(sl_amount)) (List.filter (λ l, same l.(sl_side) side) lines)) n_zero.
Lemma side_total_snoc side lines l : side_total side (lines ++ [l]) =
  if same l.(sl_side) side then n_add (side_total side lines) (amount l.(sl_amount)) else side_total side lines.
Proof.
  unfold side_total. rewrite filter_snoc. destruct (same _ side); [|done]. by rewrite List.map_app, fold_left_app.
Qed.
Lemma point_totals asset date journals :
  let lines := lines_on asset date journals in
  point_of asset date journals =
    {| tp_date := date; tp_inflow := side_total CREDIT lines; tp_outflow := side_total DEBIT lines;
       tp_net := n_sub (side_total CREDIT lines) (side_total DEBIT lines) |}.
Proof.
  simpl. unfold point_of. induction (lines_on asset date journals) as [|l lines IH] using rev_ind; [reflexivity|].
  rewrite fold_left_app. cbn [fold_left]. rewrite IH, !side_total_snoc. unfold move_point. cbn [tp_date tp_inflow tp_outflow].
  by destruct (sl_side l).
Qed.
Section days.
Context {JD : JsDates} (dayKey : Z → string).
Lemma completed_snoc now journals dj : completed_today dayKey now (journals ++ [dj]) =
  let seen := completed_today dayKey now journals in
  if existsb customer_line dj.2.(sj_lines) && String.eqb dj.1 (dayKey now) && negb (includes seen dj.2.(sj_operationId))
  then seen ++ [dj.2.(sj_operationId)] else seen.
Proof. unfold completed_today. by rewrite fold_left_app. Qed.
Lemma completed_exact now journals : NoDup (completed_today dayKey now journals) ∧
  ∀ id, id ∈ completed_today dayKey now journals ↔
    ∃ j, (dayKey now, j) ∈ journals ∧ existsb customer_line j.(sj_lines) = true ∧ j.(sj_operationId) = id.
Proof.
  induction journals as [|dj journals [Hn IH]] using rev_ind.
  - split; [constructor|]. intros id. split; [by intros ?%elem_of_nil|]. by intros (j & ?%elem_of_nil & _).
  - rewrite completed_snoc. cbv zeta. set (seen := completed_today dayKey now journals) in *.
    assert (Hid : ∀ id, (∃ j, (dayKey now, j) ∈ journals ++ [dj] ∧ existsb customer_line j.(sj_lines) = true ∧ j.(sj_operationId) = id) ↔
      id ∈ seen ∨ (existsb customer_line dj.2.(sj_lines) = true ∧ dj.1 = dayKey now ∧ dj.2.(sj_operationId) = id)).
    { intros id. rewrite IH. destruct dj as [day j0]. split.
      - intros (j & [Hj|Hj%list_elem_of_singleton]%elem_of_app & Hl & He); [left; by exists j|]. injection Hj as -> ->. by right.
      - intros [(j & Hj & Hl & He)|(Hl & Hd & He)].
        + exists j. split; [by apply elem_of_app; left|done].
        + simpl in *. subst day. exists j0. split; [apply elem_of_app; right; by left|done]. }
    destruct (_ && _) eqn:E; guards.
    + match goal with H : String.eqb _ _ = true |- _ => apply String.eqb_eq in H end.
      split; [apply NoDup_app; split_and!; [done| |by apply NoDup_singleton];
        intros x Hx ->%list_elem_of_singleton; apply includes_true in Hx; congruence|].
      intros id. rewrite Hid, elem_of_app, list_elem_of_singleton. split; [intros [?| -> ]; [by left|by right]|intros [?|(_ & _ & <-)]; [by left|by right]].
    + split; [done|]. intros id. rewrite Hid. split; [by left|]. intros [?|(Hl & Hd & <-)]; [done|].
      rewrite Hl, Hd, String.eqb_refl in E. simpl in E.
      apply negb_false_iff in E. by apply includes_true.
Qed.
Definition mix_total (mix : list (OperationType * Z)) : Z := foldr (λ kt n, kt.2 + n) 0 mix.
Lemma mix_total_perm mix mix' : mix ≡ₚ mix' → mix_total mix = mix_total mix'.
Proof. induction 1; simpl; lia. Qed.
Lemma mix_upsert t mix : mix_total (map_upsert t 0 (Z.add 1) mix) = mix_total mix + 1.
Proof. induction mix as [|[k n] mix IH]; [done|]. simpl. destruct (decide (t = k)); simpl; [lia|]. rewrite IH. lia. Qed.
Lemma mix_counted now operations : NoDup (map fst (operation_mix now operations)) ∧
  (∀ t, default 0 (map_get t (operation_mix now operations)) =
     Z.of_nat (how_many (λ o, same o.(so_type) t) (List.filter (recent now) operations))) ∧
  mix_total (operation_mix now operations) = Z.of_nat (how_many (recent now) operations).
Proof.
  unfold operation_mix, how_many. induction (List.filter (recent now) operations) as [|o l (Hn & Hg & Ht)] using rev_ind.
  - split; [constructor|done].
  - rewrite fold_left_app. cbn [fold_left]. split; [by apply map_upsert_NoDup|]. split.
    + intros t. rewrite map_get_upsert, filter_snoc. destruct (decide (t = o.(so_type))) as [->|Hne].
      * rewrite (proj2 (same_true o.(so_type) o.(so_type)) eq_refl), length_app. simpl. rewrite Hg. lia.
      * assert (same o.(so_type) t = false) as -> by (apply same_false; congruence). apply Hg.
    + rewrite mix_upsert, Ht, length_app. simpl. lia.
Qed.

(** What the overview shows is a plain account of what was loaded.  The funds of an asset
    are the sums of its accounts, each counted once, and its products those of its kinds,
    one for each kind present; the flows of a day are the sums of the customers' lines of
    that day by side; the operations completed today are counted once each; and the mix
    counts every operation of the last thirty days, by its type. *)
Theorem overview_exact customers operations requests journals now v :
  buildOverviewAnalytics dayKey customers operations requests journals now = inr v →
  ∃ days, dated dayKey (counted_journals journals) = inr days ∧
  Forall (λ f, let own := List.filter (of_asset f.(fd_asset)) (overview_accounts customers) in
    f.(fd_sums) = sums_of own ∧ f.(fd_sums).(fu_accountCount) = Z.of_nat (length own) ∧
    ∀ kind sums, (kind, sums) ∈ f.(fd_products) ↔
      List.filter (of_kind kind) own ≠ [] ∧ sums = sums_of (List.filter (of_kind kind) own)) v.(ov_funds) ∧
  v.(ov_trendByAsset) = map (λ asset, (asset, map (λ date,
    let lines := lines_on asset date days in
    {| tp_date := date; tp_inflow := side_total CREDIT lines; tp_outflow := side_total DEBIT lines;
       tp_net := n_sub (side_total CREDIT lines) (side_total DEBIT lines) |}) (dates_of dayKey now))) OVERVIEW_ASSETS ∧
  (∃ ids, NoDup ids ∧ v.(ov_completedToday) = length ids ∧ ∀ id, id ∈ ids ↔
     ∃ j, (dayKey now, j) ∈ days ∧ existsb customer_line j.(sj_lines) = true ∧ j.(sj_operationId) = id) ∧
  mix_total v.(ov_operationMix) = Z.of_nat (how_many (recent now) operations) ∧ Sorted commoner v.(ov_operationMix).
Proof.
  unfold buildOverviewAnalytics. destruct (dated _ _) as [e|days]; [done|]. intros [= <-]. exists days. split; [done|].
  cbn [ov_funds ov_trendByAsset ov_completedToday ov_operationMix]. split_and!.
  - unfold funds_of. apply Forall_fmap, Forall_forall. intros asset _. cbn [fd_asset fd_sums fd_products compose]. rewrite fund_asset.
    split; [apply fund_sums|]. split; [by rewrite fund_sums, sums_count|]. intros kind sums.
    rewrite merge_sort_Permutation, (map_get_elem kind sums _ (fund_products_NoDup _ _)), fund_products. unfold product_sums.
    destruct (List.filter (of_kind kind) _); naive_solver.
  - transitivity (map (λ asset, (asset, trend_of dayKey now days asset)) OVERVIEW_ASSETS); [reflexivity|]. apply map_ext.
    intros asset. f_equal. apply map_ext. intros date. apply point_totals.
  - exists (completed_today dayKey now days). destruct (completed_exact now days) as [Hn He]. by split.
  - destruct (mix_counted now operations) as (_ & _ & <-). apply mix_total_perm, merge_sort_Permutation.
  - apply Sorted_merge_sort. intros a b. unfold commoner. lia.
Qed.
End days.

(** ** Checks *)
Example axis_of_seven : buildIntegerCountAxis (Some 7) 5 = (8, 4). Proof. reflexivity. Qed.
Example axis_of_many : buildIntegerCountAxis (Some 26) 5 = (30, 5). Proof. reflexivity. Qed.
Example axis_of_none : buildIntegerCountAxis None 5 = (1, 1). Proof. reflexivity. Qed.
