(* ===== verification/AssetRates.v ===== *)
(** The rates a browser remembers ([src/src/features/finance/asset-summary-rates.ts]): the
    asset summary of a customer, valued with the live rates where there are some and with
    the last known ones where not; with its properties.

    The browser's storage is a text that may be absent, unreadable or full; its JSON is the
    class [RateJson].  An entry's rate is the number it reads as.  Other pages may not write
    while one resolves a summary. *)
From S2P Require Import Prelude Decimals Schema JsNumber WithdrawalFees ClientFinance ClientReports.
From Stdlib Require Import Ascii SpecFloat.
#[local] Open Scope Z_scope.

(** ** The storage *)
Record StoredRate := { st_rate : number; st_asOf : string }.
Notation StoredRates := (list (string * StoredRate)).
(** A member of the parsed object: [None] is falsy; a date that is no text is [None]. *)
Record StoredEntry := { en_rate : number; en_asOf : option string }.
Definition entry_of (r : StoredRate) : StoredEntry := {| en_rate := r.(st_rate); en_asOf := Some r.(st_asOf) |}.
Class RateJson := {
  parse_rates : string → option (list (string * option StoredEntry));
  print_rates : StoredRates → string;
  rates_law : ∀ rates, NoDup (map fst rates) → Forall (λ kr, n_isFinite kr.2.(st_rate) = true) rates →
    truthy (print_rates rates) = true ∧ parse_rates (print_rates rates) = Some (map (λ kr, (kr.1, Some (entry_of kr.2))) rates);
  (* the members of an object have distinct names *)
  entries_law : ∀ text entries, parse_rates text = Some entries → NoDup (map fst entries);
}.
(** [localStorage], which may refuse to be read or written. *)
Record Browser := { br_readable : bool; br_writable : bool; br_rates : option string }.

(** ** The summary *)
Inductive AssetSource := balance_account | virtual_account | digital_wallet.
#[global] Instance asset_source_eq_dec : EqDecision AssetSource.
Proof. solve_decision. Defined.
Record AssetDistributionItem := {
  ai_currency : string; ai_availableBalance : string; ai_frozenBalance : string; ai_totalBalance : string;
  ai_reportingRate : option string; ai_reportingValue : option string; ai_shareBps : option Z;
  ai_accountCount : Z; ai_sources : list AssetSource;
}.
Record ClientSummary := {
  su_customerId : string; su_complete : bool; su_missingRates : list string; su_asOf : string; su_ratesAsOf : option string;
  su_totalAvailable : string; su_totalFrozen : string; su_totalBalance : string; su_accountCount : Z;
  su_distribution : list AssetDistributionItem;
}.
Record ResolvedAssetSummary := { re_summary : ClientSummary; re_lastKnownCurrencies : list string }.

Section rates.
Context {JD : JsDates} {RJ : RateJson} {NT : JsNumberText}.
(** [String(x)] of a number. *)
Context (number_text : number → string).
Definition validDate (value : option string) : bool :=
  match value with Some text => is_some (date_parse text) | None => false end.
Definition rate_positive (rate : number) : bool := n_isFinite rate && n_lt n_zero rate.
Definition usable (kv : string * option StoredEntry) : option (string * StoredRate) :=
  match kv.2 with
  | Some e =>
      match e.(en_asOf) with
      | Some asOf => if rate_positive e.(en_rate) && validDate (Some asOf) then Some (kv.1, {| st_rate := e.(en_rate); st_asOf := asOf |}) else None
      | None => None
      end
  | None => None
  end.
Definition readStoredRates (b : Browser) : StoredRates :=
  if b.(br_readable) then
    match b.(br_rates) with
    | Some text => if truthy text then match parse_rates text with Some entries => omap usable entries | None => [] end else []
    | None => []
    end
  else [].
Definition writeStoredRates (rates : StoredRates) (b : Browser) : Browser :=
  if b.(br_writable) then {| br_readable := b.(br_readable); br_writable := true; br_rates := Some (print_rates rates) |} else b.
Definition clearLastKnownAssetRates (b : Browser) : Browser :=
  if b.(br_writable) then {| br_readable := b.(br_readable); br_writable := true; br_rates := None |} else b.

(** [rates[currency] = rate] *)
Definition put_rate (currency : string) (rate : StoredRate) (rates : StoredRates) : StoredRates :=
  map_upsert currency rate (λ _, rate) rates.
(** The live rate of an item that is not in dollars. *)
Definition live_rate (item : AssetDistributionItem) : option number :=
  match item.(ai_reportingRate) with
  | Some text =>
      if String.eqb item.(ai_currency) "USD" then None
      else let rate := n_of_string text in if rate_positive rate then Some rate else None
  | None => None
  end.
Definition rememberLiveRates (summary : ClientSummary) (b : Browser) : Browser :=
  let asOf := if validDate summary.(su_ratesAsOf) then default "" summary.(su_ratesAsOf) else summary.(su_asOf) in
  let keep rates item :=
    match live_rate item with
    | Some rate => if validDate (Some asOf) then put_rate item.(ai_currency) {| st_rate := rate; st_asOf := asOf |} rates else rates
    | None => rates
    end in
  writeStoredRates (fold_left keep summary.(su_distribution) (readStoredRates b)) b.

(** ** Valuation *)
Definition rate_of_item (rates : StoredRates) (item : AssetDistributionItem) : option number :=
  if String.eqb item.(ai_currency) "USD" then Some (n_ofZ 1) else st_rate <$> map_get item.(ai_currency) rates.
Definition balance_of (text : string) : option number :=
  let x := n_of_string text in if n_isFinite x && negb (n_lt x n_zero) then Some x else None.
(** Available, frozen and rate of an item that can be valued. *)
Definition valued (rates : StoredRates) (item : AssetDistributionItem) : option (number * number * number) :=
  match rate_of_item rates item, balance_of item.(ai_availableBalance), balance_of item.(ai_frozenBalance) with
  | Some rate, Some free, Some held => Some (n_mul free rate, n_mul held rate, rate)
  | _, _, _ => None
  end.
Definition revalued_item (rates : StoredRates) (item : AssetDistributionItem) : AssetDistributionItem :=
  {| ai_currency := item.(ai_currency); ai_availableBalance := item.(ai_availableBalance);
     ai_frozenBalance := item.(ai_frozenBalance); ai_totalBalance := item.(ai_totalBalance);
     ai_reportingRate := (λ v, number_text v.2) <$> valued rates item;
     ai_reportingValue := (λ v, n_toFixed (n_add v.1.1 v.1.2) 8) <$> valued rates item;
     ai_shareBps := Some 0; ai_accountCount := item.(ai_accountCount); ai_sources := item.(ai_sources) |}.
Definition with_share (totalBalance : number) (item : AssetDistributionItem) : AssetDistributionItem :=
  {| ai_currency := item.(ai_currency); ai_availableBalance := item.(ai_availableBalance);
     ai_frozenBalance := item.(ai_frozenBalance); ai_totalBalance := item.(ai_totalBalance);
     ai_reportingRate := item.(ai_reportingRate); ai_reportingValue := item.(ai_reportingValue);
     ai_shareBps := match item.(ai_reportingValue) with
                    | Some value => if n_lt n_zero totalBalance
                                    then n_round (n_mul (n_div (n_of_string value) totalBalance) (n_ofZ 10000)) else Some 0
                    | None => Some 0
                    end;
     ai_accountCount := item.(ai_accountCount); ai_sources := item.(ai_sources) |}.
Definition total_of (part : number * number * number → number) (rates : StoredRates) (items : list AssetDistributionItem) : number :=
  fold_left (λ total v, n_add total (part v)) (omap (valued rates) items) n_zero.
(** The dates of the rates that are not live; an invalid one throws. *)
Fixpoint earliest (dates : list string) : exn + option Z :=
  match dates with
  | [] => inr None
  | text :: dates' =>
      match date_parse text, earliest dates' with
      | Some t, inr (Some t') => inr (Some (Z.min t t'))
      | Some t, inr None => inr (Some t)
      | _, _ => inl (PlainError "RangeError: Invalid time value")
      end
  end.
Definition dates_known (rates : StoredRates) (currencies : list string) : list string :=
  List.filter truthy (omap (λ c, st_asOf <$> map_get c rates) currencies).
Definition revalue (source : ClientSummary) (rates : StoredRates) (lastKnownCurrencies : list string) : exn + ClientSummary :=
  let missingRates := map ai_currency (List.filter (λ item, is_none (valued rates item)) source.(su_distribution)) in
  let totalAvailable := total_of (λ v, v.1.1) rates source.(su_distribution) in
  let totalFrozen := total_of (λ v, v.1.2) rates source.(su_distribution) in
  let totalBalance := n_add totalAvailable totalFrozen in
  match earliest (dates_known rates lastKnownCurrencies) with
  | inl e => inl e
  | inr date => inr
      {| su_customerId := source.(su_customerId); su_complete := Nat.eqb (length missingRates) 0; su_missingRates := missingRates;
         su_asOf := source.(su_asOf); su_ratesAsOf := match date with Some t => Some (to_iso t) | None => source.(su_ratesAsOf) end;
         su_totalAvailable := n_toFixed totalAvailable 8; su_totalFrozen := n_toFixed totalFrozen 8;
         su_totalBalance := n_toFixed totalBalance 8; su_accountCount := source.(su_accountCount);
         su_distribution := map (λ item, with_share totalBalance (revalued_item rates item)) source.(su_distribution) |}
  end.

(** ** With the live rates *)
Definition last_known (stored : StoredRates) (item : AssetDistributionItem) : bool :=
  is_none item.(ai_reportingRate) && negb (String.eqb item.(ai_currency) "USD") && is_some (map_get item.(ai_currency) stored).
Definition with_live (summary : ClientSummary) (rates : StoredRates) : StoredRates :=
  fold_left (λ rates item,
    match live_rate item with
    | Some rate => put_rate item.(ai_currency)
                     {| st_rate := rate; st_asOf := default "" (or_string summary.(su_ratesAsOf) (Some summary.(su_asOf))) |} rates
    | None => rates
    end) summary.(su_distribution) rates.
Definition resolveAssetSummaryRates (summary : ClientSummary) (b : Browser) : Browser * (exn + ResolvedAssetSummary) :=
  let lastKnownCurrencies := map ai_currency (List.filter (last_known (readStoredRates b)) summary.(su_distribution)) in
  let b' := rememberLiveRates summary b in
  (b', match lastKnownCurrencies with
       | [] => inr {| re_summary := summary; re_lastKnownCurrencies := [] |}
       | _ => match revalue summary (with_live summary (readStoredRates b')) lastKnownCurrencies with
              | inl e => inl e
              | inr revalued => inr {| re_summary := revalued; re_lastKnownCurrencies := lastKnownCurrencies |}
              end
       end).

(** ** Without a summary *)
Definition accountSource (a : MoneyAccount) : AssetSource :=
  match a.(ma_kind) with VIRTUAL_ACCOUNT => virtual_account | CRYPTO_WALLET => digital_wallet | _ => balance_account end.
Record Bucket := { bu_available : number; bu_frozen : number; bu_accountCount : Z; bu_sources : list AssetSource }.
Definition no_bucket : Bucket := {| bu_available := n_zero; bu_frozen := n_zero; bu_accountCount := 0; bu_sources := [] |}.
Definition add_to_bucket (a : MoneyAccount) (free held : number) (b : Bucket) : Bucket :=
  {| bu_available := n_add b.(bu_available) free; bu_frozen := n_add b.(bu_frozen) held; bu_accountCount := b.(bu_accountCount) + 1;
     bu_sources := if includes b.(bu_sources) (accountSource a) then b.(bu_sources) else b.(bu_sources) ++ [accountSource a] |}.
Definition group_account (groups : list (string * Bucket)) (a : MoneyAccount) : list (string * Bucket) :=
  match balance_of a.(ma_availableBalance), balance_of a.(ma_frozenBalance) with
  | Some free, Some held => map_upsert (currency_text a.(ma_currency)) no_bucket (add_to_bucket a free held) groups
  | _, _ => groups
  end.
Definition supported_accounts (accounts : list MoneyAccount) : list MoneyAccount :=
  List.filter (λ a, String.eqb a.(ma_status) "ACTIVE" && isSupportedPortalAccount a) accounts.
Definition unvalued_item (cb : string * Bucket) : AssetDistributionItem :=
  {| ai_currency := cb.1; ai_availableBalance := n_toFixed cb.2.(bu_available) 8; ai_frozenBalance := n_toFixed cb.2.(bu_frozen) 8;
     ai_totalBalance := n_toFixed (n_add cb.2.(bu_available) cb.2.(bu_frozen)) 8; ai_reportingRate := None;
     ai_reportingValue := None; ai_shareBps := Some 0; ai_accountCount := cb.2.(bu_accountCount); ai_sources := cb.2.(bu_sources) |}.
Definition buildAssetSummaryFromLastKnownRates (now : Z) (customerId : string) (accounts : list MoneyAccount) (b : Browser) :
    exn + option ResolvedAssetSummary :=
  let groups := fold_left group_account (supported_accounts accounts) [] in
  match groups with
  | [] => inr None
  | _ =>
      let stored := readStoredRates b in
      let lastKnownCurrencies := List.filter (λ c, negb (String.eqb c "USD") && is_some (map_get c stored)) (map fst groups) in
      let distribution := map unvalued_item groups in
      let summary :=
        {| su_customerId := customerId; su_complete := false; su_missingRates := []; su_asOf := to_iso now; su_ratesAsOf := None;
           su_totalAvailable := "0"; su_totalFrozen := "0"; su_totalBalance := "0";
           su_accountCount := fold_left (λ total item, total + item.(ai_accountCount)) distribution 0; su_distribution := distribution |} in
      match revalue summary stored lastKnownCurrencies with
      | inl e => inl e
      | inr revalued => inr (Some {| re_summary := revalued; re_lastKnownCurrencies := lastKnownCurrencies |})
      end
  end.

(** ** What is remembered *)
Definition sound_rate (kr : string * StoredRate) : Prop :=
  rate_positive kr.2.(st_rate) = true ∧ validDate (Some kr.2.(st_asOf)) = true.
Definition sound_rates (rates : StoredRates) : Prop := NoDup (map fst rates) ∧ Forall sound_rate rates.
Lemma usable_key kv r : usable kv = Some r → r.1 = kv.1 ∧ sound_rate r.
Proof.
  unfold usable. destruct kv.2 as [e|]; [|done]. destruct e.(en_asOf); [|done]. destruct (_ && _) eqn:E; [|done].
  intros [= <-]. apply andb_true_iff in E. by split.
Qed.
Lemma usable_entry r : sound_rate r → usable (r.1, Some (entry_of r.2)) = Some r.
Proof. destruct r as [k [rate asOf]]. unfold sound_rate, usable. simpl. by intros [-> ->]. Qed.
Lemma usable_names entries : NoDup (map fst entries) → sound_rates (omap usable entries).
Proof.
  assert (Hin : ∀ k l, k ∈ map fst (omap usable l) → k ∈ map fst l).
  { intros k l (r & -> & (kv & Hkv & Hr)%list_elem_of_omap)%list_elem_of_fmap. apply usable_key in Hr as [-> _].
    by apply list_elem_of_fmap_2. }
  intros Hn. split.
  - induction entries as [|kv l IH]; [constructor|]. apply NoDup_cons in Hn as [Hk Hn]. simpl.
    destruct (usable kv) as [r|] eqn:E; [|by apply IH]. simpl. apply NoDup_cons. apply usable_key in E as [-> _].
    split; [by intros ?%Hin|by apply IH].
  - apply Forall_forall. intros r (kv & _ & Hr)%list_elem_of_omap. by apply usable_key in Hr as [_ ?].
Qed.
(** Whatever the storage holds, what is read of it are positive rates with their dates. *)
Lemma stored_sound b : sound_rates (readStoredRates b).
Proof.
  assert (sound_rates []) as Hnone by (split; constructor).
  unfold readStoredRates. destruct (br_readable b); [|done]. destruct (br_rates b) as [text|]; [|done].
  destruct (truthy text); [|done]. destruct (parse_rates text) as [entries|] eqn:E; [|done].
  by apply usable_names, (entries_law text).
Qed.
Lemma sound_put currency rate rates : sound_rate (currency, rate) → sound_rates rates → sound_rates (put_rate currency rate rates).
Proof.
  intros Hr [Hn Hs]. unfold put_rate. split; [by apply map_upsert_NoDup|]. clear Hn. induction Hs as [|[k r] l Hk Hl IH]; simpl; [by apply Forall_singleton|].
  destruct (decide (currency = k)) as [->|]; by constructor.
Qed.
(** What is written is what is read. *)
Lemma read_written rates b : b.(br_readable) = true → b.(br_writable) = true → sound_rates rates →
  readStoredRates (writeStoredRates rates b) = rates.
Proof.
  intros Hr Hw [Hn Hs]. unfold writeStoredRates, readStoredRates. rewrite Hw. simpl. rewrite Hr.
  destruct (rates_law rates Hn) as [-> ->].
  { eapply Forall_impl; [exact Hs|]. intros kr [Hp _]. unfold rate_positive in Hp. by apply andb_true_iff in Hp as [? _]. }
  clear Hn. induction Hs as [|r l Hk Hl IH]; [done|]. cbn [map]. simpl. rewrite usable_entry by done. f_equal. exact IH.
Qed.

(** ** Live rates *)
(** A fold that puts the rates of some items: each item's own, or what was there. *)
Definition put_live (asOf : string) (rates : StoredRates) (item : AssetDistributionItem) : StoredRates :=
  match live_rate item with
  | Some rate => put_rate item.(ai_currency) {| st_rate := rate; st_asOf := asOf |} rates
  | None => rates
  end.
Lemma put_live_other asOf items rates c : c ∉ map ai_currency items → map_get c (fold_left (put_live asOf) items rates) = map_get c rates.
Proof.
  revert rates. induction items as [|item items IH]; intros rates Hc; [done|]. apply not_elem_of_cons in Hc as [Hne Hc].
  simpl. rewrite IH by done. unfold put_live. destruct (live_rate item); [|done]. unfold put_rate. rewrite map_get_upsert.
  by rewrite decide_False.
Qed.
Lemma put_live_get asOf items rates item : NoDup (map ai_currency items) → item ∈ items →
  map_get item.(ai_currency) (fold_left (put_live asOf) items rates) =
    match live_rate item with Some rate => Some {| st_rate := rate; st_asOf := asOf |} | None => map_get item.(ai_currency) rates end.
Proof.
  revert rates. induction items as [|first items IH]; intros rates Hn Hin; [by apply elem_of_nil in Hin|].
  apply NoDup_cons in Hn as [Hf Hn]. apply elem_of_cons in Hin as [->|Hin].
  - simpl. rewrite put_live_other by done. unfold put_live. destruct (live_rate first); [|done]. unfold put_rate. rewrite map_get_upsert.
    by rewrite decide_True.
  - simpl. rewrite IH by done. destruct (live_rate item) eqn:E; [done|]. unfold put_live. destruct (live_rate first); [|done].
    unfold put_rate. rewrite map_get_upsert, decide_False; [done|]. intros Hc. apply Hf. rewrite <- Hc. by apply list_elem_of_fmap_2.
Qed.
Lemma live_positive item rate : live_rate item = Some rate → rate_positive rate = true.
Proof. unfold live_rate. destruct (ai_reportingRate item); [|done]. destruct (String.eqb _ _); [done|]. destruct (rate_positive _) eqn:E; [|done]. by intros [= <-]. Qed.
Lemma put_live_sound asOf items rates : validDate (Some asOf) = true → sound_rates rates → sound_rates (fold_left (put_live asOf) items rates).
Proof.
  intros Hd. revert rates. induction items as [|item items IH]; intros rates Hr; [done|]. simpl. apply IH. unfold put_live.
  destruct (live_rate item) as [rate|] eqn:E; [|done]. apply sound_put; [|done]. split; [by eapply live_positive|done].
Qed.
Definition rates_date (summary : ClientSummary) : string :=
  if validDate summary.(su_ratesAsOf) then default "" summary.(su_ratesAsOf) else summary.(su_asOf).
Lemma remembered summary b : b.(br_readable) = true → b.(br_writable) = true → validDate (Some (rates_date summary)) = true →
  readStoredRates (rememberLiveRates summary b) = fold_left (put_live (rates_date summary)) summary.(su_distribution) (readStoredRates b).
Proof.
  intros Hr Hw Hd. unfold rememberLiveRates. cbv zeta. fold (rates_date summary). rewrite Hd.
  change (λ rates item, _) with (put_live (rates_date summary)). apply read_written; [done|done|].
  by apply put_live_sound, stored_sound.
Qed.
Lemma remembered_other summary b item : NoDup (map ai_currency summary.(su_distribution)) → item ∈ summary.(su_distribution) →
  live_rate item = None →
  map_get item.(ai_currency) (readStoredRates (rememberLiveRates summary b)) = map_get item.(ai_currency) (readStoredRates b).
Proof.
  intros Hn Hin Hl. destruct (br_readable b) eqn:Hr.
  2: { unfold rememberLiveRates, writeStoredRates. cbv zeta. destruct (br_writable b); [|done]. unfold readStoredRates. simpl. by rewrite Hr. }
  destruct (br_writable b) eqn:Hw; [|unfold rememberLiveRates, writeStoredRates; cbv zeta; by rewrite Hw].
  destruct (validDate (Some (rates_date summary))) eqn:Hd; [by rewrite remembered, put_live_get, Hl by done|].
  unfold rememberLiveRates. cbv zeta. fold (rates_date summary). rewrite Hd.
  assert (E : ∀ l rates, fold_left (λ (rates : StoredRates) item0, match live_rate item0 with Some _ => rates | None => rates end) l rates = rates).
  { induction l as [|x l IH]; intros rates; [done|]. simpl. rewrite IH. by destruct (live_rate x). }
  rewrite E. by rewrite read_written by (done || apply stored_sound).
Qed.

(** ** The resolved summary *)
(** The rate of an item: one for dollars, the live rate, or else the remembered one. *)
Definition expected_rate (stored : StoredRates) (item : AssetDistributionItem) : option number :=
  if String.eqb item.(ai_currency) "USD" then Some (n_ofZ 1)
  else match live_rate item with Some rate => Some rate | None => st_rate <$> map_get item.(ai_currency) stored end.
Definition shown_rate (stored : StoredRates) (item : AssetDistributionItem) : option number :=
  if is_some (balance_of item.(ai_availableBalance)) && is_some (balance_of item.(ai_frozenBalance))
  then expected_rate stored item else None.
Lemma resolved_rate summary b item : NoDup (map ai_currency summary.(su_distribution)) → item ∈ summary.(su_distribution) →
  rate_of_item (with_live summary (readStoredRates (rememberLiveRates summary b))) item = expected_rate (readStoredRates b) item.
Proof.
  intros Hn Hin. unfold rate_of_item, expected_rate. destruct (String.eqb_spec item.(ai_currency) "USD") as [|Hc]; [done|].
  unfold with_live. change (λ rates item, _) with (put_live (default "" (or_string summary.(su_ratesAsOf) (Some summary.(su_asOf))))).
  rewrite put_live_get by done. destruct (live_rate item) eqn:E; [done|]. by rewrite remembered_other.
Qed.
Lemma valued_rate rates item : (λ v, v.2) <$> valued rates item =
  if is_some (balance_of item.(ai_availableBalance)) && is_some (balance_of item.(ai_frozenBalance)) then rate_of_item rates item else None.
Proof. unfold valued. destruct (rate_of_item _ _), (balance_of _), (balance_of _); done. Qed.

(** The summary that is shown is the one that came, unless a currency has no live rate and
    a remembered one.  Then every line of it is valued in order, in dollars at one, in
    another currency at its live rate, or else at the remembered one; a line without a rate
    or with a balance that is no amount has no value, its currency is listed as missing,
    and the summary is complete when none is. *)
Theorem resolved_summary summary b b' r : NoDup (map ai_currency summary.(su_distribution)) →
  resolveAssetSummaryRates summary b = (b', inr r) →
  r.(re_lastKnownCurrencies) = map ai_currency (List.filter (last_known (readStoredRates b)) summary.(su_distribution)) ∧
  if decide (r.(re_lastKnownCurrencies) = []) then r.(re_summary) = summary
  else
    Forall2 (λ item shown, shown.(ai_currency) = item.(ai_currency) ∧
      shown.(ai_reportingRate) = number_text <$> shown_rate (readStoredRates b) item) summary.(su_distribution) r.(re_summary).(su_distribution) ∧
    r.(re_summary).(su_missingRates) =
      map ai_currency (List.filter (λ item, is_none (shown_rate (readStoredRates b) item)) summary.(su_distribution)) ∧
    (r.(re_summary).(su_complete) = true ↔ r.(re_summary).(su_missingRates) = []).
Proof.
  intros Hn H. unfold resolveAssetSummaryRates in H. cbv zeta in H. injection H as <- H.
  set (known := map ai_currency (List.filter _ _)) in *. set (rates := with_live _ _) in *.
  assert (Hshown : ∀ item, item ∈ summary.(su_distribution) → (λ v, v.2) <$> valued rates item = shown_rate (readStoredRates b) item).
  { intros item Hin. rewrite valued_rate. unfold shown_rate, rates. by rewrite resolved_rate. }
  destruct known as [|c known']; [by injection H as <-|].
  destruct (revalue _ _ _) as [e|revalued] eqn:E; [done|]. injection H as <-. split; [done|].
  unfold revalue in E. cbv zeta in E. destruct (earliest _) as [|date]; [done|]. injection E as <-.
  rewrite decide_False by done. cbn [re_summary su_distribution su_missingRates su_complete]. split_and!.
  - apply Forall2_fmap_r, Forall_Forall2_diag, Forall_forall. intros item Hin. split; [done|]. cbn.
    rewrite <- (Hshown item Hin). by destruct (valued rates item).
  - f_equal. apply List.filter_ext_in. intros item Hin%list_elem_of_In. rewrite <- (Hshown item Hin). by destruct (valued rates item).
  - rewrite Nat.eqb_eq. by rewrite length_zero_iff_nil.
Qed.

(** A rate seen live is the last known one afterwards: when the storage can be read and
    written and the summary's date is valid, the next summary that has no live rate for the
    currency is shown at that rate, marked as last known. *)
Theorem live_rate_remembered summary next b item item' rate b2 r :
  b.(br_readable) = true → b.(br_writable) = true → validDate (Some (rates_date summary)) = true →
  NoDup (map ai_currency summary.(su_distribution)) → item ∈ summary.(su_distribution) → live_rate item = Some rate →
  NoDup (map ai_currency next.(su_distribution)) → item' ∈ next.(su_distribution) →
  item'.(ai_currency) = item.(ai_currency) → item'.(ai_reportingRate) = None →
  is_some (balance_of item'.(ai_availableBalance)) = true → is_some (balance_of item'.(ai_frozenBalance)) = true →
  resolveAssetSummaryRates next (resolveAssetSummaryRates summary b).1 = (b2, inr r) →
  item.(ai_currency) ∈ r.(re_lastKnownCurrencies) ∧ ∃ shown, shown ∈ r.(re_summary).(su_distribution) ∧
    shown.(ai_currency) = item.(ai_currency) ∧ shown.(ai_reportingRate) = Some (number_text rate).
Proof.
  intros Hr Hw Hd Hn Hin Hlive Hn' Hin' Hc Hnone Hfree Hheld H.
  assert (Hstored : map_get item'.(ai_currency) (readStoredRates (resolveAssetSummaryRates summary b).1) =
    Some {| st_rate := rate; st_asOf := rates_date summary |}).
  { simpl. by rewrite remembered, Hc, put_live_get, Hlive by done. }
  assert (Husd : String.eqb item'.(ai_currency) "USD" = false).
  { rewrite Hc. unfold live_rate in Hlive. destruct (ai_reportingRate item); [|done]. by destruct (String.eqb _ "USD"). }
  apply resolved_summary in H as (Hknown & Hshown); [|done].
  assert (Hk : item.(ai_currency) ∈ r.(re_lastKnownCurrencies)).
  { rewrite Hknown, <- Hc. apply list_elem_of_fmap_2, list_elem_of_In, List.filter_In. split; [by apply list_elem_of_In|].
    unfold last_known. by rewrite Hnone, Husd, Hstored. }
  split; [done|]. rewrite decide_False in Hshown by (intros E; rewrite E in Hk; by apply elem_of_nil in Hk).
  destruct Hshown as (Hall & _ & _). apply list_elem_of_lookup in Hin' as [i Hi].
  destruct (Forall2_lookup_l _ _ _ _ _ Hall Hi) as (shown & Hs & Hcur & Hrate). exists shown.
  split; [by eapply list_elem_of_lookup_2|]. split; [congruence|]. rewrite Hrate. unfold shown_rate, expected_rate. rewrite Hfree, Hheld, Husd, Hstored.
  assert (live_rate item' = None) as -> by (unfold live_rate; by rewrite Hnone). done.
Qed.
End rates.

(** ** Samples *)
(** A storage that keeps the rates as the bits of their code. *)
#[local] Instance number_eq_dec : EqDecision spec_float.
Proof. solve_decision. Defined.
Definition number_code (x : number) : bool + bool + (unit + bool * positive * Z) :=
  match x with S754_zero s => inl (inl s) | S754_infinity s => inl (inr s) | S754_nan => inr (inl tt) | S754_finite s m e => inr (inr (s, m, e)) end.
Definition number_of_code (c : bool + bool + (unit + bool * positive * Z)) : number :=
  match c with inl (inl s) => S754_zero s | inl (inr s) => S754_infinity s | inr (inl _) => S754_nan | inr (inr (s, m, e)) => S754_finite s m e end.
#[local] Instance number_countable : Countable spec_float.
Proof. apply (inj_countable' number_code number_of_code). by intros []. Defined.
Fixpoint bits (p : positive) : string :=
  match p with xH => "." | xO p' => String "0" (bits p') | xI p' => String "1" (bits p') end.
Fixpoint of_bits (s : string) : option positive :=
  match s with
  | String c s' =>
      if Ascii.eqb c "." then Some xH
      else if Ascii.eqb c "0" then xO <$> of_bits s' else if Ascii.eqb c "1" then xI <$> of_bits s' else None
  | EmptyString => None
  end.
Lemma of_bits_bits p : of_bits (bits p) = Some p.
Proof. induction p as [p IH|p IH|]; [cbn; by rewrite IH..|done]. Qed.
Definition print_sample (rates : StoredRates) : string := bits (encode (map (λ kr, (kr.1, kr.2.(st_rate), kr.2.(st_asOf))) rates)).
Definition parse_sample (text : string) : option (list (string * option StoredEntry)) :=
  code ← of_bits text; rates ← decode (A := list (string * spec_float * string)) code;
  if decide (NoDup (map (λ r, r.1.1) rates))
  then Some (map (λ r, (r.1.1, Some {| en_rate := r.1.2; en_asOf := Some r.2 |})) rates) else None.
#[local] Instance sample_json : RateJson.
Proof.
  refine {| parse_rates := parse_sample; print_rates := print_sample |}.
  - intros rates Hn _. split; [unfold print_sample; by destruct (encode _)|]. unfold parse_sample, print_sample.
    rewrite of_bits_bits. simpl. rewrite decode_encode. simpl. rewrite List.map_map. simpl. rewrite decide_True by done. by rewrite List.map_map.
  - intros text entries H. unfold parse_sample in H. destruct (of_bits text); [|done]. simpl in H. destruct (decode _) as [rates|]; [|done].
    simpl in H. destruct (decide _) as [Hn|]; [|done]. injection H as <-. by rewrite List.map_map.
Defined.
#[local] Instance sample_dates : JsDates := {| date_parse text := if truthy text then Some 0 else None; to_iso _ := "1970-01-01T00:00:00.000Z" |}.
#[local] Instance sample_texts : JsNumberText := { large_text := λ _, "" }.
Definition sample_line (currency balance : string) (rate : option string) : AssetDistributionItem :=
  {| ai_currency := currency; ai_availableBalance := balance; ai_frozenBalance := "0"; ai_totalBalance := balance; ai_reportingRate := rate;
     ai_reportingValue := None; ai_shareBps := Some 0; ai_accountCount := 1; ai_sources := [balance_account] |}.
Definition sample_summary (rate : option string) : ClientSummary :=
  {| su_customerId := "cus"; su_complete := false; su_missingRates := []; su_asOf := "2026-01-01T00:00:00.000Z"; su_ratesAsOf := None;
     su_totalAvailable := "0"; su_totalFrozen := "0"; su_totalBalance := "0"; su_accountCount := 2;
     su_distribution := [sample_line "USD" "10" (Some "1"); sample_line "HKD" "80" rate] |}.
Definition fresh_browser : Browser := {| br_readable := true; br_writable := true; br_rates := None |}.
(** Eighty Hong Kong dollars at 0.125 once seen: twenty dollars, half of them each. *)
Example remembered_value :
  match (resolveAssetSummaryRates (λ _, "") (sample_summary None) (resolveAssetSummaryRates (λ _, "") (sample_summary (Some "0.125")) fresh_browser).1).2 with
  | inr r => Some (r.(re_lastKnownCurrencies), r.(re_summary).(su_complete), r.(re_summary).(su_totalBalance),
                   map ai_shareBps r.(re_summary).(su_distribution))
  | inl _ => None
  end = Some (["HKD"], true, "20.00000000", [Some 5000; Some 5000]).
Proof. vm_compute. reflexivity. Qed.
