(* ===== verification/BalanceProperties.v ===== *)
(** What the page of a customer shows of its balances: properties of [BalanceTexts].

    The digits added, cut and grouped are the digits of the numbers meant; the totals of
    the page are the sums of the balances, each cut to the places of its currency. *)
From S2P Require Import Prelude Decimals Schema JsNumber WithdrawalFees EdgeWorker ClientFinance WithdrawalFeeProperties BalanceTexts.
From Stdlib Require Import Ascii.

(** ** Digits and numbers *)
Definition digits_only (l : list ascii) : Prop := Forall (λ c, is_digit c = true) l.
(** The text of a number: digits, no more of them than it needs. *)
Definition number_text (l : list ascii) : Prop :=
  digits_only l ∧ match l with [] => False | [_] => True | c :: _ => c ≠ char_zero end.

Lemma digit_range c : is_digit c = true → 0 ≤ digit_number c ≤ 9.
Proof.
  unfold is_digit, digit_number. intros [H1%Nat.leb_le H2%Nat.leb_le]%andb_true_iff. lia.
Qed.
Lemma digit_of_number d : 0 ≤ d ≤ 9 → is_digit (digit_text d) = true ∧ digit_number (digit_text d) = d.
Proof.
  intros H. unfold is_digit, digit_number, digit_text. rewrite nat_ascii_embedding by lia.
  split; [|lia]. apply andb_true_iff. split; apply Nat.leb_le; lia.
Qed.
Lemma digit_number_inj c d : is_digit c = true → is_digit d = true → digit_number c = digit_number d → c = d.
Proof.
  intros Hc%digit_range Hd%digit_range H. unfold digit_number in *. assert (nat_of_ascii c = nat_of_ascii d) as E by lia.
  by rewrite <- (ascii_nat_embedding c), E, ascii_nat_embedding.
Qed.
Lemma digits_number_from l n : fold_left (λ n c, 10 * n + digit_number c) l n = n * 10 ^ Z.of_nat (length l) + digits_number l.
Proof.
  revert n. induction l as [|c l IH]; intros n; unfold digits_number; cbn [fold_left length]; [simpl; lia|].
  rewrite !IH, Nat2Z.inj_succ, Z.pow_succ_r by lia. ring.
Qed.
Lemma digits_number_app a b : digits_number (a ++ b) = digits_number a * 10 ^ Z.of_nat (length b) + digits_number b.
Proof. unfold digits_number. by rewrite fold_left_app, digits_number_from. Qed.
Lemma digits_number_cons c l : digits_number (c :: l) = digit_number c * 10 ^ Z.of_nat (length l) + digits_number l.
Proof. apply (digits_number_app [c] l). Qed.
Lemma digits_number_bounds l : digits_only l → 0 ≤ digits_number l < 10 ^ Z.of_nat (length l).
Proof.
  induction 1 as [|c l Hc _ IH]; [done|]. rewrite digits_number_cons. cbn [length].
  rewrite Nat2Z.inj_succ, Z.pow_succ_r by lia. pose proof (digit_range c Hc). nia.
Qed.
Lemma zeros_only n : digits_only (repeat char_zero n).
Proof. induction n as [|n IH]; [by constructor|]. by constructor. Qed.
Lemma zeros_number n : digits_number (repeat char_zero n) = 0.
Proof. induction n as [|n IH]; [done|]. cbn [repeat]. by rewrite digits_number_cons, IH. Qed.
Lemma digits_app a b : digits_only (a ++ b) ↔ digits_only a ∧ digits_only b.
Proof. apply Forall_app. Qed.

(** Texts of numbers with the same number are the same. *)
Lemma same_length_inj a : ∀ b, digits_only a → digits_only b → length a = length b → digits_number a = digits_number b → a = b.
Proof.
  induction a as [|c a IH]; intros [|d b] Ha Hb Hl Hn; simplify_eq/=; [done|].
  apply Forall_cons in Ha as [Hc Ha], Hb as [Hd Hb]. rewrite !digits_number_cons, <- Hl in Hn.
  pose proof (digits_number_bounds a Ha). pose proof (digits_number_bounds b Hb). rewrite <- Hl in *.
  assert (Ec : digit_number c = digit_number d) by (destruct (Z.lt_trichotomy (digit_number c) (digit_number d)) as [|[|]]; nia).
  assert (En : digits_number a = digits_number b) by nia.
  f_equal; [by apply digit_number_inj|by apply IH].
Qed.
Lemma number_text_bounds l : number_text l → (2 ≤ length l)%nat → 10 ^ Z.of_nat (length l - 1) ≤ digits_number l.
Proof.
  destruct l as [|c [|d l]]; intros [Hd Hz] Hl; simpl in Hl; try lia. apply Forall_cons in Hd as [Hc Hd].
  pose proof (digits_number_bounds _ Hd). rewrite digits_number_cons. replace (length (c :: d :: l) - 1)%nat with (length (d :: l)) by done.
  assert (digit_number c ≠ 0) by (intros E; apply Hz, digit_number_inj; [done..|by rewrite E]). pose proof (digit_range c Hc). nia.
Qed.
Lemma number_text_length a b : number_text a → number_text b → digits_number a = digits_number b → (length a ≤ length b)%nat.
Proof.
  intros Ha Hb E. destruct (Nat.le_gt_cases (length a) (length b)) as [|Hgt]; [done|]. exfalso.
  assert (Hb0 : (1 ≤ length b)%nat) by (destruct b; [by destruct Hb|simpl; lia]).
  pose proof (number_text_bounds a Ha ltac:(lia)). pose proof (digits_number_bounds b (proj1 Hb)).
  pose proof (Z.pow_le_mono_r 10 (Z.of_nat (length b)) (Z.of_nat (length a - 1)) ltac:(lia) ltac:(lia)). lia.
Qed.
Lemma number_text_inj a b : number_text a → number_text b → digits_number a = digits_number b → a = b.
Proof.
  intros Ha Hb E. apply same_length_inj; [apply Ha|apply Hb| |done]. by apply Nat.le_antisymm; apply number_text_length.
Qed.
Lemma drop_zeros_text l : digits_only l → l ≠ [] → number_text (drop_zeros l) ∧ digits_number (drop_zeros l) = digits_number l.
Proof.
  induction l as [|c l IH]; [done|]. intros Hl _. destruct l as [|d l]; [by repeat split|].
  pose proof Hl as [Hc Hl']%Forall_cons. cbn [drop_zeros]. rewrite (proj1 (proj1 (Forall_cons _ _ _) Hl')), andb_true_r.
  destruct (Ascii.eqb_spec c char_zero) as [->|Hne]; [|by repeat split].
  destruct (IH Hl') as [Ht En]; [done|]. split; [exact Ht|]. etrans; [exact En|]. by rewrite (digits_number_cons char_zero).
Qed.
Lemma padStart_digits w l : digits_only l → digits_only (padStart w l) ∧ digits_number (padStart w l) = digits_number l ∧
  length (padStart w l) = Nat.max w (length l).
Proof.
  intros H. unfold padStart. split_and!; [by apply digits_app; split; [apply zeros_only|]| |].
  - by rewrite digits_number_app, zeros_number.
  - rewrite length_app, repeat_length. lia.
Qed.

(** ** Addition *)
Lemma fold_adds ps : digits_only (map fst ps) → digits_only (map snd ps) →
  let '(carry, result) := fold_right (λ d state, add_step state d) (0, []) ps in
  length result = length ps ∧ digits_only result ∧ 0 ≤ carry ≤ 1 ∧
  carry * 10 ^ Z.of_nat (length ps) + digits_number result = digits_number (map fst ps) + digits_number (map snd ps).
Proof.
  induction ps as [|[a b] ps IH]; [done|]. cbn [map fst snd]. intros [Ha Hl]%Forall_cons [Hb Hr]%Forall_cons.
  specialize (IH Hl Hr). cbn [fold_right]. destruct (fold_right _ _ ps) as [carry result].
  destruct IH as (Hlen & Hd & Hc & En). unfold add_step. cbn [fst snd].
  pose proof (digit_range a Ha). pose proof (digit_range b Hb). set (sum := digit_number a + digit_number b + carry) in *.
  pose proof (Z.div_mod sum 10 ltac:(lia)). pose proof (Z.mod_pos_bound sum 10 ltac:(lia)).
  destruct (digit_of_number (sum mod 10)) as [Hdig Hval]; [lia|].
  cbn [length]. split_and!; [by f_equal|by constructor|unfold sum in *; lia..|].
  rewrite !digits_number_cons, Hval, Hlen, !length_map, Nat2Z.inj_succ, Z.pow_succ_r by lia. unfold sum in *. nia.
Qed.
Lemma combine_sides {A B} (l : list A) (r : list B) : length l = length r →
  map fst (combine l r) = l ∧ map snd (combine l r) = r.
Proof.
  revert r. induction l as [|x l IH]; intros [|y r] E; simplify_eq/=; [done|]. destruct (IH r) as [-> ->]; done.
Qed.
Lemma add_exact left right : digits_only left → digits_only right → left ≠ [] →
  number_text (addDigitStrings left right) ∧
  digits_number (addDigitStrings left right) = digits_number left + digits_number right.
Proof.
  intros Hl Hr Hne. unfold addDigitStrings. set (w := Nat.max (length left) (length right)).
  destruct (padStart_digits w left Hl) as (Hdl & Enl & Ell), (padStart_digits w right Hr) as (Hdr & Enr & Elr).
  set (l := padStart w left) in *. set (r := padStart w right) in *.
  assert (Elen : length l = length r) by (subst w; lia).
  pose proof (fold_adds (combine l r)) as H. rewrite <- fold_left_rev_right, rev_involutive.
  destruct (combine_sides l r Elen) as [E1 E2]. rewrite E1, E2 in H.
  specialize (H Hdl Hdr). destruct (fold_right _ _ _) as [carry result] eqn:E.
  destruct H as (Hlen & Hd & Hc & En).
  assert (Hpos : result ≠ []).
  { intros ->. rewrite length_combine in Hlen. simpl in Hlen. destruct left; [done|]. subst w. simpl in Ell. lia. }
  rewrite <- Enl, <- Enr, <- En, <- Hlen. clear E. destruct (Z.eqb_spec carry 0) as [->|Hnz].
  - by apply drop_zeros_text.
  - destruct (digit_of_number carry) as [Hdig Hval]; [lia|].
    destruct (drop_zeros_text (digit_text carry :: result)) as [Ht Ev]; [by constructor|done|].
    split; [done|]. cbn [app]. by rewrite Ev, digits_number_cons, Hval.
Qed.

(** ** Reading and cutting *)
Lemma span_whole a l : digits_only a → match l with c :: _ => is_digit c = false | [] => True end → span_digits (a ++ l) = (a, l).
Proof.
  intros Ha Hl. induction Ha as [|c a Hc _ IH]; [destruct l; [done|cbn [app span_digits]; by rewrite Hl]|].
  cbn [app span_digits]. by rewrite Hc, IH.
Qed.
Lemma span_split l a r : span_digits l = (a, r) → digits_only a ∧ l = a ++ r.
Proof.
  revert a r. induction l as [|c l IH]; intros a r H; cbn [span_digits] in H; [injection H as <- <-; by split; [constructor|]|].
  destruct (is_digit c) eqn:Ec; [|injection H as <- <-; by split; [constructor|]]. destruct (span_digits l) as [a' r'].
  injection H as <- <-. destruct (IH a' r' eq_refl) as [Ha ->]. split; [by constructor|done].
Qed.
Lemma groups_digits l whole fraction : decimal_groups l = Some (whole, fraction) → digits_only whole ∧ digits_only fraction ∧ whole ≠ [].
Proof.
  unfold decimal_groups. destruct (span_digits l) as [a r] eqn:E. apply span_split in E as [Ha _].
  destruct a as [|c a]; [done|]. destruct r as [|d r]; [intros [= <- <-]; by split_and!; [|constructor|]|].
  destruct (Ascii.eqb d "."); [|done]. destruct (span_digits r) as [b e] eqn:E'. apply span_split in E' as [Hb _].
  destruct b as [|x b]; [done|]. by destruct e; [intros [= <- <-]|].
Qed.
Lemma groups_of whole fraction : digits_only whole → digits_only fraction → whole ≠ [] → fraction ≠ [] →
  decimal_groups (whole ++ "."%char :: fraction) = Some (whole, fraction).
Proof.
  intros Hw Hf Hw0 Hf0. unfold decimal_groups. rewrite span_whole by done. destruct whole; [done|]. cbn.
  replace fraction with (fraction ++ []) at 1 by apply app_nil_r. rewrite span_whole by done. by destruct fraction.
Qed.
Lemma take_digits n l : digits_only l → digits_only (take n l). Proof. apply Forall_take. Qed.
(** A fraction of exactly the places asked for, cut or filled. *)
Lemma cut_fraction decimals whole fraction : digits_only whole → digits_only fraction →
  digits_number (whole ++ take decimals (padEnd decimals fraction)) =
  digits_number (whole ++ fraction) * 10 ^ Z.of_nat decimals / 10 ^ Z.of_nat (length fraction).
Proof.
  intros Hw Hf. unfold padEnd. destruct (Nat.le_gt_cases (length fraction) decimals) as [Hle|Hgt].
  - rewrite take_ge by (rewrite length_app, repeat_length; lia). rewrite app_assoc, digits_number_app, zeros_number, repeat_length, Z.add_0_r.
    replace (10 ^ Z.of_nat decimals) with (10 ^ Z.of_nat (decimals - length fraction) * 10 ^ Z.of_nat (length fraction))
      by (rewrite <- Z.pow_add_r by lia; f_equal; lia).
    rewrite Z.mul_assoc, Z.div_mul by lia. done.
  - replace (decimals - length fraction)%nat with 0%nat by lia. rewrite app_nil_r.
    rewrite <- (take_drop decimals fraction) at 2.
    rewrite app_assoc, (digits_number_app _ (drop decimals fraction)).
    set (rest := drop decimals fraction). set (n := digits_number (whole ++ take decimals fraction)).
    assert (Hrest : 0 ≤ digits_number rest < 10 ^ Z.of_nat (length rest)) by (apply digits_number_bounds, Forall_drop, Hf).
    replace (10 ^ Z.of_nat (length fraction)) with (10 ^ Z.of_nat (length rest) * 10 ^ Z.of_nat decimals)
      by (subst rest; rewrite length_drop, <- Z.pow_add_r by lia; f_equal; lia).
    rewrite Z.div_mul_cancel_r by lia. apply Z.div_unique with (digits_number rest); lia.
Qed.
Lemma scaled_groups decimals whole fraction : digits_only whole → digits_only fraction → whole ≠ [] →
  let l := drop_zeros (whole ++ take decimals (padEnd decimals fraction)) in
  number_text l ∧ digits_number l = digits_number (whole ++ fraction) * 10 ^ Z.of_nat decimals / 10 ^ Z.of_nat (length fraction).
Proof.
  intros Hw Hf Hne. destruct (drop_zeros_text (whole ++ take decimals (padEnd decimals fraction))) as [Hn Ev].
  - apply digits_app. split; [done|]. apply take_digits, digits_app. split; [done|apply zeros_only].
  - by destruct whole.
  - split; [done|]. by rewrite Ev, cut_fraction.
Qed.
Lemma scaled_exact value decimals : number_text (toScaledDigits value decimals) ∧
  digits_number (toScaledDigits value decimals) = cut_units decimals value.
Proof.
  unfold toScaledDigits, cut_units. destruct (truthy value) eqn:Ht.
  - destruct (decimal_groups _) as [[whole fraction]|] eqn:E; [|by repeat split; constructor].
    apply groups_digits in E as (Hw & Hf & Hne). by apply scaled_groups.
  - apply negb_false_iff, String.eqb_eq in Ht as ->. apply (scaled_groups decimals [char_zero] []); by repeat constructor.
Qed.
Lemma sum_exact decimals values : number_text (sum_digits decimals values) ∧
  digits_number (sum_digits decimals values) = sum_units decimals values.
Proof.
  unfold sum_digits, sum_units. rewrite <- (Z.add_0_l (fold_right _ _ _)). change 0 with (digits_number [char_zero]) at 1.
  assert (H0 : number_text [char_zero]) by (by repeat constructor). revert H0. generalize [char_zero].
  induction values as [|v values IH]; intros total Ht; cbn [fold_left map fold_right]; [split; [done|lia]|].
  destruct (scaled_exact v decimals) as [Hv Ev].
  destruct (add_exact total (toScaledDigits v decimals)) as [Ha Ea]; [apply Ht|apply Hv|by destruct Ht, total|].
  destruct (IH _ Ha) as [Hs ->]. split; [done|]. rewrite Ea, Ev. lia.
Qed.

(** ** Showing *)
Lemma digit_plain c : is_digit c = true → is_space c = false ∧ Ascii.eqb c "," = false.
Proof.
  intros H%andb_true_iff. destruct H as [H1%Nat.leb_le H2%Nat.leb_le]. split.
  - unfold is_space. apply orb_false_iff. split; [apply andb_false_iff; right; apply Nat.leb_gt; lia|apply Nat.eqb_neq; lia].
  - destruct (Ascii.eqb_spec c ","); [subst; cbv in *; lia|done].
Qed.
Lemma ungrouped l : digits_only l → without_commas (grouped l) = l.
Proof.
  induction 1 as [|c l Hc _ IH]; [done|]. cbn [grouped]. unfold without_commas in *.
  destruct (digit_plain c Hc) as [_ E]. destruct (_ && _); cbn [List.filter]; rewrite E; cbn; by rewrite IH.
Qed.
Lemma digits_commas l : digits_only l → without_commas l = l.
Proof. induction 1 as [|c l Hc _ IH]; [done|]. cbn. destruct (digit_plain c Hc) as [_ ->]. cbn. unfold without_commas in IH. by rewrite IH. Qed.
Lemma drop_last_spec l : digits_only l → ∃ n, l = drop_last_zeros l ++ repeat char_zero n ∧ digits_only (drop_last_zeros l).
Proof.
  intros Hl. unfold drop_last_zeros.
  set (f := fix drop (l : list ascii) := match l with c :: l' => if Ascii.eqb c char_zero then drop l' else l | [] => [] end).
  assert (H : ∀ k, ∃ n, k = repeat char_zero n ++ f k).
  { induction k as [|c k [n IH]]; [by exists 0%nat|]. cbn [f]. destruct (Ascii.eqb_spec c char_zero) as [->|]; [|by exists 0%nat].
    exists (S n). cbn [repeat app]. f_equal. exact IH. }
  destruct (H (rev l)) as [n En]. apply (f_equal (@rev _)) in En. rewrite rev_involutive, rev_app_distr, rev_repeat in En.
  exists n. split; [exact En|]. rewrite En in Hl. apply digits_app in Hl. apply Hl.
Qed.
Lemma trim_no_spaces l : Forall (λ c, is_space c = false) l → trim (String.string_of_list_ascii l) = String.string_of_list_ascii l.
Proof.
  intros H. unfold trim. rewrite list_of_string.
  assert (Hd : ∀ k, Forall (λ c, is_space c = false) k → drop_spaces k = k) by (intros k [|c k' Hc _]; [done|by apply drop_spaces_plain]).
  by rewrite (Hd l H), (Hd (rev l)), rev_involutive by (by apply Forall_rev).
Qed.
(** What is shown, without its commas, is the number it was made from. *)
Definition shown_digits (l : list ascii) (decimals : nat) : string :=
  String.string_of_list_ascii (without_commas (formatScaledDigits l decimals)).
Lemma shown_back l decimals : number_text l → (1 ≤ decimals)%nat → toScaledDigits (shown_digits l decimals) decimals = l.
Proof.
  intros Hl Hd. unfold shown_digits, formatScaledDigits.
  destruct (padStart_digits (decimals + 1) l (proj1 Hl)) as (Hp & En & El). set (padded := padStart (decimals + 1) l) in *.
  set (k := (length padded - decimals)%nat).
  assert (Hk : (1 ≤ k ∧ k + decimals = length padded)%nat) by lia.
  rewrite <- (take_drop k padded) in Hp, En. apply digits_app in Hp as [Hw Hf].
  assert (Hwl : length (take k padded) = k) by (apply length_take_le; lia).
  assert (Hfl : length (drop k padded) = decimals) by (rewrite length_drop; lia).
  set (w := take k padded) in *. set (f := drop k padded) in *.
  destruct (drop_zeros_text w) as [Hwt Ewn]; [done|by destruct w; simpl in *; [lia|]|].
  destruct (drop_last_spec f Hf) as (n & Ef & Hfr). set (fraction := drop_last_zeros f) in *.
  (* the places shown, and how they fill up *)
  assert (∃ fr, (match fraction with [] => grouped (drop_zeros w) ++ [".";"0";"0"]%char
                                   | _ => grouped (drop_zeros w) ++ "."%char :: fraction end) = grouped (drop_zeros w) ++ "."%char :: fr ∧
          digits_only fr ∧ fr ≠ [] ∧ take decimals (padEnd decimals fr) = f) as (fr & -> & Hfrd & Hfr0 & Hfill).
  { destruct fraction as [|x fraction'] eqn:Efr.
    - exists [char_zero; char_zero]. split_and!; [done|by repeat constructor|done|]. cbn [app] in Ef. subst f. rewrite Ef, repeat_length in Hfl. subst n.
      rewrite Ef. unfold padEnd. destruct decimals as [|[|d]]; [lia|done|]. cbn. by rewrite Nat.sub_0_r, take_ge by (rewrite repeat_length; lia).
    - exists (x :: fraction'). split_and!; [done..|]. rewrite Ef, length_app, repeat_length in Hfl. unfold padEnd.
      rewrite take_ge by (rewrite length_app, repeat_length; lia). rewrite Ef. f_equal. f_equal. lia. }
  unfold without_commas. rewrite List.filter_app. fold (without_commas (grouped (drop_zeros w))).
  rewrite (ungrouped _ (proj1 Hwt)). cbn [List.filter]. change (negb (Ascii.eqb "." ",")) with true. cbn iota.
  fold (without_commas fr). rewrite (digits_commas _ Hfrd).
  unfold toScaledDigits.
  assert (Htr : truthy (String.string_of_list_ascii (drop_zeros w ++ "."%char :: fr)) = true) by (by destruct (drop_zeros w)).
  rewrite Htr, trim_no_spaces, list_of_string, groups_of; [|apply Hwt|done|by intros E; rewrite E in Hwt; destruct Hwt|done|].
  2: { apply Forall_app. split; [eapply Forall_impl; [apply Hwt|]|constructor; [done|eapply Forall_impl; [exact Hfrd|]]]; intros c Hc; by apply digit_plain. }
  rewrite Hfill. destruct (drop_zeros_text (drop_zeros w ++ f)) as [Ht Ev].
  { apply digits_app. split; [apply Hwt|done]. } { by destruct Hwt, (drop_zeros w). }
  apply number_text_inj; [done..|]. by rewrite Ev, digits_number_app, Ewn, <- digits_number_app.
Qed.

(** ** The balances of the page *)
Lemma decimals_positive currency : (1 ≤ currencyDecimals currency)%nat. Proof. destruct currency; cbn; lia. Qed.
(** A text that shows [n] units of a currency: the format of the digits of [n], from which
    they are read back once the commas are gone. *)
Definition shows (currency : Currency) (text : string) (n : Z) : Prop :=
  ∃ l, number_text l ∧ digits_number l = n ∧
    text = String.string_of_list_ascii (formatScaledDigits l (currencyDecimals currency)) ∧
    toScaledDigits (shown_digits l (currencyDecimals currency)) (currencyDecimals currency) = l.
Lemma shows_digits currency l : number_text l →
  shows currency (String.string_of_list_ascii (formatScaledDigits l (currencyDecimals currency))) (digits_number l).
Proof. intros Hl. exists l. split_and!; try done. apply shown_back; [done|apply decimals_positive]. Qed.
Lemma zero_text l : number_text l → (l = [char_zero] ↔ digits_number l = 0).
Proof. intros Hl. split; [by intros ->|]. intros E. apply number_text_inj; [done|by repeat constructor|done]. Qed.
Lemma values_back currency values : let decimals := currencyDecimals currency in
  toScaledDigits (sumValues currency values) decimals = sum_digits decimals values ∧
  digits_number (sum_digits decimals values) = sum_units decimals values.
Proof.
  intros decimals. destruct (sum_exact decimals values) as [Hs Es]. split; [|done].
  apply (shown_back (sum_digits decimals values)); [done|apply decimals_positive].
Qed.
Lemma cut_nonnegative decimals value : 0 ≤ cut_units decimals value.
Proof. destruct (scaled_exact value decimals) as [H <-]. apply digits_number_bounds, H. Qed.
Lemma sum_nonnegative decimals values : 0 ≤ sum_units decimals values.
Proof. unfold sum_units. induction values as [|v values IH]; cbn; [done|]. pose proof (cut_nonnegative decimals v). lia. Qed.

(** The snapshot of a currency that has rows: there is exactly one; its two texts read back
    as the sums of the rows' balances, each cut to the currency's places; the total shown
    is the sum of both, and the page marks frozen funds exactly when there are some. *)
Theorem page_snapshot_exact items currency :
  let decimals := currencyDecimals currency in
  let rows := matching currency items in
  let s := snapshot_of items currency in
  let available := sum_units decimals (map bs_availableBalance rows) in
  let frozen := sum_units decimals (map bs_frozenBalance rows) in
  rows ≠ [] →
  (∀ s', s' ∈ balanceSnapshots items ∧ s'.(as_currency) = currency ↔ s' = s) ∧
  cut_units decimals s.(as_available) = available ∧ cut_units decimals s.(as_frozen) = frozen ∧
  shows currency (formattedAssetBalance s.(as_available) currency) available ∧
  shows currency (totalAssetBalance s.(as_available) s.(as_frozen) currency) (available + frozen) ∧
  (hasBalance s.(as_frozen) currency = true ↔ 0 < frozen).
Proof.
  intros decimals rows s available frozen Hrows. split.
  { intros s'. unfold balanceSnapshots. rewrite list_elem_of_In, filter_In, in_map_iff. split.
    - intros [[(c & <- & _) _] <-]. done.
    - intros ->. split; [|done]. split.
      + exists currency. split; [done|]. destruct currency; cbn; tauto.
      + cbn. fold rows. by destruct rows. }
  destruct (values_back currency (map bs_availableBalance rows)) as [Ea Na], (values_back currency (map bs_frozenBalance rows)) as [Ef Nf].
  fold decimals in Ea, Na, Ef, Nf. change (sumValues currency (map bs_availableBalance rows)) with s.(as_available) in Ea.
  change (sumValues currency (map bs_frozenBalance rows)) with s.(as_frozen) in Ef.
  destruct (sum_exact decimals (map bs_availableBalance rows)) as [Ha _], (sum_exact decimals (map bs_frozenBalance rows)) as [Hf _].
  rewrite <- !(proj2 (scaled_exact _ _)), Ea, Ef. split_and!; [done..| | |].
  - unfold formattedAssetBalance. fold decimals. rewrite Ea. unfold available. rewrite <- Na. by apply shows_digits.
  - unfold totalAssetBalance. fold decimals. rewrite Ea, Ef.
    destruct (add_exact _ _ (proj1 Ha) (proj1 Hf)) as [Ht Et]; [by destruct Ha, (sum_digits decimals _)|].
    unfold available, frozen. rewrite <- Na, <- Nf, <- Et. by apply shows_digits.
  - unfold hasBalance. fold decimals. rewrite Ef, negb_true_iff, bool_decide_eq_false, (zero_text _ Hf), Nf.
    pose proof (sum_nonnegative decimals (map bs_frozenBalance rows)). unfold frozen. lia.
Qed.
Definition sample_rows : list BalanceSource :=
  [{| bs_currency := USD; bs_availableBalance := "1234567.899"; bs_frozenBalance := "0"; bs_status := "ACTIVE" |};
   {| bs_currency := USDT; bs_availableBalance := "0.123456"; bs_frozenBalance := "7"; bs_status := "ACTIVE" |};
   {| bs_currency := USD; bs_availableBalance := "0.119"; bs_frozenBalance := "2.50"; bs_status := "FROZEN" |}].
Lemma page_snapshot_exact_witness : matching USD sample_rows ≠ [] ∧
  (snapshot_of sample_rows USD).(as_available) = "1234568.00" ∧
  totalAssetBalance "1234568.00" (snapshot_of sample_rows USD).(as_frozen) USD = "1,234,570.5" ∧
  cut_units 2 (snapshot_of sample_rows USD).(as_available) = sum_units 2 ["1234567.899"; "0.119"].
Proof.
  split; [done|]. split; [by vm_compute|]. split; [by vm_compute|].
  destruct (page_snapshot_exact sample_rows USD) as (_ & H & _); [done|]. exact H.
Defined.

(** The line of a currency on the page sums the active accounts. *)
Theorem account_sums_exact accounts currency field :
  shows currency (sumAccounts accounts currency field)
    (sum_units (currencyDecimals currency) (map (field_of field)
      (List.filter (λ a, String.eqb a.(ma_status) "ACTIVE" && same a.(ma_currency) currency) accounts))).
Proof.
  unfold sumAccounts. destruct (sum_exact (currencyDecimals currency) (map (field_of field)
    (List.filter (λ a, String.eqb a.(ma_status) "ACTIVE" && same a.(ma_currency) currency) accounts))) as [Hs <-].
  by apply shows_digits.
Qed.

(** ** The form of a fee *)
Section fee_form.
Context {DO : DecimalOps} {DL : DecimalLaws DO}.
(** The constructor of the decimal library takes plain decimals as they are. *)
Context (parse_plain : ∀ text whole fraction,
  decimal_groups (String.list_ascii_of_string text) = Some (whole, fraction) →
  ∃ d, d_parse text = Some d ∧ d_isNegative d = false ∧
       d_units (length fraction) d = Some (digits_number (whole ++ fraction))).
(** An amount the form takes, written without spaces around it, is an amount the core
    takes, and the core keeps exactly it: nothing is cut (10^20 units are far beyond any
    fee). *)
Theorem valid_fee_accepted value currency s : validFeeAmount value currency = true → trim value = value →
  let decimals := currencyDecimals currency in
  let minor := cut_units decimals value in
  minor < 10 ^ 20 →
  toMinor value (Z.of_nat decimals) s = inr (minor, s) ∧
  ∃ d, d_parse value = Some d ∧ d_units decimals d = Some minor.
Proof.
  unfold validFeeAmount. intros Hv Ht. rewrite Ht in Hv. cbn zeta. set (decimals := currencyDecimals currency) in *. unfold cut_units. rewrite Ht. intros Hb.
  destruct (decimal_groups _) as [[whole fraction]|] eqn:E; [|done]. apply Nat.leb_le in Hv. fold decimals in Hv.
  destruct (parse_plain _ _ _ E) as (d & Hp & Hn & Hu). apply groups_digits in E as (Hw & Hf & _).
  assert (H0 : 0 ≤ digits_number (whole ++ fraction)) by (apply digits_number_bounds, digits_app; done).
  set (x := digits_number (whole ++ fraction)) in *.
  replace (x * 10 ^ Z.of_nat decimals / 10 ^ Z.of_nat (length fraction)) with (x * 10 ^ Z.of_nat (decimals - length fraction)) in *.
  2: { replace (Z.of_nat decimals) with (Z.of_nat (decimals - length fraction) + Z.of_nat (length fraction)) by lia.
       by rewrite Z.pow_add_r, Z.mul_assoc, Z.div_mul by lia. }
  pose proof (units_le _ decimals _ _ Hv Hu) as Hy. set (y := x * 10 ^ Z.of_nat (decimals - length fraction)) in *.
  assert (Hy0 : 0 ≤ y) by (subst y; nia).
  assert (Hd8 : (decimals ≤ 8)%nat) by (subst decimals; destruct currency; cbn; lia).
  split; [|by exists d]. unfold toMinor. unfold bind at 1. rewrite Hp. cbn [require ret]. unfold bind, throw_if, ret.
  rewrite Hn, (proj2 (places_exceed_units decimals d ltac:(lia) (isFinite_units _ _ _ Hy))) by (left; by exists y).
  assert (Hm : d_units 0 (d_mul d (ten_pow (Z.of_nat decimals))) = Some y).
  { apply (units_mul_pow10 decimals); [done|by apply units_pow10|lia]. }
  cbn. rewrite (isInteger_units _ _ Hm), (toFixed0_units _ _ Hm), bigint_pretty by done. done.
Qed.
End fee_form.
(** Spaces around the amount pass the form, which sends the text as it was typed; the
    decimal library refuses it. *)
Example spaced_fee : validFeeAmount " 2.50 " USD = true ∧ @d_parse QDecimal.ops " 2.50 " = None ∧
  validFeeAmount "2.505" USD = false ∧ (d ← @d_parse QDecimal.ops "2.50"; @d_units QDecimal.ops 2 d) = Some 250.
Proof. by vm_compute. Qed.
