(* ===== verification/VirtualAccountProperties.v ===== *)
(** Correctness of the virtual-account requests: what the opening fee reserves,
    settles and gives back, and the fee policy. *)
From S2P Require Import Prelude Decimals Schema Access Ledger WithdrawalFees Operations OperationEffects OperationCreation Samples Customers VirtualAccounts.

(** Opening fees within the exact range of decimal.js. *)
Definition va_fees_exact (s : Db) : Prop :=
  ∀ id c m, s.(channels) !! id = Some c → c.(chan_openingFeeUsdMinor) = Some m → 0 ≤ m < 10 ^ 12.

(** US cents as units of 10^-8. *)
Definition cents (minor : Z) : Z := minor * 10 ^ 6.

Lemma ret_run {A} (a : A) (s : Db) : ret a s = inr (a, s).
Proof. done. Qed.
Lemma beside_vaRequests V s : beside s (set_vaRequests V s).
Proof. done. Qed.
Lemma beside_outbox V s : beside s (set_outbox V s).
Proof. done. Qed.

Section lemmas.
Context {DO : DecimalOps} {DL : DecimalLaws DO} {JD : JsDates}.

Lemma from_minor_units m : Z.abs m < 10 ^ 20 → d_units 8 (from_minor m) = Some (cents m).
Proof.
  intros Hm. unfold from_minor, cents.
  pose proof (units_div_pow10 0 2 (d_ofZ m) (d_ofZ 100) m (units_ofZ m) (units_ofZ 100) Hm) as H.
  exact (units_le 2 8 _ _ ltac:(lia) H).
Qed.

Lemma find_optional_state {V} (tbl : Db → gmap string V) id s o s' :
  find_optional tbl id s = inr (o, s') → s' = s ∧ ∀ k v, o = Some (k, v) → id = Some k ∧ truthy k = true ∧ tbl s !! k = Some v.
Proof.
  unfold find_optional. intros H. destruct id as [i|]; [destruct (truthy i) eqn:Ht|].
  - apply gets_ok in H as [-> ->]. split; [done|]. intros k v H. destruct (tbl s !! i) eqn:E; [|done].
    simpl in H. by simplify_eq.
  - by apply ret_ok in H as [-> ->].
  - by apply ret_ok in H as [-> ->].
Qed.

Lemma view_of_ok id r s v s' : view_of id r s = inr (v, s') → s' = s ∧ v.(vv_id) = id ∧ v.(vv_row) = r.
Proof.
  unfold view_of. intros H. apply bind_ok in H as (c&s1&[-> _]%find_optional_state&[-> ->]%ret_ok). done.
Qed.

Lemma only_account_ok p e s ka s' :
  only_account p e s = inr (ka, s') → s' = s ∧ s.(accounts) !! ka.1 = Some ka.2 ∧ p ka = true.
Proof.
  unfold only_account. intros H. apply bind_ok in H as (rows&?&[-> ->]%gets_ok&H).
  destruct (take 2 _) as [|[k a] [|? ?]] eqn:E; [by apply throw_ok in H| |by apply throw_ok in H].
  apply ret_ok in H as [-> ->]. split; [done|].
  assert ((k, a) ∈ find_many p s.(accounts)) as Hin.
  { rewrite <- (take_drop 2 (find_many p (accounts s))), E. apply elem_of_app. left. by left. }
  by apply find_many_elem in Hin.
Qed.

Lemma requireChecker_ok uid s u s' :
  requireChecker uid s = inr (u, s') →
  s' = s ∧ s.(users) !! uid = Some u ∧ u.(user_active) = true ∧ u.(user_role) = ADMIN.
Proof. unfold requireChecker, find_unique. intros H. minvs. guards. done. Qed.

Lemma enqueueCustomerEmail_beside env now cid c tk dk pl s u s' :
  enqueueCustomerEmail env now cid c tk dk pl s = inr (u, s') →
  beside s s' ∧ s'.(vaRequests) = s.(vaRequests) ∧ s'.(customers) = s.(customers) ∧ s'.(accounts) = s.(accounts).
Proof.
  unfold enqueueCustomerEmail, enqueue, find_unique. intros H. destruct (negb _).
  { by apply ret_ok in H as [_ ->]. }
  apply bind_ok in H as (ex&?&[-> ->]%gets_ok&H). destruct (outbox s !! _).
  - by apply ret_ok in H as [_ ->].
  - unfold modify in H. injection H as _ <-. done.
Qed.

(** *** The reservation *)
Lemma reserve_ok now rid oid cid key chid ch minor maker s fo s' :
  0 ≤ minor < 10 ^ 12 →
  reserveVaOpeningFee now rid oid cid key chid ch (from_minor minor) maker s = inr (fo, s') →
  (minor = 0 ∧ fo = None ∧ s' = s) ∨
  (0 < minor ∧ fo = Some oid ∧ s.(operations) !! oid = None ∧
   ∃ wid w fid f, s.(accounts) !! wid = Some w ∧ is_usd_wallet_of cid (wid, w) = true ∧
     s.(accounts) !! fid = Some f ∧ is_usd_fee_account (fid, f) = true ∧
     moved oid (fee_operation_row now rid cid key chid ch (cents minor) wid fid maker)
       (at_ wid (- cents minor)) (at_ wid (cents minor)) nothing s s' ∧ s'.(vaRequests) = s.(vaRequests)).
Proof.
  intros Hm H. pose proof (from_minor_units minor ltac:(lia)) as Hu. unfold reserveVaOpeningFee in H.
  rewrite (isZero_units _ _ _ Hu) in H. destruct (Z.eqb_spec (cents minor) 0) as [Hz|Hz].
  { left. apply ret_ok in H as [-> ->]. unfold cents in Hz. split_and!; done || lia. }
  right. apply bind_ok in H as ([wid w]&?&(->&Hw&Hwp)%only_account_ok&H).
  apply bind_ok in H as ([fid f]&?&(->&Hf&Hfp)%only_account_ok&H). simpl in *.
  apply counted_then in H as (s1&Hc&H).
  apply (counted_moved _ _ _ _ (- cents minor) (cents minor)) in Hc as [Hmv _].
  2: { intros a. simpl. rewrite (n8_add_units _ _ _ Hu), (n8_sub_units _ _ _ Hu). split_and!; done || lia. }
  apply bind_ok in H as (z&?&[Hz' ->]%require_ok&H). apply (n8_store_Some _ _ _ Hu) in Hz' as ->.
  apply bind_ok in H as ([]&s2&(Hnew&_&->&_)%create_row_ok&[-> ->]%ret_ok).
  pose proof (acct_moved_rest _ _ _ _ _ Hmv) as (Hops&_). rewrite Hops in *.
  split; [unfold cents in *; lia|]. split_and!; [done..|]. exists wid, w, fid, f. split_and!; [done..| |].
  - exists s1. split; [by apply acct_moved_effect|]. by rewrite Hops.
  - destruct Hmv as (a&a'&_&->&_). done.
Qed.

(** What a request that is not a replay establishes. *)
Record requested (env : ProcessEnv) (customerId requestId : string) (input : VaRequestInput) (actor : VaRequestActor)
    (r : VaRequest) (s s' : Db) : Prop := {
  rq_fresh : s.(vaRequests) !! requestId = None;
  rq_rows : s'.(vaRequests) = <[requestId := r]> s.(vaRequests) ∧ s'.(users) = s.(users) ∧
            s'.(customers) = s.(customers) ∧ s'.(channels) = s.(channels);
  rq_terms : r.(va_currency) = input.(vin_currency) ∧ r.(va_purpose) = trim input.(vin_purpose) ∧
             r.(va_idempotencyKey) = trimmed input.(vin_idempotencyKey);
  rq_status : r.(va_status) = RS_SUBMITTED ∧ r.(va_customerId) = customerId ∧
              r.(va_channelId) = Some input.(vin_channelId) ∧ r.(va_openingFeeWaivedAt) = None ∧
              r.(va_requestSource) = (if opt_truthy actor.(va_actor_customerId) then VS_CUSTOMER else VS_ADMIN);
  rq_fee : ∃ c ch m, s.(customers) !! customerId = Some c ∧ s.(channels) !! input.(vin_channelId) = Some ch ∧
             ch.(chan_openingFeeUsdMinor) = Some m ∧ 0 ≤ m < 10 ^ 12 ∧
             r.(va_openingFeeUsdMinor) = (if c.(cust_isInternal) || c.(cust_vaFeeExempt) then 0 else m) ∧
             r.(va_openingFeeStandardUsdMinor) = Some m;
  rq_confirmed : (opt_truthy actor.(va_actor_customerId) = true ∨ is_some input.(vin_expectedOpeningFeeUsd) = true) →
    ∃ d, d_parse (default "" input.(vin_expectedOpeningFeeUsd)) = Some d ∧
      ∀ x, d_units 8 d = Some x → x = cents r.(va_openingFeeUsdMinor);
  rq_reserved :
    (r.(va_openingFeeUsdMinor) = 0 ∧ r.(va_feeOperationId) = None ∧ beside s s') ∨
    (0 < r.(va_openingFeeUsdMinor) ∧ ∃ oid o wid w fid f, r.(va_feeOperationId) = Some oid ∧
       s.(operations) !! oid = None ∧ o.(op_status) = SUBMITTED ∧ o.(op_type) = VA_OPENING_FEE ∧
       o.(op_currency) = USD ∧ o.(op_feeAmount) = 0 ∧
       o.(op_amount) = cents r.(va_openingFeeUsdMinor) ∧ o.(op_sourceAccountId) = Some wid ∧
       o.(op_targetAccountId) = Some fid ∧ s.(accounts) !! wid = Some w ∧ is_usd_wallet_of customerId (wid, w) = true ∧
       s.(accounts) !! fid = Some f ∧ is_usd_fee_account (fid, f) = true ∧
       moved_beside oid o (at_ wid (- o.(op_amount))) (at_ wid o.(op_amount)) nothing s s');
}.

Lemma va_request_parties_ok cid cust input s ch m pol s' :
  va_request_parties cid cust input s = inr ((ch, m, pol), s') →
  s' = s ∧ s.(channels) !! input.(vin_channelId) = Some ch ∧ ch.(chan_openingFeeUsdMinor) = Some m ∧
  ∃ c, s.(customers) !! cid = Some c ∧ pol = vaFeePolicy c.
Proof.
  unfold va_request_parties, find_unique. intros H.
  do 3 (apply bind_ok in H as (?&?&[-> ->]%gets_ok&H)).
  apply bind_ok in H as (ch'&?&[Hch ->]%require_ok&H). do 2 (apply bind_ok in H as (_&?&[_ ->]%throw_if_ok&H)).
  apply bind_ok in H as (c'&?&[Hc ->]%require_ok&H). do 2 (apply bind_ok in H as (_&?&[_ ->]%throw_if_ok&H)).
  apply bind_ok in H as (m'&?&[Hm ->]%require_ok&[E ->]%ret_ok). injection E as -> -> ->. eauto 10.
Qed.

Lemma submit_va_request_ok env now rid oid cid cust input actor s id r s' :
  va_fees_exact s →
  submit_va_request now rid oid cid (trim input.(vin_purpose)) (trimmed input.(vin_idempotencyKey)) cust input actor s
    = inr ((id, r), s') →
  id = rid ∧ requested env cid rid input actor r s s'.
Proof.
  intros Hx H. unfold submit_va_request in H.
  apply bind_ok in H as ([[ch m] pol]&?&(->&Hch&Hm&c&Hc&->)%va_request_parties_ok&H).
  pose proof (Hx _ _ _ Hch Hm) as Hmr. cbv zeta in H.
  set (eff := if pol_exempt (vaFeePolicy c) then 0 else m) in *.
  assert (0 ≤ eff < 10 ^ 12) as He by (subst eff; destruct (pol_exempt (vaFeePolicy c)); [by split|exact Hmr]).
  pose proof (from_minor_units eff ltac:(lia)) as Hu.
  apply bind_ok in H as (u&s1&Hexp&H).
  assert (s1 = s ∧ ((opt_truthy actor.(va_actor_customerId) = true ∨ is_some input.(vin_expectedOpeningFeeUsd) = true) →
    ∃ d, d_parse (default "" input.(vin_expectedOpeningFeeUsd)) = Some d ∧ ∀ x, d_units 8 d = Some x → x = cents eff)) as [-> Hconf].
  { destruct (_ || _) eqn:B.
    - unfold check_expected_fee in Hexp. apply bind_ok in Hexp as (d&?&[Hd ->]%require_ok&[Ht ->]%throw_if_ok).
      split; [done|]. intros _. exists d. split; [done|]. intros x Hxd. apply orb_false_iff in Ht as [Ht _].
      apply orb_false_iff in Ht as [Ht _]. apply negb_false_iff in Ht. by rewrite (eq_units_true 8 _ _ _ _ Hxd Hu) in Ht.
    - apply ret_ok in Hexp as [_ ->]. split; [done|]. apply orb_false_iff in B as [-> ->]. intros [?|?]; done. }
  apply bind_ok in H as (fo&s1&Hr&H). apply (reserve_ok _ _ _ _ _ _ _ _ _ _ _ _ He) in Hr.
  apply bind_ok in H as ([]&s2&(Hnew&_&->&_)%create_row_ok&[E ->]%ret_ok). injection E as -> ->.
  assert (s1.(vaRequests) = s.(vaRequests)) as Hvr by (destruct Hr as [(_&_&->)|(_&_&_&?&?&?&?&_&_&_&_&_&?)]; done).
  assert (s1.(users) = s.(users) ∧ s1.(customers) = s.(customers) ∧ s1.(channels) = s.(channels)) as (Hus&Hcs&Hchs).
  { destruct Hr as [(_&_&->)|(_&_&_&?&?&?&?&_&_&_&_&Hmv&_)]; [done|]. by apply moved_frame in Hmv as (?&?&?&_). }
  split; [done|]. split.
  - by rewrite <- Hvr.
  - simpl. rewrite Hvr. done.
  - done.
  - done.
  - exists c, ch, m. split_and!; try done; lia.
  - exact Hconf.
  - simpl. destruct Hr as [(Hz&->&->)|(Hpos&->&Hno&wid&w&fid&f&Hw&Hwp&Hf&Hfp&Hmv&_)]; [left; split_and!; done|].
    right. split; [done|]. exists oid, (fee_operation_row now rid cid (trimmed input.(vin_idempotencyKey)) input.(vin_channelId) ch (cents eff) wid fid actor.(va_actor_userId)), wid, w, fid, f. split_and!; try reflexivity; try done.
    exists s1. split; [exact Hmv|]. done.
Qed.

(** *** Settlement and release *)

(** What a loaded request says of the state. *)
Lemma load_request_ok id s l s' :
  load_request id s = inr (Some l, s') →
  s' = s ∧ l.(lr_id) = id ∧ s.(vaRequests) !! id = Some l.(lr_request) ∧
  s.(customers) !! l.(lr_request).(va_customerId) = Some l.(lr_customer) ∧
  (∀ oid o, l.(lr_feeOperation) = Some (oid, o) →
     l.(lr_request).(va_feeOperationId) = Some oid ∧ s.(operations) !! oid = Some o ∧
     (∀ k a, l.(lr_source) = Some (k, a) → o.(op_sourceAccountId) = Some k ∧ truthy k = true ∧ s.(accounts) !! k = Some a) ∧
     (∀ k a, l.(lr_target) = Some (k, a) → o.(op_targetAccountId) = Some k ∧ truthy k = true ∧ s.(accounts) !! k = Some a)).
Proof.
  unfold load_request, find_unique. intros H. apply bind_ok in H as (row&?&[-> ->]%gets_ok&H).
  destruct (vaRequests s !! id) as [r|] eqn:Er; [|by apply ret_ok in H as [[=] _]].
  apply bind_ok in H as (c&?&[-> ->]%gets_ok&H). apply bind_ok in H as (c'&?&[Hc ->]%require_ok&H).
  apply bind_ok in H as (ch&?&[-> _]%find_optional_state&H).
  apply bind_ok in H as (op&?&[-> Hop]%find_optional_state&H).
  apply bind_ok in H as (src&?&[-> Hsrc]%find_optional_state&H).
  apply bind_ok in H as (tgt&?&[-> Htgt]%find_optional_state&H).
  apply ret_ok in H as [E ->]. injection E as ->. simpl. split_and!; [done..|].
  intros oid o ->. destruct (Hop _ _ eq_refl) as (?&_&?). split_and!; [done..| |].
  - intros k a ->. by destruct (Hsrc _ _ eq_refl) as (?&?&?).
  - intros k a ->. by destruct (Htgt _ _ eq_refl) as (?&?&?).
Qed.

Lemma fee_operation_valid amt x o :
  d_units 8 amt = Some x → fee_operation_invalid amt o = false →
  o.(op_type) = VA_OPENING_FEE ∧ o.(op_status) = SUBMITTED ∧ o.(op_currency) = USD ∧ o.(op_amount) = x.
Proof.
  unfold fee_operation_invalid. intros Hx H. guards. split_and!; try done.
  by apply (eq_units_true 8 _ _ _ _ (units_n8 (op_amount o)) Hx).
Qed.

Lemma release_ok now id l st ck reason s u s' :
  load_request id s = inr (Some l, s) → 0 ≤ l.(lr_request).(va_openingFeeUsdMinor) < 10 ^ 12 →
  releaseVaOpeningFee now l st ck reason s = inr (u, s') →
  (nothing_reserved l.(lr_request) = true ∧ s' = s) ∨
  (nothing_reserved l.(lr_request) = false ∧
   ∃ oid o o' src, l.(lr_request).(va_feeOperationId) = Some oid ∧ s.(operations) !! oid = Some o ∧
    o.(op_status) = SUBMITTED ∧ o.(op_type) = VA_OPENING_FEE ∧ o.(op_sourceAccountId) = Some src ∧ truthy src = true ∧
    o.(op_amount) = cents l.(lr_request).(va_openingFeeUsdMinor) ∧
    o'.(op_status) = st ∧ same_terms o o' ∧ s'.(vaRequests) = s.(vaRequests) ∧
    moved oid o' (at_ src o.(op_amount)) (at_ src (- o.(op_amount))) nothing s s').
Proof.
  intros Hl Hm H. apply load_request_ok in Hl as (_&_&_&_&Hop). unfold releaseVaOpeningFee in H.
  destruct (nothing_reserved _) eqn:N; [left; by apply ret_ok in H as [_ ->]|right; split; [done|]].
  pose proof (from_minor_units (va_openingFeeUsdMinor (lr_request l)) ltac:(lia)) as Hu.
  apply bind_ok in H as ([oid o]&?&[Ho ->]%require_ok&H). destruct (Hop _ _ Ho) as (Hid&Hrow&_).
  apply bind_ok in H as (_&?&[Hv ->]%throw_if_ok&H). apply orb_false_iff in Hv as [Hv Hs].
  destruct (fee_operation_valid _ _ _ Hu Hv) as (Hty&Hst&_&Hamt).
  destruct (op_sourceAccountId o) as [src|] eqn:Hsrc; [|done]. apply negb_false_iff in Hs. simpl in Hs, H.
  apply counted_then in H as (s1&Hc&H).
  apply (counted_moved _ _ _ _ (cents (va_openingFeeUsdMinor (lr_request l))) (- cents (va_openingFeeUsdMinor (lr_request l)))) in Hc as [Hmv _].
  2: { intros a. simpl. rewrite (n8_add_units _ _ _ Hu), (n8_sub_units _ _ _ Hu). split_and!; done || lia. }
  apply bind_ok in H as (o'&s2&U&[_ ->]%ret_ok).
  destruct (update_moved _ _ _ _ _ _ _ _ _ _ _ Hrow (acct_moved_effect _ _ _ _ _ Hmv) U) as (Ho'&Hmoved&_).
  apply operation_update_ok in U as (?&_&_&_&->).
  exists oid, o, o', src. rewrite Hamt. split_and!; try done.
  - rewrite Ho'. unfold if_given. by repeat case_match.
  - rewrite Ho'. unfold same_terms, if_given. by repeat case_match.
  - destruct Hmv as (a&a'&_&->&_). done.
Qed.

Lemma settle_ok now id l ck s u s' :
  load_request id s = inr (Some l, s) → 0 ≤ l.(lr_request).(va_openingFeeUsdMinor) < 10 ^ 12 →
  settleVaOpeningFee now l ck s = inr (u, s') →
  (nothing_reserved l.(lr_request) = true ∧ s' = s) ∨
  (nothing_reserved l.(lr_request) = false ∧
   ∃ oid o o' src tgt f, l.(lr_request).(va_feeOperationId) = Some oid ∧ s.(operations) !! oid = Some o ∧
    o.(op_status) = SUBMITTED ∧ o.(op_type) = VA_OPENING_FEE ∧ o.(op_sourceAccountId) = Some src ∧ truthy src = true ∧
    o.(op_amount) = cents l.(lr_request).(va_openingFeeUsdMinor) ∧
    s.(accounts) !! tgt = Some f ∧ is_usd_fee_account (tgt, f) = true ∧
    o'.(op_status) = COMPLETED ∧ same_terms o o' ∧ s'.(vaRequests) = s.(vaRequests) ∧
    moved oid o' nothing (at_ src (- o.(op_amount))) (at_ src (- o.(op_amount))) s s').
Proof.
  intros Hl Hm H. apply load_request_ok in Hl as (_&_&_&_&Hop). unfold settleVaOpeningFee in H.
  destruct (nothing_reserved _) eqn:N; [left; by apply ret_ok in H as [_ ->]|right; split; [done|]].
  pose proof (from_minor_units (va_openingFeeUsdMinor (lr_request l)) ltac:(lia)) as Hu.
  apply bind_ok in H as ([oid o]&?&[Ho ->]%require_ok&H). destruct (Hop _ _ Ho) as (Hid&Hrow&HS&HT).
  apply bind_ok in H as (_&?&[Hv ->]%throw_if_ok&H).
  destruct (fee_operation_valid _ _ _ Hu Hv) as (Hty&Hst&_&Hamt).
  apply bind_ok in H as ([src sa]&?&[Hsa ->]%require_ok&H). destruct (HS _ _ Hsa) as (Hsrc&Ht&Hsrow).
  apply bind_ok in H as (_&?&[_ ->]%throw_if_ok&H).
  apply bind_ok in H as ([tgt ta]&?&[Hta ->]%require_ok&H). destruct (HT _ _ Hta) as (_&_&Htrow).
  apply bind_ok in H as (_&?&[Hfee ->]%throw_if_ok&H). guards.
  apply counted_then in H as (s1&Hc&H).
  apply (counted_moved _ _ _ _ 0 (- cents (va_openingFeeUsdMinor (lr_request l)))) in Hc as [Hmv _].
  2: { intros a. simpl. rewrite (n8_sub_units _ _ _ Hu). split_and!; done || lia. }
  assert (system_account s1 tgt = true) as Hsys.
  { rewrite (acct_moved_system _ _ _ _ _ tgt Hmv). unfold system_account. rewrite Htrow.
    by match goal with H : acc_kind ta = _ |- _ => rewrite H end. }
  pose proof (acct_moved_effect _ _ _ _ _ Hmv) as E1.
  apply bind_ok in H as (u1&s2&Hp%(create_entry_pair _ _ _ _ _ _ _ _ _ _ _ Hu)&H).
  pose proof (pair_posted_effect _ _ _ _ _ _ Hp) as E2.
  apply bind_ok in H as (o'&s3&U&[_ ->]%ret_ok).
  assert (effect nothing (at_ src (- o.(op_amount))) (at_ src (- o.(op_amount))) s s2) as E.
  { rewrite Hamt. eapply effect_ext; [exact (effect_trans _ _ _ _ _ _ _ _ _ E1 E2)|..]; intros i; cbv beta.
    - unfold at_, nothing. case_match; lia.
    - unfold nothing. lia.
    - intros Hi. rewrite (at_system _ _ _ i Hsys) by (by rewrite (acct_moved_system _ _ _ _ _ i Hmv)).
      unfold at_, nothing. case_match; lia. }
  destruct (update_moved _ _ _ _ _ _ _ _ _ _ _ Hrow E U) as (Ho'&Hmoved&_).
  apply operation_update_ok in U as (?&_&_&_&->).
  exists oid, o, o', src, tgt, ta. split_and!; try done.
  2,3: by rewrite Ho'.
  - unfold is_usd_fee_account, is_none. simpl. rewrite !andb_true_iff, !same_true. guards.
    match goal with H : is_some _ = false |- _ => rewrite H end. done.
  - destruct Hp as (e&_&_&->), Hmv as (a&a'&_&->&_). done.
Qed.
End lemmas.

Section handlers.
Context {DO : DecimalOps} {DL : DecimalLaws DO} {JD : JsDates}.
Context (sha256 : list Z → list Z) (newId : string → string)
  (source_rows : list NeobankCustomer) (verified_wallets : list VerifiedCregisWallet).

#[local] Notation requestVirtualAccount := (requestVirtualAccount sha256 newId source_rows verified_wallets).
#[local] Notation cancelVirtualAccountRequest := (cancelVirtualAccountRequest sha256 newId source_rows verified_wallets).

(** A customer the core knows is not synchronised. *)
Lemma requireVaCustomerAccess_ok env cid org actor s c s' :
  is_Some (s.(customers) !! cid) →
  requireVaCustomerAccess sha256 newId source_rows verified_wallets env cid org actor s = inr (c, s') →
  s' = s ∧ s.(customers) !! cid = Some c.
Proof.
  intros [c0 Hc0] H. unfold requireVaCustomerAccess in H. destruct (negb _).
  - apply bind_ok in H as ([u x]&?&(->&_&_&_&Hx&_)%requireCustomerAccess_ok&H).
    by apply bind_ok in H as (_&?&[_ ->]%throw_if_ok&[-> ->]%ret_ok).
  - apply bind_ok in H as (_&?&[_ ->]%throw_if_ok&H). apply bind_ok in H as (o&?&[-> ->]%gets_ok&H).
    rewrite Hc0 in H. simpl in H. apply bind_ok in H as (o&?&[-> ->]%ret_ok&H).
    apply bind_ok in H as (x&?&[[= ->] ->]%require_ok&H).
    by apply bind_ok in H as (_&?&[_ ->]%throw_if_ok&[-> ->]%ret_ok).
Qed.

(** The same access in a state with the same users and customers. *)
Lemma requireVaCustomerAccess_again env env2 cid org actor s s' c :
  is_Some (s.(customers) !! cid) → s'.(users) = s.(users) → s'.(customers) = s.(customers) →
  requireVaCustomerAccess sha256 newId source_rows verified_wallets env cid org actor s = inr (c, s) →
  requireVaCustomerAccess sha256 newId source_rows verified_wallets env2 cid org actor s' = inr (c, s').
Proof.
  intros [c0 Hc0] Hu Hc H. unfold requireVaCustomerAccess in *. destruct (negb _).
  - apply bind_ok in H as ([u x]&?&Ha&H).
    destruct (reads_ok _ _ _ s' _ _ (requireCustomerAccess_reads _ _) (conj Hu Hc) Ha) as [-> Ha']. run Ha'.
    apply bind_ok in H as (_&?&[Ht ->]%throw_if_ok&[-> _]%ret_ok). run throw_if_run; [exact Ht|]. done.
  - apply bind_ok in H as (_&?&[Ht ->]%throw_if_ok&H). run throw_if_run; [exact Ht|].
    apply bind_ok in H as (o&?&[-> ->]%gets_ok&H). unfold find_unique. run gets_run. rewrite Hc.
    rewrite Hc0 in *. simpl in *. apply bind_ok in H as (o&?&[-> ->]%ret_ok&H). run ret_run.
    apply bind_ok in H as (x&?&[E ->]%require_ok&H). run require_run; [exact E|].
    apply bind_ok in H as (_&?&[Ht' ->]%throw_if_ok&[-> _]%ret_ok). run throw_if_run; [exact Ht'|]. done.
Qed.

(** A request whose key is already taken by the same request is answered from it,
    also when its transaction ends in a serialization failure. *)
Lemma replay_run env fault now rid oid cid input actor s c key id r v :
  isSupportedFiatCurrency input.(vin_currency) = true → Nat.ltb (String.length (trim input.(vin_purpose))) 2 = false →
  requireVaCustomerAccess sha256 newId source_rows verified_wallets env cid None actor s = inr (c, s) →
  c.(cust_status) = CS_ACTIVE → trimmed input.(vin_idempotencyKey) = Some key →
  find_first (has_va_key cid key) s.(vaRequests) = Some (id, r) →
  r.(va_channelId) = Some input.(vin_channelId) → r.(va_currency) = input.(vin_currency) →
  r.(va_purpose) = trim input.(vin_purpose) → view_of id r s = inr (v, s) →
  fault = None ∨ fault = Some (PrismaKnown "P2034" []) →
  requestVirtualAccount env fault now rid oid cid input actor s = inr (v, s).
Proof.
  intros Hcur Hpur Hacc Hst Hkey Hf Hch Hcu Hpu Hv Hfault. unfold VirtualAccounts.requestVirtualAccount.
  run throw_if_run; [by rewrite Hcur|]. run throw_if_run; [exact Hpur|]. run Hacc.
  run throw_if_run; [by apply differs_false|]. rewrite Hkey. run throw_if_run; [by rewrite andb_false_r|].
  unfold try_catch. destruct Hfault as [->| ->]; simpl.
  - assert (va_request_transaction now rid oid cid (trim input.(vin_purpose)) (Some key) c input actor s
            = inr ((id, r), s)) as Ht.
    { unfold va_request_transaction. run gets_run. rewrite Hf. run throw_if_run; [|reflexivity].
      rewrite Hch, Hcu, Hpu. unfold differs, same. by rewrite !bool_decide_true. }
    rewrite (bind_run _ _ _ _ _ Ht). cbv beta iota. by rewrite Hv.
  - run gets_run. by rewrite Hf.
Qed.

Lemma request_ok env fault now rid oid cid input actor s v s' :
  is_Some (s.(customers) !! cid) → va_fees_exact s → s.(vaRequests) !! v.(vv_id) = None →
  requestVirtualAccount env fault now rid oid cid input actor s = inr (v, s') →
  v.(vv_id) = rid ∧ requested env cid rid input actor v.(vv_row) s s' ∧
  (trimmed input.(vin_idempotencyKey) ≠ None → ∀ env2 fault2 now2 rid2 oid2,
     fault2 = None ∨ fault2 = Some (PrismaKnown "P2034" []) →
     requestVirtualAccount env2 fault2 now2 rid2 oid2 cid input actor s' = inr (v, s')).
Proof.
  intros Hcust Hx Hnew H. unfold VirtualAccounts.requestVirtualAccount in H.
  apply bind_ok in H as (_&?&[Hcur ->]%throw_if_ok&H). apply negb_false_iff in Hcur.
  apply bind_ok in H as (_&?&[Hpur ->]%throw_if_ok&H).
  apply bind_ok in H as (cust&sx&Hacc&H). pose proof (requireVaCustomerAccess_ok _ _ _ _ _ _ _ Hcust Hacc) as [-> _].
  apply bind_ok in H as (_&?&[Hst ->]%throw_if_ok&H). apply (proj1 (differs_false _ _)) in Hst.
  apply bind_ok in H as (_&?&[_ ->]%throw_if_ok&H).
  assert (∀ key k r, find_first (has_va_key cid key) s.(vaRequests) = Some (k, r) → s.(vaRequests) !! k = Some r) as Hfound.
  { by intros key k r [Hk _]%find_first_Some. }
  apply try_catch_ok in H as [H|(e&_&H)].
  - apply bind_ok in H as ([id r]&s1&Ht&Hv). pose proof (view_of_ok _ _ _ _ _ Hv) as (->&Hid&Hrow).
    destruct fault; [by apply throw_ok in Ht|].
    simpl in Ht. unfold va_request_transaction in Ht. apply bind_ok in Ht as (ex&s2&He&Ht).
    assert (s2 = s ∧ (∀ k r, ex = Some (k, r) → s.(vaRequests) !! k = Some r) ∧
      (∀ key, trimmed input.(vin_idempotencyKey) = Some key → ex = find_first (has_va_key cid key) s.(vaRequests)))
      as (->&Hex&Hfind).
    { destruct (trimmed _); [apply gets_ok in He as [-> ->]; naive_solver|by apply ret_ok in He as [-> ->]]. }
    destruct ex as [[k r0]|].
    { apply bind_ok in Ht as (_&?&[_ ->]%throw_if_ok&[E ->]%ret_ok). injection E as -> ->.
      rewrite Hid in Hnew. by rewrite (Hex _ _ eq_refl) in Hnew. }
    destruct (submit_va_request_ok env _ _ _ _ _ _ _ _ _ _ _ Hx Ht) as [-> Hr]. rewrite Hid, Hrow. split_and!; [done..|].
    intros Hk env2 fault2 now2 rid2 oid2 Hfault. destruct (trimmed _) as [key|] eqn:Hkey; [|done].
    destruct (rq_rows _ _ _ _ _ _ _ _ Hr) as (Hrows&Hus&Hcs&_). destruct (rq_terms _ _ _ _ _ _ _ _ Hr) as (T1&T2&T3).
    destruct (rq_status _ _ _ _ _ _ _ _ Hr) as (_&Tc&Tch&_).
    assert (find_first (has_va_key cid key) s1.(vaRequests) = Some (rid, r)) as Hf.
    { rewrite Hrows. apply find_first_inserted; [symmetry; by apply Hfind|].
      unfold has_va_key. simpl. rewrite Tc, T3, Hkey, String.eqb_refl. by apply opt_eqb_true. }
    eapply replay_run; [exact Hcur|exact Hpur| |exact Hst|exact Hkey|exact Hf|exact Tch|exact T1|exact T2|exact Hv|exact Hfault].
    eapply requireVaCustomerAccess_again; [exact Hcust|exact Hus|exact Hcs|exact Hacc].
  - destruct e; try by apply throw_ok in H. destruct (_ || _); [|by apply throw_ok in H].
    apply bind_ok in H as (ex&s2&He&H).
    assert (s2 = s ∧ ∀ k r, ex = Some (k, r) → s.(vaRequests) !! k = Some r) as [-> Hex].
    { destruct (trimmed _); [apply gets_ok in He as [-> ->]; eauto|by apply ret_ok in He as [-> ->]]. }
    destruct ex as [[k r]|]; [|by apply throw_ok in H]. apply view_of_ok in H as (_&Hid&_).
    rewrite Hid in Hnew. by rewrite (Hex _ _ eq_refl) in Hnew.
Qed.

(** The ledger side of closing a request: nothing, or the move of its fee. *)
Definition fee_closed (r : VaRequest) (st : OperationStatus) (da df dp : Z) (s s' : Db) : Prop :=
  (nothing_reserved r = true ∧ beside s s') ∨
  (nothing_reserved r = false ∧
   ∃ oid o o' src, r.(va_feeOperationId) = Some oid ∧ s.(operations) !! oid = Some o ∧ o.(op_status) = SUBMITTED ∧
    o.(op_type) = VA_OPENING_FEE ∧ o.(op_sourceAccountId) = Some src ∧ truthy src = true ∧
    o.(op_amount) = cents r.(va_openingFeeUsdMinor) ∧ o'.(op_status) = st ∧ same_terms o o' ∧
    moved_beside oid o' (at_ src (da * o.(op_amount))) (at_ src (df * o.(op_amount)))
      (at_ src (dp * o.(op_amount))) s s').

Lemma moved_beside_ext id o da df dp da' df' dp' s s1 s' :
  moved id o da df dp s s1 → beside s1 s' → (∀ i, da i = da' i) → (∀ i, df i = df' i) → (∀ i, dp i = dp' i) →
  moved_beside id o da' df' dp' s s'.
Proof.
  intros (s0&E&->) Hb Ha Hf Hp. eexists. split; [|exact Hb]. exists s0. split; [|done].
  by apply (effect_ext _ _ _ _ _ _ _ _ E).
Qed.

Lemma load_pending_ok id ck s l s' :
  load_pending id ck s = inr (l, s') →
  s' = s ∧ load_request id s = inr (Some l, s) ∧ l.(lr_request).(va_status) = RS_SUBMITTED ∧
  ∃ u, s.(users) !! ck = Some u ∧ u.(user_active) = true ∧ u.(user_role) = ADMIN ∧
    u.(user_organizationId) = Some l.(lr_customer).(cust_organizationId).
Proof.
  unfold load_pending. intros H. apply bind_ok in H as ([x|]&s1&Hl&H).
  2: { apply bind_ok in H as (?&?&[? _]%require_ok&_). done. }
  pose proof (load_request_ok _ _ _ _ Hl) as [-> _].
  apply bind_ok in H as (x'&?&[E ->]%require_ok&H). injection E as <-.
  apply bind_ok in H as (u&?&(->&Hu&Ha&Hr)%requireChecker_ok&H).
  apply bind_ok in H as (_&?&[Horg ->]%throw_if_ok&H). apply bind_ok in H as (_&?&[Hst ->]%throw_if_ok&H).
  apply bind_ok in H as (_&?&[_ ->]%throw_if_ok&[-> ->]%ret_ok). guards. eauto 10.
Qed.

(** Rejection of a request. *)
Lemma reject_va_ok env now id ck reason s v s' r :
  s.(vaRequests) !! id = Some r → 0 ≤ r.(va_openingFeeUsdMinor) < 10 ^ 12 →
  rejectVirtualAccountRequest env now id ck reason s = inr (v, s') →
  v.(vv_row).(va_status) = RS_REJECTED ∧ s'.(vaRequests) = <[id := v.(vv_row)]> s.(vaRequests) ∧
  r.(va_status) = RS_SUBMITTED ∧ fee_closed r REJECTED 1 (-1) 0 s s'.
Proof.
  intros Hr Hm H. unfold rejectVirtualAccountRequest in H. apply bind_ok in H as (_&?&[_ ->]%throw_if_ok&H).
  apply bind_ok in H as (l&?&(->&Hl&Hst&_)%load_pending_ok&H).
  pose proof (load_request_ok _ _ _ _ Hl) as (_&_&Hrow&_). rewrite Hr in Hrow. injection Hrow as ->.
  apply bind_ok in H as (u&s1&Hrel&H). apply (release_ok _ id) in Hrel; [|done..].
  apply bind_ok in H as (r'&s2&(r0&Hr0&->&_&->)%update_row_ok&H).
  apply bind_ok in H as (u2&s3&(Hb&Hvr&_)%enqueueCustomerEmail_beside&H).
  apply view_of_ok in H as (->&_&->). simpl. split_and!; [done| |done|].
  - rewrite Hvr. simpl. destruct Hrel as [(_&->)|(_&?&?&?&?&_&_&_&_&_&_&_&_&_&->&_)]; done.
  - destruct Hrel as [(Hn&->)|(Hn&oid&o&o'&src&H1&H2&H3&H4&H5&H6&H7&H8&H9&_&Hmv)]; [left; split; [done|]; exact Hb|right].
    split; [done|]. exists oid, o, o', src. split_and!; [done..|].
    eapply moved_beside_ext; [exact Hmv|exact Hb|..]; intros i; unfold at_, nothing; case_match; lia.
Qed.

(** Cancellation of a request by its customer. *)
Lemma cancel_va_ok env now cid id actor s v s' r :
  is_Some (s.(customers) !! cid) → s.(vaRequests) !! id = Some r → 0 ≤ r.(va_openingFeeUsdMinor) < 10 ^ 12 →
  cancelVirtualAccountRequest env now cid id actor s = inr (v, s') →
  v.(vv_row).(va_status) = RS_CANCELLED ∧ s'.(vaRequests) = <[id := v.(vv_row)]> s.(vaRequests) ∧
  r.(va_status) = RS_SUBMITTED ∧ r.(va_customerId) = cid ∧ r.(va_requestSource) = VS_CUSTOMER ∧
  fee_closed r CANCELLED 1 (-1) 0 s s'.
Proof.
  intros Hc Hr Hm H. unfold VirtualAccounts.cancelVirtualAccountRequest in H.
  apply bind_ok in H as (_&?&[_ ->]%throw_if_ok&H).
  apply bind_ok in H as (c&?&[-> _]%requireVaCustomerAccess_ok&H); [|done].
  apply bind_ok in H as ([l|]&s1&Hl&H).
  2: { apply bind_ok in H as (?&?&[? _]%require_ok&_). done. }
  pose proof (load_request_ok _ _ _ _ Hl) as (->&_&Hrow&_). rewrite Hr in Hrow. injection Hrow as ->.
  apply bind_ok in H as (l'&?&[E ->]%require_ok&H). injection E as <-.
  apply bind_ok in H as (_&?&[Hown ->]%throw_if_ok&H). apply bind_ok in H as (_&?&[Hsrc ->]%throw_if_ok&H).
  apply bind_ok in H as (_&?&[Hst ->]%throw_if_ok&H). guards.
  apply bind_ok in H as (u&s1&Hrel&H). apply (release_ok _ id) in Hrel; [|done..].
  apply bind_ok in H as (r'&s2&(r0&Hr0&->&_&->)%update_row_ok&H).
  apply view_of_ok in H as (->&_&->). simpl. split_and!; [done| |done..|].
  - destruct Hrel as [(_&->)|(_&?&?&?&?&_&_&_&_&_&_&_&_&_&->&_)]; done.
  - destruct Hrel as [(Hn&->)|(Hn&oid&o&o'&src'&Q1&Q2&Q3&Q4&Q5&Q6&Q7&Q8&Q9&_&Hmv)]; [by left|right].
    split; [done|]. exists oid, o, o', src'. split_and!; [done..|].
    eapply moved_beside_ext; [exact Hmv|done|..]; intros i; unfold at_, nothing; case_match; lia.
Qed.

(** Approval of a request: the fee is settled and the account opened. *)
Lemma approve_va_ok env now aid id input ck s v s' r :
  s.(vaRequests) !! id = Some r → 0 ≤ r.(va_openingFeeUsdMinor) < 10 ^ 12 →
  approveVirtualAccountRequest env now aid id input ck s = inr (v, s') →
  v.(vv_row).(va_status) = RS_APPROVED ∧ v.(vv_row).(va_assignedAccountId) = Some aid ∧
  s'.(vaRequests) = <[id := v.(vv_row)]> s.(vaRequests) ∧ r.(va_status) = RS_SUBMITTED ∧
  (∃ a, s'.(accounts) !! aid = Some a ∧ a.(acc_kind) = VIRTUAL_ACCOUNT ∧ a.(acc_customerId) = Some r.(va_customerId) ∧
        a.(acc_currency) = r.(va_currency) ∧ a.(acc_status) = AS_ACTIVE ∧ a.(acc_accountNumber) = Some (trim input.(as_accountNumber)) ∧
        a.(acc_fundingChannelId) = r.(va_channelId)) ∧
  s.(accounts) !! aid = None ∧ fee_closed r COMPLETED 0 (-1) (-1) s s'.
Proof.
  intros Hr Hm H. unfold approveVirtualAccountRequest in H.
  apply bind_ok in H as (l&?&(->&Hl&Hst&_)%load_pending_ok&H).
  pose proof (load_request_ok _ _ _ _ Hl) as (_&_&Hrow&_). rewrite Hr in Hrow. injection Hrow as ->.
  apply bind_ok in H as ([chid ch]&?&[Hch ->]%require_ok&H). apply bind_ok in H as (_&?&[_ ->]%throw_if_ok&H).
  apply bind_ok in H as (u&s1&Hrel&H). apply (settle_ok _ id) in Hrel; [|done..].
  apply bind_ok in H as ([]&s2&Hc&H).
  apply try_catch_ok in Hc as [(Hnone&_&->&_)%create_row_ok|(e&_&Hc)]; [|repeat case_match; by apply throw_ok in Hc].
  apply bind_ok in H as (r'&s3&(r0&Hr0&->&_&->)%update_row_ok&H).
  apply bind_ok in H as (u2&s4&(Hb&Hvr&_&Hacc)%enqueueCustomerEmail_beside&H).
  apply view_of_ok in H as (->&_&->). simpl in *.
  assert (lr_request l = r0) as Hrr.
  { destruct Hrel as [(_&->)|(_&?&?&?&?&?&?&_&_&_&_&_&_&_&_&_&_&_&Hv&_)]; [congruence|]. rewrite Hv in Hr0. congruence. }
  assert (va_channelId (lr_request l) = Some chid) as Hchan.
  { clear - Hl Hch. unfold load_request, find_unique in Hl. apply bind_ok in Hl as (row&?&[-> ->]%gets_ok&H).
    destruct (vaRequests s !! id); [|by apply ret_ok in H as [[=] _]].
    apply bind_ok in H as (c&?&[-> ->]%gets_ok&H). apply bind_ok in H as (c'&?&[Hc ->]%require_ok&H).
    apply bind_ok in H as (x&?&[-> Hx]%find_optional_state&H). do 3 (apply bind_ok in H as (?&?&_&H)).
    apply ret_ok in H as [E _]. injection E as ->. simpl in *. by destruct (Hx _ _ Hch). }
  assert (beside s1 (set_accounts (<[aid := va_account_row (lr_request l) chid ch input]> s1.(accounts)) s1)) as Hba
    by (by apply beside_new_account).
  split_and!; [done|done| |done| | |].
  - rewrite Hvr. simpl. destruct Hrel as [(_&->)|(_&?&?&?&?&?&?&_&_&_&_&_&_&_&_&_&_&_&->&_)]; congruence.
  - exists (va_account_row (lr_request l) chid ch input). rewrite Hacc, lookup_insert_eq. done.
  - destruct Hrel as [(_&->)|(_&oid&o&o'&src&tgt&f&_&_&_&_&_&_&_&_&_&_&_&_&Hmv)]; [done|].
    apply moved_frame in Hmv as (_&_&_&_&_&_&_&Hid). specialize (Hid aid). rewrite Hnone in Hid. by inversion Hid.
  - assert (beside s1 s4) as Hb' by (etrans; [exact Hba|]; exact Hb).
    destruct Hrel as [(Hn&->)|(Hn&oid&o&o'&src&tgt&f&H1&H2&H3&H4&H5&H6&H7&_&_&H8&H9&_&Hmv)]; [by left|right].
    split; [done|]. exists oid, o, o', src. split_and!; [done..|].
    eapply moved_beside_ext; [exact Hmv|exact Hb'|..]; intros i; unfold at_, nothing; case_match; lia.
Qed.

(** Waiver of the fee of a pending request. *)
Lemma waive_ok fault now id reason actor s v s' r :
  s.(vaRequests) !! id = Some r → 0 ≤ r.(va_openingFeeUsdMinor) < 10 ^ 12 → r.(va_openingFeeWaivedAt) = None →
  waiveVaOpeningFee fault now id reason actor s = inr (v, s') →
  r.(va_status) = RS_SUBMITTED ∧ 0 < r.(va_openingFeeUsdMinor) ∧ v.(vv_row).(va_openingFeeWaivedAt) = Some now ∧
  v.(vv_row).(va_status) = RS_SUBMITTED ∧ v.(vv_row).(va_openingFeeUsdMinor) = r.(va_openingFeeUsdMinor) ∧
  s'.(vaRequests) = <[id := v.(vv_row)]> s.(vaRequests) ∧ s'.(customers) = s.(customers) ∧
  fee_closed r CANCELLED 1 (-1) 0 s s'.
Proof.
  intros Hr Hm Hw H. unfold waiveVaOpeningFee in H.
  do 2 (apply bind_ok in H as (_&?&[_ ->]%throw_if_ok&H)). unfold on_conflict in H.
  apply try_catch_ok in H as [H|(e&_&H)]; [|repeat case_match; by apply throw_ok in H].
  destruct fault; [by apply throw_ok in H|]. simpl in H.
  apply bind_ok in H as (u&?&(->&_)%requireChecker_ok&H). apply bind_ok in H as ([l|]&s1&Hl&H).
  2: { apply bind_ok in H as (?&?&[? _]%require_ok&_). done. }
  pose proof (load_request_ok _ _ _ _ Hl) as (->&_&Hrow&_). rewrite Hr in Hrow. injection Hrow as ->.
  apply bind_ok in H as (l'&?&[E ->]%require_ok&H). injection E as <-.
  apply bind_ok in H as (_&?&[_ ->]%throw_if_ok&H). apply bind_ok in H as (_&?&[Hst ->]%throw_if_ok&H).
  apply (proj1 (differs_false _ _)) in Hst. rewrite Hw in H. simpl in H.
  apply bind_ok in H as (_&?&[Hz ->]%throw_if_ok&H). apply Z.eqb_neq in Hz.
  apply bind_ok in H as (_&?&[_ ->]%throw_if_ok&H).
  apply bind_ok in H as (u2&s1&Hrel&H). apply (release_ok _ id) in Hrel; [|done..].
  apply bind_ok in H as (r'&s2&(r0&Hr0&->&_&->)%update_row_ok&H). apply view_of_ok in H as (->&_&->).
  assert (r0 = lr_request l) as ->.
  { destruct Hrel as [(_&->)|(_&?&?&?&?&_&_&_&_&_&_&_&_&_&Hv&_)]; [congruence|]. rewrite Hv in Hr0. congruence. }
  simpl. split_and!; try done; [lia| | |].
  - destruct Hrel as [(_&->)|(_&?&?&?&?&_&_&_&_&_&_&_&_&_&->&_)]; done.
  - destruct Hrel as [(_&->)|(_&?&?&?&?&_&_&_&_&_&_&_&_&_&_&Hmv)]; [done|]. by apply moved_frame in Hmv as (_&?&_).
  - destruct Hrel as [(Hn&->)|(Hn&oid&o&o'&src&Q1&Q2&Q3&Q4&Q5&Q6&Q7&Q8&Q9&_&Hmv)]; [by left|right].
    split; [done|]. exists oid, o, o', src. split_and!; [done..|].
    eapply moved_beside_ext; [exact Hmv|done|..]; intros i; unfold at_, nothing; case_match; lia.
Qed.

(** What a request reserved is what closing it finds. *)
Lemma requested_closed env cid rid input actor r st da df dp s s1 s2 :
  requested env cid rid input actor r s s1 → fee_closed r st da df dp s1 s2 →
  ∃ wid, (0 < r.(va_openingFeeUsdMinor) → ∃ w, s.(accounts) !! wid = Some w ∧ is_usd_wallet_of cid (wid, w) = true) ∧
    let x := cents r.(va_openingFeeUsdMinor) in
    (∀ i, available_of s1 i = available_of s i - at_ wid x i ∧ frozen_of s1 i = frozen_of s i + at_ wid x i) ∧
    (∀ i, available_of s2 i = available_of s i + at_ wid ((da - 1) * x) i ∧
          frozen_of s2 i = frozen_of s i + at_ wid ((df + 1) * x) i ∧
          (system_account s i = false → position_of s2 i = position_of s i + at_ wid (dp * x) i)) ∧
    (r.(va_openingFeeUsdMinor) ≠ 0 → ∃ oid o', r.(va_feeOperationId) = Some oid ∧
       s2.(operations) = <[oid := o']> s.(operations) ∧ o'.(op_status) = st ∧ o'.(op_amount) = x).
Proof.
  intros Hq Hc. destruct (rq_status _ _ _ _ _ _ _ _ Hq) as (_&_&_&Hw&_).
  destruct (rq_reserved _ _ _ _ _ _ _ _ Hq) as [(Hz&_&Hb)|(Hpos&oid&o&wid&w&fid&f&Hid&_&_&_&_&_&Hamt&Hsrc&_&Hw0&Hwp&_&_&Hmv)].
  - exists "". split; [lia|]. unfold cents. rewrite Hz. cbv zeta.
    destruct Hc as [(_&Hb2)|(Hn&_)]; [|unfold nothing_reserved in Hn; by rewrite Hz in Hn].
    assert (∀ z, at_ "" (z * (0 * 10 ^ 6)) = at_ "" 0) as Hz0 by (intros z; by rewrite Z.mul_0_l, Z.mul_0_r).
    assert (∀ i, at_ "" 0 i = 0) as Ha by (intros i; unfold at_; by case_match). rewrite Z.mul_0_l.
    destruct Hb as (_&HJ&HA&HF&HS), Hb2 as (_&HJ2&HA2&HF2&_). split_and!.
    + intros i. rewrite HA, HF, Ha. lia.
    + intros i. rewrite HA2, HF2, HA, HF, !Z.mul_0_r, Ha. unfold position_of. rewrite HJ2, HJ. lia.
    + done.
  - exists wid. split; [by exists w|]. cbv zeta. rewrite Hamt in *.
    apply moved_beside_effect in Hmv as (A&F&P&O&Sy).
    destruct Hc as [(Hn&_)|(_&oid2&o2&o'&src&Hid2&Ho2&_&_&Hs2&_&Ha2&Hst&Hterms&Hmv2)].
    { unfold nothing_reserved in Hn. rewrite Hw, orb_false_r in Hn. apply Z.eqb_eq in Hn. lia. }
    rewrite Hid in Hid2. injection Hid2 as <-. rewrite O, lookup_insert_eq in Ho2. injection Ho2 as <-.
    rewrite Hsrc in Hs2. injection Hs2 as <-. rewrite Hamt in *.
    apply moved_beside_effect in Hmv2 as (A2&F2&P2&O2&_). split_and!.
    + intros i. rewrite A, F. unfold at_. case_match; lia.
    + intros i. rewrite A2, F2, A, F. split_and!; [unfold at_; case_match; lia..|].
      intros Hi. rewrite P2, P by (rewrite ?Sy; done). unfold nothing, at_. case_match; lia.
    + intros _. exists oid, o'. rewrite O2, O, insert_insert_eq. split_and!; try done.
      destruct Hterms as (_&_&_&_&_&Heq&_). congruence.
Qed.
End handlers.

(** ** Properties *)
Section properties.
Context {DO : DecimalOps} {DL : DecimalLaws DO} {JD : JsDates}.
Context (sha256 : list Z → list Z) (newId : string → string)
  (source_rows : list NeobankCustomer) (verified_wallets : list VerifiedCregisWallet).
#[local] Notation requestVirtualAccount := (requestVirtualAccount sha256 newId source_rows verified_wallets).
#[local] Notation cancelVirtualAccountRequest := (cancelVirtualAccountRequest sha256 newId source_rows verified_wallets).

(** C9: a new virtual-account request charges nobody yet.  It reserves exactly
    the opening fee in force (nothing for an exempt customer or a free bank) on
    the customer's only USD wallet, backed by a SUBMITTED operation of that
    amount; a customer's request succeeds only if the fee text it confirms has
    that value.  Every account's balances stay explained by the journal and by
    the operations' holds.  Sent again with its idempotency key, even when the
    transaction ends in a serialization failure, the request is answered with
    the same row and changes nothing. *)
Theorem va_request_reserves env fault now rid oid cid input actor s v s' :
  is_Some (s.(customers) !! cid) → va_fees_exact s → s.(accounts) !! "" = None → s.(vaRequests) !! v.(vv_id) = None →
  requestVirtualAccount env fault now rid oid cid input actor s = inr (v, s') →
  v.(vv_id) = rid ∧ requested env cid rid input actor v.(vv_row) s s' ∧
  conserves s s' ∧ (frozen_backed s → frozen_backed s') ∧
  (trimmed input.(vin_idempotencyKey) ≠ None → ∀ env2 fault2 now2 rid2 oid2,
     fault2 = None ∨ fault2 = Some (PrismaKnown "P2034" []) →
     requestVirtualAccount env2 fault2 now2 rid2 oid2 cid input actor s' = inr (v, s')).
Proof.
  intros Hc Hx Hnil Hn H. destruct (request_ok _ _ _ _ _ _ _ _ _ _ _ _ _ _ _ Hc Hx Hn H) as (Hid&Hq&Hre).
  assert (conserves s s' ∧ (frozen_backed s → frozen_backed s')) as [Hcon Hback]; [|done].
  destruct (rq_reserved _ _ _ _ _ _ _ _ Hq) as
    [(_&_&Hb)|(Hpos&oid'&o&wid&w&fid&f&_&Hno&Hst&Hty&_&Hfee&Hamt&Hsrc&_&Hw&_&_&_&Hmv)].
  - split; [by apply beside_conserves|by apply beside_backed].
  - assert (holds o = o.(op_amount)) as Hh.
    { unfold holds, op_total. rewrite Hst, Hty, Hfee. unfold same. rewrite (bool_decide_true (VA_OPENING_FEE = VA_OPENING_FEE)) by done.
      rewrite orb_true_r. lia. }
    assert (truthy wid = true) as Ht by (unfold truthy; destruct (String.eqb_spec wid ""); [congruence|done]).
    eapply moved_beside_sound; [exact Hmv|intros; unfold at_, nothing; case_match; lia|].
    intros i. rewrite Hno. simpl. rewrite (reservation_at i wid o Hsrc Ht), Hh. lia.
Qed.

(** Either way a pending request is turned down. *)
Definition turned_down (now : Z) (id cid : string) (v : VaRequestView) (s s' : Db) : Prop :=
  (∃ env ck reason, rejectVirtualAccountRequest env now id ck reason s = inr (v, s')) ∨
  (∃ env actor, cancelVirtualAccountRequest env now cid id actor s = inr (v, s')).

(** A virtual-account request that is turned down costs nothing.  After a
    request and its rejection by an administrator or its cancellation by the
    customer, every available balance, frozen balance and journal position is
    what it was before the request, the fee operation is closed without a
    posting, and the request is no longer pending. *)
Theorem va_request_turned_down env fault now now2 rid oid cid input actor s v s1 v2 s2 :
  is_Some (s.(customers) !! cid) → va_fees_exact s → s.(vaRequests) !! v.(vv_id) = None →
  requestVirtualAccount env fault now rid oid cid input actor s = inr (v, s1) →
  turned_down now2 v.(vv_id) cid v2 s1 s2 →
  (∀ i, available_of s2 i = available_of s i ∧ frozen_of s2 i = frozen_of s i ∧
        (system_account s i = false → position_of s2 i = position_of s i)) ∧
  (v2.(vv_row).(va_status) = RS_REJECTED ∨ v2.(vv_row).(va_status) = RS_CANCELLED) ∧
  s2.(vaRequests) !! v.(vv_id) = Some v2.(vv_row) ∧
  (v.(vv_row).(va_openingFeeUsdMinor) ≠ 0 → ∃ oid' o, v.(vv_row).(va_feeOperationId) = Some oid' ∧
     s2.(operations) = <[oid' := o]> s.(operations) ∧ (o.(op_status) = REJECTED ∨ o.(op_status) = CANCELLED)).
Proof.
  intros Hc Hx Hn H Hd. destruct (request_ok _ _ _ _ _ _ _ _ _ _ _ _ _ _ _ Hc Hx Hn H) as (Hid&Hq&_). rewrite Hid in *.
  destruct (rq_rows _ _ _ _ _ _ _ _ Hq) as (Hrows&_&Hcs&_).
  destruct (rq_fee _ _ _ _ _ _ _ _ Hq) as (c&ch&m&_&_&_&Hm&Hf&_).
  assert (0 ≤ v.(vv_row).(va_openingFeeUsdMinor) < 10 ^ 12) as Hrange by (rewrite Hf; destruct (_ || _); lia).
  assert (s1.(vaRequests) !! rid = Some v.(vv_row)) as Hrow by (rewrite Hrows; apply lookup_insert_eq).
  assert (∃ st, (st = REJECTED ∨ st = CANCELLED) ∧ (v2.(vv_row).(va_status) = RS_REJECTED ∨ v2.(vv_row).(va_status) = RS_CANCELLED) ∧
    s2.(vaRequests) = <[rid := v2.(vv_row)]> s1.(vaRequests) ∧ fee_closed v.(vv_row) st 1 (-1) 0 s1 s2) as (st&Hst&Hvs&Hrows2&Hcl).
  { destruct Hd as [(e&ck&reason&Hr)|(e&act&Hr)].
    - apply (reject_va_ok _ _ _ _ _ _ _ _ _ Hrow Hrange) in Hr as (?&?&_&?). exists REJECTED. auto.
    - apply (cancel_va_ok _ _ _ _ _ _ _ _ _ _ _ _ _ (eq_ind_r (λ t, is_Some (t !! cid)) Hc Hcs) Hrow Hrange) in Hr as (?&?&_&_&_&?).
      exists CANCELLED. auto. }
  destruct (requested_closed _ _ _ _ _ _ _ _ _ _ _ _ _ Hq Hcl) as (wid&_&_&Hb&Ho). split_and!.
  - intros i. destruct (Hb i) as (A&F&P). rewrite A, F. unfold at_ in *. split_and!; [case_match; lia..|].
    intros Hi. rewrite (P Hi). case_match; lia.
  - done.
  - rewrite Hrows2. apply lookup_insert_eq.
  - intros Hnz. destruct (Ho Hnz) as (oid'&o&?&?&Hs&_). exists oid', o. by rewrite Hs.
Qed.

(** Approving a virtual-account request takes the confirmed fee once and
    opens one empty account.  After the request and its approval the wallet it
    was reserved on has lost exactly the opening fee, no frozen balance is left
    over, the journal explains the change, the fee operation is COMPLETED, and
    the assigned account is a new active virtual account of the customer with
    the request's currency and channel. *)
Theorem va_approval_charges env fault now now2 rid oid cid input actor env2 aid assignment ck s v s1 v2 s2 :
  is_Some (s.(customers) !! cid) → va_fees_exact s → s.(vaRequests) !! v.(vv_id) = None →
  requestVirtualAccount env fault now rid oid cid input actor s = inr (v, s1) →
  approveVirtualAccountRequest env2 now2 aid v.(vv_id) assignment ck s1 = inr (v2, s2) →
  ∃ wid, (0 < v.(vv_row).(va_openingFeeUsdMinor) →
            ∃ w, s.(accounts) !! wid = Some w ∧ is_usd_wallet_of cid (wid, w) = true) ∧
    (∀ i, available_of s2 i = available_of s i + at_ wid (- cents v.(vv_row).(va_openingFeeUsdMinor)) i ∧
          frozen_of s2 i = frozen_of s i ∧
          (system_account s i = false →
             position_of s2 i = position_of s i + at_ wid (- cents v.(vv_row).(va_openingFeeUsdMinor)) i)) ∧
    (v.(vv_row).(va_openingFeeUsdMinor) ≠ 0 → ∃ oid' o, v.(vv_row).(va_feeOperationId) = Some oid' ∧
       s2.(operations) = <[oid' := o]> s.(operations) ∧ o.(op_status) = COMPLETED) ∧
    v2.(vv_row).(va_status) = RS_APPROVED ∧ v2.(vv_row).(va_assignedAccountId) = Some aid ∧
    s1.(accounts) !! aid = None ∧
    ∃ a, s2.(accounts) !! aid = Some a ∧ a.(acc_kind) = VIRTUAL_ACCOUNT ∧ a.(acc_status) = AS_ACTIVE ∧
      a.(acc_customerId) = Some cid ∧ a.(acc_currency) = input.(vin_currency) ∧
      a.(acc_fundingChannelId) = Some input.(vin_channelId).
Proof.
  intros Hc Hx Hn H Hd. destruct (request_ok _ _ _ _ _ _ _ _ _ _ _ _ _ _ _ Hc Hx Hn H) as (Hid&Hq&_). rewrite Hid in *.
  destruct (rq_rows _ _ _ _ _ _ _ _ Hq) as (Hrows&_&Hcs&_).
  destruct (rq_fee _ _ _ _ _ _ _ _ Hq) as (c&ch&m&_&_&_&Hm&Hf&_).
  assert (0 ≤ v.(vv_row).(va_openingFeeUsdMinor) < 10 ^ 12) as Hrange by (rewrite Hf; destruct (_ || _); lia).
  assert (s1.(vaRequests) !! rid = Some v.(vv_row)) as Hrow by (rewrite Hrows; apply lookup_insert_eq).
  apply (approve_va_ok _ _ _ _ _ _ _ _ _ _ Hrow Hrange) in Hd as (Hst&Has&_&_&(a&Ha&Hk&Hac&Hacur&Hast&_&Hach)&Hnone&Hcl).
  destruct (rq_status _ _ _ _ _ _ _ _ Hq) as (_&Hcid&Hchan&_). destruct (rq_terms _ _ _ _ _ _ _ _ Hq) as (Hcur&_).
  destruct (requested_closed _ _ _ _ _ _ _ _ _ _ _ _ _ Hq Hcl) as (wid&Hw&_&Hb&Ho). exists wid. split_and!; try done.
  - intros i. destruct (Hb i) as (A&F&P). rewrite A, F. unfold at_ in *. split_and!; [case_match; lia..|].
    intros Hi. rewrite (P Hi). case_match; lia.
  - intros Hnz. destruct (Ho Hnz) as (oid'&o&?&?&?&_). eauto 10.
  - exists a. split_and!; congruence.
Qed.

(** a waived opening fee is given back and never taken.  Waiving the fee of
    a pending request returns exactly what the request reserved, cancels the fee
    operation and leaves the request pending; from then on its approval, its
    rejection and its cancellation move no balance and post no entry. *)
Theorem va_waiver_is_final env fault fault2 now now2 now3 rid oid cid input actor reason actor2 s v s1 v2 s2 :
  is_Some (s.(customers) !! cid) → va_fees_exact s → s.(vaRequests) !! v.(vv_id) = None →
  requestVirtualAccount env fault now rid oid cid input actor s = inr (v, s1) →
  waiveVaOpeningFee fault2 now2 v.(vv_id) reason actor2 s1 = inr (v2, s2) →
  (∀ i, available_of s2 i = available_of s i ∧ frozen_of s2 i = frozen_of s i) ∧
  v2.(vv_row).(va_status) = RS_SUBMITTED ∧
  (∃ oid' o, s2.(operations) = <[oid' := o]> s.(operations) ∧ o.(op_status) = CANCELLED) ∧
  (∀ v3 s3, turned_down now3 v.(vv_id) cid v3 s2 s3 → beside s2 s3) ∧
  (∀ env3 aid assignment ck v3 s3,
     approveVirtualAccountRequest env3 now3 aid v.(vv_id) assignment ck s2 = inr (v3, s3) → beside s2 s3).
Proof.
  intros Hc Hx Hn H Hd. destruct (request_ok _ _ _ _ _ _ _ _ _ _ _ _ _ _ _ Hc Hx Hn H) as (Hid&Hq&_). rewrite Hid in *.
  destruct (rq_rows _ _ _ _ _ _ _ _ Hq) as (Hrows&_&Hcs&_).
  destruct (rq_fee _ _ _ _ _ _ _ _ Hq) as (c&ch&m&_&_&_&Hm&Hf&_). destruct (rq_status _ _ _ _ _ _ _ _ Hq) as (_&_&_&Hnw&_).
  assert (0 ≤ v.(vv_row).(va_openingFeeUsdMinor) < 10 ^ 12) as Hrange by (rewrite Hf; destruct (_ || _); lia).
  assert (s1.(vaRequests) !! rid = Some v.(vv_row)) as Hrow by (rewrite Hrows; apply lookup_insert_eq).
  apply (waive_ok _ _ _ _ _ _ _ _ _ Hrow Hrange Hnw) in Hd as (_&Hpos&Hwaived&Hst&Hminor&Hrows2&Hcs2&Hcl).
  assert (s2.(vaRequests) !! rid = Some v2.(vv_row)) as Hrow2 by (rewrite Hrows2; apply lookup_insert_eq).
  assert (nothing_reserved v2.(vv_row) = true) as Hnr by (unfold nothing_reserved; by rewrite Hwaived, orb_true_r).
  assert (0 ≤ v2.(vv_row).(va_openingFeeUsdMinor) < 10 ^ 12) as Hrange2 by (by rewrite Hminor).
  assert (∀ st da df dp s3, fee_closed v2.(vv_row) st da df dp s2 s3 → beside s2 s3) as Hfree.
  { intros st da df dp s3 [[_ Hb]|[Hno _]]; [done|congruence]. }
  assert (is_Some (s2.(customers) !! cid)) as Hc2 by (by rewrite Hcs2, Hcs).
  assert (va_openingFeeUsdMinor (vv_row v) ≠ 0) as Hnz by lia.
  destruct (requested_closed _ _ _ _ _ _ _ _ _ _ _ _ _ Hq Hcl) as (wid&_&_&Hb&Ho). split_and!.
  - intros i. destruct (Hb i) as (A&F&_). rewrite A, F. unfold at_. destruct (String.eqb i wid); split; ring.
  - done.
  - destruct (Ho Hnz) as (oid'&o&_&?&Hs&_). by exists oid', o.
  - intros v3 s3 [(e&ck&rs&Hr)|(e&act&Hr)].
    + apply (reject_va_ok _ _ _ _ _ _ _ _ _ Hrow2 Hrange2) in Hr as (_&_&_&?). eauto.
    + apply (cancel_va_ok _ _ _ _ _ _ _ _ _ _ _ _ _ Hc2 Hrow2 Hrange2) in Hr as (_&_&_&_&_&?). eauto.
  - intros e aid asg ck v3 s3 Hr. apply (approve_va_ok _ _ _ _ _ _ _ _ _ _ Hrow2 Hrange2) in Hr as (_&_&_&_&_&_&?). eauto.
Qed.

(** A decided virtual-account request stays decided.  Once a request is no
    longer pending, no administrator can approve, reject or waive it and no
    customer can cancel it: none of the four handlers succeeds, whoever calls
    it and with whatever arguments. *)
Theorem va_decision_final id r s :
  s.(vaRequests) !! id = Some r → r.(va_status) ≠ RS_SUBMITTED → is_Some (s.(customers) !! r.(va_customerId)) →
  (∀ env now aid assignment ck x, approveVirtualAccountRequest env now aid id assignment ck s ≠ inr x) ∧
  (∀ env now ck reason x, rejectVirtualAccountRequest env now id ck reason s ≠ inr x) ∧
  (∀ env now cid actor x, is_Some (s.(customers) !! cid) → cancelVirtualAccountRequest env now cid id actor s ≠ inr x) ∧
  (∀ fault now reason actor x, waiveVaOpeningFee fault now id reason actor s ≠ inr x).
Proof.
  intros Hr Hst Hcust. assert (∀ ck l s', load_pending id ck s ≠ inr (l, s')) as Hno.
  { intros ck l s' Hl. apply load_pending_ok in Hl as (_&Hl&Hs&_). apply load_request_ok in Hl as (_&_&Hrow&_). congruence. }
  split_and!.
  - intros env now aid asg ck [v s'] H. unfold approveVirtualAccountRequest in H. apply bind_ok in H as (l&s1&Hl&_). by eapply Hno.
  - intros env now ck reason [v s'] H. unfold rejectVirtualAccountRequest in H.
    apply bind_ok in H as (_&?&[_ ->]%throw_if_ok&H). apply bind_ok in H as (l&s1&Hl&_). by eapply Hno.
  - intros env now cid actor [v s'] Hc H. unfold VirtualAccounts.cancelVirtualAccountRequest in H.
    apply bind_ok in H as (_&?&[_ ->]%throw_if_ok&H).
    apply bind_ok in H as (c&?&[-> _]%requireVaCustomerAccess_ok&H); [|done].
    apply bind_ok in H as ([l|]&s1&Hl&H); [|by apply bind_ok in H as (?&?&[? _]%require_ok&_)].
    pose proof (load_request_ok _ _ _ _ Hl) as (->&_&Hrow&_).
    apply bind_ok in H as (l'&?&[E ->]%require_ok&H). injection E as <-.
    do 2 (apply bind_ok in H as (_&?&[_ ->]%throw_if_ok&H)).
    apply bind_ok in H as (_&?&[Hs _]%throw_if_ok&_). apply (proj1 (differs_false _ _)) in Hs. congruence.
  - intros fault now reason actor [v s'] H. unfold waiveVaOpeningFee in H.
    do 2 (apply bind_ok in H as (_&?&[_ ->]%throw_if_ok&H)). unfold on_conflict in H.
    apply try_catch_ok in H as [H|(e&_&H)]; [|repeat case_match; by apply throw_ok in H].
    destruct fault; [by apply throw_ok in H|]. simpl in H.
    apply bind_ok in H as (u&?&(->&_)%requireChecker_ok&H).
    apply bind_ok in H as ([l|]&s1&Hl&H); [|by apply bind_ok in H as (?&?&[? _]%require_ok&_)].
    pose proof (load_request_ok _ _ _ _ Hl) as (->&_&Hrow&_).
    apply bind_ok in H as (l'&?&[E ->]%require_ok&H). injection E as <-.
    apply bind_ok in H as (_&?&[_ ->]%throw_if_ok&H).
    apply bind_ok in H as (_&?&[Hs _]%throw_if_ok&_). apply (proj1 (differs_false _ _)) in Hs. congruence.
Qed.

(** the fee policy of a customer is versioned and exclusive.  A change
    succeeds only with the version the administrator saw; it raises the version
    by one, never leaves a customer both internal and exempt, appends exactly
    one event with the values before and after, and touches nothing else; a
    second change with the same version does not succeed, whatever else it asks. *)
Theorem va_policy_versioned env fault n cid kind enabled expected reason actor s a b ver s' :
  updateVaFeePolicy env fault n cid kind enabled expected reason actor s = inr ((a, b, ver), s') →
  ∃ c c', s.(customers) !! cid = Some c ∧ c.(cust_vaFeePolicyVersion) = expected ∧
    s'.(customers) = <[cid := c']> s.(customers) ∧ c'.(cust_isInternal) = a ∧ c'.(cust_vaFeeExempt) = b ∧
    a && b = false ∧ ver = expected + 1 ∧ c'.(cust_vaFeePolicyVersion) = ver ∧ c'.(cust_status) = c.(cust_status) ∧
    (∃ e, s'.(vaEvents) = s.(vaEvents) ++ [e] ∧ e.(vev_version) = ver ∧ e.(vev_customerId) = cid ∧
       (e.(vev_beforeInternal), e.(vev_beforeExempt)) = (c.(cust_isInternal), c.(cust_vaFeeExempt)) ∧
       (e.(vev_afterInternal), e.(vev_afterExempt)) = (a, b)) ∧
    beside s s' ∧
    (∀ env2 fault2 n2 kind2 enabled2 reason2 actor2 x,
       updateVaFeePolicy env2 fault2 n2 cid kind2 enabled2 expected reason2 actor2 s' ≠ inr x).
Proof.
  assert (∀ env fault n kind enabled reason actor s r s',
    updateVaFeePolicy env fault n cid kind enabled expected reason actor s = inr (r, s') →
    ∃ c, s.(customers) !! cid = Some c ∧ c.(cust_vaFeePolicyVersion) = expected) as Hver.
  { clear. intros env fault n kind enabled reason actor s r s' H. unfold updateVaFeePolicy in H.
    do 2 (apply bind_ok in H as (_&?&[_ ->]%throw_if_ok&H)). unfold on_conflict in H.
    apply try_catch_ok in H as [H|(e&_&H)]; [|repeat case_match; by apply throw_ok in H].
    destruct fault; [by apply throw_ok in H|]. simpl in H.
    apply bind_ok in H as (u&?&(->&_)%requireChecker_ok&H). apply bind_ok in H as (row&?&[-> ->]%gets_ok&H).
    apply bind_ok in H as (c&?&[Hc ->]%require_ok&H). apply bind_ok in H as (_&?&[_ ->]%throw_if_ok&H).
    apply bind_ok in H as (_&?&[Hv _]%throw_if_ok&_). apply (proj1 (differs_false _ _)) in Hv. eauto. }
  intros H. pose proof (Hver _ _ _ _ _ _ _ _ _ _ H) as (c&Hc&Hcv). unfold updateVaFeePolicy in H.
  do 2 (apply bind_ok in H as (_&?&[_ ->]%throw_if_ok&H)). unfold on_conflict in H.
  apply try_catch_ok in H as [H|(e&_&H)]; [|repeat case_match; by apply throw_ok in H].
  destruct fault; [by apply throw_ok in H|]. simpl in H.
  apply bind_ok in H as (u&?&(->&_)%requireChecker_ok&H). apply bind_ok in H as (row&?&[-> ->]%gets_ok&H).
  apply bind_ok in H as (c0&?&[Hc0 ->]%require_ok&H). rewrite Hc in Hc0. injection Hc0 as <-.
  do 5 (apply bind_ok in H as (_&?&[_ ->]%throw_if_ok&H)).
  assert (∃ i x, (if same kind POLICY_IDENTITY then (enabled, false) else (false, enabled)) = (i, x) ∧ i && x = false) as (i&x&Hix&Hex).
  { destruct (same _ _); eexists _, _; split; [done| |done|]; by destruct enabled. }
  rewrite Hix in H. apply bind_ok in H as (k&s1&Hup&H). apply bind_ok in H as (_&?&[Hk ->]%throw_if_ok&H).
  apply (proj1 (differs_false _ _)) in Hk as ->.
  apply update_many_id_ok in Hup as [(_&c1&Hc1&_&_&->)|[[=] _]]. rewrite Hc in Hc1. injection Hc1 as <-.
  apply bind_ok in H as (u2&s2&He&[E ->]%ret_ok). injection E as -> -> ->.
  unfold vaFeePolicyEvent_create in He. destruct (existsb _ _); [done|]. injection He as _ <-. simpl.
  eexists c, _. split_and!; try done; [by rewrite Hcv|by eexists|].
  intros env2 fault2 n2 kind2 enabled2 reason2 actor2 [r2 s3] H2.
  apply Hver in H2 as (c2&Hc2&Hv2). simpl in Hc2. rewrite lookup_insert_eq in Hc2. injection Hc2 as <-. simpl in Hv2. lia.
Qed.
End properties.

(** ** The theorems on a sample request: a 5 USD opening fee *)
Definition db_va : Db :=
  set_channels (<["va" := MkFundingChannel "org" "VA1" "Bank" CT_VIRTUAL_ACCOUNT [USD] true (Some "Bank") None
    (Some "BIC") (Some "SG") (Some "1 Road") None (Some 500) 1 None None]> db0.(channels)) db0.
Definition va_actor : VaRequestActor :=
  {| va_actor_userId := "adm"; va_actor_customerId := Some "cus"; va_actor_email := None |}.
Definition va_admin : VaRequestActor :=
  {| va_actor_userId := "adm"; va_actor_customerId := None; va_actor_email := None |}.
Definition va_input : VaRequestInput :=
  {| vin_currency := USD; vin_channelId := "va"; vin_purpose := "salary"; vin_expectedOpeningFeeUsd := Some "5";
     vin_expectedOpeningFeeVersion := Some "1"; vin_expectedFeePolicyVersion := Some 1; vin_idempotencyKey := Some "k" |}.
Definition va_hash (_ : list Z) : list Z := repeat 0 32.
Definition va_uuid (s : string) : string := s.
Definition va_request_run : M Db VaRequestView :=
  requestVirtualAccount va_hash va_uuid [] [] env0 None now0 "req" "feeop" "cus" va_input va_actor.
Definition db_requested : Db := after va_request_run db_va.
Definition va_assignment : VaAssignment :=
  {| as_accountName := "Customer"; as_accountNumber := "123"; as_iban := None |}.
Definition va_approve_run : M Db VaRequestView :=
  approveVirtualAccountRequest env0 now0 "vacc" "req" va_assignment "adm".
Definition va_reject_run : M Db VaRequestView := rejectVirtualAccountRequest env0 now0 "req" "adm" "incomplete".
Definition va_waive_run : M Db VaRequestView := waiveVaOpeningFee None now0 "req" "goodwill" va_admin.
Definition va_policy_run : M Db (bool * bool * Z) :=
  updateVaFeePolicy env0 None 0 "cus" POLICY_EXEMPTION true 1 "partner" va_admin.

Lemma va_request_run_ok : ∃ v, v.(vv_id) = "req" ∧ v.(vv_row).(va_openingFeeUsdMinor) = 500 ∧
  va_request_run db_va = inr (v, db_requested).
Proof.
  assert (returns va_request_run (λ v, (v.(vv_id), v.(vv_row).(va_openingFeeUsdMinor))) db_va = Some ("req", 500)) as R by runs.
  apply run_returns in R as (v&Hid&H). injection Hid as H1 H2. exists v. exact (conj H1 (conj H2 H)).
Qed.
Lemma db_va_customer : is_Some (db_va.(customers) !! "cus").
Proof. by exists customer0. Qed.
Lemma db_va_fees : va_fees_exact db_va.
Proof.
  intros id c m Hc Hm.
  apply (all_rows (λ c, match c.(chan_openingFeeUsdMinor) with Some m => (0 <=? m) && (m <? 10 ^ 12) | None => true end)) in Hc; [|runs].
  cbv beta in Hc. rewrite Hm in Hc. apply andb_true_iff in Hc as [H1%Z.leb_le H2%Z.ltb_lt]. exact (conj H1 H2).
Qed.

Lemma va_request_reserves_witness :
  frozen_of db_requested "usd" = 500000000 ∧
  ∃ v, requested env0 "cus" "req" va_input va_actor v.(vv_row) db_va db_requested ∧ conserves db_va db_requested ∧
    requestVirtualAccount va_hash va_uuid [] [] env0 (Some (PrismaKnown "P2034" [])) now0 "req2" "op2" "cus" va_input va_actor db_requested
      = inr (v, db_requested).
Proof.
  split; [runs|]. destruct va_request_run_ok as (v&Hid&_&H). exists v. unfold va_request_run in H.
  assert (db_va.(vaRequests) !! v.(vv_id) = None) as Hn by (rewrite Hid; reflexivity).
  destruct (va_request_reserves va_hash va_uuid [] [] env0 None now0 "req" "feeop" "cus" va_input va_actor db_va v db_requested
    db_va_customer db_va_fees eq_refl Hn H) as (_&Hq&Hcon&_&Hre).
  exact (conj Hq (conj Hcon (Hre ltac:(discriminate) env0 _ now0 "req2" "op2" (or_intror eq_refl)))).
Defined.

Lemma va_request_turned_down_witness :
  available_of db_requested "usd" = 9500000000 ∧
  ∀ i, available_of (after va_reject_run db_requested) i = available_of db_va i ∧
       frozen_of (after va_reject_run db_requested) i = frozen_of db_va i ∧
       (system_account db_va i = false → position_of (after va_reject_run db_requested) i = position_of db_va i).
Proof.
  split; [runs|]. destruct va_request_run_ok as (v&Hid&_&H). unfold va_request_run in H.
  assert (db_va.(vaRequests) !! v.(vv_id) = None) as Hn by (rewrite Hid; reflexivity).
  assert (succeeds va_reject_run db_requested = true) as R by runs. apply run_succeeds in R as [r Hr].
  assert (turned_down va_hash va_uuid [] [] now0 v.(vv_id) "cus" r db_requested (after va_reject_run db_requested)) as Hd.
  { left. exists env0, "adm", "incomplete". rewrite Hid. exact Hr. }
  exact (proj1 (va_request_turned_down va_hash va_uuid [] [] env0 None now0 now0 "req" "feeop" "cus" va_input va_actor db_va v
    db_requested r (after va_reject_run db_requested) db_va_customer db_va_fees Hn H Hd)).
Defined.

Lemma va_approval_charges_witness :
  available_of (after va_approve_run db_requested) "usd" = 9500000000 ∧
  ∃ wid, ∀ i, frozen_of (after va_approve_run db_requested) i = frozen_of db_va i ∧
    available_of (after va_approve_run db_requested) i = available_of db_va i + at_ wid (- cents 500) i.
Proof.
  split; [runs|]. destruct va_request_run_ok as (v&Hid&Hfee&H). unfold va_request_run in H.
  assert (db_va.(vaRequests) !! v.(vv_id) = None) as Hn by (rewrite Hid; reflexivity).
  assert (succeeds va_approve_run db_requested = true) as R by runs. apply run_succeeds in R as [r Hr].
  unfold va_approve_run in Hr at 1. rewrite <- Hid in Hr.
  destruct (va_approval_charges va_hash va_uuid [] [] env0 None now0 now0 "req" "feeop" "cus" va_input va_actor env0 "vacc"
    va_assignment "adm" db_va v db_requested r (after va_approve_run db_requested) db_va_customer db_va_fees Hn H Hr)
    as (wid&_&Hb&_). rewrite Hfee in Hb. exists wid. intros i. destruct (Hb i) as (A&F&_). exact (conj F A).
Defined.

Lemma va_waiver_is_final_witness :
  frozen_of (after va_waive_run db_requested) "usd" = 0 ∧
  (∀ i, available_of (after va_waive_run db_requested) i = available_of db_va i ∧
        frozen_of (after va_waive_run db_requested) i = frozen_of db_va i) ∧
  ∀ v3 s3, approveVirtualAccountRequest env0 now0 "vacc" "req" va_assignment "adm" (after va_waive_run db_requested) = inr (v3, s3) →
    beside (after va_waive_run db_requested) s3.
Proof.
  split; [runs|]. destruct va_request_run_ok as (v&Hid&_&H). unfold va_request_run in H.
  assert (db_va.(vaRequests) !! v.(vv_id) = None) as Hn by (rewrite Hid; reflexivity).
  assert (succeeds va_waive_run db_requested = true) as R by runs. apply run_succeeds in R as [r Hr].
  unfold va_waive_run in Hr at 1. rewrite <- Hid in Hr.
  destruct (va_waiver_is_final va_hash va_uuid [] [] env0 None None now0 now0 now0 "req" "feeop" "cus" va_input va_actor "goodwill"
    va_admin db_va v db_requested r (after va_waive_run db_requested) db_va_customer db_va_fees Hn H Hr) as (Hb&_&_&_&Happ).
  split; [exact Hb|]. intros v3 s3. rewrite <- Hid. exact (Happ env0 "vacc" va_assignment "adm" v3 s3).
Defined.

Lemma va_decision_final_witness :
  ∃ r, (after va_reject_run db_requested).(vaRequests) !! "req" = Some r ∧ r.(va_status) = RS_REJECTED ∧
  ∀ env now aid assignment ck x,
    approveVirtualAccountRequest env now aid "req" assignment ck (after va_reject_run db_requested) ≠ inr x.
Proof.
  assert (∃ r, (after va_reject_run db_requested).(vaRequests) !! "req" = Some r) as [r Hr].
  { assert (is_some ((after va_reject_run db_requested).(vaRequests) !! "req") = true) as R by runs.
    apply is_some_true in R. exact R. }
  assert (from_option (λ r, same r.(va_status) RS_REJECTED && String.eqb r.(va_customerId) "cus") false
    ((after va_reject_run db_requested).(vaRequests) !! "req") = true) as R by runs.
  rewrite Hr in R. simpl in R. apply andb_true_iff in R as [R1 R2%String.eqb_eq].
  apply (proj1 (same_true _ _)) in R1.
  assert (is_Some ((after va_reject_run db_requested).(customers) !! r.(va_customerId))) as Hc.
  { rewrite R2. assert (is_some ((after va_reject_run db_requested).(customers) !! "cus") = true) as R by runs.
    apply is_some_true in R. exact R. }
  exists r. split; [exact Hr|]. split; [exact R1|].
  exact (proj1 (va_decision_final va_hash va_uuid [] [] "req" r (after va_reject_run db_requested) Hr ltac:(congruence) Hc)).
Defined.

Lemma va_policy_versioned_witness :
  succeeds va_policy_run db_va = true ∧
  ∀ x, updateVaFeePolicy env0 None 0 "cus" POLICY_EXEMPTION false 1 "again" va_admin (after va_policy_run db_va) ≠ inr x.
Proof.
  split; [runs|]. assert (succeeds va_policy_run db_va = true) as R by runs. apply run_succeeds in R as [[[a b] ver] H].
  unfold va_policy_run in H at 1.
  destruct (va_policy_versioned env0 None 0 "cus" POLICY_EXEMPTION true 1 "partner" va_admin db_va a b ver _ H)
    as (c&c'&_&_&_&_&_&_&_&_&_&_&_&Hno).
  exact (Hno env0 None 0%nat POLICY_EXEMPTION false "again" va_admin).
Defined.
