(* ===== verification/CustomerProperties.v ===== *)
(** Correctness of the customer review and of the import from the custody side:
    the review follows one state machine and opens the customer's accounts, and
    the import pairs every verified wallet with one mirror account. *)
From S2P Require Import Prelude Decimals Schema Access Ledger WithdrawalFees Operations OperationEffects OperationCreation Samples TronAddress Customers VirtualAccounts VirtualAccountProperties.

(** ** The review state machine *)

(** A call of one of the review handlers. *)
Inductive ReviewCall :=
  | CallKyc (decision : KycDecision) (note : option string)
  | CallApprove (note : option string)
  | CallReject (reason : string).
Definition review (env : ProcessEnv) (now : Z) (newId : string → string) (id reviewerId : string)
    (call : ReviewCall) : M Db Customer :=
  match call with
  | CallKyc decision note => reviewKyc env now id reviewerId decision note
  | CallApprove note => approve_customer env now newId id reviewerId note
  | CallReject reason => reject_customer now id reviewerId reason
  end.

(** What the review is about: the status of the customer and of its KYC. *)
Definition review_state (c : Customer) : CustomerStatus * KycStatus := (c.(cust_status), c.(cust_kycStatus)).

(** The machine: the call made is the label of the step. *)
Inductive review_step : ReviewCall → CustomerStatus * KycStatus → CustomerStatus * KycStatus → Prop :=
  | kyc_accepted note :
      review_step (CallKyc KYC_APPROVE note) (CS_PENDING_REVIEW, KYC_PENDING) (CS_PENDING_REVIEW, KYC_APPROVED)
  | kyc_refused reason : truthy (trim reason) = true →
      review_step (CallKyc KYC_REJECT (Some reason)) (CS_PENDING_REVIEW, KYC_PENDING) (CS_REJECTED, KYC_REJECTED)
  | activated note :
      review_step (CallApprove note) (CS_PENDING_REVIEW, KYC_APPROVED) (CS_ACTIVE, KYC_APPROVED)
  | refused reason :
      review_step (CallReject reason) (CS_PENDING_REVIEW, KYC_APPROVED) (CS_REJECTED, KYC_APPROVED).

(** The columns that say who decided, when and why: of the review itself and of the KYC. *)
Definition review_mark (c : Customer) : option string * option Z * option string :=
  (c.(cust_reviewerId), c.(cust_reviewedAt), c.(cust_reviewNote)).
Definition kyc_mark (c : Customer) : option string * option Z * option string :=
  (c.(cust_kycReviewerId), c.(cust_kycReviewedAt), c.(cust_kycReviewNote)).

(** A decision is signed: its own columns name the reviewer and the time and keep
    the note, and those of the other decision are as they were.  A refused KYC
    ends the review as well and signs both. *)
Definition signed (now : Z) (reviewerId : string) (call : ReviewCall) (c c' : Customer) : Prop :=
  match call with
  | CallKyc KYC_APPROVE note =>
      kyc_mark c' = (Some reviewerId, Some now, trimmed note) ∧ review_mark c' = review_mark c
  | CallKyc KYC_REJECT note =>
      kyc_mark c' = (Some reviewerId, Some now, trimmed note) ∧
      review_mark c' = (Some reviewerId, Some now, trim <$> note)
  | CallApprove note =>
      kyc_mark c' = kyc_mark c ∧
      review_mark c' = (Some reviewerId, Some now, if note then note else c.(cust_reviewNote))
  | CallReject reason =>
      kyc_mark c' = kyc_mark c ∧ review_mark c' = (Some reviewerId, Some now, Some reason)
  end.

(** Everything else of the customer is as it was. *)
Definition same_person (c c' : Customer) : Prop :=
  c'.(cust_organizationId) = c.(cust_organizationId) ∧ c'.(cust_creatorId) = c.(cust_creatorId) ∧
  c'.(cust_displayName) = c.(cust_displayName) ∧ c'.(cust_email) = c.(cust_email) ∧
  c'.(cust_isInternal) = c.(cust_isInternal) ∧ c'.(cust_vaFeeExempt) = c.(cust_vaFeeExempt) ∧
  c'.(cust_vaFeePolicyVersion) = c.(cust_vaFeePolicyVersion).

Lemma trimmed_given reason : is_none (trimmed (Some reason)) = false → truthy (trim reason) = true.
Proof. unfold trimmed. simpl. by destruct (truthy _). Qed.

Lemma load_review_ok id rid checks s c u s' :
  (∀ c s s' x, checks c s = inr (x, s') → s' = s) →
  load_review id rid checks s = inr ((c, u), s') →
  s' = s ∧ s.(customers) !! id = Some c ∧ s.(users) !! rid = Some u ∧ u.(user_active) = true ∧
  u.(user_role) = ADMIN ∧ u.(user_organizationId) = Some c.(cust_organizationId) ∧ checks c s = inr (tt, s).
Proof.
  intros Hpure H. unfold load_review in H. apply bind_ok in H as (row&?&[-> ->]%gets_ok&H).
  apply bind_ok in H as (c0&?&[Hc ->]%require_ok&H).
  apply bind_ok in H as (u0&?&(->&Hu&Ha&Hr)%requireChecker_ok&H).
  apply bind_ok in H as (_&?&[Ho ->]%throw_if_ok&H). apply (proj1 (differs_false _ _)) in Ho.
  apply bind_ok in H as ([]&s1&Hk&H). pose proof (Hpure _ _ _ _ Hk) as ->.
  apply bind_ok in H as (_&?&[_ ->]%throw_if_ok&[E ->]%ret_ok). injection E as -> ->. done.
Qed.

(** *** Accounts opened by number *)
Lemma account_upsert_ok nid number row s ka s' :
  account_upsert nid number row s = inr (ka, s') →
  row.(acc_accountNumber) = Some number → row.(acc_availableBalance) = 0 → row.(acc_frozenBalance) = 0 →
  system_kind row.(acc_kind) = false →
  beside s s' ∧ s'.(customers) = s.(customers) ∧ s'.(users) = s.(users) ∧
  (∀ k a, s.(accounts) !! k = Some a → s'.(accounts) !! k = Some a) ∧
  s'.(accounts) !! ka.1 = Some ka.2 ∧ ka.2.(acc_accountNumber) = Some number.
Proof.
  intros H Hn Ha Hf Hk. unfold account_upsert in H. apply bind_ok in H as (ex&?&[-> ->]%gets_ok&H).
  destruct (find_first _ _) as [ka0|] eqn:E.
  - apply ret_ok in H as [-> ->]. destruct ka0 as [k a]. apply find_first_Some in E as [Hk' Hp]. simpl in *.
    apply (proj1 (opt_eqb_true _ _)) in Hp.
    split_and!; done.
  - apply bind_ok in H as ([]&s1&(Hnew&_&->&_)%create_row_ok&[-> ->]%ret_ok). simpl.
    split_and!; [by apply beside_new_account|done|done| |by rewrite lookup_insert_eq|done].
    intros k a Hl. rewrite lookup_insert_ne by congruence. done.
Qed.

Lemma ensure_fiat_wallets_ok newId cid s u s' :
  ensure_fiat_wallets newId cid s = inr (u, s') →
  beside s s' ∧ s'.(customers) = s.(customers) ∧ s'.(users) = s.(users) ∧
  (∀ k a, s.(accounts) !! k = Some a → s'.(accounts) !! k = Some a) ∧
  ∀ c, c ∈ supportedFiatCurrencies →
    ∃ k a, s'.(accounts) !! k = Some a ∧ a.(acc_accountNumber) = Some (wallet_number cid c).
Proof.
  unfold ensure_fiat_wallets. intros H. apply bind_ok in H as (l&s1&H&[_ ->]%ret_ok).
  revert s l s1 H. induction supportedFiatCurrencies as [|c cs IH]; simpl; intros s l s1 H.
  - apply ret_ok in H as [_ ->]. split_and!; try done. set_solver.
  - apply bind_ok in H as ([k a]&s2&Hup&H). apply bind_ok in H as (l2&s3&Hrest&[_ ->]%ret_ok).
    apply account_upsert_ok in Hup as (B1&C1&U1&K1&Hka&Hnum); [|done..].
    destruct (IH _ _ _ Hrest) as (B2&C2&U2&K2&Hall).
    split_and!; [by etrans|congruence|congruence|auto|].
    intros c' [->|Hin]%elem_of_cons; [|by apply Hall]. exists k, a. auto.
Qed.

(** C10: the review of a customer follows one state machine, whose steps are
    labelled by the call.  A successful call, by an active administrator of the
    customer's own organisation, is the step of that very call: approving the KYC
    of a customer under review approves it, refusing it, which takes a reason,
    rejects both, and once the KYC is approved the customer is activated or
    rejected.  The row stored and answered carries the reviewer, the time and the
    note of that decision, keeps those of the other one, and differs in nothing
    else.  No balance moves; an activated customer has its fiat accounts and its
    USDT account; and in a state without a step (active, rejected or suspended
    customers) no handler succeeds. *)
Theorem review_follows_machine env now newId id reviewerId call s c' s' :
  review env now newId id reviewerId call s = inr (c', s') →
  (∃ c u, s.(customers) !! id = Some c ∧ review_step call (review_state c) (review_state c') ∧
     signed now reviewerId call c c' ∧ same_person c c' ∧
     s'.(customers) = <[id := c']> s.(customers) ∧
     s.(users) !! reviewerId = Some u ∧ u.(user_active) = true ∧ u.(user_role) = ADMIN ∧
     u.(user_organizationId) = Some c.(cust_organizationId)) ∧ beside s s' ∧
  (c'.(cust_status) = CS_ACTIVE →
     (∀ cur, cur ∈ supportedFiatCurrencies →
        ∃ k a, s'.(accounts) !! k = Some a ∧ a.(acc_accountNumber) = Some (wallet_number id cur)) ∧
     ∃ k a, s'.(accounts) !! k = Some a ∧ a.(acc_accountNumber) = Some (crypto_number id)).
Proof.
  intros H. destruct call as [decision note|note|reason]; simpl in H.
  - unfold reviewKyc in H. apply bind_ok in H as ([c u]&?&Hl&H).
    apply load_review_ok in Hl as (->&Hc&Hu&Ha&Hr&Ho&Hk); [|intros c0 s0 s0' x0 Hx; by apply throw_if_ok in Hx as [_ ->]].
    apply throw_if_ok in Hk as [Hk _]. apply negb_false_iff in Hk. unfold pending_kyc in Hk.
    apply andb_true_iff in Hk as [Hk1 Hk2]. apply (proj1 (same_true _ _)) in Hk1, Hk2.
    apply bind_ok in H as (_&?&[Hnote ->]%throw_if_ok&H). apply bind_ok in H as (n&s1&Hup&H).
    apply bind_ok in H as (_&?&[Hn ->]%throw_if_ok&H). apply (proj1 (differs_false _ _)) in Hn as ->.
    apply update_many_id_ok in Hup as [(_&c1&Hc1&_&_&->)|[[=] _]]. rewrite Hc in Hc1. injection Hc1 as <-.
    apply bind_ok in H as (row&?&[-> ->]%gets_ok&H). apply bind_ok in H as (c2&?&[Hc2 ->]%require_ok&H).
    simpl in Hc2. rewrite lookup_insert_eq in Hc2. injection Hc2 as <-.
    apply bind_ok in H as (u2&s2&(Hb&_&Hcs&_)%enqueueCustomerEmail_beside&[-> ->]%ret_ok).
    split; [|split].
    + exists c, u. rewrite Hcs. split; [done|]. split; [|by destruct decision].
      unfold review_state, kyc_data. destruct decision; simpl; rewrite Hk1, Hk2; [constructor|].
      destruct note as [reason|]; [|discriminate Hnote]. constructor. by apply trimmed_given.
    + exact Hb.
    + unfold kyc_data. destruct decision; simpl; [rewrite Hk1|]; discriminate.
  - unfold approve_customer in H. apply bind_ok in H as ([c u]&?&Hl&H).
    apply load_review_ok in Hl as (->&Hc&Hu&Ha&Hr&Ho&Hk).
    2: { intros c0 s0 s0' x0 Hx. by apply bind_ok in Hx as (_&?&[_ ->]%throw_if_ok&[_ ->]%throw_if_ok). }
    apply bind_ok in Hk as (_&?&[Hk1 ->]%throw_if_ok&[Hk2 _]%throw_if_ok).
    apply (proj1 (differs_false _ _)) in Hk1, Hk2.
    apply bind_ok in H as (w&s1&(B1&C1&U1&K1&Hall)%ensure_fiat_wallets_ok&H).
    apply bind_ok in H as (ka&s2&Hup&H). apply account_upsert_ok in Hup as (B2&C2&U2&K2&Hka&Hnum); [|done..].
    apply bind_ok in H as (c2&s3&(c1&Hc1&->&_&->)%update_row_ok&H).
    apply bind_ok in H as (u2&s4&(Hb&_&Hcs&Hacc)%enqueueCustomerEmail_beside&[-> ->]%ret_ok).
    assert (c1 = c) as -> by congruence. simpl in Hacc. split; [|split].
    + exists c, u. rewrite Hcs. simpl. rewrite C2, C1. split; [done|]. split; [|by destruct note].
      unfold review_state, if_given. destruct note; simpl; rewrite Hk1, Hk2; constructor.
    + etrans; [exact B1|]. etrans; [exact B2|]. exact Hb.
    + intros _. rewrite Hacc. split.
      * intros cur Hin. destruct (Hall _ Hin) as (k&a&Hka'&Hnum'). exists k, a. auto.
      * exists ka.1, ka.2. auto.
  - unfold reject_customer in H. apply bind_ok in H as ([c u]&?&Hl&H).
    apply load_review_ok in Hl as (->&Hc&Hu&Ha&Hr&Ho&Hk); [|intros c0 s0 s0' x0 Hx; by apply throw_if_ok in Hx as [_ ->]].
    apply throw_if_ok in Hk as [Hk _]. apply negb_false_iff in Hk. unfold pending_operations in Hk.
    apply andb_true_iff in Hk as [Hk1 Hk2]. apply (proj1 (same_true _ _)) in Hk1, Hk2.
    apply bind_ok in H as (n&s1&Hup&H).
    apply bind_ok in H as (_&?&[Hn ->]%throw_if_ok&H). apply (proj1 (differs_false _ _)) in Hn as ->.
    apply update_many_id_ok in Hup as [(_&c1&Hc1&_&_&->)|[[=] _]]. rewrite Hc in Hc1. injection Hc1 as <-.
    apply bind_ok in H as (row&?&[-> ->]%gets_ok&[Hc2 ->]%require_ok).
    simpl in Hc2. rewrite lookup_insert_eq in Hc2. injection Hc2 as <-. split; [|split].
    + exists c, u. split; [done|]. split; [|done].
      unfold review_state. simpl. rewrite Hk1, Hk2. constructor.
    + done.
    + discriminate.
Qed.

(** ** The wallet and its mirror account *)

(** [@@unique([customerId, asset, network])] of [CryptoWallet]. *)
Definition wallets_unique (s : Db) : Prop :=
  ∀ i j v w, s.(wallets) !! i = Some v → s.(wallets) !! j = Some w → v.(wal_customerId) = w.(wal_customerId) →
    v.(wal_asset) = w.(wal_asset) → v.(wal_network) = w.(wal_network) → i = j.

Lemma is_usdt_wallet_true c i w :
  is_usdt_wallet_of c (i, w) = true ↔ w.(wal_customerId) = c ∧ w.(wal_asset) = USDT ∧ w.(wal_network) = TRON.
Proof. unfold is_usdt_wallet_of. simpl. rewrite !andb_true_iff, !same_true, String.eqb_eq. tauto. Qed.

(** A search whose matches are all one row. *)
Lemma find_many_one {V} (p : string * V → bool) (m : gmap string V) k v :
  m !! k = Some v → p (k, v) = true → (∀ j w, m !! j = Some w → p (j, w) = true → j = k) →
  find_many p m = [(k, v)].
Proof.
  intros Hk Hp Hu. unfold find_many. pose proof (NoDup_fst_map_to_list m) as Hnd.
  assert (∀ l : list (string * V), NoDup l.*1 → (∀ j w, (j, w) ∈ l → p (j, w) = true → (j, w) = (k, v)) → (k, v) ∈ l →
    List.filter p l = [(k, v)]) as Hl.
  { clear - Hp. induction l as [|[j w] l IH]; simpl; intros Hnd Hone Hin; [by apply not_elem_of_nil in Hin|].
    apply NoDup_cons in Hnd as [Hj Hnd]. destruct (p (j, w)) eqn:E.
    - assert ((j, w) = (k, v)) as [= -> ->] by (apply Hone; [by left|done]). f_equal.
      destruct (List.filter p l) as [|[j' w'] l'] eqn:F; [done|]. exfalso. apply Hj.
      assert (In (j', w') (List.filter p l)) as [Hi Hpj]%List.filter_In by (rewrite F; by left).
      apply list_elem_of_In in Hi. assert ((j', w') = (k, v)) as [= -> ->] by (apply Hone; [by right|done]).
      apply list_elem_of_In, (in_map fst _ (k, v)). by apply list_elem_of_In.
    - apply elem_of_cons in Hin as [[= <- <-]|Hin]; [congruence|]. apply IH; [done| |done].
      intros; apply Hone; [by right|done]. }
  apply Hl; [done| |by apply elem_of_map_to_list].
  intros j w Hj%elem_of_map_to_list Hpj. assert (j = k) as -> by (by eapply Hu). congruence.
Qed.

Lemma find_first_one {V} (p : string * V → bool) (m : gmap string V) k v :
  m !! k = Some v → p (k, v) = true → (∀ j w, m !! j = Some w → p (j, w) = true → j = k) →
  find_first p m = Some (k, v).
Proof.
  intros Hk Hp Hu. destruct (find_first p m) as [[j w]|] eqn:E.
  - apply find_first_Some in E as [Hj Hpj]. assert (j = k) as -> by (by eapply Hu). congruence.
  - pose proof (find_first_None _ _ _ _ E Hk). congruence.
Qed.

(** The pair the import maintains: one USDT account and one USDT wallet of the
    customer, both active, bound to the same address, with the same balances. *)
Record mirror_pair (c address aid wid : string) (a : Account) (w : CryptoWallet) (s : Db) : Prop := {
  mp_account : s.(accounts) !! aid = Some a ∧ is_usdt_account_of c (aid, a) = true ∧ a.(acc_status) = AS_ACTIVE ∧
               a.(acc_walletAddress) = Some address;
  mp_only_account : ∀ j b, s.(accounts) !! j = Some b → is_usdt_account_of c (j, b) = true → j = aid;
  mp_wallet : s.(wallets) !! wid = Some w ∧ is_usdt_wallet_of c (wid, w) = true ∧ w.(wal_status) = AS_ACTIVE ∧
              w.(wal_walletAddress) = address;
  mp_only_wallet : ∀ j b, s.(wallets) !! j = Some b → is_usdt_wallet_of c (j, b) = true → j = wid;
  mp_balances : a.(acc_availableBalance) = w.(wal_availableBalance) ∧ a.(acc_frozenBalance) = w.(wal_frozenBalance);
}.

Lemma account_binding_ok c address i a :
  account_binding_conflict c address a = false →
  is_usdt_account_of c (i, a) = true ∧ a.(acc_status) = AS_ACTIVE ∧
  (opt_truthy a.(acc_walletAddress) = true → a.(acc_walletAddress) = Some address).
Proof.
  unfold account_binding_conflict, is_usdt_account_of. intros H. rewrite !orb_false_iff, !differs_false in H.
  destruct H as (((((H1&H2)&H3)&H4)&H5)&H6). simpl. rewrite H1, H2, H4, H5.
  split; [|split; [done|]].
  - unfold opt_eqb, same. by rewrite !bool_decide_true.
  - intros Ht. rewrite Ht in H6. by apply (proj1 (differs_false _ _)) in H6.
Qed.

Lemma wallet_binding_ok c address i w :
  wallet_binding_conflict c address w = false →
  is_usdt_wallet_of c (i, w) = true ∧ w.(wal_status) = AS_ACTIVE ∧
  (truthy w.(wal_walletAddress) = true → w.(wal_walletAddress) = address).
Proof.
  unfold wallet_binding_conflict. intros H. rewrite !orb_false_iff, !differs_false, negb_false_iff, String.eqb_eq in H.
  destruct H as ((((H1&H2)&H3)&H4)&H5). split; [by apply is_usdt_wallet_true|]. split; [done|].
  intros Ht. rewrite Ht in H5. apply negb_false_iff in H5. by apply String.eqb_eq in H5.
Qed.

Section mirror.
Context (sha256 : list Z → list Z).

Lemma valid_address_truthy address : isValidTronAddress sha256 address = true → truthy address = true.
Proof. by destruct address. Qed.

(** The USDT account: the one there is, or a new one. *)
Lemma mirror_account_found nid c row matching s ka s' :
  matching = find_many (is_usdt_account_of c) s.(accounts) → (length matching ≤ 1)%nat →
  row.(acc_accountNumber) = Some (crypto_number c) →
  match matching with ka :: _ => ret ka | [] => account_upsert nid (crypto_number c) row end s = inr (ka, s') →
  is_usdt_account_of c ka = true →
  (∃ A, s' = set_accounts A s) ∧ s'.(accounts) !! ka.1 = Some ka.2 ∧
  (∀ j b, s'.(accounts) !! j = Some b → is_usdt_account_of c (j, b) = true → j = ka.1).
Proof.
  intros Hm Hlen Hnum H Hka.
  assert (∀ j b, s.(accounts) !! j = Some b → is_usdt_account_of c (j, b) = true → (j, b) ∈ matching) as Hin.
  { intros j b Hj Hp. subst. by apply find_many_elem. }
  destruct matching as [|ka0 [|? ?]]; [| |simpl in Hlen; lia].
  - unfold account_upsert in H. apply bind_ok in H as (ex&?&[-> ->]%gets_ok&H). destruct (find_first _ _) as [[k a]|] eqn:E.
    + apply ret_ok in H as [-> ->]. apply find_first_Some in E as [Hk _]. exfalso. by eapply not_elem_of_nil, Hin.
    + apply bind_ok in H as ([]&s1&(_&_&->&_)%create_row_ok&[-> ->]%ret_ok). simpl. split_and!.
      * by eexists.
      * apply lookup_insert_eq.
      * intros j b Hj Hp. destruct (decide (j = nid)) as [|Hne]; [done|]. rewrite lookup_insert_ne in Hj by done.
        exfalso. by eapply not_elem_of_nil, Hin.
  - apply ret_ok in H as [-> ->]. destruct ka0 as [k a].
    assert ((k, a) ∈ find_many (is_usdt_account_of c) s.(accounts)) as [Hk _]%find_many_elem by (rewrite <- Hm; by left).
    split_and!; [exists s.(accounts); by destruct s|done|].
    intros j b Hj Hp. pose proof (Hin j b Hj Hp) as Hj'. apply list_elem_of_singleton in Hj'. by simplify_eq.
Qed.

(** An account whose address is filled in when it has none. *)
Lemma fill_address c address i a s u s' :
  truthy address = true → s.(accounts) !! i = Some a → is_usdt_account_of c (i, a) = true →
  (opt_truthy a.(acc_walletAddress) = true → a.(acc_walletAddress) = Some address) →
  (if opt_truthy a.(acc_walletAddress) then ret tt
   else let! _ := account_update i (set_acc_walletAddress (Some address)) in ret tt) s = inr (u, s') →
  ∃ a', s'.(accounts) = <[i := a']> s.(accounts) ∧ s'.(wallets) = s.(wallets) ∧ is_usdt_account_of c (i, a') = true ∧
    a'.(acc_walletAddress) = Some address ∧ a'.(acc_status) = a.(acc_status) ∧
    a'.(acc_availableBalance) = a.(acc_availableBalance) ∧ a'.(acc_frozenBalance) = a.(acc_frozenBalance).
Proof.
  intros Ht Hi Hp Ha H. destruct (opt_truthy _).
  - apply ret_ok in H as [_ ->]. exists a. rewrite insert_id by done. split_and!; try done. by apply Ha.
  - apply bind_ok in H as (a1&s1&(a0&Ha0&->&_&->)%update_row_ok&[_ ->]%ret_ok). rewrite Hi in Ha0. injection Ha0 as <-.
    eexists. split_and!; done.
Qed.

Lemma ensure_mirror_ok nid wid0 c address s aid wid s' :
  wallets_unique s → ensureCustomerCryptoWalletMirror sha256 nid wid0 c address s = inr ((aid, wid), s') →
  isValidTronAddress sha256 address = true ∧ ∃ a w, mirror_pair c address aid wid a w s'.
Proof.
  intros Hwu H. unfold ensureCustomerCryptoWalletMirror in H.
  apply bind_ok in H as (_&?&[Hv ->]%throw_if_ok&H). apply negb_false_iff in Hv. split; [done|].
  pose proof (valid_address_truthy _ Hv) as Ht.
  apply bind_ok in H as (matching&?&[Hma ->]%gets_ok&H). apply bind_ok in H as (existing&?&[Hex ->]%gets_ok&H).
  apply bind_ok in H as (_&?&[Hlen ->]%throw_if_ok&H). apply Nat.ltb_ge in Hlen.
  apply bind_ok in H as (_&?&[_ ->]%throw_if_ok&H).
  apply bind_ok in H as ([k a]&s1&Hacc&H). simpl fst in *. simpl snd in *.
  apply bind_ok in H as (_&?&[Hab ->]%throw_if_ok&H). apply (account_binding_ok _ _ k) in Hab as (Hka&Hast&Haddr).
  apply (mirror_account_found _ _ _ _ _ _ _ Hma Hlen) in Hacc as ((A&->)&Hk&Honly); [|done..]. simpl in Hk, Honly.
  apply bind_ok in H as (u&s2&Hfill&H).
  apply (fill_address c _ _ _ (set_accounts A s) _ _ Ht Hk Hka Haddr) in Hfill as (a'&HA&HW&Hka'&Haa&Has&Hav&Haf). simpl in HA, HW.
  assert (∀ j b, s2.(accounts) !! j = Some b → is_usdt_account_of c (j, b) = true → j = k) as Honly2.
  { intros j b. rewrite HA. destruct (decide (j = k)) as [|Hne]; [done|]. rewrite lookup_insert_ne by done. apply Honly. }
  apply bind_ok in H as ([k2 w]&s3&Hwal&H). simpl fst in *. simpl snd in *.
  apply bind_ok in H as (_&?&[Hwb ->]%throw_if_ok&H). apply (wallet_binding_ok _ _ k2) in Hwb as (Hkw&Hwst&Hwaddr).
  assert (s3.(accounts) = s2.(accounts) ∧ s3.(wallets) !! k2 = Some w ∧
    ∀ j b, s3.(wallets) !! j = Some b → is_usdt_wallet_of c (j, b) = true → j = k2) as (HA3&Hk2&Honlyw).
  { destruct existing as [kw|].
    - apply ret_ok in Hwal as [E ->]. subst kw. symmetry in Hex. apply find_first_Some in Hex as [Hl Hp]. rewrite HW. split_and!; [done..|].
      intros j b Hj Hb. apply is_usdt_wallet_true in Hp as (?&?&?), Hb as (?&?&?). eapply Hwu; [exact Hj|exact Hl|congruence..].
    - apply bind_ok in Hwal as ([]&s4&(Hnew&_&->&_)%create_row_ok&[E ->]%ret_ok). injection E as -> ->. simpl.
      split_and!; [done|apply lookup_insert_eq|]. intros j b Hj Hb. destruct (decide (j = wid0)) as [|Hne]; [done|].
      rewrite lookup_insert_ne, HW in Hj by done. symmetry in Hex. rewrite (find_first_None _ _ _ _ Hex Hj) in Hb. done. }
  apply bind_ok in H as (u2&s4&Hfw&H). apply bind_ok in H as (_&?&[Hbal ->]%throw_if_ok&[E ->]%ret_ok). injection E as -> ->.
  apply orb_false_iff in Hbal as [Hb1 Hb2]. apply (proj1 (differs_false _ _)) in Hb1, Hb2.
  assert (∃ w', s4.(accounts) = s2.(accounts) ∧ s4.(wallets) = <[k2 := w']> s3.(wallets) ∧ is_usdt_wallet_of c (k2, w') = true ∧
    w'.(wal_walletAddress) = address ∧ w'.(wal_status) = AS_ACTIVE ∧ w'.(wal_availableBalance) = w.(wal_availableBalance) ∧
    w'.(wal_frozenBalance) = w.(wal_frozenBalance)) as (w'&HA4&HW4&Hp4&Hw4&Hs4&Hv4&Hf4).
  { destruct (truthy (wal_walletAddress w)) eqn:Htw.
    - apply ret_ok in Hfw as [_ ->]. exists w. rewrite insert_id by done. split_and!; try done. by apply Hwaddr.
    - apply bind_ok in Hfw as (w1&s5&(w0&Hw0&->&_&->)%update_row_ok&[_ ->]%ret_ok). rewrite Hk2 in Hw0. injection Hw0 as <-.
      eexists. split_and!; try done. }
  exists a', w'. split.
  - rewrite HA4, HA, lookup_insert_eq. split_and!; congruence.
  - intros j b. rewrite HA4. apply Honly2.
  - rewrite HW4, lookup_insert_eq. done.
  - intros j b. rewrite HW4. destruct (decide (j = k2)) as [|Hne]; [done|]. rewrite lookup_insert_ne by done. apply Honlyw.
  - split; congruence.
Qed.

(** The import pairs wallet and mirror.  When it succeeds the address passes
    the TRON check and the customer has exactly one USDT account and exactly one
    USDT wallet, both active, bound to that address, with equal available and
    equal frozen balances; run again, with whatever fresh ids, it finds the
    same pair and changes nothing. *)
Theorem mirror_established nid wid0 c address s aid wid s' :
  wallets_unique s → ensureCustomerCryptoWalletMirror sha256 nid wid0 c address s = inr ((aid, wid), s') →
  isValidTronAddress sha256 address = true ∧ (∃ a w, mirror_pair c address aid wid a w s') ∧
  ∀ nid' wid', ensureCustomerCryptoWalletMirror sha256 nid' wid' c address s' = inr ((aid, wid), s').
Proof.
  intros Hwu H. apply ensure_mirror_ok in H as [Hv (a&w&Hp)]; [|done]. split; [done|]. split; [by exists a, w|].
  intros nid' wid'. pose proof (valid_address_truthy _ Hv) as Ht.
  destruct Hp as [(Ha&Hpa&Hast&Haddr) Honly (Hw&Hpw&Hwst&Hwaddr) Honlyw [Hb1 Hb2]].
  assert (account_binding_conflict c address a = false) as Hab.
  { unfold is_usdt_account_of in Hpa. simpl in Hpa. rewrite !andb_true_iff, !opt_eqb_true, !same_true in Hpa.
    destruct Hpa as (((H1&H2)&H3)&H4). unfold account_binding_conflict. rewrite H1, H2, H3, H4, Hast, Haddr.
    unfold differs, same. rewrite !bool_decide_true by done. simpl. by rewrite andb_false_r. }
  assert (wallet_binding_conflict c address w = false) as Hwb.
  { apply is_usdt_wallet_true in Hpw as (H1&H2&H3). unfold wallet_binding_conflict. rewrite H1, H2, H3, Hwst, Hwaddr.
    unfold differs, same. rewrite !String.eqb_refl, !bool_decide_true by done. simpl. by rewrite andb_false_r. }
  unfold ensureCustomerCryptoWalletMirror. run throw_if_run; [by rewrite Hv|]. do 2 run gets_run.
  rewrite (find_many_one _ _ _ _ Ha Hpa Honly), (find_first_one _ _ _ _ Hw Hpw Honlyw).
  run throw_if_run; [done|]. run throw_if_run; [exact Hwb|]. run ret_run. simpl fst. simpl snd.
  run throw_if_run; [exact Hab|]. rewrite Haddr. simpl opt_truthy. rewrite Ht. run ret_run. run ret_run. simpl fst. simpl snd.
  run throw_if_run; [exact Hwb|]. rewrite Hwaddr, Ht. run ret_run.
  run throw_if_run; [|done]. rewrite Hb1, Hb2. unfold differs, same. by rewrite !bool_decide_true.
Qed.
End mirror.

(** ** The theorems on sample customers *)
Definition db_review : Db :=
  set_customers (<["new" := MkCustomer "org" CS_PENDING_REVIEW KYC_APPROVED "adm" "New" "new@example.com" false false 0
    None None None None None None]> db0.(customers)) db0.
Definition approve_customer_run : M Db Customer := review env0 now0 va_uuid "new" "adm" (CallApprove None).

Lemma review_follows_machine_witness :
  ∃ c', approve_customer_run db_review = inr (c', after approve_customer_run db_review) ∧
    ∃ c, db_review.(customers) !! "new" = Some c ∧ review_step (CallApprove None) (review_state c) (review_state c').
Proof.
  assert (succeeds approve_customer_run db_review = true) as R by runs. apply run_succeeds in R as [c' H].
  exists c'. split; [exact H|]. unfold approve_customer_run in H at 1.
  destruct (review_follows_machine env0 now0 va_uuid "new" "adm" (CallApprove None) db_review c' _ H) as ((c&u&Hc&Hs&_)&_).
  exists c. exact (conj Hc Hs).
Defined.

Lemma db0_wallets_unique : wallets_unique db0.
Proof.
  intros i j v w Hi Hj _ _ _. unfold db0 in Hi, Hj. simpl in Hi, Hj.
  apply lookup_singleton_Some in Hi as [<- _], Hj as [<- _]. reflexivity.
Qed.
Definition mirror_run : M Db (string * string) :=
  ensureCustomerCryptoWalletMirror zero_hash "acc2" "wal2" "cus2" sample_address.

Lemma mirror_established_witness :
  ensureCustomerCryptoWalletMirror zero_hash "acc3" "wal3" "cus2" sample_address (after mirror_run db0) =
    inr (("acc2", "wal2"), after mirror_run db0).
Proof.
  assert (returns mirror_run (λ r, r) db0 = Some ("acc2", "wal2")) as R by runs.
  apply run_returns in R as ([x y]&Hr&H). injection Hr as -> ->. unfold mirror_run in H at 1.
  exact (proj2 (proj2 (mirror_established zero_hash "acc2" "wal2" "cus2" sample_address db0 "acc2" "wal2" _ db0_wallets_unique H))
    "acc3" "wal3").
Defined.
