(* ===== verification/EmailWorker.v ===== *)
(** The delivery of e-mail
    ([server/src/email/email-delivery.worker.ts], [zoho-mail.client.ts]): the
    outbox is a queue whose rows a worker claims, hands to the mail provider and
    marks as sent, to be tried again, or dead.  The provider's answers are inputs;
    the configuration and the letters themselves are in [EmailTemplates]. *)
From S2P Require Import Prelude Decimals Schema Access Customers.
From stdpp Require Import sorting.
#[local] Open Scope Z_scope.

(** [EmailDeliveryError], and the other errors a request may end with. *)
Inductive MailError :=
| EmailDeliveryError (code : string) (retryable : bool)
| TimeoutError
| OtherError.

(** ** The provider's client *)
Record CachedToken := { tok_value : string; tok_expiresAt : Z }.

(** What the token request ends with: no answer, an HTTP error, or a body with
    its [access_token] and its [expires_in] where these are a text and a finite
    number ([tb_hasExpiry]: the member is present). *)
Record TokenBody := { tb_access_token : option string; tb_hasExpiry : bool; tb_expires_in : option Z }.
Inductive TokenOutcome := TokenNetworkError | TokenHttp (status : Z) | TokenAnswer (body : option TokenBody).
(** What a send request ends with: an exception, or a status with the id found in the body. *)
Inductive SendOutcome := SendThrows (e : MailError) | SendAnswer (status : Z) (messageId : option string).

Definition http_ok (status : Z) : bool := (200 <=? status) && (status <=? 299).
Definition transient_status (status : Z) : bool := (status =? 408) || (status =? 429) || (500 <=? status).

(** [refreshAccessToken] *)
Definition refreshAccessToken (now : Z) (outcome : TokenOutcome) : MailError + CachedToken :=
  match outcome with
  | TokenNetworkError => inl (EmailDeliveryError "zoho_token_network_error" true)
  | TokenHttp status => inl (EmailDeliveryError ("zoho_token_http_" +:+ pretty status) (transient_status status))
  | TokenAnswer None => inl (EmailDeliveryError "zoho_token_invalid_response" false)
  | TokenAnswer (Some body) =>
      let expiresIn := if body.(tb_hasExpiry) then body.(tb_expires_in) else Some 3600 in
      match body.(tb_access_token), expiresIn with
      | Some token, Some seconds =>
          if truthy token then inr {| tok_value := token; tok_expiresAt := now + Z.max 300 seconds * 1000 |}
          else inl (EmailDeliveryError "zoho_token_invalid_response" false)
      | _, _ => inl (EmailDeliveryError "zoho_token_invalid_response" false)
      end
  end.

(** [accessToken]: the cache, and the token; deliveries run one after the other,
    so there is never a refresh to join. *)
Definition accessToken (force : bool) (now : Z) (outcome : TokenOutcome) (cache : option CachedToken) :
    option CachedToken * (MailError + string) :=
  let refresh := match refreshAccessToken now outcome with
                 | inl e => (cache, inl e)
                 | inr t => (Some t, inr t.(tok_value))
                 end in
  match cache with
  | Some t => if negb force && (now + 60000 <? t.(tok_expiresAt)) then (cache, inr t.(tok_value)) else refresh
  | None => refresh
  end.

(** The requests of one [send], in the order they are made if they are made. *)
Record MailScript := {
  ms_token : TokenOutcome; ms_send : SendOutcome; ms_token2 : TokenOutcome; ms_send2 : SendOutcome;
}.
(** The status of the last answer. *)
Definition send_result (outcome : SendOutcome) : MailError + option string :=
  match outcome with
  | SendThrows e => inl e
  | SendAnswer status messageId =>
      if http_ok status then inr messageId
      else inl (EmailDeliveryError ("zoho_mail_http_" +:+ pretty status) ((status =? 401) || transient_status status))
  end.
(** [send]; [prepared] is the error of the configuration or of the template, if any. *)
Definition send (now : Z) (prepared : option MailError) (script : MailScript) (cache : option CachedToken) :
    option CachedToken * (MailError + option string) :=
  match prepared with
  | Some e => (cache, inl e)
  | None =>
      match accessToken false now script.(ms_token) cache with
      | (cache, inl e) => (cache, inl e)
      | (cache, inr _) =>
          match script.(ms_send) with
          | SendAnswer 401 _ =>
              match accessToken true now script.(ms_token2) None with
              | (cache, inl e) => (cache, inl e)
              | (cache, inr _) => (cache, send_result script.(ms_send2))
              end
          | outcome => (cache, send_result outcome)
          end
      end
  end.

(** ** The worker *)
Definition EMAIL_BATCH_SIZE : nat := 10.
Definition EMAIL_STALE_LOCK_MS : Z := 10 * 60 * 1000.
Definition RETRY_DELAYS_MS : list Z := [60000; 5 * 60000; 15 * 60000; 60 * 60000; 4 * 60 * 60 * 1000].

(** [normalizeError] *)
Definition normalizeMailError (e : MailError) : string * bool :=
  match e with
  | EmailDeliveryError code retryable => (code, retryable)
  | TimeoutError => ("zoho_request_timeout", true)
  | OtherError => ("zoho_request_failed", true)
  end.
Definition mail_in (st : EmailDeliveryStatus) (m : EmailOutbox) : bool := same m.(mail_status) st.
Definition requeue (now : Z) (m : EmailOutbox) : EmailOutbox :=
  set_mail_nextAttemptAt now (set_mail_lockedAt None (set_mail_status ED_PENDING m)).

(** [claimBatch]: [locked] are the rows other transactions hold
    ([FOR UPDATE SKIP LOCKED]); the rows are returned as they were before the claim. *)
Definition mail_stale (now : Z) (km : string * EmailOutbox) : bool :=
  mail_in ED_PROCESSING km.2 &&
  match km.2.(mail_lockedAt) with Some t => t <? now - EMAIL_STALE_LOCK_MS | None => false end.
Definition mail_due (now : Z) (locked : string → bool) (km : string * EmailOutbox) : bool :=
  mail_in ED_PENDING km.2 && (km.2.(mail_nextAttemptAt) <=? now) && negb (locked km.1).
Definition mail_older (a b : string * EmailOutbox) : Prop := a.2.(mail_createdAt) ≤ b.2.(mail_createdAt).
#[global] Instance mail_older_dec : RelDecision mail_older.
Proof. intros a b. unfold mail_older. apply _. Defined.
Definition due_mail (now : Z) (locked : string → bool) (s : Db) : list (string * EmailOutbox) :=
  take EMAIL_BATCH_SIZE (merge_sort mail_older (find_many (mail_due now locked) s.(outbox))).
Definition claimMailBatch (now : Z) (locked : string → bool) : M Db (list (string * EmailOutbox)) :=
  let! _ := outbox_updateWhere (mail_stale now) (requeue now) in
  let! rows := gets (due_mail now locked) in
  let! _ := outbox_updateWhere (λ km, includes (map fst rows) km.1 && mail_in ED_PENDING km.2)
    (λ m, set_mail_lockedAt (Some now) (set_mail_status ED_PROCESSING m)) in
  ret rows.

(** [release] *)
Definition release_mail (now : Z) (rows : list (string * EmailOutbox)) : M Db unit :=
  let! _ := outbox_updateWhere (λ km, includes (map fst rows) km.1 && mail_in ED_PROCESSING km.2) (requeue now) in
  ret tt.

(** [deliver], with what [send] ended with. *)
Definition retry_delay (attemptCount : Z) : Z :=
  default 0 (RETRY_DELAYS_MS !! Z.to_nat (Z.min (attemptCount - 1) (Z.of_nat (length RETRY_DELAYS_MS) - 1))).
Definition mail_sent (now : Z) (messageId : option string) (m : EmailOutbox) : EmailOutbox :=
  set_mail_lastErrorAt None (set_mail_lastErrorCode None (set_mail_providerMessageId messageId
    (set_mail_lockedAt None (set_mail_sentAt (Some now) (set_mail_status ED_SENT m))))).
Definition mail_dead (row : EmailOutbox) (retryable : bool) : bool :=
  negb retryable || (row.(mail_maxAttempts) <=? row.(mail_attemptCount) + 1).
Definition mail_failed (now : Z) (row : EmailOutbox) (code : string) (retryable : bool) (m : EmailOutbox) : EmailOutbox :=
  let attemptCount := row.(mail_attemptCount) + 1 in
  let dead := mail_dead row retryable in
  set_mail_lastErrorAt (Some now) (set_mail_lastErrorCode (Some code) (set_mail_lockedAt None
    (set_mail_nextAttemptAt (if dead then row.(mail_nextAttemptAt) else now + retry_delay attemptCount)
      (set_mail_attemptCount attemptCount (set_mail_status (if dead then ED_DEAD else ED_PENDING) m))))).
Definition deliver (now : Z) (outcome : MailError + option string) (row : string * EmailOutbox) : M Db unit :=
  let! _ := outbox_updateMany row.1 (mail_in ED_PROCESSING)
    (match outcome with
     | inr messageId => mail_sent now messageId
     | inl e => let '(code, retryable) := normalizeMailError e in mail_failed now row.2 code retryable
     end) in
  ret tt.

(** [processBatch]: the loop over the claimed rows, with the cached token between
    deliveries; [stopping i] is whether a stop was requested before row [i]. *)
Record MailCall := { mc_now : Z; mc_prepared : option MailError; mc_script : MailScript }.
Fixpoint deliver_rows (call : nat → MailCall) (stopping : nat → bool) (i : nat) (rows : list (string * EmailOutbox))
    (cache : option CachedToken) (s : Db) : option CachedToken * Db :=
  match rows with
  | [] => (cache, s)
  | row :: rest =>
      if stopping i
      then (cache, match release_mail (mc_now (call i)) rows s with inr (_, s') => s' | inl _ => s end)
      else
        let '(cache, outcome) := send (mc_now (call i)) (mc_prepared (call i)) (mc_script (call i)) cache in
        match deliver (mc_now (call i)) outcome row s with
        | inr (_, s') => deliver_rows call stopping (S i) rest cache s'
        | inl _ => (cache, s)
        end
  end.
Definition processMailBatch (now : Z) (locked : string → bool) (call : nat → MailCall) (stopping : nat → bool)
    (cache : option CachedToken) (s : Db) : option CachedToken * Db * nat :=
  match claimMailBatch now locked s with
  | inr (rows, s') => (deliver_rows call stopping 0 rows cache s', length rows)
  | inl _ => (cache, s, 0%nat)
  end.
