(* ===== verification/EmailTemplates.v ===== *)
(** The text of the letters ([server/src/email/email-templates.ts]) and the
    configuration of the mail client ([zoho-mail.client.ts], [config] and below): what
    is read of a row's payload, the HTML with everything escaped, the signed links,
    and what a delivery does when there is no letter to send.

    The HTML is written with apostrophes for quotation marks, which the templates do
    not contain otherwise ([quoted]).  Resolving and parsing URLs and HMAC are
    parameters. *)
From S2P Require Import Prelude Decimals Schema Access Customers JsNumber EdgeAuth EmailWorker.
From Stdlib Require Import Ascii.
#[local] Open Scope Z_scope.

(** ** Texts *)
Definition quote_char : ascii := "034".
Definition map_chars (f : ascii → string) (s : string) : string :=
  foldr (λ c rest, f c +:+ rest) "" (String.list_ascii_of_string s).
Definition quoted (s : string) : string := map_chars (λ c, String (if Ascii.eqb c "'" then quote_char else c) "") s.
(** [text.replaceAll(char, by)] *)
Definition replaceAll (char : ascii) (by_ : string) (s : string) : string :=
  map_chars (λ c, if Ascii.eqb c char then by_ else String c "") s.
Definition escapeHtml (value : string) : string :=
  replaceAll "'" "&#039;" (replaceAll quote_char "&quot;" (replaceAll ">" "&gt;" (replaceAll "<" "&lt;"
    (replaceAll "&" "&amp;" value)))).

(** ** The payload *)
Record TemplatePayload := {
  tp_displayName : string; tp_currency : option string; tp_resetRequestId : option string;
  tp_verificationRequestId : option string; tp_emailChangeRequestId : option string; tp_securityEvent : option string;
}.
(** A member that is a text where it is present, trimmed. *)
Definition optional_member (l : list (string * json)) (key code : string) : exn + option string :=
  match assoc key l with
  | None => inr None
  | Some (JStr x) => inr (Some (trim x))
  | Some _ => inl (PlainError code)
  end.
Definition and_also {A B} (m : exn + A) (f : A → exn + B) : exn + B := match m with inl e => inl e | inr x => f x end.
Notation "'let^' x ':=' m 'in' k" := (and_also m (λ x, k)) (at level 200, x name, k at level 200).
Definition payloadFromJson (value : json) : exn + TemplatePayload :=
  match value with
  | JObj l =>
      let^ displayName := (match assoc "displayName" l with
                           | Some (JStr x) => if truthy (trim x) then inr (trim x) else inl (PlainError "invalid_email_template_display_name")
                           | _ => inl (PlainError "invalid_email_template_display_name")
                           end) in
      let^ currency := optional_member l "currency" "invalid_email_template_currency" in
      let^ resetRequestId := optional_member l "resetRequestId" "invalid_email_template_reset_request_id" in
      let^ verificationRequestId := optional_member l "verificationRequestId" "invalid_email_template_verification_request_id" in
      let^ emailChangeRequestId := optional_member l "emailChangeRequestId" "invalid_email_template_email_change_request_id" in
      let^ securityEvent := optional_member l "securityEvent" "invalid_email_template_security_event" in
      inr {| tp_displayName := displayName; tp_currency := currency; tp_resetRequestId := resetRequestId;
             tp_verificationRequestId := verificationRequestId; tp_emailChangeRequestId := emailChangeRequestId;
             tp_securityEvent := securityEvent |}
  | _ => inl (PlainError "invalid_email_template_payload")
  end.

(** ** The letter *)
Record RenderedEmail := { re_subject : string; re_html : string }.
Definition layout_title : string := quoted "<!doctype html>
<html lang='zh-CN'>
  <body style='margin:0;background:#f5f7fb;font-family:Arial,sans-serif;color:#172033'>
    <div style='max-width:600px;margin:0 auto;padding:32px 20px'>
      <div style='background:#ffffff;border:1px solid #e1e6ef;border-radius:12px;padding:28px'>
        <div style='font-size:13px;color:#657089;margin-bottom:18px'>SSC Digital Bank</div>
        <h1 style='font-size:22px;line-height:1.35;margin:0 0 16px'>".
Definition layout_name : string := quoted "</h1>
        <p style='font-size:15px;line-height:1.7;margin:0 0 12px'>您好 ".
Definition layout_message : string := quoted "，</p>
        <p style='font-size:15px;line-height:1.7;margin:0 0 24px'>".
Definition layout_link : string := quoted "</p>
        <a href='".
Definition layout_label : string := quoted "' style='display:inline-block;background:#173f8a;color:#ffffff;text-decoration:none;border-radius:8px;padding:11px 18px'>".
Definition layout_end : string := quoted "</a>
        <p style='font-size:12px;line-height:1.6;color:#7a8499;margin:24px 0 0'>为保护账户安全，本邮件不包含余额、完整账号、钱包地址或操作凭据。如非本人操作，请通过官方渠道联系支持团队。</p>
      </div>
    </div>
  </body>
</html>".
Definition securityCopy : list (string * (string * string * string)) :=
  [("email_change_requested", ("邮箱变更申请提醒 | Email change requested", "已申请变更登录邮箱",
     "我们收到了登录邮箱变更申请。新邮箱验证后仍有 24 小时安全等待期；如非本人操作，请立即联系支持团队。"));
   ("email_changed_old", ("登录邮箱已变更 | Sign-in email changed", "登录邮箱已变更",
     "此账户的登录邮箱已经变更，其他登录会话已退出。如非本人操作，请立即联系支持团队。"));
   ("email_changed_new", ("新登录邮箱已生效 | New sign-in email active", "新登录邮箱已生效",
     "此邮箱现已成为客户网上银行的登录邮箱，其他登录会话已退出。"));
   ("passkey_added", ("已添加通行密钥 | Passkey added", "已添加通行密钥",
     "您的账户新增了一枚通行密钥。如非本人操作，请立即登录安全中心移除并联系支持团队。"));
   ("passkey_removed", ("已移除通行密钥 | Passkey removed", "已移除通行密钥",
     "您的账户移除了一枚通行密钥。如非本人操作，请立即联系支持团队。"));
   ("password_changed", ("登录密码已修改 | Sign-in password changed", "登录密码已修改",
     "您的客户网上银行登录密码已修改，其他设备上的会话已退出。如非本人操作，请立即使用找回密码并联系支持团队。"));
   ("recovery_codes_regenerated", ("恢复码已重新生成 | Recovery codes regenerated", "恢复码已重新生成",
     "您的两步验证恢复码已重新生成，所有旧恢复码已立即失效。如非本人操作，请立即联系支持团队。"));
   ("totp_replaced", ("验证器已更换 | Authenticator replaced", "验证器已更换",
     "您的两步验证器已更换，旧验证器、旧恢复码和其他设备会话已失效。如非本人操作，请立即联系支持团队。"));
   ("security.withdrawals_locked", ("转出保护已锁定 | Withdrawals locked", "转出保护已锁定",
     "客户发起的数字资产转出已被锁定。解除锁定需再次验证，并等待 24 小时。"));
   ("security.withdrawal_unlock_requested", ("已申请解除转出锁定 | Withdrawal unlock requested", "已申请解除转出锁定",
     "我们收到了解除转出锁定的申请。24 小时安全等待期结束前，转出仍不可用。"));
   ("security.withdrawals_unlocked", ("转出保护已解除 | Withdrawals unlocked", "转出保护已解除",
     "客户发起的数字资产转出锁定已解除。如非本人操作，请立即重新锁定并联系支持团队。"));
   ("account_closure_requested", ("账户关闭申请已提交 | Account closure requested", "账户关闭申请已提交",
     "您的账户关闭申请已进入人工审核。审核完成前账户不会自动关闭，您可在安全中心取消申请。"))].

(** The request ids: [(password_reset|email_verify|email_change)_[a-f0-9]{32}]. *)
Definition hex_char (c : ascii) : bool :=
  let n := nat_of_ascii c in (Nat.leb 48 n && Nat.leb n 57) || (Nat.leb 97 n && Nat.leb n 102).
Definition request_id_with (prefix requestId : string) : bool :=
  match strip_prefix prefix requestId with
  | Some rest => Nat.eqb (String.length rest) 32 && forallb hex_char (String.list_ascii_of_string rest)
  | None => false
  end.
Definition valid_request_id (requestId : string) : bool :=
  existsb (λ prefix, request_id_with prefix requestId) ["password_reset_"; "email_verify_"; "email_change_"].

(** [digest('base64url')]: the digits of each group of three bytes, without padding. *)
Definition base64url_digit (d : Z) : ascii :=
  ascii_of_nat (Z.to_nat (if d <? 26 then 65 + d else if d <? 52 then 71 + d else if d <? 62 then d - 4
                          else if d =? 62 then 45 else 95)).
Fixpoint base64url (bytes : list Z) : string :=
  match bytes with
  | a :: b :: c :: rest =>
      let n := a * 65536 + b * 256 + c in
      String (base64url_digit (n / 262144)) (String (base64url_digit (n / 4096 mod 64))
        (String (base64url_digit (n / 64 mod 64)) (String (base64url_digit (n mod 64)) (base64url rest))))
  | [a; b] =>
      let n := a * 65536 + b * 256 in
      String (base64url_digit (n / 262144)) (String (base64url_digit (n / 4096 mod 64)) (String (base64url_digit (n / 64 mod 64)) ""))
  | [a] => String (base64url_digit (a * 65536 / 262144)) (String (base64url_digit (a * 65536 / 4096 mod 64)) "")
  | [] => ""
  end.
(** The text of one search parameter ([URLSearchParams]), byte by byte. *)
Definition hex_upper (d : Z) : ascii := ascii_of_nat (Z.to_nat (if d <? 10 then 48 + d else 55 + d)).
Definition form_char (c : ascii) : string :=
  let n := Z.of_nat (nat_of_ascii c) in
  if ((48 <=? n) && (n <=? 57)) || ((65 <=? n) && (n <=? 90)) || ((97 <=? n) && (n <=? 122)) ||
     includes [42; 45; 46; 95] n then String c ""
  else if n =? 32 then "+" else String "%" (String (hex_upper (n / 16)) (String (hex_upper (n mod 16)) "")).
Definition form_text (parameter value : string) : string := map_chars form_char parameter +:+ "=" +:+ map_chars form_char value.
Definition zero_byte : ascii := "000".

Section letters.
Context (hmac_sha256 : string → string → list Z).
(** [new URL(route, base).toString()]; [None]: it throws. *)
Context (resolve_url : string → string → option string).

(** [layout] *)
Definition layout (displayName title message portalBaseUrl : string) (action : option (string * string)) : exn + string :=
  let^ portalUrl := (match action with
                     | Some (_, url) => if truthy url then inr url
                                        else from_option inr (inl (PlainError "TypeError")) (resolve_url "/customer/login" portalBaseUrl)
                     | None => from_option inr (inl (PlainError "TypeError")) (resolve_url "/customer/login" portalBaseUrl)
                     end) in
  let actionLabel := match action with Some (label, _) => if truthy label then label else "登录客户网上银行" | None => "登录客户网上银行" end in
  inr (layout_title +:+ escapeHtml title +:+ layout_name +:+ escapeHtml displayName +:+ layout_message +:+ escapeHtml message +:+
       layout_link +:+ escapeHtml portalUrl +:+ layout_label +:+ escapeHtml actionLabel +:+ layout_end).

(** [recoveryUrl] *)
Definition recovery_message (purpose requestId : string) : string :=
  "neobank-customer-" +:+ purpose +:+ String zero_byte requestId.
Definition recovery_token (purpose requestId secret : string) : string :=
  requestId +:+ "." +:+ base64url (hmac_sha256 secret (recovery_message purpose requestId)).
Definition recoveryUrl (portalBaseUrl route parameter purpose : string) (requestId passwordResetSecret : option string) : exn + string :=
  match requestId with
  | Some id =>
      if negb (truthy id) || negb (valid_request_id id) then inl (PlainError "invalid_email_template_recovery_request_id")
      else match passwordResetSecret with
      | Some secret =>
          if Nat.ltb (String.length secret) 32 then inl (PlainError "missing_customer_password_reset_secret")
          else match resolve_url route portalBaseUrl with
               | Some target => inr (target +:+ "#" +:+ form_text parameter (recovery_token purpose id secret))
               | None => inl (PlainError "TypeError")
               end
      | None => inl (PlainError "missing_customer_password_reset_secret")
      end
  | None => inl (PlainError "invalid_email_template_recovery_request_id")
  end.

(** [securityCopy[event]]: an event of the list, or a name every object inherits,
    whose value has no texts. *)
Definition inherited_names : list string :=
  ["constructor"; "toString"; "toLocaleString"; "valueOf"; "hasOwnProperty"; "isPrototypeOf"; "propertyIsEnumerable"; "__proto__";
   "__defineGetter__"; "__defineSetter__"; "__lookupGetter__"; "__lookupSetter__"].
Definition letter_of (displayName portalBaseUrl subject title message : string) (action : option (string * string)) : exn + RenderedEmail :=
  let^ html := layout displayName title message portalBaseUrl action in inr {| re_subject := subject; re_html := html |}.
(** [renderEmailTemplate]; the column holds no other key. *)
Definition renderEmailTemplate (templateKey : string) (payloadValue : json) (portalBaseUrl : string) (passwordResetSecret : option string) :
    exn + RenderedEmail :=
  let^ payload := payloadFromJson payloadValue in
  let letter := letter_of payload.(tp_displayName) portalBaseUrl in
  if String.eqb templateKey "CUSTOMER_KYC_APPROVED" then
    letter "身份验证已通过 | KYC approved" "身份验证已通过"
      "您的身份验证已经通过。账户仍需完成最终业务审核，当前通知不代表账户已经激活。" None
  else if String.eqb templateKey "CUSTOMER_KYC_REJECTED" then
    letter "身份验证状态更新 | KYC status updated" "身份验证状态已更新"
      "您的身份验证未通过。为避免泄露审核信息，请登录客户门户查看下一步安排或联系支持团队。" None
  else if String.eqb templateKey "CUSTOMER_ACTIVATED" then
    letter "账户已激活 | Account activated" "账户已激活"
      "您的账户已完成审核并激活。请登录客户门户查看当前可用服务。" None
  else if String.eqb templateKey "CUSTOMER_EMAIL_VERIFICATION" then
    let^ url := recoveryUrl portalBaseUrl "/customer/verify-email" "verification_token" "email-verification-v1"
        payload.(tp_verificationRequestId) passwordResetSecret in
    letter "验证您的客户邮箱 | Verify your email" "验证您的客户邮箱"
      "请验证此邮箱属于您本人。完成邮箱验证后，请返回开户注册页面设置登录密码，再填写身份资料并完成身份核验。邮箱验证不代表账户已经开通。此链接将在 30 分钟后失效，并且只能使用一次。"
      (Some ("验证邮箱", url))
  else if String.eqb templateKey "CUSTOMER_PASSWORD_RESET_REQUESTED" then
    let^ url := recoveryUrl portalBaseUrl "/customer/reset-password" "reset_token" "password-reset-v1"
        payload.(tp_resetRequestId) passwordResetSecret in
    letter "重置客户网上银行密码 | Reset your password" "重置您的密码"
      "我们收到了密码重置请求。请使用下方安全链接设置新密码。此链接将在 30 分钟后失效，并且只能使用一次。"
      (Some ("重置密码", url))
  else if String.eqb templateKey "CUSTOMER_PASSWORD_RESET_COMPLETED" then
    letter "客户密码已重置 | Password reset completed" "密码已重置"
      "您的客户网上银行密码已成功重置，所有旧会话均已退出。如非本人操作，请立即通过官方渠道联系支持团队。" None
  else if String.eqb templateKey "CUSTOMER_EMAIL_CHANGE_VERIFICATION" then
    let^ url := recoveryUrl portalBaseUrl "/customer/confirm-email-change" "email_change_token" "email-change-v1"
        payload.(tp_emailChangeRequestId) passwordResetSecret in
    letter "验证新的登录邮箱 | Verify new sign-in email" "验证新的登录邮箱"
      "请验证此邮箱属于您本人。验证后将进入 24 小时安全等待期，期间旧邮箱仍可登录。此链接将在 48 小时后失效，并且只能使用一次。"
      (Some ("验证新邮箱", url))
  else if String.eqb templateKey "VIRTUAL_ACCOUNT_APPROVED" then
    letter "虚拟账户申请已通过 | Virtual account approved" "虚拟账户申请已通过"
      ("您的 " +:+ default "" payload.(tp_currency) +:+ " 虚拟账户申请已通过。完整账户资料仅在客户门户中显示。") None
  else if String.eqb templateKey "VIRTUAL_ACCOUNT_REJECTED" then
    letter "虚拟账户申请状态更新 | Virtual account status updated" "虚拟账户申请状态已更新"
      ("您的 " +:+ default "" payload.(tp_currency) +:+ " 虚拟账户申请未通过。请登录客户门户查看后续安排。") None
  else if String.eqb templateKey "CUSTOMER_SECURITY_ALERT" then
    match payload.(tp_securityEvent) with
    | Some event =>
        if negb (truthy event) then inl (PlainError "invalid_email_template_security_event")
        else match List.find (λ copy, String.eqb copy.1 event) securityCopy with
        | Some (_, (subject, title, message)) => letter subject title message None
        | None => if includes inherited_names event then inl (PlainError "TypeError")
                  else inl (PlainError "invalid_email_template_security_event")
        end
    | None => inl (PlainError "invalid_email_template_security_event")
    end
  else inl (PlainError "TypeError").
End letters.

(** ** The configuration of the client *)
Record MailEnv := {
  ml_clientId : option string; ml_clientSecret : option string; ml_refreshToken : option string; ml_accountId : option string;
  ml_fromAddress : option string; ml_portalBaseUrl : option string; ml_passwordResetSecret : option string;
  ml_accountsBaseUrl : option string; ml_mailApiBaseUrl : option string; ml_pollInterval : option string;
}.
(** [new URL(text)]: its parts and its own text. *)
Record ParsedUrl := {
  pu_protocol : string; pu_username : string; pu_password : string; pu_search : string; pu_hash : string; pu_text : string;
}.
Record MailConfig := {
  mf_clientId : string; mf_clientSecret : string; mf_refreshToken : string; mf_accountId : string; mf_fromAddress : string;
  mf_portalBaseUrl : string; mf_passwordResetSecret : string; mf_accountsBaseUrl : string; mf_mailApiBaseUrl : string;
}.
Definition required_settings (env : MailEnv) : list (string * option string) :=
  [("clientId", env.(ml_clientId)); ("clientSecret", env.(ml_clientSecret)); ("refreshToken", env.(ml_refreshToken));
   ("accountId", env.(ml_accountId)); ("fromAddress", env.(ml_fromAddress)); ("portalBaseUrl", env.(ml_portalBaseUrl));
   ("passwordResetSecret", env.(ml_passwordResetSecret))].
Definition setting (o : option string) : string := default "" (trim <$> o).
(** [text.replace(/\/$/, '')] *)
Definition without_last_slash (s : string) : string :=
  match rev (String.list_ascii_of_string s) with
  | c :: rest => if Ascii.eqb c "/" then String.string_of_list_ascii (rev rest) else s
  | [] => s
  end.

Section client.
Context (hmac_sha256 : string → string → list Z) (resolve_url : string → string → option string).
Context (parse_url : string → option ParsedUrl) (encode : string → string).

(** [validHttpsBaseUrl], [validBaseUrl] *)
Definition validHttpsBaseUrl (value code : string) : MailError + string :=
  match parse_url value with
  | Some u =>
      if negb (String.eqb u.(pu_protocol) "https:") || truthy u.(pu_username) || truthy u.(pu_password) ||
         truthy u.(pu_search) || truthy u.(pu_hash)
      then inl (EmailDeliveryError code false) else inr (without_last_slash u.(pu_text))
  | None => inl (EmailDeliveryError code false)
  end.
Definition validBaseUrl (value code : string) : MailError + string :=
  match parse_url value with
  | Some u =>
      if negb (includes ["http:"; "https:"] u.(pu_protocol)) || truthy u.(pu_username) || truthy u.(pu_password)
      then inl (EmailDeliveryError code false) else inr u.(pu_text)
  | None => inl (EmailDeliveryError code false)
  end.
(** [config] *)
Definition config (env : MailEnv) : MailError + MailConfig :=
  match List.find (λ kv, negb (truthy (setting kv.2))) (required_settings env) with
  | Some (key, _) => inl (EmailDeliveryError ("missing_" +:+ key) false)
  | None =>
      match validHttpsBaseUrl (default "" (or_string env.(ml_accountsBaseUrl) (Some "https://accounts.zoho.com"))) "invalid_zoho_accounts_base_url" with
      | inl e => inl e
      | inr accountsBaseUrl =>
      match validHttpsBaseUrl (default "" (or_string env.(ml_mailApiBaseUrl) (Some "https://mail.zoho.com/api"))) "invalid_zoho_mail_api_base_url" with
      | inl e => inl e
      | inr mailApiBaseUrl =>
      match validBaseUrl (setting env.(ml_portalBaseUrl)) "invalid_portal_base_url" with
      | inl e => inl e
      | inr portalBaseUrl =>
          inr {| mf_clientId := setting env.(ml_clientId); mf_clientSecret := setting env.(ml_clientSecret);
                 mf_refreshToken := setting env.(ml_refreshToken); mf_accountId := setting env.(ml_accountId);
                 mf_fromAddress := setting env.(ml_fromAddress); mf_portalBaseUrl := portalBaseUrl;
                 mf_passwordResetSecret := setting env.(ml_passwordResetSecret);
                 mf_accountsBaseUrl := accountsBaseUrl; mf_mailApiBaseUrl := mailApiBaseUrl |}
      end end end
  end.

(** The start of [send]: the configuration, then the letter of the row. *)
Definition row_payload (row : EmailOutbox) : json := JObj (map (λ kv, (kv.1, JStr kv.2)) row.(mail_payload)).
Definition prepare (env : MailEnv) (row : EmailOutbox) : MailError + (MailConfig * RenderedEmail) :=
  match config env with
  | inl e => inl e
  | inr c => match renderEmailTemplate hmac_sha256 resolve_url row.(mail_templateKey) (row_payload row) c.(mf_portalBaseUrl)
                     (Some c.(mf_passwordResetSecret)) with
             | inl _ => inl OtherError
             | inr letter => inr (c, letter)
             end
  end.
(** [sendRequest]: the address and the body of the request. *)
Definition letter_url (c : MailConfig) : string := c.(mf_mailApiBaseUrl) +:+ "/accounts/" +:+ encode c.(mf_accountId) +:+ "/messages".
Definition letter_body (c : MailConfig) (row : EmailOutbox) (letter : RenderedEmail) : json :=
  JObj [("fromAddress", JStr c.(mf_fromAddress)); ("toAddress", JStr row.(mail_recipient)); ("subject", JStr letter.(re_subject));
        ("content", JStr letter.(re_html)); ("mailFormat", JStr "html")].
(** [send] of a row: the provider answers the requests for its letter; [post attempt]
    is what the request ends with, when it is sent. *)
Record Provider := { pv_token : nat → TokenOutcome; pv_post : nat → string → json → SendOutcome }.
Definition row_script (p : Provider) (url : string) (body : json) : MailScript :=
  {| ms_token := p.(pv_token) 0; ms_send := p.(pv_post) 0 url body; ms_token2 := p.(pv_token) 1; ms_send2 := p.(pv_post) 1 url body |}.
Definition sendRow (now : Z) (env : MailEnv) (p : Provider) (row : EmailOutbox) (cache : option CachedToken) :
    option CachedToken * (MailError + option string) :=
  match prepare env row with
  | inl e => (cache, inl e)
  | inr (c, letter) => send now None (row_script p (letter_url c) (letter_body c row letter)) cache
  end.
End client.

(** [messageId] *)
Definition id_member (record : option json) : option string :=
  match json_str (json_get "messageId" record) with
  | Some x => Some x
  | None => json_str (json_get "mailId" record)
  end.
Definition messageId (body : json) : option string :=
  match id_member (Some body) with
  | Some x => Some x
  | None => id_member (json_get "data" (Some body))
  end.
(** [pollIntervalMs] *)
Definition pollIntervalMs (env : MailEnv) : number :=
  let parsed := n_of_string (default "" (or_string env.(ml_pollInterval) (Some "5000"))) in
  if n_isFinite parsed then
    let atLeast := if n_lt parsed (n_ofZ 1000) then n_ofZ 1000 else parsed in
    if n_lt (n_ofZ 60000) atLeast then n_ofZ 60000 else atLeast
  else n_ofZ 5000.
