(* ===== verification/LetterProperties.v ===== *)
(** Correctness of the letters: what a customer wrote cannot become markup, the
    links are signed for one purpose and one request, and the core's own letters are
    always rendered. *)
From S2P Require Import Prelude Decimals Schema Access Customers JsNumber EdgeAuth RoutePolicy EdgeWorker EmailWorker EmailTemplates.
From Stdlib Require Import Ascii.
#[local] Open Scope Z_scope.

(** ** Texts character by character *)
Lemma map_chars_cons f c s : map_chars f (String c s) = f c +:+ map_chars f s.
Proof. done. Qed.
Lemma append_assoc (a b c : string) : (a +:+ b) +:+ c = a +:+ (b +:+ c).
Proof. induction a as [|x a IH]; [done|]. change (String x ((a +:+ b) +:+ c) = String x (a +:+ (b +:+ c))). by rewrite IH. Qed.
Lemma map_chars_app f a b : map_chars f (a +:+ b) = map_chars f a +:+ map_chars f b.
Proof.
  induction a as [|c a IH]; [done|]. change (f c +:+ map_chars f (a +:+ b) = (f c +:+ map_chars f a) +:+ map_chars f b).
  by rewrite IH, append_assoc.
Qed.
Lemma map_chars_compose f g s : map_chars f (map_chars g s) = map_chars (λ c, map_chars f (g c)) s.
Proof. induction s as [|c s IH]; [done|]. by rewrite !map_chars_cons, map_chars_app, IH. Qed.
Lemma map_chars_ext f g s : (∀ c, f c = g c) → map_chars f s = map_chars g s.
Proof. intros H. induction s as [|c s IH]; [done|]. by rewrite !map_chars_cons, H, IH. Qed.

(** ** Escaping *)
Definition escape_char (c : ascii) : string :=
  if Ascii.eqb c "&" then "&amp;" else if Ascii.eqb c "<" then "&lt;" else if Ascii.eqb c ">" then "&gt;"
  else if Ascii.eqb c quote_char then "&quot;" else if Ascii.eqb c "'" then "&#039;" else String c "".
Lemma escapeHtml_chars s : escapeHtml s = map_chars escape_char s.
Proof.
  unfold escapeHtml, replaceAll. rewrite !map_chars_compose. apply map_chars_ext.
  intros [[] [] [] [] [] [] [] []]; reflexivity.
Qed.

(** The entities, read back. *)
Definition entities : list (string * string) :=
  [("&amp;", "&"); ("&lt;", "<"); ("&gt;", ">"); ("&quot;", String quote_char ""); ("&#039;", "'")].
Definition entity_at (s : string) : option (string * string) :=
  foldr (λ kv found, match strip_prefix kv.1 s with Some rest => Some (kv.2, rest) | None => found end) None entities.
Fixpoint unescape (fuel : nat) (s : string) : string :=
  match fuel, s with
  | S fuel, String c rest =>
      match entity_at s with
      | Some (text, rest) => text +:+ unescape fuel rest
      | None => String c (unescape fuel rest)
      end
  | _, _ => s
  end.
Definition unescapeHtml (s : string) : string := unescape (String.length s) s.

Lemma unescape_char c rest fuel : unescape (S fuel) (escape_char c +:+ rest) = String c (unescape fuel rest).
Proof. destruct c as [[] [] [] [] [] [] [] []]; reflexivity. Qed.
Lemma escape_length c : (1 ≤ String.length (escape_char c))%nat.
Proof. unfold escape_char. repeat case_match; simpl; lia. Qed.
Lemma string_app_length (a b : string) : String.length (a +:+ b) = (String.length a + String.length b)%nat.
Proof. induction a as [|c a IH]; [done|]. change (S (String.length (a +:+ b)) = S (String.length a + String.length b)). by rewrite IH. Qed.
Lemma unescape_escaped s fuel : (String.length s ≤ fuel)%nat → unescape fuel (map_chars escape_char s) = s.
Proof.
  revert fuel. induction s as [|c s IH]; intros fuel Hf; [by destruct fuel|]. rewrite map_chars_cons. simpl in Hf.
  destruct fuel as [|fuel]; [lia|]. rewrite unescape_char, IH by lia. done.
Qed.
Lemma escaped_longer s : (String.length s ≤ String.length (map_chars escape_char s))%nat.
Proof.
  induction s as [|c s IH]; [done|]. rewrite map_chars_cons, string_app_length.
  pose proof (escape_length c). simpl. lia.
Qed.

(** Escaping loses nothing: reading the entities of an escaped text back gives
    the text. *)
Theorem escape_round_trip s : unescapeHtml (escapeHtml s) = s.
Proof. unfold unescapeHtml. rewrite escapeHtml_chars. apply unescape_escaped, escaped_longer. Qed.

(** ** Tokens in links *)
(** Characters a form leaves as they are, but the point. *)
Definition plain_char (c : ascii) : bool :=
  let n := nat_of_ascii c in
  (Nat.leb 48 n && Nat.leb n 57) || (Nat.leb 65 n && Nat.leb n 90) || (Nat.leb 97 n && Nat.leb n 122) ||
  Ascii.eqb c "-" || Ascii.eqb c "_".
Definition plain_text (s : string) : bool := forallb plain_char (String.list_ascii_of_string s).
Lemma plain_text_cons c s : plain_text (String c s) = plain_char c && plain_text s.
Proof. done. Qed.
Lemma plain_text_app a b : plain_text (a +:+ b) = plain_text a && plain_text b.
Proof.
  induction a as [|c a IH]; [done|]. change (String c a +:+ b) with (String c (a +:+ b)).
  by rewrite !plain_text_cons, IH, andb_assoc.
Qed.
Lemma plain_char_form c : plain_char c = true → form_char c = String c "".
Proof. by destruct c as [[] [] [] [] [] [] [] []]. Qed.
Lemma plain_form s : plain_text s = true → map_chars form_char s = s.
Proof.
  induction s as [|c s IH]; [done|]. rewrite plain_text_cons, map_chars_cons. intros [Hc Hs]%andb_true_iff.
  by rewrite plain_char_form, IH.
Qed.
Lemma plain_free c s : plain_char c = false → plain_text s = true → free_of c s.
Proof.
  unfold free_of. intros Hc. induction s as [|x s IH]; [done|]. rewrite plain_text_cons. intros [Hx Hs]%andb_true_iff. simpl.
  destruct (Ascii.eqb_spec x c) as [->|]; [congruence|]. by rewrite IH.
Qed.
Lemma base64url_digit_plain d : 0 ≤ d < 64 → plain_char (base64url_digit d) = true.
Proof.
  intros Hd. assert (forallb (λ n, plain_char (base64url_digit (Z.of_nat n))) (seq 0 64) = true) as Hall by (vm_compute; reflexivity).
  rewrite forallb_forall in Hall. specialize (Hall (Z.to_nat d)). rewrite Z2Nat.id in Hall by lia. apply Hall, List.in_seq. lia.
Qed.
Definition is_byte (b : Z) : Prop := 0 ≤ b < 256.
Lemma base64url_plain bytes : Forall is_byte bytes → plain_text (base64url bytes) = true.
Proof.
  remember (length bytes) as n eqn:Hn. revert bytes Hn. induction (lt_wf n) as [n _ IH]. intros bytes Hn Hb.
  assert (∀ x, 0 ≤ x < 16777216 → plain_char (base64url_digit (x / 262144)) = true ∧
    plain_char (base64url_digit (x / 4096 mod 64)) = true ∧ plain_char (base64url_digit (x / 64 mod 64)) = true ∧
    plain_char (base64url_digit (x mod 64)) = true) as Hdigits.
  { intros x Hx. split_and!; apply base64url_digit_plain; try (apply Z.mod_pos_bound; lia).
    split; [apply Z.div_pos|apply Z.div_lt_upper_bound]; lia. }
  destruct bytes as [|a [|b [|c rest]]]; [done|..].
  - rewrite Forall_cons in Hb. destruct Hb as [Hb _]. unfold is_byte in Hb. destruct (Hdigits (a * 65536)) as (H1&H2&_); [lia|].
    cbn [base64url]. by rewrite !plain_text_cons, H1, H2.
  - rewrite !Forall_cons in Hb. destruct Hb as (Ha&Hb&_). unfold is_byte in Ha, Hb.
    destruct (Hdigits (a * 65536 + b * 256)) as (H1&H2&H3&_); [lia|].
    cbn [base64url]. by rewrite !plain_text_cons, H1, H2, H3.
  - rewrite !Forall_cons in Hb. destruct Hb as (Ha&Hb&Hc&Hrest). unfold is_byte in Ha, Hb, Hc.
    destruct (Hdigits (a * 65536 + b * 256 + c)) as (H1&H2&H3&H4); [lia|].
    cbn [base64url]. rewrite !plain_text_cons, H1, H2, H3, H4. simpl in Hn.
    rewrite (IH (length rest)); [done|lia|done|done].
Qed.
Lemma hex_char_plain c : hex_char c = true → plain_char c = true.
Proof. by destruct c as [[] [] [] [] [] [] [] []]. Qed.
Lemma valid_id_plain id : valid_request_id id = true → plain_text id = true.
Proof.
  unfold valid_request_id. intros (prefix&Hin&H)%existsb_exists. unfold request_id_with in H.
  destruct (strip_prefix prefix id) as [rest|] eqn:E; [|done]. apply strip_prefix_Some in E as ->.
  apply andb_true_iff in H as [_ H]. rewrite plain_text_app. apply andb_true_iff. split.
  - destruct Hin as [<-|[<-|[<-|[]]]]; reflexivity.
  - unfold plain_text. rewrite forallb_forall in *. intros c Hc. apply hex_char_plain, H, Hc.
Qed.

(** ** The markup of a letter *)
Definition markup_char (c : ascii) : bool := Ascii.eqb c "<" || Ascii.eqb c ">" || Ascii.eqb c quote_char.
Definition markup (s : string) : list ascii := List.filter markup_char (String.list_ascii_of_string s).
Lemma markup_app a b : markup (a +:+ b) = markup a ++ markup b.
Proof.
  unfold markup. induction a as [|c a IH]; [done|]. change (String c a +:+ b) with (String c (a +:+ b)). simpl.
  destruct (markup_char c); simpl; by rewrite IH.
Qed.
Lemma markup_escaped s : markup (escapeHtml s) = [].
Proof.
  rewrite escapeHtml_chars. induction s as [|c s IH]; [done|]. rewrite map_chars_cons, markup_app, IH, app_nil_r.
  destruct c as [[] [] [] [] [] [] [] []]; reflexivity.
Qed.
(** The markup of the layout, with nothing filled in. *)
Definition skeleton : list ascii :=
  markup (layout_title +:+ layout_name +:+ layout_message +:+ layout_link +:+ layout_label +:+ layout_end).

Section letters.
Context (hmac_sha256 : string → string → list Z) (resolve_url : string → string → option string).
Notation render := (renderEmailTemplate hmac_sha256 resolve_url).

(** What a layout is made of. *)
Definition filled (title name message url label : string) : string :=
  layout_title +:+ escapeHtml title +:+ layout_name +:+ escapeHtml name +:+ layout_message +:+ escapeHtml message +:+
  layout_link +:+ escapeHtml url +:+ layout_label +:+ escapeHtml label +:+ layout_end.
Lemma filled_markup title name message url label : markup (filled title name message url label) = skeleton.
Proof. unfold filled, skeleton. rewrite !markup_app, !markup_escaped, !app_nil_l. reflexivity. Qed.
Lemma and_also_ok {A B} (m : exn + A) (f : A → exn + B) y : and_also m f = inr y → ∃ x, m = inr x ∧ f x = inr y.
Proof. destruct m as [e|x]; simpl; [done|]. eauto. Qed.
Lemma letter_filled name base subject title message action letter :
  letter_of resolve_url name base subject title message action = inr letter →
  letter.(re_subject) = subject ∧ ∃ url label, letter.(re_html) = filled title name message url label.
Proof.
  unfold letter_of, layout. intros (html&H&E)%and_also_ok. injection E as <-. split; [done|].
  apply and_also_ok in H as (url&_&E). injection E as <-. eexists _, _. reflexivity.
Qed.
Definition subjects : list string :=
  ["身份验证已通过 | KYC approved";
   "身份验证状态更新 | KYC status updated";
   "账户已激活 | Account activated";
   "验证您的客户邮箱 | Verify your email";
   "重置客户网上银行密码 | Reset your password";
   "客户密码已重置 | Password reset completed";
   "验证新的登录邮箱 | Verify new sign-in email";
   "虚拟账户申请已通过 | Virtual account approved";
   "虚拟账户申请状态更新 | Virtual account status updated"] ++
  map (λ copy, copy.2.1.1) securityCopy.

Lemma fixed_subject x : includes subjects x = true → x ∈ subjects.
Proof. apply includes_true. Qed.
(** Nothing a payload says becomes markup.  Whatever the name, the currency and
    the ids in the payload, and whatever the template and the portal's address, the
    markup characters of a rendered letter are those of the layout, in its order;
    its subject is one of the fixed subjects. *)
Theorem letter_markup_fixed key payload base secret letter : render key payload base secret = inr letter →
  markup letter.(re_html) = skeleton ∧ letter.(re_subject) ∈ subjects.
Proof.
  intros H. assert (∃ subject title name message url label, subject ∈ subjects ∧ letter.(re_subject) = subject ∧
    letter.(re_html) = filled title name message url label) as (subject&title&name&message&url&label&Hin&->&->); [|by rewrite filled_markup].
  unfold renderEmailTemplate in H. apply and_also_ok in H as (p&_&H).
  assert (∀ s t m a, s ∈ subjects → letter_of resolve_url p.(tp_displayName) base s t m a = inr letter →
    ∃ subject title name message url label, subject ∈ subjects ∧ letter.(re_subject) = subject ∧
    letter.(re_html) = filled title name message url label) as Hone.
  { intros s t m a Hs (Hsub&url&label&Hhtml)%letter_filled. by exists s, t, p.(tp_displayName), m, url, label. }
  repeat match type of H with (if ?b then _ else _) = inr _ => destruct b end.
  all: try (apply and_also_ok in H as (link&_&H); refine (Hone _ _ _ _ _ H); apply fixed_subject; vm_compute; reflexivity).
  all: try (refine (Hone _ _ _ _ _ H); apply fixed_subject; vm_compute; reflexivity).
  - destruct p.(tp_securityEvent) as [event|]; [|done]. destruct (negb _); [done|].
    destruct (List.find _ _) as [[name [[subject title] message]]|] eqn:Hfind; [|by destruct (includes _ _)].
    apply List.find_some in Hfind as [Hin _]. refine (Hone _ _ _ _ _ H). apply elem_of_app. right.
    apply list_elem_of_In. exact (List.in_map (λ copy, copy.2.1.1) _ _ Hin).
  - done.
Qed.

(** ** The links *)
Lemma linked_letter name base subject title message label url letter :
  letter_of resolve_url name base subject title message (Some (label, url)) = inr letter → truthy url = true → truthy label = true →
  letter.(re_html) = filled title name message url label.
Proof. unfold letter_of, layout. intros H Hu Hl. rewrite Hu, Hl in H. injection H as <-. reflexivity. Qed.
Lemma recovery_ok base route parameter purpose id secret url :
  recoveryUrl hmac_sha256 resolve_url base route parameter purpose id (Some secret) = inr url →
  ∃ requestId target, id = Some requestId ∧ valid_request_id requestId = true ∧ (32 ≤ String.length secret)%nat ∧
    resolve_url route base = Some target ∧
    url = target +:+ "#" +:+ form_text parameter (recovery_token hmac_sha256 purpose requestId secret).
Proof.
  unfold recoveryUrl. destruct id as [requestId|]; [|done]. destruct (negb (truthy _) || _) eqn:Hid; [done|].
  apply orb_false_iff in Hid as [_ Hid%negb_false_iff]. destruct (Nat.ltb_spec (String.length secret) 32); [done|].
  destruct (resolve_url route base) as [target|] eqn:Ht; [|done]. intros [= <-]. by exists requestId, target.
Qed.

(** The three letters with a link. *)
Record RecoveryLink := { rl_template : string; rl_route : string; rl_parameter : string; rl_purpose : string; rl_member : string }.
Definition recovery_links : list RecoveryLink :=
  [{| rl_template := "CUSTOMER_EMAIL_VERIFICATION"; rl_route := "/customer/verify-email"; rl_parameter := "verification_token";
      rl_purpose := "email-verification-v1"; rl_member := "verificationRequestId" |};
   {| rl_template := "CUSTOMER_PASSWORD_RESET_REQUESTED"; rl_route := "/customer/reset-password"; rl_parameter := "reset_token";
      rl_purpose := "password-reset-v1"; rl_member := "resetRequestId" |};
   {| rl_template := "CUSTOMER_EMAIL_CHANGE_VERIFICATION"; rl_route := "/customer/confirm-email-change";
      rl_parameter := "email_change_token"; rl_purpose := "email-change-v1"; rl_member := "emailChangeRequestId" |}].
(** The trimmed text of a payload's member. *)
Definition member_text (key : string) (payload : json) : option string := trim <$> json_str (json_get key (Some payload)).
Lemma optional_member_text l key code x : optional_member l key code = inr x → x = member_text key (JObj l).
Proof. unfold optional_member, member_text. simpl. destruct (assoc key l) as [[]|]; simpl; congruence. Qed.
Lemma payload_members payload p : payloadFromJson payload = inr p →
  p.(tp_verificationRequestId) = member_text "verificationRequestId" payload ∧
  p.(tp_resetRequestId) = member_text "resetRequestId" payload ∧
  p.(tp_emailChangeRequestId) = member_text "emailChangeRequestId" payload ∧
  member_text "displayName" payload = Some p.(tp_displayName).
Proof.
  unfold payloadFromJson. destruct payload as [| | | | |l]; try done. intros H.
  repeat (let E := fresh "E" in apply and_also_ok in H as (?&E&H)). injection H as <-. cbn.
  unfold member_text at 4. simpl. destruct (assoc "displayName" l) as [[]|]; try done. destruct (truthy _); [|done].
  injection E as <-. split_and!; try (by eapply optional_member_text). done.
Qed.
Definition recovery_letter (link : RecoveryLink) (payload : json) (base secret : string) (letter : RenderedEmail) : Prop :=
  ∃ title name message label requestId target, member_text link.(rl_member) payload = Some requestId ∧
    valid_request_id requestId = true ∧ (32 ≤ String.length secret)%nat ∧ resolve_url link.(rl_route) base = Some target ∧
    letter.(re_html) = filled title name message
      (target +:+ "#" +:+ form_text link.(rl_parameter) (recovery_token hmac_sha256 link.(rl_purpose) requestId secret)) label.
Lemma recovery_letter_ok link payload base secret letter : link ∈ recovery_links →
  render link.(rl_template) payload base (Some secret) = inr letter → recovery_letter link payload base secret letter.
Proof.
  intros Hin H. unfold renderEmailTemplate in H. apply and_also_ok in H as (p&Hp&H).
  apply payload_members in Hp as (Hv&Hr&Hc&_). unfold recovery_links in Hin. rewrite !elem_of_cons in Hin.
  destruct Hin as [->|[->|[->|[]%elem_of_nil]]]; cbn [rl_template rl_member rl_route rl_parameter rl_purpose String.eqb Ascii.eqb Bool.eqb] in H;
    apply and_also_ok in H as (url&Hurl&H); apply recovery_ok in Hurl as (id&target&Hid&Hvalid&Hlen&Htarget&->);
    apply linked_letter in H; [|by destruct target|done| |by destruct target|done| |by destruct target|done];
    eexists _, _, _, _, id, target; cbn [rl_member rl_route rl_parameter rl_purpose]; split_and!; try done; congruence.
Qed.

Lemma append_injective (p a b : string) : p +:+ a = p +:+ b → a = b.
Proof. induction p as [|c p IH]; [done|]. intros H. apply IH. by injection H. Qed.
Lemma recovery_message_injective link other requestId id : link ∈ recovery_links → other ∈ recovery_links →
  recovery_message other.(rl_purpose) id = recovery_message link.(rl_purpose) requestId → other = link ∧ id = requestId.
Proof.
  intros Hl Ho H. unfold recovery_message in H. apply append_injective in H.
  assert (∀ l, l ∈ recovery_links → free_of zero_byte l.(rl_purpose)) as Hfree.
  { intros l Hin. unfold recovery_links in Hin. rewrite !elem_of_cons in Hin. by destruct Hin as [->|[->|[->|[]%elem_of_nil]]]. }
  pose proof (split_char_app _ _ id (Hfree _ Ho)) as E1. pose proof (split_char_app _ _ requestId (Hfree _ Hl)) as E2.
  rewrite H, E2 in E1. injection E1 as Hp Hid. split; [|done]. clear -Hl Ho Hp. unfold recovery_links in *.
  rewrite !elem_of_cons in Hl, Ho.
  destruct Hl as [->|[->|[->|[]%elem_of_nil]]], Ho as [->|[->|[->|[]%elem_of_nil]]]; done.
Qed.

(** A recovery link is signed for one purpose and one request.  A letter that
    confirms an address, resets a password or confirms a new address is rendered
    only for a well-formed request id and a secret of at least 32 bytes; its link
    carries the token as it is, the request id before the point and the signature
    after it; and the text that is signed is that of no other purpose and of no
    other request, so a token of one kind does not serve for another. *)
Theorem recovery_link_signed link payload base secret letter :
  (∀ key text, Forall is_byte (hmac_sha256 key text)) → link ∈ recovery_links →
  render link.(rl_template) payload base (Some secret) = inr letter →
  ∃ requestId target, member_text link.(rl_member) payload = Some requestId ∧ valid_request_id requestId = true ∧
    (32 ≤ String.length secret)%nat ∧ resolve_url link.(rl_route) base = Some target ∧
    let token := recovery_token hmac_sha256 link.(rl_purpose) requestId secret in
    (∃ title name message label, letter.(re_html) = filled title name message
       (target +:+ "#" +:+ link.(rl_parameter) +:+ "=" +:+ token) label) ∧
    split_char "." token = Some (requestId, base64url (hmac_sha256 secret (recovery_message link.(rl_purpose) requestId))) ∧
    (∀ other id, other ∈ recovery_links →
       recovery_message other.(rl_purpose) id = recovery_message link.(rl_purpose) requestId → other = link ∧ id = requestId).
Proof.
  intros Hmac Hlink H. apply recovery_letter_ok in H as (title&name&message&label&id&target&Hid&Hvalid&Hlen&Htarget&Hhtml); [|done].
  exists id, target. cbv zeta. split_and!; try done.
  - exists title, name, message, label. rewrite Hhtml. unfold form_text. f_equal. f_equal. f_equal.
    rewrite (plain_form (rl_parameter link)).
    + unfold recovery_token. rewrite !map_chars_app, (plain_form id), (plain_form (base64url _)); [done| |by apply valid_id_plain].
      by apply base64url_plain.
    + clear -Hlink. unfold recovery_links in Hlink. rewrite !elem_of_cons in Hlink.
      by destruct Hlink as [->|[->|[->|[]%elem_of_nil]]].
  - unfold recovery_token. apply split_char_app. apply plain_free; [done|]. by apply valid_id_plain.
  - intros other id' Hother. by apply recovery_message_injective.
Qed.

(** ** The letters of the core *)
Definition core_templates : list string :=
  ["CUSTOMER_KYC_APPROVED"; "CUSTOMER_KYC_REJECTED"; "CUSTOMER_ACTIVATED"; "VIRTUAL_ACCOUNT_APPROVED"; "VIRTUAL_ACCOUNT_REJECTED"].
Lemma text_member_ok l key code : ∃ x, optional_member (map (λ kv, (kv.1, JStr kv.2)) l) key code = inr x.
Proof.
  unfold optional_member. induction l as [|kv l [x IH]]; [by eexists|]. cbn [map assoc fst snd].
  destruct (String.eqb key kv.1); [by eexists|]. by exists x.
Qed.
(** What [enqueueCustomerEmail] writes of a customer with a name is a letter. *)
Lemma core_letter_renders key name more base secret portal :
  key ∈ core_templates → truthy (trim name) = true → (∀ kv, kv ∈ more → kv.1 = "currency") →
  resolve_url "/customer/login" base = Some portal →
  ∃ letter, render key (JObj (map (λ kv, (kv.1, JStr kv.2)) (("displayName", name) :: more))) base secret = inr letter.
Proof.
  intros Hkey Hname Hmore Hportal.
  assert (∃ p, payloadFromJson (JObj (map (λ kv, (kv.1, JStr kv.2)) (("displayName", name) :: more))) = inr p) as [p Hp].
  { unfold payloadFromJson. cbn [map fst snd assoc String.eqb Ascii.eqb Bool.eqb]. rewrite Hname. cbn [and_also].
    assert (∀ k, k ≠ "currency" → k ≠ "displayName" → assoc k (map (λ kv, (kv.1, JStr kv.2)) (("displayName", name) :: more)) = None) as Hnone.
    { intros k Hk Hd. cbn [map fst snd assoc]. rewrite (proj2 (String.eqb_neq _ _) Hd). clear -Hmore Hk.
      induction more as [|kv more IH]; [done|]. cbn [map assoc fst]. rewrite (proj2 (String.eqb_neq k kv.1)).
      - apply IH. intros x Hx. apply Hmore. by right.
      - rewrite (Hmore kv) by left. done. }
    destruct (text_member_ok (("displayName", name) :: more) "currency" "invalid_email_template_currency") as [currency Hcurrency].
    cbn [map fst snd] in Hnone, Hcurrency. rewrite Hcurrency. cbn [and_also]. unfold optional_member.
    rewrite !Hnone by (intros [=]). by eexists. }
  assert (∀ s t m, ∃ letter, letter_of resolve_url p.(tp_displayName) base s t m None = inr letter) as Hletter
    by (intros s t m; unfold letter_of, layout; rewrite Hportal; by eexists).
  unfold renderEmailTemplate. rewrite Hp. cbn [and_also]. unfold core_templates in Hkey. rewrite !elem_of_cons in Hkey.
  destruct Hkey as [->|[->|[->|[->|[->|[]%elem_of_nil]]]]]; cbn [String.eqb Ascii.eqb Bool.eqb]; apply Hletter.
Qed.
End letters.

(** ** Witnesses *)
Definition sample_resolve (route base : string) : option string := Some (base +:+ route).
Definition sample_secret : string := "0123456789abcdef0123456789abcdef".
Definition sample_letter_mac (_ _ : string) : list Z := repeat 255 32.
Definition sample_request_id : string := "email_verify_0123456789abcdef0123456789abcdef".
Definition sample_payload : json :=
  JObj [("displayName", JStr " <b>Ann & 'Bo' "); ("verificationRequestId", JStr sample_request_id)].
Definition sample_link : RecoveryLink := nth 0 recovery_links (Build_RecoveryLink "" "" "" "" "").
Definition sample_rendered : exn + RenderedEmail :=
  renderEmailTemplate sample_letter_mac sample_resolve sample_link.(rl_template) sample_payload "https://portal.example" (Some sample_secret).
Lemma sample_letter_rendered : ∃ letter, sample_rendered = inr letter.
Proof.
  assert (match sample_rendered with inr _ => true | inl _ => false end = true) as H by (vm_compute; reflexivity).
  destruct sample_rendered as [|letter]; [discriminate H|]. by exists letter.
Qed.
Lemma letter_markup_fixed_witness : ∃ letter, sample_rendered = inr letter ∧ markup letter.(re_html) = skeleton.
Proof.
  destruct sample_letter_rendered as [letter H]. exists letter. split; [exact H|]. unfold sample_rendered in H.
  destruct (letter_markup_fixed _ _ _ _ _ _ _ H) as [Hm _]. exact Hm.
Defined.
Lemma recovery_link_signed_witness : ∃ letter requestId, sample_rendered = inr letter ∧ requestId = sample_request_id ∧
  ∃ title name message label, letter.(re_html) = filled title name message
    ("https://portal.example/customer/verify-email" +:+ "#" +:+ "verification_token" +:+ "=" +:+
     recovery_token sample_letter_mac "email-verification-v1" requestId sample_secret) label.
Proof.
  destruct sample_letter_rendered as [letter H]. unfold sample_rendered in H.
  destruct (recovery_link_signed sample_letter_mac sample_resolve sample_link sample_payload "https://portal.example" sample_secret letter)
    as (id&target&Hid&_&_&Htarget&Hhtml&_).
  - intros key text. apply Forall_forall. intros x Hx. apply list_elem_of_In, List.repeat_spec in Hx as ->. unfold is_byte. lia.
  - left.
  - exact H.
  - exists letter, id. split; [exact H|]. split; [vm_compute in Hid; injection Hid as <-; reflexivity|].
    assert (target = "https://portal.example/customer/verify-email") as -> by (vm_compute in Htarget; injection Htarget as <-; reflexivity). exact Hhtml.
Defined.
Example name_escaped : match sample_rendered with inr letter => contains "&lt;b&gt;Ann &amp; &#039;Bo&#039;，" letter.(re_html) | inl _ => false end = true.
Proof. vm_compute. reflexivity. Qed.
