(* ===== verification/EmailProperties.v ===== *)
(** Correctness of the delivery of e-mail: a claimed letter is sent, tried again
    later or given up, every failed attempt counts, and a letter that is sent or
    given up stays as it is. *)
From S2P Require Import Prelude Decimals Schema Access Ledger WithdrawalFees Operations OperationEffects OperationCreation Samples Customers EmailWorker.
From stdpp Require Import sorting.
#[local] Open Scope Z_scope.

Definition mail_final (m : EmailOutbox) : Prop := m.(mail_status) = ED_SENT ∨ m.(mail_status) = ED_DEAD.
(** A letter still to be delivered has attempts left. *)
Definition mail_ok (m : EmailOutbox) : Prop :=
  0 ≤ m.(mail_attemptCount) ≤ m.(mail_maxAttempts) ∧
  (¬ mail_final m → m.(mail_attemptCount) < m.(mail_maxAttempts)).
(** The attempts a letter can still fail. *)
Definition remaining (m : EmailOutbox) : Z :=
  if bool_decide (m.(mail_status) = ED_SENT ∨ m.(mail_status) = ED_DEAD) then 0
  else m.(mail_maxAttempts) - m.(mail_attemptCount).
Definition same_letter (m m' : EmailOutbox) : Prop :=
  m'.(mail_organizationId) = m.(mail_organizationId) ∧ m'.(mail_customerId) = m.(mail_customerId) ∧
  m'.(mail_dedupeKey) = m.(mail_dedupeKey) ∧ m'.(mail_templateKey) = m.(mail_templateKey) ∧
  m'.(mail_recipient) = m.(mail_recipient) ∧ m'.(mail_payload) = m.(mail_payload) ∧
  m'.(mail_maxAttempts) = m.(mail_maxAttempts).

(** What the worker may do to a letter. *)
Record mail_moves (m m' : EmailOutbox) : Prop := {
  mm_letter : same_letter m m';
  mm_final : mail_final m → m' = m;
  mm_count : m.(mail_attemptCount) ≤ m'.(mail_attemptCount);
  mm_ok : mail_ok m → mail_ok m' ∧ remaining m' ≤ remaining m;
}.
#[global] Instance mail_moves_refl : Reflexive mail_moves.
Proof. intros m. split; [by split_and!|done|lia|]. intros H. split; [done|lia]. Qed.
#[global] Instance mail_moves_trans : Transitive mail_moves.
Proof.
  intros a b c [L1 F1 C1 O1] [L2 F2 C2 O2]. split.
  - unfold same_letter in *. intuition congruence.
  - intros Ha. rewrite (F1 Ha) in *. by apply F2.
  - lia.
  - intros Ha. destruct (O1 Ha) as [Hb Hr]. destruct (O2 Hb). split; [done|lia].
Qed.

(** A change of a letter that is not final, to a status that is not final either,
    and not of its attempts. *)
Lemma mail_moves_open m m' :
  same_letter m m' → ¬ mail_final m → ¬ mail_final m' → m'.(mail_attemptCount) = m.(mail_attemptCount) → mail_moves m m'.
Proof.
  intros L Hm Hm' Hc. split; [done|done|lia|]. intros [Hr Hlt]. destruct L as (_&_&_&_&_&_&Hmax).
  unfold mail_ok, remaining. rewrite !bool_decide_false by done. rewrite Hc, Hmax. auto with lia.
Qed.
Lemma processing_open m : m.(mail_status) = ED_PROCESSING → ¬ mail_final m.
Proof. unfold mail_final. intros ->. naive_solver. Qed.
Lemma pending_open m : m.(mail_status) = ED_PENDING → ¬ mail_final m.
Proof. unfold mail_final. intros ->. naive_solver. Qed.

(** ** The outbox as a whole *)
Definition outbox_moves (s s' : Db) : Prop :=
  ∀ k, match s.(outbox) !! k, s'.(outbox) !! k with
       | Some m, Some m' => mail_moves m m'
       | None, None => True
       | _, _ => False
       end.
#[global] Instance outbox_moves_refl : Reflexive outbox_moves.
Proof. intros s k. by destruct (outbox s !! k). Qed.
#[global] Instance outbox_moves_trans : Transitive outbox_moves.
Proof.
  intros s1 s2 s3 H1 H2 k. specialize (H1 k). specialize (H2 k).
  destruct (outbox s1 !! k), (outbox s2 !! k), (outbox s3 !! k); try done. by etrans.
Qed.

(** A statement over the outbox runs and maps the rows it matches. *)
Lemma outbox_where p f s : ∃ n s', outbox_updateWhere p f s = inr (n, s') ∧
  ∀ k, s'.(outbox) !! k = (λ m, if p (k, m) then f m else m) <$> s.(outbox) !! k.
Proof.
  unfold outbox_updateWhere.
  destruct (update_many outbox set_outbox no_check "EmailOutbox" p f s) as [e|[n s']] eqn:H.
  - unfold update_many in H. assert (forallb (λ kv, no_check s kv.2 (f kv.2)) (find_many p s.(outbox)) = true) as Ht.
    { apply forallb_forall. done. } by rewrite Ht in H.
  - apply update_many_ok in H as (m&->&_&Hm). by exists n, (set_outbox m s).
Qed.
Lemma where_moves p f s n s' :
  outbox_updateWhere p f s = inr (n, s') → (∀ k m, p (k, m) = true → mail_moves m (f m)) →
  outbox_moves s s' ∧ ∀ k, s'.(outbox) !! k = (λ m, if p (k, m) then f m else m) <$> s.(outbox) !! k.
Proof.
  intros H Hf. destruct (outbox_where p f s) as (n'&s1&H'&Hk). rewrite H in H'. injection H' as <- <-.
  split; [|done]. intros k. rewrite Hk. destruct (outbox s !! k) as [m|]; [|done]. simpl.
  destruct (p (k, m)) eqn:E; [by eapply Hf|done].
Qed.

(** ** Claims *)
Definition lock_mail (now : Z) (m : EmailOutbox) : EmailOutbox :=
  set_mail_lockedAt (Some now) (set_mail_status ED_PROCESSING m).
Lemma due_mail_spec now locked s k m :
  (k, m) ∈ due_mail now locked s → s.(outbox) !! k = Some m ∧ m.(mail_status) = ED_PENDING.
Proof.
  unfold due_mail. intros (i&Hi&_)%elem_of_take. apply list_elem_of_lookup_2 in Hi.
  rewrite merge_sort_Permutation in Hi. apply find_many_elem in Hi as [Hk Hd]. split; [done|].
  unfold mail_due, mail_in in Hd. rewrite !andb_true_iff, same_true in Hd. tauto.
Qed.
Lemma find_many_keys {V} (p : string * V → bool) (m : gmap string V) : NoDup (map fst (find_many p m)).
Proof.
  unfold find_many. apply NoDup_ListNoDup. pose proof (NoDup_fst_map_to_list m) as H.
  induction (map_to_list m) as [|x l IH]; simpl; [constructor|].
  apply NoDup_cons in H as [Hx H]. destruct (p x); simpl; [|by apply IH].
  constructor; [|by apply IH]. intros Hin. apply Hx. apply list_elem_of_In in Hin.
  apply list_elem_of_fmap in Hin as (y&->&Hy). apply list_elem_of_fmap. exists y. split; [done|].
  apply list_elem_of_In in Hy. apply List.filter_In in Hy as [Hy _]. by apply list_elem_of_In.
Qed.
Lemma due_mail_NoDup now locked s : NoDup (map fst (due_mail now locked s)).
Proof.
  unfold due_mail. set (l := merge_sort mail_older _). enough (NoDup (map fst l)) as Hn.
  { rewrite <- (take_drop EMAIL_BATCH_SIZE l), map_app in Hn. by apply NoDup_app in Hn as [? _]. }
  unfold l. rewrite merge_sort_Permutation. apply find_many_keys.
Qed.

(** The rows of a claim: processing now, as they were but for the claim. *)
Definition in_hand (s : Db) (row : string * EmailOutbox) : Prop :=
  ∃ m, s.(outbox) !! row.1 = Some m ∧ m.(mail_status) = ED_PROCESSING ∧
       m.(mail_attemptCount) = row.2.(mail_attemptCount) ∧ m.(mail_maxAttempts) = row.2.(mail_maxAttempts).

Lemma claim_mail_ok now locked s : ∃ rows s1, claimMailBatch now locked s = inr (rows, s1) ∧
  (length rows ≤ EMAIL_BATCH_SIZE)%nat ∧ NoDup (map fst rows) ∧ outbox_moves s s1 ∧ Forall (in_hand s1) rows ∧
  ∀ k m, (k, m) ∈ rows → m.(mail_status) = ED_PENDING ∧ ∃ m0, s.(outbox) !! k = Some m0 ∧ mail_moves m0 m.
Proof.
  unfold claimMailBatch.
  destruct (outbox_where (mail_stale now) (requeue now) s) as (n1&s1&H1&_).
  destruct (where_moves _ _ _ _ _ H1) as [Hm1 _].
  { intros k m Hst. unfold mail_stale, mail_in in Hst. rewrite andb_true_iff, same_true in Hst. simpl in Hst.
    apply mail_moves_open; [by split_and!|apply processing_open; tauto|by apply pending_open|done]. }
  set (rows := due_mail now locked s1).
  destruct (outbox_where (λ km, includes (map fst rows) km.1 && mail_in ED_PENDING km.2) (lock_mail now) s1) as (n2&s2&H2&_).
  destruct (where_moves _ _ _ _ _ H2) as [Hm2 Hk2].
  { intros k m Hp. unfold mail_in in Hp. simpl in Hp. rewrite andb_true_iff, same_true in Hp.
    apply mail_moves_open; [by split_and!|apply pending_open; tauto|by apply processing_open|done]. }
  exists rows, s2. rewrite (bind_run _ _ _ _ _ H1). run gets_run. fold rows. unfold lock_mail in H2.
  rewrite (bind_run _ _ _ _ _ H2). split_and!.
  - done.
  - unfold rows, due_mail. rewrite length_take. lia.
  - apply due_mail_NoDup.
  - by etrans.
  - apply Forall_forall. intros [k m] Hin. destruct (due_mail_spec _ _ _ _ _ Hin) as [Hk Hst].
    exists (lock_mail now m). simpl. rewrite Hk2, Hk. simpl. unfold mail_in. rewrite (proj2 (same_true _ _) Hst), andb_true_r.
    rewrite (proj2 (includes_true _ _)); [done|]. apply list_elem_of_fmap. by exists (k, m).
  - intros k m Hin. destruct (due_mail_spec _ _ _ _ _ Hin) as [Hk Hst]. split; [done|].
    specialize (Hm1 k). rewrite Hk in Hm1. destruct (outbox s !! k) as [m0|]; [|done]. by exists m0.
Qed.

(** ** Deliveries *)
(** The row a delivery leaves: sent, dead or pending again. *)
Definition delivered (now : Z) (outcome : MailError + option string) (row m : EmailOutbox) : EmailOutbox :=
  match outcome with
  | inr messageId => mail_sent now messageId m
  | inl e => mail_failed now row (normalizeMailError e).1 (normalizeMailError e).2 m
  end.

Lemma delivered_moves now outcome row m :
  m.(mail_status) = ED_PROCESSING → m.(mail_attemptCount) = row.(mail_attemptCount) →
  m.(mail_maxAttempts) = row.(mail_maxAttempts) →
  mail_moves m (delivered now outcome row m) ∧
  (mail_ok m → remaining (delivered now outcome row m) < remaining m).
Proof.
  intros Hp Hc Hmax. pose proof (processing_open m Hp) as Hopen.
  assert (mail_ok m → mail_ok (delivered now outcome row m) ∧ remaining (delivered now outcome row m) < remaining m) as Hdec.
  { intros [Hr Hlt]. specialize (Hlt Hopen). unfold mail_ok, remaining at 2. rewrite bool_decide_false by done.
    unfold delivered. destruct outcome as [e|mid].
    - unfold remaining, mail_failed, mail_dead, mail_final. simpl. rewrite Hmax, Hc in *.
      destruct (negb _ || _) eqn:E; simpl.
      + split; [split; [lia|]|lia]. intros Hn. destruct Hn. by right.
      + apply orb_false_iff in E as [_ E]. apply Z.leb_gt in E. split; [split; [lia|intros _; lia]|lia].
    - unfold remaining, mail_sent, mail_final. simpl. split; [split; [lia|]|lia]. intros Hn. destruct Hn. by left. }
  split; [|intros Hok; by apply Hdec]. split.
  - destruct outcome; by split_and!.
  - done.
  - destruct outcome as [e|mid]; simpl; lia.
  - intros Hok. destruct (Hdec Hok). split; [done|lia].
Qed.

(** A delivery runs, and touches its own row only. *)
Lemma deliver_runs now outcome row s : in_hand s row →
  ∃ s' m, deliver now outcome row s = inr (tt, s') ∧ s.(outbox) !! row.1 = Some m ∧
    m.(mail_status) = ED_PROCESSING ∧ m.(mail_attemptCount) = row.2.(mail_attemptCount) ∧
    m.(mail_maxAttempts) = row.2.(mail_maxAttempts) ∧
    s'.(outbox) = <[row.1 := delivered now outcome row.2 m]> s.(outbox).
Proof.
  intros (m&Hm&Hp&Hc&Hmax). unfold deliver, outbox_updateMany, update_many_id, bind. rewrite Hm.
  unfold mail_in. rewrite (proj2 (same_true _ _) Hp). unfold no_check, ret. eexists _, m. split; [done|].
  split_and!; try done. simpl. unfold delivered. destruct outcome as [e|mid]; [|done]. by destruct (normalizeMailError e).
Qed.

Lemma in_hand_insert s s' row m j :
  in_hand s row → row.1 ≠ j → s'.(outbox) = <[j := m]> s.(outbox) → in_hand s' row.
Proof. intros (m0&Hm&H) Hne Hs. exists m0. by rewrite Hs, lookup_insert_ne. Qed.

(** The loop: what it does to the outbox, and to the rows when it is not stopped. *)
Lemma deliver_rows_ok call stopping rows : ∀ i cache s,
  NoDup (map fst rows) → Forall (in_hand s) rows →
  let s' := (deliver_rows call stopping i rows cache s).2 in
  outbox_moves s s' ∧
  ((∀ j, stopping j = false) → ∀ row m, row ∈ rows → s.(outbox) !! row.1 = Some m → mail_ok m →
     ∃ m', s'.(outbox) !! row.1 = Some m' ∧ remaining m' < remaining m).
Proof.
  induction rows as [|row rows IH]; intros i cache s Hnd Hin; simpl.
  { split; [done|]. intros _ row m Hr. by apply elem_of_nil in Hr. }
  destruct (stopping i) eqn:Hstop.
  { simpl. split; [|intros Hn; congruence]. unfold release_mail.
    destruct (outbox_where (λ km, includes (fst row :: map fst rows) km.1 && mail_in ED_PROCESSING km.2) (requeue (mc_now (call i))) s)
      as (n&s1&H1&_). rewrite (bind_run _ _ _ _ _ H1). simpl.
    destruct (where_moves _ _ _ _ _ H1) as [Hm _]; [|done].
    intros k m Hp. unfold mail_in in Hp. simpl in Hp. rewrite andb_true_iff, same_true in Hp.
    apply mail_moves_open; [by split_and!|apply processing_open; tauto|by apply pending_open|done]. }
  apply NoDup_cons in Hnd as [Hni Hnd]. apply Forall_cons in Hin as [Hrow Hin].
  destruct (send (mc_now (call i)) (mc_prepared (call i)) (mc_script (call i)) cache) as [cache' outcome].
  destruct (deliver_runs (mc_now (call i)) outcome row s Hrow) as (s1&m&->&Hm&Hp&Hc&Hmax&Hs1).
  destruct (delivered_moves (mc_now (call i)) outcome row.2 m Hp Hc Hmax) as [Hmove Hdec].
  assert (Forall (in_hand s1) rows) as Hin1.
  { apply Forall_forall. intros r Hr. rewrite Forall_forall in Hin. eapply in_hand_insert; [by apply Hin| |apply Hs1].
    intros Heq. apply Hni. rewrite <- Heq. apply list_elem_of_fmap. eauto. }
  assert (outbox_moves s s1) as Hs01.
  { intros k. rewrite Hs1. destruct (decide (row.1 = k)) as [<-|Hne].
    - by rewrite lookup_insert_eq, Hm.
    - rewrite lookup_insert_ne by done. by destruct (outbox s !! k). }
  destruct (IH (S i) cache' s1 Hnd Hin1) as [Hrest Hall]. split; [by etrans|].
  intros Hgo r m0 Hr Hm0 Hok. apply elem_of_cons in Hr as [->|Hr].
  - rewrite Hm in Hm0. injection Hm0 as <-. specialize (Hdec Hok). specialize (Hrest row.1).
    rewrite Hs1, lookup_insert_eq in Hrest. destruct (outbox (deliver_rows _ _ _ _ _ _).2 !! row.1) as [m'|]; [|done].
    exists m'. split; [done|]. destruct Hrest as [_ _ _ Ho]. destruct Hmove as [_ _ _ Ho1].
    destruct (Ho (proj1 (Ho1 Hok))). lia.
  - apply (Hall Hgo r m0 Hr); [|done]. rewrite Hs1, lookup_insert_ne; [done|].
    intros Heq. apply Hni. rewrite Heq. apply list_elem_of_fmap. eauto.
Qed.

(** The delivery of a letter comes to an end.  A run of the worker, whatever
    the provider answers and whenever it is stopped, takes at most ten letters; it
    changes no letter's addressee or text, leaves a letter that is sent or dead as
    it is and never exceeds a letter's attempts; and when it is not stopped, every
    letter it claimed has strictly fewer attempts remaining than before, so that
    after as many runs as it has attempts a letter is sent or dead. *)
Theorem mail_attempts_bounded now locked call stopping cache s cache' s' n :
  map_Forall (λ _ m, mail_ok m) s.(outbox) →
  processMailBatch now locked call stopping cache s = (cache', s', n) →
  map_Forall (λ _ m, mail_ok m) s'.(outbox) ∧ (n ≤ 10)%nat ∧
  (∀ k m, s.(outbox) !! k = Some m → ∃ m', s'.(outbox) !! k = Some m' ∧ same_letter m m' ∧
     (mail_final m → m' = m) ∧ m'.(mail_attemptCount) ≤ m.(mail_maxAttempts) ∧ remaining m' ≤ remaining m) ∧
  ((∀ i, stopping i = false) → ∃ rows s1, claimMailBatch now locked s = inr (rows, s1) ∧ length rows = n ∧
     ∀ k r, (k, r) ∈ rows → ∃ m m', s.(outbox) !! k = Some m ∧ s'.(outbox) !! k = Some m' ∧ remaining m' < remaining m) ∧
  (∀ m, mail_ok m → 0 ≤ remaining m ∧ (remaining m = 0 ↔ mail_final m)).
Proof.
  intros Hok H. unfold processMailBatch in H.
  destruct (claim_mail_ok now locked s) as (rows&s1&Hc&Hlen&Hnd&Hm1&Hhand&Hrows). rewrite Hc in H.
  destruct (deliver_rows_ok call stopping rows 0 cache s1 Hnd Hhand) as [Hm2 Hall].
  destruct (deliver_rows call stopping 0 rows cache s1) as [c2 s2]. injection H as <- <- <-. simpl in *.
  assert (outbox_moves s s2) as Hm by (by etrans).
  assert (∀ k m, s.(outbox) !! k = Some m → ∃ m', s2.(outbox) !! k = Some m' ∧ mail_moves m m') as Hrow.
  { intros k m Hk. specialize (Hm k). rewrite Hk in Hm. destruct (outbox s2 !! k) as [m'|]; [|done]. by exists m'. }
  split_and!.
  - intros k m' Hk. specialize (Hm k). rewrite Hk in Hm. destruct (outbox s !! k) as [m|] eqn:E; [|done].
    apply (mm_ok _ _ Hm), (Hok k m E).
  - unfold EMAIL_BATCH_SIZE in Hlen. lia.
  - intros k m Hk. destruct (Hrow k m Hk) as (m'&Hk'&[L F C O]). exists m'. pose proof (Hok k m Hk) as Hokm.
    simpl in Hokm. destruct (O Hokm) as [[[_ ?] _] ?]. split_and!; try done.
    destruct L as (_&_&_&_&_&_&Hmax). lia.
  - intros Hgo. exists rows, s1. split_and!; [done|done|]. intros k r Hin.
    destruct (Hrows k r Hin) as (_&m&Hk&_). rewrite Forall_forall in Hhand. destruct (Hhand _ Hin) as (m1&Hk1&_). simpl in Hk1.
    specialize (Hm1 k). rewrite Hk, Hk1 in Hm1. destruct (mm_ok _ _ Hm1 (Hok k m Hk)) as [Hok1 Hle].
    destruct (Hall Hgo (k, r) m1 Hin Hk1 Hok1) as (m'&Hk'&Hlt). exists m, m'. split_and!; [done|done|]. lia.
  - intros m [Hr Hlt]. unfold remaining. case_bool_decide as Hf; [split; [lia|done]|]. specialize (Hlt Hf).
    split; [lia|]. split; [lia|done].
Qed.

(** ** Witness *)
Definition letter0 : EmailOutbox :=
  MkEmailOutbox "org" "cus" "customer:cus:activated" "CUSTOMER_ACTIVATED" "c@example.com" [("displayName", "C")]
    ED_PENDING 4 5 0 None None None None None 0.
Definition db_letter : Db := set_outbox {[ "customer:cus:activated" := letter0 ]} db0.
Definition refusing_call (_ : nat) : MailCall :=
  {| mc_now := now0; mc_prepared := None;
     mc_script := {| ms_token := TokenHttp 503; ms_send := SendThrows TimeoutError; ms_token2 := TokenNetworkError;
                     ms_send2 := SendThrows OtherError |} |}.
Definition mail_run : option CachedToken * Db * nat :=
  processMailBatch now0 (λ _, false) refusing_call (λ _, false) None db_letter.
Lemma mail_attempts_bounded_witness :
  mail_status <$> mail_run.1.2.(outbox) !! "customer:cus:activated" = Some ED_DEAD ∧ mail_run.2 = 1%nat ∧
  map_Forall (λ _ m, mail_ok m) mail_run.1.2.(outbox).
Proof.
  assert (map_Forall (λ _ m, mail_ok m) db_letter.(outbox)) as Hok.
  { apply map_Forall_singleton. split; simpl; [lia|]. intros _. lia. }
  assert (mail_run = (mail_run.1.1, mail_run.1.2, mail_run.2)) as H by (by destruct mail_run as [[? ?] ?]).
  unfold mail_run in H at 1. destruct (mail_attempts_bounded _ _ _ _ _ _ _ _ _ Hok H) as (Hok'&_).
  split; [runs|]. split; [runs|]. exact Hok'.
Defined.
