(* ===== verification/WithdrawalWorker.v ===== *)
(** [WithdrawalAccountingWorker]
    ([server/src/deposit-accounting/withdrawal-accounting.worker.ts]): the queue
    [cregis_withdrawal_accounting] drives each custody withdrawal through
    reservation, approval, and settlement or release.  A phase is a serializable
    transaction over the ledger and its queue row; around it the worker claims
    due rows, retries serialization failures and records the others. *)
From stdpp Require Import sorting.
From S2P Require Import Prelude Decimals Schema Access Ledger WithdrawalFees Operations TronAddress CryptoWallets Customers.
From Stdlib Require Import Ascii.
#[local] Open Scope Z_scope.

Definition BATCH_SIZE : nat := 10.
Definition MAX_ATTEMPTS : Z := 8.
Definition STALE_LOCK_MS : Z := 5 * 60 * 1000.
Definition RETRY_DELAYS_MS : list Z := [5000; 15000; 60000; 5 * 60000; 15 * 60000].

(** The CHECK constraints of [cregis_withdrawal_accounting] on the columns the
    worker writes. *)
Definition queue_statuses : list string :=
  ["held"; "pending_reservation"; "reserving"; "reserved"; "pending_approval"; "approving"; "approved";
   "pending_release"; "releasing"; "released"; "pending_settlement"; "settling"; "settled"; "exception"].
Definition queue_check (a : WithdrawalAccounting) : bool :=
  includes queue_statuses a.(wa_status) && (0 <=? a.(wa_attempt_count)) &&
  Bool.eqb (is_some a.(wa_core_operation_id)) (is_some a.(wa_core_transfer_id)) &&
  (if String.eqb a.(wa_status) "settled"
   then is_some a.(wa_posted_at) && is_none a.(wa_released_at) && is_some a.(wa_core_operation_id)
   else if String.eqb a.(wa_status) "released" then is_some a.(wa_released_at) && is_none a.(wa_posted_at)
   else is_none a.(wa_posted_at) && is_none a.(wa_released_at)).

(** [UPDATE cregis_withdrawal_accounting SET .. WHERE withdrawal_id=.. AND ..]:
    the number of rows changed. *)
Definition queue_update : string → (WithdrawalAccounting → bool) →
    (WithdrawalAccounting → WithdrawalAccounting) → M Db Z :=
  update_many_id withdrawalQueue set_withdrawalQueue (λ _ _ a, queue_check a)
    "cregis_withdrawal_accounting_check".
Definition queue_updateWhere : (string * WithdrawalAccounting → bool) →
    (WithdrawalAccounting → WithdrawalAccounting) → M Db Z :=
  update_many withdrawalQueue set_withdrawalQueue (λ _ _ a, queue_check a)
    "cregis_withdrawal_accounting_check".
Definition in_status (status : string) (a : WithdrawalAccounting) : bool := String.eqb a.(wa_status) status.

(** ** The queue's states *)
Definition processing_statuses : list string := ["reserving"; "approving"; "releasing"; "settling"].
Definition pending_statuses : list string :=
  ["pending_reservation"; "pending_approval"; "pending_release"; "pending_settlement"].

(** [processingStatus] and [pendingStatus] *)
Definition processing_of (status : string) : option string :=
  match status with
  | "pending_reservation" => Some "reserving"
  | "pending_approval" => Some "approving"
  | "pending_release" => Some "releasing"
  | "pending_settlement" => Some "settling"
  | _ => None
  end.
Definition pending_of (status : string) : option string :=
  match status with
  | "reserving" => Some "pending_reservation"
  | "approving" => Some "pending_approval"
  | "releasing" => Some "pending_release"
  | "settling" => Some "pending_settlement"
  | _ => None
  end.
Definition processingStatus (status : string) : M Db string :=
  require (processing_of status) (AccountingError "withdrawal_queue_status_invalid" false).
Definition pendingStatus (status : string) : M Db string :=
  require (pending_of status) (AccountingError "withdrawal_processing_status_invalid" false).

Inductive DirectWithdrawalAccountingAction := reserve_action | approve_action | release_action | settle_action.
#[global] Instance DirectWithdrawalAccountingAction_eq_dec : EqDecision DirectWithdrawalAccountingAction.
Proof. solve_decision. Defined.

Record DirectWithdrawalAccountingResult := {
  dr_status : string;
  dr_retryable : bool;
  dr_idempotent : bool;
}.

(** The [states] table of [processDirect]: pending, processing, completed. *)
Definition direct_states (action : DirectWithdrawalAccountingAction) : string * string * string :=
  match action with
  | reserve_action => ("pending_reservation", "reserving", "reserved")
  | approve_action => ("pending_approval", "approving", "approved")
  | release_action => ("pending_release", "releasing", "released")
  | settle_action => ("pending_settlement", "settling", "settled")
  end.

(** ** Errors *)

(** [isSerializableConflict], [normalizeError] *)
Definition isSerializableConflict (e : exn) : bool :=
  match e with PrismaKnown code _ => String.eqb code "P2034" | _ => false end.
Definition normalizeError (e : exn) : string * bool :=
  match e with
  | AccountingError code retryable => (code, retryable)
  | _ => if isSerializableConflict e then ("withdrawal_serialization_conflict", true)
         else ("withdrawal_accounting_unavailable", true)
  end.

(** [withSerializableRetry]: [faults] are the commit failures the database
    reports, attempt by attempt. *)
Fixpoint retry_from {A} (lastError : exn) (attempts : nat) (faults : list (option exn)) (m : M Db A) : M Db A :=
  match attempts with
  | O => throw lastError
  | S attempts' =>
      try_catch (transaction (default None (head faults)) m)
        (λ caught, if isSerializableConflict caught then retry_from caught attempts' (tail faults) m
                   else throw caught)
  end.
Definition withSerializableRetry {A} (faults : list (option exn)) (m : M Db A) : M Db A :=
  retry_from (PlainError "undefined") 3 faults m.

(** [date] *)
Definition required_date {JD : JsDates} (value : option string) (code : string) : M Db Z :=
  match value with
  | Some text => if truthy text then require (date_parse text) (AccountingError code false)
                 else throw (AccountingError code false)
  | None => throw (AccountingError code false)
  end.

(** ** The row a phase works on *)
Record WithdrawalRow := {
  wr_id : string;
  wr_queue : WithdrawalAccounting;
  wr_custody : CregisWithdrawal;
  wr_wallet : CregisWallet;
  wr_customer : SourceCustomer;
  wr_callback_rejected : bool;
  wr_callback_failed : bool;
  wr_callback_completed : bool;
}.

(** [EXISTS (SELECT 1 FROM cregis_callback_events ..)] *)
Definition callback_seen (cid : option string) (statuses : list string) (events : list CallbackEvent) : bool :=
  existsb (λ e, String.eqb e.(cb_event_type) "payout" && opt_eqb cid (Some e.(cb_cregis_cid)) &&
                includes statuses e.(cb_status)) events.

Definition load_row (s : Db) (id status : string) : option WithdrawalRow :=
  a ← s.(withdrawalQueue) !! id;
  x ← s.(custodyWithdrawals) !! id;
  w ← s.(custodyWallets) !! x.(cx_wallet_id);
  c ← s.(sourceCustomers) !! a.(wa_customer_id);
  if String.eqb a.(wa_status) status && String.eqb x.(cx_tenant_id) a.(wa_tenant_id) &&
     String.eqb w.(cw_tenant_id) x.(cx_tenant_id) && String.eqb c.(sc_tenant_id) a.(wa_tenant_id)
  then Some {| wr_id := id; wr_queue := a; wr_custody := x; wr_wallet := w; wr_customer := c;
               wr_callback_rejected := callback_seen x.(cx_cregis_cid) ["2"; "4"] s.(callbacks);
               wr_callback_failed := callback_seen x.(cx_cregis_cid) ["7"] s.(callbacks);
               wr_callback_completed := callback_seen x.(cx_cregis_cid) ["6"] s.(callbacks) |}
  else None.
(** [load] *)
Definition load (id status : string) : M Db WithdrawalRow :=
  let! row := gets (λ s, load_row s id status) in
  require row (AccountingError "withdrawal_accounting_state_conflict" false).

(** [validateFinalCallbackEvidence] *)
Inductive FinalAction := ToRelease | ToSettle.
Definition validateFinalCallbackEvidence (row : WithdrawalRow) (action : FinalAction) : M Db unit :=
  if negb (opt_truthy row.(wr_custody).(cx_cregis_cid)) then
    match action with
    | ToSettle => throw (AccountingError "withdrawal_final_callback_missing" false)
    | ToRelease => ret tt
    end
  else match action with
  | ToSettle => throw_if (negb row.(wr_callback_completed) || row.(wr_callback_rejected) || row.(wr_callback_failed))
                  (AccountingError "withdrawal_final_callback_conflict" false)
  | ToRelease => throw_if (row.(wr_callback_completed) ||
                           Bool.eqb row.(wr_callback_rejected) row.(wr_callback_failed))
                   (AccountingError "withdrawal_final_callback_conflict" false)
  end.

(** The columns a finished phase clears. *)
Definition unlocked (a : WithdrawalAccounting) : WithdrawalAccounting :=
  set_wa_last_error_at None (set_wa_last_error_code None (set_wa_locked_at None a)).

Section worker.
Context {DO : DecimalOps} {JD : JsDates} (sha256 : list Z → list Z) (env : ProcessEnv).

(** [validateCustody] *)
Definition validateCustody (row : WithdrawalRow) (allowedStatuses : list string)
    (requireOperationalCustomer : bool) : M Db unit :=
  let a := row.(wr_queue) in let x := row.(wr_custody) in
  let w := row.(wr_wallet) in let c := row.(wr_customer) in
  do! throw_if (negb (String.eqb a.(wa_tenant_id) (tenantId env))) (AccountingError "withdrawal_tenant_mismatch" false);
  do! throw_if (negb (String.eqb a.(wa_customer_id) w.(cw_customer_id)))
        (AccountingError "withdrawal_wallet_customer_mismatch" false);
  do! throw_if (negb (includes allowedStatuses x.(cx_status)) || differs w.(cw_custody_provider) (Some "cregis") ||
                negb (opt_truthy w.(cw_ownership_verified_at)))
        (AccountingError "withdrawal_custody_state_invalid" false);
  do! throw_if (requireOperationalCustomer &&
                (negb (String.eqb w.(cw_status) "active") || negb (String.eqb c.(sc_status) "active") ||
                 negb (String.eqb c.(sc_kyc_status) "approved") ||
                 negb (String.eqb c.(sc_operations_status) "active")))
        (AccountingError "withdrawal_customer_not_operational" false);
  throw_if (negb (String.eqb x.(cx_currency) "195@TR7NHqjeKQxGTCi8q8ZY4pL8otSzgjLj6t") ||
            negb (String.eqb x.(cx_from_address) w.(cw_address)) ||
            negb (isValidTronAddress sha256 x.(cx_from_address)) ||
            negb (isValidTronAddress sha256 x.(cx_to_address)))
    (AccountingError "withdrawal_asset_or_address_invalid" false).

(** [amounts]: the texts agree with the integers of 10^-6, and with each other. *)
Record Amounts := { am_total : D; am_fee : D; am_net : D }.
Definition minor_differs (d : D) (minor : Z) : bool := negb (d_eq (d_mul d (d_ofZ 1000000)) (d_ofZ minor)).
Definition custody_amounts (x : CregisWithdrawal) : option Amounts :=
  total ← d_parse x.(cx_amount_text);
  fee ← d_parse x.(cx_fee_amount_text);
  net ← d_parse x.(cx_net_amount_text);
  if negb (d_isPositive total) || d_isNegative fee || negb (d_isPositive net) ||
     places_exceed total 6 || places_exceed fee 6 || places_exceed net 6 ||
     negb (d_eq total (d_add fee net)) ||
     minor_differs total x.(cx_amount_minor) || minor_differs fee x.(cx_fee_amount_minor) ||
     minor_differs net x.(cx_net_amount_minor)
  then None else Some {| am_total := total; am_fee := fee; am_net := net |}.
Definition amounts (row : WithdrawalRow) : M Db Amounts :=
  require (custody_amounts row.(wr_custody)) (AccountingError "withdrawal_amount_invalid" false).

(** [coreActor]: the core users joined to the administrators of that e-mail. *)
Definition core_actors (identity : string) (requireActive : bool) (s : Db) : list string :=
  omap (λ u, id ← u.(au_core_user_id); user ← s.(users) !! id;
             if String.eqb (toLowerCase u.(au_email)) (toLowerCase identity) &&
                opt_eqb user.(user_organizationId) (Some (organizationId env)) &&
                (negb requireActive ||
                 (String.eqb u.(au_status) "active" && user.(user_active) && same user.(user_role) ADMIN))
             then Some id else None) s.(adminUsers).
Definition coreActor (identity : string) (requireActive : bool) : M Db string :=
  let! rows := gets (core_actors identity requireActive) in
  match rows with
  | [actor] => ret actor
  | _ => throw (AccountingError "core_withdrawal_actor_not_ready" true)
  end.

(** ** Reservation *)

(** The core rows of the customer, and the checks on them: the mirror account and the wallet. *)
Definition reserve_parties (row : WithdrawalRow) : M Db ((string * Account) * (string * CryptoWallet)) :=
  let customerId := row.(wr_queue).(wa_customer_id) in
  let! customer := find_unique customers customerId in
  let! admin := find_unique users (adminUserId env) in
  let! mirrors := gets (λ s, find_many (is_usdt_account_of customerId) s.(accounts)) in
  let! wallet := gets (λ s, find_first (is_usdt_wallet_of customerId) s.(wallets)) in
  do! throw_if (match customer with
                | None => true
                | Some c => negb (String.eqb c.(cust_organizationId) (organizationId env)) ||
                            differs c.(cust_status) CS_ACTIVE || differs c.(cust_kycStatus) KYC_APPROVED
                end) (AccountingError "core_customer_not_ready" true);
  do! throw_if (match admin with
                | None => true
                | Some u => negb u.(user_active) || differs u.(user_role) ADMIN ||
                            differs u.(user_organizationId) (Some (organizationId env))
                end) (AccountingError "core_accounting_admin_not_ready" true);
  let! mirror := match mirrors with
                 | [ka] => if same ka.2.(acc_status) AS_ACTIVE then ret ka
                           else throw (AccountingError "core_crypto_account_not_ready" true)
                 | _ => throw (AccountingError "core_crypto_account_not_ready" true)
                 end in
  let! wallet := require wallet (AccountingError "core_crypto_wallet_not_ready" true) in
  do! throw_if (differs wallet.2.(wal_status) AS_ACTIVE) (AccountingError "core_crypto_wallet_not_ready" true);
  do! throw_if (differs mirror.2.(acc_walletAddress) (Some row.(wr_wallet).(cw_address)) ||
                negb (String.eqb wallet.2.(wal_walletAddress) row.(wr_wallet).(cw_address)))
        (AccountingError "core_crypto_wallet_binding_conflict" false);
  ret (mirror, wallet).

Definition withdrawal_reference (row : WithdrawalRow) : string :=
  "CREGIS-WD-" +:+ row.(wr_queue).(wa_tenant_id) +:+ "-" +:+ row.(wr_id).
Definition withdrawal_key (row : WithdrawalRow) : string :=
  "cregis-withdrawal:" +:+ row.(wr_queue).(wa_tenant_id) +:+ ":" +:+ row.(wr_id).

(** [duplicate]: an operation that already stands for this withdrawal. *)
Definition stands_for (row : WithdrawalRow) (o : Operation) : bool :=
  String.eqb o.(op_reference) (withdrawal_reference row) ||
  (String.eqb o.(op_customerId) row.(wr_queue).(wa_customer_id) &&
   opt_eqb o.(op_idempotencyKey) (Some (withdrawal_key row))) ||
  json_is (json_get "custodyWithdrawalId" o.(op_metadata)) (Some row.(wr_id)).

(** The two guarded freezes, with the worker's own error codes. *)
Definition freeze_pair (walletId mirrorId : string) (total : D) : M Db unit :=
  let! frozen := wallet_updateMany walletId
    (λ w, same w.(wal_status) AS_ACTIVE && n8_gte w.(wal_availableBalance) total) (wal_freeze total) in
  do! throw_if (differs frozen 1) (AccountingError "insufficient_core_crypto_balance" false);
  let! mirrored := account_updateMany mirrorId
    (λ a, acc_active a && acc_available_gte total a) (acc_freeze total) in
  throw_if (differs mirrored 1) (AccountingError "crypto_account_mirror_balance_mismatch" false).

Definition custody_transfer (now : Z) (row : WithdrawalRow) (walletId : string) (total fee net : Z) : CryptoTransfer :=
  MkCryptoTransfer (withdrawal_reference row +:+ "-TRANSFER") (Some (withdrawal_key row))
    row.(wr_queue).(wa_customer_id) walletId USDT TRON TD_WITHDRAWAL TS_SUBMITTED total fee net
    row.(wr_custody).(cx_from_address) row.(wr_custody).(cx_to_address) None 0 (adminUserId env)
    None None None now None None.

Definition custody_payout (now : Z) (row : WithdrawalRow) (coreId mirrorId : string) (fee net : Z) : Operation :=
  {| op_reference := withdrawal_reference row;
     op_idempotencyKey := Some (withdrawal_key row);
     op_customerId := row.(wr_queue).(wa_customer_id);
     op_channelId := None;
     op_type := PAYOUT;
     op_status := SUBMITTED;
     op_currency := USDT;
     op_amount := net;
     op_feeAmount := fee;
     op_sourceAccountId := Some mirrorId;
     op_targetAccountId := None;
     op_beneficiaryId := None;
     op_payoutMethod := None;
     op_adjustmentDirection := None;
     op_quoteCurrency := None;
     op_quoteAmount := None;
     op_rate := None;
     op_rateVersionId := None;
     op_makerId := adminUserId env;
     op_checkerId := None;
     op_operatorId := None;
     op_rejectionReason := None;
     op_externalReference := None;
     op_remitterName := None;
     op_remitterBank := None;
     op_remittanceReference := None;
     op_receivedAt := None;
     op_proofUrl := None;
     op_narrative := Some ("Cregis USDT TRON withdrawal " +:+ row.(wr_id));
     op_metadata := Some (JObj [("custodyRail", JStr "CREGIS"); ("cryptoTransferId", JStr coreId);
                                ("custodyWithdrawalId", JStr row.(wr_id));
                                ("custodyMakerId", JStr row.(wr_custody).(cx_maker_id))]);
     op_submittedAt := Some now;
     op_approvedAt := None;
     op_executedAt := None;
     op_createdAt := now |}.

(** [reserve]; [coreId] is the [randomUUID()] of the transfer and the operation. *)
Definition reserve (now : Z) (coreId id : string) : M Db unit :=
  let! row := load id "reserving" in
  do! validateCustody row ["submitted"] true;
  let! am := amounts row in
  let! '(mirror, wallet) := reserve_parties row in
  let! duplicate := gets (λ s, find_first (λ ko, stands_for row ko.2) s.(operations)) in
  do! throw_if (is_some duplicate) (AccountingError "core_withdrawal_duplicate" false);
  do! freeze_pair wallet.1 mirror.1 am.(am_total);
  let! total := store8 am.(am_total) in
  let! fee := store8 am.(am_fee) in
  let! net := store8 am.(am_net) in
  do! transfer_create coreId (custody_transfer now row wallet.1 total fee net);
  do! operation_create coreId (custody_payout now row coreId mirror.1 fee net);
  let! changed := queue_update id
    (λ a, String.eqb a.(wa_tenant_id) row.(wr_queue).(wa_tenant_id) && in_status "reserving" a)
    (λ a, unlocked (set_wa_reserved_at (Some now) (set_wa_core_transfer_id (Some coreId)
            (set_wa_core_operation_id (Some coreId) (set_wa_status "reserved" a))))) in
  throw_if (differs changed 1) (AccountingError "withdrawal_reservation_state_conflict" true).

(** ** Approval *)

(** [!row.core_operation_id || !row.core_transfer_id || ..] *)
Definition linked_ids (row : WithdrawalRow) (actor : option string) : option (string * string * string) :=
  match row.(wr_queue).(wa_core_operation_id), row.(wr_queue).(wa_core_transfer_id), actor with
  | Some o, Some t, Some who => if truthy o && truthy t && truthy who then Some (o, t, who) else None
  | _, _, _ => None
  end.

(** [approve] *)
Definition approveWithdrawal (now : Z) (id : string) : M Db unit :=
  let! row := load id "approving" in
  do! validateCustody row ["approved"] true;
  let! '(opId, trId, checkerMail) := require (linked_ids row row.(wr_custody).(cx_checker_id))
    (AccountingError "withdrawal_approval_link_missing" false) in
  let! checker := coreActor checkerMail true in
  let! approvedAt := required_date row.(wr_custody).(cx_approved_at) "withdrawal_approved_at_invalid" in
  let! opCount := operation_updateMany now opId (λ o, same o.(op_status) SUBMITTED)
    (λ o, set_op_approvedAt (Some approvedAt) (set_op_checkerId (Some checker) (set_op_status PROCESSING o))) in
  let! trCount := transfer_updateMany trId (λ t, same t.(tr_status) TS_SUBMITTED)
    (λ t, set_tr_approvedAt (Some approvedAt) (set_tr_checkerId (Some checker) (set_tr_status TS_PROCESSING t))) in
  do! throw_if (differs opCount 1 || differs trCount 1) (AccountingError "core_withdrawal_approval_conflict" false);
  let! changed := queue_update id (in_status "approving") (λ a, unlocked (set_wa_status "approved" a)) in
  throw_if (differs changed 1) (AccountingError "withdrawal_approval_state_conflict" true).

(** ** Release *)

(** [rejection_reason?.trim() || reconciliation_note?.trim() || `..`] *)
Definition release_reason (x : CregisWithdrawal) : string :=
  trim_or x.(cx_rejection_reason)
    (trim_or x.(cx_reconciliation_note) ("Cregis withdrawal " +:+ x.(cx_status))).

(** The two guarded updates of a frozen total, counted together. *)
Definition move_frozen_pair (walletId mirrorId : string) (total : D) (wal : CryptoWallet → CryptoWallet)
    (acc : Account → Account) (code : string) : M Db unit :=
  let! walletCount := wallet_updateMany walletId (λ w, n8_gte w.(wal_frozenBalance) total) wal in
  let! mirrorCount := account_updateMany mirrorId (acc_frozen_gte total) acc in
  throw_if (differs walletCount 1 || differs mirrorCount 1) (AccountingError code false).

(** The linked core rows close: REJECTED before approval, FAILED after it. *)
Definition close_links (now : Z) (opId trId actor reason : string) (o : Operation) (t : CryptoTransfer) : M Db unit :=
  if same o.(op_status) SUBMITTED && same t.(tr_status) TS_SUBMITTED then
    let! _ := operation_update now opId (λ r,
      set_op_approvedAt (Some now) (set_op_rejectionReason (Some reason)
        (set_op_checkerId (Some actor) (set_op_status REJECTED r)))) in
    let! _ := transfer_update trId (λ r,
      set_tr_approvedAt (Some now) (set_tr_rejectionReason (Some reason)
        (set_tr_checkerId (Some actor) (set_tr_status TS_REJECTED r)))) in
    ret tt
  else if same o.(op_status) PROCESSING && same t.(tr_status) TS_PROCESSING then
    let! _ := operation_update now opId (λ r,
      set_op_rejectionReason (Some reason) (set_op_operatorId (Some actor) (set_op_status FAILED r))) in
    let! _ := transfer_update trId (λ r,
      set_tr_rejectionReason (Some reason) (set_tr_operatorId (Some actor) (set_tr_status TS_FAILED r))) in
    ret tt
  else throw (AccountingError "core_withdrawal_release_status_conflict" false).

Definition mark_released (now : Z) (a : WithdrawalAccounting) : WithdrawalAccounting :=
  unlocked (set_wa_released_at (Some now) (set_wa_status "released" a)).

(** [releaseFunds] after its checks, for a withdrawal that was reserved. *)
Definition release_linked (now : Z) (row : WithdrawalRow) (opId trId : string) : M Db unit :=
  let! am := amounts row in
  let! operation := find_unique operations opId in
  let! transfer := find_unique transfers trId in
  let! '(o, t) := match operation, transfer with
                  | Some o, Some t =>
                      if String.eqb opId trId then ret (o, t)
                      else throw (AccountingError "core_withdrawal_link_conflict" false)
                  | _, _ => throw (AccountingError "core_withdrawal_link_conflict" false)
                  end in
  let! identity := require (let who := or_string row.(wr_custody).(cx_operator_id) row.(wr_custody).(cx_checker_id) in
                            if opt_truthy who then who else None)
                     (AccountingError "withdrawal_release_actor_missing" false) in
  let! actor := coreActor identity false in
  do! move_frozen_pair t.(tr_walletId) (default "" o.(op_sourceAccountId)) am.(am_total)
        (wal_unfreeze am.(am_total)) (acc_unfreeze am.(am_total)) "core_withdrawal_release_balance_conflict";
  do! close_links now opId trId actor (release_reason row.(wr_custody)) o t;
  let! changed := queue_update row.(wr_id) (in_status "releasing") (mark_released now) in
  throw_if (differs changed 1) (AccountingError "withdrawal_release_state_conflict" true).

(** [releaseFunds] *)
Definition releaseFunds (now : Z) (id : string) : M Db unit :=
  let! row := load id "releasing" in
  do! validateCustody row ["rejected"; "failed"; "cancelled"] false;
  do! validateFinalCallbackEvidence row ToRelease;
  let opId := row.(wr_queue).(wa_core_operation_id) in
  let trId := row.(wr_queue).(wa_core_transfer_id) in
  if negb (opt_truthy opId) && negb (opt_truthy trId) then
    let! changed := queue_update id
      (λ a, in_status "releasing" a && is_none a.(wa_core_operation_id) && is_none a.(wa_core_transfer_id))
      (mark_released now) in
    throw_if (differs changed 1) (AccountingError "withdrawal_release_state_conflict" true)
  else
    do! throw_if (negb (opt_truthy opId) || negb (opt_truthy trId))
          (AccountingError "withdrawal_release_link_conflict" false);
    release_linked now row (default "" opId) (default "" trId).

(** ** Settlement *)

Definition is_book_account (kind : AccountKind) (ka : string * Account) : bool :=
  same ka.2.(acc_kind) kind && same ka.2.(acc_currency) USDT && same ka.2.(acc_status) AS_ACTIVE.

(** The parties of a settlement and the checks on them: the operation, the
    transfer, the source, the clearing account and the fee account of a positive fee. *)
Record Settlement := {
  st_operation : Operation;
  st_transfer : CryptoTransfer;
  st_actor : string;
  st_source : string;
  st_clearing : string;
  st_fee : option string;
}.
Definition settle_parties (opId trId operator : string) (am : Amounts) : M Db Settlement :=
  let conflict := AccountingError "core_withdrawal_settlement_conflict" false in
  let! operation := find_unique operations opId in
  let! transfer := find_unique transfers trId in
  let! actor := coreActor operator false in
  let! clearings := gets (λ s, find_many (is_book_account PLATFORM_CLEARING) s.(accounts)) in
  let! fees := gets (λ s, find_many (is_book_account FEE_REVENUE) s.(accounts)) in
  let! o := require operation conflict in
  let! t := require transfer conflict in
  do! throw_if (negb (String.eqb opId trId) || differs o.(op_status) PROCESSING ||
                differs t.(tr_status) TS_PROCESSING || negb (opt_truthy o.(op_sourceAccountId)) ||
                (negb (d_isZero am.(am_fee)) && negb (Nat.eqb (length fees) 1))) conflict;
  match clearings with
  | [clearing] =>
      ret {| st_operation := o; st_transfer := t; st_actor := actor;
             st_source := default "" o.(op_sourceAccountId); st_clearing := clearing.1;
             st_fee := if d_isZero am.(am_fee) then None else fst <$> head fees |}
  | _ => throw conflict
  end.

(** The journal entries of a settlement. *)
Definition post_settlement (row : WithdrawalRow) (opId : string) (st : Settlement) (am : Amounts) : M Db unit :=
  let o := st.(st_operation) in
  do! create_entry (o.(op_reference) +:+ "-principal") opId (narrative_or o ("USDT withdrawal " +:+ row.(wr_id)))
        [(st.(st_source), DEBIT, USDT, am.(am_net)); (st.(st_clearing), CREDIT, USDT, am.(am_net))];
  match st.(st_fee) with
  | Some feeAccount =>
      create_entry (o.(op_reference) +:+ "-fee") opId ("USDT TRON withdrawal fee " +:+ row.(wr_id))
        [(st.(st_source), DEBIT, USDT, am.(am_fee)); (feeAccount, CREDIT, USDT, am.(am_fee))]
  | None => ret tt
  end.

(** [settle] *)
Definition settle (now : Z) (id : string) : M Db unit :=
  let! row := load id "settling" in
  do! validateCustody row ["completed"] false;
  do! validateFinalCallbackEvidence row ToSettle;
  let! '(opId, trId, operator) := require (linked_ids row row.(wr_custody).(cx_operator_id))
    (AccountingError "withdrawal_settlement_link_missing" false) in
  let! txid := require (match row.(wr_custody).(cx_txid) with
                        | Some h => if hex_string 64 h then Some h else None
                        | None => None
                        end) (AccountingError "withdrawal_settlement_txid_invalid" false) in
  let! am := amounts row in
  let! st := settle_parties opId trId operator am in
  do! move_frozen_pair st.(st_transfer).(tr_walletId) st.(st_source) am.(am_total)
        (wal_consume am.(am_total)) (acc_consume am.(am_total)) "core_withdrawal_settlement_balance_conflict";
  do! post_settlement row opId st am;
  let! completedAt := required_date row.(wr_custody).(cx_completed_at) "withdrawal_completed_at_invalid" in
  let! _ := operation_update now opId (λ r,
    set_op_executedAt (Some completedAt) (set_op_externalReference (Some (toLowerCase txid))
      (set_op_operatorId (Some st.(st_actor)) (set_op_status COMPLETED r)))) in
  let! _ := transfer_update trId (λ r,
    set_tr_completedAt (Some completedAt) (set_tr_confirmations 20 (set_tr_txHash (Some (toLowerCase txid))
      (set_tr_operatorId (Some st.(st_actor)) (set_tr_status TS_COMPLETED r))))) in
  let! changed := queue_update id (in_status "settling")
    (λ a, unlocked (set_wa_posted_at (Some completedAt) (set_wa_status "settled" a))) in
  throw_if (differs changed 1) (AccountingError "withdrawal_settlement_state_conflict" true).

(** ** The worker around the phases *)

(** What one call of the worker takes from outside the database: its clock,
    the fresh ids, the commit failures, and the rows the custody queries of the
    import return for a customer. *)
Record WorkerCall := {
  wc_now : Z;
  wc_coreId : string;
  wc_newId : string → string;
  wc_faults : list (option exn);
  wc_imported : string → list NeobankCustomer * list VerifiedCregisWallet;
}.

(** A transaction: its error leaves the state as it was. *)
Definition commit {A} (m : M Db A) (s : Db) : Db * (exn + A) :=
  match m s with inl e => (s, inl e) | inr (a, s') => (s', inr a) end.

(** [ensureCoreCustomer]; the import commits statement by statement. *)
Definition ensureCoreCustomer (call : WorkerCall) (id : string) (s : Db) : Db * option exn :=
  match s.(withdrawalQueue) !! id with
  | Some a =>
      if negb (in_status "reserving" a) then (s, None)
      else if negb (String.eqb a.(wa_tenant_id) (tenantId env))
      then (s, Some (AccountingError "withdrawal_tenant_mismatch" false))
      else if match s.(customers) !! a.(wa_customer_id) with
              | Some c => String.eqb c.(cust_organizationId) (organizationId env) &&
                          same c.(cust_status) CS_ACTIVE && same c.(cust_kycStatus) KYC_APPROVED
              | None => false
              end
      then (s, None)
      else let '(rows, verified) := call.(wc_imported) a.(wa_customer_id) in
           syncNeobankCustomers sha256 call.(wc_newId) (adminUserId env) (organizationId env) rows verified s
  | None => (s, None)
  end.

(** The transaction of a processing status. *)
Definition phase (call : WorkerCall) (id status : string) : M Db unit :=
  match status with
  | "reserving" => withSerializableRetry call.(wc_faults) (reserve call.(wc_now) call.(wc_coreId) id)
  | "approving" => withSerializableRetry call.(wc_faults) (approveWithdrawal call.(wc_now) id)
  | "releasing" => withSerializableRetry call.(wc_faults) (releaseFunds call.(wc_now) id)
  | "settling" => withSerializableRetry call.(wc_faults) (settle call.(wc_now) id)
  | _ => ret tt
  end.

(** [recordFailure] *)
Definition retry_delay (attemptCount : Z) : Z :=
  nth (Z.to_nat (Z.min (attemptCount - 1) (Z.of_nat (length RETRY_DELAYS_MS) - 1))) RETRY_DELAYS_MS 0.
Definition recordFailure (now : Z) (id code : string) (retryable : bool) : M Db unit :=
  let! row := gets (λ s, s.(withdrawalQueue) !! id) in
  match row with
  | None => ret tt
  | Some a =>
      if negb (includes processing_statuses a.(wa_status)) then ret tt else
      let attemptCount := a.(wa_attempt_count) + 1 in
      let terminal := negb retryable || (MAX_ATTEMPTS <=? attemptCount) in
      let! next := (if terminal then ret "exception" else pendingStatus a.(wa_status)) in
      let! _ := queue_update id (in_status a.(wa_status)) (λ r,
        set_wa_last_error_at (Some now) (set_wa_last_error_code (Some code) (set_wa_locked_at None
          (set_wa_next_attempt_at (now + retry_delay attemptCount)
            (set_wa_attempt_count (r.(wa_attempt_count) + 1) (set_wa_status next r)))))) in
      ret tt
  end.

(** [currentProcessingStatus] *)
Definition currentProcessingStatus (id : string) (s : Db) : option string :=
  a ← s.(withdrawalQueue) !! id;
  if includes processing_statuses a.(wa_status) then Some a.(wa_status) else None.

(** The body of the [try] of [processWithdrawal]. *)
Definition advance (call : WorkerCall) (id status : string) (s : Db) : Db * option exn :=
  let '(s1, failed) := if String.eqb status "reserving" then ensureCoreCustomer call id s else (s, None) in
  match failed with
  | Some e => (s1, Some e)
  | None => match commit (phase call id status) s1 with
            | (s2, inl e) => (s2, Some e)
            | (s2, inr _) => (s2, None)
            end
  end.

(** [processWithdrawal] *)
Definition processWithdrawal (call : WorkerCall) (id : string) (status : option string) (s : Db) : Db * option exn :=
  match (if opt_truthy status then status else currentProcessingStatus id s) with
  | None => (s, None)
  | Some currentStatus =>
      match advance call id currentStatus s with
      | (s1, None) => (s1, None)
      | (s1, Some caught) =>
          let '(code, retryable) := normalizeError caught in
          match commit (recordFailure call.(wc_now) id code retryable) s1 with
          | (s2, inl e) => (s2, Some e)
          | (s2, inr _) => (s2, None)
          end
      end
  end.

(** [processDirect] *)
Definition direct_claim (now : Z) (id pending processing : string) : M Db Z :=
  queue_update id
    (λ a, String.eqb a.(wa_tenant_id) (tenantId env) &&
          ((in_status pending a && (a.(wa_next_attempt_at) <=? now)) ||
           (in_status processing a &&
            match a.(wa_locked_at) with Some t => t <? now - STALE_LOCK_MS | None => false end)))
    (λ a, set_wa_locked_at (Some now) (set_wa_status processing a)).
Definition direct_result (id : string) (action : DirectWithdrawalAccountingAction) (claimed : Z) (s : Db) :
    exn + DirectWithdrawalAccountingResult :=
  let '(pending, processing, completed) := direct_states action in
  match s.(withdrawalQueue) !! id with
  | Some a =>
      if negb (String.eqb a.(wa_tenant_id) (tenantId env))
      then inl (AccountingError "withdrawal_direct_state_conflict" false)
      else if in_status completed a
      then inr {| dr_status := completed; dr_retryable := false; dr_idempotent := claimed =? 0 |}
      else if in_status "exception" a
      then inr {| dr_status := "exception"; dr_retryable := false; dr_idempotent := false |}
      else if in_status pending a || in_status processing a
      then inr {| dr_status := "pending"; dr_retryable := true; dr_idempotent := false |}
      else inl (AccountingError "withdrawal_direct_state_conflict" false)
  | None => inl (AccountingError "withdrawal_direct_state_conflict" false)
  end.
Definition processDirect (call : WorkerCall) (id : string) (action : DirectWithdrawalAccountingAction) (s : Db) :
    Db * (exn + DirectWithdrawalAccountingResult) :=
  let '(pending, processing, completed) := direct_states action in
  match commit (direct_claim call.(wc_now) id pending processing) s with
  | (s1, inl e) => (s1, inl e)
  | (s1, inr claimed) =>
      let '(s2, failed) :=
        if claimed =? 1 then processWithdrawal call id (Some processing) s1 else (s1, None) in
      match failed with
      | Some e => (s2, inl e)
      | None => (s2, direct_result id action claimed s2)
      end
  end.

(** ** Claims *)

(** Rows whose worker died: back to pending. *)
Definition stale (now : Z) (ka : string * WithdrawalAccounting) : bool :=
  includes processing_statuses ka.2.(wa_status) &&
  match ka.2.(wa_locked_at) with Some t => t <? now - STALE_LOCK_MS | None => false end.
Definition reclaim (now : Z) (a : WithdrawalAccounting) : WithdrawalAccounting :=
  set_wa_next_attempt_at now (set_wa_locked_at None
    (set_wa_status (default a.(wa_status) (pending_of a.(wa_status))) a)).

(** The due rows, oldest first; [locked] are those another transaction holds
    ([FOR UPDATE SKIP LOCKED]). *)
Definition due (now : Z) (locked : string → bool) (ka : string * WithdrawalAccounting) : bool :=
  includes pending_statuses ka.2.(wa_status) && (ka.2.(wa_next_attempt_at) <=? now) && negb (locked ka.1).
Definition older (a b : string * WithdrawalAccounting) : Prop := a.2.(wa_created_at) ≤ b.2.(wa_created_at).
#[global] Instance older_dec : RelDecision older.
Proof. intros a b. unfold older. apply _. Defined.
Definition due_rows (now : Z) (locked : string → bool) (s : Db) : list (string * string) :=
  map (λ ka, (ka.1, ka.2.(wa_status)))
    (take BATCH_SIZE (merge_sort older (find_many (due now locked) s.(withdrawalQueue)))).

Definition claim_row (now : Z) (row : string * string) : M Db (string * string) :=
  let! processing := processingStatus row.2 in
  let! changed := queue_update row.1 (in_status row.2)
    (λ a, set_wa_locked_at (Some now) (set_wa_status processing a)) in
  do! throw_if (differs changed 1) (AccountingError "withdrawal_claim_conflict" true);
  ret (row.1, processing).

(** [claimBatch] *)
Definition claimBatch (now : Z) (locked : string → bool) : M Db (list (string * string)) :=
  let! _ := queue_updateWhere (stale now) (reclaim now) in
  let! rows := gets (due_rows now locked) in
  for_each rows (claim_row now).

(** [releaseClaims]: each row in its own statement. *)
Definition release_claim (now : Z) (row : string * string) : M Db unit :=
  let! pending := pendingStatus row.2 in
  let! _ := queue_update row.1 (in_status row.2)
    (λ a, set_wa_next_attempt_at now (set_wa_locked_at None (set_wa_status pending a))) in
  ret tt.

(** The loop of [processBatch]; [stopping i] is whether a stop was requested
    before row [i]. *)
Fixpoint process_rows (call : nat → WorkerCall) (stopping : nat → bool) (i : nat) (rows : list (string * string))
    (s : Db) : Db * option exn :=
  match rows with
  | [] => (s, None)
  | row :: rest =>
      if stopping i then run_steps (map (release_claim (wc_now (call i))) rows) s
      else match processWithdrawal (call i) row.1 (Some row.2) s with
           | (s1, Some e) => (s1, Some e)
           | (s1, None) => process_rows call stopping (S i) rest s1
           end
  end.
(** [processBatch] *)
Definition processBatch (now : Z) (locked : string → bool) (call : nat → WorkerCall) (stopping : nat → bool) (s : Db) :
    Db * (exn + nat) :=
  match commit (claimBatch now locked) s with
  | (s1, inl e) => (s1, inl e)
  | (s1, inr rows) =>
      match process_rows call stopping 0 rows s1 with
      | (s2, Some e) => (s2, inl e)
      | (s2, None) => (s2, inr (length rows))
      end
  end.
End worker.
