(* ===== verification/WithdrawalWorkerEffects.v ===== *)
(** What each phase of the withdrawal worker does to the ledger: its moves of
    the wallet and of the mirror account, the linked core rows and the queue row. *)
From stdpp Require Import sorting.
From S2P Require Import Prelude Decimals Schema Access Ledger WithdrawalFees Operations OperationEffects OperationCreation Samples TronAddress CryptoWallets CryptoProperties Customers WithdrawalWorker.
#[local] Open Scope Z_scope.

(** [phase_moved]: the balances move, the operation, the transfer and the queue
    row of the withdrawal are rewritten, and nothing else changes. *)
Definition phase_moved (id opId : string) (q : WithdrawalAccounting) (o : Operation) (t : CryptoTransfer)
    (da df dp : string → Z) (s s' : Db) : Prop :=
  ∃ s1, effect da df dp s s1 ∧
    s' = set_withdrawalQueue (<[id := q]> s.(withdrawalQueue))
           (set_operations (<[opId := o]> s.(operations)) (set_transfers (<[opId := t]> s.(transfers)) s1)).

Lemma phase_moved_effect id opId q o t da df dp s s' :
  phase_moved id opId q o t da df dp s s' →
  (∀ i, available_of s' i = available_of s i + da i) ∧ (∀ i, frozen_of s' i = frozen_of s i + df i) ∧
  (∀ i, system_account s i = false → position_of s' i = position_of s i + dp i) ∧
  (∀ i, system_account s' i = system_account s i) ∧
  s'.(withdrawalQueue) !! id = Some q ∧ s'.(operations) !! opId = Some o ∧ s'.(transfers) !! opId = Some t.
Proof.
  intros (s1&E&->). split_and!.
  - exact (eff_available _ _ _ _ _ E).
  - exact (eff_frozen _ _ _ _ _ E).
  - exact (eff_position _ _ _ _ _ E).
  - intros i. exact (eff_system _ _ _ _ _ E i).
  - apply lookup_insert_eq.
  - apply lookup_insert_eq.
  - apply lookup_insert_eq.
Qed.

(** The drift and the backing of the frozen balances through a phase. *)
Lemma phase_moved_sound id opId q o t da df dp s s' :
  phase_moved id opId q o t da df dp s s' →
  (∀ i, system_account s i = false → da i + df i = dp i) →
  (∀ i, df i = reservation i o - from_option (reservation i) 0 (s.(operations) !! opId)) →
  conserves s s' ∧ (frozen_backed s → frozen_backed s').
Proof.
  intros (s1&E&->) Hb Hf.
  assert (moved opId o da df dp s (set_operations (<[opId := o]> s1.(operations)) s1)) as Hm by (by exists s1).
  pose proof (moved_conserves _ _ _ _ _ _ _ Hm Hb) as Hc.
  pose proof (moved_backed _ _ _ _ _ _ _ Hm Hf) as Hk. rewrite (frame_operations _ _ (eff_frame _ _ _ _ _ E)) in *.
  split; [exact Hc|exact Hk].
Qed.

(** A frame that also leaves the tables of the custody side alone. *)
Lemma frame_queue s s' : frame s s' →
  s'.(withdrawalQueue) = s.(withdrawalQueue) ∧ s'.(transfers) = s.(transfers) ∧ s'.(operations) = s.(operations).
Proof. by intros (A&W&J&->). Qed.

Section steps.
Context {DO : DecimalOps} {DL : DecimalLaws DO}.

(** One counted update of a wallet, and of an account. *)
Lemma wallet_count_ok wid p f da df s s1 :
  (∀ w, (f w).(wal_availableBalance) = w.(wal_availableBalance) + da ∧
        (f w).(wal_frozenBalance) = w.(wal_frozenBalance) + df) →
  wallet_updateMany wid p f s = inr (1, s1) →
  wallet_moved wid da df s s1 ∧ effect nothing nothing nothing s s1.
Proof.
  intros Hf [(_&w&Hw&_&[? ?]%wallet_check_nonneg&->)|[? _]]%update_many_id_ok; [|lia]. split.
  - destruct (Hf w). exists w, (f w). done.
  - apply wallets_only_effect. by eexists.
Qed.
Lemma account_count_ok aid p f da df s s1 :
  (∀ a, (f a).(acc_availableBalance) = a.(acc_availableBalance) + da ∧
        (f a).(acc_frozenBalance) = a.(acc_frozenBalance) + df ∧ same_identity a (f a)) →
  account_updateMany aid p f s = inr (1, s1) → acct_moved aid da df s s1.
Proof.
  intros Hf [(_&a&Ha&_&[? ?]%account_check_nonneg&->)|[? _]]%update_many_id_ok; [|lia].
  destruct (Hf a) as (?&?&?). exists a, (f a). done.
Qed.

(** Both, one after the other. *)
Lemma pair_moved wid aid da df s s1 s2 :
  wallet_moved wid da df s s1 → effect nothing nothing nothing s s1 → acct_moved aid da df s1 s2 →
  wallet_moved wid da df s s2 ∧ effect (at_ aid da) (at_ aid df) nothing s s2.
Proof.
  intros (w&w'&?&Hw'&?) E1 Hm. pose proof (acct_moved_rest _ _ _ _ _ Hm) as (_&_&Hwal&_). split.
  - exists w, w'. by rewrite Hwal.
  - apply acct_moved_effect in Hm.
    eapply effect_ext; [exact (effect_trans _ _ _ _ _ _ _ _ _ E1 Hm)|..]; intros; unfold nothing; lia.
Qed.

Lemma freeze_pair_ok wid aid amt x s u s' :
  d_units 8 amt = Some x → freeze_pair wid aid amt s = inr (u, s') →
  wallet_moved wid (- x) x s s' ∧ effect (at_ aid (- x)) (at_ aid x) nothing s s'.
Proof.
  intros Hx H. unfold freeze_pair in H. apply bind_ok in H as (n&s1&Hw&H).
  apply bind_ok in H as (_&?&[->%(proj1 (differs_false _ _)) ->]%throw_if_ok&H).
  apply bind_ok in H as (n&s2&Ha&H). apply throw_if_ok in H as [->%(proj1 (differs_false _ _)) ->].
  apply (wallet_count_ok _ _ _ (- x) x) in Hw as [Hw E]; [|intros w; simpl; rewrite (n8_add_units _ _ _ Hx), (n8_sub_units _ _ _ Hx); lia].
  apply (account_count_ok _ _ _ (- x) x) in Ha; [|move_eqs Hx].
  by eapply pair_moved.
Qed.

Lemma move_frozen_pair_ok wid aid amt x wal acc da df code s u s' :
  d_units 8 amt = Some x →
  (∀ w, (wal w).(wal_availableBalance) = w.(wal_availableBalance) + da ∧
        (wal w).(wal_frozenBalance) = w.(wal_frozenBalance) + df) →
  (∀ a, (acc a).(acc_availableBalance) = a.(acc_availableBalance) + da ∧
        (acc a).(acc_frozenBalance) = a.(acc_frozenBalance) + df ∧ same_identity a (acc a)) →
  move_frozen_pair wid aid amt wal acc code s = inr (u, s') →
  wallet_moved wid da df s s' ∧ effect (at_ aid da) (at_ aid df) nothing s s'.
Proof.
  intros Hx Hwf Haf H. unfold move_frozen_pair in H. apply bind_ok in H as (n&s1&Hw&H).
  apply bind_ok in H as (m&s2&Ha&H). apply throw_if_ok in H as [Hn ->].
  apply orb_false_iff in Hn as [->%(proj1 (differs_false _ _)) ->%(proj1 (differs_false _ _))].
  apply (wallet_count_ok _ _ _ da df) in Hw as [Hw E]; [|done].
  apply (account_count_ok _ _ _ da df) in Ha; [|done].
  by eapply pair_moved.
Qed.

(** *** Amounts *)

(** The texts of the custody row are decimals of at most six places, below 10^17 minor units. *)
Definition exact6 (text : string) : Prop :=
  ∀ d, d_parse text = Some d → ∃ z, d_units 6 d = Some z ∧ Z.abs z < 10 ^ 17.
Definition custody_exact (x : CregisWithdrawal) : Prop :=
  exact6 x.(cx_amount_text) ∧ exact6 x.(cx_fee_amount_text) ∧ exact6 x.(cx_net_amount_text).

(** The amounts in units of the ledger's columns. *)
Definition x_total (x : CregisWithdrawal) : Z := 100 * x.(cx_amount_minor).
Definition x_fee (x : CregisWithdrawal) : Z := 100 * x.(cx_fee_amount_minor).
Definition x_net (x : CregisWithdrawal) : Z := 100 * x.(cx_net_amount_minor).

Lemma minor_agrees d z minor :
  d_units 6 d = Some z → Z.abs z < 10 ^ 17 → minor_differs d minor = false →
  z = minor ∧ d_units 8 d = Some (100 * minor).
Proof.
  intros Hz Hb Hm. unfold minor_differs in Hm. apply negb_false_iff in Hm.
  assert (d_units 0 (d_mul d (d_ofZ 1000000)) = Some z) as Hmul.
  { apply (units_mul_pow10 6); [exact Hz|exact (units_ofZ 1000000)|lia]. }
  rewrite (eq_units 0 _ _ _ _ Hmul (units_ofZ minor)) in Hm. apply Z.eqb_eq in Hm as ->.
  split; [done|]. rewrite (units_le 6 8 d minor) by (lia || done). f_equal. change (10 ^ Z.of_nat (8 - 6)) with 100. lia.
Qed.

Lemma custody_amounts_ok x am :
  custody_exact x → custody_amounts x = Some am →
  d_units 8 am.(am_total) = Some (x_total x) ∧ d_units 8 am.(am_fee) = Some (x_fee x) ∧
  d_units 8 am.(am_net) = Some (x_net x) ∧ x_total x = x_net x + x_fee x.
Proof.
  intros (H1&H2&H3) H. unfold custody_amounts in H.
  destruct (d_parse (cx_amount_text x)) as [t|] eqn:Pt; [|done].
  destruct (d_parse (cx_fee_amount_text x)) as [f|] eqn:Pf; [|done].
  destruct (d_parse (cx_net_amount_text x)) as [n|] eqn:Pn; [|done]. simpl in H.
  destruct (H1 t Pt) as (zt&Ht&Bt), (H2 f Pf) as (zf&Hf&Bf), (H3 n Pn) as (zn&Hn&Bn).
  destruct (_ || _) eqn:E; [done|]. injection H as <-. simpl.
  repeat (apply orb_false_iff in E as [E ?]).
  destruct (minor_agrees t zt x.(cx_amount_minor)) as [Et Ut]; [done..|].
  destruct (minor_agrees f zf x.(cx_fee_amount_minor)) as [Ef Uf]; [done..|].
  destruct (minor_agrees n zn x.(cx_net_amount_minor)) as [En Un]; [done..|].
  split_and!; try done. unfold x_total, x_fee, x_net.
  assert (d_units 6 (d_add f n) = Some (zf + zn)) as Hs by (apply units_add; [done..|lia]).
  match goal with H : negb (d_eq t _) = false |- _ => apply negb_false_iff in H; rewrite (eq_units 6 _ _ _ _ Ht Hs) in H; apply Z.eqb_eq in H end.
  lia.
Qed.
End steps.

(** *** The row of a phase *)
Lemma load_ok id status s row s' :
  load id status s = inr (row, s') →
  s' = s ∧ row.(wr_id) = id ∧ s.(withdrawalQueue) !! id = Some row.(wr_queue) ∧ row.(wr_queue).(wa_status) = status ∧
  s.(custodyWithdrawals) !! id = Some row.(wr_custody) ∧
  row.(wr_callback_rejected) = callback_seen row.(wr_custody).(cx_cregis_cid) ["2"; "4"] s.(callbacks) ∧
  row.(wr_callback_failed) = callback_seen row.(wr_custody).(cx_cregis_cid) ["7"] s.(callbacks) ∧
  row.(wr_callback_completed) = callback_seen row.(wr_custody).(cx_cregis_cid) ["6"] s.(callbacks).
Proof.
  unfold load. intros (r&?&[-> ->]%gets_ok&[H ->]%require_ok)%bind_ok. unfold load_row in H.
  destruct (withdrawalQueue s !! id) as [a|] eqn:Ea; [|done].
  destruct (custodyWithdrawals s !! id) as [x|] eqn:Ex; [|done]. simpl in H.
  destruct (custodyWallets s !! _) as [w|]; [|done]. destruct (sourceCustomers s !! _) as [c|]; [|done]. simpl in H.
  destruct (_ && _) eqn:G in H; [|done]. injection H as <-. simpl. rewrite !andb_true_iff, !String.eqb_eq in G.
  split_and!; tauto || done.
Qed.

Lemma queue_update_ok id p f s n s' :
  queue_update id p f s = inr (n, s') → differs n 1 = false →
  ∃ a, s.(withdrawalQueue) !! id = Some a ∧ p a = true ∧ queue_check (f a) = true ∧
       s' = set_withdrawalQueue (<[id := f a]> s.(withdrawalQueue)) s.
Proof.
  intros [(_&a&?&?&?&->)|(->&_)]%update_many_id_ok Hn; [eauto|by apply (proj1 (differs_false _ _)) in Hn].
Qed.

Section phases.
Context {DO : DecimalOps} {DL : DecimalLaws DO} {JD : JsDates} (sha256 : list Z → list Z) (env : ProcessEnv).

(** The guards of a phase change nothing. *)
Lemma validateCustody_ok row l b s u s' :
  validateCustody sha256 env row l b s = inr (u, s') →
  s' = s ∧ row.(wr_custody).(cx_status) ∈ l ∧ row.(wr_queue).(wa_tenant_id) = tenantId env ∧
  row.(wr_wallet).(cw_custody_provider) = Some "cregis" ∧
  row.(wr_custody).(cx_from_address) = row.(wr_wallet).(cw_address).
Proof.
  unfold validateCustody. intros H.
  apply bind_ok in H as (_&?&[H1 ->]%throw_if_ok&H). apply bind_ok in H as (_&?&[_ ->]%throw_if_ok&H).
  apply bind_ok in H as (_&?&[H2 ->]%throw_if_ok&H). apply bind_ok in H as (_&?&[_ ->]%throw_if_ok&H).
  apply throw_if_ok in H as [H3 ->].
  rewrite !orb_false_iff, !negb_false_iff, ?String.eqb_eq, ?includes_true, ?differs_false in *. tauto.
Qed.

Lemma coreActor_ok who b s a s' : coreActor env who b s = inr (a, s') → s' = s ∧ ∃ u, s.(users) !! a = Some u ∧
  (b = true → u.(user_active) = true ∧ u.(user_role) = ADMIN) ∧ u.(user_organizationId) = Some (organizationId env).
Proof.
  unfold coreActor. intros (rows&?&[-> ->]%gets_ok&H)%bind_ok.
  destruct (core_actors env who b s) as [|x [|? ?]] eqn:E; try by apply throw_ok in H.
  apply ret_ok in H as [-> ->]. split; [done|].
  assert (x ∈ core_actors env who b s) as Hx by (rewrite E; by left). unfold core_actors in Hx.
  apply list_elem_of_omap in Hx as (au&_&Hu). destruct (au_core_user_id au) as [i|]; [|done]. simpl in Hu.
  destruct (users s !! i) as [u|] eqn:Eu; [|done]. simpl in Hu. destruct (_ && _) eqn:G in Hu; [|done].
  injection Hu as <-. exists u. rewrite !andb_true_iff, !orb_true_iff, opt_eqb_true, !andb_true_iff, same_true, negb_true_iff in G.
  split; [done|]. destruct G as [[_ Ho] Hb]. split; [|done]. intros ->. destruct Hb as [|[[_ ?] ?]]; [done|tauto].
Qed.

Lemma required_date_ok v code s d s' : required_date v code s = inr (d, s') → s' = s.
Proof.
  unfold required_date. destruct v as [t|]; [|by intros ?%throw_ok].
  destruct (truthy t); [by intros [_ ->]%require_ok|by intros ?%throw_ok].
Qed.

(** The callbacks a release and a settlement rest on. *)
Lemma evidence_ok row action s u s' :
  validateFinalCallbackEvidence row action s = inr (u, s') →
  s' = s ∧ match action with
           | ToSettle => opt_truthy row.(wr_custody).(cx_cregis_cid) = true ∧ row.(wr_callback_completed) = true ∧
                         row.(wr_callback_rejected) = false ∧ row.(wr_callback_failed) = false
           | ToRelease => opt_truthy row.(wr_custody).(cx_cregis_cid) = true →
                          row.(wr_callback_completed) = false ∧
                          row.(wr_callback_rejected) = negb row.(wr_callback_failed)
           end.
Proof.
  unfold validateFinalCallbackEvidence. destruct (opt_truthy (cx_cregis_cid (wr_custody row))); simpl; destruct action; intros H.
  - apply throw_if_ok in H as [[? Hx]%orb_false_iff ->]. split; [done|]. split; [done|].
    by destruct (wr_callback_rejected row), (wr_callback_failed row).
  - apply throw_if_ok in H as [Hx ->]. apply orb_false_iff in Hx as [Hx ?]. apply orb_false_iff in Hx as [Hx%negb_false_iff ?].
    done.
  - by apply ret_ok in H as [_ ->].
  - by apply throw_ok in H.
Qed.

(** The account and the wallet of a customer that stand for the custody address
    [address]: both are the customer's, active, in USDT on TRON, and bound to it. *)
Definition custody_account (customerId address : string) (a : Account) : Prop :=
  a.(acc_customerId) = Some customerId ∧ a.(acc_kind) = CRYPTO_WALLET ∧ a.(acc_currency) = USDT ∧
  a.(acc_network) = Some "TRON" ∧ a.(acc_status) = AS_ACTIVE ∧ a.(acc_walletAddress) = Some address.
Definition custody_wallet (customerId address : string) (w : CryptoWallet) : Prop :=
  w.(wal_customerId) = customerId ∧ w.(wal_asset) = USDT ∧ w.(wal_network) = TRON ∧ w.(wal_status) = AS_ACTIVE ∧
  w.(wal_walletAddress) = address.
Record custody_parties (customerId address mirror wid : string) (s : Db) : Prop := {
  cp_mirror : ∃ a, s.(accounts) !! mirror = Some a ∧ custody_account customerId address a;
  cp_wallet : ∃ w, s.(wallets) !! wid = Some w ∧ custody_wallet customerId address w;
}.

Lemma reserve_parties_ok row s mirror wallet s' :
  reserve_parties env row s = inr ((mirror, wallet), s') →
  s' = s ∧ custody_parties row.(wr_queue).(wa_customer_id) row.(wr_wallet).(cw_address) mirror.1 wallet.1 s.
Proof.
  unfold reserve_parties. intros H.
  do 4 (apply bind_ok in H as (?&?&[-> ->]%gets_ok&H)).
  do 2 (apply bind_ok in H as (_&?&[_ ->]%throw_if_ok&H)).
  apply bind_ok in H as (ka&?&Hm&H). apply bind_ok in H as (kw&?&[Hw ->]%require_ok&H).
  apply bind_ok in H as (_&?&[Hact ->]%throw_if_ok&H). apply bind_ok in H as (_&?&[Haddr ->]%throw_if_ok&H).
  apply ret_ok in H as [[= -> ->] ->].
  destruct (find_many _ _) as [|[k a] [|? ?]] eqn:E; try by apply throw_ok in Hm.
  simpl in Hm. destruct (same (acc_status a) AS_ACTIVE) eqn:Hst; [|by apply throw_ok in Hm]. apply ret_ok in Hm as [-> ->].
  assert ((k, a) ∈ find_many (is_usdt_account_of (wa_customer_id (wr_queue row))) (accounts s)) as [Hk Hp]%find_many_elem
    by (rewrite E; by left).
  destruct kw as [kk w]. apply find_first_Some in Hw as [Hw Hpw].
  unfold is_usdt_account_of, is_usdt_wallet_of in *. simpl in *.
  rewrite ?orb_false_iff, ?negb_false_iff, ?andb_true_iff, ?opt_eqb_true, ?differs_false, ?same_true, ?String.eqb_eq in *.
  split; [done|]. split; [exists a|exists w]; unfold custody_account, custody_wallet; simpl in *; tauto.
Qed.

Lemma store8_ok d x s z s' : d_units 8 d = Some x → store8 d s = inr (z, s') → z = x ∧ s' = s.
Proof. intros Hx [H ->]%require_ok. split; [|done]. by eapply n8_store_Some. Qed.

(** What a reservation leaves: [x] is the custody row, [coreId] the id of the
    linked transfer and operation. *)
Record reserved (id coreId mirror wid : string) (x : CregisWithdrawal) (s s' : Db) : Prop := {
  rv_amounts : x_total x = x_net x + x_fee x;
  rv_status : x.(cx_status) = "submitted";
  rv_fresh : s.(operations) !! coreId = None ∧ s.(transfers) !! coreId = None ∧
    ∀ k o, s.(operations) !! k = Some o →
      json_is (json_get "custodyWithdrawalId" o.(op_metadata)) (Some id) = false;
  rv_wallet : wallet_moved wid (- x_total x) (x_total x) s s';
  rv_moved : ∃ q o t, phase_moved id coreId q o t (at_ mirror (- x_total x)) (at_ mirror (x_total x)) nothing s s' ∧
    q.(wa_status) = "reserved" ∧ q.(wa_core_operation_id) = Some coreId ∧ q.(wa_core_transfer_id) = Some coreId ∧
    o.(op_type) = PAYOUT ∧ o.(op_status) = SUBMITTED ∧ o.(op_amount) = x_net x ∧ o.(op_feeAmount) = x_fee x ∧
    o.(op_sourceAccountId) = Some mirror ∧ json_has "cryptoTransferId" o.(op_metadata) = true ∧
    t.(tr_status) = TS_SUBMITTED ∧ t.(tr_amount) = x_total x ∧ t.(tr_walletId) = wid;
}.

Lemma custody_reserve_ok now coreId id x s u s' :
  s.(custodyWithdrawals) !! id = Some x → custody_exact x →
  reserve sha256 env now coreId id s = inr (u, s') →
  ∃ mirror wid, reserved id coreId mirror wid x s s' ∧
    ∃ q, s.(withdrawalQueue) !! id = Some q ∧
      custody_parties q.(wa_customer_id) x.(cx_from_address) mirror wid s.
Proof.
  intros Hx Hex H. unfold reserve in H.
  apply bind_ok in H as (row&?&(->&Hid&Hq&Hqs&Hx'&_)%load_ok&H). rewrite Hx in Hx'. injection Hx' as ->.
  apply bind_ok in H as (_&?&(->&Hcs&_&_&Hfrom)%validateCustody_ok&H).
  apply bind_ok in H as (am&?&[Ham ->]%require_ok&H).
  apply (custody_amounts_ok _ _ Hex) in Ham as (Ht&Hf&Hn&Hsum).
  apply bind_ok in H as ([mirror wallet]&?&[-> Hparties]%reserve_parties_ok&H).
  apply bind_ok in H as (dup&?&[-> ->]%gets_ok&H). apply bind_ok in H as (_&?&[Hdup ->]%throw_if_ok&H).
  apply bind_ok in H as (_&s1&[Hw E]%(freeze_pair_ok _ _ _ _ _ _ _ Ht)&H).
  apply bind_ok in H as (z1&?&[-> ->]%(store8_ok _ _ _ _ _ Ht)&H).
  apply bind_ok in H as (z2&?&[-> ->]%(store8_ok _ _ _ _ _ Hf)&H).
  apply bind_ok in H as (z3&?&[-> ->]%(store8_ok _ _ _ _ _ Hn)&H).
  destruct (frame_queue _ _ (eff_frame _ _ _ _ _ E)) as (HQ&HT&HO).
  apply bind_ok in H as (_&?&(Htn&_&->&_)%create_row_ok&H).
  apply bind_ok in H as (_&?&(Hon&_&->&_)%create_row_ok&H).
  apply bind_ok in H as (n&?&Hup&H). apply throw_if_ok in H as [Hn1 ->].
  apply (queue_update_ok _ _ _ _ _ _ Hup) in Hn1 as (a&Ha&_&_&->). simpl in *.
  rewrite HQ, Hq in Ha. injection Ha as <-. exists mirror.1, wallet.1. split.
  - split; [done|by apply list_elem_of_singleton in Hcs| | |].
    + rewrite <- HO, <- HT. split_and!; [done|done|]. intros k o Ho. rewrite HO in Ho.
      destruct (find_first _ _) eqn:F in Hdup; [done|]. pose proof (find_first_None _ _ _ _ F Ho) as Hs.
      unfold stands_for in Hs. simpl in Hs. rewrite !orb_false_iff, Hid in Hs. tauto.
    + destruct Hw as (w&w'&?&?&?). exists w, w'. done.
    + eexists _, _, _. split; [exists s1; split; [exact E|]; rewrite HT, HO, HQ; reflexivity|].
      split_and!; done.
  - eexists. split; [exact Hq|]. by rewrite Hfrom.
Qed.

(** A reserved withdrawal as the later phases find it. *)
Definition same_amounts (x y : CregisWithdrawal) : Prop :=
  y.(cx_amount_text) = x.(cx_amount_text) ∧ y.(cx_fee_amount_text) = x.(cx_fee_amount_text) ∧
  y.(cx_net_amount_text) = x.(cx_net_amount_text) ∧ y.(cx_amount_minor) = x.(cx_amount_minor) ∧
  y.(cx_fee_amount_minor) = x.(cx_fee_amount_minor) ∧ y.(cx_net_amount_minor) = x.(cx_net_amount_minor).
Record linked (id coreId mirror wid : string) (x : CregisWithdrawal) (o : Operation) (t : CryptoTransfer)
    (s : Db) : Prop := {
  lk_queue : ∃ a, s.(withdrawalQueue) !! id = Some a ∧ a.(wa_core_operation_id) = Some coreId ∧
    a.(wa_core_transfer_id) = Some coreId;
  lk_custody : ∃ y, s.(custodyWithdrawals) !! id = Some y ∧ same_amounts x y;
  lk_operation : s.(operations) !! coreId = Some o ∧ o.(op_sourceAccountId) = Some mirror;
  lk_transfer : s.(transfers) !! coreId = Some t ∧ t.(tr_walletId) = wid;
}.

Lemma same_amounts_exact x y : same_amounts x y → custody_exact x →
  custody_exact y ∧ x_total y = x_total x ∧ x_net y = x_net x ∧ x_fee y = x_fee x.
Proof. unfold custody_exact, x_total, x_net, x_fee. intros (->&->&->&->&->&->). done. Qed.

Lemma linked_row id coreId mirror wid x o t s row st s' :
  linked id coreId mirror wid x o t s → load id st s = inr (row, s') →
  s' = s ∧ row.(wr_id) = id ∧ s.(withdrawalQueue) !! id = Some row.(wr_queue) ∧ row.(wr_queue).(wa_status) = st ∧
  row.(wr_queue).(wa_core_operation_id) = Some coreId ∧ row.(wr_queue).(wa_core_transfer_id) = Some coreId ∧
  same_amounts x row.(wr_custody) ∧ s.(custodyWithdrawals) !! id = Some row.(wr_custody).
Proof.
  intros [(a&Ha&?&?) (y&Hy&?) _ _] (->&?&Hq&?&Hc&_)%load_ok. split_and!; congruence || done.
Qed.

(** Approval: only statuses change. *)
Lemma custody_approve_ok now id coreId mirror wid x o t s u s' :
  linked id coreId mirror wid x o t s → approveWithdrawal sha256 env now id s = inr (u, s') →
  o.(op_status) = SUBMITTED ∧ t.(tr_status) = TS_SUBMITTED ∧
  ∃ q o' t' checker c, phase_moved id coreId q o' t' nothing nothing nothing s s' ∧
    q.(wa_status) = "approved" ∧ q.(wa_core_operation_id) = Some coreId ∧ q.(wa_core_transfer_id) = Some coreId ∧
    o'.(op_status) = PROCESSING ∧ o'.(op_checkerId) = Some checker ∧ same_terms o o' ∧
    t'.(tr_status) = TS_PROCESSING ∧ t'.(tr_walletId) = wid ∧ s'.(wallets) = s.(wallets) ∧
    s.(users) !! checker = Some c ∧ c.(user_active) = true ∧ c.(user_role) = ADMIN ∧
    c.(user_organizationId) = Some (organizationId env).
Proof.
  intros Hl H. pose proof Hl as [_ _ (Ho&_) (Ht&Hwid)]. unfold approveWithdrawal in H.
  apply bind_ok in H as (row&?&Hrow&H).
  destruct (linked_row _ _ _ _ _ _ _ _ _ _ _ Hl Hrow) as (->&Hid&Hq&_&Hqo&Hqt&_&_).
  apply bind_ok in H as (_&?&(->&_)%validateCustody_ok&H).
  apply bind_ok in H as ([[i j] who]&?&[Hlk ->]%require_ok&H).
  unfold linked_ids in Hlk. rewrite Hqo, Hqt in Hlk. destruct (cx_checker_id _) as [w|]; [|done].
  destruct (_ && _) in Hlk; [|done]. injection Hlk as <- <- <-.
  apply bind_ok in H as (checker&?&(->&c&Hc&Hca&Hco)%coreActor_ok&H).
  apply bind_ok in H as (d&?&->%required_date_ok&H).
  apply bind_ok in H as (n&s1&Hop&H). apply bind_ok in H as (m&s2&Htr&H).
  apply bind_ok in H as (_&?&[Hn ->]%throw_if_ok&H).
  apply orb_false_iff in Hn as [Hn%(proj1 (differs_false _ _)) Hm%(proj1 (differs_false _ _))]. subst n m.
  apply operation_updateMany_ok in Hop as [(_&o1&Ho1&Hos&->)|[? _]]; [|lia].
  apply update_many_id_ok in Htr as [(_&t1&Ht1&Hts&_&->)|[? _]]; [|lia].
  simpl in *. rewrite Ho in Ho1. rewrite Ht in Ht1. injection Ho1 as <-. injection Ht1 as <-.
  apply bind_ok in H as (n&?&Hup&H). apply throw_if_ok in H as [Hn1 ->].
  apply (queue_update_ok _ _ _ _ _ _ Hup) in Hn1 as (a&Ha&_&_&->). simpl in *.
  rewrite Hq in Ha. injection Ha as <-. apply (proj1 (same_true _ _)) in Hos, Hts.
  split; [exact Hos|]. split; [exact Hts|]. eexists _, _, _, checker, c. split; [exists s; split; [apply effect_refl|reflexivity]|].
  destruct (Hca eq_refl). split_and!; done.
Qed.

(** The two ways a release closes the linked rows. *)
Definition closed_as (o o' : Operation) (t t' : CryptoTransfer) : Prop :=
  (o.(op_status) = SUBMITTED ∧ t.(tr_status) = TS_SUBMITTED ∧ o'.(op_status) = REJECTED ∧ t'.(tr_status) = TS_REJECTED) ∨
  (o.(op_status) = PROCESSING ∧ t.(tr_status) = TS_PROCESSING ∧ o'.(op_status) = FAILED ∧ t'.(tr_status) = TS_FAILED).

Lemma close_links_ok now coreId actor reason o t s u s' :
  s.(operations) !! coreId = Some o → s.(transfers) !! coreId = Some t →
  close_links now coreId coreId actor reason o t s = inr (u, s') →
  ∃ o' t', closed_as o o' t t' ∧ same_terms o o' ∧ t'.(tr_walletId) = t.(tr_walletId) ∧
    o'.(op_rejectionReason) = Some reason ∧
    s' = set_transfers (<[coreId := t']> s.(transfers)) (set_operations (<[coreId := o']> s.(operations)) s).
Proof.
  intros Ho Ht H. unfold close_links in H. unfold closed_as. destruct (_ && _) eqn:E1.
  - apply andb_true_iff in E1 as [E1%(proj1 (same_true _ _)) E2%(proj1 (same_true _ _))].
    apply bind_ok in H as (?&?&(o1&Ho1&->&_&->)%operation_update_ok&H).
    apply bind_ok in H as (?&?&(t1&Ht1&->&_&->)%update_row_ok&[_ ->]%ret_ok). simpl in *.
    rewrite Ho in Ho1. rewrite Ht in Ht1. injection Ho1 as <-. injection Ht1 as <-.
    eexists _, _. split; [|split; [|split; [|split; [|reflexivity]]]]; [left|..]; done.
  - destruct (same (op_status o) PROCESSING && _) eqn:E2; [|by apply throw_ok in H].
    apply andb_true_iff in E2 as [E2%(proj1 (same_true _ _)) E3%(proj1 (same_true _ _))].
    apply bind_ok in H as (?&?&(o1&Ho1&->&_&->)%operation_update_ok&H).
    apply bind_ok in H as (?&?&(t1&Ht1&->&_&->)%update_row_ok&[_ ->]%ret_ok). simpl in *.
    rewrite Ho in Ho1. rewrite Ht in Ht1. injection Ho1 as <-. injection Ht1 as <-.
    eexists _, _. split; [|split; [|split; [|split; [|reflexivity]]]]; [right|..]; done.
Qed.

Lemma custody_release_ok now id coreId mirror wid x o t s u s' :
  linked id coreId mirror wid x o t s → custody_exact x →
  releaseFunds sha256 env now id s = inr (u, s') →
  ∃ q o' t', phase_moved id coreId q o' t' (at_ mirror (x_total x)) (at_ mirror (- x_total x)) nothing s s' ∧
    wallet_moved wid (x_total x) (- x_total x) s s' ∧ q.(wa_status) = "released" ∧
    closed_as o o' t t' ∧ same_terms o o'.
Proof.
  intros Hl Hex H. pose proof Hl as [_ _ (Ho&Hsrc) (Ht&Hwid)]. unfold releaseFunds in H.
  apply bind_ok in H as (row&?&Hrow&H).
  destruct (linked_row _ _ _ _ _ _ _ _ _ _ _ Hl Hrow) as (->&Hid&Hq&_&Hqo&Hqt&Hsa&_).
  apply bind_ok in H as (_&?&(->&_)%validateCustody_ok&H). apply bind_ok in H as (_&?&(->&_)%evidence_ok&H).
  rewrite Hqo, Hqt in H. simpl in H. destruct (_ && _) eqn:Hb.
  { apply bind_ok in H as (n&?&Hup&H). apply throw_if_ok in H as [Hn ->].
    apply (queue_update_ok _ _ _ _ _ _ Hup) in Hn as (a&Ha&Hp&_). rewrite Hq in Ha. injection Ha as <-.
    rewrite Hqo, !andb_true_iff in Hp. simpl in Hp. by destruct Hp as [[_ ?] _]. }
  apply bind_ok in H as (_&?&[_ ->]%throw_if_ok&H). unfold release_linked in H.
  apply bind_ok in H as (am&?&[Ham ->]%require_ok&H).
  destruct (same_amounts_exact _ _ Hsa Hex) as (Hey&Htot&_&_).
  apply (custody_amounts_ok _ _ Hey) in Ham as (Hx&_). rewrite Htot in Hx.
  do 2 (apply bind_ok in H as (?&?&[-> ->]%gets_ok&H)). rewrite Ho, Ht in H. rewrite String.eqb_refl in H.
  apply bind_ok in H as (?&?&[-> ->]%ret_ok&H). apply bind_ok in H as (who&?&[_ ->]%require_ok&H).
  apply bind_ok in H as (actor&?&(->&_)%coreActor_ok&H). rewrite Hsrc in H. simpl in H.
  apply bind_ok in H as (u1&s1&Hpair&H).
  apply (move_frozen_pair_ok _ _ _ _ _ _ (x_total x) (- x_total x) _ _ _ _ Hx) in Hpair as [Hw E].
  2: { intros w. simpl. rewrite (n8_add_units _ _ _ Hx), (n8_sub_units _ _ _ Hx). lia. }
  2: { move_eqs Hx. }
  destruct (frame_queue _ _ (eff_frame _ _ _ _ _ E)) as (HQ&HT&HO).
  apply bind_ok in H as (_&?&(o'&t'&Hcl&Hsame&Htw&_&->)%close_links_ok&H); [|by rewrite HO|by rewrite HT].
  apply bind_ok in H as (n&?&Hup&H). apply throw_if_ok in H as [Hn ->].
  apply (queue_update_ok _ _ _ _ _ _ Hup) in Hn as (a&Ha&_&_&->). simpl in *.
  eexists _, o', t'. split; [exists s1; split; [exact E|]; rewrite <- HT, <- HO, <- HQ, Hid; reflexivity|].
  split_and!; try done. rewrite Hwid in Hw. destruct Hw as (w&w'&?&?&?). exists w, w'. done.
Qed.

(** *** Settlement *)
Lemma find_many_system k s ka l :
  find_many (is_book_account k) s.(accounts) = ka :: l → k = PLATFORM_CLEARING ∨ k = FEE_REVENUE →
  system_account s ka.1 = true.
Proof.
  intros E Hk. destruct ka as [i a].
  assert ((i, a) ∈ find_many (is_book_account k) s.(accounts)) as [Hi Hp]%find_many_elem by (rewrite E; by left).
  unfold is_book_account in Hp. simpl in *. rewrite !andb_true_iff, !same_true in Hp. destruct Hp as [[Hp _] _].
  unfold system_account. rewrite Hi, Hp. by destruct Hk as [-> | ->].
Qed.

Lemma settle_parties_ok opId trId operator am s st s' :
  settle_parties env opId trId operator am s = inr (st, s') →
  s' = s ∧ opId = trId ∧ s.(operations) !! opId = Some st.(st_operation) ∧
  s.(transfers) !! trId = Some st.(st_transfer) ∧ st.(st_operation).(op_status) = PROCESSING ∧
  st.(st_transfer).(tr_status) = TS_PROCESSING ∧ opt_truthy st.(st_operation).(op_sourceAccountId) = true ∧
  st.(st_source) = default "" st.(st_operation).(op_sourceAccountId) ∧
  system_account s st.(st_clearing) = true ∧
  match st.(st_fee) with Some f => system_account s f = true | None => d_isZero am.(am_fee) = true end.
Proof.
  unfold settle_parties. intros H. do 2 (apply bind_ok in H as (?&?&[-> ->]%gets_ok&H)).
  apply bind_ok in H as (actor&?&(->&_)%coreActor_ok&H). do 2 (apply bind_ok in H as (?&?&[-> ->]%gets_ok&H)).
  apply bind_ok in H as (o&?&[Ho ->]%require_ok&H). apply bind_ok in H as (t&?&[Ht ->]%require_ok&H).
  apply bind_ok in H as (_&?&[Hg ->]%throw_if_ok&H).
  destruct (find_many (is_book_account PLATFORM_CLEARING) _) as [|cl [|? ?]] eqn:Ec; try by apply throw_ok in H.
  apply ret_ok in H as [-> ->]. simpl.
  rewrite !orb_false_iff, !negb_false_iff, !differs_false, String.eqb_eq in Hg. destruct Hg as [[[[-> ?] ?] ?] Hfee].
  split_and!; try done.
  - apply (find_many_system _ _ _ _ Ec). by left.
  - destruct (d_isZero (am_fee am)) eqn:Ez; [done|]. simpl in Hfee.
    destruct (find_many (is_book_account FEE_REVENUE) _) as [|fa l] eqn:Ef; [done|]. simpl.
    apply (find_many_system _ _ _ _ Ef). by right.
Qed.

(** The entries debit the source by the net amount and the fee. *)
Lemma create_pair_effect ref oid desc a b c amt z s u s' :
  d_units 8 amt = Some z → create_entry ref oid desc [(a, DEBIT, c, amt); (b, CREDIT, c, amt)] s = inr (u, s') →
  effect nothing nothing (λ i, at_ b z i - at_ a z i) s s' ∧ s'.(wallets) = s.(wallets).
Proof.
  intros Hz H%(create_entry_pair _ _ _ _ _ _ _ _ _ _ _ Hz). split; [by eapply pair_posted_effect|].
  by destruct (posted_rest _ _ _ H) as (_&_&?&_).
Qed.

Lemma post_settlement_effect row opId st am net fee s u s' :
  d_units 8 am.(am_net) = Some net → d_units 8 am.(am_fee) = Some fee → system_account s st.(st_clearing) = true →
  match st.(st_fee) with Some f => system_account s f = true | None => d_isZero am.(am_fee) = true end →
  post_settlement row opId st am s = inr (u, s') →
  effect nothing nothing (at_ st.(st_source) (- (net + fee))) s s' ∧ s'.(wallets) = s.(wallets).
Proof.
  intros Hn Hf Hc Hfee H. unfold post_settlement in H.
  apply bind_ok in H as (u1&s1&[E1 W1]%(create_pair_effect _ _ _ _ _ _ _ _ _ _ _ Hn)&H).
  destruct (st_fee st) as [f|].
  - apply (create_pair_effect _ _ _ _ _ _ _ _ _ _ _ Hf) in H as [E2 W2]. split; [|congruence].
    eapply effect_ext; [exact (effect_trans _ _ _ _ _ _ _ _ _ E1 E2)|done|done|].
    intros i Hi. cbv beta. rewrite (at_system _ _ _ _ Hc Hi), (at_system _ _ _ _ Hfee Hi). unfold at_. case_match; lia.
  - apply ret_ok in H as [_ ->]. split; [|done].
    rewrite (isZero_units 8 _ _ Hf) in Hfee. apply Z.eqb_eq in Hfee as ->.
    eapply effect_ext; [exact E1|done|done|].
    intros i Hi. cbv beta. rewrite (at_system _ _ _ _ Hc Hi). unfold at_. case_match; lia.
Qed.

Lemma custody_settle_ok now id coreId mirror wid x o t s u s' :
  linked id coreId mirror wid x o t s → custody_exact x →
  settle sha256 env now id s = inr (u, s') →
  o.(op_status) = PROCESSING ∧ t.(tr_status) = TS_PROCESSING ∧
  ∃ q o' t' txid, phase_moved id coreId q o' t' nothing (at_ mirror (- x_total x)) (at_ mirror (- x_total x)) s s' ∧
    wallet_moved wid 0 (- x_total x) s s' ∧ q.(wa_status) = "settled" ∧
    (∃ y, s.(custodyWithdrawals) !! id = Some y ∧ y.(cx_txid) = Some txid) ∧
    hex_string 64 txid = true ∧ o'.(op_status) = COMPLETED ∧ o'.(op_externalReference) = Some (toLowerCase txid) ∧
    same_terms o o' ∧ t'.(tr_status) = TS_COMPLETED ∧ t'.(tr_txHash) = Some (toLowerCase txid).
Proof.
  intros Hl Hex H. pose proof Hl as [_ _ (Ho&Hsrc) (Ht&Hwid)]. unfold settle in H.
  apply bind_ok in H as (row&?&Hrow&H).
  destruct (linked_row _ _ _ _ _ _ _ _ _ _ _ Hl Hrow) as (->&Hid&Hq&_&Hqo&Hqt&Hsa&Hcx).
  apply bind_ok in H as (_&?&(->&_)%validateCustody_ok&H). apply bind_ok in H as (_&?&(->&_)%evidence_ok&H).
  apply bind_ok in H as ([[i j] who]&?&[Hlk ->]%require_ok&H). apply bind_ok in H as (txid&?&[Htx ->]%require_ok&H).
  unfold linked_ids in Hlk. rewrite Hqo, Hqt in Hlk. destruct (cx_operator_id _) as [w|]; [|done].
  destruct (_ && _) in Hlk; [|done]. injection Hlk as <- <- <-.
  assert (cx_txid row.(wr_custody) = Some txid ∧ hex_string 64 txid = true) as [Hcid Hhex].
  { destruct (cx_txid _) as [h|]; [|done]. destruct (hex_string 64 h) eqn:E; [|done]. by injection Htx as <-. }
  apply bind_ok in H as (am&?&[Ham ->]%require_ok&H).
  destruct (same_amounts_exact _ _ Hsa Hex) as (Hey&Htot&Hnet&Hfee).
  apply (custody_amounts_ok _ _ Hey) in Ham as (Hx&Hf&Hn&Hsum).
  rewrite Htot in Hx, Hsum. rewrite Hnet in Hn, Hsum. rewrite Hfee in Hf, Hsum.
  apply bind_ok in H as (st&?&(->&_&Hso&Hst&Hos&Hts&_&Hsrc'&Hcl&Hfa)%settle_parties_ok&H).
  rewrite Ho in Hso. rewrite Ht in Hst. injection Hso as Hso. injection Hst as Hst. rewrite <- Hso, <- Hst in *.
  rewrite Hsrc in Hsrc'. simpl in Hsrc'. rewrite Hsrc', Hwid in H.
  apply bind_ok in H as (u1&s1&Hpair&H).
  apply (move_frozen_pair_ok _ _ _ _ _ _ 0 (- x_total x) _ _ _ _ Hx) in Hpair as [Hw E].
  2: { intros w0. simpl. rewrite (n8_sub_units _ _ _ Hx). lia. }
  2: { move_eqs Hx. }
  apply bind_ok in H as (u2&s2&Hpost&H).
  apply (post_settlement_effect _ _ _ _ _ _ _ _ _ Hn Hf) in Hpost as [E2 W2].
  2: by rewrite (eff_system _ _ _ _ _ E).
  2: { destruct (st_fee st); [by rewrite (eff_system _ _ _ _ _ E)|done]. }
  pose proof (effect_trans _ _ _ _ _ _ _ _ _ E E2) as E3. clear E E2.
  destruct (frame_queue _ _ (eff_frame _ _ _ _ _ E3)) as (HQ&HT&HO).
  apply bind_ok in H as (d&?&->%required_date_ok&H).
  apply bind_ok in H as (?&?&(o1&Ho1&->&_&->)%operation_update_ok&H).
  apply bind_ok in H as (?&?&(t1&Ht1&->&_&->)%update_row_ok&H). simpl in *.
  rewrite HO, Ho in Ho1. rewrite HT, Ht in Ht1. injection Ho1 as <-. injection Ht1 as <-.
  apply bind_ok in H as (n&?&Hup&H). apply throw_if_ok in H as [Hn1 ->].
  apply (queue_update_ok _ _ _ _ _ _ Hup) in Hn1 as (a&Ha&_&_&->). simpl in *.
  split; [done|]. split; [done|]. eexists _, _, _, txid. split; [exists s2; split|].
  - eapply effect_ext; [exact E3|..]; intros i; rewrite ?Hsrc'; unfold at_, nothing; try intros _; destruct (String.eqb i mirror); lia.
  - rewrite <- HT, <- HO, <- HQ. reflexivity.
  - split_and!; try done; [|by eexists]. destruct Hw as (w1&w2&?&?&?). exists w1, w2. simpl. rewrite W2. done.
Qed.
End phases.
