(* ===== verification/WithdrawalWorkerProperties.v ===== *)
(** Correctness of the withdrawal worker: the money of a custody withdrawal
    through its phases, the evidence a release and a settlement demand, the
    bound on retries and the exclusiveness of claims. *)
From stdpp Require Import sorting.
From S2P Require Import Prelude Decimals Schema Access Ledger WithdrawalFees Operations OperationEffects OperationCreation Samples TronAddress CryptoWallets CryptoProperties Customers WithdrawalWorker WithdrawalWorkerEffects.
#[local] Open Scope Z_scope.

(** Between two phases the custody side may rewrite the queue row and its own
    tables, not the ledger, the links of the row or the amounts. *)
Record handed_over (id : string) (s s' : Db) : Prop := {
  ho_ledger : s'.(accounts) = s.(accounts) ∧ s'.(wallets) = s.(wallets) ∧ s'.(journal) = s.(journal) ∧
    s'.(operations) = s.(operations) ∧ s'.(transfers) = s.(transfers);
  ho_queue : ∀ a, s.(withdrawalQueue) !! id = Some a → ∃ a', s'.(withdrawalQueue) !! id = Some a' ∧
    a'.(wa_core_operation_id) = a.(wa_core_operation_id) ∧ a'.(wa_core_transfer_id) = a.(wa_core_transfer_id);
  ho_custody : ∀ x, s.(custodyWithdrawals) !! id = Some x → ∃ x', s'.(custodyWithdrawals) !! id = Some x' ∧ same_amounts x x';
}.

Lemma same_amounts_trans x y z : same_amounts x y → same_amounts y z → same_amounts x z.
Proof. unfold same_amounts. intuition congruence. Qed.

Lemma handed_linked id coreId mirror wid x o t s s' :
  handed_over id s s' → linked id coreId mirror wid x o t s → linked id coreId mirror wid x o t s'.
Proof.
  intros [(_&_&_&HO&HT) HQ HX] [(a&Ha&?&?) (y&Hy&?) ? ?]. split.
  - destruct (HQ a Ha) as (a'&?&?&?). exists a'. split_and!; congruence.
  - destruct (HX y Hy) as (y'&?&?). exists y'. split; [done|by eapply same_amounts_trans].
  - by rewrite HO.
  - by rewrite HT.
Qed.

(** The ledger quantities a hand-over keeps. *)
Lemma handed_ledger id s s' i :
  handed_over id s s' → available_of s' i = available_of s i ∧ frozen_of s' i = frozen_of s i ∧
  position_of s' i = position_of s i ∧ system_account s' i = system_account s i.
Proof.
  intros [(HA&_&HJ&_) _ _]. unfold available_of, frozen_of, position_of, system_account. by rewrite HA, HJ.
Qed.
Lemma handed_wallet id wid da df s s' s'' :
  handed_over id s s' → wallet_moved wid da df s' s'' → wallet_moved wid da df s s''.
Proof. intros [(_&HW&_) _ _] (w&w'&?&?&?). exists w, w'. by rewrite <- HW. Qed.

(** The balances of every account moved by the same point amounts. *)
Definition balances_moved (da df dp : string → Z) (s s' : Db) : Prop :=
  ∀ i, available_of s' i = available_of s i + da i ∧ frozen_of s' i = frozen_of s i + df i ∧
       system_account s' i = system_account s i ∧
       (system_account s i = false → position_of s' i = position_of s i + dp i).

Lemma phase_balances id c q o t da df dp s s' : phase_moved id c q o t da df dp s s' → balances_moved da df dp s s'.
Proof. intros (A&F&P&S&_)%phase_moved_effect i. auto. Qed.
Lemma handed_balances id s s' : handed_over id s s' → balances_moved nothing nothing nothing s s'.
Proof. intros H i. destruct (handed_ledger _ _ _ i H) as (->&->&->&->). unfold nothing. split_and!; lia || done. Qed.
Lemma balances_trans da df dp da' df' dp' s1 s2 s3 :
  balances_moved da df dp s1 s2 → balances_moved da' df' dp' s2 s3 →
  balances_moved (λ i, da i + da' i) (λ i, df i + df' i) (λ i, dp i + dp' i) s1 s3.
Proof.
  intros H1 H2 i. destruct (H1 i) as (A&F&S&P), (H2 i) as (A'&F'&S'&P'). split_and!; [lia|lia|congruence|].
  intros Hi. rewrite P' by congruence. rewrite P by done. lia.
Qed.
Lemma balances_ext da df dp da' df' dp' s s' :
  balances_moved da df dp s s' → (∀ i, da i = da' i) → (∀ i, df i = df' i) → (∀ i, dp i = dp' i) →
  balances_moved da' df' dp' s s'.
Proof. intros H Ha Hf Hp i. rewrite <- Ha, <- Hf, <- Hp. apply H. Qed.

Section lifecycle.
Context {DO : DecimalOps} {DL : DecimalLaws DO} {JD : JsDates} (sha256 : list Z → list Z) (env : ProcessEnv).

Lemma frame_custody s s' : frame s s' → s'.(custodyWithdrawals) = s.(custodyWithdrawals).
Proof. by intros (A&W&J&->). Qed.
Lemma phase_custody id c q o t da df dp s s' :
  phase_moved id c q o t da df dp s s' → s'.(custodyWithdrawals) = s.(custodyWithdrawals).
Proof. intros (s1&E&->). exact (frame_custody _ _ (eff_frame _ _ _ _ _ E)). Qed.

(** After a phase the withdrawal is linked again, to the rewritten rows. *)
Lemma phase_linked id coreId mirror wid x q o t da df dp s s' :
  phase_moved id coreId q o t da df dp s s' → (∃ y, s.(custodyWithdrawals) !! id = Some y ∧ same_amounts x y) →
  q.(wa_core_operation_id) = Some coreId → q.(wa_core_transfer_id) = Some coreId →
  o.(op_sourceAccountId) = Some mirror → t.(tr_walletId) = wid → linked id coreId mirror wid x o t s'.
Proof.
  intros Hm Hx ????. pose proof (phase_custody _ _ _ _ _ _ _ _ _ _ Hm) as Hc.
  apply phase_moved_effect in Hm as (_&_&_&_&?&?&?). split; eauto. by rewrite Hc.
Qed.

(** A reservation, then the hand-over of the withdrawal to the next phase. *)
Lemma reserve_linked now coreId id x s u s1 s2 :
  s.(custodyWithdrawals) !! id = Some x → custody_exact x →
  reserve sha256 env now coreId id s = inr (u, s1) → handed_over id s1 s2 →
  ∃ mirror wid o t, linked id coreId mirror wid x o t s2 ∧ o.(op_status) = SUBMITTED ∧
    balances_moved (at_ mirror (- x_total x)) (at_ mirror (x_total x)) nothing s s2 ∧
    wallet_moved wid (- x_total x) (x_total x) s s2 ∧ x_total x = x_net x + x_fee x ∧
    ∃ q, s.(withdrawalQueue) !! id = Some q ∧ custody_parties q.(wa_customer_id) x.(cx_from_address) mirror wid s.
Proof.
  intros Hx Hex H Hh. destruct (custody_reserve_ok _ _ _ _ _ _ _ _ _ Hx Hex H) as (mirror&wid&Hr&Hparties).
  destruct Hr as [Hsum _ _ Hw (q&o&t&Hm&_&?&?&_&?&_&_&?&_&_&_&?)].
  exists mirror, wid, o, t. split; [|split; [done|split; [|split; [|by split]]]].
  - eapply handed_linked; [exact Hh|]. eapply phase_linked; try done. exists x. by split; [|split_and!].
  - eapply balances_ext; [exact (balances_trans _ _ _ _ _ _ _ _ _ (phase_balances _ _ _ _ _ _ _ _ _ _ Hm) (handed_balances _ _ _ Hh))|..];
      intros; unfold nothing; lia.
  - destruct Hh as [(_&HW&_) _ _], Hw as (w&w'&?&?&?). exists w, w'. by rewrite HW.
Qed.

(** An approval, then the hand-over. *)
Lemma approve_linked now id coreId mirror wid x o t s u s1 s2 :
  linked id coreId mirror wid x o t s → approveWithdrawal sha256 env now id s = inr (u, s1) → handed_over id s1 s2 →
  ∃ o' t', linked id coreId mirror wid x o' t' s2 ∧ o'.(op_status) = PROCESSING ∧
    balances_moved nothing nothing nothing s s2 ∧ s2.(wallets) = s.(wallets).
Proof.
  intros Hl H Hh. pose proof Hl as [_ Hcu (_&Hsrc) _].
  destruct (custody_approve_ok _ _ _ _ _ _ _ _ _ _ _ _ _ Hl H) as (_&_&q&o'&t'&_&_&Hm&_&?&?&?&_&Hsame&_&?&Hw&_).
  destruct Hsame as (_&_&_&_&_&_&_&Hs&_).
  exists o', t'. split; [|split; [done|split]].
  - eapply handed_linked; [exact Hh|]. eapply phase_linked; try done. by rewrite Hs.
  - eapply balances_ext; [exact (balances_trans _ _ _ _ _ _ _ _ _ (phase_balances _ _ _ _ _ _ _ _ _ _ Hm) (handed_balances _ _ _ Hh))|..];
      intros; unfold nothing; lia.
  - destruct Hh as [(_&->&_) _ _]. done.
Qed.

(** C12: a custody withdrawal that is reserved and then released costs nothing:
    whether the release comes before or after the approval, every available
    balance, frozen balance and journal position is what it was, the wallet is
    back to its balances, and the linked operation ends REJECTED when it was
    never approved and FAILED when it was. *)
Theorem custody_release_restores (approved : bool) now1 now2 now3 coreId id x s u1 s1 s2 s3 u3 s4 :
  s.(custodyWithdrawals) !! id = Some x → custody_exact x →
  reserve sha256 env now1 coreId id s = inr (u1, s1) → handed_over id s1 s2 →
  (if approved then ∃ u2 sa, approveWithdrawal sha256 env now2 id s2 = inr (u2, sa) ∧ handed_over id sa s3 else s3 = s2) →
  releaseFunds sha256 env now3 id s3 = inr (u3, s4) →
  (∀ i, available_of s4 i = available_of s i ∧ frozen_of s4 i = frozen_of s i ∧
        (system_account s i = false → position_of s4 i = position_of s i)) ∧
  (∃ wid, wallet_moved wid 0 0 s s4) ∧
  ∃ o q, s4.(operations) !! coreId = Some o ∧ o.(op_status) = (if approved then FAILED else REJECTED) ∧
    s4.(withdrawalQueue) !! id = Some q ∧ q.(wa_status) = "released".
Proof.
  intros Hx Hex Hres Hh Hap Hrel.
  destruct (reserve_linked _ _ _ _ _ _ _ _ Hx Hex Hres Hh) as (mirror&wid&o&t&Hl&Hst&Hb&Hw&_).
  assert (∃ o2 t2, linked id coreId mirror wid x o2 t2 s3 ∧ balances_moved nothing nothing nothing s2 s3 ∧
    s3.(wallets) = s2.(wallets) ∧ o2.(op_status) = if approved then PROCESSING else SUBMITTED)
    as (o2&t2&Hl2&Hb2&Hw2&Hst2).
  { destruct approved.
    2: { subst s3. exists o, t. split_and!; try done. intros i. unfold nothing. split_and!; lia || done. }
    - destruct Hap as (u2&sa&Ha&Hha).
      destruct (approve_linked _ _ _ _ _ _ _ _ _ _ _ _ Hl Ha Hha) as (o2&t2&?&?&?&?). eauto 10. }
  destruct (custody_release_ok _ _ _ _ _ _ _ _ _ _ _ _ _ Hl2 Hex Hrel) as (q&o3&t3&Hm&Hwm&Hq&Hcl&_).
  split; [|split].
  - intros i. destruct (Hb i) as (A1&F1&S1&P1), (Hb2 i) as (A2&F2&S2&P2).
    apply phase_balances in Hm. destruct (Hm i) as (A3&F3&_&P3). unfold at_, nothing in *.
    split_and!; [destruct (String.eqb i mirror); lia..|]. intros Hi. rewrite P3, P2, P1 by congruence. lia.
  - exists wid. assert (wallet_moved wid (x_total x) (- x_total x) s2 s4) as Hwm'.
    { destruct Hwm as (w&w'&?&?&?). exists w, w'. by rewrite <- Hw2. }
    pose proof (wallet_moved_trans _ _ _ _ _ _ _ _ Hw Hwm') as Hww.
    by replace (- x_total x + x_total x) with 0 in Hww by lia; replace (x_total x + - x_total x) with 0 in Hww by lia.
  - apply phase_moved_effect in Hm as (_&_&_&_&?&?&_). exists o3, q. split; [done|split; [|done]].
    destruct Hcl as [(Hs&_&?&_)|(Hs&_&?&_)], approved; congruence.
Qed.

(** C11: a custody withdrawal that is reserved, approved and settled takes exactly
    its amount: the wallet and the available balance of its mirror account are
    down by the total, the journal position by the same, nothing stays frozen and
    no other customer account moves.  Account and wallet are those of the customer
    the queue names: active, in USDT on TRON, and bound to the address the custody
    paid from.  The operation and the transfer end COMPLETED under the transaction
    hash of the custody row that was settled, in lower case. *)
Theorem custody_settlement_lifecycle now1 now2 now3 coreId id x s u1 s1 s2 u2 s3 s4 u3 s5 :
  s.(custodyWithdrawals) !! id = Some x → custody_exact x →
  reserve sha256 env now1 coreId id s = inr (u1, s1) → handed_over id s1 s2 →
  approveWithdrawal sha256 env now2 id s2 = inr (u2, s3) → handed_over id s3 s4 →
  settle sha256 env now3 id s4 = inr (u3, s5) →
  x_total x = x_net x + x_fee x ∧
  (∃ q mirror wid, s.(withdrawalQueue) !! id = Some q ∧
     custody_parties q.(wa_customer_id) x.(cx_from_address) mirror wid s ∧
     wallet_moved wid (- x_total x) 0 s s5 ∧ ∀ i,
       available_of s5 i = available_of s i - at_ mirror (x_total x) i ∧ frozen_of s5 i = frozen_of s i ∧
       (system_account s i = false → position_of s5 i = position_of s i - at_ mirror (x_total x) i)) ∧
  ∃ o t q y txid, s4.(custodyWithdrawals) !! id = Some y ∧ y.(cx_txid) = Some txid ∧ hex_string 64 txid = true ∧
    s5.(operations) !! coreId = Some o ∧ o.(op_status) = COMPLETED ∧
    o.(op_externalReference) = Some (toLowerCase txid) ∧
    s5.(transfers) !! coreId = Some t ∧ t.(tr_status) = TS_COMPLETED ∧ t.(tr_txHash) = Some (toLowerCase txid) ∧
    s5.(withdrawalQueue) !! id = Some q ∧ q.(wa_status) = "settled".
Proof.
  intros Hx Hex Hres Hh Hap Hh2 Hse.
  destruct (reserve_linked _ _ _ _ _ _ _ _ Hx Hex Hres Hh) as (mirror&wid&o&t&Hl&Hst&Hb&Hw&Hsum&q0&Hq0&Hparties).
  destruct (approve_linked _ _ _ _ _ _ _ _ _ _ _ _ Hl Hap Hh2) as (o2&t2&Hl2&_&Hb2&Hw2).
  destruct (custody_settle_ok _ _ _ _ _ _ _ _ _ _ _ _ _ Hl2 Hex Hse)
    as (_&_&q&o3&t3&txid&Hm&Hwm&Hq&(y&Hy&Htx)&Hhex&Ho3&Hext&_&Ht3&Hhash).
  split; [done|]. split; [exists q0, mirror, wid; split; [done|split; [done|split]]|].
  - assert (wallet_moved wid 0 (- x_total x) s2 s5) as Hwm'.
    { destruct Hwm as (w&w'&?&?&?). exists w, w'. by rewrite <- Hw2. }
    pose proof (wallet_moved_trans _ _ _ _ _ _ _ _ Hw Hwm') as Hww.
    by replace (- x_total x + 0) with (- x_total x) in Hww by lia; replace (x_total x + - x_total x) with 0 in Hww by lia.
  - intros i. destruct (Hb i) as (A1&F1&S1&P1), (Hb2 i) as (A2&F2&S2&P2).
    apply phase_balances in Hm. destruct (Hm i) as (A3&F3&_&P3). unfold at_, nothing in *.
    split_and!; [destruct (String.eqb i mirror); lia..|]. intros Hi. rewrite P3, P2, P1 by congruence.
    destruct (String.eqb i mirror); lia.
  - apply phase_moved_effect in Hm as (_&_&_&_&?&?&?). exists o3, t3, q, y, txid. split_and!; done.
Qed.

(** C13: a settlement and a release never rest on the same callbacks.  A settled
    withdrawal has a custody id with a completed callback and no contrary one;
    once one of its events is a completion, no release of it succeeds, in any
    later state that keeps the custody id and has not lost a callback. *)
Theorem settled_never_released now now' id s u s' later :
  settle sha256 env now id s = inr (u, s') →
  (∃ x, s.(custodyWithdrawals) !! id = Some x ∧ opt_truthy x.(cx_cregis_cid) = true ∧
     callback_seen x.(cx_cregis_cid) ["6"] s.(callbacks) = true ∧
     callback_seen x.(cx_cregis_cid) ["2"; "4"] s.(callbacks) = false ∧
     callback_seen x.(cx_cregis_cid) ["7"] s.(callbacks) = false) ∧
  ((∀ e, e ∈ s.(callbacks) → e ∈ later.(callbacks)) →
   (cx_cregis_cid <$> later.(custodyWithdrawals) !! id) = (cx_cregis_cid <$> s.(custodyWithdrawals) !! id) →
   ∀ r s'', releaseFunds sha256 env now' id later ≠ inr (r, s'')).
Proof.
  intros H. unfold settle in H.
  apply bind_ok in H as (row&?&(->&_&_&_&Hc&Er&Ef&Ec)%load_ok&H).
  apply bind_ok in H as (_&?&(->&_)%validateCustody_ok&H). apply bind_ok in H as (_&?&(->&Hcid&Hco&Hre&Hfa)%evidence_ok&_).
  rewrite Hre in Er. rewrite Hfa in Ef. rewrite Hco in Ec. split; [by exists (wr_custody row)|].
  intros Hcb Hcol r s'' H. unfold releaseFunds in H.
  apply bind_ok in H as (row'&?&(->&_&_&_&Hc'&_&_&Ec')%load_ok&H).
  apply bind_ok in H as (_&?&(->&_)%validateCustody_ok&H). apply bind_ok in H as (_&?&(->&Hev)%evidence_ok&_).
  rewrite Hc, Hc' in Hcol. injection Hcol as Hcol. rewrite Hcol in *.
  destruct (Hev Hcid) as [Hnc _]. rewrite Hnc in Ec'. symmetry in Ec, Ec'. unfold callback_seen in Ec, Ec'.
  apply existsb_exists in Ec as (e&He&Hpe). apply list_elem_of_In, Hcb, list_elem_of_In in He.
  assert (∃ y, In y (callbacks later) ∧ (String.eqb (cb_event_type y) "payout" &&
    opt_eqb (cx_cregis_cid (wr_custody row)) (Some (cb_cregis_cid y)) && includes ["6"] (cb_status y)) = true) as Hy by eauto.
  apply existsb_exists in Hy. congruence.
Qed.
End lifecycle.

(** ** Retries *)

(** The queue row a recorded failure leaves. *)
Definition failed_row (now : Z) (code : string) (retryable : bool) (a : WithdrawalAccounting) : WithdrawalAccounting :=
  let n := a.(wa_attempt_count) + 1 in
  let next := if negb retryable || (MAX_ATTEMPTS <=? n) then "exception" else default a.(wa_status) (pending_of a.(wa_status)) in
  set_wa_last_error_at (Some now) (set_wa_last_error_code (Some code) (set_wa_locked_at None
    (set_wa_next_attempt_at (now + retry_delay n) (set_wa_attempt_count n (set_wa_status next a))))).

Lemma processing_pending st : st ∈ processing_statuses → ∃ p, pending_of st = Some p ∧ p ∈ pending_statuses.
Proof. unfold processing_statuses, pending_statuses. intros H. repeat (apply elem_of_cons in H as [->|H]; [eexists; split; [done|set_solver]|]). set_solver. Qed.
Lemma pending_processing st : st ∈ pending_statuses → ∃ p, processing_of st = Some p ∧ p ∈ processing_statuses.
Proof. unfold processing_statuses, pending_statuses. intros H. repeat (apply elem_of_cons in H as [->|H]; [eexists; split; [done|set_solver]|]). set_solver. Qed.

Lemma recordFailure_ok now id code retryable s u s' a :
  s.(withdrawalQueue) !! id = Some a → a.(wa_status) ∈ processing_statuses →
  recordFailure now id code retryable s = inr (u, s') →
  s' = set_withdrawalQueue (<[id := failed_row now code retryable a]> s.(withdrawalQueue)) s ∧
  queue_check (failed_row now code retryable a) = true.
Proof.
  intros Ha Hp H. unfold recordFailure in H. apply bind_ok in H as (?&?&[-> ->]%gets_ok&H). rewrite Ha in H.
  rewrite (proj2 (includes_true _ _) Hp) in H. simpl in H.
  apply bind_ok in H as (next&s1&Hn&H). apply bind_ok in H as (n&s2&Hup&[_ ->]%ret_ok).
  destruct (processing_pending _ Hp) as (p&Hpp&_).
  assert (s1 = s ∧ next = if negb retryable || (MAX_ATTEMPTS <=? wa_attempt_count a + 1) then "exception" else p) as [-> ->].
  { destruct (_ || _); [by apply ret_ok in Hn as [-> ->]|]. unfold pendingStatus in Hn. rewrite Hpp in Hn.
    by apply ret_ok in Hn as [-> ->]. }
  apply update_many_id_ok in Hup as [(_&b&Hb&_&Hck&->)|(_&_&Hno)].
  - rewrite Ha in Hb. injection Hb as <-. unfold failed_row. by rewrite Hpp.
  - specialize (Hno a Ha). unfold in_status in Hno. by rewrite String.eqb_refl in Hno.
Qed.

Lemma current_status_ok id s st :
  currentProcessingStatus id s = Some st → ∃ a, s.(withdrawalQueue) !! id = Some a ∧ a.(wa_status) ∈ processing_statuses.
Proof.
  unfold currentProcessingStatus. destruct (withdrawalQueue s !! id) as [a|]; [|done]. simpl.
  destruct (includes _ _) eqn:E; [|done]. intros _. exists a. by apply includes_true in E.
Qed.

Lemma retry_delay_bounds n : 1 ≤ n → 5000 ≤ retry_delay n ≤ 900000.
Proof.
  intros Hn. unfold retry_delay. change (Z.of_nat (length RETRY_DELAYS_MS) - 1) with 4.
  assert (∃ k, (k < 5)%nat ∧ Z.to_nat (Z.min (n - 1) 4) = k) as (k&Hk&->) by (exists (Z.to_nat (Z.min (n - 1) 4)); lia).
  unfold RETRY_DELAYS_MS. do 5 (destruct k as [|k]; [simpl; lia|]). lia.
Qed.

(** The CHECKs accept the row of a failure. *)
Lemma failed_row_check now code retryable a :
  queue_check a = true → a.(wa_status) ∈ processing_statuses → queue_check (failed_row now code retryable a) = true.
Proof.
  unfold queue_check, failed_row. intros Hck Hp. rewrite !andb_true_iff in *. destruct Hck as [[[_ Hn] Hl] Hst].
  destruct (processing_pending _ Hp) as (p&Hpp&Hpin). simpl. rewrite Hpp. simpl.
  assert (∀ x, x = "exception" ∨ x ∈ processing_statuses ∨ x ∈ pending_statuses →
    includes queue_statuses x = true ∧ String.eqb x "settled" = false ∧ String.eqb x "released" = false) as Hcl.
  { intros x [->|[Hx|Hx]]; [done|..]; repeat (apply elem_of_cons in Hx as [->|Hx]; [done|]); by apply not_elem_of_nil in Hx. }
  destruct (Hcl (wa_status a)) as (_&Ha1&Ha2); [by right; left|]. rewrite Ha1, Ha2 in Hst.
  set (next := if negb retryable || _ then "exception" else p).
  destruct (Hcl next) as (->&->&->); [unfold next; case_match; [by left|by right; right]|].
  split_and!; try done. apply Z.leb_le in Hn. apply Z.leb_le. lia.
Qed.

Lemma recordFailure_run now id code retryable s a :
  s.(withdrawalQueue) !! id = Some a → queue_check a = true → a.(wa_status) ∈ processing_statuses →
  recordFailure now id code retryable s =
    inr (tt, set_withdrawalQueue (<[id := failed_row now code retryable a]> s.(withdrawalQueue)) s).
Proof.
  intros Ha Hck Hp. pose proof (failed_row_check now code retryable a Hck Hp) as Hok.
  destruct (processing_pending _ Hp) as (p&Hpp&_).
  unfold recordFailure. run gets_run. rewrite Ha, (proj2 (includes_true _ _) Hp). simpl.
  unfold failed_row in *. rewrite Hpp in *. simpl in *.
  rewrite (bind_run _ _ _ (if negb retryable || (MAX_ATTEMPTS <=? wa_attempt_count a + 1) then "exception" else p) s).
  2: { destruct (_ || _); [done|]. unfold pendingStatus. by rewrite Hpp. }
  unfold queue_update, update_many_id, bind. rewrite Ha. unfold in_status. rewrite String.eqb_refl.
  by rewrite Hok.
Qed.

(** a failed phase leaves the ledger alone.  When the transaction of an
    approval, a release or a settlement throws, the withdrawal keeps every row of
    the database but its own queue row, which goes back to the pending state of
    its phase with a delay between five seconds and fifteen minutes, or to the
    exception state; and the worker itself does not throw. *)
Theorem failed_phase_isolated {DO : DecimalOps} {JD : JsDates} sha256 env call id st s a e s1 :
  s.(withdrawalQueue) !! id = Some a → queue_check a = true → a.(wa_status) = st → st ∈ processing_statuses →
  st ≠ "reserving" → advance sha256 env call id st s = (s1, Some e) →
  ∃ b, processWithdrawal sha256 env call id (Some st) s =
         (set_withdrawalQueue (<[id := b]> s.(withdrawalQueue)) s, None) ∧
    b.(wa_attempt_count) = a.(wa_attempt_count) + 1 ∧ b.(wa_locked_at) = None ∧
    b.(wa_last_error_code) = Some (normalizeError e).1 ∧
    (b.(wa_status) = "exception" ∨ pending_of st = Some b.(wa_status)) ∧
    wc_now call + 5000 ≤ b.(wa_next_attempt_at) ≤ wc_now call + 900000.
Proof.
  intros Ha Hck Hst Hp Hnr Hadv.
  assert (s1 = s) as ->.
  { unfold advance in Hadv. rewrite (proj2 (String.eqb_neq _ _) Hnr) in Hadv.
    unfold commit in Hadv. destruct (phase _ _ _ _ _ s) as [|[? ?]]; by injection Hadv. }
  destruct (processing_pending _ Hp) as (p&Hpp&Hpin).
  exists (failed_row (wc_now call) (normalizeError e).1 (normalizeError e).2 a). split.
  - unfold processWithdrawal. assert (opt_truthy (Some st) = true) as ->.
    { simpl. unfold truthy. apply negb_true_iff, String.eqb_neq. intros ->. unfold processing_statuses in Hp. set_solver. }
    rewrite Hadv. destruct (normalizeError e) as [code retryable]. unfold commit.
    by rewrite (recordFailure_run _ _ _ _ _ _ Ha Hck) by congruence.
  - assert (0 ≤ a.(wa_attempt_count)) as H0.
    { unfold queue_check in Hck. rewrite !andb_true_iff in Hck. destruct Hck as [[[_ Hn] _] _]. by apply Z.leb_le. }
    pose proof (retry_delay_bounds (a.(wa_attempt_count) + 1) ltac:(lia)) as Hd.
    unfold failed_row. simpl. rewrite Hst, Hpp. simpl. split_and!; try done; [|lia|lia]. case_match; [by left|by right].
Qed.

(** ** Serialization failures *)
Definition p2034 : exn := PrismaKnown "P2034" [].

(** [withSerializableRetry] is the transaction itself up to two lost commits.
    With [k] serialization failures before a commit goes through, the run is the
    plain run when [k] is at most two, and the database's error after three;
    an error of the body is not retried. *)
Theorem retry_transparent {A} (m : M Db A) k faults s :
  (∀ e, m s = inl e → isSerializableConflict e = false) →
  withSerializableRetry (replicate k (Some p2034) ++ None :: faults) m s =
    if (k <? 3)%nat then m s else inl p2034.
Proof.
  intros Hm. unfold withSerializableRetry.
  assert (∀ n e fs, (n ≠ 0)%nat → retry_from e n (None :: fs) m s = m s) as Hgo.
  { intros [|n] e fs Hn; [done|]. simpl. unfold try_catch. destruct (m s) as [x|] eqn:E; [|done].
    by rewrite (Hm x eq_refl). }
  assert (∀ n e fs, retry_from e (S n) (Some p2034 :: fs) m s = retry_from p2034 n fs m s) as Hlost by done.
  destruct k as [|[|[|k]]]; cbn [replicate app]; rewrite ?Hlost; [by rewrite Hgo..|done].
Qed.

(** ** Claims *)
Lemma queue_claim_ok now row s r s' :
  claim_row now row s = inr (r, s') →
  ∃ a p, s.(withdrawalQueue) !! row.1 = Some a ∧ a.(wa_status) = row.2 ∧ processing_of row.2 = Some p ∧ r = (row.1, p) ∧
    s' = set_withdrawalQueue (<[row.1 := set_wa_locked_at (Some now) (set_wa_status p a)]> s.(withdrawalQueue)) s.
Proof.
  unfold claim_row. intros (p&?&[Hp ->]%require_ok&H)%bind_ok. apply bind_ok in H as (n&s1&Hup&H).
  apply bind_ok in H as (u&?&[Hn ->]%throw_if_ok&[-> ->]%ret_ok).
  apply (queue_update_ok _ _ _ _ _ _ Hup) in Hn as (a&Ha&Hpa&_&->).
  exists a, p. split_and!; try done. by apply String.eqb_eq.
Qed.

(** The claims of distinct rows: each is processing and locked now. *)
Definition claimed (now : Z) (s : Db) (r : string * string) : Prop :=
  ∃ a, s.(withdrawalQueue) !! r.1 = Some a ∧ a.(wa_status) = r.2 ∧ r.2 ∈ processing_statuses ∧ a.(wa_locked_at) = Some now.

Lemma claim_rows_ok now rows s rs s' :
  Forall (λ r, r.2 ∈ pending_statuses) rows → NoDup rows.*1 → for_each rows (claim_row now) s = inr (rs, s') →
  rs.*1 = rows.*1 ∧ Forall (claimed now s') rs ∧
  ∀ k, k ∉ rows.*1 → s'.(withdrawalQueue) !! k = s.(withdrawalQueue) !! k.
Proof.
  revert s rs s'. induction rows as [|row rows IH]; simpl; intros s rs s' Hp Hnd H.
  - apply ret_ok in H as [-> ->]. done.
  - apply Forall_cons in Hp as [Hp Hps]. apply NoDup_cons in Hnd as [Hni Hnd].
    apply bind_ok in H as (r&s1&(a&p&Ha&Hst&Hpp&->&->)%queue_claim_ok&H).
    apply bind_ok in H as (rs'&s2&Hrs&[-> ->]%ret_ok). destruct (IH _ _ _ Hps Hnd Hrs) as (Heq&Hcl&Hk).
    simpl. split_and!; [by f_equal| |].
    + constructor; [|done]. exists (set_wa_locked_at (Some now) (set_wa_status p a)). simpl.
      rewrite (Hk row.1 Hni). simpl. rewrite lookup_insert_eq. split_and!; try done.
      destruct (pending_processing _ Hp) as (p'&Hp'&?). congruence.
    + intros k [Hne Hk']%not_elem_of_cons. rewrite (Hk k Hk'). simpl. by rewrite lookup_insert_ne.
Qed.

Lemma due_rows_spec now locked s r :
  r ∈ due_rows now locked s → ∃ a, s.(withdrawalQueue) !! r.1 = Some a ∧ r.2 = a.(wa_status) ∧ a.(wa_status) ∈ pending_statuses ∧
    a.(wa_next_attempt_at) ≤ now ∧ locked r.1 = false.
Proof.
  unfold due_rows. intros ([k a]&->&Hin)%list_elem_of_fmap.
  apply elem_of_take in Hin as (i&Hi&_). apply list_elem_of_lookup_2 in Hi. rewrite merge_sort_Permutation in Hi.
  apply find_many_elem in Hi as [Hk Hd]. exists a. simpl. unfold due in Hd. simpl in Hd.
  rewrite !andb_true_iff, includes_true, Z.leb_le, negb_true_iff in Hd. tauto.
Qed.

Lemma due_rows_NoDup now locked s : NoDup (due_rows now locked s).*1.
Proof.
  unfold due_rows. rewrite <- list_fmap_compose. change (fst ∘ _) with (fst (A:=string) (B:=WithdrawalAccounting)).
  set (l := merge_sort older _). enough (NoDup l.*1) as Hn.
  { rewrite <- (take_drop BATCH_SIZE l), fmap_app in Hn. by apply NoDup_app in Hn as [? _]. }
  unfold l. rewrite merge_sort_Permutation. unfold find_many.
  apply NoDup_ListNoDup. clear. pose proof (NoDup_fst_map_to_list s.(withdrawalQueue)) as H.
  induction (map_to_list (withdrawalQueue s)) as [|x l IH]; simpl; [constructor|].
  apply NoDup_cons in H as [Hx H]. destruct (due now locked x); simpl; [|by apply IH].
  constructor; [|by apply IH]. intros Hin. apply Hx. apply list_elem_of_In in Hin.
  apply list_elem_of_fmap in Hin as (y&->&Hy). apply list_elem_of_fmap. exists y. split; [done|].
  apply list_elem_of_In in Hy. apply List.filter_In in Hy as [Hy _]. by apply list_elem_of_In.
Qed.

(** What a claim takes was pending, or held too long by a worker. *)
Lemma claimed_was_open now locked s rows s' id a :
  claimBatch now locked s = inr (rows, s') → s.(withdrawalQueue) !! id = Some a →
  a.(wa_status) ∉ pending_statuses → a.(wa_status) ∉ processing_statuses → id ∉ rows.*1.
Proof.
  intros H Ha Hp Hq Hin. unfold claimBatch in H. apply bind_ok in H as (n&s0&(m&->&_&Hm)%update_many_ok&H).
  apply bind_ok in H as (due&?&[-> ->]%gets_ok&H).
  assert (Forall (λ r, r.2 ∈ pending_statuses) (due_rows now locked (set_withdrawalQueue m s))) as Hpend.
  { apply Forall_forall. intros r (a'&_&->&?&_)%due_rows_spec. done. }
  destruct (claim_rows_ok _ _ _ _ _ Hpend (due_rows_NoDup _ _ _) H) as (Heq&_&_). rewrite Heq in Hin.
  apply list_elem_of_fmap in Hin as (r&->&(a'&Ha'&_&Hpa&_)%due_rows_spec). simpl in Ha'.
  rewrite Hm, Ha in Ha'. simpl in Ha'. unfold stale in Ha'. simpl in Ha'.
  destruct (includes processing_statuses a.(wa_status)) eqn:E; [by apply includes_true in E|].
  simpl in Ha'. by injection Ha' as <-.
Qed.

(** C15: a claim is exclusive.  A batch holds at most ten distinct withdrawals, each
    now in a processing state and locked at the time of the claim; and until five
    minutes have passed no other claim takes any of them, whatever rows it skips. *)
Theorem claims_exclusive now locked s rows s1 :
  claimBatch now locked s = inr (rows, s1) →
  (length rows ≤ 10)%nat ∧ NoDup rows.*1 ∧ Forall (claimed now s1) rows ∧
  ∀ now2 locked2 rows2 s2, now2 ≤ now + STALE_LOCK_MS → claimBatch now2 locked2 s1 = inr (rows2, s2) →
    ∀ id, id ∈ rows.*1 → id ∉ rows2.*1.
Proof.
  intros H. unfold claimBatch in H. apply bind_ok in H as (n&s0&_&H). apply bind_ok in H as (due&?&[-> ->]%gets_ok&H).
  assert (Forall (λ r, r.2 ∈ pending_statuses) (due_rows now locked s0)) as Hp.
  { apply Forall_forall. intros r (a&_&->&?&_)%due_rows_spec. done. }
  destruct (claim_rows_ok _ _ _ _ _ Hp (due_rows_NoDup _ _ _) H) as (Heq&Hcl&_).
  split_and!; [|rewrite Heq; apply due_rows_NoDup|done|].
  { rewrite <- (length_fmap fst rows), Heq. unfold due_rows. rewrite !length_fmap, length_take. unfold BATCH_SIZE. lia. }
  intros now2 locked2 rows2 s2 Hlt H2 id Hid Hid2. unfold claimBatch in H2.
  apply bind_ok in H2 as (n2&s3&(m&->&_&Hm)%update_many_ok&H2). apply bind_ok in H2 as (due2&?&[-> ->]%gets_ok&H2).
  assert (Forall (λ r, r.2 ∈ pending_statuses) (due_rows now2 locked2 (set_withdrawalQueue m s1))) as Hp2.
  { apply Forall_forall. intros r (a&_&->&?&_)%due_rows_spec. done. }
  destruct (claim_rows_ok _ _ _ _ _ Hp2 (due_rows_NoDup _ _ _) H2) as (Heq2&_&_). rewrite Heq2 in Hid2.
  apply list_elem_of_fmap in Hid2 as (r2&->&(a2&Ha2&_&Hpend&_)%due_rows_spec). simpl in Ha2.
  apply list_elem_of_fmap in Hid as (r&Hr&Hin). rewrite Forall_forall in Hcl. destruct (Hcl r Hin) as (a&Ha&Hst&Hpr&Hlk).
  rewrite Hm, Hr, Ha in Ha2. simpl in Ha2. unfold stale in Ha2. simpl in Ha2. rewrite Hlk in Ha2.
  assert (now <? now2 - STALE_LOCK_MS = false) as Hs by (apply Z.ltb_ge; lia). rewrite Hs, andb_false_r in Ha2.
  injection Ha2 as <-. rewrite Hst in Hpend. unfold processing_statuses, pending_statuses in *.
  repeat (apply elem_of_cons in Hpr as [Hpr|Hpr]; [rewrite Hpr in Hpend; set_solver|]). by apply not_elem_of_nil in Hpr.
Qed.

(** ** Direct processing *)

(** a phase that [processDirect] reports completed stays completed: asking for
    the same phase again, at any later time, answers with the same status as an
    idempotent replay and changes nothing; and only a pending answer invites a
    retry. *)
Theorem direct_completion_stable {DO : DecimalOps} {JD : JsDates} sha256 env call id action s s' r :
  processDirect sha256 env call id action s = (s', inr r) →
  (r.(dr_retryable) = true ↔ r.(dr_status) = "pending") ∧
  (r.(dr_status) = (direct_states action).2 →
   ∀ call2, processDirect sha256 env call2 id action s' =
     (s', inr {| dr_status := (direct_states action).2; dr_retryable := false; dr_idempotent := true |})).
Proof.
  intros H.
  assert (∃ n, direct_result env id action n s' = inr r) as [n Hr].
  { unfold processDirect in H. destruct (direct_states action) as [[pending processing] completed].
    destruct (commit _ s) as [s1 [e|claimed]]; [done|]. destruct (if claimed =? 1 then _ else _) as [s2 [e|]]; [done|].
    injection H as -> H. by exists claimed. }
  unfold direct_result in Hr. destruct (direct_states action) as [[pending processing] completed] eqn:E. simpl.
  assert (completed ≠ "pending" ∧ completed ≠ "exception" ∧ completed ≠ pending ∧ completed ≠ processing) as (H1&H2&H3&H4)
    by (destruct action; injection E as <- <- <-; done).
  destruct (withdrawalQueue s' !! id) as [a|] eqn:Ea; [|done]. destruct (negb _) eqn:Et; [done|].
  destruct (in_status completed a) eqn:Hc.
  - injection Hr as <-. simpl. split; [by split|]. intros _ call2. unfold processDirect. rewrite E.
    assert (in_status pending a = false ∧ in_status processing a = false) as [Hnp Hns].
    { unfold in_status in *. apply String.eqb_eq in Hc. rewrite Hc. split; by apply String.eqb_neq. }
    unfold commit, direct_claim, queue_update, update_many_id. rewrite Ea, Hnp, Hns, andb_false_r. simpl.
    unfold direct_result. by rewrite E, Ea, Et, Hc.
  - destruct (in_status "exception" a); [injection Hr as <-; simpl; by split; [split|congruence]|].
    destruct (_ || _); [|done]. injection Hr as <-. simpl. split; [by split|congruence].
Qed.

(** ** Witnesses *)
Definition custody_row : CregisWithdrawal :=
  MkCregisWithdrawal "neobank" "cus" "cw" "195@TR7NHqjeKQxGTCi8q8ZY4pL8otSzgjLj6t" "10" 10000000 "1" 1000000 "9" 9000000
    sample_address sample_address "submitted" (Some "cid") (Some genuine_txid) "maker" (Some "ops@bank") (Some "ops@bank")
    None None None None (Some (to_iso now0)) (Some (to_iso now0)).
Definition queue_row (st : string) : WithdrawalAccounting :=
  MkWithdrawalAccounting "neobank" "cus" st (Some "customer_request") (Some "customer_request") None None None 0 0 None None None
    None None None None None 0.
Definition with_custody (st callback : string) (s : Db) : Db :=
  MkDb s.(users) s.(customers)
    (<["usdt" := set_acc_walletAddress (Some sample_address) (account0 (Some "cus") CRYPTO_WALLET USDT (Some "TRON") (units 50))]> s.(accounts))
    {[ "wal" := MkCryptoWallet "cus" USDT TRON sample_address AS_ACTIVE (units 50) 0 0 ]}
    s.(beneficiaries) s.(channels) s.(rateVersions) s.(operations) s.(transfers) s.(journal) s.(feeRules) s.(vaRequests)
    s.(vaEvents) s.(outbox) {[ "x1" := queue_row st ]} s.(depositQueue) {[ "x1" := custody_row ]} s.(custodyDeposits)
    {[ "cw" := MkCregisWallet "neobank" "cus" sample_address "active" (Some "cregis") (Some "yes") ]}
    s.(sourceCustomers) [MkCallbackEvent "payout" "cid" callback] [MkAdminUser "ops@bank" "active" (Some "adm")].
Definition db_custody : Db := with_custody "reserving" "6" db0.
Definition db_custody_refused : Db := with_custody "reserving" "2" db0.
Definition reserve_run : M Db unit := reserve zero_hash env0 now0 "c1" "x1".

(** The custody side hands the withdrawal to the next phase. *)
Definition hand (st cst : string) (s : Db) : Db :=
  set_custodyWithdrawals (alter (set_cx_status cst) "x1" s.(custodyWithdrawals))
    (set_withdrawalQueue (alter (set_wa_status st) "x1" s.(withdrawalQueue)) s).
Lemma hand_over st cst s : handed_over "x1" s (hand st cst s).
Proof.
  split; [done|..]; simpl.
  - intros a Ha. exists (set_wa_status st a). by rewrite lookup_alter_eq, Ha.
  - intros x Hx. exists (set_cx_status cst x). by rewrite lookup_alter_eq, Hx.
Qed.

Definition approve_run : M Db unit := approveWithdrawal zero_hash env0 now0 "x1".
Definition release_run : M Db unit := releaseFunds zero_hash env0 now0 "x1".
Definition settle_run : M Db unit := settle zero_hash env0 now0 "x1".
Definition db_refused_approving : Db := hand "approving" "approved" (after reserve_run db_custody_refused).
Definition db_refused_releasing : Db := hand "releasing" "rejected" (after approve_run db_refused_approving).
Definition db_approving : Db := hand "approving" "approved" (after reserve_run db_custody).
Definition db_settling : Db := hand "settling" "completed" (after approve_run db_approving).

Lemma custody_row_exact : custody_exact custody_row.
Proof.
  split_and!; intros d H; vm_compute in H; injection H as <-; eexists; (split; [vm_compute; reflexivity|done]).
Qed.

Lemma custody_release_restores_witness :
  ∃ s', release_run db_refused_releasing = inr (tt, s') ∧
    available_of s' "usdt" = units 50 ∧ frozen_of s' "usdt" = 0 ∧
    ∃ o, s'.(operations) !! "c1" = Some o ∧ o.(op_status) = FAILED.
Proof.
  assert (succeeds reserve_run db_custody_refused = true) as R1 by runs. apply run_succeeds in R1 as [u1 H1].
  assert (succeeds approve_run db_refused_approving = true) as R2 by runs. apply run_succeeds in R2 as [u2 H2].
  assert (succeeds release_run db_refused_releasing = true) as R3 by runs. apply run_succeeds in R3 as [[] H3].
  exists (after release_run db_refused_releasing). split; [exact H3|].
  unfold reserve_run in H1 at 1. unfold approve_run in H2 at 1. unfold release_run in H3 at 1.
  destruct (custody_release_restores zero_hash env0 true now0 now0 now0 "c1" "x1" custody_row db_custody_refused
    u1 (after reserve_run db_custody_refused) db_refused_approving db_refused_releasing tt
    (after release_run db_refused_releasing)) as (Hb&_&o&q&Ho&Hst&_).
  - runs.
  - exact custody_row_exact.
  - exact H1.
  - apply hand_over.
  - exists u2, (after approve_run db_refused_approving). split; [exact H2|apply hand_over].
  - exact H3.
  - destruct (Hb "usdt") as (HA&HF&_). split; [rewrite HA; runs|]. split; [rewrite HF; runs|]. exists o. split; [exact Ho|exact Hst].
Defined.

Lemma custody_settlement_lifecycle_witness :
  ∃ s', settle_run db_settling = inr (tt, s') ∧
    ∃ o, s'.(operations) !! "c1" = Some o ∧ o.(op_status) = COMPLETED ∧ frozen_of s' "usdt" = 0.
Proof.
  assert (succeeds reserve_run db_custody = true) as R1 by runs. apply run_succeeds in R1 as [u1 H1].
  assert (succeeds approve_run db_approving = true) as R2 by runs. apply run_succeeds in R2 as [u2 H2].
  assert (succeeds settle_run db_settling = true) as R3 by runs. apply run_succeeds in R3 as [[] H3].
  exists (after settle_run db_settling). split; [exact H3|].
  unfold reserve_run in H1 at 1. unfold approve_run in H2 at 1. unfold settle_run in H3 at 1.
  destruct (custody_settlement_lifecycle zero_hash env0 now0 now0 now0 "c1" "x1" custody_row db_custody
    u1 (after reserve_run db_custody) db_approving u2 (after approve_run db_approving) db_settling tt
    (after settle_run db_settling)) as (_&(q&mirror&wid&_&_&_&Hb)&o&t&q2&y&txid&_&_&_&Ho&Hst&_).
  - runs.
  - exact custody_row_exact.
  - exact H1.
  - apply hand_over.
  - exact H2.
  - apply hand_over.
  - exact H3.
  - exists o. split; [exact Ho|]. split; [exact Hst|]. destruct (Hb "usdt") as (_&HF&_). rewrite HF. runs.
Defined.

Lemma settled_never_released_witness :
  ∃ s', settle_run db_settling = inr (tt, s') ∧
    ∀ r s'', releaseFunds zero_hash env0 now0 "x1" (hand "releasing" "failed" s') ≠ inr (r, s'').
Proof.
  assert (succeeds settle_run db_settling = true) as R3 by runs. apply run_succeeds in R3 as [[] H3].
  exists (after settle_run db_settling). split; [exact H3|]. unfold settle_run in H3 at 1.
  destruct (settled_never_released zero_hash env0 now0 now0 "x1" db_settling tt (after settle_run db_settling)
    (hand "releasing" "failed" (after settle_run db_settling)) H3) as [_ Hn].
  apply Hn; [|runs]. intros e He. exact He.
Defined.

(** The approval of a withdrawal nobody reserved. *)
Definition queue_only (a : WithdrawalAccounting) : Db := set_withdrawalQueue {[ "x1" := a ]} db0.
Definition fail_run : M Db unit := recordFailure now0 "x1" "late" false.

Definition worker_call : WorkerCall :=
  {| wc_now := now0; wc_coreId := "c1"; wc_newId := λ k, k; wc_faults := []; wc_imported := λ _, ([], []) |}.
Lemma failed_phase_isolated_witness :
  ∃ b, processWithdrawal zero_hash env0 worker_call "x1" (Some "approving") (queue_only (queue_row "approving")) =
    (set_withdrawalQueue (<[ "x1" := b ]> (queue_only (queue_row "approving")).(withdrawalQueue)) (queue_only (queue_row "approving")), None) ∧
    b.(wa_attempt_count) = 1.
Proof.
  destruct (failed_phase_isolated zero_hash env0 worker_call "x1" "approving" (queue_only (queue_row "approving"))
    (queue_row "approving") (AccountingError "withdrawal_accounting_state_conflict" false) (queue_only (queue_row "approving")))
    as (b&Hb&Hc&_).
  - runs.
  - runs.
  - reflexivity.
  - apply includes_true. runs.
  - discriminate.
  - runs.
  - exists b. split; [exact Hb|exact Hc].
Defined.

Lemma retry_transparent_witness :
  (2 <? 3)%nat = true ∧ withSerializableRetry (replicate 2 (Some p2034) ++ [None]) fail_run db0 = fail_run db0.
Proof.
  split; [reflexivity|]. refine (retry_transparent fail_run 2 [] db0 _).
  assert (succeeds fail_run db0 = true) as R by runs. apply run_succeeds in R as [u H]. intros e He. congruence.
Defined.

Definition claim_run : M Db (list (string * string)) := claimBatch now0 (λ _, false).
Lemma claims_exclusive_witness :
  ∃ s1, claim_run (queue_only (queue_row "pending_approval")) = inr ([("x1", "approving")], s1) ∧
    ∀ now2 locked2 rows2 s2, now2 ≤ now0 + STALE_LOCK_MS → claimBatch now2 locked2 s1 = inr (rows2, s2) → "x1" ∉ rows2.*1.
Proof.
  assert (returns claim_run id (queue_only (queue_row "pending_approval")) = Some [("x1", "approving")]) as R by runs.
  apply run_returns in R as (rows&Hr&H). unfold id in Hr. subst rows.
  exists (after claim_run (queue_only (queue_row "pending_approval"))). split; [exact H|].
  unfold claim_run in H at 1. destruct (claims_exclusive _ _ _ _ _ H) as (_&_&_&Hx).
  intros now2 locked2 rows2 s2 Hlt H2. apply (Hx now2 locked2 rows2 s2 Hlt H2). by left.
Defined.

Lemma direct_completion_stable_witness :
  ∃ s', processDirect zero_hash env0 worker_call "x1" approve_action (queue_only (queue_row "approved")) =
    (s', inr {| dr_status := "approved"; dr_retryable := false; dr_idempotent := true |}).
Proof.
  exists (queue_only (queue_row "approved")).
  assert (processDirect zero_hash env0 worker_call "x1" approve_action (queue_only (queue_row "approved")) =
    (queue_only (queue_row "approved"), inr {| dr_status := "approved"; dr_retryable := false; dr_idempotent := true |})) as H by runs.
  destruct (direct_completion_stable _ _ _ _ _ _ _ _ H) as [_ Hs]. exact (Hs eq_refl worker_call).
Defined.
