(* ===== verification/DepositWorker.v ===== *)
(** [DepositAccountingWorker]
    ([server/src/deposit-accounting/deposit-accounting.worker.ts]): the queue
    [cregis_deposit_accounting] turns a completed custody deposit into a credit
    of the customer's USDT account and wallet with its journal entry, once. *)
From stdpp Require Import sorting.
From S2P Require Import Prelude Decimals Schema Access Ledger WithdrawalFees Operations TronAddress CryptoWallets Customers WithdrawalWorker.
From Stdlib Require Import Ascii.
#[local] Open Scope Z_scope.

(** The CHECK constraints of [cregis_deposit_accounting] on the columns the
    worker writes. *)
Definition deposit_queue_check (a : DepositAccounting) : bool :=
  includes ["held"; "pending"; "processing"; "posted"; "exception"] a.(da_status) &&
  (0 <=? a.(da_attempt_count)) &&
  (if String.eqb a.(da_status) "posted" then is_some a.(da_posted_at) && is_some a.(da_core_operation_id)
   else is_none a.(da_posted_at) && is_none a.(da_core_operation_id)).
Definition deposit_queue_update : string → (DepositAccounting → bool) →
    (DepositAccounting → DepositAccounting) → M Db Z :=
  update_many_id depositQueue set_depositQueue (λ _ _ a, deposit_queue_check a) "cregis_deposit_accounting_check".
Definition deposit_queue_updateWhere : (string * DepositAccounting → bool) →
    (DepositAccounting → DepositAccounting) → M Db Z :=
  update_many depositQueue set_depositQueue (λ _ _ a, deposit_queue_check a) "cregis_deposit_accounting_check".
Definition deposit_in (status : string) (a : DepositAccounting) : bool := String.eqb a.(da_status) status.

Record DirectDepositAccountingResult := {
  dd_status : string;
  dd_retryable : bool;
  dd_idempotent : bool;
}.

(** [normalizeError] *)
Definition normalizeDepositError (e : exn) : string * bool :=
  match e with
  | AccountingError code retryable => (code, retryable)
  | _ => if isSerializableConflict e then ("deposit_serialization_conflict", true)
         else ("deposit_accounting_unavailable", true)
  end.

(** A row of the posting query. *)
Record DepositRow := {
  dw_id : string;
  dw_queue : DepositAccounting;
  dw_custody : CregisDeposit;
  dw_wallet : CregisWallet;
  dw_customer : SourceCustomer;
}.
Definition deposit_row (s : Db) (id : string) : option DepositRow :=
  a ← s.(depositQueue) !! id;
  d ← s.(custodyDeposits) !! id;
  w ← s.(custodyWallets) !! d.(cd_wallet_id);
  c ← s.(sourceCustomers) !! a.(da_customer_id);
  if deposit_in "processing" a && String.eqb d.(cd_tenant_id) a.(da_tenant_id) &&
     String.eqb w.(cw_tenant_id) d.(cd_tenant_id) && String.eqb c.(sc_tenant_id) a.(da_tenant_id)
  then Some {| dw_id := id; dw_queue := a; dw_custody := d; dw_wallet := w; dw_customer := c |}
  else None.

(** The new ids of a posting. *)
Record DepositIds := {
  di_account : string;
  di_wallet : string;
  di_transfer : string;
  di_operation : string;
}.

Section worker.
Context {DO : DecimalOps} {JD : JsDates} (sha256 : list Z → list Z) (env : ProcessEnv).

(** [validateCustodyRow] *)
Definition validateCustodyRow (row : DepositRow) : M Db unit :=
  let d := row.(dw_custody) in let w := row.(dw_wallet) in let c := row.(dw_customer) in
  do! throw_if (negb (String.eqb row.(dw_queue).(da_tenant_id) (tenantId env)))
        (AccountingError "deposit_tenant_mismatch" false);
  do! throw_if (negb (String.eqb row.(dw_queue).(da_customer_id) w.(cw_customer_id)))
        (AccountingError "deposit_wallet_customer_mismatch" false);
  do! throw_if (negb (String.eqb d.(cd_status) "completed") || negb (String.eqb w.(cw_status) "active") ||
                differs w.(cw_custody_provider) (Some "cregis") || negb (opt_truthy w.(cw_ownership_verified_at)) ||
                negb (opt_truthy d.(cd_from_address)) || negb (opt_truthy d.(cd_txid)))
        (AccountingError "deposit_custody_evidence_incomplete" false);
  do! throw_if (negb (String.eqb d.(cd_currency) "195@TR7NHqjeKQxGTCi8q8ZY4pL8otSzgjLj6t") ||
                negb (String.eqb d.(cd_chain_id) "195") ||
                negb (String.eqb d.(cd_token_id) "TR7NHqjeKQxGTCi8q8ZY4pL8otSzgjLj6t"))
        (AccountingError "deposit_asset_mismatch" false);
  throw_if (negb (String.eqb c.(sc_status) "active") || negb (String.eqb c.(sc_kyc_status) "approved") ||
            negb (String.eqb c.(sc_operations_status) "active"))
    (AccountingError "deposit_customer_not_active" false).

(** [amount] *)
Definition deposit_amount (d : CregisDeposit) : option D :=
  amount ← d_parse d.(cd_amount_text);
  if negb (d_isPositive amount) || places_exceed amount 6 || minor_differs amount d.(cd_amount_minor)
  then None else Some amount.

(** The core rows a posting reads, and the checks on them: the account and the
    wallet of the customer, when there are, and the clearing account. *)
Definition deposit_parties (row : DepositRow) :
    M Db (option (string * Account) * option (string * CryptoWallet) * string) :=
  let customerId := row.(dw_queue).(da_customer_id) in
  let address := row.(dw_custody).(cd_address) in
  let! customer := find_unique customers customerId in
  let! admin := find_unique users (adminUserId env) in
  let! matching := gets (λ s, find_many (is_usdt_account_of customerId) s.(accounts)) in
  let! clearings := gets (λ s, find_many (is_book_account PLATFORM_CLEARING) s.(accounts)) in
  let! wallet := gets (λ s, find_first (is_usdt_wallet_of customerId) s.(wallets)) in
  do! throw_if (match customer with
                | None => true
                | Some c => negb (String.eqb c.(cust_organizationId) (organizationId env)) ||
                            differs c.(cust_status) CS_ACTIVE || differs c.(cust_kycStatus) KYC_APPROVED
                end) (AccountingError "core_customer_not_ready" true);
  do! throw_if (match admin with
                | None => true
                | Some u => negb u.(user_active) || differs u.(user_role) ADMIN ||
                            differs u.(user_organizationId) (Some (organizationId env))
                end) (AccountingError "core_accounting_admin_not_ready" true);
  do! throw_if (Nat.ltb 1 (length matching)) (AccountingError "core_crypto_account_conflict" false);
  do! throw_if (match head matching with Some ka => differs ka.2.(acc_status) AS_ACTIVE | None => false end)
        (AccountingError "core_crypto_account_not_active" false);
  do! throw_if (match head matching with
                | Some ka => opt_truthy ka.2.(acc_walletAddress) && differs ka.2.(acc_walletAddress) (Some address)
                | None => false
                end) (AccountingError "core_crypto_account_binding_conflict" false);
  let! clearing := match clearings with
                   | [ka] => ret ka.1
                   | _ => throw (AccountingError "core_usdt_clearing_not_ready" true)
                   end in
  do! throw_if (match wallet with
                | Some kw => differs kw.2.(wal_status) AS_ACTIVE || negb (String.eqb kw.2.(wal_walletAddress) address)
                | None => false
                end) (AccountingError "core_crypto_wallet_binding_conflict" false);
  ret (head matching, wallet, clearing).

(** The account and the wallet credited: the customer's, or new empty ones. *)
Definition ensure_account (ids : DepositIds) (row : DepositRow) (found : option (string * Account)) :
    M Db (string * Account) :=
  match found with
  | Some ka => ret ka
  | None =>
      let account := crypto_account_row row.(dw_queue).(da_customer_id) "USDT 钱包（Cregis TRON）"
                       (Some row.(dw_custody).(cd_address)) 0 0 in
      do! account_create ids.(di_account) account;
      ret (ids.(di_account), account)
  end.
Definition ensure_wallet (ids : DepositIds) (row : DepositRow) (found : option (string * CryptoWallet)) :
    M Db (string * CryptoWallet) :=
  match found with
  | Some kw => ret kw
  | None =>
      let wallet := MkCryptoWallet row.(dw_queue).(da_customer_id) USDT TRON row.(dw_custody).(cd_address) AS_ACTIVE 0 0 0 in
      do! wallet_create ids.(di_wallet) wallet;
      ret (ids.(di_wallet), wallet)
  end.

Definition deposit_reference (row : DepositRow) : string :=
  "CREGIS-DEP-" +:+ row.(dw_queue).(da_tenant_id) +:+ "-" +:+ row.(dw_custody).(cd_cregis_cid).
Definition deposit_key (row : DepositRow) : string :=
  "cregis-deposit:" +:+ row.(dw_queue).(da_tenant_id) +:+ ":" +:+ row.(dw_custody).(cd_cregis_cid).

(** [duplicate]: an operation that already stands for this deposit or its
    transaction; an undefined [externalReference] constrains nothing. *)
Definition deposit_stands_for (row : DepositRow) (o : Operation) : bool :=
  String.eqb o.(op_reference) (deposit_reference row) ||
  (String.eqb o.(op_customerId) row.(dw_queue).(da_customer_id) &&
   opt_eqb o.(op_idempotencyKey) (Some (deposit_key row))) ||
  ((negb (opt_truthy row.(dw_custody).(cd_txid)) || opt_eqb o.(op_externalReference) row.(dw_custody).(cd_txid)) &&
   same o.(op_type) DEPOSIT && same o.(op_currency) USDT).

Definition deposit_transfer (row : DepositRow) (walletId : string) (amount receivedAt : Z) : CryptoTransfer :=
  MkCryptoTransfer (deposit_reference row +:+ "-TRANSFER") (Some (deposit_key row))
    row.(dw_queue).(da_customer_id) walletId USDT TRON TD_DEPOSIT TS_COMPLETED amount 0 amount
    (default "" row.(dw_custody).(cd_from_address)) row.(dw_custody).(cd_address) row.(dw_custody).(cd_txid) 20
    (adminUserId env) (Some (adminUserId env)) (Some (adminUserId env)) None receivedAt (Some receivedAt) (Some receivedAt).

Definition deposit_operation (now : Z) (row : DepositRow) (transferId accountId : string) (amount receivedAt : Z) : Operation :=
  {| op_reference := deposit_reference row;
     op_idempotencyKey := Some (deposit_key row);
     op_customerId := row.(dw_queue).(da_customer_id);
     op_channelId := None;
     op_type := DEPOSIT;
     op_status := COMPLETED;
     op_currency := USDT;
     op_amount := amount;
     op_feeAmount := 0;
     op_sourceAccountId := None;
     op_targetAccountId := Some accountId;
     op_beneficiaryId := None;
     op_payoutMethod := None;
     op_adjustmentDirection := None;
     op_quoteCurrency := None;
     op_quoteAmount := None;
     op_rate := None;
     op_rateVersionId := None;
     op_makerId := adminUserId env;
     op_checkerId := Some (adminUserId env);
     op_operatorId := Some (adminUserId env);
     op_rejectionReason := None;
     op_externalReference := row.(dw_custody).(cd_txid);
     op_remitterName := None;
     op_remitterBank := None;
     op_remittanceReference := None;
     op_receivedAt := Some receivedAt;
     op_proofUrl := None;
     op_narrative := Some ("Cregis USDT TRON deposit " +:+ row.(dw_custody).(cd_cregis_cid));
     op_metadata := Some (JObj [("custodyRail", JStr "CREGIS"); ("custodyTransferId", JStr transferId);
                                ("cregisCid", JStr row.(dw_custody).(cd_cregis_cid));
                                ("chainId", JStr row.(dw_custody).(cd_chain_id));
                                ("tokenId", JStr row.(dw_custody).(cd_token_id));
                                ("rawSha256", JStr row.(dw_custody).(cd_raw_sha256))]);
     op_submittedAt := Some receivedAt;
     op_approvedAt := Some receivedAt;
     op_executedAt := Some receivedAt;
     op_createdAt := now |}.

Definition mark_posted (now : Z) (operationId : string) (a : DepositAccounting) : DepositAccounting :=
  set_da_last_error_at None (set_da_last_error_code None (set_da_locked_at None
    (set_da_core_operation_id (Some operationId) (set_da_posted_at (Some now) (set_da_status "posted" a))))).

(** The writes of a posting, once the parties are known. *)
Definition post_deposit (now : Z) (ids : DepositIds) (row : DepositRow) (account : string * Account)
    (wallet : string * CryptoWallet) (clearing : string) (amount : D) (receivedAt : Z) : M Db unit :=
  let! duplicate := gets (λ s, find_first (λ ko, deposit_stands_for row ko.2) s.(operations)) in
  do! throw_if (is_some duplicate) (AccountingError "core_deposit_duplicate" false);
  let! amountCol := store8 amount in
  do! transfer_create ids.(di_transfer) (deposit_transfer row wallet.1 amountCol receivedAt);
  do! operation_create ids.(di_operation)
        (deposit_operation now row ids.(di_transfer) account.1 amountCol receivedAt);
  let! _ := account_update account.1 (λ a,
    set_acc_walletAddress (or_string account.2.(acc_walletAddress) (Some row.(dw_custody).(cd_address))) (acc_credit amount a)) in
  let! _ := wallet_update wallet.1 (wal_credit amount) in
  do! create_entry (deposit_reference row +:+ "-principal") ids.(di_operation)
        ("Cregis USDT TRON deposit " +:+ row.(dw_custody).(cd_cregis_cid))
        [(clearing, DEBIT, USDT, amount); (account.1, CREDIT, USDT, amount)];
  let! changed := deposit_queue_update row.(dw_id)
    (λ a, String.eqb a.(da_tenant_id) row.(dw_queue).(da_tenant_id) && deposit_in "processing" a)
    (mark_posted now ids.(di_operation)) in
  throw_if (differs changed 1) (AccountingError "deposit_post_state_conflict" true).

(** [postOnce]: whether the deposit was posted. *)
Definition postOnce (now : Z) (ids : DepositIds) (id : string) : M Db bool :=
  let! found := gets (λ s, deposit_row s id) in
  match found with
  | None => ret false
  | Some row =>
      do! validateCustodyRow row;
      let! '(account, wallet, clearing) := deposit_parties row in
      let! amount := require (deposit_amount row.(dw_custody)) (AccountingError "deposit_amount_invalid" false) in
      let! receivedAt := require (date_parse row.(dw_custody).(cd_received_at))
                           (AccountingError "deposit_received_at_invalid" false) in
      let! account := ensure_account ids row account in
      let! wallet := ensure_wallet ids row wallet in
      do! post_deposit now ids row account wallet clearing amount receivedAt;
      ret true
  end.

(** [postWithSerializableRetry] *)
Definition postWithSerializableRetry (now : Z) (ids : DepositIds) (faults : list (option exn)) (id : string) : M Db bool :=
  withSerializableRetry faults (postOnce now ids id).

(** ** The worker around a posting *)
Record DepositCall := {
  dc_now : Z;
  dc_ids : DepositIds;
  dc_newId : string → string;
  dc_faults : list (option exn);
  dc_imported : string → list NeobankCustomer * list VerifiedCregisWallet;
}.

(** [ensureCoreCustomer] *)
Definition ensureDepositCustomer (call : DepositCall) (id : string) (s : Db) : Db * option exn :=
  match s.(depositQueue) !! id with
  | Some a =>
      if negb (deposit_in "processing" a) then (s, None)
      else if negb (String.eqb a.(da_tenant_id) (tenantId env))
      then (s, Some (AccountingError "deposit_tenant_mismatch" false))
      else if match s.(customers) !! a.(da_customer_id) with
              | Some c => String.eqb c.(cust_organizationId) (organizationId env) &&
                          same c.(cust_status) CS_ACTIVE && same c.(cust_kycStatus) KYC_APPROVED
              | None => false
              end
      then (s, None)
      else let '(rows, verified) := call.(dc_imported) a.(da_customer_id) in
           syncNeobankCustomers sha256 call.(dc_newId) (adminUserId env) (organizationId env) rows verified s
  | None => (s, None)
  end.

(** [recordFailure] *)
Definition recordDepositFailure (now : Z) (id code : string) (retryable : bool) : M Db unit :=
  let! row := gets (λ s, s.(depositQueue) !! id) in
  match row with
  | None => ret tt
  | Some a =>
      if negb (deposit_in "processing" a) then ret tt else
      let attemptCount := a.(da_attempt_count) + 1 in
      let terminal := negb retryable || (MAX_ATTEMPTS <=? attemptCount) in
      let! _ := deposit_queue_update id (deposit_in "processing") (λ r,
        set_da_last_error_at (Some now) (set_da_last_error_code (Some code) (set_da_locked_at None
          (set_da_next_attempt_at (now + retry_delay attemptCount)
            (set_da_attempt_count (r.(da_attempt_count) + 1)
              (set_da_status (if terminal then "exception" else "pending") r)))))) in
      ret tt
  end.

(** The body of the [try] of [processDeposit]. *)
Definition attempt_deposit (call : DepositCall) (id : string) (s : Db) : Db * option exn :=
  match ensureDepositCustomer call id s with
  | (s1, Some e) => (s1, Some e)
  | (s1, None) =>
      match commit (postWithSerializableRetry call.(dc_now) call.(dc_ids) call.(dc_faults) id) s1 with
      | (s2, inl e) => (s2, Some e)
      | (s2, inr _) => (s2, None)
      end
  end.
(** [processDeposit] *)
Definition processDeposit (call : DepositCall) (id : string) (s : Db) : Db * option exn :=
  match attempt_deposit call id s with
  | (s1, None) => (s1, None)
  | (s1, Some caught) =>
      let '(code, retryable) := normalizeDepositError caught in
      match commit (recordDepositFailure call.(dc_now) id code retryable) s1 with
      | (s2, inl e) => (s2, Some e)
      | (s2, inr _) => (s2, None)
      end
  end.

(** [processDirect] *)
Definition deposit_direct_claim (now : Z) (id : string) : M Db Z :=
  deposit_queue_update id
    (λ a, String.eqb a.(da_tenant_id) (tenantId env) &&
          ((deposit_in "pending" a && (a.(da_next_attempt_at) <=? now)) ||
           (deposit_in "processing" a &&
            match a.(da_locked_at) with Some t => t <? now - STALE_LOCK_MS | None => false end)))
    (λ a, set_da_locked_at (Some now) (set_da_status "processing" a)).
Definition deposit_direct_result (id : string) (claimed : Z) (s : Db) : exn + DirectDepositAccountingResult :=
  let conflict := AccountingError "deposit_direct_state_conflict" false in
  match s.(depositQueue) !! id with
  | Some a =>
      let status := a.(da_status) in
      if negb (String.eqb a.(da_tenant_id) (tenantId env)) ||
         negb (includes ["pending"; "processing"; "posted"; "exception"] status) then inl conflict
      else inr {| dd_status := status;
                  dd_retryable := String.eqb status "pending" || String.eqb status "processing";
                  dd_idempotent := (claimed =? 0) && String.eqb status "posted" |}
  | None => inl conflict
  end.
Definition processDepositDirect (call : DepositCall) (id : string) (s : Db) :
    Db * (exn + DirectDepositAccountingResult) :=
  match commit (deposit_direct_claim call.(dc_now) id) s with
  | (s1, inl e) => (s1, inl e)
  | (s1, inr claimed) =>
      let '(s2, failed) := if claimed =? 1 then processDeposit call id s1 else (s1, None) in
      match failed with
      | Some e => (s2, inl e)
      | None => (s2, deposit_direct_result id claimed s2)
      end
  end.

(** ** Claims *)
Definition deposit_stale (now : Z) (ka : string * DepositAccounting) : bool :=
  deposit_in "processing" ka.2 &&
  match ka.2.(da_locked_at) with Some t => t <? now - STALE_LOCK_MS | None => false end.
Definition unclaim (now : Z) (a : DepositAccounting) : DepositAccounting :=
  set_da_next_attempt_at now (set_da_locked_at None (set_da_status "pending" a)).
Definition deposit_older (a b : string * DepositAccounting) : Prop := a.2.(da_created_at) ≤ b.2.(da_created_at).
#[global] Instance deposit_older_dec : RelDecision deposit_older.
Proof. intros a b. unfold deposit_older. apply _. Defined.
Definition due_deposits (now : Z) (locked : string → bool) (s : Db) : list string :=
  map fst (take BATCH_SIZE (merge_sort deposit_older (find_many (λ ka : string * DepositAccounting,
    deposit_in "pending" ka.2 && (ka.2.(da_next_attempt_at) <=? now) && negb (locked ka.1)) s.(depositQueue)))).
Definition claim_deposit (now : Z) (id : string) : M Db string :=
  let! changed := deposit_queue_update id (deposit_in "pending")
    (λ a, set_da_locked_at (Some now) (set_da_status "processing" a)) in
  do! throw_if (differs changed 1) (AccountingError "deposit_claim_conflict" true);
  ret id.
(** [claimBatch] *)
Definition claimDepositBatch (now : Z) (locked : string → bool) : M Db (list string) :=
  let! _ := deposit_queue_updateWhere (deposit_stale now) (unclaim now) in
  let! ids := gets (due_deposits now locked) in
  for_each ids (claim_deposit now).
(** [release] *)
Definition release_deposit (now : Z) (id : string) : M Db unit :=
  let! _ := deposit_queue_update id (deposit_in "processing") (unclaim now) in
  ret tt.

(** [processBatch] *)
Fixpoint process_deposits (call : nat → DepositCall) (stopping : nat → bool) (i : nat) (ids : list string) (s : Db) :
    Db * option exn :=
  match ids with
  | [] => (s, None)
  | id :: rest =>
      if stopping i then run_steps (map (release_deposit (dc_now (call i))) ids) s
      else match processDeposit (call i) id s with
           | (s1, Some e) => (s1, Some e)
           | (s1, None) => process_deposits call stopping (S i) rest s1
           end
  end.
Definition processDepositBatch (now : Z) (locked : string → bool) (call : nat → DepositCall) (stopping : nat → bool) (s : Db) :
    Db * (exn + nat) :=
  match commit (claimDepositBatch now locked) s with
  | (s1, inl e) => (s1, inl e)
  | (s1, inr ids) =>
      match process_deposits call stopping 0 ids s1 with
      | (s2, Some e) => (s2, inl e)
      | (s2, None) => (s2, inr (length ids))
      end
  end.
End worker.
