(* ===== verification/CregisAccounting.v ===== *)
(** The internal endpoint the custody service calls
    ([server/src/deposit-accounting/cregis-accounting.controller.ts],
    [cregis-accounting.service.ts]): one movement is accounted at once, through the
    same workers as the queues, and the reply says how it stands. *)
From S2P Require Import Prelude Decimals Schema Access Ledger WithdrawalFees Operations TronAddress CryptoWallets Customers WithdrawalWorker DepositWorker OperationEffects OperationCreation Samples CryptoProperties WithdrawalWorkerEffects WithdrawalWorkerProperties.
From Stdlib Require Import Ascii.

(** [SAFE_RECORD_ID]: [/^[A-Za-z0-9_.:@-]{1,128}$/] *)
Definition safe_char (c : ascii) : bool :=
  let n := nat_of_ascii c in
  (Nat.leb 65 n && Nat.leb n 90) || (Nat.leb 97 n && Nat.leb n 122) || (Nat.leb 48 n && Nat.leb n 57) ||
  includes ["_"; "."; ":"; "@"; "-"]%char c.
Definition safe_record_id (value : string) : bool :=
  forallb safe_char (String.list_ascii_of_string value) &&
  Nat.leb 1 (String.length value) && Nat.leb (String.length value) 128.
(** [recordId] *)
Definition recordId (value : string) : exn + string :=
  if safe_record_id value then inr value else inl (BadRequest "invalid_cregis_record_id").

(** [isFinancialAccountingProcessingEnabled] of [financial-accounting-mode.ts], and
    the same test of the endpoint's own flag. *)
Definition isFinancialAccountingProcessingEnabled (value : option string) : bool :=
  match value with Some v => String.eqb (toLowerCase (trim v)) "true" | None => false end.
(** [requireEnabled] *)
Definition requireEnabled (flag : option string) : exn + unit :=
  if isFinancialAccountingProcessingEnabled flag then inr tt
  else inl (ServiceUnavailable "cregis_direct_accounting_disabled" "").

(** [errorCode]: the errors that carry a [code]. *)
Definition errorCode (caught : exn) : string :=
  match caught with
  | AccountingError code _ => code
  | PrismaKnown code _ => code
  | _ => ""
  end.
Definition is_unavailable (caught : exn) : bool :=
  match caught with ServiceUnavailable _ _ => true | _ => false end.

Record DirectReply := { rep_id : string; rep_status : string; rep_idempotent : bool }.

(** The reply to what [processDirect] returned or threw, with [conflict] the code
    of a row in an unexpected state. *)
Definition reply (conflict id : string) (outcome : exn + (string * bool * bool)) : exn + DirectReply :=
  match outcome with
  | inr (status, retryable, idempotent) =>
      if (retryable : bool) then inl (ServiceUnavailable "cregis_accounting_retryable" status)
      else inr {| rep_id := id; rep_status := status; rep_idempotent := idempotent |}
  | inl caught =>
      if is_unavailable caught then inl caught
      else if String.eqb (errorCode caught) conflict
      then inr {| rep_id := id; rep_status := "exception"; rep_idempotent := false |}
      else inl (ServiceUnavailable "cregis_accounting_unavailable" "")
  end.

Section service.
Context {DO : DecimalOps} {JD : JsDates} (sha256 : list Z → list Z) (env : ProcessEnv)
  (flag : option string).

(** [postDeposit] *)
Definition postDeposit (call : DepositCall) (depositId : string) (s : Db) : Db * (exn + DirectReply) :=
  match requireEnabled flag with
  | inl e => (s, inl e)
  | inr _ =>
      let '(s', result) := processDepositDirect sha256 env call depositId s in
      (s', reply "deposit_direct_state_conflict" depositId
             (match result with
              | inl e => inl e
              | inr r => inr (r.(dd_status), r.(dd_retryable), r.(dd_idempotent))
              end))
  end.

(** [advanceWithdrawal] *)
Definition advanceWithdrawal (call : WorkerCall) (withdrawalId : string)
    (action : DirectWithdrawalAccountingAction) (s : Db) : Db * (exn + DirectReply) :=
  match requireEnabled flag with
  | inl e => (s, inl e)
  | inr _ =>
      let '(s', result) := processDirect sha256 env call withdrawalId action s in
      (s', reply "withdrawal_direct_state_conflict" withdrawalId
             (match result with
              | inl e => inl e
              | inr r => inr (r.(dr_status), r.(dr_retryable), r.(dr_idempotent))
              end))
  end.

(** The routes of the controller. *)
Inductive DirectRoute :=
| RoutePostDeposit
| RouteWithdrawal (action : DirectWithdrawalAccountingAction).
Definition direct_request (route : DirectRoute) (dcall : DepositCall) (wcall : WorkerCall) (id : string) (s : Db) :
    Db * (exn + DirectReply) :=
  match recordId id with
  | inl e => (s, inl e)
  | inr id =>
      match route with
      | RoutePostDeposit => postDeposit dcall id s
      | RouteWithdrawal action => advanceWithdrawal wcall id action s
      end
  end.
End service.

(** ** Correctness of the replies *)
Section replies.
Context {DO : DecimalOps} {JD : JsDates} (sha256 : list Z → list Z) (env : ProcessEnv)
  (flag : option string).

Lemma reply_ok conflict id outcome r :
  reply conflict id outcome = inr r →
  r.(rep_id) = id ∧
  ((outcome = inr (r.(rep_status), false, r.(rep_idempotent))) ∨
   (∃ e, outcome = inl e ∧ errorCode e = conflict ∧ r.(rep_status) = "exception" ∧ r.(rep_idempotent) = false)).
Proof.
  unfold reply. destruct outcome as [e|[[st rt] im]].
  - destruct (is_unavailable e); [done|]. destruct (String.eqb_spec (errorCode e) conflict); [|done].
    intros [= <-]. split; [done|]. right. by exists e.
  - destruct rt; [done|]. intros [= <-]. split; [done|]. by left.
Qed.

(** What the workers' own results say of the rows. *)
Lemma deposit_result_ok call id s s' d :
  processDepositDirect sha256 env call id s = (s', inr d) →
  ∃ a, s'.(depositQueue) !! id = Some a ∧ a.(da_tenant_id) = tenantId env ∧ a.(da_status) = d.(dd_status) ∧
       (d.(dd_idempotent) = true → s' = s ∧ a.(da_status) = "posted") ∧
       (d.(dd_retryable) = false → d.(dd_status) = "posted" ∨ d.(dd_status) = "exception").
Proof.
  unfold processDepositDirect, commit. destruct (deposit_direct_claim _ _ _ _) as [e|[claimed s1]] eqn:Hc; [done|].
  set (r := if claimed =? 1 then processDeposit _ _ _ _ s1 else (s1, None)).
  destruct r as [s2 [e|]] eqn:Hr; [done|]. intros [= <- Hd]. unfold deposit_direct_result in Hd.
  destruct (s2.(depositQueue) !! id) as [a|]; [|done]. destruct (_ || _) eqn:Hok in Hd; [done|].
  apply orb_false_iff in Hok as [Ht Hst]. rewrite negb_false_iff in Ht, Hst. apply String.eqb_eq in Ht.
  rewrite includes_true in Hst. injection Hd as <-. exists a. simpl. split_and!; try done.
  - intros [Hz Hp]%andb_true_iff. apply String.eqb_eq in Hp. split; [|done]. apply Z.eqb_eq in Hz. subst claimed.
    unfold deposit_direct_claim, deposit_queue_update in Hc. apply update_many_id_ok in Hc as [([=]&_)|(_&->&_)].
    subst r. by injection Hr as ->.
  - intros [Hp Hq]%orb_false_iff. rewrite !elem_of_cons, elem_of_nil in Hst.
    destruct Hst as [E|[E|[E|[E|[]]]]]; rewrite E in *; first [done|by left|by right].
Qed.

Lemma withdrawal_result_ok call id action s s' d :
  processDirect sha256 env call id action s = (s', inr d) →
  ∃ a, s'.(withdrawalQueue) !! id = Some a ∧ a.(wa_tenant_id) = tenantId env ∧
       (d.(dr_idempotent) = true → s' = s ∧ a.(wa_status) = (direct_states action).2) ∧
       (d.(dr_retryable) = false →
          a.(wa_status) = d.(dr_status) ∧ (d.(dr_status) = (direct_states action).2 ∨ d.(dr_status) = "exception")).
Proof.
  unfold processDirect, commit. destruct (direct_states action) as [[pending processing] completed] eqn:Hds.
  destruct (direct_claim _ _ _ _ _ _) as [e|[claimed s1]] eqn:Hc; [done|].
  set (r := if claimed =? 1 then processWithdrawal _ _ _ _ _ s1 else (s1, None)).
  destruct r as [s2 [e|]] eqn:Hr; [done|]. intros [= <- Hd]. unfold direct_result in Hd. rewrite Hds in Hd.
  destruct (s2.(withdrawalQueue) !! id) as [a|]; [|done]. destruct (String.eqb_spec a.(wa_tenant_id) (tenantId env)); [|done].
  simpl in Hd. exists a. split; [done|]. split; [done|]. unfold in_status in Hd.
  destruct (String.eqb_spec a.(wa_status) completed) as [E|_].
  - injection Hd as <-. simpl. split; [|intros _; split; [done|by left]]. intros Hz%Z.eqb_eq. split; [|done]. subst claimed.
    unfold direct_claim, queue_update in Hc. apply update_many_id_ok in Hc as [([=]&_)|(_&->&_)].
    subst r. by injection Hr as ->.
  - destruct (String.eqb_spec a.(wa_status) "exception") as [E|_]; [injection Hd as <-; simpl; split; [done|]; intros _; split; [done|by right]|].
    destruct (_ || _); [|done]. injection Hd as <-. done.
Qed.

(** What the endpoint answers is what the database holds.  It answers only
    when direct accounting is enabled and for a well-formed id; a movement it
    reports as completed has the completed status of its action in the queue of
    the tenant after the request; one that would have to be tried again is an error
    and never a success; and an answer
    marked idempotent has written nothing; when the feature is off or the id is
    malformed nothing is written at all. *)
Theorem direct_reply_truthful route dcall wcall id s s' out :
  direct_request sha256 env flag route dcall wcall id s = (s', out) →
  match out with
  | inr r =>
      isFinancialAccountingProcessingEnabled flag = true ∧ safe_record_id id = true ∧ r.(rep_id) = id ∧
      (r.(rep_status) ≠ "exception" →
         match route with
         | RoutePostDeposit => r.(rep_status) = "posted" ∧
             ∃ a, s'.(depositQueue) !! id = Some a ∧ a.(da_tenant_id) = tenantId env ∧ a.(da_status) = "posted"
         | RouteWithdrawal action => r.(rep_status) = (direct_states action).2 ∧
             ∃ a, s'.(withdrawalQueue) !! id = Some a ∧ a.(wa_tenant_id) = tenantId env ∧
                  a.(wa_status) = (direct_states action).2
         end) ∧
      (r.(rep_idempotent) = true → s' = s ∧ r.(rep_status) ≠ "exception")
  | inl _ => isFinancialAccountingProcessingEnabled flag = false ∨ safe_record_id id = false → s' = s
  end.
Proof.
  unfold direct_request, recordId. destruct (safe_record_id id) eqn:Hid; [|by intros [= <- <-]].
  destruct route as [|action]; unfold postDeposit, advanceWithdrawal, requireEnabled;
    destruct (isFinancialAccountingProcessingEnabled flag) eqn:Hf; try by intros [= <- <-].
  - destruct (processDepositDirect _ _ _ _ _) as [s1 res] eqn:Hrun. intros [= <- Hout].
    destruct out as [e|r]; [by intros [|]|]. apply reply_ok in Hout as [Hrid [Ho|(e&_&_&Hs&Hi)]].
    + destruct res as [e|d]; [done|]. injection Ho as Hst Hrt Him.
      apply deposit_result_ok in Hrun as (a&Ha&Ht&Hsa&Hidem&Hdone).
      specialize (Hdone Hrt). rewrite Hst in *. split_and!; try done.
      * intros Hne. destruct Hdone as [E|E]; [|done]. split; [done|]. exists a. by rewrite Hsa.
      * intros Hi. rewrite Him in Hidem. destruct (Hidem Hi) as [-> Hp]. split; [done|]. congruence.
    + split_and!; try done. intros Hi'. congruence.
  - destruct (processDirect _ _ _ _ _ _) as [s1 res] eqn:Hrun. intros [= <- Hout].
    destruct out as [e|r]; [by intros [|]|]. apply reply_ok in Hout as [Hrid [Ho|(e&_&_&Hs&Hi)]].
    + destruct res as [e|d]; [done|]. injection Ho as Hst Hrt Him.
      apply withdrawal_result_ok in Hrun as (a&Ha&Ht&Hidem&Hdone).
      destruct (Hdone Hrt) as [Hsa Hcases]. rewrite Hst in *. split_and!; try done.
      * intros Hne. destruct Hcases as [E|E]; [|done]. split; [done|]. exists a. by rewrite Hsa.
      * intros Hi. rewrite Him in Hidem. destruct (Hidem Hi) as [-> Hp]. split; [done|].
        rewrite <- Hsa, Hp. destruct action; done.
    + split_and!; try done. intros Hi'. congruence.
Qed.
End replies.

(** ** Witness *)
Definition direct_call : WorkerCall :=
  {| wc_now := now0; wc_coreId := "c1"; wc_newId := λ x, x; wc_faults := [None]; wc_imported := λ _, ([], []) |}.
Definition no_deposit_call : DepositCall :=
  {| dc_now := now0; dc_ids := {| di_account := ""; di_wallet := ""; di_operation := ""; di_transfer := "" |};
     dc_newId := λ x, x; dc_faults := []; dc_imported := λ _, ([], []) |}.
Definition db_pending : Db := hand "pending_reservation" "submitted" db_custody.
Definition direct_run : Db * (exn + DirectReply) :=
  direct_request zero_hash env0 (Some " TRUE ") (RouteWithdrawal reserve_action) no_deposit_call direct_call "x1" db_pending.
Definition status_of (out : exn + DirectReply) : option string :=
  match out with inr r => Some r.(rep_status) | inl _ => None end.
Lemma status_of_some out x : status_of out = Some x → ∃ r, out = inr r ∧ r.(rep_status) = x.
Proof. destruct out as [e|r]; [done|]. intros [= H]. by exists r. Qed.
Lemma direct_reply_truthful_witness :
  (∃ r, direct_run.2 = inr r ∧ r.(rep_status) = "reserved") ∧
  (∃ a, direct_run.1.(withdrawalQueue) !! "x1" = Some a ∧ a.(wa_status) = "reserved").
Proof.
  assert (status_of direct_run.2 = Some "reserved") as Hs by runs.
  destruct (status_of_some _ _ Hs) as (r&Hr&Hst).
  pose proof (surjective_pairing direct_run) as H. unfold direct_run in H at 1. apply direct_reply_truthful in H.
  rewrite Hr in H. destruct H as (_&_&_&Hdone&_). rewrite Hst in Hdone. destruct (Hdone ltac:(done)) as (_&a&Ha&_&Hq).
  split; [exists r; split; [exact Hr|exact Hst]|]. exists a. split; [exact Ha|exact Hq].
Defined.
