(* ===== verification/Controllers.v ===== *)
(** The HTTP controllers of the core API ([server/src/*/*.controller.ts],
    [common/current-user.ts], [main.ts]): which handler a request reaches, with which
    arguments, and on whose behalf.

    The router, the parser of query strings and the validation of bodies are the
    framework's (NestJS on Express): the first two are classes with the behaviour the code
    relies on, and a request comes with its validated body.  A handler is named by a
    constructor of [CoreCall]; the handlers themselves are in the components' files. *)
From S2P Require Import Prelude Schema EdgeAuth RoutePolicy EdgeWorker CoreGateway ClientAccess CregisAccounting.
From Stdlib Require Import Ascii.

(** ** Start *)
Record ServerEnv := {
  sv_CORE_EDGE_SHARED_SECRET : option string; sv_CORE_ACCOUNTING_SHARED_SECRET : option string;
  sv_CORE_ADMIN_USER_ID : option string; sv_CORE_EDGE_AUTH_REQUIRED : option string;
  sv_CREGIS_DIRECT_ACCOUNTING_ENABLED : option string;
}.
Definition directAccountingEnabled (env : ServerEnv) : bool :=
  match env.(sv_CREGIS_DIRECT_ACCOUNTING_ENABLED) with Some x => String.eqb (toLowerCase (trim x)) "true" | None => false end.
(** [bootstrap]: an error, or the options of the edge's middleware when it is installed. *)
Definition bootstrap (env : ServerEnv) : exn + option EdgeOptions :=
  let edgeSecret := default "" env.(sv_CORE_EDGE_SHARED_SECRET) in
  let accountingSecret := default "" env.(sv_CORE_ACCOUNTING_SHARED_SECRET) in
  let adminUserId := default "" env.(sv_CORE_ADMIN_USER_ID) in
  let edgeAuthRequired := opt_eqb env.(sv_CORE_EDGE_AUTH_REQUIRED) (Some "true") in
  if directAccountingEnabled env && Nat.ltb (String.length accountingSecret) 32 then
    inl (PlainError "CORE_ACCOUNTING_SHARED_SECRET must be at least 32 bytes when direct accounting is enabled")
  else if directAccountingEnabled env && String.eqb accountingSecret edgeSecret then
    inl (PlainError "CORE_ACCOUNTING_SHARED_SECRET must differ from CORE_EDGE_SHARED_SECRET")
  else if edgeAuthRequired || truthy edgeSecret || truthy accountingSecret || truthy adminUserId then
    let options := {| eo_secret := edgeSecret; eo_accountingSecret := Some accountingSecret; eo_adminUserId := adminUserId |} in
    match options_error options with Some e => inl e | None => inr (Some options) end
  else inr None.

(** ** Requests *)
Inductive Segment := Lit (text : string) | Par.
(** The texts between slashes. *)
Fixpoint split_all (s : string) : list string :=
  match s with
  | EmptyString => [""]
  | String c s' =>
      if Ascii.eqb c "/" then "" :: split_all s'
      else match split_all s' with x :: rest => String c x :: rest | [] => [String c ""] end
  end.
(** A literal is compared without case; a parameter is a non-empty segment, decoded. *)
Fixpoint match_segments (pattern : list Segment) (segments : list string) : option (list string) :=
  match pattern, segments with
  | [], [] => Some []
  | Lit text :: pattern', x :: segments' => if String.eqb (toLowerCase x) text then match_segments pattern' segments' else None
  | Par :: pattern', x :: segments' =>
      if truthy x then
        match decodeURIComponent x with Some v => cons v <$> match_segments pattern' segments' | None => None end
      else None
  | _, _ => None
  end.
(** One slash may follow the last segment. *)
Fixpoint drop_last_slash (segments : list string) : list string :=
  match segments with
  | [] => []
  | x :: rest => match rest with [y] => if truthy y then [x; y] else [x] | _ => x :: drop_last_slash rest end
  end.
(** The global prefix is [api/v1]. *)
Definition path_segments (path : string) : option (list string) :=
  drop_last_slash ∘ split_all <$> strip_prefix "/api/v1/" path.
(** The router of the framework, as it is used: not case sensitive, not strict. *)
Class Router := {
  match_path : list Segment → string → option (list string);
  router_law : ∀ pattern path, match_path pattern path = path_segments path ≫= match_segments pattern;
}.
(** The value of a query parameter: those of a repeated one are joined by commas. *)
Definition values_of (key : string) (params : list (string * string)) : list string :=
  map snd (List.filter (λ kv, String.eqb kv.1 key) params).
Class QueryParser := {
  query_value : list (string * string) → string → option string;
  query_law : ∀ params key, Forall (λ kv, contains "[" kv.1 = false) params →
    query_value params key = match values_of key params with [] => None | values => Some (String.concat "," values) end;
}.
Record CoreRequest := {
  kr_method : string; kr_path : string; kr_params : list (string * string);
  kr_headers : gmap string string; kr_body : json;
}.
Definition request_header (name : string) (r : CoreRequest) : option string := r.(kr_headers) !! name.
(** [request.header(name)?.trim() || undefined] *)
Definition trimmed_header (name : string) (r : CoreRequest) : option string := trim_or_null (request_header name r).

(** ** Who asks *)
Definition currentUserId (r : CoreRequest) : exn + string :=
  match request_header "x-user-id" r with
  | Some value => if truthy value then inr value else inl (BadRequest "x-user-id header is required")
  | None => inl (BadRequest "x-user-id header is required")
  end.
Record RequestActor := { ra_userId : string; ra_customerId : option string; ra_email : option string }.
Record QuoteActor := { qa_customerId : string; qa_email : option string }.
Definition requestActor (r : CoreRequest) (userId : string) : RequestActor :=
  {| ra_userId := userId; ra_customerId := trimmed_header "x-authenticated-customer-id" r;
     ra_email := toLowerCase <$> trimmed_header "x-authenticated-email" r |}.
Definition customerQuoteActor (r : CoreRequest) : QuoteActor :=
  {| qa_customerId := default "" (trimmed_header "x-authenticated-customer-id" r);
     qa_email := trimmed_header "x-authenticated-email" r |}.

(** ** Handlers *)
Record OperationFilters := {
  of_organizationId : option string; of_status : option string; of_type : option string;
  of_customerId : option string; of_limit : option string;
}.
Record InboundFilters := {
  if_organizationId : option string; if_source : option string; if_status : option string;
  if_customerId : option string; if_search : option string; if_limit : option string; if_offset : option string;
}.
Inductive CregisStep := Cregis_reserve | Cregis_approve | Cregis_release | Cregis_settle.
(** The calls of the services, and the controllers that are their own service; a limit is
    still the text that [Number] reads. *)
Inductive CoreCall :=
| Health
| CustomersList (organizationId : option string) (userId : string) (status : option string)
| CustomersGet (id userId : string)
| CustomersCreate (dto : json) (userId : string)
| CustomersApprove (id userId : string) (note : option json)
| CustomersReviewKyc (id userId : string) (decision note : option json)
| CustomersReject (id userId : string) (reason : option json)
| RequestVirtualAccount (id : string) (dto : json) (idempotencyKey : option string) (actor : RequestActor)
| QuoteVaOpeningFee (id channelId : string) (actor : RequestActor)
| GetVaFeePolicy (id : string) (actor : RequestActor)
| UpdateVaFeePolicy (id : string) (identity : bool) (dto : json) (actor : RequestActor)
| ListVirtualAccountRequests (id : string) (actor : RequestActor)
| CancelVirtualAccountRequest (id requestId : string) (actor : RequestActor)
| VaRequestsList (organizationId : option string) (userId : string)
| VaApprove (id : string) (dto : json) (userId : string)
| VaReject (id userId : string) (reason : option json)
| VaWaiveFee (id : string) (reason : option json) (userId : string) (customerId : option string)
| ChannelsList (organizationId : option string) (userId : string) (customerId type active : option string)
| ChannelsCreate (dto : json) (userId : string)
| ChannelsUpdate (id : string) (dto : json) (userId : string)
| BeneficiariesList (customerId : option string) (userId : string)
| BeneficiariesCreate (dto : json) (userId : string)
| BeneficiariesUpdate (id : string) (dto : json) (userId : string)
| RatesList (userId : string) (type : option string)
| RatesRejectManualCreate (userId : string)
| RatesCreateFromMarket (userId : string) (dto : json)
| RatesDeactivate (userId id : string)
| CryptoListWallets (customerId : option string) (userId : string)
| CryptoListTransfers (customerId : option string) (userId : string) (direction status : option string)
| CryptoQrCode (id : string) (customerId : option string) (userId : string)
| CryptoCreateWithdrawal (dto : json) (userId : string)
| CryptoApprove (id userId : string)
| CryptoReject (id : string) (reason : option json) (userId : string)
| CryptoExecute (id : string) (txHash : option json) (userId : string)
| LedgerReconcileUsdt (organizationId : option string) (userId : string)
| LedgerList (organizationId : option string) (userId : string) (customerId currency : option string)
| AccountsList (customerId : option string) (userId : string) (kind : option string)
| AccountsSummary (customerId : option string) (userId : string)
| AccountsGet (id userId : string)
| OperationsList (filters : OperationFilters) (userId : string)
| OperationsApprovals (organizationId : option string) (userId : string)
| OperationsGet (id userId : string)
| OperationsCreate (dto : json) (userId : string)
| OperationsCreateQuote (dto : json) (userId : string) (actor : QuoteActor)
| OperationsConfirmQuote (id : string) (actor : QuoteActor)
| OperationsApprove (id userId : string)
| OperationsReject (id : string) (reason : option json) (userId : string)
| OperationsExecute (id : string) (externalReference : option json) (userId : string)
| CreateCustomerPayout (dto : json) (userId : string) (actor : option json * option json)
| FeesList (organizationId : option string) (userId : string) (active : option bool) (customerId : option string)
| FeesUpsert (dto : json) (userId : string)
| FeesUpdate (id : string) (dto : json) (userId : string)
| InboundList (filters : InboundFilters) (userId : string)
| CregisPostDeposit (id : string)
| CregisAdvanceWithdrawal (id : string) (target : CregisStep).

(** ** Routes *)
Section routes.
Context {RT : Router} {QP : QueryParser}.
Definition query (key : string) (r : CoreRequest) : option string := query_value r.(kr_params) key.
Definition field (key : string) (r : CoreRequest) : option json := json_get key (Some r.(kr_body)).
Definition Handler : Type := list string → CoreRequest → exn + CoreCall.
(** A handler of no, one or two parameters, for the user of the request. *)
Definition for_user (call : string → CoreRequest → CoreCall) : Handler := λ _ r,
  match currentUserId r with inr userId => inr (call userId r) | inl e => inl e end.
Definition for_user1 (call : string → string → CoreRequest → CoreCall) : Handler := λ params r,
  match params, currentUserId r with
  | id :: _, inr userId => inr (call id userId r)
  | _, inl e => inl e
  | [], _ => inl (PlainError "unreachable")
  end.
Definition for_user2 (call : string → string → string → CoreRequest → CoreCall) : Handler := λ params r,
  match params, currentUserId r with
  | id :: id' :: _, inr userId => inr (call id id' userId r)
  | _, inl e => inl e
  | _, _ => inl (PlainError "unreachable")
  end.

Record Route := { rt_method : string; rt_pattern : list Segment; rt_handler : Handler }.
Definition GET (pattern : list Segment) (h : Handler) : Route := {| rt_method := "GET"; rt_pattern := pattern; rt_handler := h |}.
Definition POST (pattern : list Segment) (h : Handler) : Route := {| rt_method := "POST"; rt_pattern := pattern; rt_handler := h |}.
Definition PATCH (pattern : list Segment) (h : Handler) : Route := {| rt_method := "PATCH"; rt_pattern := pattern; rt_handler := h |}.

(** [CustomersController] *)
Definition requestVa : Handler := λ params r,
  let idempotencyKey := trim <$> request_header "idempotency-key" r in
  if match idempotencyKey with Some k => Nat.ltb 128 (String.length k) | None => false end
  then inl (BadRequest "invalid_idempotency_key")
  else for_user1 (λ id userId r, RequestVirtualAccount id r.(kr_body) idempotencyKey (requestActor r userId)) params r.
Definition quoteVaFee : Handler := λ params r,
  match query "channelId" r with
  | Some channelId =>
      if negb (truthy (trim channelId)) || Nat.ltb 128 (String.length channelId) then inl (BadRequest "channel_id_required")
      else for_user1 (λ id userId r, QuoteVaOpeningFee id channelId (requestActor r userId)) params r
  | None => inl (BadRequest "channel_id_required")
  end.
Definition customers_routes : list Route :=
  let c := Lit "customers" in
  [GET [c] (for_user (λ userId r, CustomersList (query "organizationId" r) userId (query "status" r)));
   GET [c; Par] (for_user1 (λ id userId r, CustomersGet id userId));
   POST [c] (for_user (λ userId r, CustomersCreate r.(kr_body) userId));
   PATCH [c; Par; Lit "approve"] (for_user1 (λ id userId r, CustomersApprove id userId (field "note" r)));
   PATCH [c; Par; Lit "kyc"] (for_user1 (λ id userId r, CustomersReviewKyc id userId (field "decision" r) (field "note" r)));
   PATCH [c; Par; Lit "reject"] (for_user1 (λ id userId r, CustomersReject id userId (field "reason" r)));
   POST [c; Par; Lit "virtual-account-requests"] requestVa;
   GET [c; Par; Lit "va-opening-fee-quote"] quoteVaFee;
   GET [c; Par; Lit "va-fee-policy"] (for_user1 (λ id userId r, GetVaFeePolicy id (requestActor r userId)));
   PATCH [c; Par; Lit "internal-identity"] (for_user1 (λ id userId r, UpdateVaFeePolicy id true r.(kr_body) (requestActor r userId)));
   PATCH [c; Par; Lit "va-fee-policy"] (for_user1 (λ id userId r, UpdateVaFeePolicy id false r.(kr_body) (requestActor r userId)));
   GET [c; Par; Lit "virtual-account-requests"] (for_user1 (λ id userId r, ListVirtualAccountRequests id (requestActor r userId)));
   PATCH [c; Par; Lit "virtual-account-requests"; Par; Lit "cancel"]
     (for_user2 (λ id requestId userId r, CancelVirtualAccountRequest id requestId (requestActor r userId)))].
(** [VirtualAccountsController] *)
Definition virtual_accounts_routes : list Route :=
  let v := Lit "virtual-account-requests" in
  [GET [v] (for_user (λ userId r, VaRequestsList (query "organizationId" r) userId));
   PATCH [v; Par; Lit "approve"] (for_user1 (λ id userId r, VaApprove id r.(kr_body) userId));
   PATCH [v; Par; Lit "reject"] (for_user1 (λ id userId r, VaReject id userId (field "reason" r)));
   PATCH [v; Par; Lit "waive-opening-fee"]
     (for_user1 (λ id userId r, VaWaiveFee id (field "reason" r) userId (trimmed_header "x-authenticated-customer-id" r)))].
(** [ChannelsController], [BeneficiariesController], [RatesController] *)
Definition channels_routes : list Route :=
  let c := Lit "funding-channels" in
  [GET [c] (for_user (λ userId r, ChannelsList (query "organizationId" r) userId
     (trimmed_header "x-authenticated-customer-id" r) (query "type" r) (query "active" r)));
   POST [c] (for_user (λ userId r, ChannelsCreate r.(kr_body) userId));
   PATCH [c; Par] (for_user1 (λ id userId r, ChannelsUpdate id r.(kr_body) userId))].
Definition beneficiaries_routes : list Route :=
  let b := Lit "beneficiaries" in
  [GET [b] (for_user (λ userId r, BeneficiariesList (query "customerId" r) userId));
   POST [b] (for_user (λ userId r, BeneficiariesCreate r.(kr_body) userId));
   PATCH [b; Par] (for_user1 (λ id userId r, BeneficiariesUpdate id r.(kr_body) userId))].
Definition rates_routes : list Route :=
  let t := Lit "rates" in
  [GET [t] (for_user (λ userId r, RatesList userId (query "type" r)));
   POST [t] (for_user (λ userId r, RatesRejectManualCreate userId));
   POST [t; Lit "from-market"] (for_user (λ userId r, RatesCreateFromMarket userId r.(kr_body)));
   PATCH [t; Par; Lit "deactivate"] (for_user1 (λ id userId r, RatesDeactivate userId id))].
(** [CryptoWalletsController] *)
Definition crypto_routes : list Route :=
  let w := Lit "crypto-wallets" in
  [GET [w] (for_user (λ userId r, CryptoListWallets (query "customerId" r) userId));
   GET [w; Lit "transfers"]
     (for_user (λ userId r, CryptoListTransfers (query "customerId" r) userId (query "direction" r) (query "status" r)));
   GET [w; Par; Lit "qr"] (for_user1 (λ id userId r, CryptoQrCode id (query "customerId" r) userId));
   POST [w; Lit "withdrawals"] (for_user (λ userId r, CryptoCreateWithdrawal r.(kr_body) userId));
   PATCH [w; Lit "transfers"; Par; Lit "approve"] (for_user1 (λ id userId r, CryptoApprove id userId));
   PATCH [w; Lit "transfers"; Par; Lit "reject"] (for_user1 (λ id userId r, CryptoReject id (field "reason" r) userId));
   PATCH [w; Lit "transfers"; Par; Lit "execute"] (for_user1 (λ id userId r, CryptoExecute id (field "txHash" r) userId))].
(** [LedgerController], [AccountsController] *)
Definition ledger_routes : list Route :=
  let l := Lit "ledger" in
  [GET [l; Lit "reconciliation"; Lit "usdt"] (for_user (λ userId r, LedgerReconcileUsdt (query "organizationId" r) userId));
   GET [l] (for_user (λ userId r, LedgerList (query "organizationId" r) userId (query "customerId" r) (query "currency" r)))].
Definition accounts_routes : list Route :=
  let a := Lit "accounts" in
  [GET [a] (for_user (λ userId r, AccountsList (query "customerId" r) userId (query "kind" r)));
   GET [a; Lit "summary"] (for_user (λ userId r, AccountsSummary (query "customerId" r) userId));
   GET [a; Par] (for_user1 (λ id userId r, AccountsGet id userId))].
(** [OperationsController], [CustomerPayoutsController] *)
Definition operation_filters (r : CoreRequest) : OperationFilters :=
  {| of_organizationId := query "organizationId" r; of_status := query "status" r; of_type := query "type" r;
     of_customerId := query "customerId" r; of_limit := query "limit" r |}.
Definition operations_routes : list Route :=
  let o := Lit "operations" in
  [GET [o] (for_user (λ userId r, OperationsList (operation_filters r) userId));
   GET [o; Lit "approvals"] (for_user (λ userId r, OperationsApprovals (query "organizationId" r) userId));
   GET [o; Par] (for_user1 (λ id userId r, OperationsGet id userId));
   POST [o] (for_user (λ userId r, OperationsCreate r.(kr_body) userId));
   POST [o; Lit "quote"] (for_user (λ userId r, OperationsCreateQuote r.(kr_body) userId (customerQuoteActor r)));
   POST [o; Par; Lit "confirm"] (λ params r,
     match params with
     | id :: _ => inr (OperationsConfirmQuote id (customerQuoteActor r))
     | [] => inl (PlainError "unreachable")
     end);
   PATCH [o; Par; Lit "approve"] (for_user1 (λ id userId r, OperationsApprove id userId));
   PATCH [o; Par; Lit "reject"] (for_user1 (λ id userId r, OperationsReject id (field "reason" r) userId));
   PATCH [o; Par; Lit "execute"] (for_user1 (λ id userId r, OperationsExecute id (field "externalReference" r) userId))].
(** The body's fields, with the type and no fee of the client's. *)
Definition payout_body (body : json) : json :=
  JObj (spread [("type", JStr "PAYOUT"); ("feeAmount", JStr "0")] (members body)).
Definition payouts_routes : list Route :=
  [POST [Lit "internal"; Lit "customer-payouts"] (for_user (λ userId r,
     CreateCustomerPayout (payout_body r.(kr_body)) userId (field "customerId" r, field "customerEmail" r)))].
(** [WithdrawalFeesController] *)
Definition feesList : Handler := λ params r,
  let active := query "active" r in
  if match active with Some x => negb (includes ["true"; "false"] x) | None => false end
  then inl (BadRequest "invalid_active_filter")
  else if opt_truthy (request_header "x-authenticated-customer-id" r) &&
          (negb (opt_eqb active (Some "true")) || opt_truthy (query "customerId" r))
  then inl (Forbidden "customer_active_withdrawal_fees_only")
  else for_user (λ userId r, FeesList (query "organizationId" r) userId
         ((λ x, String.eqb x "true") <$> active) (query "customerId" r)) params r.
Definition fees_routes : list Route :=
  let f := Lit "withdrawal-fees" in
  [GET [f] feesList;
   POST [f] (for_user (λ userId r, FeesUpsert r.(kr_body) userId));
   PATCH [f; Par] (for_user1 (λ id userId r, FeesUpdate id r.(kr_body) userId))].
(** [UsdtInboundController], [CregisAccountingController] *)
Definition inbound_filters (r : CoreRequest) : InboundFilters :=
  {| if_organizationId := query "organizationId" r; if_source := query "source" r; if_status := query "status" r;
     if_customerId := query "customerId" r; if_search := query "search" r; if_limit := query "limit" r;
     if_offset := query "offset" r |}.
Definition inbound_routes : list Route :=
  [GET [Lit "usdt-inbound"] (for_user (λ userId r, InboundList (inbound_filters r) userId))].
Definition for_record (call : string → CoreCall) : Handler := λ params r,
  match params with
  | value :: _ => match recordId value with inr id => inr (call id) | inl e => inl e end
  | [] => inl (PlainError "unreachable")
  end.
Definition cregis_routes : list Route :=
  let i := Lit "internal" in let c := Lit "cregis" in let w := Lit "withdrawals" in
  [POST [i; c; Lit "deposits"; Par; Lit "post"] (for_record CregisPostDeposit);
   POST [i; c; w; Par; Lit "reserve"] (for_record (λ id, CregisAdvanceWithdrawal id Cregis_reserve));
   POST [i; c; w; Par; Lit "approve"] (for_record (λ id, CregisAdvanceWithdrawal id Cregis_approve));
   POST [i; c; w; Par; Lit "release"] (for_record (λ id, CregisAdvanceWithdrawal id Cregis_release));
   POST [i; c; w; Par; Lit "settle"] (for_record (λ id, CregisAdvanceWithdrawal id Cregis_settle))].
(** [AppModule]: the order of its modules, its own controller last. *)
Definition app_routes : list Route :=
  customers_routes ++ virtual_accounts_routes ++ channels_routes ++ beneficiaries_routes ++ rates_routes ++ crypto_routes ++
  ledger_routes ++ accounts_routes ++ operations_routes ++ payouts_routes ++ fees_routes ++ inbound_routes ++ cregis_routes ++
  [GET [Lit "health"] (λ _ _, inr Health)].

(** A [HEAD] request is answered by the handler of [GET]. *)
Definition answers (method : string) (t : Route) : bool :=
  String.eqb method t.(rt_method) || (String.eqb method "HEAD" && String.eqb t.(rt_method) "GET").
Fixpoint first_route (routes : list Route) (r : CoreRequest) : option (exn + CoreCall) :=
  match routes with
  | [] => None
  | t :: routes' =>
      if answers r.(kr_method) t then
        match match_path t.(rt_pattern) r.(kr_path) with
        | Some params => Some (t.(rt_handler) params r)
        | None => first_route routes' r
        end
      else first_route routes' r
  end.
(** The handler a request reaches; [None] is a 404. *)
Definition dispatch (r : CoreRequest) : option (exn + CoreCall) := first_route app_routes r.
End routes.
