(* ===== verification/ControllerProperties.v ===== *)
(** Which handlers of the core a session reaches: the edge's checks, the signed request,
    the core's check of it and the controllers, put together. *)
From S2P Require Import Prelude Schema JsNumber TronAddress EdgeAuth RoutePolicy EdgeWorker CoreGateway CoreAnswers EdgeSamples GatewayProperties HomeProperties ClientAccess Controllers.
From Stdlib Require Import Ascii.

(** ** Paths *)
Lemma split_all_free s : free_of "/" s → split_all s = [s].
Proof.
  unfold free_of. induction s as [|c s IH]; [done|]. simpl. destruct (Ascii.eqb c "/"); [done|].
  intros H. rewrite IH; [done|]. by destruct (split_char "/" s) as [[]|].
Qed.
Lemma split_all_app a b : free_of "/" a → split_all (a +:+ String "/" b) = a :: split_all b.
Proof.
  unfold free_of. induction a as [|c a IH]; [done|]. simpl. destruct (Ascii.eqb c "/"); [done|].
  intros H. rewrite IH; [done|]. by destruct (split_char "/" a) as [[]|].
Qed.
Lemma decode_plain s : free_of "%" s → decodeURIComponent s = Some s.
Proof.
  unfold decodeURIComponent. intros Hs.
  assert (H : ∀ fuel, (String.length s ≤ fuel)%nat →
    decode_percent fuel (String.list_ascii_of_string s) = Some (String.list_ascii_of_string s)).
  { unfold free_of in Hs. induction s as [|c s IH]; intros fuel Hf; [by destruct fuel|].
    destruct fuel as [|fuel]; [simpl in Hf; lia|]. simpl in *. destruct (Ascii.eqb c "%"); [done|]. simpl.
    rewrite IH; [done| |lia]. by destruct (split_char "%" s) as [[]|]. }
  rewrite H; [cbn; by rewrite String.string_of_list_ascii_of_string|].
  clear. induction s as [|c s IH]; [done|]. simpl. lia.
Qed.

Lemma strip_two a b s : strip_prefix (a +:+ b) (a +:+ b +:+ s) = Some s.
Proof. induction a as [|c a IH]; [exact (strip_prefix_app b s)|]. simpl. by rewrite Ascii.eqb_refl. Qed.

Section routing.
Context {RT : Router} {QP : QueryParser}.
(** The first route by its segments. *)
Fixpoint find_route (routes : list Route) (method : string) (segments : list string) : option (Handler * list string) :=
  match routes with
  | [] => None
  | t :: routes' =>
      if answers method t then
        match match_segments t.(rt_pattern) segments with
        | Some params => Some (t.(rt_handler), params)
        | None => find_route routes' method segments
        end
      else find_route routes' method segments
  end.
Lemma dispatch_segments r segments : path_segments r.(kr_path) = Some segments →
  dispatch r = (λ hp, hp.1 hp.2 r) <$> find_route app_routes r.(kr_method) segments.
Proof.
  intros Hs. unfold dispatch. induction app_routes as [|t routes IH]; [done|]. cbn [first_route find_route].
  destruct (answers _ t); [|exact IH]. rewrite router_law, Hs. cbn [mbind option_bind]. by destruct (match_segments _ _).
Qed.
(** What can match a path whose segments are known in part: [None] is any segment. *)
Fixpoint may_match (pattern : list Segment) (known : list (option string)) : bool :=
  match pattern, known with
  | [], [] => true
  | Lit text :: pattern', Some x :: known' => String.eqb (toLowerCase x) text && may_match pattern' known'
  | _ :: pattern', _ :: known' => may_match pattern' known'
  | _, _ => false
  end.
Definition candidates (method : string) (known : list (option string)) : list Route :=
  List.filter (λ t, answers method t && may_match t.(rt_pattern) known) app_routes.
Definition agrees (known : list (option string)) (segments : list string) : Prop :=
  Forall2 (λ k x, ∀ y, k = Some y → x = y) known segments.
Ltac agree := repeat (apply Forall2_cons_2; [intros ? ?; by simplify_eq|]); apply Forall2_nil_2.
Lemma match_may pattern known segments params : agrees known segments →
  match_segments pattern segments = Some params → may_match pattern known = true.
Proof.
  intros H. revert pattern params. induction H as [|k x known segments Hk _ IH]; intros [|[text|] pattern] params E; simpl in *; try done.
  - destruct (String.eqb_spec (toLowerCase x) text) as [Ex|]; [|done]. destruct k as [y|]; [|by eapply IH].
    rewrite (Hk y eq_refl) in Ex. rewrite Ex, String.eqb_refl. by eapply IH.
  - destruct (truthy x); [|done]. destruct (decodeURIComponent x); [|done].
    destruct (match_segments pattern segments) eqn:Em; [|done]. by eapply IH.
Qed.
Lemma find_candidates method known segments : agrees known segments →
  find_route app_routes method segments = find_route (candidates method known) method segments.
Proof.
  intros H. unfold candidates. induction app_routes as [|t routes IH]; [done|]. cbn [find_route List.filter].
  destruct (answers method t) eqn:Ea; [|exact IH]. destruct (match_segments _ _) eqn:Em.
  - erewrite match_may by eassumption. cbn [andb find_route]. by rewrite Ea, Em.
  - destruct (may_match _ _); cbn [andb find_route]; [by rewrite Ea, Em|exact IH].
Qed.
Lemma match_lit text x pattern segments : toLowerCase x = text →
  match_segments (Lit text :: pattern) (x :: segments) = match_segments pattern segments.
Proof. intros E. cbn. by rewrite E, String.eqb_refl. Qed.
Lemma match_par x v pattern segments : x ≠ "" → decodeURIComponent x = Some v →
  match_segments (Par :: pattern) (x :: segments) = cons v <$> match_segments pattern segments.
Proof. intros Hx Hv. cbn -[decodeURIComponent]. apply truthy_true in Hx. by rewrite Hx, Hv. Qed.
Lemma match_par_inv x pattern segments params : match_segments (Par :: pattern) (x :: segments) = Some params →
  ∃ v rest, decodeURIComponent x = Some v ∧ params = v :: rest ∧ match_segments pattern segments = Some rest.
Proof.
  cbn -[decodeURIComponent]. destruct (truthy x); [|done]. destruct (decodeURIComponent x) as [v|]; [|done].
  destruct (match_segments pattern segments) as [rest|]; [|done]. intros [= <-]. by exists v, rest.
Qed.
(** A request whose only candidate is one route. *)
Lemma reaches known r segments pattern h others params : path_segments r.(kr_path) = Some segments → agrees known segments →
  (∃ method, candidates r.(kr_method) known = {| rt_method := method; rt_pattern := pattern; rt_handler := h |} :: others) →
  match_segments pattern segments = Some params → dispatch r = Some (h params r).
Proof.
  intros Hs Hk (method & Hc) Hm. rewrite (dispatch_segments r segments Hs), (find_candidates _ known) by done.
  assert (Ha : answers r.(kr_method) {| rt_method := method; rt_pattern := pattern; rt_handler := h |} = true).
  { assert (Hin : {| rt_method := method; rt_pattern := pattern; rt_handler := h |} ∈ candidates r.(kr_method) known)
      by (rewrite Hc; left).
    apply list_elem_of_In, List.filter_In in Hin as [_ Hin]. by apply andb_true_iff in Hin as [Hin _]. }
  rewrite Hc. cbn [find_route]. cbn [rt_pattern rt_handler]. rewrite Ha, Hm. done.
Qed.
Lemma reached known r segments t result : path_segments r.(kr_path) = Some segments → agrees known segments →
  candidates r.(kr_method) known = [t] → dispatch r = Some result →
  ∃ params, match_segments t.(rt_pattern) segments = Some params ∧ result = t.(rt_handler) params r.
Proof.
  intros Hs Hk Hc. rewrite (dispatch_segments r segments Hs), (find_candidates _ known), Hc by done. cbn [find_route].
  destruct (answers _ t); [|done]. destruct (match_segments _ _) as [params|]; [|done]. intros [= <-]. by exists params.
Qed.

(** ** A customer's request *)
(** The request as the controllers see it: [h] is what the core's edge made of its headers. *)
Definition as_received (r : WebRequest) (h : gmap string string) (body : json) : CoreRequest :=
  {| kr_method := r.(rq_method); kr_path := core_path r.(rq_url).(url_pathname); kr_params := r.(rq_url).(url_params);
     kr_headers := h; kr_body := body |}.
(** The customer's own id, or, when the parameter was repeated, that followed by others. *)
Definition own_value (own : string) (given : option string) : Prop :=
  ∃ x, given = Some x ∧ (x = own ∨ starts_with (own +:+ ",") x = true).
Definition customer_actor (adminUserId : string) (u : SessionUser) : RequestActor :=
  {| ra_userId := adminUserId; ra_customerId := trim_or_null (Some u.(su_id));
     ra_email := toLowerCase <$> trim_or_null (Some u.(su_email)) |}.
Definition customer_quote_actor (u : SessionUser) : QuoteActor :=
  {| qa_customerId := default "" (trim_or_null (Some u.(su_id))); qa_email := trim_or_null (Some u.(su_email)) |}.
(** The handlers open to a customer, with the user they run as and the customer they
    act for. *)
Definition customer_call (u : SessionUser) (organizationId adminUserId : string) (call : CoreCall) : Prop :=
  match call with
  | RequestVirtualAccount id _ _ actor | QuoteVaOpeningFee id _ actor
  | ListVirtualAccountRequests id actor | CancelVirtualAccountRequest id _ actor =>
      id = u.(su_id) ∧ actor = customer_actor adminUserId u
  | CustomersGet id userId => userId = adminUserId ∧ id = u.(su_id)
  | ChannelsList organization userId customerId _ active =>
      userId = adminUserId ∧ own_value organizationId organization ∧ customerId = trim_or_null (Some u.(su_id)) ∧ own_value "true" active
  | FeesList organization userId active customerId =>
      userId = adminUserId ∧ own_value organizationId organization ∧ active = Some true ∧ customerId = None
  | AccountsSummary customerId userId | CryptoListTransfers customerId userId _ _ =>
      userId = adminUserId ∧ own_value u.(su_id) customerId
  | OperationsList filters userId =>
      userId = adminUserId ∧ own_value u.(su_id) filters.(of_customerId) ∧ own_value organizationId filters.(of_organizationId)
  | OperationsCreateQuote _ userId actor => userId = adminUserId ∧ actor = customer_quote_actor u
  | OperationsConfirmQuote _ actor => actor = customer_quote_actor u
  | OperationsCreate _ userId | RatesList userId _ => userId = adminUserId
  | _ => False
  end.

Lemma find_first {A} (f : A → bool) l x : List.find f l = Some x → ∃ rest, List.filter f l = x :: rest.
Proof. induction l as [|y l IH]; [done|]. simpl. destruct (f y); [intros [= ->]; eauto|exact IH]. Qed.
Lemma find_nothing {A} (f : A → bool) l : List.find f l = None → List.filter f l = [].
Proof. induction l as [|y l IH]; [done|]. simpl. by destruct (f y). Qed.
Lemma param_values key u v : param key u = Some v → ∃ rest, values_of key u.(url_params) = v :: rest.
Proof.
  unfold param, values_of. destruct (List.find _ _) as [[k w]|] eqn:E; [|done]. intros [= ->].
  apply find_first in E as [rest ->]. by eexists.
Qed.
Lemma plain_params u allowed : Forall (λ k, contains "[" k = false) allowed → hasOnlySearchParams u allowed = true →
  Forall (λ kv, contains "[" kv.1 = false) u.(url_params).
Proof.
  intros Ha H. unfold hasOnlySearchParams in H. rewrite forallb_forall in H. apply Forall_forall. intros kv Hin.
  apply list_elem_of_In in Hin. specialize (H kv Hin). apply includes_true in H. by eapply Forall_forall in Ha.
Qed.
Lemma own_query r h body key v allowed : Forall (λ k, contains "[" k = false) allowed →
  hasOnlySearchParams r.(rq_url) allowed = true → param key r.(rq_url) = Some v → own_value v (query key (as_received r h body)).
Proof.
  intros Ha Ho Hp. unfold query. rewrite query_law by (by eapply plain_params). cbn [kr_params as_received].
  apply param_values in Hp as [rest ->]. eexists. split; [done|]. destruct rest as [|w rest]; [by left|right].
  unfold starts_with. change (String.concat "," (v :: w :: rest)) with (v +:+ "," +:+ String.concat "," (w :: rest)).
  by rewrite strip_two.
Qed.
Lemma absent_query r h body key allowed : Forall (λ k, contains "[" k = false) allowed →
  hasOnlySearchParams r.(rq_url) allowed = true → key ∉ allowed → query key (as_received r h body) = None.
Proof.
  intros Ha Ho Hk. unfold query. rewrite query_law by (by eapply plain_params). cbn [kr_params as_received].
  unfold values_of. rewrite find_nothing; [done|]. unfold hasOnlySearchParams in Ho. rewrite forallb_forall in Ho.
  destruct (List.find _ _) as [[k w]|] eqn:E; [|done]. apply List.find_some in E as [Hin Heq]. specialize (Ho _ Hin).
  apply String.eqb_eq in Heq. apply includes_true in Ho. simpl in *. congruence.
Qed.

Section customer.
Context (u : SessionUser) (organizationId adminUserId : string) (r : WebRequest) (h : gmap string string) (body : json).
Context (Hrole : u.(su_role) = "customer") (Hid : u.(su_id) ≠ "") (Hslash : free_of "/" u.(su_id)) (Hpercent : free_of "%" u.(su_id)).
Context (Hgranted : granted adminUserId u h).
Notation q := (as_received r h body).
Notation url := r.(rq_url).
Notation fine result := (match result with inl _ => True | inr call => customer_call u organizationId adminUserId call end).

Lemma customer_headers : currentUserId q = inr adminUserId ∨ ∃ e, currentUserId q = inl e.
Proof.
  destruct Hgranted as (_ & _ & Hu & _). rewrite Hrole in Hu. unfold currentUserId, request_header. cbn [kr_headers as_received].
  rewrite Hu. simpl. destruct (truthy adminUserId); eauto.
Qed.
Lemma actor_own : requestActor q adminUserId = customer_actor adminUserId u ∧ customerQuoteActor q = customer_quote_actor u ∧
  trimmed_header "x-authenticated-customer-id" q = trim_or_null (Some u.(su_id)) ∧
  request_header "x-authenticated-customer-id" q = Some u.(su_id).
Proof.
  destruct Hgranted as (_ & He & _ & Hc). rewrite Hrole in Hc. simpl in Hc.
  unfold requestActor, customerQuoteActor, trimmed_header, request_header. cbn [kr_headers as_received]. by rewrite He, Hc.
Qed.
Lemma fine_user call params : customer_call u organizationId adminUserId (call adminUserId q) → fine (for_user call params q).
Proof. intros H. unfold for_user. destruct customer_headers as [->|[e ->]]; done. Qed.
Lemma fine_user1 call id rest : customer_call u organizationId adminUserId (call id adminUserId q) → fine (for_user1 call (id :: rest) q).
Proof. intros H. unfold for_user1. destruct customer_headers as [->|[e ->]]; done. Qed.
Lemma fine_user2 call id id' rest : customer_call u organizationId adminUserId (call id id' adminUserId q) →
  fine (for_user2 call (id :: id' :: rest) q).
Proof. intros H. unfold for_user2. destruct customer_headers as [->|[e ->]]; done. Qed.

Lemma known_path path segments : url.(url_pathname) = path → path_segments (core_path path) = Some segments →
  path_segments q.(kr_path) = Some segments.
Proof. intros <-. done. Qed.
Lemma agrees_all segments : agrees (map Some segments) segments.
Proof. induction segments; constructor; [by intros y [= ->]|done]. Qed.
(** A route without parameters. *)
Lemma fixed_route path segments pattern call others result : url.(url_pathname) = path →
  path_segments (core_path path) = Some segments →
  (∃ method, candidates r.(rq_method) (map Some segments) = {| rt_method := method; rt_pattern := pattern; rt_handler := call |} :: others) →
  match_segments pattern segments = Some [] → dispatch q = Some result → result = call [] q.
Proof.
  intros Ep Es Hc Hm H. rewrite (reaches (map Some segments) q segments pattern call others []) in H; [congruence| |apply agrees_all|done|done].
  by eapply known_path.
Qed.
Lemma own_segment_decodes : decodeURIComponent u.(su_id) = Some u.(su_id).
Proof. by apply decode_plain. Qed.
(** A route below the customer's own. *)
Lemma own_segments tail rest : url.(url_pathname) = "/api/core/customers/" +:+ u.(su_id) +:+ tail →
  (tail = "" ∧ rest = [] ∨ ∃ x, tail = String "/" x ∧ split_all x = rest ∧ ∀ y z, drop_last_slash (y :: z :: rest) = y :: z :: rest) →
  path_segments q.(kr_path) = Some ("customers" :: u.(su_id) :: rest).
Proof.
  intros Ep Ht. apply (known_path _ _ Ep). 
  change (core_path _) with ("/api/v1/customers/" +:+ u.(su_id) +:+ tail). unfold path_segments.
  change (strip_prefix "/api/v1/" _) with (Some ("customers" +:+ String "/" (u.(su_id) +:+ tail))). cbn [fmap option_fmap option_map].
  unfold compose. rewrite split_all_app by done. f_equal. destruct Ht as [[-> ->]|(x & -> & Ex & Ed)].
  - rewrite append_empty, split_all_free by done. apply truthy_true in Hid. simpl. by rewrite Hid.
  - by rewrite split_all_app, Ex, Ed by done.
Qed.

Lemma segment_then_some suffix s segment : segment_then suffix s = Some segment →
  s = segment +:+ suffix ∧ segment ≠ "" ∧ free_of "/" segment.
Proof.
  unfold segment_then. destruct (split_char "/" s) as [[x rest]|] eqn:E; [|done].
  destruct (truthy x && _) eqn:Eb; [|done]. apply andb_true_iff in Eb as [Hx Hs]. intros [= <-].
  apply split_char_Some in E as [-> Hf]. apply String.eqb_eq in Hs as ->. apply truthy_true in Hx. done.
Qed.
Lemma plain_keys allowed : forallb (λ k, negb (contains "[" k)) allowed = true → Forall (λ k, contains "[" k = false) allowed.
Proof. rewrite forallb_forall. intros H. apply Forall_forall. intros k Hk. apply negb_true_iff, H. by apply list_elem_of_In. Qed.
Lemma own_param_query key v allowed : forallb (λ k, negb (contains "[" k)) allowed = true →
  opt_eqb (param key url) (Some v) = true → hasOnlySearchParams url allowed = true → own_value v (query key q).
Proof. intros Ha Hp Ho. apply opt_eqb_true in Hp. eapply own_query; [by apply plain_keys|exact Ho|exact Hp]. Qed.

Lemma confirm_dispatch result : r.(rq_method) = "POST" → confirm_route url.(url_pathname) = true → dispatch q = Some result → fine result.
Proof.
  intros Em Hc. unfold confirm_route in Hc. destruct (strip_prefix _ _) as [rest|] eqn:Ep; [|done].
  apply is_some_true in Hc as [x Hx]. apply segment_then_some in Hx as (-> & Hx & Hf). apply strip_prefix_Some in Ep.
  assert (Es : path_segments q.(kr_path) = Some ["operations"; x; "confirm"]).
  { apply (known_path _ _ Ep). change (core_path _) with ("/api/v1/" +:+ ("operations" +:+ String "/" (x +:+ "/confirm"))).
    unfold path_segments. rewrite strip_prefix_app. cbn [fmap option_fmap option_map]. unfold compose.
    rewrite split_all_app by done. change (x +:+ "/confirm") with (x +:+ String "/" "confirm"). by rewrite split_all_app by done. }
  intros H. eapply (reached [Some "operations"; None; Some "confirm"] q) in H as (params & Hm & ->);
    [|exact Es|agree|cbn [kr_method as_received]; rewrite Em; reflexivity].
  cbn [rt_pattern POST PATCH] in Hm. rewrite match_lit in Hm by done. apply match_par_inv in Hm as (v & ps & _ & -> & _).
  cbn. apply actor_own.
Qed.
Lemma cancel_dispatch result : r.(rq_method) = "PATCH" → cancel_route url.(url_pathname) = Some u.(su_id) →
  dispatch q = Some result → fine result.
Proof.
  intros Em Hc. unfold cancel_route in Hc. destruct (strip_prefix _ _) as [rest|] eqn:Ep; [|done]. apply strip_prefix_Some in Ep.
  destruct (split_char "/" rest) as [[customer tail]|] eqn:Es; [|done]. apply split_char_Some in Es as [-> _].
  destruct (strip_prefix "virtual-account-requests/" tail) as [request|] eqn:Et; [|done]. apply strip_prefix_Some in Et as ->.
  destruct (truthy customer && _) eqn:Eb; [|done]. apply andb_true_iff in Eb as [_ [x Hx]%is_some_true]. injection Hc as ->.
  apply segment_then_some in Hx as (-> & Hx & Hf).
  assert (Es : path_segments q.(kr_path) = Some ["customers"; u.(su_id); "virtual-account-requests"; x; "cancel"]).
  { eapply own_segments; [exact Ep|]. right. eexists. split; [done|]. split; [|done].
    change ("virtual-account-requests/" +:+ (x +:+ "/cancel")) with ("virtual-account-requests" +:+ String "/" (x +:+ String "/" "cancel")).
    by rewrite !split_all_app by done. }
  intros H. eapply (reached [Some "customers"; None; Some "virtual-account-requests"; None; Some "cancel"] q) in H as (params & Hm & ->);
    [|exact Es|agree|cbn [kr_method as_received]; rewrite Em; reflexivity].
  cbn [rt_pattern POST PATCH] in Hm. rewrite match_lit in Hm by done. apply match_par_inv in Hm as (v & ps & Ev & -> & Hm).
  rewrite match_lit in Hm by done. apply match_par_inv in Hm as (v' & ps' & _ & -> & _).
  rewrite own_segment_decodes in Ev. injection Ev as <-. apply fine_user2. split; [done|apply actor_own].
Qed.
(** A route of one handler below the customer's own path. *)
Lemma own_dispatch tail rest call others result : url.(url_pathname) = "/api/core/customers/" +:+ u.(su_id) +:+ tail →
  (tail = "" ∧ rest = [] ∨ ∃ x, tail = String "/" x ∧ split_all x = rest ∧ ∀ y z, drop_last_slash (y :: z :: rest) = y :: z :: rest) →
  (∃ method, candidates r.(rq_method) (Some "customers" :: None :: map Some rest) =
     {| rt_method := method; rt_pattern := Lit "customers" :: Par :: map Lit rest; rt_handler := call |} :: others) →
  match_segments (map Lit rest) rest = Some [] →
  dispatch q = Some result → result = call [u.(su_id)] q.
Proof.
  intros Ep Ht Hc Hm H. pose proof (own_segments tail rest Ep Ht) as Es.
  erewrite reaches in H; [by injection H as <-|exact Es| |exact Hc|].
  - constructor; [by intros y [= ->]|]. constructor; [done|]. apply agrees_all.
  - rewrite match_lit by done. by rewrite (match_par _ _ _ _ Hid own_segment_decodes), Hm.
Qed.

Lemma fees_call result : result = feesList [] q →
  opt_eqb (param "organizationId" url) (Some organizationId) = true → opt_eqb (param "active" url) (Some "true") = true →
  hasOnlySearchParams url ["organizationId"; "active"] = true → fine result.
Proof.
  intros -> Ho Ha Hs. pose proof (own_param_query "organizationId" _ ["organizationId"; "active"] eq_refl Ho Hs) as Horg.
  assert (Hc : query "customerId" q = None).
  { apply (absent_query r h body "customerId" _ (plain_keys ["organizationId"; "active"] eq_refl) Hs).
    by apply (bool_decide_unpack _); vm_compute. }
  unfold feesList. rewrite Hc.
  destruct (match query "active" q with Some _ => _ | None => _ end); [done|].
  assert (opt_truthy (request_header "x-authenticated-customer-id" q) = true) as ->.
  { destruct actor_own as (_ & _ & _ & ->). apply truthy_true in Hid. exact Hid. }
  destruct (opt_eqb (query "active" q) (Some "true")) eqn:E; [|done]. simpl. apply opt_eqb_true in E. rewrite E.
  apply fine_user. split; [done|]. split; [exact Horg|]. split; [done|exact Hc].
Qed.
Ltac own_query_of := eapply own_param_query; cycle 1; [eassumption|eassumption|reflexivity].
Ltac fixed H := match goal with E : url_pathname _ = _ |- _ => eapply (fixed_route _ _ _ _ _ _ E eq_refl) in H end;
  [|match goal with Em : _ = "GET" |- _ => rewrite Em | Em : _ = "POST" |- _ => rewrite Em end; eexists; reflexivity|reflexivity].
Ltac below H := match goal with E : url_pathname _ = _ |- _ => eapply (own_dispatch _ _ _ _ _ E) in H end;
  [|first [by left|by right; eexists]|match goal with Em : _ = "GET" |- _ => rewrite Em | Em : _ = "POST" |- _ => rewrite Em end; eexists; reflexivity|reflexivity].
Lemma customer_dispatch result :
  customerCoreRouteAllowed url r.(rq_method) u.(su_id) organizationId = true → dispatch q = Some result → fine result.
Proof.
  intros Ha H. pose proof actor_own as (Hactor & Hquote & Hcustomer & _). unfold customerCoreRouteAllowed in Ha.
  at_route Ha. { fixed H. subst result. by apply fine_user. }
  at_route Ha. { fixed H. subst result. by apply fine_user. }
  at_route Ha. { by eapply confirm_dispatch. }
  at_route Ha.
  { route_guards. fixed H. subst result. apply fine_user. split; [done|]. split; [own_query_of|]. split; [exact Hcustomer|own_query_of]. }
  at_route Ha. { route_guards. fixed H. by eapply fees_call. }
  at_route Ha.
  { apply orb_true_iff in Ha as [Hm%String.eqb_eq|Hm%String.eqb_eq]; below H; subst result.
    - by apply fine_user1.
    - unfold requestVa. destruct (match _ with Some _ => _ | None => _ end); [done|]. by apply fine_user1. }
  destruct (cancel_route (url_pathname url)) as [customer|] eqn:Hcancel.
  { route_guards. subst customer. by eapply cancel_dispatch. }
  destruct (String.eqb_spec r.(rq_method) "GET") as [Hm|]; [|done]. simpl in Ha.
  at_route Ha.
  { below H. subst result. unfold quoteVaFee. destruct (query "channelId" q); [|done]. destruct (_ || _); [done|]. by apply fine_user1. }
  at_route Ha. { below H. subst result. by apply fine_user1. }
  at_route Ha. { route_guards. fixed H. subst result. apply fine_user. split; [done|own_query_of]. }
  at_route Ha. { route_guards. fixed H. subst result. apply fine_user. split; [done|]. split; own_query_of. }
  at_route Ha. { route_guards. fixed H. subst result. apply fine_user. split; [done|own_query_of]. }
  at_route Ha; [|done]. route_guards. fixed H. subst result. by apply fine_user.
Qed.
End customer.
End routing.

(** ** From the edge to the handler *)
Section edge.
Context {RT : Router} {QP : QueryParser} {JD : JsDates} {NT : JsNumberText}.
Context (sha256_hex : list Z → string) (hmac_sha256 : string → string → list Z).
Context (json_parse : list Z → option json) (json_text : json → list Z).
Context (admin_limit customer_limit : string → bool).
Context (go : nat → UpstreamRequest → option UpstreamResponse).
Context (params_text : list (string * string) → string).
Context (env : WorkerEnv) (now : Z) (safe_integer : string → option Z).
Notation admit_request := (admitted sha256_hex hmac_sha256 json_parse json_text admin_limit customer_limit go params_text env now).
Notation core_edge := (edgeAuthMiddleware sha256_hex hmac_sha256 safe_integer).

Lemma edge_grants given r u up o coreNow parsed h : admit_request given r = Going (u, up) →
  trim (identity_of u) = identity_of u → well_named u → is_health_check (received up parsed) = false →
  core_edge coreNow o (received up parsed) = Some h → may_ask sha256_hex env u r ∧ granted o.(eo_adminUserId) u h.
Proof.
  intros H Htrim Hnamed Hhealth He. apply admitted_ok in H as (session & body & _ & _ & Hmay & _ & ->). split; [done|].
  unfold edgeAuthMiddleware in He. rewrite Hhealth in He. destruct (negb _ || _); [done|].
  assert (header "x-neobank-user" (received (core_request sha256_hex hmac_sha256 env now u r body) parsed) = identity_of u) as Hid.
  { unfold header, received. cbn [er_headers].
    destruct (request_headers sha256_hex hmac_sha256 env now u r body) as (->&_). exact Htrim. }
  rewrite Hid in He. edestruct identity_granted as (h' & Eh & Hg); [exact Hmay|exact Hnamed| |rewrite Eh in He; by injection He as <-].
  cbn [er_headers received]. apply no_identity_headers. unfold identity_header_names. set_solver.
Qed.

(** C24: A customer's session reaches only the handlers meant for customers, and for itself.
    A request that the edge lets through for a customer's session and that the core's own
    check of the signature accepts reaches one of fourteen handlers: those of the
    customer's virtual account requests, quotes, conversions, summary, operations, transfers
    and profile, and the open channels, fees and rates.  Every one of them that takes a
    user runs as the core's administrator, whatever the request's headers say; those of
    the virtual account requests and of the quotes have the session's customer beside it,
    and the confirmation of a quote, which takes no user, has the customer alone.  Every
    customer a handler is told to read, by the path, by a header or by a parameter, is the
    session's own (a parameter that is repeated reads as its values joined by commas, the
    first its own).  No decision of an administrator (an approval, a payout, a rate, a fee,
    a waiver) is among them.  The session's customer id has no slash, percent sign or
    colon, as the ids the service gives have none, so that it is one segment of a path and
    one field of the identity; the identity has no space around it; and the request is not
    the health check's. *)
Theorem customer_reaches_own_handlers given r u up o coreNow parsed h body result :
  admit_request given r = Going (u, up) → u.(su_role) = "customer" →
  trim (identity_of u) = identity_of u → well_named u → free_of "/" u.(su_id) → free_of "%" u.(su_id) →
  is_health_check (received up parsed) = false → core_edge coreNow o (received up parsed) = Some h →
  dispatch (as_received r h body) = Some result →
  match result with
  | inl _ => True
  | inr call => customer_call u env.(we_CORE_ORGANIZATION_ID) o.(eo_adminUserId) call
  end.
Proof.
  intros H Hrole Htrim Hnamed Hslash Hpercent Hhealth He Hd.
  destruct (edge_grants _ _ _ _ _ _ _ _ H Htrim Hnamed Hhealth He) as [Hmay Hg].
  destruct Hmay as (_ & [(_ & Hid & Hroute)|(Hadmin & _)] & _); [|congruence].
  eapply customer_dispatch; eauto.
Qed.
End edge.

(** ** An administrator's request *)
(** *** Paths in lower case *)
Lemma lower_cons c s : toLowerCase (String c s) = String (lower_char c) (toLowerCase s).
Proof. done. Qed.
Lemma lower_slash c : Ascii.eqb (lower_char c) "/" = Ascii.eqb c "/".
Proof. destruct c as [[] [] [] [] [] [] [] []]; reflexivity. Qed.
Lemma lower_app a b : toLowerCase (a +:+ b) = toLowerCase a +:+ toLowerCase b.
Proof. induction a as [|c a IH]; [done|]. change (String c a +:+ b) with (String c (a +:+ b)). by rewrite !lower_cons, IH. Qed.
Lemma split_all_lower s : split_all (toLowerCase s) = map toLowerCase (split_all s).
Proof.
  induction s as [|c s IH]; [done|]. rewrite lower_cons. cbn [split_all]. rewrite lower_slash, IH.
  destruct (Ascii.eqb c "/"); [done|]. by destruct (split_all s).
Qed.
Lemma split_all_char s : split_all s = match split_char "/" s with Some (x, rest) => x :: split_all rest | None => [s] end.
Proof.
  induction s as [|c s IH]; [done|]. cbn [split_all split_char]. destruct (Ascii.eqb c "/"); [done|].
  rewrite IH. by destruct (split_char "/" s) as [[x rest]|].
Qed.
Lemma split_all_inj a b : split_all a = split_all b → a = b.
Proof.
  revert b. induction a as [|c a IH]; intros [|d b]; cbn [split_all]; [done|..].
  - destruct (Ascii.eqb d "/"); [by rewrite split_all_char; destruct (split_char "/" b) as [[]|]|].
    rewrite split_all_char. by destruct (split_char "/" b) as [[]|].
  - destruct (Ascii.eqb c "/"); [by rewrite split_all_char; destruct (split_char "/" a) as [[]|]|].
    rewrite split_all_char. by destruct (split_char "/" a) as [[]|].
  - destruct (Ascii.eqb_spec c "/") as [->|], (Ascii.eqb_spec d "/") as [->|].
    + intros [= H]. f_equal. by apply IH.
    + destruct (split_all b); intros [= H].
    + destruct (split_all a); intros [= H].
    + assert (∀ x, split_all x ≠ []) as Hne by (intros x; rewrite split_all_char; by destruct (split_char "/" x) as [[]|]).
      pose proof (Hne a). pose proof (Hne b). destruct (split_all a) eqn:Ea, (split_all b) eqn:Eb; try done.
      intros [= -> -> ->]. f_equal. apply IH. by rewrite Eb.
Qed.
Lemma segment_then_split action rest : free_of "/" action →
  is_some (segment_then ("/" +:+ action) rest) || is_some (segment_then ("/" +:+ action +:+ "/") rest) = true ↔
  ∃ x, x ≠ "" ∧ (split_all rest = [x; action] ∨ split_all rest = [x; action; ""]).
Proof.
  intros Hf. unfold segment_then. rewrite split_all_char. destruct (split_char "/" rest) as [[x tail]|].
  2: { simpl. split; [done|]. intros (x & _ & [H|H]); done. }
  change ("/" +:+ action +:+ "/") with (String "/" (action +:+ String "/" "")). change ("/" +:+ action) with (String "/" action).
  assert (E1 : split_all action = [action]) by (by apply split_all_free).
  assert (E2 : split_all (action +:+ String "/" "") = [action; ""]) by (by rewrite split_all_app).
  destruct (truthy x) eqn:Ex; cbn [andb].
  - apply truthy_true in Ex. rewrite orb_true_iff. destruct (String.eqb_spec (String "/" tail) (String "/" action)) as [H1|H1].
    { injection H1 as ->. rewrite E1. split; [|by left]. intros _. exists x. auto. }
    destruct (String.eqb_spec (String "/" tail) (String "/" (action +:+ String "/" ""))) as [H2|H2].
    { injection H2 as ->. rewrite E2. split; [|by right]. intros _. exists x. auto. }
    split; [by intros [?|?]|]. intros (y & _ & [H|H]); injection H as _ H.
    + exfalso. apply H1. f_equal. apply split_all_inj. congruence.
    + exfalso. apply H2. f_equal. apply split_all_inj. congruence.
  - split; [done|]. intros (y & Hy & [H|H]); injection H as -> _; apply truthy_true in Hy; congruence.
Qed.

(** *** The permission of a route *)
#[local] Notation under := CoreGateway.under.
Lemma drop_last_slash_cases l : l ≠ [] → drop_last_slash l = l ∨ l = drop_last_slash l ++ [""].
Proof.
  induction l as [|x l IH]; [done|]. intros _. destruct l as [|y l]; [by left|]. destruct l as [|z l].
  - simpl. destruct (truthy y) eqn:E; [by left|right]. unfold truthy in E. apply negb_false_iff, String.eqb_eq in E as ->. done.
  - change (drop_last_slash (x :: y :: z :: l)) with (x :: drop_last_slash (y :: z :: l)).
    destruct IH as [IH|IH]; [done| |]; [left; by rewrite IH|right; by rewrite IH at 1].
Qed.
Lemma drop_last_slash_map l : map toLowerCase (drop_last_slash l) = drop_last_slash (map toLowerCase l).
Proof.
  induction l as [|x l IH]; [done|]. destruct l as [|y l]; [done|]. destruct l as [|z l].
  - simpl. replace (truthy (toLowerCase y)) with (truthy y) by (by destruct y). by destruct (truthy y).
  - change (drop_last_slash (x :: y :: z :: l)) with (x :: drop_last_slash (y :: z :: l)). cbn [map] in *. by rewrite IH.
Qed.
Lemma append_slash a b : (a +:+ "/") +:+ b = a +:+ String "/" b.
Proof. induction a as [|c a IH]; [done|]. exact (f_equal (String c) IH). Qed.
Lemma strip_area area s : free_of "/" area →
  strip_prefix (area +:+ "/") s = match split_char "/" s with Some (x, rest) => if String.eqb x area then Some rest else None | None => None end.
Proof.
  intros Hf. destruct (strip_prefix (area +:+ "/") s) as [rest|] eqn:E.
  - apply strip_prefix_Some in E as ->. by rewrite append_slash, split_char_app, String.eqb_refl.
  - destruct (split_char "/" s) as [[x rest]|] eqn:Es; [|done]. destruct (String.eqb_spec x area) as [->|]; [|done].
    apply split_char_Some in Es as [-> _].
    by rewrite <- (append_slash area rest), strip_prefix_app in E.
Qed.
(** Below [/api/core/]: the first segment, and the three of an action. *)
Definition first_segment (s : string) : string := match split_char "/" s with Some (x, _) => x | None => s end.
Lemma under_segment area s : free_of "/" area → area ≠ "" →
  under ("/api/core/" +:+ area) ("/api/core/" +:+ s) = String.eqb (first_segment s) area.
Proof.
  intros Hf Hne. unfold under, first_segment. rewrite append_cancel. unfold starts_with.
  change (("/api/core/" +:+ area) +:+ "/") with ("/api/core/" +:+ (area +:+ "/")).
  change (strip_prefix ("/api/core/" +:+ (area +:+ "/")) ("/api/core/" +:+ s)) with (strip_prefix (area +:+ "/") s).
  rewrite strip_area by done. destruct (split_char "/" s) as [[x rest]|] eqn:E.
  - apply split_char_Some in E as [-> Hx]. destruct (String.eqb_spec x area) as [->|Hd]; [by rewrite orb_true_r|]. rewrite orb_false_r.
    apply String.eqb_neq. intros H. pose proof (split_char_app "/" x rest Hx) as E. rewrite H in E. unfold free_of in Hf. congruence.
  - by rewrite orb_false_r.
Qed.
Lemma action_segments area action s : free_of "/" area → free_of "/" action → action ≠ "" →
  action_route ("/api/core/" +:+ area) action ("/api/core/" +:+ s) = true ↔
  ∃ x, x ≠ "" ∧ drop_last_slash (map toLowerCase (split_all s)) = [area; x; action].
Proof.
  intros Hf Ha Hne. unfold action_route. rewrite lower_app.
  change (("/api/core/" +:+ area) +:+ "/") with ("/api/core/" +:+ (area +:+ "/")).
  change (strip_prefix ("/api/core/" +:+ (area +:+ "/")) (toLowerCase "/api/core/" +:+ toLowerCase s))
    with (strip_prefix (area +:+ "/") (toLowerCase s)).
  rewrite strip_area, <- split_all_lower, (split_all_char (toLowerCase s)) by done.
  assert (Htwo : ∀ l, l ≠ [] → ∀ x, drop_last_slash (area :: l) = [area; x; action] ↔ l = [x; action] ∨ l = [x; action; ""]).
  { intros l Hl x. apply truthy_true in Hne. split.
    - intros E. destruct (drop_last_slash_cases (area :: l)) as [H|H]; [done| |]; rewrite E in H; injection H as H; auto.
    - intros [->| ->]; simpl; by rewrite ?Hne. }
  destruct (split_char "/" (toLowerCase s)) as [[c rest]|].
  - assert (Hrest : split_all rest ≠ []) by (rewrite split_all_char; by destruct (split_char "/" rest) as [[]|]).
    destruct (String.eqb_spec c area) as [->|Hc].
    + rewrite segment_then_split by done. split; intros (x & Hx & H); exists x; (split; [done|]); by apply (Htwo _ Hrest).
    + split; [done|]. intros (x & _ & H). destruct (split_all rest) as [|y [|]]; [done| |]; simpl in H; repeat case_match; congruence.
  - split; [done|]. intros (x & _ & H). done.
Qed.

Definition area_permission (readOnly : bool) (area : string) : option string :=
  if includes ["customers"; "virtual-account-requests"] area then Some (if readOnly then perm_customerRead else perm_customerReview)
  else if includes ["funding-channels"; "rates"; "withdrawal-fees"] area then Some (if readOnly then perm_fundsRead else perm_settings)
  else if includes ["accounts"; "operations"; "crypto-wallets"; "beneficiaries"] area
  then Some (if readOnly then perm_fundsRead else perm_fundsManage)
  else if String.eqb area "ledger" then Some perm_reports else None.
Lemma includes_cons {A} `{EqDecision A} (x y : A) l : includes (y :: l) x = bool_decide (x = y) || includes l x.
Proof. unfold includes. apply eq_true_iff_eq. rewrite orb_true_iff, !bool_decide_eq_true, elem_of_cons. done. Qed.
Lemma eqb_decide (x y : string) : String.eqb x y = bool_decide (x = y).
Proof. apply eq_true_iff_eq. by rewrite String.eqb_eq, bool_decide_eq_true. Qed.
Lemma required_by_area s method : requiredAdminCorePermission ("/api/core/" +:+ s) method =
  let ro := readOnlyMethod method in
  if negb ro && action_route "/api/core/customers" "va-fee-policy" ("/api/core/" +:+ s) then Some perm_settings
  else if negb ro && action_route "/api/core/virtual-account-requests" "waive-opening-fee" ("/api/core/" +:+ s) then Some perm_fundsManage
  else area_permission ro (first_segment s).
Proof.
  unfold requiredAdminCorePermission, area_permission. cbv zeta.
  assert (Hu : ∀ area, free_of "/" area → area ≠ "" → under ("/api/core/" +:+ area) ("/api/core/" +:+ s) = bool_decide (first_segment s = area)).
  { intros area Hf Hne. by rewrite under_segment, eqb_decide. }
  rewrite (Hu "customers" eq_refl ltac:(done) : under "/api/core/customers" _ = _).
  rewrite (Hu "virtual-account-requests" eq_refl ltac:(done) : under "/api/core/virtual-account-requests" _ = _).
  rewrite (Hu "funding-channels" eq_refl ltac:(done) : under "/api/core/funding-channels" _ = _).
  rewrite (Hu "rates" eq_refl ltac:(done) : under "/api/core/rates" _ = _).
  rewrite (Hu "withdrawal-fees" eq_refl ltac:(done) : under "/api/core/withdrawal-fees" _ = _).
  rewrite (Hu "accounts" eq_refl ltac:(done) : under "/api/core/accounts" _ = _).
  rewrite (Hu "operations" eq_refl ltac:(done) : under "/api/core/operations" _ = _).
  rewrite (Hu "crypto-wallets" eq_refl ltac:(done) : under "/api/core/crypto-wallets" _ = _).
  rewrite (Hu "beneficiaries" eq_refl ltac:(done) : under "/api/core/beneficiaries" _ = _).
  rewrite (Hu "ledger" eq_refl ltac:(done) : under "/api/core/ledger" _ = _).
  rewrite !includes_cons. change (includes [] (first_segment s)) with false. rewrite !orb_false_r, !orb_assoc, ?eqb_decide. done.
Qed.
Lemma area_lower readOnly x permission : area_permission readOnly x = Some permission → toLowerCase x = x.
Proof.
  unfold area_permission. rewrite !includes_cons. change (includes [] x) with false. rewrite <- !eqb_decide.
  repeat match goal with |- context [String.eqb x ?y] => destruct (String.eqb_spec x y) as [->|_]; [done|] end. done.
Qed.

Definition is_action (area action : string) (pattern : list Segment) : bool :=
  match pattern with [Lit c; Par; Lit a] => String.eqb c area && String.eqb a action | _ => false end.
(** A pattern that decides whether it is an action of the area. *)
Definition decided (area : string) (pattern : list Segment) : bool :=
  match pattern with
  | [Lit _; Par; Lit _] => true
  | [Lit c; _; _] => negb (String.eqb c area)
  | Lit _ :: _ => true
  | _ => false
  end.
Lemma action_of_pattern area action pattern segments params : decided area pattern = true →
  match_segments pattern segments = Some params →
  (∃ x, x ≠ "" ∧ map toLowerCase segments = [area; x; action]) ↔ is_action area action pattern = true.
Proof.
  intros Hd Hm. destruct pattern as [|[c|] pattern]; [done| |done]. destruct segments as [|x0 segments]; [done|].
  cbn [match_segments] in Hm. destruct (String.eqb_spec (toLowerCase x0) c) as [<-|]; [|done].
  assert (Hlen : ∀ p s ps, match_segments p s = Some ps → length p = length s).
  { induction p as [|[t|] p IH]; intros [|x s] ps H; try done; cbn -[decodeURIComponent] in H.
    - destruct (String.eqb _ _); [|done]. simpl. f_equal. by eapply IH.
    - destruct (truthy x); [|done]. destruct (decodeURIComponent x); [|done]. destruct (match_segments p s) eqn:E; [|done].
      simpl. f_equal. by eapply IH. }
  pose proof (Hlen _ _ _ Hm) as Hl.
  destruct segments as [|x1 [|x2 [|x3 segments]]], pattern as [|p1 [|p2 [|p3 pattern]]]; try done;
    try (split; [by intros (x & _ & H)|first [done|by destruct p1|by destruct p1, p2]]).
  destruct p1 as [t1|], p2 as [t2|]; cbn [is_action decided match_segments] in *; try (split; [|done]; intros (x & _ & [= H _ _]);
    rewrite H, String.eqb_refl in Hd; done).
  destruct (truthy x1) eqn:E1; [|done]. destruct (decodeURIComponent x1); [|done].
  destruct (String.eqb_spec (toLowerCase x2) t2) as [<-|]; [|done]. rewrite andb_true_iff, !String.eqb_eq. simpl. split.
  - intros (x & _ & [= -> _ ->]). done.
  - intros [-> ->]. exists (toLowerCase x1). split; [|done]. by destruct x1.
Qed.

Definition pattern_permission (readOnly : bool) (pattern : list Segment) : option string :=
  if negb readOnly && is_action "customers" "va-fee-policy" pattern then Some perm_settings
  else if negb readOnly && is_action "virtual-account-requests" "waive-opening-fee" pattern then Some perm_fundsManage
  else match pattern with Lit area :: _ => area_permission readOnly area | _ => None end.
(** The permission of each handler. *)
Definition call_permission (call : CoreCall) : string :=
  match call with
  | CustomersList _ _ _ | CustomersGet _ _ | QuoteVaOpeningFee _ _ _ | GetVaFeePolicy _ _ | ListVirtualAccountRequests _ _
  | VaRequestsList _ _ => perm_customerRead
  | CustomersCreate _ _ | CustomersApprove _ _ _ | CustomersReviewKyc _ _ _ _ | CustomersReject _ _ _
  | RequestVirtualAccount _ _ _ _ | CancelVirtualAccountRequest _ _ _ | UpdateVaFeePolicy _ true _ _
  | VaApprove _ _ _ | VaReject _ _ _ => perm_customerReview
  | ChannelsList _ _ _ _ _ | RatesList _ _ | FeesList _ _ _ _
  | AccountsList _ _ _ | AccountsSummary _ _ | AccountsGet _ _ | OperationsList _ _ | OperationsApprovals _ _ | OperationsGet _ _
  | CryptoListWallets _ _ | CryptoListTransfers _ _ _ _ | CryptoQrCode _ _ _ | BeneficiariesList _ _ => perm_fundsRead
  | UpdateVaFeePolicy _ false _ _ | ChannelsCreate _ _ | ChannelsUpdate _ _ _
  | RatesRejectManualCreate _ | RatesCreateFromMarket _ _ | RatesDeactivate _ _ | FeesUpsert _ _ | FeesUpdate _ _ _ => perm_settings
  | VaWaiveFee _ _ _ _ | BeneficiariesCreate _ _ | BeneficiariesUpdate _ _ _
  | OperationsCreate _ _ | OperationsCreateQuote _ _ _ | OperationsConfirmQuote _ _
  | OperationsApprove _ _ | OperationsReject _ _ _ | OperationsExecute _ _ _
  | CryptoCreateWithdrawal _ _ | CryptoApprove _ _ | CryptoReject _ _ _ | CryptoExecute _ _ _ => perm_fundsManage
  | LedgerReconcileUsdt _ _ | LedgerList _ _ _ _ => perm_reports
  | Health | CreateCustomerPayout _ _ _ | InboundList _ _ | CregisPostDeposit _ | CregisAdvanceWithdrawal _ _ => perm_users
  end.

(** The user a handler acts for, and the customer it is told of by the headers. *)
Definition call_user (call : CoreCall) : option string :=
  match call with
  | CustomersList _ u _ | CustomersGet _ u | CustomersCreate _ u | CustomersApprove _ u _ | CustomersReviewKyc _ u _ _
  | CustomersReject _ u _ | VaRequestsList _ u | VaApprove _ _ u | VaReject _ u _ | VaWaiveFee _ _ u _
  | ChannelsList _ u _ _ _ | ChannelsCreate _ u | ChannelsUpdate _ _ u | BeneficiariesList _ u | BeneficiariesCreate _ u
  | BeneficiariesUpdate _ _ u | RatesList u _ | RatesRejectManualCreate u | RatesCreateFromMarket u _ | RatesDeactivate u _
  | CryptoListWallets _ u | CryptoListTransfers _ u _ _ | CryptoQrCode _ _ u | CryptoCreateWithdrawal _ u
  | CryptoApprove _ u | CryptoReject _ _ u | CryptoExecute _ _ u | LedgerReconcileUsdt _ u | LedgerList _ u _ _
  | AccountsList _ u _ | AccountsSummary _ u | AccountsGet _ u | OperationsList _ u | OperationsApprovals _ u
  | OperationsGet _ u | OperationsCreate _ u | OperationsCreateQuote _ u _ | OperationsApprove _ u | OperationsReject _ _ u
  | OperationsExecute _ _ u | CreateCustomerPayout _ u _ | FeesList _ u _ _ | FeesUpsert _ u | FeesUpdate _ _ u
  | InboundList _ u => Some u
  | RequestVirtualAccount _ _ _ a | QuoteVaOpeningFee _ _ a | GetVaFeePolicy _ a | UpdateVaFeePolicy _ _ _ a
  | ListVirtualAccountRequests _ a | CancelVirtualAccountRequest _ _ a => Some a.(ra_userId)
  | Health | OperationsConfirmQuote _ _ | CregisPostDeposit _ | CregisAdvanceWithdrawal _ _ => None
  end.

Section admin.
Context {RT : Router} {QP : QueryParser}.
Lemma for_user_call call params r c : for_user call params r = inr c → ∃ userId, currentUserId r = inr userId ∧ c = call userId r.
Proof. unfold for_user. destruct (currentUserId r); [done|]. intros [= <-]. eauto. Qed.
Lemma for_user1_call call params r c : for_user1 call params r = inr c → ∃ userId, currentUserId r = inr userId ∧ ∃ id, c = call id userId r.
Proof. unfold for_user1. destruct params, (currentUserId r); try done. intros [= <-]. eauto. Qed.
Lemma for_user2_call call params r c : for_user2 call params r = inr c → ∃ userId, currentUserId r = inr userId ∧ ∃ id id', c = call id id' userId r.
Proof. unfold for_user2. destruct params as [|? []], (currentUserId r); try done. intros [= <-]. eauto. Qed.
Lemma for_record_call call params r c : for_record call params r = inr c → ∃ id, c = call id.
Proof. unfold for_record. destruct params; [done|]. destruct (CregisAccounting.recordId _); [done|]. intros [= <-]. eauto. Qed.
Lemma requestVa_call params r c : requestVa params r = inr c →
  ∃ userId, currentUserId r = inr userId ∧ ∃ id dto key, c = RequestVirtualAccount id dto key (requestActor r userId).
Proof. unfold requestVa. destruct (match _ with Some _ => _ | None => _ end); [done|]. intros (?&?&?&->)%for_user1_call. eauto 6. Qed.
Lemma quoteVaFee_call params r c : quoteVaFee params r = inr c →
  ∃ userId, currentUserId r = inr userId ∧ ∃ id channelId, c = QuoteVaOpeningFee id channelId (requestActor r userId).
Proof. unfold quoteVaFee. destruct (query _ r); [|done]. destruct (_ || _); [done|]. intros (?&?&?&->)%for_user1_call. eauto. Qed.
Lemma feesList_call params r c : feesList params r = inr c →
  ∃ userId, currentUserId r = inr userId ∧ ∃ o active customerId, c = FeesList o userId active customerId.
Proof.
  unfold feesList. destruct (match _ with Some _ => _ | None => _ end); [done|]. destruct (_ && _); [done|].
  intros (?&?&->)%for_user_call. eauto 6.
Qed.
Definition sound_route (t : Route) : Prop :=
  (∃ area pattern, t.(rt_pattern) = Lit area :: pattern) ∧
  decided "customers" t.(rt_pattern) = true ∧ decided "virtual-account-requests" t.(rt_pattern) = true ∧
  includes ["GET"; "POST"; "PATCH"] t.(rt_method) = true ∧
  ∀ params r call, t.(rt_handler) params r = inr call →
    default perm_users (pattern_permission (String.eqb t.(rt_method) "GET") t.(rt_pattern)) = call_permission call ∧
    ∀ userId, call_user call = Some userId → currentUserId r = inr userId.
Ltac sound_handler := intros params r call H; cbn [rt_handler GET POST PATCH] in H;
  first [apply for_user_call in H as (?&Hu&->)|apply for_user1_call in H as (?&Hu&?&->)|apply for_user2_call in H as (?&Hu&?&?&->)
        |apply for_record_call in H as (?&->)|apply requestVa_call in H as (?&Hu&?&?&?&->)|apply quoteVaFee_call in H as (?&Hu&?&?&->)
        |apply feesList_call in H as (?&Hu&?&?&?&->)|destruct params; [done|]; injection H as <-|injection H as <-];
  (split; [vm_compute; reflexivity|]); intros userId [= E]; rewrite <- E; assumption.
Ltac sound := split; [do 2 eexists; reflexivity|]; split; [reflexivity|]; split; [reflexivity|]; split; [reflexivity|sound_handler].
Lemma routes_sound : Forall sound_route app_routes.
Proof.
  unfold app_routes. repeat (apply Forall_app; split); cbv delta [customers_routes virtual_accounts_routes channels_routes
    beneficiaries_routes rates_routes crypto_routes ledger_routes accounts_routes operations_routes payouts_routes fees_routes
    inbound_routes cregis_routes] zeta beta; repeat (apply Forall_cons_2; [sound|]); apply Forall_nil_2.
Qed.

(** The route behind a handler that was reached. *)
Lemma dispatch_route r result : dispatch r = Some result →
  ∃ t params, t ∈ app_routes ∧ answers r.(kr_method) t = true ∧ result = t.(rt_handler) params r ∧
    ∃ segments, path_segments r.(kr_path) = Some segments ∧ match_segments t.(rt_pattern) segments = Some params.
Proof.
  unfold dispatch. induction app_routes as [|t routes IH]; [done|]. cbn [first_route]. intros H.
  assert (Hrest : first_route routes r = Some result → ∃ t' params, t' ∈ t :: routes ∧ answers r.(kr_method) t' = true ∧
    result = t'.(rt_handler) params r ∧
    ∃ segments, path_segments r.(kr_path) = Some segments ∧ match_segments t'.(rt_pattern) segments = Some params).
  { intros (t' & params & Hin & Hr)%IH. exists t', params. split; [by right|done]. }
  destruct (answers _ t) eqn:Ea; [|by apply Hrest]. destruct (match_path _ _) as [params|] eqn:Em; [|by apply Hrest].
  injection H as <-. exists t, params. rewrite router_law in Em.
  destruct (path_segments _) as [segments|]; [|done]. split_and!; [left|done|done|by exists segments].
Qed.
Lemma answers_read_only method t : includes ["GET"; "POST"; "PATCH"] t.(rt_method) = true → answers method t = true →
  readOnlyMethod method = String.eqb t.(rt_method) "GET".
Proof.
  intros Hm Ha. apply includes_true in Hm. unfold answers in Ha. apply orb_true_iff in Ha as [->%String.eqb_eq|Ha].
  - rewrite !elem_of_cons in Hm. destruct Hm as [->|[->|[->|Hm]]]; [done..|]. by apply elem_of_nil in Hm.
  - apply andb_true_iff in Ha as [->%String.eqb_eq ->%String.eqb_eq]. done.
Qed.
(** A path the core routes is one of the edge's, or one the edge has no permission for. *)
Lemma core_path_cases p segments : path_segments (core_path p) = Some segments →
  (∃ s, p = "/api/core/" +:+ s ∧ segments = drop_last_slash (split_all s)) ∨ ∀ method, requiredAdminCorePermission p method = None.
Proof.
  unfold path_segments, core_path. destruct (strip_prefix "/api/core" p) as [rest|] eqn:E.
  - destruct rest as [|c rest]; [done|]. destruct (Ascii.eqb_spec c "/") as [->|Hc].
    + change (strip_prefix "/api/v1/" ("/api/v1" +:+ String "/" rest)) with (Some rest). simpl. intros [= <-]. left.
      exists rest. split; [by apply strip_prefix_Some in E as ->|done].
    + apply strip_prefix_Some in E as ->. simpl. done.
  - destruct (strip_prefix "/api/v1/" p) as [rest|] eqn:Ev; [|done]. intros _. right. intros method.
    apply strip_prefix_Some in Ev as ->. unfold requiredAdminCorePermission, action_route. rewrite lower_app.
    destruct (readOnlyMethod method); reflexivity.
Qed.
Lemma first_of_segments s x rest : drop_last_slash (split_all s) = x :: rest → first_segment s = x.
Proof.
  unfold first_segment. rewrite split_all_char. destruct (split_char "/" s) as [[y tail]|]; [|by intros [= -> _]].
  destruct (split_all tail) as [|z [|]]; [by intros [= -> _]| |by intros [= -> _]].
  simpl. destruct (truthy z); by intros [= -> _].
Qed.
Lemma required_of_pattern s method pattern params : (∃ area rest, pattern = Lit area :: rest) →
  decided "customers" pattern = true → decided "virtual-account-requests" pattern = true →
  match_segments pattern (drop_last_slash (split_all s)) = Some params →
  requiredAdminCorePermission ("/api/core/" +:+ s) method = pattern_permission (readOnlyMethod method) pattern ∨
  requiredAdminCorePermission ("/api/core/" +:+ s) method = None.
Proof.
  intros (area & rest & Ep) H1 H2 Hm. rewrite required_by_area. unfold pattern_permission. cbv zeta.
  assert (Hact : ∀ a action, decided a pattern = true → free_of "/" a → free_of "/" action → action ≠ "" →
    action_route ("/api/core/" +:+ a) action ("/api/core/" +:+ s) = is_action a action pattern).
  { intros a action Hd Hfa Hf Hne. apply eq_true_iff_eq. rewrite (action_segments a action s Hfa Hf Hne), <- drop_last_slash_map.
    by apply (action_of_pattern a action pattern _ params). }
  rewrite (Hact "customers" "va-fee-policy" H1 eq_refl eq_refl ltac:(done) : action_route "/api/core/customers" _ _ = _).
  rewrite (Hact "virtual-account-requests" "waive-opening-fee" H2 eq_refl eq_refl ltac:(done)
    : action_route "/api/core/virtual-account-requests" _ _ = _).
  destruct (_ && _); [by left|]. destruct (_ && _); [by left|]. rewrite Ep in *.
  destruct (drop_last_slash (split_all s)) as [|x segments] eqn:Es; [done|]. rewrite (first_of_segments s x segments Es).
  cbn [match_segments] in Hm. destruct (String.eqb_spec (toLowerCase x) area) as [Ex|]; [|done].
  destruct (area_permission _ x) as [permission|] eqn:Ea; [left|by right].
  rewrite (area_lower _ _ _ Ea) in Ex. by rewrite <- Ea, Ex.
Qed.
End admin.


Section admin_edge.
Context {RT : Router} {QP : QueryParser} {JD : JsDates} {NT : JsNumberText}.
Context (sha256_hex : list Z → string) (hmac_sha256 : string → string → list Z).
Context (json_parse : list Z → option json) (json_text : json → list Z).
Context (admin_limit customer_limit : string → bool).
Context (go : nat → UpstreamRequest → option UpstreamResponse).
Context (params_text : list (string * string) → string).
Context (env : WorkerEnv) (now : Z) (safe_integer : string → option Z).
Notation admit_request := (admitted sha256_hex hmac_sha256 json_parse json_text admin_limit customer_limit go params_text env now).
Notation core_edge := (edgeAuthMiddleware sha256_hex hmac_sha256 safe_integer).

(** C25: An administrator reaches a handler with the permission of that handler, and as
    oneself.  A request that the edge lets through for an administrator's session and that
    the core's own check accepts reaches a handler only when the session has the permission
    the handler calls for (reading or reviewing customers, reading or managing funds,
    settings, reports: [call_permission], one row for each of the fifty-five handlers), or
    that of managing administrators, which opens the routes the edge has no permission
    for; the handler acts for the administrator's own identity in the core, and no
    customer is named beside it. *)
Theorem admin_reaches_permitted_handlers given r u up o coreNow parsed h body call :
  admit_request given r = Going (u, up) → u.(su_role) = "admin" →
  trim (identity_of u) = identity_of u → well_named u →
  is_health_check (received up parsed) = false → core_edge coreNow o (received up parsed) = Some h →
  dispatch (as_received r h body) = Some (inr call) →
  (call_permission call ∈ u.(su_permissions) ∨ perm_users ∈ u.(su_permissions)) ∧
  (∀ userId, call_user call = Some userId → userId = u.(su_coreUserId)) ∧
  h !! "x-authenticated-customer-id" = None.
Proof.
  intros H Hrole Htrim Hnamed Hhealth He Hd.
  edestruct edge_grants as [Hmay Hg]; [exact H|exact Htrim|exact Hnamed|exact Hhealth|exact He|].
  destruct Hmay as (_ & [(Hc & _)|(_ & Hcore & _ & Hperm)] & _); [congruence|].
  destruct Hg as (_ & _ & Hu & Hcust). rewrite Hrole in Hu, Hcust. simpl in Hu, Hcust.
  destruct (dispatch_route _ _ Hd) as (t & params & Ht & Ha & Hcall & segments & Hs & Hm).
  pose proof routes_sound as Hsound. rewrite Forall_forall in Hsound.
  destruct (Hsound t Ht) as (Hpat & H1 & H2 & Hmeth & Hhandler).
  destruct (Hhandler params _ call (eq_sym Hcall)) as [Hp Huser]. split; [|split; [|exact Hcust]].
  - cbn [kr_method kr_path as_received] in Ha, Hs. rewrite <- (answers_read_only _ t Hmeth Ha) in Hp.
    destruct (core_path_cases _ _ Hs) as [(s & Es & ->)|Hnone]; [|right; by rewrite Hnone in Hperm].
    rewrite Es in Hperm. destruct (required_of_pattern s r.(rq_method) _ params Hpat H1 H2 Hm) as [E|E]; rewrite E in Hperm.
    + left. by rewrite <- Hp.
    + by right.
  - intros userId Eu. apply Huser in Eu. unfold currentUserId, request_header in Eu. cbn [kr_headers as_received] in Eu.
    rewrite Hu in Eu. destruct (truthy _); congruence.
Qed.
End admin_edge.

(** ** Samples *)
#[export] Instance plain_router : Router :=
  {| match_path pattern path := path_segments path ≫= match_segments pattern; router_law _ _ := eq_refl |}.
#[export] Instance plain_query : QueryParser :=
  {| query_value params key := match values_of key params with [] => None | values => Some (String.concat "," values) end;
     query_law _ _ _ := eq_refl |}.
Definition own_requests : WebRequest := edge_request "GET" "/api/core/customers/cus/virtual-account-requests" "customer" "".
Definition approval : WebRequest := edge_request "PATCH" "/api/core/operations/op1/approve" "admin" "".
Definition headers_of (r : WebRequest) : option (gmap string string) :=
  match sample_admitted None r with
  | Going (_, up) => edgeAuthMiddleware sample_hash sample_mac sample_integer 1700000030 edge_options (received up None)
  | _ => None
  end.
Definition reached_by (r : WebRequest) : option (exn + CoreCall) :=
  match headers_of r with Some h => dispatch (as_received r h JNull) | None => None end.
Example own_requests_reached : reached_by own_requests =
  Some (inr (ListVirtualAccountRequests "cus" {| ra_userId := "adm"; ra_customerId := Some "cus"; ra_email := Some "a@b.example" |})).
Proof. vm_compute. reflexivity. Qed.
Example approval_reached : reached_by approval = Some (inr (OperationsApprove "op1" "usr_1")).
Proof. vm_compute. reflexivity. Qed.
(** The decisions over customers that the edge means to refuse, with a slash at the end. *)
Example disabled_decision_reaches_core :
  isDisabledAdminCustomerLifecycleMutation "/api/core/customers/c1/approve/" "PATCH" = false ∧
  dispatch (as_received (edge_request "PATCH" "/api/core/customers/c1/approve/" "admin" "") {[ "x-user-id" := "usr_1" ]} JNull) =
    Some (inr (CustomersApprove "c1" "usr_1" None)).
Proof. vm_compute. split; reflexivity. Qed.

Lemma is_some_get {A} (o : option A) : is_some o = true → ∃ x, o = Some x.
Proof. destruct o; eauto; done. Qed.
Lemma sample_session r session u up : sample_admitted None r = Going (u, up) →
  request_session sample_hash sample_mac sample_parse sample_go edge_env edge_now None r = Going session → u = session_user session.
Proof. intros H Hs. apply admitted_ok in H as (session' & body & Hs' & -> & _). congruence. Qed.
Lemma customer_reaches_own_handlers_witness : ∃ u call,
  reached_by own_requests = Some (inr call) ∧ customer_call u "org" "adm" call ∧ u.(su_id) = "cus".
Proof.
  destruct (is_going_true (sample_admitted None own_requests)) as [[u up] H]; [vm_compute; reflexivity|].
  assert (Hu : u = session_user customer_json) by (apply (sample_session own_requests customer_json u up H); vm_compute; reflexivity).
  destruct (is_some_get (edgeAuthMiddleware sample_hash sample_mac sample_integer 1700000030 edge_options (received up None))) as [h Hh].
  { pose proof own_requests_reached as E. unfold reached_by, headers_of in E. rewrite H in E. by destruct (edgeAuthMiddleware _ _ _ _ _ _). }
  pose proof own_requests_reached as E. unfold reached_by, headers_of in E. rewrite H in E. unfold received in E, Hh. rewrite Hh in E.
  exists u. eexists. split; [exact own_requests_reached|]. split; [|by rewrite Hu].
  refine (customer_reaches_own_handlers sample_hash sample_mac sample_parse sample_text no_limit no_limit sample_go sample_params
    edge_env edge_now sample_integer None own_requests u up edge_options 1700000030 None h JNull _ H _ _ _ _ _ _ Hh E);
    try (rewrite Hu; vm_compute; reflexivity).
  apply admitted_ok in H as (?&?&_&_&_&_&->). vm_compute. reflexivity.
Defined.
Lemma admin_reaches_permitted_handlers_witness : ∃ u call,
  reached_by approval = Some (inr call) ∧ call_permission call = "funds.manage" ∧ call_user call = Some u.(su_coreUserId) ∧
  (call_permission call ∈ u.(su_permissions) ∨ perm_users ∈ u.(su_permissions)).
Proof.
  destruct (is_going_true (sample_admitted None approval)) as [[u up] H]; [vm_compute; reflexivity|].
  assert (Hu : u = session_user admin_json) by (apply (sample_session approval admin_json u up H); vm_compute; reflexivity).
  destruct (is_some_get (edgeAuthMiddleware sample_hash sample_mac sample_integer 1700000030 edge_options (received up None))) as [h Hh].
  { pose proof approval_reached as E. unfold reached_by, headers_of in E. rewrite H in E. by destruct (edgeAuthMiddleware _ _ _ _ _ _). }
  pose proof approval_reached as E. unfold reached_by, headers_of in E. rewrite H in E. unfold received in E, Hh. rewrite Hh in E.
  exists u. eexists. split; [exact approval_reached|]. split; [done|]. split; [by rewrite Hu|].
  refine (proj1 (admin_reaches_permitted_handlers sample_hash sample_mac sample_parse sample_text no_limit no_limit sample_go sample_params
    edge_env edge_now sample_integer None approval u up edge_options 1700000030 None h JNull _ H _ _ _ _ Hh E));
    try (rewrite Hu; vm_compute; repeat split; first [reflexivity|lia]).
  apply admitted_ok in H as (?&?&_&_&_&_&->). vm_compute. reflexivity.
Defined.
