(* ===== verification/DepositProperties.v ===== *)
(** Correctness of the deposit worker: a custody deposit is credited by exactly
    its amount, posted, and never credited a second time. *)
From stdpp Require Import sorting.
From S2P Require Import Prelude Decimals Schema Access Ledger WithdrawalFees Operations OperationEffects OperationCreation Samples TronAddress CryptoWallets CryptoProperties Customers WithdrawalWorker WithdrawalWorkerEffects DepositWorker.
#[local] Open Scope Z_scope.

Definition d_total (d : CregisDeposit) : Z := 100 * d.(cd_amount_minor).

Lemma deposit_row_ok s id row :
  deposit_row s id = Some row → row.(dw_id) = id ∧ s.(depositQueue) !! id = Some row.(dw_queue) ∧
  row.(dw_queue).(da_status) = "processing" ∧ s.(custodyDeposits) !! id = Some row.(dw_custody).
Proof.
  intros H. unfold deposit_row in H.
  destruct (depositQueue s !! id) as [a|] eqn:Ea; [|done]. destruct (custodyDeposits s !! id) as [d|] eqn:Ed; [|done].
  simpl in H. destruct (custodyWallets s !! _); [|done]. destruct (sourceCustomers s !! _); [|done]. simpl in H.
  destruct (_ && _) eqn:G in H; [|done]. injection H as <-. simpl. rewrite !andb_true_iff in G.
  destruct G as [[[G _] _] _]. apply String.eqb_eq in G. done.
Qed.

(** The tables a posting leaves alone until its last statements. *)
Definition keeps_queues (s s' : Db) : Prop :=
  s'.(depositQueue) = s.(depositQueue) ∧ s'.(transfers) = s.(transfers) ∧ s'.(custodyDeposits) = s.(custodyDeposits).

Section posting.
Context {DO : DecimalOps} {DL : DecimalLaws DO} {JD : JsDates} (env : ProcessEnv).

(** The text of the deposit is a decimal of at most six places, below 10^17 minor units. *)
Definition deposit_exact (d : CregisDeposit) : Prop := exact6 d.(cd_amount_text).

Lemma deposit_amount_ok d amt :
  deposit_exact d → deposit_amount d = Some amt → d_units 8 amt = Some (d_total d).
Proof.
  intros Hex H. unfold deposit_amount in H. destruct (d_parse (cd_amount_text d)) as [a|] eqn:Pa; [|done]. simpl in H.
  destruct (Hex a Pa) as (z&Hz&Hb). destruct (_ || _) eqn:E; [done|]. injection H as <-.
  apply orb_false_iff in E as [_ Hm]. by destruct (minor_agrees _ _ _ Hz Hb Hm).
Qed.

Lemma validateCustodyRow_ok row s u s' :
  validateCustodyRow env row s = inr (u, s') →
  s' = s ∧ opt_truthy row.(dw_custody).(cd_txid) = true ∧ row.(dw_custody).(cd_status) = "completed".
Proof.
  unfold validateCustodyRow. intros H.
  do 2 (apply bind_ok in H as (?&?&[_ ->]%throw_if_ok&H)). apply bind_ok in H as (?&?&[He ->]%throw_if_ok&H).
  apply bind_ok in H as (?&?&[_ ->]%throw_if_ok&H). apply throw_if_ok in H as [_ ->].
  rewrite !orb_false_iff, !negb_false_iff, String.eqb_eq in He. tauto.
Qed.

(** The platform's account for customers' USDT. *)
Definition usdt_clearing (cl : string) (s : Db) : Prop :=
  ∃ a, s.(accounts) !! cl = Some a ∧ a.(acc_kind) = PLATFORM_CLEARING ∧ a.(acc_currency) = USDT ∧ a.(acc_status) = AS_ACTIVE.
Lemma clearing_system cl s : usdt_clearing cl s → system_account s cl = true.
Proof. intros (a&Ha&Hk&_). unfold system_account. by rewrite Ha, Hk. Qed.

(** An account or a wallet already there: the customer's, and bound to the
    address of the deposit unless, for an account, it is not bound yet. *)
Definition binds (customerId address : string) (a : Account) : Prop :=
  custody_account customerId address (set_acc_walletAddress (or_string a.(acc_walletAddress) (Some address)) a).

Lemma deposit_parties_ok row s acc wal cl s' :
  deposit_parties env row s = inr ((acc, wal, cl), s') →
  s' = s ∧ usdt_clearing cl s ∧
  (∀ ka, acc = Some ka → s.(accounts) !! ka.1 = Some ka.2 ∧
     binds row.(dw_queue).(da_customer_id) row.(dw_custody).(cd_address) ka.2) ∧
  (∀ kw, wal = Some kw → s.(wallets) !! kw.1 = Some kw.2 ∧
     custody_wallet row.(dw_queue).(da_customer_id) row.(dw_custody).(cd_address) kw.2).
Proof.
  unfold deposit_parties. intros H. do 5 (apply bind_ok in H as (?&?&[-> ->]%gets_ok&H)).
  do 3 (apply bind_ok in H as (_&?&[_ ->]%throw_if_ok&H)). apply bind_ok in H as (_&?&[Hact ->]%throw_if_ok&H).
  apply bind_ok in H as (_&?&[Hbound ->]%throw_if_ok&H). apply bind_ok in H as (c&?&Hc&H).
  destruct (find_many (is_book_account PLATFORM_CLEARING) _) as [|[ck ca] [|? ?]] eqn:Ec; try by apply throw_ok in Hc.
  apply ret_ok in Hc as [-> ->]. apply bind_ok in H as (_&?&[Hwal ->]%throw_if_ok&H). apply ret_ok in H as [[= -> -> ->] ->].
  split; [done|]. split; [|split].
  - assert ((ck, ca) ∈ find_many (is_book_account PLATFORM_CLEARING) s.(accounts)) as [Hk Hp]%find_many_elem by (rewrite Ec; by left).
    exists ca. unfold is_book_account in Hp. simpl in *. rewrite !andb_true_iff, !same_true in Hp. tauto.
  - intros [k a] Hka. destruct (find_many (is_usdt_account_of row.(dw_queue).(da_customer_id)) s.(accounts)) as [|[k' a'] l] eqn:E; [done|].
    simpl in Hka. injection Hka as -> ->.
    assert ((k, a) ∈ find_many (is_usdt_account_of row.(dw_queue).(da_customer_id)) s.(accounts)) as [? Hp]%find_many_elem
      by (rewrite E; by left).
    split; [done|]. unfold is_usdt_account_of in Hp. simpl in *. rewrite !andb_true_iff, !opt_eqb_true, !same_true in Hp.
    rewrite differs_false in Hact. unfold binds, custody_account, or_string. simpl.
    destruct (opt_truthy a.(acc_walletAddress)) eqn:Et; [|tauto]. simpl in Hbound. rewrite differs_false in Hbound. tauto.
  - intros [k w] Hw. rewrite Hw in Hwal. apply find_first_Some in Hw as [? Hp]. split; [done|].
    unfold is_usdt_wallet_of in Hp. simpl in *. rewrite orb_false_iff, negb_false_iff, differs_false, String.eqb_eq in Hwal.
    rewrite !andb_true_iff, !same_true, String.eqb_eq in Hp. unfold custody_wallet. tauto.
Qed.

Lemma ensure_account_ok ids row found s ka s' :
  (∀ ka, found = Some ka → s.(accounts) !! ka.1 = Some ka.2 ∧
     binds row.(dw_queue).(da_customer_id) row.(dw_custody).(cd_address) ka.2) →
  ensure_account ids row found s = inr (ka, s') →
  beside s s' ∧ s'.(accounts) !! ka.1 = Some ka.2 ∧ s'.(wallets) = s.(wallets) ∧ keeps_queues s s' ∧
  binds row.(dw_queue).(da_customer_id) row.(dw_custody).(cd_address) ka.2 ∧
  (∀ cl, usdt_clearing cl s ↔ usdt_clearing cl s').
Proof.
  intros Hf H. destruct found as [k|]; simpl in H.
  - apply ret_ok in H as [-> ->]. by destruct (Hf k eq_refl).
  - apply bind_ok in H as (?&?&(Hn&_&->&_)%create_row_ok&[-> ->]%ret_ok). split_and!; try done.
    + by apply beside_new_account.
    + apply lookup_insert_eq.
    + simpl. unfold binds, or_string. simpl. by destruct (truthy _).
    + intros cl. unfold usdt_clearing. simpl. split; intros (a&Ha&Hk&?).
      * exists a. rewrite lookup_insert_ne by congruence. done.
      * destruct (decide (cl = ids.(di_account))) as [->|Hne].
        -- rewrite lookup_insert_eq in Ha. injection Ha as <-. discriminate Hk.
        -- rewrite lookup_insert_ne in Ha by done. by exists a.
Qed.

Lemma ensure_wallet_ok ids row found s kw s' :
  (∀ kw, found = Some kw → s.(wallets) !! kw.1 = Some kw.2 ∧
     custody_wallet row.(dw_queue).(da_customer_id) row.(dw_custody).(cd_address) kw.2) →
  ensure_wallet ids row found s = inr (kw, s') →
  beside s s' ∧ s'.(accounts) = s.(accounts) ∧ s'.(wallets) !! kw.1 = Some kw.2 ∧ keeps_queues s s' ∧
  kw.2.(wal_availableBalance) = from_option wal_availableBalance 0 (s.(wallets) !! kw.1) ∧
  kw.2.(wal_frozenBalance) = from_option wal_frozenBalance 0 (s.(wallets) !! kw.1) ∧
  custody_wallet row.(dw_queue).(da_customer_id) row.(dw_custody).(cd_address) kw.2 ∧
  ∀ k, k ≠ kw.1 → s'.(wallets) !! k = s.(wallets) !! k.
Proof.
  intros Hf H. destruct found as [k|]; simpl in H.
  - apply ret_ok in H as [-> ->]. destruct (Hf k eq_refl) as [Hk ?]. rewrite Hk. done.
  - apply bind_ok in H as (?&?&(Hn&_&->&_)%create_row_ok&[-> ->]%ret_ok). simpl. rewrite Hn. split_and!; try done.
    + apply lookup_insert_eq.
    + intros k Hne. by rewrite lookup_insert_ne.
Qed.

(** The credit of the account, its address filled in when it had none. *)
Lemma credit_account_ok id amt x addr a s a' s' :
  d_units 8 amt = Some x → s.(accounts) !! id = Some a →
  account_update id (λ a, set_acc_walletAddress addr (acc_credit amt a)) s = inr (a', s') →
  ∃ s1, beside s s1 ∧ acct_moved id x 0 s1 s' ∧
    s' = set_accounts (<[id := set_acc_walletAddress addr (acc_credit amt a)]> s.(accounts)) s.
Proof.
  intros Hx Ha (b&Hb&_&[Hp Hq]%account_check_nonneg&->)%update_row_ok. rewrite Ha in Hb. injection Hb as <-.
  exists (set_accounts (<[id := set_acc_walletAddress addr a]> s.(accounts)) s). split; [|split]; simpl.
  - split_and!; [done..| | |]; intros i; unfold available_of, frozen_of, system_account; simpl;
      (destruct (decide (i = id)) as [->|]; [by rewrite lookup_insert_eq, Ha|by rewrite lookup_insert_ne]).
  - exists (set_acc_walletAddress addr a), (set_acc_walletAddress addr (acc_credit amt a)). simpl in *.
    rewrite lookup_insert_eq, insert_insert_eq. rewrite (n8_add_units _ _ _ Hx) in *. split_and!; done || lia.
  - done.
Qed.

(** What a posting does: account [acct] and wallet [wid], which are those of the
    customer for the address, are credited by [x] against the clearing account. *)
Record deposited (id customerId address acct wid opId : string) (x : Z) (o : Operation) (s s' : Db) : Prop := {
  dp_positive : 0 < x;
  dp_available : ∀ i, available_of s' i = available_of s i + at_ acct x i;
  dp_frozen : ∀ i, frozen_of s' i = frozen_of s i;
  dp_position : ∀ i, system_account s i = false → position_of s' i = position_of s i + at_ acct x i;
  dp_system : ∀ i, system_account s' i = system_account s i;
  dp_balanced : journal_balanced s → journal_balanced s';
  dp_operations : s.(operations) !! opId = None ∧ s'.(operations) = <[opId := o]> s.(operations);
  dp_queue : ∃ q, s'.(depositQueue) !! id = Some q ∧ q.(da_status) = "posted" ∧ q.(da_core_operation_id) = Some opId;
  dp_wallet : from_option wal_availableBalance 0 (s'.(wallets) !! wid) =
              from_option wal_availableBalance 0 (s.(wallets) !! wid) + x ∧
              from_option wal_frozenBalance 0 (s'.(wallets) !! wid) = from_option wal_frozenBalance 0 (s.(wallets) !! wid);
  dp_others : ∀ k, k ≠ wid → s'.(wallets) !! k = s.(wallets) !! k;
  dp_parties : custody_parties customerId address acct wid s';
  dp_journal : ∃ e cl, s'.(journal) = s.(journal) ++ [e] ∧ e.(entry_lines) = pair_lines cl acct USDT x ∧
               usdt_clearing cl s;
}.

Lemma post_deposit_ok now ids row ka kw cl amt x at_time s u s' :
  d_units 8 amt = Some x → s.(accounts) !! ka.1 = Some ka.2 → s.(wallets) !! kw.1 = Some kw.2 →
  usdt_clearing cl s → binds row.(dw_queue).(da_customer_id) row.(dw_custody).(cd_address) ka.2 →
  custody_wallet row.(dw_queue).(da_customer_id) row.(dw_custody).(cd_address) kw.2 →
  post_deposit env now ids row ka kw cl amt at_time s = inr (u, s') →
  deposited row.(dw_id) row.(dw_queue).(da_customer_id) row.(dw_custody).(cd_address) ka.1 kw.1 ids.(di_operation) x
    (deposit_operation env now row ids.(di_transfer) ka.1 x at_time) s s' ∧
  ∀ k o, s.(operations) !! k = Some o → deposit_stands_for row o = false.
Proof.
  intros Hx Ha Hw Hclear Hba Hbw H. pose proof (clearing_system _ _ Hclear) as Hcl. unfold post_deposit in H.
  apply bind_ok in H as (dup&?&[-> ->]%gets_ok&H). apply bind_ok in H as (?&?&[Hdup ->]%throw_if_ok&H).
  apply bind_ok in H as (z&?&[-> ->]%(store8_ok _ _ _ _ _ Hx)&H).
  apply bind_ok in H as (?&?&(_&Hpos&->&_)%create_row_ok&H). apply bind_ok in H as (?&?&(Hon&_&->&_)%create_row_ok&H).
  simpl in Hon. set (sT := set_operations _ _) in H.
  apply bind_ok in H as (a'&s1&Hau&H). assert (sT.(accounts) !! ka.1 = Some ka.2) as HaT by exact Ha.
  destruct (credit_account_ok _ _ _ _ _ _ _ _ Hx HaT Hau) as (s0&(HO0&HJ0&HA0&HF0&HS0)&Hm&Hs1).
  apply bind_ok in H as (w'&s2&Hwu&H). apply update_row_ok in Hwu as (w0&Hw0&_&_&Hs2).
  assert (w0 = kw.2) as -> by (rewrite Hs1 in Hw0; simpl in Hw0; rewrite Hw in Hw0; by injection Hw0).
  apply bind_ok in H as (u1&s3&Hp&H). apply (create_entry_pair _ _ _ _ _ _ _ _ _ _ _ Hx) in Hp.
  apply bind_ok in H as (n&s4&Hup&H). apply throw_if_ok in H as [Hn ->].
  apply update_many_id_ok in Hup as [(_&a0&_&_&_&->)|(->&_)]; [|by apply (proj1 (differs_false _ _)) in Hn].
  assert (effect nothing nothing nothing s1 s2) as E2 by (apply wallets_only_effect; eexists; exact Hs2).
  pose proof (effect_trans _ _ _ _ _ _ _ _ _ (acct_moved_effect _ _ _ _ _ Hm)
    (effect_trans _ _ _ _ _ _ _ _ _ E2 (pair_posted_effect _ _ _ _ _ _ Hp))) as E.
  split.
  2: { intros k o Ho. destruct (find_first _ _) eqn:F in Hdup; [done|]. exact (find_first_None _ _ _ _ F Ho). }
  split; simpl.
  - unfold transfer_check in Hpos. simpl in Hpos. rewrite !andb_true_iff, !Z.ltb_lt in Hpos. lia.
  - intros i. pose proof (eff_available _ _ _ _ _ E i) as A. rewrite HA0 in A. unfold available_of, nothing in *. simpl in *. lia.
  - intros i. pose proof (eff_frozen _ _ _ _ _ E i) as F. rewrite HF0 in F. unfold frozen_of, nothing, at_ in *. simpl in *.
    destruct (String.eqb i ka.1); lia.
  - intros i Hi. pose proof (eff_position _ _ _ _ _ E i) as P. rewrite HS0 in P. specialize (P Hi).
    unfold position_of, nothing in *. simpl in *. rewrite HJ0 in P. simpl in P. rewrite P.
    rewrite (at_system _ _ _ _ Hcl Hi). lia.
  - intros i. pose proof (eff_system _ _ _ _ _ E i) as S. rewrite HS0 in S. exact S.
  - intros Hb. apply (eff_balanced _ _ _ _ _ E). unfold journal_balanced in *. rewrite HJ0. exact Hb.
  - destruct (eff_frame _ _ _ _ _ E) as (A&W&J&->). simpl. by rewrite HO0.
  - eexists. split; [apply lookup_insert_eq|]. done.
  - destruct (posted_rest _ _ _ Hp) as (_&_&->&_). rewrite Hs2. simpl. rewrite lookup_insert_eq, Hw. simpl.
    by rewrite (n8_add_units _ _ _ Hx).
  - intros k Hne. destruct (posted_rest _ _ _ Hp) as (_&_&->&_). rewrite Hs2. simpl. rewrite lookup_insert_ne by done.
    by rewrite Hs1.
  - destruct (posted_rest _ _ _ Hp) as (HaP&_&HwP&_). split; simpl.
    + rewrite HaP, Hs2. simpl. rewrite Hs1. simpl. rewrite lookup_insert_eq. eexists. split; [done|exact Hba].
    + rewrite HwP, Hs2. simpl. rewrite lookup_insert_eq. eexists. split; [done|exact Hbw].
  - destruct Hp as (e&He&_&->). exists e, cl. simpl. rewrite Hs2. simpl. rewrite Hs1. done.
Qed.

Lemma postOnce_ok now ids id d s s' :
  s.(custodyDeposits) !! id = Some d → deposit_exact d → postOnce env now ids id s = inr (true, s') →
  ∃ q acct wid o, s.(depositQueue) !! id = Some q ∧
    deposited id q.(da_customer_id) d.(cd_address) acct wid ids.(di_operation) (d_total d) o s s' ∧
    o.(op_customerId) = q.(da_customer_id) ∧ o.(op_targetAccountId) = Some acct ∧
    o.(op_type) = DEPOSIT ∧ o.(op_status) = COMPLETED ∧ o.(op_currency) = USDT ∧ o.(op_amount) = d_total d ∧
    o.(op_externalReference) = d.(cd_txid) ∧ opt_truthy d.(cd_txid) = true ∧ o.(op_feeAmount) = 0 ∧
    ∀ k p, s.(operations) !! k = Some p → p.(op_type) = DEPOSIT → p.(op_currency) = USDT → p.(op_externalReference) ≠ d.(cd_txid).
Proof.
  intros Hd Hex H. unfold postOnce in H. apply bind_ok in H as (f&?&[-> ->]%gets_ok&H).
  destruct (deposit_row s id) as [row|] eqn:Er; [|by apply ret_ok in H as [? _]].
  apply deposit_row_ok in Er as (Hid&Hq&Hst&Hd'). rewrite Hd in Hd'. injection Hd' as Hd'.
  apply bind_ok in H as (?&?&(->&Htx&_)%validateCustodyRow_ok&H).
  apply bind_ok in H as ([[acc wal] cl]&?&(->&Hcl&Hacc&Hwal)%deposit_parties_ok&H).
  apply bind_ok in H as (amt&?&[Ham ->]%require_ok&H). subst d. apply (deposit_amount_ok _ _ Hex) in Ham.
  apply bind_ok in H as (t&?&[_ ->]%require_ok&H).
  apply bind_ok in H as (ka&s1&(B1&Ha&HW1&(HQ1&_)&Hba&Hcl1)%(ensure_account_ok _ _ _ _ _ _ Hacc)&H).
  apply bind_ok in H as (kw&s2&Hew&H). apply ensure_wallet_ok in Hew as (B2&HA2&Hw&(HQ2&_)&Hav&Hfr&Hbw&Hothers).
  2: { intros k0 Hk0. rewrite HW1. by apply Hwal. }
  apply bind_ok in H as (u&s3&Hp&H). apply ret_ok in H as [_ ->].
  pose proof (beside_trans _ _ _ B1 B2) as (HO&HJ&HA&HF&HS).
  apply (post_deposit_ok _ _ _ _ _ _ _ _ _ _ _ _ Ham) in Hp as [[X A F P S B O Q W Oth Par J] Hdup];
    [|by rewrite HA2|done|unfold usdt_clearing; rewrite HA2; by apply Hcl1|done|done].
  rewrite Hid in Q. exists row.(dw_queue), ka.1, kw.1. eexists. split; [done|]. split.
  - split.
    + exact X.
    + intros i. rewrite A, HA. done.
    + intros i. by rewrite F, HF.
    + intros i Hi. rewrite P by (by rewrite HS). unfold position_of. by rewrite HJ.
    + intros i. by rewrite S, HS.
    + unfold journal_balanced in *. rewrite <- HJ. exact B.
    + rewrite <- HO. exact O.
    + exact Q.
    + destruct W as [W1 W2]. rewrite W1, W2, Hw. simpl. by rewrite Hav, Hfr, HW1.
    + intros k Hne. by rewrite (Oth k Hne), (Hothers k Hne), HW1.
    + exact Par.
    + destruct J as (e&cl'&HJe&He&Hc). exists e, cl'. rewrite <- HJ. split_and!; [done|done|].
      apply Hcl1. unfold usdt_clearing in *. by rewrite <- HA2.
  - simpl. split_and!; try done. intros k p Hkp Hty Hcu He. rewrite <- HO in Hkp. specialize (Hdup k p Hkp).
    unfold deposit_stands_for in Hdup. rewrite Hty, Hcu, He in Hdup.
    rewrite (proj2 (opt_eqb_true _ _) eq_refl), orb_true_r in Hdup. simpl in Hdup. by rewrite orb_true_r in Hdup.
Qed.

(** C16: a posted deposit credits exactly its amount to its customer: the customer of
    the queue row has, after it, an active USDT account and an active USDT wallet
    on TRON bound to the address of the deposit, new ones when there were none,
    and both have gone up by the amount of the custody row; the journal has one
    entry more, which debits the platform's USDT clearing account and credits that
    account; nothing is frozen, no other customer account and no other wallet
    changes, no balance becomes unexplained and the books stay balanced.  The
    completed operation names the customer, the account, the amount and the
    transaction. *)
Theorem deposit_credited now ids id d s s' :
  s.(custodyDeposits) !! id = Some d → deposit_exact d → postOnce env now ids id s = inr (true, s') →
  0 < d_total d ∧ conserves s s' ∧ (frozen_backed s → frozen_backed s') ∧
  ∃ q acct wid o, s.(depositQueue) !! id = Some q ∧
    custody_parties q.(da_customer_id) d.(cd_address) acct wid s' ∧
    (∀ i, available_of s' i = available_of s i + at_ acct (d_total d) i ∧ frozen_of s' i = frozen_of s i ∧
       (system_account s i = false → position_of s' i = position_of s i + at_ acct (d_total d) i)) ∧
    (from_option wal_availableBalance 0 (s'.(wallets) !! wid) =
       from_option wal_availableBalance 0 (s.(wallets) !! wid) + d_total d ∧
     from_option wal_frozenBalance 0 (s'.(wallets) !! wid) = from_option wal_frozenBalance 0 (s.(wallets) !! wid)) ∧
    (∀ k, k ≠ wid → s'.(wallets) !! k = s.(wallets) !! k) ∧
    (∃ e cl, s'.(journal) = s.(journal) ++ [e] ∧ e.(entry_lines) = pair_lines cl acct USDT (d_total d) ∧ usdt_clearing cl s) ∧
    s'.(operations) = <[ids.(di_operation) := o]> s.(operations) ∧ o.(op_type) = DEPOSIT ∧ o.(op_status) = COMPLETED ∧
    o.(op_customerId) = q.(da_customer_id) ∧ o.(op_targetAccountId) = Some acct ∧
    o.(op_amount) = d_total d ∧ o.(op_externalReference) = d.(cd_txid) ∧
    ∃ q', s'.(depositQueue) !! id = Some q' ∧ q'.(da_status) = "posted".
Proof.
  intros Hd Hex H.
  destruct (postOnce_ok _ _ _ _ _ _ Hd Hex H)
    as (q&acct&wid&o&Hq&[X A F P S B [On O] (q'&Hq'&Hqs&_) W Oth Par J]&Hcust&Htgt&Hty&Hst&_&Ham&Hext&_&Hfee&_).
  split; [exact X|]. split; [|split].
  - split_and!; [exact S| |exact B]. intros i Hi. unfold drift, total_of. rewrite A, F, (P i Hi). lia.
  - intros Hb i. rewrite F, (Hb i). unfold held. rewrite O, sum_map_insert_fresh by done.
    rewrite (reservation_zero i o); [lia|]. unfold holds. rewrite Hst, Hty. vm_compute. done.
  - exists q, acct, wid, o. split_and!; try done; [auto|apply W|apply W|by exists q'].
Qed.

(** C17: a deposit is credited once.  After it is posted, its own row is never posted
    again, and in no later state that still has its operation is any custody
    deposit with the same transaction hash posted, whatever its queue row, its
    customer and the fresh ids. *)
Theorem deposit_never_twice now ids id d s s' :
  s.(custodyDeposits) !! id = Some d → deposit_exact d → postOnce env now ids id s = inr (true, s') →
  (∀ now2 ids2, postOnce env now2 ids2 id s' = inr (false, s')) ∧
  ∀ later now2 ids2 id2 d2 s2, later.(operations) !! ids.(di_operation) = s'.(operations) !! ids.(di_operation) →
    later.(custodyDeposits) !! id2 = Some d2 → deposit_exact d2 → d2.(cd_txid) = d.(cd_txid) →
    postOnce env now2 ids2 id2 later ≠ inr (true, s2).
Proof.
  intros Hd Hex H.
  destruct (postOnce_ok _ _ _ _ _ _ Hd Hex H) as (_&acct&wid&o&_&[_ _ _ _ _ _ [_ O] (q&Hq&Hqs&_) _ _ _ _]&_&_&Hty&_&Hcu&_&Hext&_).
  split.
  - intros now2 ids2. unfold postOnce. run gets_run.
    assert (deposit_row s' id = None) as ->; [|done]. unfold deposit_row. rewrite Hq. simpl.
    destruct (custodyDeposits s' !! id); [|done]. simpl. destruct (custodyWallets s' !! _); [|done]. simpl.
    destruct (sourceCustomers s' !! _); [|done]. simpl. unfold deposit_in. by rewrite Hqs.
  - intros later now2 ids2 id2 d2 s2 Hop Hd2 Hex2 Htx H2. rewrite O, lookup_insert_eq in Hop.
    destruct (postOnce_ok _ _ _ _ _ _ Hd2 Hex2 H2) as (_&_&_&o2&_&_&_&_&_&_&_&_&_&_&_&Hno).
    apply (Hno _ _ Hop Hty Hcu). by rewrite Hext.
Qed.
End posting.

(** ** Witnesses *)
Definition deposit_custody (txid cid : string) : CregisDeposit :=
  MkCregisDeposit "neobank" "cw" cid "195" "TR7NHqjeKQxGTCi8q8ZY4pL8otSzgjLj6t"
    "195@TR7NHqjeKQxGTCi8q8ZY4pL8otSzgjLj6t" sample_address (Some "sender") "12.5" 12500000 "completed" (Some txid)
    (to_iso now0) "hash".
Definition deposit_pending (st : string) : DepositAccounting :=
  MkDepositAccounting "neobank" "cus" st None None None None None 0 0 None None None None None 0.
(** Two callbacks of one transaction, both claimed; the customer has no wallet yet. *)
Definition db_deposit : Db :=
  MkDb db0.(users) db0.(customers)
    (<["usdt" := account0 (Some "cus") CRYPTO_WALLET USDT (Some "TRON") (units 50)]> db0.(accounts)) ∅
    db0.(beneficiaries) db0.(channels) db0.(rateVersions) ∅ ∅ db0.(journal) db0.(feeRules) ∅ [] ∅ ∅
    (list_to_map [("d1", deposit_pending "processing"); ("d2", deposit_pending "processing")]) ∅
    (list_to_map [("d1", deposit_custody "tx" "c1"); ("d2", deposit_custody "tx" "c2")])
    {[ "cw" := MkCregisWallet "neobank" "cus" sample_address "active" (Some "cregis") (Some "yes") ]}
    db0.(sourceCustomers) [] [].
Definition deposit_ids : DepositIds := {| di_account := "a1"; di_wallet := "w1"; di_transfer := "t1"; di_operation := "o1" |}.
Definition post_run : M Db bool := postOnce env0 now0 deposit_ids "d1".
Lemma deposit_custody_exact txid cid : deposit_exact (deposit_custody txid cid).
Proof. intros d H. vm_compute in H. injection H as <-. eexists. split; [vm_compute; reflexivity|done]. Qed.
Lemma post_run_ok : post_run db_deposit = inr (true, after post_run db_deposit).
Proof.
  assert (returns post_run id db_deposit = Some true) as R by runs. apply run_returns in R as (b&Hb&H).
  unfold id in Hb. subst b. exact H.
Qed.

Lemma deposit_credited_witness :
  0 < d_total (deposit_custody "tx" "c1") ∧
  ∃ acct wid, custody_parties "cus" sample_address acct wid (after post_run db_deposit) ∧
    ∀ i, available_of (after post_run db_deposit) i = available_of db_deposit i + at_ acct 1250000000 i ∧
    frozen_of (after post_run db_deposit) i = frozen_of db_deposit i.
Proof.
  pose proof post_run_ok as H. unfold post_run in H at 1.
  destruct (deposit_credited env0 now0 deposit_ids "d1" (deposit_custody "tx" "c1") db_deposit (after post_run db_deposit))
    as (Hp&_&_&q&acct&wid&o&Hq&Hpar&Hb&_).
  - runs.
  - apply deposit_custody_exact.
  - exact H.
  - assert (q.(da_customer_id) = "cus") as Hc.
    { assert (db_deposit.(depositQueue) !! "d1" = Some (deposit_pending "processing")) as E by runs.
      rewrite E in Hq. by injection Hq as <-. }
    rewrite Hc in Hpar. split; [exact Hp|]. exists acct, wid. split; [exact Hpar|].
    intros i. destruct (Hb i) as (HA&HF&_). split; [exact HA|exact HF].
Defined.

Lemma deposit_never_twice_witness :
  post_run db_deposit = inr (true, after post_run db_deposit) ∧
  ∀ now2 ids2 s2, postOnce env0 now2 ids2 "d2" (after post_run db_deposit) ≠ inr (true, s2).
Proof.
  pose proof post_run_ok as H. split; [exact H|]. unfold post_run in H at 1.
  destruct (deposit_never_twice env0 now0 deposit_ids "d1" (deposit_custody "tx" "c1") db_deposit (after post_run db_deposit))
    as (_&Hn).
  - runs.
  - apply deposit_custody_exact.
  - exact H.
  - intros now2 ids2 s2. apply (Hn _ now2 ids2 "d2" (deposit_custody "tx" "c2") s2 eq_refl);
      [runs|apply deposit_custody_exact|reflexivity].
Defined.

(** A wallet the posting creates does not take over the balance the mirror account already has. *)
Example created_wallet_unmirrored :
  available_of (after post_run db_deposit) "usdt" = units 50 + 1250000000 ∧
  (wal_availableBalance <$> (after post_run db_deposit).(wallets) !! "w1") = Some 1250000000.
Proof. split; runs. Qed.
