(* ===== verification/Reconciliation.v ===== *)
(** The reconciliation of historical custody movements, by hand and with an
    approval: the policy ([server/src/deposit-accounting/withdrawal-reconciliation-policy.ts])
    and the two command line tools that hold and release a movement
    ([withdrawal-reconciliation.ts], [deposit-reconciliation.ts]). *)
From stdpp Require Import sorting.
From S2P Require Import Prelude Decimals Schema Access Ledger WithdrawalFees Operations TronAddress CryptoWallets Customers WithdrawalWorker DepositWorker.
From Stdlib Require Import Ascii.
#[local] Open Scope Z_scope.

Definition CREGIS_USDT_TRC20_CURRENCY : string := "195@TR7NHqjeKQxGTCi8q8ZY4pL8otSzgjLj6t".

(** ** Arguments and approvals *)

(** [process.env], whose variables are looked up by name. *)
Definition Environment : Type := string → option string.

Inductive ReconciliationAction := Preview | Hold | Release.

Definition required (env : Environment) (name : string) : exn + string :=
  let value := default "" (trim <$> env name) in
  if truthy value then inr value else inl (PlainError (name +:+ " is required")).

(** [/^[A-Za-z0-9_-]{1,128}$/] *)
Definition is_id_char (c : ascii) : bool :=
  let n := nat_of_ascii c in
  (Nat.leb 48 n && Nat.leb n 57) || (Nat.leb 65 n && Nat.leb n 90) || (Nat.leb 97 n && Nat.leb n 122) ||
  Nat.eqb n 95 || Nat.eqb n 45.
Definition safe_identifier (s : string) : bool :=
  all_chars is_id_char s && Nat.leb 1 (String.length s) && Nat.leb (String.length s) 128.

(** [args.indexOf(flag)] and the argument after it: [None] when the flag is
    absent, [Some None] when nothing follows it. *)
Fixpoint argument_after (flag : string) (args : list string) : option (option string) :=
  match args with
  | [] => None
  | arg :: rest => if String.eqb arg flag then Some (head rest) else argument_after flag rest
  end.

(** [parseWithdrawalReconciliationArguments], and [parseArguments] of the
    deposit tool, which is the same for another [flag]. *)
Definition parse_arguments (usage flag : string) (args : list string) :
    exn + (ReconciliationAction * option string) :=
  let name := match head args with Some a => if truthy a then a else "preview" | None => "preview" end in
  match match name with
        | "preview" => Some Preview | "hold" => Some Hold | "release" => Some Release | _ => None
        end with
  | None => inl (PlainError usage)
  | Some action =>
      let id := match argument_after flag args with Some (Some v) => Some (trim v) | _ => None end in
      if is_some (argument_after flag args) && negb (match id with Some v => safe_identifier v | None => false end)
      then inl (PlainError (flag +:+ " must be one exact safe identifier"))
      else match action, id with
           | Preview, _ => inr (action, id)
           | _, None => inl (PlainError (name +:+ " requires " +:+ flag))
           | _, Some _ => inr (action, id)
           end
  end.
Definition parseWithdrawalReconciliationArguments : list string → exn + (ReconciliationAction * option string) :=
  parse_arguments "usage: withdrawal:reconcile [preview|hold|release] [--withdrawal-id ID]" "--withdrawal-id".
Definition parseDepositArguments : list string → exn + (ReconciliationAction * option string) :=
  parse_arguments "usage: deposit:reconcile [preview|hold|release] [--deposit-id ID]" "--deposit-id".

Record Approval := {
  ap_by : string;
  ap_reason : string;
  ap_backup : string;
}.

(** [/^[a-f0-9]{64}$/] *)
Definition is_lower_hex (c : ascii) : bool :=
  let n := nat_of_ascii c in (Nat.leb 48 n && Nat.leb n 57) || (Nat.leb 97 n && Nat.leb n 102).
Definition sha256_text (s : string) : bool := all_chars is_lower_hex s && Nat.eqb (String.length s) 64.

Definition env_is_true (env : Environment) (name : string) : bool := opt_eqb (env name) (Some "true").

(** [const approvedBy = required(..); const reason = required(..)] and the
    check on their lengths. *)
Definition approval_identity (env : Environment) (byName reasonName backup : string) : exn + Approval :=
  match required env byName, required env reasonName with
  | inl e, _ => inl e
  | inr _, inl e => inl e
  | inr approvedBy, inr reason =>
      if Nat.ltb (String.length approvedBy) 3 || Nat.ltb (String.length reason) 10
      then inl (PlainError "reconciliation approval identity or reason is too short")
      else inr {| ap_by := approvedBy; ap_reason := reason; ap_backup := backup |}
  end.

Definition withdrawalReconciliationApproval (env : Environment) (requireReleaseApproval : bool) : exn + Approval :=
  if negb (env_is_true env "WITHDRAWAL_RECONCILIATION_APPROVED")
  then inl (PlainError "WITHDRAWAL_RECONCILIATION_APPROVED=true is required") else
  if negb (env_is_true env "POSTGRES_RESTORE_TESTED")
  then inl (PlainError "POSTGRES_RESTORE_TESTED=true is required") else
  if requireReleaseApproval && negb (env_is_true env "WITHDRAWAL_RECONCILIATION_RELEASE_APPROVED")
  then inl (PlainError "WITHDRAWAL_RECONCILIATION_RELEASE_APPROVED=true is required") else
  match required env "POSTGRES_BACKUP_SHA256" with
  | inl e => inl e
  | inr checksum =>
      let backupSha256 := toLowerCase checksum in
      if negb (sha256_text backupSha256) then inl (PlainError "POSTGRES_BACKUP_SHA256 must be a SHA-256 checksum")
      else approval_identity env "WITHDRAWAL_RECONCILIATION_APPROVED_BY" "WITHDRAWAL_RECONCILIATION_REASON" backupSha256
  end.

(** [approvedMutation] of the deposit tool *)
Definition approvedMutation (env : Environment) : exn + Approval :=
  if negb (env_is_true env "DEPOSIT_RECONCILIATION_APPROVED")
  then inl (PlainError "DEPOSIT_RECONCILIATION_APPROVED=true is required") else
  if negb (env_is_true env "POSTGRES_RESTORE_TESTED")
  then inl (PlainError "POSTGRES_RESTORE_TESTED=true is required") else
  match required env "POSTGRES_BACKUP_SHA256" with
  | inl e => inl e
  | inr checksum =>
      if negb (hex_string 64 checksum) then inl (PlainError "POSTGRES_BACKUP_SHA256 must be a SHA-256 checksum")
      else approval_identity env "DEPOSIT_RECONCILIATION_APPROVED_BY" "DEPOSIT_RECONCILIATION_REASON"
             (toLowerCase checksum)
  end.

(** An outcome in the transaction's monad. *)
Definition lift {A} (r : exn + A) : M Db A := match r with inl e => throw e | inr a => ret a end.

(** ** The policy *)

(** A row of [candidates]. *)
Record WithdrawalReconciliationCandidate := {
  rc_id : string;
  rc_custody : CregisWithdrawal;
  rc_wallet : CregisWallet;
  rc_accounting : option WithdrawalAccounting;
  rc_callback_rejected : bool;
  rc_callback_failed : bool;
  rc_callback_completed : bool;
}.
(** A row of [coreMatches]: an operation with the rows it is joined to. *)
Record WithdrawalCoreMatch := {
  cm_operation_id : string;
  cm_operation : Operation;
  cm_transfer : option (string * CryptoTransfer);
  cm_account : option (string * Account);
  cm_wallet : option (string * CryptoWallet);
  cm_journal_count : nat;
}.

Definition withdrawalTerminalResolution (c : WithdrawalReconciliationCandidate) : exn + string :=
  if c.(rc_callback_completed) then inl (PlainError "completed Cregis callback blocks release") else
  if Bool.eqb c.(rc_callback_rejected) c.(rc_callback_failed)
  then inl (PlainError "one unambiguous rejected or failed Cregis callback is required")
  else inr (if c.(rc_callback_rejected) then "rejected" else "failed").

(** [status::text] of the two enumerations that are compared as texts. *)
Definition operation_status_text (st : OperationStatus) : string :=
  match st with
  | DRAFT => "DRAFT" | SUBMITTED => "SUBMITTED" | APPROVED => "APPROVED" | REJECTED => "REJECTED"
  | PROCESSING => "PROCESSING" | COMPLETED => "COMPLETED" | FAILED => "FAILED" | CANCELLED => "CANCELLED"
  end.
Definition transfer_status_text (st : CryptoTransferStatus) : string :=
  match st with
  | TS_SUBMITTED => "SUBMITTED" | TS_PROCESSING => "PROCESSING" | TS_COMPLETED => "COMPLETED"
  | TS_REJECTED => "REJECTED" | TS_FAILED => "FAILED"
  end.

Section policy.
Context {DO : DecimalOps}.

(** [requireDecimalEqual]: [actual] is a column, [expected] a text of the
    custody row. *)
Definition requireDecimalEqual (actual : Z) (expected name : string) : exn + unit :=
  match d_parse expected with
  | None => inl DecimalError
  | Some d => if d_eq (n8_of actual) d then inr tt
              else inl (PlainError (name +:+ " does not match the custody withdrawal"))
  end.

(** Checks in the order of the code: the first that fails throws. *)
Fixpoint first_error (checks : list (exn + unit)) : exn + unit :=
  match checks with
  | [] => inr tt
  | inl e :: _ => inl e
  | inr _ :: rest => first_error rest
  end.
Definition reject_if (b : bool) (message : string) : exn + unit := if b then inl (PlainError message) else inr tt.

(** The identity of a linked operation and its transfer. *)
Definition core_identity_differs (c : WithdrawalReconciliationCandidate) (m : WithdrawalCoreMatch)
    (transferId : string) (t : CryptoTransfer) : bool :=
  let o := m.(cm_operation) in
  let customer := c.(rc_custody).(cx_customer_id) in
  negb (truthy transferId) || negb (String.eqb m.(cm_operation_id) transferId) ||
  negb (String.eqb o.(op_customerId) customer) || negb (String.eqb t.(tr_customerId) customer) ||
  differs o.(op_type) PAYOUT || differs o.(op_currency) USDT || differs t.(tr_asset) USDT ||
  differs t.(tr_network) TRON || differs t.(tr_direction) TD_WITHDRAWAL ||
  differs (json_str (json_get "custodyRail" o.(op_metadata))) (Some "CREGIS") ||
  differs (json_str (json_get "custodyWithdrawalId" o.(op_metadata))) (Some c.(rc_id)).

(** The binding of the operation's source account and the transfer's wallet. *)
Definition core_binding_differs (c : WithdrawalReconciliationCandidate) (m : WithdrawalCoreMatch)
    (t : CryptoTransfer) : bool :=
  let customer := c.(rc_custody).(cx_customer_id) in
  match m.(cm_account), m.(cm_wallet) with
  | Some (accountId, a), Some (walletId, w) =>
      negb (truthy accountId) || differs m.(cm_operation).(op_sourceAccountId) (Some accountId) ||
      differs a.(acc_customerId) (Some customer) || differs a.(acc_kind) CRYPTO_WALLET ||
      differs a.(acc_currency) USDT || differs a.(acc_network) (Some "TRON") ||
      differs a.(acc_walletAddress) (Some c.(rc_wallet).(cw_address)) ||
      negb (truthy walletId) || negb (String.eqb t.(tr_walletId) walletId) ||
      negb (String.eqb w.(wal_customerId) customer) || differs w.(wal_asset) USDT ||
      differs w.(wal_network) TRON || negb (String.eqb w.(wal_walletAddress) c.(rc_wallet).(cw_address))
  | _, _ => true
  end.

(** The balances behind the reservation. *)
Definition core_balances (amountText : string) (a : Account) (w : CryptoWallet) : exn + unit :=
  match d_parse amountText with
  | None => inl DecimalError
  | Some total =>
      first_error
        [reject_if (negb (d_eq (n8_of a.(acc_availableBalance)) (n8_of w.(wal_availableBalance))) ||
                    negb (d_eq (n8_of a.(acc_frozenBalance)) (n8_of w.(wal_frozenBalance))))
           "Core Account and CryptoWallet balances are not mirrored";
         reject_if (d_lt (n8_of a.(acc_frozenBalance)) total)
           "Core frozen balance is insufficient for the exact release"]
  end.

Definition validateCoreMatch (c : WithdrawalReconciliationCandidate) (m : WithdrawalCoreMatch) : exn + unit :=
  let o := m.(cm_operation) in
  let x := c.(rc_custody) in
  match m.(cm_transfer) with
  | None => inl (PlainError "Core withdrawal identity does not match custody evidence")
  | Some (transferId, t) =>
      first_error
        [reject_if (core_identity_differs c m transferId t) "Core withdrawal identity does not match custody evidence";
         reject_if (negb (String.eqb (operation_status_text o.(op_status)) (transfer_status_text t.(tr_status))) ||
                    negb (includes ["SUBMITTED"; "PROCESSING"] (operation_status_text o.(op_status))))
           "Core withdrawal is not in a releasable state";
         reject_if (opt_truthy o.(op_externalReference) || opt_truthy t.(tr_txHash))
           "Core transaction evidence blocks release";
         reject_if (negb (Nat.eqb m.(cm_journal_count) 0)) "an existing Core journal blocks release";
         requireDecimalEqual o.(op_amount) x.(cx_net_amount_text) "Core operation amount";
         requireDecimalEqual o.(op_feeAmount) x.(cx_fee_amount_text) "Core operation fee";
         requireDecimalEqual t.(tr_amount) x.(cx_amount_text) "Core transfer amount";
         requireDecimalEqual t.(tr_feeAmount) x.(cx_fee_amount_text) "Core transfer fee";
         requireDecimalEqual t.(tr_netAmount) x.(cx_net_amount_text) "Core transfer net";
         reject_if (negb (String.eqb t.(tr_fromAddress) x.(cx_from_address)) ||
                    negb (String.eqb t.(tr_toAddress) x.(cx_to_address)))
           "Core transfer address does not match custody evidence";
         reject_if (core_binding_differs c m t) "Core account or wallet binding does not match custody evidence";
         match m.(cm_account), m.(cm_wallet) with
         | Some (_, a), Some (_, w) => core_balances x.(cx_amount_text) a w
         | _, _ => inl (PlainError "Core account available balance is missing")
         end]
  end.

Record ReleaseDecision := {
  rd_resolution : string;
  rd_linked : bool;
  rd_operation : option string;
  rd_transfer : option string;
}.

Definition custody_evidence_incomplete (c : WithdrawalReconciliationCandidate) : bool :=
  let x := c.(rc_custody) in let w := c.(rc_wallet) in
  negb (opt_truthy x.(cx_cregis_cid)) || opt_truthy x.(cx_txid) || opt_truthy x.(cx_completed_at) ||
  negb (String.eqb x.(cx_currency) CREGIS_USDT_TRC20_CURRENCY) ||
  negb (String.eqb w.(cw_customer_id) x.(cx_customer_id)) || differs w.(cw_custody_provider) (Some "cregis") ||
  negb (opt_truthy w.(cw_ownership_verified_at)) || negb (String.eqb w.(cw_address) x.(cx_from_address)).

(** [value || null] *)
Definition or_null (value : option string) : option string := if opt_truthy value then value else None.

Definition validateHistoricalWithdrawalRelease (c : WithdrawalReconciliationCandidate)
    (coreMatches : list WithdrawalCoreMatch) : exn + ReleaseDecision :=
  match withdrawalTerminalResolution c with
  | inl e => inl e
  | inr resolution =>
      match first_error
        [reject_if (custody_evidence_incomplete c) "custody, wallet, or chain evidence is incomplete";
         reject_if (negb (includes ["exception"; "submitted_to_cregis"; resolution] c.(rc_custody).(cx_status)))
           "custody withdrawal is not in a reconcilable terminal state";
         reject_if (Nat.ltb 1 (length coreMatches)) "multiple Core withdrawal matches require exception review";
         match coreMatches with [m] => validateCoreMatch c m | _ => inr tt end] with
      | inl e => inl e
      | inr _ =>
          inr {| rd_resolution := resolution;
                 rd_linked := Nat.eqb (length coreMatches) 1;
                 rd_operation := or_null (cm_operation_id <$> head coreMatches);
                 rd_transfer := or_null (m ← head coreMatches; fst <$> m.(cm_transfer)) |}
      end
  end.

(** ** The withdrawal tool *)

(** The row of a withdrawal joined to its wallet and, when there is one, its
    accounting row. *)
Definition candidate_of (s : Db) (id : string) (x : CregisWithdrawal) : option WithdrawalReconciliationCandidate :=
  w ← s.(custodyWallets) !! x.(cx_wallet_id);
  if String.eqb w.(cw_tenant_id) x.(cx_tenant_id)
  then Some {| rc_id := id; rc_custody := x; rc_wallet := w;
               rc_accounting := (a ← s.(withdrawalQueue) !! id;
                                 if String.eqb a.(wa_tenant_id) x.(cx_tenant_id) then Some a else None);
               rc_callback_rejected := callback_seen x.(cx_cregis_cid) ["2"; "4"] s.(callbacks);
               rc_callback_failed := callback_seen x.(cx_cregis_cid) ["7"] s.(callbacks);
               rc_callback_completed := callback_seen x.(cx_cregis_cid) ["6"] s.(callbacks) |}
  else None.
(** [idFilter] *)
Definition candidate_wanted (withdrawalId : option string) (s : Db) (c : WithdrawalReconciliationCandidate) : bool :=
  match withdrawalId with
  | Some id => String.eqb c.(rc_id) id
  | None => is_none c.(rc_accounting) &&
            callback_seen c.(rc_custody).(cx_cregis_cid) ["2"; "4"; "7"] s.(callbacks)
  end.
(** [created]: the column [created_at] that orders the rows. *)
Definition created_order (created : string → Z) (a b : WithdrawalReconciliationCandidate) : Prop :=
  created a.(rc_id) ≤ created b.(rc_id).
#[global] Instance created_order_dec created : RelDecision (created_order created).
Proof. intros a b. unfold created_order. apply _. Defined.
Definition candidates (created : string → Z) (tenantId : string) (withdrawalId : option string) (s : Db) :
    list WithdrawalReconciliationCandidate :=
  take 100 (merge_sort (created_order created) (List.filter (candidate_wanted withdrawalId s)
    (omap (λ kx : string * CregisWithdrawal, candidate_of s kx.1 kx.2)
       (find_many (λ kx : string * CregisWithdrawal, String.eqb kx.2.(cx_tenant_id) tenantId) s.(custodyWithdrawals))))).

(** [coreMatches]: the operations that stand for the withdrawal.  More than
    one is refused whatever their order. *)
Definition core_match (s : Db) (ko : string * Operation) : WithdrawalCoreMatch :=
  let transferId := default ko.1 (json_str (json_get "cryptoTransferId" ko.2.(op_metadata))) in
  let transfer := (t ← s.(transfers) !! transferId; Some (transferId, t)) in
  {| cm_operation_id := ko.1;
     cm_operation := ko.2;
     cm_transfer := transfer;
     cm_account := (source ← ko.2.(op_sourceAccountId); a ← s.(accounts) !! source; Some (source, a));
     cm_wallet := (kt ← transfer; w ← s.(wallets) !! kt.2.(tr_walletId); Some (kt.2.(tr_walletId), w));
     cm_journal_count := length (List.filter (λ e, String.eqb e.(entry_operationId) ko.1) s.(journal)) |}.
Definition matches_withdrawal (c : WithdrawalReconciliationCandidate) (ko : string * Operation) : bool :=
  let tenant := c.(rc_custody).(cx_tenant_id) in
  String.eqb ko.2.(op_customerId) c.(rc_custody).(cx_customer_id) &&
  (opt_eqb (json_str (json_get "custodyWithdrawalId" ko.2.(op_metadata))) (Some c.(rc_id)) ||
   String.eqb ko.2.(op_reference) ("CREGIS-WD-" +:+ tenant +:+ "-" +:+ c.(rc_id)) ||
   opt_eqb ko.2.(op_idempotencyKey) (Some ("cregis-withdrawal:" +:+ tenant +:+ ":" +:+ c.(rc_id)))).
Definition coreMatches (c : WithdrawalReconciliationCandidate) (s : Db) : list WithdrawalCoreMatch :=
  map (core_match s) (find_many (matches_withdrawal c) s.(operations)).

Definition exactCandidate (created : string → Z) (tenantId withdrawalId : string) :
    M Db WithdrawalReconciliationCandidate :=
  let! rows := gets (candidates created tenantId (Some withdrawalId)) in
  match rows with
  | [row] => do! throw_if (negb (String.eqb row.(rc_id) withdrawalId)) (PlainError "exact historical withdrawal not found");
             ret row
  | _ => throw (PlainError "exact historical withdrawal not found")
  end.

(** [preview]: each candidate with the decision on it, or what blocks it. *)
Definition preview (created : string → Z) (tenantId : string) (withdrawalId : option string) (s : Db) :
    list (WithdrawalReconciliationCandidate * list WithdrawalCoreMatch * (exn + ReleaseDecision)) :=
  map (λ c, (c, coreMatches c s, validateHistoricalWithdrawalRelease c (coreMatches c s)))
    (candidates created tenantId withdrawalId s).

(** The CHECK of both queue tables on the provenance of a row that was
    enqueued by hand. *)
Definition manual_provenance (by_ reason backup : option string) (tested : option Z) : bool :=
  match by_, reason, backup with
  | Some b, Some r, Some sha => Nat.leb 3 (String.length (trim b)) && Nat.leb 10 (String.length (trim r)) &&
                                sha256_text sha && is_some tested
  | _, _, _ => false
  end.
(** [INSERT .. ON CONFLICT DO NOTHING]: the number of rows inserted. *)
Definition insert_ignore {V} (tbl : Db → gmap string V) (put : gmap string V → Db → Db) (ok : Db → V → bool)
    (name id : string) (v : V) : M Db Z := λ s,
  if negb (ok s v) then inl (DbFailure name)
  else if is_some (tbl s !! id) then inr (0, s) else inr (1, put (<[id := v]> (tbl s)) s).
(** [FOREIGN KEY (tenant_id, customer_id) REFERENCES customers] *)
Definition customer_exists (s : Db) (tenantId customerId : string) : bool :=
  match s.(sourceCustomers) !! customerId with Some c => String.eqb c.(sc_tenant_id) tenantId | None => false end.

Definition held_withdrawal (now : Z) (c : WithdrawalReconciliationCandidate) (ap : Approval) (rd : ReleaseDecision) :
    WithdrawalAccounting :=
  {| wa_tenant_id := c.(rc_custody).(cx_tenant_id);
     wa_customer_id := c.(rc_custody).(cx_customer_id);
     wa_status := "held";
     wa_enqueue_source := Some "manual_reconciliation";
     wa_enqueued_by := Some ap.(ap_by);
     wa_reconciliation_reason := Some ap.(ap_reason);
     wa_backup_sha256 := Some ap.(ap_backup);
     wa_restore_tested_at := Some now;
     wa_attempt_count := 0;
     wa_next_attempt_at := now;
     wa_locked_at := None;
     wa_core_operation_id := rd.(rd_operation);
     wa_core_transfer_id := rd.(rd_transfer);
     wa_reserved_at := None;
     wa_released_at := None;
     wa_posted_at := None;
     wa_last_error_code := None;
     wa_last_error_at := None;
     wa_created_at := now |}.

(** [hold] *)
Definition hold (env : Environment) (created : string → Z) (now : Z) (tenantId withdrawalId : string) :
    M Db (ReleaseDecision * Approval) :=
  let! approval := lift (withdrawalReconciliationApproval env false) in
  let! row := exactCandidate created tenantId withdrawalId in
  do! throw_if (match row.(rc_accounting) with Some a => truthy a.(wa_status) | None => false end)
        (PlainError "withdrawal already has an accounting state");
  let! matches := gets (coreMatches row) in
  let! decision := lift (validateHistoricalWithdrawalRelease row matches) in
  let! changed := insert_ignore withdrawalQueue set_withdrawalQueue
    (λ s a, queue_check a && customer_exists s a.(wa_tenant_id) a.(wa_customer_id) &&
            manual_provenance a.(wa_enqueued_by) a.(wa_reconciliation_reason) a.(wa_backup_sha256) a.(wa_restore_tested_at))
    "cregis_withdrawal_accounting_check" row.(rc_id) (held_withdrawal now row approval decision) in
  do! throw_if (differs changed 1) (PlainError "withdrawal reconciliation hold conflict");
  ret (decision, approval).

(** Whether the accounting row is the one held under [ap]. *)
Definition held_under (ap : Approval) (a : WithdrawalAccounting) : bool :=
  String.eqb a.(wa_status) "held" && opt_eqb a.(wa_enqueue_source) (Some "manual_reconciliation") &&
  opt_eqb a.(wa_enqueued_by) (Some ap.(ap_by)) && opt_eqb a.(wa_reconciliation_reason) (Some ap.(ap_reason)) &&
  opt_eqb a.(wa_backup_sha256) (Some ap.(ap_backup)) && is_some a.(wa_restore_tested_at).

(** The CHECK of [cregis_withdrawals] on the column [release] writes. *)
Definition custody_status_check (x : CregisWithdrawal) : bool :=
  includes ["submitted"; "approved"; "executing"; "submitted_to_cregis"; "completed"; "rejected"; "failed";
            "exception"; "cancelled"] x.(cx_status).
Definition custody_update : string → (CregisWithdrawal → bool) → (CregisWithdrawal → CregisWithdrawal) → M Db Z :=
  update_many_id custodyWithdrawals set_custodyWithdrawals (λ _ _ x, custody_status_check x) "cregis_withdrawals_status_check".

(** [release] *)
Definition release (env : Environment) (created : string → Z) (now : Z) (tenantId withdrawalId : string) :
    M Db (ReleaseDecision * Approval) :=
  let! approval := lift (withdrawalReconciliationApproval env true) in
  let! row := exactCandidate created tenantId withdrawalId in
  let! a := require (match row.(rc_accounting) with
                     | Some a => if held_under approval a then Some a else None
                     | None => None
                     end) (PlainError "exact held reconciliation not found or approval changed") in
  let! matches := gets (coreMatches row) in
  let! decision := lift (validateHistoricalWithdrawalRelease row matches) in
  do! throw_if (differs a.(wa_core_operation_id) decision.(rd_operation) ||
                differs a.(wa_core_transfer_id) decision.(rd_transfer))
        (PlainError "Core withdrawal link changed after hold");
  let! custodyChanged := custody_update withdrawalId
    (λ x, String.eqb x.(cx_tenant_id) tenantId &&
          includes ["exception"; "submitted_to_cregis"; decision.(rd_resolution)] x.(cx_status) && is_none x.(cx_txid))
    (λ x, set_cx_reconciled_at (Some now) (set_cx_reconciled_by (Some approval.(ap_by))
            (set_cx_reconciliation_note (Some approval.(ap_reason)) (set_cx_status decision.(rd_resolution) x)))) in
  do! throw_if (differs custodyChanged 1) (PlainError "withdrawal custody release state conflict");
  let! accountingChanged := queue_update withdrawalId
    (λ a, String.eqb a.(wa_tenant_id) tenantId && held_under approval a)
    (λ a, set_wa_last_error_at None (set_wa_last_error_code None (set_wa_locked_at None
            (set_wa_next_attempt_at now (set_wa_status "pending_release" a))))) in
  do! throw_if (differs accountingChanged 1) (PlainError "withdrawal release queue conflict");
  ret (decision, approval).

(** [main] of the withdrawal tool, each transaction at its commit. *)
Inductive WithdrawalToolResult :=
| Previewed (rows : list (WithdrawalReconciliationCandidate * list WithdrawalCoreMatch * (exn + ReleaseDecision)))
| Reconciled (status : string) (decision : ReleaseDecision) (approval : Approval).
Definition reconciliation_tenant (env : Environment) : string := trim_or (env "NEOBANK_SOURCE_TENANT_ID") "neobank".
Definition withdrawal_main (env : Environment) (created : string → Z) (now : Z) (fault : option exn) (args : list string) :
    M Db WithdrawalToolResult :=
  let! '(action, withdrawalId) := lift (parseWithdrawalReconciliationArguments args) in
  let tenantId := reconciliation_tenant env in
  let id := default "" withdrawalId in
  match action with
  | Preview => let! rows := gets (preview created tenantId withdrawalId) in ret (Previewed rows)
  | Hold => let! '(decision, approval) := transaction fault (hold env created now tenantId id) in
            ret (Reconciled "held" decision approval)
  | Release => let! '(decision, approval) := transaction fault (release env created now tenantId id) in
               ret (Reconciled "pending_release" decision approval)
  end.
End policy.

(** ** The deposit tool *)
Record DepositCandidate := {
  dp_id : string;
  dp_custody : CregisDeposit;
  dp_wallet : CregisWallet;
  dp_customer : SourceCustomer;
  dp_accounting : option DepositAccounting;
}.
Definition deposit_candidate_of (s : Db) (tenantId id : string) (d : CregisDeposit) : option DepositCandidate :=
  w ← s.(custodyWallets) !! d.(cd_wallet_id);
  c ← s.(sourceCustomers) !! w.(cw_customer_id);
  if String.eqb d.(cd_tenant_id) tenantId && String.eqb d.(cd_status) "completed" &&
     String.eqb w.(cw_tenant_id) d.(cd_tenant_id) && String.eqb c.(sc_tenant_id) d.(cd_tenant_id)
  then Some {| dp_id := id; dp_custody := d; dp_wallet := w; dp_customer := c;
               dp_accounting := (a ← s.(depositQueue) !! id;
                                 if String.eqb a.(da_tenant_id) d.(cd_tenant_id) then Some a else None) |}
  else None.
(** The rows of [WHERE d.id=..]: at most one, the key's. *)
Definition deposit_rows (s : Db) (tenantId depositId : string) : list DepositCandidate :=
  match s.(custodyDeposits) !! depositId with
  | Some d => match deposit_candidate_of s tenantId depositId d with Some c => [c] | None => [] end
  | None => []
  end.
(** [candidates]: [received] orders the texts of [received_at]. *)
Definition received_order (received : string → Z) (a b : DepositCandidate) : Prop :=
  received a.(dp_custody).(cd_received_at) ≤ received b.(dp_custody).(cd_received_at).
#[global] Instance received_order_dec received : RelDecision (received_order received).
Proof. intros a b. unfold received_order. apply _. Defined.
Definition deposit_candidates (received : string → Z) (tenantId : string) (depositId : option string) (s : Db) :
    list DepositCandidate :=
  match depositId with
  | Some id => deposit_rows s tenantId id
  | None => merge_sort (received_order received)
              (omap (λ kd : string * CregisDeposit, deposit_candidate_of s tenantId kd.1 kd.2) (map_to_list s.(custodyDeposits)))
  end.

Definition deposit_gate_incomplete (c : DepositCandidate) : bool :=
  let d := c.(dp_custody) in let w := c.(dp_wallet) in let k := c.(dp_customer) in
  negb (opt_truthy d.(cd_txid)) || negb (opt_truthy d.(cd_from_address)) ||
  negb (String.eqb d.(cd_currency) CREGIS_USDT_TRC20_CURRENCY) || negb (String.eqb d.(cd_chain_id) "195") ||
  negb (String.eqb d.(cd_token_id) "TR7NHqjeKQxGTCi8q8ZY4pL8otSzgjLj6t") ||
  negb (String.eqb w.(cw_status) "active") || differs w.(cw_custody_provider) (Some "cregis") ||
  negb (opt_truthy w.(cw_ownership_verified_at)) || negb (String.eqb k.(sc_status) "active") ||
  negb (String.eqb k.(sc_kyc_status) "approved") || negb (String.eqb k.(sc_operations_status) "active").
Definition requireSafeCandidate (rows : list DepositCandidate) (depositId : string) : exn + DepositCandidate :=
  match rows with
  | [row] =>
      if negb (String.eqb row.(dp_id) depositId) then inl (PlainError "exact completed deposit not found")
      else if deposit_gate_incomplete row
      then inl (PlainError "deposit evidence or customer activation gate is incomplete")
      else inr row
  | _ => inl (PlainError "exact completed deposit not found")
  end.

Definition held_deposit (now : Z) (c : DepositCandidate) (ap : Approval) : DepositAccounting :=
  {| da_tenant_id := c.(dp_custody).(cd_tenant_id);
     da_customer_id := c.(dp_wallet).(cw_customer_id);
     da_status := "held";
     da_enqueue_source := Some "manual_reconciliation";
     da_enqueued_by := Some ap.(ap_by);
     da_reconciliation_reason := Some ap.(ap_reason);
     da_backup_sha256 := Some ap.(ap_backup);
     da_restore_tested_at := Some now;
     da_attempt_count := 0;
     da_next_attempt_at := now;
     da_locked_at := None;
     da_core_operation_id := None;
     da_posted_at := None;
     da_last_error_code := None;
     da_last_error_at := None;
     da_created_at := now |}.

(** [hold] of the deposit tool *)
Definition hold_deposit (env : Environment) (now : Z) (tenantId depositId : string) : M Db (DepositCandidate * Approval) :=
  let! approval := lift (approvedMutation env) in
  let! rows := gets (λ s, deposit_rows s tenantId depositId) in
  let! row := lift (requireSafeCandidate rows depositId) in
  do! throw_if (match row.(dp_accounting) with Some a => truthy a.(da_status) | None => false end)
        (PlainError "deposit already has an accounting state");
  let! changed := insert_ignore depositQueue set_depositQueue
    (λ s a, deposit_queue_check a && customer_exists s a.(da_tenant_id) a.(da_customer_id) &&
            manual_provenance a.(da_enqueued_by) a.(da_reconciliation_reason) a.(da_backup_sha256) a.(da_restore_tested_at))
    "cregis_deposit_accounting_check" row.(dp_id) (held_deposit now row approval) in
  do! throw_if (differs changed 1) (PlainError "deposit hold conflict");
  ret (row, approval).

Definition deposit_held_under (ap : Approval) (a : DepositAccounting) : bool :=
  String.eqb a.(da_status) "held" && opt_eqb a.(da_enqueue_source) (Some "manual_reconciliation") &&
  opt_eqb a.(da_enqueued_by) (Some ap.(ap_by)) && opt_eqb a.(da_reconciliation_reason) (Some ap.(ap_reason)) &&
  opt_eqb a.(da_backup_sha256) (Some ap.(ap_backup)) && is_some a.(da_restore_tested_at).

(** [release] of the deposit tool *)
Definition releaseDeposit (env : Environment) (now : Z) (tenantId depositId : string) : M Db Approval :=
  let! approval := lift (approvedMutation env) in
  do! throw_if (negb (env_is_true env "DEPOSIT_RECONCILIATION_RELEASE_APPROVED"))
        (PlainError "DEPOSIT_RECONCILIATION_RELEASE_APPROVED=true is required");
  let! changed := deposit_queue_update depositId
    (λ a, String.eqb a.(da_tenant_id) tenantId && deposit_held_under approval a)
    (λ a, set_da_last_error_at None (set_da_last_error_code None
            (set_da_next_attempt_at now (set_da_status "pending" a)))) in
  do! throw_if (differs changed 1) (PlainError "exact held reconciliation not found or approval changed");
  ret approval.

(** [main] of the deposit tool *)
Inductive DepositToolResult :=
| DepositsPreviewed (rows : list DepositCandidate)
| DepositReconciled (status : string) (approval : Approval).
Definition deposit_main (env : Environment) (received : string → Z) (now : Z) (fault : option exn) (args : list string) :
    M Db DepositToolResult :=
  let! '(action, depositId) := lift (parseDepositArguments args) in
  let tenantId := reconciliation_tenant env in
  let id := default "" depositId in
  match action with
  | Preview => let! rows := gets (deposit_candidates received tenantId depositId) in ret (DepositsPreviewed rows)
  | Hold => let! '(_, approval) := transaction fault (hold_deposit env now tenantId id) in
            ret (DepositReconciled "held" approval)
  | Release => let! approval := releaseDeposit env now tenantId id in ret (DepositReconciled "pending" approval)
  end.
