(* ===== verification/Triage.v ===== *)
(** The reconciliation report of the ledger
    ([server/src/ledger/reconciliation-triage.ts] and [reconcileUsdt] of
    [server/src/ledger/ledger.controller.ts]): the custody movements and the
    crypto balances that the core does not account for, and what to do about
    each of them. *)
From stdpp Require Import sorting.
From S2P Require Import Prelude Decimals Schema Access Ledger WithdrawalFees Operations TronAddress CryptoWallets Customers WithdrawalWorker DepositWorker Reconciliation.
#[local] Open Scope Z_scope.

Inductive ReconciliationDirection := deposit_direction | withdrawal_direction | core_direction.
Inductive ReconciliationResolutionCode :=
| deposit_manual_reconciliation
| withdrawal_release_reconciliation
| await_custody_finality
| withdrawal_terminal_evidence_review
| withdrawal_settlement_review
| withdrawal_pre_execution_block
| callback_conflict_review
| manual_reconciliation_in_progress
| accounting_exception_review
| worker_queue_review
| core_integrity_review
| state_mismatch_review.
Inductive ResolutionPriority := critical | high | monitor.
Inductive FinancialEffect := credit_after_approval | release_after_approval | none_until_verified | separately_approved_correction.

Record ReconciliationResolution := {
  resolution_code : ReconciliationResolutionCode;
  resolution_priority : ResolutionPriority;
  financial_effect : FinancialEffect;
  manual_reconciliation_eligible : bool;
}.

(** [ReconciliationIssueForTriage] with the [id] and the operation of
    [ReconciliationIssue]; a callback flag that is undefined is not [true]. *)
Record ReconciliationIssue := {
  ri_id : string;
  ri_core_operation_id : option string;
  ri_direction : ReconciliationDirection;
  ri_custody_status : string;
  ri_accounting_status : string;
  ri_reason : string;
  ri_callback_rejected : bool;
  ri_callback_failed : bool;
  ri_callback_completed : bool;
}.

Definition WITHDRAWAL_PRE_EXECUTION_STATES : list string := ["submitted"; "approved"].
Definition WITHDRAWAL_IN_FLIGHT_STATES : list string := ["executing"; "submitted_to_cregis"].
Definition WITHDRAWAL_RELEASE_STATES : list string := ["rejected"; "failed"; "cancelled"].

Definition resolution (code : ReconciliationResolutionCode) (priority : ResolutionPriority) (effect : FinancialEffect)
    (eligible : bool) : ReconciliationResolution :=
  {| resolution_code := code; resolution_priority := priority; financial_effect := effect;
     manual_reconciliation_eligible := eligible |}.

Definition triageReconciliationIssue (issue : ReconciliationIssue) : ReconciliationResolution :=
  let has st := String.eqb issue.(ri_accounting_status) st in
  match issue.(ri_direction) with
  | core_direction => resolution core_integrity_review critical separately_approved_correction false
  | direction =>
      if has "exception" then resolution accounting_exception_review critical none_until_verified false else
      if has "held" then resolution manual_reconciliation_in_progress high none_until_verified false else
      match direction with
      | deposit_direction =>
          if has "missing" then resolution deposit_manual_reconciliation critical credit_after_approval true
          else resolution worker_queue_review monitor none_until_verified false
      | _ =>
          if negb (has "missing") then resolution state_mismatch_review high none_until_verified false else
          let rejected := issue.(ri_callback_rejected) in
          let failed := issue.(ri_callback_failed) in
          let completed := issue.(ri_callback_completed) in
          let releaseEvidenceIsUnambiguous := negb (Bool.eqb rejected failed) && negb completed in
          let finalEvidenceConflicts := completed && (rejected || failed) in
          if finalEvidenceConflicts || (rejected && failed)
          then resolution callback_conflict_review critical none_until_verified false
          else if completed || String.eqb issue.(ri_custody_status) "completed"
          then resolution withdrawal_settlement_review critical separately_approved_correction false
          else if releaseEvidenceIsUnambiguous
          then resolution withdrawal_release_reconciliation high release_after_approval true
          else if includes WITHDRAWAL_RELEASE_STATES issue.(ri_custody_status)
          then resolution withdrawal_terminal_evidence_review high none_until_verified false
          else if includes WITHDRAWAL_IN_FLIGHT_STATES issue.(ri_custody_status)
          then resolution await_custody_finality high none_until_verified false
          else if includes WITHDRAWAL_PRE_EXECUTION_STATES issue.(ri_custody_status)
          then resolution withdrawal_pre_execution_block high none_until_verified false
          else resolution state_mismatch_review high none_until_verified false
      end
  end.

(** ** The issues *)

(** The accounting row of the same tenant, when there is one. *)
Definition deposit_accounting_of (s : Db) (id : string) (d : CregisDeposit) : option DepositAccounting :=
  a ← s.(depositQueue) !! id;
  if String.eqb a.(da_tenant_id) d.(cd_tenant_id) then Some a else None.
Definition withdrawal_accounting_of (s : Db) (id : string) (x : CregisWithdrawal) : option WithdrawalAccounting :=
  a ← s.(withdrawalQueue) !! id;
  if String.eqb a.(wa_tenant_id) x.(cx_tenant_id) then Some a else None.

(** [depositIssues] *)
Definition deposit_is_issue (tenantId : string) (s : Db) (kd : string * CregisDeposit) : bool :=
  String.eqb kd.2.(cd_tenant_id) tenantId && String.eqb kd.2.(cd_status) "completed" &&
  match deposit_accounting_of s kd.1 kd.2 with
  | None => true
  | Some a => negb (String.eqb a.(da_status) "posted")
  end.
Definition deposit_issue (s : Db) (kd : string * CregisDeposit) : ReconciliationIssue :=
  let accounting := deposit_accounting_of s kd.1 kd.2 in
  {| ri_id := kd.1;
     ri_core_operation_id := (a ← accounting; a.(da_core_operation_id));
     ri_direction := deposit_direction;
     ri_custody_status := kd.2.(cd_status);
     ri_accounting_status := default "missing" (da_status <$> accounting);
     ri_reason := match accounting with
                  | None => "accounting_intent_missing"
                  | Some a => if String.eqb a.(da_status) "exception"
                              then default "accounting_exception" a.(da_last_error_code)
                              else "completed_custody_not_posted"
                  end;
     ri_callback_rejected := false; ri_callback_failed := false; ri_callback_completed := false |}.

(** [withdrawalIssues] *)
Definition withdrawal_is_issue (tenantId : string) (s : Db) (kx : string * CregisWithdrawal) : bool :=
  String.eqb kx.2.(cx_tenant_id) tenantId &&
  match withdrawal_accounting_of s kx.1 kx.2 with
  | None => true
  | Some a =>
      let custody := kx.2.(cx_status) in let accounting := a.(wa_status) in
      String.eqb accounting "exception" ||
      (String.eqb custody "completed" && negb (String.eqb accounting "settled")) ||
      (includes ["rejected"; "failed"; "cancelled"] custody && negb (String.eqb accounting "released")) ||
      (String.eqb custody "submitted" &&
       negb (includes ["pending_reservation"; "reserving"; "reserved"; "pending_approval"; "approving"] accounting)) ||
      (String.eqb custody "approved" && negb (includes ["pending_approval"; "approving"; "approved"] accounting)) ||
      (includes ["executing"; "submitted_to_cregis"] custody && negb (String.eqb accounting "approved"))
  end.
Definition withdrawal_issue (s : Db) (kx : string * CregisWithdrawal) : ReconciliationIssue :=
  let accounting := withdrawal_accounting_of s kx.1 kx.2 in
  let cid := kx.2.(cx_cregis_cid) in
  {| ri_id := kx.1;
     ri_core_operation_id := (a ← accounting; a.(wa_core_operation_id));
     ri_direction := withdrawal_direction;
     ri_custody_status := kx.2.(cx_status);
     ri_accounting_status := default "missing" (wa_status <$> accounting);
     ri_reason := match accounting with
                  | None => "accounting_intent_missing"
                  | Some a =>
                      if String.eqb a.(wa_status) "exception" then default "accounting_exception" a.(wa_last_error_code)
                      else if String.eqb kx.2.(cx_status) "completed" then "completed_custody_not_settled"
                      else if includes ["rejected"; "failed"; "cancelled"] kx.2.(cx_status) then "terminal_custody_not_released"
                      else "custody_accounting_state_mismatch"
                  end;
     ri_callback_rejected := callback_seen cid ["2"; "4"] s.(callbacks);
     ri_callback_failed := callback_seen cid ["7"] s.(callbacks);
     ri_callback_completed := callback_seen cid ["6"] s.(callbacks) |}.

(** [JOIN "Customer" customer .. WHERE customer."organizationId"=..] *)
Definition in_organization (organizationId : string) (s : Db) (customerId : string) : bool :=
  match s.(customers) !! customerId with
  | Some c => String.eqb c.(cust_organizationId) organizationId
  | None => false
  end.

(** [coreIssues] *)
Definition core_is_issue (organizationId : string) (s : Db) (ko : string * Operation) : bool :=
  in_organization organizationId s ko.2.(op_customerId) &&
  opt_eqb (json_str (json_get "custodyRail" ko.2.(op_metadata))) (Some "CREGIS") &&
  is_some (json_str (json_get "custodyWithdrawalId" ko.2.(op_metadata))) &&
  is_none (find_first (λ ka : string * WithdrawalAccounting, opt_eqb ka.2.(wa_core_operation_id) (Some ko.1)) s.(withdrawalQueue)).
Definition core_issue (ko : string * Operation) : ReconciliationIssue :=
  {| ri_id := ko.1;
     ri_core_operation_id := Some ko.1;
     ri_direction := core_direction;
     ri_custody_status := operation_status_text ko.2.(op_status);
     ri_accounting_status := "missing";
     ri_reason := "core_operation_without_custody_handoff";
     ri_callback_rejected := false; ri_callback_failed := false; ri_callback_completed := false |}.

(** [balanceIssues]: the accounts that mirror a wallet. *)
Definition is_active_mirror (customerId : string) (ka : string * Account) : bool :=
  opt_eqb ka.2.(acc_customerId) (Some customerId) && same ka.2.(acc_kind) CRYPTO_WALLET &&
  same ka.2.(acc_currency) USDT && opt_eqb ka.2.(acc_network) (Some "TRON") && same ka.2.(acc_status) AS_ACTIVE.
Definition mirrors_of (s : Db) (customerId : string) : list (string * Account) :=
  find_many (is_active_mirror customerId) s.(accounts).
Definition balance_is_issue (organizationId : string) (s : Db) (kw : string * CryptoWallet) : bool :=
  in_organization organizationId s kw.2.(wal_customerId) &&
  same kw.2.(wal_asset) USDT && same kw.2.(wal_network) TRON && same kw.2.(wal_status) AS_ACTIVE &&
  match mirrors_of s kw.2.(wal_customerId) with
  | [ka] => negb (ka.2.(acc_availableBalance) =? kw.2.(wal_availableBalance)) ||
            negb (ka.2.(acc_frozenBalance) =? kw.2.(wal_frozenBalance))
  | _ => true
  end.
Definition account_status_text (st : AccountStatus) : string :=
  match st with
  | AS_PENDING => "PENDING" | AS_ACTIVE => "ACTIVE" | AS_FROZEN => "FROZEN" | AS_CLOSED => "CLOSED" | AS_DISABLED => "DISABLED"
  end.
Definition balance_issue (s : Db) (kw : string * CryptoWallet) : ReconciliationIssue :=
  {| ri_id := kw.1;
     ri_core_operation_id := None;
     ri_direction := core_direction;
     ri_custody_status := account_status_text kw.2.(wal_status);
     ri_accounting_status := "balance_mirror";
     ri_reason := match mirrors_of s kw.2.(wal_customerId) with
                  | [] => "core_crypto_account_missing"
                  | [_] => "core_crypto_materialized_balance_mismatch"
                  | _ => "core_crypto_account_duplicated"
                  end;
     ri_callback_rejected := false; ri_callback_failed := false; ri_callback_completed := false |}.

(** ** The report *)

(** [ORDER BY .. LIMIT 100]: [rank] orders the rows of a table by id. *)
Section ordered.
Context {V : Type} (rank : string → Z).
Definition ranked (a b : string * V) : Prop := rank a.1 ≤ rank b.1.
#[global] Instance ranked_dec : RelDecision ranked.
Proof. intros a b. unfold ranked. apply _. Defined.
Definition first_hundred (rows : list (string * V)) : list (string * V) := take 100 (merge_sort ranked rows).
End ordered.

Definition priority_rank (p : ResolutionPriority) : Z := match p with critical => 0 | high => 1 | monitor => 2 end.
Definition by_priority (a b : ReconciliationIssue * ReconciliationResolution) : Prop :=
  priority_rank a.2.(resolution_priority) ≤ priority_rank b.2.(resolution_priority).
#[global] Instance by_priority_dec : RelDecision by_priority.
Proof. intros a b. unfold by_priority. apply _. Defined.

Record ReconciliationReport := {
  rr_tenantId : string;
  rr_checksComplete : bool;
  rr_unavailableChecks : list string;
  rr_issueCount : nat;
  rr_truncated : bool;
  rr_issues : list (ReconciliationIssue * ReconciliationResolution);
}.
(** The four queries; [available] tells whether the custody schema is installed. *)
Definition issue_lists (rank : string → Z) (available : bool) (organizationId tenantId : string) (s : Db) :
    list (list ReconciliationIssue) :=
  let custody {V} (rows : list (string * V)) := if available then rows else [] in
  [map (deposit_issue s) (first_hundred rank (custody (find_many (deposit_is_issue tenantId s) s.(custodyDeposits))));
   map (withdrawal_issue s) (first_hundred rank (custody (find_many (withdrawal_is_issue tenantId s) s.(custodyWithdrawals))));
   map core_issue (first_hundred rank (custody (find_many (core_is_issue organizationId s) s.(operations))));
   map (balance_issue s) (first_hundred rank (find_many (balance_is_issue organizationId s) s.(wallets)))].
(** [reconcileUsdt] *)
Definition reconcileUsdt (env : ProcessEnv) (rank : string → Z) (available : bool) (actorId organizationId : string) :
    M Db ReconciliationReport :=
  let! _ := requireOrganizationAccess actorId organizationId in
  let tenantId := trim_or env.(NEOBANK_SOURCE_TENANT_ID) "neobank" in
  let! lists := gets (issue_lists rank available organizationId tenantId) in
  ret {| rr_tenantId := tenantId;
         rr_checksComplete := available;
         rr_unavailableChecks := if available then [] else ["cregis_custody_accounting"];
         rr_issueCount := length (concat lists);
         rr_truncated := existsb (λ l, Nat.eqb (length l) 100) lists;
         rr_issues := merge_sort by_priority (map (λ i, (i, triageReconciliationIssue i)) (concat lists)) |}.
