(* ===== verification/ReconciliationProperties.v ===== *)
(** Correctness of the reconciliation of historical custody movements: what
    the report offers, what the tools hold and release, and that the workers
    accept what was released. *)
From stdpp Require Import sorting.
From S2P Require Import Prelude Decimals Schema Access Ledger WithdrawalFees Operations OperationEffects OperationCreation Samples TronAddress CryptoWallets Customers WithdrawalWorker WithdrawalWorkerEffects WithdrawalWorkerProperties DepositWorker Reconciliation Triage.
#[local] Open Scope Z_scope.

(** ** Queries by key *)
Lemma NoDup_only {A} (l : list A) a : NoDup l → (∀ x, x ∈ l ↔ x = a) → l = [a].
Proof.
  intros Hl Ha. apply Permutation_singleton_r.
  apply NoDup_Permutation; [done|apply NoDup_singleton|]. intros x. by rewrite Ha, list_elem_of_singleton.
Qed.

Lemma lift_ok {A} (r : exn + A) s a s' : lift r s = inr (a, s') ↔ r = inr a ∧ s' = s.
Proof. unfold lift, throw, ret. destruct r; naive_solver. Qed.

Lemma first_error_ok checks u : first_error checks = inr u → Forall (λ c, c = inr tt) checks.
Proof.
  induction checks as [|[e|[]] checks IH]; simpl; [by constructor|done|]. intros H. by constructor; [|apply IH].
Qed.
Lemma reject_if_ok b m : reject_if b m = inr tt ↔ b = false.
Proof. destruct b; simpl; naive_solver. Qed.

Section queries.
Context {DO : DecimalOps}.

Lemma candidate_of_ok s id x c :
  candidate_of s id x = Some c →
  c.(rc_id) = id ∧ c.(rc_custody) = x ∧ s.(custodyWallets) !! x.(cx_wallet_id) = Some c.(rc_wallet) ∧
  c.(rc_wallet).(cw_tenant_id) = x.(cx_tenant_id) ∧ c.(rc_accounting) = withdrawal_accounting_of s id x ∧
  c.(rc_callback_rejected) = callback_seen x.(cx_cregis_cid) ["2"; "4"] s.(callbacks) ∧
  c.(rc_callback_failed) = callback_seen x.(cx_cregis_cid) ["7"] s.(callbacks) ∧
  c.(rc_callback_completed) = callback_seen x.(cx_cregis_cid) ["6"] s.(callbacks).
Proof.
  unfold candidate_of. intros (w&Hw&H)%bind_Some. destruct (String.eqb_spec w.(cw_tenant_id) x.(cx_tenant_id)); [|done].
  injection H as <-. by simpl.
Qed.

(** The rows of a query by key: the row of the key, when it has a candidate. *)
Lemma candidates_by_id created t id s :
  candidates created t (Some id) s =
    match (x ← s.(custodyWithdrawals) !! id; if String.eqb x.(cx_tenant_id) t then candidate_of s id x else None) with
    | Some c => [c]
    | None => []
    end.
Proof.
  unfold candidates. set (rows := find_many _ _).
  assert (List.filter (candidate_wanted (Some id) s) (omap (λ kx, candidate_of s kx.1 kx.2) rows) =
          omap (λ kx, candidate_of s kx.1 kx.2) (List.filter (λ kx, String.eqb kx.1 id) rows)) as Hf.
  { clearbody rows. induction rows as [|[k x] rows IH]; [done|]. simpl. destruct (candidate_of s k x) as [c|] eqn:E; simpl.
    - pose proof (candidate_of_ok _ _ _ _ E) as [-> _]. simpl.
      destruct (String.eqb k id); simpl; [rewrite E; by f_equal|exact IH].
    - destruct (String.eqb k id); simpl; [by rewrite E|exact IH]. }
  rewrite Hf.
  assert (∀ k x, (k, x) ∈ List.filter (λ kx, String.eqb kx.1 id) rows ↔
            k = id ∧ s.(custodyWithdrawals) !! id = Some x ∧ x.(cx_tenant_id) = t) as Hin.
  { intros k x. rewrite list_elem_of_In, List.filter_In, <- list_elem_of_In. unfold rows. rewrite find_many_elem. simpl.
    rewrite !String.eqb_eq. naive_solver. }
  assert (NoDup (List.filter (λ kx, String.eqb kx.1 id) rows)) as Hnd.
  { apply NoDup_ListNoDup, List.NoDup_filter, NoDup_ListNoDup, find_many_NoDup. }
  destruct (s.(custodyWithdrawals) !! id) as [x|] eqn:Ex; simpl.
  2: { destruct (List.filter _ rows) as [|[k x] l] eqn:El; [done|].
       destruct (proj1 (Hin k x)) as (_&?&_); [by left|done]. }
  destruct (String.eqb_spec x.(cx_tenant_id) t) as [Ht|Ht].
  - rewrite (NoDup_only (List.filter _ rows) (id, x)); [|done|].
    + simpl. destruct (candidate_of s id x); done.
    + intros [k y]. rewrite Hin. naive_solver.
  - destruct (List.filter _ rows) as [|[k y] l] eqn:El; [done|].
    destruct (proj1 (Hin k y)) as (_&?&?); [by left|]. congruence.
Qed.

Lemma exactCandidate_ok created t id s c s' :
  exactCandidate created t id s = inr (c, s') ↔
  s' = s ∧ ∃ x, s.(custodyWithdrawals) !! id = Some x ∧ x.(cx_tenant_id) = t ∧ candidate_of s id x = Some c.
Proof.
  unfold exactCandidate. rewrite bind_ok. setoid_rewrite gets_ok. rewrite candidates_by_id.
  split.
  - intros (rows&?&[-> ->]&H). destruct (s.(custodyWithdrawals) !! id) as [x|]; [|done]. simpl in H.
    destruct (String.eqb_spec x.(cx_tenant_id) t); [|done]. destruct (candidate_of s id x) as [d|] eqn:E; [|done].
    minvs. eauto.
  - intros [-> (x&->&Ht&E)]. eexists _, _. split; [done|]. simpl. rewrite Ht, String.eqb_refl, E.
    destruct (candidate_of_ok _ _ _ _ E) as [-> _]. by rewrite String.eqb_refl.
Qed.
End queries.

(** ** The policy and the report *)
Section policy.
Context {DO : DecimalOps}.

Lemma terminal_resolution_ok c res :
  withdrawalTerminalResolution c = inr res ↔
  c.(rc_callback_completed) = false ∧ c.(rc_callback_rejected) = negb c.(rc_callback_failed) ∧
  res = if c.(rc_callback_rejected) then "rejected" else "failed".
Proof.
  unfold withdrawalTerminalResolution.
  destruct (rc_callback_completed c), (rc_callback_rejected c), (rc_callback_failed c); simpl; naive_solver.
Qed.

Lemma decision_ok c ms d :
  validateHistoricalWithdrawalRelease c ms = inr d →
  withdrawalTerminalResolution c = inr d.(rd_resolution) ∧ custody_evidence_incomplete c = false ∧
  includes ["exception"; "submitted_to_cregis"; d.(rd_resolution)] c.(rc_custody).(cx_status) = true ∧
  ((ms = [] ∧ d.(rd_linked) = false ∧ d.(rd_operation) = None ∧ d.(rd_transfer) = None) ∨
   ∃ m, ms = [m] ∧ d.(rd_linked) = true ∧ validateCoreMatch c m = inr tt ∧
        d.(rd_operation) = or_null (Some m.(cm_operation_id)) ∧ d.(rd_transfer) = or_null (fst <$> m.(cm_transfer))).
Proof.
  unfold validateHistoricalWithdrawalRelease. destruct (withdrawalTerminalResolution c) as [|res]; [done|].
  destruct (first_error _) as [|u] eqn:F; [done|]. apply first_error_ok in F. intros [= <-]. simpl.
  rewrite !Forall_cons in F. destruct F as (H1&H2&H3&H4&_).
  apply reject_if_ok in H1, H2, H3. rewrite negb_false_iff in H2. rewrite Nat.ltb_ge in H3.
  split_and!; [done|done|done|]. destruct ms as [|m [|]]; simpl in *; [by left|right; by exists m|lia].
Qed.

Lemma custody_status_open d st :
  includes ["exception"; "submitted_to_cregis"; d] st = true → d = "rejected" ∨ d = "failed" → st ≠ "completed".
Proof. rewrite includes_true, !elem_of_cons, elem_of_nil. naive_solver. Qed.

Lemma callback_resolution c :
  c.(rc_callback_rejected) = negb c.(rc_callback_failed) →
  (if c.(rc_callback_rejected) then "rejected" else "failed") = "rejected" ∨
  (if c.(rc_callback_rejected) then "rejected" else "failed") = "failed".
Proof. destruct (rc_callback_rejected c); auto. Qed.

(** C18: The report and the policy of the tool agree: for a custody withdrawal
    that has no accounting row, the report lists it and offers a manual
    reconciliation exactly when the policy finds one unambiguous terminal
    callback and the custody status is not completed; and whatever the full
    validation of the tool accepts, the report has classified as a release after
    approval. *)
Theorem report_offers_releases s id x c :
  candidate_of s id x = Some c → c.(rc_accounting) = None →
  let r := triageReconciliationIssue (withdrawal_issue s (id, x)) in
  withdrawal_is_issue x.(cx_tenant_id) s (id, x) = true ∧
  (r.(manual_reconciliation_eligible) = true ↔
     (∃ res, withdrawalTerminalResolution c = inr res) ∧ x.(cx_status) ≠ "completed") ∧
  (r.(financial_effect) = release_after_approval ↔ r.(manual_reconciliation_eligible) = true) ∧
  (∀ ms d, validateHistoricalWithdrawalRelease c ms = inr d →
     r = resolution withdrawal_release_reconciliation high release_after_approval true).
Proof.
  intros (Hid&Hx&_&_&Ha&Hr&Hf&Hc)%candidate_of_ok Hn. rewrite Hn in Ha. simpl.
  assert (withdrawal_is_issue x.(cx_tenant_id) s (id, x) = true) as Hissue.
  { unfold withdrawal_is_issue. simpl. by rewrite <- Ha, String.eqb_refl. }
  assert (triageReconciliationIssue (withdrawal_issue s (id, x)) =
          if c.(rc_callback_completed) && (c.(rc_callback_rejected) || c.(rc_callback_failed)) ||
             (c.(rc_callback_rejected) && c.(rc_callback_failed))
          then resolution callback_conflict_review critical none_until_verified false
          else if c.(rc_callback_completed) || String.eqb x.(cx_status) "completed"
          then resolution withdrawal_settlement_review critical separately_approved_correction false
          else if negb (Bool.eqb c.(rc_callback_rejected) c.(rc_callback_failed)) && negb c.(rc_callback_completed)
          then resolution withdrawal_release_reconciliation high release_after_approval true
          else if includes WITHDRAWAL_RELEASE_STATES x.(cx_status)
          then resolution withdrawal_terminal_evidence_review high none_until_verified false
          else if includes WITHDRAWAL_IN_FLIGHT_STATES x.(cx_status)
          then resolution await_custody_finality high none_until_verified false
          else if includes WITHDRAWAL_PRE_EXECUTION_STATES x.(cx_status)
          then resolution withdrawal_pre_execution_block high none_until_verified false
          else resolution state_mismatch_review high none_until_verified false) as ->.
  { unfold triageReconciliationIssue, withdrawal_issue. simpl. by rewrite <- Ha, Hr, Hf, Hc. }
  split; [done|]. setoid_rewrite terminal_resolution_ok.
  destruct (rc_callback_completed c) eqn:Ec, (rc_callback_rejected c) eqn:Er, (rc_callback_failed c) eqn:Ef; simpl;
    try (destruct (String.eqb_spec x.(cx_status) "completed") as [Hs|Hs]); simpl;
    repeat match goal with |- context [if includes ?l ?z then _ else _] => destruct (includes l z) end;
    (split; [naive_solver|split; [naive_solver|]]);
    intros ms d (Hres&_&Hst&_)%decision_ok; rewrite Hx in Hst;
    apply terminal_resolution_ok in Hres as (?&?&Hd); rewrite ?Ec, ?Er, ?Ef in *; simpl in *; try congruence;
    rewrite Hd, Hs in Hst; by vm_compute in Hst.
Qed.
End policy.

(** ** Hold and release of a withdrawal *)
Section withdrawals.
Context {DO : DecimalOps}.

Lemma insert_ignore_ok {V} (tbl : Db → gmap string V) put ok name id v s n s' :
  insert_ignore tbl put ok name id v s = inr (n, s') →
  (n = 0 ∧ s' = s) ∨ (n = 1 ∧ tbl s !! id = None ∧ ok s v = true ∧ s' = put (<[id := v]> (tbl s)) s).
Proof.
  unfold insert_ignore. destruct (ok s v); [|done]. simpl.
  destruct (tbl s !! id); simpl; intros [= <- <-]; auto.
Qed.

(** What a successful hold did. *)
Lemma tool_hold_ok env created now t id s rd ap s1 :
  hold env created now t id s = inr ((rd, ap), s1) →
  withdrawalReconciliationApproval env false = inr ap ∧
  ∃ x c, s.(custodyWithdrawals) !! id = Some x ∧ x.(cx_tenant_id) = t ∧ candidate_of s id x = Some c ∧
    c.(rc_accounting) = None ∧ validateHistoricalWithdrawalRelease c (coreMatches c s) = inr rd ∧
    s.(withdrawalQueue) !! id = None ∧
    customer_exists s t x.(cx_customer_id) = true ∧ queue_check (held_withdrawal now c ap rd) = true ∧
    s1 = set_withdrawalQueue (<[id := held_withdrawal now c ap rd]> s.(withdrawalQueue)) s.
Proof.
  unfold hold. intros H. apply bind_ok in H as (ap'&sa&[Ha ->]%lift_ok&H). split; [minvs; congruence|].
  apply bind_ok in H as (c&sb&Hc&H). apply exactCandidate_ok in Hc as [-> (x&Hx&Ht&Hc)].
  apply bind_ok in H as (u0&sc&[Hna ->]%throw_if_ok&H).
  apply bind_ok in H as (ms&sd&[-> ->]%gets_ok&H).
  apply bind_ok in H as (d&se&[Hd ->]%lift_ok&H).
  apply bind_ok in H as (n&sf&Hi&H). apply bind_ok in H as (u1&sg&[Hn ->]%throw_if_ok&H).
  apply ret_ok in H as [[= -> ->] ->].
  destruct (candidate_of_ok _ _ _ _ Hc) as (Hid&Hcx&_&_&Hacc&_).
  apply insert_ignore_ok in Hi as [[-> _]|(_&Hq&Hok&->)]; [by guards|]. rewrite Hid in Hq.
  assert (c.(rc_accounting) = None) as Hnone.
  { rewrite Hacc. unfold withdrawal_accounting_of. by rewrite Hq. }
  rewrite !andb_true_iff in Hok. destruct Hok as [[Hqc Hce] _]. simpl in Hce. rewrite Hcx, Ht in Hce.
  exists x, c. rewrite Hid. done.
Qed.

(** The candidate and its matches after a change of the queue alone. *)
Definition with_accounting (a : WithdrawalAccounting) (c : WithdrawalReconciliationCandidate) :
    WithdrawalReconciliationCandidate :=
  {| rc_id := c.(rc_id); rc_custody := c.(rc_custody); rc_wallet := c.(rc_wallet); rc_accounting := Some a;
     rc_callback_rejected := c.(rc_callback_rejected); rc_callback_failed := c.(rc_callback_failed);
     rc_callback_completed := c.(rc_callback_completed) |}.
Lemma candidate_queued s id x c a :
  candidate_of s id x = Some c → a.(wa_tenant_id) = x.(cx_tenant_id) →
  candidate_of (set_withdrawalQueue (<[id := a]> s.(withdrawalQueue)) s) id x = Some (with_accounting a c).
Proof.
  unfold candidate_of. simpl. intros (w&->&H)%bind_Some Ha. simpl.
  destruct (String.eqb _ _); [|done]. injection H as <-. unfold with_accounting. simpl.
  by rewrite lookup_insert_eq; simpl; rewrite Ha, String.eqb_refl.
Qed.

Lemma hold_approval_release env ap :
  withdrawalReconciliationApproval env true = inr ap → withdrawalReconciliationApproval env false = inr ap.
Proof.
  unfold withdrawalReconciliationApproval.
  destruct (negb (env_is_true env "WITHDRAWAL_RECONCILIATION_APPROVED")); [done|].
  destruct (negb (env_is_true env "POSTGRES_RESTORE_TESTED")); [done|].
  destruct (negb (env_is_true env "WITHDRAWAL_RECONCILIATION_RELEASE_APPROVED")); done.
Qed.

Lemma held_row_held_under now c ap rd : held_under ap (held_withdrawal now c ap rd) = true.
Proof. unfold held_under, opt_eqb. simpl. by rewrite !bool_decide_eq_true_2. Qed.

(** The money tables a reconciliation leaves alone. *)
Definition same_ledger (s s' : Db) : Prop :=
  s'.(accounts) = s.(accounts) ∧ s'.(wallets) = s.(wallets) ∧ s'.(journal) = s.(journal) ∧
  s'.(operations) = s.(operations) ∧ s'.(transfers) = s.(transfers).

(** What a successful release did. *)
Lemma tool_release_ok env created now t id s rd ap s' :
  release env created now t id s = inr ((rd, ap), s') →
  withdrawalReconciliationApproval env true = inr ap ∧
  ∃ x c a, s.(custodyWithdrawals) !! id = Some x ∧ x.(cx_tenant_id) = t ∧ candidate_of s id x = Some c ∧
    s.(withdrawalQueue) !! id = Some a ∧ held_under ap a = true ∧
    validateHistoricalWithdrawalRelease c (coreMatches c s) = inr rd ∧
    a.(wa_core_operation_id) = rd.(rd_operation) ∧ a.(wa_core_transfer_id) = rd.(rd_transfer) ∧
    x.(cx_txid) = None ∧
    ∃ q x', s' = set_withdrawalQueue q (set_custodyWithdrawals (<[id := x']> s.(custodyWithdrawals)) s) ∧
      x'.(cx_status) = rd.(rd_resolution) ∧
      q = <[id := set_wa_last_error_at None (set_wa_last_error_code None (set_wa_locked_at None
                    (set_wa_next_attempt_at now (set_wa_status "pending_release" a))))]> s.(withdrawalQueue).
Proof.
  unfold release. intros H. apply bind_ok in H as (ap'&sa&[Ha ->]%lift_ok&H). split; [minvs; congruence|].
  apply bind_ok in H as (c&sb&Hc&H). apply exactCandidate_ok in Hc as [-> (x&Hx&Ht&Hc)].
  apply bind_ok in H as (a&sc&[Hacc ->]%require_ok&H).
  apply bind_ok in H as (ms&sd&[-> ->]%gets_ok&H).
  apply bind_ok in H as (d&se&[Hd ->]%lift_ok&H).
  apply bind_ok in H as (u0&sf&[Hlink ->]%throw_if_ok&H).
  apply bind_ok in H as (n&sg&Hcu&H). apply bind_ok in H as (u1&sh&[Hn ->]%throw_if_ok&H).
  apply bind_ok in H as (k&si&Hq&H). apply bind_ok in H as (u2&sj&[Hk ->]%throw_if_ok&H).
  apply ret_ok in H as [[= -> ->] ->].
  destruct (candidate_of_ok _ _ _ _ Hc) as (Hid&Hcx&_&_&Hqa&_).
  apply update_many_id_ok in Hcu as [(_&y&Hy&Hpy&_&->)|(->&_)]; [|by guards].
  apply update_many_id_ok in Hq as [(_&b&Hb&Hpb&_&->)|(->&_)]; [|by guards]. simpl in *.
  destruct (rc_accounting c) as [a0|]; [|done]. destruct (held_under ap' a0) eqn:Hh; [|done]. injection Hacc as ->.
  unfold withdrawal_accounting_of in Hqa. rewrite Hb in Hqa. simpl in Hqa. destruct (String.eqb b.(wa_tenant_id) x.(cx_tenant_id)); [|done].
  injection Hqa as <-. guards. rewrite Hx in Hy. injection Hy as ->.
  exists y, c, a. split_and!; try done; [by destruct (cx_txid y)|]. eexists _, _. by split_and!.
Qed.

Lemma resolution_is_final c d :
  withdrawalTerminalResolution c = inr d → includes ["rejected"; "failed"; "cancelled"] d = true.
Proof. intros (_&_&->)%terminal_resolution_ok. by destruct (rc_callback_rejected c). Qed.

(** A custody update by key that applies. *)
Lemma custody_update_run id p f s x :
  s.(custodyWithdrawals) !! id = Some x → p x = true → custody_status_check (f x) = true →
  custody_update id p f s = inr (1, set_custodyWithdrawals (<[id := f x]> s.(custodyWithdrawals)) s).
Proof. intros Hx Hp Hc. unfold custody_update, update_many_id. by rewrite Hx, Hp, Hc. Qed.
Lemma queue_update_run id p f s a :
  s.(withdrawalQueue) !! id = Some a → p a = true → queue_check (f a) = true →
  queue_update id p f s = inr (1, set_withdrawalQueue (<[id := f a]> s.(withdrawalQueue)) s).
Proof. intros Hx Hp Hc. unfold queue_update, update_many_id. by rewrite Hx, Hp, Hc. Qed.

(** A release under the approval of the hold succeeds. *)
Lemma release_run env created now now0 s id x c rd ap :
  let a := held_withdrawal now0 c ap rd in
  let s1 := set_withdrawalQueue (<[id := a]> s.(withdrawalQueue)) s in
  withdrawalReconciliationApproval env true = inr ap →
  s.(custodyWithdrawals) !! id = Some x → candidate_of s id x = Some c →
  validateHistoricalWithdrawalRelease c (coreMatches c s) = inr rd → queue_check a = true → x.(cx_txid) = None →
  release env created now x.(cx_tenant_id) id s1 = inr ((rd, ap),
    set_withdrawalQueue (<[id := set_wa_last_error_at None (set_wa_last_error_code None (set_wa_locked_at None
       (set_wa_next_attempt_at now (set_wa_status "pending_release" a))))]> s1.(withdrawalQueue))
    (set_custodyWithdrawals (<[id := set_cx_reconciled_at (Some now) (set_cx_reconciled_by (Some ap.(ap_by))
       (set_cx_reconciliation_note (Some ap.(ap_reason)) (set_cx_status rd.(rd_resolution) x)))]>
       s.(custodyWithdrawals)) s1)).
Proof.
  intros a s1 Hap Hx Hc Hd Hq Htx. destruct (candidate_of_ok _ _ _ _ Hc) as (_&Hcx&_).
  pose proof (decision_ok _ _ _ Hd) as (Hres&_&Hst&_). pose proof (resolution_is_final _ _ Hres) as Hfin.
  assert (a.(wa_tenant_id) = x.(cx_tenant_id)) as Hta by (by simpl; rewrite Hcx).
  assert (s1.(withdrawalQueue) !! id = Some a) as Hqa by (simpl; by rewrite lookup_insert_eq).
  pose proof (held_row_held_under now0 c ap rd) as Hh. fold a in Hh.
  unfold release. rewrite Hap. run (proj2 (lift_ok _ _ _ _)); [done|].
  erewrite bind_run; [|apply exactCandidate_ok; split; [done|exists x; split_and!; [done|done|]; by apply candidate_queued]].
  run require_run; [simpl; by rewrite Hh|]. run gets_run.
  change (coreMatches (with_accounting a c) s1) with (coreMatches c s).
  change (validateHistoricalWithdrawalRelease (with_accounting a c) (coreMatches c s))
    with (validateHistoricalWithdrawalRelease c (coreMatches c s)). rewrite Hd.
  run (proj2 (lift_ok _ _ _ _)); [done|].
  run throw_if_run; [unfold differs, same; simpl; by rewrite !bool_decide_eq_true_2|].
  run custody_update_run; [exact Hx| | |].
  - rewrite String.eqb_refl, Htx. rewrite Hcx in Hst. by rewrite Hst.
  - unfold custody_status_check. simpl. rewrite includes_true in *. set_solver.
  - run throw_if_run; [done|]. run queue_update_run; [exact Hqa| | |].
    + by rewrite Hta, String.eqb_refl.
    + exact Hq.
    + run throw_if_run; [done|]. done.
Qed.

(** The phase of the worker accepts the evidence of a released row. *)
Lemma released_row_loads now t id s2 a x w k rd c :
  s2.(withdrawalQueue) !! id = Some a → s2.(custodyWithdrawals) !! id = Some x →
  s2.(custodyWallets) !! x.(cx_wallet_id) = Some w → s2.(sourceCustomers) !! a.(wa_customer_id) = Some k →
  a.(wa_tenant_id) = t → x.(cx_tenant_id) = t → w.(cw_tenant_id) = t → k.(sc_tenant_id) = t →
  a.(wa_status) = "pending_release" →
  queue_check (set_wa_locked_at (Some now) (set_wa_status "releasing" a)) = true →
  withdrawalTerminalResolution c = inr rd →
  c.(rc_callback_rejected) = callback_seen x.(cx_cregis_cid) ["2"; "4"] s2.(callbacks) →
  c.(rc_callback_failed) = callback_seen x.(cx_cregis_cid) ["7"] s2.(callbacks) →
  c.(rc_callback_completed) = callback_seen x.(cx_cregis_cid) ["6"] s2.(callbacks) →
  ∃ s3 row, claim_row now (id, "pending_release") s2 = inr ((id, "releasing"), s3) ∧
    load id "releasing" s3 = inr (row, s3) ∧ row.(wr_custody) = x ∧
    validateFinalCallbackEvidence row ToRelease s3 = inr (tt, s3).
Proof.
  intros Ha Hx Hw Hk Hat Hxt Hwt Hkt Hst Hq (Hc&Hr&_)%terminal_resolution_ok Er Ef Ec.
  set (a' := set_wa_locked_at (Some now) (set_wa_status "releasing" a)) in *.
  exists (set_withdrawalQueue (<[id := a']> s2.(withdrawalQueue)) s2). eexists. split; [|split; [|split]].
  - unfold claim_row, processingStatus. run require_run; [reflexivity|].
    run queue_update_run; [exact Ha|unfold in_status; rewrite Hst; done|exact Hq|]. by run throw_if_run.
  - unfold load. run gets_run. unfold load_row. simpl. rewrite lookup_insert_eq. simpl.
    rewrite Hx. simpl. rewrite Hw. simpl. rewrite Hk. simpl.
    rewrite Hat, Hxt, Hwt, Hkt, !String.eqb_refl. simpl. reflexivity.
  - done.
  - unfold validateFinalCallbackEvidence. simpl. destruct (opt_truthy x.(cx_cregis_cid)); [|done]. simpl.
    apply throw_if_run. rewrite <- Er, <- Ef, <- Ec, Hc, Hr. by destruct (rc_callback_failed c).
Qed.

(** A hold can be released: after a successful hold, a release by the same
    approver, for the same reason and against the same backup succeeds with the
    decision of the hold, whatever its time; the row is then queued for release
    with the links found at the hold, the custody withdrawal is rejected or failed
    as its callback says, no account, wallet, transfer, operation or journal entry
    has changed, and the worker that claims the row finds evidence it accepts. *)
Theorem hold_then_release env env' created now now' now'' t id s rd ap s1 :
  hold env created now t id s = inr ((rd, ap), s1) →
  withdrawalReconciliationApproval env' true = inr ap →
  (∀ x, s.(custodyWithdrawals) !! id = Some x → x.(cx_txid) ≠ Some "") →
  ∃ s2 a x s3 row, release env' created now' t id s1 = inr ((rd, ap), s2) ∧
    s2.(withdrawalQueue) !! id = Some a ∧ a.(wa_status) = "pending_release" ∧
    a.(wa_core_operation_id) = rd.(rd_operation) ∧ a.(wa_core_transfer_id) = rd.(rd_transfer) ∧
    s2.(custodyWithdrawals) !! id = Some x ∧ x.(cx_status) = rd.(rd_resolution) ∧
    includes ["rejected"; "failed"; "cancelled"] x.(cx_status) = true ∧ same_ledger s s2 ∧
    claim_row now'' (id, "pending_release") s2 = inr ((id, "releasing"), s3) ∧
    load id "releasing" s3 = inr (row, s3) ∧ row.(wr_custody) = x ∧
    validateFinalCallbackEvidence row ToRelease s3 = inr (tt, s3).
Proof.
  intros (_&x&c&Hx&Ht&Hc&_&Hd&_&Hcust&Hq&->)%tool_hold_ok Hap Htx.
  destruct (candidate_of_ok _ _ _ _ Hc) as (_&Hcx&Hw&Hwt&_&Er&Ef&Ec).
  pose proof (decision_ok _ _ _ Hd) as (Hres&Hev&_&_).
  assert (x.(cx_txid) = None) as Hnone.
  { unfold custody_evidence_incomplete in Hev. rewrite Hcx in Hev. specialize (Htx x Hx).
    rewrite !orb_false_iff in Hev. destruct Hev as (((((((_&Hn)&_)&_)&_)&_)&_)&_).
    destruct (cx_txid x) as [h|]; [|done]. simpl in Hn. unfold truthy in Hn. apply negb_false_iff, String.eqb_eq in Hn.
    by subst. }
  pose proof (release_run env' created now' now s id x c rd ap Hap Hx Hc Hd Hq Hnone) as Hrun. rewrite Ht in Hrun.
  unfold customer_exists in Hcust. destruct (s.(sourceCustomers) !! x.(cx_customer_id)) as [k|] eqn:Hk; [|done].
  apply String.eqb_eq in Hcust. pose proof (resolution_is_final _ _ Hres) as Hfin.
  set (a := set_wa_last_error_at None _) in Hrun. set (x' := set_cx_reconciled_at _ _) in Hrun.
  match type of Hrun with _ = inr (_, ?s2) =>
    destruct (released_row_loads now'' t id s2 a x' c.(rc_wallet) k rd.(rd_resolution) c) as (s3&row&Hcl&Hl&Hrow&Hv)
  end; simpl; try (by rewrite ?Hcx, ?lookup_insert_eq); try done; try congruence.
  eexists _, a, x', s3, row. split; [exact Hrun|]. simpl. rewrite !lookup_insert_eq. by split_and!.
Qed.

(** A linked operation is unposted and open. *)
Lemma core_match_open c s m :
  m ∈ coreMatches c s → validateCoreMatch c m = inr tt →
  ∃ k o, m.(cm_operation_id) = k ∧ k ≠ "" ∧ s.(operations) !! k = Some o ∧
    matches_withdrawal c (k, o) = true ∧ (o.(op_status) = SUBMITTED ∨ o.(op_status) = PROCESSING) ∧
    Forall (λ e, e.(entry_operationId) ≠ k) s.(journal).
Proof.
  unfold coreMatches. intros ([k o]&->&Hin)%list_elem_of_fmap Hv. apply find_many_elem in Hin as [Hk Hm].
  unfold validateCoreMatch in Hv. destruct (cm_transfer _) as [[tid tr]|]; [|done].
  apply first_error_ok in Hv. rewrite !Forall_cons in Hv. destruct Hv as (Hid&Hst&_&Hj&_).
  apply reject_if_ok in Hid, Hst, Hj. simpl in *. exists k, o. split; [done|]. split; [|split; [done|split; [done|split]]].
  - unfold core_identity_differs in Hid. simpl in Hid. rewrite !orb_false_iff in Hid.
    destruct Hid as ((((((((((Ht&He)&_)&_)&_)&_)&_)&_)&_)&_)&_). apply negb_false_iff in Ht, He.
    apply String.eqb_eq in He as ->. by intros ->.
  - apply orb_false_iff in Hst as [_ Hst%negb_false_iff]. destruct (op_status o); first [by left|by right|by vm_compute in Hst].
  - apply negb_false_iff, Nat.eqb_eq, length_zero_iff_nil in Hj. apply Forall_forall. intros e He <-.
    assert (e ∈ List.filter (λ e0, String.eqb e0.(entry_operationId) e.(entry_operationId)) s.(journal)) as Hin.
    { apply list_elem_of_In, List.filter_In. split; [by apply list_elem_of_In|apply String.eqb_refl]. }
    rewrite Hj in Hin. by apply not_elem_of_nil in Hin.
Qed.

(** A release rests on the hold and on the evidence: it succeeds only under
    the release approval of the environment, for a row held under that same
    approval, and a custody withdrawal without transaction id whose callbacks are
    exactly one of rejected and failed and never completed; a linked operation is
    still open and has no journal entry, an unlinked one has no counterpart in the
    core; no ledger table changes; and a second release is refused, whatever its
    approval. *)
Theorem release_is_approved env created now t id s rd ap s' :
  release env created now t id s = inr ((rd, ap), s') →
  withdrawalReconciliationApproval env true = inr ap ∧
  (∃ a x, s.(withdrawalQueue) !! id = Some a ∧ held_under ap a = true ∧
     s.(custodyWithdrawals) !! id = Some x ∧ x.(cx_tenant_id) = t ∧ x.(cx_txid) = None ∧
     callback_seen x.(cx_cregis_cid) ["6"] s.(callbacks) = false ∧
     callback_seen x.(cx_cregis_cid) ["2"; "4"] s.(callbacks) = negb (callback_seen x.(cx_cregis_cid) ["7"] s.(callbacks)) ∧
     (if rd.(rd_linked)
      then ∃ k o, rd.(rd_operation) = Some k ∧ s.(operations) !! k = Some o ∧
             (o.(op_status) = SUBMITTED ∨ o.(op_status) = PROCESSING) ∧ o.(op_customerId) = x.(cx_customer_id) ∧
             Forall (λ e, e.(entry_operationId) ≠ k) s.(journal)
      else ∀ k o, s.(operations) !! k = Some o → o.(op_customerId) = x.(cx_customer_id) →
             json_str (json_get "custodyWithdrawalId" o.(op_metadata)) ≠ Some id)) ∧
  same_ledger s s' ∧
  (∀ env' created' now' t' r, release env' created' now' t' id s' ≠ inr r).
Proof.
  intros (Hap&x&c&a&Hx&Ht&Hc&Ha&Hh&Hd&_&_&Htx&q&x'&->&_&->)%tool_release_ok. split; [done|].
  destruct (candidate_of_ok _ _ _ _ Hc) as (Hid&Hcx&_&_&_&Er&Ef&Ec).
  apply decision_ok in Hd as (Hres&_&_&Hms). apply terminal_resolution_ok in Hres as (Hc6&Hcr&_).
  split; [|split].
  - exists a, x. rewrite <- Er, <- Ef, <- Ec. split_and!; try done.
    destruct Hms as [(Hms&->&_)|(m&Hms&->&Hv&->&_)].
    + intros k o Hk Hcust Hj. assert ((k, o) ∈ find_many (matches_withdrawal c) s.(operations)) as Hin.
      { apply find_many_elem. split; [done|]. unfold matches_withdrawal. simpl. rewrite Hcx, Hcust, String.eqb_refl, Hj, Hid.
        unfold opt_eqb. by rewrite bool_decide_eq_true_2. }
      unfold coreMatches in Hms. apply map_eq_nil in Hms. rewrite Hms in Hin. by apply not_elem_of_nil in Hin.
    + destruct (core_match_open c s m) as (k&o&->&Hne&Hk&Hm&Hst&Hj); [rewrite Hms; by left|done|].
      exists k, o. split_and!; try done.
      * unfold or_null. simpl. unfold truthy. by destruct (String.eqb_spec k "").
      * unfold matches_withdrawal in Hm. apply andb_true_iff in Hm as [Hm%String.eqb_eq _]. simpl in Hm. congruence.
  - done.
  - intros env' created' now' t' [[rd' ap'] s2] (_&_&_&b&_&_&_&Hb&Hhb&_)%tool_release_ok. simpl in Hb.
    rewrite lookup_insert_eq in Hb. injection Hb as <-. by unfold held_under in Hhb.
Qed.
End withdrawals.

(** ** Hold and release of a deposit *)
Section deposits.
Context {DO : DecimalOps}.

Lemma safe_candidate_ok rows id c :
  requireSafeCandidate rows id = inr c → rows = [c] ∧ c.(dp_id) = id ∧ deposit_gate_incomplete c = false.
Proof.
  unfold requireSafeCandidate. destruct rows as [|r [|]]; [done| |done].
  destruct (String.eqb_spec r.(dp_id) id); [|done]. simpl. destruct (deposit_gate_incomplete r) eqn:E; [done|].
  intros [= <-]. done.
Qed.

Lemma deposit_rows_ok s t id c :
  deposit_rows s t id = [c] → ∃ d, s.(custodyDeposits) !! id = Some d ∧ deposit_candidate_of s t id d = Some c.
Proof.
  unfold deposit_rows. destruct (s.(custodyDeposits) !! id) as [d|]; [|done].
  destruct (deposit_candidate_of s t id d) as [c'|] eqn:E; [|done]. intros [= ->]. eauto.
Qed.

Lemma deposit_candidate_ok s t id d c :
  deposit_candidate_of s t id d = Some c →
  c.(dp_id) = id ∧ c.(dp_custody) = d ∧ s.(custodyWallets) !! d.(cd_wallet_id) = Some c.(dp_wallet) ∧
  s.(sourceCustomers) !! c.(dp_wallet).(cw_customer_id) = Some c.(dp_customer) ∧ d.(cd_tenant_id) = t ∧
  d.(cd_status) = "completed" ∧ c.(dp_wallet).(cw_tenant_id) = t ∧ c.(dp_customer).(sc_tenant_id) = t.
Proof.
  unfold deposit_candidate_of. intros (w&Hw&(k&Hk&H)%bind_Some)%bind_Some.
  destruct (_ && _) eqn:E; [|done]. rewrite !andb_true_iff, !String.eqb_eq in E. destruct E as (((->&?)&?)&?).
  injection H as <-. by simpl.
Qed.

(** What a successful hold of a deposit did. *)
Lemma hold_deposit_ok env now t id s c ap s1 :
  hold_deposit env now t id s = inr ((c, ap), s1) →
  approvedMutation env = inr ap ∧
  ∃ d, s.(custodyDeposits) !! id = Some d ∧ deposit_candidate_of s t id d = Some c ∧
    deposit_gate_incomplete c = false ∧ s.(depositQueue) !! id = None ∧
    s1 = set_depositQueue (<[id := held_deposit now c ap]> s.(depositQueue)) s.
Proof.
  unfold hold_deposit. intros H. apply bind_ok in H as (ap'&sa&[Ha ->]%lift_ok&H). split; [minvs; congruence|].
  apply bind_ok in H as (rows&sb&[-> ->]%gets_ok&H).
  apply bind_ok in H as (c'&sc&[(Hr&Hid&Hg)%safe_candidate_ok ->]%lift_ok&H).
  apply deposit_rows_ok in Hr as (d&Hd&Hc).
  apply bind_ok in H as (u0&sd&[_ ->]%throw_if_ok&H).
  apply bind_ok in H as (n&se&Hi&H). apply bind_ok in H as (u1&sf&[Hn ->]%throw_if_ok&H).
  apply ret_ok in H as [[= -> ->] ->]. rewrite Hid in Hi.
  apply insert_ignore_ok in Hi as [[-> _]|(_&Hq&_&->)]; [by guards|]. eauto 10.
Qed.

Lemma deposit_queue_update_run id p f s a :
  s.(depositQueue) !! id = Some a → p a = true → deposit_queue_check (f a) = true →
  deposit_queue_update id p f s = inr (1, set_depositQueue (<[id := f a]> s.(depositQueue)) s).
Proof. intros Ha Hp Hc. unfold deposit_queue_update, update_many_id. by rewrite Ha, Hp, Hc. Qed.

(** The gate of the tool is at least the worker's. *)
Lemma gate_implies_custody penv row c s :
  deposit_gate_incomplete c = false → row.(dw_custody) = c.(dp_custody) → row.(dw_wallet) = c.(dp_wallet) →
  row.(dw_customer) = c.(dp_customer) → row.(dw_queue).(da_tenant_id) = tenantId penv →
  row.(dw_queue).(da_customer_id) = c.(dp_wallet).(cw_customer_id) → c.(dp_custody).(cd_status) = "completed" →
  validateCustodyRow penv row s = inr (tt, s).
Proof.
  intros Hg Hd Hw Hk Ht Hc Hs. unfold deposit_gate_incomplete in Hg. rewrite !orb_false_iff in Hg.
  destruct Hg as ((((((((((?&?)&?)&?)&?)&?)&?)&?)&?)&?)&?). unfold CREGIS_USDT_TRC20_CURRENCY in *.
  unfold validateCustodyRow. rewrite Hd, Hw, Hk, Ht, Hc, Hs, !String.eqb_refl.
  repeat (run throw_if_run; [rewrite ?orb_false_iff; by split_and?|]).
  apply throw_if_run. rewrite !orb_false_iff. by split_and!.
Qed.

(** C19: A held deposit can be released and is then one the worker posts from:
    after a successful hold, a release under the same approval succeeds, changes no
    ledger table, and the row the worker claims and loads for it is the completed
    deposit that was held, which passes every check of [validateCustodyRow]; a
    second hold and a second release are refused. *)
Theorem deposit_hold_then_release env env' penv now now' now'' t id s c ap s1 :
  hold_deposit env now t id s = inr ((c, ap), s1) →
  approvedMutation env' = inr ap → env_is_true env' "DEPOSIT_RECONCILIATION_RELEASE_APPROVED" = true →
  tenantId penv = t →
  ∃ s2 s3 row, releaseDeposit env' now' t id s1 = inr (ap, s2) ∧ same_ledger s s2 ∧
    claim_deposit now'' id s2 = inr (id, s3) ∧ deposit_row s3 id = Some row ∧
    row.(dw_custody) = c.(dp_custody) ∧ c.(dp_custody).(cd_status) = "completed" ∧
    validateCustodyRow penv row s3 = inr (tt, s3) ∧
    (∀ env2 now2 r, hold_deposit env2 now2 t id s2 ≠ inr r) ∧
    (∀ env2 now2 r, releaseDeposit env2 now2 t id s2 ≠ inr r).
Proof.
  intros (_&d&Hd&Hc&Hg&_&->)%hold_deposit_ok Hap Hrel Hten.
  pose proof (deposit_candidate_ok _ _ _ _ _ Hc) as (Hid&Hcd&Hw&Hk&Ht&Hst&Hwt&Hkt).
  set (a := held_deposit now c ap). set (s1 := set_depositQueue _ _).
  assert (s1.(depositQueue) !! id = Some a) as Ha by (simpl; by rewrite lookup_insert_eq).
  set (a2 := set_da_last_error_at None (set_da_last_error_code None
               (set_da_next_attempt_at now' (set_da_status "pending" a)))).
  set (a3 := set_da_locked_at (Some now'') (set_da_status "processing" a2)).
  set (s2 := set_depositQueue (<[id := a2]> s1.(depositQueue)) s1).
  set (s3 := set_depositQueue (<[id := a3]> s2.(depositQueue)) s2).
  assert (deposit_row s3 id = Some {| dw_id := id; dw_queue := a3; dw_custody := d; dw_wallet := c.(dp_wallet);
                                      dw_customer := c.(dp_customer) |}) as Hrow.
  { unfold deposit_row. simpl. rewrite lookup_insert_eq. simpl. rewrite Hd. simpl. rewrite Hw. simpl. rewrite Hk. simpl.
    by rewrite Hcd, Ht, Hwt, Hkt, !String.eqb_refl. }
  exists s2, s3. eexists. split; [|split; [done|split; [|split; [exact Hrow|split; [by rewrite Hcd|split; [by rewrite Hcd|split; [|split]]]]]]].
  - unfold releaseDeposit. rewrite Hap. run (proj2 (lift_ok _ _ _ _)); [done|].
    run throw_if_run; [by rewrite Hrel|]. run deposit_queue_update_run; [exact Ha| |done|].
    + unfold deposit_held_under, opt_eqb. simpl. by rewrite Hcd, Ht, String.eqb_refl, !bool_decide_eq_true_2.
    + by run throw_if_run.
  - unfold claim_deposit. run deposit_queue_update_run; [simpl; by rewrite lookup_insert_eq|done|done|]. by run throw_if_run.
  - apply (gate_implies_custody _ _ c); simpl; try done; by rewrite ?Hcd, ?Hten.
  - intros env2 now2 [[c2 ap2] s4] (_&_&_&_&_&Hq&_)%hold_deposit_ok. simpl in Hq. by rewrite lookup_insert_eq in Hq.
  - intros env2 now2 [ap2 s4] H. unfold releaseDeposit in H.
    apply bind_ok in H as (ap3&?&[_ ->]%lift_ok&H). apply bind_ok in H as (u0&?&[_ ->]%throw_if_ok&H).
    apply bind_ok in H as (n&s5&Hn&H). apply bind_ok in H as (u1&s6&[Hone _]%throw_if_ok&_).
    apply update_many_id_ok in Hn as [(_&b&Hb&Hpb&_)|(->&_)]; [|done]. simpl in Hb. rewrite lookup_insert_eq in Hb.
    injection Hb as <-. simpl in Hpb. by rewrite andb_false_r in Hpb.
Qed.
End deposits.

(** ** The report *)
Section report.
Context {DO : DecimalOps}.

#[local] Instance by_priority_total : Total by_priority.
Proof. intros a b. unfold by_priority. lia. Qed.

(** A list shorter than its limit lists every row. *)
Lemma first_hundred_elem {V} rank (rows : list (string * V)) x :
  length (first_hundred rank rows) ≠ 100%nat → x ∈ rows → x ∈ first_hundred rank rows.
Proof.
  unfold first_hundred. rewrite length_take. intros Hl Hx.
  rewrite take_ge by lia. by rewrite merge_sort_Permutation.
Qed.

Lemma issue_listed {V} rank (f : string * V → ReconciliationIssue) p (tbl : gmap string V) lists k v :
  map f (first_hundred rank (find_many p tbl)) ∈ lists →
  existsb (λ l, Nat.eqb (length l) 100) lists = false → tbl !! k = Some v → p (k, v) = true →
  f (k, v) ∈ concat lists.
Proof.
  intros Hin Hn Hk Hp. apply list_elem_of_In, in_concat. eexists. split; [by apply list_elem_of_In|].
  apply in_map, list_elem_of_In, first_hundred_elem; [|by apply find_many_elem].
  rewrite <- (length_map f). intros Hl. apply not_true_iff_false in Hn. apply Hn, existsb_exists.
  eexists. split; [by apply list_elem_of_In|]. by apply Nat.eqb_eq.
Qed.

(** Rows that are not issues are accounted for. *)
Lemma deposit_not_issue t s k d :
  deposit_is_issue t s (k, d) = false → d.(cd_tenant_id) = t → d.(cd_status) = "completed" →
  ∃ a, s.(depositQueue) !! k = Some a ∧ a.(da_status) = "posted".
Proof.
  unfold deposit_is_issue. simpl. intros E Ht Hs. rewrite Ht, Hs, String.eqb_refl in E. simpl in E.
  unfold deposit_accounting_of in E. destruct (s.(depositQueue) !! k) as [a|]; [|done]. simpl in E.
  destruct (String.eqb a.(da_tenant_id) d.(cd_tenant_id)); [|done].
  exists a. split; [done|]. by apply negb_false_iff, String.eqb_eq in E.
Qed.
Lemma withdrawal_not_issue t s k x :
  withdrawal_is_issue t s (k, x) = false → x.(cx_tenant_id) = t →
  ∃ a, s.(withdrawalQueue) !! k = Some a ∧ (x.(cx_status) = "completed" → a.(wa_status) = "settled") ∧
       (includes ["rejected"; "failed"; "cancelled"] x.(cx_status) = true → a.(wa_status) = "released").
Proof.
  unfold withdrawal_is_issue. simpl. intros E Ht. rewrite Ht, String.eqb_refl in E. simpl in E.
  unfold withdrawal_accounting_of in E. destruct (s.(withdrawalQueue) !! k) as [a|]; [|done]. simpl in E.
  destruct (String.eqb a.(wa_tenant_id) x.(cx_tenant_id)); [|done].
  exists a. split; [done|]. rewrite !orb_false_iff in E. destruct E as (((((_&E1)&E2)&_)&_)&_).
  split; intros Hs; rewrite Hs in *; by apply String.eqb_eq, negb_false_iff.
Qed.
Lemma balance_not_issue org s k w :
  balance_is_issue org s (k, w) = false → in_organization org s w.(wal_customerId) = true →
  w.(wal_asset) = USDT → w.(wal_network) = TRON → w.(wal_status) = AS_ACTIVE →
  ∃ i a, mirrors_of s w.(wal_customerId) = [(i, a)] ∧ a.(acc_availableBalance) = w.(wal_availableBalance) ∧
         a.(acc_frozenBalance) = w.(wal_frozenBalance).
Proof.
  unfold balance_is_issue. simpl. intros E Ho Ha Hn Hs. rewrite Ho, Ha, Hn, Hs in E. unfold same in E. simpl in E.
  destruct (mirrors_of s w.(wal_customerId)) as [|[i a] [|]]; [done| |done].
  exists i, a. apply orb_false_iff in E as [?%negb_false_iff%Z.eqb_eq ?%negb_false_iff%Z.eqb_eq]. done.
Qed.

Lemma no_issue_no_list (lists : list (list ReconciliationIssue)) :
  concat lists = [] → existsb (λ l, Nat.eqb (length l) 100) lists = false.
Proof.
  intros Hz. apply not_true_iff_false. intros (l&Hin&Hlen%Nat.eqb_eq)%existsb_exists.
  destruct l as [|i l]; [done|]. assert (i ∈ concat lists) as Hi.
  { apply list_elem_of_In, in_concat. eexists. split; [exact Hin|by left]. }
  rewrite Hz in Hi. by apply not_elem_of_nil in Hi.
Qed.

(** The four lists hold the rows that are issues. *)
Lemma issue_lists_complete rank org t s :
  let lists := issue_lists rank true org t s in
  existsb (λ l, Nat.eqb (length l) 100) lists = false →
  (∀ k d, s.(custodyDeposits) !! k = Some d → deposit_is_issue t s (k, d) = true → deposit_issue s (k, d) ∈ concat lists) ∧
  (∀ k x, s.(custodyWithdrawals) !! k = Some x → withdrawal_is_issue t s (k, x) = true → withdrawal_issue s (k, x) ∈ concat lists) ∧
  (∀ k o, s.(operations) !! k = Some o → core_is_issue org s (k, o) = true → core_issue (k, o) ∈ concat lists) ∧
  (∀ k w, s.(wallets) !! k = Some w → balance_is_issue org s (k, w) = true → balance_issue s (k, w) ∈ concat lists).
Proof.
  intros lists Hn. split_and!; intros k v Hk Hp;
    (eapply issue_listed; [|exact Hn|exact Hk|exact Hp]); unfold lists, issue_lists;
    repeat first [apply list_elem_of_here|apply list_elem_of_further].
Qed.

(** The reconciliation report is complete and ordered: unless a list was
    truncated it contains every completed deposit that is not posted, every
    withdrawal whose accounting disagrees with its custody status, every linked
    core operation without an accounting row and every active USDT wallet its
    account does not mirror, each with its triage, the most urgent first; so an
    empty report on an installed custody schema means that completed deposits are
    posted, completed withdrawals settled, refused ones released, and that each
    active USDT wallet of the organisation has exactly one active account, with
    its balances. *)
Theorem report_complete env rank actor org s rep s' :
  reconcileUsdt env rank true actor org s = inr (rep, s') →
  let t := trim_or env.(NEOBANK_SOURCE_TENANT_ID) "neobank" in
  s' = s ∧ Sorted by_priority rep.(rr_issues) ∧ length rep.(rr_issues) = rep.(rr_issueCount) ∧
  (rep.(rr_truncated) = false →
     let listed i := (i, triageReconciliationIssue i) ∈ rep.(rr_issues) in
     (∀ k d, s.(custodyDeposits) !! k = Some d → deposit_is_issue t s (k, d) = true → listed (deposit_issue s (k, d))) ∧
     (∀ k x, s.(custodyWithdrawals) !! k = Some x → withdrawal_is_issue t s (k, x) = true → listed (withdrawal_issue s (k, x))) ∧
     (∀ k o, s.(operations) !! k = Some o → core_is_issue org s (k, o) = true → listed (core_issue (k, o))) ∧
     (∀ k w, s.(wallets) !! k = Some w → balance_is_issue org s (k, w) = true → listed (balance_issue s (k, w)))) ∧
  (rep.(rr_issueCount) = 0%nat →
     (∀ k d, s.(custodyDeposits) !! k = Some d → d.(cd_tenant_id) = t → d.(cd_status) = "completed" →
        ∃ a, s.(depositQueue) !! k = Some a ∧ a.(da_status) = "posted") ∧
     (∀ k x, s.(custodyWithdrawals) !! k = Some x → x.(cx_tenant_id) = t →
        ∃ a, s.(withdrawalQueue) !! k = Some a ∧ (x.(cx_status) = "completed" → a.(wa_status) = "settled") ∧
             (includes ["rejected"; "failed"; "cancelled"] x.(cx_status) = true → a.(wa_status) = "released")) ∧
     (∀ k w, s.(wallets) !! k = Some w → in_organization org s w.(wal_customerId) = true →
        w.(wal_asset) = USDT → w.(wal_network) = TRON → w.(wal_status) = AS_ACTIVE →
        ∃ i a, mirrors_of s w.(wal_customerId) = [(i, a)] ∧ a.(acc_availableBalance) = w.(wal_availableBalance) ∧
               a.(acc_frozenBalance) = w.(wal_frozenBalance))).
Proof.
  intros H t. unfold reconcileUsdt in H. apply bind_ok in H as (u&s1&(->&_)%requireOrganizationAccess_ok&H).
  apply bind_ok in H as (lists&s2&[Hl ->]%gets_ok&H). apply ret_ok in H as [-> ->]. simpl. fold t in Hl |- *.
  pose proof (issue_lists_complete rank org t s) as Hall. cbv zeta in Hall. rewrite <- Hl in Hall. clear Hl.
  split; [done|]. split; [apply (Sorted_merge_sort _)|]. split; [by rewrite merge_sort_Permutation, length_map|]. split.
  - intros Hn. destruct (Hall Hn) as (HD&HW&HC&HB).
    split_and!; intros k v Hk Hp; rewrite merge_sort_Permutation; apply list_elem_of_fmap; eexists; (split; [reflexivity|]); auto.
  - intros Hz. apply length_zero_iff_nil in Hz. rewrite Hz in Hall.
    destruct Hall as (HD&HW&_&HB); [by apply no_issue_no_list|].
    split_and!.
    + intros k d Hk. destruct (deposit_is_issue t s (k, d)) eqn:E; [by apply HD, not_elem_of_nil in E|].
      by apply (deposit_not_issue t).
    + intros k x Hk. destruct (withdrawal_is_issue t s (k, x)) eqn:E; [by apply HW, not_elem_of_nil in E|].
      by apply (withdrawal_not_issue t).
    + intros k w Hk. destruct (balance_is_issue org s (k, w)) eqn:E; [by apply HB, not_elem_of_nil in E|].
      by apply (balance_not_issue org _ k).
Qed.
End report.

(** ** Witnesses *)
Definition approved_env : Environment := λ name,
  match name with
  | "WITHDRAWAL_RECONCILIATION_APPROVED" | "WITHDRAWAL_RECONCILIATION_RELEASE_APPROVED" | "DEPOSIT_RECONCILIATION_APPROVED"
  | "DEPOSIT_RECONCILIATION_RELEASE_APPROVED" | "POSTGRES_RESTORE_TESTED" => Some "true"
  | "POSTGRES_BACKUP_SHA256" => Some "0123456789abcdef0123456789abcdef0123456789abcdef0123456789ABCDEF"
  | "WITHDRAWAL_RECONCILIATION_APPROVED_BY" | "DEPOSIT_RECONCILIATION_APPROVED_BY" => Some " finance lead "
  | "WITHDRAWAL_RECONCILIATION_REASON" | "DEPOSIT_RECONCILIATION_REASON" => Some "historic movement, reviewed"
  | _ => None
  end.
(** A withdrawal reserved in the core whose accounting row was lost, and a
    completed deposit that was never enqueued. *)
Definition historic_row : CregisWithdrawal :=
  MkCregisWithdrawal "neobank" "cus" "cw" "195@TR7NHqjeKQxGTCi8q8ZY4pL8otSzgjLj6t" "10" 10000000 "1" 1000000 "9" 9000000
    sample_address sample_address "exception" (Some "cid") None "maker" (Some "ops@bank") (Some "ops@bank")
    None None None None (Some (to_iso now0)) None.
Definition historic_deposit : CregisDeposit :=
  MkCregisDeposit "neobank" "cw" "c1" "195" "TR7NHqjeKQxGTCi8q8ZY4pL8otSzgjLj6t"
    "195@TR7NHqjeKQxGTCi8q8ZY4pL8otSzgjLj6t" sample_address (Some "sender") "12.5" 12500000 "completed" (Some "tx")
    (to_iso now0) "hash".
Definition db_historic : Db :=
  let s := after reserve_run db_custody_refused in
  MkDb s.(users) s.(customers) s.(accounts) s.(wallets) s.(beneficiaries) s.(channels) s.(rateVersions) s.(operations)
    s.(transfers) s.(journal) s.(feeRules) s.(vaRequests) s.(vaEvents) s.(outbox) ∅ ∅ {[ "x1" := historic_row ]}
    {[ "d1" := historic_deposit ]} s.(custodyWallets) s.(sourceCustomers) s.(callbacks) s.(adminUsers).
Definition by_id (_ : string) : Z := 0.
Definition hold_run : M Db (ReleaseDecision * Approval) := hold approved_env by_id now0 "neobank" "x1".
Definition release_run' : M Db (ReleaseDecision * Approval) := release approved_env by_id now0 "neobank" "x1".
Definition approval0 : Approval :=
  {| ap_by := "finance lead"; ap_reason := "historic movement, reviewed";
     ap_backup := "0123456789abcdef0123456789abcdef0123456789abcdef0123456789abcdef" |}.
Definition decision0 : ReleaseDecision :=
  {| rd_resolution := "rejected"; rd_linked := true; rd_operation := Some "c1"; rd_transfer := Some "c1" |}.
Lemma hold_run_ok : hold_run db_historic = inr ((decision0, approval0), after hold_run db_historic).
Proof.
  assert (returns hold_run id db_historic = Some (decision0, approval0)) as R by runs.
  apply run_returns in R as (b&Hb&H). unfold id in Hb. subst b. exact H.
Qed.

Lemma report_offers_releases_witness :
  ∃ c, candidate_of db_historic "x1" historic_row = Some c ∧
    (triageReconciliationIssue (withdrawal_issue db_historic ("x1", historic_row))).(manual_reconciliation_eligible) = true.
Proof.
  destruct (candidate_of db_historic "x1" historic_row) as [c|] eqn:E; [|exfalso; by vm_compute in E].
  exists c. split; [done|]. assert (c.(rc_accounting) = None) as Ha by (vm_compute in E; by injection E as <-).
  pose proof (report_offers_releases _ _ _ _ E Ha) as (_&He&_). apply He. split; [|done].
  exists "rejected". vm_compute in E. by injection E as <-.
Defined.

Lemma hold_then_release_witness :
  hold_run db_historic = inr ((decision0, approval0), after hold_run db_historic) ∧
  ∃ s2, release approved_env by_id (now0 + 5) "neobank" "x1" (after hold_run db_historic) =
    inr ((decision0, approval0), s2).
Proof.
  pose proof hold_run_ok as H. split; [exact H|]. unfold hold_run in H at 1.
  destruct (hold_then_release approved_env approved_env by_id now0 (now0 + 5) now0 "neobank" "x1" db_historic decision0
              approval0 (after hold_run db_historic)) as (s2&_&_&_&_&H2&_); [exact H|runs| |by exists s2].
  intros x Hx. vm_compute in Hx. by injection Hx as <-.
Defined.

Lemma release_is_approved_witness :
  ∃ o, (after hold_run db_historic).(operations) !! "c1" = Some o ∧ (o.(op_status) = SUBMITTED ∨ o.(op_status) = PROCESSING) ∧
    ∀ r, release approved_env by_id now0 "neobank" "x1" (after release_run' (after hold_run db_historic)) ≠ inr r.
Proof.
  assert (returns release_run' id (after hold_run db_historic) = Some (decision0, approval0)) as R by runs.
  apply run_returns in R as ([rd ap]&Hb&H). unfold id in Hb. unfold release_run' in H at 1.
  destruct (release_is_approved _ _ _ _ _ _ _ _ _ H) as (_&(a&x&_&_&_&_&_&_&_&Hl)&_&Hno).
  injection Hb as -> ->. destruct Hl as (k&o&[= <-]&Hk&Hst&_). exists o. split; [exact Hk|]. split; [exact Hst|]. intros r. apply Hno.
Defined.

Definition hold_deposit_run : M Db (DepositCandidate * Approval) := hold_deposit approved_env now0 "neobank" "d1".
Lemma deposit_hold_then_release_witness :
  ∃ s2, releaseDeposit approved_env now0 "neobank" "d1" (after hold_deposit_run db_historic) = inr (approval0, s2).
Proof.
  assert (returns hold_deposit_run snd db_historic = Some approval0) as R by runs.
  apply run_returns in R as ([c ap]&Hb&H). simpl in Hb. subst ap. unfold hold_deposit_run in H at 1.
  destruct (deposit_hold_then_release approved_env approved_env env0 now0 now0 now0 "neobank" "d1" db_historic c approval0
              (after hold_deposit_run db_historic)) as (s2&_&_&H2&_); [exact H|runs|runs|runs|]. by exists s2.
Defined.

Definition report_run : M Db ReconciliationReport := reconcileUsdt env0 by_id true "adm" "org".
Lemma report_complete_witness :
  ∃ rep, report_run db_historic = inr (rep, db_historic) ∧
    (withdrawal_issue db_historic ("x1", historic_row),
     resolution withdrawal_release_reconciliation high release_after_approval true) ∈ rep.(rr_issues).
Proof.
  assert (returns report_run rr_truncated db_historic = Some false) as R by runs.
  apply run_returns in R as (rep&Ht&H). exists rep. unfold report_run in H at 1.
  destruct (report_complete _ _ _ _ _ _ _ H) as (Hs&_&_&Hl&_). destruct (Hl Ht) as (_&HW&_).
  split; [rewrite Hs in H; exact H|]. apply (HW "x1" historic_row); runs.
Defined.
