(* ===== verification/CoreReads.v ===== *)
(** What the core's handlers read out: the lists and the details of operations, transfers,
    wallets, accounts, customers, requests and journals, as the routes ask for them
    ([operations/operations.service.ts], [crypto-wallets/crypto-wallets.service.ts],
    [ledger/ledger.controller.ts], with the reads of [Accounts] and [CustomerRecords]).

    The order of a list is what its ORDER BY says, a class; the rows of the raw query
    for the custody wallet are an argument.  An absent customer's id reads as the empty
    one, which no row has. *)
From S2P Require Import Prelude Decimals Schema JsNumber Access Ledger WithdrawalFees Operations Accounts TronAddress CryptoWallets Customers VirtualAccounts CustomerRecords Reconciliation Controllers.
From Stdlib Require Import Ascii SpecFloat.

(** ** Orders and filters *)
(** [orderBy] and its clause; ties are the database's. *)
Class RowOrder := {
  order_by : string → ∀ A, list A → list A;
  order_law : ∀ clause A (l : list A), order_by clause A l ≡ₚ l;
}.
Arguments order_by {_} clause {A} l.
(** The value of an enumeration that a query parameter names; an empty one is no filter,
    an unknown one is refused by the client of the database. *)
Definition enum_filter {A} (show : A → string) (all : list A) (text : option string) : exn + option A :=
  match text with
  | Some x =>
      if truthy x then
        match List.find (λ a, String.eqb (show a) x) all with
        | Some a => inr (Some a)
        | None => inl (PlainError "PrismaClientValidationError")
        end
      else inr None
  | None => inr None
  end.
Definition matches {A} `{EqDecision A} (filter : option A) (a : A) : bool :=
  match filter with Some b => same a b | None => true end.
Definition operation_statuses : list OperationStatus :=
  [DRAFT; SUBMITTED; APPROVED; REJECTED; PROCESSING; COMPLETED; FAILED; CANCELLED].
Definition operation_types : list OperationType := [DEPOSIT; PAYOUT; ADJUSTMENT; INTERNAL_TRANSFER; FX; OTC; VA_OPENING_FEE].
Definition transfer_statuses : list CryptoTransferStatus := [TS_SUBMITTED; TS_PROCESSING; TS_COMPLETED; TS_REJECTED; TS_FAILED].
Definition direction_text (d : CryptoTransferDirection) : string :=
  match d with TD_DEPOSIT => "DEPOSIT" | TD_WITHDRAWAL => "WITHDRAWAL" end.
Definition customer_status_text (st : CustomerStatus) : string :=
  match st with
  | CS_DRAFT => "DRAFT" | CS_PENDING_REVIEW => "PENDING_REVIEW" | CS_ACTIVE => "ACTIVE"
  | CS_CHANGES_REQUESTED => "CHANGES_REQUESTED" | CS_REJECTED => "REJECTED" | CS_SUSPENDED => "SUSPENDED"
  end.
Definition customer_statuses : list CustomerStatus :=
  [CS_DRAFT; CS_PENDING_REVIEW; CS_ACTIVE; CS_CHANGES_REQUESTED; CS_REJECTED; CS_SUSPENDED].
Definition kind_text (k : AccountKind) : string :=
  match k with
  | SYSTEM_WALLET => "SYSTEM_WALLET" | VIRTUAL_ACCOUNT => "VIRTUAL_ACCOUNT" | CRYPTO_WALLET => "CRYPTO_WALLET"
  | PLATFORM_CLEARING => "PLATFORM_CLEARING" | FEE_REVENUE => "FEE_REVENUE"
  end.
Definition account_kinds : list AccountKind := [SYSTEM_WALLET; VIRTUAL_ACCOUNT; CRYPTO_WALLET; PLATFORM_CLEARING; FEE_REVENUE].
Definition currencies : list Currency := [USD; SGD; HKD; EUR; GBP; USDT].

(** The integer a number is: [Number.isInteger]. *)
Definition n_integer (x : number) : option Z :=
  match x with
  | S754_zero _ => Some 0
  | S754_finite negative m e =>
      let v := if negative then Zneg m else Zpos m in
      if 0 <=? e then Some (v * 2 ^ e) else if v mod 2 ^ (- e) =? 0 then Some (v / 2 ^ (- e)) else None
  | _ => None
  end.

(** ** Operations *)
(** [customer: { organizationId }] *)
Definition customer_in (s : Db) (organizationId customerId : string) : bool :=
  match s.(customers) !! customerId with Some c => String.eqb c.(cust_organizationId) organizationId | None => false end.
(** [metadata: { path: ['cryptoTransferId'], equals: AnyNull }]: absent, or null. *)
Definition crypto_absent (o : Operation) : bool :=
  match json_get "cryptoTransferId" o.(op_metadata) with None | Some JNull => true | _ => false end.
(** The number of rows asked for. *)
Definition operations_limit (text : option string) : exn + option nat :=
  match text with
  | Some x =>
      match n_integer (n_of_string x) with
      | Some n => if (n <? 1) || (100 <? n) then inl (BadRequest "invalid_operations_limit") else inr (Some (Z.to_nat n))
      | None => inl (BadRequest "invalid_operations_limit")
      end
  | None => inr None
  end.
Definition taken {A} (limit : option nat) (rows : list A) : list A :=
  match limit with Some n => take n rows | None => rows end.

Section reads.
Context {DO : DecimalOps} {JD : JsDates} {RO : RowOrder}.
Context (sha256 : list Z → list Z) (newId : string → string)
  (source_rows : list NeobankCustomer) (verified_wallets : list VerifiedCregisWallet).
Context (round_number : D → Z).

(** [OperationsService.list] *)
Definition list_operations (filters : OperationFilters) (userId : string) : M Db (list (string * Operation)) :=
  let organizationId := default "" filters.(of_organizationId) in
  let! limit := lift (operations_limit filters.(of_limit)) in
  let! _ := requireOrganizationAccess userId organizationId in
  let! status := lift (enum_filter operation_status_text operation_statuses filters.(of_status)) in
  let! type := lift (enum_filter operation_type_text operation_types filters.(of_type)) in
  gets (λ s, taken limit (order_by "createdAt desc" (find_many (λ ko : string * Operation,
    customer_in s organizationId ko.2.(op_customerId) && crypto_absent ko.2 &&
    match status with Some st => same ko.2.(op_status) st | None => differs ko.2.(op_status) DRAFT end &&
    matches type ko.2.(op_type) &&
    (negb (opt_truthy filters.(of_customerId)) || String.eqb ko.2.(op_customerId) (default "" filters.(of_customerId))))
    s.(operations)))).
(** [OperationsService.approvals] *)
Definition approvals (organizationId userId : string) : M Db (list (string * Operation)) :=
  let! user := requireOrganizationAccess userId organizationId in
  gets (λ s, order_by "submittedAt desc" (find_many (λ ko : string * Operation,
    customer_in s organizationId ko.2.(op_customerId) && same ko.2.(op_status) SUBMITTED &&
    differs ko.2.(op_type) VA_OPENING_FEE && crypto_absent ko.2 &&
    (same user.(user_role) ADMIN || negb (String.eqb ko.2.(op_makerId) userId))) s.(operations))).
(** [OperationsService.get], with the journals of the operation. *)
Definition entries_of (id : string) (entries : list JournalEntry) : list JournalEntry :=
  List.filter (λ e, String.eqb e.(entry_operationId) id) entries.
Definition get_operation (id userId : string) : M Db (Operation * list JournalEntry) :=
  let! user := requireActiveUser userId in
  let! row := find_unique operations id in
  let! o := require row (NotFound "operation_not_found") in
  let! customer := find_unique customers o.(op_customerId) in
  do! throw_if (differs (cust_organizationId <$> customer) user.(user_organizationId)) (NotFound "operation_not_found");
  gets (λ s, (o, entries_of id s.(journal))).
(** [LedgerController.list]: the newest five hundred entries. *)
Definition list_journal (organizationId userId : string) (customerId currency : option string) :
    M Db (list (JournalEntry * Operation)) :=
  let! _ := requireOrganizationAccess userId organizationId in
  let! currency := lift (enum_filter currency_text currencies currency) in
  gets (λ s, take 500 (order_by "postedAt desc" (omap (λ e,
    match s.(operations) !! e.(entry_operationId) with
    | Some o =>
        if customer_in s organizationId o.(op_customerId) &&
           (negb (opt_truthy customerId) || String.eqb o.(op_customerId) (default "" customerId)) &&
           matches currency o.(op_currency) then Some (e, o) else None
    | None => None
    end) s.(journal)))).

(** ** Wallets and transfers *)
(** The answer of the query: the customer's active, verified TRON USDT wallets. *)
Record VerifiedSource := { vs_address : string; vs_ownership_verified_at : string }.
Record WalletView := {
  wv_id : string; wv_row : CryptoWallet; wv_withdrawalFee : D; wv_withdrawalFeeRuleVersion : string;
  wv_walletAddress : string; wv_custodyProvider : option string; wv_ownershipVerifiedAt : option string;
  wv_depositEnabled : bool;
}.
(** A transfer with its wallet, whose addresses are blanked. *)
Record TransferView := { tv_id : string; tv_row : CryptoTransfer; tv_toAddress : string; tv_wallet : option CryptoWallet }.
Definition verifiedCregisWalletSource (env : ProcessEnv) (rows : list VerifiedSource) : exn + option VerifiedSource :=
  if negb (has_tenant env) then inr None
  else match rows with
       | _ :: _ :: _ => inl (Conflict "core_crypto_wallet_source_conflict")
       | [] => inr None
       | [source] => if isValidTronAddress sha256 source.(vs_address) then inr (Some source)
                     else inl (Conflict "core_crypto_wallet_source_address_invalid")
       end.
Definition shown_wallet (customerId : string) (kw : string * CryptoWallet) : bool :=
  String.eqb kw.2.(wal_customerId) customerId && same kw.2.(wal_asset) supportedCryptoAsset &&
  same kw.2.(wal_network) supportedCryptoNetwork && same kw.2.(wal_status) AS_ACTIVE.
Definition binding_conflict (source : VerifiedSource) (kw : string * CryptoWallet) : bool :=
  truthy kw.2.(wal_walletAddress) && negb (String.eqb kw.2.(wal_walletAddress) source.(vs_address)).
Definition wallet_view (fee : ResolvedFee) (source : option VerifiedSource) (kw : string * CryptoWallet) : WalletView :=
  {| wv_id := kw.1; wv_row := kw.2; wv_withdrawalFee := fee.(fee_amount); wv_withdrawalFeeRuleVersion := fee.(fee_version);
     wv_walletAddress := from_option vs_address "" source;
     wv_custodyProvider := (λ _, "CREGIS") <$> source;
     wv_ownershipVerifiedAt := vs_ownership_verified_at <$> source;
     wv_depositEnabled := is_some source |}.
Definition listWallets (env : ProcessEnv) (rows : list VerifiedSource) (customerId userId : string) : M Db (list WalletView) :=
  let! customer := requireCustomerTenant customerId userId in
  let! fee := resolve {|
    fs_scopeId := trim_or env.(NEOBANK_SOURCE_TENANT_ID) customer.(cust_organizationId);
    fs_customerId := Some customerId; fs_assetClass := "CRYPTO"; fs_currency := supportedCryptoAsset;
    fs_method := "ON_CHAIN"; fs_channelCode := "CREGIS"; fs_network := Some supportedCryptoNetworkText;
    fs_expectedVersion := None |} in
  let! wallets := gets (λ s, order_by "network asc" (find_many (shown_wallet customerId) s.(wallets))) in
  let! source := lift (verifiedCregisWalletSource env rows) in
  do! throw_if (match source with Some x => existsb (binding_conflict x) wallets | None => false end)
        (Conflict "core_crypto_wallet_binding_conflict");
  ret (map (wallet_view fee source) wallets).
Definition transfer_view (s : Db) (kt : string * CryptoTransfer) : TransferView :=
  {| tv_id := kt.1; tv_row := kt.2;
     tv_toAddress := if same kt.2.(tr_direction) TD_DEPOSIT then "" else kt.2.(tr_toAddress);
     tv_wallet := set_wal_walletAddress "" <$> s.(wallets) !! kt.2.(tr_walletId) |}.
Definition listTransfers (customerId userId : string) (direction status : option string) : M Db (list TransferView) :=
  let! _ := requireCustomerTenant customerId userId in
  let! direction := lift (enum_filter direction_text [TD_DEPOSIT; TD_WITHDRAWAL] direction) in
  let! status := lift (enum_filter transfer_status_text transfer_statuses status) in
  gets (λ s, map (transfer_view s) (order_by "createdAt desc" (find_many (λ kt : string * CryptoTransfer,
    String.eqb kt.2.(tr_customerId) customerId && same kt.2.(tr_asset) supportedCryptoAsset &&
    same kt.2.(tr_network) supportedCryptoNetwork && matches direction kt.2.(tr_direction) &&
    matches status kt.2.(tr_status)) s.(transfers)))).
(** [qrCode] has none to give. *)
Definition qrCode (id customerId userId : string) : M Db unit :=
  let! _ := requireCustomerTenant customerId userId in
  let! row := find_unique wallets id in
  do! throw_if (match row with Some w => negb (shown_wallet customerId (id, w)) | None => true end)
        (NotFound "crypto_wallet_not_found");
  throw (Conflict "crypto_deposit_unavailable_until_cregis_ownership_verified").

(** ** The reads of the routes *)
Inductive CoreAnswer :=
| A_operations (rows : list (string * Operation))
| A_operation (o : Operation) (entries : list JournalEntry)
| A_journal (rows : list (JournalEntry * Operation))
| A_wallets (rows : list WalletView)
| A_transfers (rows : list TransferView)
| A_accounts (rows : list (string * Account))
| A_summary (summary : AssetSummary)
| A_customers (rows : list CustomerView)
| A_requests (rows : list VaRequestView)
| A_nothing.
Definition read_as {A} (answer : A → CoreAnswer) (read : M Db A) : Db → Db * (exn + CoreAnswer) :=
  run_read (let! a := read in ret (answer a)).
Definition answer_as {A} (answer : A → CoreAnswer) (outcome : Db * (exn + A)) : Db * (exn + CoreAnswer) :=
  (outcome.1, match outcome.2 with inl e => inl e | inr a => inr (answer a) end).
Definition va_actor (a : RequestActor) : VaRequestActor :=
  {| va_actor_userId := a.(ra_userId); va_actor_customerId := a.(ra_customerId); va_actor_email := a.(ra_email) |}.
(** What a call of the services shows; [None] for those that write, or show no
    customer's rows.  [custody] and [created_by] answer the raw queries. *)
Definition serve_read (env : ProcessEnv) (now : Z) (custody : string → list VerifiedSource)
    (created_by : string → list (option string)) (call : CoreCall) : option (Db → Db * (exn + CoreAnswer)) :=
  match call with
  | OperationsList filters u => Some (read_as A_operations (list_operations filters u))
  | OperationsApprovals organization u => Some (read_as A_operations (approvals (default "" organization) u))
  | OperationsGet id u => Some (read_as (λ oe, A_operation oe.1 oe.2) (get_operation id u))
  | LedgerList organization u customer currency =>
      Some (read_as A_journal (list_journal (default "" organization) u customer currency))
  | CryptoListWallets customer u =>
      let customerId := default "" customer in Some (read_as A_wallets (listWallets env (custody customerId) customerId u))
  | CryptoListTransfers customer u direction status =>
      Some (read_as A_transfers (listTransfers (default "" customer) u direction status))
  | CryptoQrCode id customer u => Some (read_as (λ _, A_nothing) (qrCode id (default "" customer) u))
  | AccountsList customer u kind =>
      Some (read_as A_accounts
        (let! _ := requireCustomerAccess u (default "" customer) in
         let! kind := lift (enum_filter kind_text account_kinds kind) in
         list_accounts (order_by "kind asc, currency asc") (default "" customer) u kind))
  | AccountsSummary customer u => Some (read_as A_summary (summary round_number now (default "" customer) u))
  | AccountsGet id u => Some (read_as (λ a, A_accounts [(id, a)]) (get_account id u))
  | CustomersList organization u status => Some (λ s,
      let list filter := list_customers sha256 newId source_rows verified_wallets env (order_by "createdAt desc")
                           (default "" organization) u filter s in
      match enum_filter customer_status_text customer_statuses status with
      | inr filter => answer_as A_customers (list filter)
      | inl e => ((list None).1, match (list None).2 with inl e' => inl e' | inr _ => inl e end)
      end)
  | CustomersGet id u => Some (λ s, answer_as (λ v, A_customers [v])
      (get_customer sha256 newId source_rows verified_wallets env (order_by "createdAt desc") (order_by "createdAt desc")
         (created_by id) id u s))
  | ListVirtualAccountRequests id actor => Some (λ s, answer_as A_requests
      (listVirtualAccountRequests sha256 newId source_rows verified_wallets env (order_by "createdAt desc") id (va_actor actor) s))
  | VaRequestsList organization u =>
      Some (read_as A_requests (listVirtualAccountRequestsForOrganization (order_by "createdAt desc") (default "" organization) u))
  | _ => None
  end.
End reads.
