(* ===== verification/ClientViews.v ===== *)
(** What pages make of the rows of the custody service: customers
    ([src/src/features/customers/neobank-customer.ts]) and their labels
    ([pages/dashboard/customer-management.tsx]), the movements of USDT of the portal
    ([pages/portal/crypto-wallet.tsx]) and of the administrators
    ([pages/dashboard/crypto-operations.tsx]).

    Both the pages and the core's import read the state of a customer from the same row;
    the theorem at the end says when they read the same. *)
From S2P Require Import Prelude Decimals Schema JsNumber EdgeWorker ClientAccess ClientApi ClientFinance Customers CoreReads.
From Stdlib Require Import Ascii.

(** ** Customers *)
(** The columns that the pages map; a count is a whole number. *)
Record NeobankCustomerRecord := {
  nr_id : string; nr_email : string; nr_display_name : string;
  nr_status : string; nr_kyc_status : string; nr_operations_status : string;
  nr_account_type : option string; nr_phone_country_code : option string; nr_phone : option string;
  nr_residence_country : option string; nr_full_name : option string; nr_date_of_birth : option string;
  nr_nationality : option string; nr_legal_name : option string; nr_registration_number : option string;
  nr_incorporation_country : option string; nr_contact_name : option string; nr_contact_role : option string;
  nr_beneficial_owner_name : option string; nr_beneficial_owner_ownership : option string;
  nr_wallet_count : option Z; nr_wallet_status : option string; nr_wallet_deposit_enabled : option json;
  nr_created_at : option string; nr_activated_at : option string; nr_activated_by : option string;
  nr_kyc_reviewed_at : option string; nr_kyc_reviewed_by : option string; nr_kyc_review_note : option string;
  nr_application_submitted_at : option string;
}.
(** [Customer] of [core-api.ts], the members read here. *)
Record ClientCustomer := {
  pc_id : string; pc_organizationId : string; pc_type : string; pc_status : string; pc_displayName : string;
  pc_legalName : string; pc_email : string; pc_phone : option string; pc_phoneCountryCode : option string;
  pc_countryCode : string; pc_registrationNo : option string; pc_dateOfBirth : option string;
  pc_nationality : option string; pc_contactName : option string; pc_contactRole : option string;
  pc_beneficialOwnerName : option string; pc_beneficialOwnerOwnership : option string; pc_kycStatus : string;
  pc_kycReviewerId : option string; pc_kycReviewedAt : option string; pc_kycReviewNote : option string;
  pc_accounts : list MoneyAccount; pc_walletCount : option Z; pc_walletStatus : option string;
  pc_reviewerId : option string; pc_reviewedAt : option string; pc_createdAt : option string;
}.
(** [x || undefined] *)
Definition or_undefined (x : option string) : option string := or_string x None.
(** The assignments of [mapNeobankCustomer], in order: a later one replaces an earlier one. *)
Definition mapped_status (row : NeobankCustomerRecord) : string :=
  let status := "PENDING_REVIEW" in
  let status := if String.eqb row.(nr_kyc_status) "rejected" then "REJECTED" else status in
  let status := if String.eqb row.(nr_status) "suspended" || String.eqb row.(nr_status) "closed" then "SUSPENDED" else status in
  if String.eqb row.(nr_status) "active" && String.eqb row.(nr_operations_status) "active" then "ACTIVE" else status.
Definition mapped_kycStatus (row : NeobankCustomerRecord) : string :=
  let kycStatus := if String.eqb row.(nr_kyc_status) "rejected" then "REJECTED" else "PENDING" in
  if String.eqb row.(nr_kyc_status) "approved" then "APPROVED" else kycStatus.
Definition mapNeobankCustomer (demoOrganizationId : string) (row : NeobankCustomerRecord) : ClientCustomer :=
  {| pc_id := row.(nr_id); pc_organizationId := demoOrganizationId;
     pc_type := if opt_eqb row.(nr_account_type) (Some "business") then "BUSINESS" else "INDIVIDUAL";
     pc_status := mapped_status row; pc_displayName := row.(nr_display_name);
     pc_legalName := text_or row.(nr_legal_name) (text_or row.(nr_full_name) row.(nr_display_name));
     pc_email := row.(nr_email); pc_phone := row.(nr_phone); pc_phoneCountryCode := row.(nr_phone_country_code);
     pc_countryCode := text_or row.(nr_incorporation_country) (text_or row.(nr_residence_country) "--");
     pc_registrationNo := row.(nr_registration_number); pc_dateOfBirth := row.(nr_date_of_birth);
     pc_nationality := row.(nr_nationality); pc_contactName := row.(nr_contact_name); pc_contactRole := row.(nr_contact_role);
     pc_beneficialOwnerName := row.(nr_beneficial_owner_name); pc_beneficialOwnerOwnership := row.(nr_beneficial_owner_ownership);
     pc_kycStatus := mapped_kycStatus row; pc_kycReviewerId := or_undefined row.(nr_kyc_reviewed_by);
     pc_kycReviewedAt := or_undefined row.(nr_kyc_reviewed_at); pc_kycReviewNote := or_undefined row.(nr_kyc_review_note);
     pc_accounts := []; pc_walletCount := Some (default 0 row.(nr_wallet_count)); pc_walletStatus := or_undefined row.(nr_wallet_status);
     pc_reviewerId := or_undefined row.(nr_activated_by); pc_reviewedAt := or_undefined row.(nr_activated_at);
     pc_createdAt := or_string row.(nr_created_at) (or_undefined row.(nr_application_submitted_at)) |}.

(** *** The list of customers *)
Record ManagedCustomer := { mc_customer : ClientCustomer; mc_source : option NeobankCustomerRecord; mc_coreSynced : option bool }.
Definition with_wallet (count : Z) (status : option string) (c : ClientCustomer) : ClientCustomer :=
  {| pc_id := c.(pc_id); pc_organizationId := c.(pc_organizationId); pc_type := c.(pc_type); pc_status := c.(pc_status);
     pc_displayName := c.(pc_displayName); pc_legalName := c.(pc_legalName); pc_email := c.(pc_email); pc_phone := c.(pc_phone);
     pc_phoneCountryCode := c.(pc_phoneCountryCode); pc_countryCode := c.(pc_countryCode);
     pc_registrationNo := c.(pc_registrationNo); pc_dateOfBirth := c.(pc_dateOfBirth); pc_nationality := c.(pc_nationality);
     pc_contactName := c.(pc_contactName); pc_contactRole := c.(pc_contactRole);
     pc_beneficialOwnerName := c.(pc_beneficialOwnerName); pc_beneficialOwnerOwnership := c.(pc_beneficialOwnerOwnership);
     pc_kycStatus := c.(pc_kycStatus); pc_kycReviewerId := c.(pc_kycReviewerId); pc_kycReviewedAt := c.(pc_kycReviewedAt);
     pc_kycReviewNote := c.(pc_kycReviewNote); pc_accounts := c.(pc_accounts);
     pc_walletCount := Some count; pc_walletStatus := status; pc_reviewerId := c.(pc_reviewerId);
     pc_reviewedAt := c.(pc_reviewedAt); pc_createdAt := c.(pc_createdAt) |}.
(** [coreById.get(id)]: of two rows with one id the later. *)
Definition coreById (coreRows : list ClientCustomer) (id : string) : option ClientCustomer :=
  List.find (λ c, String.eqb c.(pc_id) id) (rev coreRows).
(** The rows of the page, from the two lists it loads. *)
Definition managed_customers (demoOrganizationId : string) (sourceRows : list NeobankCustomerRecord)
    (coreRows : list ClientCustomer) : list ManagedCustomer :=
  map (λ row,
    {| mc_customer := with_wallet (default 0 row.(nr_wallet_count)) (or_undefined row.(nr_wallet_status))
                        (default (mapNeobankCustomer demoOrganizationId row) (coreById coreRows row.(nr_id)));
       mc_source := Some row; mc_coreSynced := Some (is_some (coreById coreRows row.(nr_id))) |})
    (List.filter (λ row, String.eqb row.(nr_kyc_status) "approved") sourceRows).
(** Colour and text. *)
Definition statusLabel (customer : ManagedCustomer) : string * string :=
  if opt_eqb customer.(mc_coreSynced) (Some false) then ("warning", "Core 同步中")
  else if String.eqb customer.(mc_customer).(pc_status) "ACTIVE" then ("success", "已开户")
  else if String.eqb customer.(mc_customer).(pc_status) "SUSPENDED" then ("error", "已暂停")
  else ("warning", "开户同步中").
Definition or_number (x y : option Z) : Z :=
  match x with Some n => if n =? 0 then default 0 y else n | None => default 0 y end.
Definition walletLabel (customer : ManagedCustomer) : string * string :=
  let count := or_number customer.(mc_customer).(pc_walletCount) (mc_source customer ≫= nr_wallet_count) in
  let status := text_or customer.(mc_customer).(pc_walletStatus) (text_or (mc_source customer ≫= nr_wallet_status) "") in
  let depositEnabled := match mc_source customer ≫= nr_wallet_deposit_enabled with
                        | Some (JBool true) => true
                        | Some (JNum n) => n =? 1
                        | Some (JStr x) => String.eqb x "1" || String.eqb x "true"
                        | _ => false
                        end in
  if count =? 0 then ("warning", "待创建")
  else if String.eqb status "active" && depositEnabled then ("success", "TRON · 已启用")
  else if String.eqb status "active" then ("warning", "TRON · 待验证")
  else if String.eqb status "error" then ("error", "TRON · 待重试")
  else ("warning", "TRON · " +:+ (if truthy status then status else "同步中")).
Definition accountFor (accounts : list MoneyAccount) (currency : Currency) : option MoneyAccount :=
  List.find (λ a, same a.(ma_currency) currency &&
                  (if same currency USDT then opt_eqb a.(ma_network) (Some "TRON") else same a.(ma_kind) SYSTEM_WALLET)) accounts.

(** ** Movements of USDT *)
Definition isDepositReady (wallet : option CryptoWallet) : bool :=
  match wallet with
  | Some w => same w.(cy_status) CW_ACTIVE && w.(cy_depositEnabled) && opt_eqb w.(cy_custodyProvider) (Some "CREGIS") &&
              opt_truthy w.(cy_ownershipVerifiedAt) && truthy w.(cy_walletAddress)
  | None => false
  end.
(** What the portal makes of a custody status, and what the administrators' page does. *)
Definition normalizeCustomerTransferStatus (status : string) : CryptoTransferStatus :=
  if String.eqb status "completed" then TS_COMPLETED
  else if String.eqb status "submitted" then TS_SUBMITTED
  else if String.eqb status "rejected" then TS_REJECTED
  else if String.eqb status "exception" then TS_PROCESSING
  else if includes ["failed"; "cancelled"] status then TS_FAILED
  else TS_PROCESSING.
Definition normalizedCregisStatus (status : string) : CryptoTransferStatus :=
  if String.eqb status "submitted" then TS_SUBMITTED
  else if String.eqb status "completed" then TS_COMPLETED
  else if String.eqb status "rejected" || String.eqb status "provider_rejected" then TS_REJECTED
  else if includes ["failed"; "exception"; "cancelled"] status then TS_FAILED
  else TS_PROCESSING.
Definition localFundsStatus (status : CryptoTransferStatus) : FundsStatus :=
  match status with TS_SUBMITTED | TS_PROCESSING => frozen | TS_COMPLETED => settled | _ => released end.
Record CustomerHistoryRow := {
  hi_id : string; hi_customer_id : string; hi_wallet_id : string; hi_deposit : bool; hi_amount : string;
  hi_fee_amount : option string; hi_net_amount : option string; hi_status : string; hi_address : string;
  hi_from_address : option string; hi_txid : option string; hi_created_at : string;
}.
(** The members of a [CryptoTransfer] that vary; its asset and network are USDT and TRON. *)
Record ClientTransfer := {
  ct_id : string; ct_customerId : string; ct_walletId : string; ct_deposit : bool; ct_status : CryptoTransferStatus;
  ct_rawStatus : string; ct_amount : string; ct_feeAmount : string; ct_netAmount : string; ct_fromAddress : string;
  ct_toAddress : string; ct_txHash : option string; ct_confirmations : Z; ct_submittedAt : string;
  ct_completedAt : option string; ct_createdAt : string;
}.
Definition toCustomerTransfer (row : CustomerHistoryRow) (wallet : CryptoWallet) : ClientTransfer :=
  let status := normalizeCustomerTransferStatus row.(hi_status) in
  let completed := same status TS_COMPLETED in
  {| ct_id := row.(hi_id); ct_customerId := row.(hi_customer_id); ct_walletId := row.(hi_wallet_id); ct_deposit := row.(hi_deposit);
     ct_status := status; ct_rawStatus := row.(hi_status); ct_amount := row.(hi_amount);
     ct_feeAmount := if row.(hi_deposit) then "0" else text_or row.(hi_fee_amount) "0";
     ct_netAmount := if row.(hi_deposit) then row.(hi_amount) else text_or row.(hi_net_amount) row.(hi_amount);
     ct_fromAddress := if row.(hi_deposit) then text_or row.(hi_from_address) "" else wallet.(cy_walletAddress);
     ct_toAddress := row.(hi_address); ct_txHash := row.(hi_txid); ct_confirmations := if completed then 20 else 0;
     ct_submittedAt := row.(hi_created_at); ct_completedAt := if completed then Some row.(hi_created_at) else None;
     ct_createdAt := row.(hi_created_at) |}.

(** ** What both sides read *)
(** The row of the import's query that the page's record is. *)
Definition import_row (row : NeobankCustomerRecord) : NeobankCustomer :=
  {| nc_customer_id := row.(nr_id); nc_email := row.(nr_email); nc_display_name := row.(nr_display_name);
     nc_status := row.(nr_status); nc_kyc_status := row.(nr_kyc_status); nc_operations_status := row.(nr_operations_status);
     nc_kyc_reviewed_at := row.(nr_kyc_reviewed_at); nc_kyc_review_note := row.(nr_kyc_review_note);
     nc_activated_at := row.(nr_activated_at) |}.
Definition kyc_text (k : KycStatus) : string :=
  match k with KYC_PENDING => "PENDING" | KYC_APPROVED => "APPROVED" | KYC_REJECTED => "REJECTED" end.
(** The page shows the KYC status the core imports.  It shows another status in exactly two
    cases: the operations of a customer are suspended and the customer is not, and a
    customer whose KYC was refused is active. *)
Theorem mapped_as_imported demoOrganizationId row :
  let shown := mapNeobankCustomer demoOrganizationId row in
  shown.(pc_kycStatus) = kyc_text (coreKycStatus row.(nr_kyc_status)) ∧
  (shown.(pc_status) ≠ customer_status_text (coreStatus (import_row row)) ↔
   (row.(nr_operations_status) = "suspended" ∧ row.(nr_status) ≠ "suspended" ∧ row.(nr_status) ≠ "closed") ∨
   (row.(nr_kyc_status) = "rejected" ∧ row.(nr_status) = "active" ∧ row.(nr_operations_status) = "active")).
Proof.
  cbn. unfold mapped_status, mapped_kycStatus, coreStatus, coreKycStatus, import_row. cbn.
  destruct (String.eqb_spec row.(nr_kyc_status) "approved"), (String.eqb_spec row.(nr_kyc_status) "rejected"),
    (String.eqb_spec row.(nr_status) "suspended"), (String.eqb_spec row.(nr_status) "closed"), (String.eqb_spec row.(nr_status) "active"),
    (String.eqb_spec row.(nr_operations_status) "suspended"), (String.eqb_spec row.(nr_operations_status) "active");
    try congruence; cbn; (split; [done|]); naive_solver congruence.
Qed.
(** The portal and the administrators' page disagree on two custody statuses only. *)
Theorem transfer_statuses_agree status :
  normalizeCustomerTransferStatus status = normalizedCregisStatus status ↔ status ≠ "exception" ∧ status ≠ "provider_rejected".
Proof.
  unfold normalizeCustomerTransferStatus, normalizedCregisStatus, includes. split.
  - intros H. split; intros ->; discriminate H.
  - intros [H1 H2].
    repeat match goal with |- context [String.eqb status ?x] => destruct (String.eqb_spec status x) as [->|?]; cbn; try congruence end.
    all: repeat case_bool_decide; set_solver.
Qed.
