(* ===== verification/PortalCustomer.v ===== *)
(** The customer of the portal ([src/src/features/finance/portal-customer-context.tsx]):
    the state the portal's pages share, and the refreshes that fill it.

    A refresh runs from one [await] to the next without interruption; what lies between
    two of them is one function here, and answers may come in any order.  An effect starts
    a refresh when the portal opens and whenever the chosen customer changes; nothing
    cancels an older one. *)
From S2P Require Import Prelude Decimals Schema JsNumber WithdrawalFees EdgeWorker ClientAccess ClientApi ClientFinance ClientReports AssetRates ClientViews.
From Stdlib Require Import Ascii.

Record PortalOperation := { po_id : string; po_customerId : string; po_type : string; po_currency : Currency }.
(** [CustomerHomeBootstrap] *)
Record HomeBootstrap := {
  hb_profile_id : string; hb_email : string; hb_display_name : string; hb_status : string;
  hb_customer : option ClientCustomer; hb_operations : list PortalOperation;
  hb_wallets : list CustomerWalletRow; hb_assetSummary : ClientSummary;
}.
(** [assetSummary], [assetSummaryUsesCachedRates], [assetSummaryRateCurrencies] *)
Record ShownSummary := { ss_summary : option ClientSummary; ss_cached : bool; ss_currencies : list string }.
Record Progress := { pr_backendStarting : bool; pr_loading : bool; pr_error : string }.
Record Portal := MkPortal {
  pt_customers : list ClientCustomer; pt_customerId : string; pt_operations : list PortalOperation;
  pt_summary : ShownSummary; pt_latest : option ClientCustomer; pt_progress : Progress;
  pt_choice : option string; pt_browser : Browser;
}.
Definition set_progress (p : Progress) (st : Portal) : Portal :=
  MkPortal st.(pt_customers) st.(pt_customerId) st.(pt_operations) st.(pt_summary) st.(pt_latest) p st.(pt_choice) st.(pt_browser).
Definition set_summary (s : ShownSummary) (st : Portal) : Portal :=
  MkPortal st.(pt_customers) st.(pt_customerId) st.(pt_operations) s st.(pt_latest) st.(pt_progress) st.(pt_choice) st.(pt_browser).
Definition set_browser (b : Browser) (st : Portal) : Portal :=
  MkPortal st.(pt_customers) st.(pt_customerId) st.(pt_operations) st.(pt_summary) st.(pt_latest) st.(pt_progress) st.(pt_choice) b.
Definition no_summary : ShownSummary := {| ss_summary := None; ss_cached := false; ss_currencies := [] |}.

Definition demo_customer : string := "cus_demo_business".
(** The state before any answer; [choice] is what the browser stored. *)
Definition initial_portal (choice : option string) (b : Browser) : Portal :=
  MkPortal [] (text_or choice demo_customer) [] no_summary None
    {| pr_backendStarting := false; pr_loading := true; pr_error := "" |} choice b.
(** [customer] of the context's value. *)
Definition selected (st : Portal) : option ClientCustomer :=
  match List.find (λ row, String.eqb row.(pc_id) st.(pt_customerId)) st.(pt_customers) with
  | Some row => Some row
  | None => head st.(pt_customers)
  end.
Definition selectCustomer (id : string) (st : Portal) : Portal :=
  MkPortal st.(pt_customers) id st.(pt_operations) st.(pt_summary) st.(pt_latest) st.(pt_progress) (Some id) st.(pt_browser).

Section portal.
Context {JD : JsDates} {RJ : RateJson} {NT : JsNumberText} (number_text : number → string) (demoOrganizationId : string).
Definition with_accounts (accounts : list MoneyAccount) (c : ClientCustomer) : ClientCustomer :=
  {| pc_id := c.(pc_id); pc_organizationId := c.(pc_organizationId); pc_type := c.(pc_type); pc_status := c.(pc_status);
     pc_displayName := c.(pc_displayName); pc_legalName := c.(pc_legalName); pc_email := c.(pc_email); pc_phone := c.(pc_phone);
     pc_phoneCountryCode := c.(pc_phoneCountryCode); pc_countryCode := c.(pc_countryCode);
     pc_registrationNo := c.(pc_registrationNo); pc_dateOfBirth := c.(pc_dateOfBirth); pc_nationality := c.(pc_nationality);
     pc_contactName := c.(pc_contactName); pc_contactRole := c.(pc_contactRole);
     pc_beneficialOwnerName := c.(pc_beneficialOwnerName); pc_beneficialOwnerOwnership := c.(pc_beneficialOwnerOwnership);
     pc_kycStatus := c.(pc_kycStatus); pc_kycReviewerId := c.(pc_kycReviewerId); pc_kycReviewedAt := c.(pc_kycReviewedAt);
     pc_kycReviewNote := c.(pc_kycReviewNote); pc_accounts := accounts;
     pc_walletCount := c.(pc_walletCount); pc_walletStatus := c.(pc_walletStatus); pc_reviewerId := c.(pc_reviewerId);
     pc_reviewedAt := c.(pc_reviewedAt); pc_createdAt := c.(pc_createdAt) |}.
Definition self_of (home : HomeBootstrap) : ClientCustomer :=
  {| pc_id := home.(hb_profile_id); pc_organizationId := demoOrganizationId; pc_type := "INDIVIDUAL";
     pc_status := toUpperCase home.(hb_status); pc_displayName := home.(hb_display_name); pc_legalName := home.(hb_display_name);
     pc_email := home.(hb_email); pc_phone := None; pc_phoneCountryCode := None; pc_countryCode := ""; pc_registrationNo := None;
     pc_dateOfBirth := None; pc_nationality := None; pc_contactName := None; pc_contactRole := None; pc_beneficialOwnerName := None;
     pc_beneficialOwnerOwnership := None; pc_kycStatus := "APPROVED"; pc_kycReviewerId := None; pc_kycReviewedAt := None;
     pc_kycReviewNote := None; pc_accounts := []; pc_walletCount := None; pc_walletStatus := None; pc_reviewerId := None;
     pc_reviewedAt := None; pc_createdAt := None |}.
Definition usdt_payout (row : PortalOperation) : bool := String.eqb row.(po_type) "PAYOUT" && same row.(po_currency) USDT.
Definition resolved_customer (home : HomeBootstrap) : ClientCustomer :=
  let wallets := activeCustomerWalletAccounts home.(hb_wallets) in
  match home.(hb_customer) with
  | Some c => with_accounts (List.filter (λ row, differs row.(ma_kind) CRYPTO_WALLET && isSupportedPortalAccount row) c.(pc_accounts) ++ wallets) c
  | None => with_accounts wallets (self_of home)
  end.
Definition shown_of (r : ResolvedAssetSummary) : ShownSummary :=
  {| ss_summary := Some r.(re_summary); ss_cached := Nat.ltb 0 (length r.(re_lastKnownCurrencies)); ss_currencies := r.(re_lastKnownCurrencies) |}.

(** *** The pieces of a refresh *)
Definition refresh_begin (role : option AuthRole) (st : Portal) : Portal :=
  let st := set_progress {| pr_backendStarting := false; pr_loading := true; pr_error := "" |} st in
  if opt_eqb role (Some R_customer) then st else set_summary no_summary st.
(** The notice that the backend is starting: after 1500 ms, or at a retry. *)
Definition backend_notice (st : Portal) : Portal :=
  set_progress {| pr_backendStarting := true; pr_loading := st.(pt_progress).(pr_loading); pr_error := st.(pt_progress).(pr_error) |} st.
(** A customer's answer; [Some e] is thrown, with what was set before it. *)
Definition home_answered (home : HomeBootstrap) (st : Portal) : Portal * option exn :=
  if negb (n_isFinite (n_of_string home.(hb_assetSummary).(su_totalBalance))) then (st, Some (PlainError "资产估值数据格式无效"))
  else
    let c := resolved_customer home in
    let operations := take 5 (List.filter (λ row, negb (usdt_payout row)) home.(hb_operations)) in
    let '(b, resolved) := resolveAssetSummaryRates number_text home.(hb_assetSummary) st.(pt_browser) in
    let st := MkPortal [c] home.(hb_profile_id) operations st.(pt_summary) (Some c) st.(pt_progress) st.(pt_choice) b in
    match resolved with
    | inl e => (st, Some e)
    | inr r => (set_summary (shown_of r) st, None)
    end.
(** [customerId] is the value the refresh started with. *)
Definition resolved_id (customerId : string) (active : list ClientCustomer) : string :=
  if existsb (λ row, String.eqb row.(pc_id) customerId) active then customerId
  else text_or (pc_id <$> List.find (λ row, String.eqb row.(pc_id) demo_customer) active) (text_or (pc_id <$> head active) "").
Definition active_customers (rows : list ClientCustomer) : list ClientCustomer :=
  map (λ row, with_accounts (List.filter isSupportedPortalAccount row.(pc_accounts)) row)
    (List.filter (λ row, String.eqb row.(pc_status) "ACTIVE") rows).
Definition customers_answered (customerId : string) (rows : list ClientCustomer) (st : Portal) : Portal :=
  let active := active_customers rows in
  let resolvedId := resolved_id customerId active in
  let latest := match List.find (λ row, String.eqb row.(pc_id) resolvedId) active with Some row => Some row | None => head active end in
  MkPortal active (if String.eqb resolvedId customerId then st.(pt_customerId) else resolvedId) st.(pt_operations) st.(pt_summary)
    latest st.(pt_progress) st.(pt_choice) st.(pt_browser).
Definition operations_answered (resolvedId : string) (rows : list PortalOperation) (st : Portal) : Portal :=
  MkPortal st.(pt_customers) st.(pt_customerId)
    (List.filter (λ row, String.eqb row.(po_customerId) resolvedId && negb (usdt_payout row)) rows)
    st.(pt_summary) st.(pt_latest) st.(pt_progress) st.(pt_choice) st.(pt_browser).
Definition refresh_error : string := "账户资料暂时不可用，请稍后刷新。".
(** [catch]: the fallback of a customer; what building it throws leaves the rest undone. *)
Definition refresh_failed (now : Z) (role : option AuthRole) (st : Portal) : Portal :=
  let fallback := match role, st.(pt_latest) with
                  | Some R_customer, Some c => buildAssetSummaryFromLastKnownRates number_text now c.(pc_id) c.(pc_accounts) st.(pt_browser)
                  | _, _ => inr None
                  end in
  match fallback with
  | inl _ => st
  | inr built =>
      set_progress {| pr_backendStarting := st.(pt_progress).(pr_backendStarting); pr_loading := st.(pt_progress).(pr_loading); pr_error := refresh_error |}
        (set_summary match built with
                     | Some r => {| ss_summary := Some r.(re_summary); ss_cached := true; ss_currencies := r.(re_lastKnownCurrencies) |}
                     | None => no_summary
                     end st)
  end.
(** [finally] *)
Definition refresh_done (st : Portal) : Portal :=
  set_progress {| pr_backendStarting := false; pr_loading := false; pr_error := st.(pt_progress).(pr_error) |} st.

(** *** A refresh that nothing interleaves with *)
Definition refresh_customer (now : Z) (answer : exn + HomeBootstrap) (st : Portal) : Portal :=
  let st := refresh_begin (Some R_customer) st in
  refresh_done
    match answer with
    | inl _ => refresh_failed now (Some R_customer) st
    | inr home => match home_answered home st with
                  | (st', None) => st'
                  | (st', Some _) => refresh_failed now (Some R_customer) st'
                  end
    end.
Definition refresh_staff (now : Z) (role : option AuthRole) (customers : exn + list ClientCustomer)
    (operations : exn + list PortalOperation) (st : Portal) : Portal :=
  let customerId := st.(pt_customerId) in
  let st := refresh_begin role st in
  refresh_done
    match customers with
    | inl _ => refresh_failed now role st
    | inr rows =>
        let st := customers_answered customerId rows st in
        match operations with
        | inl _ => refresh_failed now role st
        | inr ops => operations_answered (resolved_id customerId (active_customers rows)) ops st
        end
    end.
(** The effect: refreshes follow each other while the chosen customer changes. *)
Fixpoint refresh_effect (runs : nat) (refresh : Portal → Portal) (st : Portal) : option Portal :=
  match runs with
  | O => None
  | S runs' => let st' := refresh st in
               if String.eqb st'.(pt_customerId) st.(pt_customerId) then Some st' else refresh_effect runs' refresh st'
  end.
End portal.
