(* ===== verification/PortalCustomerProperties.v ===== *)
(** What the pages of the portal show after a refresh: properties of [PortalCustomer]. *)
From S2P Require Import Prelude Decimals Schema JsNumber WithdrawalFees EdgeWorker ClientAccess ClientApi ClientFinance ClientReports AssetRates ClientViews PortalCustomer.
From Stdlib Require Import Ascii.

Section portal_properties.
Context {JD : JsDates} {RJ : RateJson} {NT : JsNumberText} (number_text : number → string) (demoOrganizationId : string).

(** ** The fallback *)
Lemma earliest_valid dates : Forall (λ text, validDate (Some text) = true) dates → ∃ t, earliest dates = inr t.
Proof.
  induction 1 as [|text dates Ht _ [t IH]]; [by exists None|]. cbn. unfold validDate in Ht. apply is_some_true in Ht as [d ->].
  rewrite IH. destruct t; by eexists.
Qed.
Lemma map_get_in {A} (k : string) (l : list (string * A)) x : map_get k l = Some x → (k, x) ∈ l.
Proof.
  induction l as [|[k' y] l IH]; [done|]. cbn. destruct (decide (k = k')) as [->|].
  - intros [= ->]. apply list_elem_of_here.
  - intros H. by apply list_elem_of_further, IH.
Qed.
Lemma dates_known_valid rates currencies : sound_rates rates → Forall (λ text, validDate (Some text) = true) (dates_known rates currencies).
Proof.
  intros [_ Hs]. unfold dates_known. apply Forall_forall. intros text Hin. apply list_elem_of_In, filter_In in Hin as [Hin _].
  apply list_elem_of_In, list_elem_of_omap in Hin as (c & _ & Hc). destruct (map_get c rates) as [r|] eqn:E; [|done].
  injection Hc as <-. apply map_get_in in E. rewrite Forall_forall in Hs. by destruct (Hs _ E).
Qed.
(** Whatever the browser stored, the fallback is built. *)
Lemma fallback_built now customerId accounts b :
  ∃ built, buildAssetSummaryFromLastKnownRates number_text now customerId accounts b = inr built.
Proof.
  unfold buildAssetSummaryFromLastKnownRates. destruct (fold_left _ _ _) as [|g groups]; [by exists None|].
  unfold revalue. edestruct earliest_valid as [t ->]; [apply dates_known_valid, stored_sound|]. by eexists.
Qed.

(** ** A refresh that fails *)
Lemma begin_customer st : refresh_begin (Some R_customer) st =
  set_progress {| pr_backendStarting := false; pr_loading := true; pr_error := "" |} st.
Proof. reflexivity. Qed.
Lemma begin_staff role st : role ≠ Some R_customer → refresh_begin role st =
  set_summary no_summary (set_progress {| pr_backendStarting := false; pr_loading := true; pr_error := "" |} st).
Proof. intros Hr. unfold refresh_begin, opt_eqb. by rewrite bool_decide_eq_false_2. Qed.
Lemma failed_staff now role st : role ≠ Some R_customer → refresh_failed number_text now role st =
  set_progress {| pr_backendStarting := st.(pt_progress).(pr_backendStarting); pr_loading := st.(pt_progress).(pr_loading);
                  pr_error := refresh_error |} (set_summary no_summary st).
Proof. intros Hr. unfold refresh_failed. by destruct role as [[]|]. Qed.
(** A refresh that fails on the way keeps the customers, the choice and the operations
    shown, always ends, and says one thing, whatever the error was; the only summary shown
    is one of the latest customer, with remembered rates. *)
Theorem failed_refresh_keeps now role answer st :
  let st' := match role with
             | Some R_customer => refresh_customer number_text demoOrganizationId now (inl answer) st
             | _ => refresh_staff number_text now role (inl answer) (inl answer) st
             end in
  st'.(pt_customers) = st.(pt_customers) ∧ st'.(pt_customerId) = st.(pt_customerId) ∧ st'.(pt_operations) = st.(pt_operations) ∧
  st'.(pt_latest) = st.(pt_latest) ∧
  st'.(pt_progress) = {| pr_backendStarting := false; pr_loading := false; pr_error := refresh_error |} ∧
  (∀ s, st'.(pt_summary).(ss_summary) = Some s → st'.(pt_summary).(ss_cached) = true ∧
    role = Some R_customer ∧ ∃ c, st.(pt_latest) = Some c ∧ s.(su_customerId) = c.(pc_id)).
Proof.
  assert (Hs : ∀ now id accounts b r, buildAssetSummaryFromLastKnownRates number_text now id accounts b = inr (Some r) → r.(re_summary).(su_customerId) = id).
  { clear. intros now id accounts b r. unfold buildAssetSummaryFromLastKnownRates, revalue. destruct (fold_left _ _ _); [done|].
    destruct (earliest _); [done|]. intros [= <-]. done. }
  destruct role as [[]|].
  1,3: cbn zeta; unfold refresh_staff; rewrite begin_staff, failed_staff by done; by split_and!.
  cbn zeta. unfold refresh_customer, refresh_failed. rewrite begin_customer. cbn.
  destruct (pt_latest st) as [c|] eqn:E; cbn; [|by split_and!].
  destruct (fallback_built now c.(pc_id) c.(pc_accounts) st.(pt_browser)) as [built Eb]. rewrite Eb. cbn. split_and!; [done..|].
  intros s. destruct built as [r|]; [|done]. intros [= <-]. split_and!; [done..|]. exists c. split; [done|by apply (Hs _ _ _ _ _ Eb)].
Qed.

(** ** A customer's refresh *)
Lemma wallet_accounts rows a : a ∈ activeCustomerWalletAccounts rows → a.(ma_kind) = CRYPTO_WALLET ∧ a.(ma_status) = "ACTIVE".
Proof.
  intros Ha. apply list_elem_of_In, in_flat_map in Ha as (row & _ & Ha).
  cbn zeta in Ha. destruct (differs (cy_status _) CW_ACTIVE); [done|].
  by destruct Ha as [<-|[]].
Qed.
(** After a customer's refresh without an error the portal shows that customer; its crypto
    wallets are the active ones of the custody service, whatever the core said of them; of
    its operations at most five are shown, and no payout of USDT. *)
Theorem customer_shown now home st :
  let st' := refresh_customer number_text demoOrganizationId now (inr home) st in
  let c := resolved_customer demoOrganizationId home in
  st'.(pt_progress).(pr_error) = "" →
  selected st' = Some c ∧ st'.(pt_customerId) = home.(hb_profile_id) ∧ st'.(pt_progress).(pr_loading) = false ∧
  (∀ a, a ∈ c.(pc_accounts) → (a.(ma_kind) = CRYPTO_WALLET ↔ a ∈ activeCustomerWalletAccounts home.(hb_wallets))) ∧
  (∀ row, row ∈ st'.(pt_operations) → row ∈ home.(hb_operations) ∧ usdt_payout row = false) ∧
  (length st'.(pt_operations) ≤ 5)%nat.
Proof.
  intros st' c Herr.
  assert (Hst : ∃ b r, st' = refresh_done (set_summary (shown_of r) (MkPortal [c] home.(hb_profile_id)
    (take 5 (List.filter (λ row, negb (usdt_payout row)) home.(hb_operations))) st.(pt_summary) (Some c)
    {| pr_backendStarting := false; pr_loading := true; pr_error := "" |} st.(pt_choice) b))).
  { assert (Hf : ∀ x, (refresh_done (refresh_failed number_text now (Some R_customer) x)).(pt_progress).(pr_error) ≠ "").
    { intros x. unfold refresh_failed. destruct (pt_latest x) as [l|]; [|done].
      destruct (fallback_built now l.(pc_id) l.(pc_accounts) x.(pt_browser)) as [built ->]. done. }
    subst st'. revert Herr. unfold refresh_customer, home_answered. rewrite begin_customer. cbn [pt_browser set_progress].
    destruct (negb _); [intros H; by apply Hf in H|].
    destruct (resolveAssetSummaryRates _ _ _) as [b [e|r]]; [intros H; by apply Hf in H|]. intros _. by exists b, r. }
  destruct Hst as (b & r & ->). split_and!; try done.
  - unfold selected. cbn. by destruct (String.eqb _ _).
  - intros a Ha. split; [|by intros [? _]%wallet_accounts]. intros Hk. subst c. unfold resolved_customer in Ha.
    destruct (hb_customer home) as [core|]; [|done]. cbn in Ha. apply elem_of_app in Ha as [Ha|]; [|done].
    apply list_elem_of_In, filter_In in Ha as [_ [Hd _]%andb_true_iff]. by rewrite differs_true in Hd.
  - intros row Hrow. cbn in Hrow. assert (Hin : row ∈ List.filter (λ row, negb (usdt_payout row)) home.(hb_operations)) by (apply elem_of_take in Hrow as (i & Hi & _); by eapply list_elem_of_lookup_2).
    apply list_elem_of_In, filter_In in Hin as [Hin Hn]. split; [by apply list_elem_of_In|by apply negb_true_iff].
  - cbn. rewrite length_take. lia.
Qed.

(** ** The effect *)
Lemma id_found (id : string) active : existsb (λ row, String.eqb row.(pc_id) id) active = true ↔ ∃ c, c ∈ active ∧ c.(pc_id) = id.
Proof.
  rewrite existsb_exists. split.
  - intros (c & Hc & E%String.eqb_eq). exists c. split; [by apply list_elem_of_In|done].
  - intros (c & Hc & E). exists c. split; [by apply list_elem_of_In|by apply String.eqb_eq].
Qed.
(** Resolving again finds the same customer. *)
Lemma resolved_stable customerId active : resolved_id (resolved_id customerId active) active = resolved_id customerId active.
Proof.
  destruct (existsb (λ row, String.eqb row.(pc_id) customerId) active) eqn:E.
  - assert (H : resolved_id customerId active = customerId) by (unfold resolved_id; by rewrite E). by rewrite !H.
  - assert (H : ∀ id, existsb (λ row, String.eqb row.(pc_id) id) active = false → resolved_id id active = resolved_id customerId active)
      by (intros id Hid; unfold resolved_id; by rewrite E, Hid).
    destruct (existsb (λ row, String.eqb row.(pc_id) (resolved_id customerId active)) active) eqn:E'; [|by apply H].
    unfold resolved_id at 1. by rewrite E'.
Qed.
Lemma staff_id now role rows ops st : role ≠ Some R_customer →
  (refresh_staff number_text now role (inr rows) ops st).(pt_customerId) = resolved_id st.(pt_customerId) (active_customers rows).
Proof.
  intros Hr. unfold refresh_staff. rewrite begin_staff by done.
  assert (E : ∀ x, (customers_answered st.(pt_customerId) rows (set_summary no_summary (set_progress x st))).(pt_customerId) =
    resolved_id st.(pt_customerId) (active_customers rows)).
  { intros x. cbn. by destruct (String.eqb_spec (resolved_id (pt_customerId st) (active_customers rows)) (pt_customerId st)). }
  destruct ops; [rewrite failed_staff by done|]; apply E.
Qed.
(** The effect that refreshes the portal settles: with the same answers it runs twice at
    most, and the second run leaves the choice as the first made it.  When both lists came,
    the operations shown are those of the chosen customer, and the customer shown is an
    active one of the list. *)
Theorem refresh_settles now role rows ops st : role ≠ Some R_customer →
  ∃ st', refresh_effect 2 (refresh_staff number_text now role rows ops) st = Some st' ∧
  st'.(pt_progress).(pr_loading) = false ∧
  (∀ rows', rows = inr rows' →
     st'.(pt_customerId) = resolved_id st.(pt_customerId) (active_customers rows') ∧
     st'.(pt_customers) = active_customers rows' ∧ st'.(pt_latest) = selected st' ∧
     ∀ ops', ops = inr ops' → ∀ row, row ∈ st'.(pt_operations) →
       row ∈ ops' ∧ row.(po_customerId) = st'.(pt_customerId) ∧ usdt_payout row = false).
Proof.
  intros Hr. set (run := refresh_staff number_text now role rows ops).
  assert (Hend : ∀ x, (run x).(pt_progress).(pr_loading) = false ∧ ∀ rows', rows = inr rows' →
    (run x).(pt_customerId) = resolved_id x.(pt_customerId) (active_customers rows') ∧
    (run x).(pt_customers) = active_customers rows' ∧ (run x).(pt_latest) = selected (run x) ∧
    ∀ ops', ops = inr ops' → ∀ row, row ∈ (run x).(pt_operations) →
      row ∈ ops' ∧ row.(po_customerId) = resolved_id x.(pt_customerId) (active_customers rows') ∧ usdt_payout row = false).
  { intros x. split; [by subst run; unfold refresh_staff; destruct rows, ops|]. intros rows' Erows.
    assert (Hid : (run x).(pt_customerId) = resolved_id x.(pt_customerId) (active_customers rows')) by (subst run rows; by apply staff_id).
    split; [done|]. unfold selected. rewrite Hid. subst run rows. unfold refresh_staff. rewrite begin_staff by done.
    destruct ops as [e|ops']; [rewrite failed_staff by done|]; cbn; (split_and!; [done|by destruct (List.find _ _)|]); intros ? [= <-].
    intros row Hrow. apply list_elem_of_In, filter_In in Hrow as [Hin [E%String.eqb_eq Hn%negb_true_iff]%andb_true_iff].
    split_and!; [by apply list_elem_of_In|done|done]. }
  cbn [refresh_effect]. destruct (String.eqb_spec (run st).(pt_customerId) st.(pt_customerId)) as [E|E].
  - exists (run st). destruct (Hend st) as [Hl Hrows]. split_and!; [done|done|]. intros rows' Er. destruct (Hrows rows' Er) as (-> & -> & -> & Hops). done.
  - destruct rows as [e|rows'].
    { destruct E. subst run. unfold refresh_staff. by rewrite begin_staff, failed_staff by done. }
    assert (E1 : (run st).(pt_customerId) = resolved_id st.(pt_customerId) (active_customers rows')) by (by apply staff_id).
    assert (E2 : (run (run st)).(pt_customerId) = resolved_id st.(pt_customerId) (active_customers rows')).
    { subst run. rewrite staff_id by done. rewrite E1. apply resolved_stable. }
    rewrite E1, E2, String.eqb_refl. exists (run (run st)). destruct (Hend (run st)) as [Hl Hrows]. split_and!; [done|done|].
    intros ? [= <-]. destruct (Hrows rows' eq_refl) as (_ & -> & -> & Hops). rewrite E2. split_and!; [done..|].
    intros ops' Eo row Hrow. destruct (Hops ops' Eo row Hrow) as (? & -> & ?). split_and!; [done| |done]. by rewrite E1, resolved_stable.
Qed.
End portal_properties.

(** ** Two refreshes at once *)
Definition sample_client (id : string) : ClientCustomer :=
  {| pc_id := id; pc_organizationId := "org"; pc_type := "BUSINESS"; pc_status := "ACTIVE"; pc_displayName := id; pc_legalName := id;
     pc_email := ""; pc_phone := None; pc_phoneCountryCode := None; pc_countryCode := "HK"; pc_registrationNo := None; pc_dateOfBirth := None;
     pc_nationality := None; pc_contactName := None; pc_contactRole := None; pc_beneficialOwnerName := None;
     pc_beneficialOwnerOwnership := None; pc_kycStatus := "APPROVED"; pc_kycReviewerId := None; pc_kycReviewedAt := None;
     pc_kycReviewNote := None; pc_accounts := []; pc_walletCount := None; pc_walletStatus := None; pc_reviewerId := None;
     pc_reviewedAt := None; pc_createdAt := None |}.
Definition two_customers : list ClientCustomer := [sample_client "first"; sample_client "second"].
Definition two_operations : list PortalOperation :=
  [{| po_id := "op-1"; po_customerId := "first"; po_type := "PAYOUT"; po_currency := USD |};
   {| po_id := "op-2"; po_customerId := "second"; po_type := "PAYOUT"; po_currency := USD |}].
Definition opened_portal : Portal := initial_portal (Some "first") {| br_readable := true; br_writable := true; br_rates := None |}.
(** A staff user picks the second customer while the operations for the first are still
    under way; the refresh of the second ends, and then the older answer comes. *)
Definition late_answer (st : Portal) : Portal :=
  let operations_for id := operations_answered (resolved_id id (active_customers two_customers)) two_operations in
  let st := customers_answered "first" two_customers (refresh_begin None st) in
  let st := selectCustomer "second" st in
  let st := refresh_done (operations_for "second" (customers_answered "second" two_customers (refresh_begin None st))) in
  refresh_done (operations_for "first" st).
(** The second customer stays chosen, with the operations of the first. *)
Example stale_operations :
  pc_id <$> selected (late_answer opened_portal) = Some "second" ∧ map po_id (pt_operations (late_answer opened_portal)) = ["op-1"].
Proof. by vm_compute. Qed.
