(* ===== verification/CoreReadsProperties.v ===== *)
(** Correctness of the core's reads: they change nothing but what the import of customers
    writes, they stay in the organisation of who asks, a customer's session reads its own
    rows, and the list of approvals is the list of operations that can be decided. *)
From S2P Require Import Prelude Decimals Schema JsNumber EdgeAuth RoutePolicy EdgeWorker CoreGateway EdgeSamples GatewayProperties OperationEffects OperationCreation Samples OperationProperties ClientAccess ClientAccessProperties Access Ledger WithdrawalFees Operations Accounts AccountProperties TronAddress CryptoWallets Customers VirtualAccounts CustomerRecords Reconciliation Controllers ControllerProperties CoreReads.
From Stdlib Require Import Ascii.
#[local] Open Scope Z_scope.

(** ** Whose rows an answer holds *)
(** An account of the platform itself is nobody's: the empty id. *)
Definition owner (ka : string * Account) : string := default "" ka.2.(acc_customerId).
Definition view_customers (v : CustomerView) : list string :=
  v.(cv_id) :: map owner v.(cv_accounts) ++ map (λ kb, kb.2.(ben_customerId)) v.(cv_beneficiaries) ++
  map (λ ko, ko.2.(op_customerId)) v.(cv_operations).
Definition answer_customers {DO : DecimalOps} (a : CoreAnswer) : list string :=
  match a with
  | A_operations rows => map (λ ko, ko.2.(op_customerId)) rows
  | A_operation o _ => [o.(op_customerId)]
  | A_journal rows => map (λ eo, eo.2.(op_customerId)) rows
  | A_wallets rows => map (λ w, w.(wv_row).(wal_customerId)) rows
  | A_transfers rows => map (λ t, t.(tv_row).(tr_customerId)) rows
  | A_accounts rows => map owner rows
  | A_summary x => [x.(as_customerId)]
  | A_customers rows => rows ≫= view_customers
  | A_requests rows => map (λ r, r.(vv_row).(va_customerId)) rows
  | A_nothing => []
  end.
(** The entries an answer shows are of the operation they are shown with, a transfer
    comes with the wallet it names, its address left out, and a summary is made of accounts and wallets of the customer it is of, and of nothing else. *)
Definition rows_belong {DO : DecimalOps} {JD : JsDates} (round_number : D → Z) (now : Z) (s : Db) (a : CoreAnswer) : Prop :=
  match a with
  | A_operation o entries => ∃ id, s.(operations) !! id = Some o ∧
      Forall (λ e, e ∈ s.(journal) ∧ e.(entry_operationId) = id) entries
  | A_journal rows => Forall (λ eo, eo.1 ∈ s.(journal) ∧ s.(operations) !! eo.1.(entry_operationId) = Some eo.2) rows
  | A_transfers rows => Forall (λ t, s.(transfers) !! t.(tv_id) = Some t.(tv_row) ∧
      t.(tv_wallet) = set_wal_walletAddress "" <$> s.(wallets) !! t.(tv_row).(tr_walletId)) rows
  | A_summary x => ∃ (accounts_held : list (string * Account)) (wallets_held : list (string * CryptoWallet)),
      x = summarize round_number now x.(as_customerId)
            (map (λ ka, account_holding ka.2) accounts_held ++ map (λ kw, wallet_holding kw.2) wallets_held) ∧
      Forall (λ ka, s.(accounts) !! ka.1 = Some ka.2 ∧ ka.2.(acc_customerId) = Some x.(as_customerId)) accounts_held ∧
      Forall (λ kw, s.(wallets) !! kw.1 = Some kw.2 ∧ kw.2.(wal_customerId) = x.(as_customerId)) wallets_held
  | _ => True
  end.
Definition organisation_of (s : Db) (customerId : string) : option string := cust_organizationId <$> s.(customers) !! customerId.
(** An active administrator of the organisation. *)
Definition staff (s : Db) (userId organization : string) : Prop :=
  ∃ u, s.(users) !! userId = Some u ∧ u.(user_active) = true ∧ u.(user_role) = ADMIN ∧ u.(user_organizationId) = Some organization.

(** ** The rows of a list *)
Section lists.
Context {RO : RowOrder}.
Lemma Forall_ordered {A} (P : A → Prop) clause l : Forall P l → Forall P (order_by clause l).
Proof. rewrite !Forall_forall. intros H x Hx. apply H. by rewrite (order_law clause A l) in Hx. Qed.
Lemma Forall_found {V} (P : string * V → Prop) p (m : gmap string V) :
  (∀ k v, m !! k = Some v → p (k, v) = true → P (k, v)) → Forall P (find_many p m).
Proof. intros H. apply Forall_forall. intros [k v] [Hm Hp]%find_many_elem. by apply H. Qed.
Lemma Forall_listed {V} (P : string * V → Prop) clause p (m : gmap string V) :
  (∀ k v, m !! k = Some v → p (k, v) = true → P (k, v)) → Forall P (order_by clause (find_many p m)).
Proof. intros H. by apply Forall_ordered, Forall_found. Qed.
Lemma Forall_taken {A} (P : A → Prop) limit l : Forall P l → Forall P (taken limit l).
Proof. intros H. destruct limit; [by apply Forall_take|done]. Qed.
Lemma Forall_mapped {A} (P : string → Prop) (f : A → string) l : Forall (λ a, P (f a)) l → Forall P (map f l).
Proof. intros H. by apply Forall_fmap. Qed.
Lemma listed_elem {V} clause p (m : gmap string V) k v :
  (k, v) ∈ order_by clause (find_many p m) ↔ m !! k = Some v ∧ p (k, v) = true.
Proof. rewrite (order_law clause _ _). apply find_many_elem. Qed.
End lists.

(** ** The checks before a read *)
Lemma active_staff userId s u s' : requireActiveUser userId s = inr (u, s') →
  s' = s ∧ ∃ organization, staff s userId organization ∧ u.(user_organizationId) = Some organization.
Proof.
  unfold requireActiveUser, find_unique, staff. intros H. minvs. subst. guards.
  destruct (user_organizationId _) as [organization|] eqn:E; [|done]. split; [done|]. exists organization. split; [by eexists|done].
Qed.
Lemma organisation_staff userId organization s u s' :
  requireOrganizationAccess userId organization s = inr (u, s') → s' = s ∧ staff s userId organization ∧ u.(user_role) = ADMIN.
Proof. intros (->&?&?&?&?)%requireOrganizationAccess_ok. split; [done|]. split; [by exists u|done]. Qed.
Lemma customer_staff userId customerId s u c s' :
  requireCustomerAccess userId customerId s = inr ((u, c), s') →
  s' = s ∧ s.(customers) !! customerId = Some c ∧ staff s userId c.(cust_organizationId).
Proof. intros (->&?&?&?&?&?)%requireCustomerAccess_ok. split; [done|]. split; [done|]. by exists u. Qed.
Lemma tenant_staff customerId userId s c s' : requireCustomerTenant customerId userId s = inr (c, s') →
  s' = s ∧ s.(customers) !! customerId = Some c ∧ staff s userId c.(cust_organizationId).
Proof.
  unfold requireCustomerTenant, find_unique, staff. intros H. minvs. subst. guards. split; [done|]. split; [done|].
  eexists. split; [done|]. naive_solver.
Qed.
Lemma summary_staff {DO : DecimalOps} {JD : JsDates} round_number now customerId userId s x s' :
  summary round_number now customerId userId s = inr (x, s') →
  s' = s ∧ x.(as_customerId) = customerId ∧
  ∃ c, s.(customers) !! customerId = Some c ∧ staff s userId c.(cust_organizationId).
Proof.
  unfold summary, find_unique, staff. intros H. minvs. subst. guards. split; [done|]. split; [done|].
  case_match; [|done]. guards. naive_solver.
Qed.
Lemma customer_in_organisation s organization customerId :
  customer_in s organization customerId = true ↔ organisation_of s customerId = Some organization.
Proof.
  unfold customer_in, organisation_of. destruct (s.(customers) !! customerId); simpl; [|done]. rewrite String.eqb_eq. naive_solver.
Qed.
Lemma read_lift_ok {A} (r : exn + A) (s s' : Db) a : lift r s = inr (a, s') → r = inr a ∧ s' = s.
Proof. destruct r; [done|]. by intros [-> ->]%ret_ok. Qed.

(** ** What each read shows *)
Section reads.
Context {DO : DecimalOps} {JD : JsDates} {RO : RowOrder}.
Definition all_in (s : Db) (organization : string) (l : list string) : Prop :=
  Forall (λ c, organisation_of s c = Some organization) l.
Lemma asked_customer given x : negb (opt_truthy given) || String.eqb x (default "" given) = true →
  opt_truthy given = true → Some x = given.
Proof. intros [Hn|Hx]%orb_true_iff Ht; [by rewrite Ht in Hn|]. apply String.eqb_eq in Hx as ->. by destruct given. Qed.
Ltac rows_of := repeat first [apply Forall_taken | apply Forall_listed; intros ? ? ? ?; simpl in *].

Lemma list_operations_ok filters userId s rows s' : list_operations filters userId s = inr (rows, s') →
  s' = s ∧ (∃ organization, staff s userId organization ∧ all_in s organization (map (λ ko, ko.2.(op_customerId)) rows)) ∧
  Forall (λ ko, is_Some (s.(customers) !! ko.2.(op_customerId)) ∧
    (opt_truthy filters.(of_customerId) = true → Some ko.2.(op_customerId) = filters.(of_customerId))) rows.
Proof.
  unfold list_operations. intros H. minvs. repeat fwd read_lift_ok as [? ->]. fwd organisation_staff as (->&?&?). subst. split; [done|].
  match goal with |- context [taken ?l ?x] => set (rows := taken l x) end.
  assert (Forall (λ ko, customer_in s (default "" filters.(of_organizationId)) ko.2.(op_customerId) = true ∧
    (opt_truthy filters.(of_customerId) = true → Some ko.2.(op_customerId) = filters.(of_customerId))) rows) as Hrows.
  { unfold rows. rows_of. guards. split; [done|]. by apply asked_customer. }
  split.
  - eexists. split; [done|]. apply Forall_mapped. eapply Forall_impl; [exact Hrows|]. intros ? [? _]. by apply customer_in_organisation.
  - eapply Forall_impl; [exact Hrows|]. intros ko [Hc ?]. split; [|done]. unfold customer_in in Hc. destruct (_ !! _); [by eexists|done].
Qed.
Lemma approvals_ok organization userId s rows s' : approvals organization userId s = inr (rows, s') →
  s' = s ∧ staff s userId organization ∧
  ∀ id o, (id, o) ∈ rows ↔ s.(operations) !! id = Some o ∧ organisation_of s o.(op_customerId) = Some organization ∧
    o.(op_status) = SUBMITTED ∧ o.(op_type) ≠ VA_OPENING_FEE ∧ crypto_absent o = true.
Proof.
  unfold approvals. intros H. minvs. fwd organisation_staff as (->&?&Hr). subst. split; [done|]. split; [done|].
  intros id o. rewrite listed_elem, Hr. simpl. rewrite <- customer_in_organisation. autorewrite with guards.
  tauto.
Qed.
Lemma get_operation_ok id userId s o entries s' : get_operation id userId s = inr ((o, entries), s') →
  s' = s ∧ ∃ organization, staff s userId organization ∧ organisation_of s o.(op_customerId) = Some organization.
Proof.
  unfold get_operation, find_unique, organisation_of. intros H. minvs. fwd active_staff as (->&organization&?&Ho). subst.
  guards. simplify_eq. split; [done|]. exists organization. split; congruence.
Qed.
Lemma list_journal_ok organization userId customerId currency s rows s' :
  list_journal organization userId customerId currency s = inr (rows, s') →
  s' = s ∧ staff s userId organization ∧ all_in s organization (map (λ eo, eo.2.(op_customerId)) rows).
Proof.
  unfold list_journal. intros H. minvs. fwd read_lift_ok as [? ->]. fwd organisation_staff as (->&?&_). subst. split; [done|]. split; [done|].
  apply Forall_mapped, (Forall_taken _ (Some 500%nat)), Forall_ordered, Forall_forall. intros [e o] (e' & _ & He)%list_elem_of_omap.
  destruct (s.(operations) !! _) as [o'|]; [|done]. destruct (_ && _) eqn:E; [|done]. injection He as <- <-. guards.
  by apply customer_in_organisation.
Qed.
(** ** The list of approvals *)
(** What is left of a rejection, and of an approval, once their checks are passed. *)
Definition rejection_of (now : Z) (id reason checkerId : string) (o : Operation) : M Db (string * Operation) :=
  do! release_reservation o;
  let! updated := operation_update now id (λ r,
    set_op_rejectionReason (Some (trim reason)) (set_op_approvedAt (Some now)
      (set_op_checkerId (Some checkerId) (set_op_status REJECTED r)))) in
  ret (id, updated).
Definition approval_of (now : Z) (id checkerId : string) (o : Operation) : M Db (string * Operation) :=
  if same o.(op_type) PAYOUT then
    let! updated := operation_update now id (λ r,
      set_op_approvedAt (Some now) (set_op_checkerId (Some checkerId) (set_op_status PROCESSING r))) in
    ret (id, updated)
  else
    do! postApprovedOperation now id o;
    let! updated := operation_update now id (λ r,
      set_op_executedAt (Some now) (set_op_approvedAt (Some now)
        (set_op_checkerId (Some checkerId) (set_op_status COMPLETED r)))) in
    ret (id, updated).
Definition decision_refusals : list exn :=
  [Conflict "crypto_transfer_requires_crypto_workflow"; Conflict "va_opening_fee_managed_by_va_request";
   Conflict "operation_not_pending_approval"; NotFound "operation_not_found"].
Definition refused (result : exn + (string * Operation) * Db) : Prop := ∃ e, result = inl e ∧ e ∈ decision_refusals.
Lemma read_operation_run id o s : s.(operations) !! id = Some o → load_operation id s =
  if json_has "cryptoTransferId" o.(op_metadata) then inl (Conflict "crypto_transfer_requires_crypto_workflow")
  else if same o.(op_type) VA_OPENING_FEE then inl (Conflict "va_opening_fee_managed_by_va_request") else inr (o, s).
Proof.
  intros Ho. unfold load_operation, find_unique, bind, gets, require, requireNonCryptoWorkflow, requireGenericOperation, throw_if.
  rewrite Ho. simpl. destruct (json_has _ _); [done|]. by destruct (same _ _).
Qed.
Lemma reader_run o userId organization s : staff s userId organization → ∃ u, u.(user_role) = ADMIN ∧ acting_user o userId s =
  if bool_decide (organisation_of s o.(op_customerId) = Some organization) then inr (u, s) else inl (NotFound "operation_not_found").
Proof.
  intros (u & Hu & Ha & Hr & Ho). exists u. split; [done|]. unfold acting_user, requireRole, find_unique, bind, gets, throw_if, organisation_of.
  rewrite Hu, Ha, Hr. simpl. rewrite Ho. case_bool_decide as Hc.
  - by rewrite (proj2 (differs_false _ _) (eq_sym Hc)).
  - by rewrite (proj2 (differs_true _ _) (not_eq_sym Hc)).
Qed.
Ltac refuses := eexists; split; [reflexivity|by apply (bool_decide_unpack _); vm_compute].
(** The checks of a decision, at once. *)
Definition decidable_by (s : Db) (organization : string) (o : Operation) : bool :=
  bool_decide (organisation_of s o.(op_customerId) = Some organization) && same o.(op_status) SUBMITTED &&
  differs o.(op_type) VA_OPENING_FEE && negb (json_has "cryptoTransferId" o.(op_metadata)).
Lemma reject_run now id reason userId organization o s :
  truthy (trim reason) = true → s.(operations) !! id = Some o → staff s userId organization →
  if decidable_by s organization o then reject now id reason userId s = rejection_of now id reason userId o s
  else refused (reject now id reason userId s).
Proof.
  intros Hreason Ho Hstaff. destruct (reader_run o userId organization s Hstaff) as (u & Hr & Ha).
  unfold reject, rejection_of, decidable_by, bind, throw_if, throw, ret, refused. rewrite Hreason. cbn [negb].
  rewrite (read_operation_run _ _ _ Ho). destruct (json_has _ _); [rewrite andb_false_r; refuses|].
  unfold differs. destruct (same o.(op_type) VA_OPENING_FEE); [rewrite andb_false_r; refuses|].
  destruct (same o.(op_status) SUBMITTED); [|rewrite andb_false_r; refuses]. cbn [negb]. rewrite Ha.
  case_bool_decide; [|refuses]. cbn [andb]. rewrite Hr. by rewrite andb_false_r.
Qed.
Lemma approve_run now id userId organization o s :
  s.(operations) !! id = Some o → staff s userId organization → o.(op_type) ≠ OTC →
  if decidable_by s organization o then approve now id userId s = approval_of now id userId o s
  else refused (approve now id userId s).
Proof.
  intros Ho Hstaff Hotc. destruct (reader_run o userId organization s Hstaff) as (u & Hr & Ha).
  unfold approve, approval_of, decidable_by, bind, throw_if, throw, ret, refused.
  rewrite (read_operation_run _ _ _ Ho). destruct (json_has _ _); [rewrite andb_false_r; refuses|].
  unfold differs. destruct (same o.(op_type) VA_OPENING_FEE); [rewrite andb_false_r; refuses|].
  rewrite (proj2 (same_false _ _) Hotc). destruct (same o.(op_status) SUBMITTED); [|rewrite andb_false_r; refuses]. cbn [negb]. rewrite Ha.
  case_bool_decide; [|refuses]. cbn [andb]. rewrite Hr, andb_false_r. by destruct (same o.(op_type) PAYOUT).
Qed.

(** C5: The list of approvals is the list of what can be decided.  When it answers, its user
    is an active administrator of the organisation, and for every operation of the database
    (whose link to a crypto transfer, if there is one, is not null): if it is listed,
    rejecting it with a reason, and approving it unless it is a conversion, pass all their
    checks and go on to the release, the posting and the update of the operation; if it is
    not, both are refused by a check, as an operation of the crypto workflow or of a virtual
    account, as not pending, or as not found, and nothing is written. *)
Theorem approvals_are_decisions organization userId s rows s' : approvals organization userId s = inr (rows, s') →
  s' = s ∧ staff s userId organization ∧ ∀ id o now reason, s.(operations) !! id = Some o →
    json_get "cryptoTransferId" o.(op_metadata) ≠ Some JNull → truthy (trim reason) = true →
    ((id, o) ∈ rows ∧ reject now id reason userId s = rejection_of now id reason userId o s ∧
     (o.(op_type) ≠ OTC → approve now id userId s = approval_of now id userId o s)) ∨
    ((id, o) ∉ rows ∧ refused (reject now id reason userId s) ∧
     (o.(op_type) ≠ OTC → refused (approve now id userId s))).
Proof.
  intros (->&Hstaff&Hrows)%approvals_ok. split; [done|]. split; [done|]. intros id o now reason Ho Hnull Hreason.
  pose proof (reject_run now id reason userId organization o s Hreason Ho Hstaff) as Hreject.
  pose proof (approve_run now id userId organization o s Ho Hstaff) as Happrove.
  assert (Hin : (id, o) ∈ rows ↔ decidable_by s organization o = true).
  { rewrite Hrows. unfold decidable_by, json_has, is_some, crypto_absent. autorewrite with guards. rewrite bool_decide_eq_true.
    destruct (json_get _ _) as [[]|]; naive_solver. }
  destruct (decidable_by s organization o).
  - left. split; [by apply Hin|]. by split.
  - right. split; [by intros ?%Hin|]. by split.
Qed.

(** ** The reads of wallets, accounts and customers *)
Context (sha256 : list Z → list Z) (newId : string → string)
  (source_rows : list NeobankCustomer) (verified_wallets : list VerifiedCregisWallet).
Context (round_number : D → Z).
Lemma listWallets_ok env verified customerId userId s rows s' : listWallets sha256 env verified customerId userId s = inr (rows, s') →
  s' = s ∧ ∃ c, s.(customers) !! customerId = Some c ∧ staff s userId c.(cust_organizationId) ∧
    Forall (λ w, w.(wv_row).(wal_customerId) = customerId) rows.
Proof.
  unfold listWallets. intros H. minvs. fwd read_lift_ok as [? ->]. fwd resolve_ok as [-> _]. fwd tenant_staff as (->&?&?). subst.
  split; [done|]. eexists. split; [done|]. split; [done|].
  apply Forall_fmap. apply Forall_listed. intros k w _ Hw. unfold shown_wallet in Hw. simpl in *. guards. by apply String.eqb_eq.
Qed.
Lemma listTransfers_ok customerId userId direction status s rows s' : listTransfers customerId userId direction status s = inr (rows, s') →
  s' = s ∧ ∃ c, s.(customers) !! customerId = Some c ∧ staff s userId c.(cust_organizationId) ∧
    Forall (λ t, t.(tv_row).(tr_customerId) = customerId) rows.
Proof.
  unfold listTransfers. intros H. minvs. repeat fwd read_lift_ok as [? ->]. fwd tenant_staff as (->&?&?). subst.
  split; [done|]. eexists. split; [done|]. split; [done|]. apply Forall_fmap. apply Forall_listed. intros k t _ Ht. simpl in *.
  guards. by apply String.eqb_eq.
Qed.
Lemma list_accounts_ok clause customerId userId kind s rows s' : list_accounts (order_by clause) customerId userId kind s = inr (rows, s') →
  s' = s ∧ ∃ c, s.(customers) !! customerId = Some c ∧ staff s userId c.(cust_organizationId) ∧
    Forall (λ ka, ka.2.(acc_customerId) = Some customerId) rows.
Proof.
  unfold list_accounts. intros H. minvs. fwd customer_staff as (->&?&?). subst. split; [done|]. eexists. split; [done|]. split; [done|].
  apply Forall_listed. intros k a _ Ha. simpl in *. by guards.
Qed.
Lemma get_account_ok id userId s a s' : get_account id userId s = inr (a, s') →
  s' = s ∧ ∃ c organization, a.(acc_customerId) = Some c ∧ staff s userId organization ∧ organisation_of s c = Some organization.
Proof.
  unfold get_account, find_unique, organisation_of. intros H. minvs. fwd active_staff as (->&organization&?&Ho). subst.
  - guards. simplify_eq. split; [done|]. eexists _, organization. split; [done|]. split; [done|]. match goal with E : Some _ = _ !! _ |- _ => rewrite <- E end.
    simpl. congruence.
  - done.
Qed.

(** *** The import keeps the users *)
Definition keeps_users {A} (m : M Db A) : Prop := ∀ s a s', m s = inr (a, s') → s'.(users) = s.(users).
Lemma users_bind {A B} (m : M Db A) (f : A → M Db B) : keeps_users m → (∀ a, keeps_users (f a)) → keeps_users (bind m f).
Proof. intros Hm Hf s b s' (a&s1&H1&H2)%bind_ok. etrans; [by eapply Hf|by eapply Hm]. Qed.
Lemma users_pure {A} (m : M Db A) : (∀ s a s', m s = inr (a, s') → s' = s) → keeps_users m.
Proof. intros H s a s' ->%H. done. Qed.
Ltac pure_users := apply users_pure; intros ? ? ? ?; unfold find_unique in *; by minvs.
Ltac keep_users := repeat first [apply users_bind | case_match | progress intros | solve [pure_users]].
Lemma users_account_create id row : keeps_users (account_create id row).
Proof. intros s [] s' (?&?&->&?)%create_row_ok. done. Qed.
Lemma users_wallet_create id row : keeps_users (wallet_create id row).
Proof. intros s [] s' (?&?&->&?)%create_row_ok. done. Qed.
Lemma users_account_update id f : keeps_users (account_update id f).
Proof. intros s a s' (?&?&?&?&->)%update_row_ok. done. Qed.
Lemma users_wallet_update id f : keeps_users (wallet_update id f).
Proof. intros s a s' (?&?&?&?&->)%update_row_ok. done. Qed.
Lemma users_account_upsert id number row : keeps_users (account_upsert id number row).
Proof. unfold account_upsert. keep_users. apply users_account_create. Qed.
Lemma users_ensureMirror accountId walletId customerId address :
  keeps_users (ensureCustomerCryptoWalletMirror sha256 accountId walletId customerId address).
Proof.
  unfold ensureCustomerCryptoWalletMirror.
  keep_users; solve [apply users_account_create|apply users_account_upsert|apply users_account_update|apply users_wallet_create|apply users_wallet_update].
Qed.
Lemma users_run_steps steps s : Forall keeps_users steps → (run_steps steps s).1.(users) = s.(users).
Proof.
  intros H. revert s. induction H as [|m steps Hm _ IH]; intros s; simpl; [done|].
  destruct (m s) as [e|[u s1]] eqn:E; [done|]. rewrite IH. by eapply Hm.
Qed.
Lemma users_sync_steps adm org verified row : Forall keeps_users (sync_steps sha256 newId adm org verified row).
Proof.
  unfold sync_steps. constructor. { intros s u s' ->%modify_ok. done. }
  destruct (negb _); [constructor|]. apply Forall_app. split.
  - apply Forall_forall. intros m (c&->&_)%list_elem_of_fmap. apply users_bind; [apply users_account_upsert|intros; pure_users].
  - repeat case_match; repeat (apply Forall_cons; split); try apply Forall_nil_2;
      first [apply users_bind; [apply users_ensureMirror|intros; pure_users]|pure_users].
Qed.
Lemma users_sync adm org rows verified s : (syncNeobankCustomers sha256 newId adm org rows verified s).1.(users) = s.(users).
Proof.
  apply users_run_steps. generalize (if existsb active_approved rows then verified else []). intros vs.
  induction rows as [|row rows IH]; [constructor|]. apply Forall_app. split; [apply users_sync_steps|done].
Qed.
Lemma run_read_ok {A} (read : M Db A) s s' a : run_read read s = (s', inr a) → read s = inr (a, s').
Proof. unfold run_read. by destruct (read s) as [|[? ?]]; intros [= <- <-]. Qed.
(** A read after the import runs on a state with the same users. *)
Lemma after_import_ok {A} env organization userId (read : M Db A) s s' a :
  after_import sha256 newId source_rows verified_wallets env organization userId read s = (s', inr a) →
  ∃ s1, read s1 = inr (a, s') ∧ s1.(users) = s.(users).
Proof.
  unfold after_import. destruct (has_tenant env); [|intros H%run_read_ok; by exists s].
  pose proof (users_sync (trim_or env.(CORE_ADMIN_USER_ID) userId) organization source_rows verified_wallets s) as Hu.
  destruct (syncNeobankCustomers _ _ _ _ _ _ _) as [s1 [e|]]; [done|]. intros H%run_read_ok. by exists s1.
Qed.
Lemma accounts_own s id : Forall (λ ka, ka.2.(acc_customerId) = Some id) (accounts_of_customer s id).
Proof. apply Forall_found. intros k a _ Ha. simpl in *. by guards. Qed.
Lemma Forall_view (P : string → Prop) id row accounts payees operations source : P id →
  Forall (λ ka, ka.2.(acc_customerId) = Some id) accounts → Forall (λ kb, kb.2.(ben_customerId) = id) payees →
  Forall (λ ko, ko.2.(op_customerId) = id) operations →
  Forall P (view_customers {| cv_id := id; cv_row := row; cv_accounts := accounts; cv_beneficiaries := payees;
                              cv_operations := operations; cv_openingSource := source |}).
Proof.
  intros Hid Ha Hb Ho. unfold view_customers. simpl. constructor; [done|]. rewrite !Forall_app. split_and!.
  - apply Forall_mapped. eapply Forall_impl; [exact Ha|]. unfold owner. by intros ka ->.
  - apply Forall_mapped. eapply Forall_impl; [exact Hb|]. by intros kb ->.
  - apply Forall_mapped. eapply Forall_impl; [exact Ho|]. by intros ko ->.
Qed.
Lemma get_customer_ok env clause1 clause2 created_by id userId s v s' :
  get_customer sha256 newId source_rows verified_wallets env (order_by clause1) (order_by clause2) created_by id userId s = (s', inr v) →
  s'.(users) = s.(users) ∧ (∃ c, s'.(customers) !! id = Some c ∧ staff s' userId c.(cust_organizationId)) ∧
  ∀ P : string → Prop, P id → Forall P (view_customers v).
Proof.
  intros H. unfold get_customer in H. cbv zeta in H.
  assert (∃ s1, read_customer env (order_by clause1) (order_by clause2) created_by id userId s1 = inr (v, s') ∧ s1.(users) = s.(users)) as (s1&Hr&Hu).
  { destruct (truthy _); [by eapply after_import_ok|]. apply run_read_ok in H. by exists s. }
  clear H. rewrite <- Hu. unfold read_customer, find_unique in Hr. minvs; fwd customer_staff as (->&Hc&?); simplify_eq;
    (split; [done|]; split; [by eexists|]; intros P HP; apply Forall_view; [done|apply accounts_own|..]).
  all: try (apply Forall_take); apply Forall_listed; intros k x _ Hx; simpl in *; guards; by apply String.eqb_eq.
Qed.
Lemma list_customers_ok env clause organization userId status s rows s' :
  list_customers sha256 newId source_rows verified_wallets env (order_by clause) organization userId status s = (s', inr rows) →
  staff s' userId organization ∧ all_in s' organization (rows ≫= view_customers).
Proof.
  unfold list_customers. destruct (requireOrganizationAccess _ _ _) as [|[u s0]] eqn:E; [done|].
  apply organisation_staff in E as (->&Hstaff&_). intros (s1&Hr&Hu)%after_import_ok. unfold read_customers in Hr. minvs. subst.
  split; [unfold staff; by rewrite Hu|]. unfold all_in. apply Forall_bind, Forall_fmap, Forall_listed.
  intros id c Hc Hok. simpl in *. guards. apply Forall_view; [|apply accounts_own|constructor|constructor].
  unfold organisation_of. rewrite Hc. simpl. f_equal. by apply String.eqb_eq.
Qed.
Lemma own_requests_ok clause customerId s rows s' : read_requests (order_by clause) customerId s = inr (rows, s') →
  s' = s ∧ Forall (λ r, r.(vv_row).(va_customerId) = customerId) rows.
Proof.
  unfold read_requests. intros H. minvs. subst. split; [done|]. apply Forall_fmap, Forall_listed. intros k r _ Hr. simpl in *.
  by apply String.eqb_eq.
Qed.
Lemma listVirtualAccountRequests_ok env clause customerId actor s rows s' :
  listVirtualAccountRequests sha256 newId source_rows verified_wallets env (order_by clause) customerId actor s = (s', inr rows) →
  Forall (λ r, r.(vv_row).(va_customerId) = customerId) rows ∧
  if opt_truthy actor.(va_actor_customerId) then actor.(va_actor_customerId) = Some customerId
  else ∃ c, s'.(customers) !! customerId = Some c ∧ staff s' actor.(va_actor_userId) c.(cust_organizationId).
Proof.
  assert (Hown : ∀ s1, read_own_requests (order_by clause) customerId s1 = inr (rows, s') →
    Forall (λ r, r.(vv_row).(va_customerId) = customerId) rows).
  { intros s1. unfold read_own_requests, find_unique. intros H. minvs. by fwd own_requests_ok as [_ ?]. }
  unfold listVirtualAccountRequests. destruct (opt_truthy _).
  - destruct (differs _ _) eqn:Ed; [done|]. guards. destruct (_ && has_tenant env).
    + intros (s1&Hr&_)%after_import_ok. split; [by eapply Hown|done].
    + intros H%run_read_ok. split; [by eapply Hown|done].
  - intros H%run_read_ok. minvs. fwd own_requests_ok as [-> ?]. fwd customer_staff as (->&?&?). split; [done|by eexists].
Qed.
Lemma for_requests_ok clause organization userId s rows s' :
  listVirtualAccountRequestsForOrganization (order_by clause) organization userId s = inr (rows, s') →
  s' = s ∧ staff s userId organization ∧ all_in s organization (map (λ r, r.(vv_row).(va_customerId)) rows).
Proof.
  unfold listVirtualAccountRequestsForOrganization. intros H. minvs. fwd organisation_staff as (->&?&_). subst. split; [done|].
  split; [done|]. apply Forall_mapped, Forall_fmap, Forall_listed. intros k r _ Hr. by apply customer_in_organisation.
Qed.

(** ** Reads stay in the organisation *)
Notation serve := (serve_read sha256 newId source_rows verified_wallets round_number).
Lemma read_as_ok {A} (answer : A → CoreAnswer) (read : M Db A) s s' x : read_as answer read s = (s', inr x) →
  ∃ a, read s = inr (a, s') ∧ x = answer a.
Proof. intros H%run_read_ok. minvs. subst. by eexists. Qed.
Lemma answer_as_ok {A} (answer : A → CoreAnswer) outcome s' x : answer_as answer outcome = (s', inr x) →
  ∃ a, outcome = (s', inr a) ∧ x = answer a.
Proof. destruct outcome as [s1 [e|a]]; intros [= <- <-]. by exists a. Qed.
Definition shown_in (s : Db) (userId : string) (x : CoreAnswer) : Prop :=
  ∃ organization, staff s userId organization ∧ all_in s organization (answer_customers x).
Lemma shown_customer s userId c customerId x : s.(customers) !! customerId = Some c → staff s userId c.(cust_organizationId) →
  Forall (λ y, y = customerId) (answer_customers x) → shown_in s userId x.
Proof.
  intros Hc Hs Hx. exists c.(cust_organizationId). split; [done|]. eapply Forall_impl; [exact Hx|]. intros ? ->.
  unfold organisation_of. by rewrite Hc.
Qed.

(** What an answer shows with a row belongs to the row. *)
Lemma summary_belongs now customerId userId s x s' : summary round_number now customerId userId s = inr (x, s') →
  rows_belong round_number now s' (A_summary x).
Proof.
  intros [-> ->]%summary_ok. exists (find_many (summary_account customerId) s.(accounts)), (find_many (summary_wallet customerId) s.(wallets)).
  split; [done|]. split; apply Forall_found; intros k v Hv Hp; (split; [done|]).
  - unfold summary_account in Hp. simpl in *. rewrite !andb_true_iff, opt_eqb_true in Hp. by destruct Hp as [[[? _] _] _].
  - unfold summary_wallet in Hp. simpl in *. rewrite !andb_true_iff, String.eqb_eq in Hp. by destruct Hp as [[[? _] _] _].
Qed.
Lemma operation_belongs now id userId s o entries s' : get_operation id userId s = inr ((o, entries), s') →
  rows_belong round_number now s' (A_operation o entries).
Proof.
  unfold get_operation, find_unique. intros H. minvs. fwd active_staff as (->&organization&?&Ho). subst. exists id.
  split; [congruence|]. apply Forall_forall. intros e He. unfold entries_of in He.
  apply list_elem_of_In, List.filter_In in He as [He Hid]. split; [by apply list_elem_of_In|by apply String.eqb_eq].
Qed.
Lemma journal_belongs now organization userId customerId currency s rows s' :
  list_journal organization userId customerId currency s = inr (rows, s') → rows_belong round_number now s' (A_journal rows).
Proof.
  unfold list_journal. intros H. minvs. fwd read_lift_ok as [? ->]. fwd organisation_staff as (->&?&_). subst.
  apply (Forall_taken _ (Some 500%nat)), Forall_ordered, Forall_forall. intros [e o] (e' & Hin & He)%list_elem_of_omap.
  destruct (s.(operations) !! _) as [o'|] eqn:Eo; [|done]. destruct (_ && _); [|done]. by injection He as <- <-.
Qed.
Lemma transfers_belong now customerId userId direction status s rows s' :
  listTransfers customerId userId direction status s = inr (rows, s') → rows_belong round_number now s' (A_transfers rows).
Proof.
  unfold listTransfers. intros H. minvs. repeat fwd read_lift_ok as [? ->]. fwd tenant_staff as (->&?&?). subst.
  apply Forall_fmap, Forall_listed. intros k t Ht _. split; [exact Ht|done].
Qed.
Lemma read_belongs env now custody created_by call read s s' x :
  serve env now custody created_by call = Some read → read s = (s', inr x) → rows_belong round_number now s' x.
Proof.
  intros Hs Hr. destruct call; try discriminate Hs; injection Hs as <-; try (apply read_as_ok in Hr as (a & Hr & ->));
    try (apply answer_as_ok in Hr as (a & Hr & ->)); try exact I.
  - destruct (enum_filter _ _ _) as [e|filter]; [by destruct (list_customers _ _ _ _ _ _ _ _ _ _) as [? []]|].
    by apply answer_as_ok in Hr as (rows & _ & ->).
  - by eapply transfers_belong.
  - by eapply journal_belongs.
  - by eapply summary_belongs.
  - destruct a as [o entries]. by eapply operation_belongs.
Qed.

(** C27: Every list and detail that the core's routes read out stays in the organisation of
    the administrator who asks: when one of the fourteen reads (operations, approvals, an
    operation with its journals, journal entries, wallets, transfers, accounts, the asset
    summary, customers with their accounts, payees and latest operations, requests for
    virtual accounts) answers, the user it runs for is an active administrator of an
    organisation, and every customer whose rows the answer holds is a customer of that
    organisation, also when the import of custody customers ran first.  The journal entries
    an answer shows are those of the operation they are shown with, a transfer comes with
    the wallet it names, whose address is left out, and a summary is made of the accounts and the wallets of the customer it is of, and of nothing else.  (A
    customer's own list of requests is checked against the customer, not the user.) *)
Theorem reads_stay_in_organisation env now custody created_by call read s s' answer userId :
  serve env now custody created_by call = Some read → read s = (s', inr answer) → call_user call = Some userId →
  match call with ListVirtualAccountRequests _ actor => opt_truthy actor.(ra_customerId) = false | _ => True end →
  (∃ organization, staff s' userId organization ∧
     Forall (λ c, organisation_of s' c = Some organization) (answer_customers answer)) ∧
  rows_belong round_number now s' answer.
Proof.
  intros Hs Hr Hu Hactor. split; [|by eapply read_belongs]. change (shown_in s' userId answer).
  destruct call; try discriminate Hs; injection Hs as <-; injection Hu as <-;
    try (apply read_as_ok in Hr as (a & Hr & ->)); cbn [answer_customers].
  - destruct (enum_filter _ _ _) as [e|filter]; [by destruct (list_customers _ _ _ _ _ _ _ _ _ _) as [? []]|].
    apply answer_as_ok in Hr as (rows & Hr & ->). apply list_customers_ok in Hr as [? ?]. by eexists.
  - apply answer_as_ok in Hr as (v & Hr & ->). apply get_customer_ok in Hr as (_ & (c&?&?) & Hv).
    eapply shown_customer; [done|done|]. simpl. rewrite app_nil_r. by apply Hv.
  - apply answer_as_ok in Hr as (rows & Hr & ->). apply listVirtualAccountRequests_ok in Hr as [Hrows Hc].
    cbn [va_actor va_actor_customerId va_actor_userId] in Hc. rewrite Hactor in Hc. destruct Hc as (c&?&?).
    eapply shown_customer; [done|done|]. by apply Forall_mapped.
  - apply for_requests_ok in Hr as (->&?&?). by eexists.
  - apply listWallets_ok in Hr as (->&c&?&?&?).
    eapply shown_customer; [done|done|]. by apply Forall_mapped.
  - apply listTransfers_ok in Hr as (->&c&?&?&?). eapply shown_customer; [done|done|]. by apply Forall_mapped.
  - unfold qrCode in Hr. by minvs.
  - apply list_journal_ok in Hr as (->&?&?). by eexists.
  - minvs. fwd read_lift_ok as [_ ->]. fwd customer_staff as (->&_&_). apply list_accounts_ok in Hr as (->&c'&?&?&Hrows).
    eapply shown_customer; [done|done|]. apply Forall_mapped. eapply Forall_impl; [exact Hrows|]. unfold owner. by intros ka ->.
  - apply summary_staff in Hr as (->&Hc&c&?&?). eapply shown_customer; [done|done|]. by repeat constructor.
  - apply get_account_ok in Hr as (->&c&organization&Hc&?&?). exists organization. split; [done|]. cbn. unfold owner. cbn. rewrite Hc. by repeat constructor.
  - apply list_operations_ok in Hr as (->&(organization&?&?)&_). by exists organization.
  - apply approvals_ok in Hr as (->&?&Hrows). eexists. split; [done|]. apply Forall_mapped, Forall_forall. intros [k o] Hin.
    by apply Hrows in Hin as (_&?&_).
  - destruct a as [o entries]. apply get_operation_ok in Hr as (->&organization&?&?). exists organization. split; [done|]. by repeat constructor.
Qed.

(** ** A customer reads its own rows *)
Lemma contains_comma rest : contains "," (String "," rest) = true.
Proof. reflexivity. Qed.
(** Ids hold no comma, which is what joins the values of a repeated parameter. *)
Definition plain_ids (s : Db) : Prop := ∀ c, is_Some (s.(customers) !! c) → contains "," c = false.
Lemma own_value_plain own given s : plain_ids s → own_value own given → is_Some (s.(customers) !! default "" given) →
  given = Some own.
Proof.
  intros Hplain (x & -> & [->|Hx]) Hc; [done|]. apply Hplain in Hc. simpl in Hc.
  apply starts_with_app in Hx as [rest ->]. exfalso. revert Hc. clear. induction own as [|c own IH].
  - change (("" +:+ ",") +:+ rest) with (String "," rest). by rewrite contains_comma.
  - change ((String c own +:+ ",") +:+ rest) with (String c ((own +:+ ",") +:+ rest)). cbn [contains].
    by intros [_ H]%orb_false_iff.
Qed.
Lemma own_value_truthy own given : own ≠ "" → own_value own given → opt_truthy given = true.
Proof.
  intros Hown (x & -> & [->|Hx]); [by apply truthy_true|]. apply starts_with_app in Hx as [rest ->]. by destruct own.
Qed.
Definition own_rows (own : string) (x : CoreAnswer) : Prop := Forall (λ c, c = own) (answer_customers x).
Lemma own_rows_read env now custody created_by u organization adminUserId call read s s' x :
  customer_call u organization adminUserId call → u.(su_id) ≠ "" → plain_ids s →
  serve env now custody created_by call = Some read → read s = (s', inr x) → own_rows u.(su_id) x.
Proof.
  intros Hcall Hid Hplain Hs Hr.
  destruct call; try discriminate Hs; try contradiction Hcall; injection Hs as <-; cbn [customer_call] in Hcall;
    try (apply read_as_ok in Hr as (a & Hr & ->)); try (apply answer_as_ok in Hr as (a & Hr & ->)).
  - destruct Hcall as [_ ->]. apply get_customer_ok in Hr as (_ & _ & Hv). unfold own_rows. simpl. rewrite app_nil_r. by apply Hv.
  - destruct Hcall as [-> _]. apply listVirtualAccountRequests_ok in Hr as [Hrows _]. by apply Forall_mapped.
  - apply listTransfers_ok in Hr as (->&c&Hc&_&Hrows). destruct Hcall as [_ Hcall].
    apply own_value_plain with (s := s) in Hcall as ->; [|done|by eexists].
    by apply Forall_mapped.
  - apply summary_staff in Hr as (->&Hx&c&Hc&_). destruct Hcall as [_ Hcall].
    apply own_value_plain with (s := s) in Hcall as ->; [|done|by eexists].
    by repeat constructor.
  - apply list_operations_ok in Hr as (->&_&Hrows). destruct Hcall as [_ [Hown _]]. apply Forall_mapped.
    eapply Forall_impl; [exact Hrows|]. intros ko [Hc Ho]. simpl. specialize (Ho (own_value_truthy _ _ Hid Hown)).
    rewrite <- Ho in Hown. apply own_value_plain with (s := s) in Hown; [congruence|done|done].
Qed.
End reads.

(** ** From the edge to the rows *)
Section edge.
Context {DO : DecimalOps} {JD : JsDates} {RO : RowOrder} {RT : Router} {QP : QueryParser} {NT : JsNumberText}.
Context (sha256 : list Z → list Z) (newId : string → string)
  (source_rows : list NeobankCustomer) (verified_wallets : list VerifiedCregisWallet) (round_number : D → Z).
Context (sha256_hex : list Z → string) (hmac_sha256 : string → string → list Z).
Context (json_parse : list Z → option json) (json_text : json → list Z).
Context (admin_limit customer_limit : string → bool).
Context (go : nat → UpstreamRequest → option UpstreamResponse).
Context (params_text : list (string * string) → string).
Context (worker : WorkerEnv) (now : Z) (safe_integer : string → option Z).
Notation admit_request := (admitted sha256_hex hmac_sha256 json_parse json_text admin_limit customer_limit go params_text worker now).
Notation core_edge := (edgeAuthMiddleware sha256_hex hmac_sha256 safe_integer).
Notation serve := (serve_read sha256 newId source_rows verified_wallets round_number).

(** C26: What a customer's session reads is the customer's own, from the edge to the rows.
    When the edge lets a customer's request through, the core's own check of its signature
    accepts it, the router brings it to a read and the read answers, then every row of the
    answer (operations, transfers, the asset summary, the profile with its accounts,
    payees and latest operations, the requests for virtual accounts) belongs to the
    customer of the session, whatever the parameters say: one that is repeated names no
    customer, as long as no customer's id holds a comma.  The asset summary is computed
    from accounts and wallets that are the customer's own, and from nothing else of the
    database; a transfer is shown with the wallet it names, whose address is left out. *)
Theorem customer_reads_own_rows given r u up o coreNow parsed h body call env coreTime custody created_by read s s' answer :
  admit_request given r = Going (u, up) → u.(su_role) = "customer" →
  trim (identity_of u) = identity_of u → well_named u → free_of "/" u.(su_id) → free_of "%" u.(su_id) →
  is_health_check (received up parsed) = false → core_edge coreNow o (received up parsed) = Some h →
  dispatch (as_received r h body) = Some (inr call) → serve env coreTime custody created_by call = Some read →
  plain_ids s → read s = (s', inr answer) →
  Forall (λ c, c = u.(su_id)) (answer_customers answer) ∧ rows_belong round_number coreTime s' answer.
Proof.
  intros H Hrole Htrim Hnamed Hslash Hpercent Hhealth He Hd Hs Hplain Hr.
  edestruct edge_grants as [Hmay Hg]; [exact H|exact Htrim|exact Hnamed|exact Hhealth|exact He|].
  destruct Hmay as (_ & [(_ & Hid & Hroute)|(Hadmin & _)] & _); [|congruence].
  pose proof (customer_dispatch u _ _ r h body Hrole Hid Hslash Hpercent Hg _ Hroute Hd) as Hcall.
  split; [|by eapply read_belongs]. eapply own_rows_read; [exact Hcall|exact Hid|exact Hplain|exact Hs|exact Hr].
Qed.
End edge.

(** ** Samples *)
#[export] Instance stored_order : RowOrder := {| order_by _ _ l := l; order_law _ _ _ := reflexivity _ |}.
#[local] Strategy opaque [db_payout].
Definition own_profile : WebRequest := edge_request "GET" "/api/core/customers/cus" "customer" "".
Definition sample_serve : CoreCall → option (Db → Db * (exn + CoreAnswer)) :=
  serve_read zero_hash plain [] [] (λ _, 0) env0 now0 (λ _, []) (λ _, [None]).
Definition answered (call : CoreCall) (s : Db) : option (Db * CoreAnswer) :=
  match sample_serve call with
  | Some read => match read s with (s', inr x) => Some (s', x) | _ => None end
  | None => None
  end.
Lemma answered_run call s s' x : answered call s = Some (s', x) → ∃ read, sample_serve call = Some read ∧ read s = (s', inr x).
Proof.
  unfold answered. destruct (sample_serve call) as [read|]; [|done]. exists read. split; [done|].
  destruct (read s) as [s1 [|y]]; [done|]. congruence.
Qed.
Definition profile_call : CoreCall := CustomersGet "cus" "adm".
Example profile_reached : reached_by own_profile = Some (inr profile_call).
Proof. vm_compute. reflexivity. Qed.
(** The customer, the three accounts, the payee and the payout; nothing changes. *)
Example profile_rows : (λ sx, answer_customers sx.2) <$> answered profile_call db_payout = Some ["cus"; "cus"; "cus"; "cus"; "cus"; "cus"].
Proof. vm_compute. reflexivity. Qed.
Lemma profile_same : fst <$> answered profile_call db_payout = Some db_payout.
Proof. vm_compute. reflexivity. Qed.
Lemma profile_answered : ∃ x, answered profile_call db_payout = Some (db_payout, x) ∧ length (answer_customers x) = 6%nat.
Proof.
  pose proof profile_rows as Hr. pose proof profile_same as Hs. destruct (answered _ _) as [[s x]|]; [|done].
  apply (inj Some) in Hs. apply (inj Some) in Hr. cbn [fst snd] in Hs, Hr. subst s. exists x. split; [reflexivity|by rewrite Hr].
Qed.
Lemma sample_plain : plain_ids db_payout.
Proof.
  intros c Hc. replace (customers db_payout) with ({[ "cus" := customer0 ]} : gmap string Customer) in Hc by (vm_compute; reflexivity).
  apply lookup_singleton_is_Some in Hc as <-. reflexivity.
Qed.
Lemma reads_stay_in_organisation_witness : ∃ x organization, answered profile_call db_payout = Some (db_payout, x) ∧
  length (answer_customers x) = 6%nat ∧ staff db_payout "adm" organization ∧
  Forall (λ c, organisation_of db_payout c = Some organization) (answer_customers x).
Proof.
  destruct profile_answered as (x & E & Hx). destruct (answered_run _ _ _ _ E) as (read & Hs & Hr).
  destruct (reads_stay_in_organisation zero_hash plain [] [] (λ _, 0) env0 now0 (λ _, []) (λ _, [None]) profile_call read db_payout
    db_payout x "adm" Hs Hr eq_refl I) as ((organization & Hstaff & Hall) & _).
  exists x, organization. exact (conj E (conj Hx (conj Hstaff Hall))).
Defined.
Lemma customer_reads_own_rows_witness : ∃ u x, reached_by own_profile = Some (inr profile_call) ∧
  answered profile_call db_payout = Some (db_payout, x) ∧ length (answer_customers x) = 6%nat ∧
  Forall (λ c, c = u.(su_id)) (answer_customers x).
Proof.
  destruct profile_answered as (x & E & Hx). destruct (answered_run _ _ _ _ E) as (read & Hs & Hr).
  destruct (is_going_true (sample_admitted None own_profile)) as [[u up] H]; [vm_compute; reflexivity|].
  assert (Hu : u = session_user customer_json) by (apply (sample_session own_profile customer_json u up H); vm_compute; reflexivity).
  pose proof profile_reached as Hreached. unfold reached_by, headers_of in Hreached. rewrite H in Hreached.
  destruct (edgeAuthMiddleware _ _ _ _ _ _) as [h|] eqn:Hh; [|done].
  exists u, x. split; [exact profile_reached|]. split; [exact E|]. split; [exact Hx|].
  refine (proj1 (customer_reads_own_rows zero_hash plain [] [] (λ _, 0) sample_hash sample_mac sample_parse sample_text no_limit no_limit
    sample_go sample_params edge_env edge_now sample_integer None own_profile u up edge_options 1700000030 None h JNull profile_call
    env0 now0 (λ _, []) (λ _, [None]) read db_payout db_payout x H _ _ _ _ _ _ Hh Hreached Hs sample_plain Hr));
    try (rewrite Hu; vm_compute; reflexivity).
  apply admitted_ok in H as (?&?&_&_&_&_&->). vm_compute. reflexivity.
Defined.
Definition listed : list string := match approvals "org" "adm" db_payout with inr (rows, _) => map fst rows | inl _ => [] end.
Example payout_listed : listed = ["op"].
Proof. vm_compute. reflexivity. Qed.
Example payout_unlinked : (λ o, json_get "cryptoTransferId" o.(op_metadata)) <$> db_payout.(operations) !! "op" = Some None.
Proof. vm_compute. reflexivity. Qed.
Lemma approvals_are_decisions_witness : ∃ rows o, approvals "org" "adm" db_payout = inr (rows, db_payout) ∧ ("op", o) ∈ rows ∧
  reject now0 "op" "no" "adm" db_payout = rejection_of now0 "op" "no" "adm" o db_payout.
Proof.
  pose proof payout_listed as Hl. unfold listed in Hl. destruct (approvals "org" "adm" db_payout) as [e|[rows s']] eqn:E; [discriminate Hl|].
  destruct (approvals_are_decisions "org" "adm" db_payout rows s' E) as (Hs & Hstaff & Hop).
  assert ("op" ∈ map fst rows) as Hin by (rewrite Hl; by left).
  apply list_elem_of_fmap in Hin as ([k o] & Hk & Hin). cbn [fst] in Hk. subst k.
  pose proof (proj1 (proj2 (proj2 (approvals_ok "org" "adm" db_payout rows s' E)) "op" o) Hin) as (Ho & _).
  pose proof payout_unlinked as Hm. rewrite Ho in Hm. apply (inj Some) in Hm.
  exists rows, o. rewrite Hs. split; [reflexivity|]. split; [exact Hin|].
  destruct (Hop "op" o now0 "no" Ho) as [(_ & Hr & _)|(Hn & _)]; [by rewrite Hm|reflexivity|exact Hr|by destruct (Hn Hin)].
Defined.
