(* ===== verification/UsdtInbound.v ===== *)
(** The report of inbound USDT ([server/src/usdt-inbound/usdt-inbound.service.ts]):
    the deposits of the custody service, or the transfers of the core where that
    service is not installed, with the OTC purchases, filtered, counted and paged.

    The query is a function of the tables: a join is a [flat_map], a [CASE] an [if].
    The times of a deposit and of a transfer, which no handler reads back, are
    arguments. *)
From S2P Require Import Prelude Schema Access JsNumber Reconciliation Samples DepositProperties.
From stdpp Require Import sorting.
From Stdlib Require Import Ascii.
#[local] Open Scope Z_scope.

Definition inbound_sources : list string := ["ON_CHAIN"; "LOCAL_OTC"].
Definition inbound_statuses : list string := ["PENDING"; "PROCESSING"; "COMPLETED"; "FAILED"; "EXCEPTION"].
(** [ListFilters]; a limit or offset that is present is an integer or not. *)
Record ListFilters := {
  lf_organizationId : string; lf_source : option string; lf_status : option string; lf_customerId : option string;
  lf_search : option string; lf_limit : option (option Z); lf_offset : option (option Z);
}.
Record InboundRow := {
  in_id : string; in_source : string; in_customer_id : string; in_customer_name : string; in_status : string;
  in_amount : string; in_occurred_at : Z; in_completed_at : option Z; in_reference : string; in_tx_hash : option string;
  in_from_address : option string; in_to_address : option string; in_source_currency : option Currency;
  in_source_amount : option string; in_rate : option string; in_custody_status : option string;
  in_accounting_status : string; in_exception_reason : option string; in_core_operation_id : option string;
}.
Record InboundReport := {
  ir_data : list InboundRow; ir_total : Z; ir_limit : Z; ir_offset : Z;
  ir_chain : Z; ir_localOtc : Z; ir_completed : Z; ir_processing : Z; ir_attention : Z;
}.

(** A [numeric] column as text. *)
Definition numeric_text (places : nat) (z : Z) : string :=
  if z <? 0 then "-" +:+ fixed_text (- z) places else fixed_text z places.

(** [x ILIKE pattern]: a percent sign is any text, an underscore any character, a
    backslash takes the next one as it is. *)
Fixpoint like (pattern s : list ascii) : bool :=
  match pattern with
  | [] => match s with [] => true | _ => false end
  | p :: pattern' =>
      if Ascii.eqb p "%" then (fix some_rest (s : list ascii) : bool :=
                                 like pattern' s || match s with _ :: s' => some_rest s' | [] => false end) s
      else match pattern', s with
           | q :: pattern'', c :: s' =>
               if Ascii.eqb p "\" then Ascii.eqb q c && like pattern'' s'
               else (Ascii.eqb p "_" || Ascii.eqb p c) && like pattern' s'
           | [], c :: s' => (Ascii.eqb p "_" || Ascii.eqb p c) && match s' with [] => true | _ => false end
           | _, [] => false
           end
  end.
Definition ilike (s pattern : string) : bool :=
  like (String.list_ascii_of_string (toLowerCase pattern)) (String.list_ascii_of_string (toLowerCase s)).

Section report.
Context (received created : string → Z).

(** The custody service's deposits of the tenant. *)
Definition chain_status (d : CregisDeposit) (a : option DepositAccounting) : string :=
  let accounting := da_status <$> a in
  if String.eqb d.(cd_status) "failed" then "FAILED"
  else if opt_eqb accounting (Some "posted") then "COMPLETED"
  else if opt_eqb accounting (Some "exception") then "EXCEPTION"
  else if opt_eqb accounting (Some "held") then "PENDING" else "PROCESSING".
Definition accounting_of (s : Db) (id tenant : string) : option DepositAccounting :=
  match s.(depositQueue) !! id with
  | Some a => if String.eqb a.(da_tenant_id) tenant then Some a else None
  | None => None
  end.
Definition chain_deposit_rows (s : Db) (tenant organizationId : string) (kd : string * CregisDeposit) : list InboundRow :=
  let '(id, d) := kd in
  match s.(custodyWallets) !! d.(cd_wallet_id) with
  | Some wallet =>
      match s.(customers) !! wallet.(cw_customer_id) with
      | Some customer =>
          let a := accounting_of s id d.(cd_tenant_id) in
          let posted := opt_eqb (da_status <$> a) (Some "posted") in
          if String.eqb wallet.(cw_tenant_id) d.(cd_tenant_id) && String.eqb d.(cd_tenant_id) tenant &&
             String.eqb customer.(cust_organizationId) organizationId
          then [{| in_id := id; in_source := "ON_CHAIN"; in_customer_id := wallet.(cw_customer_id);
                   in_customer_name := customer.(cust_displayName); in_status := chain_status d a;
                   in_amount := d.(cd_amount_text); in_occurred_at := received d.(cd_received_at);
                   in_completed_at := if posted then a ≫= da_posted_at else None; in_reference := d.(cd_cregis_cid);
                   in_tx_hash := d.(cd_txid); in_from_address := d.(cd_from_address); in_to_address := Some d.(cd_address);
                   in_source_currency := None; in_source_amount := None; in_rate := None; in_custody_status := Some d.(cd_status);
                   in_accounting_status := default "missing" (da_status <$> a); in_exception_reason := a ≫= da_last_error_code;
                   in_core_operation_id := a ≫= da_core_operation_id |}]
          else []
      | None => []
      end
  | None => []
  end.

(** Without them, the core's own deposits, with the operations that name them. *)
Definition transfer_state (t : CryptoTransfer) : string :=
  match t.(tr_status) with
  | TS_COMPLETED => "COMPLETED" | TS_PROCESSING => "PROCESSING" | TS_REJECTED | TS_FAILED => "FAILED" | TS_SUBMITTED => "PENDING"
  end.
Definition names_transfer (id : string) (ko : string * Operation) : bool :=
  opt_eqb (json_str (json_get "custodyTransferId" ko.2.(op_metadata))) (Some id) ||
  opt_eqb (json_str (json_get "cryptoTransferId" ko.2.(op_metadata))) (Some id).
Definition operation_ids (s : Db) (id : string) : list (option string) :=
  match find_many (names_transfer id) s.(operations) with
  | [] => [None]
  | l => map (λ ko, Some ko.1) l
  end.
Definition transfer_rows (s : Db) (organizationId : string) (kt : string * CryptoTransfer) : list InboundRow :=
  let '(id, t) := kt in
  match s.(customers) !! t.(tr_customerId) with
  | Some customer =>
      let status := toLowerCase (transfer_status_text t.(tr_status)) in
      if String.eqb customer.(cust_organizationId) organizationId && same t.(tr_direction) TD_DEPOSIT &&
         same t.(tr_asset) USDT && same t.(tr_network) TRON
      then map (λ operation,
        {| in_id := id; in_source := "ON_CHAIN"; in_customer_id := t.(tr_customerId); in_customer_name := customer.(cust_displayName);
           in_status := transfer_state t; in_amount := numeric_text 8 t.(tr_amount); in_occurred_at := created id;
           in_completed_at := t.(tr_completedAt); in_reference := t.(tr_reference); in_tx_hash := t.(tr_txHash);
           in_from_address := Some t.(tr_fromAddress); in_to_address := Some t.(tr_toAddress); in_source_currency := None;
           in_source_amount := None; in_rate := None; in_custody_status := Some status;
           in_accounting_status := if same t.(tr_status) TS_COMPLETED then "posted" else status;
           in_exception_reason := t.(tr_rejectionReason); in_core_operation_id := operation |}) (operation_ids s id)
      else []
  | None => []
  end.

(** The OTC purchases of USDT. *)
Definition otc_status (o : Operation) : string :=
  match o.(op_status) with
  | COMPLETED => "COMPLETED" | PROCESSING => "PROCESSING" | FAILED | REJECTED | CANCELLED => "FAILED" | _ => "PENDING"
  end.
Definition otc_rows (s : Db) (organizationId : string) (ko : string * Operation) : list InboundRow :=
  let '(id, o) := ko in
  match s.(customers) !! o.(op_customerId), o.(op_quoteAmount) with
  | Some customer, Some quoteAmount =>
      let status := toLowerCase (operation_status_text o.(op_status)) in
      if String.eqb customer.(cust_organizationId) organizationId && same o.(op_type) OTC && differs o.(op_status) DRAFT &&
         same o.(op_quoteCurrency) (Some USDT)
      then [{| in_id := id; in_source := "LOCAL_OTC"; in_customer_id := o.(op_customerId); in_customer_name := customer.(cust_displayName);
               in_status := otc_status o; in_amount := numeric_text 8 quoteAmount; in_occurred_at := o.(op_createdAt);
               in_completed_at := if same o.(op_status) COMPLETED then o.(op_executedAt) else None; in_reference := o.(op_reference);
               in_tx_hash := None; in_from_address := None;
               in_to_address := o.(op_targetAccountId) ≫= λ a, s.(accounts) !! a ≫= acc_walletAddress;
               in_source_currency := Some o.(op_currency); in_source_amount := Some (numeric_text 8 o.(op_amount));
               in_rate := numeric_text 12 <$> o.(op_rate); in_custody_status := None;
               in_accounting_status := if same o.(op_status) COMPLETED then "posted" else status;
               in_exception_reason := if String.eqb (otc_status o) "FAILED"
                                      then match o.(op_rejectionReason) with Some x => Some x | None => Some status end else None;
               in_core_operation_id := Some id |}]
      else []
  | _, _ => []
  end.

(** [inbound]; [custody]: the custody service's tables are there. *)
Definition inbound (custody : bool) (tenant organizationId : string) (s : Db) : list InboundRow :=
  (if custody then flat_map (chain_deposit_rows s tenant organizationId) (map_to_list s.(custodyDeposits))
   else flat_map (transfer_rows s organizationId) (map_to_list s.(transfers))) ++
  flat_map (otc_rows s organizationId) (map_to_list s.(operations)).

(** The filters, the order, the counts and the page. *)
Definition wanted_text (o : option string) (x : string) : bool :=
  match o with Some y => if truthy y then String.eqb x y else true | None => true end.
Definition keyword_of (f : ListFilters) : string := String.substring 0 120 (trim (default "" f.(lf_search))).
Definition found (keyword : string) (row : InboundRow) : bool :=
  let pattern := "%" +:+ keyword +:+ "%" in
  ilike row.(in_customer_name) pattern || ilike row.(in_reference) pattern || ilike (default "" row.(in_tx_hash)) pattern.
Definition inbound_wanted (f : ListFilters) (row : InboundRow) : bool :=
  wanted_text f.(lf_source) row.(in_source) && wanted_text f.(lf_status) row.(in_status) &&
  wanted_text f.(lf_customerId) row.(in_customer_id) && (negb (truthy (keyword_of f)) || found (keyword_of f) row).
Definition newer (a b : InboundRow) : Prop :=
  b.(in_occurred_at) < a.(in_occurred_at) ∨ b.(in_occurred_at) = a.(in_occurred_at) ∧ String.leb b.(in_id) a.(in_id) = true.
#[global] Instance newer_dec : RelDecision newer.
Proof. intros a b. unfold newer. apply _. Defined.
Definition selection (custody : bool) (tenant : string) (f : ListFilters) (s : Db) : list InboundRow :=
  merge_sort newer (List.filter (inbound_wanted f) (inbound custody tenant f.(lf_organizationId) s)).
Definition count_rows (p : InboundRow → bool) (l : list InboundRow) : Z := Z.of_nat (length (List.filter p l)).
Definition status_in (l : list string) (row : InboundRow) : bool := includes l row.(in_status).
Definition page_of (limit offset : Z) (l : list InboundRow) : list InboundRow := take (Z.to_nat limit) (drop (Z.to_nat offset) l).
Definition report_of (limit offset : Z) (l : list InboundRow) : InboundReport :=
  let data := page_of limit offset l in
  (** The counts are columns of the first row. *)
  let count p := match data with [] => 0 | _ => count_rows p l end in
  {| ir_data := data; ir_total := count (λ _, true); ir_limit := limit; ir_offset := offset;
     ir_chain := count (λ row, String.eqb row.(in_source) "ON_CHAIN"); ir_localOtc := count (λ row, String.eqb row.(in_source) "LOCAL_OTC");
     ir_completed := count (status_in ["COMPLETED"]); ir_processing := count (status_in ["PENDING"; "PROCESSING"]);
     ir_attention := count (status_in ["FAILED"; "EXCEPTION"]) |}.

(** [list] *)
Definition in_range (x : option Z) (low high : Z) : option Z :=
  match x with Some z => if (low <=? z) && (z <=? high) then Some z else None | None => None end.
Definition unknown_text (known : list string) (o : option string) : bool :=
  match o with Some x => truthy x && negb (includes known x) | None => false end.
Definition list_inbound (env : ProcessEnv) (custody : bool) (f : ListFilters) (userId : string) : M Db InboundReport :=
  let! limit := require (in_range (default (Some 50) f.(lf_limit)) 1 100) (BadRequest "invalid_usdt_inbound_limit") in
  let! offset := require (in_range (default (Some 0) f.(lf_offset)) 0 10000) (BadRequest "invalid_usdt_inbound_offset") in
  do! throw_if (unknown_text inbound_sources f.(lf_source)) (BadRequest "invalid_usdt_inbound_source");
  do! throw_if (unknown_text inbound_statuses f.(lf_status)) (BadRequest "invalid_usdt_inbound_status");
  let! _ := requireOrganizationAccess userId f.(lf_organizationId) in
  gets (λ s, report_of limit offset (selection custody (tenantId env) f s)).
End report.

(** ** Correctness *)
Lemma flat_map_elem {A B} (f : A → list B) l y : y ∈ flat_map f l ↔ ∃ x, x ∈ l ∧ y ∈ f x.
Proof. rewrite list_elem_of_In, List.in_flat_map. setoid_rewrite list_elem_of_In. done. Qed.
Lemma flat_map_keys {A B K} (f : string * A → list B) (key : B → K) (k : string → K) (l : list (string * A)) :
  (∀ i j, k i = k j → i = j) → NoDup l.*1 → (∀ x y, y ∈ f x → key y = k x.1) →
  (∀ x, x ∈ l → (length (f x) ≤ 1)%nat) → NoDup (map key (flat_map f l)).
Proof.
  intros Hinj Hnd Hkey Hone. induction l as [|x l IH]; [constructor|]. simpl. rewrite map_app.
  apply NoDup_cons in Hnd as [Hx Hnd]. apply NoDup_app. split; [|split].
  - specialize (Hone x ltac:(by left)). destruct (f x) as [|y [|? ?]]; simpl in *; [constructor|apply NoDup_singleton|lia].
  - intros z (y&->&Hy)%list_elem_of_fmap (y'&He&(x'&Hx'&Hy')%flat_map_elem)%list_elem_of_fmap.
    rewrite (Hkey x y Hy), (Hkey x' y' Hy') in He. apply Hinj in He. apply Hx. rewrite He.
    apply list_elem_of_fmap. by exists x'.
  - apply IH; [done|]. intros y Hy. apply Hone. by right.
Qed.
Lemma filter_keys {A K} (key : A → K) p (l : list A) : NoDup (map key l) → NoDup (map key (List.filter p l)).
Proof.
  induction l as [|x l IH]; simpl; [done|]. intros [Hx Hnd]%NoDup_cons. destruct (p x); simpl; [|auto].
  apply NoDup_cons. split; [|auto]. intros (y&He&Hy)%list_elem_of_fmap. apply Hx, list_elem_of_fmap. exists y. split; [done|].
  apply list_elem_of_In, List.filter_In in Hy as [Hy _]. by apply list_elem_of_In.
Qed.

(** The records the report is about, by source, id, customer and amount: the custody
    service's deposits of the tenant, or without them the core's own deposits, and
    the OTC purchases, each of a customer of the organisation. *)
Inductive inbound_record (custody : bool) (tenant organizationId : string) (s : Db) : string → string → string → string → Prop :=
| record_deposit id d wallet customer : custody = true → s.(custodyDeposits) !! id = Some d → d.(cd_tenant_id) = tenant →
    s.(custodyWallets) !! d.(cd_wallet_id) = Some wallet → wallet.(cw_tenant_id) = tenant →
    s.(customers) !! wallet.(cw_customer_id) = Some customer → customer.(cust_organizationId) = organizationId →
    inbound_record custody tenant organizationId s "ON_CHAIN" id wallet.(cw_customer_id) d.(cd_amount_text)
| record_transfer id t customer : custody = false → s.(transfers) !! id = Some t →
    t.(tr_direction) = TD_DEPOSIT → t.(tr_asset) = USDT → t.(tr_network) = TRON →
    s.(customers) !! t.(tr_customerId) = Some customer → customer.(cust_organizationId) = organizationId →
    inbound_record custody tenant organizationId s "ON_CHAIN" id t.(tr_customerId) (numeric_text 8 t.(tr_amount))
| record_otc id o quoteAmount customer : s.(operations) !! id = Some o → o.(op_type) = OTC → o.(op_status) ≠ DRAFT →
    o.(op_quoteCurrency) = Some USDT → o.(op_quoteAmount) = Some quoteAmount →
    s.(customers) !! o.(op_customerId) = Some customer → customer.(cust_organizationId) = organizationId →
    inbound_record custody tenant organizationId s "LOCAL_OTC" id o.(op_customerId) (numeric_text 8 quoteAmount).

Section exact.
Context (received created : string → Z).

(** What is true of every record. *)
Definition inbound_row_ok (s : Db) (organizationId : string) (row : InboundRow) : Prop :=
  row.(in_status) ∈ inbound_statuses ∧ row.(in_source) ∈ inbound_sources ∧
  ∃ c, s.(customers) !! row.(in_customer_id) = Some c ∧ c.(cust_organizationId) = organizationId ∧ row.(in_customer_name) = c.(cust_displayName).
Lemma chain_row_ok s tenant organizationId kd row :
  row ∈ chain_deposit_rows received s tenant organizationId kd → inbound_row_ok s organizationId row.
Proof.
  destruct kd as [id d]. unfold chain_deposit_rows. destruct (custodyWallets s !! _) as [w|]; [|by intros []%elem_of_nil].
  destruct (customers s !! _) as [c|] eqn:Hc; [|by intros []%elem_of_nil].
  destruct (_ && _) eqn:E; [|by intros []%elem_of_nil]. intros ->%list_elem_of_singleton.
  rewrite !andb_true_iff, !String.eqb_eq in E. destruct E as [_ Horg].
  split; [|split; [apply includes_true; done|by exists c]]. cbn [in_status]. apply includes_true. unfold chain_status. by repeat case_match.
Qed.
Lemma transfer_row_ok s organizationId kt row :
  row ∈ transfer_rows created s organizationId kt → inbound_row_ok s organizationId row.
Proof.
  destruct kt as [id t]. unfold transfer_rows. destruct (customers s !! _) as [c|] eqn:Hc; [|by intros []%elem_of_nil].
  destruct (_ && _) eqn:E; [|by intros []%elem_of_nil]. intros (operation&->&_)%list_elem_of_fmap.
  rewrite !andb_true_iff, !String.eqb_eq in E. destruct E as [[[Horg _] _] _].
  split; [|split; [apply includes_true; done|by exists c]]. cbn [in_status]. apply includes_true. unfold transfer_state. by repeat case_match.
Qed.
Lemma otc_row_ok s organizationId ko row : row ∈ otc_rows s organizationId ko → inbound_row_ok s organizationId row.
Proof.
  destruct ko as [id o]. unfold otc_rows. destruct (customers s !! _) as [c|] eqn:Hc; [|by intros []%elem_of_nil].
  destruct (op_quoteAmount o); [|by intros []%elem_of_nil].
  destruct (_ && _) eqn:E; [|by intros []%elem_of_nil]. intros ->%list_elem_of_singleton.
  rewrite !andb_true_iff, !String.eqb_eq in E. destruct E as [[[Horg _] _] _].
  split; [|split; [apply includes_true; done|by exists c]]. cbn [in_status]. apply includes_true. unfold otc_status. by repeat case_match.
Qed.
Lemma inbound_ok custody tenant organizationId s row :
  row ∈ inbound received created custody tenant organizationId s → inbound_row_ok s organizationId row.
Proof.
  unfold inbound. rewrite elem_of_app. intros [H|H].
  - destruct custody; apply flat_map_elem in H as (x&_&H); [by eapply chain_row_ok|by eapply transfer_row_ok].
  - apply flat_map_elem in H as (x&_&H). by eapply otc_row_ok.
Qed.

(** Every record has its row, and every row its record. *)
Lemma inbound_records custody tenant organizationId s source id customer amount :
  inbound_record custody tenant organizationId s source id customer amount ↔
  ∃ row, row ∈ inbound received created custody tenant organizationId s ∧ row.(in_source) = source ∧ row.(in_id) = id ∧
    row.(in_customer_id) = customer ∧ row.(in_amount) = amount.
Proof.
  unfold inbound. split.
  - destruct 1 as [id d w c -> Hd Ht Hw Hwt Hc Ho|id t c -> Ht Hdir Has Hnet Hc Ho|id o q c Ho Hty Hst Hq Eq Hc Horg].
    + eexists. split; [apply elem_of_app; left; apply flat_map_elem; exists (id, d); split; [by apply elem_of_map_to_list|]|].
      * unfold chain_deposit_rows. rewrite Hw, Hc, Hwt, Ht, Ho, !String.eqb_refl. by left.
      * done.
    + destruct (operation_ids s id) as [|op ops] eqn:Eo.
      { unfold operation_ids in Eo. by destruct (find_many _ _). }
      eexists. split; [apply elem_of_app; left; apply flat_map_elem; exists (id, t); split; [by apply elem_of_map_to_list|]|].
      * unfold transfer_rows. rewrite Hc, Ho, Hdir, Has, Hnet, !String.eqb_refl, Eo. by left.
      * done.
    + eexists. split; [apply elem_of_app; right; apply flat_map_elem; exists (id, o); split; [by apply elem_of_map_to_list|]|].
      * unfold otc_rows. rewrite Hc, Eq, Horg, Hty, Hq, !String.eqb_refl. rewrite (proj2 (differs_true _ _) Hst). by left.
      * done.
  - intros (row&Hin&<-&<-&<-&<-). apply elem_of_app in Hin as [Hin|Hin].
    + destruct custody; apply flat_map_elem in Hin as ([id x]&Hx%elem_of_map_to_list&Hin).
      * unfold chain_deposit_rows in Hin. destruct (custodyWallets s !! _) as [w|] eqn:Hw; [|by apply elem_of_nil in Hin].
        destruct (customers s !! _) as [c|] eqn:Hc; [|by apply elem_of_nil in Hin].
        destruct (_ && _) eqn:E; [|by apply elem_of_nil in Hin]. apply list_elem_of_singleton in Hin as ->.
        rewrite !andb_true_iff, !String.eqb_eq in E. destruct E as [[E1 E2] E3].
        eapply (record_deposit _ _ _ _ id x w c); congruence || done.
      * unfold transfer_rows in Hin. destruct (customers s !! _) as [c|] eqn:Hc; [|by apply elem_of_nil in Hin].
        destruct (_ && _) eqn:E; [|by apply elem_of_nil in Hin]. apply list_elem_of_fmap in Hin as (op&->&_).
        rewrite !andb_true_iff, !same_true, !String.eqb_eq in E. destruct E as [[[E1 E2] E3] E4].
        by eapply (record_transfer _ _ _ _ id x c).
    + apply flat_map_elem in Hin as ([id o]&Hx%elem_of_map_to_list&Hin).
      unfold otc_rows in Hin. destruct (customers s !! _) as [c|] eqn:Hc; [|by apply elem_of_nil in Hin].
      destruct (op_quoteAmount o) as [q|] eqn:Eq; [|by apply elem_of_nil in Hin].
      destruct (_ && _) eqn:E; [|by apply elem_of_nil in Hin]. apply list_elem_of_singleton in Hin as ->.
      rewrite !andb_true_iff, !same_true, String.eqb_eq in E. destruct E as [[[E1 E2] E3] E4].
      apply differs_true in E3. by eapply (record_otc _ _ _ _ id o q c).
Qed.

(** No record has two rows, as long as no transfer is named by two operations. *)
Definition row_key (row : InboundRow) : string * string := (row.(in_source), row.(in_id)).
Definition named_once (s : Db) : Prop := ∀ id, (length (find_many (names_transfer id) s.(operations)) ≤ 1)%nat.
Ltac only_row H := repeat case_match; first [by apply elem_of_nil in H | by apply list_elem_of_singleton in H as -> | by apply list_elem_of_fmap in H as (?&->&_)].
Lemma chain_key s tenant organizationId kd y : y ∈ chain_deposit_rows received s tenant organizationId kd → row_key y = ("ON_CHAIN", kd.1).
Proof. destruct kd as [id d]. unfold chain_deposit_rows. intros H. only_row H. Qed.
Lemma transfer_key s organizationId kt y : y ∈ transfer_rows created s organizationId kt → row_key y = ("ON_CHAIN", kt.1).
Proof. destruct kt as [id t]. unfold transfer_rows. intros H. only_row H. Qed.
Lemma otc_key s organizationId ko y : y ∈ otc_rows s organizationId ko → row_key y = ("LOCAL_OTC", ko.1).
Proof. destruct ko as [id o]. unfold otc_rows. intros H. only_row H. Qed.
Lemma inbound_keys custody tenant organizationId s : custody = true ∨ named_once s →
  NoDup (map row_key (inbound received created custody tenant organizationId s)).
Proof.
  intros Hone. unfold inbound. rewrite map_app. apply NoDup_app. split; [|split].
  - destruct custody; apply (flat_map_keys _ _ (λ i, ("ON_CHAIN", i))); try (by intros i j [=]); try apply NoDup_fst_map_to_list.
    + intros kd y. apply chain_key.
    + intros [id d] _. unfold chain_deposit_rows. repeat case_match; simpl; lia.
    + intros kt y. apply transfer_key.
    + intros [id t] _. destruct Hone as [|Hone]; [done|]. specialize (Hone id). unfold transfer_rows.
      repeat case_match; simpl; try lia; rewrite length_map; unfold operation_ids; destruct (find_many _ _) as [|? [|? ?]]; simpl in *; lia.
  - intros k (y&->&Hy)%list_elem_of_fmap (y'&He&Hy')%list_elem_of_fmap.
    apply flat_map_elem in Hy' as (ko&_&Hy'%otc_key). rewrite Hy' in He.
    destruct custody; apply flat_map_elem in Hy as (?&_&Hy); [apply chain_key in Hy|apply transfer_key in Hy]; congruence.
  - apply (flat_map_keys _ _ (λ i, ("LOCAL_OTC", i))); [by intros i j [=]|apply NoDup_fst_map_to_list|..].
    + intros ko y. apply otc_key.
    + intros [id o] _. unfold otc_rows. repeat case_match; simpl; lia.
Qed.

(** Counting by a partition. *)
Lemma count_split p q l : (∀ x, x ∈ l → p x = negb (q x)) → count_rows p l + count_rows q l = Z.of_nat (length l).
Proof.
  unfold count_rows. induction l as [|x l IH]; intros H; [done|]. simpl.
  rewrite (H x) by left. specialize (IH ltac:(intros y Hy; apply H; by right)). destruct (q x); simpl; lia.
Qed.
Lemma count_all l : count_rows (λ _, true) l = Z.of_nat (length l).
Proof. unfold count_rows. induction l as [|x l IH]; [done|]. simpl in *. lia. Qed.
Lemma count_three p q r l : (∀ x, x ∈ l → p x = negb (q x || r x)) → (∀ x, q x && r x = false) →
  count_rows p l + count_rows q l + count_rows r l = Z.of_nat (length l).
Proof.
  unfold count_rows. induction l as [|x l IH]; intros H Hd; [done|]. simpl. specialize (Hd x) as Hx.
  rewrite (H x) by left. specialize (IH ltac:(intros y Hy; apply H; by right) Hd). destruct (q x), (r x); simpl in *; try done; lia.
Qed.

(** The first [k] pages are the first [k * limit] records. *)
Lemma pages_cover limit k (l : list InboundRow) : 0 ≤ limit →
  concat (map (λ i, page_of limit (Z.of_nat i * limit) l) (seq 0 k)) = take (k * Z.to_nat limit) l.
Proof.
  intros Hl. induction k as [|k IH]; [done|]. rewrite seq_S, map_app, concat_app, IH. simpl. rewrite app_nil_r. unfold page_of.
  rewrite Z2Nat.inj_mul, Nat2Z.id by lia. rewrite take_take_drop. f_equal. lia.
Qed.

#[local] Instance newer_total : Total newer.
Proof.
  intros a b. unfold newer. destruct (Z.lt_trichotomy a.(in_occurred_at) b.(in_occurred_at)) as [?|[?|?]]; [by right; left| |by left; left].
  destruct (String.leb_total b.(in_id) a.(in_id)); [left|right]; right; split; done || lia.
Qed.
Notation selected := (selection received created).
Lemma selection_elem custody tenant f s row :
  row ∈ selected custody tenant f s ↔ row ∈ inbound received created custody tenant f.(lf_organizationId) s ∧ inbound_wanted f row = true.
Proof. unfold selection. rewrite merge_sort_Permutation, !list_elem_of_In, List.filter_In. done. Qed.
Lemma selection_keys custody tenant f s : custody = true ∨ named_once s → NoDup (map row_key (selected custody tenant f s)).
Proof.
  intros H. unfold selection. rewrite merge_sort_Permutation. by apply filter_keys, inbound_keys.
Qed.
Lemma count_in p q l : (∀ row, p row = q row) → count_rows p l = Z.of_nat (length (List.filter q l)).
Proof. intros H. unfold count_rows. by rewrite (List.filter_ext _ _ H). Qed.
Lemma count_in_one a l : count_rows (status_in [a]) l = Z.of_nat (length (List.filter (λ row, String.eqb row.(in_status) a) l)).
Proof.
  apply count_in. intros row. unfold status_in. apply eq_iff_eq_true. rewrite includes_true, String.eqb_eq. apply list_elem_of_singleton.
Qed.
Lemma count_in_two a b l :
  count_rows (status_in [a; b]) l = Z.of_nat (length (List.filter (λ row, String.eqb row.(in_status) a || String.eqb row.(in_status) b) l)).
Proof.
  apply count_in. intros row. unfold status_in. apply eq_iff_eq_true. rewrite includes_true, orb_true_iff, !String.eqb_eq.
  by rewrite elem_of_cons, list_elem_of_singleton.
Qed.
Lemma status_partition custody tenant f s row : row ∈ selected custody tenant f s →
  status_in ["COMPLETED"] row = negb (status_in ["PENDING"; "PROCESSING"] row || status_in ["FAILED"; "EXCEPTION"] row).
Proof.
  intros [Hin%inbound_ok _]%selection_elem. destruct Hin as (Hst&_). unfold status_in, inbound_statuses in *.
  rewrite !elem_of_cons in Hst. by destruct Hst as [->|[->|[->|[->|[->|[]%elem_of_nil]]]]].
Qed.
Lemma source_partition custody tenant f s row : row ∈ selected custody tenant f s →
  String.eqb row.(in_source) "ON_CHAIN" = negb (String.eqb row.(in_source) "LOCAL_OTC").
Proof.
  intros [Hin%inbound_ok _]%selection_elem. destruct Hin as (_&Hsrc&_). unfold inbound_sources in Hsrc.
  rewrite !elem_of_cons in Hsrc. by destruct Hsrc as [->|[->|[]%elem_of_nil]].
Qed.
Lemma attention_disjoint row : status_in ["PENDING"; "PROCESSING"] row && status_in ["FAILED"; "EXCEPTION"] row = false.
Proof.
  unfold status_in. apply not_true_iff_false. rewrite andb_true_iff, !includes_true, !elem_of_cons. intros [H1 H2].
  destruct H1 as [H1|[H1|[]%elem_of_nil]], H2 as [H2|[H2|[]%elem_of_nil]]; congruence.
Qed.
Lemma in_range_ok x low high z : in_range x low high = Some z → low ≤ z ≤ high.
Proof. unfold in_range. destruct x as [y|]; [|done]. destruct (_ && _) eqn:E; [|done]. intros [= ->]. lia. Qed.

(** C20: The report of inbound USDT shows the organisation's records, each with its
    own customer and amount, to an active administrator of the organisation, and
    counts what it shows.  The records are the custody service's deposits of the
    tenant, or without that service the core's own deposits, and the OTC purchases;
    those that pass the filters are sorted newest first.  No record is there twice,
    unless, without the custody service, a transfer is named by two operations.  A
    page is a slice of them of at most a hundred, and the pages one after the other
    are all of them.  On a page that is not empty the total is their number, the
    counts by source and by state are the numbers of the records of that source and
    in those states, and each of the two splits adds up to the total.  A page past
    the end counts nothing: its total is 0 however many records there are. *)
Theorem inbound_report_exact env custody f userId s report s' :
  list_inbound received created env custody f userId s = inr (report, s') →
  let all := selected custody (tenantId env) f s in
  let number p := Z.of_nat (length (List.filter p all)) in
  s' = s ∧ (∃ u, s.(users) !! userId = Some u ∧ u.(user_active) = true ∧ u.(user_role) = ADMIN ∧
              u.(user_organizationId) = Some f.(lf_organizationId)) ∧
  Sorted newer all ∧
  (∀ row, row ∈ all ↔ row ∈ inbound received created custody (tenantId env) f.(lf_organizationId) s ∧ inbound_wanted f row = true) ∧
  (∀ source id customer amount, inbound_record custody (tenantId env) f.(lf_organizationId) s source id customer amount ↔
     ∃ row, row ∈ inbound received created custody (tenantId env) f.(lf_organizationId) s ∧ row.(in_source) = source ∧ row.(in_id) = id ∧
       row.(in_customer_id) = customer ∧ row.(in_amount) = amount) ∧
  (custody = true ∨ named_once s → NoDup (map (λ row, (row.(in_source), row.(in_id))) all)) ∧
  (∀ row, row ∈ all → inbound_row_ok s f.(lf_organizationId) row) ∧
  1 ≤ report.(ir_limit) ≤ 100 ∧ 0 ≤ report.(ir_offset) ≤ 10000 ∧ report.(ir_data) = page_of report.(ir_limit) report.(ir_offset) all ∧
  (∀ k, concat (map (λ i, page_of report.(ir_limit) (Z.of_nat i * report.(ir_limit)) all) (seq 0 k)) = take (k * Z.to_nat report.(ir_limit)) all) ∧
  (report.(ir_data) ≠ [] → report.(ir_total) = Z.of_nat (length all) ∧
     report.(ir_chain) = number (λ row, String.eqb row.(in_source) "ON_CHAIN") ∧
     report.(ir_localOtc) = number (λ row, String.eqb row.(in_source) "LOCAL_OTC") ∧
     report.(ir_completed) = number (λ row, String.eqb row.(in_status) "COMPLETED") ∧
     report.(ir_processing) = number (λ row, String.eqb row.(in_status) "PENDING" || String.eqb row.(in_status) "PROCESSING") ∧
     report.(ir_attention) = number (λ row, String.eqb row.(in_status) "FAILED" || String.eqb row.(in_status) "EXCEPTION") ∧
     report.(ir_chain) + report.(ir_localOtc) = report.(ir_total) ∧
     report.(ir_completed) + report.(ir_processing) + report.(ir_attention) = report.(ir_total)) ∧
  (report.(ir_data) = [] → report.(ir_total) = 0).
Proof.
  intros H all. unfold list_inbound in H. apply bind_ok in H as (limit&s1&[Hlimit%in_range_ok ->]%require_ok&H).
  apply bind_ok in H as (offset&s1&[Hoffset%in_range_ok ->]%require_ok&H). apply bind_ok in H as (?&s1&[_ ->]%throw_if_ok&H).
  apply bind_ok in H as (?&s1&[_ ->]%throw_if_ok&H). apply bind_ok in H as (u&s1&Hu&H).
  apply requireOrganizationAccess_ok in Hu as (->&Hu&Hactive&Hrole&Horg). apply gets_ok in H as [-> ->]. fold all.
  split; [done|]. split; [by exists u|]. split; [apply Sorted_merge_sort, _|]. split; [intros row; apply selection_elem|].
  split; [intros *; apply inbound_records|]. split; [apply selection_keys|].
  split; [by intros row [Hin%inbound_ok _]%selection_elem|]. cbn [report_of ir_limit ir_offset ir_data].
  split; [done|]. split; [done|]. split; [done|]. split; [intros k; apply pages_cover; lia|].
  unfold report_of. cbn [ir_data ir_total ir_chain ir_localOtc ir_completed ir_processing ir_attention]. split.
  - intros Hne. destruct (page_of limit offset all) as [|first rest]; [done|]. rewrite count_all. split; [done|].
    split; [done|]. split; [done|]. rewrite <- !count_in_one, <- !count_in_two. split; [done|]. split; [done|]. split; [done|]. split.
    + apply count_split. intros row. apply source_partition.
    + apply count_three; [intros row; apply status_partition|apply attention_disjoint].
  - by intros ->.
Qed.
End exact.

(** ** Witnesses *)
Definition inbound_filters (status : string) (limit offset : Z) : ListFilters :=
  {| lf_organizationId := "org"; lf_source := None; lf_status := Some status; lf_customerId := None; lf_search := Some " TX ";
     lf_limit := Some (Some limit); lf_offset := Some (Some offset) |}.
Definition no_time (_ : string) : Z := 0.
Definition inbound_run (limit offset : Z) : M Db InboundReport :=
  list_inbound no_time no_time env0 true (inbound_filters "PROCESSING" limit offset) "adm".
Lemma inbound_report_exact_witness :
  ∃ report first, inbound_run 1 1 db_deposit = inr (report, db_deposit) ∧ report.(ir_total) = 2 ∧
    report.(ir_data) = [first] ∧ ∃ c, db_deposit.(customers) !! first.(in_customer_id) = Some c.
Proof.
  assert (returns (inbound_run 1 1) (λ r, (ir_total r, length (ir_data r))) db_deposit = Some (2, 1%nat)) as R by runs.
  apply run_returns in R as (report&Hr&H). injection Hr as Htotal Hlen. unfold inbound_run in H at 1.
  destruct (inbound_report_exact _ _ _ _ _ _ _ _ _ H) as (Hs&_&_&_&_&_&Hrows&_&_&Hdata&_).
  destruct report.(ir_data) as [|first [|? ?]] eqn:Ed; try discriminate Hlen. exists report, first.
  split; [rewrite <- Hs at 2; exact H|]. split; [exact Htotal|]. split; [exact Ed|].
  destruct (Hrows first) as (_&_&c&Hc&_); [|by exists c].
  assert (first ∈ page_of (ir_limit report) (ir_offset report) (selection no_time no_time true (tenantId env0)
            (inbound_filters "PROCESSING" 1 1) db_deposit)) as Hin by (rewrite <- Hdata; left).
  unfold page_of in Hin. apply elem_of_take in Hin as (i&Hi&_). rewrite lookup_drop in Hi. by eapply list_elem_of_lookup_2.
Defined.
(** A page past the end says there is nothing. *)
Example past_the_end : returns (inbound_run 50 2) ir_total db_deposit = Some 0 ∧ returns (inbound_run 50 0) ir_total db_deposit = Some 2.
Proof. vm_compute. split; reflexivity. Qed.
(** A percent sign is a wildcard in what is searched for. *)
Example percent_finds_all : ilike "anything" "%%%" = true ∧ ilike "Ann_Lee" "%n\_l%" = true ∧ ilike "AnnxLee" "%n\_l%" = false ∧ ilike "AnnxLee" "%N_L%" = true.
Proof. vm_compute. repeat split; reflexivity. Qed.
