(* ===== verification/Evolution.v ===== *)
(** What every transaction of the system leaves true of the history it finds:
    rows are never deleted, the journal grows by balanced entries under new
    references, the terms of operations and transfers never change, a finished
    operation never changes at all, and the constraints of the tables hold.

    [evolves s s'] is that relation; [keeps m] says that every successful run of
    [m] evolves the state.  The rules below are one per construct of the monad and
    one per write, so that a handler is shown to keep the history by following
    its text. *)
From S2P Require Import Prelude Decimals Schema Ledger Channels Customers EmailWorker EmailProperties ConfigurationProperties WithdrawalWorker DepositWorker Reconciliation.
#[local] Open Scope Z_scope.

(** ** Tables that only grow *)

(** [grows R C m m']: every row of [m] is still in [m'], related by [R], and
    the constraint [C] carries over. *)
Definition grows {V} (R : V → V → Prop) (C : V → bool) (m m' : gmap string V) : Prop :=
  (∀ k v, m !! k = Some v → ∃ v', m' !! k = Some v' ∧ R v v') ∧
  (map_Forall (λ _ v, C v = true) m → map_Forall (λ _ v, C v = true) m').

Section grows.
Context {V : Type} (R : V → V → Prop) (C : V → bool) `{!Reflexive R} `{!Transitive R}.

#[global] Instance grows_refl : Reflexive (grows R C).
Proof. intros m. split; [|done]. intros k v Hk. by exists v. Qed.
#[global] Instance grows_trans : Transitive (grows R C).
Proof.
  intros m1 m2 m3 [H1 C1] [H2 C2]. split; [|auto]. intros k v (v2&Hk2&?)%H1.
  destruct (H2 _ _ Hk2) as (v3&?&?). exists v3. split; [done|]. by etrans.
Qed.

Lemma grows_insert m k v :
  C v = true → (∀ w, m !! k = Some w → R w v) → grows R C m (<[k := v]> m).
Proof.
  intros Hv HR. split.
  - intros j w Hj. destruct (decide (j = k)) as [->|].
    + exists v. rewrite lookup_insert_eq. auto.
    + exists w. by rewrite lookup_insert_ne.
  - intros HC. by apply map_Forall_insert_2.
Qed.

Lemma grows_update m m' (p : string * V → bool) f :
  (∀ k, m' !! k = (λ v, if p (k, v) then f v else v) <$> m !! k) →
  (∀ k v, m !! k = Some v → p (k, v) = true → R v (f v) ∧ C (f v) = true) → grows R C m m'.
Proof.
  intros Hm Hf. split.
  - intros k v Hk. rewrite Hm, Hk. simpl. eexists. split; [done|]. destruct (p (k, v)) eqn:E; [by apply (Hf k)|done].
  - intros HC k v Hk. rewrite Hm in Hk. destruct (m !! k) as [w|] eqn:E; [|done]. simpl in Hk. injection Hk as <-.
    destruct (p (k, w)) eqn:Ep; [by apply (Hf k)|by apply (HC k)].
Qed.
End grows.

(** ** What stays of a row *)
Definition same_account (a a' : Account) : Prop :=
  a'.(acc_customerId) = a.(acc_customerId) ∧ a'.(acc_kind) = a.(acc_kind) ∧ a'.(acc_currency) = a.(acc_currency) ∧
  a'.(acc_accountNumber) = a.(acc_accountNumber).
Definition same_wallet (w w' : CryptoWallet) : Prop :=
  w'.(wal_customerId) = w.(wal_customerId) ∧ w'.(wal_asset) = w.(wal_asset) ∧ w'.(wal_network) = w.(wal_network).
(** The terms of an operation: who, what, how much, from where to where. *)
Definition same_terms (o o' : Operation) : Prop :=
  o'.(op_reference) = o.(op_reference) ∧ o'.(op_idempotencyKey) = o.(op_idempotencyKey) ∧
  o'.(op_customerId) = o.(op_customerId) ∧ o'.(op_type) = o.(op_type) ∧ o'.(op_currency) = o.(op_currency) ∧
  o'.(op_amount) = o.(op_amount) ∧ o'.(op_feeAmount) = o.(op_feeAmount) ∧
  o'.(op_sourceAccountId) = o.(op_sourceAccountId) ∧ o'.(op_targetAccountId) = o.(op_targetAccountId) ∧
  o'.(op_beneficiaryId) = o.(op_beneficiaryId) ∧ o'.(op_makerId) = o.(op_makerId).
Definition same_operation (o o' : Operation) : Prop :=
  same_terms o o' ∧ (terminal_status o.(op_status) = true → o' = o).
Definition same_transfer (t t' : CryptoTransfer) : Prop :=
  t'.(tr_reference) = t.(tr_reference) ∧ t'.(tr_customerId) = t.(tr_customerId) ∧ t'.(tr_walletId) = t.(tr_walletId) ∧
  t'.(tr_asset) = t.(tr_asset) ∧ t'.(tr_direction) = t.(tr_direction) ∧ t'.(tr_amount) = t.(tr_amount) ∧
  t'.(tr_feeAmount) = t.(tr_feeAmount) ∧ t'.(tr_netAmount) = t.(tr_netAmount) ∧
  t'.(tr_fromAddress) = t.(tr_fromAddress) ∧ t'.(tr_toAddress) = t.(tr_toAddress) ∧ t'.(tr_makerId) = t.(tr_makerId).
(** A payee may only be switched on and off; a rate policy only be retired; a
    channel keeps its kind, and one version of its opening fee is one price. *)
Definition same_payee (b b' : Beneficiary) : Prop := set_ben_active b'.(ben_active) b = b'.
Definition same_rate (r r' : RateVersion) : Prop :=
  same_pair r r' ∧ r'.(rate_buyRate) = r.(rate_buyRate) ∧ r'.(rate_sellRate) = r.(rate_sellRate) ∧
  r'.(rate_feeBps) = r.(rate_feeBps) ∧ r'.(rate_effectiveFrom) = r.(rate_effectiveFrom) ∧
  (r.(rate_active) = false → r' = r).
Definition same_channel (c c' : FundingChannel) : Prop :=
  c'.(chan_organizationId) = c.(chan_organizationId) ∧ c'.(chan_code) = c.(chan_code) ∧
  c'.(chan_type) = c.(chan_type) ∧ c.(chan_openingFeeVersion) ≤ c'.(chan_openingFeeVersion) ∧
  (c'.(chan_openingFeeVersion) = c.(chan_openingFeeVersion) → c'.(chan_openingFeeUsdMinor) = c.(chan_openingFeeUsdMinor)).
(** A row of the withdrawal queue keeps its owner and never counts an attempt less;
    once it is released, settled or an exception it never changes again, and it has
    failed at most eight times, the eighth making it an exception. *)
Definition queue_final (a : WithdrawalAccounting) : bool :=
  includes ["released"; "settled"; "exception"] a.(wa_status).
Definition within_attempts (a : WithdrawalAccounting) : Prop :=
  0 ≤ a.(wa_attempt_count) ∧
  (a.(wa_attempt_count) < MAX_ATTEMPTS ∨ (a.(wa_attempt_count) = MAX_ATTEMPTS ∧ a.(wa_status) = "exception")).
Record queue_moves (a a' : WithdrawalAccounting) : Prop := {
  qm_owner : a'.(wa_tenant_id) = a.(wa_tenant_id) ∧ a'.(wa_customer_id) = a.(wa_customer_id);
  qm_final : queue_final a = true → a' = a;
  qm_count : a.(wa_attempt_count) ≤ a'.(wa_attempt_count);
  qm_within : within_attempts a → within_attempts a';
}.
(** Rows of which only the presence matters. *)
Definition any_row {V} (_ _ : V) : Prop := True.

Ltac row_relation := repeat split; repeat intros ?; unfold same_account, same_wallet, same_terms, same_transfer in *;
  intuition congruence.
#[global] Instance same_account_refl : Reflexive same_account. Proof. row_relation. Qed.
#[global] Instance same_account_trans : Transitive same_account. Proof. row_relation. Qed.
#[global] Instance same_wallet_refl : Reflexive same_wallet. Proof. row_relation. Qed.
#[global] Instance same_wallet_trans : Transitive same_wallet. Proof. row_relation. Qed.
#[global] Instance same_terms_refl : Reflexive same_terms. Proof. row_relation. Qed.
#[global] Instance same_terms_trans : Transitive same_terms. Proof. row_relation. Qed.
#[global] Instance same_transfer_refl : Reflexive same_transfer. Proof. row_relation. Qed.
#[global] Instance same_transfer_trans : Transitive same_transfer. Proof. row_relation. Qed.
#[global] Instance same_operation_refl : Reflexive same_operation. Proof. by split. Qed.
#[global] Instance same_operation_trans : Transitive same_operation.
Proof.
  intros a b c [H1 T1] [H2 T2]. split; [by etrans|]. intros Ha. specialize (T1 Ha). subst. auto.
Qed.
#[global] Instance same_payee_refl : Reflexive same_payee. Proof. by intros []. Qed.
#[global] Instance same_payee_trans : Transitive same_payee.
Proof. intros a b c Hb Hc. unfold same_payee in *. rewrite <- Hc at 2. by rewrite <- Hb. Qed.
#[global] Instance same_rate_refl : Reflexive same_rate. Proof. intros r. by repeat split. Qed.
#[global] Instance same_rate_trans : Transitive same_rate.
Proof.
  intros a b c (P1&B1&S1&F1&E1&A1) (P2&B2&S2&F2&E2&A2). unfold same_rate, same_pair in *.
  split_and!; try (intuition congruence). intros Ha. specialize (A1 Ha). subst. auto.
Qed.
#[global] Instance same_channel_refl : Reflexive same_channel. Proof. intros c. by repeat split. Qed.
#[global] Instance same_channel_trans : Transitive same_channel.
Proof.
  intros a b c (O1&C1&T1&V1&F1) (O2&C2&T2&V2&F2). unfold same_channel. split_and!; try congruence; [lia|].
  intros E. rewrite F2 by lia. apply F1. lia.
Qed.
#[global] Instance queue_moves_refl : Reflexive queue_moves. Proof. by split. Qed.
#[global] Instance queue_moves_trans : Transitive queue_moves.
Proof.
  intros a b c [[T1 O1] F1 C1 W1] [[T2 O2] F2 C2 W2]. split; [split; congruence| |lia|auto].
  intros Ha. specialize (F1 Ha). subst. auto.
Qed.
(** A change of a row that is not final, and not of its attempts. *)
Lemma queue_moves_open a a' :
  a'.(wa_tenant_id) = a.(wa_tenant_id) → a'.(wa_customer_id) = a.(wa_customer_id) →
  a'.(wa_attempt_count) = a.(wa_attempt_count) → queue_final a = false → queue_moves a a'.
Proof.
  intros T O Hc Hf. split; [done|congruence|lia|]. intros [H0 [Hlt|[_ E]]].
  - split; [lia|]. left. lia.
  - unfold queue_final in Hf. rewrite E in Hf. done.
Qed.
#[global] Instance any_row_refl {V} : Reflexive (@any_row V). Proof. done. Qed.
#[global] Instance any_row_trans {V} : Transitive (@any_row V). Proof. done. Qed.

Definition customer_check (c : Customer) : bool := negb (c.(cust_isInternal) && c.(cust_vaFeeExempt)).

(** [mail_ok], as a test; a rate policy is any row. *)
Definition mail_check (m : EmailOutbox) : bool :=
  (0 <=? m.(mail_attemptCount)) && (m.(mail_attemptCount) <=? m.(mail_maxAttempts)) &&
  (bool_decide (m.(mail_status) = ED_SENT ∨ m.(mail_status) = ED_DEAD) || (m.(mail_attemptCount) <? m.(mail_maxAttempts))).
Lemma mail_check_ok m : mail_check m = true ↔ mail_ok m.
Proof.
  unfold mail_check, mail_ok, mail_final. rewrite !andb_true_iff, orb_true_iff, bool_decide_eq_true, !Z.leb_le, Z.ltb_lt.
  split; [intros [[? ?] Hf]; split; [lia|]; tauto|]. intros [Hr Hf]. split; [lia|].
  destruct (decide (m.(mail_status) = ED_SENT ∨ m.(mail_status) = ED_DEAD)); [by left|right; auto].
Qed.
Definition any_rate (_ : RateVersion) : bool := true.

(** ** The journal *)
Definition entry_sound (e : JournalEntry) : Prop :=
  entry_balanced e ∧ forallb journal_line_check e.(entry_lines) = true.
Definition journal_grows (j j' : list JournalEntry) : Prop :=
  (∃ es, j' = j ++ es ∧ Forall entry_sound es) ∧
  (NoDup (map entry_reference j) → NoDup (map entry_reference j')).
#[global] Instance journal_grows_refl : Reflexive journal_grows.
Proof. intros j. split; [|done]. exists []. by rewrite app_nil_r. Qed.
#[global] Instance journal_grows_trans : Transitive journal_grows.
Proof.
  intros j1 j2 j3 [(es&->&H1) N1] [(es'&->&H2) N2]. split; [|auto].
  exists (es ++ es'). rewrite app_assoc. split; [done|by apply Forall_app].
Qed.

Record evolves (s s' : Db) : Prop := {
  ev_accounts : grows same_account account_check s.(accounts) s'.(accounts);
  ev_wallets : grows same_wallet wallet_check s.(wallets) s'.(wallets);
  ev_operations : grows same_operation operation_check s.(operations) s'.(operations);
  ev_transfers : grows same_transfer transfer_check s.(transfers) s'.(transfers);
  ev_customers : grows any_row customer_check s.(customers) s'.(customers);
  ev_feeRules : grows any_row rule_check s.(feeRules) s'.(feeRules);
  ev_vaRequests : grows any_row va_request_check s.(vaRequests) s'.(vaRequests);
  ev_withdrawalQueue : grows queue_moves queue_check s.(withdrawalQueue) s'.(withdrawalQueue);
  ev_depositQueue : grows any_row deposit_queue_check s.(depositQueue) s'.(depositQueue);
  ev_channels : grows same_channel channel_check s.(channels) s'.(channels);
  ev_beneficiaries : grows same_payee beneficiary_check s.(beneficiaries) s'.(beneficiaries);
  ev_rateVersions : grows same_rate any_rate s.(rateVersions) s'.(rateVersions);
  ev_outbox : grows mail_moves mail_check s.(outbox) s'.(outbox);
  ev_journal : journal_grows s.(journal) s'.(journal);
}.
#[global] Instance evolves_refl : Reflexive evolves.
Proof. by split. Qed.
#[global] Instance evolves_trans : Transitive evolves.
Proof. intros a b c [] []. split; by etrans. Qed.

(** ** Computations that keep the history *)
Definition keeps {A} (m : M Db A) : Prop := ∀ s a s', m s = inr (a, s') → evolves s s'.

Section rules.
Context {A B : Type}.
Lemma keeps_ret (a : A) : keeps (ret a).
Proof. by intros s b s' [_ ->]%ret_ok. Qed.
Lemma keeps_throw e : keeps (throw e : M Db A).
Proof. by intros s b s' H%throw_ok. Qed.
Lemma keeps_throw_if b e : keeps (throw_if b e).
Proof. by intros s u s' [_ ->]%throw_if_ok. Qed.
Lemma keeps_gets (f : Db → A) : keeps (gets f).
Proof. by intros s b s' [_ ->]%gets_ok. Qed.
Lemma keeps_require (o : option A) e : keeps (require o e).
Proof. by intros s b s' [_ ->]%require_ok. Qed.
Lemma keeps_bind (m : M Db A) (f : A → M Db B) : keeps m → (∀ a, keeps (f a)) → keeps (bind m f).
Proof. intros Hm Hf s b s' (a&s1&H1&H2)%bind_ok. etrans; [by eapply Hm|by eapply Hf]. Qed.
Lemma keeps_bind_require (o : option A) e (f : A → M Db B) : (∀ a, o = Some a → keeps (f a)) → keeps (bind (require o e) f).
Proof. intros Hf s b s' (a&s1&[Ho ->]%require_ok&H)%bind_ok. by eapply Hf. Qed.
Lemma keeps_try_catch (m : M Db A) h : keeps m → (∀ e, keeps (h e)) → keeps (try_catch m h).
Proof. intros Hm Hh s b s' [H|(e&_&H)]%try_catch_ok; [by eapply Hm|by eapply Hh]. Qed.
Lemma keeps_transaction fault (m : M Db A) : keeps m → keeps (transaction fault m).
Proof. intros Hm s b s' [_ H]%transaction_ok. by eapply Hm. Qed.
End rules.

Lemma keeps_for_each {A B} (l : list A) (f : A → M Db B) : (∀ a, keeps (f a)) → keeps (for_each l f).
Proof.
  intros Hf. induction l as [|a l IH]; simpl; [apply keeps_ret|].
  apply keeps_bind; [done|]. intros b. apply keeps_bind; [done|]. intros bs. apply keeps_ret.
Qed.
Lemma keeps_after_commit {A B} (m : M Db A) (k : A → exn + B) : keeps m → keeps (after_commit m k).
Proof. intros Hm. apply keeps_bind; [done|]. intros a. apply keeps_ret. Qed.
Lemma keeps_lift {A} (r : exn + A) : keeps (lift r).
Proof. destruct r; [apply keeps_throw|apply keeps_ret]. Qed.

(** ** The writes, table by table *)
Section writes.
Context {V : Type} (tbl : Db → gmap string V) (put : gmap string V → Db → Db) (ok : Db → V → V → bool) (name : string).
Context (R : V → V → Prop) (C : V → bool) `{!Reflexive R} `{!Transitive R}.
Context (Hput : ∀ s m, grows R C (tbl s) m → evolves s (put m s)).
Context (Hok : ∀ s v v', ok s v v' = true → C v' = true).

Lemma keeps_create_row us id v : keeps (create_row tbl put ok name us id v).
Proof.
  intros s u s' (Hn&Ho&->&_)%create_row_ok. apply Hput. apply (grows_insert R C); [by eapply Hok|]. congruence.
Qed.
Lemma keeps_update_row id f : (∀ s v, ok s v (f v) = true → R v (f v)) → keeps (update_row tbl put ok name id f).
Proof.
  intros Hf s w s' (v&Hv&->&Ho&->)%update_row_ok. apply Hput. apply (grows_insert R C); [by eapply Hok|].
  intros v' Hv'. rewrite Hv in Hv'. injection Hv' as <-. by eapply Hf.
Qed.
Lemma keeps_update_many_id_of id p f :
  (∀ s v, p v = true → ok s v (f v) = true → R v (f v)) → keeps (update_many_id tbl put ok name id p f).
Proof.
  intros Hf s n s' [(_&v&Hv&Hp&Ho&->)|(_&->&_)]%update_many_id_ok; [|done].
  apply Hput. apply (grows_insert R C); [by eapply Hok|].
  intros v' Hv'. rewrite Hv in Hv'. injection Hv' as <-. by eapply Hf.
Qed.
Lemma keeps_update_many_id id p f :
  (∀ s v, ok s v (f v) = true → R v (f v)) → keeps (update_many_id tbl put ok name id p f).
Proof. intros Hf. apply keeps_update_many_id_of. eauto. Qed.
Lemma keeps_update_many_of p f :
  (∀ s k v, p (k, v) = true → ok s v (f v) = true → R v (f v)) → keeps (update_many tbl put ok name p f).
Proof.
  intros Hf s n s' (m&->&Ho&Hm)%update_many_ok. apply Hput. apply (grows_update R C _ _ p f Hm).
  intros k v Hk Hp. specialize (Ho k v Hk Hp). split; [by eapply Hf|by eapply Hok].
Qed.
Lemma keeps_update_many p f :
  (∀ s v, ok s v (f v) = true → R v (f v)) → keeps (update_many tbl put ok name p f).
Proof. intros Hf. apply keeps_update_many_of. eauto. Qed.
Lemma keeps_insert_ignore ins id v :
  (∀ s, ins s v = true → C v = true) → keeps (insert_ignore tbl put ins name id v).
Proof.
  intros Hins s n s' H. unfold insert_ignore in H. destruct (ins s v) eqn:E; [|done]. simpl in H.
  destruct (tbl s !! id) as [w|] eqn:Ew; simpl in H; injection H as <- <-; [done|].
  apply Hput. apply (grows_insert R C); [by eapply Hins|]. congruence.
Qed.
End writes.

(** Replacing one table. *)
Lemma evolves_accounts s m : grows same_account account_check s.(accounts) m → evolves s (set_accounts m s).
Proof. by split. Qed.
Lemma evolves_wallets s m : grows same_wallet wallet_check s.(wallets) m → evolves s (set_wallets m s).
Proof. by split. Qed.
Lemma evolves_operations s m : grows same_operation operation_check s.(operations) m → evolves s (set_operations m s).
Proof. by split. Qed.
Lemma evolves_transfers s m : grows same_transfer transfer_check s.(transfers) m → evolves s (set_transfers m s).
Proof. by split. Qed.
Lemma evolves_customers s m : grows any_row customer_check s.(customers) m → evolves s (set_customers m s).
Proof. by split. Qed.
Lemma evolves_feeRules s m : grows any_row rule_check s.(feeRules) m → evolves s (set_feeRules m s).
Proof. by split. Qed.
Lemma evolves_vaRequests s m : grows any_row va_request_check s.(vaRequests) m → evolves s (set_vaRequests m s).
Proof. by split. Qed.
Lemma evolves_withdrawalQueue s m :
  grows queue_moves queue_check s.(withdrawalQueue) m → evolves s (set_withdrawalQueue m s).
Proof. by split. Qed.
Lemma evolves_depositQueue s m :
  grows any_row deposit_queue_check s.(depositQueue) m → evolves s (set_depositQueue m s).
Proof. by split. Qed.

Lemma evolves_channels s m : grows same_channel channel_check s.(channels) m → evolves s (set_channels m s).
Proof. by split. Qed.
Lemma evolves_beneficiaries s m :
  grows same_payee beneficiary_check s.(beneficiaries) m → evolves s (set_beneficiaries m s).
Proof. by split. Qed.
Lemma evolves_rateVersions s m : grows same_rate any_rate s.(rateVersions) m → evolves s (set_rateVersions m s).
Proof. by split. Qed.
Lemma evolves_outbox s m : grows mail_moves mail_check s.(outbox) m → evolves s (set_outbox m s).
Proof. by split. Qed.

(** The writes of accounts, wallets and transfers: the change keeps the row's identity. *)
Lemma keeps_account_create id a : keeps (account_create id a).
Proof. eapply (keeps_create_row _ _ _ _ same_account _); [apply evolves_accounts|done]. Qed.
Lemma keeps_account_update id f : (∀ a, same_account a (f a)) → keeps (account_update id f).
Proof. intros Hf. eapply (keeps_update_row _ _ _ _ same_account _); [apply evolves_accounts|done|auto]. Qed.
Lemma keeps_account_updateMany id p f : (∀ a, same_account a (f a)) → keeps (account_updateMany id p f).
Proof. intros Hf. eapply (keeps_update_many_id _ _ _ _ same_account _); [apply evolves_accounts|done|auto]. Qed.
Lemma keeps_wallet_create id w : keeps (wallet_create id w).
Proof. eapply (keeps_create_row _ _ _ _ same_wallet _); [apply evolves_wallets|done]. Qed.
Lemma keeps_wallet_update id f : (∀ w, same_wallet w (f w)) → keeps (wallet_update id f).
Proof. intros Hf. eapply (keeps_update_row _ _ _ _ same_wallet _); [apply evolves_wallets|done|auto]. Qed.
Lemma keeps_wallet_updateMany id p f : (∀ w, same_wallet w (f w)) → keeps (wallet_updateMany id p f).
Proof. intros Hf. eapply (keeps_update_many_id _ _ _ _ same_wallet _); [apply evolves_wallets|done|auto]. Qed.
Lemma keeps_wallet_updateWhere p f : (∀ w, same_wallet w (f w)) → keeps (wallet_updateWhere p f).
Proof. intros Hf. eapply (keeps_update_many _ _ _ _ same_wallet _); [apply evolves_wallets|done|auto]. Qed.
Lemma keeps_transfer_create id t : keeps (transfer_create id t).
Proof. eapply (keeps_create_row _ _ _ _ same_transfer _); [apply evolves_transfers|done]. Qed.
Lemma keeps_transfer_update id f : (∀ t, same_transfer t (f t)) → keeps (transfer_update id f).
Proof. intros Hf. eapply (keeps_update_row _ _ _ _ same_transfer _); [apply evolves_transfers|done|auto]. Qed.
Lemma keeps_transfer_updateMany id p f : (∀ t, same_transfer t (f t)) → keeps (transfer_updateMany id p f).
Proof. intros Hf. eapply (keeps_update_many_id _ _ _ _ same_transfer _); [apply evolves_transfers|done|auto]. Qed.

(** Operations: the trigger refuses the update of a finished one. *)
Section operations.
Context {JD : JsDates}.
Lemma guard_open now s o o' : operation_guard now s o o' = true → terminal_status o.(op_status) = false ∧ operation_check o' = true.
Proof.
  unfold operation_guard, guard_operation_transition. rewrite !andb_true_iff, negb_true_iff. tauto.
Qed.
Lemma guarded_same_operation now s o o' :
  operation_guard now s o o' = true → same_terms o o' → same_operation o o'.
Proof. intros [Ht _]%guard_open H. split; [done|]. congruence. Qed.
Lemma guarded_check now s o o' : operation_guard now s o o' = true → operation_check o' = true.
Proof. by intros [_ H]%guard_open. Qed.

Lemma keeps_operation_create id o : keeps (operation_create id o).
Proof. eapply (keeps_create_row _ _ _ _ same_operation _); [apply evolves_operations|done]. Qed.
Lemma keeps_operation_update now id f : (∀ o, same_terms o (f o)) → keeps (operation_update now id f).
Proof.
  intros Hf. eapply (keeps_update_row _ _ _ _ same_operation _); [apply evolves_operations|by eapply guarded_check|].
  intros s o Ho. by eapply guarded_same_operation.
Qed.
Lemma keeps_operation_updateMany now id p f : (∀ o, same_terms o (f o)) → keeps (operation_updateMany now id p f).
Proof.
  intros Hf. eapply (keeps_update_many_id _ _ _ _ same_operation _); [apply evolves_operations|by eapply guarded_check|].
  intros s o Ho. by eapply guarded_same_operation.
Qed.
Lemma keeps_operation_updateWhere now p f : (∀ o, same_terms o (f o)) → keeps (operation_updateWhere now p f).
Proof.
  intros Hf. eapply (keeps_update_many _ _ _ _ same_operation _); [apply evolves_operations|by eapply guarded_check|].
  intros s o Ho. by eapply guarded_same_operation.
Qed.
End operations.

(** The other tables: any change the constraints accept. *)
Lemma keeps_customer_update id f : keeps (customer_update id f).
Proof. eapply (keeps_update_row _ _ _ _ any_row _); [apply evolves_customers|done|done]. Qed.
Lemma keeps_customer_updateMany id p f : keeps (customer_updateMany id p f).
Proof. eapply (keeps_update_many_id _ _ _ _ any_row _); [apply evolves_customers|done|done]. Qed.
Lemma keeps_feeRule_create id r : keeps (feeRule_create id r).
Proof. eapply (keeps_create_row _ _ _ _ any_row _); [apply evolves_feeRules|done]. Qed.
Lemma keeps_feeRule_updateMany id p f : keeps (feeRule_updateMany id p f).
Proof. eapply (keeps_update_many_id _ _ _ _ any_row _); [apply evolves_feeRules|done|done]. Qed.
Lemma keeps_vaRequest_create id r : keeps (vaRequest_create id r).
Proof. eapply (keeps_create_row _ _ _ _ any_row _); [apply evolves_vaRequests|done]. Qed.
Lemma keeps_vaRequest_update id f : keeps (vaRequest_update id f).
Proof. eapply (keeps_update_row _ _ _ _ any_row _); [apply evolves_vaRequests|done|done]. Qed.
Lemma keeps_queue_update id p f : (∀ a, p a = true → queue_moves a (f a)) → keeps (queue_update id p f).
Proof. intros Hf. eapply (keeps_update_many_id_of _ _ _ _ queue_moves _); [apply evolves_withdrawalQueue|done|auto]. Qed.
Lemma keeps_queue_updateWhere p f : (∀ k a, p (k, a) = true → queue_moves a (f a)) → keeps (queue_updateWhere p f).
Proof. intros Hf. eapply (keeps_update_many_of _ _ _ _ queue_moves _); [apply evolves_withdrawalQueue|done|eauto]. Qed.
Lemma keeps_deposit_queue_update id p f : keeps (deposit_queue_update id p f).
Proof. eapply (keeps_update_many_id _ _ _ _ any_row _); [apply evolves_depositQueue|done|done]. Qed.
Lemma keeps_deposit_queue_updateWhere p f : keeps (deposit_queue_updateWhere p f).
Proof. eapply (keeps_update_many _ _ _ _ any_row _); [apply evolves_depositQueue|done|done]. Qed.
Lemma keeps_channel_create id c : keeps (channel_create id c).
Proof. eapply (keeps_create_row _ _ _ _ same_channel _); [apply evolves_channels|done]. Qed.
Lemma keeps_channel_update id f : (∀ c, same_channel c (f c)) → keeps (channel_update id f).
Proof. intros Hf. eapply (keeps_update_row _ _ _ _ same_channel _); [apply evolves_channels|done|auto]. Qed.
Lemma keeps_channel_updateMany id p f : (∀ c, same_channel c (f c)) → keeps (channel_updateMany id p f).
Proof. intros Hf. eapply (keeps_update_many_id _ _ _ _ same_channel _); [apply evolves_channels|done|auto]. Qed.
Lemma keeps_beneficiary_create id b : keeps (beneficiary_create id b).
Proof. eapply (keeps_create_row _ _ _ _ same_payee _); [apply evolves_beneficiaries|done]. Qed.
Lemma keeps_beneficiary_switch id x : keeps (beneficiary_update id (set_ben_active x)).
Proof. eapply (keeps_update_row _ _ _ _ same_payee _); [apply evolves_beneficiaries|done|]. by intros s []. Qed.
Lemma keeps_rate_create id r : keeps (rate_create id r).
Proof. eapply (keeps_create_row _ _ _ _ same_rate any_rate); [apply evolves_rateVersions|done]. Qed.
(** Retiring the active versions among those that match. *)
Lemma retired_rate now r : r.(rate_active) = true → same_rate r (rate_retire now r).
Proof. intros Ha. repeat split. congruence. Qed.
Lemma keeps_rate_retire now id : keeps (rate_updateMany id rate_active (rate_retire now)).
Proof.
  intros s n s' [(_&r&Hr&Hp&_&->)|(_&->&_)]%update_many_id_ok; [|done].
  apply evolves_rateVersions. apply (grows_insert same_rate any_rate); [done|]. intros r' Hr'. rewrite Hr in Hr'. injection Hr' as <-.
  by apply retired_rate.
Qed.
Lemma keeps_rate_retireWhere now p : keeps (rate_updateWhere (λ kr, p kr && kr.2.(rate_active)) (rate_retire now)).
Proof.
  intros s n s' (m&->&_&Hm)%update_many_ok. apply evolves_rateVersions. apply (grows_update same_rate any_rate _ _ (λ kr, p kr && kr.2.(rate_active)) (rate_retire now) Hm).
  intros k r _ [_ Ha]%andb_true_iff. split; [by apply retired_rate|done].
Qed.
Lemma keeps_custody_update id p f : keeps (custody_update id p f).
Proof. intros s n s' [(_&x&_&_&_&->)|(_&->&_)]%update_many_id_ok; [by split|done]. Qed.
Lemma keeps_vaFeePolicyEvent_create e : keeps (vaFeePolicyEvent_create e).
Proof. intros s u s' H. unfold vaFeePolicyEvent_create in H. destruct (existsb _ _); [done|]. injection H as _ <-. by split. Qed.

(** ** The journal: entries made of balanced pairs *)
Section ledger.
Context {DO : DecimalOps}.

(** A debit and a credit of the same amount, some number of times. *)
Inductive paired : list NewLine → Prop :=
| paired_nil : paired []
| paired_cons a b c x lines : paired lines → paired ((a, DEBIT, c, x) :: (b, CREDIT, c, x) :: lines).

Lemma stored_pairs lines s stored s' :
  paired lines → for_each lines store_line s = inr (stored, s') →
  s' = s ∧ ∀ c, sum_list (line_signed c) stored = 0.
Proof.
  intros Hp. revert s stored s'. induction Hp as [|a b c x lines _ IH]; intros s stored s' H; simpl in H.
  - apply ret_ok in H as [-> ->]. done.
  - apply bind_ok in H as (l1&s1&H1&H). apply bind_ok in H1 as (z&s2&[Hz ->]%require_ok&[-> ->]%ret_ok).
    apply bind_ok in H as (ls&s3&H&[-> ->]%ret_ok). apply bind_ok in H as (l2&s4&H2&H).
    apply bind_ok in H2 as (z'&s5&[Hz' ->]%require_ok&[-> ->]%ret_ok).
    apply bind_ok in H as (ls'&s6&H&[-> ->]%ret_ok). apply IH in H as [-> Hsum]. split; [done|].
    assert (z' = z) as -> by congruence. intros k. simpl. unfold line_signed at 1 2. simpl. rewrite Hsum. case_match; lia.
Qed.

Lemma journal_grows_entry j e :
  entry_sound e → existsb (λ e', String.eqb e'.(entry_reference) e.(entry_reference)) j = false → journal_grows j (j ++ [e]).
Proof.
  intros He Hn. split; [exists [e]; split; [done|by constructor]|].
  intros Hnd. rewrite map_app. apply NoDup_app. split; [done|split; [|apply NoDup_singleton]].
  intros r Hr Hin. apply list_elem_of_singleton in Hin as ->. apply list_elem_of_fmap in Hr as (e'&He'&Hin).
  apply not_true_iff_false in Hn. apply Hn, existsb_exists. exists e'.
  split; [by apply list_elem_of_In|]. by apply String.eqb_eq.
Qed.

Lemma keeps_create_entry ref opId text lines : paired lines → keeps (create_entry ref opId text lines).
Proof.
  intros Hp s u s' H. apply bind_ok in H as (stored&s1&Hs&H).
  destruct (stored_pairs _ _ _ _ Hp Hs) as [-> Hsum].
  apply journalEntry_create_ok in H as (Hn&Hc&->). split; try done. simpl.
  by apply journal_grows_entry.
Qed.
Lemma keeps_post_journal id o lines suffix : paired lines → keeps (post_journal id o lines suffix).
Proof. intros Hp. apply keeps_bind; [apply keeps_throw_if|]. intros _. by apply keeps_create_entry. Qed.
End ledger.

(** ** Following a handler *)
Create HintDb keeps.
#[export] Hint Resolve keeps_ret keeps_throw keeps_throw_if keeps_gets keeps_require keeps_lift
  keeps_account_create keeps_wallet_create keeps_transfer_create keeps_operation_create keeps_customer_update
  keeps_customer_updateMany keeps_feeRule_create keeps_feeRule_updateMany keeps_vaRequest_create keeps_vaRequest_update
  keeps_deposit_queue_update keeps_deposit_queue_updateWhere
  keeps_custody_update keeps_vaFeePolicyEvent_create keeps_channel_create keeps_beneficiary_create
  keeps_beneficiary_switch keeps_rate_create keeps_rate_retire keeps_rate_retireWhere : keeps.
(** The writes whose change must keep the identity of the row, and the entries that must pair. *)
Ltac keep_write :=
  first [ apply keeps_account_update | apply keeps_account_updateMany | apply keeps_wallet_update
        | apply keeps_wallet_updateMany | apply keeps_wallet_updateWhere | apply keeps_transfer_update
        | apply keeps_transfer_updateMany | apply keeps_operation_update | apply keeps_operation_updateMany
        | apply keeps_operation_updateWhere ];
  solve [intros ?; by repeat split | intros ?; unfold if_given; repeat case_match; by repeat split].
(** The updates of queue rows in a status that is not final. *)
Lemma in_status_open st a : in_status st a = true → includes ["released"; "settled"; "exception"] st = false → queue_final a = false.
Proof. unfold in_status, queue_final. by intros ->%String.eqb_eq. Qed.
Ltac queue_write :=
  first [ apply keeps_queue_update; intros ? | apply keeps_queue_updateWhere; intros ? ? ];
  rewrite ?andb_true_iff; intros ?; destruct_and?;
  solve [ apply queue_moves_open; try reflexivity; by eapply in_status_open ].
(** One step along the text of a handler. *)
Ltac keep_step :=
  cbv beta zeta;
  lazymatch goal with
  | |- keeps (bind _ _) => apply keeps_bind; [|intros ?]
  | |- keeps (try_catch _ _) => apply keeps_try_catch; [|intros ?]
  | |- keeps (transaction _ _) => apply keeps_transaction
  | |- keeps (after_commit _ _) => apply keeps_after_commit
  | |- keeps (for_each _ _) => apply keeps_for_each; intros ?
  | |- keeps (create_entry _ _ _ _) => apply keeps_create_entry; by repeat constructor
  | |- keeps (post_journal _ _ _ _) => apply keeps_post_journal; by repeat constructor
  | |- keeps (match _ with _ => _ end) => case_match
  | |- keeps _ => first [solve [auto with keeps nocore] | keep_write | queue_write]
  end.
Ltac keeping := repeat keep_step.

Section primitives.
Context {DO : DecimalOps}.
Lemma keeps_freeze id x : keeps (freeze id x). Proof. unfold freeze. keeping. Qed.
Lemma keeps_unfreeze id x : keeps (unfreeze id x). Proof. unfold unfreeze. keeping. Qed.
Lemma keeps_consumeFrozen id x : keeps (consumeFrozen id x). Proof. unfold consumeFrozen. keeping. Qed.
Lemma keeps_creditAvailable id x : keeps (creditAvailable id x). Proof. unfold creditAvailable. keeping. Qed.
Lemma keeps_freezeCryptoWallet id x : keeps (freezeCryptoWallet id x). Proof. unfold freezeCryptoWallet. keeping. Qed.
Lemma keeps_unfreezeCryptoWallet id x : keeps (unfreezeCryptoWallet id x). Proof. unfold unfreezeCryptoWallet. keeping. Qed.
Lemma keeps_consumeCryptoWalletFrozen id x : keeps (consumeCryptoWalletFrozen id x).
Proof. unfold consumeCryptoWalletFrozen. keeping. Qed.
Lemma keeps_creditCryptoWallet id x : keeps (creditCryptoWallet id x). Proof. unfold creditCryptoWallet. keeping. Qed.
Lemma keeps_clearingAccount c : keeps (clearingAccount c). Proof. unfold clearingAccount. keeping. Qed.
Lemma keeps_store8 x : keeps (store8 x). Proof. unfold store8. keeping. Qed.
Lemma keeps_postFee id o : keeps (postFee id o). Proof. unfold postFee. keeping. Qed.
End primitives.
#[export] Hint Resolve keeps_freeze keeps_unfreeze keeps_consumeFrozen keeps_creditAvailable keeps_freezeCryptoWallet
  keeps_unfreezeCryptoWallet keeps_consumeCryptoWalletFrozen keeps_creditCryptoWallet keeps_clearingAccount keeps_store8
  keeps_postFee : keeps.
Lemma keeps_find_unique {V} (tbl : Db → gmap string V) id : keeps (find_unique tbl id).
Proof. apply keeps_gets. Qed.
#[export] Hint Resolve keeps_find_unique : keeps.
