(* ===== verification/HandlerHistory.v ===== *)
(** The history kept by every handler: one lemma per operation of the
    components, each by following the text of the operation. *)
From S2P Require Import Prelude Decimals Schema Access Ledger WithdrawalFees Channels Operations Accounts TronAddress Beneficiaries Rates CryptoWallets ConfigurationProperties Customers VirtualAccounts CustomerRecords WithdrawalWorker DepositWorker Reconciliation Evolution.
#[local] Open Scope Z_scope.

(** ** Access and fees *)
Lemma keeps_requireActiveUser u : keeps (requireActiveUser u).
Proof. unfold requireActiveUser. keeping. Qed.
#[export] Hint Resolve keeps_requireActiveUser : keeps.
Lemma keeps_requireOrganizationAccess u o : keeps (requireOrganizationAccess u o).
Proof. unfold requireOrganizationAccess. keeping. Qed.
Lemma keeps_requireCustomerAccess u c : keeps (requireCustomerAccess u c).
Proof. unfold requireCustomerAccess. keeping. Qed.
#[export] Hint Resolve keeps_requireOrganizationAccess keeps_requireCustomerAccess : keeps.

Section fees.
Context {DO : DecimalOps}.
Lemma keeps_toMinor v d : keeps (toMinor v d).
Proof. unfold toMinor. keeping. Qed.
Hint Resolve keeps_toMinor : keeps.
Lemma keeps_normalizeScope env input : keeps (normalizeScope env input).
Proof. unfold normalizeScope. keeping. Qed.
Lemma keeps_resolve scope : keeps (resolve scope).
Proof. unfold resolve. keeping. Qed.
Hint Resolve keeps_normalizeScope : keeps.
Lemma keeps_upsert env newId input u : keeps (upsert env newId input u).
Proof. unfold upsert. keeping. Qed.
Lemma keeps_update env id amount active version u : keeps (WithdrawalFees.update env id amount active version u).
Proof. unfold WithdrawalFees.update. keeping. Qed.
End fees.
#[export] Hint Resolve keeps_resolve : keeps.

(** ** Operations *)
Lemma keeps_checked l : keeps (checked l).
Proof. unfold checked. keeping. Qed.
Lemma keeps_find_optional {V} (tbl : Db → gmap string V) id : keeps (find_optional tbl id).
Proof. unfold find_optional. keeping. Qed.
Lemma keeps_find_by {V} (tbl : Db → gmap string V) id : keeps (find_by tbl id).
Proof. unfold find_by, find_optional. keeping. Qed.
Lemma keeps_requireRole u roles : keeps (requireRole u roles).
Proof. unfold requireRole. keeping. Qed.
#[export] Hint Resolve keeps_checked keeps_find_optional keeps_find_by keeps_requireRole : keeps.

Section operations.
Context {DO : DecimalOps} {JD : JsDates}.
Lemma keeps_decimal t : keeps (Operations.decimal t).
Proof. apply keeps_require. Qed.
Hint Resolve keeps_decimal : keeps.
Lemma keeps_create_checks input : keeps (create_checks input).
Proof. unfold create_checks, positiveMoney, requested_fee. keeping. Qed.
Lemma keeps_validateShape input a b c d : keeps (validateShape input a b c d).
Proof. unfold validateShape. keeping. Qed.
Hint Resolve keeps_create_checks keeps_validateShape : keeps.
Lemma keeps_create_parties input u : keeps (create_parties input u).
Proof. unfold create_parties. keeping. Qed.
Lemma keeps_cancel_stale_quotes now c : keeps (cancel_stale_quotes now c).
Proof. unfold cancel_stale_quotes. keeping. Qed.
Lemma keeps_samePayout input x actor o : keeps (samePayout input x actor o).
Proof. unfold samePayout. keeping. Qed.
Hint Resolve keeps_create_parties keeps_cancel_stale_quotes keeps_samePayout : keeps.
Lemma keeps_find_existing input mode x : keeps (find_existing input mode x).
Proof. unfold find_existing. keeping. Qed.
Lemma keeps_recheck_customer env input : keeps (recheck_customer env input).
Proof. unfold recheck_customer. keeping. Qed.
Lemma keeps_duplicate_receipt input x : keeps (duplicate_receipt input x).
Proof. unfold duplicate_receipt. keeping. Qed.
Lemma keeps_price_payout input p : keeps (price_payout input p).
Proof. unfold price_payout. keeping. Qed.
Lemma keeps_price_conversion now input x : keeps (price_conversion now input x).
Proof. unfold price_conversion. keeping. Qed.
Lemma keeps_reserve_source input mode p x : keeps (reserve_source input mode p x).
Proof. unfold reserve_source. keeping. Qed.
Lemma keeps_insert_operation now newId uuid input u mode x y fee c : keeps (insert_operation now newId uuid input u mode x y fee c).
Proof. unfold insert_operation, store_optional. keeping. Qed.
Hint Resolve keeps_find_existing keeps_recheck_customer keeps_duplicate_receipt keeps_price_payout keeps_price_conversion
  keeps_reserve_source keeps_insert_operation : keeps.
Lemma keeps_submit now newId uuid input u mode p x y : keeps (submit now newId uuid input u mode p x y).
Proof. unfold submit. keeping. Qed.
Hint Resolve keeps_submit : keeps.
Lemma keeps_createOperation env now newId uuid fault input u mode : keeps (createOperation env now newId uuid fault input u mode).
Proof. unfold createOperation, create_transaction. keeping. Qed.
Hint Resolve keeps_createOperation : keeps.
Lemma keeps_create env now newId uuid fault input u : keeps (Operations.create env now newId uuid fault input u).
Proof. unfold Operations.create, requireGenericOperation. keeping. Qed.
Lemma keeps_createQuote env now newId uuid fault input u actor : keeps (createQuote env now newId uuid fault input u actor).
Proof. unfold createQuote. keeping. Qed.
Lemma keeps_createCustomerPayout env now newId uuid fault input u actor :
  keeps (createCustomerPayout env now newId uuid fault input u actor).
Proof. unfold createCustomerPayout. keeping. Qed.

Lemma keeps_postConversion now id o : keeps (postConversion now id o).
Proof. unfold postConversion. keeping. Qed.
Lemma keeps_postPayout id o : keeps (postPayout id o).
Proof. unfold postPayout. keeping. Qed.
Hint Resolve keeps_postConversion keeps_postPayout : keeps.
Lemma keeps_postApprovedOperation now id o : keeps (postApprovedOperation now id o).
Proof. unfold postApprovedOperation, post_credit, post_transfer, post_debit_adjustment. keeping. Qed.
Hint Resolve keeps_postApprovedOperation : keeps.
Lemma keeps_confirmQuote now fault id actor : keeps (confirmQuote now fault id actor).
Proof. unfold confirmQuote, confirm_transaction, confirm_claimed. keeping. Qed.
Lemma keeps_load_operation id : keeps (load_operation id).
Proof. unfold load_operation, requireNonCryptoWorkflow, requireGenericOperation. keeping. Qed.
Lemma keeps_acting_user o u : keeps (acting_user o u).
Proof. unfold acting_user. keeping. Qed.
Hint Resolve keeps_load_operation keeps_acting_user : keeps.
Lemma keeps_approve now id u : keeps (Operations.approve now id u).
Proof. unfold Operations.approve. keeping. Qed.
Lemma keeps_reject now id reason u : keeps (Operations.reject now id reason u).
Proof. unfold Operations.reject, release_reservation. keeping. Qed.
Lemma keeps_execute now id ref u : keeps (Operations.execute now id ref u).
Proof. unfold Operations.execute. keeping. Qed.
End operations.
#[export] Hint Resolve keeps_decimal : keeps.

(** ** Crypto wallets *)
Section crypto.
Context {DO : DecimalOps} {JD : JsDates} (sha256 : list Z → list Z).
Lemma keeps_require_crypto_role u : keeps (require_crypto_role u).
Proof. unfold require_crypto_role. keeping. Qed.
Lemma keeps_requireCustomerTenant c u : keeps (requireCustomerTenant c u).
Proof. unfold requireCustomerTenant. keeping. Qed.
Lemma keeps_mirrorAccount c : keeps (mirrorAccount c).
Proof. unfold mirrorAccount. keeping. Qed.
Hint Resolve keeps_require_crypto_role keeps_requireCustomerTenant keeps_mirrorAccount : keeps.
Lemma keeps_withdrawal_parties input u : keeps (withdrawal_parties input u).
Proof. unfold withdrawal_parties. keeping. Qed.
Lemma keeps_withdrawal_fee env input c x : keeps (withdrawal_fee env input c x).
Proof. unfold withdrawal_fee. keeping. Qed.
Lemma keeps_freeze_wallet_and_mirror w m x : keeps (freeze_wallet_and_mirror w m x).
Proof. unfold freeze_wallet_and_mirror. keeping. Qed.
Hint Resolve keeps_withdrawal_parties keeps_withdrawal_fee keeps_freeze_wallet_and_mirror : keeps.
Lemma keeps_createWithdrawal env now id suffix input u : keeps (createWithdrawal sha256 env now id suffix input u).
Proof. unfold createWithdrawal, submit_withdrawal, validateAddress. keeping. Qed.
Lemma keeps_load_transfer id u st code : keeps (load_transfer id u st code).
Proof. unfold load_transfer. keeping. Qed.
Hint Resolve keeps_load_transfer : keeps.
Lemma keeps_approveTransfer now id u : keeps (approveTransfer now id u).
Proof. unfold approveTransfer. keeping. Qed.
Lemma keeps_rejectTransfer now id reason u : keeps (rejectTransfer now id reason u).
Proof. unfold rejectTransfer, reject_writes. keeping. Qed.
Lemma keeps_executeTransfer now id h u : keeps (executeTransfer now id h u).
Proof. unfold executeTransfer, post_withdrawal. keeping. Qed.
End crypto.

(** ** Channels, payees, rates and the platform's accounts *)
Section forms.
Context {DO : DecimalOps} {JD : JsDates} (sha256 : list Z → list Z).
Lemma keeps_channel_admin u : keeps (channel_admin u).
Proof. unfold channel_admin. keeping. Qed.
Lemma keeps_assertSupportedCurrencies l : keeps (assertSupportedCurrencies l).
Proof. unfold assertSupportedCurrencies. keeping. Qed.
Lemma keeps_toUsdMinor text : keeps (toUsdMinor text).
Proof. unfold toUsdMinor. keeping. Qed.
Hint Resolve keeps_channel_admin keeps_assertSupportedCurrencies keeps_toUsdMinor : keeps.
Lemma keeps_update_checks dto c : keeps (update_checks dto c).
Proof. unfold update_checks. keeping. Qed.
Hint Resolve keeps_update_checks : keeps.
Lemma keeps_createChannel now id dto u : keeps (createChannel now id dto u).
Proof. unfold createChannel. keeping. Qed.
Lemma update_data_channel dto c : same_channel c (update_data dto c).
Proof.
  destruct (update_data_row dto c) as (Ht&_&_&_&_&_&Ef&Ev&Eo&Ec). unfold same_channel. rewrite Ht, Ef, Ev, Eo, Ec. by repeat split.
Qed.
Lemma price_data_channel now u fee c : same_channel c (price_data now u fee c).
Proof. repeat split; simpl; lia. Qed.
Lemma keeps_updateChannel now id dto u : keeps (updateChannel now id dto u).
Proof.
  unfold updateChannel. keeping.
  - apply keeps_channel_updateMany. intros c'. etrans; [apply update_data_channel|apply price_data_channel].
  - apply keeps_channel_update. intros c'. apply update_data_channel.
Qed.

Lemma keeps_createBeneficiary id dto u : keeps (createBeneficiary sha256 id dto u).
Proof. unfold createBeneficiary, bank_row, crypto_row. keeping. Qed.
Lemma keeps_updateBeneficiary id active u : keeps (updateBeneficiary id active u).
Proof. unfold updateBeneficiary. keeping. Qed.

Lemma keeps_rate_admin u : keeps (rate_admin u).
Proof. unfold rate_admin. keeping. Qed.
Lemma keeps_market_checks now dto : keeps (market_checks now dto).
Proof. unfold market_checks. keeping. Qed.
Hint Resolve keeps_rate_admin keeps_market_checks : keeps.
Lemma keeps_createFromMarket now id dto u : keeps (createFromMarket now id dto u).
Proof. unfold createFromMarket, publish_rate. keeping. Qed.
Lemma keeps_deactivate now id u : keeps (deactivate now id u).
Proof. unfold deactivate. keeping. Qed.

Lemma keeps_customer_create id c : keeps (customer_create id c).
Proof. eapply (keeps_create_row _ _ _ _ any_row _); [apply evolves_customers|done]. Qed.
Hint Resolve keeps_customer_create : keeps.
Lemma keeps_create_customer now id input u : keeps (create_customer now id input u).
Proof. unfold create_customer. keeping. Qed.

Lemma keeps_ensureSystemLedgerAccounts newId : keeps (ensureSystemLedgerAccounts newId).
Proof. unfold ensureSystemLedgerAccounts, ensure_system_account. keeping. Qed.
End forms.
