(* ===== verification/WorkerHistory.v ===== *)
(** The history kept by the customer, virtual account, custody and
    reconciliation handlers; those that commit several transactions keep it
    after each of them. *)
From S2P Require Import Prelude Decimals Schema Access Ledger WithdrawalFees Operations TronAddress CryptoWallets Customers VirtualAccounts CustomerRecords EmailWorker EmailProperties WithdrawalWorker WithdrawalWorkerEffects WithdrawalWorkerProperties DepositWorker CregisAccounting Reconciliation Triage Evolution HandlerHistory.
#[local] Open Scope Z_scope.

(** ** Customers *)
Lemma keeps_enqueue env now mail : keeps (enqueue env now mail).
Proof.
  intros s u s' H. unfold enqueue in H. destruct (negb _); [by apply ret_ok in H as [_ ->]|].
  apply bind_ok in H as (found&s1&[-> ->]%gets_ok&H). destruct (s.(outbox) !! em_dedupeKey mail) eqn:E; [by apply ret_ok in H as [_ ->]|].
  apply modify_ok in H as ->. apply evolves_outbox, (grows_insert mail_moves mail_check); [done|congruence].
Qed.
Lemma keeps_enqueueCustomerEmail env now id c template dedupe payload : keeps (enqueueCustomerEmail env now id c template dedupe payload).
Proof. apply keeps_enqueue. Qed.
Lemma keeps_requireChecker u : keeps (requireChecker u).
Proof. unfold requireChecker. keeping. Qed.
Lemma keeps_account_upsert id number a : keeps (account_upsert id number a).
Proof. unfold account_upsert. keeping. Qed.
#[export] Hint Resolve keeps_enqueueCustomerEmail keeps_requireChecker keeps_account_upsert : keeps.
Lemma keeps_reviewKyc env now id u decision note : keeps (reviewKyc env now id u decision note).
Proof. unfold reviewKyc, load_review. keeping. Qed.
Lemma keeps_approve_customer env now newId id u note : keeps (approve_customer env now newId id u note).
Proof. unfold approve_customer, load_review, ensure_fiat_wallets. keeping. Qed.
Lemma keeps_reject_customer now id u reason : keeps (reject_customer now id u reason).
Proof. unfold reject_customer, load_review. keeping. Qed.

Section sync.
Context {JD : JsDates} (sha256 : list Z → list Z).
Lemma keeps_ensureMirror accountId walletId customerId address :
  keeps (ensureCustomerCryptoWalletMirror sha256 accountId walletId customerId address).
Proof. unfold ensureCustomerCryptoWalletMirror. keeping. Qed.
Lemma keeps_customer_upsert adm org row : keeps (customer_upsert adm org row).
Proof.
  intros s u s' ->%modify_ok. apply evolves_customers. split.
  - intros k v Hk. destruct (decide (k = row.(nc_customer_id))) as [->|].
    + rewrite lookup_insert_eq. by eexists.
    + rewrite lookup_insert_ne by done. by eexists.
  - intros HC. apply map_Forall_insert_2; [|done]. unfold customer_check. simpl.
    destruct (s.(customers) !! row.(nc_customer_id)) as [c|] eqn:E; [|done]. exact (HC _ _ E).
Qed.
Lemma evolves_run_steps steps s : Forall keeps steps → evolves s (run_steps steps s).1.
Proof.
  intros H. revert s. induction H as [|m steps Hm _ IH]; intros s; simpl; [done|].
  destruct (m s) as [e|[u s1]] eqn:E; [done|]. etrans; [by eapply Hm|apply IH].
Qed.
Lemma keeps_sync_steps newId adm org verified row : Forall keeps (sync_steps sha256 newId adm org verified row).
Proof.
  unfold sync_steps. constructor; [apply keeps_customer_upsert|]. destruct (negb _); [constructor|].
  apply Forall_app. split.
  - apply Forall_forall. intros m (c&->&_)%list_elem_of_fmap. keeping.
  - repeat case_match; repeat (apply Forall_cons; split); try apply Forall_nil_2; keeping; apply keeps_ensureMirror.
Qed.
Lemma evolves_sync newId adm org rows verified s : evolves s (syncNeobankCustomers sha256 newId adm org rows verified s).1.
Proof.
  apply evolves_run_steps. generalize (if existsb active_approved rows then verified else []). intros vs.
  induction rows as [|row rows IH]; [constructor|]. apply Forall_app. split; [apply keeps_sync_steps|done].
Qed.
End sync.

(** ** Virtual accounts *)
Section virtual_accounts.
Context {DO : DecimalOps} {JD : JsDates} (sha256 : list Z → list Z) (newId : string → string).
Context (rows : list NeobankCustomer) (verified : list VerifiedCregisWallet).
Lemma keeps_run_sync adm org : keeps (run_sync sha256 newId rows verified adm org).
Proof.
  intros s u s' H. unfold run_sync in H. pose proof (evolves_sync sha256 newId adm org rows verified s) as E.
  destruct (syncNeobankCustomers _ _ _ _ _ _ _) as [s1 [e|]]; [done|]. by injection H as _ <-.
Qed.
Hint Resolve keeps_run_sync : keeps.

(** Reads after the import. *)
Lemma evolves_run_read {A} (read : M Db A) s : keeps read → evolves s (run_read read s).1.
Proof. intros H. unfold run_read. destruct (read s) as [e|[a s']] eqn:E; [done|]. by eapply H. Qed.
Lemma evolves_after_import {A} env org u (read : M Db A) s :
  keeps read → evolves s (after_import sha256 newId rows verified env org u read s).1.
Proof.
  intros H. unfold after_import. destruct (has_tenant env); [|by apply evolves_run_read].
  pose proof (evolves_sync sha256 newId (trim_or env.(CORE_ADMIN_USER_ID) u) org rows verified s) as E.
  destruct (syncNeobankCustomers _ _ _ _ _ _ _) as [s1 [e|]]; [done|]. etrans; [exact E|by apply evolves_run_read].
Qed.
Lemma evolves_list_customers env ordered org u status s :
  evolves s (list_customers sha256 newId rows verified env ordered org u status s).1.
Proof.
  unfold list_customers. destruct (requireOrganizationAccess _ _ _) as [|[? ?]]; [done|]. apply evolves_after_import.
  unfold read_customers. keeping.
Qed.
Lemma evolves_get_customer env payees ops created_by id u s :
  evolves s (get_customer sha256 newId rows verified env payees ops created_by id u s).1.
Proof.
  assert (keeps (read_customer env payees ops created_by id u)) as H by (unfold read_customer; keeping).
  unfold get_customer. destruct (truthy _); [by apply evolves_after_import|by apply evolves_run_read].
Qed.
Lemma evolves_list_requests env ordered c actor s :
  evolves s (listVirtualAccountRequests sha256 newId rows verified env ordered c actor s).1.
Proof.
  assert (∀ o, keeps (read_requests o c)) as Hread by (intros o; unfold read_requests; keeping).
  assert (∀ o, keeps (read_own_requests o c)) as Hown by (intros o; unfold read_own_requests; keeping; apply Hread).
  unfold listVirtualAccountRequests. destruct (opt_truthy _); [|apply evolves_run_read; keeping; apply Hread].
  destruct (differs _ _); [done|]. destruct (_ && _); [apply evolves_after_import, Hown|apply evolves_run_read, Hown].
Qed.
Lemma keeps_requireVaCustomerAccess env c org actor :
  keeps (requireVaCustomerAccess sha256 newId rows verified env c org actor).
Proof. unfold requireVaCustomerAccess. keeping. Qed.
Lemma keeps_view_of id r : keeps (view_of id r).
Proof. unfold view_of. keeping. Qed.
Lemma keeps_only_account p e : keeps (only_account p e).
Proof. unfold only_account. keeping. Qed.
Hint Resolve keeps_requireVaCustomerAccess keeps_view_of keeps_only_account : keeps.
Lemma keeps_reserveVaOpeningFee now rid fid c key chid ch minor u :
  keeps (reserveVaOpeningFee now rid fid c key chid ch minor u).
Proof. unfold reserveVaOpeningFee. keeping. Qed.
Hint Resolve keeps_reserveVaOpeningFee : keeps.
Lemma keeps_requestVirtualAccount env fault now rid fid c input actor :
  keeps (requestVirtualAccount sha256 newId rows verified env fault now rid fid c input actor).
Proof.
  unfold requestVirtualAccount, va_request_transaction, submit_va_request, va_request_parties, check_expected_fee. keeping.
Qed.
Lemma keeps_load_request id : keeps (load_request id).
Proof. unfold load_request. keeping. Qed.
Hint Resolve keeps_load_request : keeps.
Lemma keeps_load_pending id u : keeps (load_pending id u).
Proof. unfold load_pending. keeping. Qed.
Lemma keeps_settleVaOpeningFee now l u : keeps (settleVaOpeningFee now l u).
Proof. unfold settleVaOpeningFee. keeping. Qed.
Lemma keeps_releaseVaOpeningFee now l st u reason : keeps (releaseVaOpeningFee now l st u reason).
Proof. unfold releaseVaOpeningFee. keeping. Qed.
Hint Resolve keeps_load_pending keeps_settleVaOpeningFee keeps_releaseVaOpeningFee : keeps.
Lemma keeps_approveVirtualAccountRequest env now aid id input u : keeps (approveVirtualAccountRequest env now aid id input u).
Proof. unfold approveVirtualAccountRequest. keeping. Qed.
Lemma keeps_rejectVirtualAccountRequest env now id u reason : keeps (rejectVirtualAccountRequest env now id u reason).
Proof. unfold rejectVirtualAccountRequest. keeping. Qed.
Lemma keeps_cancelVirtualAccountRequest env now c id actor :
  keeps (cancelVirtualAccountRequest sha256 newId rows verified env now c id actor).
Proof. unfold cancelVirtualAccountRequest. keeping. Qed.
Lemma keeps_waiveVaOpeningFee fault now id reason actor : keeps (waiveVaOpeningFee fault now id reason actor).
Proof. unfold waiveVaOpeningFee, on_conflict. keeping. Qed.
Lemma keeps_updateVaFeePolicy env fault n c kind enabled v reason actor :
  keeps (updateVaFeePolicy env fault n c kind enabled v reason actor).
Proof. unfold updateVaFeePolicy, on_conflict. keeping. Qed.
End virtual_accounts.

(** ** The custody workers *)
Lemma keeps_retry_from {A} e n faults (m : M Db A) : keeps m → keeps (retry_from e n faults m).
Proof. intros Hm. revert e faults. induction n as [|n IH]; intros e faults; simpl; keeping. Qed.
Lemma keeps_withSerializableRetry {A} faults (m : M Db A) : keeps m → keeps (withSerializableRetry faults m).
Proof. apply keeps_retry_from. Qed.
Lemma keeps_processingStatus st : keeps (processingStatus st).
Proof. apply keeps_require. Qed.
Lemma keeps_pendingStatus st : keeps (pendingStatus st).
Proof. apply keeps_require. Qed.
Lemma keeps_load id st : keeps (load id st).
Proof. unfold load. keeping. Qed.
Lemma keeps_evidence row action : keeps (validateFinalCallbackEvidence row action).
Proof. unfold validateFinalCallbackEvidence. keeping. Qed.
#[export] Hint Resolve keeps_processingStatus keeps_pendingStatus keeps_load keeps_evidence : keeps.

(** The state a transaction, or a chain of them, leaves behind. *)
Lemma evolves_commit {A} (m : M Db A) s : keeps m → evolves s (commit m s).1.
Proof. intros Hm. unfold commit. destruct (m s) as [e|[a s']] eqn:E; [done|by eapply Hm]. Qed.
(** Names the state of the head of a chain. *)
Ltac committed L :=
  match goal with
  | |- context [match commit ?m ?s with _ => _ end] =>
      let E := fresh "E" in pose proof (evolves_commit m s ltac:(apply L)) as E;
      destruct (commit m s) as [? [?|?]]; simpl in E |- *
  end.

Section workers.
Context {DO : DecimalOps} {JD : JsDates} (sha256 : list Z → list Z) (env : ProcessEnv).
Lemma keeps_validateCustody row sts b : keeps (validateCustody sha256 env row sts b).
Proof. unfold validateCustody. keeping. Qed.
Lemma keeps_amounts row : keeps (amounts row).
Proof. unfold amounts. keeping. Qed.
Lemma keeps_coreActor who b : keeps (coreActor env who b).
Proof. unfold coreActor. keeping. Qed.
Lemma keeps_required_date v code : keeps (required_date v code).
Proof. unfold required_date. keeping. Qed.
Lemma keeps_reserve_parties row : keeps (reserve_parties env row).
Proof. unfold reserve_parties. keeping. Qed.
Lemma keeps_freeze_pair w m x : keeps (freeze_pair w m x).
Proof. unfold freeze_pair. keeping. Qed.
Hint Resolve keeps_validateCustody keeps_amounts keeps_coreActor keeps_required_date keeps_reserve_parties keeps_freeze_pair : keeps.
Lemma keeps_reserve now cid id : keeps (reserve sha256 env now cid id).
Proof. unfold reserve. keeping. Qed.
Lemma keeps_approveWithdrawal now id : keeps (approveWithdrawal sha256 env now id).
Proof. unfold approveWithdrawal. keeping. Qed.
Lemma keeps_move_frozen_pair w m x fw fa code :
  (∀ r, same_wallet r (fw r)) → (∀ r, same_account r (fa r)) → keeps (move_frozen_pair w m x fw fa code).
Proof.
  intros Hw Ha. unfold move_frozen_pair. keep_step; [by apply keeps_wallet_updateMany|].
  keep_step; [by apply keeps_account_updateMany|]. keeping.
Qed.
Lemma keeps_close_links now opId trId actor reason o t : keeps (close_links now opId trId actor reason o t).
Proof. unfold close_links. keeping. Qed.
Hint Resolve keeps_close_links : keeps.
Lemma keeps_releaseFunds now id : keeps (releaseFunds sha256 env now id).
Proof. unfold releaseFunds, release_linked. keeping; by apply keeps_move_frozen_pair. Qed.
Lemma keeps_settle_parties opId trId who am : keeps (settle_parties env opId trId who am).
Proof. unfold settle_parties. keeping. Qed.
Lemma keeps_post_settlement row opId st am : keeps (post_settlement row opId st am).
Proof. unfold post_settlement. keeping. Qed.
Hint Resolve keeps_settle_parties keeps_post_settlement : keeps.
Lemma keeps_settle now id : keeps (settle sha256 env now id).
Proof. unfold settle. keeping; by apply keeps_move_frozen_pair. Qed.
Lemma keeps_phase call id st : keeps (phase sha256 env call id st).
Proof.
  unfold phase. repeat case_match; try apply keeps_ret; apply keeps_withSerializableRetry;
    auto using keeps_reserve, keeps_approveWithdrawal, keeps_releaseFunds, keeps_settle.
Qed.
(** The statuses a worker claims or holds are not final. *)
Lemma processing_open_status st : st ∈ processing_statuses → includes ["released"; "settled"; "exception"] st = false.
Proof. unfold processing_statuses. intros H. repeat (apply elem_of_cons in H as [->|H]; [done|]). by apply not_elem_of_nil in H. Qed.
Lemma pending_open_status st p : processing_of st = Some p → includes ["released"; "settled"; "exception"] st = false.
Proof.
  intros H. apply not_true_iff_false. intros Hi%includes_true.
  repeat (apply elem_of_cons in Hi as [->|Hi]; [done|]). by apply not_elem_of_nil in Hi.
Qed.
Lemma pending_of_open st p : pending_of st = Some p → includes ["released"; "settled"; "exception"] st = false.
Proof.
  intros H. apply not_true_iff_false. intros Hi%includes_true.
  repeat (apply elem_of_cons in Hi as [->|Hi]; [done|]). by apply not_elem_of_nil in Hi.
Qed.

(** A failure counts, and the eighth is the last. *)
Lemma failed_moves now code b a : a.(wa_status) ∈ processing_statuses → queue_moves a (failed_row now code b a).
Proof.
  intros Hp. split; [done| |simpl; lia|].
  - intros Hf. unfold queue_final in Hf. by rewrite (processing_open_status _ Hp) in Hf.
  - intros [H0 Hlt]. split; [simpl; lia|]. unfold failed_row. cbn. destruct Hlt as [Hlt|[_ E]].
    + destruct (MAX_ATTEMPTS <=? wa_attempt_count a + 1) eqn:E; [|apply Z.leb_gt in E; by left].
      apply Z.leb_le in E. rewrite orb_true_r. right. split; [lia|done].
    + rewrite E in Hp. unfold processing_statuses in Hp. set_solver.
Qed.
Lemma keeps_recordFailure now id code b : keeps (recordFailure now id code b).
Proof.
  intros s u s' H. destruct (s.(withdrawalQueue) !! id) as [a|] eqn:Ha.
  2: { unfold recordFailure in H. apply bind_ok in H as (r&?&[-> ->]%gets_ok&H). rewrite Ha in H. by apply ret_ok in H as [_ ->]. }
  destruct (decide (a.(wa_status) ∈ processing_statuses)) as [Hp|Hp].
  2: { unfold recordFailure in H. apply bind_ok in H as (r&?&[-> ->]%gets_ok&H). rewrite Ha in H.
       destruct (includes processing_statuses (wa_status a)) eqn:E; [by apply includes_true in E|]. by apply ret_ok in H as [_ ->]. }
  destruct (recordFailure_ok _ _ _ _ _ _ _ _ Ha Hp H) as [-> Hck]. apply evolves_withdrawalQueue.
  apply (grows_insert queue_moves queue_check); [done|]. intros w Hw. rewrite Ha in Hw. injection Hw as <-. by apply failed_moves.
Qed.
(** Claims, and their return. *)
Lemma keeps_claim_row now row : keeps (claim_row now row).
Proof.
  apply keeps_bind_require. intros p Hp. keep_step; [|keeping].
  apply keeps_queue_update. intros x Hx. apply queue_moves_open; try reflexivity.
  apply (in_status_open _ _ Hx). by eapply pending_open_status.
Qed.
Hint Resolve keeps_claim_row : keeps.
Lemma keeps_claimBatch now locked : keeps (claimBatch now locked).
Proof.
  unfold claimBatch. keep_step; [|keeping]. apply keeps_queue_updateWhere. intros k a [Hp%includes_true _]%andb_true_iff.
  apply queue_moves_open; try reflexivity. by apply processing_open_status.
Qed.

Lemma evolves_ensureCoreCustomer call id s : evolves s (ensureCoreCustomer sha256 env call id s).1.
Proof.
  unfold ensureCoreCustomer. destruct (s.(withdrawalQueue) !! id) as [a|]; [|done].
  do 3 (match goal with |- context [if ?b then _ else _] => destruct b; [done|] end).
  destruct (wc_imported call a.(wa_customer_id)) as [rows verified]. apply evolves_sync.
Qed.
Lemma evolves_advance call id st s : evolves s (advance sha256 env call id st s).1.
Proof.
  unfold advance. pose proof (evolves_ensureCoreCustomer call id s) as H1.
  destruct (String.eqb st "reserving"); [destruct (ensureCoreCustomer _ _ _ _ _) as [s1 [e|]]; [done|simpl in H1]|];
    committed keeps_phase; try done; by etrans.
Qed.
Lemma evolves_processWithdrawal call id st s : evolves s (processWithdrawal sha256 env call id st s).1.
Proof.
  unfold processWithdrawal. case_match; [|done]. pose proof (evolves_advance call id s0 s) as H1.
  destruct (advance _ _ _ _ _ _) as [s1 [e|]]; [|done]. simpl in H1. destruct (normalizeError e) as [code b].
  committed keeps_recordFailure; by etrans.
Qed.
Lemma keeps_direct_claim now id action p q c : direct_states action = (p, q, c) → keeps (direct_claim env now id p q).
Proof.
  intros E. apply keeps_queue_update. intros a [_ H]%andb_true_iff. apply queue_moves_open; try reflexivity.
  apply orb_true_iff in H as [[H _]%andb_true_iff|[H _]%andb_true_iff];
    apply (in_status_open _ _ H); by destruct action; injection E as <- <- <-.
Qed.
Lemma evolves_processDirect call id action s : evolves s (processDirect sha256 env call id action s).1.
Proof.
  unfold processDirect. destruct (direct_states action) as [[p q] c] eqn:Ed.
  assert (keeps (direct_claim env (wc_now call) id p q)) as Hk by (by eapply keeps_direct_claim). committed Hk; [done|].
  destruct (_ =? 1); [|done]. pose proof (evolves_processWithdrawal call id (Some q) d) as H1.
  destruct (processWithdrawal _ _ _ _ _ _) as [s2 [e|]]; by etrans.
Qed.
Lemma keeps_release_claim now row : keeps (release_claim now row).
Proof.
  apply keeps_bind_require. intros p Hp. keep_step; [|keeping].
  apply keeps_queue_update. intros x Hx. apply queue_moves_open; try reflexivity.
  apply (in_status_open _ _ Hx). by eapply pending_of_open.
Qed.
Lemma evolves_process_rows call stopping i rows s : evolves s (process_rows sha256 env call stopping i rows s).1.
Proof.
  revert i s. induction rows as [|row rows IH]; intros i s; [done|]. cbn [process_rows]. destruct (stopping i).
  - apply evolves_run_steps, Forall_forall. intros m (r&->&_)%list_elem_of_fmap. apply keeps_release_claim.
  - pose proof (evolves_processWithdrawal (call i) row.1 (Some row.2) s) as H1.
    destruct (processWithdrawal _ _ _ _ _ _) as [s1 [e|]]; [done|]. etrans; [exact H1|apply IH].
Qed.
Lemma evolves_processBatch now locked call stopping s : evolves s (processBatch sha256 env now locked call stopping s).1.
Proof.
  unfold processBatch. committed keeps_claimBatch; [done|].
  pose proof (evolves_process_rows call stopping 0 l d) as H1.
  destruct (process_rows _ _ _ _ _ _ _) as [s2 [e|]]; by etrans.
Qed.

(** The deposit worker *)
Lemma keeps_validateCustodyRow row : keeps (validateCustodyRow env row).
Proof. unfold validateCustodyRow. keeping. Qed.
Lemma keeps_deposit_parties row : keeps (deposit_parties env row).
Proof. unfold deposit_parties. keeping. Qed.
Lemma keeps_ensure_account ids row found : keeps (ensure_account ids row found).
Proof. unfold ensure_account. keeping. Qed.
Lemma keeps_ensure_wallet ids row found : keeps (ensure_wallet ids row found).
Proof. unfold ensure_wallet. keeping. Qed.
Lemma keeps_post_deposit now ids row a w clearing x t : keeps (post_deposit env now ids row a w clearing x t).
Proof. unfold post_deposit. keeping. Qed.
Hint Resolve keeps_validateCustodyRow keeps_deposit_parties keeps_ensure_account keeps_ensure_wallet keeps_post_deposit : keeps.
Lemma keeps_postOnce now ids id : keeps (postOnce env now ids id).
Proof. unfold postOnce. keeping. Qed.
Lemma keeps_postWithSerializableRetry now ids faults id : keeps (postWithSerializableRetry env now ids faults id).
Proof. apply keeps_withSerializableRetry, keeps_postOnce. Qed.
Lemma keeps_recordDepositFailure now id code b : keeps (recordDepositFailure now id code b).
Proof. unfold recordDepositFailure. keeping. Qed.
Lemma evolves_ensureDepositCustomer call id s : evolves s (ensureDepositCustomer sha256 env call id s).1.
Proof.
  unfold ensureDepositCustomer. destruct (s.(depositQueue) !! id) as [a|]; [|done].
  do 3 (match goal with |- context [if ?b then _ else _] => destruct b; [done|] end).
  destruct (dc_imported call a.(da_customer_id)) as [rows verified]. apply evolves_sync.
Qed.
Lemma evolves_attempt_deposit call id s : evolves s (attempt_deposit sha256 env call id s).1.
Proof.
  unfold attempt_deposit. pose proof (evolves_ensureDepositCustomer call id s) as H1.
  destruct (ensureDepositCustomer _ _ _ _ _) as [s1 [e|]]; [done|]. simpl in H1.
  committed keeps_postWithSerializableRetry; by etrans.
Qed.
Lemma evolves_processDeposit call id s : evolves s (processDeposit sha256 env call id s).1.
Proof.
  unfold processDeposit. pose proof (evolves_attempt_deposit call id s) as H1.
  destruct (attempt_deposit _ _ _ _ _) as [s1 [e|]]; [|done]. simpl in H1. destruct (normalizeDepositError e) as [code b].
  committed keeps_recordDepositFailure; by etrans.
Qed.
Lemma evolves_processDepositDirect call id s : evolves s (processDepositDirect sha256 env call id s).1.
Proof.
  unfold processDepositDirect. committed keeps_deposit_queue_update; [done|].
  destruct (_ =? 1); [|done]. pose proof (evolves_processDeposit call id d) as H1.
  destruct (processDeposit _ _ _ _ _) as [s2 [e|]]; by etrans.
Qed.
Lemma keeps_claimDepositBatch now locked : keeps (claimDepositBatch now locked).
Proof. unfold claimDepositBatch, claim_deposit. keeping. Qed.
Lemma evolves_process_deposits call stopping i ids s : evolves s (process_deposits sha256 env call stopping i ids s).1.
Proof.
  revert i s. induction ids as [|id ids IH]; intros i s; [done|]. cbn [process_deposits]. destruct (stopping i).
  - apply evolves_run_steps, Forall_forall. intros m (r&->&_)%list_elem_of_fmap. unfold release_deposit. keeping.
  - pose proof (evolves_processDeposit (call i) id s) as H1.
    destruct (processDeposit _ _ _ _ _) as [s1 [e|]]; [done|]. etrans; [exact H1|apply IH].
Qed.
Lemma evolves_processDepositBatch now locked call stopping s :
  evolves s (processDepositBatch sha256 env now locked call stopping s).1.
Proof.
  unfold processDepositBatch. committed keeps_claimDepositBatch; [done|].
  pose proof (evolves_process_deposits call stopping 0 l d) as H1.
  destruct (process_deposits _ _ _ _ _ _ _) as [s2 [e|]]; by etrans.
Qed.
End workers.

(** ** Reconciliation *)
Section reconciliation.
Context {DO : DecimalOps}.
Lemma keeps_exactCandidate created t id : keeps (exactCandidate created t id).
Proof. unfold exactCandidate. keeping. Qed.
Hint Resolve keeps_exactCandidate : keeps.
Lemma keeps_hold env created now t id : keeps (hold env created now t id).
Proof.
  unfold hold. keeping. eapply (keeps_insert_ignore _ _ _ queue_moves queue_check); [apply evolves_withdrawalQueue|].
  intros s. rewrite !andb_true_iff. tauto.
Qed.
Lemma keeps_release env created now t id : keeps (release env created now t id).
Proof.
  unfold release. keeping. apply keeps_queue_update. intros held [_ H]%andb_true_iff.
  apply queue_moves_open; try reflexivity. unfold held_under in H. rewrite !andb_true_iff, String.eqb_eq in H.
  unfold queue_final. by destruct H as (((((->&_)&_)&_)&_)&_).
Qed.
Lemma keeps_hold_deposit env now t id : keeps (hold_deposit env now t id).
Proof.
  unfold hold_deposit. keeping. eapply (keeps_insert_ignore _ _ _ any_row deposit_queue_check); [apply evolves_depositQueue|].
  intros s. rewrite !andb_true_iff. tauto.
Qed.
Lemma keeps_releaseDeposit env now t id : keeps (releaseDeposit env now t id).
Proof. unfold releaseDeposit. keeping. Qed.
Hint Resolve keeps_hold keeps_release keeps_hold_deposit keeps_releaseDeposit : keeps.
Lemma keeps_withdrawal_main env created now fault args : keeps (withdrawal_main env created now fault args).
Proof. unfold withdrawal_main. keeping. Qed.
Lemma keeps_deposit_main env received now fault args : keeps (deposit_main env received now fault args).
Proof. unfold deposit_main. keeping. Qed.
Lemma keeps_reconcileUsdt env rank available u org : keeps (reconcileUsdt env rank available u org).
Proof. unfold reconcileUsdt. keeping. Qed.
End reconciliation.

(** ** E-mail *)
(** The worker writes the outbox and nothing else. *)
Definition only_outbox (s s' : Db) : Prop := s' = set_outbox s'.(outbox) s.
#[local] Instance only_outbox_refl : Reflexive only_outbox.
Proof. by intros []. Qed.
#[local] Instance only_outbox_trans : Transitive only_outbox.
Proof. intros a b c Hb Hc. unfold only_outbox in *. rewrite Hc, Hb. done. Qed.
Lemma outbox_where_only p f s n s' : outbox_updateWhere p f s = inr (n, s') → only_outbox s s'.
Proof. by intros (m&->&_)%update_many_ok. Qed.
Lemma outbox_many_only id p f s n s' : outbox_updateMany id p f s = inr (n, s') → only_outbox s s'.
Proof. by intros [(_&m&_&_&_&->)|(_&->&_)]%update_many_id_ok. Qed.
Lemma claim_mail_only now locked s rows s' : claimMailBatch now locked s = inr (rows, s') → only_outbox s s'.
Proof.
  intros (n&s1&H1%outbox_where_only&(found&s2&[_ ->]%gets_ok&(k&s3&H2%outbox_where_only&[_ ->]%ret_ok)%bind_ok)%bind_ok)%bind_ok.
  by etrans.
Qed.
Lemma deliver_only now outcome row s u s' : deliver now outcome row s = inr (u, s') → only_outbox s s'.
Proof. by intros (n&s1&H%outbox_many_only&[_ ->]%ret_ok)%bind_ok. Qed.
Lemma release_mail_only now rows s u s' : release_mail now rows s = inr (u, s') → only_outbox s s'.
Proof. by intros (n&s1&H%outbox_where_only&[_ ->]%ret_ok)%bind_ok. Qed.
Lemma deliver_rows_only call stopping i rows cache s : only_outbox s (deliver_rows call stopping i rows cache s).2.
Proof.
  revert i cache s. induction rows as [|row rows IH]; intros i cache s; [done|]. cbn [deliver_rows]. destruct (stopping i).
  - destruct (release_mail _ _ s) as [e|[u s1]] eqn:E; [done|]. by apply release_mail_only in E.
  - destruct (send _ _ _ _) as [cache1 outcome]. destruct (deliver _ _ _ s) as [e|[u s1]] eqn:E; [done|].
    apply deliver_only in E. etrans; [exact E|apply IH].
Qed.
Lemma outbox_moves_grows s s' : outbox_moves s s' → grows mail_moves mail_check s.(outbox) s'.(outbox).
Proof.
  intros H. split.
  - intros k m Hk. specialize (H k). rewrite Hk in H. destruct (outbox s' !! k) as [m'|]; [|done]. by exists m'.
  - intros HC k m' Hk. specialize (H k). rewrite Hk in H. destruct (outbox s !! k) as [m|] eqn:E; [|done].
    apply mail_check_ok, (mm_ok _ _ H), mail_check_ok, (HC k m E).
Qed.
Lemma evolves_processMailBatch now locked call stopping cache s :
  evolves s (processMailBatch now locked call stopping cache s).1.2.
Proof.
  unfold processMailBatch. destruct (claim_mail_ok now locked s) as (rows&s1&Hc&_&Hnd&Hm1&Hhand&_). rewrite Hc.
  destruct (deliver_rows_ok call stopping rows 0 cache s1 Hnd Hhand) as [Hm2 _].
  pose proof (deliver_rows_only call stopping 0 rows cache s1) as Ho. apply claim_mail_only in Hc.
  destruct (deliver_rows call stopping 0 rows cache s1) as [c2 s2]. simpl in *.
  assert (only_outbox s s2) as -> by (by etrans). apply evolves_outbox, outbox_moves_grows. by etrans.
Qed.

(** ** The direct endpoint *)
Lemma evolves_direct_request {DO : DecimalOps} {JD : JsDates} sha256 env flag route dcall wcall id s :
  evolves s (direct_request sha256 env flag route dcall wcall id s).1.
Proof.
  unfold direct_request. destruct (recordId id) as [e|rid]; [done|].
  destruct route as [|action]; unfold postDeposit, advanceWithdrawal; destruct (requireEnabled flag) as [e|]; try done.
  - pose proof (evolves_processDepositDirect sha256 env dcall rid s) as H. by destruct (processDepositDirect _ _ _ _ _).
  - pose proof (evolves_processDirect sha256 env wcall rid action s) as H. by destruct (processDirect _ _ _ _ _ _).
Qed.
