(* ===== verification/System.v ===== *)
(** The system as a whole: its state changes by the handlers of the services,
    the workers and the reconciliation tools, in any order and with any inputs,
    and by the writes of the other programs that share the database.  What holds
    in every state that can be reached, and what one state says about all later
    ones. *)
From S2P Require Import Prelude Decimals Schema Access Ledger WithdrawalFees Channels Operations OperationEffects OperationCreation Accounts Samples TronAddress Beneficiaries Rates CryptoWallets Customers VirtualAccounts CustomerRecords EmailWorker EmailProperties WithdrawalWorker WithdrawalWorkerEffects WithdrawalWorkerProperties DepositWorker CregisAccounting Reconciliation Evolution HandlerHistory WorkerHistory.
#[local] Open Scope Z_scope.

Section system.
Context {DO : DecimalOps} {JD : JsDates} (sha256 : list Z → list Z).

(** Writes the server does not make: the authentication and custody service
    ([server-go]) changes its own tables, never the ledger, the channels or the
    rates; it enqueues movements, registers and revokes the bank payees of
    customers and adds letters to the outbox, within the tables' constraints. *)
Record elsewhere (s s' : Db) : Prop := {
  el_accounts : s'.(accounts) = s.(accounts);
  el_wallets : s'.(wallets) = s.(wallets);
  el_operations : s'.(operations) = s.(operations);
  el_transfers : s'.(transfers) = s.(transfers);
  el_journal : s'.(journal) = s.(journal);
  el_feeRules : s'.(feeRules) = s.(feeRules);
  el_vaRequests : s'.(vaRequests) = s.(vaRequests);
  el_channels : s'.(channels) = s.(channels);
  el_rateVersions : s'.(rateVersions) = s.(rateVersions);
  el_beneficiaries : grows same_payee beneficiary_check s.(beneficiaries) s'.(beneficiaries);
  el_outbox : grows mail_moves mail_check s.(outbox) s'.(outbox);
  el_customers : grows any_row customer_check s.(customers) s'.(customers);
  el_withdrawalQueue : grows queue_moves queue_check s.(withdrawalQueue) s'.(withdrawalQueue);
  el_depositQueue : grows any_row deposit_queue_check s.(depositQueue) s'.(depositQueue);
}.

(** A request handled to its end; one that throws changes nothing. *)
Definition handles {A} (m : M Db A) (s s' : Db) : Prop := ∃ a, m s = inr (a, s').

Inductive step : Db → Db → Prop :=
(* OperationsService *)
| step_create env now newId uuid fault input u s s' :
    handles (Operations.create env now newId uuid fault input u) s s' → step s s'
| step_createQuote env now newId uuid fault input u actor s s' :
    handles (createQuote env now newId uuid fault input u actor) s s' → step s s'
| step_createCustomerPayout env now newId uuid fault input u actor s s' :
    handles (createCustomerPayout env now newId uuid fault input u actor) s s' → step s s'
| step_confirmQuote now fault id actor s s' : handles (confirmQuote now fault id actor) s s' → step s s'
| step_approve now id u s s' : handles (Operations.approve now id u) s s' → step s s'
| step_reject now id reason u s s' : handles (Operations.reject now id reason u) s s' → step s s'
| step_execute now id reference u s s' : handles (Operations.execute now id reference u) s s' → step s s'
(* CryptoWalletsService *)
| step_createWithdrawal env now id suffix input u s s' :
    handles (createWithdrawal sha256 env now id suffix input u) s s' → step s s'
| step_approveTransfer now id u s s' : handles (approveTransfer now id u) s s' → step s s'
| step_rejectTransfer now id reason u s s' : handles (rejectTransfer now id reason u) s s' → step s s'
| step_executeTransfer now id txHash u s s' : handles (executeTransfer now id txHash u) s s' → step s s'
(* WithdrawalFeesService *)
| step_upsert env newId input u s s' : handles (upsert env newId input u) s s' → step s s'
| step_update env id amount active version u s s' :
    handles (WithdrawalFees.update env id amount active version u) s s' → step s s'
(* CustomersService *)
| step_reviewKyc env now id u decision note s s' : handles (reviewKyc env now id u decision note) s s' → step s s'
| step_approve_customer env now newId id u note s s' :
    handles (approve_customer env now newId id u note) s s' → step s s'
| step_reject_customer now id u reason s s' : handles (reject_customer now id u reason) s s' → step s s'
| step_create_customer now id input u s s' : handles (create_customer now id input u) s s' → step s s'
| step_list_customers newId rows verified env ordered org u status s :
    step s (list_customers sha256 newId rows verified env ordered org u status s).1
| step_get_customer newId rows verified env payees ops created_by id u s :
    step s (get_customer sha256 newId rows verified env payees ops created_by id u s).1
| step_list_requests newId rows verified env ordered c actor s :
    step s (listVirtualAccountRequests sha256 newId rows verified env ordered c actor s).1
| step_sync newId u org rows verified s :
    step s (syncNeobankCustomers sha256 newId u org rows verified s).1
| step_requestVirtualAccount newId rows verified env fault now rid fid c input actor s s' :
    handles (requestVirtualAccount sha256 newId rows verified env fault now rid fid c input actor) s s' → step s s'
| step_approveVa env now aid id input u s s' :
    handles (approveVirtualAccountRequest env now aid id input u) s s' → step s s'
| step_rejectVa env now id u reason s s' : handles (rejectVirtualAccountRequest env now id u reason) s s' → step s s'
| step_cancelVa newId rows verified env now c id actor s s' :
    handles (cancelVirtualAccountRequest sha256 newId rows verified env now c id actor) s s' → step s s'
| step_waiveVa fault now id reason actor s s' : handles (waiveVaOpeningFee fault now id reason actor) s s' → step s s'
| step_updateVaFeePolicy env fault created c kind enabled version reason actor s s' :
    handles (updateVaFeePolicy env fault created c kind enabled version reason actor) s s' → step s s'
(* ChannelsController, BeneficiariesController, RatesController and the platform's accounts *)
| step_createChannel now newId dto u s s' : handles (createChannel now newId dto u) s s' → step s s'
| step_updateChannel now id dto u s s' : handles (updateChannel now id dto u) s s' → step s s'
| step_createBeneficiary newId dto u s s' : handles (createBeneficiary sha256 newId dto u) s s' → step s s'
| step_updateBeneficiary id active u s s' : handles (updateBeneficiary id active u) s s' → step s s'
| step_createFromMarket now newId dto u s s' : handles (createFromMarket now newId dto u) s s' → step s s'
| step_deactivate now id u s s' : handles (deactivate now id u) s s' → step s s'
| step_ensure_accounts newId s s' : handles (ensureSystemLedgerAccounts newId) s s' → step s s'
(* The workers: a batch, or a row handed over directly *)
| step_withdrawals env now locked call stopping s :
    step s (processBatch sha256 env now locked call stopping s).1
| step_withdrawal_direct env call id action s : step s (processDirect sha256 env call id action s).1
| step_deposits env now locked call stopping s :
    step s (processDepositBatch sha256 env now locked call stopping s).1
| step_deposit_direct env call id s : step s (processDepositDirect sha256 env call id s).1
| step_mail now locked call stopping cache s : step s (processMailBatch now locked call stopping cache s).1.2
(* CregisAccountingController *)
| step_direct_request env flag route dcall wcall id s :
    step s (direct_request sha256 env flag route dcall wcall id s).1
(* The reconciliation tools *)
| step_withdrawal_tool env created now fault args s s' :
    handles (withdrawal_main env created now fault args) s s' → step s s'
| step_deposit_tool env received now fault args s s' :
    handles (deposit_main env received now fault args) s s' → step s s'
| step_elsewhere s s' : elsewhere s s' → step s s'.

Definition reachable : Db → Db → Prop := rtc step.

Lemma handles_evolves {A} (m : M Db A) s s' : keeps m → handles m s s' → evolves s s'.
Proof. intros Hm [a H]. by eapply Hm. Qed.
Lemma elsewhere_evolves s s' : elsewhere s s' → evolves s s'.
Proof. intros []. split; try done; by match goal with E : ?x = ?y |- _ => rewrite E end. Qed.

(** Every step evolves the state. *)
Lemma step_evolves s s' : step s s' → evolves s s'.
Proof.
  destruct 1; try (eapply handles_evolves; [|eassumption]);
    eauto using keeps_create, keeps_createQuote, keeps_createCustomerPayout, keeps_confirmQuote, keeps_approve,
      keeps_reject, keeps_execute, keeps_createWithdrawal, keeps_approveTransfer, keeps_rejectTransfer,
      keeps_executeTransfer, keeps_upsert, keeps_update, keeps_reviewKyc, keeps_approve_customer, keeps_reject_customer,
      keeps_requestVirtualAccount, keeps_approveVirtualAccountRequest, keeps_rejectVirtualAccountRequest,
      keeps_cancelVirtualAccountRequest, keeps_waiveVaOpeningFee, keeps_updateVaFeePolicy, keeps_withdrawal_main,
      keeps_deposit_main, evolves_sync, evolves_processBatch, evolves_processDirect, evolves_processDepositBatch,
      evolves_processDepositDirect, elsewhere_evolves, keeps_createChannel, keeps_updateChannel, keeps_createBeneficiary,
      keeps_updateBeneficiary, keeps_createFromMarket, keeps_deactivate, keeps_ensureSystemLedgerAccounts,
      evolves_processMailBatch, evolves_direct_request, keeps_create_customer, evolves_list_customers, evolves_get_customer,
      evolves_list_requests.
Qed.
Lemma reachable_evolves s s' : reachable s s' → evolves s s'.
Proof. induction 1 as [s|s s1 s' H _ IH]; [done|]. etrans; [by apply step_evolves|exact IH]. Qed.

(** ** Retries *)

(** [n] failures of one withdrawal.  Between two of them anything the system does
    may happen: claims, hand-overs, other workers, the failures they record. *)
Inductive failures (id : string) (s : Db) : nat → Db → Prop :=
| failures_none : failures id s 0 s
| failures_more n s1 s2 st now code retryable u s3 :
    failures id s n s1 → reachable s1 s2 → currentProcessingStatus id s2 = Some st →
    recordFailure now id code retryable s2 = inr (u, s3) → failures id s (S n) s3.

Lemma reachable_queue s s' id a :
  reachable s s' → s.(withdrawalQueue) !! id = Some a → ∃ a', s'.(withdrawalQueue) !! id = Some a' ∧ queue_moves a a'.
Proof. intros H%reachable_evolves Ha. exact (proj1 (ev_withdrawalQueue _ _ H) id a Ha). Qed.

Lemma recorded_failure now id code retryable s u s' st :
  currentProcessingStatus id s = Some st → recordFailure now id code retryable s = inr (u, s') →
  ∃ a, s.(withdrawalQueue) !! id = Some a ∧ a.(wa_status) ∈ processing_statuses ∧
    s'.(withdrawalQueue) !! id = Some (failed_row now code retryable a).
Proof.
  intros (a&Ha&Hp)%current_status_ok H. exists a. split; [done|]. split; [done|].
  destruct (recordFailure_ok _ _ _ _ _ _ _ _ Ha Hp H) as [-> _]. apply lookup_insert_eq.
Qed.

Lemma failures_count id s n s' a :
  s.(withdrawalQueue) !! id = Some a → within_attempts a → failures id s n s' →
  ∃ b, s'.(withdrawalQueue) !! id = Some b ∧ within_attempts b ∧
    a.(wa_attempt_count) + Z.of_nat n ≤ b.(wa_attempt_count).
Proof.
  intros Ha Hw H. induction H as [|n s1 s2 st now code retryable u s3 _ (b&Hb&Hwb&Hc) Hr Hst Hf].
  - exists a. split; [done|]. split; [done|lia].
  - destruct (reachable_queue _ _ _ _ Hr Hb) as (b'&Hb'&[_ _ Hcount Hwith]).
    destruct (recorded_failure _ _ _ _ _ _ _ _ Hst Hf) as (b''&Hb''&Hp&Hrow). rewrite Hb' in Hb''. injection Hb'' as <-.
    exists (failed_row now code retryable b'). split; [done|].
    split; [exact (qm_within _ _ (failed_moves _ _ _ _ Hp) (Hwith Hwb))|simpl; lia].
Qed.

(** C14: retries end.  However the failures of a withdrawal are spaced, and whatever
    the rest of the system does between them, at most eight are recorded, and the
    eighth leaves the row an exception; so does any failure that is not retryable.
    An exception is the end: in every later state the row is unchanged, and
    neither a batch nor a direct call claims it again. *)
Theorem failures_bounded id s n s' a :
  s.(withdrawalQueue) !! id = Some a → within_attempts a → failures id s n s' →
  (n ≤ 8)%nat ∧ ∃ b, s'.(withdrawalQueue) !! id = Some b ∧
    a.(wa_attempt_count) + Z.of_nat n ≤ b.(wa_attempt_count) ≤ 8 ∧
    (n = 8%nat → b.(wa_status) = "exception") ∧
    (∀ st now code u s2, currentProcessingStatus id s' = Some st →
       recordFailure now id code false s' = inr (u, s2) →
       ∃ c, s2.(withdrawalQueue) !! id = Some c ∧ c.(wa_status) = "exception") ∧
    (b.(wa_status) = "exception" → ∀ later, reachable s' later →
       later.(withdrawalQueue) !! id = Some b ∧
       (∀ now locked rows s2, claimBatch now locked later = inr (rows, s2) → id ∉ rows.*1) ∧
       (∀ env now action pending processing completed m s2,
          direct_states action = (pending, processing, completed) →
          direct_claim env now id pending processing later = inr (m, s2) → m = 0 ∧ s2 = later)).
Proof.
  intros Ha Hw H. destruct (failures_count _ _ _ _ _ Ha Hw H) as (b&Hb&[H0 Hwb]&Hc). unfold MAX_ATTEMPTS in *.
  pose proof (proj1 Hw) as Ha0. split; [lia|]. exists b. split; [done|]. split; [lia|]. split; [|split].
  - intros ->. destruct Hwb as [?|[_ ?]]; [lia|done].
  - intros st now code u s2 Hst Hf. destruct (recorded_failure _ _ _ _ _ _ _ _ Hst Hf) as (c&_&_&Hrow).
    eexists. split; [exact Hrow|done].
  - intros He later Hl. destruct (reachable_queue _ _ _ _ Hl Hb) as (b'&Hb'&Hm).
    assert (b' = b) as -> by (apply (qm_final _ _ Hm); unfold queue_final; by rewrite He). split; [done|]. split.
    + intros now locked rows s2 Hcl. apply (claimed_was_open _ _ _ _ _ _ _ Hcl Hb'); rewrite He;
        unfold pending_statuses, processing_statuses; set_solver.
    + intros env now action pending processing completed m s2 Hd Hcl. unfold direct_claim in Hcl.
      apply update_many_id_ok in Hcl as [(_&x&Hx&Hp&_)|(?&?&_)]; [|done]. exfalso.
      rewrite Hb' in Hx. injection Hx as <-. unfold in_status in Hp. rewrite He, andb_true_iff, orb_true_iff, !andb_true_iff in Hp.
      destruct Hp as [_ [[Hp _]|[Hp _]]]; by destruct action; injection Hd as <- <- <-.
Qed.

(** The constraints of the tables. *)
Record well_typed (s : Db) : Prop := {
  wt_accounts : map_Forall (λ _ a, account_check a = true) s.(accounts);
  wt_wallets : map_Forall (λ _ w, wallet_check w = true) s.(wallets);
  wt_operations : map_Forall (λ _ o, operation_check o = true) s.(operations);
  wt_transfers : map_Forall (λ _ t, transfer_check t = true) s.(transfers);
  wt_customers : map_Forall (λ _ c, customer_check c = true) s.(customers);
  wt_feeRules : map_Forall (λ _ r, rule_check r = true) s.(feeRules);
  wt_vaRequests : map_Forall (λ _ r, va_request_check r = true) s.(vaRequests);
  wt_withdrawalQueue : map_Forall (λ _ a, queue_check a = true) s.(withdrawalQueue);
  wt_depositQueue : map_Forall (λ _ a, deposit_queue_check a = true) s.(depositQueue);
  wt_channels : map_Forall (λ _ c, channel_check c = true) s.(channels);
  wt_beneficiaries : map_Forall (λ _ b, beneficiary_check b = true) s.(beneficiaries);
  wt_outbox : map_Forall (λ _ m, mail_check m = true) s.(outbox);
}.

Lemma evolves_well_typed s s' : evolves s s' → well_typed s → well_typed s'.
Proof. intros [] []. split; match goal with G : grows _ _ ?m _, H : map_Forall _ ?m |- _ => exact (proj2 G H) end. Qed.

(** Every reachable state is well typed, since no write of a handler leaves a row that
    fails its table's checks: whatever handlers, workers, tools
    and foreign writes have run, in any order, the rows of every table satisfy
    its constraints; in particular no available or frozen balance of an account
    or a wallet is negative or has outgrown its numeric(36,8) column, a queue
    row is settled, released or posted only with the time and the operation that
    go with it, a crypto payee is a USDT address on TRON, and no letter has been
    tried more often than it may be. *)
Theorem reachable_well_typed s0 s :
  well_typed s0 → reachable s0 s →
  well_typed s ∧
  (∀ k a, s.(accounts) !! k = Some a →
     0 ≤ a.(acc_availableBalance) < 10 ^ 36 ∧ 0 ≤ a.(acc_frozenBalance) < 10 ^ 36) ∧
  (∀ k w, s.(wallets) !! k = Some w →
     0 ≤ w.(wal_availableBalance) < 10 ^ 36 ∧ 0 ≤ w.(wal_frozenBalance) < 10 ^ 36) ∧
  (∀ k a, s.(withdrawalQueue) !! k = Some a → a.(wa_status) = "settled" →
     a.(wa_posted_at) ≠ None ∧ a.(wa_released_at) = None ∧ a.(wa_core_operation_id) ≠ None) ∧
  (∀ k a, s.(depositQueue) !! k = Some a → a.(da_status) = "posted" →
     a.(da_posted_at) ≠ None ∧ a.(da_core_operation_id) ≠ None) ∧
  (∀ k b, s.(beneficiaries) !! k = Some b → b.(ben_type) = BT_CRYPTO →
     b.(ben_currency) = USDT ∧ b.(ben_network) = Some TRON ∧ b.(ben_walletAddress) ≠ None) ∧
  (∀ k m, s.(outbox) !! k = Some m → mail_ok m).
Proof.
  intros H0 H. assert (well_typed s) as Hs by (eapply evolves_well_typed; [by apply reachable_evolves|done]).
  split; [done|]. destruct Hs as [HA HW _ _ _ _ _ HQ HD _ HB HM]. split_and!.
  - intros k a Hk. specialize (HA k a Hk). simpl in HA. unfold account_check, numeric_36_8, below_pow10 in HA. lia.
  - intros k w Hk. specialize (HW k w Hk). simpl in HW. unfold wallet_check, numeric_36_8, below_pow10 in HW. lia.
  - intros k a Hk Hst. specialize (HQ k a Hk). simpl in HQ. unfold queue_check in HQ. rewrite Hst in HQ.
    apply andb_true_iff in HQ as [_ HQ]. cbn in HQ.
    by destruct (wa_posted_at a), (wa_released_at a), (wa_core_operation_id a).
  - intros k a Hk Hst. specialize (HD k a Hk). simpl in HD. unfold deposit_queue_check in HD. rewrite Hst in HD.
    apply andb_true_iff in HD as [_ HD]. cbn in HD.
    by destruct (da_posted_at a), (da_core_operation_id a).
  - intros k b Hk Hty. specialize (HB k b Hk). simpl in HB. unfold beneficiary_check in HB. rewrite Hty in HB.
    rewrite !andb_true_iff, !same_true in HB. destruct HB as ((((((((?&?)&Hw)&?)&?)&?)&?)&?)&?). split_and!; [done|done|].
    by destruct (ben_walletAddress b).
  - intros k m Hk. apply mail_check_ok, (HM k m Hk).
Qed.

(** The books: sound entries under distinct references. *)
Definition books_sound (s : Db) : Prop := Forall entry_sound s.(journal) ∧ NoDup (map entry_reference s.(journal)).

Lemma trial_balance j c : Forall entry_sound j → sum_list (λ e, entry_imbalance e c) j = 0.
Proof. induction 1 as [|e j [He _] _ IH]; simpl; [done|]. rewrite IH, (He c). done. Qed.

(** C39: The history is immutable and the books balance: from a state with sound
    books every reachable state extends the journal it finds by entries that
    balance in each currency, with positive lines and references never used
    before, so the trial balance of every currency stays zero; the accounts and
    wallets keep their owner, kind and currency; an operation and a transfer keep
    their parties and amounts, whoever handles them, and an operation that is
    completed, rejected, failed or cancelled is never changed again; a payee's
    destination is never changed, a rate policy never rewritten nor revived, an
    opening fee never changed under the same version, and a letter that is sent or
    given up never touched. *)
Theorem reachable_history s0 s :
  books_sound s0 → reachable s0 s →
  books_sound s ∧ (∀ c, sum_list (λ e, entry_imbalance e c) s.(journal) = 0) ∧
  (∃ es, s.(journal) = s0.(journal) ++ es ∧ Forall entry_sound es) ∧
  (∀ k a, s0.(accounts) !! k = Some a → ∃ a', s.(accounts) !! k = Some a' ∧ same_account a a') ∧
  (∀ k w, s0.(wallets) !! k = Some w → ∃ w', s.(wallets) !! k = Some w' ∧ same_wallet w w') ∧
  (∀ k o, s0.(operations) !! k = Some o → ∃ o', s.(operations) !! k = Some o' ∧ same_terms o o' ∧
     (terminal_status o.(op_status) = true → o' = o)) ∧
  (∀ k t, s0.(transfers) !! k = Some t → ∃ t', s.(transfers) !! k = Some t' ∧ same_transfer t t') ∧
  (∀ k b, s0.(beneficiaries) !! k = Some b → ∃ b', s.(beneficiaries) !! k = Some b' ∧ same_payee b b') ∧
  (∀ k r, s0.(rateVersions) !! k = Some r → ∃ r', s.(rateVersions) !! k = Some r' ∧ same_rate r r') ∧
  (∀ k c, s0.(channels) !! k = Some c → ∃ c', s.(channels) !! k = Some c' ∧ same_channel c c') ∧
  (∀ k m, s0.(outbox) !! k = Some m → ∃ m', s.(outbox) !! k = Some m' ∧ same_letter m m' ∧ (mail_final m → m' = m)).
Proof.
  intros [H0 N0] [[HA _] [HW _] [HO _] [HT _] _ _ _ _ _ [HC _] [HB _] [HR _] [HM _] [(es&HJ&Hes) HN]]%reachable_evolves.
  assert (Forall entry_sound s.(journal)) as Hs by (rewrite HJ; by apply Forall_app).
  split_and!; auto; [by split; auto|intros c; by apply trial_balance|by exists es|].
  intros k m (m'&Hm'&[])%HM. by exists m'.
Qed.
End system.

(** ** Witnesses *)
Definition zero_hash (_ : list Z) : list Z := [].
Definition debit_run : M Db (string * Operation) := Operations.create env0 now0 "op" "uuid" None debit_input "adm".
Definition debit_approval : M Db (string * Operation) := Operations.approve now0 "op" "adm".
Definition db_adjusted : Db := after debit_approval (after debit_run db0).

Lemma db_adjusted_reachable : reachable zero_hash db0 db_adjusted.
Proof.
  execute_run debit_run db0 as [r1 H1]. execute_run debit_approval (after debit_run db0) as [r2 H2].
  unfold debit_run in H1 at 1. unfold debit_approval in H2 at 1.
  apply (rtc_l _ _ (after debit_run db0)).
  { apply (step_create zero_hash env0 now0 "op" "uuid" None debit_input "adm"). exists r1. exact H1. }
  apply (rtc_l _ _ db_adjusted); [|apply rtc_refl].
  apply (step_approve zero_hash now0 "op" "adm"). exists r2. exact H2.
Qed.
Lemma db0_well_typed : well_typed db0.
Proof.
  split.
  - exact (all_rows account_check db0.(accounts) ltac:(runs)).
  - exact (all_rows wallet_check db0.(wallets) ltac:(runs)).
  - exact (all_rows operation_check db0.(operations) ltac:(runs)).
  - exact (all_rows transfer_check db0.(transfers) ltac:(runs)).
  - exact (all_rows customer_check db0.(customers) ltac:(runs)).
  - exact (all_rows rule_check db0.(feeRules) ltac:(runs)).
  - exact (all_rows va_request_check db0.(vaRequests) ltac:(runs)).
  - exact (all_rows queue_check db0.(withdrawalQueue) ltac:(runs)).
  - exact (all_rows deposit_queue_check db0.(depositQueue) ltac:(runs)).
  - exact (all_rows channel_check db0.(channels) ltac:(runs)).
  - exact (all_rows beneficiary_check db0.(beneficiaries) ltac:(runs)).
  - exact (all_rows mail_check db0.(outbox) ltac:(runs)).
Qed.
Lemma db0_books_sound : books_sound db0.
Proof.
  split; [|apply (bool_decide_unpack _); by vm_compute].
  repeat constructor; try (intros c; by destruct c).
Qed.

Definition queued : Db := queue_only (queue_row "approving").
Lemma failures_bounded_witness :
  ∃ b, (after fail_run queued).(withdrawalQueue) !! "x1" = Some b ∧ b.(wa_attempt_count) = 1 ∧
    b.(wa_status) = "exception" ∧
    ∀ later now locked rows s2, reachable zero_hash (after fail_run queued) later →
      claimBatch now locked later = inr (rows, s2) → "x1" ∉ rows.*1.
Proof.
  execute_run fail_run queued as [u H]. unfold fail_run in H at 1.
  destruct (failures_bounded zero_hash "x1" queued 1 (after fail_run queued) (queue_row "approving"))
    as (_&b&Hb&_&_&_&Hend).
  - runs.
  - split; [done|by left].
  - exact (failures_more zero_hash "x1" queued 0 queued queued "approving" now0 "late" false u _
      (failures_none _ _ _) (rtc_refl _ _) eq_refl H).
  - assert (b.(wa_attempt_count) = 1 ∧ b.(wa_status) = "exception") as [E1 E2].
    { assert (((after fail_run queued).(withdrawalQueue) !! "x1") = Some (failed_row now0 "late" false (queue_row "approving"))) as E by runs.
      rewrite Hb in E. by injection E as ->. }
    exists b. split; [exact Hb|]. split; [exact E1|]. split; [exact E2|].
    intros later now locked rows s2 Hl. exact (proj1 (proj2 (Hend E2 later Hl)) now locked rows s2).
Defined.

Lemma reachable_well_typed_witness :
  db_adjusted ≠ db0 ∧ well_typed db_adjusted ∧
  (∃ a, db_adjusted.(accounts) !! "usd" = Some a ∧ 0 ≤ a.(acc_frozenBalance) < 10 ^ 36).
Proof.
  destruct (reachable_well_typed zero_hash db0 db_adjusted db0_well_typed db_adjusted_reachable) as (Hw&HA&_).
  split; [|split; [exact Hw|]].
  - intros E. assert (length db_adjusted.(journal) = length db0.(journal)) as E' by (by rewrite E). by vm_compute in E'.
  - destruct (db_adjusted.(accounts) !! "usd") as [a|] eqn:E; [|exfalso; by vm_compute in E].
    exists a. split; [done|]. exact (proj2 (HA "usd" a E)).
Defined.

Lemma reachable_history_witness :
  books_sound db_adjusted ∧ length db_adjusted.(journal) = 3%nat ∧
  ∃ es, db_adjusted.(journal) = db0.(journal) ++ es.
Proof.
  destruct (reachable_history zero_hash db0 db_adjusted db0_books_sound db_adjusted_reachable) as (Hb&_&(es&He&_)&_).
  split; [exact Hb|]. split; [runs|]. exists es. exact He.
Defined.
